(* ===== verification/_CoqProject ===== *)
-Q . S2P
Prelude.v
Wire.v
Fields.v
Enums.v
Ids.v
Caps.v
Codec.v
Info.v
Command.v
Directory.v
SshOrigin.v
Compress.v
Instances.v
Frame.v
FrameDecode.v
FrameProofs.v
FrameRead.v
Envelope.v
Framing.v
RawFields.v
Bridge.v
Window.v
Registry.v
RegistrySteps.v
IdBridge.v
Leases.v
SpawnLedger.v
ResourceTable.v
Metadata.v
SessionTable.v
Agent.v
ClientTable.v
ServerState.v
Lifecycle.v
Booked.v
Watcher.v
Spawn.v
AgentDrain.v
MetadataWrites.v
Sound.v
MetadataSound.v
ServerSteps.v
OneShot.v
Closing.v
InputGate.v
AckInput.v
Wheel.v
ExactlyOnce.v
Patience.v
HistoryCache.v
HistoryBounds.v
Engine.v
AgentStream.v
Kernel.v
KernelSteps.v
KernelReplay.v
KernelGate.v
KernelConverge.v
EngineRoute.v
KernelKinds.v
Float32.v
ClientLayout.v
LayoutAgree.v
Tiling.v
TilingProofs.v
PaneActions.v
ActionProofs.v
WindowsProofs.v
Predict.v
Keybind.v
Stdin.v
StdinProofs.v
InputReplay.v
ReplayProofs.v
DetectRules.v
Detector.v
DetectorProofs.v
AgentSession.v
AgentFeed.v
AgentPublish.v
