(* ===== verification/Prelude.v ===== *)
(** * A verification development for phux

    phux is a terminal multiplexer split into a server that owns the terminals and clients
    that attach to it over a Unix socket, ssh, QUIC or WebSocket. Everything they exchange
    is a frame of one wire protocol ([crates/phux-protocol]). The server keeps a registry of
    sessions, windows and resources ([crates/phux-core]) and, around it, the tables that say
    who is attached, who may type, what is stored and what is being closed
    ([crates/phux-server]). A client keeps a replica of each terminal it shows, fed by the
    frames it is sent ([crates/phux-client-core], [crates/phux-tui]). The development models
    the protocol from the bytes up to the frame catalog, the programs that stand between a
    byte stream and the catalog, the registry, the server's state with the handlers that
    change it, the input lane, and the kernel of the client.

    ** The files: the protocol

    - [Prelude]: results, bytes, machine integers, tactics and the hint databases.
    - [Wire]: [Encoder], [Decoder] and [DecodeError] ([wire/encode.rs], [wire/decode.rs],
      [wire/error.rs]). The cursor is a [Decoder] record passed from call to call by the
      monad [M]; an encoder call is the bytes it appends. The logic [reads m bs a] ("in
      front of [bs], whatever follows, [m] returns [a] and moves past [bs]"), its variants
      for decoders that look at the end of the body, and the TLV loop [while_fields].
    - [Fields], [Enums], [Ids], [Caps]: the field ids, the enumerations with their wire
      numbers, the identifiers, and the capabilities with the choice of the bootstrap
      profile ([caps.rs]).
    - [Codec], [Info], [Command], [Directory], [SshOrigin]: the sub-records
      ([wire/frame/codec.rs], [wire/info.rs], [wire/frame/command*.rs],
      [wire/frame/directory.rs], [wire/ssh_origin.rs]), each with a well-formedness
      predicate and a [reads_*] lemma.
    - [Compress], [Instances]: [wire/compress.rs] and the concrete parameters.
    - [Frame], [FrameDecode]: [FrameKind], [encode], [encode_compressed]; the decoder of
      every frame type, the dispatch and [read_frame]. A [_step] function is the body of the
      [while let] of the source, on its local variables.
    - [FrameProofs], [FrameRead]: the frame-level lemmas and properties.
    - [Envelope]: what the server wraps ([runtime/client.rs]) and what a client reads.
    - [Framing]: [wire/framing.rs], the receive loop of a link to a satellite over QUIC, ssh
      and WebSocket ([hub/link.rs]) and the bind header of a stream ([wire/stream_bind.rs]).
    - [RawFields], [Bridge]: the rewrite of a relayed HELLO and the bridge that applies it
      ([commands/stdio_bridge.rs]).

    ** The files: the server

    - [Window], [Registry], [RegistrySteps]: the layout tree of a window, the registry and
      its runs ([phux-core/src/window.rs], [registry.rs], [session.rs], [resource.rs]).
    - [IdBridge], [Leases], [SpawnLedger], [ResourceTable], [Metadata], [SessionTable],
      [Agent], [ClientTable]: one table of the server each ([phux-server/src/state/],
      [id_bridge.rs], [agent_asked.rs], [agent_state.rs]), with its own theorems.
    - [ServerState]: the record of them all and the operations that touch several
      ([state/mod.rs] and its siblings).
    - [Lifecycle], [Spawn], [AgentDrain], [MetadataWrites]: the transactions by
      which resources come, close and go, the agent drain, and the metadata handlers
      ([state/reap.rs], [state/conditional_kill.rs], [runtime/client.rs],
      [runtime/commands.rs], [runtime/resource_commands.rs]).
    - [DetectRules]: what the agent detector reads ([agent_detect/regions.rs],
      [rules.rs], [identify.rs]): the regions of a screen, the rules over them, and who runs in
      the foreground. [Detector], [DetectorProofs]: the detector and the engine's tick around
      it ([agent_detect/mod.rs], [resource/terminal/events.rs]), whose events [AgentDrain]
      takes, in runs of a pane with every answer of the kernel, the screen and the channel.
    - [Booked], [Watcher], [Sound], [MetadataSound]: the invariant of the whole state and
      that each of those transactions preserves it; what the exit watcher does.
    - [ServerSteps], [OneShot], [Closing]: runs of the server as a step relation, and what
      they promise.
    - [InputGate]: the lease commands and the gates of attached and headless input.
    - [AckInput], [ExactlyOnce], [Patience]: APPLY_INPUT, from admission to the writer of a
      pane and back ([runtime/input_lane/], [resource/terminal/]), every thread a step.
    - [Wheel]: every gate input passes, the hand-off of an acknowledged batch included, as
      steps beside the rest of the server.
    - [AgentSession]: the engine behind an agent session ([resource/agent_session/]): its ring,
      the validation and stamping of what producers append, the bootstrap cut, and the frames
      of an attach and of the live pump ([runtime/resource_commands.rs]). [AgentFeed] composes
      it with the client's [Kernel]. [AgentPublish]: the handler of an append, cut at
      its two waits, with what it records in the inventory and sends to the parent, and the
      runs of many such calls.

    ** The files: the client

    - [HistoryCache], [HistoryBounds]: the history pages of one generation, with the chain
      of requests, the budgets, the anchors and the eviction
      ([phux-client-core/src/history.rs]); that the budgets hold in every run.
    - [Engine]: the traits of the terminal engine behind a replica
      ([phux-client-core/src/engine.rs]) as the type classes [EngineAdapter],
      [EnginePresentationAdapter], [EngineDocumentAdapter].
    - [AgentStream]: the records of an agent session and their fold
      ([session/agent_stream.rs]).
    - [Kernel]: the session kernel ([phux-client-core/src/session.rs]): [update] is the
      dispatch over the frames of the server, the other operations are the calls of the
      frontend. Each answers with its result, the new state and the effects it emits.
    - [KernelSteps]: what any call does to the slot of a terminal, as the relation
      [SlotStep]; [run_op] runs a call; a concrete engine for the examples. [KernelReplay], [KernelGate], [KernelKinds]: the
      invariants over all runs. [KernelConverge]: what a well-behaved delivery achieves.
    - [EngineRoute]: from a decoded frame to the kernel and back
      ([phux-tui/src/attach/server_frame/engine_route.rs]), and, with [FrameRead], from the
      bytes of a connection to the replica.
    - [Float32]: the arithmetic of an [f32] on its bit pattern, with the rounding the ratios
      of a layout depend on.
    - [ClientLayout]: the layout tree a client keeps, its windows with their identities, and
      the envelope they are stored in ([phux-client-core/src/layout/]). [LayoutAgree]: that
      the client's tree and the server's ([Window]) are edited alike. [WindowsProofs]: the
      invariant of the windows and the round trip of the envelope.
    - [Tiling]: the rectangles of the panes, the dividers with their junctions, and where a
      mouse event goes ([phux-client-core/src/multi_pane/]). [TilingProofs]: that they tile.
    - [PaneActions]: focus, resize, drag, split, close and cycle of panes, the sizes sent to
      the server and the rectangle the chrome leaves ([phux-tui/src/attach/actions.rs],
      [reflow.rs], [focus.rs], the geometry of [paint.rs]). [ActionProofs]: runs of them.
    - [Predict]: the local echo ([phux-client-core/src/predict/]): which
      keys are guessed, what the output confirms or contradicts, and when guesses are shown.
    - [Keybind]: the chords of a configuration, the trie they are bound in
      and the resolver ([phux-config/src/keybind.rs]), against a table of sequences.
    - [Stdin], [StdinProofs]: the parser of what a terminal sends
      ([phux-client/src/attach/input.rs]), byte by byte, and its keys against the chords.
    - [InputReplay]: the journal in which a client keeps a paste until it knows what became
      of it ([phux-client/src/attach/input_replay.rs]). [ReplayProofs] composes it with
      [ExactlyOnce]: a world of a client, its connections with all that is lost on them, and
      the incarnations of the server.

    ** How state and operations correspond

    Bytes are [Z] in [0, 255] ([is_bytes]), strings are their UTF-8 bytes with the validity
    check of [from_utf8], integers are [Z] with the width checked where the code relies on
    it ([u8b] ... [u64b]) and the wrap-around or saturation written out; floats are their
    bit patterns. [Result<T, E>] is [result E T]. A [while let] loop is a fuelled fixpoint
    whose fuel is proved never to run out ([while_fields_eq], [forward_hello_fuel],
    [fields_without_origin_ok]).

    A slotmap, [HashMap] or [BTreeMap] is a [gmap], a [HashSet] a [gset]; a method on
    [&mut self] is a function of the record. The server runs its handlers on one thread and
    holds its state behind one lock, so a critical section is one function of [ServerState];
    a handler that waits between two of them is two functions, and the runs interleave
    them with everything else. Frames offered to a mailbox are appended to [sent] when the
    channel takes them. Of the input lane, each thread's next action is one step, and the
    channels between the threads are lists.

    ** What the theorems show

    - Every well-formed frame decodes to itself, plain or compressed, whatever follows it;
      what a decoder consumes is what the header announces, and nothing behind it matters;
      fields of later versions are skipped.
    - The framing primitives agree with the encoder and the decoder, a stream cut anywhere
      yields the frames that were sent, and buffers stay under the frame cap.
    - An envelope cannot nest, lie about its length, or exceed the negotiated bound. The
      bootstrap profile the server selects is one both sides support.
    - The bridge relays the stream, changes nothing of a HELLO but the origin, and never
      lets a plain HELLO carry the client's; an envelope, which it does not open, does.
    - The registry stays well formed under every operation, a removal takes exactly the
      subtree, keys are never reused; splitting and killing panes do what they say.
    - Each table against its reference: the bridge of ids, the bounded spawn ledger, the
      metadata store, the ladder of questions.
    - In every state the server reaches by orderly steps the ledgers speak of live entities
      only. The steps the code takes without that order (a pane reaped without its children,
      a pump, a question or a report that comes after its pane went) are steps too, marked as
      lapses, and examples show what each leaves behind. The
      exit watcher closes a subtree; a kill closes what it names and nothing else; the
      result of a session creation is read by its creator alone, once; an explicit writer
      outranks the detector.
    - The detector publishes no state but idle that a rule did not give on a screen of this
      very agent, after its grace, or an integration report; a departure takes two looks of
      the kernel and is noticed in bounded time; while the channel takes everything, what the
      edge filter holds back the drain has. A prompt-box rule sees the box at the foot of the
      screen alone, a verdict is the best matching rule, and what is loaded is bounded.
    - The log of an agent session is what was accepted, numbered without a gap, and nothing
      follows its end; a consumer that attaches at any moment reads the ring and then every
      later record, each once, as logged; the status it shows is the last evidence the server
      derived, and the word of the inventory the last that was published, which is the same
      for a single producer. Only a local owner's appends reach the log.
    - Whoever holds the lease of a pane is the only one whose input reaches it, headless,
      attached or acknowledged.
    - A resent APPLY_INPUT is not typed twice within the retention of its id, an OK means
      bytes were written, and no Terminal stays locked behind a writer that is stuck. Over
      any reconnects, and any number of servers, a paste prepared within ten minutes of its
      submission is typed at most once, each is reported once, as it was answered, and delivered
      means typed; refused need not mean that nothing was written.
    - What a client shows of a terminal is the transcript and the live frames the server sent
      for one generation, each once, in order, whatever was lost, repeated or misdirected, and
      the whole transcript when no chunk the client was sent was lost or refused; a
      retired generation never returns; a kind, once claimed, stays. A client types, answers
      a program, acknowledges and paints only where the kernel's gates allow it. The history
      cache stays in its budgets and takes a repeated page for nothing. A batch of agent
      records is taken whole or not at all. A generation sent over a connection is shown.
    - The panes of a window and the dividers between them cover the content rectangle, every
      cell once; no pane is squeezed under its floor while the floors fit; a click lands on
      what is drawn under it, and a dragged divider follows the pointer. The size a client
      asks for a pane it is about to create is the size the pane gets. Whatever is done to
      panes and windows, in any order, keeps layouts, focus, selection and identities sound;
      what is stored reads back as it was, up to the depth the CBOR reader follows.
    - Text and reports of a terminal, cut anywhere, become the keys, clicks and pastes that
      were made; a key typed matches its chord and no other; the resolver answers as the
      table of bindings says. A guess of the local echo stays in its pane, is confirmed in
      order while a line is typed at its end, and on the alternate screen is shown only after an
      echo was seen since the predictor was last anchored.

    ** Parameters, bounds and what is not modelled

    The DEFLATE implementation ([Flate]), the text of addresses ([IpText]) and the JSON of
    the listeners report ([ReportJson]) are type classes with the laws the code relies on;
    [Instances] has an executable instance of each. Theorems about reading bound the input
    by [isize_max], the size of any Rust allocation, and frames by [MAX_FRAME_LEN], which
    the decoder enforces. What the server's transactions ask of the outside is the record
    [Outside] of [ServerSteps] (whether a mailbox takes a frame, serde's JSON, lower-casing,
    the loaded rule set) and, per step, the outcome of building an engine. A slotmap's keys
    are fresh by its documentation, a premise of the steps. SHA-256, the encoders of a pane
    and the kernel's answer to a write are arguments of the input lane; SHA-256 is one of the
    client's window identities, and the CBOR of their envelope is the class [Cbor], whose law is
    a round trip of what does not nest deeper than the 256 items the reader follows;
    [WindowsProofs] has an instance.
    The terminal engine of a client is a parameter, an adapter whose every answer is allowed;
    the theorem on delivery asks that it does its work ([Working], of which [KernelConverge]
    has an instance). The regex engine of the detector's rules is the class [RegexEngine];
    TOML and the process table are arguments. JSON values are the class [Json], their text
    the class [JsonText] with the laws [JsonLaws], of which [AgentSession] has an instance;
    the widths of characters are the class [Unicode], and the TOML values of an action's
    arguments any type.

    Not modelled: the asynchronous runtime and its sockets, the terminal engine and its
    grid, the attach handshake's bootstrap streams,
    satellites and the relay, upgrades, rendering, the client's drivers and bindings,
    configuration beyond the key bindings, and the command line beyond the stdio bridge. *)

From stdpp Require Export base list option numbers strings.
From Stdlib Require Export ZArith Lia.

#[export] Set Default Goal Selector "!".

Declare Scope phux_scope.
Delimit Scope phux_scope with phux.
Open Scope Z_scope.

(** ** Results

    Rust's [Result<T, E>], with the error first so that [result E] is a monad.
    [x ← m; k] is the [?] operator. *)

Inductive result (E A : Type) : Type :=
| Ok (a : A)
| Err (e : E).
Arguments Ok {E A} a.
Arguments Err {E A} e.

#[export] Instance result_ret E : MRet (result E) := fun A a => Ok a.
#[export] Instance result_bind E : MBind (result E) := fun A B k m =>
  match m with Ok a => k a | Err e => Err e end.

(** [Option::ok_or]. *)
Definition ok_or {E A} (e : E) (o : option A) : result E A :=
  match o with Some a => Ok a | None => Err e end.

(** [if !cond { return Err(e) }]. *)
Definition ensure {E} (b : bool) (e : E) : result E unit :=
  if b then Ok tt else Err e.

Definition is_ok {E A} (r : result E A) : bool :=
  match r with Ok _ => true | Err _ => false end.

(** ** Machine integers

    A [w]-bit unsigned integer is a [Z] in [[0, 2^w)]; signed integers are
    [Z] in [[-2^(w-1), 2^(w-1))], stored on the wire in two's complement.
    Floating-point numbers are kept as their IEEE-754 bit patterns, which is all the
    code moves around. *)

Definition u8_max : Z := 255.
Definition u16_max : Z := 65535.
Definition u32_max : Z := 4294967295.
Definition u64_max : Z := 18446744073709551615.
(** [usize] is 64 bits wide on the targets the server runs on. *)
Definition usize_max : Z := u64_max.
(** No Rust allocation, hence no slice, is longer than [isize::MAX] bytes. *)
Definition isize_max : Z := 9223372036854775807.

Definition u8b (z : Z) : bool := (0 <=? z) && (z <=? u8_max).
Definition u16b (z : Z) : bool := (0 <=? z) && (z <=? u16_max).
Definition u32b (z : Z) : bool := (0 <=? z) && (z <=? u32_max).
Definition u64b (z : Z) : bool := (0 <=? z) && (z <=? u64_max).
Definition i8b (z : Z) : bool := (-128 <=? z) && (z <=? 127).
Definition i32b (z : Z) : bool := (-2147483648 <=? z) && (z <=? 2147483647).
Definition i64b (z : Z) : bool :=
  (-9223372036854775808 <=? z) && (z <=? 9223372036854775807).
Definition nonzero (z : Z) : bool := negb (z =? 0).

(** [x as uN] of a signed value and back. *)
Definition to_unsigned (w : Z) (z : Z) : Z := z mod 2 ^ w.
Definition to_signed (w : Z) (z : Z) : Z := if z <? 2 ^ (w - 1) then z else z - 2 ^ w.

(** Saturating and checked operations of the code, at width 64. *)
Definition checked_add_usize (a b : Z) : option Z :=
  if a + b <=? usize_max then Some (a + b) else None.
Definition saturating_sub (a b : Z) : Z := if b <=? a then a - b else 0.

(** ** Bytes *)

Abbreviation bytes := (list Z).

(** The length of a slice as a [usize]. *)
Definition len {A} (l : list A) : Z := Z.of_nat (length l).

Definition is_bytes (bs : bytes) : bool := forallb u8b bs.

(** [uN::to_be_bytes] at [n] bytes, and [uN::from_be_bytes]. *)
Fixpoint to_be (n : nat) (z : Z) : bytes :=
  match n with
  | O => []
  | S n' => to_be n' (z / 256) ++ [z mod 256]
  end.

Definition of_be (bs : bytes) : Z := fold_left (fun acc b => acc * 256 + b) bs 0.

(** Equality of byte strings, as the code's [==] on slices and [str]. *)
Definition bytes_eqb (a b : bytes) : bool := bool_decide (a = b).

(** A string literal of the source, as its bytes. *)
Fixpoint str (s : string) : bytes :=
  match s with
  | EmptyString => []
  | String c s' => Z.of_nat (Ascii.nat_of_ascii c) :: str s'
  end.

(** ** UTF-8

    [core::str::from_utf8] accepts exactly the well-formed sequences of the
    Unicode standard (table 3-7): no overlong forms, no surrogates, nothing
    above U+10FFFF. *)

Definition in_range (lo hi b : Z) : bool := (lo <=? b) && (b <=? hi).
Definition utf8_cont (b : Z) : bool := in_range 0x80 0xBF b.

(** The range allowed for the second byte of a three- or four-byte sequence. *)
Definition utf8_second (b0 b1 : Z) : bool :=
  if b0 =? 0xE0 then in_range 0xA0 0xBF b1
  else if b0 =? 0xED then in_range 0x80 0x9F b1
  else if b0 =? 0xF0 then in_range 0x90 0xBF b1
  else if b0 =? 0xF4 then in_range 0x80 0x8F b1
  else utf8_cont b1.

Fixpoint utf8_valid (bs : bytes) : bool :=
  match bs with
  | [] => true
  | b0 :: r0 =>
      if in_range 0 0x7F b0 then utf8_valid r0
      else if in_range 0xC2 0xDF b0 then
        match r0 with b1 :: r1 => utf8_cont b1 && utf8_valid r1 | _ => false end
      else if in_range 0xE0 0xEF b0 then
        match r0 with
        | b1 :: b2 :: r2 => utf8_second b0 b1 && utf8_cont b2 && utf8_valid r2
        | _ => false
        end
      else if in_range 0xF0 0xF4 b0 then
        match r0 with
        | b1 :: b2 :: b3 :: r3 =>
            utf8_second b0 b1 && utf8_cont b2 && utf8_cont b3 && utf8_valid r3
        | _ => false
        end
      else false
  end.

(** ** Tactics *)

(** Splits the boolean conjunctions of a well-formedness hypothesis and turns
    integer comparisons into inequalities. *)
Ltac bool_hyp H :=
  lazymatch type of H with
  | (_ && _)%bool = true =>
      let H1 := fresh H in let H2 := fresh H in
      apply andb_true_iff in H as [H1 H2]; bool_hyp H1; bool_hyp H2
  | _ => idtac
  end.

Ltac split_bools :=
  repeat match goal with
  | H : (_ && _)%bool = true |- _ => apply andb_true_iff in H as [? ?]
  | |- (_ && _)%bool = true => apply andb_true_iff; split
  end.

(** Decides comparisons between closed integers in the goal: the chains of
    [if id == field::X] of the decoders evaluate one comparison at a time. *)
Ltac eval_eqb :=
  repeat match goal with
  | |- context [Z.eqb ?a ?b] =>
      let r := eval vm_compute in (Z.eqb a b) in
      match r with
      | true => change (Z.eqb a b) with true
      | false => change (Z.eqb a b) with false
      end; cbv iota
  | |- context [nonzero ?a] =>
      let r := eval vm_compute in (nonzero a) in
      match r with
      | true => change (nonzero a) with true
      | false => change (nonzero a) with false
      end; cbv iota
  end.

(** Rewrites the goal with the boolean facts of the context. *)
Ltac rw_bools :=
  repeat match goal with
  | H : ?b = true |- context [?b] => rewrite H
  | H : ?b = false |- context [?b] => rewrite H
  end; cbn [negb andb orb].

Create HintDb phux discriminated.
#[global] Hint Constants Opaque : phux.

(** ** Shared lemmas *)

Lemma bind_ok {E A B} (a : A) (k : A -> result E B) : (x ← Ok a; k x) = k a.
Proof. reflexivity. Qed.

Lemma bind_inv {E A B} (m : result E A) (k : A -> result E B) b :
  (x ← m; k x) = Ok b -> exists a, m = Ok a /\ k a = Ok b.
Proof. destruct m as [a|e]; simpl; [eauto | discriminate]. Qed.

Lemma ensure_inv {E} b (e : E) u : ensure b e = Ok u -> b = true.
Proof. destruct b; [done | discriminate]. Qed.

Lemma len_nonneg {A} (l : list A) : 0 <= len l.
Proof. unfold len; lia. Qed.

Lemma len_app {A} (l k : list A) : len (l ++ k) = len l + len k.
Proof. unfold len; rewrite length_app; lia. Qed.

Lemma len_cons {A} (x : A) (l : list A) : len (x :: l) = 1 + len l.
Proof. unfold len; simpl; lia. Qed.

Lemma len_nil {A} : len (@nil A) = 0.
Proof. reflexivity. Qed.

Lemma is_bytes_app a b : is_bytes (a ++ b) = is_bytes a && is_bytes b.
Proof. apply forallb_app. Qed.

Lemma is_bytes_take n bs : is_bytes bs = true -> is_bytes (take n bs) = true.
Proof. rewrite <- (take_drop n bs) at 1. rewrite is_bytes_app. by intros [? _]%andb_true_iff. Qed.

Lemma u8b_spec z : u8b z = true <-> 0 <= z < 256.
Proof. unfold u8b, u8_max. rewrite andb_true_iff, !Z.leb_le. lia. Qed.
Lemma u16b_spec z : u16b z = true <-> 0 <= z < 2 ^ 16.
Proof. unfold u16b, u16_max. rewrite andb_true_iff, !Z.leb_le. lia. Qed.
Lemma u32b_spec z : u32b z = true <-> 0 <= z < 2 ^ 32.
Proof. unfold u32b, u32_max. rewrite andb_true_iff, !Z.leb_le. lia. Qed.
Lemma u64b_spec z : u64b z = true <-> 0 <= z < 2 ^ 64.
Proof. unfold u64b, u64_max. rewrite andb_true_iff, !Z.leb_le. lia. Qed.

Lemma length_to_be n z : length (to_be n z) = n.
Proof.
  revert z; induction n as [|n IH]; intros z; simpl; [done|].
  rewrite length_app, IH; simpl; lia.
Qed.

Lemma len_to_be n z : len (to_be n z) = Z.of_nat n.
Proof. unfold len; by rewrite length_to_be. Qed.

(** A fixed-width integer in front of anything. *)
Lemma take_to_be n z (r : bytes) : take n (to_be n z ++ r) = to_be n z.
Proof. rewrite take_app_le by (by rewrite length_to_be). apply take_ge. by rewrite length_to_be. Qed.
Lemma drop_to_be n z (r : bytes) : drop n (to_be n z ++ r) = r.
Proof. rewrite drop_app_ge by (by rewrite length_to_be). by rewrite length_to_be, Nat.sub_diag. Qed.

Lemma is_bytes_to_be n z : is_bytes (to_be n z) = true.
Proof.
  revert z; induction n as [|n IH]; intros z; simpl; [done|].
  rewrite is_bytes_app, IH; simpl.
  rewrite (proj2 (u8b_spec _)); [done|]. apply Z.mod_pos_bound; lia.
Qed.

Lemma of_be_app a b : of_be (a ++ [b]) = of_be a * 256 + b.
Proof. unfold of_be; by rewrite fold_left_app. Qed.

(** [from_be_bytes] inverts [to_be_bytes] at every width. *)
Lemma of_be_to_be n z : 0 <= z < 256 ^ Z.of_nat n -> of_be (to_be n z) = z.
Proof.
  revert z; induction n as [|n IH]; intros z Hz.
  - simpl in *. unfold of_be; simpl; lia.
  - simpl. rewrite of_be_app, IH.
    + pose proof (Z.div_mod z 256); lia.
    + rewrite Nat2Z.inj_succ, Z.pow_succ_r in Hz by lia.
      split; [apply Z.div_pos; lia | apply Z.div_lt_upper_bound; lia].
Qed.

Lemma of_be_bound bs :
  is_bytes bs = true -> 0 <= of_be bs < 256 ^ len bs.
Proof.
  induction bs as [|b bs IH] using rev_ind; intros Hb.
  - unfold of_be, len; simpl; lia.
  - rewrite is_bytes_app in Hb; simpl in Hb; split_bools.
    rewrite of_be_app, len_app; change (len [b]) with 1.
    match goal with H : u8b b = true |- _ => apply u8b_spec in H end.
    specialize (IH ltac:(assumption)).
    replace (len bs + 1) with (Z.succ (len bs)) by lia.
    rewrite Z.pow_succ_r by apply len_nonneg. lia.
Qed.

(** [to_be_bytes] inverts [from_be_bytes]: the fixed-width encoding is canonical. *)
Lemma to_be_of_be bs : is_bytes bs = true -> to_be (length bs) (of_be bs) = bs.
Proof.
  induction bs as [|b bs IH] using rev_ind; intros Hb; [done|].
  rewrite is_bytes_app in Hb; simpl in Hb; split_bools.
  match goal with H : u8b b = true |- _ => apply u8b_spec in H end.
  rewrite length_app, Nat.add_comm; simpl. rewrite of_be_app.
  rewrite Z.div_add_l, Z.div_small, Z.add_0_r by lia.
  rewrite Z.add_comm, Z.mod_add, Z.mod_small by lia.
  f_equal; auto.
Qed.

Lemma to_signed_unsigned w z :
  0 < w -> - 2 ^ (w - 1) <= z < 2 ^ (w - 1) -> to_signed w (to_unsigned w z) = z.
Proof.
  intros Hw Hz. unfold to_signed, to_unsigned.
  assert (Hp : 2 ^ w = 2 * 2 ^ (w - 1)) by (rewrite <- Z.pow_succ_r by lia; f_equal; lia).
  destruct (Z.leb_spec 0 z).
  - rewrite Z.mod_small by lia. destruct (Z.ltb_spec z (2 ^ (w - 1))); lia.
  - replace (z mod 2 ^ w) with (z + 2 ^ w).
    + destruct (Z.ltb_spec (z + 2 ^ w) (2 ^ (w - 1))); lia.
    + apply (Z.mod_unique_pos _ _ (-1)); lia.
Qed.

Lemma bytes_eqb_refl a : bytes_eqb a a = true.
Proof. by apply bool_decide_eq_true. Qed.

Lemma bytes_eqb_eq a b : bytes_eqb a b = true <-> a = b.
Proof. apply bool_decide_eq_true. Qed.

Create Rewrite HintDb len.
#[export] Hint Rewrite @len_app @len_cons @len_nil @len_to_be : len.
#[export] Hint Resolve len_nonneg is_bytes_to_be : phux.
