(* ===== verification/Wire.v ===== *)
(** * The wire primitives

    [phux-protocol/src/wire/error.rs], [encode.rs] and the cursor half of
    [decode.rs]: decode errors, the primitive encoder, the cursor decoder and the
    TLV field layer, with the reading logic ([reads], [reads_body],
    [reads_fields]) in which every later codec is proved.

    An encoder is a pure function that returns the bytes the Rust one appends to
    its [BytesMut]; composition is [++]. A decoder is a state-passing function
    over the [Decoder] record that returns a [result]. *)

From S2P Require Import Prelude.

(** ** Errors (wire/error.rs) *)

(* wire/error.rs:19-171 DecodeError *)
Inductive DecodeError : Type :=
| UnexpectedEof
| InvalidUtf8
| CompressedFrameInvalid
| UnknownFrameKind (tag : Z)
| LengthOverflow
| UnsupportedSatelliteRoute
| UnknownEnumValue (field : string) (value : Z)
| InvalidInputOperationId
| ApplyInputLimitExceeded
| InputTerminalReplyLimitExceeded
| InvalidFileUploadId
| FileUploadLimitExceeded
| InvalidStreamId
| InvalidBootstrapId
| InvalidHistoryPageSequence
| HistoryRowLimitExceeded
| BootstrapLimitExceeded
| InvalidBootstrapProfile
| AppendResourceOutputLimitExceeded
| InvalidSpawnForKind (kind : Z) (field : Z) (required : bool)
| AgentFacetLimitExceeded
| DirectoryEntryLimitExceeded
| LayoutTooDeep
| MalformedLayoutRatio (ratio : Z).

(** [Result<T, DecodeError>]. *)
Abbreviation dresult := (result DecodeError).

(* wire/frame/mod.rs:28-28 MAX_FRAME_LEN *)
Definition MAX_FRAME_LEN : Z := 16 * 1024 * 1024.

(** ** Encoder (wire/encode.rs) *)

(* wire/encode.rs:32-40 wire_type::BYTES *)
Definition wire_type_BYTES : Z := 4.

(* wire/encode.rs:72-75 Encoder::write_u8 *)
Definition write_u8 (value : Z) : bytes := [value].
(* wire/encode.rs:77-80 Encoder::write_u16_be *)
Definition write_u16_be (value : Z) : bytes := to_be 2 value.
(* wire/encode.rs:82-85 Encoder::write_u32_be *)
Definition write_u32_be (value : Z) : bytes := to_be 4 value.
(* wire/encode.rs:87-90 Encoder::write_u64_be *)
Definition write_u64_be (value : Z) : bytes := to_be 8 value.
(* wire/encode.rs:92-99 Encoder::write_i64_be *)
Definition write_i64_be (value : Z) : bytes := to_be 8 (to_unsigned 64 value).
(* wire/encode.rs:101-107 Encoder::write_f32_be *)
Definition write_f32_be (bits : Z) : bytes := to_be 4 bits.
(* wire/encode.rs:109-116 Encoder::write_f64_be *)
Definition write_f64_be (bits : Z) : bytes := to_be 8 bits.

(** [u32::try_from(n).unwrap_or(u32::MAX)] of a length. *)
Definition saturate_u32 (n : Z) : Z := if n <=? u32_max then n else u32_max.

(* wire/encode.rs:132-143 Encoder::write_bytes *)
Definition write_bytes (value : bytes) : bytes :=
  write_u32_be (saturate_u32 (len value)) ++ value.

(* wire/encode.rs:118-130 Encoder::write_str *)
Definition write_str (value : bytes) : bytes := write_bytes value.

(** The loop of [write_varint]; ten rounds cover every [u64]. *)
Fixpoint write_varint_loop (fuel : nat) (value : Z) : bytes :=
  match fuel with
  | O => []
  | S fuel' =>
      let byte := Z.land value 0x7f in
      let value := Z.shiftr value 7 in
      if value =? 0 then [byte]
      else Z.lor byte 0x80 :: write_varint_loop fuel' value
  end.

(* wire/encode.rs:145-162 Encoder::write_varint *)
Definition write_varint (value : Z) : bytes := write_varint_loop 10 value.

(* wire/encode.rs:164-181 Encoder::write_field *)
Definition write_field (field_id : Z) (value : bytes) : bytes :=
  write_varint field_id ++ write_u8 wire_type_BYTES ++ write_varint (len value) ++ value.

(** [write_field_with] runs its closure on a scratch buffer and calls
    [write_field]; with encoders as functions it is [write_field] itself. *)

#[global] Arguments write_u8 : simpl never.
#[global] Arguments write_u16_be : simpl never.
#[global] Arguments write_u32_be : simpl never.
#[global] Arguments write_u64_be : simpl never.
#[global] Arguments write_i64_be : simpl never.
#[global] Arguments write_f32_be : simpl never.
#[global] Arguments write_f64_be : simpl never.
#[global] Arguments write_bytes : simpl never.
#[global] Arguments write_str : simpl never.
#[global] Arguments write_varint : simpl never.
#[global] Arguments write_field : simpl never.

(** ** Decoder (wire/decode.rs) *)

(* caps.rs:141-141 MAX_BOOTSTRAP_CHUNK_BYTES *)
Definition MAX_BOOTSTRAP_CHUNK_BYTES : Z := 8 * 1024 * 1024.
(* caps.rs:143-143 MAX_HISTORY_PAGE_BYTES *)
Definition MAX_HISTORY_PAGE_BYTES : Z := 8 * 1024 * 1024.

(* wire/decode.rs:67-77 Decoder *)
Record Decoder : Type := mkDecoder {
  input : bytes;
  pos : nat;
  body_end : option nat;
  max_bootstrap_chunk_bytes : Z;
  max_history_page_bytes : Z
}.

(* wire/decode.rs:80-90 Decoder::new *)
Definition Decoder_new (input : bytes) : Decoder :=
  mkDecoder input 0 None MAX_BOOTSTRAP_CHUNK_BYTES MAX_HISTORY_PAGE_BYTES.

(** A decoder step: [fn(&mut self) -> Result<A, DecodeError>]. *)
Definition M (A : Type) : Type := Decoder -> dresult (A * Decoder).

#[export] Instance M_ret : MRet M := fun A a d => Ok (a, d).
#[export] Instance M_bind : MBind M := fun A B k m d =>
  match m d with Ok (a, d') => k a d' | Err e => Err e end.

(** [?] on a result computed without the cursor. *)
Definition lift {A} (r : dresult A) : M A := fun d =>
  match r with Ok a => Ok (a, d) | Err e => Err e end.
Definition fail {A} (e : DecodeError) : M A := fun _ => Err e.
Definition get : M Decoder := fun d => Ok (d, d).

(** The [sub!] macro: a fresh cursor over one field's value. *)
(* wire/decode.rs:48-60 sub! *)
Definition sub {A} (value : bytes) (body : M A) : dresult A :=
  match body (Decoder_new value) with Ok (a, _) => Ok a | Err e => Err e end.

(** [self.body_end.unwrap_or(self.input.len())]. *)
Definition body_limit (d : Decoder) : nat := default (length (input d)) (body_end d).

(* wire/decode.rs:107-117 Decoder::at_body_end *)
Definition at_body_end (d : Decoder) : bool := (body_limit d <=? pos d)%nat.

(* wire/decode.rs:119-123 Decoder::remaining *)
Definition remaining (d : Decoder) : bytes := drop (pos d) (input d).

(** Moves the cursor. *)
Definition set_pos (p : nat) (d : Decoder) : Decoder :=
  mkDecoder (input d) p (body_end d) (max_bootstrap_chunk_bytes d) (max_history_page_bytes d).
Definition advance (n : nat) (d : Decoder) : Decoder := set_pos (pos d + n) d.

(* wire/decode.rs:157-165 Decoder::take *)
Definition take_n (n : Z) : M bytes := fun d =>
  match checked_add_usize (Z.of_nat (pos d)) n with
  | None => Err LengthOverflow
  | Some end_ =>
      if len (input d) <? end_ then Err UnexpectedEof
      else Ok (take (Z.to_nat n) (drop (pos d) (input d)), set_pos (Z.to_nat end_) d)
  end.

(* wire/decode.rs:167-170 Decoder::read_u8 *)
Definition read_u8 : M Z := s ← take_n 1; mret (of_be s).
(* wire/decode.rs:172-178 Decoder::read_u16_be *)
Definition read_u16_be : M Z := s ← take_n 2; mret (of_be s).
(* wire/decode.rs:180-185 Decoder::read_u32_be *)
Definition read_u32_be : M Z := s ← take_n 4; mret (of_be s).
(* wire/decode.rs:187-192 Decoder::read_u64_be *)
Definition read_u64_be : M Z := s ← take_n 8; mret (of_be s).
(* wire/decode.rs:194-203 Decoder::read_i64_be *)
Definition read_i64_be : M Z := s ← take_n 8; mret (to_signed 64 (of_be s)).
(* wire/decode.rs:205-213 Decoder::read_f32_be *)
Definition read_f32_be : M Z := s ← take_n 4; mret (of_be s).
(* wire/decode.rs:215-223 Decoder::read_f64_be *)
Definition read_f64_be : M Z := s ← take_n 8; mret (of_be s).

(* wire/decode.rs:225-236 Decoder::read_bytes *)
Definition read_bytes : M bytes :=
  len ← read_u32_be;
  if MAX_FRAME_LEN <? len then fail LengthOverflow else take_n len.

(** [core::str::from_utf8(bytes).map_err(|_| InvalidUtf8)]. *)
Definition from_utf8 (bs : bytes) : dresult bytes :=
  if utf8_valid bs then Ok bs else Err InvalidUtf8.

(* wire/decode.rs:238-242 Decoder::read_str *)
Definition read_str : M bytes := bs ← read_bytes; lift (from_utf8 bs).

(** The loop of [read_varint]: the shift grows by 7 and the loop stops at 64, so
    it runs at most eleven times. *)
Fixpoint read_varint_loop (fuel : nat) (result shift : Z) : M Z :=
  match fuel with
  | O => fail LengthOverflow
  | S fuel' =>
      if 64 <=? shift then fail LengthOverflow
      else
        byte ← read_u8;
        let result :=
          Z.lor result (Z.land (Z.shiftl (Z.land byte 0x7f) shift) u64_max) in
        if Z.land byte 0x80 =? 0 then mret result
        else read_varint_loop fuel' result (shift + 7)
  end.

(* wire/decode.rs:244-267 Decoder::read_varint *)
Definition read_varint : M Z := read_varint_loop 11 0 0.

(** [read_field] behind its check of the end of the body. *)
(* wire/decode.rs:290-302 Decoder::read_field *)
Definition field_body : M (option (Z * bytes)) :=
  id ← read_varint;
  field_id ← lift (if id <=? u32_max then Ok id else Err LengthOverflow);
  wire_type ← read_u8;
  len ← read_varint;
  if MAX_FRAME_LEN <? len then fail LengthOverflow
  else
    value ← take_n len;
    mret (Some (field_id, value)).

(* wire/decode.rs:269-303 Decoder::read_field *)
Definition read_field : M (option (Z * bytes)) := fun d =>
  if at_body_end d then Ok (None, d) else field_body d.

#[global] Arguments read_u8 : simpl never.
#[global] Arguments read_u16_be : simpl never.
#[global] Arguments read_u32_be : simpl never.
#[global] Arguments read_u64_be : simpl never.
#[global] Arguments read_i64_be : simpl never.
#[global] Arguments read_f32_be : simpl never.
#[global] Arguments read_f64_be : simpl never.
#[global] Arguments read_bytes : simpl never.
#[global] Arguments read_str : simpl never.
#[global] Arguments read_varint : simpl never.
#[global] Arguments read_field : simpl never.

(** [while let Some((id, value)) = self.read_field()? { step }], where the body
    updates the local variables [s] and never moves the cursor. *)
Fixpoint while_fields_loop {S} (fuel : nat) (step : S -> Z -> bytes -> dresult S) (s : S) : M S :=
  match fuel with
  | O => fail LengthOverflow
  | Datatypes.S fuel' =>
      f ← read_field;
      match f with
      | None => mret s
      | Some (id, value) =>
          s' ← lift (step s id value);
          while_fields_loop fuel' step s'
      end
  end.

(** Every field takes at least three bytes, so the remaining input bounds the
    number of rounds (lemma [while_fields_eq] below). *)
Definition while_fields {S} (step : S -> Z -> bytes -> dresult S) (s : S) : M S := fun d =>
  while_fields_loop (Datatypes.S (length (input d) - pos d)) step s d.

(** [for _ in 0..count { out.push(elem(dec)?) }]. *)
Fixpoint repeatM {A} (n : nat) (m : M A) : M (list A) :=
  match n with
  | O => mret []
  | S n' => x ← m; xs ← repeatM n' m; mret (x :: xs)
  end.

(** ** The reading logic

    [reads m bs a]: on a cursor in front of [bs], whatever follows, [m] returns
    [a] and moves past [bs]. The bound on [len bs] is the frame cap, under which
    every length prefix of the encoder is exact. *)

Definition dec_ok (d : Decoder) : Prop :=
  (pos d <= length (input d))%nat /\ len (input d) <= isize_max.

Definition reads {A} (m : M A) (bs : bytes) (a : A) : Prop :=
  forall d tl, len bs <= MAX_FRAME_LEN -> dec_ok d -> remaining d = bs ++ tl ->
    m d = Ok (a, advance (length bs) d).

(** [reads_body] is the same for a decoder that looks at the end of the body: the
    body ends right after [bs]. *)
Definition reads_body {A} (m : M A) (bs : bytes) (a : A) : Prop :=
  forall d tl, len bs <= MAX_FRAME_LEN -> dec_ok d -> remaining d = bs ++ tl ->
    body_limit d = (pos d + length bs)%nat ->
    m d = Ok (a, advance (length bs) d).

Lemma advance_0 d : advance 0 d = d.
Proof. destruct d; unfold advance, set_pos; simpl; by rewrite Nat.add_0_r. Qed.

Lemma advance_advance n m d : advance n (advance m d) = advance (m + n) d.
Proof. unfold advance, set_pos; simpl; f_equal; lia. Qed.

Lemma remaining_advance bs tl d :
  remaining d = bs ++ tl -> remaining (advance (length bs) d) = tl.
Proof.
  unfold remaining, advance, set_pos; simpl; intros H.
  rewrite <- drop_drop, H. apply drop_app_length.
Qed.

Lemma remaining_length bs tl d :
  dec_ok d -> remaining d = bs ++ tl ->
  (pos d + length bs <= length (input d))%nat.
Proof.
  intros [Hp _] H. apply (f_equal length) in H.
  unfold remaining in H. rewrite length_drop, length_app in H. lia.
Qed.

Lemma dec_ok_advance bs tl d :
  dec_ok d -> remaining d = bs ++ tl -> dec_ok (advance (length bs) d).
Proof.
  intros Hd H. pose proof (remaining_length _ _ _ Hd H).
  destruct Hd. split; simpl; [lia | done].
Qed.

Lemma dec_ok_new bs : len bs <= isize_max -> dec_ok (Decoder_new bs).
Proof. intros; split; simpl; [lia | done]. Qed.

Lemma reads_reads_body {A} (m : M A) bs a : reads m bs a -> reads_body m bs a.
Proof. intros H d tl ????; eapply H; eauto. Qed.

Lemma reads_ret {A} (a : A) : reads (mret a) [] a.
Proof. intros d tl _ _ _. simpl. rewrite advance_0. reflexivity. Qed.

Lemma reads_bind {A B} (m : M A) (k : A -> M B) b1 b2 a b :
  reads m b1 a -> reads (k a) b2 b -> reads (m ≫= k) (b1 ++ b2) b.
Proof.
  intros Hm Hk d tl Hl Hd Hr.
  rewrite len_app in Hl. pose proof (len_nonneg b1). pose proof (len_nonneg b2).
  rewrite <- app_assoc in Hr.
  unfold mbind, M_bind. erewrite Hm by (eauto; lia).
  erewrite Hk by (eauto using dec_ok_advance, remaining_advance; lia).
  by rewrite advance_advance, length_app.
Qed.

Lemma reads_body_bind {A B} (m : M A) (k : A -> M B) b1 b2 a b :
  reads m b1 a -> reads_body (k a) b2 b -> reads_body (m ≫= k) (b1 ++ b2) b.
Proof.
  intros Hm Hk d tl Hl Hd Hr He.
  rewrite len_app in Hl. pose proof (len_nonneg b1). pose proof (len_nonneg b2).
  rewrite <- app_assoc in Hr.
  unfold mbind, M_bind. erewrite Hm by (eauto; lia).
  erewrite Hk; [by rewrite advance_advance, length_app | lia | eauto using dec_ok_advance
    | eauto using remaining_advance | ].
  unfold body_limit in *; simpl. rewrite length_app in He. lia.
Qed.

Lemma reads_bind_ret {A B} (m : M A) (k : A -> M B) bs a b :
  reads m bs a -> reads (k a) [] b -> reads (m ≫= k) bs b.
Proof. intros. rewrite <- (app_nil_r bs). eapply reads_bind; eauto. Qed.

Lemma reads_ret_bind {A B} (a : A) (k : A -> M B) bs b :
  reads (k a) bs b -> reads (mret a ≫= k) bs b.
Proof. exact id. Qed.

Lemma reads_bind_lift {A B} (r : dresult A) (k : A -> M B) bs a b :
  r = Ok a -> reads (k a) bs b -> reads (lift r ≫= k) bs b.
Proof. intros ->. exact id. Qed.

Lemma reads_body_bind_lift {A B} (r : dresult A) (k : A -> M B) bs a b :
  r = Ok a -> reads_body (k a) bs b -> reads_body (lift r ≫= k) bs b.
Proof. intros ->. exact id. Qed.

Lemma reads_lift {A} (r : dresult A) a : r = Ok a -> reads (lift r) [] a.
Proof. intros ->. apply reads_ret. Qed.

(** Adding the size bound of the bytes to the context of a [reads] goal. *)
Lemma reads_len {A} (m : M A) bs a :
  (len bs <= MAX_FRAME_LEN -> reads m bs a) -> reads m bs a.
Proof. intros H d tl Hl. by apply H. Qed.

Lemma reads_body_len {A} (m : M A) bs a :
  (len bs <= MAX_FRAME_LEN -> reads_body m bs a) -> reads_body m bs a.
Proof. intros H d tl Hl. by apply H. Qed.

Lemma reads_take n bs : len bs = n -> reads (take_n n) bs bs.
Proof.
  intros <- d tl Hl Hd Hr. unfold take_n, checked_add_usize.
  pose proof (remaining_length _ _ _ Hd Hr) as Hle. destruct Hd as [Hp Hi].
  unfold len, isize_max, usize_max, u64_max in *.
  rewrite (proj2 (Z.leb_le _ _)) by lia.
  rewrite (proj2 (Z.ltb_ge _ _)) by lia.
  fold (remaining d). rewrite Hr, Nat2Z.id, take_app_length.
  unfold advance; do 3 f_equal; lia.
Qed.

Lemma reads_be n m bs v (f : Z -> Z) :
  m = (s ← take_n (Z.of_nat n); mret (f (of_be s))) ->
  length bs = n -> f (of_be bs) = v -> reads m bs v.
Proof.
  intros -> Hl <-. eapply reads_bind_ret; [|apply reads_ret].
  apply reads_take. unfold len; lia.
Qed.

Lemma reads_u8 v : u8b v = true -> reads read_u8 (write_u8 v) v.
Proof. intros _. by apply (reads_be 1 _ _ _ id). Qed.

Lemma reads_u16 v : u16b v = true -> reads read_u16_be (write_u16_be v) v.
Proof.
  intros H%u16b_spec. apply (reads_be 2 _ _ _ id); [done|done|].
  by apply of_be_to_be.
Qed.

Lemma reads_u32 v : u32b v = true -> reads read_u32_be (write_u32_be v) v.
Proof.
  intros H%u32b_spec. apply (reads_be 4 _ _ _ id); [done|done|].
  by apply of_be_to_be.
Qed.

Lemma reads_u64 v : u64b v = true -> reads read_u64_be (write_u64_be v) v.
Proof.
  intros H%u64b_spec. apply (reads_be 8 _ _ _ id); [done|done|].
  by apply of_be_to_be.
Qed.

Lemma reads_f32 v : u32b v = true -> reads read_f32_be (write_f32_be v) v.
Proof. apply reads_u32. Qed.

Lemma reads_f64 v : u64b v = true -> reads read_f64_be (write_f64_be v) v.
Proof. apply reads_u64. Qed.

Lemma reads_i64 v : i64b v = true -> reads read_i64_be (write_i64_be v) v.
Proof.
  intros H. apply andb_true_iff in H as [H1%Z.leb_le H2%Z.leb_le].
  apply (reads_be 8 _ _ _ (to_signed 64)); [done|done|].
  unfold write_i64_be. rewrite of_be_to_be by (apply Z.mod_pos_bound; lia).
  apply to_signed_unsigned; lia.
Qed.

Lemma saturate_small n : n <= MAX_FRAME_LEN -> saturate_u32 n = n.
Proof.
  unfold saturate_u32, MAX_FRAME_LEN, u32_max; intros.
  by rewrite (proj2 (Z.leb_le _ _)) by lia.
Qed.

Lemma reads_bytes v : reads read_bytes (write_bytes v) v.
Proof.
  apply reads_len; intros Hl. unfold write_bytes, write_u32_be in *.
  rewrite len_app, len_to_be in Hl. pose proof (len_nonneg v).
  rewrite saturate_small in * by lia.
  eapply reads_bind.
  - apply reads_u32, u32b_spec. unfold MAX_FRAME_LEN in *; lia.
  - rewrite (proj2 (Z.ltb_ge _ _)) by lia. by apply reads_take.
Qed.

Lemma from_utf8_valid bs : utf8_valid bs = true -> from_utf8 bs = Ok bs.
Proof. unfold from_utf8. by intros ->. Qed.

Lemma reads_str v : utf8_valid v = true -> reads read_str (write_str v) v.
Proof.
  intros H. eapply reads_bind_ret; [apply reads_bytes|].
  by apply reads_lift, from_utf8_valid.
Qed.

(** ** Varints *)

Lemma lor_shiftl_add r v s :
  0 <= s -> 0 <= r < 2 ^ s -> Z.lor r (Z.shiftl v s) = r + v * 2 ^ s.
Proof.
  intros Hs Hr. rewrite <- Z.shiftl_mul_pow2 by lia.
  assert (Hz : Z.land r (Z.shiftl v s) = 0).
  { apply Z.bits_inj'; intros i Hi. rewrite Z.land_spec, Z.bits_0.
    destruct (Z.ltb_spec i s).
    - rewrite Z.shiftl_spec_low by lia. apply andb_false_r.
    - destruct (Z.eq_dec r 0) as [->|]; [by rewrite Z.bits_0|].
      rewrite (Z.bits_above_log2 r i); [done | lia |].
      apply Z.log2_lt_pow2; [lia|].
      eapply Z.lt_le_trans; [apply Hr | apply Z.pow_le_mono_r; lia]. }
  by rewrite Z.add_nocarry_lxor, Z.lxor_lor by done.
Qed.

Lemma land_ones_mod v w : 0 <= w -> Z.land v (Z.ones w) = v mod 2 ^ w.
Proof. apply Z.land_ones. Qed.

Lemma land_7f v : Z.land v 0x7f = v mod 128.
Proof. exact (Z.land_ones v 7 ltac:(lia)). Qed.

Lemma land_u64_max v : Z.land v u64_max = v mod 2 ^ 64.
Proof. exact (Z.land_ones v 64 ltac:(lia)). Qed.

(** The low seven bits and the continuation flag of an emitted byte. *)
Lemma varint_byte b :
  0 <= b < 128 ->
  Z.land (Z.lor b 0x80) 0x7f = b /\ Z.land (Z.lor b 0x80) 0x80 <> 0 /\
  0 <= Z.lor b 0x80 < 256.
Proof.
  intros Hb. assert (Hor : Z.lor b 0x80 = b + 1 * 2 ^ 7)
    by (rewrite <- lor_shiftl_add by lia; reflexivity).
  rewrite land_7f, Hor. repeat split; [|intros Hz| lia | lia].
  - rewrite Z.mod_add by lia. apply Z.mod_small; lia.
  - rewrite <- Hor in Hz. apply (f_equal (fun z => Z.testbit z 7)) in Hz.
    rewrite Z.land_spec, Z.lor_spec, Z.bits_0 in Hz. simpl (Z.testbit 128 7) in Hz.
    by rewrite orb_true_r in Hz.
Qed.

Lemma varint_last b : 0 <= b < 128 -> Z.land b 0x7f = b /\ Z.land b 0x80 = 0.
Proof.
  intros Hb. rewrite land_7f. split; [apply Z.mod_small; lia|].
  apply Z.bits_inj'; intros i Hi. rewrite Z.land_spec, Z.bits_0.
  destruct (decide (i = 7)) as [->|Hne].
  - rewrite (Z.bits_above_log2 b 7); [done|lia|].
    destruct (Z.eq_dec b 0) as [->|]; [simpl; lia | apply Z.log2_lt_pow2; lia].
  - change 0x80 with (2 ^ 7). rewrite Z.pow2_bits_false by lia. apply andb_false_r.
Qed.

(** One round of the reading loop: the new group lands above the bits read so far. *)
Lemma varint_accumulate r b s :
  0 <= s -> 0 <= r < 2 ^ s -> 0 <= b -> b * 2 ^ s < 2 ^ 64 ->
  Z.lor r (Z.land (Z.shiftl b s) u64_max) = r + b * 2 ^ s.
Proof.
  intros Hs Hr Hb Hlt. rewrite land_u64_max, Z.shiftl_mul_pow2 by lia.
  rewrite Z.mod_small by nia. rewrite <- lor_shiftl_add by lia.
  by rewrite Z.shiftl_mul_pow2 by lia.
Qed.

Lemma reads_varint_loop n m r v s :
  0 <= s -> 0 <= r < 2 ^ s -> 0 <= v -> v * 2 ^ s < 2 ^ 64 ->
  v < 2 ^ (7 * Z.of_nat n) -> (n <= m)%nat -> (0 < n)%nat -> (v <> 0 \/ s < 64) ->
  reads (read_varint_loop m r s) (write_varint_loop n v) (r + v * 2 ^ s).
Proof.
  revert m r v s; induction n as [|n IH]; intros m r v s Hs Hr Hv Hlt Hn Hm H0 Hs64; [lia|].
  destruct m as [|m]; [lia|]. simpl.
  assert (Hshr : Z.shiftr v 7 = v / 128) by (apply Z.shiftr_div_pow2; lia).
  rewrite Hshr, land_7f.
  assert (Hmod : 0 <= v mod 128 < 128) by (apply Z.mod_pos_bound; lia).
  pose proof (Z.div_mod v 128 ltac:(lia)) as Hdm.
  assert (Hdiv : 0 <= v / 128) by (apply Z.div_pos; lia).
  assert (Hp : 0 < 2 ^ s) by (apply Z.pow_pos_nonneg; lia).
  assert (Hs' : s < 64).
  { destruct Hs64 as [Hnz|]; [|done]. apply (Z.pow_lt_mono_r_iff 2); [lia|lia|nia]. }
  rewrite (proj2 (Z.leb_gt _ _)) by lia.
  destruct (Z.eqb_spec (v / 128) 0) as [Hz|Hnz].
  - destruct (varint_last (v mod 128) Hmod) as [E1 E2].
    eapply reads_bind_ret; [apply reads_u8, u8b_spec; lia|]. cbv beta zeta.
    rewrite E1, E2. simpl. rewrite varint_accumulate by nia.
    replace (v mod 128) with v by lia. apply reads_ret.
  - destruct (varint_byte (v mod 128) Hmod) as (E1 & E2 & E3).
    change (?x :: ?l) with ([x] ++ l).
    eapply reads_bind; [apply reads_u8, u8b_spec; lia|]. cbv beta zeta.
    rewrite E1, (proj2 (Z.eqb_neq _ _) E2), varint_accumulate by nia.
    replace (r + v * 2 ^ s) with ((r + v mod 128 * 2 ^ s) + (v / 128) * 2 ^ (s + 7)).
    2:{ rewrite Z.pow_add_r by lia. change (2 ^ 7) with 128. nia. }
    apply IH; try lia.
    + rewrite Z.pow_add_r by lia. change (2 ^ 7) with 128. nia.
    + rewrite Z.pow_add_r by lia. change (2 ^ 7) with 128. nia.
    + apply Z.div_lt_upper_bound; [lia|].
      change 128 with (2 ^ 7) at 1. rewrite <- Z.pow_add_r by lia.
      replace (7 + 7 * Z.of_nat n) with (7 * Z.of_nat (S n)) by lia. done.
    + destruct n; [|lia]. exfalso. change (2 ^ (7 * Z.of_nat 1)) with 128 in Hn. lia.
Qed.

Lemma reads_varint v : u64b v = true -> reads read_varint (write_varint v) v.
Proof.
  intros Hv%u64b_spec. unfold read_varint, write_varint.
  replace v with (0 + v * 2 ^ 0) at 2 by lia.
  apply reads_varint_loop; try lia.
Qed.

Lemma length_varint_loop n v :
  (0 < n)%nat -> (1 <= length (write_varint_loop n v) <= n)%nat.
Proof.
  revert v; induction n as [|n IH]; intros v Hn; [lia|]. simpl.
  destruct (Z.shiftr v 7 =? 0); simpl; [lia|].
  destruct n as [|n]; [simpl; lia|]. specialize (IH (Z.shiftr v 7) ltac:(lia)). lia.
Qed.

Lemma length_varint v : (1 <= length (write_varint v) <= 10)%nat.
Proof. apply length_varint_loop; lia. Qed.

Lemma is_bytes_varint v : 0 <= v -> is_bytes (write_varint v) = true.
Proof.
  unfold write_varint. generalize 10%nat as n. intros n; revert v.
  induction n as [|n IH]; intros v Hv; [done|]. simpl.
  assert (Hmod : 0 <= v mod 128 < 128) by (apply Z.mod_pos_bound; lia).
  rewrite land_7f. destruct (varint_byte _ Hmod) as (_ & _ & Hb).
  destruct (Z.shiftr v 7 =? 0); simpl.
  - rewrite (proj2 (u8b_spec _)) by lia. done.
  - rewrite (proj2 (u8b_spec _)) by lia. apply IH, Z.shiftr_nonneg; lia.
Qed.

(** ** The TLV field loop *)

(** How a decoder step may change the cursor: forward, within the input. *)
Definition moves (d d' : Decoder) : Prop :=
  d' = set_pos (pos d') d /\ (pos d <= pos d')%nat /\
  (pos d' <= pos d \/ pos d' <= length (input d))%nat.

Definition moving {A} (m : M A) : Prop :=
  forall d a d', m d = Ok (a, d') -> moves d d'.

Lemma moves_refl d : moves d d.
Proof. destruct d; split; [done | simpl; lia]. Qed.

Lemma moves_trans d1 d2 d3 : moves d1 d2 -> moves d2 d3 -> moves d1 d3.
Proof.
  intros (E1 & L1 & B1) (E2 & L2 & B2). rewrite E1 in E2. split; [|split].
  - rewrite E2 at 1. reflexivity.
  - lia.
  - rewrite E1 in B2; simpl in B2. lia.
Qed.

Lemma moving_ret {A} (a : A) : moving (mret a).
Proof. intros d a' d' [= <- <-]. apply moves_refl. Qed.

Lemma moving_fail {A} e : moving (@fail A e).
Proof. intros d a d'. discriminate. Qed.

Lemma moving_lift {A} (r : dresult A) : moving (lift r).
Proof. intros d a d'. unfold lift. destruct r; intros [= <- <-]. apply moves_refl. Qed.

Lemma moving_bind {A B} (m : M A) (k : A -> M B) :
  moving m -> (forall a, moving (k a)) -> moving (m ≫= k).
Proof.
  intros Hm Hk d b d'. unfold mbind, M_bind.
  destruct (m d) as [[a d1]|] eqn:E; [|discriminate].
  intros E'. eapply moves_trans; [eapply Hm | eapply Hk]; eauto.
Qed.

Lemma take_n_inv n d s d' :
  0 <= n -> take_n n d = Ok (s, d') ->
  d' = advance (Z.to_nat n) d /\ s = take (Z.to_nat n) (remaining d) /\
  (pos d + Z.to_nat n <= length (input d))%nat.
Proof.
  intros Hn. unfold take_n, checked_add_usize.
  case_match eqn:E1; [|discriminate].
  destruct (_ <=? usize_max) eqn:E2 in E1; [injection E1 as <-|discriminate].
  destruct (Z.ltb_spec (len (input d)) (Z.of_nat (pos d) + n)); [discriminate|].
  intros [= <- <-]. unfold len in *. repeat split; [|lia].
  unfold advance; f_equal; lia.
Qed.

Lemma moving_take n : 0 <= n -> moving (take_n n).
Proof.
  intros Hn d s d' (-> & _ & Hle)%take_n_inv; [|done].
  split; [done|]. simpl. lia.
Qed.

Lemma moving_read_u8 : moving read_u8.
Proof. apply moving_bind; [apply moving_take; lia | intros; apply moving_ret]. Qed.

Lemma moving_varint_loop n r s : moving (read_varint_loop n r s).
Proof.
  revert r s; induction n as [|n IH]; intros r s; simpl; [apply moving_fail|].
  destruct (64 <=? s); [apply moving_fail|].
  apply moving_bind; [apply moving_read_u8|]. intros b.
  destruct (_ =? 0); [apply moving_ret | apply IH].
Qed.

Lemma read_varint_loop_S n r s :
  s < 64 ->
  read_varint_loop (S n) r s =
    (byte ← read_u8;
     let r' := Z.lor r (Z.land (Z.shiftl (Z.land byte 0x7f) s) u64_max) in
     if Z.land byte 0x80 =? 0 then mret r' else read_varint_loop n r' (s + 7)).
Proof. intros Hs. simpl. by rewrite (proj2 (Z.leb_gt _ _)) by lia. Qed.

Lemma moving_read_varint : moving read_varint.
Proof. apply moving_varint_loop. Qed.

(** A cursor that sits past its limit reads nothing. *)
Lemma read_u8_advances d b d' : read_u8 d = Ok (b, d') ->
  d' = advance 1 d /\ (pos d < length (input d))%nat.
Proof.
  unfold read_u8, mbind, M_bind. destruct (take_n 1 d) as [[s d1]|] eqn:E; [|discriminate].
  apply take_n_inv in E as (-> & _ & Hle); [|lia]. intros [= <- <-].
  split; [done | simpl in *; lia].
Qed.

Lemma read_varint_advances d v d' :
  read_varint d = Ok (v, d') -> moves d d' /\ (pos d < pos d' <= length (input d))%nat.
Proof.
  intros E. split; [by eapply moving_read_varint|].
  unfold read_varint in E. rewrite read_varint_loop_S in E by lia.
  unfold mbind, M_bind in E.
  destruct (read_u8 d) as [[b d1]|] eqn:E1; [|discriminate].
  apply read_u8_advances in E1 as [-> Hlt].
  assert (Hm : moves (advance 1 d) d').
  { revert E. case_match; [intros [= <- <-]; apply moves_refl | apply (moving_varint_loop 10)]. }
  destruct Hm as (_ & L & B). simpl in *. lia.
Qed.

Lemma read_varint_nonneg d v d' : read_varint d = Ok (v, d') -> 0 <= v.
Proof.
  unfold read_varint. generalize 11%nat. intros n.
  assert (Hr : 0 <= 0) by lia. revert Hr. generalize 0 at 2 3 as r. generalize 0 at 2 as s.
  revert d; induction n as [|n IH]; intros d s r Hr; cbn [read_varint_loop]; [discriminate|].
  destruct (64 <=? s); [discriminate|]. unfold mbind at 1, M_bind at 1.
  destruct (read_u8 d) as [[b d1]|]; [|discriminate].
  assert (Hr' : 0 <= Z.lor r (Z.land (Z.shiftl (Z.land b 127) s) u64_max)).
  { apply Z.lor_nonneg; split; [done|]. apply Z.land_nonneg; right. done. }
  destruct (_ =? 0); [by intros [= <- <-]|]. by apply IH.
Qed.

Lemma read_field_advances d f d' :
  read_field d = Ok (Some f, d') ->
  moves d d' /\ (pos d < pos d' <= length (input d))%nat.
Proof.
  unfold read_field. destruct (at_body_end d); [discriminate|].
  unfold field_body, mbind at 1, M_bind at 1.
  destruct (read_varint d) as [[id d1]|] eqn:E1; [|discriminate].
  apply read_varint_advances in E1 as [Hm1 [Hlt1 Hle1]].
  intros E. cut (moves d1 d').
  { intros Hm. split; [by eapply moves_trans|].
    destruct Hm1 as (E1 & _), Hm as (_ & L & B). rewrite E1 in B; simpl in B. lia. }
  revert E. match goal with |- ?m d1 = _ -> _ => cut (moving m); [intros H; apply H|] end.
  apply moving_bind; [apply moving_lift|]. intros fid.
  apply moving_bind; [apply moving_read_u8|]. intros wt.
  intros d2 a d3. unfold mbind, M_bind.
  destruct (read_varint d2) as [[n d4]|] eqn:En; [|discriminate].
  destruct (_ <? n); [discriminate|].
  destruct (take_n n d4) as [[v d5]|] eqn:Et; [|discriminate]. intros [= <- <-].
  eapply moves_trans; [by eapply moving_read_varint|].
  eapply moving_take; [|eassumption]. by eapply read_varint_nonneg.
Qed.

(** Any two amounts of fuel above the remaining input give the same run. *)
Lemma while_fields_fuel {S} (step : S -> Z -> bytes -> dresult S) n m s d :
  (length (input d) - pos d < n)%nat -> (length (input d) - pos d < m)%nat ->
  while_fields_loop n step s d = while_fields_loop m step s d.
Proof.
  revert m s d; induction n as [|n IH]; intros m s d Hn Hm; [lia|].
  destruct m as [|m]; [lia|]. cbn [while_fields_loop]. unfold mbind, M_bind.
  destruct (read_field d) as [[[[id v]|] d1]|] eqn:E; [|done..].
  apply read_field_advances in E as [(E & _) [H1 H2]].
  unfold lift. destruct (step s id v) as [s'|e]; [|done].
  assert (Hi : input d1 = input d) by (rewrite E; done).
  apply IH; rewrite Hi; lia.
Qed.

(** The fuel never runs out: the loop satisfies the equation of the source's
    [while let]. *)
Lemma while_fields_eq {S} (step : S -> Z -> bytes -> dresult S) s d :
  while_fields step s d =
    (f ← read_field;
     match f with
     | None => mret s
     | Some (id, value) => s' ← lift (step s id value); while_fields step s'
     end) d.
Proof.
  unfold while_fields at 1. cbn [while_fields_loop]. unfold mbind, M_bind.
  destruct (read_field d) as [[[[id v]|] d1]|] eqn:E; [|done..].
  apply read_field_advances in E as [(E & _) [H1 H2]].
  unfold lift. destruct (step s id v) as [s'|e]; [|done].
  assert (Hi : input d1 = input d) by (rewrite E; done).
  apply while_fields_fuel; rewrite Hi; lia.
Qed.

Lemma varint_field_len id v :
  (length (write_field id v) = length (write_varint id) + 1 + length (write_varint (len v))
    + length v)%nat.
Proof. unfold write_field; rewrite !length_app; simpl; lia. Qed.

Lemma len_write_field id v : len v <= len (write_field id v).
Proof. unfold len. rewrite varint_field_len. lia. Qed.

(** A field reads back, whatever follows it. *)
Lemma reads_field_body id v :
  u32b id = true -> len (write_field id v) <= MAX_FRAME_LEN ->
  reads field_body (write_field id v) (Some (id, v)).
Proof.
  intros Hid%u32b_spec Hl. unfold field_body.
  pose proof (len_write_field id v). pose proof (len_nonneg v).
  unfold write_field, u32_max, MAX_FRAME_LEN in *.
  eapply reads_bind; [apply reads_varint, u64b_spec; lia|].
  eapply reads_bind_lift; [by rewrite (proj2 (Z.leb_le _ _)) by lia|].
  eapply reads_bind; [by apply reads_u8|].
  eapply reads_bind; [apply reads_varint, u64b_spec; lia|].
  rewrite (proj2 (Z.ltb_ge _ _)) by lia.
  eapply reads_bind_ret; [by apply reads_take | apply reads_ret].
Qed.

(** One field, read in front of anything as long as the body is not over. *)
Lemma read_field_ok id v d tl :
  u32b id = true -> len (write_field id v) <= MAX_FRAME_LEN -> dec_ok d ->
  remaining d = write_field id v ++ tl -> (pos d < body_limit d)%nat ->
  read_field d = Ok (Some (id, v), advance (length (write_field id v)) d).
Proof.
  intros Hid Hl Hd Hr Hb. unfold read_field, at_body_end.
  rewrite (proj2 (Nat.leb_gt _ _)) by done. by apply (reads_field_body id v Hid Hl d tl).
Qed.

(** What the step function makes of a run of fields. *)
Inductive reads_fields {S} (step : S -> Z -> bytes -> dresult S) : S -> bytes -> S -> Prop :=
| rf_nil s : reads_fields step s [] s
| rf_cons s s' s'' id v bs :
    u32b id = true ->
    (len v <= MAX_FRAME_LEN -> step s id v = Ok s') ->
    reads_fields step s' bs s'' ->
    reads_fields step s (write_field id v ++ bs) s''.

Lemma rf_one {S} (step : S -> Z -> bytes -> dresult S) s s' id v :
  u32b id = true -> (len v <= MAX_FRAME_LEN -> step s id v = Ok s') ->
  reads_fields step s (write_field id v) s'.
Proof.
  intros. rewrite <- (app_nil_r (write_field id v)).
  eapply rf_cons; [done | eauto | constructor].
Qed.

Lemma rf_app {S} (step : S -> Z -> bytes -> dresult S) s s' s'' b1 b2 :
  reads_fields step s b1 s' -> reads_fields step s' b2 s'' ->
  reads_fields step s (b1 ++ b2) s''.
Proof.
  intros H1 H2. induction H1; simpl; [done|].
  rewrite <- app_assoc. econstructor; eauto.
Qed.

Lemma read_field_end d :
  (body_limit d <= pos d)%nat -> read_field d = Ok (None, d).
Proof. intros H. unfold read_field, at_body_end. by rewrite (proj2 (Nat.leb_le _ _)). Qed.

(** The loop reads a body made of fields, whatever follows the body. *)
Lemma reads_while_fields {S} (step : S -> Z -> bytes -> dresult S) s bs s' :
  reads_fields step s bs s' -> reads_body (while_fields step s) bs s'.
Proof.
  induction 1 as [s|s s1 s2 id v bs Hid Hs H IH]; intros d tl Hl Hd Hr Hb;
    rewrite while_fields_eq; unfold mbind, M_bind.
  - rewrite read_field_end by (rewrite Hb; simpl; lia). by rewrite advance_0.
  - rewrite len_app in Hl. pose proof (len_nonneg bs). pose proof (len_write_field id v).
    pose proof (len_nonneg v). rewrite length_app, varint_field_len in Hb.
    rewrite <- app_assoc in Hr. pose proof (length_varint id).
    rewrite (read_field_ok id v d (bs ++ tl)); [|done|lia|done|done|lia].
    unfold lift. rewrite Hs by lia.
    rewrite (IH _ tl);
      [|lia|by eapply dec_ok_advance|by eapply remaining_advance|].
    + by rewrite advance_advance, length_app.
    + unfold body_limit in *; simpl. rewrite varint_field_len. lia.
Qed.

(** A sub-record read from a field's value. *)
Lemma sub_ok {A} (m : M A) bs a :
  reads_body m bs a -> len bs <= MAX_FRAME_LEN -> sub bs m = Ok a.
Proof.
  intros H Hl. unfold sub. erewrite H; [done|done| | |].
  - apply dec_ok_new. unfold MAX_FRAME_LEN, isize_max in *; lia.
  - by rewrite app_nil_r.
  - done.
Qed.

Lemma sub_reads {A} (m : M A) bs a :
  reads m bs a -> len bs <= MAX_FRAME_LEN -> sub bs m = Ok a.
Proof. intros H Hl. apply sub_ok; [by apply reads_reads_body | done]. Qed.

(** Lists: [n] elements, each read by [m] from its own encoding. *)
Lemma reads_repeat {A} (m : M A) (enc : A -> bytes) (l : list A) :
  (forall x, x ∈ l -> reads m (enc x) x) ->
  reads (repeatM (length l) m) (concat (map enc l)) l.
Proof.
  induction l as [|x l IH]; intros H; simpl; [apply reads_ret|].
  eapply reads_bind; [apply H; left|].
  eapply reads_bind_ret; [apply IH; intros; apply H; by right | apply reads_ret].
Qed.

Lemma reads_repeat_wf {A} (m : M A) (enc : A -> bytes) (wf : A -> bool) (l : list A) :
  (forall x, wf x = true -> reads m (enc x) x) -> forallb wf l = true ->
  reads (repeatM (length l) m) (concat (map enc l)) l.
Proof.
  intros H Hl. apply reads_repeat. intros x Hx. apply H.
  rewrite forallb_forall in Hl. by apply Hl, list_elem_of_In.
Qed.

Create HintDb reads discriminated.
#[global] Hint Constants Opaque : reads.
#[global] Hint Variables Opaque : reads.
#[export] Hint Resolve reads_ret reads_u8 reads_u16 reads_u32 reads_u64 reads_i64
  reads_f32 reads_f64 reads_bytes : reads.

(** ** Decoders that test for the end of the body *)

(** [self.at_body_end()] as a step. *)
Definition body_done : M bool := fun d => Ok (at_body_end d, d).

(** [m] reads [bs] when the body continues with exactly [rest]. *)
Definition reads_in {A} (rest : bytes) (m : M A) (bs : bytes) (a : A) : Prop :=
  forall d tl, len (bs ++ rest) <= MAX_FRAME_LEN -> dec_ok d ->
    remaining d = bs ++ rest ++ tl -> body_limit d = (pos d + length (bs ++ rest))%nat ->
    m d = Ok (a, advance (length bs) d).

Lemma reads_reads_in {A} rest (m : M A) bs a : reads m bs a -> reads_in rest m bs a.
Proof.
  intros H d tl Hl Hd Hr _. eapply H; eauto.
  rewrite len_app in Hl. pose proof (len_nonneg rest). lia.
Qed.

Lemma reads_in_nil {A} (m : M A) bs a : reads_in [] m bs a <-> reads_body m bs a.
Proof.
  unfold reads_in, reads_body. rewrite !app_nil_r. simpl. done.
Qed.

Lemma reads_in_bind {A B} rest (m : M A) (k : A -> M B) b1 b2 a b :
  reads_in (b2 ++ rest) m b1 a -> reads_in rest (k a) b2 b ->
  reads_in rest (m ≫= k) (b1 ++ b2) b.
Proof.
  intros Hm Hk d tl Hl Hd Hr He. rewrite <- !app_assoc in *.
  unfold mbind, M_bind. erewrite Hm; [|done|done| |done].
  2:{ rewrite <- app_assoc. exact Hr. }
  rewrite !len_app in *. pose proof (len_nonneg b1).
  erewrite Hk; [by rewrite advance_advance, length_app | rewrite len_app; lia
    | by eapply dec_ok_advance | by eapply remaining_advance |].
  unfold body_limit in *; simpl. rewrite !length_app in *. lia.
Qed.

Lemma reads_in_bind_ret {A B} rest (m : M A) (k : A -> M B) bs a b :
  reads_in rest m bs a -> reads_in rest (k a) [] b -> reads_in rest (m ≫= k) bs b.
Proof. intros. rewrite <- (app_nil_r bs). eapply reads_in_bind; eauto. Qed.

Lemma reads_in_bind_lift {A B} rest (r : dresult A) (k : A -> M B) bs a b :
  r = Ok a -> reads_in rest (k a) bs b -> reads_in rest (lift r ≫= k) bs b.
Proof. intros ->. exact id. Qed.

Lemma reads_in_done {B} (k : bool -> M B) b :
  reads_in [] (k true) [] b -> reads_in [] (body_done ≫= k) [] b.
Proof.
  intros H d tl Hl Hd Hr He. unfold mbind, M_bind, body_done, at_body_end.
  simpl in He. rewrite (proj2 (Nat.leb_le _ _)) by lia. by eapply H.
Qed.

Lemma reads_in_not_done {B} rest (k : bool -> M B) bs b :
  (0 < length (bs ++ rest))%nat ->
  reads_in rest (k false) bs b -> reads_in rest (body_done ≫= k) bs b.
Proof.
  intros Hp H d tl Hl Hd Hr He. unfold mbind, M_bind, body_done, at_body_end.
  rewrite (proj2 (Nat.leb_gt _ _)) by lia. by eapply H.
Qed.

(** [for _ in 0..n { body }] where the body updates a local [s]. *)
Fixpoint iterM {S} (n : nat) (body : S -> M S) (s : S) : M S :=
  match n with
  | O => mret s
  | Datatypes.S n' => s' ← body s; iterM n' body s'
  end.

Lemma reads_iter {S R} (body : S -> M S) (enc : R -> bytes) (upd : S -> R -> S) rows s :
  (forall s r, r ∈ rows -> reads (body s) (enc r) (upd s r)) ->
  reads (iterM (length rows) body s) (concat (map enc rows)) (fold_left upd rows s).
Proof.
  revert s; induction rows as [|r rows IH]; intros s H; simpl; [apply reads_ret|].
  eapply reads_bind; [apply H; left|]. apply IH. intros; apply H; by right.
Qed.

Lemma reads_in_len {A} rest (m : M A) bs a :
  (len (bs ++ rest) <= MAX_FRAME_LEN -> reads_in rest m bs a) -> reads_in rest m bs a.
Proof. intros H d tl Hl. by apply H. Qed.

(** Encodings that take at least one byte. *)
Lemma len1_app (a b : bytes) : 1 <= len a -> 1 <= len (a ++ b).
Proof. rewrite len_app. pose proof (len_nonneg b). lia. Qed.
Lemma len1_u8 v : 1 <= len (write_u8 v).
Proof. done. Qed.
Lemma len1_u16 v : 1 <= len (write_u16_be v).
Proof. unfold write_u16_be. rewrite len_to_be. lia. Qed.
Lemma len1_u32 v : 1 <= len (write_u32_be v).
Proof. unfold write_u32_be. rewrite len_to_be. lia. Qed.
Lemma len1_u64 v : 1 <= len (write_u64_be v).
Proof. unfold write_u64_be. rewrite len_to_be. lia. Qed.
Lemma len1_bytes v : 1 <= len (write_bytes v).
Proof. apply len1_app, len1_u32. Qed.
Lemma len1_str v : 1 <= len (write_str v).
Proof. apply len1_bytes. Qed.

Create HintDb len1 discriminated.
#[global] Hint Constants Opaque : len1.
#[export] Hint Resolve len1_app len1_u8 len1_u16 len1_u32 len1_u64 len1_bytes len1_str : len1.

(* wire/decode.rs Decoder::remaining_in_body *)
Definition remaining_in_body (d : Decoder) : Z :=
  saturating_sub (Z.of_nat (body_limit d)) (Z.of_nat (pos d)).

Lemma reads_in_ret_bind {A B} rest (a : A) (k : A -> M B) bs b :
  reads_in rest (k a) bs b -> reads_in rest (mret a ≫= k) bs b.
Proof. exact id. Qed.

(** A value that depends on the body's length. *)
Lemma reads_in_get_remaining {B} rest (k : Z -> M B) bs b :
  reads_in rest (k (len (bs ++ rest))) bs b ->
  reads_in rest ((fun d => Ok (remaining_in_body d, d)) ≫= k) bs b.
Proof.
  intros H d tl Hl Hd Hr He. unfold mbind, M_bind, remaining_in_body, saturating_sub.
  rewrite He, (proj2 (Z.leb_le _ _)) by lia.
  replace (Z.of_nat (pos d + length (bs ++ rest)) - Z.of_nat (pos d)) with (len (bs ++ rest))
    by (unfold len; lia).
  by eapply H.
Qed.

Lemma sub_reads_in {A} (m : M A) bs a :
  reads_in [] m bs a -> len bs <= MAX_FRAME_LEN -> sub bs m = Ok a.
Proof. rewrite reads_in_nil. apply sub_ok. Qed.
