(* ===== verification/Fields.v ===== *)
(** * Field and tag tables

    The field ids of every message body ([wire/field.rs]) and the type bytes,
    tags and limits of [wire/frame/mod.rs]. Each constant keeps its name, with the
    Rust module in front of a field id. *)

From S2P Require Import Prelude.

(** ** Field ids (wire/field.rs) *)

Definition hello_CLIENT_NAME : Z := 1. (* wire/field.rs:37-37 hello::CLIENT_NAME *)
Definition hello_PROTOCOL_MAJOR : Z := 2. (* wire/field.rs:39-39 hello::PROTOCOL_MAJOR *)
Definition hello_PROTOCOL_MINOR : Z := 3. (* wire/field.rs:41-41 hello::PROTOCOL_MINOR *)
Definition hello_PROTOCOL_PATCH : Z := 4. (* wire/field.rs:43-43 hello::PROTOCOL_PATCH *)
Definition hello_CLIENT_CAPS : Z := 5. (* wire/field.rs:45-45 hello::CLIENT_CAPS *)
Definition hello_COMPRESSION : Z := 6. (* wire/field.rs:53-53 hello::COMPRESSION *)
Definition hello_SSH_ORIGIN : Z := 9. (* wire/field.rs:63-63 hello::SSH_ORIGIN *)

Definition hello_ok_PROTOCOL_MAJOR : Z := 1. (* wire/field.rs:69-69 hello_ok::PROTOCOL_MAJOR *)
Definition hello_ok_PROTOCOL_MINOR : Z := 2. (* wire/field.rs:71-71 hello_ok::PROTOCOL_MINOR *)
Definition hello_ok_PROTOCOL_PATCH : Z := 3. (* wire/field.rs:73-73 hello_ok::PROTOCOL_PATCH *)
Definition hello_ok_SERVER_CAPS : Z := 4. (* wire/field.rs:75-75 hello_ok::SERVER_CAPS *)
Definition hello_ok_SERVER_ID : Z := 5. (* wire/field.rs:77-77 hello_ok::SERVER_ID *)
Definition hello_ok_SELECTED_PROFILE : Z := 6. (* wire/field.rs:79-79 hello_ok::SELECTED_PROFILE *)
Definition hello_ok_MAX_CHUNK_BYTES : Z := 7. (* wire/field.rs:81-81 hello_ok::MAX_CHUNK_BYTES *)
Definition hello_ok_MAX_HISTORY_PAGE_BYTES : Z := 8. (* wire/field.rs:83-83 hello_ok::MAX_HISTORY_PAGE_BYTES *)
Definition hello_ok_COMPRESSION : Z := 9. (* wire/field.rs:86-86 hello_ok::COMPRESSION *)

Definition ping_NONCE : Z := 1. (* wire/field.rs:92-92 ping::NONCE *)

Definition terminal_output_TERMINAL_ID : Z := 1. (* wire/field.rs:98-98 terminal_output::TERMINAL_ID *)
Definition terminal_output_SEQ : Z := 2. (* wire/field.rs:100-100 terminal_output::SEQ *)
Definition terminal_output_BYTES : Z := 3. (* wire/field.rs:102-102 terminal_output::BYTES *)
Definition terminal_output_STREAM_ID : Z := 4. (* wire/field.rs:104-104 terminal_output::STREAM_ID *)
Definition terminal_output_BOOTSTRAP_ID : Z := 5. (* wire/field.rs:106-106 terminal_output::BOOTSTRAP_ID *)

Definition attach_TARGET : Z := 1. (* wire/field.rs:112-112 attach::TARGET *)
Definition attach_VIEWPORT : Z := 2. (* wire/field.rs:114-114 attach::VIEWPORT *)
Definition attach_REQUEST_SCROLLBACK : Z := 3. (* wire/field.rs:116-116 attach::REQUEST_SCROLLBACK *)
Definition attach_SCROLLBACK_LIMIT_LINES : Z := 4. (* wire/field.rs:118-118 attach::SCROLLBACK_LIMIT_LINES *)
Definition attach_ATTACH_ID : Z := 5. (* wire/field.rs:120-120 attach::ATTACH_ID *)

Definition input_key_TERMINAL_ID : Z := 1. (* wire/field.rs:126-126 input_key::TERMINAL_ID *)
Definition input_key_EVENT : Z := 2. (* wire/field.rs:128-128 input_key::EVENT *)

Definition input_mouse_TERMINAL_ID : Z := 1. (* wire/field.rs:134-134 input_mouse::TERMINAL_ID *)
Definition input_mouse_EVENT : Z := 2. (* wire/field.rs:136-136 input_mouse::EVENT *)

Definition input_focus_TERMINAL_ID : Z := 1. (* wire/field.rs:142-142 input_focus::TERMINAL_ID *)
Definition input_focus_EVENT : Z := 2. (* wire/field.rs:144-144 input_focus::EVENT *)

Definition input_paste_TERMINAL_ID : Z := 1. (* wire/field.rs:150-150 input_paste::TERMINAL_ID *)
Definition input_paste_EVENT : Z := 2. (* wire/field.rs:152-152 input_paste::EVENT *)

Definition input_terminal_reply_TERMINAL_ID : Z := 1. (* wire/field.rs:158-158 input_terminal_reply::TERMINAL_ID *)
Definition input_terminal_reply_BYTES : Z := 2. (* wire/field.rs:160-160 input_terminal_reply::BYTES *)

Definition frame_ack_TERMINAL_ID : Z := 1. (* wire/field.rs:166-166 frame_ack::TERMINAL_ID *)
Definition frame_ack_SEQ : Z := 2. (* wire/field.rs:168-168 frame_ack::SEQ *)
Definition frame_ack_STREAM_ID : Z := 3. (* wire/field.rs:170-170 frame_ack::STREAM_ID *)
Definition frame_ack_BOOTSTRAP_ID : Z := 4. (* wire/field.rs:172-172 frame_ack::BOOTSTRAP_ID *)

Definition viewport_resize_VIEWPORT : Z := 1. (* wire/field.rs:178-178 viewport_resize::VIEWPORT *)

Definition attached_SNAPSHOT : Z := 1. (* wire/field.rs:184-184 attached::SNAPSHOT *)
Definition attached_INITIAL_CLIENT_ID : Z := 2. (* wire/field.rs:186-186 attached::INITIAL_CLIENT_ID *)
Definition attached_ATTACH_ID : Z := 3. (* wire/field.rs:188-188 attached::ATTACH_ID *)

Definition attach_ready_ATTACH_ID : Z := 1. (* wire/field.rs:194-194 attach_ready::ATTACH_ID *)

Definition history_request_TERMINAL_ID : Z := 1. (* wire/field.rs:200-200 history_request::TERMINAL_ID *)
Definition history_request_STREAM_ID : Z := 2. (* wire/field.rs:202-202 history_request::STREAM_ID *)
Definition history_request_BOOTSTRAP_ID : Z := 3. (* wire/field.rs:204-204 history_request::BOOTSTRAP_ID *)
Definition history_request_CURSOR : Z := 4. (* wire/field.rs:206-206 history_request::CURSOR *)
Definition history_request_MAX_BYTES : Z := 5. (* wire/field.rs:208-208 history_request::MAX_BYTES *)
Definition history_request_MAX_ROWS : Z := 6. (* wire/field.rs:210-210 history_request::MAX_ROWS *)

Definition bootstrap_begin_TERMINAL_ID : Z := 1. (* wire/field.rs:216-216 bootstrap_begin::TERMINAL_ID *)
Definition bootstrap_begin_STREAM_ID : Z := 2. (* wire/field.rs:218-218 bootstrap_begin::STREAM_ID *)
Definition bootstrap_begin_BOOTSTRAP_ID : Z := 3. (* wire/field.rs:220-220 bootstrap_begin::BOOTSTRAP_ID *)
Definition bootstrap_begin_CODEC : Z := 4. (* wire/field.rs:222-222 bootstrap_begin::CODEC *)
Definition bootstrap_begin_COLS : Z := 5. (* wire/field.rs:224-224 bootstrap_begin::COLS *)
Definition bootstrap_begin_ROWS : Z := 6. (* wire/field.rs:226-226 bootstrap_begin::ROWS *)
Definition bootstrap_begin_OUTPUT_MODE : Z := 7. (* wire/field.rs:228-228 bootstrap_begin::OUTPUT_MODE *)
Definition bootstrap_begin_BASE_SEQ : Z := 8. (* wire/field.rs:230-230 bootstrap_begin::BASE_SEQ *)

Definition bootstrap_chunk_TERMINAL_ID : Z := 1. (* wire/field.rs:236-236 bootstrap_chunk::TERMINAL_ID *)
Definition bootstrap_chunk_STREAM_ID : Z := 2. (* wire/field.rs:238-238 bootstrap_chunk::STREAM_ID *)
Definition bootstrap_chunk_BOOTSTRAP_ID : Z := 3. (* wire/field.rs:240-240 bootstrap_chunk::BOOTSTRAP_ID *)
Definition bootstrap_chunk_CHUNK_SEQ : Z := 4. (* wire/field.rs:242-242 bootstrap_chunk::CHUNK_SEQ *)
Definition bootstrap_chunk_PAYLOAD : Z := 5. (* wire/field.rs:244-244 bootstrap_chunk::PAYLOAD *)

Definition frame_compressed_ALGORITHM : Z := 1. (* wire/field.rs:250-250 frame_compressed::ALGORITHM *)
Definition frame_compressed_UNCOMPRESSED_LEN : Z := 2. (* wire/field.rs:252-252 frame_compressed::UNCOMPRESSED_LEN *)
Definition frame_compressed_PAYLOAD : Z := 3. (* wire/field.rs:255-255 frame_compressed::PAYLOAD *)

Definition bootstrap_ready_TERMINAL_ID : Z := 1. (* wire/field.rs:261-261 bootstrap_ready::TERMINAL_ID *)
Definition bootstrap_ready_STREAM_ID : Z := 2. (* wire/field.rs:263-263 bootstrap_ready::STREAM_ID *)
Definition bootstrap_ready_BOOTSTRAP_ID : Z := 3. (* wire/field.rs:265-265 bootstrap_ready::BOOTSTRAP_ID *)
Definition bootstrap_ready_HISTORY_CURSOR : Z := 4. (* wire/field.rs:267-267 bootstrap_ready::HISTORY_CURSOR *)

Definition history_page_TERMINAL_ID : Z := 1. (* wire/field.rs:273-273 history_page::TERMINAL_ID *)
Definition history_page_STREAM_ID : Z := 2. (* wire/field.rs:275-275 history_page::STREAM_ID *)
Definition history_page_BOOTSTRAP_ID : Z := 3. (* wire/field.rs:277-277 history_page::BOOTSTRAP_ID *)
Definition history_page_CURSOR : Z := 4. (* wire/field.rs:279-279 history_page::CURSOR *)
Definition history_page_NEXT_CURSOR : Z := 5. (* wire/field.rs:281-281 history_page::NEXT_CURSOR *)
Definition history_page_PAYLOAD : Z := 6. (* wire/field.rs:283-283 history_page::PAYLOAD *)
Definition history_page_PAGE_SEQ : Z := 7. (* wire/field.rs:285-285 history_page::PAGE_SEQ *)
Definition history_page_ROWS : Z := 8. (* wire/field.rs:287-287 history_page::ROWS *)

Definition bootstrap_tombstone_TERMINAL_ID : Z := 1. (* wire/field.rs:293-293 bootstrap_tombstone::TERMINAL_ID *)
Definition bootstrap_tombstone_STREAM_ID : Z := 2. (* wire/field.rs:295-295 bootstrap_tombstone::STREAM_ID *)
Definition bootstrap_tombstone_BOOTSTRAP_ID : Z := 3. (* wire/field.rs:297-297 bootstrap_tombstone::BOOTSTRAP_ID *)
Definition bootstrap_tombstone_REASON : Z := 4. (* wire/field.rs:299-299 bootstrap_tombstone::REASON *)
Definition bootstrap_tombstone_LAST_VALID_SEQ : Z := 5. (* wire/field.rs:301-301 bootstrap_tombstone::LAST_VALID_SEQ *)

Definition history_tombstone_TERMINAL_ID : Z := 1. (* wire/field.rs:307-307 history_tombstone::TERMINAL_ID *)
Definition history_tombstone_STREAM_ID : Z := 2. (* wire/field.rs:309-309 history_tombstone::STREAM_ID *)
Definition history_tombstone_BOOTSTRAP_ID : Z := 3. (* wire/field.rs:311-311 history_tombstone::BOOTSTRAP_ID *)
Definition history_tombstone_CURSOR : Z := 4. (* wire/field.rs:313-313 history_tombstone::CURSOR *)
Definition history_tombstone_REASON : Z := 5. (* wire/field.rs:315-315 history_tombstone::REASON *)

Definition history_rejected_TERMINAL_ID : Z := 1. (* wire/field.rs:321-321 history_rejected::TERMINAL_ID *)
Definition history_rejected_STREAM_ID : Z := 2. (* wire/field.rs:323-323 history_rejected::STREAM_ID *)
Definition history_rejected_BOOTSTRAP_ID : Z := 3. (* wire/field.rs:325-325 history_rejected::BOOTSTRAP_ID *)
Definition history_rejected_CURSOR : Z := 4. (* wire/field.rs:327-327 history_rejected::CURSOR *)
Definition history_rejected_REASON : Z := 5. (* wire/field.rs:329-329 history_rejected::REASON *)
Definition history_rejected_REQUIRED_BYTES : Z := 6. (* wire/field.rs:331-331 history_rejected::REQUIRED_BYTES *)
Definition history_rejected_REQUIRED_ROWS : Z := 7. (* wire/field.rs:333-333 history_rejected::REQUIRED_ROWS *)

Definition detached_REASON : Z := 1. (* wire/field.rs:343-343 detached::REASON *)
Definition detached_MESSAGE : Z := 2. (* wire/field.rs:345-345 detached::MESSAGE *)

Definition bell_TERMINAL_ID : Z := 1. (* wire/field.rs:351-351 bell::TERMINAL_ID *)

Definition error_REQUEST_ID : Z := 1. (* wire/field.rs:357-357 error::REQUEST_ID *)
Definition error_CODE : Z := 2. (* wire/field.rs:359-359 error::CODE *)
Definition error_MESSAGE : Z := 3. (* wire/field.rs:361-361 error::MESSAGE *)

Definition get_metadata_REQUEST_ID : Z := 1. (* wire/field.rs:367-367 get_metadata::REQUEST_ID *)
Definition get_metadata_SCOPE : Z := 2. (* wire/field.rs:369-369 get_metadata::SCOPE *)
Definition get_metadata_KEY : Z := 3. (* wire/field.rs:371-371 get_metadata::KEY *)

Definition set_metadata_REQUEST_ID : Z := 1. (* wire/field.rs:377-377 set_metadata::REQUEST_ID *)
Definition set_metadata_SCOPE : Z := 2. (* wire/field.rs:379-379 set_metadata::SCOPE *)
Definition set_metadata_KEY : Z := 3. (* wire/field.rs:381-381 set_metadata::KEY *)
Definition set_metadata_VALUE : Z := 4. (* wire/field.rs:383-383 set_metadata::VALUE *)

Definition list_metadata_REQUEST_ID : Z := 1. (* wire/field.rs:389-389 list_metadata::REQUEST_ID *)
Definition list_metadata_SCOPE : Z := 2. (* wire/field.rs:391-391 list_metadata::SCOPE *)

Definition subscribe_metadata_SCOPE : Z := 1. (* wire/field.rs:397-397 subscribe_metadata::SCOPE *)
Definition subscribe_metadata_KEY : Z := 2. (* wire/field.rs:399-399 subscribe_metadata::KEY *)

Definition metadata_changed_SCOPE : Z := 1. (* wire/field.rs:405-405 metadata_changed::SCOPE *)
Definition metadata_changed_KEY : Z := 2. (* wire/field.rs:407-407 metadata_changed::KEY *)
Definition metadata_changed_VALUE : Z := 3. (* wire/field.rs:409-409 metadata_changed::VALUE *)

Definition metadata_value_REQUEST_ID : Z := 1. (* wire/field.rs:415-415 metadata_value::REQUEST_ID *)
Definition metadata_value_VALUE : Z := 2. (* wire/field.rs:417-417 metadata_value::VALUE *)

Definition metadata_keys_REQUEST_ID : Z := 1. (* wire/field.rs:423-423 metadata_keys::REQUEST_ID *)
Definition metadata_keys_KEYS : Z := 2. (* wire/field.rs:425-425 metadata_keys::KEYS *)

Definition list_directory_REQUEST_ID : Z := 1. (* wire/field.rs:431-431 list_directory::REQUEST_ID *)
Definition list_directory_PATH : Z := 2. (* wire/field.rs:433-433 list_directory::PATH *)
Definition list_directory_HOST : Z := 3. (* wire/field.rs:437-437 list_directory::HOST *)

Definition directory_listing_REQUEST_ID : Z := 1. (* wire/field.rs:443-443 directory_listing::REQUEST_ID *)
Definition directory_listing_PATH : Z := 2. (* wire/field.rs:445-445 directory_listing::PATH *)
Definition directory_listing_PARENT : Z := 3. (* wire/field.rs:447-447 directory_listing::PARENT *)
Definition directory_listing_ENTRIES : Z := 4. (* wire/field.rs:449-449 directory_listing::ENTRIES *)
Definition directory_listing_TRUNCATED : Z := 5. (* wire/field.rs:451-451 directory_listing::TRUNCATED *)
Definition directory_listing_ERROR : Z := 6. (* wire/field.rs:453-453 directory_listing::ERROR *)
Definition directory_listing_MESSAGE : Z := 7. (* wire/field.rs:455-455 directory_listing::MESSAGE *)

Definition spawn_terminal_REQUEST_ID : Z := 1. (* wire/field.rs:461-461 spawn_terminal::REQUEST_ID *)
Definition spawn_terminal_GROUP : Z := 2. (* wire/field.rs:463-463 spawn_terminal::GROUP *)
Definition spawn_terminal_COMMAND : Z := 3. (* wire/field.rs:465-465 spawn_terminal::COMMAND *)
Definition spawn_terminal_CWD : Z := 4. (* wire/field.rs:467-467 spawn_terminal::CWD *)
Definition spawn_terminal_ENV : Z := 5. (* wire/field.rs:469-469 spawn_terminal::ENV *)
Definition spawn_terminal_TERM : Z := 6. (* wire/field.rs:471-471 spawn_terminal::TERM *)
Definition spawn_terminal_SATELLITE : Z := 7. (* wire/field.rs:475-475 spawn_terminal::SATELLITE *)
Definition spawn_terminal_OWNER_TERMINAL : Z := 8. (* wire/field.rs:478-478 spawn_terminal::OWNER_TERMINAL *)
Definition spawn_terminal_AGENT_SESSION : Z := 9. (* wire/field.rs:481-481 spawn_terminal::AGENT_SESSION *)
Definition spawn_terminal_INITIAL_SIZE : Z := 10. (* wire/field.rs:485-485 spawn_terminal::INITIAL_SIZE *)
Definition spawn_terminal_KIND : Z := 11. (* wire/field.rs:493-493 spawn_terminal::KIND *)
Definition spawn_terminal_PARENT : Z := 12. (* wire/field.rs:496-496 spawn_terminal::PARENT *)
Definition spawn_terminal_PROVIDER : Z := 13. (* wire/field.rs:499-499 spawn_terminal::PROVIDER *)
Definition spawn_terminal_NATIVE_ID : Z := 14. (* wire/field.rs:501-501 spawn_terminal::NATIVE_ID *)
Definition spawn_terminal_BIND_INSTANCE : Z := 15. (* wire/field.rs:505-505 spawn_terminal::BIND_INSTANCE *)

Definition terminal_spawned_REQUEST_ID : Z := 1. (* wire/field.rs:511-511 terminal_spawned::REQUEST_ID *)
Definition terminal_spawned_RESULT : Z := 2. (* wire/field.rs:513-513 terminal_spawned::RESULT *)
Definition terminal_spawned_INSTANCE : Z := 3. (* wire/field.rs:517-517 terminal_spawned::INSTANCE *)

Definition move_terminal_REQUEST_ID : Z := 1. (* wire/field.rs:523-523 move_terminal::REQUEST_ID *)
Definition move_terminal_TERMINAL : Z := 2. (* wire/field.rs:525-525 move_terminal::TERMINAL *)
Definition move_terminal_OWNER_TERMINAL : Z := 3. (* wire/field.rs:529-529 move_terminal::OWNER_TERMINAL *)

Definition terminal_moved_REQUEST_ID : Z := 1. (* wire/field.rs:535-535 terminal_moved::REQUEST_ID *)
Definition terminal_moved_RESULT : Z := 2. (* wire/field.rs:537-537 terminal_moved::RESULT *)

Definition terminal_closed_TERMINAL_ID : Z := 1. (* wire/field.rs:543-543 terminal_closed::TERMINAL_ID *)
Definition terminal_closed_EXIT_STATUS : Z := 2. (* wire/field.rs:545-545 terminal_closed::EXIT_STATUS *)
Definition terminal_closed_REASON : Z := 3. (* wire/field.rs:549-549 terminal_closed::REASON *)

Definition terminal_resize_TERMINAL_ID : Z := 1. (* wire/field.rs:555-555 terminal_resize::TERMINAL_ID *)
Definition terminal_resize_COLS : Z := 2. (* wire/field.rs:557-557 terminal_resize::COLS *)
Definition terminal_resize_ROWS : Z := 3. (* wire/field.rs:559-559 terminal_resize::ROWS *)

Definition command_REQUEST_ID : Z := 1. (* wire/field.rs:565-565 command::REQUEST_ID *)
Definition command_COMMAND : Z := 2. (* wire/field.rs:567-567 command::COMMAND *)

Definition command_result_REQUEST_ID : Z := 1. (* wire/field.rs:573-573 command_result::REQUEST_ID *)
Definition command_result_RESULT : Z := 2. (* wire/field.rs:575-575 command_result::RESULT *)

Definition subscribe_events_TERMINAL : Z := 1. (* wire/field.rs:581-581 subscribe_events::TERMINAL *)

Definition event_TERMINAL : Z := 1. (* wire/field.rs:587-587 event::TERMINAL *)
Definition event_EVENT : Z := 2. (* wire/field.rs:589-589 event::EVENT *)

Definition event_asked_ID : Z := 1. (* wire/field.rs:604-604 event_asked::ID *)
Definition event_asked_QUESTION : Z := 2. (* wire/field.rs:606-606 event_asked::QUESTION *)
Definition event_asked_SUGGESTION : Z := 3. (* wire/field.rs:609-609 event_asked::SUGGESTION *)
Definition event_asked_ELAPSED_SECONDS : Z := 4. (* wire/field.rs:612-612 event_asked::ELAPSED_SECONDS *)

Definition event_pane_spawned_KIND : Z := 1. (* wire/field.rs:623-623 event_pane_spawned::KIND *)
Definition event_pane_spawned_PARENT : Z := 2. (* wire/field.rs:625-625 event_pane_spawned::PARENT *)

(** ** Type bytes, tags and limits (wire/frame/mod.rs) *)

Definition MAX_HISTORY_CURSOR_BYTES : Z := 4 * 1024. (* wire/frame/mod.rs:30-30 MAX_HISTORY_CURSOR_BYTES *)
Definition MAX_HISTORY_PAGE_ROWS : Z := 4 * 1024. (* wire/frame/mod.rs:32-32 MAX_HISTORY_PAGE_ROWS *)
Definition MAX_INPUT_TERMINAL_REPLY_BYTES : Z := 64 * 1024. (* wire/frame/mod.rs:37-37 MAX_INPUT_TERMINAL_REPLY_BYTES *)
Definition MAX_FILE_UPLOAD_CHUNK : Z := 8 * 1024 * 1024. (* wire/frame/mod.rs:40-40 MAX_FILE_UPLOAD_CHUNK *)
Definition MAX_FILE_UPLOAD_SIZE : Z := 64 * 1024 * 1024. (* wire/frame/mod.rs:42-42 MAX_FILE_UPLOAD_SIZE *)
Definition MAX_APPEND_BYTES : Z := 64 * 1024. (* wire/frame/mod.rs:48-48 MAX_APPEND_BYTES *)
Definition MAX_RESOURCE_PROVIDER_BYTES : Z := 120. (* wire/frame/mod.rs:52-52 MAX_RESOURCE_PROVIDER_BYTES *)
Definition MAX_RESOURCE_NATIVE_ID_BYTES : Z := 1024. (* wire/frame/mod.rs:56-56 MAX_RESOURCE_NATIVE_ID_BYTES *)
Definition TYPE_HELLO : Z := 0x01. (* wire/frame/mod.rs:129-129 TYPE_HELLO *)
Definition TYPE_ATTACH : Z := 0x02. (* wire/frame/mod.rs:131-131 TYPE_ATTACH *)
Definition TYPE_DETACH : Z := 0x03. (* wire/frame/mod.rs:133-133 TYPE_DETACH *)
Definition TYPE_INPUT_KEY : Z := 0x10. (* wire/frame/mod.rs:135-135 TYPE_INPUT_KEY *)
Definition TYPE_INPUT_PASTE : Z := 0x11. (* wire/frame/mod.rs:137-137 TYPE_INPUT_PASTE *)
Definition TYPE_INPUT_MOUSE : Z := 0x12. (* wire/frame/mod.rs:139-139 TYPE_INPUT_MOUSE *)
Definition TYPE_INPUT_FOCUS : Z := 0x14. (* wire/frame/mod.rs:141-141 TYPE_INPUT_FOCUS *)
Definition TYPE_HISTORY_REQUEST : Z := 0x16. (* wire/frame/mod.rs:146-146 TYPE_HISTORY_REQUEST *)
Definition TYPE_INPUT_TERMINAL_REPLY : Z := 0x17. (* wire/frame/mod.rs:149-149 TYPE_INPUT_TERMINAL_REPLY *)
Definition TYPE_FRAME_ACK : Z := 0x21. (* wire/frame/mod.rs:155-155 TYPE_FRAME_ACK *)
Definition TYPE_VIEWPORT_RESIZE : Z := 0x20. (* wire/frame/mod.rs:163-163 TYPE_VIEWPORT_RESIZE *)
Definition TYPE_PING : Z := 0x7F. (* wire/frame/mod.rs:165-165 TYPE_PING *)
Definition TYPE_HELLO_OK : Z := 0x80. (* wire/frame/mod.rs:167-167 TYPE_HELLO_OK *)
Definition TYPE_ATTACHED : Z := 0x81. (* wire/frame/mod.rs:169-169 TYPE_ATTACHED *)
Definition TYPE_DETACHED : Z := 0x82. (* wire/frame/mod.rs:171-171 TYPE_DETACHED *)
Definition TYPE_ATTACH_READY : Z := 0x83. (* wire/frame/mod.rs:173-173 TYPE_ATTACH_READY *)
Definition TYPE_BELL : Z := 0xB0. (* wire/frame/mod.rs:175-175 TYPE_BELL *)
Definition TYPE_ERROR : Z := 0xC1. (* wire/frame/mod.rs:182-182 TYPE_ERROR *)
Definition TYPE_PONG : Z := 0xFF. (* wire/frame/mod.rs:184-184 TYPE_PONG *)
Definition TYPE_RESOURCE_OUTPUT : Z := 0x90. (* wire/frame/mod.rs:188-188 TYPE_RESOURCE_OUTPUT *)
Definition TYPE_BOOTSTRAP_BEGIN : Z := 0x93. (* wire/frame/mod.rs:192-192 TYPE_BOOTSTRAP_BEGIN *)
Definition TYPE_BOOTSTRAP_CHUNK : Z := 0x94. (* wire/frame/mod.rs:194-194 TYPE_BOOTSTRAP_CHUNK *)
Definition TYPE_BOOTSTRAP_READY : Z := 0x95. (* wire/frame/mod.rs:196-196 TYPE_BOOTSTRAP_READY *)
Definition TYPE_HISTORY_PAGE : Z := 0x96. (* wire/frame/mod.rs:198-198 TYPE_HISTORY_PAGE *)
Definition TYPE_BOOTSTRAP_TOMBSTONE : Z := 0x97. (* wire/frame/mod.rs:200-200 TYPE_BOOTSTRAP_TOMBSTONE *)
Definition TYPE_HISTORY_TOMBSTONE : Z := 0x98. (* wire/frame/mod.rs:203-203 TYPE_HISTORY_TOMBSTONE *)
Definition TYPE_HISTORY_REJECTED : Z := 0x99. (* wire/frame/mod.rs:206-206 TYPE_HISTORY_REJECTED *)
Definition TYPE_FRAME_COMPRESSED : Z := 0x9A. (* wire/frame/mod.rs:213-213 TYPE_FRAME_COMPRESSED *)
Definition TYPE_GET_METADATA : Z := 0x50. (* wire/frame/mod.rs:228-228 TYPE_GET_METADATA *)
Definition TYPE_SET_METADATA : Z := 0x51. (* wire/frame/mod.rs:230-230 TYPE_SET_METADATA *)
Definition TYPE_DELETE_METADATA : Z := 0x52. (* wire/frame/mod.rs:232-232 TYPE_DELETE_METADATA *)
Definition TYPE_LIST_METADATA : Z := 0x53. (* wire/frame/mod.rs:234-234 TYPE_LIST_METADATA *)
Definition TYPE_SUBSCRIBE_METADATA : Z := 0x54. (* wire/frame/mod.rs:236-236 TYPE_SUBSCRIBE_METADATA *)
Definition TYPE_METADATA_CHANGED : Z := 0xD0. (* wire/frame/mod.rs:239-239 TYPE_METADATA_CHANGED *)
Definition MAX_AGENT_SESSION_RECORD_BYTES : Z := 4 * 1024. (* wire/frame/mod.rs:372-372 MAX_AGENT_SESSION_RECORD_BYTES *)
Definition TYPE_METADATA_VALUE : Z := 0xD1. (* wire/frame/mod.rs:397-397 TYPE_METADATA_VALUE *)
Definition TYPE_METADATA_KEYS : Z := 0xD2. (* wire/frame/mod.rs:405-405 TYPE_METADATA_KEYS *)
Definition TYPE_LIST_DIRECTORY : Z := 0x55. (* wire/frame/mod.rs:412-412 TYPE_LIST_DIRECTORY *)
Definition TYPE_DIRECTORY_LISTING : Z := 0xD3. (* wire/frame/mod.rs:418-418 TYPE_DIRECTORY_LISTING *)
Definition TYPE_SPAWN_RESOURCE : Z := 0x22. (* wire/frame/mod.rs:442-442 TYPE_SPAWN_RESOURCE *)
Definition TYPE_RESIZE_TERMINAL : Z := 0x23. (* wire/frame/mod.rs:449-449 TYPE_RESIZE_TERMINAL *)
Definition TYPE_MOVE_RESOURCE : Z := 0x2A. (* wire/frame/mod.rs:470-470 TYPE_MOVE_RESOURCE *)
Definition TYPE_RESOURCE_MOVED : Z := 0xA8. (* wire/frame/mod.rs:477-477 TYPE_RESOURCE_MOVED *)
Definition TYPE_RESOURCE_CLOSED : Z := 0xA1. (* wire/frame/mod.rs:483-483 TYPE_RESOURCE_CLOSED *)
Definition TYPE_RESOURCE_SPAWNED : Z := 0xA2. (* wire/frame/mod.rs:488-488 TYPE_RESOURCE_SPAWNED *)
Definition SPAWN_RESULT_OK : Z := 0. (* wire/frame/mod.rs:498-498 SPAWN_RESULT_OK *)
Definition SPAWN_RESULT_ERR : Z := 1. (* wire/frame/mod.rs:500-500 SPAWN_RESULT_ERR *)
Definition SPAWN_ERROR_TAG_GROUP_NOT_FOUND : Z := 0. (* wire/frame/mod.rs:504-504 SPAWN_ERROR_TAG_GROUP_NOT_FOUND *)
Definition SPAWN_ERROR_TAG_SPAWN_FAILED : Z := 1. (* wire/frame/mod.rs:506-506 SPAWN_ERROR_TAG_SPAWN_FAILED *)
Definition SPAWN_ERROR_TAG_UNSUPPORTED_SATELLITE_ROUTE : Z := 2. (* wire/frame/mod.rs:508-508 SPAWN_ERROR_TAG_UNSUPPORTED_SATELLITE_ROUTE *)
Definition SPAWN_ERROR_TAG_SATELLITE_UNREACHABLE : Z := 3. (* wire/frame/mod.rs:510-510 SPAWN_ERROR_TAG_SATELLITE_UNREACHABLE *)
Definition SPAWN_ERROR_TAG_UNSUPPORTED_KIND : Z := 4. (* wire/frame/mod.rs:512-512 SPAWN_ERROR_TAG_UNSUPPORTED_KIND *)
Definition SPAWN_ERROR_TAG_PARENT_NOT_FOUND : Z := 5. (* wire/frame/mod.rs:514-514 SPAWN_ERROR_TAG_PARENT_NOT_FOUND *)
Definition SPAWN_ERROR_TAG_PARENT_KIND_MISMATCH : Z := 6. (* wire/frame/mod.rs:516-516 SPAWN_ERROR_TAG_PARENT_KIND_MISMATCH *)
Definition MOVE_RESULT_OK : Z := 0. (* wire/frame/mod.rs:521-521 MOVE_RESULT_OK *)
Definition MOVE_RESULT_ERR : Z := 1. (* wire/frame/mod.rs:523-523 MOVE_RESULT_ERR *)
Definition MOVE_ERROR_TAG_MOVE_FAILED : Z := 0. (* wire/frame/mod.rs:525-525 MOVE_ERROR_TAG_MOVE_FAILED *)
Definition MOVE_ERROR_TAG_UNSUPPORTED_SATELLITE_ROUTE : Z := 1. (* wire/frame/mod.rs:527-527 MOVE_ERROR_TAG_UNSUPPORTED_SATELLITE_ROUTE *)
Definition SCOPE_TAG_RESOURCE : Z := 0. (* wire/frame/mod.rs:531-531 SCOPE_TAG_RESOURCE *)
Definition SCOPE_TAG_GROUP : Z := 1. (* wire/frame/mod.rs:533-533 SCOPE_TAG_GROUP *)
Definition SCOPE_TAG_GLOBAL : Z := 2. (* wire/frame/mod.rs:535-535 SCOPE_TAG_GLOBAL *)
Definition TYPE_COMMAND : Z := 0x31. (* wire/frame/mod.rs:549-549 TYPE_COMMAND *)
Definition TYPE_COMMAND_RESULT : Z := 0xC2. (* wire/frame/mod.rs:551-551 TYPE_COMMAND_RESULT *)
Definition TYPE_SUBSCRIBE_EVENTS : Z := 0x41. (* wire/frame/mod.rs:568-568 TYPE_SUBSCRIBE_EVENTS *)
Definition TYPE_EVENT : Z := 0xB3. (* wire/frame/mod.rs:570-570 TYPE_EVENT *)
Definition EVENT_TAG_COMMAND_STARTED : Z := 0x00. (* wire/frame/mod.rs:581-581 EVENT_TAG_COMMAND_STARTED *)
Definition EVENT_TAG_COMMAND_FINISHED : Z := 0x01. (* wire/frame/mod.rs:583-583 EVENT_TAG_COMMAND_FINISHED *)
Definition EVENT_TAG_TITLE_CHANGED : Z := 0x02. (* wire/frame/mod.rs:585-585 EVENT_TAG_TITLE_CHANGED *)
Definition EVENT_TAG_BELL : Z := 0x03. (* wire/frame/mod.rs:587-587 EVENT_TAG_BELL *)
Definition EVENT_TAG_RESOURCE_SPAWNED : Z := 0x04. (* wire/frame/mod.rs:589-589 EVENT_TAG_RESOURCE_SPAWNED *)
Definition EVENT_TAG_RESOURCE_CLOSED : Z := 0x05. (* wire/frame/mod.rs:591-591 EVENT_TAG_RESOURCE_CLOSED *)
Definition EVENT_TAG_DIRTY : Z := 0x06. (* wire/frame/mod.rs:593-593 EVENT_TAG_DIRTY *)
Definition EVENT_TAG_IDLE : Z := 0x07. (* wire/frame/mod.rs:595-595 EVENT_TAG_IDLE *)
Definition EVENT_TAG_TERMINAL_CONTROL : Z := 0x08. (* wire/frame/mod.rs:601-601 EVENT_TAG_TERMINAL_CONTROL *)
Definition EVENT_TAG_ASKED : Z := 0x09. (* wire/frame/mod.rs:609-609 EVENT_TAG_ASKED *)
Definition EVENT_TAG_CWD_CHANGED : Z := 0x0a. (* wire/frame/mod.rs:615-615 EVENT_TAG_CWD_CHANGED *)
Definition COMMAND_TAG_ATTACH_RESOURCE : Z := 0x01. (* wire/frame/mod.rs:666-666 COMMAND_TAG_ATTACH_RESOURCE *)
Definition COMMAND_TAG_DETACH_RESOURCE : Z := 0x02. (* wire/frame/mod.rs:672-672 COMMAND_TAG_DETACH_RESOURCE *)
Definition COMMAND_TAG_KILL_RESOURCE : Z := 0x03. (* wire/frame/mod.rs:674-674 COMMAND_TAG_KILL_RESOURCE *)
Definition COMMAND_TAG_GET_STATE : Z := 0x05. (* wire/frame/mod.rs:676-676 COMMAND_TAG_GET_STATE *)
Definition COMMAND_TAG_GET_SCREEN : Z := 0x07. (* wire/frame/mod.rs:680-680 COMMAND_TAG_GET_SCREEN *)
Definition COMMAND_TAG_ROUTE_INPUT : Z := 0x08. (* wire/frame/mod.rs:686-686 COMMAND_TAG_ROUTE_INPUT *)
Definition COMMAND_TAG_KILL_RESOURCES : Z := 0x09. (* wire/frame/mod.rs:700-700 COMMAND_TAG_KILL_RESOURCES *)
Definition COMMAND_TAG_GET_TERMINAL_STATE : Z := 0x0c. (* wire/frame/mod.rs:710-710 COMMAND_TAG_GET_TERMINAL_STATE *)
Definition COMMAND_TAG_SUBSCRIBE_RESOURCE_EVENTS : Z := 0x0d. (* wire/frame/mod.rs:711-712 COMMAND_TAG_SUBSCRIBE_RESOURCE_EVENTS *)
Definition COMMAND_TAG_UPGRADE : Z := 0x0e. (* wire/frame/mod.rs:717-717 COMMAND_TAG_UPGRADE *)
Definition COMMAND_TAG_ACQUIRE_INPUT : Z := 0x0f. (* wire/frame/mod.rs:722-722 COMMAND_TAG_ACQUIRE_INPUT *)
Definition COMMAND_TAG_RELEASE_INPUT : Z := 0x10. (* wire/frame/mod.rs:725-725 COMMAND_TAG_RELEASE_INPUT *)
Definition COMMAND_TAG_SIGNAL_TERMINAL : Z := 0x11. (* wire/frame/mod.rs:730-730 COMMAND_TAG_SIGNAL_TERMINAL *)
Definition COMMAND_TAG_REPORT_ASKED : Z := 0x12. (* wire/frame/mod.rs:736-736 COMMAND_TAG_REPORT_ASKED *)
Definition COMMAND_TAG_DETACH_CLIENTS : Z := 0x13. (* wire/frame/mod.rs:742-742 COMMAND_TAG_DETACH_CLIENTS *)
Definition COMMAND_TAG_APPLY_INPUT : Z := 0x14. (* wire/frame/mod.rs:744-744 COMMAND_TAG_APPLY_INPUT *)
Definition MAX_APPLY_INPUT_EVENTS : Z := 256. (* wire/frame/mod.rs:746-746 MAX_APPLY_INPUT_EVENTS *)
Definition MAX_APPLY_INPUT_COMMAND_BODY : Z := 64 * 1024. (* wire/frame/mod.rs:748-748 MAX_APPLY_INPUT_COMMAND_BODY *)
Definition COMMAND_TAG_PUT_FILE : Z := 0x15. (* wire/frame/mod.rs:750-750 COMMAND_TAG_PUT_FILE *)
Definition COMMAND_TAG_SHUTDOWN : Z := 0x16. (* wire/frame/mod.rs:754-754 COMMAND_TAG_SHUTDOWN *)
Definition COMMAND_TAG_REPORT_AGENT_STATE : Z := 0x17. (* wire/frame/mod.rs:756-756 COMMAND_TAG_REPORT_AGENT_STATE *)
Definition COMMAND_TAG_GET_PERF : Z := 0x18. (* wire/frame/mod.rs:758-758 COMMAND_TAG_GET_PERF *)
Definition COMMAND_TAG_TRANSCRIBE : Z := 0x19. (* wire/frame/mod.rs:760-760 COMMAND_TAG_TRANSCRIBE *)
Definition COMMAND_TAG_APPEND_RESOURCE_OUTPUT : Z := 0x1a. (* wire/frame/mod.rs:764-764 COMMAND_TAG_APPEND_RESOURCE_OUTPUT *)
Definition COMMAND_TAG_KILL_RESOURCE_IF : Z := 0x1b. (* wire/frame/mod.rs:769-769 COMMAND_TAG_KILL_RESOURCE_IF *)
Definition INPUT_EVENT_TAG_KEY : Z := 0x00. (* wire/frame/mod.rs:774-774 INPUT_EVENT_TAG_KEY *)
Definition INPUT_EVENT_TAG_MOUSE : Z := 0x01. (* wire/frame/mod.rs:776-776 INPUT_EVENT_TAG_MOUSE *)
Definition INPUT_EVENT_TAG_FOCUS : Z := 0x02. (* wire/frame/mod.rs:778-778 INPUT_EVENT_TAG_FOCUS *)
Definition INPUT_EVENT_TAG_PASTE : Z := 0x03. (* wire/frame/mod.rs:780-780 INPUT_EVENT_TAG_PASTE *)
Definition STATE_SCOPE_TAG_SERVER : Z := 0x00. (* wire/frame/mod.rs:785-785 STATE_SCOPE_TAG_SERVER *)
Definition COMMAND_RESULT_TAG_OK : Z := 0x00. (* wire/frame/mod.rs:789-789 COMMAND_RESULT_TAG_OK *)
Definition COMMAND_RESULT_TAG_OK_WITH : Z := 0x01. (* wire/frame/mod.rs:791-791 COMMAND_RESULT_TAG_OK_WITH *)
Definition COMMAND_RESULT_TAG_ERROR : Z := 0x02. (* wire/frame/mod.rs:793-793 COMMAND_RESULT_TAG_ERROR *)
Definition COMMAND_VALUE_TAG_RESOURCE_ID : Z := 0x00. (* wire/frame/mod.rs:797-797 COMMAND_VALUE_TAG_RESOURCE_ID *)
Definition COMMAND_VALUE_TAG_GROUP_ID : Z := 0x01. (* wire/frame/mod.rs:799-799 COMMAND_VALUE_TAG_GROUP_ID *)
Definition COMMAND_VALUE_TAG_STATE : Z := 0x02. (* wire/frame/mod.rs:801-801 COMMAND_VALUE_TAG_STATE *)
Definition COMMAND_VALUE_TAG_JSON : Z := 0x03. (* wire/frame/mod.rs:803-803 COMMAND_VALUE_TAG_JSON *)
Definition COMMAND_VALUE_TAG_BYTES : Z := 0x04. (* wire/frame/mod.rs:805-805 COMMAND_VALUE_TAG_BYTES *)
Definition COMMAND_VALUE_TAG_FILE_UPLOAD : Z := 0x05. (* wire/frame/mod.rs:807-807 COMMAND_VALUE_TAG_FILE_UPLOAD *)
Definition ATTACH_TARGET_LAST : Z := 0. (* wire/frame/mod.rs:811-811 ATTACH_TARGET_LAST *)
Definition ATTACH_TARGET_BY_NAME : Z := 1. (* wire/frame/mod.rs:813-813 ATTACH_TARGET_BY_NAME *)
Definition ATTACH_TARGET_BY_ID : Z := 2. (* wire/frame/mod.rs:815-815 ATTACH_TARGET_BY_ID *)
Definition ATTACH_TARGET_CREATE_IF_MISSING : Z := 3. (* wire/frame/mod.rs:817-817 ATTACH_TARGET_CREATE_IF_MISSING *)

(** The type bytes of the catalog, in the order of [FrameType]. *)
(* wire/frame/mod.rs:74-126 FrameType *)
Definition frame_types : list Z :=
  [TYPE_HELLO;
   TYPE_ATTACH;
   TYPE_DETACH;
   TYPE_INPUT_KEY;
   TYPE_INPUT_PASTE;
   TYPE_INPUT_MOUSE;
   TYPE_INPUT_FOCUS;
   TYPE_HISTORY_REQUEST;
   TYPE_INPUT_TERMINAL_REPLY;
   TYPE_FRAME_ACK;
   TYPE_VIEWPORT_RESIZE;
   TYPE_PING;
   TYPE_HELLO_OK;
   TYPE_ATTACHED;
   TYPE_DETACHED;
   TYPE_ATTACH_READY;
   TYPE_BELL;
   TYPE_ERROR;
   TYPE_PONG;
   TYPE_RESOURCE_OUTPUT;
   TYPE_BOOTSTRAP_BEGIN;
   TYPE_BOOTSTRAP_CHUNK;
   TYPE_BOOTSTRAP_READY;
   TYPE_HISTORY_PAGE;
   TYPE_BOOTSTRAP_TOMBSTONE;
   TYPE_HISTORY_TOMBSTONE;
   TYPE_HISTORY_REJECTED;
   TYPE_FRAME_COMPRESSED;
   TYPE_GET_METADATA;
   TYPE_SET_METADATA;
   TYPE_DELETE_METADATA;
   TYPE_LIST_METADATA;
   TYPE_SUBSCRIBE_METADATA;
   TYPE_METADATA_CHANGED;
   TYPE_METADATA_VALUE;
   TYPE_METADATA_KEYS;
   TYPE_LIST_DIRECTORY;
   TYPE_DIRECTORY_LISTING;
   TYPE_SPAWN_RESOURCE;
   TYPE_RESIZE_TERMINAL;
   TYPE_MOVE_RESOURCE;
   TYPE_RESOURCE_MOVED;
   TYPE_RESOURCE_CLOSED;
   TYPE_RESOURCE_SPAWNED;
   TYPE_COMMAND;
   TYPE_COMMAND_RESULT;
   TYPE_SUBSCRIBE_EVENTS;
   TYPE_EVENT].

(** The command discriminants. *)
(* wire/frame/mod.rs:617-649 CommandTag *)
Definition command_tags : list Z :=
  [COMMAND_TAG_ATTACH_RESOURCE;
   COMMAND_TAG_DETACH_RESOURCE;
   COMMAND_TAG_KILL_RESOURCE;
   COMMAND_TAG_GET_STATE;
   COMMAND_TAG_GET_SCREEN;
   COMMAND_TAG_ROUTE_INPUT;
   COMMAND_TAG_KILL_RESOURCES;
   COMMAND_TAG_GET_TERMINAL_STATE;
   COMMAND_TAG_SUBSCRIBE_RESOURCE_EVENTS;
   COMMAND_TAG_UPGRADE;
   COMMAND_TAG_ACQUIRE_INPUT;
   COMMAND_TAG_RELEASE_INPUT;
   COMMAND_TAG_SIGNAL_TERMINAL;
   COMMAND_TAG_REPORT_ASKED;
   COMMAND_TAG_DETACH_CLIENTS;
   COMMAND_TAG_APPLY_INPUT;
   COMMAND_TAG_PUT_FILE;
   COMMAND_TAG_SHUTDOWN;
   COMMAND_TAG_REPORT_AGENT_STATE;
   COMMAND_TAG_GET_PERF;
   COMMAND_TAG_TRANSCRIBE;
   COMMAND_TAG_APPEND_RESOURCE_OUTPUT;
   COMMAND_TAG_KILL_RESOURCE_IF].
