(* ===== verification/Enums.v ===== *)
(** * Wire enumerations

    Every field-less enum of the protocol with its wire discriminant and its
    [from_wire] table ([caps.rs], [wire/frame/status.rs], [command.rs],
    [directory.rs], [input/*.rs]), behind one interface: [WireEnum] for the enums
    that refuse an unknown value, [WireEnumTotal] for those that map it to a
    default. *)

From S2P Require Import Prelude.

(** ** Interfaces *)

(** A closed enumeration: [from_wire] accepts exactly the discriminants. *)
Class WireEnum (A : Type) := {
  to_wire : A -> Z;
  from_wire : Z -> option A;
  from_to_wire a : from_wire (to_wire a) = Some a;
  to_from_wire z a : from_wire z = Some a -> to_wire a = z;
  to_wire_range a : u16b (to_wire a) = true
}.

(** An open enumeration: unknown values decode to [wire_default]. *)
Class WireEnumTotal (A : Type) := {
  to_wire_t : A -> Z;
  from_wire_t : Z -> A;
  wire_default : A;
  from_to_wire_t a : from_wire_t (to_wire_t a) = a;
  from_wire_t_unknown z :
    (forall a, to_wire_t a <> z) -> from_wire_t z = wire_default;
  to_wire_t_range a : u8b (to_wire_t a) = true
}.

#[global] Arguments to_wire : simpl never.
#[global] Arguments from_wire : simpl never.
#[global] Arguments to_wire_t : simpl never.
#[global] Arguments from_wire_t : simpl never.

(** Decidable equality comes from the discriminants. *)
#[export] Instance wire_enum_eq_dec `{WireEnum A} : EqDecision A.
Proof.
  intros a b. destruct (decide (to_wire a = to_wire b)) as [E|E].
  - left. apply (f_equal from_wire) in E. rewrite !from_to_wire in E. by injection E.
  - right. by intros ->.
Defined.

(** Case analysis on a table keyed by integer literals. *)
Ltac table_inv :=
  intros z a;
  destruct z as [|p|p];
  [ cbn; first [discriminate | by intros [= <-]]
  | repeat (first [ discriminate | by intros [= <-] | destruct p ])
  | cbn; discriminate ].

(** ** [ErrorCode] (wire/frame/status.rs) *)

(* wire/frame/status.rs:7-133 ErrorCode *)
Inductive ErrorCode : Type :=
| ErrorCode_VersionIncompatible | ErrorCode_UnknownMessageType | ErrorCode_MalformedMessage
| ErrorCode_FrameTooLarge | ErrorCode_CodecUnavailable | ErrorCode_NotAttached
| ErrorCode_AlreadyAttached | ErrorCode_SessionNotFound | ErrorCode_WindowNotFound
| ErrorCode_TerminalNotFound | ErrorCode_ClientNotFound
| ErrorCode_UnsupportedSatelliteRoute | ErrorCode_SatelliteUnreachable
| ErrorCode_InvalidCommand | ErrorCode_PermissionDenied | ErrorCode_ResourceExhausted
| ErrorCode_UnsafePaste | ErrorCode_InputLeaseHeld | ErrorCode_InputDeliveryUnknown
| ErrorCode_CanonicalLimitExceeded | ErrorCode_InputNotWritten | ErrorCode_WrongResourceKind
| ErrorCode_NotProducer | ErrorCode_RecordInvalid | ErrorCode_Overflow
| ErrorCode_PreconditionFailed | ErrorCode_InternalError.

(* wire/frame/status.rs:169-173 ErrorCode::as_wire *)
Definition ErrorCode_as_wire (x : ErrorCode) : Z :=
  match x with
  | ErrorCode_VersionIncompatible => 1
  | ErrorCode_UnknownMessageType => 2
  | ErrorCode_MalformedMessage => 3
  | ErrorCode_FrameTooLarge => 4
  | ErrorCode_CodecUnavailable => 6
  | ErrorCode_NotAttached => 100
  | ErrorCode_AlreadyAttached => 101
  | ErrorCode_SessionNotFound => 102
  | ErrorCode_WindowNotFound => 103
  | ErrorCode_TerminalNotFound => 104
  | ErrorCode_ClientNotFound => 105
  | ErrorCode_UnsupportedSatelliteRoute => 106
  | ErrorCode_SatelliteUnreachable => 107
  | ErrorCode_InvalidCommand => 200
  | ErrorCode_PermissionDenied => 201
  | ErrorCode_ResourceExhausted => 202
  | ErrorCode_UnsafePaste => 203
  | ErrorCode_InputLeaseHeld => 204
  | ErrorCode_InputDeliveryUnknown => 205
  | ErrorCode_CanonicalLimitExceeded => 206
  | ErrorCode_InputNotWritten => 207
  | ErrorCode_WrongResourceKind => 208
  | ErrorCode_NotProducer => 209
  | ErrorCode_RecordInvalid => 210
  | ErrorCode_Overflow => 211
  | ErrorCode_PreconditionFailed => 212
  | ErrorCode_InternalError => 65535
  end.

(* wire/frame/status.rs:214-248 ErrorCode::from_wire *)
Definition ErrorCode_from_wire (v : Z) : option ErrorCode :=
  match v with
  | 1 => Some ErrorCode_VersionIncompatible
  | 2 => Some ErrorCode_UnknownMessageType
  | 3 => Some ErrorCode_MalformedMessage
  | 4 => Some ErrorCode_FrameTooLarge
  | 6 => Some ErrorCode_CodecUnavailable
  | 100 => Some ErrorCode_NotAttached
  | 101 => Some ErrorCode_AlreadyAttached
  | 102 => Some ErrorCode_SessionNotFound
  | 103 => Some ErrorCode_WindowNotFound
  | 104 => Some ErrorCode_TerminalNotFound
  | 105 => Some ErrorCode_ClientNotFound
  | 106 => Some ErrorCode_UnsupportedSatelliteRoute
  | 107 => Some ErrorCode_SatelliteUnreachable
  | 200 => Some ErrorCode_InvalidCommand
  | 201 => Some ErrorCode_PermissionDenied
  | 202 => Some ErrorCode_ResourceExhausted
  | 203 => Some ErrorCode_UnsafePaste
  | 204 => Some ErrorCode_InputLeaseHeld
  | 205 => Some ErrorCode_InputDeliveryUnknown
  | 206 => Some ErrorCode_CanonicalLimitExceeded
  | 207 => Some ErrorCode_InputNotWritten
  | 208 => Some ErrorCode_WrongResourceKind
  | 209 => Some ErrorCode_NotProducer
  | 210 => Some ErrorCode_RecordInvalid
  | 211 => Some ErrorCode_Overflow
  | 212 => Some ErrorCode_PreconditionFailed
  | 65535 => Some ErrorCode_InternalError
  | _ => None
  end.

#[export] Instance ErrorCode_wire : WireEnum ErrorCode.
Proof.
  refine {| to_wire := ErrorCode_as_wire; from_wire := ErrorCode_from_wire |}.
  - intros []; reflexivity.
  - table_inv.
  - intros []; reflexivity.
Defined.

(** ** [TombstoneReason] (wire/frame/status.rs) *)

(* wire/frame/status.rs:250-269 TombstoneReason *)
Inductive TombstoneReason : Type :=
| TombstoneReason_RawReplayOverflow | TombstoneReason_OutboundGap | TombstoneReason_Resize
| TombstoneReason_RelayReconnect | TombstoneReason_ExplicitReattach
| TombstoneReason_CodecFailure | TombstoneReason_Other.

(* wire/frame/status.rs:272-276 TombstoneReason::as_wire *)
Definition TombstoneReason_as_wire (x : TombstoneReason) : Z :=
  match x with
  | TombstoneReason_RawReplayOverflow => 0
  | TombstoneReason_OutboundGap => 1
  | TombstoneReason_Resize => 2
  | TombstoneReason_RelayReconnect => 3
  | TombstoneReason_ExplicitReattach => 4
  | TombstoneReason_CodecFailure => 5
  | TombstoneReason_Other => 6
  end.

(* wire/frame/status.rs:278-291 TombstoneReason::from_wire *)
Definition TombstoneReason_from_wire (v : Z) : option TombstoneReason :=
  match v with
  | 0 => Some TombstoneReason_RawReplayOverflow
  | 1 => Some TombstoneReason_OutboundGap
  | 2 => Some TombstoneReason_Resize
  | 3 => Some TombstoneReason_RelayReconnect
  | 4 => Some TombstoneReason_ExplicitReattach
  | 5 => Some TombstoneReason_CodecFailure
  | 6 => Some TombstoneReason_Other
  | _ => None
  end.

#[export] Instance TombstoneReason_wire : WireEnum TombstoneReason.
Proof.
  refine {| to_wire := TombstoneReason_as_wire; from_wire := TombstoneReason_from_wire |}.
  - intros []; reflexivity.
  - table_inv.
  - intros []; reflexivity.
Defined.

(** ** [DetachReason] (wire/frame/status.rs) *)

(* wire/frame/status.rs:294-320 DetachReason *)
Inductive DetachReason : Type :=
| DetachReason_Requested | DetachReason_ServerShutdown | DetachReason_SessionKilled
| DetachReason_Replaced | DetachReason_ProtocolError | DetachReason_InternalError.

(* wire/frame/status.rs:323-327 DetachReason::as_wire *)
Definition DetachReason_as_wire (x : DetachReason) : Z :=
  match x with
  | DetachReason_Requested => 0
  | DetachReason_ServerShutdown => 1
  | DetachReason_SessionKilled => 2
  | DetachReason_Replaced => 3
  | DetachReason_ProtocolError => 4
  | DetachReason_InternalError => 255
  end.

(* wire/frame/status.rs:329-349 DetachReason::from_wire *)
Definition DetachReason_from_wire (v : Z) : option DetachReason :=
  match v with
  | 0 => Some DetachReason_Requested
  | 1 => Some DetachReason_ServerShutdown
  | 2 => Some DetachReason_SessionKilled
  | 3 => Some DetachReason_Replaced
  | 4 => Some DetachReason_ProtocolError
  | 255 => Some DetachReason_InternalError
  | _ => None
  end.

#[export] Instance DetachReason_wire : WireEnum DetachReason.
Proof.
  refine {| to_wire := DetachReason_as_wire; from_wire := DetachReason_from_wire |}.
  - intros []; reflexivity.
  - table_inv.
  - intros []; reflexivity.
Defined.

(** ** [HistoryTombstoneReason] (wire/frame/status.rs) *)

(* wire/frame/status.rs:438-459 HistoryTombstoneReason *)
Inductive HistoryTombstoneReason : Type :=
| HistoryTombstoneReason_Stale | HistoryTombstoneReason_Pruned
| HistoryTombstoneReason_Reset | HistoryTombstoneReason_Resize
| HistoryTombstoneReason_Expired | HistoryTombstoneReason_Released
| HistoryTombstoneReason_Limit | HistoryTombstoneReason_CodecFailure.

(* wire/frame/status.rs:462-466 HistoryTombstoneReason::as_wire *)
Definition HistoryTombstoneReason_as_wire (x : HistoryTombstoneReason) : Z :=
  match x with
  | HistoryTombstoneReason_Stale => 0
  | HistoryTombstoneReason_Pruned => 1
  | HistoryTombstoneReason_Reset => 2
  | HistoryTombstoneReason_Resize => 3
  | HistoryTombstoneReason_Expired => 4
  | HistoryTombstoneReason_Released => 5
  | HistoryTombstoneReason_Limit => 6
  | HistoryTombstoneReason_CodecFailure => 7
  end.

(* wire/frame/status.rs:468-482 HistoryTombstoneReason::from_wire *)
Definition HistoryTombstoneReason_from_wire (v : Z) : option HistoryTombstoneReason :=
  match v with
  | 0 => Some HistoryTombstoneReason_Stale
  | 1 => Some HistoryTombstoneReason_Pruned
  | 2 => Some HistoryTombstoneReason_Reset
  | 3 => Some HistoryTombstoneReason_Resize
  | 4 => Some HistoryTombstoneReason_Expired
  | 5 => Some HistoryTombstoneReason_Released
  | 6 => Some HistoryTombstoneReason_Limit
  | 7 => Some HistoryTombstoneReason_CodecFailure
  | _ => None
  end.

#[export] Instance HistoryTombstoneReason_wire : WireEnum HistoryTombstoneReason.
Proof.
  refine {| to_wire := HistoryTombstoneReason_as_wire; from_wire := HistoryTombstoneReason_from_wire |}.
  - intros []; reflexivity.
  - table_inv.
  - intros []; reflexivity.
Defined.

(** ** [HistoryRejectionReason] (wire/frame/status.rs) *)

(* wire/frame/status.rs:485-496 HistoryRejectionReason *)
Inductive HistoryRejectionReason : Type :=
| HistoryRejectionReason_ZeroLimit | HistoryRejectionReason_TooSmall
| HistoryRejectionReason_Busy.

(* wire/frame/status.rs:499-503 HistoryRejectionReason::as_wire *)
Definition HistoryRejectionReason_as_wire (x : HistoryRejectionReason) : Z :=
  match x with
  | HistoryRejectionReason_ZeroLimit => 0
  | HistoryRejectionReason_TooSmall => 1
  | HistoryRejectionReason_Busy => 2
  end.

(* wire/frame/status.rs:505-514 HistoryRejectionReason::from_wire *)
Definition HistoryRejectionReason_from_wire (v : Z) : option HistoryRejectionReason :=
  match v with
  | 0 => Some HistoryRejectionReason_ZeroLimit
  | 1 => Some HistoryRejectionReason_TooSmall
  | 2 => Some HistoryRejectionReason_Busy
  | _ => None
  end.

#[export] Instance HistoryRejectionReason_wire : WireEnum HistoryRejectionReason.
Proof.
  refine {| to_wire := HistoryRejectionReason_as_wire; from_wire := HistoryRejectionReason_from_wire |}.
  - intros []; reflexivity.
  - table_inv.
  - intros []; reflexivity.
Defined.

(** ** [CloseReason] (wire/frame/status.rs) *)

(* wire/frame/status.rs:366-395 CloseReason *)
Inductive CloseReason : Type :=
| CloseReason_Exited | CloseReason_Killed | CloseReason_ParentClosed
| CloseReason_ServerShutdown | CloseReason_Unknown.

(* wire/frame/status.rs:398-403 CloseReason::as_wire *)
Definition CloseReason_as_wire (x : CloseReason) : Z :=
  match x with
  | CloseReason_Exited => 0
  | CloseReason_Killed => 1
  | CloseReason_ParentClosed => 2
  | CloseReason_ServerShutdown => 3
  | CloseReason_Unknown => 255
  end.

(* wire/frame/status.rs:405-416 CloseReason::from_wire *)
Definition CloseReason_from_wire (v : Z) : CloseReason :=
  match v with
  | 0 => CloseReason_Exited
  | 1 => CloseReason_Killed
  | 2 => CloseReason_ParentClosed
  | 3 => CloseReason_ServerShutdown
  | _ => CloseReason_Unknown
  end.

#[export] Instance CloseReason_wire : WireEnumTotal CloseReason.
Proof.
  refine {| to_wire_t := CloseReason_as_wire; from_wire_t := CloseReason_from_wire; wire_default := CloseReason_Unknown |}.
  - intros []; reflexivity.
  - intros z H.
    pose proof (H CloseReason_Exited); simpl in *.
    pose proof (H CloseReason_Killed); simpl in *.
    pose proof (H CloseReason_ParentClosed); simpl in *.
    pose proof (H CloseReason_ServerShutdown); simpl in *.
    pose proof (H CloseReason_Unknown); simpl in *.
    destruct z as [|p|p]; repeat (first [reflexivity | destruct p]); congruence.
  - intros []; reflexivity.
Defined.

(** ** [ColorSupport] (caps.rs) *)

(* caps.rs:16-45 ColorSupport *)
Inductive ColorSupport : Type :=
| ColorSupport_TrueColor | ColorSupport_Indexed256 | ColorSupport_Indexed16
| ColorSupport_Mono.

(* caps.rs:48-63 ColorSupport::as_wire *)
Definition ColorSupport_as_wire (x : ColorSupport) : Z :=
  match x with
  | ColorSupport_TrueColor => 0
  | ColorSupport_Indexed256 => 1
  | ColorSupport_Indexed16 => 2
  | ColorSupport_Mono => 3
  end.

(* caps.rs:65-78 ColorSupport::from_wire *)
Definition ColorSupport_from_wire (v : Z) : option ColorSupport :=
  match v with
  | 0 => Some ColorSupport_TrueColor
  | 1 => Some ColorSupport_Indexed256
  | 2 => Some ColorSupport_Indexed16
  | 3 => Some ColorSupport_Mono
  | _ => None
  end.

#[export] Instance ColorSupport_wire : WireEnum ColorSupport.
Proof.
  refine {| to_wire := ColorSupport_as_wire; from_wire := ColorSupport_from_wire |}.
  - intros []; reflexivity.
  - table_inv.
  - intros []; reflexivity.
Defined.

(** ** [OutputMode] (caps.rs) *)

(* caps.rs:81-108 OutputMode *)
Inductive OutputMode : Type :=
| OutputMode_Raw | OutputMode_StateSync.

(* caps.rs:111-119 OutputMode::as_wire *)
Definition OutputMode_as_wire (x : OutputMode) : Z :=
  match x with
  | OutputMode_Raw => 0
  | OutputMode_StateSync => 1
  end.

(* caps.rs:121-131 OutputMode::from_wire *)
Definition OutputMode_from_wire (v : Z) : OutputMode :=
  match v with
  | 1 => OutputMode_StateSync
  | _ => OutputMode_Raw
  end.

#[export] Instance OutputMode_wire : WireEnumTotal OutputMode.
Proof.
  refine {| to_wire_t := OutputMode_as_wire; from_wire_t := OutputMode_from_wire; wire_default := OutputMode_Raw |}.
  - intros []; reflexivity.
  - intros z H.
    pose proof (H OutputMode_Raw); simpl in *.
    pose proof (H OutputMode_StateSync); simpl in *.
    destruct z as [|p|p]; repeat (first [reflexivity | destruct p]); congruence.
  - intros []; reflexivity.
Defined.

(** ** [Compression] (caps.rs) *)

(* caps.rs:149-166 Compression *)
Inductive Compression : Type :=
| Compression_None | Compression_Deflate.

(* caps.rs:169-173 Compression::as_u8 *)
Definition Compression_as_u8 (x : Compression) : Z :=
  match x with
  | Compression_None => 0
  | Compression_Deflate => 1
  end.

(* caps.rs:175-188 Compression::from_u8 *)
Definition Compression_from_u8 (v : Z) : Compression :=
  match v with
  | 1 => Compression_Deflate
  | _ => Compression_None
  end.

#[export] Instance Compression_wire : WireEnumTotal Compression.
Proof.
  refine {| to_wire_t := Compression_as_u8; from_wire_t := Compression_from_u8; wire_default := Compression_None |}.
  - intros []; reflexivity.
  - intros z H.
    pose proof (H Compression_None); simpl in *.
    pose proof (H Compression_Deflate); simpl in *.
    destruct z as [|p|p]; repeat (first [reflexivity | destruct p]); congruence.
  - intros []; reflexivity.
Defined.

(** ** [EngineCodec] (caps.rs) *)

(* caps.rs:396-406 EngineCodec *)
Inductive EngineCodec : Type :=
| EngineCodec_LibghosttyCheckpointV2.

(* caps.rs:409-413 EngineCodec::as_wire *)
Definition EngineCodec_as_wire (x : EngineCodec) : Z :=
  match x with
  | EngineCodec_LibghosttyCheckpointV2 => 2
  end.

(* caps.rs:415-422 EngineCodec::from_wire *)
Definition EngineCodec_from_wire (v : Z) : option EngineCodec :=
  match v with
  | 2 => Some EngineCodec_LibghosttyCheckpointV2
  | _ => None
  end.

#[export] Instance EngineCodec_wire : WireEnum EngineCodec.
Proof.
  refine {| to_wire := EngineCodec_as_wire; from_wire := EngineCodec_from_wire |}.
  - intros []; reflexivity.
  - table_inv.
  - intros []; reflexivity.
Defined.

(** ** [DirectoryErrorCode] (wire/frame/directory.rs) *)

(* wire/frame/directory.rs:46-58 DirectoryErrorCode *)
Inductive DirectoryErrorCode : Type :=
| DirectoryErrorCode_NotFound | DirectoryErrorCode_PermissionDenied
| DirectoryErrorCode_NotADirectory | DirectoryErrorCode_Other.

(* wire/frame/directory.rs:61-70 DirectoryErrorCode::as_wire *)
Definition DirectoryErrorCode_as_wire (x : DirectoryErrorCode) : Z :=
  match x with
  | DirectoryErrorCode_NotFound => 0
  | DirectoryErrorCode_PermissionDenied => 1
  | DirectoryErrorCode_NotADirectory => 2
  | DirectoryErrorCode_Other => 3
  end.

(* wire/frame/directory.rs:72-81 DirectoryErrorCode::from_wire *)
Definition DirectoryErrorCode_from_wire (v : Z) : DirectoryErrorCode :=
  match v with
  | 0 => DirectoryErrorCode_NotFound
  | 1 => DirectoryErrorCode_PermissionDenied
  | 2 => DirectoryErrorCode_NotADirectory
  | _ => DirectoryErrorCode_Other
  end.

#[export] Instance DirectoryErrorCode_wire : WireEnumTotal DirectoryErrorCode.
Proof.
  refine {| to_wire_t := DirectoryErrorCode_as_wire; from_wire_t := DirectoryErrorCode_from_wire; wire_default := DirectoryErrorCode_Other |}.
  - intros []; reflexivity.
  - intros z H.
    pose proof (H DirectoryErrorCode_NotFound); simpl in *.
    pose proof (H DirectoryErrorCode_PermissionDenied); simpl in *.
    pose proof (H DirectoryErrorCode_NotADirectory); simpl in *.
    pose proof (H DirectoryErrorCode_Other); simpl in *.
    destruct z as [|p|p]; repeat (first [reflexivity | destruct p]); congruence.
  - intros []; reflexivity.
Defined.

(** ** [ResourceEventType] (wire/frame/command.rs) *)

(* wire/frame/command.rs:14-33 ResourceEventType *)
Inductive ResourceEventType : Type :=
| ResourceEventType_ShellStateChanged | ResourceEventType_CommandStarted
| ResourceEventType_CommandEnded | ResourceEventType_OutputReceived
| ResourceEventType_PromptReady | ResourceEventType_GridChanged
| ResourceEventType_CwdChanged.

(* wire/frame/command.rs:36-40 ResourceEventType::to_u8 *)
Definition ResourceEventType_to_u8 (x : ResourceEventType) : Z :=
  match x with
  | ResourceEventType_ShellStateChanged => 0
  | ResourceEventType_CommandStarted => 1
  | ResourceEventType_CommandEnded => 2
  | ResourceEventType_OutputReceived => 3
  | ResourceEventType_PromptReady => 4
  | ResourceEventType_GridChanged => 5
  | ResourceEventType_CwdChanged => 6
  end.

(* wire/frame/command.rs:42-55 ResourceEventType::from_u8 *)
Definition ResourceEventType_from_u8 (v : Z) : option ResourceEventType :=
  match v with
  | 0 => Some ResourceEventType_ShellStateChanged
  | 1 => Some ResourceEventType_CommandStarted
  | 2 => Some ResourceEventType_CommandEnded
  | 3 => Some ResourceEventType_OutputReceived
  | 4 => Some ResourceEventType_PromptReady
  | 5 => Some ResourceEventType_GridChanged
  | 6 => Some ResourceEventType_CwdChanged
  | _ => None
  end.

#[export] Instance ResourceEventType_wire : WireEnum ResourceEventType.
Proof.
  refine {| to_wire := ResourceEventType_to_u8; from_wire := ResourceEventType_from_u8 |}.
  - intros []; reflexivity.
  - table_inv.
  - intros []; reflexivity.
Defined.

(** ** [InputMode] (wire/frame/command.rs) *)

(* wire/frame/command.rs:71-84 InputMode *)
Inductive InputMode : Type :=
| InputMode_Cooperative | InputMode_Seize.

(* wire/frame/command.rs:87-91 InputMode::to_u8 *)
Definition InputMode_to_u8 (x : InputMode) : Z :=
  match x with
  | InputMode_Cooperative => 0
  | InputMode_Seize => 1
  end.

(* wire/frame/command.rs:93-101 InputMode::from_u8 *)
Definition InputMode_from_u8 (v : Z) : option InputMode :=
  match v with
  | 0 => Some InputMode_Cooperative
  | 1 => Some InputMode_Seize
  | _ => None
  end.

#[export] Instance InputMode_wire : WireEnum InputMode.
Proof.
  refine {| to_wire := InputMode_to_u8; from_wire := InputMode_from_u8 |}.
  - intros []; reflexivity.
  - table_inv.
  - intros []; reflexivity.
Defined.

(** ** [TerminalSignal] (wire/frame/command.rs) *)

(* wire/frame/command.rs:104-123 TerminalSignal *)
Inductive TerminalSignal : Type :=
| TerminalSignal_Interrupt | TerminalSignal_Freeze | TerminalSignal_Resume
| TerminalSignal_Terminate | TerminalSignal_Kill.

(* wire/frame/command.rs:126-130 TerminalSignal::to_u8 *)
Definition TerminalSignal_to_u8 (x : TerminalSignal) : Z :=
  match x with
  | TerminalSignal_Interrupt => 0
  | TerminalSignal_Freeze => 1
  | TerminalSignal_Resume => 2
  | TerminalSignal_Terminate => 3
  | TerminalSignal_Kill => 4
  end.

(* wire/frame/command.rs:132-143 TerminalSignal::from_u8 *)
Definition TerminalSignal_from_u8 (v : Z) : option TerminalSignal :=
  match v with
  | 0 => Some TerminalSignal_Interrupt
  | 1 => Some TerminalSignal_Freeze
  | 2 => Some TerminalSignal_Resume
  | 3 => Some TerminalSignal_Terminate
  | 4 => Some TerminalSignal_Kill
  | _ => None
  end.

#[export] Instance TerminalSignal_wire : WireEnum TerminalSignal.
Proof.
  refine {| to_wire := TerminalSignal_to_u8; from_wire := TerminalSignal_from_u8 |}.
  - intros []; reflexivity.
  - table_inv.
  - intros []; reflexivity.
Defined.

(** ** [ReportedAgentState] (wire/frame/command.rs) *)

(* wire/frame/command.rs:146-155 ReportedAgentState *)
Inductive ReportedAgentState : Type :=
| ReportedAgentState_Working | ReportedAgentState_Blocked | ReportedAgentState_Done.

(* wire/frame/command.rs:158-162 ReportedAgentState::to_u8 *)
Definition ReportedAgentState_to_u8 (x : ReportedAgentState) : Z :=
  match x with
  | ReportedAgentState_Working => 0
  | ReportedAgentState_Blocked => 1
  | ReportedAgentState_Done => 2
  end.

(* wire/frame/command.rs:164-173 ReportedAgentState::from_u8 *)
Definition ReportedAgentState_from_u8 (v : Z) : option ReportedAgentState :=
  match v with
  | 0 => Some ReportedAgentState_Working
  | 1 => Some ReportedAgentState_Blocked
  | 2 => Some ReportedAgentState_Done
  | _ => None
  end.

#[export] Instance ReportedAgentState_wire : WireEnum ReportedAgentState.
Proof.
  refine {| to_wire := ReportedAgentState_to_u8; from_wire := ReportedAgentState_from_u8 |}.
  - intros []; reflexivity.
  - table_inv.
  - intros []; reflexivity.
Defined.

(** ** [ResourceLifecycle] (wire/frame/command.rs) *)

(* wire/frame/command.rs:176-190 ResourceLifecycle *)
Inductive ResourceLifecycle : Type :=
| ResourceLifecycle_Running | ResourceLifecycle_Frozen | ResourceLifecycle_Exited.

(* wire/frame/command.rs:193-197 ResourceLifecycle::to_u8 *)
Definition ResourceLifecycle_to_u8 (x : ResourceLifecycle) : Z :=
  match x with
  | ResourceLifecycle_Running => 0
  | ResourceLifecycle_Frozen => 1
  | ResourceLifecycle_Exited => 2
  end.

(* wire/frame/command.rs:199-208 ResourceLifecycle::from_u8 *)
Definition ResourceLifecycle_from_u8 (v : Z) : option ResourceLifecycle :=
  match v with
  | 0 => Some ResourceLifecycle_Running
  | 1 => Some ResourceLifecycle_Frozen
  | 2 => Some ResourceLifecycle_Exited
  | _ => None
  end.

#[export] Instance ResourceLifecycle_wire : WireEnum ResourceLifecycle.
Proof.
  refine {| to_wire := ResourceLifecycle_to_u8; from_wire := ResourceLifecycle_from_u8 |}.
  - intros []; reflexivity.
  - table_inv.
  - intros []; reflexivity.
Defined.

(** ** [ControlAction] (wire/frame/command.rs) *)

(* wire/frame/command.rs:211-236 ControlAction *)
Inductive ControlAction : Type :=
| ControlAction_Acquired | ControlAction_Seized | ControlAction_Released
| ControlAction_Interrupted | ControlAction_Frozen | ControlAction_Resumed
| ControlAction_Terminated | ControlAction_Killed | ControlAction_Exited.

(* wire/frame/command.rs:239-243 ControlAction::to_u8 *)
Definition ControlAction_to_u8 (x : ControlAction) : Z :=
  match x with
  | ControlAction_Acquired => 0
  | ControlAction_Seized => 1
  | ControlAction_Released => 2
  | ControlAction_Interrupted => 3
  | ControlAction_Frozen => 4
  | ControlAction_Resumed => 5
  | ControlAction_Terminated => 6
  | ControlAction_Killed => 7
  | ControlAction_Exited => 8
  end.

(* wire/frame/command.rs:245-260 ControlAction::from_u8 *)
Definition ControlAction_from_u8 (v : Z) : option ControlAction :=
  match v with
  | 0 => Some ControlAction_Acquired
  | 1 => Some ControlAction_Seized
  | 2 => Some ControlAction_Released
  | 3 => Some ControlAction_Interrupted
  | 4 => Some ControlAction_Frozen
  | 5 => Some ControlAction_Resumed
  | 6 => Some ControlAction_Terminated
  | 7 => Some ControlAction_Killed
  | 8 => Some ControlAction_Exited
  | _ => None
  end.

#[export] Instance ControlAction_wire : WireEnum ControlAction.
Proof.
  refine {| to_wire := ControlAction_to_u8; from_wire := ControlAction_from_u8 |}.
  - intros []; reflexivity.
  - table_inv.
  - intros []; reflexivity.
Defined.

(** ** [KeyAction] (input/key.rs) *)

(* input/key.rs:12-23 KeyAction *)
Inductive KeyAction : Type :=
| KeyAction_Release | KeyAction_Press | KeyAction_Repeat.

(* input/key.rs:26-30 KeyAction::to_u32 *)
Definition KeyAction_to_u32 (x : KeyAction) : Z :=
  match x with
  | KeyAction_Release => 0
  | KeyAction_Press => 1
  | KeyAction_Repeat => 2
  end.

(* input/key.rs:32-41 KeyAction::from_u32 *)
Definition KeyAction_from_u32 (v : Z) : option KeyAction :=
  match v with
  | 0 => Some KeyAction_Release
  | 1 => Some KeyAction_Press
  | 2 => Some KeyAction_Repeat
  | _ => None
  end.

#[export] Instance KeyAction_wire : WireEnum KeyAction.
Proof.
  refine {| to_wire := KeyAction_to_u32; from_wire := KeyAction_from_u32 |}.
  - intros []; reflexivity.
  - table_inv.
  - intros []; reflexivity.
Defined.

(** ** [MouseAction] (input/mouse.rs) *)

(* input/mouse.rs:17-27 MouseAction *)
Inductive MouseAction : Type :=
| MouseAction_Press | MouseAction_Release | MouseAction_Motion.

(* input/mouse.rs:17-27 MouseAction as u32 *)
Definition MouseAction_as_wire (x : MouseAction) : Z :=
  match x with
  | MouseAction_Press => 0
  | MouseAction_Release => 1
  | MouseAction_Motion => 2
  end.

(* input/mouse.rs:29-39 MouseAction::try_from *)
Definition MouseAction_try_from (v : Z) : option MouseAction :=
  match v with
  | 0 => Some MouseAction_Press
  | 1 => Some MouseAction_Release
  | 2 => Some MouseAction_Motion
  | _ => None
  end.

#[export] Instance MouseAction_wire : WireEnum MouseAction.
Proof.
  refine {| to_wire := MouseAction_as_wire; from_wire := MouseAction_try_from |}.
  - intros []; reflexivity.
  - table_inv.
  - intros []; reflexivity.
Defined.

(** ** [MouseButton] (input/mouse.rs) *)

(* input/mouse.rs:41-58 MouseButton *)
Inductive MouseButton : Type :=
| MouseButton_Unknown | MouseButton_Left | MouseButton_Right | MouseButton_Middle
| MouseButton_Four | MouseButton_Five | MouseButton_Six | MouseButton_Seven
| MouseButton_Eight | MouseButton_Nine | MouseButton_Ten | MouseButton_Eleven.

(* input/mouse.rs:41-58 MouseButton as u32 *)
Definition MouseButton_as_wire (x : MouseButton) : Z :=
  match x with
  | MouseButton_Unknown => 0
  | MouseButton_Left => 1
  | MouseButton_Right => 2
  | MouseButton_Middle => 3
  | MouseButton_Four => 4
  | MouseButton_Five => 5
  | MouseButton_Six => 6
  | MouseButton_Seven => 7
  | MouseButton_Eight => 8
  | MouseButton_Nine => 9
  | MouseButton_Ten => 10
  | MouseButton_Eleven => 11
  end.

(* input/mouse.rs:60-79 MouseButton::try_from *)
Definition MouseButton_try_from (v : Z) : option MouseButton :=
  match v with
  | 0 => Some MouseButton_Unknown
  | 1 => Some MouseButton_Left
  | 2 => Some MouseButton_Right
  | 3 => Some MouseButton_Middle
  | 4 => Some MouseButton_Four
  | 5 => Some MouseButton_Five
  | 6 => Some MouseButton_Six
  | 7 => Some MouseButton_Seven
  | 8 => Some MouseButton_Eight
  | 9 => Some MouseButton_Nine
  | 10 => Some MouseButton_Ten
  | 11 => Some MouseButton_Eleven
  | _ => None
  end.

#[export] Instance MouseButton_wire : WireEnum MouseButton.
Proof.
  refine {| to_wire := MouseButton_as_wire; from_wire := MouseButton_try_from |}.
  - intros []; reflexivity.
  - table_inv.
  - intros []; reflexivity.
Defined.

(** ** [PhysicalKey] (input/key.rs) *)

(* input/key.rs:78-267 PhysicalKey *)
Inductive PhysicalKey : Type :=
| PhysicalKey_Unidentified | PhysicalKey_Backquote | PhysicalKey_Backslash
| PhysicalKey_BracketLeft | PhysicalKey_BracketRight | PhysicalKey_Comma
| PhysicalKey_Digit0 | PhysicalKey_Digit1 | PhysicalKey_Digit2 | PhysicalKey_Digit3
| PhysicalKey_Digit4 | PhysicalKey_Digit5 | PhysicalKey_Digit6 | PhysicalKey_Digit7
| PhysicalKey_Digit8 | PhysicalKey_Digit9 | PhysicalKey_Equal | PhysicalKey_IntlBackslash
| PhysicalKey_IntlRo | PhysicalKey_IntlYen | PhysicalKey_A | PhysicalKey_B | PhysicalKey_C
| PhysicalKey_D | PhysicalKey_E | PhysicalKey_F | PhysicalKey_G | PhysicalKey_H
| PhysicalKey_I | PhysicalKey_J | PhysicalKey_K | PhysicalKey_L | PhysicalKey_M
| PhysicalKey_N | PhysicalKey_O | PhysicalKey_P | PhysicalKey_Q | PhysicalKey_R
| PhysicalKey_S | PhysicalKey_T | PhysicalKey_U | PhysicalKey_V | PhysicalKey_W
| PhysicalKey_X | PhysicalKey_Y | PhysicalKey_Z | PhysicalKey_Minus | PhysicalKey_Period
| PhysicalKey_Quote | PhysicalKey_Semicolon | PhysicalKey_Slash | PhysicalKey_AltLeft
| PhysicalKey_AltRight | PhysicalKey_Backspace | PhysicalKey_CapsLock
| PhysicalKey_ContextMenu | PhysicalKey_ControlLeft | PhysicalKey_ControlRight
| PhysicalKey_Enter | PhysicalKey_MetaLeft | PhysicalKey_MetaRight | PhysicalKey_ShiftLeft
| PhysicalKey_ShiftRight | PhysicalKey_Space | PhysicalKey_Tab | PhysicalKey_Convert
| PhysicalKey_KanaMode | PhysicalKey_NonConvert | PhysicalKey_Delete | PhysicalKey_End
| PhysicalKey_Help | PhysicalKey_Home | PhysicalKey_Insert | PhysicalKey_PageDown
| PhysicalKey_PageUp | PhysicalKey_ArrowDown | PhysicalKey_ArrowLeft
| PhysicalKey_ArrowRight | PhysicalKey_ArrowUp | PhysicalKey_NumLock | PhysicalKey_Numpad0
| PhysicalKey_Numpad1 | PhysicalKey_Numpad2 | PhysicalKey_Numpad3 | PhysicalKey_Numpad4
| PhysicalKey_Numpad5 | PhysicalKey_Numpad6 | PhysicalKey_Numpad7 | PhysicalKey_Numpad8
| PhysicalKey_Numpad9 | PhysicalKey_NumpadAdd | PhysicalKey_NumpadBackspace
| PhysicalKey_NumpadClear | PhysicalKey_NumpadClearEntry | PhysicalKey_NumpadComma
| PhysicalKey_NumpadDecimal | PhysicalKey_NumpadDivide | PhysicalKey_NumpadEnter
| PhysicalKey_NumpadEqual | PhysicalKey_NumpadMemoryAdd | PhysicalKey_NumpadMemoryClear
| PhysicalKey_NumpadMemoryRecall | PhysicalKey_NumpadMemoryStore
| PhysicalKey_NumpadMemorySubtract | PhysicalKey_NumpadMultiply
| PhysicalKey_NumpadParenLeft | PhysicalKey_NumpadParenRight | PhysicalKey_NumpadSubtract
| PhysicalKey_NumpadSeparator | PhysicalKey_NumpadUp | PhysicalKey_NumpadDown
| PhysicalKey_NumpadRight | PhysicalKey_NumpadLeft | PhysicalKey_NumpadBegin
| PhysicalKey_NumpadHome | PhysicalKey_NumpadEnd | PhysicalKey_NumpadInsert
| PhysicalKey_NumpadDelete | PhysicalKey_NumpadPageUp | PhysicalKey_NumpadPageDown
| PhysicalKey_Escape | PhysicalKey_F1 | PhysicalKey_F2 | PhysicalKey_F3 | PhysicalKey_F4
| PhysicalKey_F5 | PhysicalKey_F6 | PhysicalKey_F7 | PhysicalKey_F8 | PhysicalKey_F9
| PhysicalKey_F10 | PhysicalKey_F11 | PhysicalKey_F12 | PhysicalKey_F13 | PhysicalKey_F14
| PhysicalKey_F15 | PhysicalKey_F16 | PhysicalKey_F17 | PhysicalKey_F18 | PhysicalKey_F19
| PhysicalKey_F20 | PhysicalKey_F21 | PhysicalKey_F22 | PhysicalKey_F23 | PhysicalKey_F24
| PhysicalKey_F25 | PhysicalKey_Fn | PhysicalKey_FnLock | PhysicalKey_PrintScreen
| PhysicalKey_ScrollLock | PhysicalKey_Pause | PhysicalKey_BrowserBack
| PhysicalKey_BrowserFavorites | PhysicalKey_BrowserForward | PhysicalKey_BrowserHome
| PhysicalKey_BrowserRefresh | PhysicalKey_BrowserSearch | PhysicalKey_BrowserStop
| PhysicalKey_Eject | PhysicalKey_LaunchApp1 | PhysicalKey_LaunchApp2
| PhysicalKey_LaunchMail | PhysicalKey_MediaPlayPause | PhysicalKey_MediaSelect
| PhysicalKey_MediaStop | PhysicalKey_MediaTrackNext | PhysicalKey_MediaTrackPrevious
| PhysicalKey_Power | PhysicalKey_Sleep | PhysicalKey_AudioVolumeDown
| PhysicalKey_AudioVolumeMute | PhysicalKey_AudioVolumeUp | PhysicalKey_WakeUp
| PhysicalKey_Copy | PhysicalKey_Cut | PhysicalKey_Paste.

(* input/key.rs:78-267 PhysicalKey as u32 *)
Definition PhysicalKey_as_wire (x : PhysicalKey) : Z :=
  match x with
  | PhysicalKey_Unidentified => 0
  | PhysicalKey_Backquote => 1
  | PhysicalKey_Backslash => 2
  | PhysicalKey_BracketLeft => 3
  | PhysicalKey_BracketRight => 4
  | PhysicalKey_Comma => 5
  | PhysicalKey_Digit0 => 6
  | PhysicalKey_Digit1 => 7
  | PhysicalKey_Digit2 => 8
  | PhysicalKey_Digit3 => 9
  | PhysicalKey_Digit4 => 10
  | PhysicalKey_Digit5 => 11
  | PhysicalKey_Digit6 => 12
  | PhysicalKey_Digit7 => 13
  | PhysicalKey_Digit8 => 14
  | PhysicalKey_Digit9 => 15
  | PhysicalKey_Equal => 16
  | PhysicalKey_IntlBackslash => 17
  | PhysicalKey_IntlRo => 18
  | PhysicalKey_IntlYen => 19
  | PhysicalKey_A => 20
  | PhysicalKey_B => 21
  | PhysicalKey_C => 22
  | PhysicalKey_D => 23
  | PhysicalKey_E => 24
  | PhysicalKey_F => 25
  | PhysicalKey_G => 26
  | PhysicalKey_H => 27
  | PhysicalKey_I => 28
  | PhysicalKey_J => 29
  | PhysicalKey_K => 30
  | PhysicalKey_L => 31
  | PhysicalKey_M => 32
  | PhysicalKey_N => 33
  | PhysicalKey_O => 34
  | PhysicalKey_P => 35
  | PhysicalKey_Q => 36
  | PhysicalKey_R => 37
  | PhysicalKey_S => 38
  | PhysicalKey_T => 39
  | PhysicalKey_U => 40
  | PhysicalKey_V => 41
  | PhysicalKey_W => 42
  | PhysicalKey_X => 43
  | PhysicalKey_Y => 44
  | PhysicalKey_Z => 45
  | PhysicalKey_Minus => 46
  | PhysicalKey_Period => 47
  | PhysicalKey_Quote => 48
  | PhysicalKey_Semicolon => 49
  | PhysicalKey_Slash => 50
  | PhysicalKey_AltLeft => 51
  | PhysicalKey_AltRight => 52
  | PhysicalKey_Backspace => 53
  | PhysicalKey_CapsLock => 54
  | PhysicalKey_ContextMenu => 55
  | PhysicalKey_ControlLeft => 56
  | PhysicalKey_ControlRight => 57
  | PhysicalKey_Enter => 58
  | PhysicalKey_MetaLeft => 59
  | PhysicalKey_MetaRight => 60
  | PhysicalKey_ShiftLeft => 61
  | PhysicalKey_ShiftRight => 62
  | PhysicalKey_Space => 63
  | PhysicalKey_Tab => 64
  | PhysicalKey_Convert => 65
  | PhysicalKey_KanaMode => 66
  | PhysicalKey_NonConvert => 67
  | PhysicalKey_Delete => 68
  | PhysicalKey_End => 69
  | PhysicalKey_Help => 70
  | PhysicalKey_Home => 71
  | PhysicalKey_Insert => 72
  | PhysicalKey_PageDown => 73
  | PhysicalKey_PageUp => 74
  | PhysicalKey_ArrowDown => 75
  | PhysicalKey_ArrowLeft => 76
  | PhysicalKey_ArrowRight => 77
  | PhysicalKey_ArrowUp => 78
  | PhysicalKey_NumLock => 79
  | PhysicalKey_Numpad0 => 80
  | PhysicalKey_Numpad1 => 81
  | PhysicalKey_Numpad2 => 82
  | PhysicalKey_Numpad3 => 83
  | PhysicalKey_Numpad4 => 84
  | PhysicalKey_Numpad5 => 85
  | PhysicalKey_Numpad6 => 86
  | PhysicalKey_Numpad7 => 87
  | PhysicalKey_Numpad8 => 88
  | PhysicalKey_Numpad9 => 89
  | PhysicalKey_NumpadAdd => 90
  | PhysicalKey_NumpadBackspace => 91
  | PhysicalKey_NumpadClear => 92
  | PhysicalKey_NumpadClearEntry => 93
  | PhysicalKey_NumpadComma => 94
  | PhysicalKey_NumpadDecimal => 95
  | PhysicalKey_NumpadDivide => 96
  | PhysicalKey_NumpadEnter => 97
  | PhysicalKey_NumpadEqual => 98
  | PhysicalKey_NumpadMemoryAdd => 99
  | PhysicalKey_NumpadMemoryClear => 100
  | PhysicalKey_NumpadMemoryRecall => 101
  | PhysicalKey_NumpadMemoryStore => 102
  | PhysicalKey_NumpadMemorySubtract => 103
  | PhysicalKey_NumpadMultiply => 104
  | PhysicalKey_NumpadParenLeft => 105
  | PhysicalKey_NumpadParenRight => 106
  | PhysicalKey_NumpadSubtract => 107
  | PhysicalKey_NumpadSeparator => 108
  | PhysicalKey_NumpadUp => 109
  | PhysicalKey_NumpadDown => 110
  | PhysicalKey_NumpadRight => 111
  | PhysicalKey_NumpadLeft => 112
  | PhysicalKey_NumpadBegin => 113
  | PhysicalKey_NumpadHome => 114
  | PhysicalKey_NumpadEnd => 115
  | PhysicalKey_NumpadInsert => 116
  | PhysicalKey_NumpadDelete => 117
  | PhysicalKey_NumpadPageUp => 118
  | PhysicalKey_NumpadPageDown => 119
  | PhysicalKey_Escape => 120
  | PhysicalKey_F1 => 121
  | PhysicalKey_F2 => 122
  | PhysicalKey_F3 => 123
  | PhysicalKey_F4 => 124
  | PhysicalKey_F5 => 125
  | PhysicalKey_F6 => 126
  | PhysicalKey_F7 => 127
  | PhysicalKey_F8 => 128
  | PhysicalKey_F9 => 129
  | PhysicalKey_F10 => 130
  | PhysicalKey_F11 => 131
  | PhysicalKey_F12 => 132
  | PhysicalKey_F13 => 133
  | PhysicalKey_F14 => 134
  | PhysicalKey_F15 => 135
  | PhysicalKey_F16 => 136
  | PhysicalKey_F17 => 137
  | PhysicalKey_F18 => 138
  | PhysicalKey_F19 => 139
  | PhysicalKey_F20 => 140
  | PhysicalKey_F21 => 141
  | PhysicalKey_F22 => 142
  | PhysicalKey_F23 => 143
  | PhysicalKey_F24 => 144
  | PhysicalKey_F25 => 145
  | PhysicalKey_Fn => 146
  | PhysicalKey_FnLock => 147
  | PhysicalKey_PrintScreen => 148
  | PhysicalKey_ScrollLock => 149
  | PhysicalKey_Pause => 150
  | PhysicalKey_BrowserBack => 151
  | PhysicalKey_BrowserFavorites => 152
  | PhysicalKey_BrowserForward => 153
  | PhysicalKey_BrowserHome => 154
  | PhysicalKey_BrowserRefresh => 155
  | PhysicalKey_BrowserSearch => 156
  | PhysicalKey_BrowserStop => 157
  | PhysicalKey_Eject => 158
  | PhysicalKey_LaunchApp1 => 159
  | PhysicalKey_LaunchApp2 => 160
  | PhysicalKey_LaunchMail => 161
  | PhysicalKey_MediaPlayPause => 162
  | PhysicalKey_MediaSelect => 163
  | PhysicalKey_MediaStop => 164
  | PhysicalKey_MediaTrackNext => 165
  | PhysicalKey_MediaTrackPrevious => 166
  | PhysicalKey_Power => 167
  | PhysicalKey_Sleep => 168
  | PhysicalKey_AudioVolumeDown => 169
  | PhysicalKey_AudioVolumeMute => 170
  | PhysicalKey_AudioVolumeUp => 171
  | PhysicalKey_WakeUp => 172
  | PhysicalKey_Copy => 173
  | PhysicalKey_Cut => 174
  | PhysicalKey_Paste => 175
  end.

(* input/key.rs:78-267 PhysicalKey (derived IntEnum TryFrom<u32>) *)
Definition PhysicalKey_from_wire (v : Z) : option PhysicalKey :=
  match v with
  | 0 => Some PhysicalKey_Unidentified
  | 1 => Some PhysicalKey_Backquote
  | 2 => Some PhysicalKey_Backslash
  | 3 => Some PhysicalKey_BracketLeft
  | 4 => Some PhysicalKey_BracketRight
  | 5 => Some PhysicalKey_Comma
  | 6 => Some PhysicalKey_Digit0
  | 7 => Some PhysicalKey_Digit1
  | 8 => Some PhysicalKey_Digit2
  | 9 => Some PhysicalKey_Digit3
  | 10 => Some PhysicalKey_Digit4
  | 11 => Some PhysicalKey_Digit5
  | 12 => Some PhysicalKey_Digit6
  | 13 => Some PhysicalKey_Digit7
  | 14 => Some PhysicalKey_Digit8
  | 15 => Some PhysicalKey_Digit9
  | 16 => Some PhysicalKey_Equal
  | 17 => Some PhysicalKey_IntlBackslash
  | 18 => Some PhysicalKey_IntlRo
  | 19 => Some PhysicalKey_IntlYen
  | 20 => Some PhysicalKey_A
  | 21 => Some PhysicalKey_B
  | 22 => Some PhysicalKey_C
  | 23 => Some PhysicalKey_D
  | 24 => Some PhysicalKey_E
  | 25 => Some PhysicalKey_F
  | 26 => Some PhysicalKey_G
  | 27 => Some PhysicalKey_H
  | 28 => Some PhysicalKey_I
  | 29 => Some PhysicalKey_J
  | 30 => Some PhysicalKey_K
  | 31 => Some PhysicalKey_L
  | 32 => Some PhysicalKey_M
  | 33 => Some PhysicalKey_N
  | 34 => Some PhysicalKey_O
  | 35 => Some PhysicalKey_P
  | 36 => Some PhysicalKey_Q
  | 37 => Some PhysicalKey_R
  | 38 => Some PhysicalKey_S
  | 39 => Some PhysicalKey_T
  | 40 => Some PhysicalKey_U
  | 41 => Some PhysicalKey_V
  | 42 => Some PhysicalKey_W
  | 43 => Some PhysicalKey_X
  | 44 => Some PhysicalKey_Y
  | 45 => Some PhysicalKey_Z
  | 46 => Some PhysicalKey_Minus
  | 47 => Some PhysicalKey_Period
  | 48 => Some PhysicalKey_Quote
  | 49 => Some PhysicalKey_Semicolon
  | 50 => Some PhysicalKey_Slash
  | 51 => Some PhysicalKey_AltLeft
  | 52 => Some PhysicalKey_AltRight
  | 53 => Some PhysicalKey_Backspace
  | 54 => Some PhysicalKey_CapsLock
  | 55 => Some PhysicalKey_ContextMenu
  | 56 => Some PhysicalKey_ControlLeft
  | 57 => Some PhysicalKey_ControlRight
  | 58 => Some PhysicalKey_Enter
  | 59 => Some PhysicalKey_MetaLeft
  | 60 => Some PhysicalKey_MetaRight
  | 61 => Some PhysicalKey_ShiftLeft
  | 62 => Some PhysicalKey_ShiftRight
  | 63 => Some PhysicalKey_Space
  | 64 => Some PhysicalKey_Tab
  | 65 => Some PhysicalKey_Convert
  | 66 => Some PhysicalKey_KanaMode
  | 67 => Some PhysicalKey_NonConvert
  | 68 => Some PhysicalKey_Delete
  | 69 => Some PhysicalKey_End
  | 70 => Some PhysicalKey_Help
  | 71 => Some PhysicalKey_Home
  | 72 => Some PhysicalKey_Insert
  | 73 => Some PhysicalKey_PageDown
  | 74 => Some PhysicalKey_PageUp
  | 75 => Some PhysicalKey_ArrowDown
  | 76 => Some PhysicalKey_ArrowLeft
  | 77 => Some PhysicalKey_ArrowRight
  | 78 => Some PhysicalKey_ArrowUp
  | 79 => Some PhysicalKey_NumLock
  | 80 => Some PhysicalKey_Numpad0
  | 81 => Some PhysicalKey_Numpad1
  | 82 => Some PhysicalKey_Numpad2
  | 83 => Some PhysicalKey_Numpad3
  | 84 => Some PhysicalKey_Numpad4
  | 85 => Some PhysicalKey_Numpad5
  | 86 => Some PhysicalKey_Numpad6
  | 87 => Some PhysicalKey_Numpad7
  | 88 => Some PhysicalKey_Numpad8
  | 89 => Some PhysicalKey_Numpad9
  | 90 => Some PhysicalKey_NumpadAdd
  | 91 => Some PhysicalKey_NumpadBackspace
  | 92 => Some PhysicalKey_NumpadClear
  | 93 => Some PhysicalKey_NumpadClearEntry
  | 94 => Some PhysicalKey_NumpadComma
  | 95 => Some PhysicalKey_NumpadDecimal
  | 96 => Some PhysicalKey_NumpadDivide
  | 97 => Some PhysicalKey_NumpadEnter
  | 98 => Some PhysicalKey_NumpadEqual
  | 99 => Some PhysicalKey_NumpadMemoryAdd
  | 100 => Some PhysicalKey_NumpadMemoryClear
  | 101 => Some PhysicalKey_NumpadMemoryRecall
  | 102 => Some PhysicalKey_NumpadMemoryStore
  | 103 => Some PhysicalKey_NumpadMemorySubtract
  | 104 => Some PhysicalKey_NumpadMultiply
  | 105 => Some PhysicalKey_NumpadParenLeft
  | 106 => Some PhysicalKey_NumpadParenRight
  | 107 => Some PhysicalKey_NumpadSubtract
  | 108 => Some PhysicalKey_NumpadSeparator
  | 109 => Some PhysicalKey_NumpadUp
  | 110 => Some PhysicalKey_NumpadDown
  | 111 => Some PhysicalKey_NumpadRight
  | 112 => Some PhysicalKey_NumpadLeft
  | 113 => Some PhysicalKey_NumpadBegin
  | 114 => Some PhysicalKey_NumpadHome
  | 115 => Some PhysicalKey_NumpadEnd
  | 116 => Some PhysicalKey_NumpadInsert
  | 117 => Some PhysicalKey_NumpadDelete
  | 118 => Some PhysicalKey_NumpadPageUp
  | 119 => Some PhysicalKey_NumpadPageDown
  | 120 => Some PhysicalKey_Escape
  | 121 => Some PhysicalKey_F1
  | 122 => Some PhysicalKey_F2
  | 123 => Some PhysicalKey_F3
  | 124 => Some PhysicalKey_F4
  | 125 => Some PhysicalKey_F5
  | 126 => Some PhysicalKey_F6
  | 127 => Some PhysicalKey_F7
  | 128 => Some PhysicalKey_F8
  | 129 => Some PhysicalKey_F9
  | 130 => Some PhysicalKey_F10
  | 131 => Some PhysicalKey_F11
  | 132 => Some PhysicalKey_F12
  | 133 => Some PhysicalKey_F13
  | 134 => Some PhysicalKey_F14
  | 135 => Some PhysicalKey_F15
  | 136 => Some PhysicalKey_F16
  | 137 => Some PhysicalKey_F17
  | 138 => Some PhysicalKey_F18
  | 139 => Some PhysicalKey_F19
  | 140 => Some PhysicalKey_F20
  | 141 => Some PhysicalKey_F21
  | 142 => Some PhysicalKey_F22
  | 143 => Some PhysicalKey_F23
  | 144 => Some PhysicalKey_F24
  | 145 => Some PhysicalKey_F25
  | 146 => Some PhysicalKey_Fn
  | 147 => Some PhysicalKey_FnLock
  | 148 => Some PhysicalKey_PrintScreen
  | 149 => Some PhysicalKey_ScrollLock
  | 150 => Some PhysicalKey_Pause
  | 151 => Some PhysicalKey_BrowserBack
  | 152 => Some PhysicalKey_BrowserFavorites
  | 153 => Some PhysicalKey_BrowserForward
  | 154 => Some PhysicalKey_BrowserHome
  | 155 => Some PhysicalKey_BrowserRefresh
  | 156 => Some PhysicalKey_BrowserSearch
  | 157 => Some PhysicalKey_BrowserStop
  | 158 => Some PhysicalKey_Eject
  | 159 => Some PhysicalKey_LaunchApp1
  | 160 => Some PhysicalKey_LaunchApp2
  | 161 => Some PhysicalKey_LaunchMail
  | 162 => Some PhysicalKey_MediaPlayPause
  | 163 => Some PhysicalKey_MediaSelect
  | 164 => Some PhysicalKey_MediaStop
  | 165 => Some PhysicalKey_MediaTrackNext
  | 166 => Some PhysicalKey_MediaTrackPrevious
  | 167 => Some PhysicalKey_Power
  | 168 => Some PhysicalKey_Sleep
  | 169 => Some PhysicalKey_AudioVolumeDown
  | 170 => Some PhysicalKey_AudioVolumeMute
  | 171 => Some PhysicalKey_AudioVolumeUp
  | 172 => Some PhysicalKey_WakeUp
  | 173 => Some PhysicalKey_Copy
  | 174 => Some PhysicalKey_Cut
  | 175 => Some PhysicalKey_Paste
  | _ => None
  end.

#[export] Instance PhysicalKey_wire : WireEnum PhysicalKey.
Proof.
  refine {| to_wire := PhysicalKey_as_wire; from_wire := PhysicalKey_from_wire |}.
  - intros []; reflexivity.
  - table_inv.
  - intros []; reflexivity.
Defined.

(** ** [PasteTrust] (input/paste.rs) *)

(* input/paste.rs:12-25 PasteTrust *)
Inductive PasteTrust : Type :=
| PasteTrust_Trusted | PasteTrust_Untrusted.

(* input/paste.rs:12-25 PasteTrust as u8 *)
Definition PasteTrust_as_wire (x : PasteTrust) : Z :=
  match x with
  | PasteTrust_Trusted => 0
  | PasteTrust_Untrusted => 1
  end.

(* wire/frame/codec.rs:305-322 decode_paste_event *)
Definition PasteTrust_from_wire (v : Z) : option PasteTrust :=
  match v with
  | 0 => Some PasteTrust_Trusted
  | 1 => Some PasteTrust_Untrusted
  | _ => None
  end.

#[export] Instance PasteTrust_wire : WireEnum PasteTrust.
Proof.
  refine {| to_wire := PasteTrust_as_wire; from_wire := PasteTrust_from_wire |}.
  - intros []; reflexivity.
  - table_inv.
  - intros []; reflexivity.
Defined.

(** ** [FocusEvent] (input/focus.rs) *)

(* input/focus.rs:9-17 FocusEvent *)
Inductive FocusEvent : Type :=
| FocusEvent_Gained | FocusEvent_Lost.

(* input/focus.rs:9-17 FocusEvent as u8 *)
Definition FocusEvent_as_wire (x : FocusEvent) : Z :=
  match x with
  | FocusEvent_Gained => 0
  | FocusEvent_Lost => 1
  end.

(* wire/frame/codec.rs:212-221 decode_focus_event *)
Definition FocusEvent_from_wire (v : Z) : option FocusEvent :=
  match v with
  | 0 => Some FocusEvent_Gained
  | 1 => Some FocusEvent_Lost
  | _ => None
  end.

#[export] Instance FocusEvent_wire : WireEnum FocusEvent.
Proof.
  refine {| to_wire := FocusEvent_as_wire; from_wire := FocusEvent_from_wire |}.
  - intros []; reflexivity.
  - table_inv.
  - intros []; reflexivity.
Defined.

