(* ===== verification/Ids.v ===== *)
(** * Identifiers ([phux-protocol/src/ids.rs])

    The newtypes over [u32]/[u64] are [Z]; the constructors that reject a
    reserved value are functions to [option]. *)

From S2P Require Import Prelude.

(* ids.rs StreamId::new *)
Definition StreamId_new (raw : Z) : option Z := if raw =? 0 then None else Some raw.
(* ids.rs BootstrapId::new *)
Definition BootstrapId_new (raw : Z) : option Z := if raw =? 0 then None else Some raw.

(** The scan of [InputOperationId::new] and [FileUploadId::new]: some byte is not zero. *)
Fixpoint any_nonzero (bs : bytes) : bool :=
  match bs with
  | [] => false
  | b :: bs' => if negb (b =? 0) then true else any_nonzero bs'
  end.

(* ids.rs InputOperationId::new *)
Definition InputOperationId_new (bs : bytes) : option bytes :=
  if any_nonzero bs then Some bs else None.
(* ids.rs FileUploadId::new *)
Definition FileUploadId_new (bs : bytes) : option bytes :=
  if any_nonzero bs then Some bs else None.

(* ids.rs RESOURCE_ID_TAG_LOCAL *)
Definition RESOURCE_ID_TAG_LOCAL : Z := 0.
(* ids.rs RESOURCE_ID_TAG_SATELLITE *)
Definition RESOURCE_ID_TAG_SATELLITE : Z := 1.

(** A satellite host is its string. *)
(* ids.rs ResourceId *)
Inductive ResourceId : Type :=
| ResourceId_Local (id : Z)
| ResourceId_Satellite (host : bytes) (id : Z).

#[export] Instance ResourceId_eq_dec : EqDecision ResourceId.
Proof. solve_decision. Defined.

(* ids.rs ResourceId::local_id *)
Definition local_id (r : ResourceId) : option Z :=
  match r with ResourceId_Local id => Some id | ResourceId_Satellite _ _ => None end.
(* ids.rs ResourceId::host *)
Definition host (r : ResourceId) : option bytes :=
  match r with ResourceId_Local _ => None | ResourceId_Satellite h _ => Some h end.
(* ids.rs ResourceId::is_local *)
Definition is_local (r : ResourceId) : bool :=
  match r with ResourceId_Local _ => true | ResourceId_Satellite _ _ => false end.

(* ids.rs RESOURCE_KIND_TAG_TERMINAL *)
Definition RESOURCE_KIND_TAG_TERMINAL : Z := 0.
(* ids.rs RESOURCE_KIND_TAG_AGENT_SESSION *)
Definition RESOURCE_KIND_TAG_AGENT_SESSION : Z := 1.

(* ids.rs ResourceKind *)
Inductive ResourceKind : Type :=
| ResourceKind_Terminal
| ResourceKind_AgentSession
| ResourceKind_Unknown (tag : Z).

#[export] Instance ResourceKind_eq_dec : EqDecision ResourceKind.
Proof. solve_decision. Defined.

(* ids.rs ResourceKind::as_wire *)
Definition ResourceKind_as_wire (k : ResourceKind) : Z :=
  match k with
  | ResourceKind_Terminal => RESOURCE_KIND_TAG_TERMINAL
  | ResourceKind_AgentSession => RESOURCE_KIND_TAG_AGENT_SESSION
  | ResourceKind_Unknown tag => tag
  end.

(* ids.rs ResourceKind::from_wire *)
Definition ResourceKind_from_wire (tag : Z) : ResourceKind :=
  if tag =? RESOURCE_KIND_TAG_TERMINAL then ResourceKind_Terminal
  else if tag =? RESOURCE_KIND_TAG_AGENT_SESSION then ResourceKind_AgentSession
  else ResourceKind_Unknown tag.

(* ids.rs ResourceKind::is_terminal *)
Definition is_terminal (k : ResourceKind) : bool :=
  match k with ResourceKind_Terminal => true | _ => false end.

(* ids.rs FrameId::next *)
Definition FrameId_next (id : Z) : Z := (id + 1) mod 2 ^ 64.

(** ** Well-formed values: what the Rust types guarantee *)

(** A [String] is valid UTF-8; ids fit their width. *)
Definition wf_str (s : bytes) : bool := utf8_valid s.
#[global] Arguments wf_str : simpl never.
Definition wf_StreamId (id : Z) : bool := u64b id && nonzero id.
Definition wf_id16 (bs : bytes) : bool := is_bytes bs && (length bs =? 16)%nat.
Definition wf_nonzero_id16 (bs : bytes) : bool := wf_id16 bs && any_nonzero bs.

Definition wf_ResourceId (r : ResourceId) : bool :=
  match r with
  | ResourceId_Local id => u32b id
  | ResourceId_Satellite h id => wf_str h && u32b id
  end.

(** [Unknown] is only ever built by [from_wire] on a tag it does not name. *)
Definition wf_ResourceKind (k : ResourceKind) : bool :=
  match k with ResourceKind_Unknown tag => (2 <=? tag) && (tag <=? 255) | _ => true end.

Lemma ResourceKind_round_trip k :
  wf_ResourceKind k = true -> ResourceKind_from_wire (ResourceKind_as_wire k) = k.
Proof.
  destruct k as [| |tag]; [done|done|]. simpl. intros [H1%Z.leb_le _]%andb_true_iff.
  unfold ResourceKind_from_wire, RESOURCE_KIND_TAG_TERMINAL, RESOURCE_KIND_TAG_AGENT_SESSION.
  rewrite !(proj2 (Z.eqb_neq _ _)) by lia. done.
Qed.

Lemma ResourceKind_as_wire_u8 k :
  wf_ResourceKind k = true -> u8b (ResourceKind_as_wire k) = true.
Proof.
  destruct k as [| |tag]; [done|done|]. simpl.
  intros [H1%Z.leb_le H2%Z.leb_le]%andb_true_iff. apply u8b_spec; lia.
Qed.

Lemma StreamId_new_nonzero id : wf_StreamId id = true -> StreamId_new id = Some id.
Proof.
  intros [_ H]%andb_true_iff. unfold StreamId_new, nonzero in *. by destruct (id =? 0).
Qed.

Lemma BootstrapId_new_nonzero id : wf_StreamId id = true -> BootstrapId_new id = Some id.
Proof. apply StreamId_new_nonzero. Qed.

Lemma id16_new bs :
  wf_nonzero_id16 bs = true ->
  InputOperationId_new bs = Some bs /\ FileUploadId_new bs = Some bs.
Proof.
  intros [_ H]%andb_true_iff. unfold InputOperationId_new, FileUploadId_new.
  by rewrite H.
Qed.

(** The reserved all-zero value is the only one the constructors refuse. *)
Lemma any_nonzero_false bs : any_nonzero bs = false <-> Forall (fun b => b = 0) bs.
Proof.
  induction bs as [|b bs IH]; simpl; [by split|].
  destruct (Z.eqb_spec b 0); simpl.
  - rewrite IH. split; [by constructor | by inversion 1].
  - split; [discriminate | by inversion 1].
Qed.
