(* ===== verification/Caps.v ===== *)
(** * Capabilities and negotiation ([phux-protocol/src/caps.rs])

    The bitsets, the bootstrap limits and capability records, and
    [select_bootstrap_profile], with its specification: what the server picks is
    advertised by both ends, the limits are the pointwise minimum, the choice is
    the best common one, and it fails only when there is none. *)

From S2P Require Import Prelude Wire Enums.

(** ** Compression *)

(** A bitset newtype is its integer. *)
(* caps.rs CompressionSet::DEFLATE *)
Definition CompressionSet_DEFLATE : Z := 0x01.

(* caps.rs CompressionSet::contains *)
Definition CompressionSet_contains (s : Z) (algorithm : Compression) : bool :=
  match algorithm with
  | Compression_None => true
  | Compression_Deflate => negb (Z.land s CompressionSet_DEFLATE =? 0)
  end.

(* caps.rs CompressionSet::select *)
Definition CompressionSet_select (s : Z) : Compression :=
  if CompressionSet_contains s Compression_Deflate then Compression_Deflate
  else Compression_None.

(** ** Bootstrap limits *)

(* caps.rs DEFAULT_BOOTSTRAP_CHUNK_BYTES *)
Definition DEFAULT_BOOTSTRAP_CHUNK_BYTES : Z := 256 * 1024.
(* caps.rs DEFAULT_HISTORY_PAGE_BYTES *)
Definition DEFAULT_HISTORY_PAGE_BYTES : Z := 1024 * 1024.

(* caps.rs BootstrapLimits *)
Record BootstrapLimits : Type := mkLimits {
  max_chunk_bytes : Z;
  max_page_bytes : Z
}.

#[export] Instance BootstrapLimits_eq_dec : EqDecision BootstrapLimits.
Proof. solve_decision. Defined.

(* caps.rs BootstrapLimits::new *)
Definition BootstrapLimits_new (chunk page : Z) : option BootstrapLimits :=
  if (chunk =? 0) || (MAX_BOOTSTRAP_CHUNK_BYTES <? chunk) || (page =? 0)
     || (MAX_HISTORY_PAGE_BYTES <? page)
  then None
  else Some (mkLimits chunk page).

(* caps.rs BootstrapLimits::intersect *)
Definition BootstrapLimits_intersect (a b : BootstrapLimits) : BootstrapLimits :=
  mkLimits
    (if max_chunk_bytes a <? max_chunk_bytes b then max_chunk_bytes a else max_chunk_bytes b)
    (if max_page_bytes a <? max_page_bytes b then max_page_bytes a else max_page_bytes b).

(* caps.rs:312-319 BootstrapLimits::default *)
Definition BootstrapLimits_default : BootstrapLimits :=
  mkLimits DEFAULT_BOOTSTRAP_CHUNK_BYTES DEFAULT_HISTORY_PAGE_BYTES.

(** The private fields are only set through [new], [default] and [intersect]. *)
Definition wf_limits (l : BootstrapLimits) : bool :=
  (1 <=? max_chunk_bytes l) && (max_chunk_bytes l <=? MAX_BOOTSTRAP_CHUNK_BYTES)
  && (1 <=? max_page_bytes l) && (max_page_bytes l <=? MAX_HISTORY_PAGE_BYTES).

(* wire/decode.rs Decoder::with_bootstrap_limits *)
Definition Decoder_with_bootstrap_limits (input : bytes) (l : BootstrapLimits) : Decoder :=
  mkDecoder input 0 None (max_chunk_bytes l) (max_page_bytes l).

(** ** Profile, codec and feature sets *)

(* caps.rs BootstrapProfileKind *)
Inductive BootstrapProfileKind : Type :=
| ProfileKind_NativeState | ProfileKind_SynthesizedVtRaw | ProfileKind_SynthesizedVtStateSync.

(* caps.rs BootstrapProfileKind *)
Definition profile_kind_bit (k : BootstrapProfileKind) : Z :=
  match k with
  | ProfileKind_NativeState => Z.shiftl 1 3
  | ProfileKind_SynthesizedVtRaw => Z.shiftl 1 1
  | ProfileKind_SynthesizedVtStateSync => Z.shiftl 1 2
  end.

(* caps.rs:343-345 BootstrapProfileSet::KNOWN *)
Definition BootstrapProfileSet_KNOWN : Z :=
  Z.lor (Z.lor (profile_kind_bit ProfileKind_NativeState)
               (profile_kind_bit ProfileKind_SynthesizedVtRaw))
        (profile_kind_bit ProfileKind_SynthesizedVtStateSync).

(* caps.rs BootstrapProfileSet::with *)
Definition BootstrapProfileSet_with (profiles : list BootstrapProfileKind) : Z :=
  fold_left (fun bits p => Z.lor bits (profile_kind_bit p)) profiles 0.
(* caps.rs BootstrapProfileSet::contains *)
Definition BootstrapProfileSet_contains (s : Z) (p : BootstrapProfileKind) : bool :=
  negb (Z.land s (profile_kind_bit p) =? 0).
(* caps.rs BootstrapProfileSet::as_wire *)
Definition BootstrapProfileSet_as_wire (s : Z) : Z := Z.land s BootstrapProfileSet_KNOWN.
(* caps.rs BootstrapProfileSet::from_wire *)
Definition BootstrapProfileSet_from_wire (bits : Z) : Z := Z.land bits BootstrapProfileSet_KNOWN.

(* caps.rs:461-462 EngineCodecSet::KNOWN *)
Definition EngineCodecSet_KNOWN : Z := Z.shiftl 1 2.
(* caps.rs EngineCodecSet::with *)
Definition EngineCodecSet_with (codecs : list EngineCodec) : Z :=
  fold_left (fun bits c => Z.lor bits (Z.shiftl 1 (EngineCodec_as_wire c))) codecs 0.
(* caps.rs EngineCodecSet::contains *)
Definition EngineCodecSet_contains (s : Z) (c : EngineCodec) : bool :=
  negb (Z.land s (Z.shiftl 1 (EngineCodec_as_wire c)) =? 0).
(* caps.rs EngineCodecSet::as_wire *)
Definition EngineCodecSet_as_wire (s : Z) : Z := Z.land s EngineCodecSet_KNOWN.
(* caps.rs EngineCodecSet::from_wire *)
Definition EngineCodecSet_from_wire (bits : Z) : Z := Z.land bits EngineCodecSet_KNOWN.
(* caps.rs EngineCodecSet::highest_common *)
Definition EngineCodecSet_highest_common (a b : Z) : option EngineCodec :=
  if negb (Z.land (Z.land a b) EngineCodecSet_KNOWN =? 0)
  then Some EngineCodec_LibghosttyCheckpointV2 else None.

(* caps.rs EngineFeature *)
Inductive EngineFeature : Type :=
| EngineFeature_Continuation | EngineFeature_ReadyBoundary
| EngineFeature_HistoryPages | EngineFeature_BoundedHistoryControl.

(* caps.rs EngineFeature *)
Definition engine_feature_bit (f : EngineFeature) : Z :=
  match f with
  | EngineFeature_Continuation => Z.shiftl 1 0
  | EngineFeature_ReadyBoundary => Z.shiftl 1 1
  | EngineFeature_HistoryPages => Z.shiftl 1 2
  | EngineFeature_BoundedHistoryControl => Z.shiftl 1 3
  end.

(* caps.rs:537-540 EngineFeatureSet::KNOWN *)
Definition EngineFeatureSet_KNOWN : Z :=
  Z.lor (Z.lor (Z.lor (engine_feature_bit EngineFeature_Continuation)
                      (engine_feature_bit EngineFeature_ReadyBoundary))
               (engine_feature_bit EngineFeature_HistoryPages))
        (engine_feature_bit EngineFeature_BoundedHistoryControl).
(* caps.rs EngineFeatureSet::required_native *)
Definition EngineFeatureSet_required_native : Z := EngineFeatureSet_KNOWN.
(* caps.rs EngineFeatureSet::with *)
Definition EngineFeatureSet_with (features : list EngineFeature) : Z :=
  fold_left (fun bits f => Z.lor bits (engine_feature_bit f)) features 0.
(* caps.rs EngineFeatureSet::contains *)
Definition EngineFeatureSet_contains (s : Z) (f : EngineFeature) : bool :=
  negb (Z.land s (engine_feature_bit f) =? 0).
(* caps.rs EngineFeatureSet::supports_native *)
Definition EngineFeatureSet_supports_native (s : Z) : bool :=
  Z.land s EngineFeatureSet_KNOWN =? EngineFeatureSet_KNOWN.
(* caps.rs EngineFeatureSet::as_wire *)
Definition EngineFeatureSet_as_wire (s : Z) : Z := Z.land s EngineFeatureSet_KNOWN.
(* caps.rs EngineFeatureSet::from_wire *)
Definition EngineFeatureSet_from_wire (bits : Z) : Z := Z.land bits EngineFeatureSet_KNOWN.
(* caps.rs EngineFeatureSet::intersect *)
Definition EngineFeatureSet_intersect (a b : Z) : Z :=
  Z.land (Z.land a b) EngineFeatureSet_KNOWN.

(** ** Bootstrap capabilities and profiles *)

(* caps.rs BootstrapCapabilities *)
Record BootstrapCapabilities : Type := mkBootstrapCaps {
  profiles : Z;
  native_codecs : Z;
  native_features : Z;
  limits : BootstrapLimits
}.

(* caps.rs BootstrapCapabilities::new *)
Definition BootstrapCapabilities_new : BootstrapCapabilities :=
  mkBootstrapCaps
    (BootstrapProfileSet_with [ProfileKind_SynthesizedVtRaw; ProfileKind_SynthesizedVtStateSync])
    0 0 (mkLimits DEFAULT_BOOTSTRAP_CHUNK_BYTES DEFAULT_HISTORY_PAGE_BYTES).

(* caps.rs BootstrapCapabilities::with_native *)
Definition BootstrapCapabilities_with_native
    (c : BootstrapCapabilities) (codec : EngineCodec) (features : Z) : BootstrapCapabilities :=
  if negb (EngineFeatureSet_supports_native features) then
    mkBootstrapCaps
      (BootstrapProfileSet_from_wire
         (Z.land (BootstrapProfileSet_as_wire (profiles c))
                 (u8_max - profile_kind_bit ProfileKind_NativeState)))
      0 0 (limits c)
  else
    mkBootstrapCaps
      (BootstrapProfileSet_from_wire
         (Z.lor (BootstrapProfileSet_as_wire (profiles c))
                (profile_kind_bit ProfileKind_NativeState)))
      (EngineCodecSet_with [codec]) EngineFeatureSet_required_native (limits c).

(* caps.rs BootstrapProfile *)
Inductive BootstrapProfile : Type :=
| Profile_NativeState (codec : EngineCodec) (features : Z)
| Profile_SynthesizedVtRaw
| Profile_SynthesizedVtStateSync.

(* caps.rs BootstrapCodec *)
Inductive BootstrapCodec : Type :=
| BootstrapCodec_SynthesizedVtV1
| BootstrapCodec_Native (version : EngineCodec)
| BootstrapCodec_AgentEventsJsonlV1.

(* caps.rs BootstrapStreamProfile *)
Inductive BootstrapStreamProfile : Type :=
| StreamProfile_NativeState (codec : EngineCodec)
| StreamProfile_SynthesizedVtRaw
| StreamProfile_SynthesizedVtStateSync
| StreamProfile_AgentEventsJsonlV1.

(** [CodecUnavailable], the unit error of the negotiation. *)
(* caps.rs CodecUnavailable *)
Inductive CodecUnavailable : Type := codec_unavailable.

(** ** Layers, server features, client protocol sets *)

(* caps.rs Layer *)
Inductive Layer : Type := Layer_L1 | Layer_L2 | Layer_L3.
(* caps.rs Layer *)
Definition layer_bit (l : Layer) : Z :=
  match l with Layer_L1 => 0x01 | Layer_L2 => 0x02 | Layer_L3 => 0x04 end.
(* caps.rs LayerSet::new *)
Definition LayerSet_new : Z := layer_bit Layer_L1.
(* caps.rs LayerSet::with *)
Definition LayerSet_with (layers : list Layer) : Z :=
  fold_left (fun bits l => Z.lor bits (layer_bit l)) layers (layer_bit Layer_L1).
(* caps.rs LayerSet::contains *)
Definition LayerSet_contains (s : Z) (l : Layer) : bool := negb (Z.land s (layer_bit l) =? 0).
(* caps.rs LayerSet::as_wire *)
Definition LayerSet_as_wire (s : Z) : Z := Z.lor s (layer_bit Layer_L1).
(* caps.rs LayerSet::from_wire *)
Definition LayerSet_from_wire (b : Z) : Z :=
  let known := Z.lor (Z.lor (layer_bit Layer_L1) (layer_bit Layer_L2)) (layer_bit Layer_L3) in
  Z.lor (Z.land b known) (layer_bit Layer_L1).

(** The feature bits, in the order of [ServerFeature]. *)
(* caps.rs:918-987 server feature bits *)
Definition server_feature_bits : list Z :=
  [0x00000010; 0x00000020; 0x00000040; 0x00000080; 0x00000100; 0x00000200; 0x00000400;
   0x00000800; 0x00002000; 0x00004000; 0x00008000; 0x00010000; 0x00020000; 0x00040000;
   0x00080000; 0x00100000; 0x00200000; 0x00400000].
(* caps.rs:1107-1124 ServerFeatureSet::KNOWN *)
Definition ServerFeatureSet_KNOWN : Z := fold_left Z.lor server_feature_bits 0.
(* caps.rs ServerFeatureSet::as_wire *)
Definition ServerFeatureSet_as_wire (s : Z) : Z := Z.land s ServerFeatureSet_KNOWN.
(* caps.rs ServerFeatureSet::from_wire *)
Definition ServerFeatureSet_from_wire (bits : Z) : Z := Z.land bits ServerFeatureSet_KNOWN.

(* caps.rs:1187-1189 ImageProtocolSet::KNOWN *)
Definition ImageProtocolSet_KNOWN : Z := Z.lor (Z.lor (Z.shiftl 1 0) (Z.shiftl 1 1)) (Z.shiftl 1 2).
(* caps.rs ImageProtocolSet::as_wire *)
Definition ImageProtocolSet_as_wire (s : Z) : Z := Z.land s ImageProtocolSet_KNOWN.
(* caps.rs ImageProtocolSet::from_wire *)
Definition ImageProtocolSet_from_wire (b : Z) : Z := Z.land b ImageProtocolSet_KNOWN.
(* caps.rs:1256-1256 KeyboardProtocolSet::KNOWN *)
Definition KeyboardProtocolSet_KNOWN : Z := Z.lor (Z.shiftl 1 0) (Z.shiftl 1 1).
(* caps.rs KeyboardProtocolSet::as_wire *)
Definition KeyboardProtocolSet_as_wire (s : Z) : Z := Z.land s KeyboardProtocolSet_KNOWN.
(* caps.rs KeyboardProtocolSet::from_wire *)
Definition KeyboardProtocolSet_from_wire (b : Z) : Z := Z.land b KeyboardProtocolSet_KNOWN.

(** ** Client and server capability records *)

(* caps.rs TerminalColor *)
Record TerminalColor : Type := mkColor { color_r : Z; color_g : Z; color_b : Z }.
(* caps.rs TerminalDefaultColors *)
Record TerminalDefaultColors : Type := mkDefaultColors {
  foreground : TerminalColor;
  background : TerminalColor
}.

(** [std::net::IpAddr] and [SocketAddr::new(ip, port)]. *)
Inductive IpAddr : Type :=
| IpAddr_V4 (bits : Z)
| IpAddr_V6 (bits : Z).
Record SocketAddr : Type := mkSocketAddr { ip : IpAddr; port : Z }.

(* wire/ssh_origin.rs SshOrigin *)
Record SshOrigin : Type := mkSshOrigin {
  ssh_client : SocketAddr;
  ssh_server : option SocketAddr
}.

(* caps.rs ClientCapabilities *)
Record ClientCapabilities : Type := mkClientCaps {
  color_support : ColorSupport;
  layers : Z;
  image_protocols : Z;
  kbd_protocols : Z;
  hyperlinks : bool;
  output_mode : OutputMode;
  default_colors : option TerminalDefaultColors;
  bootstrap : BootstrapCapabilities;
  compression : Z;
  ssh_origin : option SshOrigin
}.

(* caps.rs ClientCapabilities::new *)
Definition ClientCapabilities_new : ClientCapabilities :=
  mkClientCaps ColorSupport_TrueColor LayerSet_new ImageProtocolSet_KNOWN
    KeyboardProtocolSet_KNOWN true OutputMode_Raw None BootstrapCapabilities_new 0 None.

(* caps.rs ServerCapabilities *)
Record ServerCapabilities : Type := mkServerCaps {
  server_layers : Z;
  server_features : Z;
  server_compression : Compression
}.

(* caps.rs ServerCapabilities::new *)
Definition ServerCapabilities_new : ServerCapabilities :=
  mkServerCaps LayerSet_new 0 Compression_None.

(** ** Negotiation *)

Definition preferred_compatibility (m : OutputMode) : BootstrapProfileKind :=
  match m with
  | OutputMode_Raw => ProfileKind_SynthesizedVtRaw
  | OutputMode_StateSync => ProfileKind_SynthesizedVtStateSync
  end.

(** The two inner [match]es of the function; the [NativeState] arm is [unreachable!()]
    in the source, which [None] stands for. *)
Definition compatibility_profile (k : BootstrapProfileKind) : option BootstrapProfile :=
  match k with
  | ProfileKind_SynthesizedVtRaw => Some Profile_SynthesizedVtRaw
  | ProfileKind_SynthesizedVtStateSync => Some Profile_SynthesizedVtStateSync
  | ProfileKind_NativeState => None
  end.
Definition fallback_compatibility (k : BootstrapProfileKind) : option BootstrapProfileKind :=
  match k with
  | ProfileKind_SynthesizedVtRaw => Some ProfileKind_SynthesizedVtStateSync
  | ProfileKind_SynthesizedVtStateSync => Some ProfileKind_SynthesizedVtRaw
  | ProfileKind_NativeState => None
  end.

(** The outer [option] is [None] exactly when an [unreachable!()] would run. *)
(* caps.rs select_bootstrap_profile *)
Definition select_bootstrap_profile (client : ClientCapabilities) (server : BootstrapCapabilities)
    : option (result CodecUnavailable (BootstrapProfile * BootstrapLimits)) :=
  let lim := BootstrapLimits_intersect (limits (bootstrap client)) (limits server) in
  let compat (_ : unit) :=
    let preferred := preferred_compatibility (output_mode client) in
    if BootstrapProfileSet_contains (profiles (bootstrap client)) preferred
       && BootstrapProfileSet_contains (profiles server) preferred
    then p ← compatibility_profile preferred; Some (Ok (p, lim))
    else
      fallback ← fallback_compatibility preferred;
      if BootstrapProfileSet_contains (profiles (bootstrap client)) fallback
         && BootstrapProfileSet_contains (profiles server) fallback
      then p ← compatibility_profile fallback; Some (Ok (p, lim))
      else Some (Err codec_unavailable)
  in
  if BootstrapProfileSet_contains (profiles (bootstrap client)) ProfileKind_NativeState
     && BootstrapProfileSet_contains (profiles server) ProfileKind_NativeState
  then
    match EngineCodecSet_highest_common (native_codecs (bootstrap client)) (native_codecs server) with
    | Some codec =>
        let features :=
          EngineFeatureSet_intersect (native_features (bootstrap client)) (native_features server) in
        if EngineFeatureSet_supports_native features
        then Some (Ok (Profile_NativeState codec features, lim))
        else compat tt
    | None => compat tt
    end
  else compat tt.

(** *** The contract *)

(** What one side can speak. *)
Definition offers (c : BootstrapCapabilities) (p : BootstrapProfile) : bool :=
  match p with
  | Profile_NativeState codec features =>
      BootstrapProfileSet_contains (profiles c) ProfileKind_NativeState
      && EngineCodecSet_contains (native_codecs c) codec
      && (Z.land (native_features c) features =? features)
  | Profile_SynthesizedVtRaw =>
      BootstrapProfileSet_contains (profiles c) ProfileKind_SynthesizedVtRaw
  | Profile_SynthesizedVtStateSync =>
      BootstrapProfileSet_contains (profiles c) ProfileKind_SynthesizedVtStateSync
  end.

(** The profiles of a connection in order of preference: the native one, then the
    client's output mode, then the other compatibility mode. *)
Definition preference (m : OutputMode) : list BootstrapProfile :=
  Profile_NativeState EngineCodec_LibghosttyCheckpointV2 EngineFeatureSet_required_native ::
  match m with
  | OutputMode_Raw => [Profile_SynthesizedVtRaw; Profile_SynthesizedVtStateSync]
  | OutputMode_StateSync => [Profile_SynthesizedVtStateSync; Profile_SynthesizedVtRaw]
  end.

(** Reference: the first profile of that order both ends offer. *)
Definition best_common (client : ClientCapabilities) (server : BootstrapCapabilities)
    : option BootstrapProfile :=
  List.find (fun p => offers (bootstrap client) p && offers server p)
    (preference (output_mode client)).

(** *** Lemmas *)

Lemma land_known_sub a b k :
  (Z.land (Z.land (Z.land a b) k) k =? k) = (Z.land a k =? k) && (Z.land b k =? k).
Proof.
  apply eq_true_iff_eq. rewrite andb_true_iff, !Z.eqb_eq.
  assert (Hk : forall x, Z.land x k = k <-> forall i, 0 <= i -> Z.testbit k i = true -> Z.testbit x i = true).
  { intros x; split.
    - intros E i Hi Ht. rewrite <- E, Z.land_spec in Ht. by apply andb_true_iff in Ht as [??].
    - intros H. apply Z.bits_inj'; intros i Hi. rewrite Z.land_spec.
      destruct (Z.testbit k i) eqn:E; [by rewrite (H i Hi E)|apply andb_false_r]. }
  rewrite !Hk. split.
  - intros H; split; intros i Hi Ht; specialize (H i Hi Ht); rewrite !Z.land_spec in H;
      by destruct (Z.testbit a i), (Z.testbit b i).
  - intros [Ha Hb] i Hi Ht. rewrite !Z.land_spec, Ha, Hb, Ht by done. done.
Qed.

(** The negotiated feature set is all or nothing: a supported one is the required set. *)
Lemma supports_native_intersect a b :
  EngineFeatureSet_supports_native (EngineFeatureSet_intersect a b) = true ->
  EngineFeatureSet_intersect a b = EngineFeatureSet_required_native.
Proof.
  unfold EngineFeatureSet_supports_native, EngineFeatureSet_intersect. intros H%Z.eqb_eq.
  rewrite <- Z.land_assoc, Z.land_diag in H. exact H.
Qed.

Lemma supports_native_split a b :
  EngineFeatureSet_supports_native (EngineFeatureSet_intersect a b) =
    (Z.land a EngineFeatureSet_required_native =? EngineFeatureSet_required_native)
    && (Z.land b EngineFeatureSet_required_native =? EngineFeatureSet_required_native).
Proof. apply land_known_sub. Qed.

Lemma highest_common_contains a b :
  EngineCodecSet_highest_common a b =
    if EngineCodecSet_contains a EngineCodec_LibghosttyCheckpointV2
       && EngineCodecSet_contains b EngineCodec_LibghosttyCheckpointV2
    then Some EngineCodec_LibghosttyCheckpointV2 else None.
Proof.
  unfold EngineCodecSet_highest_common, EngineCodecSet_contains, EngineCodecSet_KNOWN.
  change (EngineCodec_as_wire EngineCodec_LibghosttyCheckpointV2) with 2.
  change (Z.shiftl 1 2) with (2 ^ 2).
  assert (Hb : forall x, negb (Z.land x (2 ^ 2) =? 0) = Z.testbit x 2).
  { intros x. destruct (Z.testbit x 2) eqn:E.
    - apply negb_true_iff, Z.eqb_neq. intros H%(f_equal (fun z => Z.testbit z 2)).
      rewrite Z.land_spec, E in H. discriminate.
    - apply negb_false_iff, Z.eqb_eq, Z.bits_inj'. intros i Hi.
      rewrite Z.land_spec, Z.bits_0. destruct (decide (i = 2)) as [->|].
      + by rewrite E.
      + rewrite Z.pow2_bits_false by lia. apply andb_false_r. }
  by rewrite !Hb, Z.land_spec.
Qed.

Lemma intersect_wf a b :
  wf_limits a = true -> wf_limits b = true -> wf_limits (BootstrapLimits_intersect a b) = true.
Proof.
  unfold wf_limits, BootstrapLimits_intersect. intros Ha Hb.
  split_bools; simpl; case_match; assumption.
Qed.

Lemma intersect_min a b :
  BootstrapLimits_intersect a b =
    mkLimits (Z.min (max_chunk_bytes a) (max_chunk_bytes b))
             (Z.min (max_page_bytes a) (max_page_bytes b)).
Proof.
  unfold BootstrapLimits_intersect. f_equal;
    match goal with |- context [?x <? ?y] => destruct (Z.ltb_spec x y); lia end.
Qed.

Lemma limits_new_wf c p l : BootstrapLimits_new c p = Some l -> 0 <= c -> 0 <= p -> wf_limits l = true.
Proof.
  unfold BootstrapLimits_new. intros H Hc Hp.
  destruct (_ || _ || _ || _)%bool eqn:E in H; [discriminate|]. injection H as <-.
  rewrite !orb_false_iff in E. destruct E as [[[E1 E2] E3] E4].
  apply Z.eqb_neq in E1, E3. apply Z.ltb_ge in E2, E4.
  unfold wf_limits; simpl. rewrite !andb_true_iff, !Z.leb_le. lia.
Qed.

Lemma limits_new_id l :
  wf_limits l = true -> BootstrapLimits_new (max_chunk_bytes l) (max_page_bytes l) = Some l.
Proof.
  unfold wf_limits, BootstrapLimits_new. rewrite !andb_true_iff, !Z.leb_le. intros H.
  rewrite !(proj2 (Z.eqb_neq _ _)), !(proj2 (Z.ltb_ge _ _)) by lia. by destruct l.
Qed.

(** *** Theorems *)

(** The negotiation equals its reference definition: the first profile, in the
    order native, client's output mode, other compatibility mode, that both ends
    offer, with the pointwise minimum of the limits; an error exactly when there is
    none; and its [unreachable!()] arms never run. *)
Lemma select_spec_aux client server :
  select_bootstrap_profile client server =
    Some (match best_common client server with
          | Some p =>
              Ok (p, mkLimits (Z.min (max_chunk_bytes (limits (bootstrap client)))
                                     (max_chunk_bytes (limits server)))
                              (Z.min (max_page_bytes (limits (bootstrap client)))
                                     (max_page_bytes (limits server))))
          | None => Err codec_unavailable
          end).
Proof.
  unfold select_bootstrap_profile, best_common, preference.
  rewrite <- intersect_min. cbn [List.find].
  rewrite highest_common_contains. unfold offers at 1 2.
  set (cb := bootstrap client). set (lim := BootstrapLimits_intersect _ _).
  match goal with |- context [if ?b1 && ?b2 then match (if ?c1 && ?c2 then _ else _) with _ => _ end else ?k] =>
    set (n1 := b1); set (n2 := b2); set (x1 := c1); set (x2 := c2); set (K := k) end.
  replace (if n1 && n2 then _ else K) with
    (if (n1 && x1 && (Z.land (native_features cb) EngineFeatureSet_required_native
                        =? EngineFeatureSet_required_native))
        && (n2 && x2 && (Z.land (native_features server) EngineFeatureSet_required_native
                        =? EngineFeatureSet_required_native))
     then Some (Ok (Profile_NativeState EngineCodec_LibghosttyCheckpointV2
                      EngineFeatureSet_required_native, lim)) else K).
  - match goal with |- (if ?b then _ else _) = _ => destruct b; [done|] end.
    unfold K, offers.
    destruct (output_mode client); simpl;
      repeat (match goal with |- context [BootstrapProfileSet_contains ?s ?p] =>
        destruct (BootstrapProfileSet_contains s p) end; simpl; try reflexivity).
  - destruct n1, n2, x1, x2; simpl; rewrite ?andb_false_r; try reflexivity.
    rewrite <- supports_native_split.
    destruct (EngineFeatureSet_supports_native _) eqn:E; [|done].
    by rewrite (supports_native_intersect _ _ E).
Qed.

(** Whatever the negotiation returns, both ends advertised it, and limits that
    were valid on both sides stay valid. *)
Theorem select_bootstrap_profile_sound client server p l :
  select_bootstrap_profile client server = Some (Ok (p, l)) ->
  wf_limits (limits (bootstrap client)) = true -> wf_limits (limits server) = true ->
  offers (bootstrap client) p = true /\ offers server p = true /\ wf_limits l = true.
Proof.
  rewrite select_spec_aux. intros H Hc Hs.
  destruct (best_common client server) as [q|] eqn:E; [|discriminate].
  injection H as <- <-. apply List.find_some in E as [_ [E1 E2]%andb_true_iff].
  rewrite <- intersect_min. auto using intersect_wf.
Qed.

Lemma select_bootstrap_profile_sound_witness :
  offers (bootstrap ClientCapabilities_new) Profile_SynthesizedVtRaw = true /\
  offers BootstrapCapabilities_new Profile_SynthesizedVtRaw = true /\
  wf_limits BootstrapLimits_default = true.
Proof.
  exact (select_bootstrap_profile_sound ClientCapabilities_new BootstrapCapabilities_new
    Profile_SynthesizedVtRaw BootstrapLimits_default eq_refl eq_refl eq_refl).
Defined.
