(* ===== verification/Codec.v ===== *)
(** * Sub-record codecs ([wire/frame/codec.rs], [payload.rs], [input/*.rs])

    The payload types shared by the frames and the positional codecs of their
    sub-records, each with the lemma that its decoder reads back its encoding. *)

From S2P Require Import Prelude Wire Fields Enums Ids Caps.

(** ** Small helpers *)

(** [Option::is_some]. *)
Definition is_Some_b {A} (o : option A) : bool := match o with Some _ => true | None => false end.

Definition b2z (b : bool) : Z := if b then 1 else 0.

(** [X::from_wire(v).ok_or(UnknownEnumValue { field, value: v })]. *)
Definition enum_of {A} `{WireEnum A} (field : string) (v : Z) : dresult A :=
  ok_or (UnknownEnumValue field v) (from_wire v).

Lemma enum_of_to_wire {A} `{WireEnum A} field (a : A) : enum_of field (to_wire a) = Ok a.
Proof. unfold enum_of. by rewrite from_to_wire. Qed.

(** A list behind its [u32] count, as the encoders write it. *)
Definition write_list {A} (enc : A -> bytes) (l : list A) : bytes :=
  write_u32_be (saturate_u32 (len l)) ++ concat (map enc l).

(** [for _ in 0..len { out.push(elem(dec)?) }] after reading the count. *)
Definition read_list {A} (elem : M A) : M (list A) :=
  n ← read_u32_be;
  repeatM (Z.to_nat n) elem.

#[global] Arguments write_list : simpl never.
#[global] Arguments read_list : simpl never.

(** Tactics: one step through a positional decoder. *)
Ltac reads_side := first [apply enum_of_to_wire | reflexivity | assumption | eassumption | done].
Ltac reads_step :=
  cbv beta iota zeta;
  lazymatch goal with
  | |- reads (mret _) [] _ => apply reads_ret
  | |- reads (mret _ ≫= _) _ _ => apply reads_ret_bind
  | |- reads (lift _ ≫= _) _ _ => eapply reads_bind_lift; [try reads_side|]
  | |- reads (lift _) [] _ => apply reads_lift; try reads_side
  | |- reads (_ ≫= _) (_ ++ _) _ =>
      first [ eapply reads_bind; [solve [eauto 6 with reads]|]
            | eapply reads_bind_ret; [solve [eauto 6 with reads]|] ]
  | |- reads (_ ≫= _) _ _ => eapply reads_bind_ret; [solve [eauto 6 with reads]|]
  | |- reads _ _ _ => solve [eauto 6 with reads]
  end.
Ltac reads_tac := repeat (reads_step; cbv beta iota zeta; eval_eqb).

#[export] Hint Extern 0 (u8b _ = true) => reflexivity : reads.
#[export] Hint Extern 0 (u32b _ = true) => reflexivity : reads.

(** ** Payload types *)

(* wire/frame/payload.rs SpawnResource *)
Record SpawnResource : Type := mkSpawnResource {
  spawn_kind : ResourceKind;
  spawn_parent : option ResourceId;
  spawn_provider : option bytes;
  spawn_native_id : option bytes;
  spawn_bind_instance : bool
}.

(* wire/frame/payload.rs SpawnResource::is_default *)
Definition SpawnResource_is_default (s : SpawnResource) : bool :=
  is_terminal (spawn_kind s) && negb (is_Some_b (spawn_parent s))
  && negb (is_Some_b (spawn_provider s)) && negb (is_Some_b (spawn_native_id s))
  && negb (spawn_bind_instance s).

(* wire/frame/payload.rs AttachTarget *)
Inductive AttachTarget : Type :=
| AttachTarget_Last
| AttachTarget_ByName (name : bytes)
| AttachTarget_ById (id : Z)
| AttachTarget_CreateIfMissing (name : bytes) (command : option (list bytes)) (cwd : option bytes).

(* wire/frame/payload.rs ViewportInfo *)
Record ViewportInfo : Type := mkViewportInfo {
  cols : Z; rows : Z; pixel_w : option Z; pixel_h : option Z
}.

(* wire/frame/payload.rs Scope *)
Inductive Scope : Type :=
| Scope_Resource (id : ResourceId)
| Scope_Group (id : Z)
| Scope_Global.

(* wire/frame/payload.rs SpawnError *)
Inductive SpawnError : Type :=
| SpawnError_GroupNotFound
| SpawnError_SpawnFailed (msg : bytes)
| SpawnError_UnsupportedSatelliteRoute
| SpawnError_SatelliteUnreachable (msg : bytes)
| SpawnError_UnsupportedKind
| SpawnError_ParentNotFound
| SpawnError_ParentKindMismatch.

(* wire/frame/payload.rs SpawnResult *)
Inductive SpawnResult : Type :=
| SpawnResult_Ok (id : ResourceId)
| SpawnResult_Err (err : SpawnError)
| SpawnResult_OkBound (id : ResourceId) (instance : bytes).

(* wire/frame/payload.rs MoveError *)
Inductive MoveError : Type :=
| MoveError_MoveFailed (msg : bytes)
| MoveError_UnsupportedSatelliteRoute.

(* wire/frame/payload.rs MoveResult *)
Inductive MoveResult : Type :=
| MoveResult_Ok (id : ResourceId)
| MoveResult_Err (err : MoveError).

(** ** Input events (input/*.rs) *)

(** [ModSet::from_bits_truncate]: ten known bits. *)
(* input/key.rs:51-78 ModSet *)
Definition ModSet_ALL : Z := 0x3ff.
Definition ModSet_from_bits_truncate (bits : Z) : Z := Z.land bits ModSet_ALL.

(* input/key.rs KeyEvent *)
Record KeyEvent : Type := mkKeyEvent {
  key_action : KeyAction;
  key_key : PhysicalKey;
  key_mods : Z;
  key_consumed_mods : Z;
  key_composing : bool;
  key_text : option bytes;
  key_unshifted_codepoint : option Z
}.

(* input/mouse.rs MouseEvent *)
Record MouseEvent : Type := mkMouseEvent {
  mouse_action : MouseAction;
  mouse_button : MouseButton;
  mouse_mods : Z;
  mouse_x : Z;
  mouse_y : Z
}.

(* input/paste.rs PasteEvent *)
Record PasteEvent : Type := mkPasteEvent { paste_trust : PasteTrust; paste_data : bytes }.

(* input/mod.rs InputEvent *)
Inductive InputEvent : Type :=
| InputEvent_Key (e : KeyEvent)
| InputEvent_Mouse (e : MouseEvent)
| InputEvent_Focus (e : FocusEvent)
| InputEvent_Paste (e : PasteEvent).

(** ** Codecs *)

(* caps.rs:447-447 BootstrapCodec::SYNTHESIZED_VT_V1_TAG *)
Definition SYNTHESIZED_VT_V1_TAG : Z := 0.
(* caps.rs:449-449 BootstrapCodec::NATIVE_TAG *)
Definition NATIVE_TAG : Z := 1.
(* caps.rs:453-453 BootstrapCodec::AGENT_EVENTS_JSONL_V1_TAG *)
Definition AGENT_EVENTS_JSONL_V1_TAG : Z := 3.
(* caps.rs:716-716 BootstrapProfile::NATIVE_STATE_TAG *)
Definition NATIVE_STATE_TAG : Z := 3.
(* caps.rs:718-718 BootstrapProfile::SYNTHESIZED_VT_RAW_TAG *)
Definition SYNTHESIZED_VT_RAW_TAG : Z := 1.
(* caps.rs:720-720 BootstrapProfile::SYNTHESIZED_VT_STATE_SYNC_TAG *)
Definition SYNTHESIZED_VT_STATE_SYNC_TAG : Z := 2.

(* wire/frame/codec.rs encode_bootstrap_codec *)
Definition encode_bootstrap_codec (codec : BootstrapCodec) : bytes :=
  match codec with
  | BootstrapCodec_SynthesizedVtV1 => write_u8 SYNTHESIZED_VT_V1_TAG
  | BootstrapCodec_Native version => write_u8 NATIVE_TAG ++ write_u8 (to_wire version)
  | BootstrapCodec_AgentEventsJsonlV1 => write_u8 AGENT_EVENTS_JSONL_V1_TAG
  end.

(* wire/frame/codec.rs decode_bootstrap_codec *)
Definition decode_bootstrap_codec : M BootstrapCodec :=
  tag ← read_u8;
  if tag =? SYNTHESIZED_VT_V1_TAG then mret BootstrapCodec_SynthesizedVtV1
  else if tag =? NATIVE_TAG then
    value ← read_u8;
    codec ← lift (enum_of "EngineCodec" value);
    mret (BootstrapCodec_Native codec)
  else if tag =? AGENT_EVENTS_JSONL_V1_TAG then mret BootstrapCodec_AgentEventsJsonlV1
  else fail (UnknownEnumValue "BootstrapCodec" tag).

(* wire/frame/codec.rs encode_bootstrap_profile *)
Definition encode_bootstrap_profile (profile : BootstrapProfile) : bytes :=
  match profile with
  | Profile_NativeState codec features =>
      write_u8 NATIVE_STATE_TAG ++ write_u8 (to_wire codec)
      ++ write_u32_be (EngineFeatureSet_as_wire features)
  | Profile_SynthesizedVtRaw => write_u8 SYNTHESIZED_VT_RAW_TAG
  | Profile_SynthesizedVtStateSync => write_u8 SYNTHESIZED_VT_STATE_SYNC_TAG
  end.

(* wire/frame/codec.rs decode_bootstrap_profile *)
Definition decode_bootstrap_profile : M BootstrapProfile :=
  tag ← read_u8;
  if tag =? NATIVE_STATE_TAG then
    value ← read_u8;
    codec ← lift (enum_of "EngineCodec" value);
    bits ← read_u32_be;
    let features := EngineFeatureSet_from_wire bits in
    if negb (EngineFeatureSet_supports_native features) then fail InvalidBootstrapProfile
    else mret (Profile_NativeState codec features)
  else if tag =? SYNTHESIZED_VT_RAW_TAG then mret Profile_SynthesizedVtRaw
  else if tag =? SYNTHESIZED_VT_STATE_SYNC_TAG then mret Profile_SynthesizedVtStateSync
  else fail (UnknownEnumValue "BootstrapProfile" tag).

(* wire/frame/codec.rs decode_bootstrap_stream_profile *)
Definition decode_bootstrap_stream_profile (codec : BootstrapCodec) (output_mode : Z)
    : dresult BootstrapStreamProfile :=
  match codec with
  | BootstrapCodec_Native c =>
      if output_mode =? 0 then Ok (StreamProfile_NativeState c) else Err InvalidBootstrapProfile
  | BootstrapCodec_SynthesizedVtV1 =>
      if output_mode =? 0 then Ok StreamProfile_SynthesizedVtRaw
      else if output_mode =? 1 then Ok StreamProfile_SynthesizedVtStateSync
      else Err InvalidBootstrapProfile
  | BootstrapCodec_AgentEventsJsonlV1 =>
      if output_mode =? 0 then Ok StreamProfile_AgentEventsJsonlV1
      else Err InvalidBootstrapProfile
  end.

(* wire/frame/codec.rs decode_stream_id *)
Definition decode_stream_id : M Z :=
  raw ← read_u64_be; lift (ok_or InvalidStreamId (StreamId_new raw)).
(* wire/frame/codec.rs decode_bootstrap_id *)
Definition decode_bootstrap_id : M Z :=
  raw ← read_u64_be; lift (ok_or InvalidBootstrapId (BootstrapId_new raw)).

(* wire/frame/codec.rs encode_optional_str *)
Definition encode_optional_str (value : option bytes) : bytes :=
  match value with None => write_u8 0 | Some s => write_u8 1 ++ write_str s end.
(* wire/frame/codec.rs decode_optional_str *)
Definition decode_optional_str : M (option bytes) :=
  tag ← read_u8;
  if tag =? 0 then mret None
  else if tag =? 1 then s ← read_str; mret (Some s)
  else fail (UnknownEnumValue "Option<str> tag" tag).

(* wire/frame/codec.rs encode_optional_u16 *)
Definition encode_optional_u16 (value : option Z) : bytes :=
  match value with None => write_u8 0 | Some n => write_u8 1 ++ write_u16_be n end.
(* wire/frame/codec.rs decode_optional_u16 *)
Definition decode_optional_u16 : M (option Z) :=
  tag ← read_u8;
  if tag =? 0 then mret None
  else if tag =? 1 then n ← read_u16_be; mret (Some n)
  else fail (UnknownEnumValue "Option<u16> tag" tag).

(* wire/frame/codec.rs encode_optional_u32 *)
Definition encode_optional_u32 (value : option Z) : bytes :=
  match value with None => write_u8 0 | Some n => write_u8 1 ++ write_u32_be n end.
(* wire/frame/codec.rs decode_optional_u32 *)
Definition decode_optional_u32 : M (option Z) :=
  tag ← read_u8;
  if tag =? 0 then mret None
  else if tag =? 1 then n ← read_u32_be; mret (Some n)
  else fail (UnknownEnumValue "Option<u32> tag" tag).

(* wire/frame/codec.rs encode_string_list *)
Definition encode_string_list (l : list bytes) : bytes := write_list write_str l.
(* wire/frame/codec.rs decode_string_list *)
Definition decode_string_list : M (list bytes) := read_list read_str.

(* wire/frame/codec.rs encode_optional_string_list *)
Definition encode_optional_string_list (value : option (list bytes)) : bytes :=
  match value with None => write_u8 0 | Some l => write_u8 1 ++ write_list write_str l end.
(* wire/frame/codec.rs decode_optional_string_list *)
Definition decode_optional_string_list : M (option (list bytes)) :=
  tag ← read_u8;
  if tag =? 0 then mret None
  else if tag =? 1 then l ← read_list read_str; mret (Some l)
  else fail (UnknownEnumValue "Option<list<str>> tag" tag).

(* wire/frame/codec.rs encode_env *)
Definition encode_env (l : list (bytes * bytes)) : bytes :=
  write_list (fun kv => write_str kv.1 ++ write_str kv.2) l.
(* wire/frame/codec.rs decode_env *)
Definition decode_env : M (list (bytes * bytes)) :=
  read_list (k ← read_str; v ← read_str; mret (k, v)).

(* wire/frame/codec.rs encode_attach_target *)
Definition encode_attach_target (target : AttachTarget) : bytes :=
  match target with
  | AttachTarget_Last => write_u8 ATTACH_TARGET_LAST
  | AttachTarget_ByName name => write_u8 ATTACH_TARGET_BY_NAME ++ write_str name
  | AttachTarget_ById id => write_u8 ATTACH_TARGET_BY_ID ++ write_u32_be id
  | AttachTarget_CreateIfMissing name command cwd =>
      write_u8 ATTACH_TARGET_CREATE_IF_MISSING ++ write_str name
      ++ encode_optional_string_list command ++ encode_optional_str cwd
  end.

(* wire/frame/codec.rs decode_attach_target *)
Definition decode_attach_target : M AttachTarget :=
  tag ← read_u8;
  if tag =? ATTACH_TARGET_LAST then mret AttachTarget_Last
  else if tag =? ATTACH_TARGET_BY_NAME then s ← read_str; mret (AttachTarget_ByName s)
  else if tag =? ATTACH_TARGET_BY_ID then id ← read_u32_be; mret (AttachTarget_ById id)
  else if tag =? ATTACH_TARGET_CREATE_IF_MISSING then
    name ← read_str;
    command ← decode_optional_string_list;
    cwd ← decode_optional_str;
    mret (AttachTarget_CreateIfMissing name command cwd)
  else fail (UnknownEnumValue "AttachTarget" tag).

(* wire/frame/codec.rs encode_viewport_info *)
Definition encode_viewport_info (v : ViewportInfo) : bytes :=
  write_u16_be (cols v) ++ write_u16_be (rows v)
  ++ encode_optional_u16 (pixel_w v) ++ encode_optional_u16 (pixel_h v).
(* wire/frame/codec.rs decode_viewport_info *)
Definition decode_viewport_info : M ViewportInfo :=
  c ← read_u16_be; r ← read_u16_be;
  w ← decode_optional_u16; h ← decode_optional_u16;
  mret (mkViewportInfo c r w h).

(* wire/frame/codec.rs encode_focus_event *)
Definition encode_focus_event (e : FocusEvent) : Z := to_wire e.
(* wire/frame/codec.rs decode_focus_event *)
Definition decode_focus_event (tag : Z) : dresult FocusEvent := enum_of "FocusEvent" tag.

(* wire/frame/codec.rs encode_key_event *)
Definition encode_key_event (e : KeyEvent) : bytes :=
  write_u32_be (to_wire (key_action e))
  ++ write_u32_be (to_wire (key_key e))
  ++ write_u16_be (key_mods e) ++ write_u16_be (key_consumed_mods e)
  ++ write_u8 (b2z (key_composing e))
  ++ encode_optional_str (key_text e) ++ encode_optional_u32 (key_unshifted_codepoint e).
(* wire/frame/codec.rs decode_key_event *)
Definition decode_key_event : M KeyEvent :=
  action_raw ← read_u32_be;
  action ← lift (enum_of "KeyAction" action_raw);
  key_raw ← read_u32_be;
  key ← lift (enum_of "PhysicalKey" key_raw);
  mods ← read_u16_be;
  consumed ← read_u16_be;
  composing ← read_u8;
  text ← decode_optional_str;
  codepoint ← decode_optional_u32;
  mret (mkKeyEvent action key (ModSet_from_bits_truncate mods)
          (ModSet_from_bits_truncate consumed) (nonzero composing) text codepoint).

(* wire/frame/codec.rs encode_mouse_event *)
Definition encode_mouse_event (e : MouseEvent) : bytes :=
  write_u32_be (to_wire (mouse_action e))
  ++ write_u32_be (to_wire (mouse_button e))
  ++ write_u16_be (mouse_mods e) ++ write_f64_be (mouse_x e) ++ write_f64_be (mouse_y e).
(* wire/frame/codec.rs decode_mouse_event *)
Definition decode_mouse_event : M MouseEvent :=
  action_raw ← read_u32_be;
  action ← lift (enum_of "MouseAction" action_raw);
  button_raw ← read_u32_be;
  button ← lift (enum_of "MouseButton" button_raw);
  mods ← read_u16_be;
  x ← read_f64_be;
  y ← read_f64_be;
  mret (mkMouseEvent action button (ModSet_from_bits_truncate mods) x y).

(* wire/frame/codec.rs encode_paste_event *)
Definition encode_paste_event (e : PasteEvent) : bytes :=
  write_u8 (to_wire (paste_trust e)) ++ write_bytes (paste_data e).
(* wire/frame/codec.rs decode_paste_event *)
Definition decode_paste_event : M PasteEvent :=
  trust_tag ← read_u8;
  trust ← lift (enum_of "PasteTrust" trust_tag);
  data ← read_bytes;
  mret (mkPasteEvent trust data).

(* wire/frame/codec.rs encode_terminal_id *)
Definition encode_terminal_id (id : ResourceId) : bytes :=
  match id with
  | ResourceId_Local id => write_u8 RESOURCE_ID_TAG_LOCAL ++ write_u32_be id
  | ResourceId_Satellite h id =>
      write_u8 RESOURCE_ID_TAG_SATELLITE ++ write_str h ++ write_u32_be id
  end.
(* wire/frame/codec.rs decode_terminal_id *)
Definition decode_terminal_id : M ResourceId :=
  tag ← read_u8;
  if tag =? RESOURCE_ID_TAG_LOCAL then id ← read_u32_be; mret (ResourceId_Local id)
  else if tag =? RESOURCE_ID_TAG_SATELLITE then
    h ← read_str; id ← read_u32_be; mret (ResourceId_Satellite h id)
  else fail (UnknownEnumValue "ResourceId" tag).

(* wire/frame/codec.rs encode_scope *)
Definition encode_scope (s : Scope) : bytes :=
  match s with
  | Scope_Resource id => write_u8 SCOPE_TAG_RESOURCE ++ encode_terminal_id id
  | Scope_Group id => write_u8 SCOPE_TAG_GROUP ++ write_u32_be id
  | Scope_Global => write_u8 SCOPE_TAG_GLOBAL
  end.
(* wire/frame/codec.rs decode_scope *)
Definition decode_scope : M Scope :=
  tag ← read_u8;
  if tag =? SCOPE_TAG_RESOURCE then id ← decode_terminal_id; mret (Scope_Resource id)
  else if tag =? SCOPE_TAG_GROUP then id ← read_u32_be; mret (Scope_Group id)
  else if tag =? SCOPE_TAG_GLOBAL then mret Scope_Global
  else fail (UnknownEnumValue "Scope" tag).

(* wire/frame/codec.rs decode_metadata_scope_key *)
Definition metadata_scope_key_step (s : Z * option Scope * option bytes) (id : Z) (value : bytes)
    : dresult (Z * option Scope * option bytes) :=
  let '(request_id, scope, key) := s in
  if id =? get_metadata_REQUEST_ID then r ← sub value read_u32_be; Ok (r, scope, key)
  else if id =? get_metadata_SCOPE then sc ← sub value decode_scope; Ok (request_id, Some sc, key)
  else if id =? get_metadata_KEY then k ← from_utf8 value; Ok (request_id, scope, Some k)
  else Ok s.
(* wire/frame/codec.rs decode_metadata_scope_key *)
Definition decode_metadata_scope_key : M (Z * Scope * bytes) :=
  s ← while_fields metadata_scope_key_step (0, None, None);
  let '(request_id, scope, key) := s in
  scope ← lift (ok_or UnexpectedEof scope);
  key ← lift (ok_or UnexpectedEof key);
  mret (request_id, scope, key).

(* wire/frame/codec.rs encode_spawn_error *)
Definition encode_spawn_error (err : SpawnError) : bytes :=
  match err with
  | SpawnError_GroupNotFound => write_u8 SPAWN_ERROR_TAG_GROUP_NOT_FOUND
  | SpawnError_SpawnFailed msg => write_u8 SPAWN_ERROR_TAG_SPAWN_FAILED ++ write_str msg
  | SpawnError_UnsupportedSatelliteRoute => write_u8 SPAWN_ERROR_TAG_UNSUPPORTED_SATELLITE_ROUTE
  | SpawnError_SatelliteUnreachable msg =>
      write_u8 SPAWN_ERROR_TAG_SATELLITE_UNREACHABLE ++ write_str msg
  | SpawnError_UnsupportedKind => write_u8 SPAWN_ERROR_TAG_UNSUPPORTED_KIND
  | SpawnError_ParentNotFound => write_u8 SPAWN_ERROR_TAG_PARENT_NOT_FOUND
  | SpawnError_ParentKindMismatch => write_u8 SPAWN_ERROR_TAG_PARENT_KIND_MISMATCH
  end.
(* wire/frame/codec.rs decode_spawn_error *)
Definition decode_spawn_error : M SpawnError :=
  tag ← read_u8;
  if tag =? SPAWN_ERROR_TAG_GROUP_NOT_FOUND then mret SpawnError_GroupNotFound
  else if tag =? SPAWN_ERROR_TAG_SPAWN_FAILED then
    msg ← read_str; mret (SpawnError_SpawnFailed msg)
  else if tag =? SPAWN_ERROR_TAG_UNSUPPORTED_SATELLITE_ROUTE then
    mret SpawnError_UnsupportedSatelliteRoute
  else if tag =? SPAWN_ERROR_TAG_SATELLITE_UNREACHABLE then
    msg ← read_str; mret (SpawnError_SatelliteUnreachable msg)
  else if tag =? SPAWN_ERROR_TAG_UNSUPPORTED_KIND then mret SpawnError_UnsupportedKind
  else if tag =? SPAWN_ERROR_TAG_PARENT_NOT_FOUND then mret SpawnError_ParentNotFound
  else if tag =? SPAWN_ERROR_TAG_PARENT_KIND_MISMATCH then mret SpawnError_ParentKindMismatch
  else fail (UnknownEnumValue "SpawnError" tag).

(* wire/frame/codec.rs encode_spawn_result *)
Definition encode_spawn_result (r : SpawnResult) : bytes :=
  match r with
  | SpawnResult_Ok id | SpawnResult_OkBound id _ =>
      write_u8 SPAWN_RESULT_OK ++ encode_terminal_id id
  | SpawnResult_Err err => write_u8 SPAWN_RESULT_ERR ++ encode_spawn_error err
  end.
(* wire/frame/codec.rs decode_spawn_result *)
Definition decode_spawn_result : M SpawnResult :=
  tag ← read_u8;
  if tag =? SPAWN_RESULT_OK then id ← decode_terminal_id; mret (SpawnResult_Ok id)
  else if tag =? SPAWN_RESULT_ERR then err ← decode_spawn_error; mret (SpawnResult_Err err)
  else fail (UnknownEnumValue "SpawnResult" tag).

(* wire/frame/codec.rs encode_server_instance *)
Definition encode_server_instance (instance : bytes) : bytes := concat (map write_u8 instance).
(* wire/frame/codec.rs decode_server_instance *)
Definition decode_server_instance : M bytes := repeatM 16 read_u8.
#[global] Arguments decode_server_instance : simpl never.

(* wire/frame/codec.rs encode_move_result *)
Definition encode_move_result (r : MoveResult) : bytes :=
  match r with
  | MoveResult_Ok id => write_u8 MOVE_RESULT_OK ++ encode_terminal_id id
  | MoveResult_Err (MoveError_MoveFailed msg) =>
      write_u8 MOVE_RESULT_ERR ++ write_u8 MOVE_ERROR_TAG_MOVE_FAILED ++ write_str msg
  | MoveResult_Err MoveError_UnsupportedSatelliteRoute =>
      write_u8 MOVE_RESULT_ERR ++ write_u8 MOVE_ERROR_TAG_UNSUPPORTED_SATELLITE_ROUTE
  end.
(* wire/frame/codec.rs decode_move_result *)
Definition decode_move_result : M MoveResult :=
  tag ← read_u8;
  if tag =? MOVE_RESULT_OK then id ← decode_terminal_id; mret (MoveResult_Ok id)
  else if tag =? MOVE_RESULT_ERR then
    err_tag ← read_u8;
    if err_tag =? MOVE_ERROR_TAG_MOVE_FAILED then
      msg ← read_str; mret (MoveResult_Err (MoveError_MoveFailed msg))
    else if err_tag =? MOVE_ERROR_TAG_UNSUPPORTED_SATELLITE_ROUTE then
      mret (MoveResult_Err MoveError_UnsupportedSatelliteRoute)
    else fail (UnknownEnumValue "MoveError" err_tag)
  else fail (UnknownEnumValue "MoveResult" tag).

(** ** Well-formed values: the invariants of the Rust types *)

Definition wf_opt {A} (wf : A -> bool) (o : option A) : bool :=
  match o with Some a => wf a | None => true end.
Definition wf_strs (l : list bytes) : bool := forallb wf_str l.
Definition wf_profile (p : BootstrapProfile) : bool :=
  match p with
  | Profile_NativeState _ f => f =? EngineFeatureSet_required_native
  | _ => true
  end.
Definition wf_attach_target (t : AttachTarget) : bool :=
  match t with
  | AttachTarget_Last => true
  | AttachTarget_ByName n => wf_str n
  | AttachTarget_ById id => u32b id
  | AttachTarget_CreateIfMissing n c d => wf_str n && wf_opt wf_strs c && wf_opt wf_str d
  end.
Definition wf_viewport (v : ViewportInfo) : bool :=
  u16b (cols v) && u16b (rows v) && wf_opt u16b (pixel_w v) && wf_opt u16b (pixel_h v).
Definition wf_mods (m : Z) : bool := (0 <=? m) && (m <=? ModSet_ALL).
Definition wf_key_event (e : KeyEvent) : bool :=
  wf_mods (key_mods e) && wf_mods (key_consumed_mods e) && wf_opt wf_str (key_text e)
  && wf_opt u32b (key_unshifted_codepoint e).
Definition wf_mouse_event (e : MouseEvent) : bool :=
  wf_mods (mouse_mods e) && u64b (mouse_x e) && u64b (mouse_y e).
Definition wf_paste_event (e : PasteEvent) : bool := is_bytes (paste_data e).
Definition wf_input_event (e : InputEvent) : bool :=
  match e with
  | InputEvent_Key e => wf_key_event e
  | InputEvent_Mouse e => wf_mouse_event e
  | InputEvent_Focus _ => true
  | InputEvent_Paste e => wf_paste_event e
  end.
Definition wf_scope (s : Scope) : bool :=
  match s with Scope_Resource id => wf_ResourceId id | Scope_Group id => u32b id | Scope_Global => true end.
Definition wf_spawn_error (e : SpawnError) : bool :=
  match e with
  | SpawnError_SpawnFailed m | SpawnError_SatelliteUnreachable m => wf_str m
  | _ => true
  end.
Definition wf_spawn_result (r : SpawnResult) : bool :=
  match r with
  | SpawnResult_Ok id => wf_ResourceId id
  | SpawnResult_Err e => wf_spawn_error e
  | SpawnResult_OkBound id i => wf_ResourceId id && wf_id16 i
  end.
Definition wf_move_result (r : MoveResult) : bool :=
  match r with
  | MoveResult_Ok id => wf_ResourceId id
  | MoveResult_Err (MoveError_MoveFailed m) => wf_str m
  | MoveResult_Err _ => true
  end.

(** ** Round trips of the sub-records *)

Lemma nonzero_b2z b : nonzero (b2z b) = b.
Proof. by destruct b. Qed.

Lemma u8b_b2z b : u8b (b2z b) = true.
Proof. by destruct b. Qed.

Lemma u16b_u32b z : u16b z = true -> u32b z = true.
Proof. rewrite u16b_spec, u32b_spec. lia. Qed.

Lemma to_wire_u32 {A} `{WireEnum A} (a : A) : u32b (to_wire a) = true.
Proof. apply u16b_u32b, to_wire_range. Qed.

#[export] Hint Resolve to_wire_u32 to_wire_range : reads.
#[export] Hint Extern 1 (u8b (to_wire ?a) = true) => destruct a; reflexivity : reads.

Lemma wf_mods_u16 m : wf_mods m = true -> u16b m = true.
Proof.
  unfold wf_mods, ModSet_ALL. rewrite andb_true_iff, !Z.leb_le, u16b_spec. lia.
Qed.

Lemma land_id_small m k : 0 <= m < 2 ^ k -> 0 <= k -> Z.land m (Z.ones k) = m.
Proof. intros. rewrite Z.land_ones by lia. by apply Z.mod_small. Qed.

Lemma mods_truncate m : wf_mods m = true -> ModSet_from_bits_truncate m = m.
Proof.
  unfold wf_mods, ModSet_ALL. rewrite andb_true_iff, !Z.leb_le. intros.
  apply (land_id_small m 10); lia.
Qed.

Lemma map_len_le {A} (enc : A -> bytes) (l : list A) :
  (forall x, x ∈ l -> 1 <= len (enc x)) -> len l <= len (concat (map enc l)).
Proof.
  induction l as [|x l IH]; intros H; cbn; [done|].
  rewrite len_cons, len_app.
  specialize (H x ltac:(left)) as Hx.
  assert (len l <= len (concat (map enc l))) by (apply IH; intros; apply H; by right). lia.
Qed.

(** Lists: every element takes at least one byte, so under the frame cap the count
    is exact. *)
Lemma reads_list {A} (m : M A) (enc : A -> bytes) (l : list A) :
  (forall x, x ∈ l -> reads m (enc x) x /\ 1 <= len (enc x)) ->
  reads (read_list m) (write_list enc l) l.
Proof.
  intros H. apply reads_len; intros Hl. unfold write_list, read_list, write_u32_be in *.
  rewrite len_app, len_to_be in Hl.
  assert (len l <= len (concat (map enc l))) by (apply map_len_le; intros; by apply H).
  pose proof (len_nonneg l). rewrite saturate_small in * by lia.
  eapply reads_bind; [apply reads_u32, u32b_spec; unfold MAX_FRAME_LEN in *; lia|].
  cbv beta. unfold len. rewrite Nat2Z.id. apply reads_repeat. intros; by apply H.
Qed.

Lemma len_write_str s : 4 <= len (write_str s).
Proof. unfold write_str, write_bytes, write_u32_be. rewrite len_app, len_to_be. pose proof (len_nonneg s). lia. Qed.

Lemma reads_wf_str s : wf_str s = true -> reads read_str (write_str s) s.
Proof. apply reads_str. Qed.
#[export] Hint Resolve reads_wf_str : reads.

Lemma reads_string_list l : wf_strs l = true -> reads decode_string_list (encode_string_list l) l.
Proof.
  intros H. apply reads_list. intros s Hs. pose proof (len_write_str s).
  split; [|lia]. apply reads_str. unfold wf_strs in H. rewrite forallb_forall in H.
  by apply H, list_elem_of_In.
Qed.
#[export] Hint Resolve reads_string_list u8b_b2z : reads.

Lemma reads_env l :
  forallb (fun kv => wf_str kv.1 && wf_str kv.2) l = true -> reads decode_env (encode_env l) l.
Proof.
  intros H. apply reads_list. intros [k v] Hs. cbn.
  rewrite forallb_forall in H. specialize (H (k, v) (proj1 (list_elem_of_In _ _) Hs)).
  cbn in H. split_bools. split; [reads_tac|].
  rewrite len_app. pose proof (len_write_str k). pose proof (len_nonneg (write_str v)). lia.
Qed.

Lemma reads_optional_str o :
  wf_opt wf_str o = true -> reads decode_optional_str (encode_optional_str o) o.
Proof. destruct o; cbn; intros; unfold decode_optional_str; reads_tac. Qed.
Lemma reads_optional_u16 o :
  wf_opt u16b o = true -> reads decode_optional_u16 (encode_optional_u16 o) o.
Proof. destruct o; cbn; intros; unfold decode_optional_u16; reads_tac. Qed.
Lemma reads_optional_u32 o :
  wf_opt u32b o = true -> reads decode_optional_u32 (encode_optional_u32 o) o.
Proof. destruct o; cbn; intros; unfold decode_optional_u32; reads_tac. Qed.
Lemma reads_optional_string_list o :
  wf_opt wf_strs o = true -> reads decode_optional_string_list (encode_optional_string_list o) o.
Proof.
  destruct o as [l|]; cbn; intros H; unfold decode_optional_string_list.
  - pose proof (reads_string_list l H) as Hr. unfold decode_string_list, encode_string_list in Hr.
    reads_tac.
  - reads_tac.
Qed.
#[export] Hint Resolve reads_env reads_optional_str reads_optional_u16 reads_optional_u32
  reads_optional_string_list : reads.

Lemma reads_bootstrap_codec c : reads decode_bootstrap_codec (encode_bootstrap_codec c) c.
Proof. destruct c as [|[]|]; cbn; unfold decode_bootstrap_codec; reads_tac. Qed.

Lemma reads_bootstrap_profile p :
  wf_profile p = true -> reads decode_bootstrap_profile (encode_bootstrap_profile p) p.
Proof.
  destruct p as [[] f| |]; cbn; unfold decode_bootstrap_profile; intros H.
  - apply Z.eqb_eq in H as ->. reads_tac. apply reads_ret.
  - reads_tac.
  - reads_tac.
Qed.

Lemma reads_stream_id id : wf_StreamId id = true -> reads decode_stream_id (write_u64_be id) id.
Proof.
  intros H. pose proof (StreamId_new_nonzero id H) as E.
  unfold wf_StreamId in H. split_bools. unfold decode_stream_id. reads_tac. by rewrite E.
Qed.
Lemma reads_bootstrap_id id : wf_StreamId id = true -> reads decode_bootstrap_id (write_u64_be id) id.
Proof.
  intros H. pose proof (BootstrapId_new_nonzero id H) as E.
  unfold wf_StreamId in H. split_bools. unfold decode_bootstrap_id. reads_tac. by rewrite E.
Qed.
#[export] Hint Resolve reads_bootstrap_codec reads_bootstrap_profile reads_stream_id
  reads_bootstrap_id : reads.

Lemma reads_attach_target t :
  wf_attach_target t = true -> reads decode_attach_target (encode_attach_target t) t.
Proof. destruct t; cbn; intros; split_bools; unfold decode_attach_target; reads_tac. Qed.

Lemma reads_viewport_info v :
  wf_viewport v = true -> reads decode_viewport_info (encode_viewport_info v) v.
Proof.
  destruct v; unfold wf_viewport, encode_viewport_info, decode_viewport_info; cbn; intros;
    split_bools; reads_tac.
Qed.

Lemma reads_key_event e : wf_key_event e = true -> reads decode_key_event (encode_key_event e) e.
Proof.
  destruct e as [a k m c comp t u]; unfold wf_key_event, encode_key_event, decode_key_event; cbn.
  intros; split_bools.
  assert (u16b m = true) by (by apply wf_mods_u16).
  assert (u16b c = true) by (by apply wf_mods_u16).
  reads_tac. rewrite !mods_truncate, nonzero_b2z by done. reads_tac.
Qed.

Lemma reads_mouse_event e :
  wf_mouse_event e = true -> reads decode_mouse_event (encode_mouse_event e) e.
Proof.
  destruct e as [a b m x y]; unfold wf_mouse_event, encode_mouse_event, decode_mouse_event; cbn.
  intros; split_bools. assert (u16b m = true) by (by apply wf_mods_u16).
  reads_tac. rewrite mods_truncate by done. reads_tac.
Qed.

Lemma reads_paste_event e : reads decode_paste_event (encode_paste_event e) e.
Proof. destruct e as [t d]; unfold encode_paste_event, decode_paste_event; cbn. reads_tac. Qed.

Lemma reads_terminal_id id :
  wf_ResourceId id = true -> reads decode_terminal_id (encode_terminal_id id) id.
Proof. destruct id; cbn; intros; split_bools; unfold decode_terminal_id; reads_tac. Qed.
#[export] Hint Resolve reads_attach_target reads_viewport_info reads_key_event reads_mouse_event
  reads_paste_event reads_terminal_id : reads.

Lemma reads_scope s : wf_scope s = true -> reads decode_scope (encode_scope s) s.
Proof. destruct s; cbn; intros; unfold decode_scope; reads_tac. Qed.

Lemma reads_spawn_error e : wf_spawn_error e = true -> reads decode_spawn_error (encode_spawn_error e) e.
Proof. destruct e; cbn; intros; unfold decode_spawn_error; reads_tac. Qed.
#[export] Hint Resolve reads_scope reads_spawn_error : reads.

(** The positional result carries no instance token: [OkBound] reads back as [Ok]
    and [RESOURCE_SPAWNED] field 3 restores it. *)
Definition unbound (r : SpawnResult) : SpawnResult :=
  match r with SpawnResult_OkBound id _ => SpawnResult_Ok id | _ => r end.

Lemma reads_spawn_result r :
  wf_spawn_result r = true -> reads decode_spawn_result (encode_spawn_result r) (unbound r).
Proof. destruct r; cbn; intros; split_bools; unfold decode_spawn_result; reads_tac. Qed.

Lemma reads_move_result r : wf_move_result r = true -> reads decode_move_result (encode_move_result r) r.
Proof. destruct r as [|[]]; cbn; intros; unfold decode_move_result; reads_tac. Qed.

Lemma concat_write_u8 bs : concat (map write_u8 bs) = bs.
Proof. unfold write_u8. induction bs; cbn; [done|]. by f_equal. Qed.

Lemma reads_server_instance i :
  wf_id16 i = true -> reads decode_server_instance (encode_server_instance i) i.
Proof.
  intros [Hb Hl%Nat.eqb_eq]%andb_true_iff. unfold decode_server_instance.
  rewrite <- Hl. by apply (reads_repeat_wf _ _ u8b); [apply reads_u8|].
Qed.
#[export] Hint Resolve reads_spawn_result reads_move_result reads_server_instance : reads.
