(* ===== verification/Info.v ===== *)
(** * The session snapshot ([wire/info.rs], [wire/listeners.rs])

    The records of [GET_STATE] and [ATTACHED], the recursive layout tree with its
    depth and ratio checks, and the snapshot with its four additive trailers
    (resource facets, host inventory, session facets, listener report). *)

From S2P Require Import Prelude Wire Enums Ids Caps Codec.

(** ** Listener report (wire/listeners.rs) *)

(* wire/listeners.rs ListenerDisabledReason *)
Inductive ListenerDisabledReason : Type :=
| Disabled_TokenStoreLoadFailed | Disabled_TlsSetupFailed | Disabled_CertProvisionFailed
| Disabled_BindFailed | Disabled_OverlayGateClosed | Disabled_NoOverlayAddress.

(* wire/listeners.rs RemoteListenerTransport *)
Inductive RemoteListenerTransport : Type := Transport_Wss | Transport_Quic | Transport_Wt.

#[export] Instance RemoteListenerTransport_eq_dec : EqDecision RemoteListenerTransport.
Proof. solve_decision. Defined.

(* wire/listeners.rs RemoteListenerSlot *)
Record RemoteListenerSlot : Type := mkSlot {
  slot_transport : RemoteListenerTransport;
  slot_expected : bool;
  slot_bound : bool;
  slot_addr : option bytes;
  slot_disabled_reason : option ListenerDisabledReason
}.

(* wire/listeners.rs RemoteListenersReport *)
Record RemoteListenersReport : Type := mkReport {
  schema_version : Z;
  listeners : list RemoteListenerSlot
}.

(** The first slot of the same transport is replaced in place. *)
Fixpoint replace_slot (slot : RemoteListenerSlot) (l : list RemoteListenerSlot)
    : option (list RemoteListenerSlot) :=
  match l with
  | [] => None
  | row :: rest =>
      if decide (slot_transport row = slot_transport slot) then Some (slot :: rest)
      else match replace_slot slot rest with Some r => Some (row :: r) | None => None end
  end.

(* wire/listeners.rs RemoteListenersReport::upsert *)
Definition upsert (slot : RemoteListenerSlot) (r : RemoteListenersReport) : RemoteListenersReport :=
  mkReport (schema_version r)
    (match replace_slot slot (listeners r) with Some l => l | None => listeners r ++ [slot] end).

(* wire/listeners.rs RemoteListenersReport::unhealthy *)
Definition unhealthy (r : RemoteListenersReport) : list RemoteListenerSlot :=
  List.filter (fun s => slot_expected s && negb (slot_bound s)) (listeners r).

(** [serde_json] on the report, whose code is not in the repository: its documented
    contract is that it reads back what it wrote, as UTF-8 text. *)
Class ReportJson : Type := {
  report_to_json : RemoteListenersReport -> bytes;
  report_from_json : bytes -> option RemoteListenersReport;
  report_round_trip r : report_from_json (report_to_json r) = Some r;
  report_json_utf8 r : utf8_valid (report_to_json r) = true
}.

(** ** Layout trees *)

(* wire/info.rs LAYOUT_TAG_LEAF *)
Definition LAYOUT_TAG_LEAF : Z := 0.
(* wire/info.rs LAYOUT_TAG_SPLIT *)
Definition LAYOUT_TAG_SPLIT : Z := 1.
(* wire/info.rs SPLIT_DIR_HORIZONTAL *)
Definition SPLIT_DIR_HORIZONTAL : Z := 0.
(* wire/info.rs SPLIT_DIR_VERTICAL *)
Definition SPLIT_DIR_VERTICAL : Z := 1.

(* wire/info.rs SplitDir *)
Inductive SplitDir : Type := SplitDir_Horizontal | SplitDir_Vertical.

(* wire/info.rs LayoutNode *)
Inductive LayoutNode : Type :=
| LayoutNode_Leaf (pane : ResourceId)
| LayoutNode_Split (dir : SplitDir) (ratio : Z) (left right : LayoutNode).

(* wire/info.rs encode_split_dir *)
Definition encode_split_dir (d : SplitDir) : Z :=
  match d with SplitDir_Horizontal => SPLIT_DIR_HORIZONTAL | SplitDir_Vertical => SPLIT_DIR_VERTICAL end.
(* wire/info.rs decode_split_dir *)
Definition decode_split_dir (tag : Z) : dresult SplitDir :=
  if tag =? SPLIT_DIR_HORIZONTAL then Ok SplitDir_Horizontal
  else if tag =? SPLIT_DIR_VERTICAL then Ok SplitDir_Vertical
  else Err (UnknownEnumValue "SplitDir" tag).

(* wire/info.rs encode_layout_node *)
Fixpoint encode_layout_node (node : LayoutNode) : bytes :=
  match node with
  | LayoutNode_Leaf pane => write_u8 LAYOUT_TAG_LEAF ++ encode_terminal_id pane
  | LayoutNode_Split dir ratio l r =>
      write_u8 LAYOUT_TAG_SPLIT ++ write_u8 (encode_split_dir dir) ++ write_f32_be ratio
      ++ encode_layout_node l ++ encode_layout_node r
  end.

(* wire/info.rs MAX_LAYOUT_DEPTH *)
Definition MAX_LAYOUT_DEPTH : nat := 64.

(** [is_finite() && (0.0..=1.0).contains(&ratio)] on the bit pattern: from [+0.0] to
    [1.0], which are ordered like their bits, and [-0.0]. *)
Definition ratio_ok (bits : Z) : bool :=
  ((0 <=? bits) && (bits <=? 0x3f800000)) || (bits =? 0x80000000).

(** [levels] is [MAX_LAYOUT_DEPTH - depth]. *)
(* wire/info.rs decode_layout_node_depth *)
Fixpoint decode_layout_node_depth (levels : nat) : M LayoutNode :=
  match levels with
  | O => fail LayoutTooDeep
  | S levels' =>
      tag ← read_u8;
      if tag =? LAYOUT_TAG_LEAF then pane ← decode_terminal_id; mret (LayoutNode_Leaf pane)
      else if tag =? LAYOUT_TAG_SPLIT then
        dir_tag ← read_u8;
        dir ← lift (decode_split_dir dir_tag);
        ratio ← read_f32_be;
        if negb (ratio_ok ratio) then fail (MalformedLayoutRatio ratio)
        else
          l ← decode_layout_node_depth levels';
          r ← decode_layout_node_depth levels';
          mret (LayoutNode_Split dir ratio l r)
      else fail (UnknownEnumValue "LayoutNode" tag)
  end.

(* wire/info.rs decode_layout_node *)
Definition decode_layout_node : M LayoutNode := decode_layout_node_depth MAX_LAYOUT_DEPTH.

(** ** Records *)

(* wire/info.rs SessionInfo *)
Record SessionInfo : Type := mkSessionInfo {
  session_id : Z;
  session_name : bytes;
  session_active_window : option Z;
  session_created_at : Z;
  session_window_count : Z;
  session_attached_client_count : Z;
  session_keep_empty : bool
}.

(* wire/info.rs WindowInfo *)
Record WindowInfo : Type := mkWindowInfo {
  window_id : Z;
  window_session_id : Z;
  window_index : Z;
  window_name : bytes;
  window_active_resource : option ResourceId;
  window_layout : option LayoutNode
}.

(* wire/info.rs AgentFacet *)
Record AgentFacet : Type := mkAgentFacet {
  facet_provider : bytes;
  facet_native_id : option bytes;
  facet_state : bytes
}.

(* wire/info.rs ResourceInfo *)
Record ResourceInfo : Type := mkResourceInfo {
  resource_id : ResourceId;
  resource_window_id : Z;
  resource_cols : Z;
  resource_rows : Z;
  resource_title : option bytes;
  resource_cwd : option bytes;
  resource_kind : ResourceKind;
  resource_parent : option ResourceId;
  resource_agent : option AgentFacet
}.

(* wire/info.rs ResourceInfo::has_resource_facets *)
Definition has_resource_facets (r : ResourceInfo) : bool :=
  negb (is_terminal (resource_kind r)) || is_Some_b (resource_parent r)
  || is_Some_b (resource_agent r).

(* wire/info.rs HostSessionInfo *)
Record HostSessionInfo : Type := mkHostSessionInfo {
  hs_id : Z;
  hs_name : bytes;
  hs_created_at : Z;
  hs_window_count : Z;
  hs_pane_count : Z;
  hs_attached_client_count : Z;
  hs_active_resource : option ResourceId
}.

(* wire/info.rs HostInventory *)
Record HostInventory : Type := mkHostInventory {
  inv_host : bytes;
  inv_unreachable : option bytes;
  inv_sessions : list HostSessionInfo
}.

(* wire/info.rs SessionSnapshotTrail *)
Record SessionSnapshotTrail : Type := mkTrail {
  trail_hosts : list HostInventory;
  trail_listeners : option RemoteListenersReport
}.

(* wire/info.rs SessionSnapshot *)
Record SessionSnapshot : Type := mkSnapshot {
  snap_sessions : list SessionInfo;
  snap_windows : list WindowInfo;
  snap_resources : list ResourceInfo;
  focused_session : Z;
  focused_window : Z;
  focused_resource : ResourceId;
  trail : option SessionSnapshotTrail
}.

(* wire/info.rs SessionSnapshot::hosts *)
Definition snap_hosts (s : SessionSnapshot) : list HostInventory :=
  match trail s with Some t => trail_hosts t | None => [] end.
(* wire/info.rs SessionSnapshot::listeners *)
Definition snap_listeners (s : SessionSnapshot) : option RemoteListenersReport :=
  match trail s with Some t => trail_listeners t | None => None end.

Definition set_trail (t : option SessionSnapshotTrail) (s : SessionSnapshot) : SessionSnapshot :=
  mkSnapshot (snap_sessions s) (snap_windows s) (snap_resources s)
    (focused_session s) (focused_window s) (focused_resource s) t.

Definition is_nil {A} (l : list A) : bool := match l with [] => true | _ => false end.

(* wire/info.rs SessionSnapshot::set_hosts *)
Definition set_hosts (hosts : list HostInventory) (s : SessionSnapshot) : SessionSnapshot :=
  let boxed := if is_nil hosts then None else Some hosts in
  set_trail
    (match boxed, snap_listeners s with
     | None, None => None
     | hosts, listeners => Some (mkTrail (default [] hosts) listeners)
     end) s.

(* wire/info.rs SessionSnapshot::set_listeners *)
Definition set_listeners (l : option RemoteListenersReport) (s : SessionSnapshot) : SessionSnapshot :=
  let hosts := snap_hosts s in
  set_trail (if is_nil hosts && negb (is_Some_b l) then None else Some (mkTrail hosts l)) s.

(** ** Codecs *)

(** [encode_option_str]/[decode_option_str] of this file are the codec's own. *)
(* wire/info.rs encode_option_str *)
Definition encode_option_str (value : option bytes) : bytes :=
  match value with None => write_u8 0 | Some s => write_u8 1 ++ write_str s end.
(* wire/info.rs decode_option_str *)
Definition decode_option_str : M (option bytes) :=
  tag ← read_u8;
  if tag =? 0 then mret None
  else if tag =? 1 then s ← read_str; mret (Some s)
  else fail (UnknownEnumValue "Option<str> tag" tag).

(* wire/info.rs encode_option_window_id *)
Definition encode_option_window_id (value : option Z) : bytes :=
  match value with None => write_u8 0 | Some id => write_u8 1 ++ write_u32_be id end.
(* wire/info.rs decode_option_window_id *)
Definition decode_option_window_id : M (option Z) :=
  tag ← read_u8;
  if tag =? 0 then mret None
  else if tag =? 1 then id ← read_u32_be; mret (Some id)
  else fail (UnknownEnumValue "Option<WindowId> tag" tag).

(* wire/info.rs encode_option_terminal_id *)
Definition encode_option_terminal_id (value : option ResourceId) : bytes :=
  match value with None => write_u8 0 | Some id => write_u8 1 ++ encode_terminal_id id end.
(* wire/info.rs decode_option_terminal_id *)
Definition decode_option_terminal_id : M (option ResourceId) :=
  tag ← read_u8;
  if tag =? 0 then mret None
  else if tag =? 1 then id ← decode_terminal_id; mret (Some id)
  else fail (UnknownEnumValue "Option<ResourceId> tag" tag).

(* wire/info.rs encode_option_layout_node *)
Definition encode_option_layout_node (value : option LayoutNode) : bytes :=
  match value with None => write_u8 0 | Some n => write_u8 1 ++ encode_layout_node n end.
(* wire/info.rs decode_option_layout_node *)
Definition decode_option_layout_node : M (option LayoutNode) :=
  tag ← read_u8;
  if tag =? 0 then mret None
  else if tag =? 1 then n ← decode_layout_node; mret (Some n)
  else fail (UnknownEnumValue "Option<LayoutNode> tag" tag).

(* wire/info.rs encode_list_len *)
Definition encode_list_len (n : Z) : bytes := write_u32_be (saturate_u32 n).
(* wire/info.rs decode_list_len *)
Definition decode_list_len : M Z := read_u32_be.

(* wire/info.rs encode_client_id *)
Definition encode_client_id (id : Z) : bytes := write_u32_be id.
(* wire/info.rs decode_client_id *)
Definition decode_client_id : M Z := read_u32_be.

(* wire/info.rs encode_session_info *)
Definition encode_session_info (i : SessionInfo) : bytes :=
  write_u32_be (session_id i) ++ write_str (session_name i)
  ++ encode_option_window_id (session_active_window i)
  ++ write_i64_be (session_created_at i) ++ write_u16_be (session_window_count i)
  ++ write_u16_be (session_attached_client_count i).
(* wire/info.rs decode_session_info *)
Definition decode_session_info : M SessionInfo :=
  id ← read_u32_be;
  name ← read_str;
  active_window ← decode_option_window_id;
  created ← read_i64_be;
  windows ← read_u16_be;
  clients ← read_u16_be;
  mret (mkSessionInfo id name active_window created windows clients false).

(* wire/info.rs encode_window_info *)
Definition encode_window_info (i : WindowInfo) : bytes :=
  write_u32_be (window_id i) ++ write_u32_be (window_session_id i)
  ++ write_u16_be (window_index i) ++ write_str (window_name i)
  ++ encode_option_terminal_id (window_active_resource i)
  ++ encode_option_layout_node (window_layout i).
(* wire/info.rs decode_window_info *)
Definition decode_window_info : M WindowInfo :=
  id ← read_u32_be;
  sid ← read_u32_be;
  index ← read_u16_be;
  name ← read_str;
  active ← decode_option_terminal_id;
  layout ← decode_option_layout_node;
  mret (mkWindowInfo id sid index name active layout).

(* wire/info.rs encode_terminal_info *)
Definition encode_terminal_info (i : ResourceInfo) : bytes :=
  encode_terminal_id (resource_id i) ++ write_u32_be (resource_window_id i)
  ++ write_u16_be (resource_cols i) ++ write_u16_be (resource_rows i)
  ++ encode_option_str (resource_title i) ++ encode_option_str (resource_cwd i).
(* wire/info.rs decode_terminal_info *)
Definition decode_terminal_info : M ResourceInfo :=
  id ← decode_terminal_id;
  wid ← read_u32_be;
  c ← read_u16_be;
  r ← read_u16_be;
  title ← decode_option_str;
  cwd ← decode_option_str;
  mret (mkResourceInfo id wid c r title cwd ResourceKind_Terminal None None).

(* wire/info.rs SESSION_FACET_KEEP_EMPTY *)
Definition SESSION_FACET_KEEP_EMPTY : Z := 0x01.

(* wire/info.rs:1045-1053 encode_resource_facets *)
Definition encode_agent_facet (a : option AgentFacet) : bytes :=
  match a with
  | None => write_u8 0
  | Some f =>
      write_u8 1 ++ write_str (facet_provider f) ++ encode_option_str (facet_native_id f)
      ++ write_str (facet_state f)
  end.
(* wire/info.rs:1041-1054 encode_resource_facets *)
Definition encode_facet_row (p : ResourceInfo) : bytes :=
  encode_terminal_id (resource_id p) ++ write_u8 (ResourceKind_as_wire (resource_kind p))
  ++ encode_option_terminal_id (resource_parent p) ++ encode_agent_facet (resource_agent p).

(* wire/info.rs encode_resource_facets *)
Definition encode_resource_facets (resources : list ResourceInfo) (more_follow : bool) : bytes :=
  let rows := List.filter has_resource_facets resources in
  if is_nil rows && negb more_follow then []
  else encode_list_len (len rows) ++ concat (map encode_facet_row rows).

(* wire/info.rs:1071-1089 decode_resource_facets *)
Definition decode_agent_facet : M (option AgentFacet) :=
  tag ← read_u8;
  if tag =? 0 then mret None
  else if tag =? 1 then
    provider ← read_str;
    native_id ← decode_option_str;
    state ← read_str;
    mret (Some (mkAgentFacet provider native_id state))
  else fail (UnknownEnumValue "Option<AgentFacet> tag" tag).

Definition with_facets (kind : ResourceKind) (parent : option ResourceId)
    (agent : option AgentFacet) (p : ResourceInfo) : ResourceInfo :=
  mkResourceInfo (resource_id p) (resource_window_id p) (resource_cols p) (resource_rows p)
    (resource_title p) (resource_cwd p) kind parent agent.

(** [if let Some(x) = l.iter_mut().find(|x| p(x)) { f(x) }]. *)
Fixpoint update_first {A} (p : A -> bool) (f : A -> A) (l : list A) : list A :=
  match l with
  | [] => []
  | x :: l' => if p x then f x :: l' else x :: update_first p f l'
  end.

(* wire/info.rs:1067-1095 decode_resource_facets *)
Definition decode_facet_row (resources : list ResourceInfo) : M (list ResourceInfo) :=
  id ← decode_terminal_id;
  kind ← read_u8;
  parent ← decode_option_terminal_id;
  agent ← decode_agent_facet;
  mret (update_first (fun p => bool_decide (resource_id p = id))
          (with_facets (ResourceKind_from_wire kind) parent agent) resources).
(* wire/info.rs decode_resource_facets *)
Definition decode_resource_facets (resources : list ResourceInfo) : M (list ResourceInfo) :=
  done ← body_done;
  if done : bool then mret resources
  else rows ← decode_list_len; iterM (Z.to_nat rows) decode_facet_row resources.

(* wire/info.rs encode_host_session *)
Definition encode_host_session (s : HostSessionInfo) : bytes :=
  write_u32_be (hs_id s) ++ write_str (hs_name s) ++ write_i64_be (hs_created_at s)
  ++ write_u16_be (hs_window_count s) ++ write_u16_be (hs_pane_count s)
  ++ write_u16_be (hs_attached_client_count s) ++ encode_option_terminal_id (hs_active_resource s).
(* wire/info.rs decode_host_session *)
Definition decode_host_session : M HostSessionInfo :=
  id ← read_u32_be;
  name ← read_str;
  created ← read_i64_be;
  windows ← read_u16_be;
  panes ← read_u16_be;
  clients ← read_u16_be;
  active ← decode_option_terminal_id;
  mret (mkHostSessionInfo id name created windows panes clients active).

(* wire/info.rs:1139-1146 encode_host_inventory *)
Definition encode_host_row (row : HostInventory) : bytes :=
  write_str (inv_host row) ++ encode_option_str (inv_unreachable row)
  ++ encode_list_len (len (inv_sessions row)) ++ concat (map encode_host_session (inv_sessions row)).
(* wire/info.rs encode_host_inventory *)
Definition encode_host_inventory (hosts : list HostInventory) (more_follow : bool) : bytes :=
  if is_nil hosts && negb more_follow then []
  else encode_list_len (len hosts) ++ concat (map encode_host_row hosts).
(* wire/info.rs:1167-1180 decode_host_inventory *)
Definition decode_host_row : M HostInventory :=
  h ← read_str;
  unreachable ← decode_option_str;
  count ← decode_list_len;
  sessions ← repeatM (Z.to_nat count) decode_host_session;
  mret (mkHostInventory h unreachable sessions).
(* wire/info.rs decode_host_inventory *)
Definition decode_host_inventory : M (list HostInventory) :=
  done ← body_done;
  if done : bool then mret []
  else rows ← decode_list_len; repeatM (Z.to_nat rows) decode_host_row.

(* wire/info.rs encode_session_facets *)
Definition encode_session_facets (sessions : list SessionInfo) (rows : Z) (more_follow : bool) : bytes :=
  if (rows =? 0) && negb more_follow then []
  else encode_list_len rows
       ++ concat (map (fun s => write_u32_be (session_id s) ++ write_u8 SESSION_FACET_KEEP_EMPTY)
            (List.filter session_keep_empty sessions)).

Definition with_keep_empty (b : bool) (s : SessionInfo) : SessionInfo :=
  mkSessionInfo (session_id s) (session_name s) (session_active_window s) (session_created_at s)
    (session_window_count s) (session_attached_client_count s) b.
(* wire/info.rs:1255-1261 decode_session_facets *)
Definition decode_session_facet_row (sessions : list SessionInfo) : M (list SessionInfo) :=
  id ← read_u32_be;
  flags ← read_u8;
  mret (update_first (fun s => session_id s =? id)
          (with_keep_empty (negb (Z.land flags SESSION_FACET_KEEP_EMPTY =? 0))) sessions).
(* wire/info.rs decode_session_facets *)
Definition decode_session_facets (sessions : list SessionInfo) : M (list SessionInfo) :=
  done ← body_done;
  if done : bool then mret sessions
  else rows ← decode_list_len; iterM (Z.to_nat rows) decode_session_facet_row sessions.

Section Snapshot.
Context `{RJ : ReportJson}.

(* wire/info.rs encode_listeners *)
Definition encode_listeners (report : option RemoteListenersReport) : bytes :=
  match report with None => [] | Some r => encode_option_str (Some (report_to_json r)) end.
(* wire/info.rs decode_listeners *)
Definition decode_listeners : M (option RemoteListenersReport) :=
  done ← body_done;
  if done : bool then mret None
  else
    s ← decode_option_str;
    mret (match s with Some json => report_from_json json | None => None end).

(* wire/info.rs encode_session_snapshot *)
Definition encode_session_snapshot (snap : SessionSnapshot) : bytes :=
  let session_rows := len (List.filter session_keep_empty (snap_sessions snap)) in
  let listeners_follow := is_Some_b (snap_listeners snap) in
  let session_facets_follow := (0 <? session_rows) || listeners_follow in
  let hosts_follow := negb (is_nil (snap_hosts snap)) || session_facets_follow in
  encode_list_len (len (snap_sessions snap)) ++ concat (map encode_session_info (snap_sessions snap))
  ++ encode_list_len (len (snap_windows snap)) ++ concat (map encode_window_info (snap_windows snap))
  ++ encode_list_len (len (snap_resources snap)) ++ concat (map encode_terminal_info (snap_resources snap))
  ++ write_u32_be (focused_session snap) ++ write_u32_be (focused_window snap)
  ++ encode_terminal_id (focused_resource snap)
  ++ encode_resource_facets (snap_resources snap) hosts_follow
  ++ encode_host_inventory (snap_hosts snap) session_facets_follow
  ++ encode_session_facets (snap_sessions snap) session_rows listeners_follow
  ++ encode_listeners (snap_listeners snap).

(* wire/info.rs decode_session_snapshot *)
Definition decode_session_snapshot : M SessionSnapshot :=
  sessions_len ← decode_list_len;
  sessions ← repeatM (Z.to_nat sessions_len) decode_session_info;
  windows_len ← decode_list_len;
  windows ← repeatM (Z.to_nat windows_len) decode_window_info;
  resources_len ← decode_list_len;
  resources ← repeatM (Z.to_nat resources_len) decode_terminal_info;
  fs ← read_u32_be;
  fw ← read_u32_be;
  fr ← decode_terminal_id;
  resources ← decode_resource_facets resources;
  hosts ← decode_host_inventory;
  sessions ← decode_session_facets sessions;
  ls ← decode_listeners;
  let snapshot := mkSnapshot sessions windows resources fs fw fr None in
  let snapshot := if negb (is_nil hosts) then set_hosts hosts snapshot else snapshot in
  let snapshot :=
    match ls with Some l => set_listeners (Some l) snapshot | None => snapshot end in
  mret snapshot.
End Snapshot.

(** ** Well-formed values *)

Fixpoint layout_depth (n : LayoutNode) : nat :=
  match n with
  | LayoutNode_Leaf _ => 1
  | LayoutNode_Split _ _ l r => S (Nat.max (layout_depth l) (layout_depth r))
  end.

Fixpoint wf_layout_tree (n : LayoutNode) : bool :=
  match n with
  | LayoutNode_Leaf id => wf_ResourceId id
  | LayoutNode_Split _ ratio l r => ratio_ok ratio && wf_layout_tree l && wf_layout_tree r
  end.

(** The trees the decoder accepts: at most 64 levels and ratios in [0, 1]. *)
Definition wf_layout (n : LayoutNode) : bool :=
  (layout_depth n <=? MAX_LAYOUT_DEPTH)%nat && wf_layout_tree n.

Definition wf_session_info (i : SessionInfo) : bool :=
  u32b (session_id i) && wf_str (session_name i) && wf_opt u32b (session_active_window i)
  && i64b (session_created_at i) && u16b (session_window_count i)
  && u16b (session_attached_client_count i).
Definition wf_window_info (i : WindowInfo) : bool :=
  u32b (window_id i) && u32b (window_session_id i) && u16b (window_index i)
  && wf_str (window_name i) && wf_opt wf_ResourceId (window_active_resource i)
  && wf_opt wf_layout (window_layout i).
Definition wf_facet (f : AgentFacet) : bool :=
  wf_str (facet_provider f) && wf_opt wf_str (facet_native_id f) && wf_str (facet_state f).
Definition wf_resource_info (i : ResourceInfo) : bool :=
  wf_ResourceId (resource_id i) && u32b (resource_window_id i) && u16b (resource_cols i)
  && u16b (resource_rows i) && wf_opt wf_str (resource_title i) && wf_opt wf_str (resource_cwd i)
  && wf_ResourceKind (resource_kind i) && wf_opt wf_ResourceId (resource_parent i)
  && wf_opt wf_facet (resource_agent i).
Definition wf_host_session (s : HostSessionInfo) : bool :=
  u32b (hs_id s) && wf_str (hs_name s) && i64b (hs_created_at s) && u16b (hs_window_count s)
  && u16b (hs_pane_count s) && u16b (hs_attached_client_count s)
  && wf_opt wf_ResourceId (hs_active_resource s).
Definition wf_inventory (h : HostInventory) : bool :=
  wf_str (inv_host h) && wf_opt wf_str (inv_unreachable h)
  && forallb wf_host_session (inv_sessions h).

(** A trail is only kept when it holds something ([set_hosts], [set_listeners]). *)
Definition wf_trail (t : SessionSnapshotTrail) : bool :=
  forallb wf_inventory (trail_hosts t)
  && (negb (is_nil (trail_hosts t)) || is_Some_b (trail_listeners t)).

(** Facet rows name their resource or session by id, so ids are distinct. *)
Definition wf_snapshot (s : SessionSnapshot) : bool :=
  forallb wf_session_info (snap_sessions s) && forallb wf_window_info (snap_windows s)
  && forallb wf_resource_info (snap_resources s)
  && bool_decide (NoDup (map session_id (snap_sessions s)))
  && bool_decide (NoDup (map resource_id (snap_resources s)))
  && u32b (focused_session s) && u32b (focused_window s) && wf_ResourceId (focused_resource s)
  && wf_opt wf_trail (trail s).

(** ** Round trips *)

Lemma ratio_ok_u32 z : ratio_ok z = true -> u32b z = true.
Proof.
  unfold ratio_ok. rewrite orb_true_iff, andb_true_iff, !Z.leb_le, Z.eqb_eq, u32b_spec. lia.
Qed.

Lemma reads_split_dir d : decode_split_dir (encode_split_dir d) = Ok d.
Proof. by destruct d. Qed.

Lemma reads_layout_depth n levels :
  wf_layout_tree n = true -> (layout_depth n <= levels)%nat ->
  reads (decode_layout_node_depth levels) (encode_layout_node n) n.
Proof.
  revert levels; induction n as [id|dir ratio l IHl r IHr]; intros levels Hwf Hd;
    (destruct levels as [|levels]; [cbn in Hd; lia|]); cbn in *; split_bools.
  - reads_tac.
  - assert (u32b ratio = true) by (by apply ratio_ok_u32).
    assert (u8b (encode_split_dir dir) = true) by (by destruct dir).
    reads_step. eval_eqb. reads_step. reads_step; [apply reads_split_dir|]. reads_step.
    rw_bools.
    eapply reads_bind; [apply IHl; [done|lia]|].
    eapply reads_bind_ret; [apply IHr; [done|lia]|]. apply reads_ret.
Qed.

Lemma reads_layout_node n : wf_layout n = true -> reads decode_layout_node (encode_layout_node n) n.
Proof. intros [Hd%Nat.leb_le Hw]%andb_true_iff. by apply reads_layout_depth. Qed.
#[export] Hint Resolve reads_layout_node : reads.

Lemma reads_option_str o : wf_opt wf_str o = true -> reads decode_option_str (encode_option_str o) o.
Proof. destruct o; cbn; intros; unfold decode_option_str; reads_tac. Qed.
Lemma reads_option_window_id o :
  wf_opt u32b o = true -> reads decode_option_window_id (encode_option_window_id o) o.
Proof. destruct o; cbn; intros; unfold decode_option_window_id; reads_tac. Qed.
Lemma reads_option_terminal_id o :
  wf_opt wf_ResourceId o = true -> reads decode_option_terminal_id (encode_option_terminal_id o) o.
Proof. destruct o; cbn; intros; unfold decode_option_terminal_id; reads_tac. Qed.
Lemma reads_option_layout_node o :
  wf_opt wf_layout o = true -> reads decode_option_layout_node (encode_option_layout_node o) o.
Proof. destruct o; cbn; intros; unfold decode_option_layout_node; reads_tac. Qed.
Lemma reads_client_id id : u32b id = true -> reads decode_client_id (encode_client_id id) id.
Proof. apply reads_u32. Qed.
#[export] Hint Resolve reads_option_str reads_option_window_id reads_option_terminal_id
  reads_option_layout_node reads_client_id : reads.

(** A session read back without its facet row, and a resource without its own. *)
Definition strip_resource (p : ResourceInfo) : ResourceInfo :=
  with_facets ResourceKind_Terminal None None p.

Lemma reads_session_info i :
  wf_session_info i = true -> reads decode_session_info (encode_session_info i) (with_keep_empty false i).
Proof.
  destruct i; unfold wf_session_info, encode_session_info, decode_session_info; cbn; intros;
    split_bools; reads_tac.
Qed.
Lemma reads_window_info i : wf_window_info i = true -> reads decode_window_info (encode_window_info i) i.
Proof.
  destruct i; unfold wf_window_info, encode_window_info, decode_window_info; cbn; intros;
    split_bools; reads_tac.
Qed.
Lemma reads_terminal_info i :
  wf_resource_info i = true -> reads decode_terminal_info (encode_terminal_info i) (strip_resource i).
Proof.
  destruct i; unfold wf_resource_info, encode_terminal_info, decode_terminal_info; cbn; intros;
    split_bools; reads_tac.
Qed.
Lemma reads_host_session s : wf_host_session s = true -> reads decode_host_session (encode_host_session s) s.
Proof.
  destruct s; unfold wf_host_session, encode_host_session, decode_host_session; cbn; intros;
    split_bools; reads_tac.
Qed.
Lemma reads_agent_facet a : wf_opt wf_facet a = true -> reads decode_agent_facet (encode_agent_facet a) a.
Proof.
  destruct a as [[]|]; unfold decode_agent_facet; cbn; unfold wf_facet; cbn; intros; split_bools; reads_tac.
Qed.
#[export] Hint Resolve reads_session_info reads_window_info reads_terminal_info reads_host_session
  reads_agent_facet : reads.

(** *** Updates by id *)

Lemma update_first_none {A} (p : A -> bool) f l :
  (forall x, x ∈ l -> p x = false) -> update_first p f l = l.
Proof.
  induction l as [|x l IH]; intros H; cbn; [done|].
  rewrite (H x) by left. f_equal. apply IH. intros; apply H; by right.
Qed.

(** Rows addressed by key restore a stripped list: each row that [keep] selects puts
  its element back, the others were not changed by [strip]. *)
Section Restore.
Context {A K : Type} (key : A -> K) (eqk : K -> A -> bool).
Context (keep : A -> bool) (strip : A -> A) (upd : A -> A -> A).
Hypothesis eqk_spec : forall k a, eqk k a = true <-> key a = k.
Hypothesis key_strip : forall a, key (strip a) = key a.
Hypothesis upd_strip : forall a, keep a = true -> upd a (strip a) = a.
Hypothesis strip_id : forall a, keep a = false -> strip a = a.

Definition put (l : list A) (row : A) : list A := update_first (eqk (key row)) (upd row) l.

Lemma put_cons_ne row y l : key y <> key row -> put (y :: l) row = y :: put l row.
Proof.
  intros H. unfold put; cbn. destruct (eqk (key row) y) eqn:E; [|done].
  apply eqk_spec in E. congruence.
Qed.

Lemma fold_put_cons rows y l :
  (forall r, r ∈ rows -> key y <> key r) ->
  fold_left put rows (y :: l) = y :: fold_left put rows l.
Proof.
  revert l; induction rows as [|r rows IH]; intros l H; cbn [fold_left]; [done|].
  rewrite put_cons_ne by (apply H; left). apply IH. intros; apply H; by right.
Qed.

Lemma fold_put_restore l :
  NoDup (map key l) -> fold_left put (List.filter keep l) (map strip l) = l.
Proof.
  induction l as [|x l IH]; cbn [map List.filter]; [done|]. intros [Hx Hl]%NoDup_cons.
  assert (Hne : forall r, r ∈ List.filter keep l -> key x <> key r).
  { intros r [Hr _]%list_elem_of_In%filter_In E. apply Hx. rewrite E.
    apply list_elem_of_In, in_map, Hr. }
  destruct (keep x) eqn:E; cbn [fold_left].
  - unfold put at 2. cbn [update_first]. rewrite (proj2 (eqk_spec _ _)) by (by rewrite key_strip).
    rewrite upd_strip by done. rewrite fold_put_cons by done. by rewrite IH.
  - rewrite strip_id by done. rewrite fold_put_cons by done. by rewrite IH.
Qed.
End Restore.

(** *** Counted lists in a body *)

Lemma reads_count {A B} rest (l : list A) (enc : A -> bytes) (m : nat -> M B) b2 (b : B) :
  (forall x, x ∈ l -> 1 <= len (enc x)) ->
  reads_in rest (m (length l)) (concat (map enc l) ++ b2) b ->
  reads_in rest (n ← decode_list_len; m (Z.to_nat n))
    (encode_list_len (len l) ++ concat (map enc l) ++ b2) b.
Proof.
  intros H1 Hm. apply reads_in_len; intros Hl. unfold encode_list_len, write_u32_be in *.
  rewrite !len_app, len_to_be in Hl. pose proof (map_len_le enc l H1).
  pose proof (len_nonneg l). pose proof (len_nonneg b2). pose proof (len_nonneg rest).
  rewrite saturate_small in * by lia. eapply reads_in_bind.
  - apply reads_reads_in, reads_u32, u32b_spec. unfold MAX_FRAME_LEN in *. lia.
  - cbv beta. unfold len. by rewrite Nat2Z.id.
Qed.

(** The same when the elements come back through [f] (a facet is read elsewhere). *)
Lemma reads_repeat_map {A C} (m : M C) (enc : A -> bytes) (f : A -> C) (l : list A) :
  (forall x, x ∈ l -> reads m (enc x) (f x)) ->
  reads (repeatM (length l) m) (concat (map enc l)) (map f l).
Proof.
  induction l as [|x l IH]; intros H; cbn; [apply reads_ret|].
  eapply reads_bind; [apply H; left|].
  eapply reads_bind_ret; [apply IH; intros; apply H; by right | apply reads_ret].
Qed.

Lemma forallb_elem {A} (p : A -> bool) l x : forallb p l = true -> x ∈ l -> p x = true.
Proof. rewrite forallb_forall. intros H Hx. by apply H, list_elem_of_In. Qed.

Lemma len1_terminal_id id : 1 <= len (encode_terminal_id id).
Proof. destruct id; cbn; auto with len1. Qed.
#[export] Hint Resolve len1_terminal_id : len1.

Lemma len1_session_info i : 1 <= len (encode_session_info i).
Proof. unfold encode_session_info; auto with len1. Qed.
Lemma len1_window_info i : 1 <= len (encode_window_info i).
Proof. unfold encode_window_info; auto with len1. Qed.
Lemma len1_terminal_info i : 1 <= len (encode_terminal_info i).
Proof. unfold encode_terminal_info; auto with len1. Qed.
Lemma len1_facet_row i : 1 <= len (encode_facet_row i).
Proof. unfold encode_facet_row; auto with len1. Qed.
Lemma len1_host_row i : 1 <= len (encode_host_row i).
Proof. unfold encode_host_row; auto with len1. Qed.
Lemma len1_host_session i : 1 <= len (encode_host_session i).
Proof. unfold encode_host_session; auto with len1. Qed.
Lemma len1_list_len n : 1 <= len (encode_list_len n).
Proof. apply len1_u32. Qed.
#[export] Hint Resolve len1_session_info len1_window_info len1_terminal_info len1_facet_row
  len1_host_row len1_host_session len1_list_len : len1.

Lemma len1_length (bs : bytes) : 1 <= len bs -> (0 < length bs)%nat.
Proof. unfold len. lia. Qed.

Lemma reads_host_row h : wf_inventory h = true -> reads decode_host_row (encode_host_row h) h.
Proof.
  destruct h as [h u ss]; unfold wf_inventory, encode_host_row, decode_host_row; cbn; intros; split_bools.
  reads_step. reads_step.
  apply reads_len; intros Hl. unfold encode_list_len, write_u32_be in *. rewrite len_app, len_to_be in Hl.
  pose proof (map_len_le encode_host_session ss (fun x _ => len1_host_session x)).
  pose proof (len_nonneg ss). rewrite saturate_small in * by lia.
  eapply reads_bind; [apply reads_u32, u32b_spec; unfold MAX_FRAME_LEN in *; lia|].
  cbv beta. unfold len. rewrite Nat2Z.id.
  eapply reads_bind_ret; [|apply reads_ret].
  by apply (reads_repeat_wf _ _ wf_host_session); [apply reads_host_session|].
Qed.

(** *** The four trailers *)

Lemma is_nil_true {A} (l : list A) : is_nil l = true <-> l = [].
Proof. by destruct l. Qed.

Lemma reads_facet_rows rs :
  forallb wf_resource_info rs = true -> NoDup (map resource_id rs) ->
  reads (iterM (length (List.filter has_resource_facets rs)) decode_facet_row (map strip_resource rs))
    (concat (map encode_facet_row (List.filter has_resource_facets rs))) rs.
Proof.
  intros Hwf Hnd.
  pose (upd := fun row p => with_facets (resource_kind row) (resource_parent row) (resource_agent row) p).
  pose (eqk := fun id p => bool_decide (resource_id p = id)).
  assert (E : fold_left (put resource_id eqk upd) (List.filter has_resource_facets rs)
                (map strip_resource rs) = rs).
  { apply fold_put_restore; [|done| | |done].
    - intros k a. unfold eqk. by rewrite bool_decide_eq_true.
    - by intros [].
    - intros [? ? ? ? ? ? [] [] []]; cbn; unfold has_resource_facets; cbn; try discriminate; done. }
  rewrite <- E at 4. apply reads_iter. intros s r [Hr _]%list_elem_of_In%filter_In.
  pose proof (forallb_elem _ _ _ Hwf (proj2 (list_elem_of_In _ _) Hr)) as Hw.
  destruct r; unfold wf_resource_info, decode_facet_row, encode_facet_row in *; cbn in *. split_bools.
  pose proof (ResourceKind_as_wire_u8 resource_kind0 ltac:(done)).
  reads_tac. rewrite ResourceKind_round_trip by done. apply reads_ret.
Qed.

Lemma reads_resource_facets rs more rest :
  forallb wf_resource_info rs = true -> NoDup (map resource_id rs) ->
  (more = false -> rest = []) ->
  reads_in rest (decode_resource_facets (map strip_resource rs)) (encode_resource_facets rs more) rs.
Proof.
  intros Hwf Hnd Hmore. unfold encode_resource_facets, decode_resource_facets.
  pose proof (reads_facet_rows rs Hwf Hnd) as Hrows.
  destruct (is_nil (List.filter has_resource_facets rs) && negb more) eqn:E.
  - apply andb_true_iff in E as [E%is_nil_true Em%negb_true_iff]. rewrite (Hmore Em).
    apply reads_in_done. rewrite E in Hrows. by apply reads_reads_in.
  - apply reads_in_not_done.
    { apply len1_length. rewrite len_app. pose proof (len_nonneg rest).
      pose proof (len1_app (encode_list_len (len (List.filter has_resource_facets rs)))
        (concat (map encode_facet_row (List.filter has_resource_facets rs))) (len1_list_len _)). lia. }
    cbv iota. rewrite <- (app_nil_r (concat _)).
    apply (reads_count rest _ encode_facet_row (fun n => iterM n decode_facet_row _));
      [auto with len1|]. rewrite app_nil_r. by apply reads_reads_in.
Qed.

Lemma reads_host_inventory hs more rest :
  forallb wf_inventory hs = true -> (more = false -> rest = []) ->
  reads_in rest decode_host_inventory (encode_host_inventory hs more) hs.
Proof.
  intros Hwf Hmore. unfold encode_host_inventory, decode_host_inventory.
  destruct (is_nil hs && negb more) eqn:E.
  - apply andb_true_iff in E as [->%is_nil_true Em%negb_true_iff]. rewrite (Hmore Em).
    apply reads_in_done, reads_reads_in, reads_ret.
  - apply reads_in_not_done.
    { apply len1_length. rewrite <- app_assoc. apply len1_app, len1_list_len. }
    cbv iota. rewrite <- (app_nil_r (concat _)).
    apply (reads_count rest _ encode_host_row (fun n => repeatM n decode_host_row));
      [auto with len1|]. rewrite app_nil_r.
    by apply reads_reads_in, (reads_repeat_wf _ _ wf_inventory); [apply reads_host_row|].
Qed.

Definition session_facet_row (s : SessionInfo) : bytes :=
  write_u32_be (session_id s) ++ write_u8 SESSION_FACET_KEEP_EMPTY.

Lemma reads_session_rows ss :
  forallb wf_session_info ss = true -> NoDup (map session_id ss) ->
  reads (iterM (length (List.filter session_keep_empty ss)) decode_session_facet_row
           (map (with_keep_empty false) ss))
    (concat (map session_facet_row (List.filter session_keep_empty ss))) ss.
Proof.
  intros Hwf Hnd.
  assert (E : fold_left (put session_id (fun id s => session_id s =? id)
                           (fun _ => with_keep_empty true))
                (List.filter session_keep_empty ss) (map (with_keep_empty false) ss) = ss).
  { apply fold_put_restore; [|done| | |done].
    - intros k a. apply Z.eqb_eq.
    - intros []; cbn. by intros ->.
    - intros []; cbn. by intros ->. }
  rewrite <- E at 4. apply reads_iter. intros s r [Hr _]%list_elem_of_In%filter_In.
  pose proof (forallb_elem _ _ _ Hwf (proj2 (list_elem_of_In _ _) Hr)) as Hw.
  destruct r; unfold wf_session_info, decode_session_facet_row, session_facet_row in *; cbn in *.
  split_bools. reads_step. reads_step. apply reads_ret.
Qed.

Lemma reads_session_facets ss more rest :
  forallb wf_session_info ss = true -> NoDup (map session_id ss) ->
  (more = false -> rest = []) ->
  reads_in rest (decode_session_facets (map (with_keep_empty false) ss))
    (encode_session_facets ss (len (List.filter session_keep_empty ss)) more) ss.
Proof.
  intros Hwf Hnd Hmore. unfold encode_session_facets, decode_session_facets.
  pose proof (reads_session_rows ss Hwf Hnd) as Hrows. fold session_facet_row.
  destruct ((len (List.filter session_keep_empty ss) =? 0) && negb more) eqn:E.
  - apply andb_true_iff in E as [E%Z.eqb_eq Em%negb_true_iff]. rewrite (Hmore Em).
    destruct (List.filter session_keep_empty ss); [|rewrite len_cons in E; pose proof (len_nonneg l); lia].
    apply reads_in_done. by apply reads_reads_in.
  - apply reads_in_not_done.
    { apply len1_length. rewrite <- app_assoc. apply len1_app, len1_list_len. }
    cbv iota. rewrite <- (app_nil_r (concat _)).
    apply (reads_count rest _ session_facet_row (fun n => iterM n decode_session_facet_row _));
      [intros; unfold session_facet_row; auto with len1|].
    rewrite app_nil_r. by apply reads_reads_in.
Qed.

Section SnapshotRoundTrip.
Context `{RJ : ReportJson}.

Lemma reads_listeners r : reads_in [] decode_listeners (encode_listeners r) r.
Proof.
  destruct r as [r|]; unfold decode_listeners, encode_listeners.
  - apply reads_in_not_done.
    { apply len1_length. rewrite app_nil_r. cbn. auto with len1. }
    cbv iota. apply reads_reads_in. eapply reads_bind_ret.
    + apply reads_option_str. cbn. apply report_json_utf8.
    + cbn. rewrite report_round_trip. apply reads_ret.
  - apply reads_in_done, reads_reads_in, reads_ret.
Qed.

(** The three counted lists at the front, and everything after them. *)
Lemma reads_list_then {A C B} rest (l : list A) (enc : A -> bytes) (m : M C) (f : A -> C)
    (k : list C -> M B) b2 b :
  (forall x, x ∈ l -> reads m (enc x) (f x) /\ 1 <= len (enc x)) ->
  reads_in rest (k (map f l)) b2 b ->
  reads_in rest (n ← decode_list_len; xs ← repeatM (Z.to_nat n) m; k xs)
    (encode_list_len (len l) ++ concat (map enc l) ++ b2) b.
Proof.
  intros H Hk. apply (reads_count rest l enc (fun n => xs ← repeatM n m; k xs)).
  - intros; by apply H.
  - eapply reads_in_bind; [|exact Hk]. apply reads_reads_in, reads_repeat_map. intros; by apply H.
Qed.

Lemma set_trail_restore ss ws rs fs fw fr t :
  wf_opt wf_trail t = true ->
  let s := mkSnapshot ss ws rs fs fw fr t in
  let s1 := if negb (is_nil (snap_hosts s)) then set_hosts (snap_hosts s)
              (mkSnapshot ss ws rs fs fw fr None) else mkSnapshot ss ws rs fs fw fr None in
  match snap_listeners s with Some l => set_listeners (Some l) s1 | None => s1 end = s.
Proof.
  destruct t as [[[|h hs] [l|]]|]; cbn; try done.
Qed.


Lemma reads_session_snapshot s :
  wf_snapshot s = true -> reads_body decode_session_snapshot (encode_session_snapshot s) s.
Proof.
  destruct s as [ss ws rs fs fw fr t]. unfold wf_snapshot; cbn. intros; split_bools.
  repeat match goal with H : bool_decide _ = true |- _ => apply bool_decide_eq_true in H end.
  apply reads_in_nil. unfold decode_session_snapshot, encode_session_snapshot. cbn.
  eapply reads_list_then.
  { intros x Hx. split; [|apply len1_session_info]. apply reads_session_info. eauto using forallb_elem. }
  eapply reads_list_then.
  { intros x Hx. split; [|apply len1_window_info]. apply (reads_window_info x). eauto using forallb_elem. }
  eapply reads_list_then.
  { intros x Hx. split; [|apply len1_terminal_info]. apply reads_terminal_info. eauto using forallb_elem. }
  do 3 (eapply reads_in_bind; [apply reads_reads_in; eauto with reads|]).
  set (T := mkSnapshot ss ws rs fs fw fr t) in *.
  assert (Hh : forallb wf_inventory (snap_hosts T) = true).
  { destruct t as [tr|]; cbn in *; [|done]. unfold wf_trail in *. split_bools. done. }
  eapply reads_in_bind.
  { apply reads_resource_facets; [done|done|]. rewrite app_nil_r.
    intros [Hn [Hr Hl]%orb_false_iff]%orb_false_iff. apply negb_false_iff, is_nil_true in Hn.
    unfold encode_host_inventory, encode_session_facets. rewrite Hn, Hr, Hl. cbn.
    destruct (snap_listeners T); [done|]. apply Z.ltb_ge in Hr.
    pose proof (len_nonneg (List.filter session_keep_empty ss)).
    by rewrite (proj2 (Z.eqb_eq _ _)) by lia. }
  eapply reads_in_bind.
  { apply reads_host_inventory; [done|]. rewrite app_nil_r.
    intros [Hr Hl]%orb_false_iff. unfold encode_session_facets. rewrite Hl. cbn.
    destruct (snap_listeners T); [done|]. apply Z.ltb_ge in Hr.
    pose proof (len_nonneg (List.filter session_keep_empty ss)).
    by rewrite (proj2 (Z.eqb_eq _ _)) by lia. }
  eapply reads_in_bind.
  { apply reads_session_facets; [done|done|]. rewrite app_nil_r. by destruct (snap_listeners T). }
  eapply reads_in_bind_ret; [apply reads_listeners|].
  cbv zeta. rewrite map_id. unfold T. rewrite set_trail_restore by done.
  apply reads_reads_in, reads_ret.
Qed.
End SnapshotRoundTrip.
