(* ===== verification/Command.v ===== *)
(** * Commands, results and agent events ([wire/frame/command.rs], [command_codec.rs])

    The request/response surface: every [Command] with its positional codec, the
    [CommandResult] union, and the [AgentEvent] union whose unknown members are
    carried through. *)

From S2P Require Import Prelude Wire Fields Enums Ids Caps Codec Info.

(* wire/frame/command.rs StateScope *)
Inductive StateScope : Type := StateScope_Server.

(** [KillConditions] is its bit set. *)
(* wire/frame/command.rs KillPrecondition *)
Record KillPrecondition : Type := mkKillPrecondition {
  pre_instance : option bytes;
  pre_conditions : Z
}.

(* wire/frame/command.rs:649-649 KillConditions::UNATTACHED_SINCE_SPAWN *)
Definition UNATTACHED_SINCE_SPAWN : Z := 0x01.
(* wire/frame/command.rs KillConditions::contains *)
Definition KillConditions_contains (s other : Z) : bool := Z.land s other =? other.
(* wire/frame/command.rs KillConditions::unknown_bits *)
Definition KillConditions_unknown_bits (s : Z) : Z := Z.land s (u8_max - UNATTACHED_SINCE_SPAWN).

(* wire/frame/command.rs Command *)
Inductive Command : Type :=
| Command_AttachResource (terminal_id : ResourceId)
| Command_DetachResource (terminal_id : ResourceId)
| Command_KillResource (terminal_id : ResourceId)
| Command_GetState (scope : StateScope)
| Command_GetScreen (terminal_id : ResourceId) (request_scrollback : option Z) (cells : bool)
| Command_RouteInput (terminal_id : ResourceId) (event : InputEvent)
| Command_ApplyInput (operation_id : bytes) (terminal_id : ResourceId) (events : list InputEvent)
| Command_KillResources (ids : list ResourceId)
| Command_DetachClients (session : option bytes)
| Command_GetTerminalState (terminal_id : ResourceId) (include_scrollback : bool)
    (max_scrollback_lines : Z)
| Command_SubscribeResourceEvents (terminal_id : ResourceId) (event_types : list ResourceEventType)
| Command_Upgrade
| Command_Shutdown
| Command_AcquireInput (terminal_id : ResourceId) (mode : InputMode) (ttl_ms : Z)
| Command_ReleaseInput (terminal_id : ResourceId)
| Command_SignalTerminal (terminal_id : ResourceId) (signal : TerminalSignal)
| Command_PutFile (upload_id : bytes) (terminal_id : ResourceId) (extension : bytes) (offset : Z)
    (data : bytes) (final_chunk : bool) (sha256 : option bytes)
| Command_ReportAsked (terminal_id : ResourceId) (id question : bytes) (suggestions : list bytes)
    (elapsed_seconds : option Z)
| Command_ReportAgentState (terminal_id : ResourceId) (state : ReportedAgentState)
| Command_GetPerf (reset : bool)
| Command_Transcribe (upload_id : bytes) (terminal_id : ResourceId)
| Command_AppendResourceOutput (terminal_id : ResourceId) (output : bytes)
| Command_KillResourceIf (terminal_id : ResourceId) (precondition : KillPrecondition).

(* wire/frame/command.rs FileUploadAck *)
Record FileUploadAck : Type := mkFileUploadAck { next_offset : Z; ack_path : option bytes }.

(* wire/frame/command.rs CommandValue *)
Inductive CommandValue : Type :=
| CommandValue_ResourceId (id : ResourceId)
| CommandValue_GroupId (id : Z)
| CommandValue_State (snapshot : SessionSnapshot)
| CommandValue_Json (s : bytes)
| CommandValue_Bytes (b : bytes)
| CommandValue_FileUpload (ack : FileUploadAck).

(* wire/frame/command.rs CommandResult *)
Inductive CommandResult : Type :=
| CommandResult_Ok
| CommandResult_OkWith (value : CommandValue)
| CommandResult_Error (code : ErrorCode) (message : bytes).

(* wire/frame/command.rs AgentEvent *)
Inductive AgentEvent : Type :=
| AgentEvent_CommandStarted
| AgentEvent_CommandFinished (exit_code : option Z)
| AgentEvent_TitleChanged (title : bytes)
| AgentEvent_Bell
| AgentEvent_ResourceSpawned (kind : ResourceKind) (parent : option ResourceId)
| AgentEvent_ResourceClosed (exit_status : option Z)
| AgentEvent_Dirty
| AgentEvent_Idle
| AgentEvent_TerminalControl (lifecycle : ResourceLifecycle) (exit_status : option Z)
    (input_holder : option Z) (action : ControlAction) (actor : option Z)
| AgentEvent_Asked (id question : bytes) (suggestions : list bytes) (elapsed_seconds : option Z)
| AgentEvent_CwdChanged (cwd : bytes)
| AgentEvent_Unknown (tag : Z) (body : bytes).

(** ** Helpers *)

(** [u16::try_from(n).unwrap_or(u16::MAX)]. *)
Definition saturate_u16 (n : Z) : Z := if n <=? u16_max then n else u16_max.

(** The loops that write an id's bytes one by one and that fill a byte array. *)
Definition write_array (bs : bytes) : bytes := concat (map write_u8 bs).
Definition read_array (n : nat) : M bytes := repeatM n read_u8.
#[global] Arguments write_array : simpl never.
#[global] Arguments read_array : simpl never.

(** Optional values behind a presence byte tested with [!= 0]. *)
Definition encode_flagged_str (o : option bytes) : bytes :=
  match o with Some s => write_u8 1 ++ write_str s | None => write_u8 0 end.
Definition decode_flagged_str : M (option bytes) :=
  flag ← read_u8;
  if nonzero flag then s ← read_str; mret (Some s) else mret None.

(* wire/frame/command_codec.rs encode_optional_i32 *)
Definition encode_optional_i32 (value : option Z) : bytes :=
  match value with None => write_u8 0 | Some n => write_u8 1 ++ write_u32_be (to_unsigned 32 n) end.
(* wire/frame/command_codec.rs decode_optional_i32 *)
Definition decode_optional_i32 : M (option Z) :=
  tag ← read_u8;
  if tag =? 0 then mret None
  else if tag =? 1 then bits ← read_u32_be; mret (Some (to_signed 32 bits))
  else fail (UnknownEnumValue "Option<i32> tag" tag).

(* wire/frame/command_codec.rs encode_optional_client_id *)
Definition encode_optional_client_id (value : option Z) : bytes :=
  match value with None => write_u8 0 | Some id => write_u8 1 ++ encode_client_id id end.
(* wire/frame/command_codec.rs decode_optional_client_id *)
Definition decode_optional_client_id : M (option Z) :=
  tag ← read_u8;
  if tag =? 0 then mret None
  else if tag =? 1 then id ← decode_client_id; mret (Some id)
  else fail (UnknownEnumValue "Option<ClientId> tag" tag).

(* wire/frame/command_codec.rs encode_state_scope *)
Definition encode_state_scope (s : StateScope) : bytes :=
  match s with StateScope_Server => write_u8 STATE_SCOPE_TAG_SERVER end.
(* wire/frame/command_codec.rs decode_state_scope *)
Definition decode_state_scope : M StateScope :=
  tag ← read_u8;
  if tag =? STATE_SCOPE_TAG_SERVER then mret StateScope_Server
  else fail (UnknownEnumValue "StateScope" tag).

(* wire/frame/command_codec.rs encode_input_event *)
Definition encode_input_event (e : InputEvent) : bytes :=
  match e with
  | InputEvent_Key e => write_u8 INPUT_EVENT_TAG_KEY ++ encode_key_event e
  | InputEvent_Mouse e => write_u8 INPUT_EVENT_TAG_MOUSE ++ encode_mouse_event e
  | InputEvent_Focus e => write_u8 INPUT_EVENT_TAG_FOCUS ++ write_u8 (encode_focus_event e)
  | InputEvent_Paste e => write_u8 INPUT_EVENT_TAG_PASTE ++ encode_paste_event e
  end.
(* wire/frame/command_codec.rs decode_input_event *)
Definition decode_input_event : M InputEvent :=
  tag ← read_u8;
  if tag =? INPUT_EVENT_TAG_KEY then e ← decode_key_event; mret (InputEvent_Key e)
  else if tag =? INPUT_EVENT_TAG_MOUSE then e ← decode_mouse_event; mret (InputEvent_Mouse e)
  else if tag =? INPUT_EVENT_TAG_FOCUS then
    b ← read_u8; e ← lift (decode_focus_event b); mret (InputEvent_Focus e)
  else if tag =? INPUT_EVENT_TAG_PASTE then e ← decode_paste_event; mret (InputEvent_Paste e)
  else fail (UnknownEnumValue "InputEvent" tag).

(* wire/frame/command_codec.rs encode_kill_precondition *)
Definition encode_kill_precondition (p : KillPrecondition) : bytes :=
  match pre_instance p with
  | None => write_u8 0
  | Some i => write_u8 1 ++ encode_server_instance i
  end ++ write_u8 (pre_conditions p).
(* wire/frame/command_codec.rs decode_kill_precondition *)
Definition decode_kill_precondition : M KillPrecondition :=
  tag ← read_u8;
  instance ←
    (if tag =? 0 then mret None
     else if tag =? 1 then i ← decode_server_instance; mret (Some i)
     else fail (UnknownEnumValue "Option<ServerInstance> tag" tag));
  conditions ← read_u8;
  mret (mkKillPrecondition instance conditions).

(* wire/frame/command_codec.rs encode_asked_fields *)
Definition encode_asked_fields (id question : bytes) (suggestions : list bytes)
    (elapsed_seconds : option Z) : bytes :=
  write_field event_asked_ID id ++ write_field event_asked_QUESTION question
  ++ concat (map (write_field event_asked_SUGGESTION) suggestions)
  ++ match elapsed_seconds with
     | Some secs => write_field event_asked_ELAPSED_SECONDS (write_u64_be secs)
     | None => []
     end.

(* wire/frame/command_codec.rs:1144-1170 decode_asked_event *)
Definition asked_step (s : bytes * bytes * list bytes * option Z) (field_id : Z) (value : bytes)
    : dresult (bytes * bytes * list bytes * option Z) :=
  let '(id, question, suggestions, elapsed) := s in
  if field_id =? event_asked_ID then v ← from_utf8 value; Ok (v, question, suggestions, elapsed)
  else if field_id =? event_asked_QUESTION then
    v ← from_utf8 value; Ok (id, v, suggestions, elapsed)
  else if field_id =? event_asked_SUGGESTION then
    v ← from_utf8 value; Ok (id, question, suggestions ++ [v], elapsed)
  else if field_id =? event_asked_ELAPSED_SECONDS then
    v ← sub value read_u64_be; Ok (id, question, suggestions, Some v)
  else Ok s.
(* wire/frame/command_codec.rs decode_asked_event *)
Definition decode_asked_event : M (bytes * bytes * list bytes * option Z) :=
  while_fields asked_step ([], [], [], None).

(** ** Commands *)

(* wire/frame/command_codec.rs encode_command *)
Definition encode_command (c : Command) : bytes :=
  match c with
  | Command_AttachResource t => write_u8 COMMAND_TAG_ATTACH_RESOURCE ++ encode_terminal_id t
  | Command_DetachResource t => write_u8 COMMAND_TAG_DETACH_RESOURCE ++ encode_terminal_id t
  | Command_KillResource t => write_u8 COMMAND_TAG_KILL_RESOURCE ++ encode_terminal_id t
  | Command_KillResourceIf t p =>
      write_u8 COMMAND_TAG_KILL_RESOURCE_IF ++ encode_terminal_id t ++ encode_kill_precondition p
  | Command_GetState s => write_u8 COMMAND_TAG_GET_STATE ++ encode_state_scope s
  | Command_GetScreen t sb cells =>
      write_u8 COMMAND_TAG_GET_SCREEN ++ encode_terminal_id t ++ encode_optional_u32 sb
      ++ write_u8 (b2z cells)
  | Command_RouteInput t e =>
      write_u8 COMMAND_TAG_ROUTE_INPUT ++ encode_terminal_id t ++ encode_input_event e
  | Command_ApplyInput op t events =>
      write_u8 COMMAND_TAG_APPLY_INPUT ++ write_array op ++ encode_terminal_id t
      ++ write_u16_be (saturate_u16 (len events)) ++ concat (map encode_input_event events)
  | Command_KillResources ids =>
      write_u8 COMMAND_TAG_KILL_RESOURCES ++ write_u16_be (saturate_u16 (len ids))
      ++ concat (map encode_terminal_id ids)
  | Command_DetachClients session => write_u8 COMMAND_TAG_DETACH_CLIENTS ++ encode_flagged_str session
  | Command_GetTerminalState t inc max =>
      write_u8 COMMAND_TAG_GET_TERMINAL_STATE ++ encode_terminal_id t ++ write_u8 (b2z inc)
      ++ write_u16_be max
  | Command_SubscribeResourceEvents t ets =>
      write_u8 COMMAND_TAG_SUBSCRIBE_RESOURCE_EVENTS ++ encode_terminal_id t
      ++ write_u16_be (if len ets <=? u16_max then len ets else 0)
      ++ concat (map (fun et => write_u8 (to_wire et)) ets)
  | Command_Upgrade => write_u8 COMMAND_TAG_UPGRADE
  | Command_Shutdown => write_u8 COMMAND_TAG_SHUTDOWN
  | Command_GetPerf reset => write_u8 COMMAND_TAG_GET_PERF ++ write_u8 (b2z reset)
  | Command_Transcribe up t =>
      write_u8 COMMAND_TAG_TRANSCRIBE ++ write_array up ++ encode_terminal_id t
  | Command_AcquireInput t mode ttl =>
      write_u8 COMMAND_TAG_ACQUIRE_INPUT ++ encode_terminal_id t ++ write_u8 (to_wire mode)
      ++ write_u32_be ttl
  | Command_ReleaseInput t => write_u8 COMMAND_TAG_RELEASE_INPUT ++ encode_terminal_id t
  | Command_SignalTerminal t signal =>
      write_u8 COMMAND_TAG_SIGNAL_TERMINAL ++ encode_terminal_id t ++ write_u8 (to_wire signal)
  | Command_PutFile up t ext offset data final sha =>
      write_u8 COMMAND_TAG_PUT_FILE ++ write_array up ++ encode_terminal_id t ++ write_str ext
      ++ write_u64_be offset ++ write_bytes data ++ write_u8 (b2z final)
      ++ match sha with Some d => write_u8 1 ++ write_array d | None => write_u8 0 end
  | Command_ReportAsked t id q sugg el =>
      write_u8 COMMAND_TAG_REPORT_ASKED ++ encode_terminal_id t ++ encode_asked_fields id q sugg el
  | Command_ReportAgentState t state =>
      write_u8 COMMAND_TAG_REPORT_AGENT_STATE ++ encode_terminal_id t ++ write_u8 (to_wire state)
  | Command_AppendResourceOutput t output =>
      write_u8 COMMAND_TAG_APPEND_RESOURCE_OUTPUT ++ encode_terminal_id t ++ write_bytes output
  end.

(* wire/frame/command_codec.rs decode_append_resource_output_command *)
Definition decode_append_resource_output_command : M Command :=
  t ← decode_terminal_id;
  b ← read_bytes;
  if is_nil b || (MAX_APPEND_BYTES <? len b) then fail AppendResourceOutputLimitExceeded
  else mret (Command_AppendResourceOutput t b).

(* wire/frame/command_codec.rs decode_get_screen_command *)
Definition decode_get_screen_command : M Command :=
  t ← decode_terminal_id;
  sb ← decode_optional_u32;
  done ← body_done;
  cells ← (if done : bool then mret false else b ← read_u8; mret (nonzero b));
  mret (Command_GetScreen t sb cells).

(* wire/frame/command_codec.rs decode_apply_input_command *)
Definition decode_apply_input_command (command_body_len : Z) : M Command :=
  if MAX_APPLY_INPUT_COMMAND_BODY <? command_body_len then fail ApplyInputLimitExceeded
  else
    raw ← read_array 16;
    op ← lift (ok_or InvalidInputOperationId (InputOperationId_new raw));
    t ← decode_terminal_id;
    count ← read_u16_be;
    if MAX_APPLY_INPUT_EVENTS <? count then fail ApplyInputLimitExceeded
    else
      events ← repeatM (Z.to_nat count) decode_input_event;
      mret (Command_ApplyInput op t events).

(* wire/frame/command_codec.rs decode_kill_terminals_command *)
Definition decode_kill_terminals_command : M Command :=
  count ← read_u16_be;
  ids ← repeatM (Z.to_nat count) decode_terminal_id;
  mret (Command_KillResources ids).

(* wire/frame/command_codec.rs decode_detach_clients_command *)
Definition decode_detach_clients_command : M Command :=
  session ← decode_flagged_str; mret (Command_DetachClients session).

(* wire/frame/command_codec.rs decode_get_terminal_state_command *)
Definition decode_get_terminal_state_command : M Command :=
  t ← decode_terminal_id;
  inc ← read_u8;
  max ← read_u16_be;
  mret (Command_GetTerminalState t (nonzero inc) max).

(* wire/frame/command_codec.rs decode_subscribe_terminal_events_command *)
Definition decode_subscribe_terminal_events_command : M Command :=
  t ← decode_terminal_id;
  count ← read_u16_be;
  ets ← iterM (Z.to_nat count)
          (fun l => b ← read_u8;
             mret (match from_wire b with Some et => l ++ [et] | None => l end)) [];
  mret (Command_SubscribeResourceEvents t ets).

(* wire/frame/command_codec.rs decode_acquire_input_command *)
Definition decode_acquire_input_command : M Command :=
  t ← decode_terminal_id;
  b ← read_u8;
  mode ← lift (ok_or (UnknownEnumValue "InputMode" 0) (from_wire b));
  ttl ← read_u32_be;
  mret (Command_AcquireInput t mode ttl).

(* wire/frame/command_codec.rs decode_signal_terminal_command *)
Definition decode_signal_terminal_command : M Command :=
  t ← decode_terminal_id;
  b ← read_u8;
  signal ← lift (ok_or (UnknownEnumValue "TerminalSignal" 0) (from_wire b));
  mret (Command_SignalTerminal t signal).

(* wire/frame/command_codec.rs decode_report_agent_state_command *)
Definition decode_report_agent_state_command : M Command :=
  t ← decode_terminal_id;
  value ← read_u8;
  state ← lift (enum_of "ReportedAgentState" value);
  mret (Command_ReportAgentState t state).

(* wire/frame/command_codec.rs decode_file_upload_id *)
Definition decode_file_upload_id : M bytes :=
  raw ← read_array 16; lift (ok_or InvalidFileUploadId (FileUploadId_new raw)).
(* wire/frame/command_codec.rs decode_put_file_extension *)
Definition decode_put_file_extension : M bytes :=
  ext ← read_str;
  if 16 <? len ext then fail FileUploadLimitExceeded else mret ext.
(* wire/frame/command_codec.rs decode_put_file_chunk *)
Definition decode_put_file_chunk (offset : Z) : M bytes :=
  data ← read_bytes;
  if (MAX_FILE_UPLOAD_CHUNK <? len data)
     || match checked_add_usize offset (len data) with
        | None => true
        | Some end_ => MAX_FILE_UPLOAD_SIZE <? end_
        end
  then fail FileUploadLimitExceeded else mret data.
(* wire/frame/command_codec.rs decode_optional_sha256 *)
Definition decode_optional_sha256 : M (option bytes) :=
  flag ← read_u8;
  if flag =? 0 then mret None else d ← read_array 32; mret (Some d).
(* wire/frame/command_codec.rs decode_put_file_command *)
Definition decode_put_file_command : M Command :=
  up ← decode_file_upload_id;
  t ← decode_terminal_id;
  ext ← decode_put_file_extension;
  offset ← read_u64_be;
  data ← decode_put_file_chunk offset;
  final ← read_u8;
  sha ← decode_optional_sha256;
  mret (Command_PutFile up t ext offset data (nonzero final) sha).

(* wire/frame/command_codec.rs decode_report_asked_command *)
Definition decode_report_asked_command : M Command :=
  t ← decode_terminal_id;
  asked ← decode_asked_event;
  let '(id, question, suggestions, elapsed) := asked in
  mret (Command_ReportAsked t id question suggestions elapsed).

(** [Ok(Some(command))] of the family decoders. *)
Definition found (m : M Command) : M (option Command) := c ← m; mret (Some c).

(* wire/frame/command_codec.rs decode_terminal_subscription_command *)
Definition decode_terminal_subscription_command (tag : Z) : M (option Command) :=
  if tag =? COMMAND_TAG_ATTACH_RESOURCE then
    found (t ← decode_terminal_id; mret (Command_AttachResource t))
  else if tag =? COMMAND_TAG_DETACH_RESOURCE then
    found (t ← decode_terminal_id; mret (Command_DetachResource t))
  else if tag =? COMMAND_TAG_KILL_RESOURCE then
    found (t ← decode_terminal_id; mret (Command_KillResource t))
  else if tag =? COMMAND_TAG_KILL_RESOURCE_IF then
    found (t ← decode_terminal_id; p ← decode_kill_precondition; mret (Command_KillResourceIf t p))
  else mret None.

(* wire/frame/command_codec.rs decode_live_affordance_command *)
Definition decode_live_affordance_command (tag command_body_len : Z) : M (option Command) :=
  if tag =? COMMAND_TAG_GET_SCREEN then found decode_get_screen_command
  else if tag =? COMMAND_TAG_ROUTE_INPUT then
    found (t ← decode_terminal_id; e ← decode_input_event; mret (Command_RouteInput t e))
  else if tag =? COMMAND_TAG_APPLY_INPUT then found (decode_apply_input_command command_body_len)
  else if tag =? COMMAND_TAG_GET_TERMINAL_STATE then found decode_get_terminal_state_command
  else if tag =? COMMAND_TAG_SUBSCRIBE_RESOURCE_EVENTS then
    found decode_subscribe_terminal_events_command
  else if tag =? COMMAND_TAG_PUT_FILE then found decode_put_file_command
  else if tag =? COMMAND_TAG_TRANSCRIBE then
    found (up ← decode_file_upload_id; t ← decode_terminal_id; mret (Command_Transcribe up t))
  else mret None.

(* wire/frame/command_codec.rs decode_supervisory_command *)
Definition decode_supervisory_command (tag : Z) : M (option Command) :=
  if tag =? COMMAND_TAG_ACQUIRE_INPUT then found decode_acquire_input_command
  else if tag =? COMMAND_TAG_RELEASE_INPUT then
    found (t ← decode_terminal_id; mret (Command_ReleaseInput t))
  else if tag =? COMMAND_TAG_SIGNAL_TERMINAL then found decode_signal_terminal_command
  else mret None.

(* wire/frame/command_codec.rs decode_agent_report_command *)
Definition decode_agent_report_command (tag : Z) : M (option Command) :=
  if tag =? COMMAND_TAG_REPORT_ASKED then found decode_report_asked_command
  else if tag =? COMMAND_TAG_REPORT_AGENT_STATE then found decode_report_agent_state_command
  else mret None.

(* wire/frame/command_codec.rs decode_session_command *)
Definition decode_session_command (tag : Z) : M (option Command) :=
  if tag =? COMMAND_TAG_GET_STATE then
    found (s ← decode_state_scope; mret (Command_GetState s))
  else if tag =? COMMAND_TAG_KILL_RESOURCES then found decode_kill_terminals_command
  else if tag =? COMMAND_TAG_DETACH_CLIENTS then found decode_detach_clients_command
  else if tag =? COMMAND_TAG_UPGRADE then found (mret Command_Upgrade)
  else if tag =? COMMAND_TAG_SHUTDOWN then found (mret Command_Shutdown)
  else if tag =? COMMAND_TAG_GET_PERF then found (b ← read_u8; mret (Command_GetPerf (nonzero b)))
  else mret None.

(* wire/frame/command_codec.rs decode_resource_command *)
Definition decode_resource_command (tag : Z) : M (option Command) :=
  if tag =? COMMAND_TAG_APPEND_RESOURCE_OUTPUT then found decode_append_resource_output_command
  else mret None.

(** [if let Some(command) = family? { return Ok(command) }]. *)
Definition or_else (family : M (option Command)) (next : M Command) : M Command :=
  c ← family;
  match c with Some command => mret command | None => next end.

(* wire/frame/command_codec.rs decode_command *)
Definition decode_command : M Command :=
  command_body_len ← (fun d => Ok (remaining_in_body d, d));
  tag ← read_u8;
  or_else (decode_terminal_subscription_command tag)
  (or_else (decode_live_affordance_command tag command_body_len)
  (or_else (decode_supervisory_command tag)
  (or_else (decode_agent_report_command tag)
  (or_else (decode_session_command tag)
  (or_else (decode_resource_command tag)
  (fail (UnknownEnumValue "Command" tag))))))).

(** ** Agent events *)

(* wire/frame/command_codec.rs encode_agent_event *)
Definition encode_agent_event_parts (e : AgentEvent) : Z * bytes :=
  match e with
  | AgentEvent_CommandStarted => (EVENT_TAG_COMMAND_STARTED, [])
  | AgentEvent_CommandFinished code => (EVENT_TAG_COMMAND_FINISHED, encode_optional_i32 code)
  | AgentEvent_TitleChanged title => (EVENT_TAG_TITLE_CHANGED, write_str title)
  | AgentEvent_Bell => (EVENT_TAG_BELL, [])
  | AgentEvent_ResourceSpawned kind parent =>
      (EVENT_TAG_RESOURCE_SPAWNED,
       (if negb (is_terminal kind)
        then write_field event_pane_spawned_KIND [ResourceKind_as_wire kind] else [])
       ++ match parent with
          | Some p => write_field event_pane_spawned_PARENT (encode_terminal_id p)
          | None => []
          end)
  | AgentEvent_ResourceClosed status => (EVENT_TAG_RESOURCE_CLOSED, encode_optional_i32 status)
  | AgentEvent_Dirty => (EVENT_TAG_DIRTY, [])
  | AgentEvent_Idle => (EVENT_TAG_IDLE, [])
  | AgentEvent_TerminalControl lifecycle status holder action actor =>
      (EVENT_TAG_TERMINAL_CONTROL,
       write_u8 (to_wire lifecycle) ++ encode_optional_i32 status
       ++ encode_optional_client_id holder ++ write_u8 (to_wire action)
       ++ encode_optional_client_id actor)
  | AgentEvent_Asked id q sugg el => (EVENT_TAG_ASKED, encode_asked_fields id q sugg el)
  | AgentEvent_CwdChanged cwd => (EVENT_TAG_CWD_CHANGED, write_str cwd)
  | AgentEvent_Unknown tag body => (tag, body)
  end.
(* wire/frame/command_codec.rs encode_agent_event *)
Definition encode_agent_event (e : AgentEvent) : bytes :=
  let '(tag, body) := encode_agent_event_parts e in
  write_u8 tag ++ write_bytes body.

(* wire/frame/command_codec.rs decode_terminal_control_event *)
Definition decode_terminal_control_event : M AgentEvent :=
  l ← read_u8;
  lifecycle ← lift (ok_or (UnknownEnumValue "ResourceLifecycle" 0) (from_wire l));
  status ← decode_optional_i32;
  holder ← decode_optional_client_id;
  a ← read_u8;
  action ← lift (ok_or (UnknownEnumValue "ControlAction" 0) (from_wire a));
  actor ← decode_optional_client_id;
  mret (AgentEvent_TerminalControl lifecycle status holder action actor).

(* wire/frame/command_codec.rs:1117-1127 decode_pane_spawned_event *)
Definition pane_spawned_step (s : ResourceKind * option ResourceId) (field_id : Z) (value : bytes)
    : dresult (ResourceKind * option ResourceId) :=
  let '(kind, parent) := s in
  if field_id =? event_pane_spawned_KIND then
    b ← sub value read_u8; Ok (ResourceKind_from_wire b, parent)
  else if field_id =? event_pane_spawned_PARENT then
    p ← sub value decode_terminal_id; Ok (kind, Some p)
  else Ok s.
(* wire/frame/command_codec.rs decode_pane_spawned_event *)
Definition decode_pane_spawned_event : M AgentEvent :=
  s ← while_fields pane_spawned_step (ResourceKind_Terminal, None);
  let '(kind, parent) := s in mret (AgentEvent_ResourceSpawned kind parent).

(* wire/frame/command_codec.rs decode_agent_event *)
Definition decode_agent_event : M AgentEvent :=
  tag ← read_u8;
  body ← read_bytes;
  lift (
    if tag =? EVENT_TAG_COMMAND_STARTED then Ok AgentEvent_CommandStarted
    else if tag =? EVENT_TAG_COMMAND_FINISHED then
      c ← sub body decode_optional_i32; Ok (AgentEvent_CommandFinished c)
    else if tag =? EVENT_TAG_TITLE_CHANGED then
      t ← sub body read_str; Ok (AgentEvent_TitleChanged t)
    else if tag =? EVENT_TAG_BELL then Ok AgentEvent_Bell
    else if tag =? EVENT_TAG_RESOURCE_SPAWNED then sub body decode_pane_spawned_event
    else if tag =? EVENT_TAG_RESOURCE_CLOSED then
      c ← sub body decode_optional_i32; Ok (AgentEvent_ResourceClosed c)
    else if tag =? EVENT_TAG_DIRTY then Ok AgentEvent_Dirty
    else if tag =? EVENT_TAG_IDLE then Ok AgentEvent_Idle
    else if tag =? EVENT_TAG_TERMINAL_CONTROL then sub body decode_terminal_control_event
    else if tag =? EVENT_TAG_ASKED then
      a ← sub body decode_asked_event;
      let '(id, question, suggestions, elapsed) := a in
      Ok (AgentEvent_Asked id question suggestions elapsed)
    else if tag =? EVENT_TAG_CWD_CHANGED then
      c ← sub body read_str; Ok (AgentEvent_CwdChanged c)
    else Ok (AgentEvent_Unknown tag body)).

(** ** Results *)

Section Results.
Context `{RJ : ReportJson}.

(* wire/frame/command_codec.rs encode_command_value *)
Definition encode_command_value (v : CommandValue) : bytes :=
  match v with
  | CommandValue_ResourceId id => write_u8 COMMAND_VALUE_TAG_RESOURCE_ID ++ encode_terminal_id id
  | CommandValue_GroupId id => write_u8 COMMAND_VALUE_TAG_GROUP_ID ++ write_u32_be id
  | CommandValue_State s => write_u8 COMMAND_VALUE_TAG_STATE ++ encode_session_snapshot s
  | CommandValue_Json s => write_u8 COMMAND_VALUE_TAG_JSON ++ write_str s
  | CommandValue_Bytes b => write_u8 COMMAND_VALUE_TAG_BYTES ++ write_bytes b
  | CommandValue_FileUpload ack =>
      write_u8 COMMAND_VALUE_TAG_FILE_UPLOAD ++ write_u64_be (next_offset ack)
      ++ encode_flagged_str (ack_path ack)
  end.

(* wire/frame/command_codec.rs decode_command_value *)
Definition decode_command_value : M CommandValue :=
  tag ← read_u8;
  if tag =? COMMAND_VALUE_TAG_RESOURCE_ID then
    id ← decode_terminal_id; mret (CommandValue_ResourceId id)
  else if tag =? COMMAND_VALUE_TAG_GROUP_ID then id ← read_u32_be; mret (CommandValue_GroupId id)
  else if tag =? COMMAND_VALUE_TAG_STATE then
    s ← decode_session_snapshot; mret (CommandValue_State s)
  else if tag =? COMMAND_VALUE_TAG_JSON then s ← read_str; mret (CommandValue_Json s)
  else if tag =? COMMAND_VALUE_TAG_BYTES then b ← read_bytes; mret (CommandValue_Bytes b)
  else if tag =? COMMAND_VALUE_TAG_FILE_UPLOAD then
    off ← read_u64_be;
    path ← decode_flagged_str;
    mret (CommandValue_FileUpload (mkFileUploadAck off path))
  else fail (UnknownEnumValue "CommandValue" tag).

(* wire/frame/command_codec.rs encode_command_result *)
Definition encode_command_result (r : CommandResult) : bytes :=
  match r with
  | CommandResult_Ok => write_u8 COMMAND_RESULT_TAG_OK
  | CommandResult_OkWith v => write_u8 COMMAND_RESULT_TAG_OK_WITH ++ encode_command_value v
  | CommandResult_Error code message =>
      write_u8 COMMAND_RESULT_TAG_ERROR ++ write_u16_be (to_wire code) ++ write_str message
  end.

(* wire/frame/command_codec.rs decode_command_result *)
Definition decode_command_result : M CommandResult :=
  tag ← read_u8;
  if tag =? COMMAND_RESULT_TAG_OK then mret CommandResult_Ok
  else if tag =? COMMAND_RESULT_TAG_OK_WITH then
    v ← decode_command_value; mret (CommandResult_OkWith v)
  else if tag =? COMMAND_RESULT_TAG_ERROR then
    code_raw ← read_u16_be;
    code ← lift (enum_of "ErrorCode" code_raw);
    message ← read_str;
    mret (CommandResult_Error code message)
  else fail (UnknownEnumValue "CommandResult" tag).
End Results.

(** ** Well-formed values *)

Definition wf_asked (id question : bytes) (suggestions : list bytes) (elapsed : option Z) : bool :=
  wf_str id && wf_str question && wf_strs suggestions && wf_opt u64b elapsed.

Definition wf_precondition (p : KillPrecondition) : bool :=
  wf_opt wf_id16 (pre_instance p) && u8b (pre_conditions p).

(** The bounds the decoder enforces are part of a command's well-formedness; so are
    the 65535 elements a [u16] count can carry. *)
Definition wf_command (c : Command) : bool :=
  match c with
  | Command_AttachResource t | Command_DetachResource t | Command_KillResource t
  | Command_ReleaseInput t | Command_SignalTerminal t _ | Command_ReportAgentState t _ =>
      wf_ResourceId t
  | Command_GetState _ | Command_Upgrade | Command_Shutdown | Command_GetPerf _ => true
  | Command_GetScreen t sb _ => wf_ResourceId t && wf_opt u32b sb
  | Command_RouteInput t e => wf_ResourceId t && wf_input_event e
  | Command_ApplyInput op t events =>
      wf_nonzero_id16 op && wf_ResourceId t && forallb wf_input_event events
      && (len events <=? MAX_APPLY_INPUT_EVENTS)
      && (len (encode_command c) <=? MAX_APPLY_INPUT_COMMAND_BODY)
  | Command_KillResources ids => forallb wf_ResourceId ids && (len ids <=? u16_max)
  | Command_DetachClients s => wf_opt wf_str s
  | Command_GetTerminalState t _ max => wf_ResourceId t && u16b max
  | Command_SubscribeResourceEvents t ets => wf_ResourceId t && (len ets <=? u16_max)
  | Command_AcquireInput t _ ttl => wf_ResourceId t && u32b ttl
  | Command_PutFile up t ext offset data _ sha =>
      wf_nonzero_id16 up && wf_ResourceId t && wf_str ext && (len ext <=? 16) && u64b offset
      && is_bytes data && (len data <=? MAX_FILE_UPLOAD_CHUNK)
      && (offset + len data <=? MAX_FILE_UPLOAD_SIZE)
      && wf_opt (fun d => is_bytes d && (length d =? 32)%nat) sha
  | Command_ReportAsked t id q sugg el => wf_ResourceId t && wf_asked id q sugg el
  | Command_Transcribe up t => wf_nonzero_id16 up && wf_ResourceId t
  | Command_AppendResourceOutput t b =>
      wf_ResourceId t && is_bytes b && negb (is_nil b) && (len b <=? MAX_APPEND_BYTES)
  | Command_KillResourceIf t p => wf_ResourceId t && wf_precondition p
  end.

Definition wf_command_value (v : CommandValue) : bool :=
  match v with
  | CommandValue_ResourceId id => wf_ResourceId id
  | CommandValue_GroupId id => u32b id
  | CommandValue_State s => wf_snapshot s
  | CommandValue_Json s => wf_str s
  | CommandValue_Bytes b => is_bytes b
  | CommandValue_FileUpload a => u64b (next_offset a) && wf_opt wf_str (ack_path a)
  end.
Definition wf_command_result (r : CommandResult) : bool :=
  match r with
  | CommandResult_Ok => true
  | CommandResult_OkWith v => wf_command_value v
  | CommandResult_Error _ m => wf_str m
  end.

(** [Unknown] carries a tag past the last known one. *)
Definition wf_agent_event (e : AgentEvent) : bool :=
  match e with
  | AgentEvent_CommandFinished c | AgentEvent_ResourceClosed c => wf_opt i32b c
  | AgentEvent_TitleChanged s | AgentEvent_CwdChanged s => wf_str s
  | AgentEvent_ResourceSpawned k p => wf_ResourceKind k && wf_opt wf_ResourceId p
  | AgentEvent_TerminalControl _ s h _ a => wf_opt i32b s && wf_opt u32b h && wf_opt u32b a
  | AgentEvent_Asked id q sugg el => wf_asked id q sugg el
  | AgentEvent_Unknown tag body =>
      (EVENT_TAG_CWD_CHANGED <? tag) && (tag <=? 255) && is_bytes body
  | _ => true
  end.

(** ** Round trips *)

Ltac reads_in_step :=
  cbv beta iota zeta;
  lazymatch goal with
  | |- reads_in _ (mret _) [] _ => apply reads_reads_in, reads_ret
  | |- reads_in _ (mret _ ≫= _) _ _ => apply reads_in_ret_bind
  | |- reads_in _ (lift _ ≫= _) _ _ => eapply reads_in_bind_lift; [try reads_side|]
  | |- reads_in _ (_ ≫= _) (_ ++ _) _ =>
      first [ eapply reads_in_bind; [apply reads_reads_in; solve [eauto 6 with reads]|]
            | eapply reads_in_bind_ret; [apply reads_reads_in; solve [eauto 6 with reads]|] ]
  | |- reads_in _ (_ ≫= _) _ _ =>
      eapply reads_in_bind_ret; [apply reads_reads_in; solve [eauto 6 with reads]|]
  | |- reads_in _ _ _ _ => apply reads_reads_in; solve [eauto 6 with reads]
  end.
Ltac reads_in_tac := repeat (reads_in_step; cbv beta iota zeta; eval_eqb).

Lemma from_wire_ok {A} `{WireEnum A} (e : DecodeError) (a : A) : ok_or e (from_wire (to_wire a)) = Ok a.
Proof. by rewrite from_to_wire. Qed.

Lemma reads_array bs n : is_bytes bs = true -> length bs = n -> reads (read_array n) (write_array bs) bs.
Proof. intros H <-. by apply (reads_repeat_wf _ _ u8b); [apply reads_u8|]. Qed.

Lemma reads_flagged_str o : wf_opt wf_str o = true -> reads decode_flagged_str (encode_flagged_str o) o.
Proof. destruct o; cbn; intros; unfold decode_flagged_str; reads_tac. Qed.

Lemma reads_optional_i32 o : wf_opt i32b o = true -> reads decode_optional_i32 (encode_optional_i32 o) o.
Proof.
  destruct o as [n|]; cbn; intros H; unfold decode_optional_i32; [|reads_tac].
  apply andb_true_iff in H as [H1%Z.leb_le H2%Z.leb_le].
  assert (u32b (to_unsigned 32 n) = true) by (apply u32b_spec, Z.mod_pos_bound; lia).
  reads_tac. rewrite to_signed_unsigned by lia. apply reads_ret.
Qed.

Lemma reads_optional_client_id o :
  wf_opt u32b o = true -> reads decode_optional_client_id (encode_optional_client_id o) o.
Proof. destruct o; cbn; intros; unfold decode_optional_client_id; reads_tac. Qed.

Lemma reads_state_scope s : reads decode_state_scope (encode_state_scope s) s.
Proof. destruct s; unfold decode_state_scope; cbn; reads_tac. Qed.
#[export] Hint Resolve reads_flagged_str reads_optional_i32 reads_optional_client_id
  reads_state_scope : reads.

Lemma reads_input_event e : wf_input_event e = true -> reads decode_input_event (encode_input_event e) e.
Proof.
  destruct e; cbn; intros; unfold decode_input_event; try (by reads_tac).
  unfold encode_focus_event, decode_focus_event. reads_tac.
Qed.
#[export] Hint Resolve reads_input_event : reads.

Lemma reads_kill_precondition p :
  wf_precondition p = true -> reads decode_kill_precondition (encode_kill_precondition p) p.
Proof.
  destruct p as [[i|] c]; unfold wf_precondition, encode_kill_precondition; cbn; intros; split_bools;
    unfold decode_kill_precondition; rewrite <- ?app_assoc; reads_tac.
  eapply reads_bind; [eapply reads_bind_ret; [eauto with reads|apply reads_ret]|]. reads_tac.
Qed.
#[export] Hint Resolve reads_kill_precondition : reads.

Lemma reads_file_upload_id bs :
  wf_nonzero_id16 bs = true -> reads decode_file_upload_id (write_array bs) bs.
Proof.
  intros H. destruct (id16_new bs H) as [_ E]. unfold wf_nonzero_id16, wf_id16 in H. split_bools.
  eapply reads_bind_ret; [apply reads_array; [done|by apply Nat.eqb_eq]|].
  cbv beta. rewrite E. apply reads_ret.
Qed.
#[export] Hint Resolve reads_file_upload_id : reads.

(** *** The asked fields *)

Lemma asked_suggestions id q l sugg el bs s' :
  wf_strs sugg = true -> reads_fields asked_step (id, q, l ++ sugg, el) bs s' ->
  reads_fields asked_step (id, q, l, el)
    (concat (map (write_field event_asked_SUGGESTION) sugg) ++ bs) s'.
Proof.
  revert l; induction sugg as [|x sugg IH]; intros l Hw H; cbn in *.
  - by rewrite app_nil_r in H.
  - split_bools. rewrite <- app_assoc. eapply rf_cons; [done| |apply IH; [done|]].
    + intros _. unfold asked_step. eval_eqb. by rewrite from_utf8_valid.
    + rewrite <- app_assoc. exact H.
Qed.

Lemma reads_asked id q sugg el :
  wf_asked id q sugg el = true ->
  reads_body decode_asked_event (encode_asked_fields id q sugg el) (id, q, sugg, el).
Proof.
  unfold wf_asked; intros; split_bools. apply reads_while_fields. unfold encode_asked_fields.
  eapply rf_cons; [done|intros _; unfold asked_step; eval_eqb; by rewrite from_utf8_valid|].
  eapply rf_cons; [done|intros _; unfold asked_step; eval_eqb; by rewrite from_utf8_valid|].
  apply asked_suggestions; [done|]. cbn. destruct el as [el|]; [|constructor].
  eapply rf_one; [done|]. intros Hl. unfold asked_step; eval_eqb.
  rewrite (sub_reads read_u64_be _ el); [done| |done]. by apply reads_u64.
Qed.

(** *** Families *)

Lemma reads_found rest m bs c :
  reads_in rest m bs c -> reads_in rest (found m) bs (Some c).
Proof. intros. eapply reads_in_bind_ret; [done|]. apply reads_reads_in, reads_ret. Qed.

Lemma or_else_found rest fam next bs c :
  reads_in rest fam bs (Some c) -> reads_in rest (or_else fam next) bs c.
Proof. intros. eapply reads_in_bind_ret; [done|]. apply reads_reads_in, reads_ret. Qed.

Lemma or_else_none rest next bs c :
  reads_in rest next bs c -> reads_in rest (or_else (mret None) next) bs c.
Proof. exact id. Qed.

(** Walks the families to the one that handles a concrete tag. *)
Ltac family :=
  repeat lazymatch goal with
  | |- reads_in _ (or_else (mret None) _) _ _ => apply or_else_none
  | |- reads_in _ (or_else (found _) _) _ _ => apply or_else_found, reads_found
  | |- reads_in _ (or_else _ _) _ _ =>
      progress (unfold decode_terminal_subscription_command, decode_live_affordance_command,
        decode_supervisory_command, decode_agent_report_command, decode_session_command,
        decode_resource_command; eval_eqb)
  end.

Ltac reads_command :=
  apply reads_in_get_remaining; first [eapply reads_in_bind | eapply reads_in_bind_ret];
  [apply reads_reads_in, reads_u8; reflexivity | cbv beta]; family.

Lemma map_len_u16 n : 0 <= n <= u16_max -> saturate_u16 n = n /\ u16b n = true.
Proof.
  intros. unfold saturate_u16, u16b. rewrite !(proj2 (Z.leb_le _ _)) by lia. done.
Qed.

Lemma reads_apply_input op t events :
  wf_command (Command_ApplyInput op t events) = true ->
  reads_in [] decode_command (encode_command (Command_ApplyInput op t events))
    (Command_ApplyInput op t events).
Proof.
  cbn -[encode_command]. intros; split_bools. unfold decode_command.
  destruct (id16_new op ltac:(done)) as [Eop _].
  unfold wf_nonzero_id16, wf_id16 in *. split_bools.
  repeat match goal with H : (_ <=? _) = true |- _ => apply Z.leb_le in H end.
  assert (0 <= len events <= u16_max)
    by (pose proof (len_nonneg events); unfold MAX_APPLY_INPUT_EVENTS, u16_max in *; lia).
  destruct (map_len_u16 (len events) ltac:(done)) as [Es Eu].
  apply reads_in_get_remaining. rewrite app_nil_r. cbn [encode_command].
  eapply reads_in_bind; [apply reads_reads_in, reads_u8; reflexivity|]. cbv beta. family.
  unfold decode_apply_input_command. rewrite (proj2 (Z.ltb_ge _ _)) by done.
  apply reads_reads_in. rewrite Es.
  eapply reads_bind; [apply reads_array; [done|by apply Nat.eqb_eq]|]. cbv beta.
  eapply reads_bind_lift; [by rewrite Eop|].
  reads_step. reads_step. cbv beta. rewrite (proj2 (Z.ltb_ge _ _)) by done.
  eapply reads_bind_ret; [|apply reads_ret]. unfold len. rewrite Nat2Z.id.
  by apply (reads_repeat_wf _ _ wf_input_event); [apply reads_input_event|].
Qed.

Lemma reads_kill_resources ids :
  wf_command (Command_KillResources ids) = true ->
  reads_in [] decode_command (encode_command (Command_KillResources ids)) (Command_KillResources ids).
Proof.
  cbn. intros; split_bools. unfold decode_command. reads_command.
  repeat match goal with H : (_ <=? _) = true |- _ => apply Z.leb_le in H end.
  pose proof (len_nonneg ids).
  destruct (map_len_u16 (len ids) ltac:(lia)) as [Es Eu]. rewrite Es.
  unfold decode_kill_terminals_command. apply reads_reads_in. reads_step.
  eapply reads_bind_ret; [|apply reads_ret]. unfold len. rewrite Nat2Z.id.
  by apply (reads_repeat_wf _ _ wf_ResourceId); [apply reads_terminal_id|].
Qed.

Lemma event_types_fold (ets l : list ResourceEventType) :
  reads (iterM (length ets)
           (fun l => b ← read_u8;
              mret (match from_wire b with Some et => l ++ [et] | None => l end)) l)
    (concat (map (fun et => write_u8 (to_wire et)) ets)) (l ++ ets).
Proof.
  revert l; induction ets as [|et ets IH]; intros l; cbn [length map concat iterM].
  - rewrite app_nil_r. apply reads_ret.
  - eapply reads_bind.
    + eapply reads_bind_ret; [apply reads_u8; by destruct et|]. rewrite from_to_wire. apply reads_ret.
    + replace (l ++ et :: ets) with ((l ++ [et]) ++ ets) by (by rewrite <- app_assoc). apply IH.
Qed.

Lemma reads_subscribe_events t ets :
  wf_command (Command_SubscribeResourceEvents t ets) = true ->
  reads_in [] decode_command (encode_command (Command_SubscribeResourceEvents t ets))
    (Command_SubscribeResourceEvents t ets).
Proof.
  cbn. intros; split_bools. unfold decode_command. reads_command.
  repeat match goal with H : (_ <=? _) = true |- _ => rewrite H; apply Z.leb_le in H end.
  pose proof (len_nonneg ets).
  destruct (map_len_u16 (len ets) ltac:(lia)) as [Es Eu].
  unfold decode_subscribe_terminal_events_command. apply reads_reads_in. reads_step. reads_step.
  eapply reads_bind_ret; [|apply reads_ret]. unfold len. rewrite Nat2Z.id.
  apply (event_types_fold ets []).
Qed.

Lemma reads_put_file up t ext offset data final sha :
  let c := Command_PutFile up t ext offset data final sha in
  wf_command c = true -> reads_in [] decode_command (encode_command c) c.
Proof.
  cbn. intros H. unfold decode_command. split_bools. reads_command.
  repeat match goal with H : (_ <=? _) = true |- _ => apply Z.leb_le in H end.
  unfold decode_put_file_command. apply reads_reads_in. reads_step. reads_step.
  eapply reads_bind.
  { eapply reads_bind_ret; [eauto with reads|]. cbv beta. rewrite (proj2 (Z.ltb_ge _ _)) by done. apply reads_ret. }
  reads_step. eapply reads_bind.
  { eapply reads_bind_ret; [eauto with reads|]. unfold checked_add_usize.
    rewrite (proj2 (Z.leb_le _ _)) by (unfold MAX_FILE_UPLOAD_SIZE, usize_max, u64_max in *; lia).
    rewrite !(proj2 (Z.ltb_ge _ _)) by done. apply reads_ret. }
  reads_step. rewrite nonzero_b2z. eapply reads_bind_ret; [|apply reads_ret].
  unfold decode_optional_sha256. destruct sha as [d|]; cbn in *; [|reads_tac]. split_bools.
  reads_step. eval_eqb. eapply reads_bind_ret; [|apply reads_ret].
  apply reads_array; [done|by apply Nat.eqb_eq].
Qed.

(** Every command reads back: the six families are exhaustive and disjoint. *)
Lemma reads_command_all c :
  wf_command c = true -> reads_in [] decode_command (encode_command c) c.
Proof.
  intros H. destruct c.
  all: try lazymatch goal with
    | |- reads_in _ _ _ (Command_ApplyInput _ _ _) => by apply reads_apply_input
    | |- reads_in _ _ _ (Command_KillResources _) => by apply reads_kill_resources
    | |- reads_in _ _ _ (Command_SubscribeResourceEvents _ _) => by apply reads_subscribe_events
    | |- reads_in _ _ _ (Command_PutFile _ _ _ _ _ _ _) => by apply reads_put_file
    end.
  all: cbn in H; split_bools; unfold decode_command, encode_command; reads_command.
  all: unfold decode_get_terminal_state_command, decode_detach_clients_command,
    decode_acquire_input_command, decode_signal_terminal_command, decode_report_agent_state_command.
  all: try (reads_in_tac; rewrite ?nonzero_b2z; by reads_in_tac).
  - unfold decode_get_screen_command. reads_in_step. reads_in_step. apply reads_in_not_done; [unfold write_u8; cbn; lia|].
    eapply reads_in_bind_ret; [reads_in_step; rewrite nonzero_b2z; reads_in_step|]. reads_in_step.
  - reads_in_step. reads_in_step. reads_in_step; [apply from_wire_ok|]. reads_in_tac.
  - reads_in_step. reads_in_step. reads_in_step; [apply from_wire_ok|]. reads_in_tac.
  - unfold decode_report_asked_command. reads_in_step.
    eapply reads_in_bind_ret; [apply reads_in_nil; by apply reads_asked|]. reads_in_tac.
  - unfold decode_append_resource_output_command. reads_in_step. reads_in_step.
    repeat match goal with H : negb _ = true |- _ => apply negb_true_iff in H
      | H : (_ <=? _) = true |- _ => apply Z.leb_le in H end.
    cbv beta. rw_bools. rewrite (proj2 (Z.ltb_ge _ _)) by done. reads_in_step.
Qed.

(** *** Events *)

Lemma sub_empty {A} (m : M A) a : reads_body m [] a -> sub [] m = Ok a.
Proof. intros. by apply sub_ok. Qed.

Lemma reads_pane_spawned k p :
  wf_agent_event (AgentEvent_ResourceSpawned k p) = true ->
  reads_body decode_pane_spawned_event
    (encode_agent_event_parts (AgentEvent_ResourceSpawned k p)).2
    (AgentEvent_ResourceSpawned k p).
Proof.
  cbn. intros; split_bools. apply reads_in_nil. 
  apply (reads_in_bind_ret _ _ _ _ (k, p)); [|apply reads_reads_in, reads_ret].
  apply reads_in_nil, reads_while_fields.
  apply (rf_app _ _ (k, None)).
  - destruct (is_terminal k) eqn:E; cbn; [by destruct k; [constructor|..]|].
    eapply rf_one; [done|]. intros Hl. unfold pane_spawned_step; eval_eqb.
    rewrite (sub_reads read_u8 [ResourceKind_as_wire k] (ResourceKind_as_wire k));
      [|by apply reads_u8, ResourceKind_as_wire_u8|done].
    cbn. by rewrite ResourceKind_round_trip.
  - destruct p as [p|]; [|constructor]. eapply rf_one; [done|]. intros Hl.
    unfold pane_spawned_step; eval_eqb.
    rewrite (sub_reads decode_terminal_id _ p); [done|by apply reads_terminal_id|done].
Qed.

Lemma reads_terminal_control l s h a ac :
  wf_agent_event (AgentEvent_TerminalControl l s h a ac) = true ->
  reads decode_terminal_control_event
    (encode_agent_event_parts (AgentEvent_TerminalControl l s h a ac)).2
    (AgentEvent_TerminalControl l s h a ac).
Proof.
  cbn. intros; split_bools. unfold decode_terminal_control_event.
  reads_step. reads_step; [apply from_wire_ok|]. reads_step. reads_step. reads_step.
  reads_step; [apply from_wire_ok|]. reads_tac.
Qed.

Lemma len_write_bytes v : len (write_bytes v) = 4 + len v.
Proof. unfold write_bytes, write_u32_be. rewrite len_app, len_to_be. lia. Qed.

Lemma reads_agent_event e : wf_agent_event e = true -> reads decode_agent_event (encode_agent_event e) e.
Proof.
  intros H. apply reads_len; intros Hl. unfold decode_agent_event, encode_agent_event in *.
  destruct (encode_agent_event_parts e) as [tag body] eqn:E.
  assert (Hb : len body <= MAX_FRAME_LEN).
  { rewrite len_app, len_write_bytes in Hl. pose proof (len_nonneg (write_u8 tag)). lia. }
  assert (Ht : u8b tag = true).
  { destruct e; injection E as <- <-; try reflexivity. cbn in H. split_bools.
    apply Z.ltb_lt in H. apply Z.leb_le in H1. apply u8b_spec. unfold EVENT_TAG_CWD_CHANGED in H. lia. }
  reads_step. eapply reads_bind_ret; [apply reads_bytes|]. cbv beta. apply reads_lift.
  destruct e; injection E as <- <-; eval_eqb; try reflexivity.
  all: try (rewrite (sub_reads decode_optional_i32 _ _ (reads_optional_i32 _ H)) by done; done).
  all: try (rewrite (sub_reads read_str _ _ (reads_wf_str _ H)) by done; done).
  - by apply sub_ok; [apply (reads_pane_spawned kind parent H)|].
  - by apply sub_reads; [apply (reads_terminal_control _ _ _ _ _ H)|].
  - by rewrite (sub_ok _ _ _ (reads_asked _ _ _ _ H)).
  - cbn in H; split_bools. apply Z.ltb_lt in H. unfold EVENT_TAG_CWD_CHANGED in H.
    rewrite !(proj2 (Z.eqb_neq _ _)) by (cbv; intros ->; lia). done.
Qed.

(** *** Results *)

Section ResultRoundTrip.
Context `{RJ : ReportJson}.

Lemma reads_command_value v :
  wf_command_value v = true -> reads_in [] decode_command_value (encode_command_value v) v.
Proof.
  destruct v; cbn; intros; split_bools; unfold decode_command_value; reads_in_step; eval_eqb;
    try (by reads_in_tac).
  - eapply reads_in_bind_ret; [apply reads_in_nil; by apply reads_session_snapshot|]. reads_in_tac.
  - destruct ack; cbn in *. reads_in_tac.
Qed.

Lemma reads_command_result r :
  wf_command_result r = true -> reads_in [] decode_command_result (encode_command_result r) r.
Proof.
  destruct r; cbn; intros; unfold decode_command_result; reads_in_step; eval_eqb;
    try (by reads_in_tac).
  eapply reads_in_bind_ret; [by apply reads_command_value|]. reads_in_tac.
Qed.
End ResultRoundTrip.
#[export] Hint Resolve reads_agent_event : reads.
