(* ===== verification/Directory.v ===== *)
(** * Directory listings ([wire/frame/directory.rs])

    The [LIST_DIRECTORY] and [DIRECTORY_LISTING] bodies: both are TLV field
    sequences decoded by a loop over an accumulator. *)

From S2P Require Import Prelude Wire Fields Enums Ids Codec.

(* wire/frame/directory.rs MAX_DIRECTORY_ENTRIES *)
Definition MAX_DIRECTORY_ENTRIES : Z := 1024.
(* wire/frame/directory.rs ENTRY_FLAG_SYMLINK *)
Definition ENTRY_FLAG_SYMLINK : Z := 0x01.

(* wire/frame/directory.rs DirectoryEntry *)
Record DirectoryEntry : Type := mkDirectoryEntry { entry_name : bytes; is_symlink : bool }.

(* wire/frame/directory.rs DirectoryListing *)
Record DirectoryListing : Type := mkDirectoryListing {
  listing_path : bytes;
  listing_parent : option bytes;
  entries : list DirectoryEntry;
  truncated : bool
}.

(* wire/frame/directory.rs DirectoryListingError *)
Record DirectoryListingError : Type := mkDirectoryListingError {
  error_path : bytes;
  error_code : DirectoryErrorCode;
  error_message : bytes
}.

(* wire/frame/directory.rs DirectoryListingResult *)
Definition DirectoryListingResult : Type := result DirectoryListingError DirectoryListing.

(** [if let Some(x) = o { enc.write...(x) }]. *)
Definition if_some {A} (o : option A) (f : A -> bytes) : bytes :=
  match o with Some x => f x | None => [] end.

(** ** Encoders *)

(* wire/frame/directory.rs encode_list_directory *)
Definition encode_list_directory (request_id : Z) (path : bytes) (host : option bytes) : bytes :=
  write_field list_directory_REQUEST_ID (write_u32_be request_id)
  ++ write_field list_directory_PATH path
  ++ if_some host (write_field list_directory_HOST).

Definition encode_entry (e : DirectoryEntry) : bytes :=
  write_str (entry_name e) ++ write_u8 (if is_symlink e then ENTRY_FLAG_SYMLINK else 0).

(* wire/frame/directory.rs encode_listing_ok *)
Definition encode_listing_ok (l : DirectoryListing) : bytes :=
  write_field directory_listing_PATH (listing_path l)
  ++ if_some (listing_parent l) (write_field directory_listing_PARENT)
  ++ write_field directory_listing_ENTRIES (write_list encode_entry (entries l))
  ++ (if truncated l then write_field directory_listing_TRUNCATED (write_u8 1) else []).

(* wire/frame/directory.rs encode_listing_err *)
Definition encode_listing_err (e : DirectoryListingError) : bytes :=
  write_field directory_listing_PATH (error_path e)
  ++ write_field directory_listing_ERROR (write_u8 (to_wire_t (error_code e)))
  ++ write_field directory_listing_MESSAGE (error_message e).

(* wire/frame/directory.rs encode_directory_listing *)
Definition encode_directory_listing (request_id : Z) (r : DirectoryListingResult) : bytes :=
  write_field directory_listing_REQUEST_ID (write_u32_be request_id)
  ++ match r with Ok l => encode_listing_ok l | Err e => encode_listing_err e end.

(** ** Decoders *)

(* wire/frame/directory.rs decode_list_directory *)
Definition list_directory_step (s : Z * bytes * option bytes) (id : Z) (value : bytes)
    : dresult (Z * bytes * option bytes) :=
  let '(request_id, path, host) := s in
  if id =? list_directory_REQUEST_ID then r ← sub value read_u32_be; Ok (r, path, host)
  else if id =? list_directory_PATH then p ← from_utf8 value; Ok (request_id, p, host)
  else if id =? list_directory_HOST then h ← from_utf8 value; Ok (request_id, path, Some h)
  else Ok s.

(* wire/frame/directory.rs decode_list_directory *)
Definition decode_list_directory : M (Z * bytes * option bytes) :=
  while_fields list_directory_step (0, [], None).

(* wire/frame/directory.rs:199-221 decode_entries *)
Definition decode_entry : M DirectoryEntry :=
  name ← read_str;
  flags ← read_u8;
  mret (mkDirectoryEntry name (nonzero (Z.land flags ENTRY_FLAG_SYMLINK))).

(* wire/frame/directory.rs decode_entries *)
Definition decode_entries (value : bytes) : dresult (list DirectoryEntry) :=
  sub value
    (count ← read_u32_be;
     if MAX_DIRECTORY_ENTRIES <? count then fail DirectoryEntryLimitExceeded
     else repeatM (Z.to_nat count) decode_entry).

(* wire/frame/directory.rs ListingFields *)
Record ListingFields : Type := mkListingFields {
  lf_request_id : Z;
  lf_path : bytes;
  lf_parent : option bytes;
  lf_entries : list DirectoryEntry;
  lf_truncated : bool;
  lf_error : option DirectoryErrorCode;
  lf_message : bytes
}.

(* wire/frame/directory.rs ListingFields::absorb *)
Definition absorb (s : ListingFields) (id : Z) (value : bytes) : dresult ListingFields :=
  let '(mkListingFields request_id path parent entries truncated error message) := s in
  if id =? directory_listing_REQUEST_ID then
    r ← sub value read_u32_be;
    Ok (mkListingFields r path parent entries truncated error message)
  else if id =? directory_listing_PATH then
    p ← from_utf8 value;
    Ok (mkListingFields request_id p parent entries truncated error message)
  else if id =? directory_listing_PARENT then
    p ← from_utf8 value;
    Ok (mkListingFields request_id path (Some p) entries truncated error message)
  else if id =? directory_listing_ENTRIES then
    es ← decode_entries value;
    Ok (mkListingFields request_id path parent es truncated error message)
  else if id =? directory_listing_TRUNCATED then
    b ← sub value read_u8;
    Ok (mkListingFields request_id path parent entries (nonzero b) error message)
  else if id =? directory_listing_ERROR then
    b ← sub value read_u8;
    Ok (mkListingFields request_id path parent entries truncated (Some (from_wire_t b)) message)
  else if id =? directory_listing_MESSAGE then
    m ← from_utf8 value;
    Ok (mkListingFields request_id path parent entries truncated error m)
  else Ok s.

(* wire/frame/directory.rs ListingFields::into_result *)
Definition into_result (s : ListingFields) : Z * DirectoryListingResult :=
  (lf_request_id s,
   match lf_error s with
   | Some code => Err (mkDirectoryListingError (lf_path s) code (lf_message s))
   | None => Ok (mkDirectoryListing (lf_path s) (lf_parent s) (lf_entries s) (lf_truncated s))
   end).

(* wire/frame/directory.rs decode_directory_listing *)
Definition decode_directory_listing : M (Z * DirectoryListingResult) :=
  s ← while_fields absorb (mkListingFields 0 [] None [] false None []);
  mret (into_result s).

Lemma to_wire_t_u8 {A} `{WireEnumTotal A} (a : A) : u8b (to_wire_t a) = true.
Proof. apply to_wire_t_range. Qed.
#[export] Hint Resolve to_wire_t_u8 : reads.

(** ** Well-formed listings and the round trip *)

Definition wf_entry (e : DirectoryEntry) : bool := wf_str (entry_name e).
Definition wf_listing_result (r : DirectoryListingResult) : bool :=
  match r with
  | Ok l =>
      wf_str (listing_path l) && wf_opt wf_str (listing_parent l)
      && forallb wf_entry (entries l) && (len (entries l) <=? MAX_DIRECTORY_ENTRIES)
  | Err e => wf_str (error_path e) && wf_str (error_message e)
  end.

(** Steps through the fields of a TLV body: one [rf_field] per field. *)
Ltac rf_value :=
  cbv beta iota zeta; eval_eqb;
  repeat first
    [ rewrite from_utf8_valid by assumption
    | match goal with
      | |- context [sub ?v ?m] =>
          erewrite (sub_reads m v) by (first [solve [eauto 6 with reads] | assumption])
      end ];
  cbn [mbind result_bind]; try reflexivity.
Ltac rf_field_with unf :=
  lazymatch goal with
  | |- reads_fields _ _ (write_field _ _ ++ _) _ => eapply rf_cons
  | |- reads_fields _ _ (write_field _ _) _ => eapply rf_one
  end;
  [reflexivity | intros ?; unf (); rf_value | ..].
Ltac rf_field step := rf_field_with ltac:(fun _ => unfold step).

(** A TLV body: the loop over its fields, then the assembly of the result. *)
Lemma reads_body_fields {S B} (step : S -> Z -> bytes -> dresult S) s bs s' (k : S -> M B) b :
  reads_fields step s bs s' -> reads (k s') [] b ->
  reads_body (while_fields step s ≫= k) bs b.
Proof.
  intros H Hk. apply reads_in_nil. eapply reads_in_bind_ret.
  - apply reads_in_nil. by apply reads_while_fields.
  - by apply reads_reads_in.
Qed.

(** An optional field, where [f] is the state as a function of the option read. *)
Lemma rf_opt {S A} (step : S -> Z -> bytes -> dresult S) (f : option A -> S) (o : option A)
    (enc : A -> bytes) id bs s'' :
  u32b id = true ->
  (forall x, o = Some x -> len (enc x) <= MAX_FRAME_LEN -> step (f None) id (enc x) = Ok (f (Some x))) ->
  reads_fields step (f o) bs s'' ->
  reads_fields step (f None) (if_some o (fun x => write_field id (enc x)) ++ bs) s''.
Proof.
  intros Hid Hs H. destruct o as [x|]; cbn; [|done].
  eapply rf_cons; [done|by apply Hs|done].
Qed.

Lemma rf_opt_one {S A} (step : S -> Z -> bytes -> dresult S) (f : option A -> S) (o : option A)
    (enc : A -> bytes) id :
  u32b id = true ->
  (forall x, o = Some x -> len (enc x) <= MAX_FRAME_LEN -> step (f None) id (enc x) = Ok (f (Some x))) ->
  reads_fields step (f None) (if_some o (fun x => write_field id (enc x))) (f o).
Proof.
  intros. rewrite <- (app_nil_r (if_some _ _)). eapply rf_opt; [done|done|constructor].
Qed.

Lemma reads_list_directory request_id path host :
  u32b request_id = true -> wf_str path = true -> wf_opt wf_str host = true ->
  reads_body decode_list_directory (encode_list_directory request_id path host)
    (request_id, path, host).
Proof.
  intros. apply reads_while_fields. unfold encode_list_directory.
  rf_field list_directory_step. rf_field list_directory_step.
  apply (rf_opt_one _ (fun o => (request_id, path, o)) host (fun x => x)); [done|].
  intros x -> _. unfold list_directory_step. rf_value.
Qed.

Lemma reads_entry e : wf_entry e = true -> reads decode_entry (encode_entry e) e.
Proof.
  destruct e as [n []]; unfold wf_entry, decode_entry, encode_entry; cbn [entry_name is_symlink];
    intros; reads_tac.
Qed.

Lemma decode_entries_ok l :
  forallb wf_entry l = true -> len l <= MAX_DIRECTORY_ENTRIES ->
  len (write_list encode_entry l) <= MAX_FRAME_LEN ->
  decode_entries (write_list encode_entry l) = Ok l.
Proof.
  intros Hw Hn Hl. apply sub_reads; [|done]. unfold write_list, MAX_DIRECTORY_ENTRIES in *.
  pose proof (len_nonneg l). rewrite saturate_small by (unfold MAX_FRAME_LEN; lia).
  eapply reads_bind; [apply reads_u32, u32b_spec; lia|]. cbv beta.
  rewrite (proj2 (Z.ltb_ge _ _)) by lia. unfold len. rewrite Nat2Z.id.
  apply (reads_repeat_wf _ _ wf_entry); [apply reads_entry|done].
Qed.

Lemma reads_directory_listing request_id r :
  u32b request_id = true -> wf_listing_result r = true ->
  reads_body decode_directory_listing (encode_directory_listing request_id r) (request_id, r).
Proof.
  intros Hr Hw. unfold encode_directory_listing. destruct r as [[p par es t]|[p c m]];
    cbn in Hw; split_bools.
  - apply reads_body_fields with (s' := mkListingFields request_id p par es t None []);
      [|apply reads_ret].
    unfold encode_listing_ok; cbn [listing_path listing_parent entries truncated].
    rf_field absorb. rf_field absorb.
    apply (rf_opt _ (fun o => mkListingFields request_id p o [] false None []) par (fun x => x));
      [done|intros x -> _; unfold absorb; rf_value|].
    eapply rf_cons; [done| |].
    + intros Hl. unfold absorb. rf_value. rewrite decode_entries_ok; [reflexivity|done|by apply Z.leb_le|done].
    + destruct t; [|constructor]. eapply rf_one; [done|]. intros Hl. unfold absorb. rf_value.
  - apply reads_body_fields with (s' := mkListingFields request_id p None [] false (Some c) m);
      [|apply reads_ret].
    unfold encode_listing_err; cbn [error_path error_code error_message].
    rf_field absorb. rf_field absorb.
    rf_field absorb. rewrite from_to_wire_t.
    eapply rf_one; [done|]. intros _. unfold absorb. rf_value.
Qed.
