(* ===== verification/SshOrigin.v ===== *)
(** * The ssh origin of a bridged HELLO ([wire/ssh_origin.rs])

    The positional codec of HELLO field 9 and [restamp_hello], the rewrite
    [phux stdio-bridge] applies to the HELLO it relays. The textual form of an
    address belongs to the standard library; [IpText] states that it parses back. *)

From S2P Require Import Prelude Wire Fields Enums Ids Caps Codec.

(** [IpAddr::to_string] and [str::parse::<IpAddr>]. *)
Class IpText : Type := {
  ip_to_string : IpAddr -> bytes;
  ip_parse : bytes -> option IpAddr;
  ip_round_trip a : ip_parse (ip_to_string a) = Some a;
  ip_to_string_utf8 a : utf8_valid (ip_to_string a) = true
}.

(* wire/framing.rs:42-42 LENGTH_PREFIX_LEN *)
Definition LENGTH_PREFIX_LEN : nat := 4.

Section Origin.
Context `{IT : IpText}.

(* wire/ssh_origin.rs write_endpoint *)
Definition write_endpoint (endpoint : SocketAddr) : bytes :=
  write_str (ip_to_string (ip endpoint)) ++ write_u16_be (port endpoint).

(* wire/ssh_origin.rs encode_ssh_origin *)
Definition encode_ssh_origin (origin : SshOrigin) : bytes :=
  write_endpoint (ssh_client origin)
  ++ match ssh_server origin with
     | Some server => write_u8 1 ++ write_endpoint server
     | None => write_u8 0
     end.

(** The decoder answers [None] on any failure, so every error is the same to it;
    [UnexpectedEof] stands for the [None] of [parse] and of an unknown flag. *)
(* wire/ssh_origin.rs read_endpoint *)
Definition read_endpoint : M SocketAddr :=
  s ← read_str;
  a ← lift (ok_or UnexpectedEof (ip_parse s));
  p ← read_u16_be;
  mret (mkSocketAddr a p).

(* wire/ssh_origin.rs:67-76 decode_ssh_origin *)
Definition read_ssh_origin : M SshOrigin :=
  client ← read_endpoint;
  flag ← read_u8;
  if flag =? 0 then mret (mkSshOrigin client None)
  else if flag =? 1 then server ← read_endpoint; mret (mkSshOrigin client (Some server))
  else fail UnexpectedEof.

(* wire/ssh_origin.rs decode_ssh_origin *)
Definition decode_ssh_origin (value : bytes) : option SshOrigin :=
  match sub value read_ssh_origin with Ok o => Some o | Err _ => None end.

(** ** The rewrite of a relayed HELLO *)

(* wire/ssh_origin.rs hello_body *)
Definition hello_body (frame : bytes) : option bytes :=
  if (length frame <? LENGTH_PREFIX_LEN)%nat then None
  else
    let header := take LENGTH_PREFIX_LEN frame in
    let rest := drop LENGTH_PREFIX_LEN frame in
    let declared := of_be header in
    match rest with
    | [] => None
    | type_byte :: body =>
        if (declared =? len rest) && (type_byte =? TYPE_HELLO) then Some body else None
    end.

(** The [loop] of the source. Every field takes at least three bytes, so the length
    of the body bounds the rounds (lemma [fields_without_origin_ok] of [RawFields]). *)
Fixpoint fields_without_origin_loop (fuel : nat) (body kept : bytes) (dec : Decoder)
    : option bytes :=
  match fuel with
  | O => None
  | S fuel' =>
      match read_field dec with
      | Err _ => None
      | Ok (None, _) => Some kept
      | Ok (Some (id, _), dec') =>
          fields_without_origin_loop fuel' body
            (if negb (id =? hello_SSH_ORIGIN)
             then kept ++ take (pos dec' - pos dec) (drop (pos dec) body)
             else kept) dec'
      end
  end.

(* wire/ssh_origin.rs fields_without_origin *)
Definition fields_without_origin (body : bytes) : option bytes :=
  fields_without_origin_loop (S (length body)) body [] (Decoder_new body).

(* wire/ssh_origin.rs append_origin_if_it_fits *)
Definition append_origin_if_it_fits (fields : bytes) (origin : SshOrigin) : bytes :=
  let encoded := write_field hello_SSH_ORIGIN (encode_ssh_origin origin) in
  let body_len := 1 + len fields + len encoded in
  if (body_len <=? u32_max) && (body_len <=? MAX_FRAME_LEN) then fields ++ encoded else fields.

(* wire/ssh_origin.rs hello_frame *)
Definition hello_frame (fields : bytes) : bytes :=
  let body_len := 1 + len fields in
  to_be 4 (saturate_u32 body_len) ++ [TYPE_HELLO] ++ fields.

(* wire/ssh_origin.rs restamp_hello *)
Definition restamp_hello (frame : bytes) (origin : option SshOrigin) : option bytes :=
  body ← hello_body frame;
  fields ← fields_without_origin body;
  if (len fields =? len body) && negb (is_Some_b origin) then None
  else
    let fields :=
      match origin with
      | Some origin => append_origin_if_it_fits fields origin
      | None => fields
      end in
    Some (hello_frame fields).

(** ** The origin reads back *)

Definition wf_endpoint (a : SocketAddr) : bool := u16b (port a).
Definition wf_origin (o : SshOrigin) : bool :=
  wf_endpoint (ssh_client o) && wf_opt wf_endpoint (ssh_server o).

Lemma reads_endpoint a : wf_endpoint a = true -> reads read_endpoint (write_endpoint a) a.
Proof.
  destruct a as [i p]; unfold wf_endpoint, read_endpoint, write_endpoint; cbn [ip port]. intros.
  eapply reads_bind; [apply reads_str, ip_to_string_utf8|].
  eapply reads_bind_lift; [by rewrite ip_round_trip|]. reads_tac.
Qed.

Lemma reads_ssh_origin o : wf_origin o = true -> reads read_ssh_origin (encode_ssh_origin o) o.
Proof.
  destruct o as [c [s|]]; unfold wf_origin, read_ssh_origin, encode_ssh_origin;
    cbn [ssh_client ssh_server wf_opt]; intros; split_bools.
  - eapply reads_bind; [by apply reads_endpoint|]. reads_step. eval_eqb.
    eapply reads_bind_ret; [by apply reads_endpoint|]. reads_tac.
  - eapply reads_bind; [by apply reads_endpoint|]. reads_tac.
Qed.

Lemma decode_encode_ssh_origin o :
  wf_origin o = true -> len (encode_ssh_origin o) <= MAX_FRAME_LEN ->
  decode_ssh_origin (encode_ssh_origin o) = Some o.
Proof.
  intros. unfold decode_ssh_origin. by rewrite (sub_reads _ _ _ (reads_ssh_origin o H)).
Qed.
End Origin.
