(* ===== verification/Compress.v ===== *)
(** * Frame compression ([wire/compress.rs])

    [deflate] and [inflate] around the [flate2] crate, which is a parameter: one
    call of [compress_vec]/[decompress_vec] with [Finish] on an output vector of the
    given spare capacity. *)

From S2P Require Import Prelude Wire.

(** [flate2::Status]. *)
Inductive Status : Type := Status_Ok | Status_BufError | Status_StreamEnd.

#[export] Instance Status_eq_dec : EqDecision Status.
Proof. solve_decision. Defined.

(** What the code relies on: a stream the compressor finished decompresses, given
    room, to the bytes it was made from. [capacity n] is what
    [Vec::with_capacity n] provides, at least [n]. [None] is an [Err]. *)
Class Flate : Type := {
  capacity : Z -> Z;
  compress_vec : bytes -> Z -> option (Status * bytes);
  decompress_vec : bytes -> Z -> option (Status * bytes);
  capacity_ge n : n <= capacity n;
  flate_round_trip body cap out cap' :
    compress_vec body cap = Some (Status_StreamEnd, out) -> len body <= cap' ->
    decompress_vec out cap' = Some (Status_StreamEnd, body)
}.

(* wire/compress.rs MIN_COMPRESS_BYTES *)
Definition MIN_COMPRESS_BYTES : Z := 4 * 1024.

Section Compress.
Context `{FL : Flate}.

(* wire/compress.rs deflate *)
Definition deflate (body : bytes) : option bytes :=
  if len body <? MIN_COMPRESS_BYTES then None
  else
    match compress_vec body (capacity (len body)) with
    | None => None
    | Some (status, out) =>
        if bool_decide (status = Status_StreamEnd) && (len out <? len body)
        then Some out else None
    end.

(* wire/compress.rs inflate *)
Definition inflate (payload : bytes) (uncompressed_len : Z) : dresult bytes :=
  match decompress_vec payload (capacity uncompressed_len) with
  | None => Err CompressedFrameInvalid
  | Some (status, out) =>
      if negb (bool_decide (status = Status_StreamEnd)) || negb (len out =? uncompressed_len)
      then Err CompressedFrameInvalid
      else Ok out
  end.

Lemma deflate_inv body out :
  deflate body = Some out ->
  MIN_COMPRESS_BYTES <= len body /\ len out < len body
  /\ compress_vec body (capacity (len body)) = Some (Status_StreamEnd, out).
Proof.
  unfold deflate. destruct (Z.ltb_spec (len body) MIN_COMPRESS_BYTES); [done|].
  destruct (compress_vec _ _) as [[st o]|]; [|done].
  destruct (bool_decide _) eqn:E; [|done]. apply bool_decide_eq_true in E as ->. cbn.
  destruct (Z.ltb_spec (len o) (len body)); [|done]. intros [= <-]. done.
Qed.

(** What [inflate] returns has the declared length. *)
Lemma inflate_len payload n out : inflate payload n = Ok out -> len out = n.
Proof.
  unfold inflate. destruct (decompress_vec _ _) as [[st o]|]; [|done].
  destruct (bool_decide _); cbn; [|done].
  destruct (Z.eqb_spec (len o) n); [by intros [= <-]|done].
Qed.

(** A deflated body inflates, at its declared length, to itself. *)
Lemma inflate_deflate body out : deflate body = Some out -> inflate out (len body) = Ok body.
Proof.
  intros (_ & _ & H)%deflate_inv. unfold inflate.
  rewrite (flate_round_trip _ _ _ _ H) by apply capacity_ge.
  rewrite bool_decide_true by done. cbn. by rewrite Z.eqb_refl.
Qed.
End Compress.
