(* ===== verification/Instances.v ===== *)
(** * Concrete parameters

    The code outside the repository enters the development through three interfaces:
    [ReportJson] (serde_json on the listeners report), [IpText] (textual addresses)
    and [Flate] (the DEFLATE compressor). Each has an executable instance here, which
    shows its laws can hold and lets the witnesses evaluate. *)

From stdpp Require Import countable.
From S2P Require Import Prelude Wire Caps Info SshOrigin Compress.

(** ** A positive number as a string of binary digits *)

Fixpoint pos_digits (p : positive) : bytes :=
  match p with
  | xH => []
  | xO p => 48 :: pos_digits p
  | xI p => 49 :: pos_digits p
  end.
Fixpoint digits_pos (bs : bytes) : positive :=
  match bs with
  | [] => xH
  | b :: bs => if b =? 48 then xO (digits_pos bs) else xI (digits_pos bs)
  end.

Lemma digits_pos_digits p : digits_pos (pos_digits p) = p.
Proof. induction p as [p IH|p IH|]; cbn; by rewrite ?IH. Qed.

Lemma pos_digits_utf8 p : utf8_valid (pos_digits p) = true.
Proof. by induction p. Qed.

(** Any countable type has a textual form. *)
Definition to_digits `{Countable A} (a : A) : bytes := pos_digits (encode a).
Definition of_digits `{Countable A} (bs : bytes) : option A := decode (digits_pos bs).

Lemma of_to_digits `{Countable A} (a : A) : of_digits (to_digits a) = Some a.
Proof. unfold of_digits, to_digits. rewrite digits_pos_digits. apply decode_encode. Qed.

(** ** The listeners report *)

Definition reason_code (r : ListenerDisabledReason) : Z :=
  match r with
  | Disabled_TokenStoreLoadFailed => 0 | Disabled_TlsSetupFailed => 1
  | Disabled_CertProvisionFailed => 2 | Disabled_BindFailed => 3
  | Disabled_OverlayGateClosed => 4 | Disabled_NoOverlayAddress => 5
  end.
Definition code_reason (z : Z) : ListenerDisabledReason :=
  match z with
  | 0 => Disabled_TokenStoreLoadFailed | 1 => Disabled_TlsSetupFailed
  | 2 => Disabled_CertProvisionFailed | 3 => Disabled_BindFailed
  | 4 => Disabled_OverlayGateClosed | _ => Disabled_NoOverlayAddress
  end.
Definition transport_code (t : RemoteListenerTransport) : Z :=
  match t with Transport_Wss => 0 | Transport_Quic => 1 | Transport_Wt => 2 end.
Definition code_transport (z : Z) : RemoteListenerTransport :=
  match z with 0 => Transport_Wss | 1 => Transport_Quic | _ => Transport_Wt end.

Definition slot_tuple (s : RemoteListenerSlot) : Z * bool * bool * option bytes * option Z :=
  (transport_code (slot_transport s), slot_expected s, slot_bound s, slot_addr s,
   reason_code <$> slot_disabled_reason s).
Definition tuple_slot (t : Z * bool * bool * option bytes * option Z) : RemoteListenerSlot :=
  let '(tr, e, b, a, r) := t in mkSlot (code_transport tr) e b a (code_reason <$> r).

Lemma tuple_slot_tuple s : tuple_slot (slot_tuple s) = s.
Proof. by destruct s as [[] e b a [[]|]]. Qed.

Definition report_text (r : RemoteListenersReport) : bytes :=
  to_digits (schema_version r, map slot_tuple (listeners r)).
Definition text_report (bs : bytes) : option RemoteListenersReport :=
  match of_digits (A := Z * list (Z * bool * bool * option bytes * option Z)) bs with
  | Some (v, l) => Some (mkReport v (map tuple_slot l))
  | None => None
  end.

#[export] Instance digits_report : ReportJson.
Proof.
  refine {| report_to_json := report_text; report_from_json := text_report |}.
  - intros [v l]. unfold text_report, report_text. rewrite of_to_digits. cbn. do 2 f_equal.
    rewrite map_map. rewrite <- (map_id l) at 2. apply map_ext. apply tuple_slot_tuple.
  - intros r. apply pos_digits_utf8.
Defined.

(** ** Addresses *)

Definition ip_text (a : IpAddr) : bytes :=
  to_digits (match a with IpAddr_V4 b => (false, b) | IpAddr_V6 b => (true, b) end).
Definition text_ip (bs : bytes) : option IpAddr :=
  match of_digits (A := bool * Z) bs with
  | Some (false, b) => Some (IpAddr_V4 b)
  | Some (true, b) => Some (IpAddr_V6 b)
  | None => None
  end.

#[export] Instance digits_ip : IpText.
Proof.
  refine {| ip_to_string := ip_text; ip_parse := text_ip |}.
  - intros [b|b]; unfold text_ip, ip_text; by rewrite of_to_digits.
  - intros [b|b]; apply pos_digits_utf8.
Defined.

(** ** A compressor: the trailing run of the input is stored once with its length *)

(** The leading run of [x], its length and what follows. *)
Fixpoint strip_run (x : Z) (bs : bytes) (n : Z) : Z * bytes :=
  match bs with
  | b :: bs' => if b =? x then strip_run x bs' (n + 1) else (n, bs)
  | [] => (n, [])
  end.

Definition run_compress (body : bytes) (cap : Z) : option (Status * bytes) :=
  match rev body with
  | [] => Some (Status_StreamEnd, [])
  | x :: r => let '(n, rest) := strip_run x r 1 in Some (Status_StreamEnd, n :: x :: rest)
  end.
Definition run_decompress (payload : bytes) (cap : Z) : option (Status * bytes) :=
  match payload with
  | [] => Some (Status_StreamEnd, [])
  | n :: x :: rest =>
      let out := rev_append rest (replicate (Z.to_nat n) x) in
      Some (if len out <=? cap then (Status_StreamEnd, out) else (Status_BufError, []))
  | _ => None
  end.

Lemma strip_run_spec x bs n :
  0 <= n ->
  let '(m, rest) := strip_run x bs n in
  replicate (Z.to_nat n) x ++ bs = replicate (Z.to_nat m) x ++ rest /\ 0 <= m.
Proof.
  revert n; induction bs as [|b bs IH]; intros n Hn; cbn; [done|].
  destruct (Z.eqb_spec b x) as [->|]; [|done].
  specialize (IH (n + 1) ltac:(lia)). destruct (strip_run x bs (n + 1)) as [m rest].
  destruct IH as [<- ?]. split; [|done]. replace (Z.to_nat (n + 1)) with (Z.to_nat n + 1)%nat by lia.
  by rewrite replicate_add, <- app_assoc.
Qed.

Lemma rev_replicate {A} n (x : A) : rev (replicate n x) = replicate n x.
Proof.
  induction n as [|n IH]; cbn; [done|]. rewrite IH.
  change [x] with (replicate 1 x). by rewrite <- replicate_add, Nat.add_comm.
Qed.

#[export] Instance run_flate : Flate.
Proof.
  refine {| capacity n := n; compress_vec := run_compress; decompress_vec := run_decompress |}.
  - lia.
  - intros body cap out cap'. unfold run_compress. destruct (rev body) as [|x r] eqn:E.
    + apply (f_equal (@rev Z)) in E. rewrite rev_involutive in E. subst. by intros [= <-].
    + pose proof (strip_run_spec x r 1 ltac:(lia)) as Hs. destruct (strip_run x r 1) as [n rest].
      destruct Hs as [Hs ?]. intros [= <-] Hc. cbn [run_decompress].
      assert (Hb : rev_append rest (replicate (Z.to_nat n) x) = body).
      { rewrite rev_append_rev, <- (rev_involutive body), E.
        change (x :: r) with (replicate (Z.to_nat 1) x ++ r). rewrite Hs, rev_app_distr.
        f_equal. symmetry. apply rev_replicate. }
      rewrite Hb. by rewrite (proj2 (Z.leb_le _ _)).
Defined.
