(* ===== verification/Frame.v ===== *)
(** * Frames and their encoder ([wire/frame/kind.rs])

    [FrameKind], the catalog of frames, its type bytes and the encoder: a 4-byte
    big-endian length, the type byte, and a body of TLV fields. *)

From S2P Require Import Prelude Wire Fields Enums Ids Caps Codec Info Command Directory SshOrigin.
From S2P Require Import Compress.

(* wire/frame/kind.rs:56-866 FrameKind *)
Inductive FrameKind : Type :=
| FrameKind_Hello (client_name : bytes) (protocol_major protocol_minor protocol_patch : Z)
    (client_caps : ClientCapabilities)
| FrameKind_HelloOk (protocol_major protocol_minor protocol_patch : Z)
    (server_caps : ServerCapabilities) (server_id : bytes) (selected_profile : BootstrapProfile)
    (bootstrap_limits : BootstrapLimits)
| FrameKind_Ping (nonce : Z)
| FrameKind_Pong (nonce : Z)
| FrameKind_ResourceOutput (terminal_id : ResourceId) (stream_id bootstrap_id seq : Z)
    (payload : bytes)
| FrameKind_Attach (attach_id : Z) (target : AttachTarget) (viewport : ViewportInfo)
    (request_scrollback : bool) (scrollback_limit_lines : Z)
| FrameKind_Detach
| FrameKind_InputKey (terminal_id : ResourceId) (event : KeyEvent)
| FrameKind_InputMouse (terminal_id : ResourceId) (event : MouseEvent)
| FrameKind_InputFocus (terminal_id : ResourceId) (event : FocusEvent)
| FrameKind_InputPaste (terminal_id : ResourceId) (event : PasteEvent)
| FrameKind_InputTerminalReply (terminal_id : ResourceId) (payload : bytes)
| FrameKind_FrameAck (terminal_id : ResourceId) (stream_id bootstrap_id seq : Z)
| FrameKind_ViewportResize (viewport : ViewportInfo)
| FrameKind_Attached (attach_id : Z) (snapshot : SessionSnapshot) (initial_client_id : Z)
| FrameKind_AttachReady (attach_id : Z)
| FrameKind_Detached (reason : option DetachReason) (message : bytes)
| FrameKind_BootstrapBegin (terminal_id : ResourceId) (stream_id bootstrap_id : Z)
    (profile : BootstrapStreamProfile) (cols rows base_seq : Z)
| FrameKind_BootstrapChunk (terminal_id : ResourceId) (stream_id bootstrap_id chunk_seq : Z)
    (payload : bytes)
| FrameKind_BootstrapReady (terminal_id : ResourceId) (stream_id bootstrap_id : Z)
    (history_cursor : option bytes)
| FrameKind_HistoryRequest (terminal_id : ResourceId) (stream_id bootstrap_id : Z)
    (cursor : bytes) (max_bytes max_rows : Z)
| FrameKind_HistoryPage (terminal_id : ResourceId) (stream_id bootstrap_id page_seq : Z)
    (cursor : bytes) (next_cursor : option bytes) (payload : bytes) (rows : Z)
| FrameKind_BootstrapTombstone (terminal_id : ResourceId) (stream_id bootstrap_id : Z)
    (reason : TombstoneReason) (last_valid_seq : Z)
| FrameKind_HistoryTombstone (terminal_id : ResourceId) (stream_id bootstrap_id : Z)
    (cursor : bytes) (reason : HistoryTombstoneReason)
| FrameKind_HistoryRejected (terminal_id : ResourceId) (stream_id bootstrap_id : Z)
    (cursor : bytes) (reason : HistoryRejectionReason) (required_bytes required_rows : Z)
| FrameKind_Bell (terminal_id : ResourceId)
| FrameKind_Error (request_id : option Z) (code : ErrorCode) (message : bytes)
| FrameKind_GetMetadata (request_id : Z) (scope : Scope) (key : bytes)
| FrameKind_SetMetadata (request_id : Z) (scope : Scope) (key value : bytes)
| FrameKind_DeleteMetadata (request_id : Z) (scope : Scope) (key : bytes)
| FrameKind_ListMetadata (request_id : Z) (scope : Scope)
| FrameKind_SubscribeMetadata (scope : Scope) (key : bytes)
| FrameKind_MetadataChanged (scope : Scope) (key : bytes) (value : option bytes)
| FrameKind_MetadataValue (request_id : Z) (value : option bytes)
| FrameKind_MetadataKeys (request_id : Z) (keys : list bytes)
| FrameKind_ListDirectory (request_id : Z) (path : bytes) (host : option bytes)
| FrameKind_DirectoryListing (request_id : Z) (result : DirectoryListingResult)
| FrameKind_SpawnResource (request_id group : Z) (command : option (list bytes))
    (cwd : option bytes) (env : option (list (bytes * bytes))) (term : option bytes)
    (satellite : option bytes) (owner_terminal : option ResourceId)
    (agent_session : option bytes) (initial_size : option (Z * Z))
    (resource : option SpawnResource)
| FrameKind_ResourceSpawned (request_id : Z) (result : SpawnResult)
| FrameKind_MoveResource (request_id : Z) (terminal owner_terminal : ResourceId)
| FrameKind_ResourceMoved (request_id : Z) (result : MoveResult)
| FrameKind_ResourceClosed (terminal_id : ResourceId) (exit_status : option Z)
    (reason : CloseReason)
| FrameKind_ResizeTerminal (terminal_id : ResourceId) (cols rows : Z)
| FrameKind_Command (request_id : Z) (command : Command)
| FrameKind_CommandResult (request_id : Z) (result : CommandResult)
| FrameKind_SubscribeEvents (terminal : option ResourceId)
| FrameKind_Event (terminal : option ResourceId) (event : AgentEvent).

(* wire/frame/kind.rs InputEvent::into_frame *)
Definition into_frame (e : InputEvent) (terminal_id : ResourceId) : FrameKind :=
  match e with
  | InputEvent_Key event => FrameKind_InputKey terminal_id event
  | InputEvent_Mouse event => FrameKind_InputMouse terminal_id event
  | InputEvent_Focus event => FrameKind_InputFocus terminal_id event
  | InputEvent_Paste event => FrameKind_InputPaste terminal_id event
  end.

(* wire/frame/kind.rs FrameKind::type_byte *)
Definition type_byte (f : FrameKind) : Z :=
  match f with
  | FrameKind_Hello _ _ _ _ _ => TYPE_HELLO
  | FrameKind_HelloOk _ _ _ _ _ _ _ => TYPE_HELLO_OK
  | FrameKind_Ping _ => TYPE_PING
  | FrameKind_Pong _ => TYPE_PONG
  | FrameKind_ResourceOutput _ _ _ _ _ => TYPE_RESOURCE_OUTPUT
  | FrameKind_Attach _ _ _ _ _ => TYPE_ATTACH
  | FrameKind_Detach => TYPE_DETACH
  | FrameKind_InputKey _ _ => TYPE_INPUT_KEY
  | FrameKind_InputMouse _ _ => TYPE_INPUT_MOUSE
  | FrameKind_InputFocus _ _ => TYPE_INPUT_FOCUS
  | FrameKind_InputPaste _ _ => TYPE_INPUT_PASTE
  | FrameKind_InputTerminalReply _ _ => TYPE_INPUT_TERMINAL_REPLY
  | FrameKind_FrameAck _ _ _ _ => TYPE_FRAME_ACK
  | FrameKind_ViewportResize _ => TYPE_VIEWPORT_RESIZE
  | FrameKind_Attached _ _ _ => TYPE_ATTACHED
  | FrameKind_AttachReady _ => TYPE_ATTACH_READY
  | FrameKind_Detached _ _ => TYPE_DETACHED
  | FrameKind_HistoryRequest _ _ _ _ _ _ => TYPE_HISTORY_REQUEST
  | FrameKind_BootstrapBegin _ _ _ _ _ _ _ => TYPE_BOOTSTRAP_BEGIN
  | FrameKind_BootstrapChunk _ _ _ _ _ => TYPE_BOOTSTRAP_CHUNK
  | FrameKind_BootstrapReady _ _ _ _ => TYPE_BOOTSTRAP_READY
  | FrameKind_HistoryPage _ _ _ _ _ _ _ _ => TYPE_HISTORY_PAGE
  | FrameKind_BootstrapTombstone _ _ _ _ _ => TYPE_BOOTSTRAP_TOMBSTONE
  | FrameKind_HistoryTombstone _ _ _ _ _ => TYPE_HISTORY_TOMBSTONE
  | FrameKind_HistoryRejected _ _ _ _ _ _ _ => TYPE_HISTORY_REJECTED
  | FrameKind_Bell _ => TYPE_BELL
  | FrameKind_Error _ _ _ => TYPE_ERROR
  | FrameKind_GetMetadata _ _ _ => TYPE_GET_METADATA
  | FrameKind_SetMetadata _ _ _ _ => TYPE_SET_METADATA
  | FrameKind_DeleteMetadata _ _ _ => TYPE_DELETE_METADATA
  | FrameKind_ListMetadata _ _ => TYPE_LIST_METADATA
  | FrameKind_SubscribeMetadata _ _ => TYPE_SUBSCRIBE_METADATA
  | FrameKind_MetadataChanged _ _ _ => TYPE_METADATA_CHANGED
  | FrameKind_MetadataValue _ _ => TYPE_METADATA_VALUE
  | FrameKind_MetadataKeys _ _ => TYPE_METADATA_KEYS
  | FrameKind_ListDirectory _ _ _ => TYPE_LIST_DIRECTORY
  | FrameKind_DirectoryListing _ _ => TYPE_DIRECTORY_LISTING
  | FrameKind_SpawnResource _ _ _ _ _ _ _ _ _ _ _ => TYPE_SPAWN_RESOURCE
  | FrameKind_MoveResource _ _ _ => TYPE_MOVE_RESOURCE
  | FrameKind_ResourceMoved _ _ => TYPE_RESOURCE_MOVED
  | FrameKind_ResourceSpawned _ _ => TYPE_RESOURCE_SPAWNED
  | FrameKind_ResourceClosed _ _ _ => TYPE_RESOURCE_CLOSED
  | FrameKind_ResizeTerminal _ _ _ => TYPE_RESIZE_TERMINAL
  | FrameKind_Command _ _ => TYPE_COMMAND
  | FrameKind_CommandResult _ _ => TYPE_COMMAND_RESULT
  | FrameKind_SubscribeEvents _ => TYPE_SUBSCRIBE_EVENTS
  | FrameKind_Event _ _ => TYPE_EVENT
  end.

(** ** Body encoders, in the order of the source *)

(** The [CLIENT_CAPS] sub-record, the closure inside [encode_hello]. *)
(* wire/frame/kind.rs:1402-1425 FrameKind::encode_hello *)
Definition encode_client_capabilities (c : ClientCapabilities) : bytes :=
  write_u8 (to_wire (color_support c))
  ++ write_u8 (LayerSet_as_wire (layers c))
  ++ write_u8 (ImageProtocolSet_as_wire (image_protocols c))
  ++ write_u8 (KeyboardProtocolSet_as_wire (kbd_protocols c))
  ++ write_u8 (b2z (hyperlinks c))
  ++ write_u8 (to_wire_t (output_mode c))
  ++ match default_colors c with
     | Some colors =>
         write_u8 1 ++ write_u8 (color_r (foreground colors))
         ++ write_u8 (color_g (foreground colors)) ++ write_u8 (color_b (foreground colors))
         ++ write_u8 (color_r (background colors))
         ++ write_u8 (color_g (background colors)) ++ write_u8 (color_b (background colors))
     | None => write_u8 0
     end
  ++ write_u8 (BootstrapProfileSet_as_wire (profiles (bootstrap c)))
  ++ write_u64_be (EngineCodecSet_as_wire (native_codecs (bootstrap c)))
  ++ write_u32_be (EngineFeatureSet_as_wire (native_features (bootstrap c)))
  ++ write_u32_be (max_chunk_bytes (limits (bootstrap c)))
  ++ write_u32_be (max_page_bytes (limits (bootstrap c))).

(** The [SERVER_CAPS] sub-record, the closure inside [encode_hello_ok_negotiation]. *)
(* wire/frame/kind.rs FrameKind::encode_hello_ok_negotiation *)
Definition encode_server_capabilities (c : ServerCapabilities) : bytes :=
  write_u8 (LayerSet_as_wire (server_layers c))
  ++ (if negb (server_features c =? 0)
      then write_u32_be (ServerFeatureSet_as_wire (server_features c)) else []).

(* wire/frame/kind.rs FrameKind::encode_hello_ok_version *)
Definition encode_hello_ok_version (major minor patch : Z) : bytes :=
  write_field hello_ok_PROTOCOL_MAJOR (write_u16_be major)
  ++ write_field hello_ok_PROTOCOL_MINOR (write_u16_be minor)
  ++ write_field hello_ok_PROTOCOL_PATCH (write_u16_be patch).

(* wire/frame/kind.rs FrameKind::encode_hello_ok_negotiation *)
Definition encode_hello_ok_negotiation (caps : ServerCapabilities) (server_id : bytes)
    (profile : BootstrapProfile) (limits : BootstrapLimits) : bytes :=
  write_field hello_ok_SERVER_CAPS (encode_server_capabilities caps)
  ++ write_field hello_ok_SERVER_ID server_id
  ++ write_field hello_ok_SELECTED_PROFILE (encode_bootstrap_profile profile)
  ++ write_field hello_ok_MAX_CHUNK_BYTES (write_u32_be (max_chunk_bytes limits))
  ++ write_field hello_ok_MAX_HISTORY_PAGE_BYTES (write_u32_be (max_page_bytes limits))
  ++ match server_compression caps with
     | Compression_None => []
     | c => write_field hello_ok_COMPRESSION (write_u8 (to_wire_t c))
     end.

(* wire/frame/kind.rs FrameKind::encode_nonce *)
Definition encode_nonce (nonce : Z) : bytes := write_field ping_NONCE (write_u64_be nonce).

(* wire/frame/kind.rs FrameKind::encode_terminal_output *)
Definition encode_terminal_output (terminal_id : ResourceId) (stream_id bootstrap_id seq : Z)
    (payload : bytes) : bytes :=
  write_field terminal_output_TERMINAL_ID (encode_terminal_id terminal_id)
  ++ write_field terminal_output_SEQ (write_u64_be seq)
  ++ write_field terminal_output_BYTES payload
  ++ write_field terminal_output_STREAM_ID (write_u64_be stream_id)
  ++ write_field terminal_output_BOOTSTRAP_ID (write_u64_be bootstrap_id).

(* wire/frame/kind.rs FrameKind::encode_attach *)
Definition encode_attach (attach_id : Z) (target : AttachTarget) (viewport : ViewportInfo)
    (request_scrollback : bool) (scrollback_limit_lines : Z) : bytes :=
  write_field attach_TARGET (encode_attach_target target)
  ++ write_field attach_VIEWPORT (encode_viewport_info viewport)
  ++ write_field attach_REQUEST_SCROLLBACK (write_u8 (b2z request_scrollback))
  ++ write_field attach_SCROLLBACK_LIMIT_LINES (write_u32_be scrollback_limit_lines)
  ++ write_field attach_ATTACH_ID (write_u32_be attach_id).

(* wire/frame/kind.rs FrameKind::encode_detached *)
Definition encode_detached (reason : option DetachReason) (message : bytes) : bytes :=
  if_some reason (fun r => write_field detached_REASON (write_u8 (to_wire r)))
  ++ (if negb (is_nil message) then write_field detached_MESSAGE message else []).

(* wire/frame/kind.rs FrameKind::encode_input_key *)
Definition encode_input_key (terminal_id : ResourceId) (event : KeyEvent) : bytes :=
  write_field input_key_TERMINAL_ID (encode_terminal_id terminal_id)
  ++ write_field input_key_EVENT (encode_key_event event).
(* wire/frame/kind.rs FrameKind::encode_input_mouse *)
Definition encode_input_mouse (terminal_id : ResourceId) (event : MouseEvent) : bytes :=
  write_field input_mouse_TERMINAL_ID (encode_terminal_id terminal_id)
  ++ write_field input_mouse_EVENT (encode_mouse_event event).
(* wire/frame/kind.rs FrameKind::encode_input_focus *)
Definition encode_input_focus (terminal_id : ResourceId) (event : FocusEvent) : bytes :=
  write_field input_focus_TERMINAL_ID (encode_terminal_id terminal_id)
  ++ write_field input_focus_EVENT (write_u8 (encode_focus_event event)).
(* wire/frame/kind.rs FrameKind::encode_input_paste *)
Definition encode_input_paste (terminal_id : ResourceId) (event : PasteEvent) : bytes :=
  write_field input_paste_TERMINAL_ID (encode_terminal_id terminal_id)
  ++ write_field input_paste_EVENT (encode_paste_event event).
(* wire/frame/kind.rs FrameKind::encode_input_terminal_reply *)
Definition encode_input_terminal_reply (terminal_id : ResourceId) (payload : bytes) : bytes :=
  write_field input_terminal_reply_TERMINAL_ID (encode_terminal_id terminal_id)
  ++ write_field input_terminal_reply_BYTES payload.

(* wire/frame/kind.rs FrameKind::encode_frame_ack *)
Definition encode_frame_ack (terminal_id : ResourceId) (stream_id bootstrap_id seq : Z) : bytes :=
  write_field frame_ack_TERMINAL_ID (encode_terminal_id terminal_id)
  ++ write_field frame_ack_SEQ (write_u64_be seq)
  ++ write_field frame_ack_STREAM_ID (write_u64_be stream_id)
  ++ write_field frame_ack_BOOTSTRAP_ID (write_u64_be bootstrap_id).

(* wire/frame/kind.rs FrameKind::encode_viewport_resize *)
Definition encode_viewport_resize (viewport : ViewportInfo) : bytes :=
  write_field viewport_resize_VIEWPORT (encode_viewport_info viewport).

(* wire/frame/kind.rs FrameKind::encode_attach_ready *)
Definition encode_attach_ready (attach_id : Z) : bytes :=
  write_field attach_ready_ATTACH_ID (write_u32_be attach_id).

(* wire/frame/kind.rs FrameKind::encode_bootstrap_begin_stream *)
Definition encode_bootstrap_begin_stream (terminal_id : ResourceId) (stream_id bootstrap_id : Z)
    : bytes :=
  write_field bootstrap_begin_TERMINAL_ID (encode_terminal_id terminal_id)
  ++ write_field bootstrap_begin_STREAM_ID (write_u64_be stream_id)
  ++ write_field bootstrap_begin_BOOTSTRAP_ID (write_u64_be bootstrap_id).

(** The [(codec, output_mode)] pair of a stream profile. *)
(* wire/frame/kind.rs:1683-1696 FrameKind::encode_bootstrap_begin_profile *)
Definition stream_profile_parts (p : BootstrapStreamProfile) : BootstrapCodec * OutputMode :=
  match p with
  | StreamProfile_NativeState codec => (BootstrapCodec_Native codec, OutputMode_Raw)
  | StreamProfile_SynthesizedVtRaw => (BootstrapCodec_SynthesizedVtV1, OutputMode_Raw)
  | StreamProfile_SynthesizedVtStateSync => (BootstrapCodec_SynthesizedVtV1, OutputMode_StateSync)
  | StreamProfile_AgentEventsJsonlV1 => (BootstrapCodec_AgentEventsJsonlV1, OutputMode_Raw)
  end.

(* wire/frame/kind.rs FrameKind::encode_bootstrap_begin_profile *)
Definition encode_bootstrap_begin_profile (profile : BootstrapStreamProfile)
    (cols rows base_seq : Z) : bytes :=
  let '(codec, output_mode) := stream_profile_parts profile in
  write_field bootstrap_begin_CODEC (encode_bootstrap_codec codec)
  ++ write_field bootstrap_begin_COLS (write_u16_be cols)
  ++ write_field bootstrap_begin_ROWS (write_u16_be rows)
  ++ write_field bootstrap_begin_OUTPUT_MODE (write_u8 (to_wire_t output_mode))
  ++ write_field bootstrap_begin_BASE_SEQ (write_u64_be base_seq).

(* wire/frame/kind.rs FrameKind::encode_bootstrap_chunk *)
Definition encode_bootstrap_chunk (terminal_id : ResourceId)
    (stream_id bootstrap_id chunk_seq : Z) (payload : bytes) : bytes :=
  write_field bootstrap_chunk_TERMINAL_ID (encode_terminal_id terminal_id)
  ++ write_field bootstrap_chunk_STREAM_ID (write_u64_be stream_id)
  ++ write_field bootstrap_chunk_BOOTSTRAP_ID (write_u64_be bootstrap_id)
  ++ write_field bootstrap_chunk_CHUNK_SEQ (write_u32_be chunk_seq)
  ++ write_field bootstrap_chunk_PAYLOAD payload.

(* wire/frame/kind.rs FrameKind::encode_bootstrap_ready *)
Definition encode_bootstrap_ready (terminal_id : ResourceId) (stream_id bootstrap_id : Z)
    (history_cursor : option bytes) : bytes :=
  write_field bootstrap_ready_TERMINAL_ID (encode_terminal_id terminal_id)
  ++ write_field bootstrap_ready_STREAM_ID (write_u64_be stream_id)
  ++ write_field bootstrap_ready_BOOTSTRAP_ID (write_u64_be bootstrap_id)
  ++ if_some history_cursor (write_field bootstrap_ready_HISTORY_CURSOR).

(* wire/frame/kind.rs FrameKind::encode_history_request *)
Definition encode_history_request (terminal_id : ResourceId) (stream_id bootstrap_id : Z)
    (cursor : bytes) (max_bytes max_rows : Z) : bytes :=
  write_field history_request_TERMINAL_ID (encode_terminal_id terminal_id)
  ++ write_field history_request_STREAM_ID (write_u64_be stream_id)
  ++ write_field history_request_BOOTSTRAP_ID (write_u64_be bootstrap_id)
  ++ write_field history_request_CURSOR cursor
  ++ write_field history_request_MAX_BYTES (write_u32_be max_bytes)
  ++ write_field history_request_MAX_ROWS (write_u32_be max_rows).

(* wire/frame/kind.rs FrameKind::encode_history_page_stream *)
Definition encode_history_page_stream (terminal_id : ResourceId) (stream_id bootstrap_id : Z)
    : bytes :=
  write_field history_page_TERMINAL_ID (encode_terminal_id terminal_id)
  ++ write_field history_page_STREAM_ID (write_u64_be stream_id)
  ++ write_field history_page_BOOTSTRAP_ID (write_u64_be bootstrap_id).

(* wire/frame/kind.rs FrameKind::encode_history_page_body *)
Definition encode_history_page_body (cursor : bytes) (next_cursor : option bytes)
    (payload : bytes) (page_seq rows : Z) : bytes :=
  write_field history_page_CURSOR cursor
  ++ if_some next_cursor (write_field history_page_NEXT_CURSOR)
  ++ write_field history_page_PAYLOAD payload
  ++ write_field history_page_PAGE_SEQ (write_u64_be page_seq)
  ++ write_field history_page_ROWS (write_u32_be rows).

(* wire/frame/kind.rs FrameKind::encode_bootstrap_tombstone *)
Definition encode_bootstrap_tombstone (terminal_id : ResourceId) (stream_id bootstrap_id : Z)
    (reason : TombstoneReason) (last_valid_seq : Z) : bytes :=
  write_field bootstrap_tombstone_TERMINAL_ID (encode_terminal_id terminal_id)
  ++ write_field bootstrap_tombstone_STREAM_ID (write_u64_be stream_id)
  ++ write_field bootstrap_tombstone_BOOTSTRAP_ID (write_u64_be bootstrap_id)
  ++ write_field bootstrap_tombstone_REASON (write_u8 (to_wire reason))
  ++ write_field bootstrap_tombstone_LAST_VALID_SEQ (write_u64_be last_valid_seq).

(* wire/frame/kind.rs FrameKind::encode_history_tombstone *)
Definition encode_history_tombstone (terminal_id : ResourceId) (stream_id bootstrap_id : Z)
    (cursor : bytes) (reason : HistoryTombstoneReason) : bytes :=
  write_field history_tombstone_TERMINAL_ID (encode_terminal_id terminal_id)
  ++ write_field history_tombstone_STREAM_ID (write_u64_be stream_id)
  ++ write_field history_tombstone_BOOTSTRAP_ID (write_u64_be bootstrap_id)
  ++ write_field history_tombstone_CURSOR cursor
  ++ write_field history_tombstone_REASON (write_u8 (to_wire reason)).

(* wire/frame/kind.rs FrameKind::encode_history_rejected_stream *)
Definition encode_history_rejected_stream (terminal_id : ResourceId) (stream_id bootstrap_id : Z)
    : bytes :=
  write_field history_rejected_TERMINAL_ID (encode_terminal_id terminal_id)
  ++ write_field history_rejected_STREAM_ID (write_u64_be stream_id)
  ++ write_field history_rejected_BOOTSTRAP_ID (write_u64_be bootstrap_id).

(* wire/frame/kind.rs FrameKind::encode_history_rejected_reason *)
Definition encode_history_rejected_reason (cursor : bytes) (reason : HistoryRejectionReason)
    (required_bytes required_rows : Z) : bytes :=
  write_field history_rejected_CURSOR cursor
  ++ write_field history_rejected_REASON (write_u8 (to_wire reason))
  ++ write_field history_rejected_REQUIRED_BYTES (write_u32_be required_bytes)
  ++ write_field history_rejected_REQUIRED_ROWS (write_u32_be required_rows).

(* wire/frame/kind.rs FrameKind::encode_bell *)
Definition encode_bell (terminal_id : ResourceId) : bytes :=
  write_field bell_TERMINAL_ID (encode_terminal_id terminal_id).

(* wire/frame/kind.rs FrameKind::encode_error *)
Definition encode_error (request_id : option Z) (code : ErrorCode) (message : bytes) : bytes :=
  if_some request_id (fun id => write_field error_REQUEST_ID (write_u32_be id))
  ++ write_field error_CODE (write_u16_be (to_wire code))
  ++ write_field error_MESSAGE message.

(* wire/frame/kind.rs FrameKind::encode_get_or_delete_metadata *)
Definition encode_get_or_delete_metadata (request_id : Z) (scope : Scope) (key : bytes) : bytes :=
  write_field get_metadata_REQUEST_ID (write_u32_be request_id)
  ++ write_field get_metadata_SCOPE (encode_scope scope)
  ++ write_field get_metadata_KEY key.

(* wire/frame/kind.rs FrameKind::encode_set_metadata *)
Definition encode_set_metadata (request_id : Z) (scope : Scope) (key value : bytes) : bytes :=
  write_field set_metadata_REQUEST_ID (write_u32_be request_id)
  ++ write_field set_metadata_SCOPE (encode_scope scope)
  ++ write_field set_metadata_KEY key
  ++ write_field set_metadata_VALUE value.

(* wire/frame/kind.rs FrameKind::encode_list_metadata *)
Definition encode_list_metadata (request_id : Z) (scope : Scope) : bytes :=
  write_field list_metadata_REQUEST_ID (write_u32_be request_id)
  ++ write_field list_metadata_SCOPE (encode_scope scope).

(* wire/frame/kind.rs FrameKind::encode_subscribe_metadata *)
Definition encode_subscribe_metadata (scope : Scope) (key : bytes) : bytes :=
  write_field subscribe_metadata_SCOPE (encode_scope scope)
  ++ write_field subscribe_metadata_KEY key.

(* wire/frame/kind.rs FrameKind::encode_metadata_changed *)
Definition encode_metadata_changed (scope : Scope) (key : bytes) (value : option bytes) : bytes :=
  write_field metadata_changed_SCOPE (encode_scope scope)
  ++ write_field metadata_changed_KEY key
  ++ if_some value (write_field metadata_changed_VALUE).

(* wire/frame/kind.rs FrameKind::encode_metadata_value *)
Definition encode_metadata_value (request_id : Z) (value : option bytes) : bytes :=
  write_field metadata_value_REQUEST_ID (write_u32_be request_id)
  ++ if_some value (write_field metadata_value_VALUE).

(* wire/frame/kind.rs FrameKind::encode_metadata_keys *)
Definition encode_metadata_keys (request_id : Z) (keys : list bytes) : bytes :=
  write_field metadata_keys_REQUEST_ID (write_u32_be request_id)
  ++ write_field metadata_keys_KEYS (write_list write_str keys).

(* wire/frame/kind.rs FrameKind::encode_spawn_terminal_request *)
Definition encode_spawn_terminal_request (request_id group : Z) : bytes :=
  write_field spawn_terminal_REQUEST_ID (write_u32_be request_id)
  ++ write_field spawn_terminal_GROUP (write_u32_be group).

(* wire/frame/kind.rs FrameKind::encode_spawn_terminal_process *)
Definition encode_spawn_terminal_process (command : option (list bytes)) (cwd : option bytes)
    (env : option (list (bytes * bytes))) (term : option bytes) : bytes :=
  if_some command (fun c => write_field spawn_terminal_COMMAND (encode_string_list c))
  ++ if_some cwd (fun c => write_field spawn_terminal_CWD c)
  ++ if_some env (fun e => write_field spawn_terminal_ENV (encode_env e))
  ++ if_some term (fun t => write_field spawn_terminal_TERM t).

Definition encode_initial_size (size : Z * Z) : bytes :=
  write_u16_be size.1 ++ write_u16_be size.2.

(* wire/frame/kind.rs FrameKind::encode_spawn_terminal_placement *)
Definition encode_spawn_terminal_placement (satellite : option bytes)
    (owner_terminal : option ResourceId) (agent_session : option bytes)
    (initial_size : option (Z * Z)) : bytes :=
  if_some satellite (fun h => write_field spawn_terminal_SATELLITE h)
  ++ if_some owner_terminal
       (fun o => write_field spawn_terminal_OWNER_TERMINAL (encode_terminal_id o))
  ++ if_some agent_session (fun v => write_field spawn_terminal_AGENT_SESSION v)
  ++ if_some initial_size
       (fun s => write_field spawn_terminal_INITIAL_SIZE (encode_initial_size s)).

(* wire/frame/kind.rs FrameKind::encode_spawn_terminal_resource *)
Definition encode_spawn_terminal_resource (r : SpawnResource) : bytes :=
  (if negb (is_terminal (spawn_kind r))
   then write_field spawn_terminal_KIND [ResourceKind_as_wire (spawn_kind r)] else [])
  ++ if_some (spawn_parent r)
       (fun p => write_field spawn_terminal_PARENT (encode_terminal_id p))
  ++ if_some (spawn_provider r) (fun p => write_field spawn_terminal_PROVIDER p)
  ++ if_some (spawn_native_id r) (fun n => write_field spawn_terminal_NATIVE_ID n)
  ++ (if spawn_bind_instance r then write_field spawn_terminal_BIND_INSTANCE [1] else []).

(* wire/frame/payload.rs SpawnResult::instance *)
Definition SpawnResult_instance (r : SpawnResult) : option bytes :=
  match r with SpawnResult_OkBound _ i => Some i | _ => None end.

(* wire/frame/kind.rs FrameKind::encode_terminal_spawned *)
Definition encode_terminal_spawned (request_id : Z) (r : SpawnResult) : bytes :=
  write_field terminal_spawned_REQUEST_ID (write_u32_be request_id)
  ++ write_field terminal_spawned_RESULT (encode_spawn_result r)
  ++ if_some (SpawnResult_instance r)
       (fun i => write_field terminal_spawned_INSTANCE (encode_server_instance i)).

(* wire/frame/kind.rs FrameKind::encode_move_terminal *)
Definition encode_move_terminal (request_id : Z) (terminal owner_terminal : ResourceId) : bytes :=
  write_field move_terminal_REQUEST_ID (write_u32_be request_id)
  ++ write_field move_terminal_TERMINAL (encode_terminal_id terminal)
  ++ write_field move_terminal_OWNER_TERMINAL (encode_terminal_id owner_terminal).

(* wire/frame/kind.rs FrameKind::encode_terminal_moved *)
Definition encode_terminal_moved (request_id : Z) (r : MoveResult) : bytes :=
  write_field terminal_moved_REQUEST_ID (write_u32_be request_id)
  ++ write_field terminal_moved_RESULT (encode_move_result r).

(** [CloseReason::is_unknown]. *)
(* wire/frame/status.rs CloseReason::is_unknown *)
Definition CloseReason_is_unknown (r : CloseReason) : bool :=
  match r with CloseReason_Unknown => true | _ => false end.

(* wire/frame/kind.rs FrameKind::encode_terminal_closed *)
Definition encode_terminal_closed (terminal_id : ResourceId) (exit_status : option Z)
    (reason : CloseReason) : bytes :=
  write_field terminal_closed_TERMINAL_ID (encode_terminal_id terminal_id)
  ++ if_some exit_status
       (fun s => write_field terminal_closed_EXIT_STATUS (write_u32_be (to_unsigned 32 s)))
  ++ (if negb (CloseReason_is_unknown reason)
      then write_field terminal_closed_REASON [to_wire_t reason] else []).

(* wire/frame/kind.rs FrameKind::encode_terminal_resize *)
Definition encode_terminal_resize (terminal_id : ResourceId) (cols rows : Z) : bytes :=
  write_field terminal_resize_TERMINAL_ID (encode_terminal_id terminal_id)
  ++ write_field terminal_resize_COLS (write_u16_be cols)
  ++ write_field terminal_resize_ROWS (write_u16_be rows).

(* wire/frame/kind.rs FrameKind::encode_command_frame *)
Definition encode_command_frame (request_id : Z) (command : Command) : bytes :=
  write_field command_REQUEST_ID (write_u32_be request_id)
  ++ write_field command_COMMAND (encode_command command).

(* wire/frame/kind.rs FrameKind::encode_subscribe_events *)
Definition encode_subscribe_events (terminal : option ResourceId) : bytes :=
  if_some terminal (fun t => write_field subscribe_events_TERMINAL (encode_terminal_id t)).

(* wire/frame/kind.rs FrameKind::encode_event *)
Definition encode_event (terminal : option ResourceId) (event : AgentEvent) : bytes :=
  if_some terminal (fun t => write_field event_TERMINAL (encode_terminal_id t))
  ++ write_field event_EVENT (encode_agent_event event).

Section Encode.
Context `{RJ : ReportJson} `{IT : IpText}.

(* wire/frame/kind.rs FrameKind::encode_hello *)
Definition encode_hello (client_name : bytes) (major minor patch : Z) (caps : ClientCapabilities)
    : bytes :=
  write_field hello_CLIENT_NAME client_name
  ++ write_field hello_PROTOCOL_MAJOR (write_u16_be major)
  ++ write_field hello_PROTOCOL_MINOR (write_u16_be minor)
  ++ write_field hello_PROTOCOL_PATCH (write_u16_be patch)
  ++ write_field hello_CLIENT_CAPS (encode_client_capabilities caps)
  ++ (if negb (compression caps =? 0)
      then write_field hello_COMPRESSION (write_u8 (compression caps)) else [])
  ++ if_some (ssh_origin caps) (fun o => write_field hello_SSH_ORIGIN (encode_ssh_origin o)).

(* wire/frame/kind.rs FrameKind::encode_attached *)
Definition encode_attached (attach_id : Z) (snapshot : SessionSnapshot) (client_id : Z) : bytes :=
  write_field attached_SNAPSHOT (encode_session_snapshot snapshot)
  ++ write_field attached_INITIAL_CLIENT_ID (encode_client_id client_id)
  ++ write_field attached_ATTACH_ID (write_u32_be attach_id).

(* wire/frame/kind.rs FrameKind::encode_command_result_frame *)
Definition encode_command_result_frame (request_id : Z) (r : CommandResult) : bytes :=
  write_field command_result_REQUEST_ID (write_u32_be request_id)
  ++ write_field command_result_RESULT (encode_command_result r).

(* wire/frame/kind.rs FrameKind::encode_payload *)
Definition encode_payload (f : FrameKind) : bytes :=
  match f with
  | FrameKind_Hello name major minor patch caps => encode_hello name major minor patch caps
  | FrameKind_HelloOk major minor patch caps server_id profile limits =>
      encode_hello_ok_version major minor patch
      ++ encode_hello_ok_negotiation caps server_id profile limits
  | FrameKind_Ping nonce | FrameKind_Pong nonce => encode_nonce nonce
  | FrameKind_ResourceOutput t s b seq payload => encode_terminal_output t s b seq payload
  | FrameKind_Attach id target viewport scroll limit => encode_attach id target viewport scroll limit
  | FrameKind_Detach => []
  | FrameKind_Detached reason message => encode_detached reason message
  | FrameKind_InputKey t e => encode_input_key t e
  | FrameKind_InputMouse t e => encode_input_mouse t e
  | FrameKind_InputFocus t e => encode_input_focus t e
  | FrameKind_InputPaste t e => encode_input_paste t e
  | FrameKind_InputTerminalReply t payload => encode_input_terminal_reply t payload
  | FrameKind_FrameAck t s b seq => encode_frame_ack t s b seq
  | FrameKind_ViewportResize v => encode_viewport_resize v
  | FrameKind_Attached id snapshot client => encode_attached id snapshot client
  | FrameKind_AttachReady id => encode_attach_ready id
  | FrameKind_BootstrapBegin t s b profile cols rows base_seq =>
      encode_bootstrap_begin_stream t s b
      ++ encode_bootstrap_begin_profile profile cols rows base_seq
  | FrameKind_BootstrapChunk t s b seq payload => encode_bootstrap_chunk t s b seq payload
  | FrameKind_BootstrapReady t s b cursor => encode_bootstrap_ready t s b cursor
  | FrameKind_HistoryRequest t s b cursor max_bytes max_rows =>
      encode_history_request t s b cursor max_bytes max_rows
  | FrameKind_HistoryPage t s b page_seq cursor next payload rows =>
      encode_history_page_stream t s b
      ++ encode_history_page_body cursor next payload page_seq rows
  | FrameKind_BootstrapTombstone t s b reason seq => encode_bootstrap_tombstone t s b reason seq
  | FrameKind_HistoryTombstone t s b cursor reason => encode_history_tombstone t s b cursor reason
  | FrameKind_HistoryRejected t s b cursor reason rb rr =>
      encode_history_rejected_stream t s b ++ encode_history_rejected_reason cursor reason rb rr
  | FrameKind_Bell t => encode_bell t
  | FrameKind_Error id code message => encode_error id code message
  | FrameKind_GetMetadata id scope key | FrameKind_DeleteMetadata id scope key =>
      encode_get_or_delete_metadata id scope key
  | FrameKind_SetMetadata id scope key value => encode_set_metadata id scope key value
  | FrameKind_ListMetadata id scope => encode_list_metadata id scope
  | FrameKind_SubscribeMetadata scope key => encode_subscribe_metadata scope key
  | FrameKind_MetadataChanged scope key value => encode_metadata_changed scope key value
  | FrameKind_MetadataValue id value => encode_metadata_value id value
  | FrameKind_MetadataKeys id keys => encode_metadata_keys id keys
  | FrameKind_ListDirectory id path host => encode_list_directory id path host
  | FrameKind_DirectoryListing id r => encode_directory_listing id r
  | FrameKind_SpawnResource id group command cwd env term satellite owner session size resource =>
      encode_spawn_terminal_request id group
      ++ encode_spawn_terminal_process command cwd env term
      ++ encode_spawn_terminal_placement satellite owner session size
      ++ if_some resource encode_spawn_terminal_resource
  | FrameKind_ResourceSpawned id r => encode_terminal_spawned id r
  | FrameKind_MoveResource id t o => encode_move_terminal id t o
  | FrameKind_ResourceMoved id r => encode_terminal_moved id r
  | FrameKind_ResourceClosed t status reason => encode_terminal_closed t status reason
  | FrameKind_ResizeTerminal t cols rows => encode_terminal_resize t cols rows
  | FrameKind_Command id c => encode_command_frame id c
  | FrameKind_CommandResult id r => encode_command_result_frame id r
  | FrameKind_SubscribeEvents t => encode_subscribe_events t
  | FrameKind_Event t e => encode_event t e
  end.

(** The type byte and the payload: what the length header counts. *)
Definition encode_body (f : FrameKind) : bytes := write_u8 (type_byte f) ++ encode_payload f.

(** The length header is backfilled once the body is written. *)
(* wire/frame/kind.rs FrameKind::encode *)
Definition encode (f : FrameKind) : bytes :=
  write_u32_be (saturate_u32 (len (encode_body f))) ++ encode_body f.

Section Compressed.
Context `{FL : Flate}.

(** The body of a [FRAME_COMPRESSED] envelope around the deflated bytes. *)
(* wire/frame/kind.rs:987-994 FrameKind::encode_compressed *)
Definition envelope_body (compression : Compression) (uncompressed_len : Z) (deflated : bytes)
    : bytes :=
  write_u8 TYPE_FRAME_COMPRESSED
  ++ write_field frame_compressed_ALGORITHM (write_u8 (to_wire_t compression))
  ++ write_field frame_compressed_UNCOMPRESSED_LEN (write_u32_be uncompressed_len)
  ++ write_field frame_compressed_PAYLOAD deflated.

(* wire/frame/kind.rs FrameKind::encode_compressed *)
Definition encode_compressed (f : FrameKind) (compression : Compression) : bytes :=
  match compression with
  | Compression_None => encode f
  | _ =>
      let scratch := encode f in
      let body := drop LENGTH_PREFIX_LEN scratch in
      match deflate body with
      | None => scratch
      | Some deflated =>
          if u32_max <? len body then scratch
          else
            let wrapped := envelope_body compression (len body) deflated in
            write_u32_be (saturate_u32 (len wrapped)) ++ wrapped
      end
  end.
End Compressed.
End Encode.
