(* ===== verification/FrameDecode.v ===== *)
(** * The frame decoder ([wire/decode.rs])

    The body decoder of every frame of the catalog, the dispatch on the type byte and
    [read_frame]. Each body decoder is the source's loop over TLV fields (a [_step]
    function on its local variables) followed by the checks of the required ones in
    the order of the source. *)

From S2P Require Import Prelude Wire Fields Enums Ids Caps Codec Info Command Directory SshOrigin.
From S2P Require Import Compress Frame.

(** ** Free helper functions of the file *)

(* wire/decode.rs decode_bind_instance *)
Definition decode_bind_instance : M bool :=
  b ← read_u8;
  if b =? 0 then mret false
  else if b =? 1 then mret true
  else fail (UnknownEnumValue "SpawnResource.bind_instance" b).

(* wire/decode.rs bind_spawn_result *)
Definition bind_spawn_result (result : SpawnResult) (instance : option bytes) : SpawnResult :=
  match result, instance with
  | SpawnResult_Ok id, Some instance => SpawnResult_OkBound id instance
  | result, _ => result
  end.

(* wire/decode.rs decode_agent_facet_str *)
Definition decode_agent_facet_str (value : bytes) (max_bytes : Z) : dresult bytes :=
  if is_nil value || (max_bytes <? len value) then Err AgentFacetLimitExceeded
  else from_utf8 value.

(** [for (field, present) in [..] { if present == bad { return Err(rule(field, required)) } }]. *)
Fixpoint check_fields (bad : bool) (rule : Z -> DecodeError) (l : list (Z * bool)) : dresult unit :=
  match l with
  | [] => Ok tt
  | (field, present) :: l' =>
      if Bool.eqb present bad then Err (rule field) else check_fields bad rule l'
  end.

(* wire/decode.rs validate_spawn_for_kind *)
Definition validate_spawn_for_kind (frame : FrameKind) : dresult unit :=
  match frame with
  | FrameKind_SpawnResource _ _ command cwd env term _ owner_terminal _ initial_size (Some r) =>
      let rule field required := InvalidSpawnForKind (ResourceKind_as_wire (spawn_kind r)) field required in
      match spawn_kind r with
      | ResourceKind_Terminal =>
          check_fields true (fun f => rule f false)
            [(spawn_terminal_PARENT, is_Some_b (spawn_parent r));
             (spawn_terminal_PROVIDER, is_Some_b (spawn_provider r));
             (spawn_terminal_NATIVE_ID, is_Some_b (spawn_native_id r))]
      | ResourceKind_AgentSession =>
          _ ← check_fields false (fun f => rule f true)
                [(spawn_terminal_PARENT, is_Some_b (spawn_parent r));
                 (spawn_terminal_PROVIDER, is_Some_b (spawn_provider r))];
          check_fields true (fun f => rule f false)
            [(spawn_terminal_COMMAND, is_Some_b command);
             (spawn_terminal_CWD, is_Some_b cwd);
             (spawn_terminal_ENV, is_Some_b env);
             (spawn_terminal_TERM, is_Some_b term);
             (spawn_terminal_OWNER_TERMINAL, is_Some_b owner_terminal);
             (spawn_terminal_INITIAL_SIZE, is_Some_b initial_size)]
      | ResourceKind_Unknown _ => Ok tt
      end
  | _ => Ok tt
  end.

(* wire/decode.rs decode_color_support *)
Definition decode_color_support : M ColorSupport :=
  v ← read_u8; lift (enum_of "ColorSupport" v).

(* wire/decode.rs decode_hyperlinks_flag *)
Definition decode_hyperlinks_flag : M bool :=
  v ← read_u8;
  if v =? 0 then mret false
  else if v =? 1 then mret true
  else fail (UnknownEnumValue "hyperlinks" v).

(* wire/decode.rs decode_output_mode *)
Definition decode_output_mode : M OutputMode :=
  v ← read_u8;
  if v =? 0 then mret OutputMode_Raw
  else if v =? 1 then mret OutputMode_StateSync
  else fail (UnknownEnumValue "OutputMode" v).

(* wire/decode.rs decode_default_colors *)
Definition decode_default_colors : M (option TerminalDefaultColors) :=
  tag ← read_u8;
  if tag =? 0 then mret None
  else if tag =? 1 then
    fr ← read_u8; fg ← read_u8; fb ← read_u8;
    br ← read_u8; bg ← read_u8; bb ← read_u8;
    mret (Some (mkDefaultColors (mkColor fr fg fb) (mkColor br bg bb)))
  else fail (UnknownEnumValue "default_colors presence" tag).

(* wire/decode.rs decode_bootstrap_capabilities *)
Definition decode_bootstrap_capabilities : M BootstrapCapabilities :=
  profiles ← read_u8;
  native_codecs ← read_u64_be;
  native_features ← read_u32_be;
  chunk ← read_u32_be;
  page ← read_u32_be;
  limits ← lift (ok_or BootstrapLimitExceeded (BootstrapLimits_new chunk page));
  mret (mkBootstrapCaps (BootstrapProfileSet_from_wire profiles)
          (EngineCodecSet_from_wire native_codecs)
          (EngineFeatureSet_from_wire native_features) limits).

(** The builder calls set every field but [compression] and [ssh_origin], which stay
    at the defaults of [ClientCapabilities::new]. *)
(* wire/decode.rs decode_client_capabilities *)
Definition decode_client_capabilities : M ClientCapabilities :=
  color_support ← decode_color_support;
  layers ← read_u8;
  images ← read_u8;
  keyboards ← read_u8;
  hyperlinks ← decode_hyperlinks_flag;
  output_mode ← decode_output_mode;
  default_colors ← decode_default_colors;
  bootstrap ← decode_bootstrap_capabilities;
  mret (mkClientCaps color_support (LayerSet_from_wire layers) (ImageProtocolSet_from_wire images)
          (KeyboardProtocolSet_from_wire keyboards) hyperlinks output_mode default_colors bootstrap
          (compression ClientCapabilities_new) (ssh_origin ClientCapabilities_new)).

(* caps.rs ClientCapabilities::with_ssh_origin *)
Definition with_ssh_origin (c : ClientCapabilities) (o : SshOrigin) : ClientCapabilities :=
  mkClientCaps (color_support c) (layers c) (image_protocols c) (kbd_protocols c) (hyperlinks c)
    (output_mode c) (default_colors c) (bootstrap c) (compression c) (Some o).

(* caps.rs ClientCapabilities::with_compression *)
Definition with_compression (c : ClientCapabilities) (bits : Z) : ClientCapabilities :=
  mkClientCaps (color_support c) (layers c) (image_protocols c) (kbd_protocols c) (hyperlinks c)
    (output_mode c) (default_colors c) (bootstrap c) bits (ssh_origin c).

(* wire/decode.rs decode_server_capabilities *)
Definition decode_server_capabilities : M ServerCapabilities :=
  layers ← read_u8;
  let layers := LayerSet_from_wire layers in
  done ← body_done;
  if negb done then
    features ← read_u32_be;
    mret (mkServerCaps layers (ServerFeatureSet_from_wire features)
            (server_compression ServerCapabilities_new))
  else mret (mkServerCaps layers (server_features ServerCapabilities_new)
               (server_compression ServerCapabilities_new)).

(* caps.rs ServerCapabilities::with_compression *)
Definition server_with_compression (c : ServerCapabilities) (z : Compression) : ServerCapabilities :=
  mkServerCaps (server_layers c) (server_features c) z.

(* wire/decode.rs negotiated_bootstrap_limits *)
Definition negotiated_bootstrap_limits (chunk page : option Z) : dresult BootstrapLimits :=
  chunk ← ok_or UnexpectedEof chunk;
  page ← ok_or UnexpectedEof page;
  ok_or BootstrapLimitExceeded (BootstrapLimits_new chunk page).

(* wire/decode.rs checked_history_cursor *)
Definition checked_history_cursor (value : bytes) : dresult bytes :=
  if MAX_HISTORY_CURSOR_BYTES <? len value then Err BootstrapLimitExceeded else Ok value.

(* wire/decode.rs checked_bootstrap_dimensions *)
Definition checked_bootstrap_dimensions (profile : BootstrapStreamProfile) (cols rows : option Z)
    : dresult (Z * Z) :=
  cols ← ok_or UnexpectedEof cols;
  rows ← ok_or UnexpectedEof rows;
  let gridless := match profile with StreamProfile_AgentEventsJsonlV1 => true | _ => false end in
  if negb (Bool.eqb gridless ((cols =? 0) && (rows =? 0))) then Err InvalidBootstrapProfile
  else Ok (cols, rows).

(* wire/decode.rs checked_history_page_seq *)
Definition checked_history_page_seq (value : option bytes) : dresult Z :=
  value ← ok_or UnexpectedEof value;
  page_seq ← sub value read_u64_be;
  if page_seq =? 0 then Err InvalidHistoryPageSequence else Ok page_seq.

(* wire/decode.rs checked_history_page_rows *)
Definition checked_history_page_rows (value : option bytes) : dresult Z :=
  value ← ok_or UnexpectedEof value;
  rows ← sub value read_u32_be;
  if MAX_HISTORY_PAGE_ROWS <? rows then Err HistoryRowLimitExceeded else Ok rows.

(* wire/decode.rs checked_history_required_rows *)
Definition checked_history_required_rows (required_rows : option Z) : dresult Z :=
  required_rows ← ok_or UnexpectedEof required_rows;
  if (required_rows =? 0) || (MAX_HISTORY_PAGE_ROWS <? required_rows)
  then Err HistoryRowLimitExceeded else Ok required_rows.

(* wire/decode.rs Decoder::checked_history_required_bytes *)
Definition checked_history_required_bytes (required_bytes : option Z) : M Z :=
  self ← get;
  required_bytes ← lift (ok_or UnexpectedEof required_bytes);
  if (required_bytes =? 0) || (max_history_page_bytes self <? required_bytes)
  then fail BootstrapLimitExceeded else mret required_bytes.

(** ** Body decoders, in catalog order *)

(* wire/decode.rs Decoder::decode_ping *)
Definition ping_step (nonce : option Z) (id : Z) (value : bytes)
    : dresult (option Z) :=
  if id =? ping_NONCE then x ← sub value read_u64_be; Ok (Some x)
  else Ok nonce.
(* wire/decode.rs Decoder::decode_ping *)
Definition decode_ping : M FrameKind :=
  nonce ← while_fields ping_step None;
  nonce ← lift (ok_or UnexpectedEof nonce);
  mret (FrameKind_Ping nonce).

(* wire/decode.rs Decoder::decode_pong *)
Definition pong_step (nonce : option Z) (id : Z) (value : bytes)
    : dresult (option Z) :=
  if id =? ping_NONCE then x ← sub value read_u64_be; Ok (Some x)
  else Ok nonce.
(* wire/decode.rs Decoder::decode_pong *)
Definition decode_pong : M FrameKind :=
  nonce ← while_fields pong_step None;
  nonce ← lift (ok_or UnexpectedEof nonce);
  mret (FrameKind_Pong nonce).

(* wire/decode.rs Decoder::decode_terminal_output *)
Definition terminal_output_step (s : option ResourceId * option Z * option Z * option Z * option bytes)
    (id : Z) (value : bytes)
    : dresult (option ResourceId * option Z * option Z * option Z * option bytes) :=
  let '(terminal_id, stream_id, bootstrap_id, seq, payload) := s in
  if id =? terminal_output_TERMINAL_ID then
    x ← sub value decode_terminal_id;
    Ok (Some x, stream_id, bootstrap_id, seq, payload)
  else if id =? terminal_output_SEQ then
    x ← sub value read_u64_be;
    Ok (terminal_id, stream_id, bootstrap_id, Some x, payload)
  else if id =? terminal_output_BYTES then
    Ok (terminal_id, stream_id, bootstrap_id, seq, Some value)
  else if id =? terminal_output_STREAM_ID then
    x ← sub value decode_stream_id;
    Ok (terminal_id, Some x, bootstrap_id, seq, payload)
  else if id =? terminal_output_BOOTSTRAP_ID then
    x ← sub value decode_bootstrap_id;
    Ok (terminal_id, stream_id, Some x, seq, payload)
  else Ok s.
(* wire/decode.rs Decoder::decode_terminal_output *)
Definition decode_terminal_output : M FrameKind :=
  s ← while_fields terminal_output_step (None, None, None, None, None);
  let '(terminal_id, stream_id, bootstrap_id, seq, payload) := s in
  terminal_id ← lift (ok_or UnexpectedEof terminal_id);
  stream_id ← lift (ok_or UnexpectedEof stream_id);
  bootstrap_id ← lift (ok_or UnexpectedEof bootstrap_id);
  seq ← lift (ok_or UnexpectedEof seq);
  payload ← lift (ok_or UnexpectedEof payload);
  mret (FrameKind_ResourceOutput terminal_id stream_id bootstrap_id seq payload).

(* wire/decode.rs Decoder::decode_attach *)
Definition attach_step (s : option AttachTarget * option ViewportInfo * bool * Z * option Z)
    (id : Z) (value : bytes)
    : dresult (option AttachTarget * option ViewportInfo * bool * Z * option Z) :=
  let '(target, viewport, request_scrollback, scrollback_limit_lines, attach_id) := s in
  if id =? attach_TARGET then
    x ← sub value decode_attach_target;
    Ok (Some x, viewport, request_scrollback, scrollback_limit_lines, attach_id)
  else if id =? attach_VIEWPORT then
    x ← sub value decode_viewport_info;
    Ok (target, Some x, request_scrollback, scrollback_limit_lines, attach_id)
  else if id =? attach_REQUEST_SCROLLBACK then
    x ← sub value read_u8;
    Ok (target, viewport, nonzero x, scrollback_limit_lines, attach_id)
  else if id =? attach_SCROLLBACK_LIMIT_LINES then
    x ← sub value read_u32_be;
    Ok (target, viewport, request_scrollback, x, attach_id)
  else if id =? attach_ATTACH_ID then
    x ← sub value read_u32_be;
    Ok (target, viewport, request_scrollback, scrollback_limit_lines, Some x)
  else Ok s.
(* wire/decode.rs Decoder::decode_attach *)
Definition decode_attach : M FrameKind :=
  s ← while_fields attach_step (None, None, false, 0, None);
  let '(target, viewport, request_scrollback, scrollback_limit_lines, attach_id) := s in
  attach_id ← lift (ok_or UnexpectedEof attach_id);
  target ← lift (ok_or UnexpectedEof target);
  viewport ← lift (ok_or UnexpectedEof viewport);
  mret (FrameKind_Attach attach_id target viewport request_scrollback scrollback_limit_lines).

(* wire/decode.rs Decoder::decode_input_key *)
Definition input_key_step (s : option ResourceId * option KeyEvent) (id : Z) (value : bytes)
    : dresult (option ResourceId * option KeyEvent) :=
  let '(terminal_id, event) := s in
  if id =? input_key_TERMINAL_ID then x ← sub value decode_terminal_id; Ok (Some x, event)
  else if id =? input_key_EVENT then x ← sub value decode_key_event; Ok (terminal_id, Some x)
  else Ok s.
(* wire/decode.rs Decoder::decode_input_key *)
Definition decode_input_key : M FrameKind :=
  s ← while_fields input_key_step (None, None);
  let '(terminal_id, event) := s in
  terminal_id ← lift (ok_or UnexpectedEof terminal_id);
  event ← lift (ok_or UnexpectedEof event);
  mret (FrameKind_InputKey terminal_id event).

(* wire/decode.rs Decoder::decode_input_mouse *)
Definition input_mouse_step (s : option ResourceId * option MouseEvent) (id : Z) (value : bytes)
    : dresult (option ResourceId * option MouseEvent) :=
  let '(terminal_id, event) := s in
  if id =? input_mouse_TERMINAL_ID then x ← sub value decode_terminal_id; Ok (Some x, event)
  else if id =? input_mouse_EVENT then x ← sub value decode_mouse_event; Ok (terminal_id, Some x)
  else Ok s.
(* wire/decode.rs Decoder::decode_input_mouse *)
Definition decode_input_mouse : M FrameKind :=
  s ← while_fields input_mouse_step (None, None);
  let '(terminal_id, event) := s in
  terminal_id ← lift (ok_or UnexpectedEof terminal_id);
  event ← lift (ok_or UnexpectedEof event);
  mret (FrameKind_InputMouse terminal_id event).

(* wire/decode.rs Decoder::decode_input_focus *)
Definition input_focus_step (s : option ResourceId * option FocusEvent) (id : Z) (value : bytes)
    : dresult (option ResourceId * option FocusEvent) :=
  let '(terminal_id, event) := s in
  if id =? input_focus_TERMINAL_ID then x ← sub value decode_terminal_id; Ok (Some x, event)
  else if id =? input_focus_EVENT then
    tag ← sub value read_u8;
    x ← decode_focus_event tag;
    Ok (terminal_id, Some x)
  else Ok s.
(* wire/decode.rs Decoder::decode_input_focus *)
Definition decode_input_focus : M FrameKind :=
  s ← while_fields input_focus_step (None, None);
  let '(terminal_id, event) := s in
  terminal_id ← lift (ok_or UnexpectedEof terminal_id);
  event ← lift (ok_or UnexpectedEof event);
  mret (FrameKind_InputFocus terminal_id event).

(* wire/decode.rs Decoder::decode_input_paste *)
Definition input_paste_step (s : option ResourceId * option PasteEvent) (id : Z) (value : bytes)
    : dresult (option ResourceId * option PasteEvent) :=
  let '(terminal_id, event) := s in
  if id =? input_paste_TERMINAL_ID then x ← sub value decode_terminal_id; Ok (Some x, event)
  else if id =? input_paste_EVENT then x ← sub value decode_paste_event; Ok (terminal_id, Some x)
  else Ok s.
(* wire/decode.rs Decoder::decode_input_paste *)
Definition decode_input_paste : M FrameKind :=
  s ← while_fields input_paste_step (None, None);
  let '(terminal_id, event) := s in
  terminal_id ← lift (ok_or UnexpectedEof terminal_id);
  event ← lift (ok_or UnexpectedEof event);
  mret (FrameKind_InputPaste terminal_id event).

(* wire/decode.rs Decoder::decode_input_terminal_reply *)
Definition input_terminal_reply_step (s : option ResourceId * option bytes)
    (id : Z) (value : bytes)
    : dresult (option ResourceId * option bytes) :=
  let '(terminal_id, payload) := s in
  if id =? input_terminal_reply_TERMINAL_ID then
    x ← sub value decode_terminal_id;
    Ok (Some x, payload)
  else if id =? input_terminal_reply_BYTES then
    _ ← ensure (negb (is_nil value || (MAX_INPUT_TERMINAL_REPLY_BYTES <? len value)))
           InputTerminalReplyLimitExceeded;
    Ok (terminal_id, Some value)
  else Ok s.
(* wire/decode.rs Decoder::decode_input_terminal_reply *)
Definition decode_input_terminal_reply : M FrameKind :=
  s ← while_fields input_terminal_reply_step (None, None);
  let '(terminal_id, payload) := s in
  terminal_id ← lift (ok_or UnexpectedEof terminal_id);
  payload ← lift (ok_or UnexpectedEof payload);
  mret (FrameKind_InputTerminalReply terminal_id payload).

(* wire/decode.rs Decoder::decode_frame_ack *)
Definition frame_ack_step (s : option ResourceId * option Z * option Z * option Z)
    (id : Z) (value : bytes)
    : dresult (option ResourceId * option Z * option Z * option Z) :=
  let '(terminal_id, stream_id, bootstrap_id, seq) := s in
  if id =? frame_ack_TERMINAL_ID then
    x ← sub value decode_terminal_id;
    Ok (Some x, stream_id, bootstrap_id, seq)
  else if id =? frame_ack_SEQ then
    x ← sub value read_u64_be;
    Ok (terminal_id, stream_id, bootstrap_id, Some x)
  else if id =? frame_ack_STREAM_ID then
    x ← sub value decode_stream_id;
    Ok (terminal_id, Some x, bootstrap_id, seq)
  else if id =? frame_ack_BOOTSTRAP_ID then
    x ← sub value decode_bootstrap_id;
    Ok (terminal_id, stream_id, Some x, seq)
  else Ok s.
(* wire/decode.rs Decoder::decode_frame_ack *)
Definition decode_frame_ack : M FrameKind :=
  s ← while_fields frame_ack_step (None, None, None, None);
  let '(terminal_id, stream_id, bootstrap_id, seq) := s in
  terminal_id ← lift (ok_or UnexpectedEof terminal_id);
  stream_id ← lift (ok_or UnexpectedEof stream_id);
  bootstrap_id ← lift (ok_or UnexpectedEof bootstrap_id);
  seq ← lift (ok_or UnexpectedEof seq);
  mret (FrameKind_FrameAck terminal_id stream_id bootstrap_id seq).

(* wire/decode.rs Decoder::decode_viewport_resize *)
Definition viewport_resize_step (viewport : option ViewportInfo) (id : Z) (value : bytes)
    : dresult (option ViewportInfo) :=
  if id =? viewport_resize_VIEWPORT then x ← sub value decode_viewport_info; Ok (Some x)
  else Ok viewport.
(* wire/decode.rs Decoder::decode_viewport_resize *)
Definition decode_viewport_resize : M FrameKind :=
  viewport ← while_fields viewport_resize_step None;
  viewport ← lift (ok_or UnexpectedEof viewport);
  mret (FrameKind_ViewportResize viewport).

(* wire/decode.rs Decoder::decode_attach_ready *)
Definition attach_ready_step (attach_id : option Z) (id : Z) (value : bytes)
    : dresult (option Z) :=
  if id =? attach_ready_ATTACH_ID then x ← sub value read_u32_be; Ok (Some x)
  else Ok attach_id.
(* wire/decode.rs Decoder::decode_attach_ready *)
Definition decode_attach_ready : M FrameKind :=
  attach_id ← while_fields attach_ready_step None;
  attach_id ← lift (ok_or UnexpectedEof attach_id);
  mret (FrameKind_AttachReady attach_id).

(* wire/decode.rs Decoder::decode_detach *)
Definition decode_detach : M FrameKind :=
  _ ← while_fields (fun s _ _ => Ok s) tt;
  mret FrameKind_Detach.

(** The payload bound is the connection's, read off the decoder. *)
(* wire/decode.rs Decoder::decode_bootstrap_chunk *)
Definition bootstrap_chunk_step (max_chunk : Z)
    (s : option ResourceId * option Z * option Z * option Z * option bytes) (id : Z) (value : bytes)
    : dresult (option ResourceId * option Z * option Z * option Z * option bytes) :=
  let '(terminal_id, stream_id, bootstrap_id, chunk_seq, payload) := s in
  if id =? bootstrap_chunk_TERMINAL_ID then
    x ← sub value decode_terminal_id;
    Ok (Some x, stream_id, bootstrap_id, chunk_seq, payload)
  else if id =? bootstrap_chunk_STREAM_ID then
    x ← sub value decode_stream_id;
    Ok (terminal_id, Some x, bootstrap_id, chunk_seq, payload)
  else if id =? bootstrap_chunk_BOOTSTRAP_ID then
    x ← sub value decode_bootstrap_id;
    Ok (terminal_id, stream_id, Some x, chunk_seq, payload)
  else if id =? bootstrap_chunk_CHUNK_SEQ then
    x ← sub value read_u32_be;
    Ok (terminal_id, stream_id, bootstrap_id, Some x, payload)
  else if id =? bootstrap_chunk_PAYLOAD then
    if max_chunk <? len value then Err BootstrapLimitExceeded
    else Ok (terminal_id, stream_id, bootstrap_id, chunk_seq, Some value)
  else Ok s.
(* wire/decode.rs Decoder::decode_bootstrap_chunk *)
Definition decode_bootstrap_chunk : M FrameKind :=
  self ← get;
  s ← while_fields (bootstrap_chunk_step (max_bootstrap_chunk_bytes self))
        (None, None, None, None, None);
  let '(terminal_id, stream_id, bootstrap_id, chunk_seq, payload) := s in
  terminal_id ← lift (ok_or UnexpectedEof terminal_id);
  stream_id ← lift (ok_or UnexpectedEof stream_id);
  bootstrap_id ← lift (ok_or UnexpectedEof bootstrap_id);
  chunk_seq ← lift (ok_or UnexpectedEof chunk_seq);
  payload ← lift (ok_or UnexpectedEof payload);
  mret (FrameKind_BootstrapChunk terminal_id stream_id bootstrap_id chunk_seq payload).

(** The raw field values of a [HISTORY_PAGE], kept until every scalar is checked. *)
(* wire/decode.rs Decoder::decode_history_page *)
Record HistoryPageFields : Type := mkHistoryPageFields {
  hp_terminal_id : option bytes;
  hp_stream_id : option bytes;
  hp_bootstrap_id : option bytes;
  hp_page_seq : option bytes;
  hp_cursor : option bytes;
  hp_next_cursor : option bytes;
  hp_payload : option bytes;
  hp_rows : option bytes
}.
(* wire/decode.rs Decoder::decode_history_page *)
Definition history_page_step (s : HistoryPageFields) (id : Z) (value : bytes)
    : dresult HistoryPageFields :=
  let '(mkHistoryPageFields t st b seq cursor next payload rows) := s in
  Ok (if id =? history_page_TERMINAL_ID then
        mkHistoryPageFields (Some value) st b seq cursor next payload rows
      else if id =? history_page_STREAM_ID then
        mkHistoryPageFields t (Some value) b seq cursor next payload rows
      else if id =? history_page_BOOTSTRAP_ID then
        mkHistoryPageFields t st (Some value) seq cursor next payload rows
      else if id =? history_page_CURSOR then
        mkHistoryPageFields t st b seq (Some value) next payload rows
      else if id =? history_page_NEXT_CURSOR then
        mkHistoryPageFields t st b seq cursor (Some value) payload rows
      else if id =? history_page_PAYLOAD then
        mkHistoryPageFields t st b seq cursor next (Some value) rows
      else if id =? history_page_PAGE_SEQ then
        mkHistoryPageFields t st b (Some value) cursor next payload rows
      else if id =? history_page_ROWS then
        mkHistoryPageFields t st b seq cursor next payload (Some value)
      else s).

(** The checks after the loop, in the order of the source. *)
(* wire/decode.rs:1125-1164 Decoder::decode_history_page *)
Definition history_page_checks (max_page : Z) (s : HistoryPageFields) : dresult FrameKind :=
  stream ← ok_or UnexpectedEof (hp_stream_id s);
  stream_id ← sub stream decode_stream_id;
  boot ← ok_or UnexpectedEof (hp_bootstrap_id s);
  bootstrap_id ← sub boot decode_bootstrap_id;
  page_seq ← checked_history_page_seq (hp_page_seq s);
  rows ← checked_history_page_rows (hp_rows s);
  payload ← ok_or UnexpectedEof (hp_payload s);
  _ ← ensure (negb (max_page <? len payload)) BootstrapLimitExceeded;
  cursor ← ok_or UnexpectedEof (hp_cursor s);
  _ ← ensure (negb (MAX_HISTORY_CURSOR_BYTES <? len cursor)) BootstrapLimitExceeded;
  _ ← ensure (match hp_next_cursor s with
              | Some next => negb (MAX_HISTORY_CURSOR_BYTES <? len next)
              | None => true
              end) BootstrapLimitExceeded;
  term ← ok_or UnexpectedEof (hp_terminal_id s);
  terminal_id ← sub term decode_terminal_id;
  Ok (FrameKind_HistoryPage terminal_id stream_id bootstrap_id page_seq cursor
        (hp_next_cursor s) payload rows).

(* wire/decode.rs Decoder::decode_history_page *)
Definition decode_history_page : M FrameKind :=
  self ← get;
  s ← while_fields history_page_step
        (mkHistoryPageFields None None None None None None None None);
  lift (history_page_checks (max_history_page_bytes self) s).

(** An unrecognised reason decodes as [None]. *)
(* wire/decode.rs Decoder::decode_detached *)
Definition detached_step (s : option DetachReason * option bytes) (id : Z) (value : bytes)
    : dresult (option DetachReason * option bytes) :=
  let '(reason, message) := s in
  if id =? detached_REASON then raw ← sub value read_u8; Ok (from_wire raw, message)
  else if id =? detached_MESSAGE then x ← from_utf8 value; Ok (reason, Some x)
  else Ok s.
(* wire/decode.rs Decoder::decode_detached *)
Definition decode_detached : M FrameKind :=
  s ← while_fields detached_step (None, None);
  mret (FrameKind_Detached s.1 (default [] s.2)).

(* wire/decode.rs Decoder::decode_get_metadata *)
Definition decode_get_metadata : M FrameKind :=
  x ← decode_metadata_scope_key;
  let '(request_id, scope, key) := x in
  mret (FrameKind_GetMetadata request_id scope key).
(* wire/decode.rs Decoder::decode_delete_metadata *)
Definition decode_delete_metadata : M FrameKind :=
  x ← decode_metadata_scope_key;
  let '(request_id, scope, key) := x in
  mret (FrameKind_DeleteMetadata request_id scope key).

(* wire/decode.rs Decoder::decode_bootstrap_begin *)
Definition bootstrap_begin_step (s : option ResourceId * option Z * option Z * option BootstrapCodec * option Z * option Z * option Z * option Z)
    (id : Z) (value : bytes)
    : dresult (option ResourceId * option Z * option Z * option BootstrapCodec * option Z * option Z * option Z * option Z) :=
  let '(terminal_id, stream_id, bootstrap_id, codec, cols, rows, output_mode, base_seq) := s in
  if id =? bootstrap_begin_TERMINAL_ID then
    x ← sub value decode_terminal_id;
    Ok (Some x, stream_id, bootstrap_id, codec, cols, rows, output_mode, base_seq)
  else if id =? bootstrap_begin_STREAM_ID then
    x ← sub value decode_stream_id;
    Ok (terminal_id, Some x, bootstrap_id, codec, cols, rows, output_mode, base_seq)
  else if id =? bootstrap_begin_BOOTSTRAP_ID then
    x ← sub value decode_bootstrap_id;
    Ok (terminal_id, stream_id, Some x, codec, cols, rows, output_mode, base_seq)
  else if id =? bootstrap_begin_CODEC then
    x ← sub value decode_bootstrap_codec;
    Ok (terminal_id, stream_id, bootstrap_id, Some x, cols, rows, output_mode, base_seq)
  else if id =? bootstrap_begin_COLS then
    x ← sub value read_u16_be;
    Ok (terminal_id, stream_id, bootstrap_id, codec, Some x, rows, output_mode, base_seq)
  else if id =? bootstrap_begin_ROWS then
    x ← sub value read_u16_be;
    Ok (terminal_id, stream_id, bootstrap_id, codec, cols, Some x, output_mode, base_seq)
  else if id =? bootstrap_begin_OUTPUT_MODE then
    x ← sub value read_u8;
    Ok (terminal_id, stream_id, bootstrap_id, codec, cols, rows, Some x, base_seq)
  else if id =? bootstrap_begin_BASE_SEQ then
    x ← sub value read_u64_be;
    Ok (terminal_id, stream_id, bootstrap_id, codec, cols, rows, output_mode, Some x)
  else Ok s.
(* wire/decode.rs Decoder::decode_bootstrap_begin *)
Definition decode_bootstrap_begin : M FrameKind :=
  s ← while_fields bootstrap_begin_step (None, None, None, None, None, None, None, None);
  let '(terminal_id, stream_id, bootstrap_id, codec, cols, rows, output_mode, base_seq) := s in
  codec ← lift (ok_or UnexpectedEof codec);
  output_mode ← lift (ok_or UnexpectedEof output_mode);
  profile ← lift (decode_bootstrap_stream_profile codec output_mode);
  grid ← lift (checked_bootstrap_dimensions profile cols rows);
  terminal_id ← lift (ok_or UnexpectedEof terminal_id);
  stream_id ← lift (ok_or UnexpectedEof stream_id);
  bootstrap_id ← lift (ok_or UnexpectedEof bootstrap_id);
  base_seq ← lift (ok_or UnexpectedEof base_seq);
  mret (FrameKind_BootstrapBegin terminal_id stream_id bootstrap_id profile grid.1 grid.2 base_seq).

(* wire/decode.rs Decoder::decode_bootstrap_ready *)
Definition bootstrap_ready_step (s : option ResourceId * option Z * option Z * option bytes)
    (id : Z) (value : bytes)
    : dresult (option ResourceId * option Z * option Z * option bytes) :=
  let '(terminal_id, stream_id, bootstrap_id, history_cursor) := s in
  if id =? bootstrap_ready_TERMINAL_ID then
    x ← sub value decode_terminal_id;
    Ok (Some x, stream_id, bootstrap_id, history_cursor)
  else if id =? bootstrap_ready_STREAM_ID then
    x ← sub value decode_stream_id;
    Ok (terminal_id, Some x, bootstrap_id, history_cursor)
  else if id =? bootstrap_ready_BOOTSTRAP_ID then
    x ← sub value decode_bootstrap_id;
    Ok (terminal_id, stream_id, Some x, history_cursor)
  else if id =? bootstrap_ready_HISTORY_CURSOR then
    x ← checked_history_cursor value;
    Ok (terminal_id, stream_id, bootstrap_id, Some x)
  else Ok s.
(* wire/decode.rs Decoder::decode_bootstrap_ready *)
Definition decode_bootstrap_ready : M FrameKind :=
  s ← while_fields bootstrap_ready_step (None, None, None, None);
  let '(terminal_id, stream_id, bootstrap_id, history_cursor) := s in
  terminal_id ← lift (ok_or UnexpectedEof terminal_id);
  stream_id ← lift (ok_or UnexpectedEof stream_id);
  bootstrap_id ← lift (ok_or UnexpectedEof bootstrap_id);
  mret (FrameKind_BootstrapReady terminal_id stream_id bootstrap_id history_cursor).

(* wire/decode.rs Decoder::decode_history_request *)
Definition history_request_step (s : option ResourceId * option Z * option Z * option bytes * option Z * option Z)
    (id : Z) (value : bytes)
    : dresult (option ResourceId * option Z * option Z * option bytes * option Z * option Z) :=
  let '(terminal_id, stream_id, bootstrap_id, cursor, max_bytes, max_rows) := s in
  if id =? history_request_TERMINAL_ID then
    x ← sub value decode_terminal_id;
    Ok (Some x, stream_id, bootstrap_id, cursor, max_bytes, max_rows)
  else if id =? history_request_STREAM_ID then
    x ← sub value decode_stream_id;
    Ok (terminal_id, Some x, bootstrap_id, cursor, max_bytes, max_rows)
  else if id =? history_request_BOOTSTRAP_ID then
    x ← sub value decode_bootstrap_id;
    Ok (terminal_id, stream_id, Some x, cursor, max_bytes, max_rows)
  else if id =? history_request_CURSOR then
    x ← checked_history_cursor value;
    Ok (terminal_id, stream_id, bootstrap_id, Some x, max_bytes, max_rows)
  else if id =? history_request_MAX_BYTES then
    x ← sub value read_u32_be;
    Ok (terminal_id, stream_id, bootstrap_id, cursor, Some x, max_rows)
  else if id =? history_request_MAX_ROWS then
    x ← sub value read_u32_be;
    Ok (terminal_id, stream_id, bootstrap_id, cursor, max_bytes, Some x)
  else Ok s.
(* wire/decode.rs Decoder::decode_history_request *)
Definition decode_history_request : M FrameKind :=
  s ← while_fields history_request_step (None, None, None, None, None, None);
  let '(terminal_id, stream_id, bootstrap_id, cursor, max_bytes, max_rows) := s in
  max_bytes ← lift (ok_or UnexpectedEof max_bytes);
  max_rows ← lift (ok_or UnexpectedEof max_rows);
  terminal_id ← lift (ok_or UnexpectedEof terminal_id);
  stream_id ← lift (ok_or UnexpectedEof stream_id);
  bootstrap_id ← lift (ok_or UnexpectedEof bootstrap_id);
  cursor ← lift (ok_or UnexpectedEof cursor);
  mret (FrameKind_HistoryRequest terminal_id stream_id bootstrap_id cursor max_bytes max_rows).

(* wire/decode.rs Decoder::decode_bootstrap_tombstone *)
Definition bootstrap_tombstone_step (s : option ResourceId * option Z * option Z * option TombstoneReason * option Z)
    (id : Z) (value : bytes)
    : dresult (option ResourceId * option Z * option Z * option TombstoneReason * option Z) :=
  let '(terminal_id, stream_id, bootstrap_id, reason, last_valid_seq) := s in
  if id =? bootstrap_tombstone_TERMINAL_ID then
    x ← sub value decode_terminal_id;
    Ok (Some x, stream_id, bootstrap_id, reason, last_valid_seq)
  else if id =? bootstrap_tombstone_STREAM_ID then
    x ← sub value decode_stream_id;
    Ok (terminal_id, Some x, bootstrap_id, reason, last_valid_seq)
  else if id =? bootstrap_tombstone_BOOTSTRAP_ID then
    x ← sub value decode_bootstrap_id;
    Ok (terminal_id, stream_id, Some x, reason, last_valid_seq)
  else if id =? bootstrap_tombstone_REASON then
    raw ← sub value read_u8;
    x ← enum_of "TombstoneReason" raw;
    Ok (terminal_id, stream_id, bootstrap_id, Some x, last_valid_seq)
  else if id =? bootstrap_tombstone_LAST_VALID_SEQ then
    x ← sub value read_u64_be;
    Ok (terminal_id, stream_id, bootstrap_id, reason, Some x)
  else Ok s.
(* wire/decode.rs Decoder::decode_bootstrap_tombstone *)
Definition decode_bootstrap_tombstone : M FrameKind :=
  s ← while_fields bootstrap_tombstone_step (None, None, None, None, None);
  let '(terminal_id, stream_id, bootstrap_id, reason, last_valid_seq) := s in
  terminal_id ← lift (ok_or UnexpectedEof terminal_id);
  stream_id ← lift (ok_or UnexpectedEof stream_id);
  bootstrap_id ← lift (ok_or UnexpectedEof bootstrap_id);
  reason ← lift (ok_or UnexpectedEof reason);
  last_valid_seq ← lift (ok_or UnexpectedEof last_valid_seq);
  mret (FrameKind_BootstrapTombstone terminal_id stream_id bootstrap_id reason last_valid_seq).

(* wire/decode.rs Decoder::decode_history_tombstone *)
Definition history_tombstone_step (s : option ResourceId * option Z * option Z * option bytes * option HistoryTombstoneReason)
    (id : Z) (value : bytes)
    : dresult (option ResourceId * option Z * option Z * option bytes * option HistoryTombstoneReason) :=
  let '(terminal_id, stream_id, bootstrap_id, cursor, reason) := s in
  if id =? history_tombstone_TERMINAL_ID then
    x ← sub value decode_terminal_id;
    Ok (Some x, stream_id, bootstrap_id, cursor, reason)
  else if id =? history_tombstone_STREAM_ID then
    x ← sub value decode_stream_id;
    Ok (terminal_id, Some x, bootstrap_id, cursor, reason)
  else if id =? history_tombstone_BOOTSTRAP_ID then
    x ← sub value decode_bootstrap_id;
    Ok (terminal_id, stream_id, Some x, cursor, reason)
  else if id =? history_tombstone_CURSOR then
    x ← checked_history_cursor value;
    Ok (terminal_id, stream_id, bootstrap_id, Some x, reason)
  else if id =? history_tombstone_REASON then
    raw ← sub value read_u8;
    x ← enum_of "HistoryTombstoneReason" raw;
    Ok (terminal_id, stream_id, bootstrap_id, cursor, Some x)
  else Ok s.
(* wire/decode.rs Decoder::decode_history_tombstone *)
Definition decode_history_tombstone : M FrameKind :=
  s ← while_fields history_tombstone_step (None, None, None, None, None);
  let '(terminal_id, stream_id, bootstrap_id, cursor, reason) := s in
  terminal_id ← lift (ok_or UnexpectedEof terminal_id);
  stream_id ← lift (ok_or UnexpectedEof stream_id);
  bootstrap_id ← lift (ok_or UnexpectedEof bootstrap_id);
  cursor ← lift (ok_or UnexpectedEof cursor);
  reason ← lift (ok_or UnexpectedEof reason);
  mret (FrameKind_HistoryTombstone terminal_id stream_id bootstrap_id cursor reason).

(* wire/decode.rs Decoder::decode_history_rejected *)
Definition history_rejected_step (s : option ResourceId * option Z * option Z * option bytes * option HistoryRejectionReason * option Z * option Z)
    (id : Z) (value : bytes)
    : dresult (option ResourceId * option Z * option Z * option bytes * option HistoryRejectionReason * option Z * option Z) :=
  let '(terminal_id, stream_id, bootstrap_id, cursor, reason, required_bytes, required_rows) := s in
  if id =? history_rejected_TERMINAL_ID then
    x ← sub value decode_terminal_id;
    Ok (Some x, stream_id, bootstrap_id, cursor, reason, required_bytes, required_rows)
  else if id =? history_rejected_STREAM_ID then
    x ← sub value decode_stream_id;
    Ok (terminal_id, Some x, bootstrap_id, cursor, reason, required_bytes, required_rows)
  else if id =? history_rejected_BOOTSTRAP_ID then
    x ← sub value decode_bootstrap_id;
    Ok (terminal_id, stream_id, Some x, cursor, reason, required_bytes, required_rows)
  else if id =? history_rejected_CURSOR then
    x ← checked_history_cursor value;
    Ok (terminal_id, stream_id, bootstrap_id, Some x, reason, required_bytes, required_rows)
  else if id =? history_rejected_REASON then
    raw ← sub value read_u8;
    x ← enum_of "HistoryRejectionReason" raw;
    Ok (terminal_id, stream_id, bootstrap_id, cursor, Some x, required_bytes, required_rows)
  else if id =? history_rejected_REQUIRED_BYTES then
    x ← sub value read_u32_be;
    Ok (terminal_id, stream_id, bootstrap_id, cursor, reason, Some x, required_rows)
  else if id =? history_rejected_REQUIRED_ROWS then
    x ← sub value read_u32_be;
    Ok (terminal_id, stream_id, bootstrap_id, cursor, reason, required_bytes, Some x)
  else Ok s.
(* wire/decode.rs Decoder::decode_history_rejected *)
Definition decode_history_rejected : M FrameKind :=
  s ← while_fields history_rejected_step (None, None, None, None, None, None, None);
  let '(terminal_id, stream_id, bootstrap_id, cursor, reason, required_bytes, required_rows) := s in
  required_bytes ← checked_history_required_bytes required_bytes;
  required_rows ← lift (checked_history_required_rows required_rows);
  terminal_id ← lift (ok_or UnexpectedEof terminal_id);
  stream_id ← lift (ok_or UnexpectedEof stream_id);
  bootstrap_id ← lift (ok_or UnexpectedEof bootstrap_id);
  cursor ← lift (ok_or UnexpectedEof cursor);
  reason ← lift (ok_or UnexpectedEof reason);
  mret (FrameKind_HistoryRejected terminal_id stream_id bootstrap_id cursor reason required_bytes required_rows).

(* wire/decode.rs Decoder::decode_bell *)
Definition bell_step (terminal_id : option ResourceId) (id : Z) (value : bytes)
    : dresult (option ResourceId) :=
  if id =? bell_TERMINAL_ID then x ← sub value decode_terminal_id; Ok (Some x)
  else Ok terminal_id.
(* wire/decode.rs Decoder::decode_bell *)
Definition decode_bell : M FrameKind :=
  terminal_id ← while_fields bell_step None;
  terminal_id ← lift (ok_or UnexpectedEof terminal_id);
  mret (FrameKind_Bell terminal_id).

(* wire/decode.rs Decoder::decode_error *)
Definition error_step (s : option Z * option ErrorCode * option bytes) (id : Z) (value : bytes)
    : dresult (option Z * option ErrorCode * option bytes) :=
  let '(request_id, code, message) := s in
  if id =? error_REQUEST_ID then x ← sub value read_u32_be; Ok (Some x, code, message)
  else if id =? error_CODE then
    raw ← sub value read_u16_be;
    x ← enum_of "ErrorCode" raw;
    Ok (request_id, Some x, message)
  else if id =? error_MESSAGE then x ← from_utf8 value; Ok (request_id, code, Some x)
  else Ok s.
(* wire/decode.rs Decoder::decode_error *)
Definition decode_error : M FrameKind :=
  s ← while_fields error_step (None, None, None);
  let '(request_id, code, message) := s in
  code ← lift (ok_or UnexpectedEof code);
  message ← lift (ok_or UnexpectedEof message);
  mret (FrameKind_Error request_id code message).

(* wire/decode.rs Decoder::decode_set_metadata *)
Definition set_metadata_step (s : Z * option Scope * option bytes * bytes)
    (id : Z) (value : bytes)
    : dresult (Z * option Scope * option bytes * bytes) :=
  let '(request_id, scope, key, value_bytes) := s in
  if id =? set_metadata_REQUEST_ID then x ← sub value read_u32_be; Ok (x, scope, key, value_bytes)
  else if id =? set_metadata_SCOPE then
    x ← sub value decode_scope;
    Ok (request_id, Some x, key, value_bytes)
  else if id =? set_metadata_KEY then
    x ← from_utf8 value;
    Ok (request_id, scope, Some x, value_bytes)
  else if id =? set_metadata_VALUE then Ok (request_id, scope, key, value)
  else Ok s.
(* wire/decode.rs Decoder::decode_set_metadata *)
Definition decode_set_metadata : M FrameKind :=
  s ← while_fields set_metadata_step (0, None, None, []);
  let '(request_id, scope, key, value_bytes) := s in
  scope ← lift (ok_or UnexpectedEof scope);
  key ← lift (ok_or UnexpectedEof key);
  mret (FrameKind_SetMetadata request_id scope key value_bytes).

(* wire/decode.rs Decoder::decode_list_metadata *)
Definition list_metadata_step (s : Z * option Scope) (id : Z) (value : bytes)
    : dresult (Z * option Scope) :=
  let '(request_id, scope) := s in
  if id =? list_metadata_REQUEST_ID then x ← sub value read_u32_be; Ok (x, scope)
  else if id =? list_metadata_SCOPE then x ← sub value decode_scope; Ok (request_id, Some x)
  else Ok s.
(* wire/decode.rs Decoder::decode_list_metadata *)
Definition decode_list_metadata : M FrameKind :=
  s ← while_fields list_metadata_step (0, None);
  let '(request_id, scope) := s in
  scope ← lift (ok_or UnexpectedEof scope);
  mret (FrameKind_ListMetadata request_id scope).

(* wire/decode.rs Decoder::decode_subscribe_metadata *)
Definition subscribe_metadata_step (s : option Scope * option bytes) (id : Z) (value : bytes)
    : dresult (option Scope * option bytes) :=
  let '(scope, key) := s in
  if id =? subscribe_metadata_SCOPE then x ← sub value decode_scope; Ok (Some x, key)
  else if id =? subscribe_metadata_KEY then x ← from_utf8 value; Ok (scope, Some x)
  else Ok s.
(* wire/decode.rs Decoder::decode_subscribe_metadata *)
Definition decode_subscribe_metadata : M FrameKind :=
  s ← while_fields subscribe_metadata_step (None, None);
  let '(scope, key) := s in
  scope ← lift (ok_or UnexpectedEof scope);
  key ← lift (ok_or UnexpectedEof key);
  mret (FrameKind_SubscribeMetadata scope key).

(* wire/decode.rs Decoder::decode_metadata_changed *)
Definition metadata_changed_step (s : option Scope * option bytes * option bytes)
    (id : Z) (value : bytes)
    : dresult (option Scope * option bytes * option bytes) :=
  let '(scope, key, value_bytes) := s in
  if id =? metadata_changed_SCOPE then x ← sub value decode_scope; Ok (Some x, key, value_bytes)
  else if id =? metadata_changed_KEY then x ← from_utf8 value; Ok (scope, Some x, value_bytes)
  else if id =? metadata_changed_VALUE then Ok (scope, key, Some value)
  else Ok s.
(* wire/decode.rs Decoder::decode_metadata_changed *)
Definition decode_metadata_changed : M FrameKind :=
  s ← while_fields metadata_changed_step (None, None, None);
  let '(scope, key, value_bytes) := s in
  scope ← lift (ok_or UnexpectedEof scope);
  key ← lift (ok_or UnexpectedEof key);
  mret (FrameKind_MetadataChanged scope key value_bytes).

(* wire/decode.rs Decoder::decode_metadata_value *)
Definition metadata_value_step (s : Z * option bytes) (id : Z) (value : bytes)
    : dresult (Z * option bytes) :=
  let '(request_id, value_bytes) := s in
  if id =? metadata_value_REQUEST_ID then x ← sub value read_u32_be; Ok (x, value_bytes)
  else if id =? metadata_value_VALUE then Ok (request_id, Some value)
  else Ok s.
(* wire/decode.rs Decoder::decode_metadata_value *)
Definition decode_metadata_value : M FrameKind :=
  s ← while_fields metadata_value_step (0, None);
  let '(request_id, value_bytes) := s in
  mret (FrameKind_MetadataValue request_id value_bytes).

(* wire/decode.rs Decoder::decode_metadata_keys *)
Definition metadata_keys_step (s : Z * list bytes) (id : Z) (value : bytes)
    : dresult (Z * list bytes) :=
  let '(request_id, keys) := s in
  if id =? metadata_keys_REQUEST_ID then x ← sub value read_u32_be; Ok (x, keys)
  else if id =? metadata_keys_KEYS then x ← sub value (read_list read_str); Ok (request_id, x)
  else Ok s.
(* wire/decode.rs Decoder::decode_metadata_keys *)
Definition decode_metadata_keys : M FrameKind :=
  s ← while_fields metadata_keys_step (0, []);
  let '(request_id, keys) := s in
  mret (FrameKind_MetadataKeys request_id keys).

(** The two arms of the dispatch that call [directory.rs]. *)
(* wire/decode.rs:398-405 Decoder::decode_body *)
Definition decode_list_directory_frame : M FrameKind :=
  x ← decode_list_directory;
  let '(request_id, path, host) := x in
  mret (FrameKind_ListDirectory request_id path host).
(* wire/decode.rs:406-409 Decoder::decode_body *)
Definition decode_directory_listing_frame : M FrameKind :=
  x ← decode_directory_listing;
  let '(request_id, result) := x in
  mret (FrameKind_DirectoryListing request_id result).

(** The local variables of [decode_spawn_terminal]. *)
(* wire/decode.rs Decoder::decode_spawn_terminal *)
Record SpawnFields : Type := mkSpawnFields {
  sp_request_id : Z;
  sp_group : Z;
  sp_command : option (list bytes);
  sp_cwd : option bytes;
  sp_env : option (list (bytes * bytes));
  sp_term : option bytes;
  sp_satellite : option bytes;
  sp_owner_terminal : option ResourceId;
  sp_agent_session : option bytes;
  sp_initial_size : option (Z * Z);
  sp_kind : ResourceKind;
  sp_parent : option ResourceId;
  sp_provider : option bytes;
  sp_native_id : option bytes;
  sp_bind_instance : bool
}.

(* wire/decode.rs Decoder::decode_spawn_terminal *)
Definition spawn_terminal_step (s : SpawnFields) (id : Z) (value : bytes) : dresult SpawnFields :=
  let '(mkSpawnFields request_id group command cwd env term satellite owner session size kind
          parent provider native_id bind_instance) := s in
  if id =? spawn_terminal_REQUEST_ID then
    x ← sub value read_u32_be;
    Ok (mkSpawnFields x group command cwd env term satellite owner session size kind
          parent provider native_id bind_instance)
  else if id =? spawn_terminal_GROUP then
    x ← sub value read_u32_be;
    Ok (mkSpawnFields request_id x command cwd env term satellite owner session size kind
          parent provider native_id bind_instance)
  else if id =? spawn_terminal_COMMAND then
    x ← sub value decode_string_list;
    Ok (mkSpawnFields request_id group (Some x) cwd env term satellite owner session size kind
          parent provider native_id bind_instance)
  else if id =? spawn_terminal_CWD then
    x ← from_utf8 value;
    Ok (mkSpawnFields request_id group command (Some x) env term satellite owner session size kind
          parent provider native_id bind_instance)
  else if id =? spawn_terminal_ENV then
    x ← sub value decode_env;
    Ok (mkSpawnFields request_id group command cwd (Some x) term satellite owner session size kind
          parent provider native_id bind_instance)
  else if id =? spawn_terminal_TERM then
    x ← from_utf8 value;
    Ok (mkSpawnFields request_id group command cwd env (Some x) satellite owner session size kind
          parent provider native_id bind_instance)
  else if id =? spawn_terminal_SATELLITE then
    x ← from_utf8 value;
    Ok (mkSpawnFields request_id group command cwd env term (Some x) owner session size kind
          parent provider native_id bind_instance)
  else if id =? spawn_terminal_OWNER_TERMINAL then
    x ← sub value decode_terminal_id;
    Ok (mkSpawnFields request_id group command cwd env term satellite (Some x) session size kind
          parent provider native_id bind_instance)
  else if id =? spawn_terminal_AGENT_SESSION then
    Ok (mkSpawnFields request_id group command cwd env term satellite owner (Some value) size kind
          parent provider native_id bind_instance)
  else if id =? spawn_terminal_INITIAL_SIZE then
    x ← sub value (cols ← read_u16_be; rows ← read_u16_be; mret (cols, rows));
    Ok (mkSpawnFields request_id group command cwd env term satellite owner session (Some x) kind
          parent provider native_id bind_instance)
  else if id =? spawn_terminal_KIND then
    x ← sub value read_u8;
    Ok (mkSpawnFields request_id group command cwd env term satellite owner session size
          (ResourceKind_from_wire x) parent provider native_id bind_instance)
  else if id =? spawn_terminal_PARENT then
    x ← sub value decode_terminal_id;
    Ok (mkSpawnFields request_id group command cwd env term satellite owner session size kind
          (Some x) provider native_id bind_instance)
  else if id =? spawn_terminal_PROVIDER then
    x ← decode_agent_facet_str value MAX_RESOURCE_PROVIDER_BYTES;
    Ok (mkSpawnFields request_id group command cwd env term satellite owner session size kind
          parent (Some x) native_id bind_instance)
  else if id =? spawn_terminal_NATIVE_ID then
    x ← decode_agent_facet_str value MAX_RESOURCE_NATIVE_ID_BYTES;
    Ok (mkSpawnFields request_id group command cwd env term satellite owner session size kind
          parent provider (Some x) bind_instance)
  else if id =? spawn_terminal_BIND_INSTANCE then
    x ← sub value decode_bind_instance;
    Ok (mkSpawnFields request_id group command cwd env term satellite owner session size kind
          parent provider native_id x)
  else Ok s.

(** The frame built from the fields: a default resource block is [None]. *)
(* wire/decode.rs:1643-1668 Decoder::decode_spawn_terminal *)
Definition spawn_frame (s : SpawnFields) : FrameKind :=
  let resource := mkSpawnResource (sp_kind s) (sp_parent s) (sp_provider s) (sp_native_id s)
                    (sp_bind_instance s) in
  FrameKind_SpawnResource (sp_request_id s) (sp_group s) (sp_command s) (sp_cwd s) (sp_env s)
    (sp_term s) (sp_satellite s) (sp_owner_terminal s) (sp_agent_session s) (sp_initial_size s)
    (if negb (SpawnResource_is_default resource) then Some resource else None).

(* wire/decode.rs Decoder::decode_spawn_terminal *)
Definition decode_spawn_terminal : M FrameKind :=
  s ← while_fields spawn_terminal_step
        (mkSpawnFields 0 0 None None None None None None None None ResourceKind_Terminal
           None None None false);
  let frame := spawn_frame s in
  _ ← lift (validate_spawn_for_kind frame);
  mret frame.

(** The local variables of [decode_hello_ok]. *)
(* wire/decode.rs Decoder::decode_hello_ok *)
Record HelloOkFields : Type := mkHelloOkFields {
  ho_major : option Z;
  ho_minor : option Z;
  ho_patch : option Z;
  ho_caps : option ServerCapabilities;
  ho_server_id : option bytes;
  ho_profile : option BootstrapProfile;
  ho_chunk : option Z;
  ho_page : option Z;
  ho_compression : option Compression
}.
(* wire/decode.rs Decoder::decode_hello_ok *)
Definition hello_ok_step (s : HelloOkFields) (id : Z) (value : bytes) : dresult HelloOkFields :=
  let '(mkHelloOkFields major minor patch caps server_id profile chunk page z) := s in
  if id =? hello_ok_PROTOCOL_MAJOR then
    x ← sub value read_u16_be;
    Ok (mkHelloOkFields (Some x) minor patch caps server_id profile chunk page z)
  else if id =? hello_ok_PROTOCOL_MINOR then
    x ← sub value read_u16_be;
    Ok (mkHelloOkFields major (Some x) patch caps server_id profile chunk page z)
  else if id =? hello_ok_PROTOCOL_PATCH then
    x ← sub value read_u16_be;
    Ok (mkHelloOkFields major minor (Some x) caps server_id profile chunk page z)
  else if id =? hello_ok_SERVER_CAPS then
    x ← sub value decode_server_capabilities;
    Ok (mkHelloOkFields major minor patch (Some x) server_id profile chunk page z)
  else if id =? hello_ok_SERVER_ID then
    Ok (mkHelloOkFields major minor patch caps (Some value) profile chunk page z)
  else if id =? hello_ok_SELECTED_PROFILE then
    x ← sub value decode_bootstrap_profile;
    Ok (mkHelloOkFields major minor patch caps server_id (Some x) chunk page z)
  else if id =? hello_ok_MAX_CHUNK_BYTES then
    x ← sub value read_u32_be;
    Ok (mkHelloOkFields major minor patch caps server_id profile (Some x) page z)
  else if id =? hello_ok_MAX_HISTORY_PAGE_BYTES then
    x ← sub value read_u32_be;
    Ok (mkHelloOkFields major minor patch caps server_id profile chunk (Some x) z)
  else if id =? hello_ok_COMPRESSION then
    x ← sub value read_u8;
    Ok (mkHelloOkFields major minor patch caps server_id profile chunk page (Some (from_wire_t x)))
  else Ok s.
(* wire/decode.rs Decoder::decode_hello_ok *)
Definition decode_hello_ok : M FrameKind :=
  s ← while_fields hello_ok_step
        (mkHelloOkFields None None None None None None None None None);
  bootstrap_limits ← lift (negotiated_bootstrap_limits (ho_chunk s) (ho_page s));
  caps ← lift (ok_or UnexpectedEof (ho_caps s));
  let caps :=
    match ho_compression s with
    | Some z => server_with_compression caps z
    | None => caps
    end in
  major ← lift (ok_or UnexpectedEof (ho_major s));
  minor ← lift (ok_or UnexpectedEof (ho_minor s));
  patch ← lift (ok_or UnexpectedEof (ho_patch s));
  server_id ← lift (ok_or UnexpectedEof (ho_server_id s));
  profile ← lift (ok_or UnexpectedEof (ho_profile s));
  mret (FrameKind_HelloOk major minor patch caps server_id profile bootstrap_limits).

(* wire/decode.rs Decoder::decode_terminal_spawned *)
Definition terminal_spawned_step (s : Z * option SpawnResult * option bytes)
    (id : Z) (value : bytes)
    : dresult (Z * option SpawnResult * option bytes) :=
  let '(request_id, result, instance) := s in
  if id =? terminal_spawned_REQUEST_ID then x ← sub value read_u32_be; Ok (x, result, instance)
  else if id =? terminal_spawned_RESULT then
    x ← sub value decode_spawn_result;
    Ok (request_id, Some x, instance)
  else if id =? terminal_spawned_INSTANCE then
    x ← sub value decode_server_instance;
    Ok (request_id, result, Some x)
  else Ok s.
(* wire/decode.rs Decoder::decode_terminal_spawned *)
Definition decode_terminal_spawned : M FrameKind :=
  s ← while_fields terminal_spawned_step (0, None, None);
  let '(request_id, result, instance) := s in
  result ← lift (ok_or UnexpectedEof result);
  mret (FrameKind_ResourceSpawned request_id (bind_spawn_result result instance)).

(* wire/decode.rs Decoder::decode_move_terminal *)
Definition move_terminal_step (s : Z * option ResourceId * option ResourceId)
    (id : Z) (value : bytes)
    : dresult (Z * option ResourceId * option ResourceId) :=
  let '(request_id, terminal, owner_terminal) := s in
  if id =? move_terminal_REQUEST_ID then
    x ← sub value read_u32_be;
    Ok (x, terminal, owner_terminal)
  else if id =? move_terminal_TERMINAL then
    x ← sub value decode_terminal_id;
    Ok (request_id, Some x, owner_terminal)
  else if id =? move_terminal_OWNER_TERMINAL then
    x ← sub value decode_terminal_id;
    Ok (request_id, terminal, Some x)
  else Ok s.
(* wire/decode.rs Decoder::decode_move_terminal *)
Definition decode_move_terminal : M FrameKind :=
  s ← while_fields move_terminal_step (0, None, None);
  let '(request_id, terminal, owner_terminal) := s in
  terminal ← lift (ok_or UnexpectedEof terminal);
  owner_terminal ← lift (ok_or UnexpectedEof owner_terminal);
  mret (FrameKind_MoveResource request_id terminal owner_terminal).

(* wire/decode.rs Decoder::decode_terminal_moved *)
Definition terminal_moved_step (s : Z * option MoveResult) (id : Z) (value : bytes)
    : dresult (Z * option MoveResult) :=
  let '(request_id, result) := s in
  if id =? terminal_moved_REQUEST_ID then x ← sub value read_u32_be; Ok (x, result)
  else if id =? terminal_moved_RESULT then
    x ← sub value decode_move_result;
    Ok (request_id, Some x)
  else Ok s.
(* wire/decode.rs Decoder::decode_terminal_moved *)
Definition decode_terminal_moved : M FrameKind :=
  s ← while_fields terminal_moved_step (0, None);
  let '(request_id, result) := s in
  result ← lift (ok_or UnexpectedEof result);
  mret (FrameKind_ResourceMoved request_id result).

(* wire/decode.rs Decoder::decode_terminal_closed *)
Definition terminal_closed_step (s : option ResourceId * option Z * CloseReason)
    (id : Z) (value : bytes)
    : dresult (option ResourceId * option Z * CloseReason) :=
  let '(terminal_id, exit_status, reason) := s in
  if id =? terminal_closed_TERMINAL_ID then
    x ← sub value decode_terminal_id;
    Ok (Some x, exit_status, reason)
  else if id =? terminal_closed_EXIT_STATUS then
    bits ← sub value read_u32_be;
    Ok (terminal_id, Some (to_signed 32 bits), reason)
  else if id =? terminal_closed_REASON then
    x ← sub value read_u8;
    Ok (terminal_id, exit_status, from_wire_t x)
  else Ok s.
(* wire/decode.rs Decoder::decode_terminal_closed *)
Definition decode_terminal_closed : M FrameKind :=
  s ← while_fields terminal_closed_step (None, None, CloseReason_Unknown);
  let '(terminal_id, exit_status, reason) := s in
  terminal_id ← lift (ok_or UnexpectedEof terminal_id);
  mret (FrameKind_ResourceClosed terminal_id exit_status reason).

(* wire/decode.rs Decoder::decode_terminal_resize *)
Definition terminal_resize_step (s : option ResourceId * Z * Z) (id : Z) (value : bytes)
    : dresult (option ResourceId * Z * Z) :=
  let '(terminal_id, cols, rows) := s in
  if id =? terminal_resize_TERMINAL_ID then
    x ← sub value decode_terminal_id;
    Ok (Some x, cols, rows)
  else if id =? terminal_resize_COLS then x ← sub value read_u16_be; Ok (terminal_id, x, rows)
  else if id =? terminal_resize_ROWS then x ← sub value read_u16_be; Ok (terminal_id, cols, x)
  else Ok s.
(* wire/decode.rs Decoder::decode_terminal_resize *)
Definition decode_terminal_resize : M FrameKind :=
  s ← while_fields terminal_resize_step (None, 0, 0);
  let '(terminal_id, cols, rows) := s in
  terminal_id ← lift (ok_or UnexpectedEof terminal_id);
  mret (FrameKind_ResizeTerminal terminal_id cols rows).

(* wire/decode.rs Decoder::decode_command *)
Definition command_frame_step (s : Z * option Command) (id : Z) (value : bytes)
    : dresult (Z * option Command) :=
  let '(request_id, command) := s in
  if id =? command_REQUEST_ID then x ← sub value read_u32_be; Ok (x, command)
  else if id =? command_COMMAND then x ← sub value decode_command; Ok (request_id, Some x)
  else Ok s.
(* wire/decode.rs Decoder::decode_command *)
Definition decode_command_frame : M FrameKind :=
  s ← while_fields command_frame_step (0, None);
  let '(request_id, command) := s in
  command ← lift (ok_or UnexpectedEof command);
  mret (FrameKind_Command request_id command).

(* wire/decode.rs Decoder::decode_subscribe_events *)
Definition subscribe_events_step (terminal : option ResourceId) (id : Z) (value : bytes)
    : dresult (option ResourceId) :=
  if id =? subscribe_events_TERMINAL then x ← sub value decode_terminal_id; Ok (Some x)
  else Ok terminal.
(* wire/decode.rs Decoder::decode_subscribe_events *)
Definition decode_subscribe_events : M FrameKind :=
  terminal ← while_fields subscribe_events_step None;
  mret (FrameKind_SubscribeEvents terminal).

(* wire/decode.rs Decoder::decode_event *)
Definition event_step (s : option ResourceId * option AgentEvent) (id : Z) (value : bytes)
    : dresult (option ResourceId * option AgentEvent) :=
  let '(terminal, event) := s in
  if id =? event_TERMINAL then x ← sub value decode_terminal_id; Ok (Some x, event)
  else if id =? event_EVENT then x ← sub value decode_agent_event; Ok (terminal, Some x)
  else Ok s.
(* wire/decode.rs Decoder::decode_event *)
Definition decode_event : M FrameKind :=
  s ← while_fields event_step (None, None);
  let '(terminal, event) := s in
  event ← lift (ok_or UnexpectedEof event);
  mret (FrameKind_Event terminal event).

(* wire/decode.rs:584-594 Decoder::max_compressed_frame_bytes *)
Definition ENVELOPE_ALLOWANCE : Z := 64 * 1024.
(* wire/decode.rs Decoder::max_compressed_frame_bytes *)
Definition max_compressed_frame_bytes (d : Decoder) : Z :=
  let m := Z.max (max_bootstrap_chunk_bytes d) (max_history_page_bytes d) in
  Z.min (Z.min (m + ENVELOPE_ALLOWANCE) u32_max) MAX_FRAME_LEN.

Section Decode.
Context `{RJ : ReportJson} `{IT : IpText} `{FL : Flate}.

(** The local variables of [decode_hello]. *)
(* wire/decode.rs Decoder::decode_hello *)
Record HelloFields : Type := mkHelloFields {
  he_name : option bytes;
  he_major : option Z;
  he_minor : option Z;
  he_patch : option Z;
  he_caps : option ClientCapabilities;
  he_compression : option Z;
  he_origin : option SshOrigin
}.
(* wire/decode.rs Decoder::decode_hello *)
Definition hello_step (s : HelloFields) (id : Z) (value : bytes) : dresult HelloFields :=
  let '(mkHelloFields name major minor patch caps z origin) := s in
  if id =? hello_CLIENT_NAME then
    x ← from_utf8 value; Ok (mkHelloFields (Some x) major minor patch caps z origin)
  else if id =? hello_PROTOCOL_MAJOR then
    x ← sub value read_u16_be; Ok (mkHelloFields name (Some x) minor patch caps z origin)
  else if id =? hello_PROTOCOL_MINOR then
    x ← sub value read_u16_be; Ok (mkHelloFields name major (Some x) patch caps z origin)
  else if id =? hello_PROTOCOL_PATCH then
    x ← sub value read_u16_be; Ok (mkHelloFields name major minor (Some x) caps z origin)
  else if id =? hello_CLIENT_CAPS then
    x ← sub value decode_client_capabilities;
    Ok (mkHelloFields name major minor patch (Some x) z origin)
  else if id =? hello_COMPRESSION then
    x ← sub value read_u8; Ok (mkHelloFields name major minor patch caps (Some x) origin)
  else if id =? hello_SSH_ORIGIN then
    Ok (mkHelloFields name major minor patch caps z (decode_ssh_origin value))
  else Ok s.
(* wire/decode.rs Decoder::decode_hello *)
Definition decode_hello : M FrameKind :=
  s ← while_fields hello_step (mkHelloFields None None None None None None None);
  caps ← lift (ok_or UnexpectedEof (he_caps s));
  let caps := match he_origin s with Some o => with_ssh_origin caps o | None => caps end in
  let caps := match he_compression s with Some z => with_compression caps z | None => caps end in
  name ← lift (ok_or UnexpectedEof (he_name s));
  major ← lift (ok_or UnexpectedEof (he_major s));
  minor ← lift (ok_or UnexpectedEof (he_minor s));
  patch ← lift (ok_or UnexpectedEof (he_patch s));
  mret (FrameKind_Hello name major minor patch caps).

(* wire/decode.rs Decoder::decode_attached *)
Definition attached_step (s : option SessionSnapshot * option Z * option Z)
    (id : Z) (value : bytes)
    : dresult (option SessionSnapshot * option Z * option Z) :=
  let '(snapshot, initial_client_id, attach_id) := s in
  if id =? attached_SNAPSHOT then
    x ← sub value decode_session_snapshot;
    Ok (Some x, initial_client_id, attach_id)
  else if id =? attached_INITIAL_CLIENT_ID then
    x ← sub value decode_client_id;
    Ok (snapshot, Some x, attach_id)
  else if id =? attached_ATTACH_ID then
    x ← sub value read_u32_be;
    Ok (snapshot, initial_client_id, Some x)
  else Ok s.
(* wire/decode.rs Decoder::decode_attached *)
Definition decode_attached : M FrameKind :=
  s ← while_fields attached_step (None, None, None);
  let '(snapshot, initial_client_id, attach_id) := s in
  attach_id ← lift (ok_or UnexpectedEof attach_id);
  snapshot ← lift (ok_or UnexpectedEof snapshot);
  initial_client_id ← lift (ok_or UnexpectedEof initial_client_id);
  mret (FrameKind_Attached attach_id snapshot initial_client_id).

(* wire/decode.rs Decoder::decode_command_result *)
Definition command_result_frame_step (s : Z * option CommandResult) (id : Z) (value : bytes)
    : dresult (Z * option CommandResult) :=
  let '(request_id, result) := s in
  if id =? command_result_REQUEST_ID then x ← sub value read_u32_be; Ok (x, result)
  else if id =? command_result_RESULT then
    x ← sub value decode_command_result;
    Ok (request_id, Some x)
  else Ok s.
(* wire/decode.rs Decoder::decode_command_result *)
Definition decode_command_result_frame : M FrameKind :=
  s ← while_fields command_result_frame_step (0, None);
  let '(request_id, result) := s in
  result ← lift (ok_or UnexpectedEof result);
  mret (FrameKind_CommandResult request_id result).

(** ** Dispatch *)

(* wire/decode.rs:597-613 Decoder::decode_frame_compressed *)
Definition frame_compressed_step (s : option Compression * option Z * option bytes) (id : Z)
    (value : bytes) : dresult (option Compression * option Z * option bytes) :=
  let '(algorithm, uncompressed_len, payload) := s in
  if id =? frame_compressed_ALGORITHM then
    x ← sub value read_u8; Ok (Some (from_wire_t x), uncompressed_len, payload)
  else if id =? frame_compressed_UNCOMPRESSED_LEN then
    x ← sub value read_u32_be; Ok (algorithm, Some x, payload)
  else if id =? frame_compressed_PAYLOAD then Ok (algorithm, uncompressed_len, Some value)
  else Ok s.

(** The catalog dispatch, over the decoder it calls for a [FRAME_COMPRESSED] body:
    [decode_body] and [decode_frame_compressed] call each other in the source. *)
(* wire/decode.rs Decoder::decode_body *)
Definition catalog_body (decode_frame_compressed : M FrameKind) (type_byte : Z) : M FrameKind :=
  if type_byte =? TYPE_HELLO then decode_hello
  else if type_byte =? TYPE_HELLO_OK then decode_hello_ok
  else if type_byte =? TYPE_PING then decode_ping
  else if type_byte =? TYPE_PONG then decode_pong
  else if type_byte =? TYPE_RESOURCE_OUTPUT then decode_terminal_output
  else if type_byte =? TYPE_ATTACH then decode_attach
  else if type_byte =? TYPE_DETACH then decode_detach
  else if type_byte =? TYPE_INPUT_KEY then decode_input_key
  else if type_byte =? TYPE_INPUT_MOUSE then decode_input_mouse
  else if type_byte =? TYPE_INPUT_FOCUS then decode_input_focus
  else if type_byte =? TYPE_INPUT_PASTE then decode_input_paste
  else if type_byte =? TYPE_INPUT_TERMINAL_REPLY then decode_input_terminal_reply
  else if type_byte =? TYPE_FRAME_ACK then decode_frame_ack
  else if type_byte =? TYPE_VIEWPORT_RESIZE then decode_viewport_resize
  else if type_byte =? TYPE_ATTACHED then decode_attached
  else if type_byte =? TYPE_ATTACH_READY then decode_attach_ready
  else if type_byte =? TYPE_BOOTSTRAP_BEGIN then decode_bootstrap_begin
  else if type_byte =? TYPE_BOOTSTRAP_CHUNK then decode_bootstrap_chunk
  else if type_byte =? TYPE_BOOTSTRAP_READY then decode_bootstrap_ready
  else if type_byte =? TYPE_HISTORY_REQUEST then decode_history_request
  else if type_byte =? TYPE_HISTORY_PAGE then decode_history_page
  else if type_byte =? TYPE_BOOTSTRAP_TOMBSTONE then decode_bootstrap_tombstone
  else if type_byte =? TYPE_HISTORY_TOMBSTONE then decode_history_tombstone
  else if type_byte =? TYPE_HISTORY_REJECTED then decode_history_rejected
  else if type_byte =? TYPE_FRAME_COMPRESSED then decode_frame_compressed
  else if type_byte =? TYPE_DETACHED then decode_detached
  else if type_byte =? TYPE_BELL then decode_bell
  else if type_byte =? TYPE_ERROR then decode_error
  else if type_byte =? TYPE_GET_METADATA then decode_get_metadata
  else if type_byte =? TYPE_SET_METADATA then decode_set_metadata
  else if type_byte =? TYPE_DELETE_METADATA then decode_delete_metadata
  else if type_byte =? TYPE_LIST_METADATA then decode_list_metadata
  else if type_byte =? TYPE_SUBSCRIBE_METADATA then decode_subscribe_metadata
  else if type_byte =? TYPE_METADATA_CHANGED then decode_metadata_changed
  else if type_byte =? TYPE_METADATA_VALUE then decode_metadata_value
  else if type_byte =? TYPE_METADATA_KEYS then decode_metadata_keys
  else if type_byte =? TYPE_LIST_DIRECTORY then decode_list_directory_frame
  else if type_byte =? TYPE_DIRECTORY_LISTING then decode_directory_listing_frame
  else if type_byte =? TYPE_SPAWN_RESOURCE then decode_spawn_terminal
  else if type_byte =? TYPE_RESOURCE_SPAWNED then decode_terminal_spawned
  else if type_byte =? TYPE_MOVE_RESOURCE then decode_move_terminal
  else if type_byte =? TYPE_RESOURCE_MOVED then decode_terminal_moved
  else if type_byte =? TYPE_RESOURCE_CLOSED then decode_terminal_closed
  else if type_byte =? TYPE_RESIZE_TERMINAL then decode_terminal_resize
  else if type_byte =? TYPE_COMMAND then decode_command_frame
  else if type_byte =? TYPE_COMMAND_RESULT then decode_command_result_frame
  else if type_byte =? TYPE_SUBSCRIBE_EVENTS then decode_subscribe_events
  else if type_byte =? TYPE_EVENT then decode_event
  else fail (UnknownFrameKind type_byte).

(** The decoder of the inflated body: the limits of the connection, and the end of the
    buffer as the end of the body. *)
(* wire/decode.rs:625-632 Decoder::decode_frame_compressed *)
Definition inner_decoder (self : Decoder) (body : bytes) : Decoder :=
  let l := default BootstrapLimits_default
             (BootstrapLimits_new (max_bootstrap_chunk_bytes self) (max_history_page_bytes self)) in
  mkDecoder body 0 (Some (length body)) (max_chunk_bytes l) (max_page_bytes l).

(** The body decoder of an envelope, over the dispatch it hands the inner frame to. *)
(* wire/decode.rs Decoder::decode_frame_compressed *)
Definition frame_compressed_with (decode_body : Z -> M FrameKind) : M FrameKind :=
  self ← get;
  s ← while_fields frame_compressed_step (None, None, None);
  let '(algorithm, uncompressed_len, payload) := s in
  algorithm ← lift (ok_or UnexpectedEof algorithm);
  _ ← lift (match algorithm with
            | Compression_Deflate => Ok tt
            | _ => Err CompressedFrameInvalid
            end);
  declared ← lift (ok_or UnexpectedEof uncompressed_len);
  if (declared =? 0) || (max_compressed_frame_bytes self <? declared) then fail LengthOverflow
  else
    payload ← lift (ok_or UnexpectedEof payload);
    body ← lift (inflate payload declared);
    lift (match read_u8 (inner_decoder self body) with
          | Err e => Err e
          | Ok (type_byte, inner) =>
              if type_byte =? TYPE_FRAME_COMPRESSED then Err CompressedFrameInvalid
              else match decode_body type_byte inner with Ok (f, _) => Ok f | Err e => Err e end
          end).

(** The inner dispatch never sees an envelope, so the recursion is one level deep
    (lemma [decode_frame_compressed_eq] ties the knot as the source writes it). *)
(* wire/decode.rs Decoder::decode_frame_compressed *)
Definition decode_frame_compressed : M FrameKind :=
  frame_compressed_with (catalog_body (fail CompressedFrameInvalid)).

(* wire/decode.rs Decoder::decode_body *)
Definition decode_body (type_byte : Z) : M FrameKind :=
  catalog_body decode_frame_compressed type_byte.

(* wire/decode.rs Decoder::read_frame *)
Definition read_frame (d : Decoder) : dresult (FrameKind * bytes) :=
  '(length, d) ← read_u32_be d;
  if negb ((1 <=? length) && (length <=? MAX_FRAME_LEN)) then Err LengthOverflow
  else
    body_end ← ok_or LengthOverflow (checked_add_usize (Z.of_nat (pos d)) length);
    if len (input d) <? body_end then Err UnexpectedEof
    else
      let body_end := Z.to_nat body_end in
      let d := mkDecoder (input d) (pos d) (Some body_end) (max_bootstrap_chunk_bytes d)
                 (max_history_page_bytes d) in
      '(type_byte, d) ← read_u8 d;
      '(frame, d) ← decode_body type_byte d;
      if (body_end <? pos d)%nat then Err LengthOverflow
      else Ok (frame, remaining (set_pos body_end d)).

(* wire/frame/kind.rs FrameKind::decode *)
Definition decode (input : bytes) : dresult (FrameKind * bytes) := read_frame (Decoder_new input).

(* wire/frame/kind.rs FrameKind::decode_with_limits *)
Definition decode_with_limits (input : bytes) (l : BootstrapLimits)
    : dresult (FrameKind * bytes) :=
  read_frame (Decoder_with_bootstrap_limits input l).

End Decode.
