(* ===== verification/FrameProofs.v ===== *)
(** * The frame codec round trip

    [wf_frame] says which values are real frames: the invariants of the Rust types
    and the bounds every conforming sender respects. [decode_encode] in the last
    section is the round trip of the whole catalog. *)

From S2P Require Import Prelude Wire Fields Enums Ids Caps Codec Info Command Directory SshOrigin.
From S2P Require Import Compress Frame FrameDecode.

(** ** Well-formed frames *)

Definition wf_color (c : TerminalColor) : bool := u8b (color_r c) && u8b (color_g c) && u8b (color_b c).
Definition wf_default_colors (c : TerminalDefaultColors) : bool :=
  wf_color (foreground c) && wf_color (background c).

(** The bitset newtypes only hold bits their type knows. *)
Definition wf_layers (s : Z) : bool := LayerSet_from_wire s =? s.
Definition wf_bootstrap_caps (b : BootstrapCapabilities) : bool :=
  (BootstrapProfileSet_from_wire (profiles b) =? profiles b)
  && (EngineCodecSet_from_wire (native_codecs b) =? native_codecs b)
  && (EngineFeatureSet_from_wire (native_features b) =? native_features b)
  && wf_limits (limits b).
Definition wf_client_caps (c : ClientCapabilities) : bool :=
  wf_layers (layers c)
  && (ImageProtocolSet_from_wire (image_protocols c) =? image_protocols c)
  && (KeyboardProtocolSet_from_wire (kbd_protocols c) =? kbd_protocols c)
  && wf_opt wf_default_colors (default_colors c)
  && wf_bootstrap_caps (bootstrap c) && u8b (compression c) && wf_opt wf_origin (ssh_origin c).
Definition wf_server_caps (c : ServerCapabilities) : bool :=
  wf_layers (server_layers c)
  && (ServerFeatureSet_from_wire (server_features c) =? server_features c).

(** The ids shared by the replica-stream frames. *)
Definition wf_stream (t : ResourceId) (stream_id bootstrap_id : Z) : bool :=
  wf_ResourceId t && wf_StreamId stream_id && wf_StreamId bootstrap_id.
Definition wf_cursor (c : bytes) : bool := is_bytes c && (len c <=? MAX_HISTORY_CURSOR_BYTES).
Definition wf_facet_str (max : Z) (s : bytes) : bool :=
  negb (is_nil s) && (len s <=? max) && wf_str s.
Definition wf_spawn_block (r : SpawnResource) : bool :=
  wf_ResourceKind (spawn_kind r) && wf_opt wf_ResourceId (spawn_parent r)
  && wf_opt (wf_facet_str MAX_RESOURCE_PROVIDER_BYTES) (spawn_provider r)
  && wf_opt (wf_facet_str MAX_RESOURCE_NATIVE_ID_BYTES) (spawn_native_id r)
  && negb (SpawnResource_is_default r).
Definition wf_size (s : Z * Z) : bool := u16b s.1 && u16b s.2.
Definition wf_env (l : list (bytes * bytes)) : bool :=
  forallb (fun kv => wf_str kv.1 && wf_str kv.2) l.

(** [l] are the payload limits of the connection. *)
Definition wf_frame (l : BootstrapLimits) (f : FrameKind) : bool :=
  match f with
  | FrameKind_Hello name major minor patch caps =>
      wf_str name && u16b major && u16b minor && u16b patch && wf_client_caps caps
  | FrameKind_HelloOk major minor patch caps server_id profile limits =>
      u16b major && u16b minor && u16b patch && wf_server_caps caps && is_bytes server_id
      && wf_profile profile && wf_limits limits
  | FrameKind_Ping nonce | FrameKind_Pong nonce => u64b nonce
  | FrameKind_ResourceOutput t s b seq payload => wf_stream t s b && u64b seq && is_bytes payload
  | FrameKind_Attach id target viewport _ limit =>
      u32b id && wf_attach_target target && wf_viewport viewport && u32b limit
  | FrameKind_Detach => true
  | FrameKind_InputKey t e => wf_ResourceId t && wf_key_event e
  | FrameKind_InputMouse t e => wf_ResourceId t && wf_mouse_event e
  | FrameKind_InputFocus t _ => wf_ResourceId t
  | FrameKind_InputPaste t e => wf_ResourceId t && wf_paste_event e
  | FrameKind_InputTerminalReply t payload =>
      wf_ResourceId t && is_bytes payload && negb (is_nil payload)
      && (len payload <=? MAX_INPUT_TERMINAL_REPLY_BYTES)
  | FrameKind_FrameAck t s b seq => wf_stream t s b && u64b seq
  | FrameKind_ViewportResize v => wf_viewport v
  | FrameKind_Attached id snapshot client => u32b id && wf_snapshot snapshot && u32b client
  | FrameKind_AttachReady id => u32b id
  | FrameKind_Detached _ message => wf_str message
  | FrameKind_BootstrapBegin t s b profile cols rows base_seq =>
      wf_stream t s b && u16b cols && u16b rows && u64b base_seq
      && is_ok (checked_bootstrap_dimensions profile (Some cols) (Some rows))
  | FrameKind_BootstrapChunk t s b seq payload =>
      wf_stream t s b && u32b seq && is_bytes payload && (len payload <=? max_chunk_bytes l)
  | FrameKind_BootstrapReady t s b cursor => wf_stream t s b && wf_opt wf_cursor cursor
  | FrameKind_HistoryRequest t s b cursor max_bytes max_rows =>
      wf_stream t s b && wf_cursor cursor && u32b max_bytes && u32b max_rows
  | FrameKind_HistoryPage t s b page_seq cursor next payload rows =>
      wf_stream t s b && u64b page_seq && nonzero page_seq && wf_cursor cursor
      && wf_opt wf_cursor next && is_bytes payload && (len payload <=? max_page_bytes l)
      && u32b rows && (rows <=? MAX_HISTORY_PAGE_ROWS)
  | FrameKind_BootstrapTombstone t s b _ seq => wf_stream t s b && u64b seq
  | FrameKind_HistoryTombstone t s b cursor _ => wf_stream t s b && wf_cursor cursor
  | FrameKind_HistoryRejected t s b cursor _ rb rr =>
      wf_stream t s b && wf_cursor cursor && (1 <=? rb) && (rb <=? max_page_bytes l) && u32b rb
      && (1 <=? rr) && (rr <=? MAX_HISTORY_PAGE_ROWS)
  | FrameKind_Bell t => wf_ResourceId t
  | FrameKind_Error id _ message => wf_opt u32b id && wf_str message
  | FrameKind_GetMetadata id scope key | FrameKind_DeleteMetadata id scope key =>
      u32b id && wf_scope scope && wf_str key
  | FrameKind_SetMetadata id scope key value =>
      u32b id && wf_scope scope && wf_str key && is_bytes value
  | FrameKind_ListMetadata id scope => u32b id && wf_scope scope
  | FrameKind_SubscribeMetadata scope key => wf_scope scope && wf_str key
  | FrameKind_MetadataChanged scope key value => wf_scope scope && wf_str key && wf_opt is_bytes value
  | FrameKind_MetadataValue id value => u32b id && wf_opt is_bytes value
  | FrameKind_MetadataKeys id keys => u32b id && wf_strs keys
  | FrameKind_ListDirectory id path host => u32b id && wf_str path && wf_opt wf_str host
  | FrameKind_DirectoryListing id r => u32b id && wf_listing_result r
  | FrameKind_SpawnResource id group command cwd env term satellite owner session size resource =>
      u32b id && u32b group && wf_opt wf_strs command && wf_opt wf_str cwd && wf_opt wf_env env
      && wf_opt wf_str term && wf_opt wf_str satellite && wf_opt wf_ResourceId owner
      && wf_opt is_bytes session && wf_opt wf_size size && wf_opt wf_spawn_block resource
      && is_ok (validate_spawn_for_kind f)
  | FrameKind_ResourceSpawned id r => u32b id && wf_spawn_result r
  | FrameKind_MoveResource id t o => u32b id && wf_ResourceId t && wf_ResourceId o
  | FrameKind_ResourceMoved id r => u32b id && wf_move_result r
  | FrameKind_ResourceClosed t status _ => wf_ResourceId t && wf_opt i32b status
  | FrameKind_ResizeTerminal t cols rows => wf_ResourceId t && u16b cols && u16b rows
  | FrameKind_Command id c => u32b id && wf_command c
  | FrameKind_CommandResult id r => u32b id && wf_command_result r
  | FrameKind_SubscribeEvents t => wf_opt wf_ResourceId t
  | FrameKind_Event t e => wf_opt wf_ResourceId t && wf_agent_event e
  end.

(** ** Reading under the connection's limits *)

Definition has_limits (l : BootstrapLimits) (d : Decoder) : Prop :=
  max_bootstrap_chunk_bytes d = max_chunk_bytes l /\ max_history_page_bytes d = max_page_bytes l.

Definition reads_at {A} (l : BootstrapLimits) (m : M A) (bs : bytes) (a : A) : Prop :=
  forall d tl, has_limits l d -> len bs <= MAX_FRAME_LEN -> dec_ok d -> remaining d = bs ++ tl ->
    body_limit d = (pos d + length bs)%nat -> m d = Ok (a, advance (length bs) d).

Lemma reads_at_body {A} l (m : M A) bs a : reads_body m bs a -> reads_at l m bs a.
Proof. intros H d tl _ ????. by eapply H. Qed.

Lemma reads_at_get {A} l (k : Decoder -> M A) bs a :
  (forall d, has_limits l d -> reads_body (k d) bs a) -> reads_at l (get ≫= k) bs a.
Proof. intros H d tl Hd ????. unfold mbind, M_bind, get. by eapply H. Qed.

Lemma reads_at_bind_ret {A B} l (m : M A) (k : A -> M B) bs a b :
  reads_body m bs a -> reads_at l (k a) [] b -> reads_at l (m ≫= k) bs b.
Proof.
  intros Hm Hk d tl Hd Hl Ho Hr He. unfold mbind, M_bind. erewrite Hm by eauto.
  rewrite (Hk _ tl); [by rewrite advance_advance, Nat.add_0_r|done|done| | |].
  - by eapply dec_ok_advance.
  - by erewrite remaining_advance.
  - unfold body_limit in *; simpl. lia.
Qed.

(** The assembly after the loop: required fields that are present. *)
Ltac assemble :=
  cbv beta iota zeta; cbn [ok_or fst snd];
  repeat (first [eapply reads_bind_lift; [reflexivity|] | apply reads_ret]; cbv beta iota zeta; cbn [ok_or]).

(** A decoder that is a loop over TLV fields. *)
Ltac body_fields step :=
  eapply reads_body_fields; [repeat rf_field step; try apply rf_nil | try solve [assemble]].

#[export] Hint Resolve reads_client_id : reads.

Section Simple.
Context (t : ResourceId) (s b : Z) (Hs : wf_stream t s b = true).

Lemma wf_stream_t : wf_ResourceId t = true.
Proof. unfold wf_stream in Hs. by split_bools. Qed.
Lemma wf_stream_s : wf_StreamId s = true.
Proof. unfold wf_stream in Hs. by split_bools. Qed.
Lemma wf_stream_b : wf_StreamId b = true.
Proof. unfold wf_stream in Hs. by split_bools. Qed.
End Simple.
#[export] Hint Resolve wf_stream_t wf_stream_s wf_stream_b : reads.

Lemma reads_ping n : u64b n = true -> reads_body decode_ping (encode_nonce n) (FrameKind_Ping n).
Proof. intros. unfold decode_ping, encode_nonce. body_fields ping_step. Qed.
Lemma reads_pong n : u64b n = true -> reads_body decode_pong (encode_nonce n) (FrameKind_Pong n).
Proof. intros. unfold decode_pong, encode_nonce. body_fields pong_step. Qed.

Lemma reads_terminal_output t s b seq p :
  wf_stream t s b = true -> u64b seq = true ->
  reads_body decode_terminal_output (encode_terminal_output t s b seq p)
    (FrameKind_ResourceOutput t s b seq p).
Proof.
  intros. unfold decode_terminal_output, encode_terminal_output. body_fields terminal_output_step.
Qed.

Lemma reads_attach id target v scroll limit :
  u32b id = true -> wf_attach_target target = true -> wf_viewport v = true -> u32b limit = true ->
  reads_body decode_attach (encode_attach id target v scroll limit)
    (FrameKind_Attach id target v scroll limit).
Proof.
  intros. unfold decode_attach, encode_attach. body_fields attach_step.
  rewrite nonzero_b2z. assemble.
Qed.

Lemma reads_detach : reads_body decode_detach [] FrameKind_Detach.
Proof. eapply reads_body_fields; [apply rf_nil | apply reads_ret]. Qed.

Lemma reads_input_key t e :
  wf_ResourceId t = true -> wf_key_event e = true ->
  reads_body decode_input_key (encode_input_key t e) (FrameKind_InputKey t e).
Proof. intros. unfold decode_input_key, encode_input_key. body_fields input_key_step. Qed.
Lemma reads_input_mouse t e :
  wf_ResourceId t = true -> wf_mouse_event e = true ->
  reads_body decode_input_mouse (encode_input_mouse t e) (FrameKind_InputMouse t e).
Proof. intros. unfold decode_input_mouse, encode_input_mouse. body_fields input_mouse_step. Qed.
Lemma reads_input_focus t e :
  wf_ResourceId t = true ->
  reads_body decode_input_focus (encode_input_focus t e) (FrameKind_InputFocus t e).
Proof.
  intros. unfold decode_input_focus, encode_input_focus, encode_focus_event.
  eapply reads_body_fields; [rf_field input_focus_step|].
  - eapply rf_one; [done|]. intros ?. unfold input_focus_step. rf_value.
    unfold decode_focus_event. by rewrite enum_of_to_wire.
  - assemble.
Qed.
Lemma reads_input_paste t e :
  wf_ResourceId t = true ->
  reads_body decode_input_paste (encode_input_paste t e) (FrameKind_InputPaste t e).
Proof. intros. unfold decode_input_paste, encode_input_paste. body_fields input_paste_step. Qed.

Lemma reads_input_terminal_reply t p :
  wf_ResourceId t = true -> is_nil p = false -> len p <= MAX_INPUT_TERMINAL_REPLY_BYTES ->
  reads_body decode_input_terminal_reply (encode_input_terminal_reply t p)
    (FrameKind_InputTerminalReply t p).
Proof.
  intros ? Hn Hl. unfold decode_input_terminal_reply, encode_input_terminal_reply.
  eapply reads_body_fields; [rf_field input_terminal_reply_step|].
  - eapply rf_one; [done|]. intros ?. unfold input_terminal_reply_step. rf_value.
    rewrite Hn, (proj2 (Z.ltb_ge _ _)) by lia. reflexivity.
  - assemble.
Qed.

Lemma reads_frame_ack t s b seq :
  wf_stream t s b = true -> u64b seq = true ->
  reads_body decode_frame_ack (encode_frame_ack t s b seq) (FrameKind_FrameAck t s b seq).
Proof. intros. unfold decode_frame_ack, encode_frame_ack. body_fields frame_ack_step. Qed.

Lemma reads_viewport_resize v :
  wf_viewport v = true ->
  reads_body decode_viewport_resize (encode_viewport_resize v) (FrameKind_ViewportResize v).
Proof. intros. unfold decode_viewport_resize, encode_viewport_resize. body_fields viewport_resize_step. Qed.

Lemma reads_attach_ready id :
  u32b id = true -> reads_body decode_attach_ready (encode_attach_ready id) (FrameKind_AttachReady id).
Proof. intros. unfold decode_attach_ready, encode_attach_ready. body_fields attach_ready_step. Qed.

Lemma is_nil_inv {A} (l : list A) : is_nil l = true -> l = [].
Proof. by destruct l. Qed.

Lemma reads_detached r m :
  wf_str m = true -> reads_body decode_detached (encode_detached r m) (FrameKind_Detached r m).
Proof.
  intros. unfold decode_detached, encode_detached.
  apply reads_body_fields with (s' := (r, if is_nil m then None else Some m)).
  - apply (rf_opt _ (fun o => (o, None)) r (fun r => write_u8 (to_wire r))); [done| |].
    + intros x -> ?. unfold detached_step. rf_value. by rewrite from_to_wire.
    + destruct (is_nil m); [constructor|]. eapply rf_one; [done|]. intros _.
      unfold detached_step. rf_value.
  - cbn [fst snd]. destruct (is_nil m) eqn:E; [apply is_nil_inv in E as ->|]; apply reads_ret.
Qed.

Lemma decode_stream_profile_ok p :
  decode_bootstrap_stream_profile (stream_profile_parts p).1 (to_wire_t (stream_profile_parts p).2)
    = Ok p.
Proof. by destruct p as [[]| | |]. Qed.

Lemma checked_dimensions_inv p c r g :
  checked_bootstrap_dimensions p (Some c) (Some r) = Ok g -> g = (c, r).
Proof. unfold checked_bootstrap_dimensions; cbn. case_match; congruence. Qed.

Lemma reads_bootstrap_begin t s b p c r q :
  wf_stream t s b = true -> u16b c = true -> u16b r = true -> u64b q = true ->
  is_ok (checked_bootstrap_dimensions p (Some c) (Some r)) = true ->
  reads_body decode_bootstrap_begin
    (encode_bootstrap_begin_stream t s b ++ encode_bootstrap_begin_profile p c r q)
    (FrameKind_BootstrapBegin t s b p c r q).
Proof.
  intros ???? Hd. unfold decode_bootstrap_begin, encode_bootstrap_begin_stream,
    encode_bootstrap_begin_profile.
  pose proof (decode_stream_profile_ok p) as Hp.
  destruct (stream_profile_parts p) as [codec mode]. cbn [fst snd] in Hp. rewrite <- !app_assoc.
  eapply reads_body_fields; [repeat rf_field bootstrap_begin_step|].
  cbv beta iota zeta; cbn [ok_or].
  do 2 (eapply reads_bind_lift; [reflexivity|]). eapply reads_bind_lift; [exact Hp|].
  destruct (checked_bootstrap_dimensions p (Some c) (Some r)) as [g|] eqn:E; [|done].
  apply checked_dimensions_inv in E as ->. assemble.
Qed.

Lemma cursor_ok c : wf_cursor c = true -> checked_history_cursor c = Ok c.
Proof.
  intros [_ H%Z.leb_le]%andb_true_iff. unfold checked_history_cursor.
  by rewrite (proj2 (Z.ltb_ge _ _)).
Qed.

Lemma reads_bootstrap_ready t s b c :
  wf_stream t s b = true -> wf_opt wf_cursor c = true ->
  reads_body decode_bootstrap_ready (encode_bootstrap_ready t s b c) (FrameKind_BootstrapReady t s b c).
Proof.
  intros. unfold decode_bootstrap_ready, encode_bootstrap_ready.
  eapply reads_body_fields; [do 3 rf_field bootstrap_ready_step|].
  - apply (rf_opt_one _ (fun o => (Some t, Some s, Some b, o)) c (fun x => x)); [done|].
    intros x -> _. unfold bootstrap_ready_step. rf_value. by rewrite cursor_ok.
  - assemble.
Qed.

(** [rf_value] for a field whose value is a checked cursor. *)
Ltac rf_cursor step :=
  eapply rf_cons; [reflexivity | intros ?; unfold step; rf_value; rewrite cursor_ok by assumption; reflexivity |].

Lemma reads_history_request t s b c mb mr :
  wf_stream t s b = true -> wf_cursor c = true -> u32b mb = true -> u32b mr = true ->
  reads_body decode_history_request (encode_history_request t s b c mb mr)
    (FrameKind_HistoryRequest t s b c mb mr).
Proof.
  intros. unfold decode_history_request, encode_history_request.
  eapply reads_body_fields; [do 3 rf_field history_request_step|].
  - rf_cursor history_request_step. repeat rf_field history_request_step.
  - assemble.
Qed.

Lemma reads_bootstrap_chunk l t s b q p :
  wf_stream t s b = true -> u32b q = true -> len p <= max_chunk_bytes l ->
  reads_at l decode_bootstrap_chunk (encode_bootstrap_chunk t s b q p)
    (FrameKind_BootstrapChunk t s b q p).
Proof.
  intros ?? Hp. apply reads_at_get. intros d [Hd _]. unfold encode_bootstrap_chunk.
  eapply reads_body_fields; [do 4 rf_field bootstrap_chunk_step|].
  - eapply rf_one; [done|]. intros _. unfold bootstrap_chunk_step. rf_value.
    rewrite (proj2 (Z.ltb_ge _ _)) by lia. reflexivity.
  - assemble.
Qed.

Lemma page_seq_ok q :
  u64b q = true -> nonzero q = true ->
  checked_history_page_seq (Some (write_u64_be q)) = Ok q.
Proof.
  intros H Hn. unfold checked_history_page_seq. cbn [ok_or]. rewrite bind_ok.
  rewrite (sub_reads read_u64_be _ q); [|by apply reads_u64|unfold write_u64_be; by rewrite len_to_be].
  rewrite bind_ok. unfold nonzero in Hn. by destruct (q =? 0).
Qed.

Lemma page_rows_ok r :
  u32b r = true -> r <= MAX_HISTORY_PAGE_ROWS ->
  checked_history_page_rows (Some (write_u32_be r)) = Ok r.
Proof.
  intros H Hn. unfold checked_history_page_rows. cbn [ok_or]. rewrite bind_ok.
  rewrite (sub_reads read_u32_be _ r); [|by apply reads_u32|unfold write_u32_be; by rewrite len_to_be].
  rewrite bind_ok. by rewrite (proj2 (Z.ltb_ge _ _)).
Qed.

Lemma len_u64 v : len (write_u64_be v) <= MAX_FRAME_LEN.
Proof. unfold write_u64_be. by rewrite len_to_be. Qed.

Lemma history_page_checks_ok mp t s b q c n p r :
  wf_frame (mkLimits 0 mp) (FrameKind_HistoryPage t s b q c n p r) = true ->
  len (encode_terminal_id t) <= MAX_FRAME_LEN ->
  history_page_checks mp
    (mkHistoryPageFields (Some (encode_terminal_id t)) (Some (write_u64_be s))
       (Some (write_u64_be b)) (Some (write_u64_be q)) (Some c) n (Some p) (Some (write_u32_be r)))
  = Ok (FrameKind_HistoryPage t s b q c n p r).
Proof.
  cbn [wf_frame max_page_bytes]. intros H Ht. split_bools.
  unfold history_page_checks. cbn [hp_terminal_id hp_stream_id hp_bootstrap_id hp_page_seq hp_cursor
    hp_next_cursor hp_payload hp_rows ok_or]. rewrite !bind_ok.
  rewrite (sub_reads decode_stream_id _ s), !bind_ok by (eauto using len_u64 with reads).
  rewrite (sub_reads decode_bootstrap_id _ b), !bind_ok by (eauto using len_u64 with reads).
  rewrite page_seq_ok, !bind_ok by done. rewrite page_rows_ok, !bind_ok by (try apply Z.leb_le; done).
  assert (E : (mp <? len p) = false) by (apply Z.ltb_ge; by apply Z.leb_le).
  assert (Ec : (MAX_HISTORY_CURSOR_BYTES <? len c) = false).
  { apply Z.ltb_ge, Z.leb_le. unfold wf_cursor in *. by split_bools. }
  assert (En : match n with Some next => negb (MAX_HISTORY_CURSOR_BYTES <? len next) | None => true end = true).
  { destruct n as [n|]; [|done]. cbn in *. unfold wf_cursor in *. split_bools.
    by rewrite (proj2 (Z.ltb_ge _ _)) by (by apply Z.leb_le). }
  rewrite E. cbn [negb ensure]. rewrite !bind_ok.
  rewrite Ec, En. cbn [negb ensure]. rewrite !bind_ok.
  by rewrite (sub_reads decode_terminal_id _ t) by eauto with reads.
Qed.

Lemma len_field_le id v bs : len v <= len (write_field id v ++ bs).
Proof. rewrite len_app. pose proof (len_write_field id v). pose proof (len_nonneg bs). lia. Qed.

Lemma reads_history_page l t s b q c n p r :
  wf_frame l (FrameKind_HistoryPage t s b q c n p r) = true ->
  reads_at l decode_history_page
    (encode_history_page_stream t s b ++ encode_history_page_body c n p q r)
    (FrameKind_HistoryPage t s b q c n p r).
Proof.
  intros H. apply reads_at_get. intros d [_ Hd]. apply reads_body_len.
  unfold encode_history_page_stream, encode_history_page_body. rewrite <- !app_assoc. intros Hl.
  eapply reads_body_fields; [do 4 rf_field history_page_step|].
  - apply (rf_opt _ (fun o => mkHistoryPageFields (Some (encode_terminal_id t)) (Some (write_u64_be s))
       (Some (write_u64_be b)) None (Some c) o None None) n (fun x => x)); [done| |].
    + intros x -> _. unfold history_page_step. rf_value.
    + repeat rf_field history_page_step.
  - apply reads_lift. rewrite Hd. apply history_page_checks_ok.
    + exact H.
    + etrans; [apply len_field_le | exact Hl].
Qed.

Lemma reads_bootstrap_tombstone t s b r q :
  wf_stream t s b = true -> u64b q = true ->
  reads_body decode_bootstrap_tombstone (encode_bootstrap_tombstone t s b r q)
    (FrameKind_BootstrapTombstone t s b r q).
Proof.
  intros. unfold decode_bootstrap_tombstone, encode_bootstrap_tombstone.
  eapply reads_body_fields; [do 3 rf_field bootstrap_tombstone_step|].
  - eapply rf_cons; [done| |].
    + intros ?. unfold bootstrap_tombstone_step. rf_value. by rewrite enum_of_to_wire.
    + rf_field bootstrap_tombstone_step.
  - assemble.
Qed.

Lemma reads_history_tombstone t s b c r :
  wf_stream t s b = true -> wf_cursor c = true ->
  reads_body decode_history_tombstone (encode_history_tombstone t s b c r)
    (FrameKind_HistoryTombstone t s b c r).
Proof.
  intros. unfold decode_history_tombstone, encode_history_tombstone.
  eapply reads_body_fields; [do 3 rf_field history_tombstone_step|].
  - rf_cursor history_tombstone_step.
    eapply rf_one; [done|]. intros ?. unfold history_tombstone_step. rf_value. by rewrite enum_of_to_wire.
  - assemble.
Qed.

Lemma reads_history_rejected l t s b c r rb rr :
  wf_frame l (FrameKind_HistoryRejected t s b c r rb rr) = true ->
  reads_at l decode_history_rejected
    (encode_history_rejected_stream t s b ++ encode_history_rejected_reason c r rb rr)
    (FrameKind_HistoryRejected t s b c r rb rr).
Proof.
  cbn [wf_frame]. intros; split_bools. rewrite !Z.leb_le in *.
  unfold decode_history_rejected, encode_history_rejected_stream, encode_history_rejected_reason.
  rewrite <- !app_assoc. 
  assert (u32b rr = true) by (apply u32b_spec; unfold MAX_HISTORY_PAGE_ROWS in *; lia).
  eapply reads_at_bind_ret.
  { apply reads_while_fields. do 3 rf_field history_rejected_step.
    rf_cursor history_rejected_step. eapply rf_cons; [done| |].
    - intros ?. unfold history_rejected_step. rf_value. by rewrite enum_of_to_wire.
    - repeat rf_field history_rejected_step. }
  cbv beta iota zeta. unfold checked_history_required_bytes.
  intros d tl [_ Hd] Hl Ho Hr He. unfold mbind at 1, M_bind at 1, mbind at 1, M_bind at 1, get.
  cbn [ok_or]. unfold mbind at 1, M_bind at 1, lift at 1.
  rewrite Hd, (proj2 (Z.eqb_neq _ _)), (proj2 (Z.ltb_ge _ _)) by lia. cbn [orb].
  unfold mret at 1, M_ret at 1. unfold checked_history_required_rows. cbn [ok_or]. rewrite bind_ok.
  rewrite (proj2 (Z.eqb_neq _ _)), (proj2 (Z.ltb_ge _ _)) by lia. cbn [orb].
  match goal with |- ?m d = _ => cut (reads m [] (FrameKind_HistoryRejected t s b c r rb rr)) end.
  { intros Hm. by erewrite Hm. }
  assemble.
Qed.

Lemma reads_bell t :
  wf_ResourceId t = true -> reads_body decode_bell (encode_bell t) (FrameKind_Bell t).
Proof. intros. unfold decode_bell, encode_bell. body_fields bell_step. Qed.

Lemma reads_error id c m :
  wf_opt u32b id = true -> wf_str m = true ->
  reads_body decode_error (encode_error id c m) (FrameKind_Error id c m).
Proof.
  intros. unfold decode_error, encode_error. eapply reads_body_fields.
  - apply (rf_opt _ (fun o => (o, None, None)) id (fun x => write_u32_be x)); [done| |].
    + intros x -> ?. unfold error_step. rf_value.
    + eapply rf_cons; [done| |].
      * intros ?. unfold error_step. rf_value. by rewrite enum_of_to_wire.
      * rf_field error_step.
  - assemble.
Qed.

Lemma reads_scope_key id sc k :
  u32b id = true -> wf_scope sc = true -> wf_str k = true ->
  reads_body decode_metadata_scope_key (encode_get_or_delete_metadata id sc k) (id, sc, k).
Proof.
  intros. unfold decode_metadata_scope_key, encode_get_or_delete_metadata.
  body_fields metadata_scope_key_step.
Qed.

Lemma reads_body_then {A B} (m : M A) (k : A -> M B) bs a b :
  reads_body m bs a -> reads (k a) [] b -> reads_body (m ≫= k) bs b.
Proof.
  intros Hm Hk. apply reads_in_nil. eapply reads_in_bind_ret; [by apply reads_in_nil|].
  by apply reads_reads_in.
Qed.

Lemma reads_get_metadata id sc k :
  u32b id = true -> wf_scope sc = true -> wf_str k = true ->
  reads_body decode_get_metadata (encode_get_or_delete_metadata id sc k) (FrameKind_GetMetadata id sc k).
Proof. intros. eapply reads_body_then; [by apply reads_scope_key | apply reads_ret]. Qed.
Lemma reads_delete_metadata id sc k :
  u32b id = true -> wf_scope sc = true -> wf_str k = true ->
  reads_body decode_delete_metadata (encode_get_or_delete_metadata id sc k) (FrameKind_DeleteMetadata id sc k).
Proof. intros. eapply reads_body_then; [by apply reads_scope_key | apply reads_ret]. Qed.

Lemma reads_set_metadata id sc k v :
  u32b id = true -> wf_scope sc = true -> wf_str k = true ->
  reads_body decode_set_metadata (encode_set_metadata id sc k v) (FrameKind_SetMetadata id sc k v).
Proof. intros. unfold decode_set_metadata, encode_set_metadata. body_fields set_metadata_step. Qed.
Lemma reads_list_metadata id sc :
  u32b id = true -> wf_scope sc = true ->
  reads_body decode_list_metadata (encode_list_metadata id sc) (FrameKind_ListMetadata id sc).
Proof. intros. unfold decode_list_metadata, encode_list_metadata. body_fields list_metadata_step. Qed.
Lemma reads_subscribe_metadata sc k :
  wf_scope sc = true -> wf_str k = true ->
  reads_body decode_subscribe_metadata (encode_subscribe_metadata sc k) (FrameKind_SubscribeMetadata sc k).
Proof.
  intros. unfold decode_subscribe_metadata, encode_subscribe_metadata.
  body_fields subscribe_metadata_step.
Qed.
Lemma reads_metadata_changed sc k v :
  wf_scope sc = true -> wf_str k = true ->
  reads_body decode_metadata_changed (encode_metadata_changed sc k v) (FrameKind_MetadataChanged sc k v).
Proof.
  intros. unfold decode_metadata_changed, encode_metadata_changed.
  eapply reads_body_fields; [do 2 rf_field metadata_changed_step|].
  - apply (rf_opt_one _ (fun o => (Some sc, Some k, o)) v (fun x => x)); [done|].
    intros x -> _. unfold metadata_changed_step. rf_value.
  - assemble.
Qed.
Lemma reads_metadata_value id v :
  u32b id = true ->
  reads_body decode_metadata_value (encode_metadata_value id v) (FrameKind_MetadataValue id v).
Proof.
  intros. unfold decode_metadata_value, encode_metadata_value.
  eapply reads_body_fields; [rf_field metadata_value_step|].
  - apply (rf_opt_one _ (fun o => (id, o)) v (fun x => x)); [done|].
    intros x -> _. unfold metadata_value_step. rf_value.
  - assemble.
Qed.
Lemma reads_metadata_keys id ks :
  u32b id = true -> wf_strs ks = true ->
  reads_body decode_metadata_keys (encode_metadata_keys id ks) (FrameKind_MetadataKeys id ks).
Proof.
  intros H Hk. unfold decode_metadata_keys, encode_metadata_keys.
  eapply reads_body_fields; [rf_field metadata_keys_step|].
  - eapply rf_one; [done|]. intros ?. unfold metadata_keys_step. cbv beta iota zeta. eval_eqb.
    rewrite (sub_reads (read_list read_str) _ ks); [done|by apply reads_string_list|done].
  - assemble.
Qed.

Lemma bind_unbound r : bind_spawn_result (unbound r) (SpawnResult_instance r) = r.
Proof. by destruct r. Qed.

Lemma reads_terminal_spawned id r :
  u32b id = true -> wf_spawn_result r = true ->
  reads_body decode_terminal_spawned (encode_terminal_spawned id r) (FrameKind_ResourceSpawned id r).
Proof.
  intros ? Hr. unfold decode_terminal_spawned, encode_terminal_spawned.
  eapply reads_body_fields; [do 2 rf_field terminal_spawned_step|].
  - apply (rf_opt_one _ (fun o => (id, Some (unbound r), o)) (SpawnResult_instance r)
      (fun i => encode_server_instance i)); [done|].
    intros x Hx ?. assert (wf_id16 x = true).
    { destruct r; simplify_eq/=; by split_bools. }
    unfold terminal_spawned_step. rf_value.
  - cbv beta iota zeta; cbn [ok_or]. eapply reads_bind_lift; [reflexivity|].
    rewrite bind_unbound. apply reads_ret.
Qed.

Lemma reads_move_terminal id t o :
  u32b id = true -> wf_ResourceId t = true -> wf_ResourceId o = true ->
  reads_body decode_move_terminal (encode_move_terminal id t o) (FrameKind_MoveResource id t o).
Proof. intros. unfold decode_move_terminal, encode_move_terminal. body_fields move_terminal_step. Qed.
Lemma reads_terminal_moved id r :
  u32b id = true -> wf_move_result r = true ->
  reads_body decode_terminal_moved (encode_terminal_moved id r) (FrameKind_ResourceMoved id r).
Proof. intros. unfold decode_terminal_moved, encode_terminal_moved. body_fields terminal_moved_step. Qed.

Lemma i32_round_trip z : i32b z = true -> to_signed 32 (to_unsigned 32 z) = z /\ u32b (to_unsigned 32 z) = true.
Proof.
  unfold i32b. rewrite andb_true_iff, !Z.leb_le. intros. split.
  - apply to_signed_unsigned; lia.
  - apply u32b_spec. unfold to_unsigned. apply Z.mod_pos_bound. lia.
Qed.

Lemma sub_one_byte v : u8b v = true -> sub [v] read_u8 = Ok v.
Proof. intros. by apply (sub_reads read_u8 [v]); [apply reads_u8|]. Qed.

Lemma reads_terminal_closed t st r :
  wf_ResourceId t = true -> wf_opt i32b st = true ->
  reads_body decode_terminal_closed (encode_terminal_closed t st r) (FrameKind_ResourceClosed t st r).
Proof.
  intros. unfold decode_terminal_closed, encode_terminal_closed.
  apply reads_body_fields with (s' := (Some t, st, r)); [rf_field terminal_closed_step|assemble].
  apply (rf_opt _ (fun o => (Some t, o, CloseReason_Unknown)) st
    (fun s => write_u32_be (to_unsigned 32 s))); [done| |].
  - intros x -> ?. destruct (i32_round_trip x) as [E ?]; [done|].
    unfold terminal_closed_step. rf_value. by rewrite E.
  - destruct r; try apply rf_nil; (eapply rf_one; [done|intros _; reflexivity]).
Qed.

Lemma reads_terminal_resize t c r :
  wf_ResourceId t = true -> u16b c = true -> u16b r = true ->
  reads_body decode_terminal_resize (encode_terminal_resize t c r) (FrameKind_ResizeTerminal t c r).
Proof. intros. unfold decode_terminal_resize, encode_terminal_resize. body_fields terminal_resize_step. Qed.

Lemma reads_subscribe_events_frame t :
  wf_opt wf_ResourceId t = true ->
  reads_body decode_subscribe_events (encode_subscribe_events t) (FrameKind_SubscribeEvents t).
Proof.
  intros. unfold decode_subscribe_events, encode_subscribe_events.
  eapply reads_body_fields.
  - apply (rf_opt_one _ (fun o => o) t (fun x => encode_terminal_id x)); [done|].
    intros x -> ?. unfold subscribe_events_step. rf_value.
  - assemble.
Qed.
Lemma reads_event t e :
  wf_opt wf_ResourceId t = true -> wf_agent_event e = true ->
  reads_body decode_event (encode_event t e) (FrameKind_Event t e).
Proof.
  intros. unfold decode_event, encode_event. eapply reads_body_fields.
  - apply (rf_opt _ (fun o => (o, None)) t (fun x => encode_terminal_id x)); [done| |].
    + intros x -> ?. unfold event_step. rf_value.
    + rf_field event_step.
  - assemble.
Qed.

Lemma reads_command_frame id c :
  u32b id = true -> wf_command c = true ->
  reads_body decode_command_frame (encode_command_frame id c) (FrameKind_Command id c).
Proof.
  intros. unfold decode_command_frame, encode_command_frame.
  eapply reads_body_fields; [rf_field command_frame_step|].
  - eapply rf_one; [done|]. intros ?. unfold command_frame_step. cbv beta iota zeta. eval_eqb.
    by rewrite (sub_reads_in decode_command _ c) by (try apply reads_command_all; done).
  - assemble.
Qed.

(** ** Handshake *)

Lemma land_known m known :
  0 <= known -> (Z.land m known =? m) = true -> 0 <= m < 2 ^ (Z.log2 known + 1).
Proof.
  intros Hk H%Z.eqb_eq. assert (0 <= m) by (rewrite <- H; apply Z.land_nonneg; lia).
  split; [done|]. destruct (decide (m = 0)) as [->|]; [apply Z.pow_pos_nonneg; pose proof (Z.log2_nonneg known); lia|].
  apply Z.log2_lt_pow2; [lia|]. pose proof (Z.log2_land m known). rewrite H in *. lia.
Qed.

(** [as_wire] keeps a set whose bits are known, and fits the width of the mask. *)
Lemma known_as_wire m known : (Z.land m known =? m) = true -> Z.land m known = m.
Proof. by intros ->%Z.eqb_eq. Qed.

Lemma layers_as_wire s : wf_layers s = true -> LayerSet_as_wire s = s /\ u8b s = true.
Proof.
  unfold wf_layers, LayerSet_from_wire, LayerSet_as_wire. intros <-%Z.eqb_eq.
  change (Z.lor _ (layer_bit Layer_L3)) with 7. change (layer_bit Layer_L1) with 1.
  change 7 with (Z.ones 3). rewrite Z.land_ones by lia.
  assert (0 <= s mod 2 ^ 3 < 8) as Hm by (apply Z.mod_pos_bound; lia).
  rewrite <- Z.lor_assoc. split; [done|].
  assert (s mod 2 ^ 3 = 0 \/ s mod 2 ^ 3 = 1 \/ s mod 2 ^ 3 = 2 \/ s mod 2 ^ 3 = 3 \/ s mod 2 ^ 3 = 4
    \/ s mod 2 ^ 3 = 5 \/ s mod 2 ^ 3 = 6 \/ s mod 2 ^ 3 = 7) as Hc by lia.
  repeat destruct Hc as [->|Hc]; try reflexivity. by rewrite Hc.
Qed.

Lemma reads_bootstrap_capabilities b :
  wf_bootstrap_caps b = true ->
  reads decode_bootstrap_capabilities
    (write_u8 (BootstrapProfileSet_as_wire (profiles b))
     ++ write_u64_be (EngineCodecSet_as_wire (native_codecs b))
     ++ write_u32_be (EngineFeatureSet_as_wire (native_features b))
     ++ write_u32_be (max_chunk_bytes (limits b))
     ++ write_u32_be (max_page_bytes (limits b))) b.
Proof.
  destruct b as [p c f l]. unfold wf_bootstrap_caps. cbn [profiles native_codecs native_features limits].
  intros; split_bools. unfold BootstrapProfileSet_from_wire, EngineCodecSet_from_wire,
    EngineFeatureSet_from_wire in *.
  pose proof (limits_new_id l ltac:(done)) as El.
  assert (u8b p = true) by (apply u8b_spec; pose proof (land_known p BootstrapProfileSet_KNOWN ltac:(done) ltac:(done)) as Hb; vm_compute (_ ^ _) in Hb; lia).
  assert (u64b c = true) by (apply u64b_spec; pose proof (land_known c EngineCodecSet_KNOWN ltac:(done) ltac:(done)) as Hb; vm_compute (_ ^ _) in Hb; lia).
  assert (u32b f = true) by (apply u32b_spec; pose proof (land_known f EngineFeatureSet_KNOWN ltac:(done) ltac:(done)) as Hb; vm_compute (_ ^ _) in Hb; lia).
  assert (u32b (max_chunk_bytes l) = true /\ u32b (max_page_bytes l) = true) as [? ?].
  { unfold wf_limits, MAX_BOOTSTRAP_CHUNK_BYTES, MAX_HISTORY_PAGE_BYTES in *. split_bools.
    rewrite !Z.leb_le in *. rewrite !u32b_spec. lia. }
  unfold decode_bootstrap_capabilities, BootstrapProfileSet_as_wire, EngineCodecSet_as_wire,
    EngineFeatureSet_as_wire.
  rewrite !known_as_wire by done. reads_step; reads_step; reads_step; reads_step; reads_step.
  eapply reads_bind_lift; [by rewrite El|].
  unfold BootstrapProfileSet_from_wire, EngineCodecSet_from_wire, EngineFeatureSet_from_wire.
  rewrite !known_as_wire by done. apply reads_ret.
Qed.

Lemma reads_color_support c : reads decode_color_support (write_u8 (to_wire c)) c.
Proof. unfold decode_color_support. reads_tac. Qed.
Lemma reads_hyperlinks h : reads decode_hyperlinks_flag (write_u8 (b2z h)) h.
Proof. unfold decode_hyperlinks_flag. destruct h; cbn [b2z]; reads_tac. Qed.
Lemma reads_output_mode m : reads decode_output_mode (write_u8 (to_wire_t m)) m.
Proof. unfold decode_output_mode. destruct m; reads_step; eval_eqb; reads_tac. Qed.

Lemma reads_default_colors o :
  wf_opt wf_default_colors o = true ->
  reads decode_default_colors
    (match o with
     | Some colors =>
         write_u8 1 ++ write_u8 (color_r (foreground colors))
         ++ write_u8 (color_g (foreground colors)) ++ write_u8 (color_b (foreground colors))
         ++ write_u8 (color_r (background colors))
         ++ write_u8 (color_g (background colors)) ++ write_u8 (color_b (background colors))
     | None => write_u8 0
     end) o.
Proof.
  destruct o as [[[fr fg fb] [br bg bb]]|]; cbn; unfold wf_default_colors, wf_color; cbn;
    intros; split_bools; unfold decode_default_colors; reads_tac.
Qed.

Lemma reads_client_capabilities c :
  wf_client_caps c = true ->
  reads decode_client_capabilities (encode_client_capabilities c)
    (mkClientCaps (color_support c) (layers c) (image_protocols c) (kbd_protocols c) (hyperlinks c)
       (output_mode c) (default_colors c) (bootstrap c) 0 None).
Proof.
  destruct c as [cs la im kb hy om dc bo z so]. unfold wf_client_caps, encode_client_capabilities.
  cbn [color_support layers image_protocols kbd_protocols hyperlinks output_mode default_colors
    bootstrap compression ssh_origin]. intros; split_bools.
  destruct (layers_as_wire la) as [Hla ?]; [done|]. rewrite Hla.
  unfold ImageProtocolSet_from_wire, KeyboardProtocolSet_from_wire in *.
  assert (u8b im = true) by (apply u8b_spec; pose proof (land_known im ImageProtocolSet_KNOWN ltac:(done) ltac:(done)) as Hb; vm_compute (_ ^ _) in Hb; lia).
  assert (u8b kb = true) by (apply u8b_spec; pose proof (land_known kb KeyboardProtocolSet_KNOWN ltac:(done) ltac:(done)) as Hb; vm_compute (_ ^ _) in Hb; lia).
  unfold ImageProtocolSet_as_wire, KeyboardProtocolSet_as_wire. rewrite !known_as_wire by done.
  unfold decode_client_capabilities.
  eapply reads_bind; [apply reads_color_support|]. do 3 reads_step.
  eapply reads_bind; [apply reads_hyperlinks|].
  eapply reads_bind; [apply reads_output_mode|].
  eapply reads_bind; [by apply reads_default_colors|].
  eapply reads_bind_ret; [by apply reads_bootstrap_capabilities|].
  unfold ImageProtocolSet_from_wire, KeyboardProtocolSet_from_wire. rewrite !known_as_wire by done.
  replace (LayerSet_from_wire la) with la by (symmetry; by apply Z.eqb_eq).
  apply reads_ret.
Qed.

Lemma reads_server_capabilities c :
  wf_server_caps c = true ->
  reads_in [] decode_server_capabilities (encode_server_capabilities c)
    (mkServerCaps (server_layers c) (server_features c) Compression_None).
Proof.
  destruct c as [la f z]. unfold wf_server_caps, encode_server_capabilities, ServerFeatureSet_from_wire.
  cbn [server_layers server_features server_compression]. intros; split_bools.
  destruct (layers_as_wire la) as [Hla ?]; [done|]. rewrite Hla.
  assert (u32b f = true) by (apply u32b_spec; pose proof (land_known f ServerFeatureSet_KNOWN ltac:(done) ltac:(done)) as Hb; vm_compute (_ ^ _) in Hb; lia).
  assert (Hl : LayerSet_from_wire la = la) by (by apply Z.eqb_eq).
  unfold decode_server_capabilities, ServerFeatureSet_as_wire. rewrite known_as_wire by done.
  reads_in_step. cbv zeta. rewrite Hl. destruct (f =? 0) eqn:E; cbn [negb].
  - apply reads_in_done. cbn [negb]. apply Z.eqb_eq in E as ->. apply reads_reads_in, reads_ret.
  - apply reads_in_not_done; [rewrite app_nil_r; apply len1_length, len1_u32|]. cbn [negb].
    reads_in_step. unfold ServerFeatureSet_from_wire. rewrite known_as_wire by done.
    apply reads_reads_in, reads_ret.
Qed.

Lemma reads_hello_ok major minor patch caps server_id p l :
  u16b major = true -> u16b minor = true -> u16b patch = true -> wf_server_caps caps = true ->
  wf_profile p = true -> wf_limits l = true ->
  reads_body decode_hello_ok
    (encode_hello_ok_version major minor patch ++ encode_hello_ok_negotiation caps server_id p l)
    (FrameKind_HelloOk major minor patch caps server_id p l).
Proof.
  intros ??? Hc ? Hl. unfold decode_hello_ok, encode_hello_ok_version, encode_hello_ok_negotiation.
  rewrite <- !app_assoc.
  assert (u32b (max_chunk_bytes l) = true /\ u32b (max_page_bytes l) = true) as [? ?].
  { unfold wf_limits, MAX_BOOTSTRAP_CHUNK_BYTES, MAX_HISTORY_PAGE_BYTES in *. split_bools.
    rewrite !Z.leb_le in *. rewrite !u32b_spec. lia. }
  set (bare := mkServerCaps (server_layers caps) (server_features caps) Compression_None).
  apply reads_body_fields with
    (s' := mkHelloOkFields (Some major) (Some minor) (Some patch) (Some bare) (Some server_id)
             (Some p) (Some (max_chunk_bytes l)) (Some (max_page_bytes l))
             (match server_compression caps with Compression_None => None | c => Some c end)).
  - do 3 rf_field hello_ok_step. eapply rf_cons; [done| |].
    { intros ?. unfold hello_ok_step. cbv beta iota zeta. eval_eqb.
      by rewrite (sub_reads_in _ _ _ (reads_server_capabilities caps Hc)). }
    do 4 rf_field hello_ok_step. destruct (server_compression caps); [apply rf_nil|].
    rf_field hello_ok_step.
  - cbn [ho_major ho_minor ho_patch ho_caps ho_server_id ho_profile ho_chunk ho_page ho_compression].
    eapply reads_bind_lift.
    { unfold negotiated_bootstrap_limits. cbn [ok_or]. rewrite !bind_ok. by rewrite limits_new_id. }
    eapply reads_bind_lift; [reflexivity|]. cbv zeta.
    replace (match match server_compression caps with Compression_None => None | c => Some c end
             with Some z => server_with_compression bare z | None => bare end) with caps
      by (by destruct caps as [? ? []]).
    do 5 (eapply reads_bind_lift; [reflexivity|]). apply reads_ret.
Qed.

(** ** Spawn *)

Lemma facet_str_ok max v :
  wf_facet_str max v = true -> decode_agent_facet_str v max = Ok v.
Proof.
  unfold wf_facet_str, decode_agent_facet_str. intros; split_bools.
  destruct (is_nil v); [done|]. rewrite (proj2 (Z.ltb_ge _ _)) by (by apply Z.leb_le).
  cbn. by apply from_utf8_valid.
Qed.

Lemma reads_initial_size s :
  wf_size s = true ->
  reads (c ← read_u16_be; r ← read_u16_be; mret (c, r)) (encode_initial_size s) s.
Proof. destruct s as [c r]; unfold wf_size, encode_initial_size; cbn [fst snd]; intros; split_bools. reads_tac. Qed.

(** The resource block after the other fields, from the state they leave. *)
Lemma spawn_block_fields id g c d e tm sa o se sz r :
  wf_opt wf_spawn_block r = true ->
  let F := mkSpawnFields id g c d e tm sa o se sz in
  reads_fields spawn_terminal_step (F ResourceKind_Terminal None None None false)
    (if_some r encode_spawn_terminal_resource)
    (match r with
     | Some r => F (spawn_kind r) (spawn_parent r) (spawn_provider r) (spawn_native_id r)
                   (spawn_bind_instance r)
     | None => F ResourceKind_Terminal None None None false
     end).
Proof.
  intros H F. destruct r as [[k p pr n b]|]; cbn [if_some]; [|apply rf_nil]. cbn [wf_opt] in H.
  unfold wf_spawn_block, encode_spawn_terminal_resource in *.
  cbn [spawn_kind spawn_parent spawn_provider spawn_native_id spawn_bind_instance] in *. split_bools.
  apply (rf_app _ _ (F k None None None false)).
  { destruct k as [| |tag]; [apply rf_nil| |]; (eapply rf_one; [done|intros _]);
      unfold F, spawn_terminal_step; cbv beta iota zeta; eval_eqb;
      (rewrite sub_one_byte by (by apply ResourceKind_as_wire_u8)); cbn [mbind result_bind].
    all: by rewrite ResourceKind_round_trip. }
  apply (rf_opt _ (fun x => F k x None None false) p (fun x => encode_terminal_id x)); [done| |].
  { intros x -> ?. unfold F, spawn_terminal_step. rf_value. }
  apply (rf_opt _ (fun x => F k p x None false) pr (fun x => x)); [done| |].
  { intros x -> ?. unfold F, spawn_terminal_step. rf_value. by rewrite facet_str_ok. }
  apply (rf_opt _ (fun x => F k p pr x false) n (fun x => x)); [done| |].
  { intros x -> ?. unfold F, spawn_terminal_step. rf_value. by rewrite facet_str_ok. }
  destruct b; [|apply rf_nil]. eapply rf_one; [done|]. intros _. reflexivity.
Qed.

Lemma spawn_frame_ok id g c d e tm sa o se sz r :
  wf_opt wf_spawn_block r = true ->
  let F := mkSpawnFields id g c d e tm sa o se sz in
  spawn_frame
    (match r with
     | Some r => F (spawn_kind r) (spawn_parent r) (spawn_provider r) (spawn_native_id r)
                   (spawn_bind_instance r)
     | None => F ResourceKind_Terminal None None None false
     end) = FrameKind_SpawnResource id g c d e tm sa o se sz r.
Proof.
  destruct r as [[k p pr n b]|]; cbn [wf_opt]; [|done].
  unfold wf_spawn_block. intros H; split_bools. unfold spawn_frame.
  cbn [spawn_kind spawn_parent spawn_provider spawn_native_id spawn_bind_instance sp_kind sp_parent
    sp_provider sp_native_id sp_bind_instance].
  match goal with H : negb _ = true |- _ => by rewrite H end.
Qed.

Lemma reads_spawn_terminal l id g c d e tm sa o se sz r :
  wf_frame l (FrameKind_SpawnResource id g c d e tm sa o se sz r) = true ->
  reads_body decode_spawn_terminal
    (encode_spawn_terminal_request id g ++ encode_spawn_terminal_process c d e tm
     ++ encode_spawn_terminal_placement sa o se sz ++ if_some r encode_spawn_terminal_resource)
    (FrameKind_SpawnResource id g c d e tm sa o se sz r).
Proof.
  cbn [wf_frame]. intros; split_bools. unfold decode_spawn_terminal, encode_spawn_terminal_request,
    encode_spawn_terminal_process, encode_spawn_terminal_placement. rewrite <- !app_assoc.
  eapply reads_body_fields; [do 2 rf_field spawn_terminal_step|].
  - set (K := fun c d e tm sa o se sz => mkSpawnFields id g c d e tm sa o se sz
        ResourceKind_Terminal None None None false).
    apply (rf_opt _ (fun x => K x None None None None None None None) c (fun x => encode_string_list x));
      [done|intros x -> ?; unfold K, spawn_terminal_step; rf_value|].
    apply (rf_opt _ (fun x => K c x None None None None None None) d (fun x => x));
      [done|intros x -> ?; unfold K, spawn_terminal_step; rf_value|].
    apply (rf_opt _ (fun x => K c d x None None None None None) e (fun x => encode_env x));
      [done|intros x -> ?; unfold K, spawn_terminal_step; rf_value|].
    apply (rf_opt _ (fun x => K c d e x None None None None) tm (fun x => x));
      [done|intros x -> ?; unfold K, spawn_terminal_step; rf_value|].
    apply (rf_opt _ (fun x => K c d e tm x None None None) sa (fun x => x));
      [done|intros x -> ?; unfold K, spawn_terminal_step; rf_value|].
    apply (rf_opt _ (fun x => K c d e tm sa x None None) o (fun x => encode_terminal_id x));
      [done|intros x -> ?; unfold K, spawn_terminal_step; rf_value|].
    apply (rf_opt _ (fun x => K c d e tm sa o x None) se (fun x => x));
      [done|intros x -> ?; unfold K, spawn_terminal_step; rf_value|].
    apply (rf_opt _ (fun x => K c d e tm sa o se x) sz (fun x => encode_initial_size x)); [done| |].
    { intros x -> ?; unfold K, spawn_terminal_step; cbv beta iota zeta; eval_eqb.
      by rewrite (sub_reads _ _ x) by (try apply reads_initial_size; done). }
    by apply spawn_block_fields.
  - cbv zeta. rewrite spawn_frame_ok by done.
    destruct (validate_spawn_for_kind _) as [[]|]; [|done]. apply reads_ret.
Qed.

Section WithParameters.
Context `{RJ : ReportJson} `{IT : IpText} `{FL : Flate}.

Lemma reads_hello name major minor patch caps :
  wf_str name = true -> u16b major = true -> u16b minor = true -> u16b patch = true ->
  wf_client_caps caps = true ->
  reads_body decode_hello (encode_hello name major minor patch caps)
    (FrameKind_Hello name major minor patch caps).
Proof.
  intros ???? Hc. unfold decode_hello, encode_hello.
  pose proof (reads_client_capabilities caps Hc) as Hr. unfold wf_client_caps in Hc; split_bools.
  set (bare := mkClientCaps (color_support caps) (layers caps) (image_protocols caps)
    (kbd_protocols caps) (hyperlinks caps) (output_mode caps) (default_colors caps)
    (bootstrap caps) 0 None) in *.
  set (fields z o := mkHelloFields (Some name) (Some major) (Some minor) (Some patch) (Some bare) z o).
  set (z := if compression caps =? 0 then None else Some (compression caps)).
  apply reads_body_fields with (s' := fields z (ssh_origin caps)).
  - do 4 rf_field_with ltac:(fun _ => unfold hello_step). eapply rf_cons; [done| |].
    { intros ?. unfold hello_step. cbv beta iota zeta. eval_eqb. by rewrite (sub_reads _ _ _ Hr). }
    apply (rf_app _ _ (fields z None)).
    + unfold z. destruct (compression caps =? 0); cbn [negb]; [apply rf_nil|].
      unfold fields. rf_field_with ltac:(fun _ => unfold hello_step).
    + apply (rf_opt_one _ (fields z) (ssh_origin caps) (fun o => encode_ssh_origin o)); [done|].
      intros o Ho ?. unfold hello_step, fields. cbv beta iota zeta. eval_eqb.
      rewrite decode_encode_ssh_origin; [done| |done].
      match goal with H : wf_opt wf_origin _ = true |- _ => rewrite Ho in H; exact H end.
  - unfold fields. cbn [he_name he_major he_minor he_patch he_caps he_compression he_origin].
    eapply reads_bind_lift; [reflexivity|]. cbv zeta.
    replace (match z with Some z => with_compression _ z | None => _ end) with caps.
    2:{ unfold z, bare. destruct caps as [? ? ? ? ? ? ? ? c o]; cbn. destruct (Z.eqb_spec c 0) as [->|];
        by destruct o. }
    do 4 (eapply reads_bind_lift; [reflexivity|]). apply reads_ret.
Qed.

Lemma reads_attached id sn c :
  u32b id = true -> wf_snapshot sn = true -> u32b c = true ->
  reads_body decode_attached (encode_attached id sn c) (FrameKind_Attached id sn c).
Proof.
  intros ? Hs ?. unfold decode_attached, encode_attached. eapply reads_body_fields.
  - eapply rf_cons; [done| |].
    + intros ?. unfold attached_step. cbv beta iota zeta. eval_eqb.
      by rewrite (sub_ok _ _ _ (reads_session_snapshot sn Hs)).
    + do 2 rf_field_with ltac:(fun _ => unfold attached_step).
  - assemble.
Qed.

Lemma reads_command_result_frame id r :
  u32b id = true -> wf_command_result r = true ->
  reads_body decode_command_result_frame (encode_command_result_frame id r)
    (FrameKind_CommandResult id r).
Proof.
  intros ? Hr. unfold decode_command_result_frame, encode_command_result_frame.
  eapply reads_body_fields; [rf_field_with ltac:(fun _ => unfold command_result_frame_step)|].
  - eapply rf_one; [done|]. intros ?. unfold command_result_frame_step. cbv beta iota zeta. eval_eqb.
    by rewrite (sub_reads_in _ _ _ (reads_command_result r Hr)).
  - assemble.
Qed.

(** ** The whole catalog *)

Lemma reads_list_directory_frame id p h :
  u32b id = true -> wf_str p = true -> wf_opt wf_str h = true ->
  reads_body decode_list_directory_frame (encode_list_directory id p h) (FrameKind_ListDirectory id p h).
Proof. intros. eapply reads_body_then; [by apply reads_list_directory | apply reads_ret]. Qed.
Lemma reads_directory_listing_frame id r :
  u32b id = true -> wf_listing_result r = true ->
  reads_body decode_directory_listing_frame (encode_directory_listing id r) (FrameKind_DirectoryListing id r).
Proof. intros. eapply reads_body_then; [by apply reads_directory_listing | apply reads_ret]. Qed.

(** Replaces the dispatch on a concrete type byte by the decoder it selects. *)
Ltac dispatch m :=
  cbn [type_byte encode_payload];
  lazymatch goal with |- reads_at _ ?c _ _ => change c with m end.
Ltac plain H := cbn [wf_frame] in H; split_bools; apply reads_at_body.

Lemma reads_catalog l envelope f :
  wf_frame l f = true ->
  reads_at l (catalog_body envelope (type_byte f)) (encode_payload f) f.
Proof.
  intros H. destruct f.
  - dispatch decode_hello. plain H. by apply reads_hello.
  - dispatch decode_hello_ok. plain H. by apply reads_hello_ok.
  - dispatch decode_ping. plain H. by apply reads_ping.
  - dispatch decode_pong. plain H. by apply reads_pong.
  - dispatch decode_terminal_output. plain H. by apply reads_terminal_output.
  - dispatch decode_attach. plain H. by apply reads_attach.
  - dispatch decode_detach. plain H. apply reads_detach.
  - dispatch decode_input_key. plain H. by apply reads_input_key.
  - dispatch decode_input_mouse. plain H. by apply reads_input_mouse.
  - dispatch decode_input_focus. plain H. by apply reads_input_focus.
  - dispatch decode_input_paste. plain H. by apply reads_input_paste.
  - dispatch decode_input_terminal_reply. plain H. apply reads_input_terminal_reply; [done|by apply negb_true_iff|by apply Z.leb_le].
  - dispatch decode_frame_ack. plain H. by apply reads_frame_ack.
  - dispatch decode_viewport_resize. plain H. by apply reads_viewport_resize.
  - dispatch decode_attached. plain H. by apply reads_attached.
  - dispatch decode_attach_ready. plain H. by apply reads_attach_ready.
  - dispatch decode_detached. plain H. by apply reads_detached.
  - dispatch decode_bootstrap_begin. plain H. by apply reads_bootstrap_begin.
  - dispatch decode_bootstrap_chunk. cbn [wf_frame] in H; split_bools.
    apply reads_bootstrap_chunk; [done|done|by apply Z.leb_le].
  - dispatch decode_bootstrap_ready. plain H. by apply reads_bootstrap_ready.
  - dispatch decode_history_request. plain H. by apply reads_history_request.
  - dispatch decode_history_page. by apply reads_history_page.
  - dispatch decode_bootstrap_tombstone. plain H. by apply reads_bootstrap_tombstone.
  - dispatch decode_history_tombstone. plain H. by apply reads_history_tombstone.
  - dispatch decode_history_rejected. by apply reads_history_rejected.
  - dispatch decode_bell. plain H. by apply reads_bell.
  - dispatch decode_error. plain H. by apply reads_error.
  - dispatch decode_get_metadata. plain H. by apply reads_get_metadata.
  - dispatch decode_set_metadata. plain H. by apply reads_set_metadata.
  - dispatch decode_delete_metadata. plain H. by apply reads_delete_metadata.
  - dispatch decode_list_metadata. plain H. by apply reads_list_metadata.
  - dispatch decode_subscribe_metadata. plain H. by apply reads_subscribe_metadata.
  - dispatch decode_metadata_changed. plain H. by apply reads_metadata_changed.
  - dispatch decode_metadata_value. plain H. by apply reads_metadata_value.
  - dispatch decode_metadata_keys. plain H. by apply reads_metadata_keys.
  - dispatch decode_list_directory_frame. plain H. by apply reads_list_directory_frame.
  - dispatch decode_directory_listing_frame. plain H. by apply reads_directory_listing_frame.
  - dispatch decode_spawn_terminal. apply reads_at_body. by apply (reads_spawn_terminal l).
  - dispatch decode_terminal_spawned. plain H. by apply reads_terminal_spawned.
  - dispatch decode_move_terminal. plain H. by apply reads_move_terminal.
  - dispatch decode_terminal_moved. plain H. by apply reads_terminal_moved.
  - dispatch decode_terminal_closed. plain H. by apply reads_terminal_closed.
  - dispatch decode_terminal_resize. plain H. by apply reads_terminal_resize.
  - dispatch decode_command_frame. plain H. by apply reads_command_frame.
  - dispatch decode_command_result_frame. plain H. by apply reads_command_result_frame.
  - dispatch decode_subscribe_events. plain H. by apply reads_subscribe_events_frame.
  - dispatch decode_event. plain H. by apply reads_event.
Qed.
End WithParameters.
