(* ===== verification/FrameRead.v ===== *)
(** * Reading frames ([Decoder::read_frame])

    What [read_frame] does with a whole frame: the round trip of the catalog, the
    bytes it consumes, its independence of what follows, and the forward-compatibility
    rule that unknown fields are skipped. The last two rest on the shape every body
    decoder shares ([tlv_decoder]): one loop over the fields, then checks that do not
    touch the cursor. *)

From S2P Require Import Prelude Wire Fields Enums Ids Caps Codec Info Command Directory SshOrigin.
From S2P Require Import Compress Instances Frame FrameDecode FrameProofs.

(** ** A run over a list of fields *)

Definition fields_bytes (fs : list (Z * bytes)) : bytes :=
  concat (map (fun f => write_field f.1 f.2) fs).

(** The loop's state after the fields, in order, the first error stopping it. *)
Fixpoint fold_fields {S} (step : S -> Z -> bytes -> dresult S) (s : S) (fs : list (Z * bytes))
    : dresult S :=
  match fs with
  | [] => Ok s
  | (id, v) :: fs' => s' ← step s id v; fold_fields step s' fs'
  end.

(** What [lift] makes of a result, seen from a cursor. *)
Definition finish {A} (r : dresult A) (d : Decoder) : dresult (A * Decoder) :=
  match r with Ok a => Ok (a, d) | Err e => Err e end.

Lemma while_fields_run {S} (step : S -> Z -> bytes -> dresult S) fs s d tl :
  forallb (fun f => u32b f.1) fs = true ->
  len (fields_bytes fs) <= MAX_FRAME_LEN -> dec_ok d ->
  remaining d = fields_bytes fs ++ tl -> body_limit d = (pos d + length (fields_bytes fs))%nat ->
  while_fields step s d =
    finish (fold_fields step s fs) (advance (length (fields_bytes fs)) d).
Proof.
  revert s d; induction fs as [|[id v] fs IH]; intros s d Hw Hl Hd Hr Hb; rewrite while_fields_eq;
    unfold mbind, M_bind.
  - rewrite read_field_end by (rewrite Hb; simpl; lia). by rewrite advance_0.
  - cbn in Hw, Hl, Hr, Hb. split_bools. rewrite len_app in Hl. rewrite <- app_assoc in Hr.
    rewrite length_app in Hb. pose proof (len_nonneg (fields_bytes fs)).
    pose proof (len_nonneg (write_field id v)).
    pose proof (varint_field_len id v). pose proof (length_varint id).
    change (concat (map (fun f => write_field f.1 f.2) fs)) with (fields_bytes fs) in *.
    rewrite (read_field_ok id v d (fields_bytes fs ++ tl)); [|done|lia|done|done|lia].
    cbn [fold_fields]. unfold lift. destruct (step s id v) as [s'|e]; [|done].
    cbn [mbind result_bind]. rewrite IH; [|done|lia|by eapply dec_ok_advance|by eapply remaining_advance|].
    + cbn [fields_bytes map concat fst snd]. by rewrite advance_advance, length_app.
    + unfold body_limit in *; simpl. lia.
Qed.

(** ** The shape of a body decoder *)

(** [m] is a loop over the fields that ignores every id above [last], followed by
    checks that leave the cursor alone. *)
Definition tlv_decoder {A} (l : BootstrapLimits) (last : Z) (m : M A) : Prop :=
  exists (S : Type) (step : S -> Z -> bytes -> dresult S) (s0 : S) (k : S -> dresult A),
    (forall s id v, last < id -> step s id v = Ok s) /\
    (forall d, has_limits l d -> m d = (while_fields step s0 ≫= fun s => lift (k s)) d).

(** [m] looks at nothing of the cursor but the limits. *)
Definition pure_at {A} (l : BootstrapLimits) (m : M A) : Prop :=
  exists r, forall d, has_limits l d -> m d = lift r d.

Lemma pure_ret {A} l (a : A) : pure_at l (mret a).
Proof. by exists (Ok a). Qed.
Lemma pure_lift {A} l (r : dresult A) : pure_at l (lift r).
Proof. by exists r. Qed.
Lemma pure_fail {A} l e : pure_at l (@fail A e).
Proof. by exists (Err e). Qed.
Lemma pure_bind {A B} l (m : M A) (k : A -> M B) :
  pure_at l m -> (forall a, pure_at l (k a)) -> pure_at l (m ≫= k).
Proof.
  intros [[a|e] Hm] Hk.
  - destruct (Hk a) as [r Hr]. exists r. intros d Hd. unfold mbind, M_bind.
    rewrite Hm by done. by apply Hr.
  - exists (Err e). intros d Hd. unfold mbind, M_bind. by rewrite Hm.
Qed.
Lemma pure_if {A} l (b : bool) (m1 m2 : M A) :
  pure_at l m1 -> pure_at l m2 -> pure_at l (if b then m1 else m2).
Proof. by destruct b. Qed.

(** A cursor with the limits and nothing else. *)
Definition blank (l : BootstrapLimits) : Decoder :=
  mkDecoder [] 0 None (max_chunk_bytes l) (max_page_bytes l).

Lemma has_limits_blank l : has_limits l (blank l).
Proof. done. Qed.

Lemma pure_get {A} l (k : Decoder -> M A) :
  (forall d, has_limits l d -> k d = k (blank l)) -> pure_at l (k (blank l)) ->
  pure_at l (get ≫= k).
Proof.
  intros Hk [r Hr]. exists r. intros d Hd. unfold mbind, M_bind, get. rewrite Hk by done. by apply Hr.
Qed.

Lemma read_field_none d d' : read_field d = Ok (None, d') -> d' = d.
Proof.
  unfold read_field, field_body. destruct (at_body_end d); [by intros [= <-]|].
  unfold mbind, M_bind, lift, fail, mret, M_ret. intros E. repeat (case_match; simplify_eq).
Qed.

Lemma moving_while_fields {S} (step : S -> Z -> bytes -> dresult S) s : moving (while_fields step s).
Proof.
  intros d. unfold while_fields. generalize (Datatypes.S (length (input d) - pos d)).
  intros n. revert s d. induction n as [|n IH]; intros s d; cbn [while_fields_loop]; [apply moving_fail|].
  intros s' d'. unfold mbind, M_bind.
  destruct (read_field d) as [[[[id v]|] d1]|] eqn:E; [| |done].
  - apply read_field_advances in E as [Hm _]. unfold lift. destruct (step s id v); [|done].
    intros Hr. eapply moves_trans; [done | by eapply IH].
  - apply read_field_none in E as ->. intros [= _ <-]. apply moves_refl.
Qed.

Lemma tlv_intro {A S} l last (step : S -> Z -> bytes -> dresult S) s0 (k : S -> M A) :
  (forall s id v, last < id -> step s id v = Ok s) -> (forall s, pure_at l (k s)) ->
  tlv_decoder l last (while_fields step s0 ≫= k).
Proof.
  intros Hs Hk.
  exists S, step, s0, (fun s => match k s (blank l) with Ok (a, _) => Ok a | Err e => Err e end).
  split; [done|]. intros d Hd. unfold mbind, M_bind.
  destruct (while_fields step s0 d) as [[s d']|] eqn:E; [|done].
  destruct (Hk s) as [r Hr]. rewrite (Hr (blank l)) by done. rewrite Hr.
  - unfold lift. by destruct r.
  - apply moving_while_fields in E as (Ed & _). rewrite Ed. exact Hd.
Qed.

Lemma tlv_get {A} l last (k : Decoder -> M A) :
  (forall d, has_limits l d -> k d = k (blank l)) -> tlv_decoder l last (k (blank l)) ->
  tlv_decoder l last (get ≫= k).
Proof.
  intros Hk (S & step & s0 & k' & Hs & H). exists S, step, s0, k'. split; [done|].
  intros d Hd. unfold mbind at 1, M_bind at 1, get. rewrite Hk by done. by apply H.
Qed.

Lemma tlv_bind {A B} l last (m : M A) (k : A -> M B) :
  tlv_decoder l last m -> (forall a, pure_at l (k a)) -> tlv_decoder l last (m ≫= k).
Proof.
  intros (S & step & s0 & k0 & Hs & H) Hk.
  exists S, step, s0, (fun s => match k0 s with
    | Ok a => match k a (blank l) with Ok (b, _) => Ok b | Err e => Err e end
    | Err e => Err e end).
  split; [done|]. intros d Hd. unfold mbind at 1, M_bind at 1. rewrite H by done.
  unfold mbind, M_bind. destruct (while_fields step s0 d) as [[s d']|] eqn:E; [|done].
  unfold lift at 1. destruct (k0 s) as [a|e]; [|done].
  destruct (Hk a) as [r Hr]. rewrite (Hr (blank l)) by done. rewrite Hr.
  - unfold lift. by destruct r.
  - apply moving_while_fields in E as (Ed & _). rewrite Ed. exact Hd.
Qed.

(** Discharges the two sides of [tlv_intro]. *)
Ltac pure_tac :=
  repeat first
    [ apply pure_ret | apply pure_lift | apply pure_fail
    | apply pure_bind; [|intros ?] | apply pure_if
    | match goal with |- pure_at _ (match ?x with _ => _ end) => destruct x end ].

(** No field id of the catalog is above 15 (the last one is [bind_instance]). *)
Definition LAST_FIELD_ID : Z := spawn_terminal_BIND_INSTANCE.

(** The step functions of the decoders, for unfolding. *)
Create HintDb steps.
#[export] Hint Unfold
  ping_step pong_step terminal_output_step attach_step input_key_step input_mouse_step
  input_focus_step input_paste_step input_terminal_reply_step frame_ack_step
  viewport_resize_step attach_ready_step bootstrap_chunk_step history_page_step detached_step
  bootstrap_begin_step bootstrap_ready_step history_request_step bootstrap_tombstone_step
  history_tombstone_step history_rejected_step bell_step error_step set_metadata_step
  list_metadata_step subscribe_metadata_step metadata_changed_step metadata_value_step
  metadata_keys_step spawn_terminal_step hello_ok_step terminal_spawned_step move_terminal_step
  terminal_moved_step terminal_closed_step terminal_resize_step command_frame_step
  subscribe_events_step event_step hello_step attached_step command_result_frame_step
  frame_compressed_step list_directory_step absorb metadata_scope_key_step : steps.

(** A step of the source ignores an id it does not name. *)
Ltac skip_step :=
  intros st id v Hid; autounfold with steps; repeat destruct st as [st ?];
  unfold LAST_FIELD_ID, spawn_terminal_BIND_INSTANCE in Hid;
  repeat match goal with
  | |- context [?a =? ?b] =>
      let E := fresh in assert (E : (a =? b) = false) by (apply Z.eqb_neq; cbv; intros ->; lia);
      rewrite E; clear E
  end; reflexivity.
Ltac tlv := apply tlv_intro; [skip_step | intros ?; pure_tac].

Section Catalog.
Context `{RJ : ReportJson} `{IT : IpText} `{FL : Flate}.

Lemma tlv_bootstrap_chunk l : tlv_decoder l LAST_FIELD_ID decode_bootstrap_chunk.
Proof. apply tlv_get; [intros d [-> _]; reflexivity | tlv]. Qed.
Lemma tlv_history_page l : tlv_decoder l LAST_FIELD_ID decode_history_page.
Proof. apply tlv_get; [intros d [_ ->]; reflexivity | tlv]. Qed.
Lemma tlv_history_rejected l : tlv_decoder l LAST_FIELD_ID decode_history_rejected.
Proof.
  apply tlv_intro; [skip_step|]. intros s. repeat destruct s as [s ?].
  apply pure_bind; [|intros ?; pure_tac].
  apply pure_get; [intros d [_ ->]; reflexivity | pure_tac].
Qed.
Lemma tlv_frame_compressed l : tlv_decoder l LAST_FIELD_ID decode_frame_compressed.
Proof.
  apply tlv_get; [|tlv]. intros d [H1 H2].
  unfold max_compressed_frame_bytes, inner_decoder. by rewrite H1, H2.
Qed.
Lemma tlv_scope_key l : tlv_decoder l LAST_FIELD_ID decode_metadata_scope_key.
Proof. tlv. Qed.
Lemma tlv_list_directory l : tlv_decoder l LAST_FIELD_ID decode_list_directory.
Proof.
  exists _, list_directory_step, (0, [], None), (fun s => Ok s). split; [skip_step|].
  intros d _. unfold mbind, M_bind, decode_list_directory. by destruct (while_fields _ _ d) as [[]|].
Qed.

(** Every type byte of the catalog leads to such a decoder. *)
Lemma tlv_catalog l tb : tb ∈ frame_types -> tlv_decoder l LAST_FIELD_ID (decode_body tb).
Proof.
  intros H. unfold frame_types in H.
  repeat (apply elem_of_cons in H as [->|H]); [..|by apply not_elem_of_nil in H].
  - change (decode_body TYPE_HELLO) with decode_hello. tlv.
  - change (decode_body TYPE_ATTACH) with decode_attach. tlv.
  - change (decode_body TYPE_DETACH) with decode_detach. apply tlv_intro; [done | intros ?; pure_tac].
  - change (decode_body TYPE_INPUT_KEY) with decode_input_key. tlv.
  - change (decode_body TYPE_INPUT_PASTE) with decode_input_paste. tlv.
  - change (decode_body TYPE_INPUT_MOUSE) with decode_input_mouse. tlv.
  - change (decode_body TYPE_INPUT_FOCUS) with decode_input_focus. tlv.
  - change (decode_body TYPE_HISTORY_REQUEST) with decode_history_request. tlv.
  - change (decode_body TYPE_INPUT_TERMINAL_REPLY) with decode_input_terminal_reply. tlv.
  - change (decode_body TYPE_FRAME_ACK) with decode_frame_ack. tlv.
  - change (decode_body TYPE_VIEWPORT_RESIZE) with decode_viewport_resize. tlv.
  - change (decode_body TYPE_PING) with decode_ping. tlv.
  - change (decode_body TYPE_HELLO_OK) with decode_hello_ok. tlv.
  - change (decode_body TYPE_ATTACHED) with decode_attached. tlv.
  - change (decode_body TYPE_DETACHED) with decode_detached. tlv.
  - change (decode_body TYPE_ATTACH_READY) with decode_attach_ready. tlv.
  - change (decode_body TYPE_BELL) with decode_bell. tlv.
  - change (decode_body TYPE_ERROR) with decode_error. tlv.
  - change (decode_body TYPE_PONG) with decode_pong. tlv.
  - change (decode_body TYPE_RESOURCE_OUTPUT) with decode_terminal_output. tlv.
  - change (decode_body TYPE_BOOTSTRAP_BEGIN) with decode_bootstrap_begin. tlv.
  - change (decode_body TYPE_BOOTSTRAP_CHUNK) with decode_bootstrap_chunk. apply tlv_bootstrap_chunk.
  - change (decode_body TYPE_BOOTSTRAP_READY) with decode_bootstrap_ready. tlv.
  - change (decode_body TYPE_HISTORY_PAGE) with decode_history_page. apply tlv_history_page.
  - change (decode_body TYPE_BOOTSTRAP_TOMBSTONE) with decode_bootstrap_tombstone. tlv.
  - change (decode_body TYPE_HISTORY_TOMBSTONE) with decode_history_tombstone. tlv.
  - change (decode_body TYPE_HISTORY_REJECTED) with decode_history_rejected. apply tlv_history_rejected.
  - change (decode_body TYPE_FRAME_COMPRESSED) with decode_frame_compressed. apply tlv_frame_compressed.
  - change (decode_body TYPE_GET_METADATA) with decode_get_metadata. apply tlv_bind; [apply tlv_scope_key | intros ?; pure_tac].
  - change (decode_body TYPE_SET_METADATA) with decode_set_metadata. tlv.
  - change (decode_body TYPE_DELETE_METADATA) with decode_delete_metadata. apply tlv_bind; [apply tlv_scope_key | intros ?; pure_tac].
  - change (decode_body TYPE_LIST_METADATA) with decode_list_metadata. tlv.
  - change (decode_body TYPE_SUBSCRIBE_METADATA) with decode_subscribe_metadata. tlv.
  - change (decode_body TYPE_METADATA_CHANGED) with decode_metadata_changed. tlv.
  - change (decode_body TYPE_METADATA_VALUE) with decode_metadata_value. tlv.
  - change (decode_body TYPE_METADATA_KEYS) with decode_metadata_keys. tlv.
  - change (decode_body TYPE_LIST_DIRECTORY) with decode_list_directory_frame. apply tlv_bind; [apply tlv_list_directory | intros ?; pure_tac].
  - change (decode_body TYPE_DIRECTORY_LISTING) with decode_directory_listing_frame. apply tlv_bind; [tlv | intros ?; pure_tac].
  - change (decode_body TYPE_SPAWN_RESOURCE) with decode_spawn_terminal. tlv.
  - change (decode_body TYPE_RESIZE_TERMINAL) with decode_terminal_resize. tlv.
  - change (decode_body TYPE_MOVE_RESOURCE) with decode_move_terminal. tlv.
  - change (decode_body TYPE_RESOURCE_MOVED) with decode_terminal_moved. tlv.
  - change (decode_body TYPE_RESOURCE_CLOSED) with decode_terminal_closed. tlv.
  - change (decode_body TYPE_RESOURCE_SPAWNED) with decode_terminal_spawned. tlv.
  - change (decode_body TYPE_COMMAND) with decode_command_frame. tlv.
  - change (decode_body TYPE_COMMAND_RESULT) with decode_command_result_frame. tlv.
  - change (decode_body TYPE_SUBSCRIBE_EVENTS) with decode_subscribe_events. tlv.
  - change (decode_body TYPE_EVENT) with decode_event. tlv.
Qed.

(** ** One frame at the front of the input *)

(** The bytes of a frame with the given type byte and body fields. *)
Definition frame_bytes (tb : Z) (body : bytes) : bytes :=
  write_u32_be (1 + len body) ++ write_u8 tb ++ body.

(** The cursor [read_frame] hands to the body decoder. *)
Definition body_cursor (l : BootstrapLimits) (tb : Z) (body tail : bytes) : Decoder :=
  mkDecoder (frame_bytes tb body ++ tail) 5 (Some (5 + length body)%nat)
    (max_chunk_bytes l) (max_page_bytes l).

Lemma length_frame_bytes tb body : length (frame_bytes tb body) = (5 + length body)%nat.
Proof. unfold frame_bytes, write_u32_be, write_u8. rewrite !length_app, length_to_be. cbn. lia. Qed.

Lemma remaining_body_cursor l tb body tail : remaining (body_cursor l tb body tail) = body ++ tail.
Proof.
  unfold remaining, body_cursor, frame_bytes. cbn [input pos]. rewrite <- !app_assoc.
  unfold write_u32_be, write_u8. change 5%nat with (4 + 1)%nat. rewrite <- drop_drop.
  rewrite <- (length_to_be 4 (1 + len body)) at 1. by rewrite drop_app_length.
Qed.

Lemma read_frame_framed l tb body tail :
  u8b tb = true -> 1 + len body <= MAX_FRAME_LEN -> len (frame_bytes tb body ++ tail) <= isize_max ->
  decode_with_limits (frame_bytes tb body ++ tail) l =
    match decode_body tb (body_cursor l tb body tail) with
    | Ok (f, d) => if (5 + length body <? pos d)%nat then Err LengthOverflow
                   else Ok (f, drop (5 + length body) (input d))
    | Err e => Err e
    end.
Proof.
  intros Htb Hl Hi. unfold decode_with_limits, read_frame. pose proof (len_nonneg body) as Hn.
  set (d0 := Decoder_with_bootstrap_limits (frame_bytes tb body ++ tail) l).
  assert (Hd0 : dec_ok d0) by (split; [cbn; lia | done]).
  assert (Hr0 : remaining d0 = write_u32_be (1 + len body) ++ (write_u8 tb ++ body) ++ tail).
  { unfold d0, frame_bytes. cbn. by rewrite <- !app_assoc. }
  assert (H4 : reads read_u32_be (write_u32_be (1 + len body)) (1 + len body)).
  { apply reads_u32, u32b_spec. unfold MAX_FRAME_LEN in Hl. lia. }
  rewrite (H4 d0 _ ltac:(unfold write_u32_be; rewrite len_to_be; done) Hd0 Hr0).
  cbn [mbind result_bind]. rewrite (proj2 (Z.leb_le _ _)), (proj2 (Z.leb_le _ _)) by lia. cbn [andb negb].
  replace (length (write_u32_be (1 + len body))) with 4%nat by (unfold write_u32_be; by rewrite length_to_be).
  change (input (advance 4 d0)) with (frame_bytes tb body ++ tail).
  change (pos (advance 4 d0)) with 4%nat.
  unfold checked_add_usize, usize_max, u64_max.
  rewrite (proj2 (Z.leb_le _ _)) by (unfold MAX_FRAME_LEN in Hl; lia). cbn [ok_or mbind result_bind].
  rewrite (proj2 (Z.ltb_ge _ _)).
  2:{ rewrite len_app. unfold len. rewrite length_frame_bytes. lia. }
  replace (Z.to_nat (Z.of_nat 4 + (1 + len body))) with (5 + length body)%nat by (unfold len; lia).
  set (d1 := mkDecoder _ 4%nat _ _ _).
  assert (Hr1 : remaining d1 = write_u8 tb ++ body ++ tail).
  { unfold d1, remaining. cbn [input pos]. unfold frame_bytes. rewrite <- !app_assoc.
    unfold write_u32_be. rewrite <- (length_to_be 4 (1 + len body)) at 1. cbn [Nat.add]. by rewrite drop_app_length. }
  assert (Hd1 : dec_ok d1).
  { split; [|done]. unfold d1. cbn [pos input]. rewrite length_app, length_frame_bytes. lia. }
  rewrite (reads_u8 tb Htb d1 _ ltac:(done) Hd1 Hr1). cbn [mbind result_bind].
  change (advance (length (write_u8 tb)) d1) with (body_cursor l tb body tail).
  destruct (decode_body tb _) as [[f d]|]; [|done]. cbn [mbind result_bind].
  destruct (_ <? _)%nat; done.
Qed.

Lemma body_cursor_ok l tb body tail :
  len (frame_bytes tb body ++ tail) <= isize_max ->
  dec_ok (body_cursor l tb body tail) /\ has_limits l (body_cursor l tb body tail).
Proof.
  intros. split; [|done]. split; [|done]. unfold body_cursor. cbn [pos input].
  rewrite length_app, length_frame_bytes. lia.
Qed.

Lemma type_byte_u8 f : u8b (type_byte f) = true.
Proof. by destruct f. Qed.

Lemma encode_frame_bytes f :
  len (encode_body f) <= MAX_FRAME_LEN -> encode f = frame_bytes (type_byte f) (encode_payload f).
Proof.
  intros H. unfold encode. rewrite saturate_small by exact H.
  unfold encode_body, frame_bytes. by rewrite len_app.
Qed.

(** The round trip, as a lemma the later files share. *)
Lemma decode_encode_with_limits l f tail :
  wf_frame l f = true -> len (encode_body f) <= MAX_FRAME_LEN ->
  len (encode f ++ tail) <= isize_max ->
  decode_with_limits (encode f ++ tail) l = Ok (f, tail).
Proof.
  intros Hw Hb Hi. rewrite encode_frame_bytes in * by done.
  assert (Hb' : 1 + len (encode_payload f) <= MAX_FRAME_LEN).
  { unfold encode_body in Hb. rewrite len_app in Hb. exact Hb. }
  rewrite read_frame_framed by (try apply type_byte_u8; done).
  destruct (body_cursor_ok l (type_byte f) (encode_payload f) tail Hi) as [Hd Hl].
  pose proof (len_nonneg (encode_payload f)).
  assert (E : decode_body (type_byte f) (body_cursor l (type_byte f) (encode_payload f) tail)
    = Ok (f, advance (length (encode_payload f)) (body_cursor l (type_byte f) (encode_payload f) tail))).
  { pose proof (reads_catalog l decode_frame_compressed f Hw) as Hc. unfold reads_at in Hc.
    unfold decode_body. apply (Hc _ tail); [exact Hl|lia|exact Hd|apply remaining_body_cursor|reflexivity]. }
  rewrite E. clear E.
  rewrite (proj2 (Nat.ltb_ge _ _)) by (cbn; lia). unfold body_cursor. cbn [advance set_pos input].
  by rewrite <- (length_frame_bytes (type_byte f)), drop_app_length.
Qed.

(** ** Unknown fields *)

Definition known_field (f : Z * bytes) : bool := f.1 <=? LAST_FIELD_ID.

Lemma fold_fields_skip {S} (step : S -> Z -> bytes -> dresult S) s fs :
  (forall s id v, LAST_FIELD_ID < id -> step s id v = Ok s) ->
  fold_fields step s (List.filter known_field fs) = fold_fields step s fs.
Proof.
  intros Hs. revert s; induction fs as [|[id v] fs IH]; intros s; cbn; [done|].
  unfold known_field at 1. cbn [fst]. destruct (Z.leb_spec id LAST_FIELD_ID); cbn.
  - destruct (step s id v); cbn; [apply IH | done].
  - rewrite Hs by done. apply IH.
Qed.

Lemma fields_bytes_filter_le p fs : len (fields_bytes (List.filter p fs)) <= len (fields_bytes fs).
Proof.
  unfold fields_bytes. induction fs as [|f fs IH]; cbn; [done|].
  destruct (p f); cbn; rewrite ?len_app; pose proof (len_nonneg (write_field f.1 f.2)); lia.
Qed.

Lemma fields_u32_filter p (fs : list (Z * bytes)) :
  forallb (fun f => u32b f.1) fs = true -> forallb (fun f => u32b f.1) (List.filter p fs) = true.
Proof.
  rewrite !forallb_forall. intros H x [Hx _]%filter_In. by apply H.
Qed.

(** A type byte outside the catalog is refused whatever the body. *)
Lemma unknown_type_byte tb d : tb ∉ frame_types -> decode_body tb d = Err (UnknownFrameKind tb).
Proof.
  intros H. unfold decode_body, catalog_body, frame_types in *.
  repeat match goal with
  | H : tb ∉ _ :: _ |- _ => apply not_elem_of_cons in H as [?Hn H]
  end. clear H.
  repeat match goal with
  | Hn : tb <> ?t |- context [tb =? ?t] => rewrite (proj2 (Z.eqb_neq tb t) Hn)
  end. reflexivity.
Qed.

(** What [decode_with_limits] makes of a frame whose body is a list of fields. *)
Lemma decode_fields l tb :
  u8b tb = true -> tb ∈ frame_types ->
  exists (S : Type) (step : S -> Z -> bytes -> dresult S) (s0 : S) (k : S -> dresult FrameKind),
    (forall s id v, LAST_FIELD_ID < id -> step s id v = Ok s) /\
    (forall fs tail, forallb (fun f => u32b f.1) fs = true ->
       1 + len (fields_bytes fs) <= MAX_FRAME_LEN ->
       len (frame_bytes tb (fields_bytes fs) ++ tail) <= isize_max ->
       decode_with_limits (frame_bytes tb (fields_bytes fs) ++ tail) l =
         f ← (s ← fold_fields step s0 fs; k s); Ok (f, tail)).
Proof.
  intros Htb Hin. destruct (tlv_catalog l tb Hin) as (S & step & s0 & k & Hs & Hm).
  exists S, step, s0, k. split; [done|]. intros fs tail Hu Hl Hi.
  pose proof (len_nonneg (fields_bytes fs)). rewrite read_frame_framed by done.
  destruct (body_cursor_ok l tb (fields_bytes fs) tail Hi) as [Hd Hlim].
  rewrite Hm by done. unfold mbind at 1, M_bind at 1.
  rewrite (while_fields_run step fs s0 _ tail); [|done|lia|done|apply remaining_body_cursor|done].
  destruct (fold_fields step s0 fs) as [s|e]; [|done]. cbn [finish]. rewrite bind_ok.
  unfold lift. destruct (k s) as [f|e]; [|done]. rewrite bind_ok.
  rewrite (proj2 (Nat.ltb_ge _ _)) by (cbn; lia). unfold body_cursor. cbn [advance set_pos input].
  by rewrite <- (length_frame_bytes tb), drop_app_length.
Qed.

Lemma isize_filter tb fs tail :
  len (frame_bytes tb (fields_bytes fs) ++ tail) <= isize_max ->
  len (frame_bytes tb (fields_bytes (List.filter known_field fs)) ++ tail) <= isize_max.
Proof.
  rewrite !len_app. pose proof (fields_bytes_filter_le known_field fs). unfold len in *.
  rewrite !length_frame_bytes. lia.
Qed.

(** ** What a frame consumes, and what follows it *)

(** The same cursor over a longer input. *)
Definition extend (x : bytes) (d : Decoder) : Decoder :=
  mkDecoder (input d ++ x) (pos d) (body_end d) (max_bootstrap_chunk_bytes d)
    (max_history_page_bytes d).

(** A step that succeeds does the same when bytes are appended to the input. *)
Definition extending {A} (m : M A) : Prop :=
  forall x d a d', body_end d <> None -> m d = Ok (a, d') -> m (extend x d) = Ok (a, extend x d').

Lemma extending_bind {A B} (m : M A) (k : A -> M B) :
  moving m -> extending m -> (forall a, extending (k a)) -> extending (m ≫= k).
Proof.
  intros Hmv Hm Hk x d b d'. unfold mbind, M_bind.
  destruct (m d) as [[a d1]|] eqn:E; [|done]. intros Hb Hr.
  rewrite (Hm x _ _ _ Hb E). apply Hk; [|done].
  apply Hmv in E as (-> & _). exact Hb.
Qed.

Lemma extending_take n : 0 <= n -> extending (take_n n).
Proof.
  intros Hn x d a d' _ E. destruct (take_n_inv _ _ _ _ Hn E) as (-> & -> & Hle).
  assert (Hc : exists e, checked_add_usize (Z.of_nat (pos d)) n = Some e /\ Z.to_nat e = (pos d + Z.to_nat n)%nat
    /\ 0 <= e).
  { unfold take_n in E. destruct (checked_add_usize (Z.of_nat (pos d)) n) as [e|] eqn:Ec; [|done].
    exists e. split; [done|]. unfold checked_add_usize in Ec.
    destruct (_ <=? _) in Ec; [|done]. injection Ec as <-. lia. }
  destruct Hc as (e & Hc & He & He0). unfold take_n. cbn [extend pos input]. rewrite Hc.
  rewrite (proj2 (Z.ltb_ge _ _)) by (unfold len; rewrite length_app; lia). rewrite He.
  unfold remaining. rewrite drop_app_le by lia. rewrite take_app_le by (rewrite length_drop; lia). done.
Qed.

Lemma extending_ret {A} (a : A) : extending (mret a).
Proof. by intros x d a' d' _ [= <- <-]. Qed.
Lemma extending_fail {A} e : extending (@fail A e).
Proof. done. Qed.
Lemma extending_lift {A} (r : dresult A) : extending (lift r).
Proof. intros x d a d' _. unfold lift. destruct r; [by intros [= <- <-]|done]. Qed.

Lemma extending_u8 : extending read_u8.
Proof. apply extending_bind; [by apply moving_take|by apply extending_take|intros; apply extending_ret]. Qed.

Lemma extending_varint_loop n r sh : extending (read_varint_loop n r sh).
Proof.
  revert r sh; induction n as [|n IH]; intros r sh.
  { apply extending_fail. }
  cbn [read_varint_loop]. destruct (64 <=? sh); [apply extending_fail|].
  apply extending_bind; [apply moving_read_u8|apply extending_u8|]. intros b. cbv zeta.
  destruct (_ =? 0); [apply extending_ret|apply IH].
Qed.

Lemma extending_varint : extending read_varint.
Proof. apply extending_varint_loop. Qed.

Lemma at_body_end_extend x d : body_end d <> None -> at_body_end (extend x d) = at_body_end d.
Proof. unfold at_body_end, body_limit. cbn [extend body_end pos input]. by destruct (body_end d). Qed.

Lemma extending_read_field : extending read_field.
Proof.
  intros x d f d' Hb. unfold read_field, field_body. rewrite at_body_end_extend by done.
  destruct (at_body_end d); [by intros [= <- <-]|]. revert Hb.
  match goal with |- _ -> ?m d = _ -> _ => cut (extending m); [intros H ?; by apply H|] end.
  apply extending_bind; [apply moving_read_varint|apply extending_varint|]. intros id.
  apply extending_bind; [apply moving_lift|apply extending_lift|]. intros fid.
  apply extending_bind; [apply moving_read_u8|apply extending_u8|]. intros wt.
  clear x d f d'. intros x d f d' Hb. unfold mbind, M_bind.
  destruct (read_varint d) as [[n d1]|] eqn:E; [|done].
  pose proof (read_varint_nonneg _ _ _ E) as Hn.
  rewrite (extending_varint x _ _ _ Hb E). destruct (_ <? n); [done|].
  assert (Hb1 : body_end d1 <> None) by (apply moving_read_varint in E as (-> & _); exact Hb).
  destruct (take_n n d1) as [[v d2]|] eqn:Et; [|done].
  rewrite (extending_take n Hn x _ _ _ Hb1 Et). by intros [= <- <-].
Qed.

(** More fuel changes nothing once the loop has an answer. *)
Lemma while_fields_loop_mono {S} (step : S -> Z -> bytes -> dresult S) n m s d r :
  (n <= m)%nat -> while_fields_loop n step s d = Ok r -> while_fields_loop m step s d = Ok r.
Proof.
  revert m s d; induction n as [|n IH]; intros m s d Hm; [done|]. destruct m as [|m]; [lia|].
  cbn [while_fields_loop]. unfold mbind, M_bind.
  destruct (read_field d) as [[[[id v]|] d1]|]; [|done|done].
  unfold lift. destruct (step s id v); [|done]. apply IH. lia.
Qed.

Lemma extending_while_fields {S} (step : S -> Z -> bytes -> dresult S) s : extending (while_fields step s).
Proof.
  intros x d s' d' Hb. unfold while_fields at 1. intros E.
  apply while_fields_loop_mono with (n := Datatypes.S (length (input d) - pos d)).
  { cbn [extend input pos]. rewrite length_app. lia. }
  revert Hb E. generalize (Datatypes.S (length (input d) - pos d)). intros n. revert s d.
  induction n as [|n IH]; intros s d Hb; cbn [while_fields_loop]; [done|]. unfold mbind, M_bind.
  destruct (read_field d) as [[f d1]|] eqn:E; [|done].
  rewrite (extending_read_field x _ _ _ Hb E).
  destruct f as [[id v]|]; [|by intros [= <- <-]].
  apply read_field_advances in E as [(Ed & _) _].
  unfold lift. destruct (step s id v); [|done]. apply IH. rewrite Ed. exact Hb.
Qed.

Lemma extending_decode_body l tb x d f d' :
  has_limits l d -> body_end d <> None -> decode_body tb d = Ok (f, d') ->
  decode_body tb (extend x d) = Ok (f, extend x d') /\ moves d d'.
Proof.
  intros Hl Hb E. destruct (decide (tb ∈ frame_types)) as [Hin|Hin];
    [|by rewrite unknown_type_byte in E].
  destruct (tlv_catalog l tb Hin) as (S & step & s0 & k & _ & Hm).
  rewrite Hm in E by done. rewrite Hm by done. split.
  - revert E. apply extending_bind; [apply moving_while_fields|apply extending_while_fields| |done].
    intros; apply extending_lift.
  - revert E. apply moving_bind; [apply moving_while_fields|]. intros; apply moving_lift.
Qed.

(** The cursor behind the header and the type byte of an input whose header says [n]. *)
Definition frame_cursor (l : BootstrapLimits) (input : bytes) (n : nat) : Decoder :=
  mkDecoder input 5 (Some (4 + n)%nat) (max_chunk_bytes l) (max_page_bytes l).

Lemma take_n_ok n d :
  (pos d + n <= length (input d))%nat -> Z.of_nat (length (input d)) <= usize_max ->
  take_n (Z.of_nat n) d = Ok (take n (remaining d), advance n d).
Proof.
  intros H Hu. unfold take_n, checked_add_usize.
  rewrite (proj2 (Z.leb_le _ _)), (proj2 (Z.ltb_ge _ _)) by (unfold len; lia).
  rewrite Nat2Z.id. unfold advance. do 3 f_equal. lia.
Qed.

Lemma decode_ok_iff l inp f rest :
  Z.of_nat (length inp) <= usize_max ->
  decode_with_limits inp l = Ok (f, rest) <->
  exists n d', 1 <= Z.of_nat n <= MAX_FRAME_LEN /\ of_be (take 4 inp) = Z.of_nat n
    /\ (4 + n <= length inp)%nat /\ rest = drop (4 + n) inp
    /\ decode_body (of_be (take 1 (drop 4 inp))) (frame_cursor l inp n) = Ok (f, d')
    /\ (pos d' <= 4 + n)%nat /\ input d' = inp.
Proof.
  intros Hu. unfold decode_with_limits, read_frame.
  set (d0 := Decoder_with_bootstrap_limits inp l).
  destruct (decide (4 <= length inp)%nat) as [H4|H4].
  2:{ split; [|intros (n & d' & ? & ? & ? & _); lia]. unfold read_u32_be, mbind, M_bind.
      destruct (take_n 4 d0) as [[b d]|] eqn:E; [|done].
      apply take_n_inv in E as (_ & _ & Hle); [cbn in Hle; lia|lia]. }
  assert (E4 : read_u32_be d0 = Ok (of_be (take 4 inp), advance 4 d0)).
  { unfold read_u32_be, mbind, M_bind. change 4 with (Z.of_nat 4).
    by rewrite (take_n_ok 4 d0) by (cbn; lia). }
  rewrite E4, bind_ok. cbv beta iota. set (len4 := of_be (take 4 inp)).
  destruct (Z.leb_spec 1 len4) as [H1|H1]; cbn [andb negb].
  2:{ split; [done|]. intros (n & d' & ? & ? & _); lia. }
  destruct (Z.leb_spec len4 MAX_FRAME_LEN) as [HM|HM]; cbn [negb].
  2:{ split; [done|]. intros (n & d' & ? & ? & _); lia. }
  change (pos (advance 4 d0)) with 4%nat. change (input (advance 4 d0)) with inp.
  unfold checked_add_usize. rewrite (proj2 (Z.leb_le _ _)) by (unfold MAX_FRAME_LEN, usize_max, u64_max in *; lia).
  cbn [ok_or]. rewrite bind_ok. destruct (Z.ltb_spec (len inp) (Z.of_nat 4 + len4)) as [HL|HL].
  { split; [done|]. intros (n & d' & ? & ? & ? & _). unfold len in HL. lia. }
  cbv zeta. unfold len in HL. replace (Z.to_nat (Z.of_nat 4 + len4)) with (4 + Z.to_nat len4)%nat by lia.
  set (d1 := mkDecoder inp 4 _ _ _).
  assert (E1 : read_u8 d1 = Ok (of_be (take 1 (drop 4 inp)), frame_cursor l inp (Z.to_nat len4))).
  { unfold read_u8, mbind, M_bind. change 1 with (Z.of_nat 1).
    by rewrite (take_n_ok 1 d1) by (cbn; lia). }
  rewrite E1, bind_ok. cbv beta iota. set (tb := of_be (take 1 (drop 4 inp))).
  destruct (decode_body tb (frame_cursor l inp (Z.to_nat len4))) as [[g d']|e] eqn:Ed.
  - rewrite bind_ok. cbv beta iota.
    assert (Hin : input d' = inp).
    { destruct (extending_decode_body l tb [] (frame_cursor l inp (Z.to_nat len4)) g d')
        as [_ (-> & _)]; done. }
    destruct (Nat.ltb_spec (4 + Z.to_nat len4) (pos d')) as [Hp|Hp].
    + split; [done|]. intros (n & d'' & _ & Hn & _ & _ & E & Hp' & _).
      replace n with (Z.to_nat len4) in * by lia. rewrite Ed in E. simplify_eq. lia.
    + unfold remaining. cbn [set_pos pos input]. rewrite Hin. split.
      * intros [= <- <-]. exists (Z.to_nat len4), d'. repeat split; try lia; done.
      * intros (n & d'' & _ & Hn & _ & -> & E & _). assert (n = Z.to_nat len4) as -> by lia.
        rewrite Ed in E. injection E as -> ->. reflexivity.
  - split; [done|]. intros (n & d'' & _ & Hn & _ & _ & E & _).
    replace n with (Z.to_nat len4) in * by lia. by rewrite Ed in E.
Qed.

(** ** Properties *)

(** C3: every frame of the catalog survives the wire: decoding an encoded well-formed
    frame, whatever bytes follow it, returns that frame and exactly those bytes. *)
Theorem frame_round_trip l f tail :
  wf_frame l f = true -> len (encode_body f) <= MAX_FRAME_LEN ->
  len (encode f ++ tail) <= isize_max ->
  decode_with_limits (encode f ++ tail) l = Ok (f, tail).
Proof. apply decode_encode_with_limits. Qed.

(** forward compatibility: fields whose id no message of this version uses, wherever
    they stand in a body, change nothing of what the decoder answers, errors included. *)
Theorem unknown_fields_skipped l tb fs tail :
  u8b tb = true -> forallb (fun f => u32b f.1) fs = true ->
  1 + len (fields_bytes fs) <= MAX_FRAME_LEN ->
  len (frame_bytes tb (fields_bytes fs) ++ tail) <= isize_max ->
  decode_with_limits (frame_bytes tb (fields_bytes fs) ++ tail) l =
  decode_with_limits (frame_bytes tb (fields_bytes (List.filter known_field fs)) ++ tail) l.
Proof.
  intros Htb Hu Hl Hi. pose proof (isize_filter _ _ _ Hi).
  pose proof (fields_bytes_filter_le known_field fs).
  destruct (decide (tb ∈ frame_types)) as [Hin|Hin].
  - destruct (decode_fields l tb Htb Hin) as (S & step & s0 & k & Hs & Hd).
    rewrite !Hd by (try apply fields_u32_filter; try done; lia).
    by rewrite fold_fields_skip.
  - rewrite !read_frame_framed by (try done; lia). by rewrite !unknown_type_byte.
Qed.

(** a decoder that returns a frame has consumed exactly the length header plus the
    number of bytes it announces, which lies in [1..=MAX_FRAME_LEN] and inside the input. *)
Theorem decode_consumes_declared l inp f rest :
  Z.of_nat (length inp) <= usize_max -> decode_with_limits inp l = Ok (f, rest) ->
  let n := of_be (take 4 inp) in
  1 <= n <= MAX_FRAME_LEN /\ 4 + n <= len inp /\ rest = drop (4 + Z.to_nat n) inp.
Proof.
  intros Hu (n & d' & Hn & -> & Hl & -> & _)%decode_ok_iff; [|done]. cbv zeta.
  rewrite Nat2Z.id. unfold len. repeat split; lia.
Qed.

(** What follows a frame never changes how it decodes: appending bytes to an input
    that decodes yields the same frame and the appended bytes in the remainder. *)
Theorem decode_tail_independent l inp f rest x :
  len (inp ++ x) <= usize_max -> decode_with_limits inp l = Ok (f, rest) ->
  decode_with_limits (inp ++ x) l = Ok (f, rest ++ x).
Proof.
  intros Hu. assert (Z.of_nat (length inp) <= usize_max).
  { unfold len in Hu. rewrite length_app in Hu. lia. }
  intros (n & d' & Hn & Hof & Hl & -> & Hd & Hp & Hi)%decode_ok_iff; [|done].
  apply decode_ok_iff; [exact Hu|]. exists n, (extend x d').
  rewrite take_app_le, !drop_app_le by lia.
  rewrite take_app_le by (rewrite length_drop; lia). rewrite length_app.
  destruct (extending_decode_body l (of_be (take 1 (drop 4 inp))) x (frame_cursor l inp n) f d')
    as [He _]; [done..|].
  repeat split; try lia; [exact He|exact Hp|]. cbn. by rewrite Hi.
Qed.
End Catalog.

(** ** Witnesses *)

(** An agent-session spawn with every block present. *)
Definition sample_spawn : FrameKind :=
  FrameKind_SpawnResource 7 1 None None None None (Some (str "hub")) None (Some [1; 2]) None
    (Some (mkSpawnResource ResourceKind_AgentSession (Some (ResourceId_Local 3))
             (Some (str "claude")) (Some (str "n-1")) true)).
Definition sample_limits : BootstrapLimits := mkLimits 4096 8192.

Lemma frame_round_trip_witness :
  wf_frame sample_limits sample_spawn = true /\
  decode_with_limits (encode sample_spawn ++ [9; 9]) sample_limits = Ok (sample_spawn, [9; 9]).
Proof.
  split; [vm_compute; reflexivity|].
  apply (frame_round_trip sample_limits sample_spawn [9; 9]); vm_compute; congruence.
Defined.

(** A [BELL] with two fields of a later version around its own. *)
Definition sample_fields : list (Z * bytes) :=
  [(40, [1; 2; 3]); (bell_TERMINAL_ID, encode_terminal_id (ResourceId_Local 5)); (1000, [])].

Lemma unknown_fields_skipped_witness :
  decode_with_limits (frame_bytes TYPE_BELL (fields_bytes sample_fields) ++ []) sample_limits =
    Ok (FrameKind_Bell (ResourceId_Local 5), []).
Proof.
  rewrite (unknown_fields_skipped sample_limits TYPE_BELL sample_fields []);
    vm_compute; congruence.
Defined.

Lemma decode_consumes_declared_witness :
  let inp := encode (FrameKind_Ping 5) ++ [1] in
  [1] = drop (4 + Z.to_nat (of_be (take 4 inp))) inp.
Proof.
  refine (proj2 (proj2 (decode_consumes_declared sample_limits _ (FrameKind_Ping 5) [1] _ _)));
    vm_compute; congruence.
Defined.

Lemma decode_tail_independent_witness :
  decode_with_limits ((encode (FrameKind_Ping 5) ++ [1]) ++ [2; 3]) sample_limits
    = Ok (FrameKind_Ping 5, [1] ++ [2; 3]).
Proof.
  apply (decode_tail_independent sample_limits (encode (FrameKind_Ping 5) ++ [1])); vm_compute; congruence.
Defined.

(** ** What a decoder can return

    Facts about the value of a successful decode whatever the input was, by the shape of
    the decoders: the variant returned is the one the type byte names. *)

(** Every value [m] returns satisfies [P]. *)
Definition yields {A} (P : A -> Prop) (m : M A) : Prop :=
  forall d a d', m d = Ok (a, d') -> P a.

Lemma yields_ret {A} (P : A -> Prop) a : P a -> yields P (mret a).
Proof. by intros H d b d' [= <- _]. Qed.
Lemma yields_fail {A} (P : A -> Prop) e : yields P (fail e).
Proof. done. Qed.
Lemma yields_lift {A} (P : A -> Prop) r : (forall a, r = Ok a -> P a) -> yields P (lift r).
Proof. intros H d a d'. unfold lift. destruct r; [|done]. intros [= <- _]. by apply H. Qed.
Lemma yields_bind {A B} (P : B -> Prop) (m : M A) (k : A -> M B) :
  (forall a, yields P (k a)) -> yields P (m ≫= k).
Proof.
  intros Hk d b d'. unfold mbind, M_bind. destruct (m d) as [[a d1]|]; [|done]. apply Hk.
Qed.
(** With what the first step is known to return. *)
Lemma yields_bind_val {A B} (Q : A -> Prop) (P : B -> Prop) (m : M A) (k : A -> M B) :
  yields Q m -> (forall a, Q a -> yields P (k a)) -> yields P (m ≫= k).
Proof.
  intros Hm Hk d b d'. unfold mbind, M_bind. destruct (m d) as [[a d1]|] eqn:E; [|done].
  apply Hk. by eapply Hm.
Qed.
Lemma yields_if {A} (P : A -> Prop) (b : bool) (m1 m2 : M A) :
  yields P m1 -> yields P m2 -> yields P (if b then m1 else m2).
Proof. by destruct b. Qed.

(** Walks a decoder to its returns. *)
Ltac yields_tac :=
  repeat first
    [ apply yields_ret | apply yields_fail
    | apply yields_bind; intros ? | apply yields_if
    | match goal with |- yields _ (match ?x with _ => _ end) => destruct x end ].

(** The same for a computation without the cursor: walks to its last step. *)
Ltac result_tac :=
  repeat match goal with
  | |- (_ ≫= _) = Ok _ -> _ => intros [? [_ ?]]%bind_inv
  | H : (_ ≫= _) = Ok _ |- _ => apply bind_inv in H as [? [_ H]]
  | H : Ok _ = Ok _ |- _ => injection H as <-
  end.

Section Catalog.
Context `{RJ : ReportJson} `{IT : IpText} `{FL : Flate}.

Definition of_type (tb : Z) (f : FrameKind) : Prop := type_byte f = tb.

Lemma yields_history_page : yields (of_type TYPE_HISTORY_PAGE) decode_history_page.
Proof.
  apply yields_bind; intros self. apply yields_bind; intros s. apply yields_lift; intros f.
  unfold history_page_checks. intros E. by result_tac.
Qed.

Ltac ytype := yields_tac; reflexivity.

(** The dispatch returns the variant its type byte names. *)
Lemma decode_body_type tb :
  tb <> TYPE_FRAME_COMPRESSED -> yields (of_type tb) (decode_body tb).
Proof.
  intros Hne. destruct (decide (tb ∈ frame_types)) as [H|H].
  2:{ intros d f d'. by rewrite unknown_type_byte. }
  unfold frame_types in H.
  repeat (apply elem_of_cons in H as [->|H]); [..|by apply not_elem_of_nil in H].
  - change (decode_body TYPE_HELLO) with decode_hello. unfold decode_hello. ytype.
  - change (decode_body TYPE_ATTACH) with decode_attach. unfold decode_attach. ytype.
  - change (decode_body TYPE_DETACH) with decode_detach. unfold decode_detach. ytype.
  - change (decode_body TYPE_INPUT_KEY) with decode_input_key. unfold decode_input_key. ytype.
  - change (decode_body TYPE_INPUT_PASTE) with decode_input_paste. unfold decode_input_paste. ytype.
  - change (decode_body TYPE_INPUT_MOUSE) with decode_input_mouse. unfold decode_input_mouse. ytype.
  - change (decode_body TYPE_INPUT_FOCUS) with decode_input_focus. unfold decode_input_focus. ytype.
  - change (decode_body TYPE_HISTORY_REQUEST) with decode_history_request. unfold decode_history_request. ytype.
  - change (decode_body TYPE_INPUT_TERMINAL_REPLY) with decode_input_terminal_reply. unfold decode_input_terminal_reply. ytype.
  - change (decode_body TYPE_FRAME_ACK) with decode_frame_ack. unfold decode_frame_ack. ytype.
  - change (decode_body TYPE_VIEWPORT_RESIZE) with decode_viewport_resize. unfold decode_viewport_resize. ytype.
  - change (decode_body TYPE_PING) with decode_ping. unfold decode_ping. ytype.
  - change (decode_body TYPE_HELLO_OK) with decode_hello_ok. unfold decode_hello_ok. ytype.
  - change (decode_body TYPE_ATTACHED) with decode_attached. unfold decode_attached. ytype.
  - change (decode_body TYPE_DETACHED) with decode_detached. unfold decode_detached. ytype.
  - change (decode_body TYPE_ATTACH_READY) with decode_attach_ready. unfold decode_attach_ready. ytype.
  - change (decode_body TYPE_BELL) with decode_bell. unfold decode_bell. ytype.
  - change (decode_body TYPE_ERROR) with decode_error. unfold decode_error. ytype.
  - change (decode_body TYPE_PONG) with decode_pong. unfold decode_pong. ytype.
  - change (decode_body TYPE_RESOURCE_OUTPUT) with decode_terminal_output. unfold decode_terminal_output. ytype.
  - change (decode_body TYPE_BOOTSTRAP_BEGIN) with decode_bootstrap_begin. unfold decode_bootstrap_begin. ytype.
  - change (decode_body TYPE_BOOTSTRAP_CHUNK) with decode_bootstrap_chunk. unfold decode_bootstrap_chunk. ytype.
  - change (decode_body TYPE_BOOTSTRAP_READY) with decode_bootstrap_ready. unfold decode_bootstrap_ready. ytype.
  - apply yields_history_page.
  - change (decode_body TYPE_BOOTSTRAP_TOMBSTONE) with decode_bootstrap_tombstone. unfold decode_bootstrap_tombstone. ytype.
  - change (decode_body TYPE_HISTORY_TOMBSTONE) with decode_history_tombstone. unfold decode_history_tombstone. ytype.
  - change (decode_body TYPE_HISTORY_REJECTED) with decode_history_rejected. unfold decode_history_rejected. ytype.
  - done.
  - change (decode_body TYPE_GET_METADATA) with decode_get_metadata. unfold decode_get_metadata. ytype.
  - change (decode_body TYPE_SET_METADATA) with decode_set_metadata. unfold decode_set_metadata. ytype.
  - change (decode_body TYPE_DELETE_METADATA) with decode_delete_metadata. unfold decode_delete_metadata. ytype.
  - change (decode_body TYPE_LIST_METADATA) with decode_list_metadata. unfold decode_list_metadata. ytype.
  - change (decode_body TYPE_SUBSCRIBE_METADATA) with decode_subscribe_metadata. unfold decode_subscribe_metadata. ytype.
  - change (decode_body TYPE_METADATA_CHANGED) with decode_metadata_changed. unfold decode_metadata_changed. ytype.
  - change (decode_body TYPE_METADATA_VALUE) with decode_metadata_value. unfold decode_metadata_value. ytype.
  - change (decode_body TYPE_METADATA_KEYS) with decode_metadata_keys. unfold decode_metadata_keys. ytype.
  - change (decode_body TYPE_LIST_DIRECTORY) with decode_list_directory_frame. unfold decode_list_directory_frame. ytype.
  - change (decode_body TYPE_DIRECTORY_LISTING) with decode_directory_listing_frame. unfold decode_directory_listing_frame. ytype.
  - change (decode_body TYPE_SPAWN_RESOURCE) with decode_spawn_terminal. unfold decode_spawn_terminal. ytype.
  - change (decode_body TYPE_RESIZE_TERMINAL) with decode_terminal_resize. unfold decode_terminal_resize. ytype.
  - change (decode_body TYPE_MOVE_RESOURCE) with decode_move_terminal. unfold decode_move_terminal. ytype.
  - change (decode_body TYPE_RESOURCE_MOVED) with decode_terminal_moved. unfold decode_terminal_moved. ytype.
  - change (decode_body TYPE_RESOURCE_CLOSED) with decode_terminal_closed. unfold decode_terminal_closed. ytype.
  - change (decode_body TYPE_RESOURCE_SPAWNED) with decode_terminal_spawned. unfold decode_terminal_spawned. ytype.
  - change (decode_body TYPE_COMMAND) with decode_command_frame. unfold decode_command_frame. ytype.
  - change (decode_body TYPE_COMMAND_RESULT) with decode_command_result_frame. unfold decode_command_result_frame. ytype.
  - change (decode_body TYPE_SUBSCRIBE_EVENTS) with decode_subscribe_events. unfold decode_subscribe_events. ytype.
  - change (decode_body TYPE_EVENT) with decode_event. unfold decode_event. ytype.
Qed.
End Catalog.
