(* ===== verification/Envelope.v ===== *)
(** * Compressed frames

    [FrameKind::encode_compressed] against [Decoder::decode_frame_compressed]
    ([wire/frame/kind.rs], [wire/decode.rs], [wire/compress.rs]) under the server's
    choice of what to wrap ([phux-server/src/runtime/client.rs]): the envelope is
    invisible to the receiver, never nests, and fits the bound the receiver allocates
    under. *)

From S2P Require Import Prelude Wire Fields Enums Ids Caps Codec Info Command Directory SshOrigin.
From S2P Require Import Compress Instances Frame FrameDecode FrameProofs FrameRead.

(* phux-server/src/runtime/client.rs compress_policy *)
Definition compress_policy (frame : FrameKind) (negotiated : Compression) : Compression :=
  match frame with
  | FrameKind_BootstrapChunk _ _ _ _ _ | FrameKind_HistoryPage _ _ _ _ _ _ _ _ => negotiated
  | _ => Compression_None
  end.

(* phux-server/src/runtime/client.rs encode_into_batch *)
Definition encode_frame_into_batch `{ReportJson} `{IpText} `{Flate} (frame : FrameKind)
    (compression : Compression) : bytes :=
  encode_compressed frame (compress_policy frame compression).

Section Envelope.
Context `{RJ : ReportJson} `{IT : IpText} `{FL : Flate}.

(** The dispatch depends on its envelope decoder at one type byte only. *)
Lemma catalog_body_envelope e1 e2 tb :
  tb <> TYPE_FRAME_COMPRESSED -> catalog_body e1 tb = catalog_body e2 tb.
Proof.
  intros H%Z.eqb_neq. unfold catalog_body. rewrite H. reflexivity.
Qed.

Lemma frame_compressed_with_ext (A B : Z -> M FrameKind) d :
  (forall tb, tb <> TYPE_FRAME_COMPRESSED -> A tb = B tb) ->
  frame_compressed_with A d = frame_compressed_with B d.
Proof.
  intros H. unfold frame_compressed_with, mbind, M_bind, get.
  destruct (while_fields _ _ _) as [[[[alg un] pl] d1]|]; [|done]. unfold lift.
  destruct (ok_or _ alg) as [[]|]; try done. destruct (ok_or _ un) as [n|]; [|done].
  destruct (_ || _); [done|]. destruct (ok_or _ pl) as [p|]; [|done].
  destruct (inflate p n) as [body|]; [|done].
  destruct (read_u8 _) as [[tb inner]|]; [|done].
  destruct (Z.eqb_spec tb TYPE_FRAME_COMPRESSED); [done|]. by rewrite H.
Qed.

(** The envelope decoder is the one the source writes, mutually recursive with
    [decode_body]: the recursion is one level deep because a nested envelope is refused. *)
Lemma decode_frame_compressed_eq d : decode_frame_compressed d = frame_compressed_with decode_body d.
Proof. apply frame_compressed_with_ext. intros tb H. by apply catalog_body_envelope. Qed.

(** ** The envelope of a frame reads back as the frame *)

Definition envelope_fields (n : Z) (deflated : bytes) : bytes :=
  write_field frame_compressed_ALGORITHM (write_u8 (to_wire_t Compression_Deflate))
  ++ write_field frame_compressed_UNCOMPRESSED_LEN (write_u32_be n)
  ++ write_field frame_compressed_PAYLOAD deflated.

Lemma envelope_loop n deflated :
  u32b n = true ->
  reads_body (while_fields frame_compressed_step (None, None, None)) (envelope_fields n deflated)
    (Some Compression_Deflate, Some n, Some deflated).
Proof.
  intros H. apply reads_while_fields. unfold envelope_fields.
  rf_field frame_compressed_step. rf_field frame_compressed_step. rf_field frame_compressed_step.
Qed.

Lemma inner_decoder_limits l d body :
  wf_limits l = true -> has_limits l d ->
  inner_decoder d body = mkDecoder body 0 (Some (length body)) (max_chunk_bytes l) (max_page_bytes l).
Proof. intros Hw [H1 H2]. unfold inner_decoder. by rewrite H1, H2, limits_new_id. Qed.

(** The body of a plain frame, through the decoder the envelope makes for it. *)
Lemma inner_body l d f :
  wf_limits l = true -> has_limits l d -> wf_frame l f = true ->
  len (encode_body f) <= MAX_FRAME_LEN ->
  exists inner d', read_u8 (inner_decoder d (encode_body f)) = Ok (type_byte f, inner)
    /\ decode_body (type_byte f) inner = Ok (f, d').
Proof.
  intros Hw Hl Hf Hb. rewrite (inner_decoder_limits l) by done.
  set (d0 := mkDecoder _ _ _ _ _).
  assert (Hd0 : dec_ok d0) by (split; [cbn; lia | unfold MAX_FRAME_LEN, isize_max in *; cbn [input d0]; lia]).
  assert (Hlen : len (encode_body f) = 1 + len (encode_payload f)) by (unfold encode_body; by rewrite len_app).
  pose proof (len_nonneg (encode_payload f)).
  assert (Hr0 : remaining d0 = write_u8 (type_byte f) ++ encode_payload f) by done.
  exists (advance 1 d0), (advance (length (encode_payload f)) (advance 1 d0)). split.
  - by apply (reads_u8 _ (type_byte_u8 f) d0 (encode_payload f)).
  - apply (reads_catalog l decode_frame_compressed f Hf _ []); [done|lia| | |].
    + by apply (dec_ok_advance (write_u8 (type_byte f)) (encode_payload f)).
    + rewrite app_nil_r. by apply (remaining_advance (write_u8 (type_byte f))).
    + unfold body_limit, d0, encode_body. cbn [advance set_pos body_end default pos].
      rewrite length_app. unfold write_u8. cbn [length id]. lia.
Qed.

Lemma type_byte_plain f : type_byte f <> TYPE_FRAME_COMPRESSED.
Proof. by destruct f. Qed.

(** What the receiver makes of an envelope with the fields the sender writes. *)
Lemma decode_envelope_eq l n payload tail :
  u32b n = true -> 1 + len (envelope_fields n payload) <= MAX_FRAME_LEN ->
  let wire := frame_bytes TYPE_FRAME_COMPRESSED (envelope_fields n payload) in
  len (wire ++ tail) <= isize_max ->
  decode_with_limits (wire ++ tail) l =
    if (n =? 0) || (max_compressed_frame_bytes (blank l) <? n) then Err LengthOverflow
    else
      body ← inflate payload n;
      match read_u8 (inner_decoder (blank l) body) with
      | Err e => Err e
      | Ok (tb, inner) =>
          if tb =? TYPE_FRAME_COMPRESSED then Err CompressedFrameInvalid
          else match decode_body tb inner with Ok (f, _) => Ok (f, tail) | Err e => Err e end
      end.
Proof.
  intros Hu Hs wire Hi. set (body := envelope_fields n payload) in *.
  pose proof (len_nonneg body). unfold wire. rewrite read_frame_framed by done.
  destruct (body_cursor_ok l TYPE_FRAME_COMPRESSED body tail Hi) as [Hd Hl].
  set (d := body_cursor _ _ _ _) in *.
  change (decode_body TYPE_FRAME_COMPRESSED d) with (decode_frame_compressed d).
  rewrite decode_frame_compressed_eq. unfold frame_compressed_with.
  unfold mbind at 1, M_bind at 1, get, mbind at 1, M_bind at 1.
  rewrite (envelope_loop _ payload Hu d tail);
    [|fold body; lia|done|apply remaining_body_cursor|done]. fold body. cbv beta iota zeta.
  cbn [ok_or]. unfold mbind at 1 2 3, M_bind, lift.
  change (max_compressed_frame_bytes d) with (max_compressed_frame_bytes (blank l)).
  destruct (_ || _); [done|]. change (inner_decoder d) with (inner_decoder (blank l)).
  unfold mbind, result_bind. destruct (inflate payload n) as [b|]; [|done].
  destruct (read_u8 _) as [[tb inner]|]; [|done].
  destruct (tb =? TYPE_FRAME_COMPRESSED); [done|]. destruct (decode_body tb inner) as [[f d']|]; [|done].
  rewrite (proj2 (Nat.ltb_ge _ _)) by (cbn; lia). unfold d, body_cursor. cbn [advance set_pos input].
  by rewrite <- (length_frame_bytes TYPE_FRAME_COMPRESSED), drop_app_length.
Qed.

(** The bytes of an envelope around a plain body decode to what the body encodes. *)
Lemma decode_envelope l f deflated tail :
  wf_limits l = true -> wf_frame l f = true -> deflate (encode_body f) = Some deflated ->
  len (encode_body f) <= max_compressed_frame_bytes (blank l) ->
  1 + len (envelope_fields (len (encode_body f)) deflated) <= MAX_FRAME_LEN ->
  let wire := frame_bytes TYPE_FRAME_COMPRESSED (envelope_fields (len (encode_body f)) deflated) in
  len (wire ++ tail) <= isize_max ->
  decode_with_limits (wire ++ tail) l = Ok (f, tail).
Proof.
  intros Hw Hf Hz Hb Hs wire Hi.
  assert (HM : len (encode_body f) <= MAX_FRAME_LEN) by (unfold max_compressed_frame_bytes in Hb; lia).
  assert (H1 : MIN_COMPRESS_BYTES <= len (encode_body f)) by (by apply deflate_inv in Hz as (? & _)).
  unfold MIN_COMPRESS_BYTES in H1. unfold wire. rewrite decode_envelope_eq; [|..|done|done].
  2:{ apply u32b_spec. unfold MAX_FRAME_LEN in HM. lia. }
  rewrite (proj2 (Z.eqb_neq _ _)), (proj2 (Z.ltb_ge _ _)) by lia. cbn [orb].
  rewrite (inflate_deflate _ _ Hz), bind_ok.
  destruct (inner_body l (blank l) f Hw ltac:(done) Hf HM) as (inner & d' & -> & ->).
  by rewrite (proj2 (Z.eqb_neq _ _)) by apply type_byte_plain.
Qed.

(** ** Sizes *)

Lemma len_write_field_le id v : len (write_field id v) <= 21 + len v.
Proof.
  unfold len. rewrite varint_field_len. pose proof (length_varint id). pose proof (length_varint (Z.of_nat (length v))).
  unfold len in *. lia.
Qed.

(** A satellite host on the wire is at most 255 bytes long. *)
Definition host_fits (t : ResourceId) : bool :=
  match t with ResourceId_Local _ => true | ResourceId_Satellite h _ => len h <=? 255 end.
Definition wrapped_host_fits (f : FrameKind) : bool :=
  match f with
  | FrameKind_BootstrapChunk t _ _ _ _ | FrameKind_HistoryPage t _ _ _ _ _ _ _ => host_fits t
  | _ => true
  end.

Lemma len_terminal_id_le t : host_fits t = true -> len (encode_terminal_id t) <= 264.
Proof.
  destruct t as [i|h i]; cbn [encode_terminal_id host_fits]; unfold write_u8, write_u32_be.
  - intros _. rewrite len_app, len_to_be. done.
  - intros Hh%Z.leb_le. unfold write_str. rewrite !len_app, len_write_bytes, len_to_be.
    change (len [RESOURCE_ID_TAG_SATELLITE]) with 1. lia.
Qed.

(** The two frames the server wraps fit the bound the receiver allocates under: the
    64 KiB allowance covers every byte beside the payload. *)
Lemma wrapped_body_fits l f c :
  wf_limits l = true -> wf_frame l f = true -> wrapped_host_fits f = true ->
  compress_policy f c <> Compression_None ->
  len (encode_body f) <= max_compressed_frame_bytes (blank l).
Proof.
  intros Hl Hf Hh Hc. unfold encode_body. rewrite len_app. change (len (write_u8 _)) with 1.
  assert (Hm : Z.max (max_chunk_bytes l) (max_page_bytes l) + 64 * 1024 <= max_compressed_frame_bytes (blank l)).
  { unfold wf_limits, MAX_BOOTSTRAP_CHUNK_BYTES, MAX_HISTORY_PAGE_BYTES in Hl. split_bools.
    rewrite !Z.leb_le in *. unfold max_compressed_frame_bytes, ENVELOPE_ALLOWANCE, MAX_FRAME_LEN, u32_max.
    cbn [blank max_bootstrap_chunk_bytes max_history_page_bytes]. lia. }
  destruct f; cbn [compress_policy] in Hc; try done; cbn [wrapped_host_fits] in Hh;
    apply len_terminal_id_le in Hh; cbn [wf_frame] in Hf; split_bools; unfold wf_opt, wf_cursor in *;
    cbn [encode_payload];
    unfold encode_bootstrap_chunk, encode_history_page_stream, encode_history_page_body, if_some.
  - rewrite !len_app. rewrite !Z.leb_le in *. unfold write_u64_be, write_u32_be.
    repeat match goal with
    | |- context [len (write_field ?i ?v)] => pose proof (len_write_field_le i v); generalize dependent (len (write_field i v)); intros
    end. rewrite !len_to_be in *. lia.
  - rewrite !len_app. rewrite !Z.leb_le in *. unfold write_u64_be, write_u32_be.
    destruct next_cursor as [nc|]; cbv iota in *; split_bools; rewrite ?Z.leb_le in *; unfold MAX_HISTORY_CURSOR_BYTES in *;
    repeat match goal with
    | |- context [len (write_field ?i ?v)] => pose proof (len_write_field_le i v); generalize dependent (len (write_field i v)); intros
    end; rewrite !len_to_be in *; rewrite ?len_nil; lia.
Qed.

Lemma encode_length_prefix f : drop LENGTH_PREFIX_LEN (encode f) = encode_body f.
Proof.
  unfold encode, write_u32_be, LENGTH_PREFIX_LEN.
  rewrite <- (length_to_be 4 (saturate_u32 (len (encode_body f)))) at 1. apply drop_app_length.
Qed.

Lemma envelope_len n deflated : 1 + len (envelope_fields n deflated) <= 69 + len deflated.
Proof.
  unfold envelope_fields. rewrite !len_app.
  pose proof (len_write_field_le frame_compressed_ALGORITHM (write_u8 (to_wire_t Compression_Deflate))).
  pose proof (len_write_field_le frame_compressed_UNCOMPRESSED_LEN (write_u32_be n)).
  pose proof (len_write_field_le frame_compressed_PAYLOAD deflated).
  unfold write_u32_be in *. rewrite len_to_be in *. change (len (write_u8 _)) with 1 in *. lia.
Qed.

Lemma max_compressed_le l :
  wf_limits l = true -> max_compressed_frame_bytes (blank l) <= 8 * 1024 * 1024 + 64 * 1024.
Proof.
  unfold wf_limits, MAX_BOOTSTRAP_CHUNK_BYTES, MAX_HISTORY_PAGE_BYTES. intros; split_bools.
  rewrite !Z.leb_le in *. unfold max_compressed_frame_bytes, ENVELOPE_ALLOWANCE.
  cbn [blank max_bootstrap_chunk_bytes max_history_page_bytes]. lia.
Qed.

(** ** Properties *)

(** C12: compression is invisible to the receiver: whatever algorithm the connection
    negotiated, the bytes the server writes for a frame (wrapped when the policy and the
    compressor choose so, plain otherwise) decode to that frame and leave what follows. *)
Theorem compressed_frames_transparent l f c tail :
  wf_limits l = true -> wf_frame l f = true -> wrapped_host_fits f = true ->
  len (encode_body f) <= MAX_FRAME_LEN ->
  len (encode_frame_into_batch f c ++ tail) <= isize_max ->
  decode_with_limits (encode_frame_into_batch f c ++ tail) l = Ok (f, tail).
Proof.
  intros Hl Hf Hh Hb. unfold encode_frame_into_batch, encode_compressed.
  destruct (compress_policy f c) eqn:Ep; [by apply decode_encode_with_limits|].
  rewrite encode_length_prefix. destruct (deflate (encode_body f)) as [z|] eqn:Ez;
    [|by apply decode_encode_with_limits].
  rewrite (proj2 (Z.ltb_ge _ _)) by (unfold MAX_FRAME_LEN, u32_max in *; lia).
  assert (Hfit : len (encode_body f) <= max_compressed_frame_bytes (blank l)).
  { apply (wrapped_body_fits l f c); [done..|by rewrite Ep]. }
  pose proof (max_compressed_le l Hl). pose proof (envelope_len (len (encode_body f)) z).
  apply deflate_inv in Ez as Hz. destruct Hz as (_ & Hz & _).
  assert (He : 1 + len (envelope_fields (len (encode_body f)) z) <= MAX_FRAME_LEN)
    by (unfold MAX_FRAME_LEN; lia).
  unfold envelope_body. fold (envelope_fields (len (encode_body f)) z).
  assert (E : len (write_u8 TYPE_FRAME_COMPRESSED ++ envelope_fields (len (encode_body f)) z)
    = 1 + len (envelope_fields (len (encode_body f)) z)) by (by rewrite len_app).
  rewrite E, saturate_small by exact He. by apply decode_envelope.
Qed.

(** an envelope cannot make the receiver allocate more than the connection's limits
    plus 64 KiB, cannot nest, and cannot smuggle a body of another length: a declared
    length of zero or over the bound is refused without inflating, a payload that is not a
    stream of exactly that length is refused, and so is a wrapped envelope. *)
Theorem envelope_refusals l n payload tail :
  u32b n = true -> 1 + len (envelope_fields n payload) <= MAX_FRAME_LEN ->
  let wire := frame_bytes TYPE_FRAME_COMPRESSED (envelope_fields n payload) in
  len (wire ++ tail) <= isize_max ->
  (n = 0 \/ max_compressed_frame_bytes (blank l) < n ->
     decode_with_limits (wire ++ tail) l = Err LengthOverflow) /\
  (0 < n <= max_compressed_frame_bytes (blank l) ->
     (forall body, inflate payload n = Ok (TYPE_FRAME_COMPRESSED :: body) ->
        decode_with_limits (wire ++ tail) l = Err CompressedFrameInvalid) /\
     (forall out, decompress_vec payload (capacity n) = out ->
        (forall b, out = Some (Status_StreamEnd, b) -> len b <> n) ->
        decode_with_limits (wire ++ tail) l = Err CompressedFrameInvalid)).
Proof.
  intros Hu Hs wire Hi. unfold wire. rewrite decode_envelope_eq by done. split.
  - intros H. destruct (Z.eqb_spec n 0); [done|]. by rewrite (proj2 (Z.ltb_lt _ _)) by lia.
  - intros H. rewrite (proj2 (Z.eqb_neq _ _)), (proj2 (Z.ltb_ge _ _)) by lia. cbn [orb]. split.
    + intros body ->. rewrite bind_ok.
      assert (E : forall d, read_u8 (inner_decoder d (TYPE_FRAME_COMPRESSED :: body))
        = Ok (TYPE_FRAME_COMPRESSED, set_pos 1 (inner_decoder d (TYPE_FRAME_COMPRESSED :: body)))).
      { intros d. unfold read_u8, mbind, M_bind, take_n. cbn [inner_decoder pos input].
        change (checked_add_usize (Z.of_nat 0) 1) with (Some 1). cbv beta iota.
        rewrite (proj2 (Z.ltb_ge _ _)); [done|]. rewrite len_cons. pose proof (len_nonneg body). lia. }
      by rewrite E.
    + intros out Ho Hbad. unfold inflate. rewrite Ho. destruct out as [[st b]|]; [|done].
      destruct (bool_decide (st = Status_StreamEnd)) eqn:E; [|done].
      apply bool_decide_eq_true in E as ->. specialize (Hbad b eq_refl).
      by rewrite (proj2 (Z.eqb_neq _ _)).
Qed.
End Envelope.

(** A chunk whose payload compresses. *)
Definition sample_chunk : FrameKind :=
  FrameKind_BootstrapChunk (ResourceId_Local 1) 2 3 4 (replicate 4096 7).

Lemma compressed_frames_transparent_witness :
  encode_frame_into_batch sample_chunk Compression_Deflate <> encode sample_chunk /\
  decode_with_limits (encode_frame_into_batch sample_chunk Compression_Deflate ++ [1]) sample_limits
    = Ok (sample_chunk, [1]).
Proof.
  split; [vm_compute; congruence|].
  apply compressed_frames_transparent; vm_compute; congruence.
Defined.

Lemma envelope_refusals_witness :
  decode_with_limits (frame_bytes TYPE_FRAME_COMPRESSED (envelope_fields 2 [1; 2; TYPE_FRAME_COMPRESSED]) ++ [])
    sample_limits = Err CompressedFrameInvalid.
Proof.
  assert (Hn : 0 < 2 <= max_compressed_frame_bytes (blank sample_limits)) by (vm_compute; split; congruence).
  refine (proj1 (proj2 (envelope_refusals sample_limits 2 [1; 2; TYPE_FRAME_COMPRESSED] [] _ _ _) Hn)
            [2] _); vm_compute; congruence.
Defined.
