(* ===== verification/Framing.v ===== *)
(** * Transport framing ([wire/framing.rs], [wire/stream_bind.rs])

    The length-prefix layer between a byte stream and the frame decoder, and the ways a
    transport uses it: header by header ([decode_length], [frame_buffer]), run by run
    ([split_frame]) and message by message ([check_frame]). At the end the bind header of a
    QUIC stream. *)

From S2P Require Import Prelude Wire Fields Enums Ids Caps Codec Info Command Directory SshOrigin.
From S2P Require Import Compress Instances Frame FrameDecode FrameProofs FrameRead.

(* wire/framing.rs FramingError *)
Inductive FramingError : Type :=
| LengthOutOfRange (length : Z)
| LengthMismatch (expected actual : Z)
| HeaderTruncated (actual : Z).

(* wire/framing.rs decode_length *)
Definition decode_length (header : bytes) : result FramingError Z :=
  let length := of_be header in
  if negb ((1 <=? length) && (length <=? MAX_FRAME_LEN)) then Err (LengthOutOfRange length)
  else Ok length.

(* wire/framing.rs frame_buffer *)
Definition frame_buffer (header : bytes) : result FramingError bytes :=
  body_len ← decode_length header;
  Ok (header ++ replicate (Z.to_nat body_len) 0).

(** The frame and what stays in the buffer; [None] leaves the buffer as it is. *)
(* wire/framing.rs split_frame *)
Definition split_frame (buf : bytes) : result FramingError (option bytes * bytes) :=
  if (length buf <? LENGTH_PREFIX_LEN)%nat then Ok (None, buf)
  else
    body_len ← decode_length (take LENGTH_PREFIX_LEN buf);
    let total := (LENGTH_PREFIX_LEN + Z.to_nat body_len)%nat in
    if (length buf <? total)%nat then Ok (None, buf)
    else Ok (Some (take total buf), drop total buf).

(* wire/framing.rs check_frame *)
Definition check_frame (bs : bytes) : result FramingError Z :=
  if (length bs <? LENGTH_PREFIX_LEN)%nat then Err (HeaderTruncated (len bs))
  else
    body_len ← decode_length (take LENGTH_PREFIX_LEN bs);
    let expected := Z.of_nat LENGTH_PREFIX_LEN + body_len in
    if len bs =? expected then Ok body_len else Err (LengthMismatch expected (len bs)).

(** The peer-visible text; its [Display] part belongs to [thiserror] formatting. *)
Section Violation.
Context (display : FramingError -> bytes).

(* wire/framing.rs FramingError::wire_message *)
Definition wire_message (e : FramingError) : bytes :=
  str "frame violates SPEC " ++ [194; 167] ++ str "5 framing: " ++ display e.

(* wire/framing.rs frame_too_large_error *)
Definition frame_too_large_error (violation : FramingError) : FrameKind :=
  FrameKind_Error None ErrorCode_FrameTooLarge (wire_message violation).
End Violation.

(** ** Reassembly on a satellite link

    The receive loop of a hub's link to a satellite ([phux-server/src/hub/link.rs]), per transport:
    a QUIC stream or an ssh child's stdout with the link's persistent buffer, and a WebSocket. The
    reads a stream will deliver are a list: bytes, an empty read (or none left) being end of stream,
    or a failure with its text. How an ssh child ended is told by [ssh_exit_reason], from the
    process: a text of the link. *)

Inductive LinkRead : Type := Read_Bytes (chunk : bytes) | Read_Failed (err : bytes).
Inductive WsRead : Type := Ws_Binary (data : bytes) | Ws_Control | Ws_Close | Ws_Failed (err : bytes).

(* phux-server/src/hub/link.rs:1136-1197 NetLinkConn *)
Inductive NetLinkConn : Type :=
| Link_Quic (buf : bytes) (reads : list LinkRead)
| Link_Ssh (exit_reason buf : bytes) (reads : list LinkRead)
| Link_Ws (messages : list WsRead).

Inductive Received : Type :=
| Received_Frame (frame : bytes) (link : NetLinkConn)
| Received_Closed
| Received_Lost (reason : bytes)
| Received_Violation (violation : FramingError).

(** The loop both stream transports share; they differ in what the end and a failed read say. *)
Section Stream.
  Context (resume : bytes -> list LinkRead -> NetLinkConn) (at_end : bytes -> Received) (read_error : bytes -> bytes).
(* phux-server/src/hub/link.rs:1376-1395 NetLinkConn::recv_frame *)
Fixpoint recv_stream (buf : bytes) (reads : list LinkRead) : Received :=
  match split_frame buf with
  | Ok (Some framed, buf') => Received_Frame framed (resume buf' reads)
  | Err violation => Received_Violation violation
  | Ok (None, buf) =>
      match reads with
      | [] | Read_Bytes [] :: _ => at_end buf
      | Read_Failed err :: _ => Received_Lost (read_error err)
      | Read_Bytes chunk :: reads' => recv_stream (buf ++ chunk) reads'
      end
  end.
End Stream.

Definition quic_end (buf : bytes) : Received :=
  if is_nil buf then Received_Closed else Received_Lost (str "satellite closed the stream mid-frame").
(* phux-server/src/hub/link.rs:1454-1460 NetLinkConn::recv_frame *)
Definition ssh_end (exit_reason buf : bytes) : Received :=
  Received_Lost (if is_nil buf then exit_reason else exit_reason ++ str " (stream ended mid-frame)").
(** One binary message is one frame; control messages are skipped. *)
(* phux-server/src/hub/link.rs:1397-1429 NetLinkConn::recv_frame *)
Fixpoint recv_ws (messages : list WsRead) : Received :=
  match messages with
  | [] | Ws_Close :: _ => Received_Closed
  | Ws_Binary data :: rest =>
      match check_frame data with Ok _ => Received_Frame data (Link_Ws rest) | Err violation => Received_Violation violation end
  | Ws_Control :: rest => recv_ws rest
  | Ws_Failed err :: _ => Received_Lost (str "connection error: " ++ err)
  end.

(* phux-server/src/hub/link.rs:1365-1471 NetLinkConn::recv_frame *)
Definition recv_frame (link : NetLinkConn) : Received :=
  match link with
  | Link_Quic buf reads => recv_stream Link_Quic quic_end (fun err => str "read from satellite: " ++ err) buf reads
  | Link_Ssh why buf reads =>
      recv_stream (Link_Ssh why) (ssh_end why) (fun err => str "read from ssh transport: " ++ err) buf reads
  | Link_Ws messages => recv_ws messages
  end.

(** The frames received until the link ends, and how it ended. *)
Fixpoint recv_all (fuel : nat) (link : NetLinkConn) : list bytes * option Received :=
  match fuel with
  | O => ([], None)
  | S fuel' =>
      match recv_frame link with
      | Received_Frame f link' => let '(fs, e) := recv_all fuel' link' in (f :: fs, e)
      | e => ([], Some e)
      end
  end.

(** ** Lemmas *)

(** A whole frame: its header announces what follows, in range. *)
Definition whole_frame (f : bytes) : Prop :=
  exists n, 1 <= Z.of_nat n <= MAX_FRAME_LEN /\ of_be (take 4 f) = Z.of_nat n
    /\ length f = (4 + n)%nat.

Lemma decode_length_ok n h :
  of_be h = Z.of_nat n -> 1 <= Z.of_nat n <= MAX_FRAME_LEN -> decode_length h = Ok (Z.of_nat n).
Proof.
  intros E H. unfold decode_length. rewrite E.
  by rewrite !(proj2 (Z.leb_le _ _)) by lia.
Qed.

Lemma decode_length_inv h n : decode_length h = Ok n -> of_be h = n /\ 1 <= n <= MAX_FRAME_LEN.
Proof.
  unfold decode_length. destruct (Z.leb_spec 1 (of_be h)), (Z.leb_spec (of_be h) MAX_FRAME_LEN);
    cbn [andb negb]; try done. intros [= <-]. done.
Qed.

Lemma split_whole f rest : whole_frame f -> split_frame (f ++ rest) = Ok (Some f, rest).
Proof.
  intros (n & Hn & E & Hl). unfold split_frame, LENGTH_PREFIX_LEN. rewrite length_app.
  rewrite (proj2 (Nat.ltb_ge _ _)) by lia. rewrite take_app_le by lia.
  rewrite (decode_length_ok n) by done. rewrite bind_ok. cbv zeta. rewrite Nat2Z.id.
  rewrite (proj2 (Nat.ltb_ge _ _)) by lia. rewrite <- Hl. by rewrite take_app_length, drop_app_length.
Qed.

Lemma split_inv buf f rest :
  split_frame buf = Ok (Some f, rest) -> buf = f ++ rest /\ whole_frame f.
Proof.
  unfold split_frame, LENGTH_PREFIX_LEN. destruct (Nat.ltb_spec (length buf) 4); [done|].
  destruct (decode_length (take 4 buf)) as [n|] eqn:E; [|done]. rewrite bind_ok. cbv zeta.
  apply decode_length_inv in E as [E Hn].
  destruct (Nat.ltb_spec (length buf) (4 + Z.to_nat n)); [done|]. intros [= <- <-].
  split; [by rewrite take_drop|]. exists (Z.to_nat n). split; [lia|].
  rewrite take_take, Nat.min_l by lia. split; [lia|]. rewrite length_take. lia.
Qed.

(** A proper prefix of a whole frame is not enough, and is not touched. *)
Lemma split_prefix f p q : whole_frame f -> f = p ++ q -> q <> [] -> split_frame p = Ok (None, p).
Proof.
  intros (n & Hn & E & Hl) -> Hq. rewrite length_app in Hl.
  assert (0 < length q)%nat by (destruct q; [done|cbn; lia]).
  unfold split_frame, LENGTH_PREFIX_LEN. destruct (Nat.ltb_spec (length p) 4); [done|].
  rewrite take_app_le in E by lia. rewrite (decode_length_ok n) by done. rewrite bind_ok. cbv zeta.
  rewrite Nat2Z.id. by rewrite (proj2 (Nat.ltb_lt _ _)) by lia.
Qed.

Lemma whole_frame_length f : whole_frame f -> (5 <= length f)%nat.
Proof. intros (n & Hn & _ & Hl). lia. Qed.

(** An unfinished buffer: empty, or a proper prefix of a whole frame. *)
Definition partial (p : bytes) : Prop := p = [] \/ exists f q, whole_frame f /\ f = p ++ q /\ q <> [].

Lemma split_partial p : partial p -> split_frame p = Ok (None, p).
Proof. intros [->|(f & q & Hf & E & Hq)]; [done|by eapply split_prefix]. Qed.

(** What a stream delivers: its nonempty reads, then the end or a failure. *)
Definition delivery (chunks : list bytes) (failure : option bytes) : list LinkRead :=
  map Read_Bytes chunks ++ from_option (fun err => [Read_Failed err]) [] failure.

Section Streams.
  Context (resume : bytes -> list LinkRead -> NetLinkConn) (at_end : bytes -> Received) (read_error : bytes -> bytes).
  Context (failure : option bytes).
  Local Abbreviation recv := (recv_stream resume at_end read_error).

(** Whatever cut of the stream into reads delivered them, the next frame is the next
    whole frame of the stream, and the unread part is kept. *)
Lemma recv_stream_next f buf chunks stream :
  whole_frame f -> Forall (fun c => c <> []) chunks -> buf ++ concat chunks = f ++ stream ->
  exists buf' chunks', recv buf (delivery chunks failure) = Received_Frame f (resume buf' (delivery chunks' failure))
    /\ Forall (fun c => c <> []) chunks' /\ buf' ++ concat chunks' = stream.
Proof.
  intros Hf Hr. revert buf. induction Hr as [|c chunks Hc Hr IH]; intros buf E.
  - cbn [concat] in E. rewrite app_nil_r in E. subst buf. exists stream, [].
    unfold delivery. destruct failure; cbn [recv_stream map app from_option]; rewrite split_whole by done;
      (repeat split; [done|]; by rewrite app_nil_r).
  - unfold delivery in *. cbn [recv_stream map app]. destruct (decide (length f <= length buf)%nat) as [Hl|Hl].
    + assert (Hb : buf = f ++ drop (length f) buf).
      { rewrite <- (take_drop (length f) buf) at 1. f_equal.
        apply (f_equal (take (length f))) in E. rewrite take_app_le, take_app_length in E by done. exact E. }
      rewrite Hb, split_whole by done. eexists _, (c :: chunks). repeat split; [by constructor|].
      rewrite Hb, <- app_assoc in E. by apply app_inv_head in E.
    + assert (Hp : exists q, f = buf ++ q /\ q <> []).
      { exists (drop (length buf) f). apply (f_equal (take (length f))) in E as Et.
        rewrite take_app_length in Et. rewrite take_app_ge in Et by lia. split.
        - rewrite <- Et at 2. by rewrite drop_app_length.
        - intros Hn. apply (f_equal length) in Hn. rewrite length_drop in Hn. cbn in Hn. lia. }
      destruct Hp as (q & Eq & Hq). rewrite (split_prefix f buf q) by done. cbn [concat] in E.
      rewrite app_assoc in E. destruct c; [done|]. by apply IH.
Qed.

Lemma recv_stream_end buf chunks p :
  Forall (fun c => c <> []) chunks -> buf ++ concat chunks = p -> partial p ->
  recv buf (delivery chunks failure) = match failure with Some err => Received_Lost (read_error err) | None => at_end p end.
Proof.
  intros Hr. revert buf. induction Hr as [|c chunks Hc Hr IH]; intros buf E Hp.
  - cbn [concat] in E. rewrite app_nil_r in E. subst buf. unfold delivery.
    destruct failure; cbn [recv_stream map app from_option]; by rewrite split_partial.
  - assert (Hb : partial buf).
    { destruct Hp as [->|(f & q & Hf & Ef & Hq)]; [by apply app_eq_nil in E as [-> _]; left|].
      right. exists f, ((concat (c :: chunks)) ++ q). split; [done|]. split.
      - rewrite Ef, <- E. by rewrite app_assoc.
      - intros [_ ?]%app_eq_nil. done. }
    unfold delivery in *. cbn [recv_stream map app]. rewrite split_partial by done. destruct c; [done|]. apply IH; [|done].
    cbn [concat] in E. by rewrite app_assoc in E.
Qed.

Hypothesis received : forall buf reads, recv_frame (resume buf reads) = recv buf reads.
Hypothesis ends : forall p, match at_end p with Received_Frame _ _ => False | _ => True end.
Lemma recv_all_chunks fs p buf chunks :
  Forall whole_frame fs -> partial p -> Forall (fun c => c <> []) chunks ->
  buf ++ concat chunks = concat fs ++ p ->
  recv_all (S (length fs)) (resume buf (delivery chunks failure)) =
    (fs, Some (match failure with Some err => Received_Lost (read_error err) | None => at_end p end)).
Proof.
  intros Hf Hp. revert chunks buf. induction Hf as [|f fs Hf Hfs IH]; intros chunks buf Hr E.
  - cbn [recv_all length]. rewrite received, (recv_stream_end buf chunks p) by done.
    destruct failure; [done|]. specialize (ends p). by destruct (at_end p).
  - cbn [concat] in E. rewrite <- app_assoc in E.
    destruct (recv_stream_next f buf chunks _ Hf Hr E) as (buf' & chunks' & Er & Hr' & E').
    cbn [length]. remember (S (length fs)) as n. cbn [recv_all]. subst n.
    by rewrite received, Er, (IH chunks' buf').
Qed.
End Streams.

Lemma check_whole f : whole_frame f -> check_frame f = Ok (len f - 4).
Proof.
  intros (n & Hn & E & Hl). unfold check_frame, LENGTH_PREFIX_LEN. rewrite (proj2 (Nat.ltb_ge _ _)) by lia.
  rewrite (decode_length_ok n) by done. rewrite bind_ok. cbv zeta. unfold len. rewrite Hl.
  rewrite (proj2 (Z.eqb_eq _ _)) by lia. f_equal. lia.
Qed.
(** The frame a message of a WebSocket carries. *)
Definition ws_data (m : WsRead) : option bytes := match m with Ws_Binary data => Some data | _ => None end.
Definition ws_alive (m : WsRead) : Prop := match m with Ws_Binary data => whole_frame data | Ws_Control => True | _ => False end.
Lemma recv_all_messages ms failure : Forall ws_alive ms ->
  recv_all (S (length (omap ws_data ms))) (Link_Ws (ms ++ from_option (fun err => [Ws_Failed err]) [] failure)) =
    (omap ws_data ms, Some (match failure with Some err => Received_Lost (str "connection error: " ++ err) | None => Received_Closed end)).
Proof.
  induction 1 as [|[data| | |] ms Hm _ IH]; [by destruct failure| |exact IH|done..].
  cbn [omap list_omap ws_data length]. remember (S (length _)) as n. cbn [recv_all recv_frame app recv_ws].
  rewrite (check_whole data Hm). subst n. cbn. cbn in IH. unfold omap in *. by rewrite IH.
Qed.

(** ** Properties *)

(** C21: a hub receives from a satellite exactly the frames that were sent, in order. Over a QUIC stream
    and over ssh that is so however the stream is cut into reads; when it ends or a read fails the loop
    stops and never makes a frame of partial bytes: a QUIC stream that ends on a frame boundary is a
    clean close and one that ends inside a frame, or fails, a loss with that reason; an ssh stream's end
    is always a loss, for the child's reason, which says when it was inside a frame. Over a WebSocket
    each binary message is a frame, control messages are skipped, and its end is a clean close. *)
Theorem recv_frames_any_chunking fs p chunks failure :
  Forall whole_frame fs -> partial p -> Forall (fun c => c <> []) chunks ->
  concat chunks = concat fs ++ p ->
  recv_all (S (length fs)) (Link_Quic [] (delivery chunks failure)) =
    (fs, Some (match failure with
               | Some err => Received_Lost (str "read from satellite: " ++ err)
               | None => if is_nil p then Received_Closed else Received_Lost (str "satellite closed the stream mid-frame")
               end)) /\
  (forall exit_reason,
     recv_all (S (length fs)) (Link_Ssh exit_reason [] (delivery chunks failure)) =
       (fs, Some (Received_Lost (match failure with
                  | Some err => str "read from ssh transport: " ++ err
                  | None => if is_nil p then exit_reason else exit_reason ++ str " (stream ended mid-frame)"
                  end)))) /\
  (forall ms, Forall ws_alive ms -> omap ws_data ms = fs ->
     recv_all (S (length fs)) (Link_Ws (ms ++ from_option (fun err => [Ws_Failed err]) [] failure)) =
       (fs, Some (match failure with Some err => Received_Lost (str "connection error: " ++ err) | None => Received_Closed end))).
Proof.
  intros Hf Hp Hc E. split_and!.
  - rewrite (recv_all_chunks Link_Quic quic_end (fun err => str "read from satellite: " ++ err) failure) with (p := p); try done.
    intros q. unfold quic_end. by destruct (is_nil q).
  - intros why. rewrite (recv_all_chunks (Link_Ssh why) (ssh_end why) (fun err => str "read from ssh transport: " ++ err) failure) with (p := p); try done.
    by destruct failure.
  - intros ms Hm <-. by apply recv_all_messages.
Qed.

Section Encoded.
Context `{RJ : ReportJson} `{IT : IpText} `{FL : Flate}.

(** An encoded frame is what every transport accepts: the datagram check passes with
    the body's length, and a buffer that starts with it yields exactly it. *)
Theorem encoded_frame_is_framed f rest :
  len (encode_body f) <= MAX_FRAME_LEN ->
  check_frame (encode f) = Ok (len (encode_body f)) /\
  split_frame (encode f ++ rest) = Ok (Some (encode f), rest).
Proof.
  intros H. pose proof (len_nonneg (encode_payload f)).
  assert (Hl : len (encode_body f) = 1 + len (encode_payload f)) by (unfold encode_body; by rewrite len_app).
  assert (E4 : take 4 (encode f) = to_be 4 (len (encode_body f))).
  { unfold encode. rewrite saturate_small by done. unfold write_u32_be.
    rewrite take_app_le by (by rewrite length_to_be). apply take_ge. by rewrite length_to_be. }
  assert (Eo : of_be (take 4 (encode f)) = Z.of_nat (length (encode_body f))).
  { rewrite E4. apply of_be_to_be. unfold MAX_FRAME_LEN in H. change (256 ^ Z.of_nat 4) with 4294967296. unfold len in *. lia. }
  assert (Ed : length (encode f) = (4 + length (encode_body f))%nat).
  { unfold encode, write_u32_be. by rewrite length_app, length_to_be. }
  split.
  - unfold check_frame, LENGTH_PREFIX_LEN. rewrite (proj2 (Nat.ltb_ge _ _)) by lia.
    rewrite (decode_length_ok _ _ Eo) by (unfold len in *; lia). rewrite bind_ok. cbv zeta.
    rewrite (proj2 (Z.eqb_eq _ _)); [done|]. unfold len. lia.
  - apply split_whole. exists (length (encode_body f)). unfold len in *. repeat split; try lia; done.
Qed.

(** The three framing primitives and the frame decoder agree on the same bytes: the
    decoder accepts nothing the datagram check refuses, and reads a stream buffer's frame
    to its exact end. *)
Theorem decode_respects_framing l bs f :
  Z.of_nat (length bs) <= usize_max ->
  decode_with_limits bs l = Ok (f, []) -> exists n, check_frame bs = Ok n /\ len bs = 4 + n.
Proof.
  intros Hu (n & d & Hn & Eo & Hl & Hr & _)%decode_ok_iff; [|done].
  symmetry in Hr. apply (f_equal length) in Hr. rewrite length_drop in Hr. cbn [length] in Hr.
  exists (Z.of_nat n). unfold check_frame, LENGTH_PREFIX_LEN. rewrite (proj2 (Nat.ltb_ge _ _)) by lia.
  rewrite (decode_length_ok n) by done. rewrite bind_ok. cbv zeta.
  rewrite (proj2 (Z.eqb_eq _ _)); [split; [done|]|]; unfold len; lia.
Qed.
End Encoded.

(** The read buffer of a stream transport is bounded by the frame cap: a header it
    accepts gets a buffer of exactly the header plus the announced body, at most 16 MiB + 4
    bytes, and a header outside the range gets none. *)
Theorem frame_buffer_bounded header :
  length header = LENGTH_PREFIX_LEN ->
  match frame_buffer header with
  | Ok buf => len buf = 4 + of_be header /\ len buf <= MAX_FRAME_LEN + 4 /\ take 4 buf = header
  | Err e => e = LengthOutOfRange (of_be header) /\ ~ 1 <= of_be header <= MAX_FRAME_LEN
  end.
Proof.
  intros Hh. unfold frame_buffer, decode_length. unfold LENGTH_PREFIX_LEN in Hh.
  destruct (Z.leb_spec 1 (of_be header)), (Z.leb_spec (of_be header) MAX_FRAME_LEN); cbn [andb negb];
    try (split; [done|lia]). rewrite bind_ok, len_app. unfold len. rewrite length_replicate, Hh.
  repeat split; try lia. rewrite take_app_le by lia. apply take_ge. lia.
Qed.

(** ** Witnesses *)

Definition ping (n : Z) : bytes := encode (FrameKind_Ping n).

Lemma whole_ping : whole_frame (ping 7).
Proof. exists (length (encode_body (FrameKind_Ping 7))). repeat split; vm_compute; done. Qed.

(** Two frames cut inside the first header and inside the second frame, then a partial third; and the
    two frames over a WebSocket with a ping between them. *)
Definition cut_pings : list bytes := [take 2 (ping 7); drop 2 (ping 7) ++ take 6 (ping 7); drop 6 (ping 7) ++ [0; 0; 0]].
Lemma recv_frames_any_chunking_witness :
  recv_all 3 (Link_Quic [] (delivery cut_pings None))
    = ([ping 7; ping 7], Some (Received_Lost (str "satellite closed the stream mid-frame")))
  /\ recv_all 3 (Link_Ssh (str "gone") [] (delivery cut_pings None))
    = ([ping 7; ping 7], Some (Received_Lost (str "gone (stream ended mid-frame)")))
  /\ recv_all 3 (Link_Ws [Ws_Binary (ping 7); Ws_Control; Ws_Binary (ping 7)]) = ([ping 7; ping 7], Some Received_Closed).
Proof.
  destruct (recv_frames_any_chunking [ping 7; ping 7] [0; 0; 0] cut_pings None) as (H1 & H2 & H3).
  - repeat constructor; apply whole_ping.
  - right. exists (ping 7), (drop 3 (ping 7)). repeat split; [apply whole_ping|]. vm_compute. done.
  - repeat constructor; vm_compute; done.
  - vm_compute. reflexivity.
  - split; [exact H1|]. split; [exact (H2 (str "gone"))|]. apply (H3 [Ws_Binary (ping 7); Ws_Control; Ws_Binary (ping 7)]); [|reflexivity].
    repeat constructor; apply whole_ping.
Defined.

Lemma encoded_frame_is_framed_witness :
  split_frame (encode (FrameKind_Ping 7) ++ [1; 2]) = Ok (Some (encode (FrameKind_Ping 7)), [1; 2]).
Proof. apply (encoded_frame_is_framed (FrameKind_Ping 7) [1; 2]). vm_compute. done. Defined.

Lemma decode_respects_framing_witness : exists n, check_frame (ping 7) = Ok n /\ len (ping 7) = 4 + n.
Proof.
  apply (decode_respects_framing sample_limits (ping 7) (FrameKind_Ping 7)).
  - vm_compute. done.
  - vm_compute. reflexivity.
Defined.

Lemma frame_buffer_bounded_witness :
  match frame_buffer [0; 0; 1; 0] with
  | Ok buf => len buf = 4 + 256 /\ len buf <= MAX_FRAME_LEN + 4 /\ take 4 buf = [0; 0; 1; 0]
  | Err e => e = LengthOutOfRange 256 /\ ~ 1 <= 256 <= MAX_FRAME_LEN
  end.
Proof. exact (frame_buffer_bounded [0; 0; 1; 0] eq_refl). Defined.

(** ** The QUIC stream bind header ([wire/stream_bind.rs])

    The first bytes of a newly opened Terminal stream: the pair it carries, with its own
    length prefix and no frame type. *)

(* wire/stream_bind.rs MAX_STREAM_BIND_BYTES *)
Definition MAX_STREAM_BIND_BYTES : Z := 512.

(* wire/stream_bind.rs StreamBind *)
Record StreamBind : Type := mkStreamBind { sb_terminal_id : ResourceId; sb_stream_id : Z }.

(** [encode] and [decode] of the module. *)
(* wire/stream_bind.rs encode *)
Definition encode_stream_bind (bind : StreamBind) : bytes :=
  let body := encode_terminal_id (sb_terminal_id bind) ++ write_u64_be (sb_stream_id bind) in
  write_u32_be (saturate_u32 (len body)) ++ body.

(* wire/stream_bind.rs decode *)
Definition decode_stream_bind (input : bytes) : dresult (StreamBind * Z) :=
  '(blen, dec) ← read_u32_be (Decoder_new input);
  if (blen =? 0) || (MAX_STREAM_BIND_BYTES <? blen) then Err LengthOverflow
  else
    let body := remaining dec in
    if len body <? blen then Err UnexpectedEof
    else
      '(terminal_id, dec) ← decode_terminal_id (Decoder_new (take (Z.to_nat blen) body));
      '(raw, dec) ← read_u64_be dec;
      stream_id ← ok_or InvalidStreamId (StreamId_new raw);
      if negb (at_body_end dec) then Err LengthOverflow
      else Ok (mkStreamBind terminal_id stream_id, 4 + blen).

Definition wf_bind (b : StreamBind) : bool :=
  wf_ResourceId (sb_terminal_id b) && wf_StreamId (sb_stream_id b).

(** ** Lemmas *)

(** Reading the prefix depends on four bytes only. *)
Lemma read_prefix bs :
  len bs <= isize_max ->
  read_u32_be (Decoder_new bs) =
    if (length bs <? 4)%nat then Err UnexpectedEof
    else Ok (of_be (take 4 bs), set_pos 4 (Decoder_new bs)).
Proof.
  intros Hl. unfold read_u32_be, mbind, M_bind, take_n, checked_add_usize.
  cbn [pos input Decoder_new]. change (Z.of_nat 0 + 4) with 4.
  change (4 <=? usize_max) with true. cbv iota. unfold len.
  destruct (Nat.ltb_spec (length bs) 4).
  - by rewrite (proj2 (Z.ltb_lt _ _)) by lia.
  - by rewrite (proj2 (Z.ltb_ge _ _)) by lia.
Qed.

(** An accepted header, taken apart: the announced body is there and holds nothing else. *)
Lemma decode_stream_bind_inv bs b used :
  is_bytes bs = true -> len bs <= isize_max -> decode_stream_bind bs = Ok (b, used) ->
  exists n, used = 4 + Z.of_nat n /\ 1 <= Z.of_nat n <= MAX_STREAM_BIND_BYTES
    /\ of_be (take 4 bs) = Z.of_nat n /\ (4 + n <= length bs)%nat /\ sb_stream_id b <> 0.
Proof.
  intros Hb Hl. unfold decode_stream_bind. rewrite read_prefix by done.
  destruct (Nat.ltb_spec (length bs) 4); [done|]. rewrite bind_ok. set (n := of_be (take 4 bs)).
  destruct (Z.eqb_spec n 0), (Z.ltb_spec MAX_STREAM_BIND_BYTES n); cbn [orb]; try done.
  change (remaining (set_pos 4 (Decoder_new bs))) with (drop 4 bs). cbv zeta.
  destruct (Z.ltb_spec (len (drop 4 bs)) n) as [|Hn]; [done|].
  destruct (decode_terminal_id _) as [[t d1]|]; [|done]. rewrite bind_ok.
  destruct (read_u64_be d1) as [[raw d2]|]; [|done]. rewrite bind_ok.
  unfold StreamId_new. destruct (Z.eqb_spec raw 0); [done|]. cbn [ok_or]. rewrite bind_ok.
  destruct (at_body_end d2); [|done]. intros [= <- <-]. unfold len in Hn. rewrite length_drop in Hn.
  assert (0 <= n) by (apply of_be_bound, is_bytes_take, Hb).
  exists (Z.to_nat n). repeat split; try lia; done.
Qed.

(** Once enough bytes have arrived the result is that of the bytes consumed. *)
Lemma decode_stream_bind_prefix bs n :
  len bs <= isize_max -> of_be (take 4 bs) = Z.of_nat n -> (4 + n <= length bs)%nat ->
  decode_stream_bind bs = decode_stream_bind (take (4 + n) bs).
Proof.
  intros Hl E Hn. unfold decode_stream_bind.
  rewrite !read_prefix by (unfold len in *; rewrite ?length_take; lia).
  rewrite length_take, take_take, (Nat.min_l 4) by lia.
  destruct (Nat.ltb_spec (length bs) 4); [lia|]. rewrite (proj2 (Nat.ltb_ge _ _)) by lia.
  rewrite !bind_ok, E. destruct (_ || _); [done|].
  change (remaining (set_pos 4 (Decoder_new ?b))) with (drop 4 b). cbv zeta.
  unfold len. rewrite !length_drop, length_take. rewrite !(proj2 (Z.ltb_ge _ _)) by lia.
  rewrite <- take_drop_commute, take_take, Nat2Z.id, Nat.min_id. done.
Qed.

(** ** Properties *)

(** A stream opened for a Terminal is bound to that Terminal: what the server reads
    from the front of the stream is the bind the client wrote, and exactly its bytes are
    consumed, whatever frames follow it. *)
Theorem stream_bind_round_trip b rest :
  wf_bind b = true -> len (encode_terminal_id (sb_terminal_id b)) + 8 <= MAX_STREAM_BIND_BYTES ->
  len (encode_stream_bind b ++ rest) <= isize_max ->
  decode_stream_bind (encode_stream_bind b ++ rest) = Ok (b, len (encode_stream_bind b)).
Proof.
  intros [Ht Hs]%andb_true_iff Hm Hl. unfold encode_stream_bind in *. cbv zeta in *.
  set (body := encode_terminal_id (sb_terminal_id b) ++ write_u64_be (sb_stream_id b)) in *.
  assert (Eb : len body = len (encode_terminal_id (sb_terminal_id b)) + 8) by
    (unfold body, write_u64_be; by rewrite len_app, len_to_be).
  pose proof (len_nonneg (encode_terminal_id (sb_terminal_id b))). unfold MAX_STREAM_BIND_BYTES in Hm.
  rewrite saturate_small in * by (unfold MAX_FRAME_LEN; lia).
  unfold decode_stream_bind. rewrite <- app_assoc in *.
  assert (Hu32 : u32b (len body) = true) by (apply u32b_spec; lia).
  rewrite (reads_u32 (len body) Hu32 _ (body ++ rest));
    [|unfold write_u32_be; rewrite len_to_be; done|by apply dec_ok_new|done].
  rewrite bind_ok. rewrite (proj2 (Z.eqb_neq _ _)), (proj2 (Z.ltb_ge _ _)) by
    (unfold MAX_STREAM_BIND_BYTES; lia). cbn [orb]. cbv zeta.
  rewrite (remaining_advance _ (body ++ rest)) by done.
  rewrite (proj2 (Z.ltb_ge _ _)) by (rewrite len_app; pose proof (len_nonneg rest); lia).
  replace (Z.to_nat (len body)) with (length body) by (unfold len; lia). rewrite take_app_length.
  rewrite (reads_terminal_id _ Ht _ (write_u64_be (sb_stream_id b)));
    [|unfold MAX_FRAME_LEN; lia|apply dec_ok_new; unfold isize_max; lia|done].
  rewrite bind_ok. apply andb_true_iff in Hs as [Hu Hz].
  rewrite (reads_u64 _ Hu _ []);
    [|done|apply (dec_ok_advance _ (write_u64_be (sb_stream_id b))); [apply dec_ok_new; unfold isize_max; lia|done]
     |by rewrite (remaining_advance _ (write_u64_be (sb_stream_id b))), app_nil_r].
  rewrite bind_ok, StreamId_new_nonzero by (unfold wf_StreamId; by rewrite Hu, Hz).
  cbn [ok_or]. rewrite bind_ok, advance_advance, <- length_app. unfold at_body_end. cbn.
  rewrite Nat.leb_refl. cbn [negb]. destruct b; unfold write_u32_be; by rewrite len_app, len_to_be.
Qed.

(** An accepted stream bind names a nonzero stream, takes at most 516 bytes and all of
    the length it announces, and depends on no byte after it. *)
Theorem stream_bind_exact bs b used :
  is_bytes bs = true -> len bs <= isize_max -> decode_stream_bind bs = Ok (b, used) ->
  sb_stream_id b <> 0 /\ used = 4 + of_be (take 4 bs) /\ 4 < used <= 4 + MAX_STREAM_BIND_BYTES
  /\ used <= len bs /\ decode_stream_bind (take (Z.to_nat used) bs) = Ok (b, used).
Proof.
  intros Hb Hl Hd. destruct (decode_stream_bind_inv bs b used Hb Hl Hd) as (n & -> & Hn & E & Hle & Hz).
  rewrite E. split; [done|]. repeat split; try (unfold len; lia).
  replace (Z.to_nat (4 + Z.of_nat n)) with (4 + n)%nat by lia. by rewrite <- decode_stream_bind_prefix.
Qed.

(** ** Witnesses *)

Definition sample_bind : StreamBind := mkStreamBind (ResourceId_Satellite [104; 111] 7) 42.

Lemma stream_bind_round_trip_witness :
  decode_stream_bind (encode_stream_bind sample_bind ++ [1; 2; 3]) = Ok (sample_bind, 23).
Proof. apply (stream_bind_round_trip sample_bind [1; 2; 3]); vm_compute; done. Defined.

Lemma stream_bind_exact_witness :
  decode_stream_bind (take 23 (encode_stream_bind sample_bind ++ [9])) = Ok (sample_bind, 23).
Proof. apply (stream_bind_exact (encode_stream_bind sample_bind ++ [9]) sample_bind 23); vm_compute; done. Defined.
