(* ===== verification/RawFields.v ===== *)
(** * Fields as bytes on the wire

    [read_field] seen as a partition of the input: the bytes it takes, whatever their
    varints look like, read as the same field anywhere else. The rewrite of a relayed
    HELLO copies such segments. *)

From S2P Require Import Prelude Wire Fields Enums Ids Caps Codec Info Command Directory SshOrigin.
From S2P Require Import Compress Instances Frame FrameDecode FrameProofs FrameRead.

(** ** Locality: a result depends on the bytes taken *)

Definition local {A} (m : M A) : Prop := forall d a d',
  dec_ok d -> m d = Ok (a, d') ->
  exists bs tl, remaining d = bs ++ tl /\ d' = advance (length bs) d /\ reads m bs a.

Lemma local_ret {A} (a : A) : local (mret a).
Proof. intros d b d' _ [= <- <-]. exists [], (remaining d). rewrite advance_0. repeat split. apply reads_ret. Qed.

Lemma local_fail {A} e : local (@fail A e).
Proof. done. Qed.

Lemma local_lift {A} (r : dresult A) : local (lift r).
Proof.
  intros d b d' _. unfold lift. destruct r as [a|]; [|done]. intros [= <- <-].
  exists [], (remaining d). rewrite advance_0. repeat split. by apply (reads_lift (Ok a)).
Qed.

Lemma local_bind {A B} (m : M A) (k : A -> M B) :
  local m -> (forall d a d', m d = Ok (a, d') -> local (k a)) -> local (m ≫= k).
Proof.
  intros Hm Hk d b d' Hd. unfold mbind at 1, M_bind at 1.
  destruct (m d) as [[a d1]|] eqn:E; [|done]. intros E2.
  destruct (Hm d a d1 Hd E) as (b1 & tl1 & Hr1 & -> & H1).
  destruct (Hk d a _ E (advance (length b1) d) b d') as (b2 & tl2 & Hr2 & -> & H2);
    [by eapply dec_ok_advance|done|].
  rewrite (remaining_advance b1 tl1) in Hr2 by done. subst tl1.
  exists (b1 ++ b2), tl2. rewrite <- app_assoc, advance_advance, length_app. repeat split; [done|].
  by eapply reads_bind.
Qed.

Lemma local_take n : 0 <= n -> local (take_n n).
Proof.
  intros Hn d bs d' _ (-> & -> & Hle)%take_n_inv; [|done].
  exists (take (Z.to_nat n) (remaining d)), (drop (Z.to_nat n) (remaining d)).
  assert (El : length (take (Z.to_nat n) (remaining d)) = Z.to_nat n).
  { rewrite length_take. unfold remaining. rewrite length_drop. lia. }
  rewrite El, take_drop. repeat split. apply reads_take. unfold len. lia.
Qed.

Lemma local_read_u8 : local read_u8.
Proof. apply local_bind; [by apply local_take|]. intros; apply local_ret. Qed.

Lemma local_varint_loop n r s : local (read_varint_loop n r s).
Proof.
  revert r s; induction n as [|n IH]; intros r s; cbn [read_varint_loop]; [apply local_fail|].
  destruct (64 <=? s); [apply local_fail|]. apply local_bind; [apply local_read_u8|].
  intros _ b _ _. cbv zeta. destruct (_ =? 0); [apply local_ret|apply IH].
Qed.

Lemma read_field_body d : read_field d = if at_body_end d then Ok (None, d) else field_body d.
Proof. reflexivity. Qed.

Lemma local_field_body : local field_body.
Proof.
  apply local_bind; [apply local_varint_loop|]. intros _ id _ _.
  apply local_bind; [apply local_lift|]. intros _ fid _ _.
  apply local_bind; [apply local_read_u8|]. intros _ wt _ _.
  apply local_bind; [apply local_varint_loop|]. intros d n d' Hn%read_varint_nonneg.
  destruct (_ <? n); [apply local_fail|].
  apply local_bind; [by apply local_take|]. intros; apply local_ret.
Qed.

(** ** Segments *)

(** A field and the bytes that hold it. *)
Record Segment : Type := mkSegment { raw : bytes; fld : Z * bytes }.

Definition seg_ok (s : Segment) : Prop := (0 < length (raw s))%nat /\ reads field_body (raw s) (Some (fld s)).

Definition raws (ss : list Segment) : bytes := concat (map raw ss).

Lemma raws_app a b : raws (a ++ b) = raws a ++ raws b.
Proof. unfold raws. by rewrite map_app, concat_app. Qed.

(** What [read_field] returns is a segment. *)
Lemma read_field_seg d f d' :
  dec_ok d -> read_field d = Ok (Some f, d') ->
  exists s tl, seg_ok s /\ fld s = f /\ remaining d = raw s ++ tl /\ d' = advance (length (raw s)) d.
Proof.
  intros Hd E. destruct (read_field_advances d f d' E) as [_ [Hlt _]]. rewrite read_field_body in E.
  destruct (at_body_end d); [done|].
  destruct (local_field_body d _ _ Hd E) as (bs & tl & Hr & -> & H).
  exists (mkSegment bs f), tl. repeat split; try done. cbn in *. lia.
Qed.

(** A segment reads as its field wherever the body is not over. *)
Lemma seg_reads s d tl :
  seg_ok s -> len (raw s) <= MAX_FRAME_LEN -> dec_ok d -> remaining d = raw s ++ tl ->
  (pos d < body_limit d)%nat -> read_field d = Ok (Some (fld s), advance (length (raw s)) d).
Proof.
  intros [_ H] Hl Hd Hr Hb. rewrite read_field_body. unfold at_body_end.
  rewrite (proj2 (Nat.leb_gt _ _)) by done. by apply (H d tl).
Qed.

(** A field the encoder writes is one. *)
Lemma write_field_seg id v :
  u32b id = true -> len (write_field id v) <= MAX_FRAME_LEN -> seg_ok (mkSegment (write_field id v) (id, v)).
Proof.
  intros Hid Hl. split; [|by apply reads_field_body].
  cbn. rewrite varint_field_len. pose proof (length_varint id). lia.
Qed.

Lemma seg_pos s ss : seg_ok s -> (0 < length (raws (s :: ss)))%nat.
Proof. intros [H _]. unfold raws. cbn. rewrite length_app. lia. Qed.

(** The field loop over segments that fill the body. *)
Lemma while_fields_segs {S} (step : S -> Z -> bytes -> dresult S) ss s d tl :
  Forall seg_ok ss -> len (raws ss) <= MAX_FRAME_LEN -> dec_ok d ->
  remaining d = raws ss ++ tl -> body_limit d = (pos d + length (raws ss))%nat ->
  while_fields step s d = finish (fold_fields step s (map fld ss)) (advance (length (raws ss)) d).
Proof.
  intros Hs. revert s d. induction Hs as [|g ss Hg Hs IH]; intros s d Hl Hd Hr Hb;
    rewrite while_fields_eq; unfold mbind, M_bind.
  - rewrite read_field_end by (rewrite Hb; simpl; lia). by rewrite advance_0.
  - pose proof (seg_pos g ss Hg). cbn in Hl, Hr, Hb. change (concat (map raw ss)) with (raws ss) in *.
    rewrite len_app in Hl. rewrite <- app_assoc in Hr. rewrite length_app in Hb.
    pose proof (len_nonneg (raw g)). pose proof (len_nonneg (raws ss)). destruct Hg as [Hg0 Hg].
    rewrite (seg_reads g d (raws ss ++ tl)); [|by split|lia|done|done|lia].
    cbn [map fold_fields]. destruct (fld g) as [id v]. unfold lift.
    destruct (step s id v) as [s'|e]; [|done]. cbn [mbind result_bind].
    rewrite IH; [|lia|by eapply dec_ok_advance|by eapply remaining_advance|].
    + cbn [raws map concat]. by rewrite advance_advance, length_app.
    + unfold body_limit in *; simpl. lia.
Qed.

Lemma field_body_some d f d' : field_body d = Ok (f, d') -> f <> None.
Proof.
  unfold field_body, mbind, M_bind, lift, fail, mret, M_ret. intros E ->. repeat (case_match; simplify_eq).
Qed.

Lemma read_field_stop d d' : read_field d = Ok (None, d') -> d' = d /\ (body_limit d <= pos d)%nat.
Proof.
  rewrite read_field_body. unfold at_body_end. destruct (Nat.leb_spec (body_limit d) (pos d)).
  - by intros [= <-].
  - intros E. by apply field_body_some in E.
Qed.

(** Any run of the loop that stays within the body went over such segments. *)
Lemma while_fields_inv {S} (step : S -> Z -> bytes -> dresult S) s d s' d' :
  dec_ok d -> (pos d <= body_limit d)%nat -> (pos d' <= body_limit d)%nat ->
  while_fields step s d = Ok (s', d') ->
  exists ss tl, Forall seg_ok ss /\ remaining d = raws ss ++ tl
    /\ body_limit d = (pos d + length (raws ss))%nat /\ fold_fields step s (map fld ss) = Ok s'.
Proof.
  remember (length (input d) - pos d)%nat as n eqn:En. revert s d En.
  induction n as [n IH] using lt_wf_ind. intros s d -> Hd Hp Hp'.
  rewrite while_fields_eq. unfold mbind, M_bind.
  destruct (read_field d) as [[[[id v]|] d1]|] eqn:E; [| |done].
  - unfold lift. destruct (step s id v) as [s1|] eqn:Es; [|done]. intros Hw.
    destruct (read_field_seg d _ d1 Hd E) as (g & tl & Hg & Hf & Hr & ->).
    apply read_field_advances in E as [_ [_ Hle]]. cbn in Hle.
    pose proof (moving_while_fields step s1 _ _ _ Hw) as (_ & Hlo & _). cbn in Hlo.
    destruct Hg as [Hg0 Hg]. edestruct IH as (ss & tl' & Hss & Hr' & Hb & Hfold);
      [|reflexivity|by eapply dec_ok_advance| |exact Hp'|exact Hw|].
    + cbn. lia.
    + unfold body_limit in *; cbn in *; lia.
    + rewrite (remaining_advance (raw g) tl) in Hr' by done. subst tl.
      exists (g :: ss), tl'. cbn [raws map concat fold_fields]. rewrite Hf, Es.
      change (concat (map raw ss)) with (raws ss). rewrite <- app_assoc, length_app.
      repeat split; [by constructor; [split|]|done| |done].
      unfold body_limit in *; cbn in *; lia.
  - apply read_field_stop in E as [-> Hlim]. intros [= <- <-]. exists [], (remaining d).
    repeat split; [constructor|cbn; lia].
Qed.

(** ** Dropping the origin *)

Definition not_origin (s : Segment) : bool := negb ((fld s).1 =? hello_SSH_ORIGIN).

Lemma remaining_nil d : body_end d = None -> (body_limit d <= pos d)%nat -> remaining d = [].
Proof.
  unfold body_limit, remaining. intros ->. cbn. intros H. by apply drop_ge.
Qed.

(** A successful scan is a partition of the body. *)
Lemma fields_without_origin_loop_inv fuel kept dec r :
  dec_ok dec -> body_end dec = None ->
  fields_without_origin_loop fuel (input dec) kept dec = Some r ->
  exists ss, Forall seg_ok ss /\ remaining dec = raws ss /\ r = kept ++ raws (List.filter not_origin ss).
Proof.
  revert kept dec. induction fuel as [|fuel IH]; intros kept dec Hd Hb; cbn [fields_without_origin_loop]; [done|].
  destruct (read_field dec) as [[[[id v]|] d1]|] eqn:E; [| |done].
  - destruct (read_field_seg dec _ d1 Hd E) as (g & tl & Hg & Hf & Hr & ->). intros Hw.
    change (input dec) with (input (advance (length (raw g)) dec)) in Hw at 1.
    apply IH in Hw as (ss & Hss & Hr' & ->); [|by eapply dec_ok_advance|done].
    rewrite (remaining_advance (raw g) tl) in Hr' by done. subst tl.
    exists (g :: ss). split; [by constructor|]. split; [done|].
    change (pos (advance (length (raw g)) dec)) with (pos dec + length (raw g))%nat.
    replace (pos dec + length (raw g) - pos dec)%nat with (length (raw g)) by lia.
    fold (remaining dec). rewrite Hr, take_app_length.
    cbn [List.filter]. unfold not_origin at 2. rewrite Hf. cbn [fst].
    destruct (id =? hello_SSH_ORIGIN); cbn [negb]; [done|]. cbn [raws map concat]. by rewrite app_assoc.
  - apply read_field_stop in E as [-> Hlim]. intros [= <-]. exists [].
    repeat split; [constructor|by apply remaining_nil|]. by rewrite app_nil_r.
Qed.

Lemma fields_without_origin_loop_ok fuel kept dec ss :
  dec_ok dec -> body_end dec = None -> Forall seg_ok ss -> remaining dec = raws ss ->
  len (raws ss) <= MAX_FRAME_LEN -> (length (raws ss) < fuel)%nat ->
  fields_without_origin_loop fuel (input dec) kept dec = Some (kept ++ raws (List.filter not_origin ss)).
Proof.
  revert kept dec ss. induction fuel as [|fuel IH]; intros kept dec ss Hd Hb Hss Hr Hl Hf; [lia|].
  cbn [fields_without_origin_loop]. destruct Hss as [|g ss Hg Hss].
  - rewrite read_field_end; [by rewrite app_nil_r|]. unfold body_limit. rewrite Hb. cbn.
    apply (f_equal length) in Hr. unfold remaining in Hr. rewrite length_drop in Hr. cbn in Hr. lia.
  - pose proof (seg_pos g ss Hg) as Hp. cbn [raws map concat] in *. change (concat (map raw ss)) with (raws ss) in *.
    rewrite len_app in Hl. rewrite length_app in Hf, Hp. pose proof (len_nonneg (raw g)).
    pose proof (len_nonneg (raws ss)).
    assert (Hlim : (pos dec < body_limit dec)%nat).
    { unfold body_limit. rewrite Hb. cbn. apply (f_equal length) in Hr. unfold remaining in Hr.
      rewrite length_drop, length_app in Hr. lia. }
    rewrite (seg_reads g dec (raws ss)) by (done || lia).
    change (input dec) with (input (advance (length (raw g)) dec)) at 1.
    destruct (fld g) as [id v] eqn:Ef. rewrite (IH _ (advance (length (raw g)) dec) ss);
      [|by eapply dec_ok_advance|done|done|by eapply remaining_advance|lia|destruct Hg; lia].
    change (pos (advance (length (raw g)) dec)) with (pos dec + length (raw g))%nat.
    replace (pos dec + length (raw g) - pos dec)%nat with (length (raw g)) by lia.
    change (input (advance (length (raw g)) dec)) with (input dec).
    fold (remaining dec). rewrite Hr, take_app_length.
    cbn [List.filter]. unfold not_origin at 2. rewrite Ef. cbn [fst].
    destruct (id =? hello_SSH_ORIGIN); cbn [negb]; [done|]. cbn [raws map concat]. by rewrite app_assoc.
Qed.

(** The scan succeeds exactly on a body made of whole fields. *)
Lemma fields_without_origin_inv body kept :
  len body <= isize_max -> fields_without_origin body = Some kept ->
  exists ss, Forall seg_ok ss /\ body = raws ss /\ kept = raws (List.filter not_origin ss).
Proof.
  intros Hl H. by apply (fields_without_origin_loop_inv _ [] (Decoder_new body)) in H; [|apply dec_ok_new|].
Qed.

Lemma fields_without_origin_ok ss :
  Forall seg_ok ss -> len (raws ss) <= MAX_FRAME_LEN ->
  fields_without_origin (raws ss) = Some (raws (List.filter not_origin ss)).
Proof.
  intros Hs Hl. apply (fields_without_origin_loop_ok _ [] (Decoder_new (raws ss)) ss);
    [apply dec_ok_new; unfold MAX_FRAME_LEN, isize_max in *; lia|done|done|done|done|lia].
Qed.

Lemma filter_segs p ss : Forall seg_ok ss -> Forall seg_ok (List.filter p ss).
Proof. induction 1 as [|g ss Hg Hs IH]; cbn [List.filter]; [done|]. destruct (p g); [by constructor|done]. Qed.

(** Dropping segments shortens the body, and by nothing only when none is dropped. *)
Lemma raws_filter_length p ss :
  Forall seg_ok ss ->
  (length (raws (List.filter p ss)) <= length (raws ss))%nat /\
  (length (raws (List.filter p ss)) = length (raws ss) -> List.filter p ss = ss).
Proof.
  induction 1 as [|g ss Hg Hs [IH1 IH2]]; [done|]. destruct Hg as [Hg _]. cbn [List.filter].
  destruct (p g); cbn [raws map concat]; change (concat (map raw ?x)) with (raws x) in *; rewrite ?length_app.
  - split; [lia|]. intros E. f_equal. apply IH2. lia.
  - split; [lia|]. intros E. lia.
Qed.
