(* ===== verification/Bridge.v ===== *)
(** * The stdio bridge ([phux/src/commands/stdio_bridge.rs])

    [phux stdio-bridge] relays a remote client to the local server socket. It rewrites the
    HELLO it forwards so that the origin the server records is the one the bridge saw. The
    model is of a run whose reads and writes succeed: the client's side is the list of bytes
    it sends before it closes, the server's side the bytes written to its socket. *)

From S2P Require Import Prelude Wire Fields Enums Ids Caps Codec Info Command Directory SshOrigin.
From S2P Require Import Compress Instances Frame FrameDecode FrameProofs FrameRead Envelope.
From S2P Require Import Framing RawFields FrameRead.

(* phux/src/commands/stdio_bridge.rs Opening *)
Inductive Opening : Type :=
| Opening_Frame (frame : bytes)
| Opening_Unframed (header : bytes)
| Opening_Closed.

(** [None] when the input ends before [n] bytes. *)
(* phux/src/commands/stdio_bridge.rs read_fully *)
Definition read_fully (n : nat) (input : bytes) : option (bytes * bytes) :=
  if (length input <? n)%nat then None else Some (take n input, drop n input).

(** What was read, and what the client has still to send. *)
(* phux/src/commands/stdio_bridge.rs read_opening_frame *)
Definition read_opening_frame (input : bytes) : Opening * bytes :=
  match read_fully LENGTH_PREFIX_LEN input with
  | None => (Opening_Closed, [])
  | Some (header, input) =>
      match decode_length header with
      | Err _ => (Opening_Unframed header, input)
      | Ok body_len =>
          match read_fully (Z.to_nat body_len) input with
          | None => (Opening_Closed, [])
          | Some (body, input) => (Opening_Frame (header ++ body), input)
          end
      end
  end.

Section Bridge.
Context `{RJ : ReportJson} `{IT : IpText} `{FL : Flate}.

(** The [loop] of the source: every round that goes on has read a frame of at least five
    bytes, so the length of the input bounds the rounds (lemma [forward_hello_eq]). *)
Fixpoint forward_hello_loop (fuel : nat) (input output : bytes) (origin : option SshOrigin)
    : bytes * bytes :=
  match fuel with
  | O => (output, input)
  | S fuel' =>
      match read_opening_frame input with
      | (Opening_Closed, input) => (output, input)
      | (Opening_Unframed bs, input) => (output ++ bs, input)
      | (Opening_Frame frame, input) =>
          if bool_decide (frame !! LENGTH_PREFIX_LEN = Some TYPE_PING) then
            forward_hello_loop fuel' input (output ++ frame) origin
          else
            let stamped := restamp_hello frame origin in
            (output ++ default frame stamped, input)
      end
  end.

(** What the server gets, and what the client has still to send. *)
(* phux/src/commands/stdio_bridge.rs forward_hello *)
Definition forward_hello (input : bytes) (origin : option SshOrigin) : bytes * bytes :=
  forward_hello_loop (S (length input)) input [] origin.

(** The client-to-server direction of [bridge]: the opening frames, then a plain copy. *)
(* phux/src/commands/stdio_bridge.rs:137-140 bridge *)
Definition bridge_inbound (input : bytes) (origin : option SshOrigin) : bytes :=
  let '(output, rest) := forward_hello input origin in output ++ rest.

(** What the server gets for the first frame that is not a [PING]. *)
Definition forwarded (frame : bytes) (origin : option SshOrigin) : bytes :=
  default frame (restamp_hello frame origin).

(** ** The loop *)

Lemma read_opening_whole f rest :
  whole_frame f -> read_opening_frame (f ++ rest) = (Opening_Frame f, rest).
Proof.
  intros (n & Hn & E & Hl). unfold read_opening_frame, read_fully, LENGTH_PREFIX_LEN.
  rewrite length_app. rewrite (proj2 (Nat.ltb_ge _ _)) by lia. cbv iota beta.
  rewrite take_app_le, (decode_length_ok n) by (done || lia). rewrite Nat2Z.id, length_drop, length_app.
  rewrite (proj2 (Nat.ltb_ge _ _)) by lia. cbv iota beta. rewrite drop_app_le by lia.
  rewrite take_app_le by (rewrite length_drop; lia). rewrite drop_app_le by (rewrite length_drop; lia).
  rewrite (take_ge (drop 4 f)), (drop_ge (drop 4 f)) by (rewrite length_drop; lia).
  by rewrite take_drop.
Qed.

Lemma read_opening_shorter input f rest :
  read_opening_frame input = (Opening_Frame f, rest) -> (length rest < length input)%nat.
Proof.
  unfold read_opening_frame, read_fully, LENGTH_PREFIX_LEN.
  destruct (Nat.ltb_spec (length input) 4); [done|]. destruct (decode_length _); [|done].
  destruct (_ <? _)%nat; [done|]. intros [= _ <-]. rewrite !length_drop. lia.
Qed.

(** Any fuel above the input runs the loop to its end. *)
Lemma forward_hello_fuel n m input output origin :
  (length input < n)%nat -> (length input < m)%nat ->
  forward_hello_loop n input output origin = forward_hello_loop m input output origin.
Proof.
  revert m input output. induction n as [|n IH]; intros m input output Hn Hm; [lia|].
  destruct m as [|m]; [lia|]. cbn [forward_hello_loop].
  destruct (read_opening_frame input) as [[f|h|] rest] eqn:E; [|done..].
  apply read_opening_shorter in E. destruct (bool_decide _); [|done]. apply IH; lia.
Qed.

Lemma forward_pings ps input output origin :
  Forall whole_frame ps -> Forall (fun p => p !! LENGTH_PREFIX_LEN = Some TYPE_PING) ps ->
  forward_hello_loop (S (length (concat ps ++ input))) (concat ps ++ input) output origin =
  forward_hello_loop (S (length input)) input (output ++ concat ps) origin.
Proof.
  intros Hw. revert output. induction Hw as [|p ps Hp Hw IH]; intros output Ht.
  - cbn [concat]. by rewrite app_nil_r.
  - inversion_clear Ht as [|? ? Ht1 Ht2]. cbn [concat]. rewrite <- app_assoc.
    cbn [forward_hello_loop]. rewrite read_opening_whole by done. rewrite bool_decide_true by done.
    rewrite (forward_hello_fuel _ (S (length (concat ps ++ input)))).
    + rewrite IH by done. by rewrite <- app_assoc.
    + rewrite !length_app. apply whole_frame_length in Hp. lia.
    + lia.
Qed.
(** ** The HELLO body, field by field *)

(** Another origin in the local variables, and in the capabilities. *)
Definition so (o : option SshOrigin) (s : HelloFields) : HelloFields :=
  let '(mkHelloFields name major minor patch caps z _) := s in
  mkHelloFields name major minor patch caps z o.
Definition stamp (o : option SshOrigin) (c : ClientCapabilities) : ClientCapabilities :=
  mkClientCaps (color_support c) (layers c) (image_protocols c) (kbd_protocols c) (hyperlinks c)
    (output_mode c) (default_colors c) (bootstrap c) (compression c) o.

Definition hello_start : HelloFields := mkHelloFields None None None None None None None.

(** [decode_hello] behind its loop. *)
Definition hello_of (s : HelloFields) : dresult FrameKind :=
  caps ← ok_or UnexpectedEof (he_caps s);
  let caps := match he_origin s with Some o => with_ssh_origin caps o | None => caps end in
  let caps := match he_compression s with Some z => with_compression caps z | None => caps end in
  name ← ok_or UnexpectedEof (he_name s);
  major ← ok_or UnexpectedEof (he_major s);
  minor ← ok_or UnexpectedEof (he_minor s);
  patch ← ok_or UnexpectedEof (he_patch s);
  Ok (FrameKind_Hello name major minor patch caps).

Lemma decode_hello_eq d :
  decode_hello d = (s ← while_fields hello_step hello_start; lift (hello_of s)) d.
Proof.
  unfold decode_hello, mbind, M_bind. fold hello_start.
  destruct (while_fields hello_step hello_start d) as [[s d']|]; [|done].
  unfold hello_of, lift. destruct s as [[] [] [] [] [] z o]; reflexivity.
Qed.

Lemma so_so o p s : so o (so p s) = so o s.
Proof. by destruct s. Qed.
Lemma origin_so o s : he_origin (so o s) = o.
Proof. by destruct s. Qed.

Lemma hello_step_origin s v : hello_step s hello_SSH_ORIGIN v = Ok (so (decode_ssh_origin v) s).
Proof. by destruct s. Qed.

Lemma hello_step_other o s id v :
  id <> hello_SSH_ORIGIN -> hello_step (so o s) id v = (s' ← hello_step s id v; Ok (so o s')).
Proof.
  intros H%Z.eqb_neq. destruct s. unfold hello_step, so. cbv beta iota.
  rewrite H. repeat (match goal with |- context [if ?b then _ else _] => destruct b end;
    [first [ destruct (sub v _); reflexivity | destruct (from_utf8 v); reflexivity ]|]). reflexivity.
Qed.

Lemma fold_hello_filter o ss s s' :
  fold_fields hello_step s (map fld ss) = Ok s' ->
  fold_fields hello_step (so o s) (map fld (List.filter not_origin ss)) = Ok (so o s').
Proof.
  revert s. induction ss as [|g ss IH]; intros s; cbn [map fold_fields List.filter]; [by intros [= <-]|].
  unfold not_origin at 1. destruct (fld g) as [id v] eqn:E. cbn [fst].
  destruct (Z.eqb_spec id hello_SSH_ORIGIN) as [->|Hid]; cbn [negb].
  - rewrite hello_step_origin, bind_ok. intros H%IH. by rewrite so_so in H.
  - intros [s1 [H1 H2]]%bind_inv. cbn [map fold_fields]. rewrite E, hello_step_other, H1 by done.
    rewrite !bind_ok. by apply IH.
Qed.

(** Without the field the loop never learns an origin. *)
Lemma fold_hello_no_origin ss s s' :
  fold_fields hello_step (so None s) (map fld (List.filter not_origin ss)) = Ok s' -> he_origin s' = None.
Proof.
  revert s. induction ss as [|g ss IH]; intros s; cbn [List.filter map fold_fields]; [intros [= <-]; apply origin_so|].
  unfold not_origin at 1. destruct (fld g) as [id v] eqn:E. cbn [fst].
  destruct (Z.eqb_spec id hello_SSH_ORIGIN) as [->|Hid]; cbn [negb]; [apply IH|].
  cbn [map fold_fields]. rewrite E, hello_step_other by done.
  intros [s1 [[s2 [H1 [= <-]]]%bind_inv H2]]%bind_inv. by apply IH in H2.
Qed.

Lemma fold_fields_app {S} (step : S -> Z -> bytes -> dresult S) s fs gs :
  fold_fields step s (fs ++ gs) = (s' ← fold_fields step s fs; fold_fields step s' gs).
Proof.
  revert s. induction fs as [|[id v] fs IH]; intros s; cbn [app fold_fields]; [done|].
  destruct (step s id v) as [s1|]; [|done]. rewrite !bind_ok. apply IH.
Qed.

(** The capabilities read off the wire carry no origin of their own. *)
Lemma client_caps_no_origin : yields (fun c => ssh_origin c = None) decode_client_capabilities.
Proof. unfold decode_client_capabilities. yields_tac. reflexivity. Qed.

Definition caps_plain (s : HelloFields) : Prop := forall c, he_caps s = Some c -> ssh_origin c = None.

Lemma sub_yields {A} (P : A -> Prop) (m : M A) v a : yields P m -> sub v m = Ok a -> P a.
Proof.
  intros Hm. unfold sub. destruct (m (Decoder_new v)) as [[b d]|] eqn:E; [|done]. intros [= <-]. by eapply Hm.
Qed.

Lemma hello_step_plain s id v s' : caps_plain s -> hello_step s id v = Ok s' -> caps_plain s'.
Proof.
  destruct s as [n a b c caps z o]. unfold caps_plain, hello_step. cbv beta iota. intros Hp.
  repeat (match goal with |- context [if ?b then _ else _] => destruct b end;
    [try (intros [x [Hx [= <-]]]%bind_inv; cbn in *); try exact Hp; try (intros [= <-]; exact Hp)|]).
  - intros k [= <-]. by eapply sub_yields in Hx; [|apply client_caps_no_origin].
  - intros [= <-]. exact Hp.
Qed.

Lemma fold_hello_plain fs s s' :
  caps_plain s -> fold_fields hello_step s fs = Ok s' -> caps_plain s'.
Proof.
  revert s. induction fs as [|[id v] fs IH]; intros s Hp; cbn [fold_fields]; [by intros [= <-]|].
  intros [s1 [H1 H2]]%bind_inv. eapply IH; [|done]. by eapply hello_step_plain.
Qed.

(** What a decoded HELLO says about the loop, and what another origin would give. *)
Lemma hello_of_inv s n a b c caps :
  caps_plain s -> hello_of s = Ok (FrameKind_Hello n a b c caps) ->
  ssh_origin caps = he_origin s /\
  forall o, hello_of (so o s) = Ok (FrameKind_Hello n a b c (stamp o caps)).
Proof.
  destruct s as [[n'|] [a'|] [b'|] [c'|] [k|] z o]; unfold caps_plain, hello_of; cbn; try done.
  intros Hp. specialize (Hp k eq_refl). intros E. injection E as -> -> -> -> <-. split.
  - destruct z, o; cbn; done.
  - intros o'. destruct k; cbn in Hp; subst. by destruct z, o, o'.
Qed.

(** ** The HELLO frame *)

Lemma decode_hello_segs l ss tail :
  Forall seg_ok ss -> 1 + len (raws ss) <= MAX_FRAME_LEN ->
  len (frame_bytes TYPE_HELLO (raws ss) ++ tail) <= isize_max ->
  decode_with_limits (frame_bytes TYPE_HELLO (raws ss) ++ tail) l =
    f ← (s ← fold_fields hello_step hello_start (map fld ss); hello_of s); Ok (f, tail).
Proof.
  intros Hss Hl Hi. pose proof (len_nonneg (raws ss)). rewrite read_frame_framed by done.
  destruct (body_cursor_ok l TYPE_HELLO (raws ss) tail Hi) as [Hd _].
  change (decode_body TYPE_HELLO) with decode_hello. rewrite decode_hello_eq.
  unfold mbind at 1, M_bind at 1.
  rewrite (while_fields_segs hello_step ss hello_start _ tail);
    [|done|lia|done|apply remaining_body_cursor|done].
  destruct (fold_fields hello_step hello_start _) as [s|e]; [|done]. cbn [finish]. rewrite bind_ok.
  unfold lift. destruct (hello_of s) as [f|e]; [|done]. rewrite bind_ok.
  rewrite (proj2 (Nat.ltb_ge _ _)) by (cbn; lia). unfold body_cursor. cbn [advance set_pos input].
  by rewrite <- (length_frame_bytes TYPE_HELLO), drop_app_length.
Qed.

(** An input that starts with a header and a type byte, taken apart. *)
Lemma split_frame_bytes inp n :
  is_bytes inp = true -> 1 <= Z.of_nat n -> of_be (take 4 inp) = Z.of_nat n -> (4 + n <= length inp)%nat ->
  exists body, inp = frame_bytes (of_be (take 1 (drop 4 inp))) body ++ drop (4 + n) inp
    /\ body = take (n - 1) (drop 5 inp) /\ length body = (n - 1)%nat
    /\ inp !! 4%nat = Some (of_be (take 1 (drop 4 inp))).
Proof.
  intros Hb Hn E Hl. exists (take (n - 1) (drop 5 inp)).
  assert (Hlen : length (take (n - 1) (drop 5 inp)) = (n - 1)%nat) by (rewrite length_take, length_drop; lia).
  destruct (drop 4 inp) as [|t rest] eqn:Ed.
  { apply (f_equal length) in Ed. rewrite length_drop in Ed. cbn in Ed. lia. }
  assert (E5 : drop 5 inp = rest) by (change 5%nat with (4 + 1)%nat; by rewrite <- drop_drop, Ed).
  assert (Et : of_be [t] = t) by (unfold of_be; cbn; lia).
  assert (Hr : (n - 1 <= length rest)%nat) by (rewrite <- E5, length_drop; lia).
  change (take 1 (t :: rest)) with [t]. rewrite Et. repeat split; [|done|].
  - unfold frame_bytes. rewrite <- app_assoc. rewrite <- (take_drop 4 inp) at 1. f_equal.
    + replace (1 + len (take (n - 1) (drop 5 inp))) with (of_be (take 4 inp)) by (unfold len; rewrite Hlen; lia).
      unfold write_u32_be. replace 4%nat with (length (take 4 inp)) at 2 by (rewrite length_take; lia).
      by rewrite to_be_of_be by (apply is_bytes_take, Hb).
    + rewrite Ed, E5. unfold write_u8. cbn [app]. f_equal.
      replace (4 + n)%nat with (5 + (n - 1))%nat by lia. by rewrite <- drop_drop, E5, take_drop.
  - rewrite <- (take_drop 4 inp), Ed. rewrite lookup_app_r by (rewrite length_take; lia).
    rewrite length_take, Nat.min_l by lia. done.
Qed.

(** Whatever decodes as a HELLO without an envelope is made of whole fields. *)
Lemma decode_hello_inv l inp n a b c caps rest :
  is_bytes inp = true -> len inp <= isize_max -> inp !! 4%nat <> Some TYPE_FRAME_COMPRESSED ->
  decode_with_limits inp l = Ok (FrameKind_Hello n a b c caps, rest) ->
  exists ss s, Forall seg_ok ss /\ 1 + len (raws ss) <= MAX_FRAME_LEN
    /\ inp = frame_bytes TYPE_HELLO (raws ss) ++ rest
    /\ fold_fields hello_step hello_start (map fld ss) = Ok s
    /\ hello_of s = Ok (FrameKind_Hello n a b c caps).
Proof.
  intros Hb Hi Hne (k & d' & Hk & E & Hl & -> & Hd & Hp & _)%decode_ok_iff;
    [|unfold len, isize_max, usize_max, u64_max in *; lia].
  destruct (split_frame_bytes inp k Hb ltac:(lia) E Hl) as (body & Ei & Eb & Hlb & E4).
  set (tb := of_be (take 1 (drop 4 inp))) in *.
  assert (Ht : tb = TYPE_HELLO).
  { symmetry. refine (decode_body_type tb _ _ _ _ Hd). intros ->. by apply Hne. }
  rewrite Ht in *. change (decode_body TYPE_HELLO) with decode_hello in Hd. rewrite decode_hello_eq in Hd.
  unfold mbind, M_bind in Hd. set (d := frame_cursor l inp k) in *.
  destruct (while_fields hello_step hello_start d) as [[s d1]|] eqn:Ew; [|done].
  unfold lift in Hd. destruct (hello_of s) as [f|] eqn:Ef; [|done]. injection Hd as -> ->.
  apply while_fields_inv in Ew as (ss & tl & Hss & Hr & Hlim & Hf);
    [|split; [cbn; lia|exact Hi]|cbn; lia|cbn; lia].
  assert (Hrs : raws ss = body).
  { subst body. unfold remaining in Hr. cbn [d frame_cursor pos input] in Hr. rewrite Hr.
    unfold body_limit in Hlim. cbn in Hlim. replace (k - 1)%nat with (length (raws ss)) by lia.
    by rewrite take_app_length. }
  exists ss, s. rewrite Hrs. repeat split; try done. unfold len. rewrite Hlb. lia.
Qed.

(** ** The rewrite of such a frame *)

Lemma hello_body_frame body :
  1 + len body <= MAX_FRAME_LEN -> hello_body (frame_bytes TYPE_HELLO body) = Some body.
Proof.
  intros Hl. unfold hello_body, LENGTH_PREFIX_LEN. rewrite length_frame_bytes.
  rewrite (proj2 (Nat.ltb_ge _ _)) by lia. unfold frame_bytes, write_u32_be.
  rewrite take_to_be, drop_to_be. cbv zeta. unfold write_u8. cbn [app]. pose proof (len_nonneg body).
  rewrite of_be_to_be by (unfold MAX_FRAME_LEN in Hl; lia). rewrite len_cons, Z.eqb_refl. done.
Qed.

Lemma hello_body_inv f body :
  is_bytes f = true -> hello_body f = Some body -> f = frame_bytes TYPE_HELLO body.
Proof.
  intros Hb. unfold hello_body, LENGTH_PREFIX_LEN. destruct (Nat.ltb_spec (length f) 4); [done|]. cbv zeta.
  destruct (drop 4 f) as [|t rest] eqn:E; [done|].
  destruct (Z.eqb_spec (of_be (take 4 f)) (len (t :: rest))) as [El|]; [|done].
  destruct (Z.eqb_spec t TYPE_HELLO) as [->|]; [|done]. intros [= <-]. rewrite <- (take_drop 4 f), E.
  unfold frame_bytes. f_equal. rewrite len_cons in El. rewrite <- El. unfold write_u32_be.
  replace 4%nat with (length (take 4 f)) at 2 by (rewrite length_take; lia).
  by rewrite to_be_of_be by (apply is_bytes_take, Hb).
Qed.

Lemma hello_frame_bytes fields :
  1 + len fields <= MAX_FRAME_LEN -> hello_frame fields = frame_bytes TYPE_HELLO fields.
Proof. intros H. unfold hello_frame. by rewrite saturate_small. Qed.

(** The segment the bridge appends, when it fits. *)
Definition origin_segment (o : SshOrigin) : Segment :=
  mkSegment (write_field hello_SSH_ORIGIN (encode_ssh_origin o)) (hello_SSH_ORIGIN, encode_ssh_origin o).
Definition origin_fits (kept : list Segment) (o : SshOrigin) : bool :=
  1 + len (raws kept) + len (raw (origin_segment o)) <=? MAX_FRAME_LEN.
Definition stamp_segments (kept : list Segment) (origin : option SshOrigin) : list Segment :=
  match origin with
  | Some o => if origin_fits kept o then [origin_segment o] else []
  | None => []
  end.

Lemma len_raws_filter p ss : Forall seg_ok ss -> len (raws (List.filter p ss)) <= len (raws ss).
Proof. intros H. destruct (raws_filter_length p ss H). unfold len. lia. Qed.

Lemma append_segments kept o :
  append_origin_if_it_fits (raws kept) o = raws (kept ++ stamp_segments kept (Some o)).
Proof.
  unfold append_origin_if_it_fits, stamp_segments, origin_fits. cbn [raw origin_segment].
  set (n := 1 + len (raws kept) + len _). rewrite raws_app.
  destruct (Z.leb_spec n MAX_FRAME_LEN); cbn [raws map concat origin_segment raw].
  - rewrite (proj2 (Z.leb_le n u32_max)) by (unfold MAX_FRAME_LEN, u32_max in *; lia). by rewrite app_nil_r.
  - rewrite app_nil_r. by destruct (n <=? u32_max).
Qed.

(** What leaves the bridge, in every case. *)
Lemma forwarded_segs ss origin :
  Forall seg_ok ss -> 1 + len (raws ss) <= MAX_FRAME_LEN ->
  let kept := List.filter not_origin ss in
  forwarded (frame_bytes TYPE_HELLO (raws ss)) origin
    = frame_bytes TYPE_HELLO (raws (kept ++ stamp_segments kept origin)).
Proof.
  intros Hss Hl kept. pose proof (len_raws_filter not_origin ss Hss) as Hk. fold kept in Hk.
  unfold forwarded, restamp_hello. rewrite hello_body_frame by done. cbn [mbind option_bind].
  rewrite fields_without_origin_ok by (done || lia). cbn [mbind option_bind]. fold kept.
  destruct origin as [o|]; cbn [is_Some_b negb stamp_segments].
  - rewrite andb_false_r. cbn [default]. rewrite append_segments.
    apply hello_frame_bytes. rewrite raws_app, len_app. unfold stamp_segments, origin_fits.
    destruct (Z.leb_spec (1 + len (raws kept) + len (raw (origin_segment o))) MAX_FRAME_LEN);
      cbn [raws map concat]; rewrite ?app_nil_r, ?len_nil; lia.
  - rewrite andb_true_r, app_nil_r. destruct (Z.eqb_spec (len (raws kept)) (len (raws ss))) as [E|E].
    + cbn [default id]. f_equal. f_equal. destruct (raws_filter_length not_origin ss Hss) as [_ H].
      symmetry. apply H. unfold len in E. fold kept. lia.
    + cbn [default id]. apply hello_frame_bytes. lia.
Qed.

Lemma stamp_segments_ok kept origin :
  1 + len (raws kept) <= MAX_FRAME_LEN ->
  Forall seg_ok (stamp_segments kept origin)
  /\ 1 + len (raws (kept ++ stamp_segments kept origin)) <= MAX_FRAME_LEN.
Proof.
  intros Hl. destruct origin as [o|]; cbn [stamp_segments]; [|by rewrite app_nil_r].
  unfold origin_fits. pose proof (len_nonneg (raws kept)).
  destruct (Z.leb_spec (1 + len (raws kept) + len (raw (origin_segment o))) MAX_FRAME_LEN);
    [|by rewrite app_nil_r].
  rewrite raws_app, len_app. cbn [raws map concat]. rewrite app_nil_r. split; [|lia].
  constructor; [|done]. cbn [raw origin_segment] in *.
  apply (write_field_seg hello_SSH_ORIGIN (encode_ssh_origin o) eq_refl). lia.
Qed.

(** The server's reading of it. *)
Definition stamped_fields (kept : list Segment) (origin : option SshOrigin) (s : HelloFields) : HelloFields :=
  match origin with Some o => if origin_fits kept o then so (Some o) s else s | None => s end.

Lemma decode_forwarded l ss origin :
  Forall seg_ok ss -> 1 + len (raws ss) <= MAX_FRAME_LEN -> wf_opt wf_origin origin = true ->
  let kept := List.filter not_origin ss in
  decode_with_limits (forwarded (frame_bytes TYPE_HELLO (raws ss)) origin) l =
    f ← (s ← fold_fields hello_step hello_start (map fld kept); hello_of (stamped_fields kept origin s));
    Ok (f, []).
Proof.
  intros Hss Hl Hw kept. rewrite forwarded_segs by done. fold kept.
  pose proof (len_raws_filter not_origin ss Hss) as Hk. fold kept in Hk.
  destruct (stamp_segments_ok kept origin) as [Hg Hgl]; [lia|].
  rewrite <- (app_nil_r (frame_bytes _ _)). rewrite decode_hello_segs.
  - rewrite map_app, fold_fields_app. destruct (fold_fields hello_step hello_start (map fld kept)) as [s|]; [|done].
    rewrite !bind_ok. f_equal. destruct origin as [o|]; cbn [stamp_segments stamped_fields]; [|done].
    destruct (origin_fits kept o) eqn:Ef; [|done]. cbn [map fold_fields origin_segment fld].
    rewrite hello_step_origin, bind_ok, decode_encode_ssh_origin; [done|done|].
    apply Z.leb_le in Ef. cbn [raw origin_segment] in Ef. pose proof (len_nonneg (raws kept)).
    pose proof (len_write_field hello_SSH_ORIGIN (encode_ssh_origin o)). lia.
  - apply Forall_app. split; [by apply filter_segs|done].
  - done.
  - rewrite app_nil_r. unfold len. rewrite length_frame_bytes. unfold len, MAX_FRAME_LEN, isize_max in *. lia.
Qed.

Lemma len_frame_bytes tb body : len (frame_bytes tb body) = 5 + len body.
Proof. unfold len. rewrite length_frame_bytes. lia. Qed.

Lemma whole_frame_body f tb body :
  whole_frame f -> f = frame_bytes tb body -> 1 + len body <= MAX_FRAME_LEN.
Proof.
  intros (n & Hn & E & Hl) ->. rewrite length_frame_bytes in Hl. unfold len. lia.
Qed.

Lemma whole_frame_rest tb body rest :
  whole_frame (frame_bytes tb body ++ rest) -> 1 + len body <= MAX_FRAME_LEN -> rest = [].
Proof.
  intros (n & Hn & E & Hl) Hm. rewrite length_app, length_frame_bytes in Hl. unfold frame_bytes, write_u32_be in E.
  rewrite <- app_assoc, take_to_be in E. pose proof (len_nonneg body).
  rewrite of_be_to_be in E by (unfold MAX_FRAME_LEN in Hm; lia). unfold len in E.
  apply length_zero_iff_nil. lia.
Qed.

(** A whole frame that the server reads as a HELLO, or that the bridge rewrites, is made of
    whole fields. *)
Lemma forwarded_hello_segs l f origin n a b c caps rest :
  is_bytes f = true -> whole_frame f -> f !! LENGTH_PREFIX_LEN <> Some TYPE_FRAME_COMPRESSED ->
  decode_with_limits (forwarded f origin) l = Ok (FrameKind_Hello n a b c caps, rest) ->
  exists ss, Forall seg_ok ss /\ f = frame_bytes TYPE_HELLO (raws ss).
Proof.
  intros Hb Hwf Hne Hd.
  assert (Hlen : len f <= isize_max).
  { destruct Hwf as (k & ? & _ & Hk). unfold len, MAX_FRAME_LEN, isize_max in *. lia. }
  assert (Hsame : forwarded f origin = f -> exists ss, Forall seg_ok ss /\ f = frame_bytes TYPE_HELLO (raws ss)).
  { intros E. rewrite E in Hd. apply decode_hello_inv in Hd as (ss & s & Hss & Hm & Ef & _); [|done..].
    exists ss. split; [done|]. rewrite Ef in Hwf. by rewrite Ef, (whole_frame_rest _ _ _ Hwf Hm), app_nil_r. }
  destruct (hello_body f) as [body|] eqn:Eb.
  - destruct (fields_without_origin body) as [kept|] eqn:Ek.
    + apply hello_body_inv in Eb; [|done]. subst f. rewrite len_frame_bytes in Hlen.
      apply fields_without_origin_inv in Ek as (ss & Hss & -> & _); [by exists ss|lia].
    + apply Hsame. unfold forwarded, restamp_hello. by rewrite Eb; cbn [mbind option_bind]; rewrite Ek.
  - apply Hsame. unfold forwarded, restamp_hello. by rewrite Eb.
Qed.

(** ** Properties *)

(** the bridge relays the client's stream and nothing else: pings go through as they
    are, the first other frame is the one rewritten, and everything behind it is copied. *)
Theorem bridge_relays_stream ps f rest origin :
  Forall whole_frame ps -> Forall (fun p => p !! LENGTH_PREFIX_LEN = Some TYPE_PING) ps ->
  whole_frame f -> f !! LENGTH_PREFIX_LEN <> Some TYPE_PING ->
  bridge_inbound (concat ps ++ f ++ rest) origin = concat ps ++ forwarded f origin ++ rest.
Proof.
  intros Hw Ht Hf Hn. unfold bridge_inbound, forward_hello. rewrite forward_pings by done.
  cbn [forward_hello_loop]. rewrite read_opening_whole by done. rewrite bool_decide_false by done.
  by rewrite <- app_assoc.
Qed.

(** a HELLO the server would accept from the client is accepted from the bridge with
    nothing changed but the origin, which is the bridge's own, or none where the field
    would take the frame over the cap. *)
Theorem bridge_stamps_hello l f origin n a b c caps :
  is_bytes f = true -> whole_frame f -> f !! LENGTH_PREFIX_LEN <> Some TYPE_FRAME_COMPRESSED ->
  wf_opt wf_origin origin = true ->
  decode_with_limits f l = Ok (FrameKind_Hello n a b c caps, []) ->
  exists o, decode_with_limits (forwarded f origin) l = Ok (FrameKind_Hello n a b c (stamp o caps), [])
    /\ (o = origin \/ o = None)
    /\ ((forall w, origin = Some w ->
          len f + len (write_field hello_SSH_ORIGIN (encode_ssh_origin w)) <= MAX_FRAME_LEN + 4) -> o = origin).
Proof.
  intros Hb Hwf Hne Hw Hd. destruct (decode_hello_inv l f n a b c caps [] Hb) as (ss & s & Hss & Hl & Ef & Hf & Ho);
    [destruct Hwf as (k & ? & _ & Hk); unfold len, MAX_FRAME_LEN, isize_max in *; lia|done|done|].
  rewrite app_nil_r in Ef. subst f. rewrite decode_forwarded by done.
  assert (Hp : caps_plain s) by (eapply fold_hello_plain; [|exact Hf]; done).
  destruct (hello_of_inv s n a b c caps Hp Ho) as [_ Hso].
  apply (fold_hello_filter None) in Hf. change (so None hello_start) with hello_start in Hf.
  rewrite Hf, bind_ok. set (kept := List.filter not_origin ss).
  assert (Hk : len (raws kept) <= len (raws ss)) by (by apply len_raws_filter).
  rewrite len_frame_bytes. destruct origin as [w|]; cbn [stamped_fields].
  - destruct (origin_fits kept w) eqn:Efit.
    + exists (Some w). rewrite so_so, Hso. repeat split. by left.
    + exists None. rewrite Hso. repeat split; [by right|]. intros H. specialize (H w eq_refl).
      apply Z.leb_gt in Efit. cbn [raw origin_segment] in Efit. lia.
  - exists None. rewrite Hso. repeat split. by left.
Qed.

(** C8: the origin the server learns from a bridged connection's first frame is never the
    client's: whatever bytes the client framed, if the server reads what the bridge
    forwarded as a HELLO (and it is not an envelope), the origin is the bridge's or none. *)
Theorem bridge_overrides_origin l f origin n a b c caps rest :
  is_bytes f = true -> whole_frame f -> f !! LENGTH_PREFIX_LEN <> Some TYPE_FRAME_COMPRESSED ->
  wf_opt wf_origin origin = true ->
  decode_with_limits (forwarded f origin) l = Ok (FrameKind_Hello n a b c caps, rest) ->
  ssh_origin caps = origin \/ ssh_origin caps = None.
Proof.
  intros Hb Hwf Hne Hw Hd.
  destruct (forwarded_hello_segs l f origin n a b c caps rest Hb Hwf Hne Hd) as (ss & Hss & ->).
  assert (Hl : 1 + len (raws ss) <= MAX_FRAME_LEN) by (by eapply whole_frame_body).
  rewrite decode_forwarded in Hd by done. apply bind_inv in Hd as (h & Hh & [= -> <-]).
  apply bind_inv in Hh as (s & Hf & Hh). set (kept := List.filter not_origin ss) in *.
  assert (Hn : he_origin s = None) by (by apply (fold_hello_no_origin ss hello_start)).
  assert (Hp : caps_plain s) by (eapply fold_hello_plain; [|exact Hf]; done).
  assert (Hp' : caps_plain (stamped_fields kept origin s)).
  { destruct origin as [w|]; cbn [stamped_fields]; [|done]. destruct (origin_fits kept w); [|done]. by destruct s. }
  apply hello_of_inv in Hh as [-> _]; [|done].
  destruct origin as [w|]; cbn [stamped_fields]; [|by right].
  destruct (origin_fits kept w); [left; apply origin_so|by right].
Qed.

(** The rewrite looks at plain frames only: a HELLO inside a compression envelope
    leaves the bridge untouched, and the server reads it with the origin the client chose. *)
Theorem wrapped_hello_passes_bridge l hello deflated origin :
  wf_limits l = true -> wf_frame l hello = true -> type_byte hello = TYPE_HELLO ->
  deflate (encode_body hello) = Some deflated ->
  len (encode_body hello) <= max_compressed_frame_bytes (blank l) ->
  1 + len (envelope_fields (len (encode_body hello)) deflated) <= MAX_FRAME_LEN ->
  let wire := frame_bytes TYPE_FRAME_COMPRESSED (envelope_fields (len (encode_body hello)) deflated) in
  forwarded wire origin = wire /\ decode_with_limits (forwarded wire origin) l = Ok (hello, []).
Proof.
  intros Hl Hf Ht Hz Hb Hs wire.
  assert (E : forwarded wire origin = wire).
  { unfold forwarded, restamp_hello, hello_body, wire. rewrite length_frame_bytes. unfold LENGTH_PREFIX_LEN.
    rewrite (proj2 (Nat.ltb_ge _ _)) by lia. unfold frame_bytes, write_u32_be. rewrite drop_to_be.
    unfold write_u8. cbn [app]. change (TYPE_FRAME_COMPRESSED =? TYPE_HELLO) with false.
    by rewrite andb_false_r. }
  split; [done|]. rewrite E, <- (app_nil_r wire).
  apply (decode_envelope l hello deflated []); [done..|].
  rewrite app_nil_r, len_frame_bytes. unfold MAX_FRAME_LEN, isize_max in *. lia.
Qed.
End Bridge.

(** ** Witnesses *)

Definition sample_origin : SshOrigin :=
  mkSshOrigin (mkSocketAddr (IpAddr_V4 3232235777) 50022) None.
Definition forged_origin : SshOrigin := mkSshOrigin (mkSocketAddr (IpAddr_V4 167772161) 0) None.
Definition hello_with (name : bytes) (o : option SshOrigin) : FrameKind :=
  FrameKind_Hello name 0 8 0 (stamp o ClientCapabilities_new).

(** The client forges an origin; the bridge's own replaces it. *)
Lemma bridge_stamps_hello_witness :
  exists o, decode_with_limits (forwarded (encode (hello_with (str "tui") (Some forged_origin))) (Some sample_origin))
      sample_limits = Ok (FrameKind_Hello (str "tui") 0 8 0 (stamp o (stamp (Some forged_origin) ClientCapabilities_new)), [])
    /\ o = Some sample_origin.
Proof.
  destruct (bridge_stamps_hello sample_limits (encode (hello_with (str "tui") (Some forged_origin)))
    (Some sample_origin) (str "tui") 0 8 0 (stamp (Some forged_origin) ClientCapabilities_new))
    as (o & Hd & _ & Hfit).
  - vm_compute. reflexivity.
  - exists (length (encode_body (hello_with (str "tui") (Some forged_origin)))). repeat split; vm_compute; congruence.
  - vm_compute. congruence.
  - vm_compute. reflexivity.
  - vm_compute. reflexivity.
  - exists o. split; [exact Hd|]. apply Hfit. intros w [= <-]. vm_compute. congruence.
Defined.

Definition relabelled : ClientCapabilities := stamp (Some sample_origin) ClientCapabilities_new.

Lemma bridge_overrides_origin_witness :
  ssh_origin relabelled = Some sample_origin \/ ssh_origin relabelled = None.
Proof.
  apply (bridge_overrides_origin sample_limits
    (encode (hello_with (str "tui") (Some forged_origin))) (Some sample_origin) (str "tui") 0 8 0 relabelled []).
  - vm_compute. reflexivity.
  - exists (length (encode_body (hello_with (str "tui") (Some forged_origin)))). repeat split; vm_compute; congruence.
  - vm_compute. congruence.
  - vm_compute. reflexivity.
  - vm_compute. reflexivity.
Defined.

Lemma bridge_relays_stream_witness :
  bridge_inbound (ping 7 ++ encode (hello_with (str "tui") None) ++ [1; 2]) (Some sample_origin)
    = ping 7 ++ forwarded (encode (hello_with (str "tui") None)) (Some sample_origin) ++ [1; 2].
Proof.
  apply (bridge_relays_stream [ping 7]).
  - repeat constructor. apply whole_ping.
  - repeat constructor.
  - exists (length (encode_body (hello_with (str "tui") None))). repeat split; vm_compute; congruence.
  - vm_compute. congruence.
Defined.

(** A client name long enough to be worth compressing, and a forged origin. *)
Definition forged_hello : FrameKind := hello_with (replicate 4200 97) (Some forged_origin).

Definition forged_payload : bytes := default [] (deflate (encode_body forged_hello)).
Definition forged_wire : bytes :=
  frame_bytes TYPE_FRAME_COMPRESSED (envelope_fields (len (encode_body forged_hello)) forged_payload).

Lemma wrapped_hello_passes_bridge_witness :
  forwarded forged_wire (Some sample_origin) = forged_wire
  /\ decode_with_limits (forwarded forged_wire (Some sample_origin)) sample_limits = Ok (forged_hello, []).
Proof.
  apply (wrapped_hello_passes_bridge sample_limits forged_hello forged_payload (Some sample_origin)).
  - vm_compute. reflexivity.
  - vm_compute. reflexivity.
  - reflexivity.
  - vm_compute. reflexivity.
  - vm_compute. congruence.
  - vm_compute. congruence.
Defined.
