(* ===== verification/Window.v ===== *)
(** * Windows and their layout tree ([phux-core/src/window.rs])

    The binary split tree of a window and the operations on it. Slotmap keys are
    [positive]s; a ratio is the bit pattern of its [f32]. A [&mut self] method returns the
    window it leaves behind, also on the error paths that have already changed it. *)

From stdpp Require Import gmap.
From S2P Require Import Prelude.

Abbreviation ResourceId := positive.
Abbreviation WindowId := positive.
Abbreviation SessionId := positive.

(* phux-core/src/window.rs SplitDir *)
Inductive SplitDir : Type := SplitDir_Horizontal | SplitDir_Vertical.
(* phux-core/src/window.rs Direction *)
Inductive Direction : Type := Direction_Up | Direction_Down | Direction_Left | Direction_Right.
#[export] Instance SplitDir_eq_dec : EqDecision SplitDir.
Proof. solve_decision. Defined.

(* phux-core/src/window.rs LayoutNode *)
Inductive LayoutNode : Type :=
| Leaf (pane : ResourceId)
| Split (dir : SplitDir) (ratio : Z) (left right : LayoutNode).

(* phux-core/src/window.rs LayoutError *)
Inductive LayoutError : Type :=
| PaneNotInLayout (pane : ResourceId)
| InvalidRatio (ratio : Z)
| LastPane.

(* phux-core/src/window.rs Window *)
Record Window : Type := mkWindow {
  window_id : WindowId;
  session : SessionId;
  slots : list ResourceId;
  layout : option LayoutNode;
  active : option ResourceId
}.

Definition with_slots (w : Window) (s : list ResourceId) : Window :=
  mkWindow (window_id w) (session w) s (layout w) (active w).
Definition with_layout (w : Window) (l : option LayoutNode) : Window :=
  mkWindow (window_id w) (session w) (slots w) l (active w).
Definition with_active (w : Window) (a : option ResourceId) : Window :=
  mkWindow (window_id w) (session w) (slots w) (layout w) a.

(** ** The tree *)

(* phux-core/src/window.rs LayoutNode::contains *)
Fixpoint contains (n : LayoutNode) (pane : ResourceId) : bool :=
  match n with
  | Leaf p => bool_decide (p = pane)
  | Split _ _ lft rgt => contains lft pane || contains rgt pane
  end.

(* phux-core/src/window.rs LayoutNode::collect_leaves *)
Fixpoint collect_leaves (n : LayoutNode) (out : list ResourceId) : list ResourceId :=
  match n with
  | Leaf p => out ++ [p]
  | Split _ _ lft rgt => collect_leaves rgt (collect_leaves lft out)
  end.
(* phux-core/src/window.rs LayoutNode::leaves *)
Definition leaves (n : LayoutNode) : list ResourceId := collect_leaves n [].
#[global] Arguments leaves : simpl never.

(* phux-core/src/window.rs LayoutNode::split_at *)
Fixpoint split_at (n : LayoutNode) (target new_pane : ResourceId) (dir : SplitDir) (ratio : Z)
    : result LayoutError LayoutNode :=
  match n with
  | Leaf p =>
      if bool_decide (p = target) then Ok (Split dir ratio (Leaf target) (Leaf new_pane))
      else Err (PaneNotInLayout target)
  | Split d r lft rgt =>
      if contains lft target then
        lft ← split_at lft target new_pane dir ratio; Ok (Split d r lft rgt)
      else if contains rgt target then
        rgt ← split_at rgt target new_pane dir ratio; Ok (Split d r lft rgt)
      else Err (PaneNotInLayout target)
  end.

(** The [f32] comparisons on bit patterns: sign, exponent and mantissa fields. *)
Definition f32_is_nan (bits : Z) : bool :=
  (Z.land bits 0x7f800000 =? 0x7f800000) && negb (Z.land bits 0x7fffff =? 0).
(** [bits <= 0.0], for a pattern that is not a NaN. *)
Definition f32_le_0 (bits : Z) : bool := (0x80000000 <=? bits) || (bits =? 0).
(** [bits >= 1.0], for a pattern that is not a NaN. *)
Definition f32_ge_1 (bits : Z) : bool := (0x3f800000 <=? bits) && (bits <? 0x80000000).

(* phux-core/src/window.rs validate_ratio *)
Definition validate_ratio (ratio : Z) : result LayoutError unit :=
  if f32_is_nan ratio || f32_le_0 ratio || f32_ge_1 ratio then Err (InvalidRatio ratio) else Ok tt.

(* phux-core/src/window.rs Window::split *)
Definition split (w : Window) (target new_pane : ResourceId) (dir : SplitDir) (ratio : Z)
    : result LayoutError Window :=
  _ ← validate_ratio ratio;
  match layout w with
  | None => Err (PaneNotInLayout target)
  | Some l => l ← split_at l target new_pane dir ratio; Ok (with_layout w (Some l))
  end.

(* phux-core/src/window.rs Window::seed_layout *)
Definition seed_layout (w : Window) (pane : ResourceId) : result LayoutError Window :=
  match layout w with
  | Some _ => Err (PaneNotInLayout pane)
  | None => Ok (with_layout w (Some (Leaf pane)))
  end.

Definition is_leaf_of (n : LayoutNode) (target : ResourceId) : bool :=
  match n with Leaf p => bool_decide (p = target) | Split _ _ _ _ => false end.

(* phux-core/src/window.rs collapse *)
Fixpoint collapse (node : LayoutNode) (target : ResourceId) : LayoutNode * bool :=
  match node with
  | Leaf p => (Leaf p, false)
  | Split dir ratio lft rgt =>
      if is_leaf_of lft target then (rgt, true)
      else if is_leaf_of rgt target then (lft, true)
      else
        let '(new_left, found_l) := collapse lft target in
        if found_l then (Split dir ratio new_left rgt, true)
        else
          let '(new_right, found_r) := collapse rgt target in
          (Split dir ratio new_left new_right, found_r)
  end.

(* phux-core/src/window.rs Window::kill_pane *)
Definition kill_pane (w : Window) (target : ResourceId) : Window * result LayoutError unit :=
  match layout w with
  | None => (w, Err (PaneNotInLayout target))
  | Some (Leaf p) =>
      if bool_decide (p = target) then (with_layout w None, Err LastPane)
      else (w, Err (PaneNotInLayout target))
  | Some (Split _ _ _ _ as owned) =>
      let '(new_root, found) := collapse owned target in
      (with_layout w (Some new_root), if found then Ok tt else Err (PaneNotInLayout target))
  end.

(** ** Focus movement *)

(* phux-core/src/window.rs ChildSide *)
Inductive ChildSide : Type := ChildSide_Left | ChildSide_Right.

Abbreviation Path := (list (SplitDir * ChildSide)).

(** The pushes and pops on [out] are written out: what a failed branch pushed is gone. *)
(* phux-core/src/window.rs record_path *)
Fixpoint record_path (node : LayoutNode) (target : ResourceId) (out : Path) : bool * Path :=
  match node with
  | Leaf p => (bool_decide (p = target), out)
  | Split sd _ lft rgt =>
      let '(found, out_l) := record_path lft target (out ++ [(sd, ChildSide_Left)]) in
      if found then (true, out_l)
      else
        let out := removelast out_l in
        let '(found, out_r) := record_path rgt target (out ++ [(sd, ChildSide_Right)]) in
        if found then (true, out_r) else (false, removelast out_r)
  end.

(* phux-core/src/window.rs matches_to_sibling *)
Definition matches_to_sibling (split : SplitDir) (dir : Direction) (came_from : ChildSide) : bool :=
  match split, dir, came_from with
  | SplitDir_Horizontal, Direction_Right, ChildSide_Left
  | SplitDir_Horizontal, Direction_Left, ChildSide_Right
  | SplitDir_Vertical, Direction_Down, ChildSide_Left
  | SplitDir_Vertical, Direction_Up, ChildSide_Right => true
  | _, _, _ => false
  end.

Definition child (n : LayoutNode) (side : ChildSide) : option LayoutNode :=
  match n, side with
  | Split _ _ lft _, ChildSide_Left => Some lft
  | Split _ _ _ rgt, ChildSide_Right => Some rgt
  | Leaf _, _ => None
  end.
Definition other (side : ChildSide) : ChildSide :=
  match side with ChildSide_Left => ChildSide_Right | ChildSide_Right => ChildSide_Left end.

(* phux-core/src/window.rs sibling_at_depth *)
Fixpoint sibling_at_depth (root : LayoutNode) (path : Path) (depth : nat) : option LayoutNode :=
  match path, depth with
  | (_, came_from) :: _, O => child root (other came_from)
  | (_, side) :: path', S depth' =>
      match child root side with
      | Some cur => sibling_at_depth cur path' depth'
      | None => None
      end
  | [], _ => None
  end.

(* phux-core/src/window.rs axis_parallel *)
Definition axis_parallel (split : SplitDir) (dir : Direction) : bool :=
  match split, dir with
  | SplitDir_Horizontal, (Direction_Left | Direction_Right)
  | SplitDir_Vertical, (Direction_Up | Direction_Down) => true
  | _, _ => false
  end.
(* phux-core/src/window.rs perpendicular_axis *)
Definition perpendicular_axis (dir : Direction) : SplitDir :=
  match dir with
  | Direction_Left | Direction_Right => SplitDir_Vertical
  | Direction_Up | Direction_Down => SplitDir_Horizontal
  end.

(** The [loop] of [descend_to_leaf]; [hints] are those not yet used. *)
Fixpoint descend (cur : LayoutNode) (dir : Direction) (hints : list ChildSide) : ResourceId :=
  match cur with
  | Leaf p => p
  | Split sd _ lft rgt =>
      if axis_parallel sd dir then
        match dir with
        | Direction_Right | Direction_Down => descend lft dir hints
        | Direction_Left | Direction_Up => descend rgt dir hints
        end
      else
        match default ChildSide_Left (head hints) with
        | ChildSide_Left => descend lft dir (tail hints)
        | ChildSide_Right => descend rgt dir (tail hints)
        end
  end.

(* phux-core/src/window.rs descend_to_leaf *)
Definition descend_to_leaf (node : LayoutNode) (dir : Direction) (suffix : Path) : ResourceId :=
  let perp := perpendicular_axis dir in
  descend node dir (map snd (List.filter (fun p => bool_decide (p.1 = perp)) suffix)).

(** The [for i in (0..path.len()).rev()]: [i] counts the entries not yet looked at. *)
Fixpoint focus_loop (root : LayoutNode) (path : Path) (dir : Direction) (i : nat) : option ResourceId :=
  match i with
  | O => None
  | S i' =>
      match path !! i' with
      | Some (split_dir, came_from) =>
          if matches_to_sibling split_dir dir came_from then
            match sibling_at_depth root path i' with
            | Some sibling => Some (descend_to_leaf sibling dir (drop (S i') path))
            | None => None
            end
          else focus_loop root path dir i'
      | None => None
      end
  end.

(* phux-core/src/window.rs Window::focus_direction *)
Definition focus_direction (w : Window) (current : ResourceId) (dir : Direction) : option ResourceId :=
  match layout w with
  | None => None
  | Some l =>
      let '(found, path) := record_path l current [] in
      if negb found then None else focus_loop l path dir (length path)
  end.

(** ** Leaves *)

Fixpoint tree_leaves (n : LayoutNode) : list ResourceId :=
  match n with Leaf p => [p] | Split _ _ l r => tree_leaves l ++ tree_leaves r end.

Lemma collect_leaves_app n out : collect_leaves n out = out ++ tree_leaves n.
Proof. revert out; induction n as [p|d r l IHl rt IHr]; intros out; cbn; [done|]. by rewrite IHl, IHr, app_assoc. Qed.

Lemma leaves_eq n : leaves n = tree_leaves n.
Proof. apply collect_leaves_app. Qed.

Lemma leaves_leaf p : leaves (Leaf p) = [p].
Proof. done. Qed.
Lemma leaves_split d r l rt : leaves (Split d r l rt) = leaves l ++ leaves rt.
Proof. by rewrite !leaves_eq. Qed.

Create Rewrite HintDb leaves.
#[export] Hint Rewrite leaves_leaf leaves_split : leaves.

Lemma contains_spec n p : contains n p = true <-> p ∈ leaves n.
Proof.
  induction n as [q|d r l IHl rt IHr]; cbn; autorewrite with leaves.
  - rewrite bool_decide_eq_true, list_elem_of_singleton. done.
  - rewrite orb_true_iff, IHl, IHr, elem_of_app. done.
Qed.

Lemma contains_false n p : contains n p = false <-> p ∉ leaves n.
Proof. rewrite <- contains_spec. by destruct (contains n p). Qed.

Lemma leaves_nonempty n : leaves n <> [].
Proof. induction n as [p|d r l IHl rt IHr]; autorewrite with leaves; [done|]. by destruct (leaves l). Qed.

(** [new] right behind the first [target]. *)
Fixpoint insert_after (target new : ResourceId) (ps : list ResourceId) : list ResourceId :=
  match ps with
  | [] => []
  | p :: ps => if bool_decide (p = target) then p :: new :: ps else p :: insert_after target new ps
  end.

Lemma insert_after_app_l target new xs ys :
  target ∈ xs -> insert_after target new (xs ++ ys) = insert_after target new xs ++ ys.
Proof.
  induction xs as [|x xs IH]; cbn; [by intros H%not_elem_of_nil|]. intros H.
  case_bool_decide as E; [done|]. apply elem_of_cons in H as [->|H]; [done|]. cbn. by rewrite IH.
Qed.
Lemma insert_after_app_r target new xs ys :
  target ∉ xs -> insert_after target new (xs ++ ys) = xs ++ insert_after target new ys.
Proof.
  induction xs as [|x xs IH]; cbn; [done|]. intros [Hx H]%not_elem_of_cons.
  rewrite bool_decide_false by congruence. by rewrite IH.
Qed.

Lemma insert_after_perm target new xs : target ∈ xs -> insert_after target new xs ≡ₚ xs ++ [new].
Proof.
  induction xs as [|x xs IH]; cbn; [by intros H%not_elem_of_nil|]. intros H.
  case_bool_decide as E.
  - by rewrite <- Permutation_cons_append.
  - apply elem_of_cons in H as [->|H]; [done|]. by rewrite IH.
Qed.

Lemma split_at_spec n target new dir ratio :
  split_at n target new dir ratio =
    if contains n target then
      match split_at n target new dir ratio with Ok n' => Ok n' | Err e => Err e end
    else Err (PaneNotInLayout target).
Proof.
  destruct (contains n target) eqn:E; [by destruct (split_at _ _ _ _ _)|].
  destruct n as [p|d r l rt]; cbn in *.
  - by rewrite E.
  - apply orb_false_iff in E as [-> ->]. done.
Qed.

Lemma split_at_leaves n target new dir ratio :
  target ∈ leaves n ->
  exists n', split_at n target new dir ratio = Ok n' /\ leaves n' = insert_after target new (leaves n).
Proof.
  induction n as [p|d r l IHl rt IHr]; autorewrite with leaves; intros H; cbn [split_at].
  - apply list_elem_of_singleton in H as ->. rewrite bool_decide_true by done. eexists; split; [done|].
    autorewrite with leaves. cbn. by rewrite bool_decide_true by done.
  - destruct (contains l target) eqn:El.
    + apply contains_spec in El as Hl. destruct (IHl Hl) as (n' & -> & E). cbn. eexists; split; [done|].
      autorewrite with leaves. by rewrite E, insert_after_app_l.
    + apply contains_false in El. apply elem_of_app in H as [H|H]; [done|].
      rewrite (proj2 (contains_spec rt target) H). destruct (IHr H) as (n' & -> & E). cbn.
      eexists; split; [done|]. autorewrite with leaves. by rewrite E, insert_after_app_r.
Qed.

(** Without the target, in order. *)
Definition drop_pane (target : ResourceId) (ps : list ResourceId) : list ResourceId :=
  List.filter (fun p => negb (bool_decide (p = target))) ps.

Lemma drop_pane_app t xs ys : drop_pane t (xs ++ ys) = drop_pane t xs ++ drop_pane t ys.
Proof. apply List.filter_app. Qed.

Lemma drop_pane_id t xs : t ∉ xs -> drop_pane t xs = xs.
Proof.
  unfold drop_pane. induction xs as [|x xs IH]; cbn; [done|]. intros [Hx H]%not_elem_of_cons.
  rewrite bool_decide_false by congruence. cbn. by rewrite IH.
Qed.

Lemma elem_of_drop_pane t xs p : p ∈ drop_pane t xs <-> p ∈ xs /\ p <> t.
Proof.
  unfold drop_pane. rewrite !list_elem_of_In, filter_In, negb_true_iff, bool_decide_eq_false. done.
Qed.

Lemma is_leaf_of_spec n t : is_leaf_of n t = true <-> n = Leaf t.
Proof.
  destruct n; cbn; [|done]. rewrite bool_decide_eq_true. split; [by intros ->|by intros [=]].
Qed.

Lemma collapse_absent n target : target ∉ leaves n -> collapse n target = (n, false).
Proof.
  induction n as [p|d r l IHl rt IHr]; cbn [collapse]; autorewrite with leaves; [done|].
  rewrite not_elem_of_app. intros [Hl Hr].
  destruct (is_leaf_of l target) eqn:E1; [apply is_leaf_of_spec in E1 as ->; by destruct Hl; left|].
  destruct (is_leaf_of rt target) eqn:E2; [apply is_leaf_of_spec in E2 as ->; by destruct Hr; left|].
  by rewrite IHl, IHr.
Qed.

Lemma collapse_present n target :
  NoDup (leaves n) -> target ∈ leaves n -> n <> Leaf target ->
  exists n', collapse n target = (n', true) /\ leaves n' = drop_pane target (leaves n).
Proof.
  induction n as [p|d r l IHl rt IHr]; cbn [collapse]; autorewrite with leaves.
  - intros _ ->%list_elem_of_singleton. done.
  - intros (Hl & Hd & Hr)%NoDup_app Hin _. rewrite drop_pane_app.
    destruct (is_leaf_of l target) eqn:E1.
    { apply is_leaf_of_spec in E1 as ->. eexists; split; [done|]. rewrite leaves_leaf. cbn.
      rewrite bool_decide_true by done. cbn. rewrite drop_pane_id; [done|]. apply Hd. rewrite leaves_leaf. by left. }
    destruct (is_leaf_of rt target) eqn:E2.
    { apply is_leaf_of_spec in E2 as ->. eexists; split; [done|]. rewrite leaves_leaf. cbn.
      rewrite bool_decide_true by done. cbn. rewrite drop_pane_id, app_nil_r; [done|].
      intros Ht. by apply (Hd _ Ht); rewrite leaves_leaf; left. }
    apply elem_of_app in Hin as [Hin|Hin].
    + destruct (IHl Hl Hin) as (n' & -> & E); [intros E; apply is_leaf_of_spec in E; congruence|].
      eexists; split; [done|]. autorewrite with leaves. rewrite E, (drop_pane_id _ (leaves rt)); [done|by apply Hd].
    + assert (Hnl : target ∉ leaves l) by (intros Ht; by apply (Hd _ Ht)).
      rewrite collapse_absent by done.
      destruct (IHr Hr Hin) as (n' & -> & E); [intros E; apply is_leaf_of_spec in E; congruence|].
      eexists; split; [done|]. autorewrite with leaves. by rewrite E, (drop_pane_id _ (leaves l)).
Qed.

(** ** The neighbour of a pane, by recursion on the tree

    The deepest split along [dir] that has the pane on its near side leads to the edge of
    the other child; the walk of [focus_direction] over a recorded path computes it. *)

(** The panes of [n] that touch the side a move in [dir] comes in from. *)
Fixpoint near_edge (dir : Direction) (n : LayoutNode) : list ResourceId :=
  match n with
  | Leaf p => [p]
  | Split sd _ l rt =>
      if axis_parallel sd dir then
        match dir with
        | Direction_Right | Direction_Down => near_edge dir l
        | Direction_Left | Direction_Up => near_edge dir rt
        end
      else near_edge dir l ++ near_edge dir rt
  end.

Fixpoint neighbours (dir : Direction) (n : LayoutNode) (current : ResourceId) : option (list ResourceId) :=
  match n with
  | Leaf _ => None
  | Split sd _ l rt =>
      if contains l current then
        match neighbours dir l current with
        | Some ns => Some ns
        | None => if matches_to_sibling sd dir ChildSide_Left then Some (near_edge dir rt) else None
        end
      else
        match neighbours dir rt current with
        | Some ns => Some ns
        | None => if matches_to_sibling sd dir ChildSide_Right then Some (near_edge dir l) else None
        end
  end.

Lemma descend_near_edge n dir hints : descend n dir hints ∈ near_edge dir n.
Proof.
  revert hints. induction n as [p|sd r l IHl rt IHr]; intros hints; cbn [descend near_edge]; [by left|].
  destruct (axis_parallel sd dir); [by destruct dir|].
  rewrite elem_of_app. destruct (default ChildSide_Left (head hints)); [left|right]; done.
Qed.

Lemma near_edge_leaves dir n p : p ∈ near_edge dir n -> p ∈ leaves n.
Proof.
  induction n as [q|sd r l IHl rt IHr]; cbn [near_edge]; autorewrite with leaves; [done|].
  rewrite elem_of_app. destruct (axis_parallel sd dir); [destruct dir; auto|].
  rewrite elem_of_app. intros [?|?]; auto.
Qed.

Fixpoint path_to (n : LayoutNode) (target : ResourceId) : Path :=
  match n with
  | Leaf _ => []
  | Split sd _ l rt =>
      if contains l target then (sd, ChildSide_Left) :: path_to l target
      else (sd, ChildSide_Right) :: path_to rt target
  end.

Lemma record_path_eq n target out :
  record_path n target out =
    if contains n target then (true, out ++ path_to n target) else (false, out).
Proof.
  revert out. induction n as [p|sd r l IHl rt IHr]; intros out; cbn [record_path contains path_to].
  - case_bool_decide; by rewrite ?app_nil_r.
  - rewrite IHl. destruct (contains l target); cbn [orb].
    + by rewrite <- app_assoc.
    + rewrite removelast_last, IHr. destruct (contains rt target).
      * by rewrite <- app_assoc.
      * by rewrite removelast_last.
Qed.

(** The path leads somewhere at every depth. *)
Lemma sibling_at_path n target i :
  contains n target = true -> (i < length (path_to n target))%nat ->
  is_Some (sibling_at_depth n (path_to n target) i).
Proof.
  revert i. induction n as [p|sd r l IHl rt IHr]; intros i; cbn [contains path_to]; [cbn; lia|].
  destruct (contains l target) eqn:El; cbn [orb length]; intros Hc Hi;
    (destruct i as [|i]; cbn [sibling_at_depth child other]; [done|]); [apply IHl|apply IHr]; (done || lia).
Qed.

(** One step less of the walk, seen from the child. *)
Lemma focus_loop_child n c step (path : Path) dir i :
  child n step.2 = Some c -> (i <= length path)%nat ->
  (forall j, (j < length path)%nat -> is_Some (sibling_at_depth c path j)) ->
  focus_loop n (step :: path) dir (S i) =
    match focus_loop c path dir i with
    | Some q => Some q
    | None =>
        if matches_to_sibling step.1 dir step.2 then
          match child n (other step.2) with
          | Some sibling => Some (descend_to_leaf sibling dir path)
          | None => None
          end
        else None
    end.
Proof.
  intros Hc. induction i as [|i IH]; intros Hi Hs.
  - destruct step as [sd side]. cbn. by destruct (matches_to_sibling sd dir side).
  - assert (E : focus_loop n (step :: path) dir (S (S i)) =
        match path !! i with
        | Some (split_dir, came_from) =>
            if matches_to_sibling split_dir dir came_from then
              match sibling_at_depth c path i with
              | Some sibling => Some (descend_to_leaf sibling dir (drop (S i) path))
              | None => None
              end
            else focus_loop n (step :: path) dir (S i)
        | None => None
        end).
    { destruct step as [sd side]. cbn in Hc. cbn [focus_loop lookup list_lookup sibling_at_depth drop]. by rewrite Hc. }
    rewrite E. clear E. cbn [focus_loop].
    destruct (lookup_lt_is_Some_2 path i) as [[sd side] Ep]; [lia|]. rewrite Ep.
    destruct (Hs i) as [sib ->]; [lia|]. destruct (matches_to_sibling sd dir side); [done|].
    apply IH; [lia|done].
Qed.

Lemma focus_loop_spec n current dir :
  contains n current = true ->
  match focus_loop n (path_to n current) dir (length (path_to n current)) with
  | Some q => exists ns, neighbours dir n current = Some ns /\ q ∈ ns
  | None => neighbours dir n current = None
  end.
Proof.
  induction n as [p|sd r l IHl rt IHr]; cbn [contains path_to neighbours]; [done|].
  destruct (contains l current) eqn:El; cbn [orb length]; intros Hc.
  - rewrite (focus_loop_child _ l); [|done|done|intros j Hj; by apply sibling_at_path]. specialize (IHl eq_refl).
    destruct (focus_loop l _ dir _) as [q|].
    + destruct IHl as (ns & -> & Hq). by exists ns.
    + rewrite IHl. cbn [fst snd child other]. destruct (matches_to_sibling sd dir ChildSide_Left); [|done].
      eexists; split; [done|]. apply descend_near_edge.
  - rewrite (focus_loop_child _ rt); [|done|done|intros j Hj; by apply sibling_at_path]. specialize (IHr Hc).
    destruct (focus_loop rt _ dir _) as [q|].
    + destruct IHr as (ns & -> & Hq). by exists ns.
    + rewrite IHr. cbn [fst snd child other]. destruct (matches_to_sibling sd dir ChildSide_Right); [|done].
      eexists; split; [done|]. apply descend_near_edge.
Qed.

(** A neighbour is another pane of the tree. *)
Lemma neighbours_other dir n current ns q :
  NoDup (leaves n) -> contains n current = true -> neighbours dir n current = Some ns -> q ∈ ns ->
  q ∈ leaves n /\ q <> current.
Proof.
  revert ns. induction n as [p|sd r l IHl rt IHr]; intros ns; cbn [contains neighbours]; [done|].
  rewrite leaves_split. intros (Hl & Hd & Hr)%NoDup_app Hc. rewrite elem_of_app.
  destruct (contains l current) eqn:El; cbn [orb] in Hc.
  - destruct (neighbours dir l current) as [x|].
    + intros [= <-] Hq. destruct (IHl x) as [? ?]; auto.
    + destruct (matches_to_sibling sd dir ChildSide_Left); [|done]. intros [= <-] Hq%near_edge_leaves.
      split; [by right|]. intros ->. apply contains_spec in El. by apply (Hd current).
  - destruct (neighbours dir rt current) as [x|].
    + intros [= <-] Hq. destruct (IHr x) as [? ?]; auto.
    + destruct (matches_to_sibling sd dir ChildSide_Right); [|done]. intros [= <-] Hq%near_edge_leaves.
      split; [by left|]. intros ->. apply contains_spec in Hc. by apply (Hd current).
Qed.

(** ** Ratios *)

(** On 32-bit patterns the accepted ratios are the floats strictly between 0 and 1. *)
Lemma f32_nan_range bits :
  0 <= bits < 2 ^ 32 -> f32_is_nan bits = true -> 0x7f800000 < bits.
Proof.
  intros Hb. unfold f32_is_nan. intros [H1%Z.eqb_eq H2%negb_true_iff%Z.eqb_neq]%andb_true_iff.
  assert (E : 0x7f800000 <= bits).
  { assert (Hd : 0 <= bits - Z.land bits 0x7f800000); [|lia]. rewrite Z.sub_nocarry_ldiff.
    - apply Z.ldiff_nonneg. left. lia.
    - apply Z.bits_inj'. intros n _. rewrite Z.ldiff_spec, Z.land_spec, Z.bits_0. by destruct (Z.testbit bits n), (Z.testbit 0x7f800000 n). }
  destruct (Z.eq_dec bits 0x7f800000) as [->|]; [done|lia].
Qed.

Lemma validate_ratio_spec bits :
  0 <= bits < 2 ^ 32 -> validate_ratio bits = if (0 <? bits) && (bits <? 0x3f800000) then Ok tt else Err (InvalidRatio bits).
Proof.
  intros Hb. unfold validate_ratio, f32_le_0, f32_ge_1.
  destruct (f32_is_nan bits) eqn:En; [apply f32_nan_range in En; [|done]|]; cbn [orb];
    destruct (Z.leb_spec 0x80000000 bits), (Z.eqb_spec bits 0), (Z.leb_spec 0x3f800000 bits),
      (Z.ltb_spec bits 0x80000000), (Z.ltb_spec 0 bits), (Z.ltb_spec bits 0x3f800000);
    cbn [orb andb]; first [reflexivity | lia].
Qed.

Lemma split_at_not_leaf n target new dir ratio n' p :
  split_at n target new dir ratio = Ok n' -> is_leaf_of n' p = false.
Proof.
  destruct n as [q|d r l rt]; cbn; [by case_bool_decide; intros [= <-]|].
  destruct (contains l target); [by intros (? & _ & [= <-])%bind_inv|].
  destruct (contains rt target); [by intros (? & _ & [= <-])%bind_inv|done].
Qed.

Lemma not_leaf_of n p : p ∉ leaves n -> is_leaf_of n p = false.
Proof. destruct n; cbn; [|done]. intros H. apply bool_decide_false. intros ->. apply H. rewrite leaves_leaf. by left. Qed.

(** Killing a pane undoes the split that made it. *)
Lemma collapse_split_at n target new dir ratio n' :
  new ∉ leaves n -> split_at n target new dir ratio = Ok n' -> collapse n' new = (n, true).
Proof.
  revert n'. induction n as [p|d r l IHl rt IHr]; intros n'; autorewrite with leaves; cbn [split_at].
  - intros Hn. case_bool_decide as E; [|done]. intros [= <-]. subst p. cbn.
    rewrite bool_decide_false; [by rewrite bool_decide_true|]. intros ->. by destruct Hn; left.
  - rewrite not_elem_of_app. intros [Hl Hr]. destruct (contains l target) eqn:Ec.
    + intros [l' [E [= <-]]]%bind_inv. cbn [collapse].
      by rewrite (split_at_not_leaf _ _ _ _ _ _ _ E), not_leaf_of, (IHl l' Hl E).
    + destruct (contains rt target); [|done]. intros [r' [E [= <-]]]%bind_inv. cbn [collapse].
      by rewrite (split_at_not_leaf _ _ _ _ _ _ _ E), not_leaf_of, collapse_absent, (IHr r' Hr E).
Qed.

Lemma kill_pane_cases w target l :
  layout w = Some l -> NoDup (leaves l) ->
  if bool_decide (target ∈ leaves l) then
    if bool_decide (leaves l = [target]) then kill_pane w target = (with_layout w None, Err LastPane)
    else exists l', kill_pane w target = (with_layout w (Some l'), Ok tt) /\ leaves l' = drop_pane target (leaves l)
  else kill_pane w target = (w, Err (PaneNotInLayout target)).
Proof.
  intros El Hnd. unfold kill_pane. rewrite El. case_bool_decide as Hin.
  - destruct l as [p|d r lf rt].
    + rewrite leaves_leaf in Hin |- *. apply list_elem_of_singleton in Hin as ->. by rewrite !bool_decide_true.
    + rewrite bool_decide_false.
      * destruct (collapse_present (Split d r lf rt) target) as (n' & -> & E); [done..|]. by exists n'.
      * rewrite leaves_split. intros E. pose proof (leaves_nonempty lf). pose proof (leaves_nonempty rt).
        apply (f_equal length) in E. rewrite length_app in E. cbn in E. destruct (leaves lf), (leaves rt); cbn in E; (done || lia).
  - destruct l as [p|d r lf rt].
    + rewrite leaves_leaf in Hin. rewrite bool_decide_false; [done|]. intros ->. by destruct Hin; left.
    + rewrite collapse_absent by done. f_equal. destruct w; cbn in *. by subst.
Qed.

(** ** Properties *)

(** Splitting a pane either refuses, with the cause and the window as it was, or puts
    the new pane right behind its target in the order of the leaves and changes nothing
    else; a ratio is accepted exactly when it is a float strictly between 0 and 1. *)
Theorem split_functional w target new dir ratio :
  0 <= ratio < 2 ^ 32 ->
  match split w target new dir ratio with
  | Ok w' => 0 < ratio < 0x3f800000 /\
      exists l l', layout w = Some l /\ target ∈ leaves l /\ w' = with_layout w (Some l')
        /\ leaves l' = insert_after target new (leaves l)
  | Err e => e = InvalidRatio ratio /\ ~ 0 < ratio < 0x3f800000
      \/ e = PaneNotInLayout target /\ forall l, layout w = Some l -> target ∉ leaves l
  end.
Proof.
  intros Hr. unfold split. rewrite validate_ratio_spec by done.
  destruct (Z.ltb_spec 0 ratio), (Z.ltb_spec ratio 0x3f800000); cbn [andb];
    try (left; split; [done|lia]). rewrite bind_ok.
  destruct (layout w) as [l|]; [|by right]. destruct (decide (target ∈ leaves l)) as [Hin|Hin].
  - destruct (split_at_leaves l target new dir ratio Hin) as (l' & -> & E). rewrite bind_ok.
    split; [lia|]. by exists l, l'.
  - apply contains_false in Hin as Hc. rewrite split_at_spec, Hc. right. split; [done|]. by intros ? [= <-].
Qed.

(** killing a pane removes exactly it: on success the leaves are the old ones without
    the target in their order; the last pane leaves an empty layout and reports it; a pane
    that is not there leaves the window as it was. *)
Theorem kill_pane_functional w target l :
  layout w = Some l -> NoDup (leaves l) ->
  if bool_decide (target ∈ leaves l) then
    if bool_decide (leaves l = [target]) then kill_pane w target = (with_layout w None, Err LastPane)
    else exists l', kill_pane w target = (with_layout w (Some l'), Ok tt) /\ leaves l' = drop_pane target (leaves l)
  else kill_pane w target = (w, Err (PaneNotInLayout target)).
Proof. apply kill_pane_cases. Qed.

(** A split can be undone: killing the pane a split has just made restores the window. *)
Theorem kill_undoes_split w target new dir ratio w' :
  (forall l, layout w = Some l -> new ∉ leaves l) ->
  split w target new dir ratio = Ok w' -> kill_pane w' new = (w, Ok tt).
Proof.
  unfold split. intros Hn [[] [_ H]]%bind_inv. destruct (layout w) as [l|] eqn:El; [|done].
  apply bind_inv in H as (l' & E & [= <-]). specialize (Hn l eq_refl).
  pose proof (collapse_split_at l target new dir ratio l' Hn E) as Hc.
  pose proof (split_at_not_leaf l target new dir ratio l' new E) as Hnl.
  unfold kill_pane. cbn [layout with_layout]. destruct l' as [p|d r lf rt]; [done|].
  rewrite Hc. f_equal. destruct w; cbn in *. by subst.
Qed.

(** moving the focus follows the recursive reading of the tree: the walk over the
    recorded path ends at a pane on the near edge of the nearest sibling in that direction,
    which is another pane of the layout, and finds none exactly when there is none. *)
Theorem focus_direction_correct w l current dir :
  layout w = Some l -> NoDup (leaves l) -> current ∈ leaves l ->
  match focus_direction w current dir with
  | Some q => exists ns, neighbours dir l current = Some ns /\ q ∈ ns /\ q ∈ leaves l /\ q <> current
  | None => neighbours dir l current = None
  end.
Proof.
  intros El Hnd Hin%contains_spec. unfold focus_direction. rewrite El, record_path_eq, Hin. cbn [negb app].
  pose proof (focus_loop_spec l current dir Hin) as H.
  destruct (focus_loop _ _ _ _) as [q|]; [|done]. destruct H as (ns & E & Hq). exists ns.
  split; [done|]. split; [done|]. by apply (neighbours_other dir l current ns q).
Qed.

(** ** Witnesses *)

(** Two columns, the right one stacked. *)
Definition sample_tree : LayoutNode :=
  Split SplitDir_Horizontal 0x3f000000 (Leaf 1%positive)
    (Split SplitDir_Vertical 0x3f000000 (Leaf 2%positive) (Leaf 3%positive)).
Definition sample_window : Window := mkWindow 1 1 [1; 2; 3]%positive (Some sample_tree) (Some 1%positive).

Lemma split_functional_witness : 0 <= 0x3f000000 < 2 ^ 32 /\
  exists w', split sample_window 2 4 SplitDir_Horizontal 0x3f000000 = Ok w'.
Proof.
  split; [lia|]. pose proof (split_functional sample_window 2 4 SplitDir_Horizontal 0x3f000000 ltac:(lia)) as H.
  destruct (split sample_window 2 4 SplitDir_Horizontal 0x3f000000) as [w'|e]; [by exists w'|].
  exfalso. destruct H as [[_ H]|[_ H]]; [apply H; lia|]. apply (H sample_tree eq_refl). vm_compute. right. left.
Defined.

Lemma sample_nodup : NoDup (leaves sample_tree).
Proof. vm_compute. repeat constructor; intros H; repeat (apply elem_of_cons in H as [H|H]; [done|]); by apply not_elem_of_nil in H. Qed.

Lemma kill_pane_functional_witness :
  exists l', kill_pane sample_window 2 = (with_layout sample_window (Some l'), Ok tt)
    /\ leaves l' = drop_pane 2 (leaves sample_tree).
Proof. exact (kill_pane_functional sample_window 2 sample_tree eq_refl sample_nodup). Defined.

Lemma kill_undoes_split_witness :
  exists w', split sample_window 2 4 SplitDir_Horizontal 0x3f000000 = Ok w' /\ kill_pane w' 4 = (sample_window, Ok tt).
Proof.
  eexists. split; [vm_compute; reflexivity|].
  apply (kill_undoes_split sample_window 2 4 SplitDir_Horizontal 0x3f000000).
  - intros l [= <-]. apply contains_false. vm_compute. reflexivity.
  - vm_compute. reflexivity.
Defined.

Lemma focus_direction_correct_witness :
  focus_direction sample_window 3 Direction_Left = Some 1%positive /\
  exists ns, neighbours Direction_Left sample_tree 3 = Some ns /\ (1%positive : ResourceId) ∈ ns
    /\ (1%positive : ResourceId) ∈ leaves sample_tree /\ 1%positive <> 3%positive.
Proof.
  split; [vm_compute; reflexivity|].
  apply (focus_direction_correct sample_window sample_tree 3 Direction_Left eq_refl sample_nodup).
  apply contains_spec. vm_compute. reflexivity.
Defined.
