(* ===== verification/Registry.v ===== *)
(** * The registry of sessions, windows and resources ([phux-core])

    [registry.rs], [session.rs], [resource.rs], [terminal.rs]. A slotmap is a [gmap] and
    [insert_with_key] takes the key the slotmap picked as an argument: what the crate
    documents of it, that a key is never picked twice, is a premise of the steps below.
    [SystemTime::now] is an argument too. *)

From stdpp Require Import gmap.
From S2P Require Import Prelude Window.

(* phux-core/src/resource.rs ResourceKind *)
Inductive ResourceKind : Type := Kind_Terminal | Kind_AgentSession.
#[export] Instance ResourceKind_eq_dec : EqDecision ResourceKind.
Proof. solve_decision. Defined.

(* phux-core/src/terminal.rs TerminalFacet *)
Record TerminalFacet : Type := mkTerminalFacet { dims : Z * Z; cwd : bytes; title : option bytes }.
(* phux-core/src/resource.rs AgentFacet *)
Record AgentFacet : Type := mkAgentFacet {
  provider : bytes; native_id : option bytes; state : option bytes
}.
(* phux-core/src/resource.rs ResourceDescriptor *)
Record ResourceDescriptor : Type := mkResource {
  resource_id : ResourceId;
  kind : ResourceKind;
  parent : option ResourceId;
  window : option WindowId;
  terminal : option TerminalFacet;
  agent : option AgentFacet
}.
(* phux-core/src/session.rs Session *)
Record Session : Type := mkSession {
  session_id : SessionId;
  name : bytes;
  windows : list WindowId;
  active_window : option WindowId;
  created_at : Z;
  keep_empty : bool
}.
(* phux-core/src/registry.rs Registry *)
Record Registry : Type := mkRegistry {
  reg_sessions : gmap SessionId Session;
  reg_windows : gmap WindowId Window;
  reg_resources : gmap ResourceId ResourceDescriptor
}.
(* phux-core/src/registry.rs RegistryError *)
Inductive RegistryError : Type :=
| UnknownSession (id : SessionId)
| UnknownWindow (id : WindowId)
| UnknownResource (id : ResourceId)
| ParentKindMismatch (parent : ResourceId) (actual required : ResourceKind).

Definition set_sessions (r : Registry) m := mkRegistry m (reg_windows r) (reg_resources r).
Definition set_windows (r : Registry) m := mkRegistry (reg_sessions r) m (reg_resources r).
Definition set_resources (r : Registry) m := mkRegistry (reg_sessions r) (reg_windows r) m.

Definition with_windows (s : Session) ws a : Session :=
  mkSession (session_id s) (name s) ws a (created_at s) (keep_empty s).
Definition with_window (d : ResourceDescriptor) w : ResourceDescriptor :=
  mkResource (resource_id d) (kind d) (parent d) w (terminal d) (agent d).

(* phux-core/src/registry.rs Registry::new *)
Definition new : Registry := mkRegistry ∅ ∅ ∅.

(** ** Creation *)

(* phux-core/src/registry.rs Registry::new_session *)
Definition new_session (r : Registry) (id : SessionId) (name : bytes) (now : Z) : Registry :=
  set_sessions r (<[id := mkSession id name [] None now false]> (reg_sessions r)).

(* phux-core/src/registry.rs Registry::new_window *)
Definition new_window (r : Registry) (window_id : WindowId) (session : SessionId)
    : result RegistryError Registry :=
  if negb (bool_decide (is_Some (reg_sessions r !! session))) then Err (UnknownSession session)
  else
    let r := set_windows r (<[window_id := mkWindow window_id session [] None None]> (reg_windows r)) in
    match reg_sessions r !! session with
    | Some s =>
        let s := with_windows s (windows s ++ [window_id])
                   (match active_window s with None => Some window_id | a => a end) in
        Ok (set_sessions r (<[session := s]> (reg_sessions r)))
    | None => Ok r
    end.

(** The half of [split] as an [f32]. *)
Definition half : Z := 0x3f000000.

(* phux-core/src/registry.rs Registry::place_in_window *)
Definition place_in_window (w : Window) (id : ResourceId) : Window :=
  let target := active w in
  let w := with_slots w (slots w ++ [id]) in
  match target with
  | None =>
      let w := match seed_layout w id with Ok w => w | Err _ => w end in
      with_active w (Some id)
  | Some t => match split w t id SplitDir_Horizontal half with Ok w => w | Err _ => w end
  end.

(* phux-core/src/registry.rs Registry::vacate_slot *)
Definition vacate_slot (w : Window) (id : ResourceId) : Window :=
  let w := with_slots w (List.filter (fun p => negb (bool_decide (p = id))) (slots w)) in
  let '(w, _) := kill_pane w id in
  if bool_decide (active w = Some id) then with_active w (head (slots w)) else w.

(* phux-core/src/registry.rs Registry::new_terminal *)
Definition new_terminal (r : Registry) (terminal_id : ResourceId) (window : WindowId)
    : result RegistryError Registry :=
  if negb (bool_decide (is_Some (reg_windows r !! window))) then Err (UnknownWindow window)
  else
    let d := mkResource terminal_id Kind_Terminal None (Some window)
               (Some (mkTerminalFacet (80, 24) [] None)) None in
    let r := set_resources r (<[terminal_id := d]> (reg_resources r)) in
    match reg_windows r !! window with
    | Some w => Ok (set_windows r (<[window := place_in_window w terminal_id]> (reg_windows r)))
    | None => Ok r
    end.

(* phux-core/src/registry.rs Registry::new_agent_session *)
Definition new_agent_session (r : Registry) (id : ResourceId) (parent : ResourceId) (agent : AgentFacet)
    : result RegistryError Registry :=
  match reg_resources r !! parent with
  | None => Err (UnknownResource parent)
  | Some p =>
      if negb (bool_decide (kind p = Kind_Terminal)) then
        Err (ParentKindMismatch parent (kind p) Kind_Terminal)
      else
        let d := mkResource id Kind_AgentSession (Some parent) None None (Some agent) in
        Ok (set_resources r (<[id := d]> (reg_resources r)))
  end.

(* phux-core/src/registry.rs Registry::move_terminal *)
Definition move_terminal (r : Registry) (id : ResourceId) (to : WindowId) : result RegistryError Registry :=
  if negb (bool_decide (is_Some (reg_windows r !! to))) then Err (UnknownWindow to)
  else
    match reg_resources r !! id ≫= window with
    | None => Err (UnknownResource id)
    | Some source =>
        if bool_decide (source = to) then Ok r
        else
          let r := match reg_windows r !! source with
                   | Some w => set_windows r (<[source := vacate_slot w id]> (reg_windows r))
                   | None => r
                   end in
          let r := match reg_resources r !! id with
                   | Some t => set_resources r (<[id := with_window t (Some to)]> (reg_resources r))
                   | None => r
                   end in
          match reg_windows r !! to with
          | Some w => Ok (set_windows r (<[to := place_in_window w id]> (reg_windows r)))
          | None => Ok r
          end
    end.

(** ** Removal *)

(* phux-core/src/registry.rs Registry::children *)
Definition children (r : Registry) (p : ResourceId) : list ResourceId :=
  map fst (List.filter (fun kd => bool_decide (parent kd.2 = Some p)) (map_to_list (reg_resources r))).

(* phux-core/src/registry.rs Registry::remove_children_of *)
Definition remove_children_of (r : Registry) (p : ResourceId) : Registry :=
  fold_left (fun r child => set_resources r (delete child (reg_resources r))) (children r p) r.

(* phux-core/src/registry.rs Registry::remove_resource *)
Definition remove_resource (r : Registry) (id : ResourceId) : option (ResourceDescriptor * Registry) :=
  match reg_resources r !! id with
  | None => None
  | Some d =>
      let r := set_resources r (delete id (reg_resources r)) in
      let r := remove_children_of r id in
      let r := match window d with
               | Some wid =>
                   match reg_windows r !! wid with
                   | Some w => set_windows r (<[wid := vacate_slot w id]> (reg_windows r))
                   | None => r
                   end
               | None => r
               end in
      Some (d, r)
  end.

(** The [for terminal_id in &window.slots] of the two cascades. *)
Definition remove_slots (r : Registry) (ts : list ResourceId) : Registry :=
  fold_left (fun r t => remove_children_of (set_resources r (delete t (reg_resources r))) t) ts r.

(* phux-core/src/registry.rs Registry::remove_window *)
Definition remove_window (r : Registry) (id : WindowId) : option (Window * Registry) :=
  match reg_windows r !! id with
  | None => None
  | Some w =>
      let r := set_windows r (delete id (reg_windows r)) in
      let r := remove_slots r (slots w) in
      let r := match reg_sessions r !! session w with
               | Some s =>
                   let ws := List.filter (fun x => negb (bool_decide (x = id))) (windows s) in
                   let a := if bool_decide (active_window s = Some id) then head ws else active_window s in
                   set_sessions r (<[session w := with_windows s ws a]> (reg_sessions r))
               | None => r
               end in
      Some (w, r)
  end.

(* phux-core/src/registry.rs Registry::remove_session *)
Definition remove_session (r : Registry) (id : SessionId) : option (Session * Registry) :=
  match reg_sessions r !! id with
  | None => None
  | Some s =>
      let r := set_sessions r (delete id (reg_sessions r)) in
      let r := fold_left (fun r wid =>
                 match reg_windows r !! wid with
                 | Some w => remove_slots (set_windows r (delete wid (reg_windows r))) (slots w)
                 | None => r
                 end) (windows s) r in
      Some (s, r)
  end.

(* phux-core/src/registry.rs:436-448 Registry::terminal_count *)
Definition terminal_count (r : Registry) : nat :=
  length (List.filter (fun kd => bool_decide (kind kd.2 = Kind_Terminal)) (map_to_list (reg_resources r))).

(** ** What a cascade removes *)

Lemma fold_delete_resources (ks : list ResourceId) r :
  fold_left (fun r k => set_resources r (delete k (reg_resources r))) ks r =
  set_resources r (fold_left (fun m k => delete k m) ks (reg_resources r)).
Proof.
  revert r. induction ks as [|k ks IH]; intros r; cbn [fold_left]; [by destruct r|].
  by rewrite IH.
Qed.

Lemma lookup_fold_delete {A} (ks : list positive) (m : gmap positive A) k :
  fold_left (fun m k => delete k m) ks m !! k = if bool_decide (k ∈ ks) then None else m !! k.
Proof.
  revert m. induction ks as [|x ks IH]; intros m; cbn [fold_left]; [done|]. rewrite IH.
  destruct (decide (k ∈ ks)) as [H|H].
  - by rewrite !bool_decide_true by (by try right).
  - rewrite (bool_decide_false (k ∈ ks)) by done. destruct (decide (k = x)) as [->|Hx].
    + rewrite bool_decide_true by left. apply lookup_delete_eq.
    + rewrite bool_decide_false by (rewrite not_elem_of_cons; done). by rewrite lookup_delete_ne.
Qed.

Lemma elem_of_children r p k :
  k ∈ children r p <-> exists d, reg_resources r !! k = Some d /\ parent d = Some p.
Proof.
  unfold children. rewrite list_elem_of_In, in_map_iff. split.
  - intros ([k' d] & <- & [H1 H2]%filter_In). exists d. apply bool_decide_eq_true in H2.
    apply list_elem_of_In, elem_of_map_to_list in H1. done.
  - intros (d & H1 & H2). exists (k, d). split; [done|]. apply filter_In. rewrite bool_decide_eq_true. split; [|done].
    by apply list_elem_of_In, elem_of_map_to_list.
Qed.

Lemma remove_children_frame r p :
  reg_sessions (remove_children_of r p) = reg_sessions r /\ reg_windows (remove_children_of r p) = reg_windows r.
Proof. unfold remove_children_of. by rewrite fold_delete_resources. Qed.

Lemma remove_children_lookup r p k d :
  reg_resources (remove_children_of r p) !! k = Some d <->
  reg_resources r !! k = Some d /\ parent d <> Some p.
Proof.
  unfold remove_children_of. rewrite fold_delete_resources. cbn. rewrite lookup_fold_delete.
  case_bool_decide as H.
  - apply elem_of_children in H as (d' & H1 & H2). split; [done|]. intros [H3 H4]. congruence.
  - split; [|by intros [? _]]. intros Hd. split; [done|]. intros Hp. apply H, elem_of_children. by exists d.
Qed.

Lemma remove_slots_frame ts r :
  reg_sessions (remove_slots r ts) = reg_sessions r /\ reg_windows (remove_slots r ts) = reg_windows r.
Proof.
  unfold remove_slots. revert r. induction ts as [|t ts IH]; intros r; cbn [fold_left]; [done|].
  destruct (IH (remove_children_of (set_resources r (delete t (reg_resources r))) t)) as [-> ->].
  by destruct (remove_children_frame (set_resources r (delete t (reg_resources r))) t) as [-> ->].
Qed.

(** What is left is what neither is one of the slots nor is bound to one. *)
Lemma remove_slots_lookup ts r k d :
  reg_resources (remove_slots r ts) !! k = Some d <->
  reg_resources r !! k = Some d /\ (k ∉ ts) /\ (forall p, parent d = Some p -> p ∉ ts).
Proof.
  unfold remove_slots. revert r. induction ts as [|t ts IH]; intros r; cbn [fold_left].
  - split; [intros H; split; [done|]; split; intros; by apply not_elem_of_nil|by intros [? _]].
  - rewrite IH, remove_children_lookup. cbn [set_resources reg_resources]. rewrite lookup_delete_Some.
    rewrite not_elem_of_cons. split.
    + intros (((Hk & H1) & H2) & H3 & H4). split; [done|]. split; [split; [congruence|done]|].
      intros p Hp. apply not_elem_of_cons. split; [by intros ->|by apply H4].
    + intros (H1 & (Hk & H3) & H4). split; [|split; [done|]].
      * split; [split; [congruence|done]|]. intros Hp. apply (H4 t Hp). by left.
      * intros p Hp. by destruct (proj1 (not_elem_of_cons _ _ _) (H4 p Hp)).
Qed.

(** ** Windows under placement *)

Definition wf_layout (w : Window) : Prop :=
  match layout w with None => slots w = [] | Some l => leaves l ≡ₚ slots w end.
Definition wf_active (w : Window) : Prop :=
  match active w with None => slots w = [] | Some a => a ∈ slots w end.

(** The slot list, the tree and the focus agree. *)
Record wf_window (w : Window) : Prop := {
  wf_nodup : NoDup (slots w);
  wf_lay : wf_layout w;
  wf_act : wf_active w
}.

Lemma wf_leaves w l : wf_window w -> layout w = Some l -> leaves l ≡ₚ slots w /\ NoDup (leaves l).
Proof.
  intros [Hn Hl _] E. unfold wf_layout in Hl. rewrite E in Hl. split; [done|]. by rewrite Hl.
Qed.

Lemma place_frame w id :
  window_id (place_in_window w id) = window_id w /\ session (place_in_window w id) = session w.
Proof.
  unfold place_in_window, seed_layout, split. destruct (active w) as [t|]; cbn [layout with_slots].
  - destruct (validate_ratio half); [|done]. rewrite bind_ok. destruct (layout w) as [l|]; [|done].
    by destruct (split_at l t id SplitDir_Horizontal half).
  - by destruct (layout w).
Qed.

Lemma place_wf w id :
  wf_window w -> id ∉ slots w ->
  wf_window (place_in_window w id) /\ slots (place_in_window w id) = slots w ++ [id].
Proof.
  intros Hw Hid. pose proof (wf_nodup w Hw) as Hn. pose proof (wf_lay w Hw) as Hl.
  pose proof (wf_act w Hw) as Ha. unfold wf_active in Ha. unfold place_in_window.
  assert (Hn' : NoDup (slots w ++ [id])).
  { apply NoDup_app. split; [done|]. split; [|apply NoDup_singleton].
    intros x Hx ->%list_elem_of_singleton. done. }
  destruct (active w) as [t|] eqn:Et.
  - unfold split. change (validate_ratio half) with (Ok (E := LayoutError) tt). rewrite bind_ok.
    cbn [layout with_slots]. destruct (layout w) as [l|] eqn:El.
    + destruct (wf_leaves w l Hw El) as [Hp Hnl].
      destruct (split_at_leaves l t id SplitDir_Horizontal half) as (l' & -> & E); [by rewrite Hp|].
      rewrite bind_ok. split; [|done]. split; cbn.
      * done.
      * unfold wf_layout. cbn. rewrite E, insert_after_perm by (by rewrite Hp). by rewrite Hp.
      * unfold wf_active. cbn. rewrite Et. apply elem_of_app. by left.
    + exfalso. unfold wf_layout in Hl. rewrite El in Hl. rewrite Hl in Ha. by apply not_elem_of_nil in Ha.
  - unfold seed_layout. cbn [layout with_slots]. destruct (layout w) as [l|] eqn:El.
    + exfalso. destruct (wf_leaves w l Hw El) as [Hp _]. rewrite Ha in Hp. apply Permutation_nil_r in Hp.
      by apply leaves_nonempty in Hp.
    + split; [|done]. split; cbn; unfold wf_layout, wf_active; cbn; rewrite ?Ha.
      * apply NoDup_singleton.
      * by rewrite leaves_leaf.
      * by left.
Qed.

Lemma drop_pane_perm t xs ys : xs ≡ₚ ys -> drop_pane t xs ≡ₚ drop_pane t ys.
Proof.
  unfold drop_pane. induction 1 as [|x xs ys H IH|x y xs|xs ys zs H1 IH1 H2 IH2]; cbn; [done| | |by rewrite IH1].
  - by destruct (negb _); rewrite IH.
  - destruct (negb (bool_decide (y = t))), (negb (bool_decide (x = t))); try done. apply perm_swap.
Qed.

Lemma drop_pane_nodup t xs : NoDup xs -> NoDup (drop_pane t xs).
Proof. intros H. unfold drop_pane. rewrite NoDup_ListNoDup in *. by apply List.NoDup_filter. Qed.

Lemma kill_pane_frame w t :
  window_id (kill_pane w t).1 = window_id w /\ session (kill_pane w t).1 = session w
  /\ slots (kill_pane w t).1 = slots w /\ active (kill_pane w t).1 = active w.
Proof.
  unfold kill_pane. destruct (layout w) as [[p|d r l rt]|]; [|destruct (collapse _ t)|done]; [|done].
  by destruct (bool_decide (p = t)).
Qed.

Lemma vacate_frame w id :
  window_id (vacate_slot w id) = window_id w /\ session (vacate_slot w id) = session w.
Proof.
  unfold vacate_slot. set (w1 := with_slots w _). destruct (kill_pane_frame w1 id) as (H1 & H2 & _).
  destruct (kill_pane w1 id) as [w2 res]. cbn in H1, H2. by case_bool_decide.
Qed.

Lemma vacate_slots w id : slots (vacate_slot w id) = drop_pane id (slots w).
Proof.
  unfold vacate_slot. set (w1 := with_slots w _). destruct (kill_pane_frame w1 id) as (_ & _ & H3 & _).
  destruct (kill_pane w1 id) as [w2 res]. cbn in H3. by case_bool_decide.
Qed.

Lemma head_elem {A} (xs : list A) : match head xs with None => xs = [] | Some x => x ∈ xs end.
Proof. destruct xs; cbn; [done|by left]. Qed.

Lemma vacate_wf w id : wf_window w -> wf_window (vacate_slot w id).
Proof.
  intros Hw. pose proof (vacate_slots w id) as Hs. split.
  - rewrite Hs. apply drop_pane_nodup, Hw.
  - unfold wf_layout. rewrite Hs. unfold vacate_slot. set (w1 := with_slots w _).
    assert (E : match layout (kill_pane w1 id).1 with
                | None => drop_pane id (slots w) = [] | Some l => leaves l ≡ₚ drop_pane id (slots w) end).
    { destruct (layout w) as [l|] eqn:El.
      - destruct (wf_leaves w l Hw El) as [Hp Hnl]. pose proof (kill_pane_cases w1 id l El Hnl) as Hk.
        case_bool_decide as Hin; [case_bool_decide as Hone|].
        + rewrite Hk. cbn. rewrite Hone in Hp. apply (drop_pane_perm id) in Hp. cbn in Hp.
          rewrite bool_decide_true in Hp by done. cbn in Hp. by apply Permutation_nil_l in Hp.
        + destruct Hk as (l' & -> & E). cbn. rewrite E. by apply drop_pane_perm.
        + rewrite Hk. cbn. rewrite El, drop_pane_id; [done|]. by rewrite <- Hp.
      - unfold kill_pane. cbn [layout w1 with_slots]. rewrite El. cbn. rewrite El.
        pose proof (wf_lay w Hw) as Hl. unfold wf_layout in Hl. rewrite El in Hl. by rewrite Hl. }
    destruct (kill_pane w1 id) as [w2 res]. cbn in E. by case_bool_decide.
  - unfold wf_active. rewrite Hs. unfold vacate_slot. set (w1 := with_slots w _).
    destruct (kill_pane_frame w1 id) as (_ & _ & H3 & H4). destruct (kill_pane w1 id) as [w2 res]. cbn in H3, H4.
    case_bool_decide as E; cbn [active with_active].
    + rewrite H3. apply head_elem.
    + rewrite H4. pose proof (wf_act w Hw) as Ha. unfold wf_active in Ha. rewrite H4 in E.
      destruct (active w) as [a|]; [|by rewrite Ha]. apply elem_of_drop_pane. split; [done|]. by intros ->.
Qed.

(** ** The invariant *)

Definition wf_kind (r : Registry) (k : ResourceId) (d : ResourceDescriptor) : Prop :=
  match kind d with
  | Kind_Terminal =>
      parent d = None /\ is_Some (terminal d) /\ agent d = None /\
      exists wk w, window d = Some wk /\ reg_windows r !! wk = Some w /\ k ∈ slots w
  | Kind_AgentSession =>
      window d = None /\ terminal d = None /\ is_Some (agent d) /\
      exists p dp, parent d = Some p /\ reg_resources r !! p = Some dp /\ kind dp = Kind_Terminal
  end.

Definition wf_focus (s : Session) : Prop :=
  match active_window s with None => windows s = [] | Some a => a ∈ windows s end.

(** Every entity is reachable from exactly its owner, and only from it. *)
Record Inv (r : Registry) : Prop := {
  inv_session k s : reg_sessions r !! k = Some s -> session_id s = k /\ NoDup (windows s) /\ wf_focus s;
  inv_session_windows k s wk : reg_sessions r !! k = Some s -> wk ∈ windows s ->
    exists w, reg_windows r !! wk = Some w /\ session w = k;
  inv_window k w : reg_windows r !! k = Some w -> window_id w = k /\ wf_window w;
  inv_window_session k w : reg_windows r !! k = Some w ->
    exists s, reg_sessions r !! session w = Some s /\ k ∈ windows s;
  inv_window_slots k w t : reg_windows r !! k = Some w -> t ∈ slots w ->
    exists d, reg_resources r !! t = Some d /\ kind d = Kind_Terminal /\ window d = Some k;
  inv_resource k d : reg_resources r !! k = Some d -> resource_id d = k /\ wf_kind r k d
}.

Lemma inv_new : Inv new.
Proof. split; intros *; cbn; by rewrite ?lookup_empty. Qed.

Ltac reg_cbn :=
  cbn [set_sessions set_windows set_resources reg_sessions reg_windows reg_resources].

(** Case analysis on a lookup in an updated map. *)
Ltac lookup_cases :=
  repeat match goal with
  | H : <[_ := _]> _ !! _ = Some _ |- _ =>
      apply lookup_insert_Some in H as [[<- <-]|[? H]]
  | H : delete _ _ !! _ = Some _ |- _ => apply lookup_delete_Some in H as [? H]
  end.

Lemma wf_kind_mono r r' k d :
  (forall wk w, reg_windows r !! wk = Some w -> k ∈ slots w -> exists w', reg_windows r' !! wk = Some w' /\ k ∈ slots w') ->
  (forall p dp, reg_resources r !! p = Some dp -> parent d = Some p -> kind dp = Kind_Terminal ->
     exists dp', reg_resources r' !! p = Some dp' /\ kind dp' = Kind_Terminal) ->
  wf_kind r k d -> wf_kind r' k d.
Proof.
  intros Hw Hr. unfold wf_kind. destruct (kind d).
  - intros (H1 & H2 & H3 & wk & w & H4 & H5 & H6). repeat split; try done.
    destruct (Hw wk w H5 H6) as (w' & ? & ?). by exists wk, w'.
  - intros (H1 & H2 & H3 & p & dp & H4 & H5 & H6). repeat split; try done.
    destruct (Hr p dp H5 H4 H6) as (dp' & ? & ?). by exists p, dp'.
Qed.

Lemma inv_new_session r id n now :
  Inv r -> reg_sessions r !! id = None -> Inv (new_session r id n now).
Proof.
  intros HI Hid. unfold new_session. split; reg_cbn; intros *.
  - intros H; lookup_cases; [|by apply (inv_session r HI)]. cbn. split; [done|]. split; [apply NoDup_nil_2|done].
  - intros H Hk; lookup_cases; [by apply not_elem_of_nil in Hk|]. by eapply inv_session_windows.
  - apply (inv_window r HI).
  - intros H. destruct (inv_window_session r HI k w H) as (s & Hs & Hk). exists s. split; [|done].
    rewrite lookup_insert_ne; [done|congruence].
  - apply (inv_window_slots r HI).
  - apply (inv_resource r HI).
Qed.

Lemma inv_new_window r id s r' :
  Inv r -> reg_windows r !! id = None -> new_window r id s = Ok r' -> Inv r'.
Proof.
  intros HI Hid. unfold new_window. case_bool_decide as Hs; [|done]. cbn [negb]. destruct Hs as [sn Hs].
  cbn [set_windows reg_sessions]. rewrite Hs. intros [= <-].
  assert (Hni : id ∉ windows sn).
  { intros Hin. destruct (inv_session_windows r HI s sn id Hs Hin) as (w & Hw & _). congruence. }
  destruct (inv_session r HI s sn Hs) as (Hsid & Hnd & Hf).
  split; reg_cbn; intros *.
  - intros H; lookup_cases; [|by apply (inv_session r HI)]. cbn. split; [done|]. split.
    + apply NoDup_app. split; [done|]. split; [by intros x Hx ->%list_elem_of_singleton|apply NoDup_singleton].
    + unfold wf_focus in *. cbn. destruct (active_window sn); rewrite elem_of_app; [by left|right; by left].
  - intros H Hk; lookup_cases.
    + cbn in Hk. apply elem_of_app in Hk as [Hk| ->%list_elem_of_singleton].
      * destruct (inv_session_windows r HI _ _ wk Hs Hk) as (w & Hw & ?). exists w.
        rewrite lookup_insert_ne by congruence. done.
      * eexists. by rewrite lookup_insert_eq.
    + destruct (inv_session_windows r HI _ _ wk H Hk) as (w & Hw & ?). exists w.
      rewrite lookup_insert_ne by congruence. done.
  - intros H; lookup_cases; [|by apply (inv_window r HI)]. split; [done|]. split; [apply NoDup_nil_2|done|done].
  - intros H; lookup_cases; cbn [session].
    + eexists. rewrite lookup_insert_eq. split; [done|]. cbn. apply elem_of_app. right. by left.
    + destruct (inv_window_session r HI k w H) as (s0 & Hs0 & Hk). destruct (decide (session w = s)) as [E|E].
      * eexists. rewrite E, lookup_insert_eq. split; [done|]. cbn. rewrite E in Hs0. apply elem_of_app. left. congruence.
      * exists s0. by rewrite lookup_insert_ne.
  - intros H Ht; lookup_cases; [by apply not_elem_of_nil in Ht|]. by eapply inv_window_slots.
  - intros H. destruct (inv_resource r HI k d H) as [? Hk]. split; [done|]. revert Hk. apply wf_kind_mono; cbn; [|by eauto].
    intros wk w Hw Hks. exists w. rewrite lookup_insert_ne by congruence. done.
Qed.

(** Replacing a window's contents, the resources following. *)
Lemma inv_new_terminal r id wk r' :
  Inv r -> reg_resources r !! id = None -> new_terminal r id wk = Ok r' -> Inv r'.
Proof.
  intros HI Hid. unfold new_terminal. case_bool_decide as Hw; [|done]. cbn [negb]. destruct Hw as [w Hw].
  cbn [set_resources reg_windows]. rewrite Hw. intros [= <-].
  assert (Hni : id ∉ slots w).
  { intros Hin. destruct (inv_window_slots r HI wk w id Hw Hin) as (d & Hd & _). congruence. }
  destruct (inv_window r HI wk w Hw) as [Hwid Hwf]. destruct (place_wf w id Hwf Hni) as [Hwf' Hsl].
  destruct (place_frame w id) as [Hf1 Hf2].
  split; reg_cbn; intros *.
  - apply (inv_session r HI).
  - intros H Hk. destruct (inv_session_windows r HI _ _ wk0 H Hk) as (w0 & Hw0 & ?).
    destruct (decide (wk0 = wk)) as [->|]; [|exists w0; by rewrite lookup_insert_ne].
    eexists. rewrite lookup_insert_eq. split; [done|]. congruence.
  - intros H; lookup_cases; [|by apply (inv_window r HI)]. split; [congruence|done].
  - intros H; lookup_cases; [|by apply (inv_window_session r HI)]. rewrite Hf2. by apply (inv_window_session r HI).
  - intros H Ht; lookup_cases.
    + rewrite Hsl in Ht. apply elem_of_app in Ht as [Ht| ->%list_elem_of_singleton].
      * destruct (inv_window_slots r HI _ _ t Hw Ht) as (d & Hd & ?). exists d.
        rewrite lookup_insert_ne by congruence. done.
      * eexists. by rewrite lookup_insert_eq.
    + destruct (inv_window_slots r HI _ _ t H Ht) as (d & Hd & ?). exists d.
      rewrite lookup_insert_ne by congruence. done.
  - intros H; lookup_cases.
    + split; [done|]. cbn. repeat split; [done|]. exists wk. eexists. rewrite lookup_insert_eq. repeat split.
      rewrite Hsl. apply elem_of_app. right. by left.
    + destruct (inv_resource r HI k d H) as [? Hk]. split; [done|]. revert Hk. apply wf_kind_mono; cbn.
      * intros wk0 w0 Hw0 Hks. destruct (decide (wk0 = wk)) as [->|]; [|exists w0; by rewrite lookup_insert_ne].
        eexists. rewrite lookup_insert_eq. split; [done|]. rewrite Hsl. apply elem_of_app. left. congruence.
      * intros p dp Hp _ Hkd. exists dp. rewrite lookup_insert_ne by congruence. done.
Qed.

Lemma inv_new_agent_session r id p a r' :
  Inv r -> reg_resources r !! id = None -> new_agent_session r id p a = Ok r' -> Inv r'.
Proof.
  intros HI Hid. unfold new_agent_session. destruct (reg_resources r !! p) as [dp|] eqn:Hp; [|done].
  case_bool_decide as Hk; [|done]. cbn [negb]. intros [= <-].
  split; reg_cbn; intros *.
  - apply (inv_session r HI).
  - apply (inv_session_windows r HI).
  - apply (inv_window r HI).
  - apply (inv_window_session r HI).
  - intros H Ht. destruct (inv_window_slots r HI _ _ t H Ht) as (d & Hd & ?). exists d.
    rewrite lookup_insert_ne by congruence. done.
  - intros H; lookup_cases.
    + split; [done|]. cbn. repeat split; [done|]. exists p, dp. rewrite lookup_insert_ne by congruence. done.
    + destruct (inv_resource r HI k d H) as [? Hk']. split; [done|]. revert Hk'. apply wf_kind_mono; cbn; [by eauto|].
      intros q dq Hq _ Hkd. exists dq. rewrite lookup_insert_ne by congruence. done.
Qed.

(** A resource with a window is a Terminal in one of its slots. *)
Lemma inv_located r k d wk :
  Inv r -> reg_resources r !! k = Some d -> window d = Some wk ->
  kind d = Kind_Terminal /\ exists w, reg_windows r !! wk = Some w /\ k ∈ slots w.
Proof.
  intros HI Hd Hw. destruct (inv_resource r HI k d Hd) as [_ Hk]. unfold wf_kind in Hk. destruct (kind d).
  - destruct Hk as (_ & _ & _ & wk' & w & E & Hwk & Hin). split; [done|]. exists w. by replace wk with wk' by congruence.
  - destruct Hk as (E & _). congruence.
Qed.

(** A Terminal holds one slot of one window. *)
Lemma slot_unique r k wk w wk' w' :
  Inv r -> reg_windows r !! wk = Some w -> k ∈ slots w -> reg_windows r !! wk' = Some w' -> k ∈ slots w' -> wk = wk'.
Proof.
  intros HI Hw Hk Hw' Hk'. destruct (inv_window_slots r HI wk w k Hw Hk) as (d & Hd & _ & E).
  destruct (inv_window_slots r HI wk' w' k Hw' Hk') as (d' & Hd' & _ & E'). congruence.
Qed.

Lemma inv_move_terminal r id to r' :
  Inv r -> move_terminal r id to = Ok r' -> Inv r'.
Proof.
  intros HI. unfold move_terminal. case_bool_decide as Hto; [|done]. cbn [negb]. destruct Hto as [w2 Hw2].
  destruct (reg_resources r !! id) as [d|] eqn:Hd; [|done]. cbn [mbind option_bind].
  destruct (window d) as [src|] eqn:Hsrc; [|done].
  destruct (inv_located r id d src HI Hd Hsrc) as (Hkind & w1 & Hw1 & Hin1).
  case_bool_decide as Hne; [by intros [= <-]|]. rewrite Hw1. reg_cbn. rewrite Hd. reg_cbn.
  rewrite lookup_insert_ne, Hw2 by done. intros [= <-].
  assert (Hni : id ∉ slots w2) by (intros Hin2; by apply Hne, (slot_unique r id src w1 to w2)).
  destruct (inv_window r HI src w1 Hw1) as [Hid1 Hwf1]. destruct (inv_window r HI to w2 Hw2) as [Hid2 Hwf2].
  destruct (place_wf w2 id Hwf2 Hni) as [Hwf2' Hsl2]. destruct (place_frame w2 id) as [Hf1 Hf2].
  pose proof (vacate_wf w1 id Hwf1) as Hwf1'. pose proof (vacate_slots w1 id) as Hsl1.
  destruct (vacate_frame w1 id) as [Hg1 Hg2].
  split; reg_cbn; intros *.
  - apply (inv_session r HI).
  - intros H Hk. destruct (inv_session_windows r HI _ _ wk H Hk) as (w0 & Hw0 & ?).
    destruct (decide (wk = to)) as [->|]; [eexists; rewrite lookup_insert_eq; split; [done|congruence]|].
    rewrite lookup_insert_ne by done.
    destruct (decide (wk = src)) as [->|]; [eexists; rewrite lookup_insert_eq; split; [done|congruence]|].
    exists w0. by rewrite lookup_insert_ne.
  - intros H; lookup_cases; [split; [congruence|done]..|]. by apply (inv_window r HI).
  - intros H; lookup_cases; rewrite ?Hf2, ?Hg2; by apply (inv_window_session r HI).
  - intros H Ht; lookup_cases.
    + rewrite Hsl2 in Ht. apply elem_of_app in Ht as [Ht| ->%list_elem_of_singleton].
      * destruct (inv_window_slots r HI _ _ t Hw2 Ht) as (d0 & Hd0 & ?). exists d0.
        rewrite lookup_insert_ne by (intros ->; done). done.
      * eexists. rewrite lookup_insert_eq. done.
    + rewrite Hsl1 in Ht. apply elem_of_drop_pane in Ht as [Ht Hne'].
      destruct (inv_window_slots r HI _ _ t Hw1 Ht) as (d0 & Hd0 & ?). exists d0. by rewrite lookup_insert_ne.
    + destruct (inv_window_slots r HI _ _ t H Ht) as (d0 & Hd0 & ?). exists d0.
      rewrite lookup_insert_ne; [done|]. intros ->. by destruct (slot_unique r t k w src w1 HI H Ht Hw1 Hin1).
  - intros H; lookup_cases.
    + destruct (inv_resource r HI _ _ Hd) as [? Hk]. split; [done|]. unfold wf_kind in *. cbn. rewrite Hkind in *.
      destruct Hk as (H1 & H2 & H3 & _). repeat split; try done. exists to. eexists.
      rewrite lookup_insert_eq. repeat split. rewrite Hsl2. apply elem_of_app. right. by left.
    + destruct (inv_resource r HI k d0 H) as [? Hk]. split; [done|]. revert Hk. apply wf_kind_mono; reg_cbn.
      * intros wk w0 Hw0 Hks. destruct (decide (wk = to)) as [->|].
        { eexists. rewrite lookup_insert_eq. split; [done|]. rewrite Hsl2. apply elem_of_app. left. congruence. }
        rewrite lookup_insert_ne by done. destruct (decide (wk = src)) as [->|]; [|exists w0; by rewrite lookup_insert_ne].
        eexists. rewrite lookup_insert_eq. split; [done|]. rewrite Hsl1. apply elem_of_drop_pane. split; congruence.
      * intros p dp Hp _ Hkd. destruct (decide (p = id)) as [->|]; [|exists dp; by rewrite lookup_insert_ne].
        eexists. rewrite lookup_insert_eq. split; [done|]. cbn. congruence.
Qed.

Lemma inv_remove_resource r id d r' :
  Inv r -> remove_resource r id = Some (d, r') -> Inv r'.
Proof.
  intros HI. unfold remove_resource. destruct (reg_resources r !! id) as [d0|] eqn:Hd; [|done]. cbv zeta.
  set (r1 := set_resources r (delete id (reg_resources r))). set (r2 := remove_children_of r1 id).
  destruct (remove_children_frame r1 id) as [Es Ew].
  assert (Hr2 : forall k dk, reg_resources r2 !! k = Some dk <->
     reg_resources r !! k = Some dk /\ k <> id /\ parent dk <> Some id).
  { intros k dk. unfold r2. rewrite remove_children_lookup. unfold r1. reg_cbn. rewrite lookup_delete_Some.
    split; [intros [[? ?] ?]|intros (? & ? & ?)]; repeat split; done. }
  fold r2 in Es, Ew. change (reg_sessions r1) with (reg_sessions r) in Es.
  change (reg_windows r1) with (reg_windows r) in Ew.
  (* the windows, with the slot given up where there was one *)
  set (ws := match window d0 with
             | Some wid => match reg_windows r !! wid with
                           | Some w => <[wid := vacate_slot w id]> (reg_windows r) | None => reg_windows r end
             | None => reg_windows r end).
  intros E. assert (Er : r' = mkRegistry (reg_sessions r) ws (reg_resources r2)).
  { injection E as <- <-. unfold ws. rewrite Ew.
    destruct (window d0) as [wid|]; [|by rewrite <- Es, <- Ew; destruct r2].
    destruct (reg_windows r !! wid); [|by rewrite <- Es, <- Ew; destruct r2].
    unfold set_windows. by rewrite Es, ?Ew. }
  subst r'. clear E.
  assert (Hws : forall k w, ws !! k = Some w -> exists w0, reg_windows r !! k = Some w0 /\
     window_id w = window_id w0 /\ session w = session w0 /\ slots w = drop_pane id (slots w0) /\ (wf_window w0 -> wf_window w)).
  { intros k w Hk.
    assert (Hsame : forall w0, reg_windows r !! k = Some w0 -> window d0 <> Some k -> id ∉ slots w0).
    { intros w0 Hw0 Hne Hin. destruct (inv_window_slots r HI k w0 id Hw0 Hin) as (dd & Hdd & _ & ?). congruence. }
    unfold ws in Hk. destruct (window d0) as [wid|] eqn:Hwd.
    - destruct (inv_located r id d0 wid HI Hd Hwd) as (_ & w1 & Hw1 & _). rewrite Hw1 in Hk. lookup_cases.
      + exists w1. destruct (vacate_frame w1 id) as [-> ->].
        do 3 (split; [done|]). split; [apply vacate_slots|by apply vacate_wf].
      + exists w. rewrite drop_pane_id; [done|]. apply Hsame; [done|congruence].
    - exists w. rewrite drop_pane_id; [done|]. by apply Hsame. }
  assert (Hws' : forall k w0, reg_windows r !! k = Some w0 -> exists w, ws !! k = Some w /\ session w = session w0
     /\ slots w = drop_pane id (slots w0)).
  { intros k w0 Hk. assert (Hsm : is_Some (ws !! k)).
    { unfold ws. destruct (window d0) as [wid|]; [|by rewrite Hk]. destruct (reg_windows r !! wid); [|by rewrite Hk].
      destruct (decide (wid = k)) as [->|]; [by rewrite lookup_insert_eq|by rewrite lookup_insert_ne, Hk]. }
    destruct Hsm as [w Hw]. destruct (Hws k w Hw) as (w0' & Hw0' & _ & ? & ? & _). exists w.
    by replace w0 with w0' by congruence. }
  split; reg_cbn; intros *.
  - apply (inv_session r HI).
  - intros H Hk. destruct (inv_session_windows r HI _ _ wk H Hk) as (w0 & Hw0 & ?).
    destruct (Hws' wk w0 Hw0) as (w & ? & ? & _). exists w. split; [done|congruence].
  - intros H. destruct (Hws k w H) as (w0 & Hw0 & -> & _ & _ & Hwf). destruct (inv_window r HI k w0 Hw0). auto.
  - intros H. destruct (Hws k w H) as (w0 & Hw0 & _ & -> & _). by apply (inv_window_session r HI).
  - intros H Ht. destruct (Hws k w H) as (w0 & Hw0 & _ & _ & E & _). rewrite E in Ht. apply elem_of_drop_pane in Ht as [Ht Hne].
    destruct (inv_window_slots r HI k w0 t Hw0 Ht) as (dt & Hdt & Hkt & ?). exists dt. split; [|done]. apply Hr2.
    split; [done|]. split; [done|]. destruct (inv_resource r HI t dt Hdt) as [_ Hk]. unfold wf_kind in Hk.
    rewrite Hkt in Hk. destruct Hk as (-> & _). done.
  - intros (H & Hne & Hp)%Hr2. destruct (inv_resource r HI k d1 H) as [? Hk]. split; [done|]. revert Hk.
    apply wf_kind_mono; reg_cbn.
    + intros wk w0 Hw0 Hks. destruct (Hws' wk w0 Hw0) as (w & ? & _ & E). exists w. split; [done|]. rewrite E.
      by apply elem_of_drop_pane.
    + intros p dp Hdp Hpar Hkp. exists dp. split; [|done]. apply Hr2. split; [done|]. split; [congruence|].
      destruct (inv_resource r HI p dp Hdp) as [_ Hk]. unfold wf_kind in Hk. rewrite Hkp in Hk. by destruct Hk as (-> & _).
Qed.

(** ** Removing windows *)

(** The loop of [remove_session]; [remove_window] is its single step. *)
Definition remove_windows (r : Registry) (ws : list WindowId) : Registry :=
  fold_left (fun r wid =>
    match reg_windows r !! wid with
    | Some w => remove_slots (set_windows r (delete wid (reg_windows r))) (slots w)
    | None => r
    end) ws r.

(** [k] is in, or bound to something in, a removed window. *)
Definition doomed (r : Registry) (ws : list WindowId) (k : ResourceId) (d : ResourceDescriptor) : Prop :=
  exists wk w, wk ∈ ws /\ reg_windows r !! wk = Some w /\
    (k ∈ slots w \/ exists p, parent d = Some p /\ p ∈ slots w).

Lemma remove_windows_spec ws r :
  reg_sessions (remove_windows r ws) = reg_sessions r /\
  (forall k w, reg_windows (remove_windows r ws) !! k = Some w <-> reg_windows r !! k = Some w /\ (k ∉ ws)) /\
  (forall k d, reg_resources (remove_windows r ws) !! k = Some d <->
     reg_resources r !! k = Some d /\ ~ doomed r ws k d).
Proof.
  unfold remove_windows. revert r. induction ws as [|wid ws IH]; intros r; cbn [fold_left].
  - split; [done|]. split; intros k x; (split; [intros H; split; [done|]|by intros [? _]]).
    + by apply not_elem_of_nil.
    + intros (wk & w & Hin & _). by apply not_elem_of_nil in Hin.
  - set (r1 := match reg_windows r !! wid with Some _ => _ | None => r end).
    destruct (IH r1) as (Hs & Hw & Hr). clear IH.
    assert (H1 : reg_sessions r1 = reg_sessions r /\
      (forall k w, reg_windows r1 !! k = Some w <-> reg_windows r !! k = Some w /\ k <> wid) /\
      (forall k d, reg_resources r1 !! k = Some d <-> reg_resources r !! k = Some d /\ ~ doomed r [wid] k d)).
    { unfold r1. destruct (reg_windows r !! wid) as [w|] eqn:E.
      - destruct (remove_slots_frame (slots w) (set_windows r (delete wid (reg_windows r)))) as [-> ->]. reg_cbn.
        split; [done|]. split.
        + intros k w0. rewrite lookup_delete_Some. split; intros [? ?]; split; congruence.
        + intros k d. rewrite remove_slots_lookup. reg_cbn. split.
          * intros (Hd & Hk & Hp). split; [done|]. intros (wk & w0 & ->%list_elem_of_singleton & Hw0 & H).
            rewrite E in Hw0. injection Hw0 as <-. destruct H as [H|(p & Hpar & H)]; [done|]. by apply (Hp p).
          * intros (Hd & Hn). split; [done|]. split; [|intros p Hp]; intros Hin; apply Hn; exists wid, w;
              (split; [by left|]); (split; [done|]); [by left|right; by exists p].
      - split; [done|]. split.
        + intros k w0. split; [|by intros [? _]]. intros Hk. split; congruence.
        + intros k d. split; [|by intros [? _]]. intros Hd. split; [done|].
          intros (wk & w0 & ->%list_elem_of_singleton & Hw0 & _). congruence. }
    destruct H1 as (H1 & H2 & H3). split; [congruence|]. split.
    + intros k w. rewrite Hw, H2, not_elem_of_cons. split; [intros ([? ?] & ?)|intros (? & ? & ?)]; done.
    + intros k d. rewrite Hr, H3. split.
      * intros ((Hd & Hn1) & Hn2). split; [done|]. intros (wk & w & Hin & Hwk & H).
        apply elem_of_cons in Hin as [->|Hin]; [apply Hn1; exists wid, w; split; [by left|done]|].
        destruct (decide (wk = wid)) as [->|Hne]; [apply Hn1; exists wid, w; split; [by left|done]|].
        apply Hn2. exists wk, w. split; [done|]. split; [by apply H2|done].
      * intros (Hd & Hn). split; [split; [done|]|]; intros (wk & w & Hin & Hwk & H); apply Hn; exists wk, w.
        -- apply list_elem_of_singleton in Hin as ->. split; [by left|done].
        -- apply H2 in Hwk as [Hwk _]. split; [by right|done].
Qed.

(** The invariant after the windows [ws] are gone, given what became of the sessions. *)
Lemma inv_cascade r ws ss :
  Inv r ->
  (forall k s, ss !! k = Some s -> session_id s = k /\ NoDup (windows s) /\ wf_focus s /\
     exists s0, reg_sessions r !! k = Some s0 /\ forall w, w ∈ windows s <-> w ∈ windows s0 /\ (w ∉ ws)) ->
  (forall k s0 w, reg_sessions r !! k = Some s0 -> w ∈ windows s0 -> w ∉ ws -> exists s, ss !! k = Some s) ->
  Inv (set_sessions (remove_windows r ws) ss).
Proof.
  intros HI Hss Hkeep. destruct (remove_windows_spec ws r) as (_ & Hw & Hr).
  split; reg_cbn; intros *.
  - intros H. by destruct (Hss k s H) as (? & ? & ? & _).
  - intros H Hk. destruct (Hss k s H) as (_ & _ & _ & s0 & Hs0 & Hin). destruct (proj1 (Hin wk) Hk) as [Hk' Hn].
    destruct (inv_session_windows r HI k s0 wk Hs0 Hk') as (w & ? & ?). exists w. split; [by apply Hw|done].
  - intros [H _]%Hw. by apply (inv_window r HI).
  - intros [H Hn]%Hw. destruct (inv_window_session r HI k w H) as (s0 & Hs0 & Hin).
    destruct (Hkeep _ s0 k Hs0 Hin Hn) as [s Hs]. exists s. split; [done|].
    destruct (Hss _ s Hs) as (_ & _ & _ & s1 & Hs1 & Hin'). apply Hin'. split; [congruence|done].
  - intros [H Hn]%Hw Ht. destruct (inv_window_slots r HI k w t H Ht) as (d & Hd & Hk & Hwd). exists d. split; [|done].
    apply Hr. split; [done|]. intros (wk & w0 & Hin & Hwk & [Hs|(p & Hp & _)]).
    + apply Hn. by rewrite (slot_unique r t k w wk w0 HI H Ht Hwk Hs).
    + destruct (inv_resource r HI t d Hd) as [_ Hk']. unfold wf_kind in Hk'. rewrite Hk in Hk'. destruct Hk' as (? & _). congruence.
  - intros [H Hn]%Hr. destruct (inv_resource r HI k d H) as [? Hk]. split; [done|]. unfold wf_kind in *.
    destruct (kind d).
    + destruct Hk as (H1 & H2 & H3 & wk & w & H4 & H5 & H6). repeat split; try done. exists wk, w. repeat split; try done.
      apply Hw. split; [done|]. intros Hin. apply Hn. exists wk, w. split; [done|]. split; [done|]. by left.
    + destruct Hk as (H1 & H2 & H3 & p & dp & H4 & H5 & H6). repeat split; try done. exists p, dp. repeat split; try done.
      apply Hr. split; [done|]. intros (wk & w & Hin & Hwk & [Hs|(q & Hq & _)]).
      * apply Hn. exists wk, w. split; [done|]. split; [done|]. right. by exists p.
      * destruct (inv_resource r HI p dp H5) as [_ Hk']. unfold wf_kind in Hk'. rewrite H6 in Hk'. destruct Hk' as (? & _). congruence.
Qed.

Lemma remove_session_eq r id :
  remove_session r id =
    match reg_sessions r !! id with
    | Some s => Some (s, set_sessions (remove_windows r (windows s)) (delete id (reg_sessions r)))
    | None => None
    end.
Proof.
  unfold remove_session. destruct (reg_sessions r !! id) as [s|]; [|done]. cbv zeta. do 2 f_equal.
  unfold remove_windows. generalize (delete id (reg_sessions r)). intros ss. generalize (windows s).
  intros ws. revert r. induction ws as [|wid ws IH]; intros r; cbn [fold_left]; [done|]. rewrite <- IH. f_equal.
  reg_cbn. destruct (reg_windows r !! wid) as [w|]; [|done]. generalize (delete wid (reg_windows r)). intros m.
  generalize (slots w). intros ts. clear. unfold remove_slots.
  enough (H : forall q, fold_left (fun r t => remove_children_of (set_resources r (delete t (reg_resources r))) t) ts (set_sessions q ss)
    = set_sessions (fold_left (fun r t => remove_children_of (set_resources r (delete t (reg_resources r))) t) ts q) ss)
    by apply (H (set_windows r m)).
  induction ts as [|t ts IH]; intros q; cbn [fold_left]; [done|]. rewrite <- IH. f_equal.
  unfold remove_children_of. rewrite !fold_delete_resources. done.
Qed.

Lemma remove_window_eq r id :
  remove_window r id =
    match reg_windows r !! id with
    | Some w =>
        let ss := match reg_sessions r !! session w with
                  | Some s =>
                      let ws := drop_pane id (windows s) in
                      let a := if bool_decide (active_window s = Some id) then head ws else active_window s in
                      <[session w := with_windows s ws a]> (reg_sessions r)
                  | None => reg_sessions r
                  end in
        Some (w, set_sessions (remove_windows r [id]) ss)
    | None => None
    end.
Proof.
  unfold remove_window, remove_windows. cbn [fold_left]. destruct (reg_windows r !! id) as [w|]; [|done]. cbv zeta.
  do 2 f_equal. destruct (remove_slots_frame (slots w) (set_windows r (delete id (reg_windows r)))) as [E _].
  rewrite E. reg_cbn. destruct (reg_sessions r !! session w); [by rewrite ?E|].
  set (q := remove_slots _ _) in *. revert E. reg_cbn. intros <-. by destruct q.
Qed.

Lemma inv_remove_session r id s r' :
  Inv r -> remove_session r id = Some (s, r') -> Inv r'.
Proof.
  intros HI. rewrite remove_session_eq. destruct (reg_sessions r !! id) as [s0|] eqn:Hs; [|done]. intros [= <- <-].
  assert (Hoff : forall k s1 w, reg_sessions r !! k = Some s1 -> k <> id -> w ∈ windows s1 -> w ∉ windows s0).
  { intros k s1 w H1 Hk Hin Hin0. destruct (inv_session_windows r HI _ _ w H1 Hin) as (x & Hx & E).
    destruct (inv_session_windows r HI _ _ w Hs Hin0) as (y & Hy & E'). congruence. }
  apply inv_cascade; [done| |].
  - intros k s1 H. lookup_cases. destruct (inv_session r HI k s1 H) as (? & ? & ?). repeat split; try done.
    exists s1. split; [done|]. intros w. split; [|by intros [? _]]. intros Hin. split; [done|]. by eapply Hoff.
  - intros k s1 w H Hin Hn. exists s1. rewrite lookup_delete_ne; [done|]. intros ->. congruence.
Qed.

Lemma inv_remove_window r id w r' :
  Inv r -> remove_window r id = Some (w, r') -> Inv r'.
Proof.
  intros HI. rewrite remove_window_eq. destruct (reg_windows r !! id) as [w0|] eqn:Hw; [|done].
  destruct (inv_window_session r HI id w0 Hw) as (s & Hs & Hin). rewrite Hs. intros [= <- <-].
  destruct (inv_session r HI _ s Hs) as (Hid & Hnd & Hf).
  assert (Hoff : forall k s1, reg_sessions r !! k = Some s1 -> k <> session w0 -> id ∉ windows s1).
  { intros k s1 H1 Hk Hin1. destruct (inv_session_windows r HI _ _ id H1 Hin1) as (x & Hx & E). congruence. }
  apply (inv_cascade r [id]); [done| |].
  - intros k s1 H. lookup_cases.
    + cbn. split; [done|]. split; [by apply drop_pane_nodup|]. split.
      * unfold wf_focus in *. cbn. case_bool_decide as E; [apply head_elem|].
        destruct (active_window s) as [a|]; [|by rewrite Hf]. apply elem_of_drop_pane. split; [done|]. by intros ->.
      * exists s. split; [done|]. intros x. rewrite elem_of_drop_pane, list_elem_of_singleton. done.
    + destruct (inv_session r HI k s1 H) as (? & ? & ?). repeat split; try done. exists s1. split; [done|].
      intros x. rewrite list_elem_of_singleton. split; [|by intros [? _]]. intros Hx. split; [done|]. intros ->.
      by eapply Hoff.
  - intros k s1 x H _ _. destruct (decide (k = session w0)) as [->|].
    + eexists. by rewrite lookup_insert_eq.
    + exists s1. by rewrite lookup_insert_ne.
Qed.
