(* ===== verification/RegistrySteps.v ===== *)
(** * Runs of the registry

    The operations of [Registry] as steps of a transition system whose states remember which keys
    the slotmaps have handed out, its invariant, what each cascade removes and keeps, and the
    conditions under which an operation refuses. *)

From stdpp Require Import gmap.
From S2P Require Import Prelude Window Registry.

(** ** What the removals remove *)

(** The session a resource lives in: its window's, or its parent's window's. *)
Definition window_session (r : Registry) (w : option WindowId) : option SessionId :=
  w ≫= fun wk => session <$> reg_windows r !! wk.
Definition home (r : Registry) (d : ResourceDescriptor) : option SessionId :=
  match parent d with
  | Some p => reg_resources r !! p ≫= fun dp => window_session r (window dp)
  | None => window_session r (window d)
  end.
(** The window a resource lives in, the same way. *)
Definition home_window (r : Registry) (d : ResourceDescriptor) : option WindowId :=
  match parent d with
  | Some p => reg_resources r !! p ≫= window
  | None => window d
  end.

(** Everything in the registry has a window to live in. *)
Lemma home_window_total r k d :
  Inv r -> reg_resources r !! k = Some d ->
  exists wk w, home_window r d = Some wk /\ reg_windows r !! wk = Some w /\ home r d = Some (session w).
Proof.
  intros HI Hd. destruct (inv_resource r HI k d Hd) as [_ Hk]. unfold wf_kind in Hk.
  unfold home_window, home, window_session. destruct (kind d).
  - destruct Hk as (-> & _ & _ & wk & w & -> & Hw & _). exists wk, w. cbn. by rewrite Hw.
  - destruct Hk as (_ & _ & _ & p & dp & -> & Hp & Hkp). destruct (inv_resource r HI p dp Hp) as [_ Hk].
    unfold wf_kind in Hk. rewrite Hkp in Hk. destruct Hk as (_ & _ & _ & wk & w & Hwd & Hw & _).
    exists wk, w. rewrite Hp. cbn. rewrite Hwd. cbn. by rewrite Hw.
Qed.

(** A resource is doomed with [ws] exactly when its window is one of them. *)
Lemma doomed_home r ws k d :
  Inv r -> reg_resources r !! k = Some d ->
  doomed r ws k d <-> exists wk, home_window r d = Some wk /\ wk ∈ ws.
Proof.
  intros HI Hd. destruct (inv_resource r HI k d Hd) as [_ Hk]. unfold wf_kind in Hk. unfold doomed, home_window.
  split.
  - intros (wk & w & Hin & Hw & [Hs|(p & Hp & Hs)]); exists wk; (split; [|done]).
    + destruct (inv_window_slots r HI wk w k Hw Hs) as (d' & Hd' & Hkd & Hwd). rewrite Hd in Hd'. injection Hd' as <-.
      rewrite Hkd in Hk. destruct Hk as (-> & _). done.
    + destruct (inv_window_slots r HI wk w p Hw Hs) as (dp & Hdp & _ & Hwd). rewrite Hp, Hdp. done.
  - intros (wk & Hh & Hin). destruct (kind d).
    + destruct Hk as (Hp & _ & _ & wk' & w & Hwd & Hw & Hs). rewrite Hp in Hh. exists wk, w.
      replace wk' with wk in * by congruence. split; [done|]. split; [done|]. by left.
    + destruct Hk as (_ & _ & _ & p & dp & Hp & Hdp & Hkp). rewrite Hp, Hdp in Hh. cbn in Hh.
      destruct (inv_located r p dp wk HI Hdp Hh) as (_ & w & Hw & Hs). exists wk, w. split; [done|]. split; [done|].
      right. by exists p.
Qed.

(** The windows a session lists are those that name it. *)
Lemma session_windows_iff r id s wk w :
  Inv r -> reg_sessions r !! id = Some s -> reg_windows r !! wk = Some w -> wk ∈ windows s <-> session w = id.
Proof.
  intros HI Hs Hw. split.
  - intros Hin. destruct (inv_session_windows r HI id s wk Hs Hin) as (w' & Hw' & E). congruence.
  - intros E. destruct (inv_window_session r HI wk w Hw) as (s' & Hs' & Hin). congruence.
Qed.

Section Cascades.
  Context (r : Registry) (HI : Inv r).

  (** What [remove_session] leaves. *)
Lemma remove_session_leaves id s r' :
    remove_session r id = Some (s, r') ->
    reg_sessions r !! id = Some s /\ reg_sessions r' = delete id (reg_sessions r) /\
    (forall k w, reg_windows r' !! k = Some w <-> reg_windows r !! k = Some w /\ session w <> id) /\
    (forall k d, reg_resources r' !! k = Some d <-> reg_resources r !! k = Some d /\ home r d <> Some id).
  Proof.
    rewrite remove_session_eq. destruct (reg_sessions r !! id) as [s0|] eqn:Hs; [|done]. intros [= <- <-].
    destruct (remove_windows_spec (windows s0) r) as (_ & Hw & Hr). reg_cbn. split; [done|]. split; [done|]. split.
    - intros k w. rewrite Hw. split; intros [H H']; (split; [done|]); by rewrite <- (session_windows_iff r id s0 k w) in * by done.
    - intros k d. rewrite Hr. split; intros [H H']; (split; [done|]); rewrite (doomed_home r _ k d HI H) in *;
        destruct (home_window_total r k d HI H) as (wk & w & Hh & Hwk & Hse); rewrite ?Hse in *.
      + intros [= E]. apply H'. exists wk. split; [done|]. by apply (session_windows_iff r id s0 wk w).
      + intros (wk' & Hh' & Hin). apply H'. f_equal. replace wk' with wk in * by congruence.
        by apply (session_windows_iff r id s0 wk w).
  Qed.

  (** What [remove_window] leaves, the focus of its session moved to the first window left. *)
Lemma remove_window_leaves id w r' :
    remove_window r id = Some (w, r') ->
    reg_windows r !! id = Some w /\ reg_windows r' = delete id (reg_windows r) /\
    (forall k d, reg_resources r' !! k = Some d <-> reg_resources r !! k = Some d /\ home_window r d <> Some id) /\
    exists s, reg_sessions r !! session w = Some s /\
      let ws := drop_pane id (windows s) in
      reg_sessions r' = <[session w := with_windows s ws
        (if bool_decide (active_window s = Some id) then head ws else active_window s)]> (reg_sessions r).
  Proof.
    rewrite remove_window_eq. destruct (reg_windows r !! id) as [w0|] eqn:Hw; [|done].
    destruct (inv_window_session r HI id w0 Hw) as (s & Hs & Hin). rewrite Hs. cbv zeta.
    destruct (remove_windows_spec [id] r) as (_ & Hws & Hr). set (q := remove_windows r [id]) in *. intros [= <- <-]. reg_cbn.
    split; [done|]. split; [|split; [|by exists s]].
    - apply map_eq. intros k. apply option_eq. intros x. rewrite Hws, lookup_delete_Some, list_elem_of_singleton.
      split; intros [? ?]; split; congruence.
    - intros k d. rewrite Hr. split; intros [H H']; (split; [done|]); rewrite (doomed_home r _ k d HI H) in *.
      + intros E. apply H'. exists id. split; [done|]. by left.
      + intros (wk & E & ->%list_elem_of_singleton). done.
  Qed.
End Cascades.

(** ** Steps *)

(** A call of one of the mutating operations, with the key the slotmap picks where it creates. *)
Inductive Call : Type :=
| CNewSession (id : SessionId) (name : bytes) (now : Z)
| CNewWindow (id : WindowId) (session : SessionId)
| CNewTerminal (id : ResourceId) (window : WindowId)
| CNewAgentSession (id parent : ResourceId) (agent : AgentFacet)
| CMoveTerminal (id : ResourceId) (to : WindowId)
| CRemoveResource (id : ResourceId)
| CRemoveWindow (id : WindowId)
| CRemoveSession (id : SessionId).

(** What the registry is after the call; an operation that refuses leaves it as it was. *)
Definition keep {E} (r : Registry) (x : result E Registry) : Registry := match x with Ok r' => r' | Err _ => r end.
Definition keep_removed {A} (r : Registry) (x : option (A * Registry)) : Registry :=
  match x with Some (_, r') => r' | None => r end.
Definition run (r : Registry) (c : Call) : Registry :=
  match c with
  | CNewSession id n now => new_session r id n now
  | CNewWindow id s => keep r (new_window r id s)
  | CNewTerminal id w => keep r (new_terminal r id w)
  | CNewAgentSession id p a => keep r (new_agent_session r id p a)
  | CMoveTerminal id to => keep r (move_terminal r id to)
  | CRemoveResource id => keep_removed r (remove_resource r id)
  | CRemoveWindow id => keep_removed r (remove_window r id)
  | CRemoveSession id => keep_removed r (remove_session r id)
  end.

(** A registry with the keys its slotmaps have handed out so far. *)
Record State : Type := mkState {
  registry : Registry;
  sessions_issued : gset SessionId;
  windows_issued : gset WindowId;
  resources_issued : gset ResourceId
}.
Definition initial : State := mkState new ∅ ∅ ∅.

Definition fresh (st : State) (c : Call) : Prop :=
  match c with
  | CNewSession id _ _ => id ∉ sessions_issued st
  | CNewWindow id _ => id ∉ windows_issued st
  | CNewTerminal id _ | CNewAgentSession id _ _ => id ∉ resources_issued st
  | _ => True
  end.
#[export] Instance fresh_dec st c : Decision (fresh st c).
Proof. destruct c; cbn; apply _. Defined.

Definition issue (st : State) (c : Call) : State :=
  let r := run (registry st) c in
  match c with
  | CNewSession id _ _ => mkState r ({[id]} ∪ sessions_issued st) (windows_issued st) (resources_issued st)
  | CNewWindow id _ => mkState r (sessions_issued st) ({[id]} ∪ windows_issued st) (resources_issued st)
  | CNewTerminal id _ | CNewAgentSession id _ _ =>
      mkState r (sessions_issued st) (windows_issued st) ({[id]} ∪ resources_issued st)
  | _ => mkState r (sessions_issued st) (windows_issued st) (resources_issued st)
  end.

(** One call; a slotmap never hands a key out twice. *)
Inductive step : State -> State -> Prop :=
| step_call st c : fresh st c -> step st (issue st c).

Inductive steps : State -> State -> Prop :=
| steps_refl st : steps st st
| steps_trans st st' st'' : steps st st' -> step st' st'' -> steps st st''.

(** A whole run, [None] when a call reuses a key. *)
Fixpoint play (st : State) (cs : list Call) : option State :=
  match cs with
  | [] => Some st
  | c :: cs => if decide (fresh st c) then play (issue st c) cs else None
  end.

Lemma steps_app st st' st'' : steps st st' -> steps st' st'' -> steps st st''.
Proof. intros H. induction 1; [done|]. by eapply steps_trans; [apply IHsteps|]. Qed.

Lemma play_steps cs st st' : play st cs = Some st' -> steps st st'.
Proof.
  revert st. induction cs as [|c cs IH]; intros st; cbn; [intros [= <-]; constructor|].
  destruct (decide (fresh st c)) as [H|]; [|done]. intros E. eapply steps_app; [|by apply IH].
  eapply steps_trans; [constructor|by constructor].
Qed.

(** Live keys have been handed out. *)
Record Issued (st : State) : Prop := {
  issued_sessions k s : reg_sessions (registry st) !! k = Some s -> k ∈ sessions_issued st;
  issued_windows k w : reg_windows (registry st) !! k = Some w -> k ∈ windows_issued st;
  issued_resources k d : reg_resources (registry st) !! k = Some d -> k ∈ resources_issued st
}.

Lemma remove_resource_leaves r id d r' :
  Inv r -> remove_resource r id = Some (d, r') ->
  reg_resources r !! id = Some d /\ reg_sessions r' = reg_sessions r /\
  (forall k dk, reg_resources r' !! k = Some dk <->
     reg_resources r !! k = Some dk /\ k <> id /\ parent dk <> Some id) /\
  reg_windows r' = match window d with
                   | Some wid => alter (fun w => vacate_slot w id) wid (reg_windows r)
                   | None => reg_windows r
                   end.
Proof.
  intros HI. unfold remove_resource. destruct (reg_resources r !! id) as [d0|] eqn:Hd; [|done]. cbv zeta.
  destruct (remove_children_frame (set_resources r (delete id (reg_resources r))) id) as [Es Ew].
  pose proof (remove_children_lookup (set_resources r (delete id (reg_resources r))) id) as Hr. revert Es Ew Hr.
  set (r2 := remove_children_of _ id). reg_cbn. intros Es Ew Hr.
  assert (Hk : forall k dk, reg_resources r2 !! k = Some dk <->
    reg_resources r !! k = Some dk /\ k <> id /\ parent dk <> Some id).
  { intros k dk. rewrite Hr, lookup_delete_Some. split; [intros [[? ?] ?]|intros (? & ? & ?)]; repeat split; done. }
  intros [= <- <-]. split; [done|].
  destruct (window d0) as [wid|] eqn:Hwd; [|by rewrite Es].
  destruct (inv_located r id d0 wid HI Hd Hwd) as (_ & w & Hw & _). rewrite Ew, Hw. reg_cbn.
  split; [done|]. split; [done|]. apply map_eq. intros k. destruct (decide (k = wid)) as [->|].
  - by rewrite lookup_insert_eq, lookup_alter_eq, Hw.
  - by rewrite lookup_insert_ne, lookup_alter_ne.
Qed.

(** The key a call may create, per map. *)
Definition made_session (c : Call) : option SessionId := match c with CNewSession id _ _ => Some id | _ => None end.
Definition made_window (c : Call) : option WindowId := match c with CNewWindow id _ => Some id | _ => None end.
Definition made_resource (c : Call) : option ResourceId :=
  match c with CNewTerminal id _ | CNewAgentSession id _ _ => Some id | _ => None end.

Ltac keys_tac :=
  intros; lookup_cases; by eauto.

Section Keys.
  Context (r : Registry) (HI : Inv r).

Lemma keys_new_window id s r' : new_window r id s = Ok r' ->
    (forall k x, reg_sessions r' !! k = Some x -> is_Some (reg_sessions r !! k)) /\
    (forall k x, reg_windows r' !! k = Some x -> is_Some (reg_windows r !! k) \/ Some id = Some k) /\
    reg_resources r' = reg_resources r.
  Proof.
    unfold new_window. case_bool_decide as Hs; [|done]. destruct Hs as [sn Hs]. cbn [negb]. reg_cbn. rewrite Hs.
    intros [= <-]. reg_cbn. split; [keys_tac|]. split; [keys_tac|done].
  Qed.

Lemma keys_new_terminal id w r' : new_terminal r id w = Ok r' ->
    reg_sessions r' = reg_sessions r /\
    (forall k x, reg_windows r' !! k = Some x -> is_Some (reg_windows r !! k)) /\
    (forall k x, reg_resources r' !! k = Some x -> is_Some (reg_resources r !! k) \/ Some id = Some k).
  Proof.
    unfold new_terminal. case_bool_decide as Hw; [|done]. destruct Hw as [wn Hw]. cbn [negb]. reg_cbn. rewrite Hw.
    intros [= <-]. reg_cbn. split; [done|]. split; keys_tac.
  Qed.

Lemma keys_new_agent id p a r' : new_agent_session r id p a = Ok r' ->
    reg_sessions r' = reg_sessions r /\ reg_windows r' = reg_windows r /\
    (forall k x, reg_resources r' !! k = Some x -> is_Some (reg_resources r !! k) \/ Some id = Some k).
  Proof.
    unfold new_agent_session. destruct (reg_resources r !! p) as [dp|]; [|done]. destruct (negb _); [done|].
    intros [= <-]. reg_cbn. split; [done|]. split; [done|]. keys_tac.
  Qed.

Lemma keys_move id to r' : move_terminal r id to = Ok r' ->
    reg_sessions r' = reg_sessions r /\
    (forall k x, reg_windows r' !! k = Some x -> is_Some (reg_windows r !! k)) /\
    (forall k x, reg_resources r' !! k = Some x -> is_Some (reg_resources r !! k)).
  Proof.
    unfold move_terminal. case_bool_decide as Hw; [|done]. destruct Hw as [wn Hw]. cbn [negb].
    destruct (reg_resources r !! id) as [d|] eqn:Hd; [|done]. cbn. destruct (window d) as [src|] eqn:Hs; [|done].
    destruct (inv_located r id d src HI Hd Hs) as (_ & w1 & Hw1 & _).
    case_bool_decide as Hne; [intros [= <-]; by eauto|]. rewrite Hw1. reg_cbn. rewrite Hd. reg_cbn.
    rewrite lookup_insert_ne, Hw by done. intros [= <-]. reg_cbn. split; [done|]. split; keys_tac.
  Qed.
End Keys.

(** A call only adds the key it was given. *)
Lemma run_keys r c :
  Inv r ->
  (forall k x, reg_sessions (run r c) !! k = Some x -> is_Some (reg_sessions r !! k) \/ made_session c = Some k) /\
  (forall k x, reg_windows (run r c) !! k = Some x -> is_Some (reg_windows r !! k) \/ made_window c = Some k) /\
  (forall k x, reg_resources (run r c) !! k = Some x -> is_Some (reg_resources r !! k) \/ made_resource c = Some k).
Proof.
  intros HI. destruct c as [id n now|id s|id w|id p a|id to|id|id|id]; cbn.
  - split; [keys_tac|]. split; eauto.
  - destruct (new_window r id s) as [r'|] eqn:E; cbn; [|by split; [|split]; eauto].
    destruct (keys_new_window r id s r' E) as (? & ? & ->). by split; [|split]; eauto.
  - destruct (new_terminal r id w) as [r'|] eqn:E; cbn; [|by split; [|split]; eauto].
    destruct (keys_new_terminal r id w r' E) as (-> & ? & ?). by split; [|split]; eauto.
  - destruct (new_agent_session r id p a) as [r'|] eqn:E; cbn; [|by split; [|split]; eauto].
    destruct (keys_new_agent r id p a r' E) as (-> & -> & ?). by split; [|split]; eauto.
  - destruct (move_terminal r id to) as [r'|] eqn:E; cbn; [|by split; [|split]; eauto].
    destruct (keys_move r HI id to r' E) as (-> & ? & ?). by split; [|split]; eauto.
  - destruct (remove_resource r id) as [[d r']|] eqn:E; cbn; [|by split; [|split]; eauto].
    destruct (remove_resource_leaves r id d r' HI E) as (_ & -> & Hr & Ew). repeat split; [by eauto| |].
    + intros k x Hx. left. rewrite Ew in Hx. destruct (window d) as [wid|]; [|by eauto].
      destruct (decide (k = wid)) as [->|]; [|rewrite lookup_alter_ne in Hx by done; by eauto].
      rewrite lookup_alter_eq in Hx. destruct (reg_windows r !! wid); [by eauto|done].
    + intros k x [Hx _]%Hr. by eauto.
  - destruct (remove_window r id) as [[w r']|] eqn:E; cbn; [|by split; [|split]; eauto].
    destruct (remove_window_leaves r HI id w r' E) as (_ & -> & Hr & s & Hs & Es). repeat split.
    + intros k x Hx. rewrite Es in Hx. lookup_cases; by eauto.
    + keys_tac.
    + intros k x [Hx _]%Hr. by eauto.
  - destruct (remove_session r id) as [[s r']|] eqn:E; cbn; [|by split; [|split]; eauto].
    destruct (remove_session_leaves r HI id s r' E) as (_ & -> & Hw & Hr). repeat split; [keys_tac| |].
    + intros k x [Hx _]%Hw. by eauto.
    + intros k x [Hx _]%Hr. by eauto.
Qed.

(** Each call keeps the invariant when its key is not in use. *)
Lemma run_inv r c :
  Inv r ->
  (forall k, made_session c = Some k -> reg_sessions r !! k = None) ->
  (forall k, made_window c = Some k -> reg_windows r !! k = None) ->
  (forall k, made_resource c = Some k -> reg_resources r !! k = None) ->
  Inv (run r c).
Proof.
  intros HI Hs Hw Hr. destruct c as [id n now|id s|id w|id p a|id to|id|id|id]; cbn in *.
  - apply inv_new_session; eauto.
  - destruct (new_window r id s) eqn:E; [|done]. by eapply inv_new_window; eauto.
  - destruct (new_terminal r id w) eqn:E; [|done]. by eapply inv_new_terminal; eauto.
  - destruct (new_agent_session r id p a) eqn:E; [|done]. by eapply inv_new_agent_session; eauto.
  - destruct (move_terminal r id to) eqn:E; [|done]. by eapply inv_move_terminal.
  - destruct (remove_resource r id) as [[? ?]|] eqn:E; [|done]. by eapply inv_remove_resource.
  - destruct (remove_window r id) as [[? ?]|] eqn:E; [|done]. by eapply inv_remove_window.
  - destruct (remove_session r id) as [[? ?]|] eqn:E; [|done]. by eapply inv_remove_session.
Qed.

Lemma fresh_made st c :
  Issued st -> fresh st c ->
  (forall k, made_session c = Some k -> reg_sessions (registry st) !! k = None) /\
  (forall k, made_window c = Some k -> reg_windows (registry st) !! k = None) /\
  (forall k, made_resource c = Some k -> reg_resources (registry st) !! k = None).
Proof.
  intros HX Hf. destruct c; cbn in *; (split; [|split]); intros k; try done; intros [= <-]; apply eq_None_not_Some;
    intros [x Hx]; by (apply (issued_sessions st HX) in Hx || apply (issued_windows st HX) in Hx || apply (issued_resources st HX) in Hx).
Qed.

Lemma issue_registry st c : registry (issue st c) = run (registry st) c.
Proof. by destruct c. Qed.

Lemma issued_made st c k :
  (k ∈ sessions_issued (issue st c) <-> k ∈ sessions_issued st \/ made_session c = Some k) /\
  (k ∈ windows_issued (issue st c) <-> k ∈ windows_issued st \/ made_window c = Some k) /\
  (k ∈ resources_issued (issue st c) <-> k ∈ resources_issued st \/ made_resource c = Some k).
Proof. destruct c; cbn; rewrite ?elem_of_union, ?elem_of_singleton; intuition congruence. Qed.

Lemma step_issued st c : Inv (registry st) -> Issued st -> Issued (issue st c).
Proof.
  intros HI [H1 H2 H3]. destruct (run_keys (registry st) c HI) as (Ks & Kw & Kr).
  split; rewrite issue_registry; intros k x Hx; destruct (issued_made st c k) as (Es & Ew & Er).
  - apply Es. destruct (Ks k x Hx) as [[y Hy]|]; [left; by eapply H1|by right].
  - apply Ew. destruct (Kw k x Hx) as [[y Hy]|]; [left; by eapply H2|by right].
  - apply Er. destruct (Kr k x Hx) as [[y Hy]|]; [left; by eapply H3|by right].
Qed.

Lemma steps_inv st st' : steps st st' -> Inv (registry st) -> Issued st -> Inv (registry st') /\ Issued st'.
Proof.
  induction 1 as [|st st' st'' _ IH Hs]; [done|]. intros HI HX. destruct (IH HI HX) as [HI' HX']. clear HI HX IH.
  destruct Hs as [st1 c Hf]. destruct (fresh_made st1 c HX' Hf) as (? & ? & ?). split; [|by apply step_issued].
  rewrite issue_registry. by apply run_inv.
Qed.

Lemma initial_issued : Issued initial.
Proof. split; intros *; cbn; by rewrite lookup_empty. Qed.

Definition reachable (st : State) : Prop := steps initial st.

Lemma reachable_inv st : reachable st -> Inv (registry st) /\ Issued st.
Proof. intros H. apply (steps_inv _ _ H); [apply inv_new|apply initial_issued]. Qed.

(** ** A run to try things on *)

(** Two sessions; the first with two windows, of two Terminals and one, and an agent. *)
Definition demo_calls : list Call :=
  [CNewSession 1 [] 0; CNewWindow 1 1; CNewTerminal 1 1; CNewTerminal 2 1; CNewAgentSession 3 2 (mkAgentFacet [] None None);
   CNewWindow 2 1; CNewTerminal 4 2; CNewSession 2 [] 0; CNewWindow 3 2; CNewTerminal 5 3]%positive.
Definition demo : State := match play initial demo_calls with Some st => st | None => initial end.

Lemma demo_reachable : reachable demo.
Proof. apply (play_steps demo_calls). vm_compute. reflexivity. Qed.

(** ** Properties *)

(** C11: every registry a server can have, whatever calls made it, is well formed: sessions and
    windows name each other, each window's slots, layout tree and focus agree with no slot twice,
    each slot holds a live Terminal that names the window, and every agent session is bound to a
    live Terminal. *)
Theorem registry_invariant st : steps initial st -> Inv (registry st).
Proof. intros H. by apply reachable_inv. Qed.

Lemma registry_invariant_witness : Inv (registry demo) /\ terminal_count (registry demo) = 4%nat.
Proof. split; [apply registry_invariant, demo_reachable|by vm_compute]. Defined.

(** A key that was handed out and is no longer live never becomes live again, in any of the
    three maps: a stale id held by a client cannot come to name another session, window or
    resource. *)
Theorem stale_keys_stay_dead st st' :
  steps initial st -> steps st st' ->
  (forall k, k ∈ sessions_issued st -> reg_sessions (registry st) !! k = None -> reg_sessions (registry st') !! k = None) /\
  (forall k, k ∈ windows_issued st -> reg_windows (registry st) !! k = None -> reg_windows (registry st') !! k = None) /\
  (forall k, k ∈ resources_issued st -> reg_resources (registry st) !! k = None -> reg_resources (registry st') !! k = None).
Proof.
  intros H0 H. induction H as [|st st1 st2 H IH Hs]; [by auto|]. specialize (IH H0). destruct IH as (Is & Iw & Ir).
  destruct (reachable_inv st1 (steps_app _ _ _ H0 H)) as [HI _]. clear H0.
  assert (Hmono : sessions_issued st ⊆ sessions_issued st1 /\ windows_issued st ⊆ windows_issued st1 /\
                  resources_issued st ⊆ resources_issued st1).
  { clear - H. induction H as [|st st1 st2 _ IH Hs]; [done|]. destruct Hs as [st1 c Hf], IH as (I1 & I2 & I3).
    repeat split; intros k Hk; apply issued_made; left; by auto. }
  destruct Hmono as (M1 & M2 & M3). destruct Hs as [st1 c Hf]. rewrite issue_registry.
  destruct (run_keys (registry st1) c HI) as (Ks & Kw & Kr).
  split; [|split]; intros k Hk Hn; apply eq_None_not_Some; intros [x Hx].
  - destruct (Ks k x Hx) as [[y Hy]|E]; [by rewrite (Is k Hk Hn) in Hy|]. destruct c; try done. cbn in *. set_solver.
  - destruct (Kw k x Hx) as [[y Hy]|E]; [by rewrite (Iw k Hk Hn) in Hy|]. destruct c; try done. cbn in *. set_solver.
  - destruct (Kr k x Hx) as [[y Hy]|E]; [by rewrite (Ir k Hk Hn) in Hy|]. destruct c; try done; cbn in *; set_solver.
Qed.

(** In the demo, after Terminal 2 is removed, its agent 3 is dead and stays so. *)
Definition demo_removed : State := issue demo (CRemoveResource 2%positive).

Lemma demo_removed_steps : steps demo demo_removed.
Proof. eapply steps_trans; [constructor|]. by constructor. Qed.

Lemma stale_keys_stay_dead_witness :
  reg_resources (registry (issue demo_removed (CNewTerminal 6 1)%positive)) !! 3%positive = None.
Proof.
  apply (stale_keys_stay_dead demo_removed).
  - eapply steps_app; [apply demo_reachable|apply demo_removed_steps].
  - eapply steps_trans; [constructor|]. constructor. by vm_compute.
  - by vm_compute.
  - by vm_compute.
Defined.

(** removing a session removes it, the windows that name it and the resources that live in
    them, agent sessions with their Terminals, and nothing else changes. *)
Theorem remove_session_cascades st id s r' :
  steps initial st -> remove_session (registry st) id = Some (s, r') ->
  reg_sessions (registry st) !! id = Some s /\ reg_sessions r' = delete id (reg_sessions (registry st)) /\
  (forall k w, reg_windows r' !! k = Some w <-> reg_windows (registry st) !! k = Some w /\ session w <> id) /\
  (forall k d, reg_resources r' !! k = Some d <->
     reg_resources (registry st) !! k = Some d /\ home (registry st) d <> Some id).
Proof. intros H. apply remove_session_leaves. by apply reachable_inv. Qed.

Lemma remove_session_cascades_witness :
  exists s r', remove_session (registry demo) 1%positive = Some (s, r') /\
    ~ (exists d, reg_resources r' !! 3%positive = Some d).
Proof.
  destruct (remove_session (registry demo) 1%positive) as [[s r']|] eqn:E; [|by vm_compute in E].
  exists s, r'. split; [done|]. intros [d Hd].
  destruct (remove_session_cascades demo 1%positive s r' demo_reachable E) as (_ & _ & _ & H).
  apply H in Hd as [Hd Hn]. vm_compute in Hd. injection Hd as <-. apply Hn. by vm_compute.
Defined.

(** Removing a window removes it and the resources that live in it; its session loses it from
    its order and, when it was the focused one, focuses the first window left. *)
Theorem remove_window_cascades st id w r' :
  steps initial st -> remove_window (registry st) id = Some (w, r') ->
  reg_windows (registry st) !! id = Some w /\ reg_windows r' = delete id (reg_windows (registry st)) /\
  (forall k d, reg_resources r' !! k = Some d <->
     reg_resources (registry st) !! k = Some d /\ home_window (registry st) d <> Some id) /\
  exists s, reg_sessions (registry st) !! session w = Some s /\
    let ws := drop_pane id (windows s) in
    reg_sessions r' = <[session w := with_windows s ws
      (if bool_decide (active_window s = Some id) then head ws else active_window s)]> (reg_sessions (registry st)).
Proof. intros H. apply remove_window_leaves. by apply reachable_inv. Qed.

Lemma remove_window_cascades_witness :
  exists w r', remove_window (registry demo) 1%positive = Some (w, r') /\
    reg_resources r' !! 4%positive <> None /\
    exists s, reg_sessions r' !! 1%positive = Some s /\ active_window s = Some 2%positive.
Proof.
  destruct (remove_window (registry demo) 1%positive) as [[w r']|] eqn:E; [|by vm_compute in E].
  exists w, r'. split; [done|].
  destruct (remove_window_cascades demo 1%positive w r' demo_reachable E) as (Hw & _ & Hr & s & Hs & Es). split.
  - intros Hn. destruct (reg_resources (registry demo) !! 4%positive) as [d|] eqn:Hd; [|by vm_compute in Hd].
    assert (H : reg_resources r' !! 4%positive = Some d); [|congruence]. apply Hr. split; [done|].
    vm_compute in Hd. injection Hd as <-. by vm_compute.
  - vm_compute in Hw. injection Hw as <-. rewrite Es. vm_compute in Hs. injection Hs as <-.
    eexists. split; [by apply lookup_insert_eq|]. by vm_compute.
Defined.

(** The panes of a window as its tree shows them, left to right. *)
Definition panes (w : Window) : list ResourceId := match layout w with Some l => leaves l | None => [] end.

Lemma panes_slots w : wf_window w -> panes w ≡ₚ slots w.
Proof. intros [_ H _]. unfold panes, wf_layout in *. destruct (layout w); [done|by rewrite H]. Qed.

Lemma vacate_panes w id : wf_window w -> panes (vacate_slot w id) = drop_pane id (panes w).
Proof.
  intros Hw. unfold vacate_slot. set (w1 := with_slots w _).
  assert (E : panes (kill_pane w1 id).1 = drop_pane id (panes w)).
  { destruct (layout w) as [l|] eqn:El.
    - destruct (wf_leaves w l Hw El) as [Hp Hnl]. pose proof (kill_pane_cases w1 id l El Hnl) as Hk.
      unfold panes at 2. rewrite El. case_bool_decide as Hin; [case_bool_decide as Hone|].
      + rewrite Hk, Hone. cbn. by rewrite bool_decide_true by done.
      + destruct Hk as (l' & -> & E). exact E.
      + rewrite Hk. cbn. unfold panes. cbn. by rewrite El, drop_pane_id.
    - unfold kill_pane, panes. cbn. rewrite El. cbn. by rewrite El. }
  destruct (kill_pane w1 id) as [w2 res]. cbn in E. by case_bool_decide.
Qed.

Lemma vacate_active w id :
  active (vacate_slot w id) =
    if bool_decide (active w = Some id) then head (drop_pane id (slots w)) else active w.
Proof.
  unfold vacate_slot. set (w1 := with_slots w _). destruct (kill_pane_frame w1 id) as (_ & _ & H3 & H4).
  destruct (kill_pane w1 id) as [w2 res]. cbn in H3, H4. rewrite H4. case_bool_decide; [cbn; by rewrite H3|done].
Qed.

Lemma place_panes w id :
  wf_window w ->
  panes (place_in_window w id) = match active w with Some t => insert_after t id (panes w) | None => [id] end /\
  active (place_in_window w id) = match active w with Some t => Some t | None => Some id end.
Proof.
  intros Hw. pose proof (wf_lay w Hw) as Hl. pose proof (wf_act w Hw) as Ha. unfold wf_active in Ha.
  unfold place_in_window. destruct (active w) as [t|] eqn:Et.
  - unfold split. change (validate_ratio half) with (Ok (E := LayoutError) tt). rewrite bind_ok.
    cbn [layout with_slots]. unfold panes. destruct (layout w) as [l|] eqn:El.
    + destruct (wf_leaves w l Hw El) as [Hp _].
      destruct (split_at_leaves l t id SplitDir_Horizontal half) as (l' & -> & E); [by rewrite Hp|]. by rewrite bind_ok.
    + exfalso. unfold wf_layout in Hl. rewrite El in Hl. rewrite Hl in Ha. by apply not_elem_of_nil in Ha.
  - unfold seed_layout. cbn [layout with_slots]. destruct (layout w) as [l|] eqn:El.
    + exfalso. destruct (wf_leaves w l Hw El) as [Hp _]. rewrite Ha in Hp. apply Permutation_nil_r in Hp.
      by apply leaves_nonempty in Hp.
    + split; [|done]. unfold panes. cbn. by autorewrite with leaves.
Qed.

(** The window after a Terminal came ([join]) or went ([leave]): order, focus and slots. *)
Definition join (id : ResourceId) (w w' : Window) : Prop :=
  slots w' = slots w ++ [id] /\
  panes w' = match active w with Some t => insert_after t id (panes w) | None => [id] end /\
  active w' = match active w with Some t => Some t | None => Some id end.
Definition leave (id : ResourceId) (w w' : Window) : Prop :=
  slots w' = drop_pane id (slots w) /\ panes w' = drop_pane id (panes w) /\
  active w' = if bool_decide (active w = Some id) then head (drop_pane id (slots w)) else active w.

Lemma place_join w id : wf_window w -> id ∉ slots w -> join id w (place_in_window w id).
Proof. intros Hw Hid. destruct (place_wf w id Hw Hid), (place_panes w id Hw). done. Qed.
Lemma vacate_leave w id : wf_window w -> leave id w (vacate_slot w id).
Proof. intros Hw. split; [apply vacate_slots|]. split; [by apply vacate_panes|apply vacate_active]. Qed.

(** removing a resource removes it and the resources bound to it; a Terminal leaves the one
    window that shows it, whose focus goes to the first slot left when it had it; every other
    session, window and resource is as it was. *)
Theorem remove_resource_cascades st id d r' :
  steps initial st -> remove_resource (registry st) id = Some (d, r') ->
  reg_resources (registry st) !! id = Some d /\ reg_sessions r' = reg_sessions (registry st) /\
  (forall k dk, reg_resources r' !! k = Some dk <->
     reg_resources (registry st) !! k = Some dk /\ k <> id /\ parent dk <> Some id) /\
  forall k w, reg_windows (registry st) !! k = Some w ->
    exists w', reg_windows r' !! k = Some w' /\ if bool_decide (window d = Some k) then leave id w w' else w' = w.
Proof.
  intros H E. destruct (reachable_inv st H) as [HI _].
  destruct (remove_resource_leaves _ id d r' HI E) as (Hd & Hs & Hr & Hw). do 3 (split; [done|]).
  intros k w Hk. rewrite Hw. destruct (window d) as [wid|]; [|exists w; by rewrite bool_decide_false].
  destruct (decide (wid = k)) as [->|Hne].
  - eexists. rewrite lookup_alter_eq, Hk. split; [done|]. rewrite bool_decide_true by done.
    apply vacate_leave. by apply (inv_window _ HI k).
  - exists w. by rewrite lookup_alter_ne, bool_decide_false by congruence.
Qed.

Lemma remove_resource_cascades_witness :
  exists d r', remove_resource (registry demo) 2%positive = Some (d, r') /\
    reg_resources r' !! 3%positive = None /\
    exists w, reg_windows r' !! 1%positive = Some w /\ slots w = [1%positive].
Proof.
  destruct (remove_resource (registry demo) 2%positive) as [[d r']|] eqn:E; [|by vm_compute in E].
  exists d, r'. split; [done|].
  destruct (remove_resource_cascades demo 2%positive d r' demo_reachable E) as (Hd & _ & Hr & Hw). split.
  - apply eq_None_not_Some. intros [dk Hk]. apply Hr in Hk as (Hk & _ & Hp). vm_compute in Hk. injection Hk as <-. by apply Hp.
  - destruct (reg_windows (registry demo) !! 1%positive) as [w|] eqn:Ew; [|by vm_compute in Ew].
    destruct (Hw 1%positive w Ew) as (w' & Hw' & Hl). exists w'. split; [done|].
    vm_compute in Hd. injection Hd as <-. vm_compute in Ew. injection Ew as <-. destruct Hl as (-> & _). by vm_compute.
Defined.

(** [move_terminal] refuses an unknown window, then a resource that is unknown or in no window,
    and does nothing when the Terminal is already there; otherwise the Terminal leaves its window
    and joins the target, keeping its id, its facet and the agent sessions bound to it, and no
    other window, session or resource changes. *)
Theorem move_terminal_moves st id to :
  steps initial st ->
  let r := registry st in
  match move_terminal r id to with
  | Err e =>
      e = UnknownWindow to /\ reg_windows r !! to = None \/
      e = UnknownResource id /\ is_Some (reg_windows r !! to) /\ reg_resources r !! id ≫= window = None
  | Ok r' =>
      exists d src, reg_resources r !! id = Some d /\ window d = Some src /\ is_Some (reg_windows r !! to) /\
      if bool_decide (src = to) then r' = r
      else reg_sessions r' = reg_sessions r /\ reg_resources r' = <[id := with_window d (Some to)]> (reg_resources r) /\
        forall k w, reg_windows r !! k = Some w -> exists w', reg_windows r' !! k = Some w' /\
          if bool_decide (k = to) then join id w w' else if bool_decide (k = src) then leave id w w' else w' = w
  end.
Proof.
  intros H r. destruct (reachable_inv st H) as [HI _]. fold r in HI. unfold move_terminal.
  case_bool_decide as Hto; cbn [negb]; [|left; split; [done|]; by apply eq_None_not_Some].
  destruct (reg_resources r !! id) as [d|] eqn:Hd; cbn; [|by right].
  destruct (window d) as [src|] eqn:Hsrc; [|right; split; [done|]; by split].
  destruct (inv_located r id d src HI Hd Hsrc) as (_ & w1 & Hw1 & Hin).
  case_bool_decide as Hne; [exists d, src; rewrite bool_decide_true by done; done|].
  destruct Hto as [w2 Hw2]. rewrite Hw1. reg_cbn. rewrite Hd. reg_cbn. rewrite lookup_insert_ne, Hw2 by done. reg_cbn.
  exists d, src. rewrite bool_decide_false by done. do 3 (split; [done|]). do 2 (split; [done|]).
  assert (Hni : id ∉ slots w2) by (intros Hin2; by apply Hne, (slot_unique r id src w1 to w2)).
  intros k w Hk. case_bool_decide as E1; [subst k|case_bool_decide as E2; [subst k|]].
  - eexists. rewrite lookup_insert_eq. split; [done|]. rewrite Hk in Hw2. injection Hw2 as ->.
    apply place_join; [by apply (inv_window _ HI to)|done].
  - eexists. rewrite lookup_insert_ne, lookup_insert_eq by done. split; [done|]. rewrite Hk in Hw1. injection Hw1 as ->.
    apply vacate_leave. by apply (inv_window _ HI src).
  - exists w. by rewrite !lookup_insert_ne by done.
Qed.

Lemma move_terminal_moves_witness :
  exists r', move_terminal (registry demo) 2%positive 3%positive = Ok r' /\
    exists w, reg_windows r' !! 3%positive = Some w /\ panes w = [5; 2]%positive.
Proof.
  pose proof (move_terminal_moves demo 2%positive 3%positive demo_reachable) as H. cbv zeta in H.
  destruct (move_terminal (registry demo) 2%positive 3%positive) as [r'|e] eqn:E; [|by vm_compute in E].
  exists r'. split; [done|]. destruct H as (d & src & Hd & Hsrc & _ & H).
  vm_compute in Hd. injection Hd as <-. injection Hsrc as <-. rewrite bool_decide_false in H by done.
  destruct H as (_ & _ & H). destruct (reg_windows (registry demo) !! 3%positive) as [w|] eqn:Ew; [|by vm_compute in Ew].
  destruct (H 3%positive w Ew) as (w' & Hw' & Hj). exists w'. split; [done|]. rewrite bool_decide_true in Hj by done.
  destruct Hj as (_ & -> & _). vm_compute in Ew. injection Ew as <-. by vm_compute.
Defined.

(** When the creating operations refuse, and what a success makes: [new_window] wants a live
    session and takes the focus only of a session without one; [new_terminal] wants a live window
    and splits its focused pane with an 80 by 24 grid; [new_agent_session] wants a parent that is
    live and a Terminal, and has no window. A refusal returns no registry, so nothing changed. *)
Theorem creation_functional st sid wid rid s w p a :
  steps initial st ->
  let r := registry st in
  match new_window r wid s with
  | Err e => e = UnknownSession s /\ reg_sessions r !! s = None
  | Ok r' => reg_windows r' !! wid = Some (mkWindow wid s [] None None) /\ exists sn, reg_sessions r !! s = Some sn /\
      reg_sessions r' !! s = Some (with_windows sn (windows sn ++ [wid]) (Some (default wid (active_window sn))))
  end /\
  (reg_resources r !! rid = None ->
   match new_terminal r rid w with
   | Err e => e = UnknownWindow w /\ reg_windows r !! w = None
   | Ok r' => reg_resources r' !! rid = Some (mkResource rid Kind_Terminal None (Some w) (Some (mkTerminalFacet (80, 24) [] None)) None)
       /\ exists wn wn', reg_windows r !! w = Some wn /\ reg_windows r' !! w = Some wn' /\ join rid wn wn'
   end) /\
  match new_agent_session r rid p a with
  | Err e => e = UnknownResource p /\ reg_resources r !! p = None \/
      exists dp, reg_resources r !! p = Some dp /\ kind dp <> Kind_Terminal /\ e = ParentKindMismatch p (kind dp) Kind_Terminal
  | Ok r' => reg_resources r' = <[rid := mkResource rid Kind_AgentSession (Some p) None None (Some a)]> (reg_resources r)
      /\ exists dp, reg_resources r !! p = Some dp /\ kind dp = Kind_Terminal
  end /\
  reg_sessions (new_session r sid [] 0) !! sid = Some (mkSession sid [] [] None 0 false).
Proof.
  intros H r. destruct (reachable_inv st H) as [HI _]. fold r in HI. split; [|split; [|split]].
  - unfold new_window. case_bool_decide as Hs; cbn [negb]; [|split; [done|]; by apply eq_None_not_Some].
    destruct Hs as [sn Hs]. reg_cbn. rewrite Hs. reg_cbn. split; [apply lookup_insert_eq|]. exists sn. split; [done|].
    rewrite lookup_insert_eq. by destruct (active_window sn).
  - intros Hf. unfold new_terminal. case_bool_decide as Hw; cbn [negb]; [|split; [done|]; by apply eq_None_not_Some].
    destruct Hw as [wn Hw]. reg_cbn. rewrite Hw. reg_cbn. split; [apply lookup_insert_eq|]. exists wn. eexists.
    split; [done|]. split; [apply lookup_insert_eq|]. apply place_join; [by apply (inv_window _ HI w)|].
    intros Hin. destruct (inv_window_slots _ HI w wn rid Hw Hin) as (? & ? & _). congruence.
  - unfold new_agent_session. destruct (reg_resources r !! p) as [dp|] eqn:Hp; [|by left].
    case_bool_decide as Hk; cbn [negb]; [split; [done|by exists dp]|]. right. by exists dp.
  - apply lookup_insert_eq.
Qed.

Lemma creation_functional_witness :
  exists r', new_terminal (registry demo) 6%positive 1%positive = Ok r' /\
    exists w, reg_windows r' !! 1%positive = Some w /\ slots w = [1; 2; 6]%positive.
Proof.
  destruct (creation_functional demo 1 1 6 1 1 1 (mkAgentFacet [] None None) demo_reachable)%positive as (_ & H & _).
  specialize (H ltac:(by vm_compute)).
  destruct (new_terminal (registry demo) 6%positive 1%positive) as [r'|e] eqn:E; [|by vm_compute in E].
  exists r'. split; [done|]. destruct H as (_ & wn & wn' & Hw & Hw' & Hj & _). exists wn'. split; [done|].
  rewrite Hj. vm_compute in Hw. by injection Hw as <-.
Defined.
