(* ===== verification/IdBridge.v ===== *)
(** * Core keys and wire ids ([phux-server/src/id_bridge.rs], [state/id_space.rs])

    The bridge is generic over the core key and the wire id; what it needs of a wire id is the
    class [WireId], and the three spaces of the server are instances. A [HashMap] is a [gmap];
    a panic is [None]. *)

From stdpp Require Import gmap.
From S2P Require Import Prelude Ids.

(** [from_raw] mints distinct ids for distinct numbers: every instance is a tagging of its number. *)
(* phux-server/src/id_bridge.rs WireId *)
Class WireId (W : Type) := {
  wire_eq_dec :: EqDecision W;
  wire_countable :: Countable W;
  from_raw : Z -> W;
  from_raw_inj :: Inj (=) (=) from_raw
}.


Section Bridge.
  Context {C W : Type} `{EqDecision C, Countable C} `{WireId W}.

(* phux-server/src/id_bridge.rs IdBridge *)
Record IdBridge : Type := mkBridge { forward : gmap C W; reverse : gmap W C; next : Z }.

(* phux-server/src/id_bridge.rs IdBridge::new *)
Definition new : IdBridge := mkBridge ∅ ∅ 1.

(* phux-server/src/id_bridge.rs IdBridge::intern *)
Definition intern (b : IdBridge) (core : C) : option (W * IdBridge) :=
  match forward b !! core with
  | Some wire => Some (wire, b)
  | None =>
      let raw := next b in
      if raw =? u32_max then None
      else
        let wire := from_raw raw in
        Some (wire, mkBridge (<[core := wire]> (forward b)) (<[wire := core]> (reverse b)) (raw + 1))
  end.

(* phux-server/src/id_bridge.rs IdBridge::wire *)
Definition wire (b : IdBridge) (core : C) : option W := forward b !! core.

(* phux-server/src/id_bridge.rs IdBridge::bind *)
Definition bind (b : IdBridge) (core : C) (wire : W) : IdBridge :=
  mkBridge (<[core := wire]> (forward b)) (<[wire := core]> (reverse b)) (next b).

(* phux-server/src/id_bridge.rs IdBridge::set_next *)
Definition set_next (b : IdBridge) (n : Z) : IdBridge := mkBridge (forward b) (reverse b) n.

(* phux-server/src/id_bridge.rs IdBridge::resolve *)
Definition resolve (b : IdBridge) (wire : W) : option C := reverse b !! wire.

(* phux-server/src/id_bridge.rs IdBridge::forget *)
Definition forget (b : IdBridge) (core : C) : option W * IdBridge :=
  match forward b !! core with
  | None => (None, b)
  | Some wire => (Some wire, mkBridge (delete core (forward b)) (delete wire (reverse b)) (next b))
  end.

(* phux-server/src/id_bridge.rs IdBridge::len *)
Definition bridge_len (b : IdBridge) : nat := size (forward b).
(* phux-server/src/id_bridge.rs IdBridge::is_empty *)
Definition bridge_is_empty (b : IdBridge) : bool := bool_decide (forward b = ∅).
(* phux-server/src/id_bridge.rs IdBridge::next_wire *)
Definition next_wire (b : IdBridge) : Z := next b.

(** ** The invariant *)

(** The two maps are inverse to each other. *)
Definition inverse (b : IdBridge) : Prop := forall c w, forward b !! c = Some w <-> reverse b !! w = Some c.

(** The two maps are inverse, every live id was minted, and the allocator is above all of them. *)
Record BridgeOk (b : IdBridge) : Prop := {
  ok_inverse : inverse b;
  ok_minted c w : forward b !! c = Some w -> exists raw, w = from_raw raw /\ 1 <= raw < next b;
  ok_next : 1 <= next b <= u32_max
}.

Lemma new_ok : BridgeOk new.
Proof. split; [by intros c w; cbn; rewrite !lookup_empty|intros c w; cbn; by rewrite lookup_empty|cbn; unfold u32_max; lia]. Qed.

Lemma unminted b raw : BridgeOk b -> next b <= raw -> reverse b !! (from_raw raw) = None.
Proof.
  intros Hb Hr. apply eq_None_not_Some. intros [c Hc]. apply (ok_inverse b Hb) in Hc.
  destruct (ok_minted b Hb c _ Hc) as (raw' & E%from_raw_inj & ?). lia.
Qed.

(** Binding a key and an id that are both free keeps the maps inverse. *)
Lemma bind_inverse b c w : inverse b -> forward b !! c = None -> reverse b !! w = None -> inverse (bind b c w).
Proof.
  intros Hb Hc Hw c' w'. cbn. rewrite !lookup_insert_Some. pose proof (Hb c' w') as Hbb. split.
  - intros [[<- <-]|[Hne Hf]]; [by left|]. right. apply Hbb in Hf. split; [congruence|done].
  - intros [[<- <-]|[Hne Hf]]; [by left|]. right. apply Hbb in Hf. split; [congruence|done].
Qed.

Lemma intern_ok b c w b' : BridgeOk b -> intern b c = Some (w, b') -> BridgeOk b'.
Proof.
  intros Hb. unfold intern. destruct (forward b !! c) as [w0|] eqn:Hc; [by intros [= <- <-]|]. cbv zeta.
  destruct (Z.eqb_spec (next b) u32_max) as [|Hn]; [done|]. intros [= <- <-].
  pose proof (ok_next b Hb). split.
  - apply (bind_inverse b c (from_raw (next b))); [apply Hb|done|by apply unminted; [|lia]].
  - intros c' w'. cbn. rewrite lookup_insert_Some. intros [[<- <-]|[_ Hw]]; [exists (next b); split; [done|lia]|].
    destruct (ok_minted b Hb c' w' Hw) as (raw & -> & ?). exists raw. split; [done|lia].
  - cbn. lia.
Qed.

Lemma forget_inverse b c : inverse b -> inverse (forget b c).2.
Proof.
  intros Hb c' w'. unfold forget. destruct (forward b !! c) as [w|] eqn:Hc; cbn; [|apply Hb].
  pose proof (Hb c' w') as Hbb. pose proof (proj1 (Hb c w) Hc) as Hw. rewrite !lookup_delete_Some. split.
  - intros [Hne Hf]. apply Hbb in Hf. split; [congruence|done].
  - intros [Hne Hf]. apply Hbb in Hf. split; [congruence|done].
Qed.

Lemma forget_ok b c : BridgeOk b -> BridgeOk (forget b c).2.
Proof.
  intros Hb. split; [apply forget_inverse, Hb| |].
  - intros c' w'. unfold forget. destruct (forward b !! c) as [w|] eqn:Hc; cbn; [|apply (ok_minted b Hb)].
    rewrite lookup_delete_Some. intros [_ Hf]. by apply (ok_minted b Hb c').
  - unfold forget. destruct (forward b !! c); cbn; apply Hb.
Qed.

(** ** Runs *)

Inductive bridge_step : IdBridge -> IdBridge -> Prop :=
| step_intern b c w b' : intern b c = Some (w, b') -> bridge_step b b'
| step_forget b c : bridge_step b (forget b c).2.

Inductive bridge_steps : IdBridge -> IdBridge -> Prop :=
| bridge_refl b : bridge_steps b b
| bridge_trans b b' b'' : bridge_steps b b' -> bridge_step b' b'' -> bridge_steps b b''.

Lemma bridge_steps_ok b b' : bridge_steps b b' -> BridgeOk b -> BridgeOk b'.
Proof.
  induction 1 as [|b b' b'' _ IH Hs]; [done|]. intros Hb. specialize (IH Hb).
  destruct Hs; [by eapply (intern_ok _ _ _ _ IH)|by apply forget_ok].
Qed.

(** One step neither lowers the allocator nor gives an id minted before it a new meaning. *)
Lemma bridge_step_resolve b b' raw :
  BridgeOk b -> bridge_step b b' -> raw < next b ->
  next b <= next b' /\ (resolve b' (from_raw raw) = resolve b (from_raw raw) \/ resolve b' (from_raw raw) = None).
Proof.
  intros Hb Hs Hr. destruct Hs as [b c w b' E|b c]; unfold resolve in *.
  - unfold intern in E. destruct (forward b !! c); [by injection E as <- <-; split; [lia|left]|].
    cbv zeta in E. destruct (next b =? u32_max); [done|]. injection E as <- <-. cbn. split; [lia|].
    left. rewrite lookup_insert_ne; [done|]. intros E%from_raw_inj. lia.
  - unfold forget. destruct (forward b !! c) as [w|]; cbn; [|by split; [lia|left]]. split; [lia|].
    destruct (decide (w = from_raw raw)) as [->|Hne]; [right; apply lookup_delete_eq|left; by apply lookup_delete_ne].
Qed.

Lemma bridge_steps_resolve b b' raw :
  BridgeOk b -> bridge_steps b b' -> raw < next b ->
  next b <= next b' /\ (resolve b' (from_raw raw) = resolve b (from_raw raw) \/ resolve b' (from_raw raw) = None).
Proof.
  intros Hb Hs Hr. induction Hs as [b|b b1 b2 Hs IH Hst]; [by split; [lia|left]|].
  destruct (IH Hb Hr) as [Hn Hres]. destruct (bridge_step_resolve b1 b2 raw) as [Hn' Hres'].
  - by apply (bridge_steps_ok b).
  - done.
  - lia.
  - split; [lia|]. destruct Hres' as [->|?]; [done|by right].
Qed.

End Bridge.

#[global] Arguments IdBridge C W {_ _ _}.
#[global] Arguments new {C W _ _ _}.

(** ** The three spaces *)

(** A wire session or window id is its number. *)
(* phux-server/src/id_bridge.rs WireId *)
#[export] Instance number_wire_id : WireId Z := {| from_raw raw := raw; from_raw_inj x y E := E |}.

(** [ResourceId]s as keys of a map. *)
#[export] Instance ResourceId_countable : Countable ResourceId.
Proof.
  refine (inj_countable' (fun r => match r with ResourceId_Local id => inl id | ResourceId_Satellite h id => inr (h, id) end)
    (fun x => match x with inl id => ResourceId_Local id | inr (h, id) => ResourceId_Satellite h id end) _).
  by intros [].
Defined.

(* phux-server/src/id_bridge.rs WireResourceId *)
#[export] Instance resource_wire_id : WireId ResourceId :=
  {| from_raw := ResourceId_Local; from_raw_inj x y E := f_equal (default x ∘ local_id) E |}.

(** A slotmap key. *)
Abbreviation key := positive.

(* phux-server/src/state/id_space.rs IdSpace *)
Record IdSpace : Type := mkIdSpace {
  sessions : IdBridge key Z;
  terminals : IdBridge key ResourceId;
  windows : IdBridge key Z;
  instance : bytes
}.

(** [fresh_instance] is the operating system's random source. *)
(* phux-server/src/state/id_space.rs IdSpace::new *)
Definition id_space_new (fresh_instance : bytes) : IdSpace := mkIdSpace new new new fresh_instance.

Definition with_sessions (s : IdSpace) b := mkIdSpace b (terminals s) (windows s) (instance s).
Definition with_terminals (s : IdSpace) b := mkIdSpace (sessions s) b (windows s) (instance s).
Definition with_windows (s : IdSpace) b := mkIdSpace (sessions s) (terminals s) b (instance s).

(* phux-server/src/state/id_space.rs IdSpace::set_instance *)
Definition set_instance (s : IdSpace) i : IdSpace := mkIdSpace (sessions s) (terminals s) (windows s) i.

(* phux-server/src/state/id_space.rs IdSpace::intern_session *)
Definition intern_session (s : IdSpace) (core : key) : option (Z * IdSpace) :=
  match intern (sessions s) core with Some (w, b) => Some (w, with_sessions s b) | None => None end.
(* phux-server/src/state/id_space.rs IdSpace::session_wire *)
Definition session_wire (s : IdSpace) (core : key) : option Z := wire (sessions s) core.
(* phux-server/src/state/id_space.rs IdSpace::resolve_session *)
Definition resolve_session (s : IdSpace) (w : Z) : option key := resolve (sessions s) w.
(* phux-server/src/state/id_space.rs IdSpace::bind_session *)
Definition bind_session (s : IdSpace) (core : key) (w : Z) : IdSpace := with_sessions s (bind (sessions s) core w).
(* phux-server/src/state/id_space.rs IdSpace::forget_session *)
Definition forget_session (s : IdSpace) (core : key) : IdSpace := with_sessions s (forget (sessions s) core).2.
(* phux-server/src/state/id_space.rs IdSpace::next_session_wire *)
Definition next_session_wire (s : IdSpace) : Z := next_wire (sessions s).
(* phux-server/src/state/id_space.rs IdSpace::set_next_session_wire *)
Definition set_next_session_wire (s : IdSpace) n : IdSpace := with_sessions s (set_next (sessions s) n).

(* phux-server/src/state/id_space.rs IdSpace::intern_terminal *)
Definition intern_terminal (s : IdSpace) (core : key) : option (ResourceId * IdSpace) :=
  match intern (terminals s) core with Some (w, b) => Some (w, with_terminals s b) | None => None end.
(* phux-server/src/state/id_space.rs IdSpace::terminal_from_wire *)
Definition terminal_from_wire (s : IdSpace) (w : ResourceId) : option key := resolve (terminals s) w.
(* phux-server/src/state/id_space.rs IdSpace::terminal_wire *)
Definition terminal_wire (s : IdSpace) (core : key) : option ResourceId := wire (terminals s) core.
(* phux-server/src/state/id_space.rs IdSpace::bind_terminal *)
Definition bind_terminal (s : IdSpace) (core : key) (w : ResourceId) : IdSpace := with_terminals s (bind (terminals s) core w).
(* phux-server/src/state/id_space.rs IdSpace::retire_terminal *)
Definition retire_terminal (s : IdSpace) (core : key) : option ResourceId * IdSpace :=
  let '(w, b) := forget (terminals s) core in (w, with_terminals s b).
(* phux-server/src/state/id_space.rs IdSpace::next_terminal_wire *)
Definition next_terminal_wire (s : IdSpace) : Z := next_wire (terminals s).
(* phux-server/src/state/id_space.rs IdSpace::set_next_terminal_wire *)
Definition set_next_terminal_wire (s : IdSpace) n : IdSpace := with_terminals s (set_next (terminals s) n).

(* phux-server/src/state/id_space.rs IdSpace::intern_window *)
Definition intern_window (s : IdSpace) (core : key) : option (Z * IdSpace) :=
  match intern (windows s) core with Some (w, b) => Some (w, with_windows s b) | None => None end.
(* phux-server/src/state/id_space.rs IdSpace::window_wire *)
Definition window_wire (s : IdSpace) (core : key) : option Z := wire (windows s) core.
(* phux-server/src/state/id_space.rs IdSpace::bind_window *)
Definition bind_window (s : IdSpace) (core : key) (w : Z) : IdSpace := with_windows s (bind (windows s) core w).
(* phux-server/src/state/id_space.rs IdSpace::retire_window *)
Definition retire_window (s : IdSpace) (core : key) : IdSpace := with_windows s (forget (windows s) core).2.
(* phux-server/src/state/id_space.rs IdSpace::next_window_wire *)
Definition next_window_wire (s : IdSpace) : Z := next_wire (windows s).
(* phux-server/src/state/id_space.rs IdSpace::set_next_window_wire *)
Definition set_next_window_wire (s : IdSpace) n : IdSpace := with_windows s (set_next (windows s) n).

(** ** Properties *)

(** a wire id means one thing for the life of the server: once minted, every later state
    resolves it to the key it was minted for or to nothing, and once it resolves to nothing it
    does so for ever; an id the space did not mint, a satellite's in particular, never resolves. *)
Theorem wire_id_names_one_key b b' raw (w : ResourceId) c :
  bridge_steps (C := key) new b -> bridge_steps b b' ->
  (resolve b (from_raw raw) = Some c ->
     resolve b' (from_raw raw) = Some c \/ resolve b' (from_raw raw) = None) /\
  (raw < next b -> resolve b (from_raw raw) = None -> resolve b' (from_raw raw) = None) /\
  (resolve b w <> None -> exists id, w = ResourceId_Local id /\ 1 <= id < u32_max).
Proof.
  intros H0 H. pose proof (bridge_steps_ok _ _ H0 new_ok) as Hb. split; [|split].
  - intros Hr. assert (Hlt : raw < next b).
    { destruct (Z.lt_ge_cases raw (next b)) as [|Hge]; [done|].
      unfold resolve in Hr. by rewrite (unminted b raw Hb Hge) in Hr. }
    rewrite <- Hr. by apply bridge_steps_resolve.
  - intros Hlt Hn. destruct (bridge_steps_resolve b b' raw Hb H Hlt) as [_ [->|?]]; done.
  - destruct (resolve b w) as [k|] eqn:E; [|done]. intros _. apply (ok_inverse b Hb) in E.
    destruct (ok_minted b Hb k w E) as (id & -> & ?). exists id. split; [done|]. pose proof (ok_next b Hb). lia.
Qed.

(** Two Terminals interned, the first one retired, a third interned. *)
Definition demo_bridge : IdBridge key ResourceId :=
  match intern new 1%positive with
  | Some (_, b) => match intern b 2%positive with Some (_, b) => b | None => b end
  | None => new
  end.

Lemma wire_id_names_one_key_witness :
  resolve (forget demo_bridge 1%positive).2 (ResourceId_Local 2) = Some 2%positive.
Proof.
  assert (H0 : bridge_steps (C := key) (W := ResourceId) new demo_bridge).
  { apply (bridge_trans _ (match intern new 1%positive with Some (_, b) => b | None => new end));
      [apply (bridge_trans _ new); [constructor|]|].
    - apply (step_intern _ 1%positive (ResourceId_Local 1)). vm_compute. reflexivity.
    - apply (step_intern _ 2%positive (ResourceId_Local 2)). vm_compute. reflexivity. }
  destruct (wire_id_names_one_key demo_bridge (forget demo_bridge 1%positive).2 2 (ResourceId_Local 2) 2%positive H0)
    as [H _].
  - eapply bridge_trans; [constructor|constructor].
  - destruct H as [H|H]; [by vm_compute|exact H|by vm_compute in H].
Defined.

(** [intern] answers the id a key has, or mints the next one for it, which from then on
    resolves back to the key; it gives up exactly when a new id would be [u32::MAX], so ids are
    [1] to [u32::MAX - 1]. [forget] drops both directions and answers the id, and interning the
    key again mints a new one. *)
Theorem intern_functional b (c : key) :
  bridge_steps (C := key) (W := ResourceId) new b ->
  match intern b c with
  | None => forward b !! c = None /\ next b = u32_max
  | Some (w, b') =>
      wire b' c = Some w /\ resolve b' w = Some c /\ intern b' c = Some (w, b') /\
      (forward b !! c = Some w /\ b' = b \/
       forward b !! c = None /\ w = ResourceId_Local (next b) /\ resolve b w = None /\ next b' = next b + 1) /\
      (forall c', c' <> c -> wire b' c' = wire b c') /\
      let '(w', b'') := forget b' c in
      w' = Some w /\ wire b'' c = None /\ resolve b'' w = None /\
      (next b'' < u32_max -> exists b3, intern b'' c = Some (ResourceId_Local (next b'), b3))
  end.
Proof.
  intros H0. pose proof (bridge_steps_ok _ _ H0 new_ok) as Hb.
  assert (Hforget : forall b (w : ResourceId), forward b !! c = Some w ->
    let '(w', b'') := forget b c in
    w' = Some w /\ wire b'' c = None /\ resolve b'' w = None /\
    (next b'' < u32_max -> exists b3, intern b'' c = Some (ResourceId_Local (next b), b3))).
  { clear. intros b w E. unfold forget. rewrite E. unfold wire, resolve, intern. cbn. rewrite !lookup_delete_eq.
    split; [done|]. split; [done|]. split; [done|]. intros Hlt. cbv zeta.
    rewrite (proj2 (Z.eqb_neq _ _)) by lia. eexists. reflexivity. }
  destruct (intern b c) as [[w b']|] eqn:E; unfold intern in E.
  - destruct (forward b !! c) as [w0|] eqn:Hc.
    + injection E as <- <-. split; [done|]. split; [by apply (ok_inverse b Hb)|].
      split; [unfold intern; by rewrite Hc|]. split; [by left|]. split; [done|by apply Hforget].
    + cbv zeta in E. destruct (Z.eqb_spec (next b) u32_max) as [|Hn]; [done|]. injection E as <- <-.
      split; [apply lookup_insert_eq|]. split; [apply lookup_insert_eq|].
      split; [unfold intern; cbn; by rewrite lookup_insert_eq|].
      split; [right; repeat split; apply (unminted b (next b) Hb); lia|].
      split; [intros c' Hne; unfold wire; cbn; by rewrite lookup_insert_ne|].
      apply Hforget. cbn. apply lookup_insert_eq.
  - destruct (forward b !! c) eqn:Hc; [done|]. cbv zeta in E.
    destruct (Z.eqb_spec (next b) u32_max) as [|]; done.
Qed.

Lemma intern_functional_witness :
  match intern (W := ResourceId) new 5%positive with
  | Some (w, b) => resolve b w = Some 5%positive
  | None => False
  end.
Proof.
  pose proof (intern_functional new 5%positive (bridge_refl _)) as H.
  destruct (intern new 5%positive) as [[w b]|]; [apply H|by destruct H].
Defined.
