(* ===== verification/Leases.v ===== *)
(** * The input leases ([phux-server/src/state/lease_table.rs])

    Who may type into a local pane, which hub consumer may type into a satellite's, and which
    consumer proxies which satellite terminal. A [HashMap] or [BTreeMap] is a [gmap], a
    [HashSet] a [gset]; a list collected from a map is in the map's order, which no caller
    relies on. *)

From stdpp Require Import gmap.
From S2P Require Import Prelude.

(** A client id is its number; an outbound mailbox is the channel it sends to, by number. *)
Abbreviation ClientId := Z.
Abbreviation Sender := Z.
Abbreviation SatelliteHost := (list Z).

(* phux-server/src/state/lease_table.rs SatelliteLease *)
Record SatelliteLease : Type := mkSatelliteLease { lease_holder : ClientId; lease_out_tx : Sender }.

(* phux-server/src/state/lease_table.rs LeaseTable *)
Record LeaseTable : Type := mkLeases {
  input : gmap positive ClientId;
  satellite : gmap (SatelliteHost * Z) SatelliteLease;
  satellite_proxy_attaches : gset (ClientId * SatelliteHost * Z)
}.

(* phux-server/src/state/lease_table.rs LeaseTable::new *)
Definition leases_new : LeaseTable := mkLeases ∅ ∅ ∅.

Definition with_input (t : LeaseTable) m := mkLeases m (satellite t) (satellite_proxy_attaches t).
Definition with_satellite (t : LeaseTable) m := mkLeases (input t) m (satellite_proxy_attaches t).
Definition with_attaches (t : LeaseTable) m := mkLeases (input t) (satellite t) m.

(** ** Proxy registrations *)

(* phux-server/src/state/lease_table.rs LeaseTable::has_satellite_proxy_attach *)
Definition has_satellite_proxy_attach (t : LeaseTable) (client : ClientId) (host : SatelliteHost) (terminal : Z) : bool :=
  bool_decide ((client, host, terminal) ∈ satellite_proxy_attaches t).
(* phux-server/src/state/lease_table.rs LeaseTable::register_satellite_proxy_attach *)
Definition register_satellite_proxy_attach (t : LeaseTable) client host terminal : LeaseTable :=
  with_attaches t ({[(client, host, terminal)]} ∪ satellite_proxy_attaches t).
(* phux-server/src/state/lease_table.rs LeaseTable::unregister_satellite_proxy_attach *)
Definition unregister_satellite_proxy_attach (t : LeaseTable) client host terminal : LeaseTable :=
  with_attaches t (satellite_proxy_attaches t ∖ {[(client, host, terminal)]}).

(** ** Local panes *)

(* phux-server/src/state/lease_table.rs LeaseTable::holder *)
Definition holder (t : LeaseTable) (terminal : positive) : option ClientId := input t !! terminal.
(* phux-server/src/state/lease_table.rs LeaseTable::blocked *)
Definition blocked (t : LeaseTable) (terminal : positive) (client : ClientId) : bool :=
  match input t !! terminal with Some h => negb (h =? client) | None => false end.
(* phux-server/src/state/lease_table.rs LeaseTable::acquire *)
Definition acquire (t : LeaseTable) (terminal : positive) (client : ClientId) : option ClientId * LeaseTable :=
  (input t !! terminal, with_input t (<[terminal := client]> (input t))).
(* phux-server/src/state/lease_table.rs LeaseTable::release *)
Definition release (t : LeaseTable) (terminal : positive) (client : ClientId) : bool * LeaseTable :=
  if bool_decide (input t !! terminal = Some client) then (true, with_input t (delete terminal (input t)))
  else (false, t).
(* phux-server/src/state/lease_table.rs LeaseTable::held_by *)
Definition held_by (t : LeaseTable) (client : ClientId) : list positive :=
  omap (fun kv => if kv.2 =? client then Some kv.1 else None) (map_to_list (input t)).

(** ** Satellite panes *)

(* phux-server/src/state/lease_table.rs LeaseTable::satellite_holder *)
Definition satellite_holder (t : LeaseTable) (host : SatelliteHost) (terminal : Z) : option ClientId :=
  lease_holder <$> satellite t !! (host, terminal).
(* phux-server/src/state/lease_table.rs LeaseTable::set_satellite *)
Definition set_satellite (t : LeaseTable) (host : SatelliteHost) (terminal : Z) (client : ClientId) (out_tx : Sender)
    : option SatelliteLease * LeaseTable :=
  let prior := satellite t !! (host, terminal) in
  let t := with_satellite t (<[(host, terminal) := mkSatelliteLease client out_tx]> (satellite t)) in
  (match prior with
   | Some lease => if negb (lease_holder lease =? client) then Some lease else None
   | None => None
   end, t).
(* phux-server/src/state/lease_table.rs LeaseTable::release_satellite *)
Definition release_satellite (t : LeaseTable) (host : SatelliteHost) (terminal : Z) (client : ClientId)
    : bool * LeaseTable :=
  if bool_decide (lease_holder <$> satellite t !! (host, terminal) = Some client)
  then (true, with_satellite t (delete (host, terminal) (satellite t)))
  else (false, t).
(* phux-server/src/state/lease_table.rs LeaseTable::satellite_held_by *)
Definition satellite_held_by (t : LeaseTable) (client : ClientId) : list (SatelliteHost * Z) :=
  map fst (List.filter (fun kl => lease_holder kl.2 =? client) (map_to_list (satellite t))).

(** ** Disconnect *)

(* phux-server/src/state/lease_table.rs LeaseTable::release_all_for *)
Definition release_all_for (t : LeaseTable) (client : ClientId) : LeaseTable :=
  mkLeases (filter (fun kv => kv.2 <> client) (input t))
    (filter (fun kl => lease_holder kl.2 <> client) (satellite t))
    (satellite_proxy_attaches t).

(** ** Lemmas *)

Lemma blocked_spec t terminal client :
  blocked t terminal client = true <-> exists h, holder t terminal = Some h /\ h <> client.
Proof.
  unfold blocked, holder. destruct (input t !! terminal) as [h|]; [|split; [done|by intros (? & ? & _)]].
  rewrite negb_true_iff, Z.eqb_neq. split; [by exists h|intros (? & [= <-] & ?); done].
Qed.

Lemma elem_of_held_by t client terminal : terminal ∈ held_by t client <-> holder t terminal = Some client.
Proof.
  unfold held_by, holder. rewrite list_elem_of_omap. split.
  - intros ([k c] & H & E). cbn in E. destruct (Z.eqb_spec c client) as [->|]; [|done]. injection E as ->.
    by apply elem_of_map_to_list.
  - intros H. exists (terminal, client). split; [by apply elem_of_map_to_list|]. cbn. by rewrite Z.eqb_refl.
Qed.

Lemma elem_of_satellite_held_by t client host terminal :
  (host, terminal) ∈ satellite_held_by t client <-> satellite_holder t host terminal = Some client.
Proof.
  unfold satellite_held_by, satellite_holder. rewrite list_elem_of_In, in_map_iff. split.
  - intros ([k l] & <- & [H E]%filter_In). apply list_elem_of_In, elem_of_map_to_list in H. cbn in *.
    rewrite H. cbn. f_equal. by apply Z.eqb_eq.
  - destruct (satellite t !! (host, terminal)) as [l|] eqn:E; [|done]. intros [= <-]. exists (host, terminal, l).
    split; [done|]. apply filter_In. split; [by apply list_elem_of_In, elem_of_map_to_list|]. cbn. apply Z.eqb_refl.
Qed.

Lemma release_all_holder t client terminal :
  holder (release_all_for t client) terminal =
    match holder t terminal with Some h => if h =? client then None else Some h | None => None end.
Proof.
  unfold holder. cbn. rewrite map_lookup_filter. destruct (input t !! terminal) as [h|]; [|done]. cbn.
  destruct (Z.eqb_spec h client); [by rewrite option_guard_False by (by intros [])|by rewrite option_guard_True].
Qed.

Lemma release_all_satellite_holder t client host terminal :
  satellite_holder (release_all_for t client) host terminal =
    match satellite_holder t host terminal with Some h => if h =? client then None else Some h | None => None end.
Proof.
  unfold satellite_holder. cbn. rewrite map_lookup_filter. destruct (satellite t !! (host, terminal)) as [l|]; [|done]. cbn.
  destruct (Z.eqb_spec (lease_holder l) client); [by rewrite option_guard_False by (by intros [])|by rewrite option_guard_True].
Qed.
