(* ===== verification/SpawnLedger.v ===== *)
(** * The hub's ledger of satellite spawns ([phux-server/src/state/satellite_spawns.rs])

    Which hub consumer asked for each satellite resource, kept for the last 1024 spawns; a
    conditional kill is relayed only when the ledger vouches for it. The reference definition
    reads the same answer off the history of calls. *)

From stdpp Require Import gmap.
From S2P Require Import Prelude Leases.

(* phux-server/src/state/satellite_spawns.rs MAX_SATELLITE_SPAWNS *)
Definition MAX_SATELLITE_SPAWNS : nat := 1024.
(** A satellite resource, by host and satellite-local id. *)
Abbreviation Key := (SatelliteHost * Z)%type.
(** A 16-byte token. *)
Abbreviation ServerInstance := (list Z).

(* phux-server/src/state/satellite_spawns.rs Record *)
Record SpawnRecord : Type := mkRecord {
  seq : Z; spawner : ClientId; instance : option ServerInstance; used_by_other : bool
}.
(* phux-server/src/state/satellite_spawns.rs SatelliteSpawnLedger *)
Record SatelliteSpawnLedger : Type := mkLedger {
  records : gmap Key SpawnRecord; order : list (Z * Key); next_seq : Z
}.

Definition ledger_new : SatelliteSpawnLedger := mkLedger ∅ [] 0.

(** The queue shrinks with each turn, so the loop is recursion on it. *)
(* phux-server/src/state/satellite_spawns.rs SatelliteSpawnLedger::evict_oldest *)
Fixpoint evict_oldest (records : gmap Key SpawnRecord) (order : list (Z * Key))
    : gmap Key SpawnRecord * list (Z * Key) :=
  match order with
  | [] => (records, order)
  | (s, key) :: rest =>
      if bool_decide (MAX_SATELLITE_SPAWNS < length order)%nat then
        evict_oldest
          (match records !! key with
           | Some record => if seq record =? s then delete key records else records
           | None => records
           end) rest
      else (records, order)
  end.

(* phux-server/src/state/satellite_spawns.rs SatelliteSpawnLedger::record_spawn *)
Definition record_spawn (l : SatelliteSpawnLedger) (host : SatelliteHost) (id : Z)
    (instance : option ServerInstance) (spawner : ClientId) : SatelliteSpawnLedger :=
  let s := next_seq l in
  let key : Key := (host, id) in
  let '(records, order) :=
    evict_oldest (<[key := mkRecord s spawner instance false]> (records l)) (order l ++ [(s, key)]) in
  mkLedger records order ((s + 1) mod 2 ^ 64).

(* phux-server/src/state/satellite_spawns.rs SatelliteSpawnLedger::note_use *)
Definition note_use (l : SatelliteSpawnLedger) (host : SatelliteHost) (id : Z) (client : ClientId) : SatelliteSpawnLedger :=
  match records l !! (host, id) with
  | Some r =>
      if negb (spawner r =? client)
      then mkLedger (<[(host, id) := mkRecord (seq r) (spawner r) (instance r) true]> (records l)) (order l) (next_seq l)
      else l
  | None => l
  end.

(* phux-server/src/state/satellite_spawns.rs SatelliteSpawnLedger::vouches_unattached *)
Definition vouches_unattached (l : SatelliteSpawnLedger) (host : SatelliteHost) (id : Z) (token : ServerInstance) : bool :=
  match records l !! (host, id) with
  | Some r => bool_decide (instance r = Some token) && negb (used_by_other r)
  | None => false
  end.

(** ** The reference: the history, newest call first *)

Inductive Event : Type :=
| Spawn (host : SatelliteHost) (id : Z) (instance : option ServerInstance) (spawner : ClientId)
| Use (host : SatelliteHost) (id : Z) (client : ClientId).

Definition apply (l : SatelliteSpawnLedger) (e : Event) : SatelliteSpawnLedger :=
  match e with Spawn h i t c => record_spawn l h i t c | Use h i c => note_use l h i c end.

Fixpoint ledger_of (h : list Event) : SatelliteSpawnLedger :=
  match h with [] => ledger_new | e :: h => apply (ledger_of h) e end.

(** Walk back to the resource's last spawn, past fewer than [budget] spawns: it must carry the
    token, and everyone who used the resource since must be its spawner. *)
Fixpoint vouched (budget : nat) (users : list ClientId) (h : list Event) (key : Key) (token : ServerInstance) : bool :=
  match h with
  | [] => false
  | Use host id c :: h => vouched budget (if bool_decide ((host, id) = key) then c :: users else users) h key token
  | Spawn host id t c :: h =>
      match budget with
      | O => false
      | S budget =>
          if bool_decide ((host, id) = key) then bool_decide (t = Some token) && forallb (Z.eqb c) users
          else vouched budget users h key token
      end
  end.

Fixpoint spawn_count (h : list Event) : nat :=
  match h with [] => 0 | Spawn _ _ _ _ :: h => S (spawn_count h) | Use _ _ _ :: h => spawn_count h end.

(** The record an unbounded ledger would hold. *)
Fixpoint last_record (h : list Event) (key : Key) : option SpawnRecord :=
  match h with
  | [] => None
  | Spawn host id t c :: h =>
      if bool_decide ((host, id) = key) then Some (mkRecord (Z.of_nat (spawn_count h)) c t false) else last_record h key
  | Use host id c :: h =>
      if bool_decide ((host, id) = key)
      then (fun r => mkRecord (seq r) (spawner r) (instance r) (used_by_other r || negb (spawner r =? c))) <$> last_record h key
      else last_record h key
  end.

Lemma last_record_seq h key r : last_record h key = Some r -> 0 <= seq r < Z.of_nat (spawn_count h).
Proof.
  revert r. induction h as [|[host id t c|host id c] h IH]; intros r; cbn; [done| |].
  - case_bool_decide as E; [intros [= <-]; cbn; lia|]. intros H%IH. lia.
  - case_bool_decide; [|by apply IH]. destruct (last_record h key) as [r'|]; [|done]. intros [= <-]. cbn [seq]. by apply IH.
Qed.

(** The spawns of a history, oldest first, with their numbers. *)
Fixpoint spawns (h : list Event) : list (Z * Key) :=
  match h with
  | [] => []
  | Spawn host id _ _ :: h => spawns h ++ [(Z.of_nat (spawn_count h), (host, id))]
  | Use _ _ _ :: h => spawns h
  end.

Lemma spawns_length h : length (spawns h) = spawn_count h.
Proof. induction h as [|[] h IH]; cbn; [done| |done]. rewrite length_app, IH. cbn. lia. Qed.

Lemma spawns_lookup h i x : spawns h !! i = Some x -> x.1 = Z.of_nat i /\ (i < spawn_count h)%nat.
Proof.
  revert i. induction h as [|[host id t c|host id c] h IH]; intros i; cbn; [done| |apply IH].
  rewrite lookup_app_Some. intros [H%IH|[Hlen H]]; [destruct H; split; [done|lia]|].
  rewrite spawns_length in *. apply list_lookup_singleton_Some in H as [Hi <-]. cbn. split; [f_equal; lia|lia].
Qed.

(** How many spawns are out of the window. *)
Definition gone (h : list Event) : nat := spawn_count h - MAX_SATELLITE_SPAWNS.

(** What the bounded ledger holds: the unbounded ledger's record while its spawn is in the window. *)
Record Ledger_ok (h : list Event) (l : SatelliteSpawnLedger) : Prop := {
  ok_next : next_seq l = Z.of_nat (spawn_count h);
  ok_order : order l = drop (gone h) (spawns h);
  ok_records key : records l !! key =
    match last_record h key with
    | Some r => if Z.of_nat (gone h) <=? seq r then Some r else None
    | None => None
    end
}.

Lemma evict_short m o : (length o <= MAX_SATELLITE_SPAWNS)%nat -> evict_oldest m o = (m, o).
Proof.
  intros H. destruct o as [|[s k] o]; [done|]. cbn [evict_oldest]. rewrite bool_decide_false; [done|]. cbn [length] in *. lia.
Qed.

(** One entry too many: the oldest goes. *)
Lemma evict_one m s k o :
  length o = MAX_SATELLITE_SPAWNS ->
  evict_oldest m ((s, k) :: o) =
    (match m !! k with Some r => if seq r =? s then delete k m else m | None => m end, o).
Proof.
  intros H. cbn [evict_oldest]. rewrite bool_decide_true by (cbn [length]; lia). apply evict_short. lia.
Qed.

Lemma last_record_spawn h key r : last_record h key = Some r -> spawns h !! Z.to_nat (seq r) = Some (seq r, key).
Proof.
  revert r. induction h as [|[host id t c|host id c] h IH]; intros r; cbn [last_record spawns]; [done| |].
  - case_bool_decide as E; [intros [= <-]|intros H%IH].
    + cbn [seq]. rewrite lookup_app_r by (rewrite spawns_length; lia). rewrite spawns_length, Nat2Z.id, Nat.sub_diag.
      by rewrite E.
    + by apply lookup_app_l_Some.
  - case_bool_decide; [|by apply IH]. destruct (last_record h key) as [r'|]; [|done]. intros [= <-]. cbn [seq]. by apply IH.
Qed.

Lemma last_record_cons_use h host id c key :
  last_record (Use host id c :: h) key =
    if bool_decide ((host, id) = key)
    then (fun r => mkRecord (seq r) (spawner r) (instance r) (used_by_other r || negb (spawner r =? c))) <$> last_record h key
    else last_record h key.
Proof. done. Qed.

Lemma note_use_ok h l host id c : Ledger_ok h l -> Ledger_ok (Use host id c :: h) (note_use l host id c).
Proof.
  intros [Hn Ho Hr]. pose proof (Hr (host, id)) as Hk. unfold note_use.
  destruct (records l !! (host, id)) as [r|] eqn:E.
  - assert (Hlast : last_record h (host, id) = Some r /\ Z.of_nat (gone h) <= seq r).
    { destruct (last_record h (host, id)) as [r'|]; [|done]. revert Hk.
      destruct (Z.leb_spec (Z.of_nat (gone h)) (seq r')); [|done]. by intros [= ->]. }
    destruct Hlast as [Hlast Hle].
    assert (Hmap : records (if negb (spawner r =? c)
       then mkLedger (<[(host, id) := mkRecord (seq r) (spawner r) (instance r) true]> (records l)) (order l) (next_seq l)
       else l) = <[(host, id) := mkRecord (seq r) (spawner r) (instance r) (used_by_other r || negb (spawner r =? c))]> (records l)).
    { destruct (negb _) eqn:Ec; cbn; [by rewrite orb_true_r|]. rewrite orb_false_r, insert_id; [done|]. by destruct r. }
    split.
    + destruct (negb _); apply Hn.
    + destruct (negb _); apply Ho.
    + intros key. rewrite last_record_cons_use, Hmap. case_bool_decide as Ek.
      * subst key. rewrite Hlast, lookup_insert_eq. cbn [fmap option_fmap option_map seq].
        change (gone (Use host id c :: h)) with (gone h). by rewrite (proj2 (Z.leb_le _ _) Hle).
      * rewrite lookup_insert_ne by done. apply Hr.
  - split; [apply Hn|apply Ho|]. intros key. rewrite last_record_cons_use. case_bool_decide as Ek; [|apply Hr].
    subst key. destruct (last_record h (host, id)) as [r'|]; [cbn|done].
    change (gone (Use host id c :: h)) with (gone h). by destruct (_ <=? _).
Qed.

Lemma record_spawn_ok h l host id t c :
  Z.of_nat (spawn_count h) + 1 < 2 ^ 64 ->
  Ledger_ok h l -> Ledger_ok (Spawn host id t c :: h) (record_spawn l host id t c).
Proof.
  intros Hlt [Hn Ho Hr]. unfold record_spawn. rewrite Hn. set (n := Z.of_nat (spawn_count h)) in *.
  set (m := <[(host, id) := _]> (records l)).
  assert (Hm : forall key, m !! key = match last_record (Spawn host id t c :: h) key with
      | Some r => if Z.of_nat (gone h) <=? seq r then Some r else None | None => None end).
  { intros key. cbn [last_record]. case_bool_decide as Ek.
    - subst key. unfold m. rewrite lookup_insert_eq. cbn. rewrite (proj2 (Z.leb_le _ _)); [done|]. unfold gone. lia.
    - unfold m. rewrite lookup_insert_ne by done. apply Hr. }
  assert (Hnext : (n + 1) mod 2 ^ 64 = Z.of_nat (spawn_count (Spawn host id t c :: h))).
  { rewrite Z.mod_small by lia. cbn [spawn_count]. lia. }
  assert (Hord : order l ++ [(n, (host, id))] = drop (gone h) (spawns (Spawn host id t c :: h))).
  { rewrite Ho. cbn [spawns]. rewrite drop_app_le; [done|]. rewrite spawns_length. unfold gone. lia. }
  rewrite Hord. set (sp := spawns (Spawn host id t c :: h)) in *.
  assert (Hlen : length sp = S (spawn_count h)) by (unfold sp; by rewrite spawns_length).
  destruct (decide (spawn_count h < MAX_SATELLITE_SPAWNS)%nat) as [Hs|Hs].
  - assert (Hg : gone (Spawn host id t c :: h) = gone h) by (unfold gone; cbn [spawn_count]; lia).
    rewrite evict_short by (rewrite length_drop; lia). split; rewrite ?Hg; [exact Hnext|done|apply Hm].
  - assert (Hg : gone (Spawn host id t c :: h) = S (gone h)) by (unfold gone; cbn [spawn_count]; lia).
    destruct (lookup_lt_is_Some_2 sp (gone h)) as [[s k] Hsk]; [unfold gone in *; lia|].
    pose proof (spawns_lookup _ _ _ Hsk) as [Es _]. cbn in Es. subst s.
    rewrite (drop_S _ _ _ Hsk), evict_one by (rewrite length_drop; unfold gone; lia).
    split; rewrite ?Hg; [exact Hnext|done|]. intros key. cbn [records].
    assert (Hcut : forall r, last_record (Spawn host id t c :: h) key = Some r -> seq r = Z.of_nat (gone h) -> key = k).
    { intros r Hl%last_record_spawn Hseq. fold sp in Hl. rewrite Hseq, Nat2Z.id in Hl. congruence. }
    pose proof (Hm key) as Hkey. destruct (decide (key = k)) as [->|Hne].
    + rewrite Hkey. destruct (last_record (Spawn host id t c :: h) k) as [r|] eqn:El; [|by rewrite Hkey].
      destruct (Z.leb_spec (Z.of_nat (gone h)) (seq r)) as [Hle|Hgt].
      * destruct (Z.eqb_spec (seq r) (Z.of_nat (gone h))) as [Eq|Nq].
        -- rewrite lookup_delete_eq, (proj2 (Z.leb_gt _ _)); [done|lia].
        -- rewrite Hkey, (proj2 (Z.leb_le _ _)); [done|lia].
      * rewrite Hkey, (proj2 (Z.leb_gt _ _)); [done|lia].
    + replace (match m !! k with Some r => if seq r =? Z.of_nat (gone h) then delete k m else m | None => m end !! key)
        with (m !! key) by (destruct (m !! k) as [r'|]; [|done]; destruct (_ =? _); [by rewrite lookup_delete_ne|done]).
      rewrite Hkey. destruct (last_record (Spawn host id t c :: h) key) as [r|] eqn:El; [|done].
      destruct (Z.leb_spec (Z.of_nat (gone h)) (seq r)), (Z.leb_spec (Z.of_nat (S (gone h))) (seq r)); try done; [|lia].
      exfalso. apply Hne, (Hcut r); [done|lia].
Qed.

Lemma ledger_of_ok h : Z.of_nat (spawn_count h) < 2 ^ 64 -> Ledger_ok h (ledger_of h).
Proof.
  induction h as [|[host id t c|host id c] h IH]; cbn [ledger_of apply spawn_count]; intros Hlt.
  - by split.
  - apply record_spawn_ok; [lia|]. apply IH. lia.
  - by apply note_use_ok, IH.
Qed.

(** The walk finds the unbounded ledger's record, if fewer than [budget] spawns came after it. *)
Lemma vouched_last budget users h key token :
  vouched budget users h key token =
    match last_record h key with
    | Some r => bool_decide (Z.of_nat (spawn_count h - budget) <= seq r) && bool_decide (instance r = Some token)
                && negb (used_by_other r) && forallb (Z.eqb (spawner r)) users
    | None => false
    end.
Proof.
  revert budget users. induction h as [|[host id t c|host id c] h IH]; intros budget users; cbn [vouched last_record]; [done| |].
  - case_bool_decide as Ek.
    + cbn [seq instance used_by_other spawner spawn_count]. destruct budget as [|budget].
      * rewrite (bool_decide_false (Z.of_nat _ <= _)); [done|lia].
      * rewrite (bool_decide_true (Z.of_nat _ <= _)) by lia. by rewrite andb_true_r.
    + destruct budget as [|budget].
      * destruct (last_record h key) as [r|] eqn:El; [|done]. pose proof (last_record_seq _ _ _ El).
        rewrite (bool_decide_false (Z.of_nat _ <= _)); [done|]. cbn [spawn_count]. lia.
      * rewrite IH. done.
  - rewrite IH. case_bool_decide as Ek; [|done]. destruct (last_record h key) as [r|]; [|done]. cbn.
    destruct (bool_decide (_ <= _)), (bool_decide (instance r = _)), (used_by_other r), (spawner r =? c); done.
Qed.

(** ** Properties *)

(** the bounded ledger vouches exactly when the history of calls says so: the resource's last
    spawn is among the last 1024, carries the kill's token, and every use since was its spawner's. *)
Theorem ledger_vouches_exactly h host id token :
  Z.of_nat (spawn_count h) < 2 ^ 64 ->
  vouches_unattached (ledger_of h) host id token = vouched MAX_SATELLITE_SPAWNS [] h (host, id) token.
Proof.
  intros Hlt. destruct (ledger_of_ok h Hlt) as [_ _ Hr]. unfold vouches_unattached. rewrite Hr, vouched_last.
  fold (gone h). destruct (last_record h (host, id)) as [r|]; [|done].
  destruct (Z.leb_spec (Z.of_nat (gone h)) (seq r)).
  - rewrite (bool_decide_true (Z.of_nat (gone h) <= seq r)) by done. by rewrite andb_true_r.
  - rewrite (bool_decide_false (Z.of_nat (gone h) <= seq r)) by lia. done.
Qed.

Lemma ledger_vouches_exactly_witness :
  vouches_unattached (ledger_of [Use [1] 7 5; Spawn [1] 7 (Some [9]) 5]) [1] 7 [9] = true /\
  vouches_unattached (ledger_of [Use [1] 7 6; Spawn [1] 7 (Some [9]) 5]) [1] 7 [9] = false.
Proof.
  split; rewrite ledger_vouches_exactly by (cbn [spawn_count]; lia); unfold MAX_SATELLITE_SPAWNS;
    (change 1024%nat with (S 1023)); by cbn.
Defined.

(** The ledger is bounded however many spawns there were: at most 1024 queue entries, and
    every record has its own entry in the queue, so at most 1024 records. *)
Theorem ledger_bounded h :
  Z.of_nat (spawn_count h) < 2 ^ 64 ->
  (length (order (ledger_of h)) <= MAX_SATELLITE_SPAWNS)%nat /\ (size (records (ledger_of h)) <= MAX_SATELLITE_SPAWNS)%nat /\
  forall key r, records (ledger_of h) !! key = Some r -> (seq r, key) ∈ order (ledger_of h).
Proof.
  intros Hlt. destruct (ledger_of_ok h Hlt) as [_ Ho Hr].
  assert (Hlen : (length (order (ledger_of h)) <= MAX_SATELLITE_SPAWNS)%nat).
  { rewrite Ho, length_drop, spawns_length. unfold gone. lia. }
  assert (Hin : forall key r, records (ledger_of h) !! key = Some r -> (seq r, key) ∈ order (ledger_of h)).
  { intros key r Hk. rewrite Hr in Hk. destruct (last_record h key) as [r'|] eqn:El; [|done]. revert Hk.
    destruct (Z.leb_spec (Z.of_nat (gone h)) (seq r')); [|done]. intros [= <-]. rewrite Ho.
    pose proof (last_record_spawn _ _ _ El) as Hl. apply list_elem_of_lookup. exists (Z.to_nat (seq r') - gone h)%nat.
    rewrite lookup_drop. rewrite <- Hl. f_equal. pose proof (last_record_seq _ _ _ El). lia. }
  split; [done|]. split; [|done].
  rewrite <- length_map_to_list, <- (length_fmap fst). etrans; [|exact Hlen]. rewrite <- (length_fmap snd (order (ledger_of h))).
  apply submseteq_length, NoDup_submseteq; [apply NoDup_fst_map_to_list|]. intros key Hk.
  apply list_elem_of_fmap in Hk as ([k r] & -> & Hk%elem_of_map_to_list). apply list_elem_of_fmap.
  exists (seq r, k). split; [done|]. by apply Hin.
Qed.

Definition demo_history : list Event := [Spawn [1] 7 None 5; Spawn [1] 7 None 5].

Lemma ledger_bounded_witness :
  (size (records (ledger_of demo_history)) <= MAX_SATELLITE_SPAWNS)%nat.
Proof. apply ledger_bounded. unfold demo_history. cbn [spawn_count]. lia. Defined.
