(* ===== verification/ResourceTable.v ===== *)
(** * The per-resource engine table ([phux-server/src/state/resource_table.rs])

    Handles, subscribers, spawn provenance and output pumps. What the code creates in the
    runtime, a cancellation token or a shared counter, is a number the caller passes in, and
    [cancelled] collects the tokens that were cancelled. *)

From stdpp Require Import gmap.
From S2P Require Import Prelude Ids Leases Registry.

Abbreviation Token := positive.
Abbreviation key := positive.

(** Of a handle, what the tables and gates look at: the kind of its facet, and which channel the
    engine publishes its input modes on, by number. *)
(* phux-server/src/resource/mod.rs:442-455 ResourceHandle *)
Record ResourceHandle : Type := mkHandle { facet_kind : Registry.ResourceKind; input_snapshot : positive }.
(* phux-server/src/resource/mod.rs WrongResourceKind *)
Record WrongResourceKind : Type := mkWrongKind { required : Registry.ResourceKind; actual : Registry.ResourceKind }.
(* phux-server/src/resource/mod.rs ResourceHandle::terminal *)
Definition handle_terminal (h : ResourceHandle) : result WrongResourceKind unit :=
  match facet_kind h with
  | Kind_Terminal => Ok tt
  | k => Err (mkWrongKind Kind_Terminal k)
  end.
(* phux-server/src/resource/mod.rs ResourceHandle::agent_session *)
Definition handle_agent_session (h : ResourceHandle) : result WrongResourceKind unit :=
  match facet_kind h with
  | Kind_AgentSession => Ok tt
  | k => Err (mkWrongKind Kind_AgentSession k)
  end.

(* phux-server/src/state/resource_table.rs AttachResourceGeneration *)
Record AttachResourceGeneration : Type := mkGeneration {
  gen_cancel : Token; gen_done : Token; gen_last_valid_seq : positive; gen_bootstrap_id : Z
}.
(* phux-server/src/state/resource_table.rs SpawnRecord *)
Record SpawnRecord : Type := mkSpawn { spawner : ClientId; used_by_other : bool }.
(* phux-server/src/state/resource_table.rs OutputPumpTask *)
Record OutputPumpTask : Type := mkTask { task_abort : Token; task_done : Token }.

(* phux-server/src/state/resource_table.rs ResourceTable *)
Record ResourceTable : Type := mkTable {
  handles : gmap key ResourceHandle;
  tokens : gmap key Token;
  subscribers : gmap key (list ClientId);
  pumps : gmap (ClientId * key) AttachResourceGeneration;
  output_pumps : gmap (ClientId * key) (list OutputPumpTask);
  next_bootstrap : gmap ClientId Z;
  spawns : gmap key SpawnRecord;
  cancelled : gset Token
}.

(* phux-server/src/state/resource_table.rs ResourceTable::new *)
Definition table_new : ResourceTable := mkTable ∅ ∅ ∅ ∅ ∅ ∅ ∅ ∅.

Definition set_handles t m := mkTable m (tokens t) (subscribers t) (pumps t) (output_pumps t) (next_bootstrap t) (spawns t) (cancelled t).
Definition set_tokens t m c := mkTable (handles t) m (subscribers t) (pumps t) (output_pumps t) (next_bootstrap t) (spawns t) c.
Definition set_subscribers t m := mkTable (handles t) (tokens t) m (pumps t) (output_pumps t) (next_bootstrap t) (spawns t) (cancelled t).
Definition set_pumps t m c := mkTable (handles t) (tokens t) (subscribers t) m (output_pumps t) (next_bootstrap t) (spawns t) c.
Definition set_output_pumps t m := mkTable (handles t) (tokens t) (subscribers t) (pumps t) m (next_bootstrap t) (spawns t) (cancelled t).
Definition set_next_bootstrap t m := mkTable (handles t) (tokens t) (subscribers t) (pumps t) (output_pumps t) m (spawns t) (cancelled t).
Definition set_spawns t m := mkTable (handles t) (tokens t) (subscribers t) (pumps t) (output_pumps t) (next_bootstrap t) m (cancelled t).

(** ** Handles *)

(* phux-server/src/state/resource_table.rs ResourceTable::handle *)
Definition handle (t : ResourceTable) (k : key) : option ResourceHandle := handles t !! k.
(* phux-server/src/state/resource_table.rs ResourceTable::resource_ids *)
Definition resource_ids (t : ResourceTable) : list key := map fst (map_to_list (handles t)).
(* phux-server/src/state/resource_table.rs ResourceTable::all_handles *)
Definition all_handles (t : ResourceTable) : list (key * ResourceHandle) := map_to_list (handles t).
(* phux-server/src/state/resource_table.rs ResourceTable::register *)
Definition register (t : ResourceTable) (k : key) (h : ResourceHandle) (token : Token) : ResourceTable :=
  set_tokens (set_handles t (<[k := h]> (handles t))) (<[k := token]> (tokens t)) (cancelled t).
(* phux-server/src/state/resource_table.rs ResourceTable::detach_actor *)
Definition detach_actor (t : ResourceTable) (k : key) : ResourceTable :=
  match tokens t !! k with
  | Some token => set_tokens t (delete k (tokens t)) ({[token]} ∪ cancelled t)
  | None => t
  end.

(** ** Spawn provenance *)

(* phux-server/src/state/resource_table.rs ResourceTable::record_spawn *)
Definition record_spawn (t : ResourceTable) (k : key) (client : ClientId) : ResourceTable :=
  set_spawns t (<[k := mkSpawn client false]> (spawns t)).
(* phux-server/src/state/resource_table.rs ResourceTable::note_use *)
Definition note_use (t : ResourceTable) (client : ClientId) (k : key) : ResourceTable :=
  match spawns t !! k with
  | Some r => if negb (spawner r =? client) then set_spawns t (<[k := mkSpawn (spawner r) true]> (spawns t)) else t
  | None => t
  end.
(* phux-server/src/state/resource_table.rs ResourceTable::unattached_since_spawn *)
Definition unattached_since_spawn (t : ResourceTable) (k : key) : bool :=
  match spawns t !! k with Some r => negb (used_by_other r) | None => false end.

(** ** Subscriptions *)

(* phux-server/src/state/resource_table.rs ResourceTable::subscribers_for *)
Definition subscribers_for (t : ResourceTable) (k : key) : list ClientId := default [] (subscribers t !! k).
(* phux-server/src/state/resource_table.rs ResourceTable::subscribe *)
Definition subscribe (t : ResourceTable) (client : ClientId) (k : key) : ResourceTable :=
  let t := note_use t client k in
  let subs := default [] (subscribers t !! k) in
  set_subscribers t (<[k := if bool_decide (client ∈ subs) then subs else subs ++ [client]]> (subscribers t)).
Definition without (client : ClientId) (subs : list ClientId) : list ClientId :=
  List.filter (fun c => negb (c =? client)) subs.
(* phux-server/src/state/resource_table.rs ResourceTable::unsubscribe *)
Definition unsubscribe (t : ResourceTable) (client : ClientId) (k : key) : ResourceTable :=
  match subscribers t !! k with
  | Some subs =>
      let subs := without client subs in
      set_subscribers t (if bool_decide (subs = []) then delete k (subscribers t) else <[k := subs]> (subscribers t))
  | None => t
  end.
(* phux-server/src/state/resource_table.rs ResourceTable::drop_client_subscriptions *)
Definition drop_client_subscriptions (t : ResourceTable) (client : ClientId) : ResourceTable :=
  set_subscribers t (filter (fun kv => kv.2 <> []) (without client <$> subscribers t)).
(* phux-server/src/state/resource_table.rs ResourceTable::subscribed_handles *)
Definition subscribed_handles (t : ResourceTable) (client : ClientId) : list ResourceHandle :=
  omap (fun kv => handle t kv.1)
    (List.filter (fun kv : key * list ClientId => bool_decide (client ∈ kv.2)) (map_to_list (subscribers t))).

(** ** Output pumps *)

(* phux-server/src/state/resource_table.rs ResourceTable::track_output_pump *)
Definition track_output_pump (t : ResourceTable) (client : ClientId) (k : key) (abort done : Token) : ResourceTable :=
  let tasks := default [] (output_pumps t !! (client, k)) in
  let tasks := List.filter (fun task => negb (bool_decide (task_done task ∈ cancelled t))) tasks in
  set_output_pumps t (<[(client, k) := tasks ++ [mkTask abort done]]> (output_pumps t)).
(* phux-server/src/state/resource_table.rs ResourceTable::stop_output_pumps *)
Definition stop_output_pumps (t : ResourceTable) (client : ClientId) (k : key) : list Token * ResourceTable :=
  (map task_done (default [] (output_pumps t !! (client, k))),
   set_output_pumps t (delete (client, k) (output_pumps t))).
(** The tokens and the counter of the new generation are the caller's fresh numbers. *)
(* phux-server/src/state/resource_table.rs ResourceTable::replace_pump *)
Definition replace_pump (t : ResourceTable) (client : ClientId) (k : key) (bootstrap_id : Z)
    (cancel done seq : positive) : option (Z * Token * positive) * ResourceTable :=
  let prior := pumps t !! (client, k) in
  let m := <[(client, k) := mkGeneration cancel done seq bootstrap_id]> (pumps t) in
  match prior with
  | Some p => (Some (gen_bootstrap_id p, gen_done p, gen_last_valid_seq p),
               set_pumps t m ({[gen_cancel p]} ∪ cancelled t))
  | None => (None, set_pumps t m (cancelled t))
  end.
(* phux-server/src/state/resource_table.rs ResourceTable::next_bootstrap_id *)
Definition next_bootstrap_id (t : ResourceTable) (client : ClientId) : option Z * ResourceTable :=
  let raw := default 1 (next_bootstrap t !! client) in
  if raw =? u64_max then (None, set_next_bootstrap t (<[client := raw]> (next_bootstrap t)))
  else (BootstrapId_new raw, set_next_bootstrap t (<[client := raw + 1]> (next_bootstrap t))).
(* phux-server/src/state/resource_table.rs ResourceTable::cancel_pump *)
Definition cancel_pump (t : ResourceTable) (client : ClientId) (k : key) : ResourceTable :=
  let '(_, t) := stop_output_pumps t client k in
  match pumps t !! (client, k) with
  | Some g => set_pumps t (delete (client, k) (pumps t)) ({[gen_cancel g]} ∪ cancelled t)
  | None => t
  end.

(** [retain] on the pumps, cancelling those that go. *)
Definition retain_pumps (keep : ClientId * key -> bool) (t : ResourceTable) : ResourceTable :=
  let gone := filter (fun kv => keep kv.1 = false) (pumps t) in
  set_pumps t (filter (fun kv => keep kv.1 = true) (pumps t))
    (list_to_set (map (fun kv => gen_cancel kv.2) (map_to_list gone)) ∪ cancelled t).

(* phux-server/src/state/resource_table.rs ResourceTable::cancel_pumps_for_client *)
Definition cancel_pumps_for_client (t : ResourceTable) (client : ClientId) : ResourceTable :=
  let t := set_output_pumps t (filter (fun kv => kv.1.1 <> client) (output_pumps t)) in
  let t := retain_pumps (fun ck => negb (ck.1 =? client)) t in
  set_next_bootstrap t (delete client (next_bootstrap t)).

(* phux-server/src/state/resource_table.rs ResourceTable::forget_resource *)
Definition forget_resource (t : ResourceTable) (k : key) : ResourceTable :=
  let t := set_output_pumps t (filter (fun kv => kv.1.2 <> k) (output_pumps t)) in
  let t := set_handles t (delete k (handles t)) in
  let t := detach_actor t k in
  let t := set_subscribers t (delete k (subscribers t)) in
  let t := set_spawns t (delete k (spawns t)) in
  retain_pumps (fun ck => negb (bool_decide (ck.2 = k))) t.

(** ** Lemmas *)

Lemma elem_of_without c client subs : c ∈ without client subs <-> c ∈ subs /\ c <> client.
Proof.
  unfold without. rewrite !list_elem_of_In, filter_In, negb_true_iff, Z.eqb_neq. done.
Qed.

Lemma subscribers_note_use t client k : subscribers (note_use t client k) = subscribers t.
Proof. unfold note_use. destruct (spawns t !! k) as [r|]; [|done]. by destruct (negb _). Qed.

(** No list is empty and no client is listed twice. *)
Definition subscribers_ok (t : ResourceTable) : Prop :=
  forall k subs, subscribers t !! k = Some subs -> subs <> [] /\ NoDup subs.

Lemma elem_of_subscribers_for t k c :
  c ∈ subscribers_for t k <-> exists subs, subscribers t !! k = Some subs /\ c ∈ subs.
Proof.
  unfold subscribers_for. destruct (subscribers t !! k) as [subs|]; cbn.
  - split; [by exists subs|by intros (? & [= <-] & ?)].
  - split; [by intros H%not_elem_of_nil|by intros (? & ? & _)].
Qed.

Lemma subscribe_subscribers t client k c k' :
  c ∈ subscribers_for (subscribe t client k) k' <-> c ∈ subscribers_for t k' \/ (c = client /\ k' = k).
Proof.
  unfold subscribe, subscribers_for. cbn [set_subscribers subscribers]. rewrite !subscribers_note_use.
  destruct (decide (k' = k)) as [->|Hne].
  - rewrite lookup_insert_eq. cbn. case_bool_decide as E; [|rewrite elem_of_app, list_elem_of_singleton].
    + split; [by left|intros [?|[-> _]]; done].
    + split; intros [?|?]; [by left|right; done|by left|right; naive_solver].
  - rewrite lookup_insert_ne by done. split; [by left|intros [?|[_ ?]]; done].
Qed.

Lemma subscribe_ok t client k : subscribers_ok t -> subscribers_ok (subscribe t client k).
Proof.
  intros Ht k' subs. unfold subscribe. cbn [set_subscribers subscribers]. rewrite !subscribers_note_use.
  rewrite lookup_insert_Some. intros [[<- <-]|[_ H]]; [|by apply (Ht k')].
  assert (Hd : NoDup (default [] (subscribers t !! k))).
  { destruct (subscribers t !! k) as [s0|] eqn:E; cbn; [by apply (Ht k)|apply NoDup_nil_2]. }
  case_bool_decide as E.
  - split; [|done]. intros E0. rewrite E0 in E. by apply not_elem_of_nil in E.
  - split; [by destruct (default _ _)|]. apply NoDup_app. split; [done|]. split; [|apply NoDup_singleton].
    by intros x Hx ->%list_elem_of_singleton.
Qed.

Lemma NoDup_without client subs : NoDup subs -> NoDup (without client subs).
Proof. rewrite !NoDup_ListNoDup. apply List.NoDup_filter. Qed.

Lemma drop_client_lookup t client k subs :
  subscribers (drop_client_subscriptions t client) !! k = Some subs <->
  exists subs0, subscribers t !! k = Some subs0 /\ subs = without client subs0 /\ subs <> [].
Proof.
  unfold drop_client_subscriptions. cbn. rewrite map_lookup_filter_Some, lookup_fmap, fmap_Some. cbn. naive_solver.
Qed.

Lemma drop_client_subscribers t client c k :
  c ∈ subscribers_for (drop_client_subscriptions t client) k <-> c ∈ subscribers_for t k /\ c <> client.
Proof.
  rewrite !elem_of_subscribers_for. setoid_rewrite drop_client_lookup. split.
  - intros (subs & (s0 & H & -> & _) & [Hc Hne]%elem_of_without). split; [by exists s0|done].
  - intros [(s0 & H & Hc) Hne]. exists (without client s0). rewrite elem_of_without. split; [|done].
    exists s0. split; [done|]. split; [done|]. intros E. assert (Hin : c ∈ without client s0) by by apply elem_of_without.
    rewrite E in Hin. by apply not_elem_of_nil in Hin.
Qed.

Lemma drop_client_ok t client : subscribers_ok t -> subscribers_ok (drop_client_subscriptions t client).
Proof.
  intros Ht k subs (s0 & H & -> & Hne)%drop_client_lookup. split; [done|]. apply NoDup_without. by apply (Ht k).
Qed.

Lemma unsubscribe_subscribers t client k c k' :
  c ∈ subscribers_for (unsubscribe t client k) k' <-> c ∈ subscribers_for t k' /\ ~ (c = client /\ k' = k).
Proof.
  unfold unsubscribe. destruct (subscribers t !! k) as [subs|] eqn:E.
  - unfold subscribers_for. cbn [set_subscribers subscribers]. case_bool_decide as En.
    + destruct (decide (k' = k)) as [->|Hne]; [rewrite lookup_delete_eq, E|rewrite lookup_delete_ne by done]; cbn; [|naive_solver].
      rewrite <- En, elem_of_without. naive_solver.
    + destruct (decide (k' = k)) as [->|Hne]; [rewrite lookup_insert_eq, E|rewrite lookup_insert_ne by done]; cbn; [|naive_solver].
      rewrite elem_of_without. naive_solver.
  - rewrite elem_of_subscribers_for. naive_solver.
Qed.
