(* ===== verification/Metadata.v ===== *)
(** * The metadata store ([phux-server/src/state/metadata.rs], [MetadataStore])

    Values by scope and key, and who subscribed to what. A [HashMap] is a [gmap] and the
    subscription set a [gset]; [Vec::sort] on keys is a parameter-free insertion sort on bytes. *)

From stdpp Require Import gmap.
From Stdlib Require Import Sorting.Sorted.
From S2P Require Import Prelude Ids Codec IdBridge Leases.

Abbreviation value := (list Z).
Abbreviation mkey := (list Z).

#[export] Instance Scope_eq_dec : EqDecision Scope.
Proof. solve_decision. Defined.
#[export] Instance Scope_countable : Countable Scope.
Proof.
  refine (inj_countable'
    (fun s => match s with Scope_Resource id => inl id | Scope_Group g => inr (Some g) | Scope_Global => inr None end)
    (fun x => match x with inl id => Scope_Resource id | inr (Some g) => Scope_Group g | inr None => Scope_Global end) _).
  by intros [].
Defined.

(* phux-server/src/state/metadata.rs MAX_SUBSCRIPTIONS_PER_CLIENT *)
Definition MAX_SUBSCRIPTIONS_PER_CLIENT : nat := 512.

(* phux-server/src/state/metadata.rs MetadataStore *)
Record MetadataStore : Type := mkMetadata {
  md_terminal : gmap ResourceId (gmap mkey value);
  md_group : gmap Z (gmap mkey value);
  md_global : gmap mkey value;
  subscriptions : gset (ClientId * Scope * mkey)
}.
(* phux-server/src/state/metadata.rs MetadataSetOutcome *)
Inductive MetadataSetOutcome : Type := Changed | Unchanged.

Definition metadata_new : MetadataStore := mkMetadata ∅ ∅ ∅ ∅.

Definition set_terminal m x := mkMetadata x (md_group m) (md_global m) (subscriptions m).
Definition set_group m x := mkMetadata (md_terminal m) x (md_global m) (subscriptions m).
Definition set_global m x := mkMetadata (md_terminal m) (md_group m) x (subscriptions m).
Definition set_subscriptions m x := mkMetadata (md_terminal m) (md_group m) (md_global m) x.

(** ** Values *)

(* phux-server/src/state/metadata.rs MetadataStore::get *)
Definition get (m : MetadataStore) (scope : Scope) (k : mkey) : option value :=
  match scope with
  | Scope_Resource tid => md_terminal m !! tid ≫= fun b => b !! k
  | Scope_Group gid => md_group m !! gid ≫= fun b => b !! k
  | Scope_Global => md_global m !! k
  end.

(** [entry(..).or_default()] leaves the bucket behind even when nothing is written. *)
Definition bucket (m : MetadataStore) (scope : Scope) : gmap mkey value :=
  match scope with
  | Scope_Resource tid => default ∅ (md_terminal m !! tid)
  | Scope_Group gid => default ∅ (md_group m !! gid)
  | Scope_Global => md_global m
  end.
Definition with_bucket (m : MetadataStore) (scope : Scope) (b : gmap mkey value) : MetadataStore :=
  match scope with
  | Scope_Resource tid => set_terminal m (<[tid := b]> (md_terminal m))
  | Scope_Group gid => set_group m (<[gid := b]> (md_group m))
  | Scope_Global => set_global m b
  end.

(* phux-server/src/state/metadata.rs MetadataStore::set *)
Definition set (m : MetadataStore) (scope : Scope) (k : mkey) (v : value) : MetadataSetOutcome * MetadataStore :=
  let b := bucket m scope in
  let m := with_bucket m scope b in
  if bool_decide (b !! k = Some v) then (Unchanged, m)
  else (Changed, with_bucket m scope (<[k := v]> b)).

(* phux-server/src/state/metadata.rs MetadataStore::delete *)
Definition delete_key (m : MetadataStore) (scope : Scope) (k : mkey) : bool * MetadataStore :=
  match scope with
  | Scope_Resource tid =>
      match md_terminal m !! tid with
      | Some b => (bool_decide (is_Some (b !! k)), set_terminal m (<[tid := delete k b]> (md_terminal m)))
      | None => (false, m)
      end
  | Scope_Group gid =>
      match md_group m !! gid with
      | Some b => (bool_decide (is_Some (b !! k)), set_group m (<[gid := delete k b]> (md_group m)))
      | None => (false, m)
      end
  | Scope_Global => (bool_decide (is_Some (md_global m !! k)), set_global m (delete k (md_global m)))
  end.

(** [String]'s order is the order of its bytes. *)
Fixpoint bytes_leb (a b : mkey) : bool :=
  match a, b with
  | [], _ => true
  | _ :: _, [] => false
  | x :: a, y :: b => if x <? y then true else if x =? y then bytes_leb a b else false
  end.
Fixpoint insert_sorted (k : mkey) (ks : list mkey) : list mkey :=
  match ks with
  | [] => [k]
  | x :: ks => if bytes_leb k x then k :: x :: ks else x :: insert_sorted k ks
  end.
Definition sort_keys (ks : list mkey) : list mkey := foldr insert_sorted [] ks.

(* phux-server/src/state/metadata.rs MetadataStore::list *)
Definition list_keys (m : MetadataStore) (scope : Scope) : list mkey :=
  sort_keys
    match scope with
    | Scope_Resource tid => default [] ((fun b : gmap mkey value => map fst (map_to_list b)) <$> md_terminal m !! tid)
    | Scope_Group gid => default [] ((fun b : gmap mkey value => map fst (map_to_list b)) <$> md_group m !! gid)
    | Scope_Global => map fst (map_to_list (md_global m))
    end.

(* phux-server/src/state/metadata.rs MetadataStore::forget_terminal *)
Definition forget_terminal (m : MetadataStore) (tid : ResourceId) : MetadataStore :=
  let m := set_terminal m (delete tid (md_terminal m)) in
  set_subscriptions m (filter (fun t => t.1.2 <> Scope_Resource tid) (subscriptions m)).

(** ** Subscriptions *)

(* phux-server/src/state/metadata.rs MetadataStore::subscribe *)
Definition subscribe (m : MetadataStore) (client : ClientId) (scope : Scope) (k : mkey) : bool * MetadataStore :=
  let triple := (client, scope, k) in
  if bool_decide (triple ∈ subscriptions m) then (true, m)
  else
    let held_by_client := size (filter (fun t => t.1.1 = client) (subscriptions m)) in
    if (MAX_SUBSCRIPTIONS_PER_CLIENT <=? held_by_client)%nat then (false, m)
    else (true, set_subscriptions m ({[triple]} ∪ subscriptions m)).

(* phux-server/src/state/metadata.rs MetadataStore::drop_client *)
Definition drop_client (m : MetadataStore) (client : ClientId) : MetadataStore :=
  set_subscriptions m (filter (fun t => t.1.1 <> client) (subscriptions m)).

(* phux-server/src/state/metadata.rs MetadataStore::subscribers_for *)
Definition subscribers_for (m : MetadataStore) (scope : Scope) (k : mkey) : list ClientId :=
  map (fun t => t.1.1) (List.filter (fun t : ClientId * Scope * mkey => bool_decide (t.1.2 = scope /\ t.2 = k)) (elements (subscriptions m))).

(** ** Lemmas *)

Lemma get_bucket m scope k : get m scope k = bucket m scope !! k.
Proof.
  destruct scope as [tid|gid|]; cbn; [destruct (md_terminal m !! tid)|destruct (md_group m !! gid)|]; cbn;
    by rewrite ?lookup_empty.
Qed.

Lemma bucket_with m scope b scope' :
  bucket (with_bucket m scope b) scope' = if bool_decide (scope' = scope) then b else bucket m scope'.
Proof.
  case_bool_decide as E.
  - subst. by destruct scope; cbn; rewrite ?lookup_insert_eq.
  - destruct scope, scope'; cbn; try done; rewrite lookup_insert_ne; done || congruence.
Qed.

Lemma subscriptions_with m scope b : subscriptions (with_bucket m scope b) = subscriptions m.
Proof. by destruct scope. Qed.

Lemma elem_of_metadata_subscribers m scope k c : c ∈ subscribers_for m scope k <-> (c, scope, k) ∈ subscriptions m.
Proof.
  unfold subscribers_for. rewrite list_elem_of_In, in_map_iff. split.
  - intros ([[c' s'] k'] & <- & [Hin H]%filter_In). apply bool_decide_eq_true in H. cbn in *. destruct H as [-> ->].
    by apply elem_of_elements, list_elem_of_In.
  - intros H. exists (c, scope, k). split; [done|]. apply filter_In. split; [by apply list_elem_of_In, elem_of_elements|].
    by apply bool_decide_eq_true.
Qed.

Lemma insert_sorted_perm k ks : insert_sorted k ks ≡ₚ k :: ks.
Proof.
  induction ks as [|x ks IH]; cbn; [done|]. destruct (bytes_leb k x); [done|]. rewrite IH. apply perm_swap.
Qed.

Lemma sort_keys_perm ks : sort_keys ks ≡ₚ ks.
Proof. induction ks as [|k ks IH]; cbn; [done|]. by rewrite insert_sorted_perm, IH. Qed.

Lemma elem_of_list_keys m scope k : k ∈ list_keys m scope <-> is_Some (get m scope k).
Proof.
  unfold list_keys. rewrite sort_keys_perm, get_bucket.
  assert (Hb : forall b : gmap mkey value, k ∈ map fst (map_to_list b) <-> is_Some (b !! k)).
  { intros b. rewrite list_elem_of_In, in_map_iff. split.
    - intros ([k' v] & <- & H). apply list_elem_of_In, elem_of_map_to_list in H. by exists v.
    - intros [v H]. exists (k, v). split; [done|]. by apply list_elem_of_In, elem_of_map_to_list. }
  destruct scope as [tid|gid|]; cbn; [destruct (md_terminal m !! tid)|destruct (md_group m !! gid)|]; cbn; rewrite ?Hb;
    try done; rewrite lookup_empty; (split; [by intros H%not_elem_of_nil|by intros []]).
Qed.

Lemma bytes_leb_total a b : bytes_leb a b = false -> bytes_leb b a = true.
Proof.
  revert b. induction a as [|x a IH]; intros [|y b]; cbn; try done.
  destruct (Z.ltb_spec x y); [done|]. destruct (Z.eqb_spec x y) as [->|]; [|intros _; by rewrite (proj2 (Z.ltb_lt _ _)) by lia].
  rewrite Z.ltb_irrefl, Z.eqb_refl. apply IH.
Qed.

Lemma insert_sorted_sorted k ks :
  Sorted (fun a b => bytes_leb a b = true) ks -> Sorted (fun a b => bytes_leb a b = true) (insert_sorted k ks).
Proof.
  induction 1 as [|x ks Hs IH Hd]; cbn; [by repeat constructor|]. destruct (bytes_leb k x) eqn:E; [by repeat constructor|].
  constructor; [done|]. destruct ks as [|y ks]; cbn; [constructor; by apply bytes_leb_total|].
  destruct (bytes_leb k y); constructor; [by apply bytes_leb_total|by inversion Hd].
Qed.

Lemma sort_keys_sorted ks : Sorted (fun a b => bytes_leb a b = true) (sort_keys ks).
Proof. induction ks as [|k ks IH]; cbn; [constructor|by apply insert_sorted_sorted]. Qed.

(** ** Properties *)

(** The store as one partial map from scope and key to value. *)
Definition update (f : Scope -> mkey -> option value) (scope : Scope) (k : mkey) (v : option value) :
    Scope -> mkey -> option value :=
  fun s k' => if bool_decide (s = scope /\ k' = k) then v else f s k'.

Lemma get_with m scope b s k :
  get (with_bucket m scope b) s k = if bool_decide (s = scope) then b !! k else get m s k.
Proof. rewrite !get_bucket, bucket_with. by case_bool_decide. Qed.

Lemma get_delete m scope k s k' :
  get (delete_key m scope k).2 s k' = update (get m) scope k None s k'.
Proof.
  unfold update. destruct scope as [tid|gid|]; unfold delete_key.
  - destruct (md_terminal m !! tid) as [b|] eqn:E; cbn [snd].
    + change (set_terminal m _) with (with_bucket m (Scope_Resource tid) (delete k b)). rewrite get_with. case_bool_decide as E1; case_bool_decide as E2.
      * destruct E2 as [_ ->]. apply lookup_delete_eq.
      * subst s. rewrite lookup_delete_ne by naive_solver. cbn. by rewrite E.
      * by destruct E2.
      * done.
    + case_bool_decide as E2; [|done]. destruct E2 as [-> ->]. cbn. by rewrite E.
  - destruct (md_group m !! gid) as [b|] eqn:E; cbn [snd].
    + change (set_group m _) with (with_bucket m (Scope_Group gid) (delete k b)). rewrite get_with. case_bool_decide as E1; case_bool_decide as E2.
      * destruct E2 as [_ ->]. apply lookup_delete_eq.
      * subst s. rewrite lookup_delete_ne by naive_solver. cbn. by rewrite E.
      * by destruct E2.
      * done.
    + case_bool_decide as E2; [|done]. destruct E2 as [-> ->]. cbn. by rewrite E.
  - cbn [snd]. change (set_global m _) with (with_bucket m Scope_Global (delete k (md_global m))). rewrite get_with. case_bool_decide as E1; case_bool_decide as E2.
    + destruct E2 as [_ ->]. apply lookup_delete_eq.
    + subst s. rewrite lookup_delete_ne by naive_solver. done.
    + by destruct E2.
    + done.
Qed.

Lemma deleted_existed m scope k : (delete_key m scope k).1 = bool_decide (is_Some (get m scope k)).
Proof.
  destruct scope as [tid|gid|]; cbn; [destruct (md_terminal m !! tid)|destruct (md_group m !! gid)|]; cbn; try done;
    symmetry; apply bool_decide_eq_false; by intros [].
Qed.

Lemma get_set m scope k v s k' : get (set m scope k v).2 s k' = update (get m) scope k (Some v) s k'.
Proof.
  unfold set, update. case_bool_decide as Eb; cbn [snd]; rewrite !get_with; case_bool_decide as E1; case_bool_decide as E2;
    try done; subst; try (by destruct E2).
  - by destruct E2 as [_ ->].
  - by rewrite get_bucket.
  - destruct E2 as [_ ->]. apply lookup_insert_eq.
  - rewrite lookup_insert_ne by naive_solver. by rewrite get_bucket.
Qed.

Lemma subscriptions_set m scope k v : subscriptions (set m scope k v).2 = subscriptions m.
Proof. unfold set. case_bool_decide; cbn; by rewrite !subscriptions_with. Qed.

Lemma subscriptions_delete m scope k : subscriptions (delete_key m scope k).2 = subscriptions m.
Proof.
  destruct scope as [tid|gid|]; cbn; [destruct (md_terminal m !! tid)|destruct (md_group m !! gid)|]; done.
Qed.

(** the three-level store is one map from scope and key to value: [set] writes exactly its
    entry and answers [Unchanged] exactly when the value was there; [delete] removes exactly its
    entry and answers whether there was one; [forget_terminal] removes exactly the Terminal's
    entries; [list] answers the scope's keys in order, each once; a new store is empty. *)
Theorem metadata_is_a_map m scope k v tid :
  (forall s k', get (set m scope k v).2 s k' = update (get m) scope k (Some v) s k') /\
  ((set m scope k v).1 = Unchanged <-> get m scope k = Some v) /\
  (forall s k', get (delete_key m scope k).2 s k' = update (get m) scope k None s k') /\
  ((delete_key m scope k).1 = true <-> is_Some (get m scope k)) /\
  (forall s k', get (forget_terminal m tid) s k' = if bool_decide (s = Scope_Resource tid) then None else get m s k') /\
  (forall k', k' ∈ list_keys m scope <-> is_Some (get m scope k')) /\
  NoDup (list_keys m scope) /\ Sorted (fun a b => bytes_leb a b = true) (list_keys m scope) /\
  get metadata_new scope k = None.
Proof.
  split; [apply get_set|]. split.
  { unfold set. rewrite get_bucket. by case_bool_decide. }
  split; [apply get_delete|]. split; [rewrite deleted_existed; apply bool_decide_eq_true|]. split.
  { intros s k'. destruct s as [t|g|]; cbn; [|done..]. case_bool_decide as E.
    - injection E as ->. by rewrite lookup_delete_eq.
    - rewrite lookup_delete_ne; [done|congruence]. }
  split; [intros; apply elem_of_list_keys|]. split; [|split; [apply sort_keys_sorted|]].
  - unfold list_keys. rewrite sort_keys_perm.
    assert (Hb : forall b : gmap mkey value, NoDup (map fst (map_to_list b))) by (intros b; apply NoDup_fst_map_to_list).
    destruct scope as [t|g|]; cbn; [destruct (md_terminal m !! t)|destruct (md_group m !! g)|]; cbn; try apply Hb; apply NoDup_nil_2.
  - by destruct scope.
Qed.

(** The calls that touch subscriptions. *)
Inductive metadata_step : MetadataStore -> MetadataStore -> Prop :=
| md_set m scope k v : metadata_step m (set m scope k v).2
| md_delete m scope k : metadata_step m (delete_key m scope k).2
| md_forget m tid : metadata_step m (forget_terminal m tid)
| md_subscribe m client scope k : metadata_step m (subscribe m client scope k).2
| md_drop m client : metadata_step m (drop_client m client).
Inductive metadata_reachable : MetadataStore -> Prop :=
| md_new : metadata_reachable metadata_new
| md_step m m' : metadata_reachable m -> metadata_step m m' -> metadata_reachable m'.

Definition held (m : MetadataStore) (client : ClientId) : gset (ClientId * Scope * mkey) :=
  filter (fun t => t.1.1 = client) (subscriptions m).

Lemma held_mono m m' client : subscriptions m' ⊆ subscriptions m -> (size (held m' client) <= size (held m client))%nat.
Proof. intros H. apply subseteq_size. unfold held. set_solver. Qed.

Lemma metadata_step_held m m' client :
  metadata_step m m' -> (size (held m client) <= MAX_SUBSCRIPTIONS_PER_CLIENT)%nat ->
  (size (held m' client) <= MAX_SUBSCRIPTIONS_PER_CLIENT)%nat.
Proof.
  intros Hs Hc. destruct Hs as [m scope k v|m scope k|m tid|m c scope k|m c].
  - unfold held. rewrite subscriptions_set. apply Hc.
  - unfold held. rewrite subscriptions_delete. apply Hc.
  - etrans; [apply held_mono|exact Hc]. cbn. set_solver.
  - unfold subscribe. case_bool_decide as E; [done|]. destruct (Nat.leb_spec MAX_SUBSCRIPTIONS_PER_CLIENT
      (size (filter (fun t => t.1.1 = c) (subscriptions m)))) as [|Hlt]; [done|]. cbn [snd].
    fold (held m c) in Hlt. destruct (decide (c = client)) as [->|Hne].
    + assert (Hsub : held (set_subscriptions m ({[(client, scope, k)]} ∪ subscriptions m)) client
        ⊆ {[(client, scope, k)]} ∪ held m client) by (unfold held; set_solver).
      apply subseteq_size in Hsub. rewrite size_union_alt, size_singleton in Hsub.
      assert (size (held m client ∖ {[(client, scope, k)]}) <= size (held m client))%nat by (apply subseteq_size; set_solver). lia.
    + etrans; [apply subseteq_size with (Y := held m client); unfold held; set_solver|exact Hc].
  - etrans; [apply held_mono|exact Hc]. cbn. set_solver.
Qed.

(** no client ever holds more than 512 subscriptions; [subscribe] is refused exactly when the
    client is at the cap and the triple is new, an accepted one is listed for its scope and key
    until it is dropped, and [drop_client] and [forget_terminal] drop exactly their own. *)
Theorem subscriptions_capped m client scope k tid :
  metadata_reachable m ->
  (size (held m client) <= MAX_SUBSCRIPTIONS_PER_CLIENT)%nat /\
  ((subscribe m client scope k).1 = false <->
     (client ∉ subscribers_for m scope k) /\ size (held m client) = MAX_SUBSCRIPTIONS_PER_CLIENT) /\
  (forall c s k', c ∈ subscribers_for (subscribe m client scope k).2 s k' <->
     c ∈ subscribers_for m s k' \/ ((subscribe m client scope k).1 = true /\ c = client /\ s = scope /\ k' = k)) /\
  (forall c s k', c ∈ subscribers_for (drop_client m client) s k' <-> c ∈ subscribers_for m s k' /\ c <> client) /\
  (forall c s k', c ∈ subscribers_for (forget_terminal m tid) s k' <->
     c ∈ subscribers_for m s k' /\ s <> Scope_Resource tid).
Proof.
  intros Hm. assert (Hcap : forall c, (size (held m c) <= MAX_SUBSCRIPTIONS_PER_CLIENT)%nat).
  { intros c. induction Hm as [|m m' _ IH Hs]; [by vm_compute; lia|by eapply metadata_step_held]. }
  split; [apply Hcap|]. specialize (Hcap client). setoid_rewrite elem_of_metadata_subscribers.
  unfold subscribe. fold (held m client). split; [|split; [|split]].
  - case_bool_decide as E; [cbn; split; [done|by intros [? _]]|].
    destruct (Nat.leb_spec MAX_SUBSCRIPTIONS_PER_CLIENT (size (held m client))); cbn; (split; [|intros [_ ?]; lia || done]); [|done].
    intros _. split; [done|lia].
  - intros c s k'. case_bool_decide as E; cbn [fst snd].
    + split; [by left|]. intros [?|(_ & -> & -> & ->)]; done.
    + destruct (MAX_SUBSCRIPTIONS_PER_CLIENT <=? size (held m client))%nat; cbn [fst snd subscriptions set_subscriptions]; [split; [by left|intros [?|[? _]]; done]|]. rewrite elem_of_union, elem_of_singleton.
      split; [intros [[= -> -> ->]|?]; [by right|by left]|intros [?|(_ & -> & -> & ->)]; [by right|by left]].
  - intros c s k'. cbn. rewrite elem_of_filter. cbn. tauto.
  - intros c s k'. cbn. rewrite elem_of_filter. cbn. tauto.
Qed.

Lemma subscriptions_capped_witness :
  5 ∈ subscribers_for (subscribe metadata_new 5 Scope_Global [112]).2 Scope_Global [112].
Proof.
  destruct (subscriptions_capped metadata_new 5 Scope_Global [112] (ResourceId_Local 1) md_new) as (_ & _ & H & _).
  apply H. right. split; [|done]. by vm_compute.
Defined.
