(* ===== verification/SessionTable.v ===== *)
(** * The session table ([phux-server/src/state/session_table.rs])

    The registry with the ledgers hung off its sessions and windows: last touch, roots,
    last working directories, and the sessions a group kill released. Iterating a slotmap or a
    [HashMap] is iterating [map_to_list]; the keys a creation uses are the caller's. *)

From stdpp Require Import gmap.
From S2P Require Import Prelude Leases Window Registry.

(** A path is its bytes. *)
Abbreviation Path := (list Z).

(* phux-server/src/state/metadata.rs RenameOutcome *)
Inductive RenameOutcome : Type := Renamed | Rename_NotFound | NameTaken.
(* phux-server/src/state/metadata.rs KeepEmptyOutcome *)
Inductive KeepEmptyOutcome : Type := Keep_Changed | Keep_Unchanged | Keep_Removed | Keep_NotFound.

(* phux-server/src/state/session_table.rs SessionTable *)
Record SessionTable : Type := mkSessionTable {
  registry : Registry;
  last_touched : gmap SessionId Z;
  next_touch_timestamp : Z;
  roots : gmap SessionId Path;
  window_last_cwd : gmap WindowId Path;
  released_keep_empty : gset SessionId;
  killed_pending : list SessionId
}.

(* phux-server/src/state/session_table.rs SessionTable::new *)
Definition session_table_new : SessionTable := mkSessionTable Registry.new ∅ 1 ∅ ∅ ∅ [].

Definition with_registry t r := mkSessionTable r (last_touched t) (next_touch_timestamp t) (roots t) (window_last_cwd t) (released_keep_empty t) (killed_pending t).
Definition with_touched t m n := mkSessionTable (registry t) m n (roots t) (window_last_cwd t) (released_keep_empty t) (killed_pending t).
Definition with_roots t m := mkSessionTable (registry t) (last_touched t) (next_touch_timestamp t) m (window_last_cwd t) (released_keep_empty t) (killed_pending t).
Definition with_cwds t m := mkSessionTable (registry t) (last_touched t) (next_touch_timestamp t) (roots t) m (released_keep_empty t) (killed_pending t).
Definition with_released t s k := mkSessionTable (registry t) (last_touched t) (next_touch_timestamp t) (roots t) (window_last_cwd t) s k.

(** [session_mut] of the registry with a write to the session found. *)
Definition map_session (r : Registry) (id : SessionId) (f : Session -> Session) : Registry :=
  set_sessions r (alter f id (reg_sessions r)).
Definition with_name (s : Session) n : Session := mkSession (session_id s) n (windows s) (active_window s) (created_at s) (keep_empty s).
Definition with_keep_empty (s : Session) b : Session := mkSession (session_id s) (name s) (windows s) (active_window s) (created_at s) b.
Definition with_created_at (s : Session) t : Session := mkSession (session_id s) (name s) (windows s) (active_window s) t (keep_empty s).

(** ** Last touch *)

(** [Iterator::max_by_key]: the last of the greatest. *)
Fixpoint max_by_key {A} (f : A -> Z) (xs : list A) : option A :=
  match xs with
  | [] => None
  | x :: xs => match max_by_key f xs with
               | Some y => if f x <=? f y then Some y else Some x
               | None => Some x
               end
  end.

(* phux-server/src/state/session_table.rs SessionTable::most_recently_touched *)
Definition most_recently_touched (t : SessionTable) : option SessionId :=
  fst <$> max_by_key snd
    (List.filter (fun kv : SessionId * Z => bool_decide (is_Some (reg_sessions (registry t) !! kv.1))) (map_to_list (last_touched t))).
(* phux-server/src/state/session_table.rs SessionTable::has_touch_history *)
Definition has_touch_history (t : SessionTable) : bool := negb (bool_decide (last_touched t = ∅)).
(* phux-server/src/state/session_table.rs SessionTable::touch *)
Definition touch (t : SessionTable) (session : SessionId) : SessionTable :=
  let touched_at := next_touch_timestamp t in
  with_touched t (<[session := touched_at]> (last_touched t)) (Z.min (touched_at + 1) u64_max).

(** ** Lookup *)

(* phux-server/src/state/session_table.rs SessionTable::active_pane_of *)
Definition active_pane_of (t : SessionTable) (session : SessionId) : option ResourceId :=
  s ← reg_sessions (registry t) !! session;
  w ← active_window s;
  w ← reg_windows (registry t) !! w;
  active w.
(* phux-server/src/state/session_table.rs SessionTable::find_by_name *)
Definition find_by_name (t : SessionTable) (n : bytes) : option SessionId :=
  fst <$> List.find (fun kv : SessionId * Session => bool_decide (name kv.2 = n)) (map_to_list (reg_sessions (registry t))).
(* phux-server/src/state/session_table.rs SessionTable::by_name *)
Definition by_name (t : SessionTable) (n : bytes) : option Session :=
  id ← find_by_name t n; reg_sessions (registry t) !! id.
(* phux-server/src/state/session_table.rs SessionTable::active_window_of *)
Definition active_window_of (t : SessionTable) (session : SessionId) : option WindowId :=
  s ← reg_sessions (registry t) !! session; active_window s.
(* phux-server/src/state/session_table.rs SessionTable::seed_pane_of *)
Definition seed_pane_of (t : SessionTable) (session : SessionId) : option ResourceId :=
  s ← reg_sessions (registry t) !! session;
  w ← head (windows s);
  w ← reg_windows (registry t) !! w;
  head (slots w).

(** ** Mutation *)

(* phux-server/src/state/session_table.rs SessionTable::rename *)
Definition rename (t : SessionTable) (current new_name : bytes) : RenameOutcome * SessionTable :=
  match find_by_name t current with
  | None => (Rename_NotFound, t)
  | Some id =>
      if negb (bool_decide (current = new_name)) && bool_decide (is_Some (find_by_name t new_name)) then (NameTaken, t)
      else (Renamed, with_registry t (map_session (registry t) id (fun s => with_name s new_name)))
  end.

(** [expect] on a refusal panics: [None]. *)
(* phux-server/src/state/session_table.rs SessionTable::seed *)
Definition seed (t : SessionTable) (n : bytes) (now : Z) (sid : SessionId) (wid : WindowId) (pid : ResourceId)
    : option SessionTable :=
  let r := new_session (registry t) sid n now in
  match new_window r wid sid with
  | Err _ => None
  | Ok r => match new_terminal r pid wid with
            | Err _ => None
            | Ok r => Some (with_registry t r)
            end
  end.
(* phux-server/src/state/session_table.rs SessionTable::seed_empty *)
Definition seed_empty (t : SessionTable) (n : bytes) (now : Z) (sid : SessionId) : SessionTable :=
  let r := new_session (registry t) sid n now in
  with_registry t (map_session r sid (fun s => with_keep_empty s true)).

(** The window is made under [wid] when the session has none; a refusal by [new_terminal] leaves
    that window behind. *)
(* phux-server/src/state/session_table.rs SessionTable::add_pane *)
Definition add_pane (t : SessionTable) (session : SessionId) (wid : WindowId) (pid : ResourceId)
    : option ResourceId * SessionTable :=
  match reg_sessions (registry t) !! session with
  | None => (None, t)
  | Some s =>
      let host := match head (windows s) with
                  | Some w => Some (w, registry t)
                  | None => match new_window (registry t) wid session with Ok r => Some (wid, r) | Err _ => None end
                  end in
      match host with
      | None => (None, t)
      | Some (w, r) => match new_terminal r pid w with
                       | Ok r => (Some pid, with_registry t r)
                       | Err _ => (None, with_registry t r)
                       end
      end
  end.
(* phux-server/src/state/session_table.rs SessionTable::add_pane_beside *)
Definition add_pane_beside (t : SessionTable) (owner pid : ResourceId) : option ResourceId * SessionTable :=
  match reg_resources (registry t) !! owner ≫= window with
  | None => (None, t)
  | Some w => match new_terminal (registry t) pid w with
              | Ok r => (Some pid, with_registry t r)
              | Err _ => (None, t)
              end
  end.

(** ** Working directories *)

(* phux-server/src/state/session_table.rs SessionTable::root *)
Definition root (t : SessionTable) (session : SessionId) : option Path := roots t !! session.
(* phux-server/src/state/session_table.rs SessionTable::record_root *)
Definition record_root (t : SessionTable) (session : SessionId) (r : Path) : Path * SessionTable :=
  match roots t !! session with
  | Some r' => (r', t)
  | None => (r, with_roots t (<[session := r]> (roots t)))
  end.
(* phux-server/src/state/session_table.rs SessionTable::last_cwd *)
Definition last_cwd (t : SessionTable) (w : WindowId) : option Path := window_last_cwd t !! w.
(* phux-server/src/state/session_table.rs SessionTable::record_last_cwd *)
Definition record_last_cwd (t : SessionTable) (w : WindowId) (p : Path) : SessionTable :=
  with_cwds t (<[w := p]> (window_last_cwd t)).

(** ** Teardown *)

(* phux-server/src/state/session_table.rs SessionTable::forget_window *)
Definition forget_window (t : SessionTable) (w : WindowId) : SessionTable := with_cwds t (delete w (window_last_cwd t)).
(* phux-server/src/state/session_table.rs SessionTable::forget_session *)
Definition forget_session (t : SessionTable) (s : SessionId) : SessionTable :=
  let t := with_touched t (delete s (last_touched t)) (next_touch_timestamp t) in
  let t := with_roots t (delete s (roots t)) in
  with_released t (released_keep_empty t ∖ {[s]}) (killed_pending t).
(* phux-server/src/state/session_table.rs SessionTable::mark_released *)
Definition mark_released (t : SessionTable) (s : SessionId) : SessionTable :=
  with_released t ({[s]} ∪ released_keep_empty t) (killed_pending t).
(* phux-server/src/state/session_table.rs SessionTable::note_removed *)
Definition note_removed (t : SessionTable) (s : SessionId) : SessionTable :=
  if bool_decide (s ∈ released_keep_empty t)
  then with_released t (released_keep_empty t ∖ {[s]}) (killed_pending t ++ [s])
  else t.
(* phux-server/src/state/session_table.rs SessionTable::take_killed *)
Definition take_killed (t : SessionTable) : list SessionId * SessionTable :=
  (killed_pending t, with_released t (released_keep_empty t) []).

(** ** Restoring *)

(* phux-server/src/state/session_table.rs SessionTable::last_touched_at *)
Definition last_touched_at (t : SessionTable) (s : SessionId) : option Z := last_touched t !! s.
(* phux-server/src/state/session_table.rs SessionTable::bind_last_touched *)
Definition bind_last_touched (t : SessionTable) (s : SessionId) (at_ : Z) : SessionTable :=
  with_touched t (<[s := at_]> (last_touched t)) (next_touch_timestamp t).
(* phux-server/src/state/session_table.rs SessionTable::bind_root *)
Definition bind_root (t : SessionTable) (s : SessionId) (p : Path) : SessionTable := with_roots t (<[s := p]> (roots t)).
(* phux-server/src/state/session_table.rs SessionTable::bind_last_cwd *)
Definition bind_last_cwd (t : SessionTable) (w : WindowId) (p : Path) : SessionTable :=
  with_cwds t (<[w := p]> (window_last_cwd t)).
(* phux-server/src/state/session_table.rs SessionTable::set_next_touch_timestamp *)
Definition set_next_touch_timestamp (t : SessionTable) (n : Z) : SessionTable := with_touched t (last_touched t) n.

(** ** Lemmas *)

Lemma max_by_key_spec {A} (f : A -> Z) xs :
  match max_by_key f xs with
  | None => xs = []
  | Some y => y ∈ xs /\ forall x, x ∈ xs -> f x <= f y
  end.
Proof.
  induction xs as [|x xs IH]; cbn; [done|]. destruct (max_by_key f xs) as [y|].
  - destruct IH as [Hy Hmax]. destruct (Z.leb_spec (f x) (f y)); (split; [|intros z [->|Hz]%elem_of_cons]);
      [by right|done|by apply Hmax|by left|lia|]. specialize (Hmax z Hz). lia.
  - subst. split; [by left|]. intros z ->%list_elem_of_singleton. lia.
Qed.

Lemma most_recent_spec t :
  match most_recently_touched t with
  | None => forall s at_, last_touched t !! s = Some at_ -> reg_sessions (registry t) !! s = None
  | Some s => exists at_, last_touched t !! s = Some at_ /\ is_Some (reg_sessions (registry t) !! s) /\
      forall s' at', last_touched t !! s' = Some at' -> is_Some (reg_sessions (registry t) !! s') -> at' <= at_
  end.
Proof.
  unfold most_recently_touched. set (xs := List.filter _ _).
  assert (Hin : forall s a, (s, a) ∈ xs <-> last_touched t !! s = Some a /\ is_Some (reg_sessions (registry t) !! s)).
  { intros s a. unfold xs. rewrite list_elem_of_In, filter_In, bool_decide_eq_true, <- list_elem_of_In, elem_of_map_to_list. done. }
  pose proof (max_by_key_spec snd xs) as H. destruct (max_by_key snd xs) as [[s a]|]; cbn.
  - destruct H as [Hs Hmax]. apply Hin in Hs as [Hs Hl]. exists a. split; [done|]. split; [done|].
    intros s' a' H1 H2. apply (Hmax (s', a')). by apply Hin.
  - intros s a Hs. apply eq_None_not_Some. intros Hl. assert (Hx : (s, a) ∈ xs) by by apply Hin.
    rewrite H in Hx. by apply not_elem_of_nil in Hx.
Qed.

Lemma find_by_name_spec t n :
  match find_by_name t n with
  | Some id => exists s, reg_sessions (registry t) !! id = Some s /\ name s = n
  | None => forall id s, reg_sessions (registry t) !! id = Some s -> name s <> n
  end.
Proof.
  unfold find_by_name. destruct (List.find _ _) as [[id s]|] eqn:E; cbn.
  - apply List.find_some in E as [Hin H]. exists s. split; [by apply elem_of_map_to_list, list_elem_of_In|].
    by apply bool_decide_eq_true in H.
  - intros id s Hs Hn. pose proof (List.find_none _ _ E (id, s)) as Hf. cbn in Hf. subst n.
    rewrite bool_decide_true in Hf by done. discriminate Hf. by apply list_elem_of_In, elem_of_map_to_list.
Qed.
