(* ===== verification/Agent.v ===== *)
(** * Who asks, and who owns the agent record ([phux-server/src/agent_asked.rs], [agent_state.rs])

    The ladder of pending questions, the arbiter between explicit writers and the detector, and
    the composition of the record the detector writes. The JSON of a record is serde's and enters
    as [decode] and [encode]; [str::to_lowercase] and the loaded rule set's kinds are arguments. *)

From stdpp Require Import gmap.
From S2P Require Import Prelude Ids Enums Command IdBridge.

(** ** Pending questions *)

(* phux-server/src/agent_asked.rs AskedSource *)
Inductive AskedSource : Type := Asked_Scrape | Asked_Sentinel | Asked_Hook | Asked_Stream.
#[export] Instance AskedSource_eq_dec : EqDecision AskedSource.
Proof. solve_decision. Defined.
(* phux-server/src/agent_asked.rs AskedSource::priority *)
Definition asked_priority (s : AskedSource) : Z :=
  match s with Asked_Scrape => 0 | Asked_Sentinel => 1 | Asked_Hook => 2 | Asked_Stream => 3 end.
(* phux-server/src/agent_asked.rs AskedPayload *)
Record AskedPayload : Type := mkAsked {
  ask_id : bytes; question : bytes; suggestions : list bytes; elapsed_seconds : option Z
}.
#[export] Instance AskedPayload_eq_dec : EqDecision AskedPayload.
Proof. solve_decision. Defined.
(* phux-server/src/agent_asked.rs AskedPayload::into_event *)
Definition into_event (p : AskedPayload) : AgentEvent :=
  AgentEvent_Asked (ask_id p) (question p) (suggestions p) (elapsed_seconds p).
(* phux-server/src/agent_asked.rs AskedTransition *)
Inductive AskedTransition : Type := Asked_Entered (p : AskedPayload) | Asked_Updated (p : AskedPayload) | Asked_Ignored.
(* phux-server/src/agent_asked.rs AskedTransition::emit_payload *)
Definition emit_payload (t : AskedTransition) : option AskedPayload :=
  match t with Asked_Entered p | Asked_Updated p => Some p | Asked_Ignored => None end.
(* phux-server/src/agent_asked.rs AskedState *)
Record AskedState : Type := mkAskedState { asked_source : AskedSource; asked_payload : AskedPayload }.
(* phux-server/src/agent_asked.rs AskedDetector *)
Abbreviation AskedDetector := (gmap key AskedState).

(* phux-server/src/agent_asked.rs AskedDetector::report *)
Definition report (d : AskedDetector) (terminal : key) (source : AskedSource) (payload : AskedPayload)
    : AskedTransition * AskedDetector :=
  match d !! terminal with
  | Some existing =>
      if asked_priority source <? asked_priority (asked_source existing) then (Asked_Ignored, d)
      else if bool_decide (asked_payload existing = payload)
      then (Asked_Ignored, <[terminal := mkAskedState source (asked_payload existing)]> d)
      else (Asked_Updated payload, <[terminal := mkAskedState source payload]> d)
  | None => (Asked_Entered payload, <[terminal := mkAskedState source payload]> d)
  end.
(* phux-server/src/agent_asked.rs AskedDetector::retract *)
Definition retract (d : AskedDetector) (terminal : key) (source : AskedSource) : option AskedPayload * AskedDetector :=
  match d !! terminal with
  | Some s => if bool_decide (asked_source s = source) then (Some (asked_payload s), delete terminal d) else (None, d)
  | None => (None, d)
  end.
(* phux-server/src/agent_asked.rs AskedDetector::clear_terminal *)
Definition clear_terminal (d : AskedDetector) (terminal : key) : option AskedPayload * AskedDetector :=
  (asked_payload <$> d !! terminal, delete terminal d).

(** ** The arbiter *)

(* phux-server/src/agent_state.rs EvidenceSource *)
Inductive EvidenceSource : Type := Evidence_Screen | Evidence_Process | Evidence_Hook | Evidence_Stream.
(* phux-server/src/agent_state.rs EvidenceSource::priority *)
Definition evidence_priority (s : EvidenceSource) : Z :=
  match s with Evidence_Screen => 0 | Evidence_Process => 1 | Evidence_Hook => 2 | Evidence_Stream => 3 end.
(* phux-server/src/agent_state.rs EvidenceSource::outranks *)
Definition outranks (s incumbent : EvidenceSource) : bool := evidence_priority incumbent <=? evidence_priority s.

(* phux-server/src/agent_detect/record.rs AgentRecordJson *)
Record AgentRecord : Type := mkAgentRecord {
  r_name : bytes; r_kind : option bytes; r_state : bytes; r_attention : option bytes; r_session : option bytes
}.
#[export] Instance AgentRecord_eq_dec : EqDecision AgentRecord.
Proof. solve_decision. Defined.

(* phux-server/src/agent_state.rs AgentRecordArbiter *)
Record Arbiter : Type := mkArbiter {
  declared : gset ResourceId; detector_owned : gset ResourceId;
  explicit_identity : gset ResourceId; explicit_kind : gset ResourceId
}.
Definition arbiter_new : Arbiter := mkArbiter ∅ ∅ ∅ ∅.
(* phux-server/src/agent_state.rs IdentityOwnership *)
Record IdentityOwnership : Type := mkOwnership { own_name : bool; own_kind : bool }.

(* phux-server/src/hooks.rs AGENT_STATE_UNKNOWN *)
Definition AGENT_STATE_UNKNOWN : bytes := str "unknown".

Definition nonempty (s : bytes) : bool := negb (bool_decide (s = [])).
Definition has_some {A} (o : option A) : bool := match o with Some _ => true | None => false end.
(** Put in or take out. *)
Definition mark (b : bool) (t : ResourceId) (s : gset ResourceId) : gset ResourceId := if b then {[t]} ∪ s else s ∖ {[t]}.

Section Record_bytes.
  Context (decode : bytes -> option AgentRecord) (encode : AgentRecord -> bytes).
  Context (to_lowercase : bytes -> bytes) (has_manifest : bytes -> bool).

(** The three questions [note_explicit_set] asks of the record written. *)
Definition declares_state (r : option AgentRecord) : bool :=
  match r with Some r => nonempty (r_state r) && negb (bool_decide (r_state r = AGENT_STATE_UNKNOWN)) | None => false end.
Definition supplies_identity (r : option AgentRecord) : bool :=
  match r with Some r => nonempty (r_name r) || has_some (r_session r) || has_some (r_attention r) | None => false end.
Definition supplies_kind (r : option AgentRecord) : bool :=
  match r with Some r => match r_kind r with Some k => nonempty k | None => false end | None => false end.

(* phux-server/src/agent_state.rs AgentRecordArbiter::note_explicit_set *)
Definition note_explicit_set (a : Arbiter) (t : ResourceId) (value : bytes) : Arbiter :=
  let record := decode value in
  mkArbiter (mark (declares_state record) t (declared a)) (detector_owned a ∖ {[t]})
    (mark (supplies_identity record) t (explicit_identity a)) (mark (supplies_kind record) t (explicit_kind a)).
(* phux-server/src/agent_state.rs AgentRecordArbiter::note_explicit_delete *)
Definition note_explicit_delete (a : Arbiter) (t : ResourceId) : Arbiter :=
  mkArbiter (declared a ∖ {[t]}) (detector_owned a ∖ {[t]}) (explicit_identity a ∖ {[t]}) (explicit_kind a ∖ {[t]}).
(* phux-server/src/agent_state.rs AgentRecordArbiter::note_declaration_withdrawn *)
Definition note_declaration_withdrawn (a : Arbiter) (t : ResourceId) : Arbiter :=
  mkArbiter (declared a ∖ {[t]}) (detector_owned a) (explicit_identity a) (explicit_kind a).
(* phux-server/src/agent_state.rs AgentRecordArbiter::has_explicit_identity *)
Definition has_explicit_identity (a : Arbiter) (t : ResourceId) : bool := bool_decide (t ∈ explicit_identity a).
(* phux-server/src/agent_state.rs AgentRecordArbiter::has_explicit_kind *)
Definition has_explicit_kind (a : Arbiter) (t : ResourceId) : bool := bool_decide (t ∈ explicit_kind a).
(* phux-server/src/agent_state.rs AgentRecordArbiter::identity_ownership *)
Definition identity_ownership (a : Arbiter) (t : ResourceId) : IdentityOwnership :=
  mkOwnership (has_explicit_identity a t) (has_explicit_kind a t).
(* phux-server/src/agent_state.rs AgentRecordArbiter::is_declared *)
Definition is_declared (a : Arbiter) (t : ResourceId) : bool := bool_decide (t ∈ declared a).
(* phux-server/src/agent_state.rs AgentRecordArbiter::note_detector_write *)
Definition note_detector_write (a : Arbiter) (t : ResourceId) : Arbiter :=
  mkArbiter (declared a) ({[t]} ∪ detector_owned a) (explicit_identity a) (explicit_kind a).
(* phux-server/src/agent_state.rs AgentRecordArbiter::note_detector_retract *)
Definition note_detector_retract (a : Arbiter) (t : ResourceId) : Arbiter :=
  mkArbiter (declared a) (detector_owned a ∖ {[t]}) (explicit_identity a) (explicit_kind a).
(* phux-server/src/agent_state.rs AgentRecordArbiter::detector_owns *)
Definition detector_owns (a : Arbiter) (t : ResourceId) : bool := bool_decide (t ∈ detector_owned a).
(* phux-server/src/agent_state.rs AgentRecordArbiter::forget *)
Definition arbiter_forget (a : Arbiter) (t : ResourceId) : Arbiter :=
  mkArbiter (declared a ∖ {[t]}) (detector_owned a ∖ {[t]}) (explicit_identity a ∖ {[t]}) (explicit_kind a ∖ {[t]}).

(** ** The record the detector writes *)

(** The record before it is encoded. *)
Definition composed (prior : option AgentRecord) (kind name state : bytes) (owned : IdentityOwnership) : AgentRecord :=
  match prior with
  | Some prior =>
      mkAgentRecord
        (if negb (own_name owned) || negb (nonempty (r_name prior)) then name else r_name prior)
        (if negb (own_kind owned) || negb (match r_kind prior with Some k => nonempty k | None => false end)
         then Some kind else r_kind prior)
        state (r_attention prior) (r_session prior)
  | None => mkAgentRecord name (Some kind) state None None
  end.
(* phux-server/src/agent_state.rs compose *)
Definition compose (existing : option bytes) (kind name state : bytes) (owned : IdentityOwnership) : bytes :=
  encode (composed (existing ≫= decode) kind name state owned).

(** [u8::eq_ignore_ascii_case] on the bytes of two strings. *)
Definition ascii_lower (b : Z) : Z := if (65 <=? b) && (b <=? 90) then b + 32 else b.
Definition eq_ignore_ascii_case (a b : bytes) : bool := bool_decide (map ascii_lower a = map ascii_lower b).

(* phux-server/src/agent_state.rs explicit_kind_is_contradicted *)
Definition explicit_kind_is_contradicted (existing : option bytes) (detected : bytes) : bool :=
  match (existing ≫= decode) ≫= r_kind with
  | Some stored =>
      if negb (nonempty stored) then false
      else if eq_ignore_ascii_case stored detected then false
      else has_manifest (to_lowercase stored)
  | None => false
  end.

(* phux-server/src/agent_state.rs stored_state *)
Definition stored_state (existing : option bytes) : option bytes :=
  r ← (existing ≫= decode); if nonempty (r_state r) then Some (r_state r) else None.

Definition withdrawn (r : AgentRecord) : AgentRecord :=
  mkAgentRecord (r_name r) (r_kind r) AGENT_STATE_UNKNOWN None (r_session r).
(* phux-server/src/agent_state.rs withdraw_state *)
Definition withdraw_state (existing : option bytes) : option bytes :=
  r ← (existing ≫= decode); Some (encode (withdrawn r)).

End Record_bytes.

(** ** Properties *)

(** The calls on the ladder, newest first, and what the ledger says after them. *)
Inductive AskedCall : Type :=
| Report (source : AskedSource) (payload : AskedPayload)
| Retract (source : AskedSource)
| Clear.
Definition asked_run (d : AskedDetector) (terminal : key) (c : AskedCall) : AskedDetector :=
  match c with
  | Report s p => (report d terminal s p).2
  | Retract s => (retract d terminal s).2
  | Clear => (clear_terminal d terminal).2
  end.

(** The ladder of pending questions: a report is emitted exactly when its source is not
    outranked by the one holding the pane and its question is not the one pending, and then it is
    pending; a source that is outranked changes nothing; holding passes to a source that repeats
    the question from an equal or higher rank; only the holder can retract; and no call touches
    another pane. *)
Theorem asked_ladder d t s p :
  let '(tr, d') := report d t s p in
  (match d !! t with
   | Some e => if asked_priority s <? asked_priority (asked_source e) then tr = Asked_Ignored /\ d' = d
               else d' !! t = Some (mkAskedState s p) /\
                    emit_payload tr = if bool_decide (asked_payload e = p) then None else Some p
   | None => d' !! t = Some (mkAskedState s p) /\ emit_payload tr = Some p
   end) /\
  (forall t', t' <> t -> d' !! t' = d !! t') /\
  let '(o, d'') := retract d t s in
  (is_Some o <-> exists e, d !! t = Some e /\ asked_source e = s) /\
  (d'' !! t = match d !! t with Some e => if bool_decide (asked_source e = s) then None else Some e | None => None end) /\
  (forall t', t' <> t -> d'' !! t' = d !! t').
Proof.
  unfold report, retract. destruct (d !! t) as [e|] eqn:E.
  - destruct (asked_priority s <? asked_priority (asked_source e)) eqn:Ep.
    + split; [done|]. split; [done|]. case_bool_decide as Es; (split; [|split]).
      * split; [intros _; by exists e|done].
      * apply lookup_delete_eq.
      * intros t' Ht. by apply lookup_delete_ne.
      * split; [by intros []|]. by intros (? & [= <-] & ?).
      * done.
      * done.
    + case_bool_decide as Eq; (split; [split; [rewrite lookup_insert_eq; congruence|done]|]);
        (split; [intros t' Ht; by rewrite lookup_insert_ne|]); case_bool_decide as Es; (split; [|split]);
        first [ split; [intros _; by exists e|done] | apply lookup_delete_eq | (intros t' Ht; by apply lookup_delete_ne)
              | (split; [by intros []|by intros (? & [= <-] & ?)]) | done ].
  - split; [split; [apply lookup_insert_eq|done]|]. split; [intros t' Ht; by rewrite lookup_insert_ne|].
    split; [split; [by intros []|by intros (? & ? & _)]|]. done.
Qed.
