(* ===== verification/ClientTable.v ===== *)
(** * The client table ([phux-server/src/state/client_table.rs])

    Everything keyed on a connected client. An outbound mailbox is a channel by number; what
    happens to a frame offered to it, taken or dropped because the mailbox is full or closed, is
    the channel's answer [accepts], an argument of the fanouts. *)

From stdpp Require Import gmap.
From S2P Require Import Prelude Ids Enums Caps Codec Command Frame IdBridge Leases.

(* phux-protocol/src/policy.rs TransportType *)
Inductive TransportType : Type :=
| Transport_UnixSocket | Transport_SshTunnel | Transport_Quic | Transport_WebSocket | Transport_WebTransport | Transport_Localhost.
(** A path, a key and an address are their bytes. *)
(* phux-protocol/src/policy.rs PeerIdentity *)
Record PeerIdentity : Type := mkPeer {
  uid : Z; pid : option Z; exe_path : option bytes; mcp_host_key : option bytes;
  transport : TransportType; source_addr : option IpAddr
}.
(* phux-server/src/auth.rs AuthenticatedCredential *)
Record AuthenticatedCredential : Type := mkCredential {
  cred_id : bytes; principal : bytes; scopes : list bytes; issued_at : Z; expires_at : option Z; generation : Z
}.
(* phux-server/src/auth.rs ConnectionIdentity *)
Record ConnectionIdentity : Type := mkIdentity {
  peer : PeerIdentity; credential : option AuthenticatedCredential; id_ssh_origin : option SshOrigin
}.

(* phux-server/src/state/client.rs AttachedClient *)
Record AttachedClient : Type := mkAttached {
  at_id : ClientId;
  at_session : positive;
  at_tx : Sender;
  at_caps : ClientCapabilities;
  at_profile : BootstrapProfile;
  at_limits : BootstrapLimits;
  viewport : option ViewportInfo;
  viewport_seq : Z
}.
(* phux-server/src/state/events.rs EventScope *)
Inductive EventScope : Type := Scope_Server | Scope_Terminal (id : ResourceId).
#[export] Instance EventScope_eq_dec : EqDecision EventScope.
Proof. solve_decision. Defined.
#[export] Instance EventScope_countable : Countable EventScope.
Proof.
  refine (inj_countable' (fun s => match s with Scope_Server => None | Scope_Terminal id => Some id end)
    (fun x => match x with None => Scope_Server | Some id => Scope_Terminal id end) _). by intros [].
Defined.
(* phux-server/src/state/events.rs EventSubscription *)
Record EventSubscription : Type := mkEventSub { ev_tx : Sender; ev_scopes : gset EventScope }.

(* phux-server/src/state/client_table.rs ClientTable *)
Record ClientTable : Type := mkClients {
  attached : gmap ClientId AttachedClient;
  next_id : Z;
  client_layers : gmap ClientId Z;
  event_subscriptions : gmap ClientId EventSubscription;
  metadata_mailboxes : gmap ClientId Sender;
  terminal_mailboxes : gmap ClientId Sender;
  peer_identities : gmap ClientId ConnectionIdentity;
  session_create_results : gmap ClientId (list bytes)
}.
(* phux-server/src/state/client_table.rs ClientTable::new *)
Definition clients_new : ClientTable := mkClients ∅ 1 ∅ ∅ ∅ ∅ ∅ ∅.

Definition with_attached t m := mkClients m (next_id t) (client_layers t) (event_subscriptions t) (metadata_mailboxes t) (terminal_mailboxes t) (peer_identities t) (session_create_results t).
Definition with_next_id t n := mkClients (attached t) n (client_layers t) (event_subscriptions t) (metadata_mailboxes t) (terminal_mailboxes t) (peer_identities t) (session_create_results t).
Definition with_layers t m := mkClients (attached t) (next_id t) m (event_subscriptions t) (metadata_mailboxes t) (terminal_mailboxes t) (peer_identities t) (session_create_results t).
Definition with_events t m := mkClients (attached t) (next_id t) (client_layers t) m (metadata_mailboxes t) (terminal_mailboxes t) (peer_identities t) (session_create_results t).
Definition with_metadata_mailboxes t m := mkClients (attached t) (next_id t) (client_layers t) (event_subscriptions t) m (terminal_mailboxes t) (peer_identities t) (session_create_results t).
Definition with_terminal_mailboxes t m := mkClients (attached t) (next_id t) (client_layers t) (event_subscriptions t) (metadata_mailboxes t) m (peer_identities t) (session_create_results t).
Definition with_identities t m := mkClients (attached t) (next_id t) (client_layers t) (event_subscriptions t) (metadata_mailboxes t) (terminal_mailboxes t) m (session_create_results t).
Definition with_results t m := mkClients (attached t) (next_id t) (client_layers t) (event_subscriptions t) (metadata_mailboxes t) (terminal_mailboxes t) (peer_identities t) m.

(** ** Identity and layers *)

(* phux-server/src/state/client_table.rs ClientTable::new_client_id *)
Definition new_client_id (t : ClientTable) : ClientId * ClientTable :=
  (next_id t, with_next_id t (Z.min (next_id t + 1) u64_max)).
(* phux-server/src/state/client_table.rs ClientTable::set_layers *)
Definition set_layers (t : ClientTable) (client : ClientId) (l : Z) : ClientTable :=
  with_layers t (<[client := l]> (client_layers t)).
(* caps.rs LayerSet::all *)
Definition LayerSet_all : Z := LayerSet_with [Layer_L1; Layer_L2; Layer_L3].
(* phux-server/src/state/client_table.rs ClientTable::layers *)
Definition layers_of (t : ClientTable) (client : ClientId) : Z := default LayerSet_all (client_layers t !! client).
(* phux-server/src/state/client_table.rs ClientTable::speaks_l3 *)
Definition speaks_l3 (t : ClientTable) (client : ClientId) : bool := LayerSet_contains (layers_of t client) Layer_L3.

(** ** Attached clients *)

Definition with_caps (c : AttachedClient) caps := mkAttached (at_id c) (at_session c) (at_tx c) caps (at_profile c) (at_limits c) (viewport c) (viewport_seq c).
Definition with_viewport (c : AttachedClient) v s := mkAttached (at_id c) (at_session c) (at_tx c) (at_caps c) (at_profile c) (at_limits c) v s.
Definition with_color (c : ClientCapabilities) col := mkClientCaps col (layers c) (image_protocols c) (kbd_protocols c) (hyperlinks c) (output_mode c) (default_colors c) (bootstrap c) (compression c) (ssh_origin c).

(* phux-server/src/state/client_table.rs ClientTable::set_capabilities *)
Definition set_capabilities (t : ClientTable) (client : ClientId) (caps : ClientCapabilities) : bool * ClientTable :=
  match attached t !! client with
  | Some c => (true, with_attached t (<[client := with_caps c caps]> (attached t)))
  | None => (false, t)
  end.
(* phux-server/src/state/client_table.rs ClientTable::set_color_support *)
Definition set_color_support (t : ClientTable) (client : ClientId) (color : ColorSupport) : bool * ClientTable :=
  match attached t !! client with
  | Some c => (true, with_attached t (<[client := with_caps c (with_color (at_caps c) color)]> (attached t)))
  | None => (false, t)
  end.
(* phux-server/src/state/client_table.rs ClientTable::attached_in_session *)
Definition attached_in_session (t : ClientTable) (session : positive) : list (ClientId * Sender) :=
  map (fun c => (at_id c, at_tx c))
    (List.filter (fun c => bool_decide (at_session c = session)) (map snd (map_to_list (attached t)))).

(** ** Mailboxes *)

(* phux-server/src/state/client_table.rs ClientTable::remember_terminal_mailbox *)
Definition remember_terminal_mailbox (t : ClientTable) (client : ClientId) (tx : Sender) : ClientTable :=
  with_terminal_mailboxes t (<[client := tx]> (terminal_mailboxes t)).
(* phux-server/src/state/client_table.rs ClientTable::terminal_fanout_mailbox *)
Definition terminal_fanout_mailbox (t : ClientTable) (client : ClientId) : option Sender :=
  match attached t !! client with Some c => Some (at_tx c) | None => terminal_mailboxes t !! client end.
(* phux-server/src/state/client_table.rs ClientTable::remember_metadata_mailbox *)
Definition remember_metadata_mailbox (t : ClientTable) (client : ClientId) (tx : Sender) : ClientTable :=
  with_metadata_mailboxes t (<[client := tx]> (metadata_mailboxes t)).

(** ** Event subscriptions *)

(* phux-server/src/state/client_table.rs ClientTable::subscribe_events *)
Definition subscribe_events (t : ClientTable) (client : ClientId) (terminal : option ResourceId) (tx : Sender) : ClientTable :=
  let scope := match terminal with None => Scope_Server | Some id => Scope_Terminal id end in
  let entry := default (mkEventSub tx ∅) (event_subscriptions t !! client) in
  with_events t (<[client := mkEventSub (ev_tx entry) ({[scope]} ∪ ev_scopes entry)]> (event_subscriptions t)).
Definition watches (sub : EventSubscription) (id : option ResourceId) : bool :=
  match id with Some tid => bool_decide (Scope_Terminal tid ∈ ev_scopes sub) | None => false end.
(* phux-server/src/state/client_table.rs ClientTable::event_targets *)
Definition event_targets (t : ClientTable) (terminal parent : option ResourceId) : list Sender :=
  map ev_tx
    (List.filter (fun sub => bool_decide (Scope_Server ∈ ev_scopes sub) || watches sub terminal || watches sub parent)
      (map snd (map_to_list (event_subscriptions t)))).
(* phux-server/src/state/client_table.rs ClientTable::unsubscribe_terminal_events *)
Definition unsubscribe_terminal_events (t : ClientTable) (client : ClientId) (wire : ResourceId) : ClientTable :=
  match event_subscriptions t !! client with
  | Some sub =>
      let s := ev_scopes sub ∖ {[Scope_Terminal wire]} in
      with_events t (if bool_decide (s = ∅) then delete client (event_subscriptions t)
                     else <[client := mkEventSub (ev_tx sub) s]> (event_subscriptions t))
  | None => t
  end.

(** ** Peer identities *)

(* phux-server/src/state/client_table.rs ClientTable::set_peer_identity *)
Definition set_peer_identity (t : ClientTable) (client : ClientId) (p : PeerIdentity) : ClientTable :=
  with_identities t (<[client := mkIdentity p None None]> (peer_identities t)).
(* phux-server/src/state/client_table.rs ClientTable::set_connection_identity *)
Definition set_connection_identity (t : ClientTable) (client : ClientId) (i : ConnectionIdentity) : ClientTable :=
  with_identities t (<[client := i]> (peer_identities t)).
(* phux-server/src/state/client_table.rs ClientTable::peer_identity *)
Definition peer_identity (t : ClientTable) (client : ClientId) : option PeerIdentity := peer <$> peer_identities t !! client.
(* phux-server/src/state/client_table.rs ClientTable::authenticated_credential *)
Definition authenticated_credential (t : ClientTable) (client : ClientId) : option AuthenticatedCredential :=
  peer_identities t !! client ≫= credential.
(* phux-server/src/state/client_table.rs ClientTable::set_ssh_origin *)
Definition set_ssh_origin (t : ClientTable) (client : ClientId) (origin : SshOrigin) : ClientTable :=
  with_identities t (alter (fun i => mkIdentity (peer i) (credential i) (Some origin)) client (peer_identities t)).
(* phux-server/src/state/client_table.rs ClientTable::ssh_origin *)
Definition ssh_origin_of (t : ClientTable) (client : ClientId) : option SshOrigin :=
  peer_identities t !! client ≫= id_ssh_origin.
(* phux-server/src/state/client_table.rs ClientTable::remove_peer_identity *)
Definition remove_peer_identity (t : ClientTable) (client : ClientId) : ClientTable :=
  with_identities t (delete client (peer_identities t)).

(** ** One-shot results *)

Definition has_key (k : bytes) (keys : list bytes) : bool := existsb (fun c => bool_decide (c = k)) keys.
(* phux-server/src/state/client_table.rs ClientTable::session_create_result_is_pending *)
Definition session_create_result_is_pending (t : ClientTable) (k : bytes) : bool :=
  existsb (has_key k) (map snd (map_to_list (session_create_results t))).
(* phux-server/src/state/client_table.rs ClientTable::owns_session_create_result *)
Definition owns_session_create_result (t : ClientTable) (client : ClientId) (k : bytes) : bool :=
  match session_create_results t !! client with Some keys => has_key k keys | None => false end.

(** ** Metadata fanout *)

(** The frames offered, in order, with whom they were taken by. *)
(* phux-server/src/state/client_table.rs ClientTable::broadcast_metadata_changed *)
Fixpoint broadcast_metadata_changed (accepts : Sender -> FrameKind -> bool) (t : ClientTable)
    (subscribers : list ClientId) (scope : Scope) (k : bytes) (v : option bytes)
    : list ClientId * list (Sender * FrameKind) :=
  match subscribers with
  | [] => ([], [])
  | client :: rest =>
      let '(delivered, sent) := broadcast_metadata_changed accepts t rest scope k v in
      if negb (speaks_l3 t client) then (delivered, sent)
      else
        match (match attached t !! client with Some c => Some (at_tx c) | None => metadata_mailboxes t !! client end) with
        | None => (delivered, sent)
        | Some tx =>
            let frame := FrameKind_MetadataChanged scope k v in
            if accepts tx frame then (client :: delivered, (tx, frame) :: sent) else (delivered, sent)
        end
  end.
