(* ===== verification/ServerState.v ===== *)
(** * The server's state ([phux-server/src/state/])

    [ServerState] puts the tables together: the session table, the client, resource and lease
    tables, the id space, the metadata store, the agent ledgers and the close ledger. Each
    operation is a function of the whole state, as the code's methods are on [&mut self]; frames
    offered to mailboxes are appended to [sent] when the channel takes them ([accepts]). *)

From stdpp Require Import gmap.
From S2P Require Import Prelude Enums Caps Codec Command Frame.
From S2P Require Import IdBridge Leases SpawnLedger ResourceTable Metadata SessionTable Agent ClientTable.
From S2P Require Import Window Registry.
From S2P Require Import Ids.

(** [phux_config::WindowSize]. *)
(* phux-config/src/schema.rs WindowSize *)
Inductive WindowSize : Type := Size_Manual | Size_Latest | Size_Smallest | Size_Largest.

(** Of the configuration, the window-size policy; of the hub, the satellites it has a relay to. *)
(* phux-server/src/state/mod.rs ServerState *)
Record ServerState : Type := mkServer {
  sessions : SessionTable;
  clients : ClientTable;
  resources : ResourceTable;
  leases : LeaseTable;
  satellite_spawns : SatelliteSpawnLedger;
  idspace : IdSpace;
  metadata : MetadataStore;
  asked : AskedDetector;
  agent_records : Arbiter;
  window_size : WindowSize;
  relays : gset SatelliteHost;
  has_served_client : bool;
  viewport_clock : Z;
  close_reasons : gmap key CloseReason;
  sent : list (Sender * FrameKind)
}.

Definition server_new (token : bytes) : ServerState :=
  mkServer session_table_new clients_new table_new leases_new ledger_new (id_space_new token) metadata_new ∅ arbiter_new
    Size_Smallest ∅ false 0 ∅ [].

Definition up_sessions s x := mkServer x (clients s) (resources s) (leases s) (satellite_spawns s) (idspace s) (metadata s) (asked s) (agent_records s) (window_size s) (relays s) (has_served_client s) (viewport_clock s) (close_reasons s) (sent s).
Definition up_clients s x := mkServer (sessions s) x (resources s) (leases s) (satellite_spawns s) (idspace s) (metadata s) (asked s) (agent_records s) (window_size s) (relays s) (has_served_client s) (viewport_clock s) (close_reasons s) (sent s).
Definition up_resources s x := mkServer (sessions s) (clients s) x (leases s) (satellite_spawns s) (idspace s) (metadata s) (asked s) (agent_records s) (window_size s) (relays s) (has_served_client s) (viewport_clock s) (close_reasons s) (sent s).
Definition up_leases s x := mkServer (sessions s) (clients s) (resources s) x (satellite_spawns s) (idspace s) (metadata s) (asked s) (agent_records s) (window_size s) (relays s) (has_served_client s) (viewport_clock s) (close_reasons s) (sent s).
Definition up_spawns s x := mkServer (sessions s) (clients s) (resources s) (leases s) x (idspace s) (metadata s) (asked s) (agent_records s) (window_size s) (relays s) (has_served_client s) (viewport_clock s) (close_reasons s) (sent s).
Definition up_idspace s x := mkServer (sessions s) (clients s) (resources s) (leases s) (satellite_spawns s) x (metadata s) (asked s) (agent_records s) (window_size s) (relays s) (has_served_client s) (viewport_clock s) (close_reasons s) (sent s).
Definition up_metadata s x := mkServer (sessions s) (clients s) (resources s) (leases s) (satellite_spawns s) (idspace s) x (asked s) (agent_records s) (window_size s) (relays s) (has_served_client s) (viewport_clock s) (close_reasons s) (sent s).
Definition up_asked s x := mkServer (sessions s) (clients s) (resources s) (leases s) (satellite_spawns s) (idspace s) (metadata s) x (agent_records s) (window_size s) (relays s) (has_served_client s) (viewport_clock s) (close_reasons s) (sent s).
Definition up_records s x := mkServer (sessions s) (clients s) (resources s) (leases s) (satellite_spawns s) (idspace s) (metadata s) (asked s) x (window_size s) (relays s) (has_served_client s) (viewport_clock s) (close_reasons s) (sent s).
Definition up_served s x := mkServer (sessions s) (clients s) (resources s) (leases s) (satellite_spawns s) (idspace s) (metadata s) (asked s) (agent_records s) (window_size s) (relays s) x (viewport_clock s) (close_reasons s) (sent s).
Definition up_clock s x := mkServer (sessions s) (clients s) (resources s) (leases s) (satellite_spawns s) (idspace s) (metadata s) (asked s) (agent_records s) (window_size s) (relays s) (has_served_client s) x (close_reasons s) (sent s).
Definition up_reasons s x := mkServer (sessions s) (clients s) (resources s) (leases s) (satellite_spawns s) (idspace s) (metadata s) (asked s) (agent_records s) (window_size s) (relays s) (has_served_client s) (viewport_clock s) x (sent s).
Definition up_sent s x := mkServer (sessions s) (clients s) (resources s) (leases s) (satellite_spawns s) (idspace s) (metadata s) (asked s) (agent_records s) (window_size s) (relays s) (has_served_client s) (viewport_clock s) (close_reasons s) x.

Ltac st_cbn :=
  cbn [up_sessions up_clients up_resources up_leases up_spawns up_idspace up_metadata up_asked up_records up_served
       up_clock up_reasons up_sent sessions clients resources leases satellite_spawns idspace metadata asked
       agent_records window_size relays has_served_client viewport_clock close_reasons sent].

(** Shorthands. *)
Definition reg (s : ServerState) : Registry := registry (sessions s).
Definition live (s : ServerState) (k : key) : bool := bool_decide (is_Some (reg_resources (reg s) !! k)).

Section Server.
  Context (accepts : Sender -> FrameKind -> bool).

(** ** Where a wire id leads *)

(* phux-server/src/state/resolve.rs Resolved *)
Inductive Resolved : Type :=
| Resolved_Local (id : key) (handle : ResourceHandle)
| Resolved_Remote (host : SatelliteHost) (id : Z) (relay : bool)
| Resolved_Unknown.

(* phux-server/src/state/resolve.rs ServerState::resolve_resource *)
Definition resolve_resource (s : ServerState) (wire : ResourceId) : Resolved :=
  match wire with
  | ResourceId_Satellite host id => Resolved_Remote host id (bool_decide (host ∈ relays s))
  | ResourceId_Local _ =>
      match terminal_from_wire (idspace s) wire with
      | None => Resolved_Unknown
      | Some id => match handle (resources s) id with
                   | None => Resolved_Unknown
                   | Some h => Resolved_Local id h
                   end
      end
  end.

(** ** Metadata *)

(* phux-server/src/state/metadata.rs ServerState::broadcast_metadata_change *)
Definition broadcast_metadata_change (s : ServerState) (scope : Scope) (k : bytes) (v : option bytes)
    : list ClientId * ServerState :=
  let '(delivered, frames) :=
    broadcast_metadata_changed accepts (clients s) (Metadata.subscribers_for (metadata s) scope k) scope k v in
  (delivered, up_sent s (sent s ++ frames)).

(* phux-server/src/state/metadata.rs ServerState::metadata_broadcast *)
Definition metadata_broadcast (s : ServerState) (scope : Scope) (k v : bytes) : list ClientId * ServerState :=
  broadcast_metadata_change s scope k (Some v).

(* phux-server/src/state/metadata.rs ServerState::metadata_set *)
Definition metadata_set (s : ServerState) (scope : Scope) (k v : bytes) : list ClientId * ServerState :=
  if bool_decide (get (metadata s) scope k = Some v) then ([], s)
  else
    let '(delivered, s) := metadata_broadcast s scope k v in
    (delivered, up_metadata s (Metadata.set (metadata s) scope k v).2).

(* phux-server/src/state/metadata.rs ServerState::metadata_delete *)
Definition metadata_delete (s : ServerState) (scope : Scope) (k : bytes) : list ClientId * ServerState :=
  let '(existed, m) := delete_key (metadata s) scope k in
  let s := up_metadata s m in
  if negb existed then ([], s) else broadcast_metadata_change s scope k None.

(* phux-server/src/state/metadata.rs ServerState::metadata_subscribe *)
Definition metadata_subscribe (s : ServerState) (client : ClientId) (scope : Scope) (k : bytes) (tx : Sender)
    : bool * ServerState :=
  let '(accepted, m) := Metadata.subscribe (metadata s) client scope k in
  let s := up_metadata s m in
  (accepted, if accepted then up_clients s (remember_metadata_mailbox (clients s) client tx) else s).

Definition MAX_PENDING_PER_CLIENT : nat := 256.
(* phux-server/src/state/metadata.rs ServerState::track_session_create_result *)
Definition track_session_create_result (s : ServerState) (client : ClientId) (k : bytes) : ServerState :=
  let keys := default [] (session_create_results (clients s) !! client) in
  let '(evicted, keys) := if (MAX_PENDING_PER_CLIENT <=? length keys)%nat
                          then (head keys, tail keys) else (None, keys) in
  let s := up_clients s (with_results (clients s) (<[client := keys ++ [k]]> (session_create_results (clients s)))) in
  match evicted with
  | Some old => (metadata_delete s Scope_Global old).2
  | None => s
  end.

(* phux-server/src/state/metadata.rs ServerState::consume_session_create_result *)
Definition consume_session_create_result (s : ServerState) (k : bytes) : ServerState :=
  let s := (metadata_delete s Scope_Global k).2 in
  let m := (fun keys => List.filter (fun c => negb (bool_decide (c = k))) keys) <$> session_create_results (clients s) in
  up_clients s (with_results (clients s) (filter (fun kv => kv.2 <> []) m)).

(** ** Attachment *)

(* phux-server/src/state/client.rs AttachError *)
Inductive AttachError : Type :=
| UnknownSessionName (name : bytes)
| AlreadyAttached (client : ClientId)
| ResourceLimit.

(** The panes of a session, across its windows in order. *)
Definition session_panes (r : Registry) (id : SessionId) : list key :=
  match reg_sessions r !! id with
  | Some s => concat (map (fun w => match reg_windows r !! w with Some w => slots w | None => [] end) (windows s))
  | None => []
  end.

(* phux-server/src/state/client.rs ServerState::attach *)
Definition attach (s : ServerState) (client : ClientId) (name : bytes) (tx : Sender) (caps : ClientCapabilities)
    (profile : BootstrapProfile) (limits : BootstrapLimits) : result AttachError (SessionId * ServerState) :=
  match find_by_name (sessions s) name with
  | None => Err (UnknownSessionName name)
  | Some session =>
      let attach_record :=
        match attached (clients s) !! client with
        | Some existing => if negb (bool_decide (at_session existing = session)) then None else Some s
        | None =>
            let c := mkAttached client session tx caps profile limits None 0 in
            Some (up_served (up_clients s (with_attached (clients s) (<[client := c]> (attached (clients s))))) true)
        end in
      match attach_record with
      | None => Err (AlreadyAttached client)
      | Some s =>
          Ok (session, up_resources s
               (fold_left (fun t pane => ResourceTable.subscribe t client pane) (session_panes (reg s) session) (resources s)))
      end
  end.

(* phux-server/src/state/client.rs ServerState::detach *)
Definition detach (s : ServerState) (client : ClientId) : ServerState :=
  let s := up_clients s (with_attached (clients s) (delete client (attached (clients s)))) in
  let s := up_leases s (release_all_for (leases s) client) in
  let s := up_resources s (cancel_pumps_for_client (resources s) client) in
  let s := up_resources s (drop_client_subscriptions (resources s) client) in
  let s := up_metadata s (drop_client (metadata s) client) in
  let s := up_clients s (with_metadata_mailboxes (clients s) (delete client (metadata_mailboxes (clients s)))) in
  let s := up_clients s (with_terminal_mailboxes (clients s) (delete client (terminal_mailboxes (clients s)))) in
  let keys := default [] (session_create_results (clients s) !! client) in
  let s := up_clients s (with_results (clients s) (delete client (session_create_results (clients s)))) in
  let s := fold_left (fun s k => (metadata_delete s Scope_Global k).2) keys s in
  up_clients s (with_events (clients s) (delete client (event_subscriptions (clients s)))).

(* phux-server/src/state/client.rs ServerState::forget_connection *)
Definition forget_connection (s : ServerState) (client : ClientId) : ServerState :=
  let s := detach s client in
  let s := up_clients s (with_layers (clients s) (delete client (client_layers (clients s)))) in
  up_clients s (remove_peer_identity (clients s) client).

(* phux-server/src/state/client.rs ServerState::attached_clients_to_detach *)
Definition attached_clients_to_detach (s : ServerState) (session : option bytes) : list (ClientId * Sender) :=
  let all (keep : AttachedClient -> bool) :=
    map (fun c => (at_id c, at_tx c)) (List.filter keep (map snd (map_to_list (attached (clients s))))) in
  match session with
  | None => all (fun _ => true)
  | Some name => match find_by_name (sessions s) name with
                 | None => []
                 | Some id => all (fun c => bool_decide (at_session c = id))
                 end
  end.

(** ** Subscriptions and handles *)

(* phux-server/src/state/terminals.rs ServerState::subscribe_terminal *)
Definition subscribe_terminal (s : ServerState) (client : ClientId) (k : key) (mailbox : option Sender) : ServerState :=
  let s := match mailbox with Some tx => up_clients s (remember_terminal_mailbox (clients s) client tx) | None => s end in
  up_resources s (ResourceTable.subscribe (resources s) client k).
(* phux-server/src/state/terminals.rs ServerState::unsubscribe_terminal *)
Definition unsubscribe_terminal (s : ServerState) (client : ClientId) (k : key) : ServerState :=
  up_resources s (unsubscribe (resources s) client k).
(* phux-server/src/state/terminals.rs ServerState::client_mailbox *)
Definition client_mailbox (s : ServerState) (client : ClientId) : option Sender := terminal_fanout_mailbox (clients s) client.
(* phux-server/src/state/terminals.rs ServerState::terminal_fanout_targets *)
Definition terminal_fanout_targets (s : ServerState) (k : key) : list Sender :=
  omap (fun c => terminal_fanout_mailbox (clients s) c) (ResourceTable.subscribers_for (resources s) k).
(** A panic of the id space is [None]. *)
(* phux-server/src/state/terminals.rs ServerState::register_resource_handle *)
Definition register_resource_handle (s : ServerState) (k : key) (h : ResourceHandle) (token : Token)
    : option (ResourceId * ServerState) :=
  match intern_terminal (idspace s) k with
  | None => None
  | Some (wire, ids) => let s := up_idspace s ids in Some (wire, up_resources s (register (resources s) k h token))
  end.
(* phux-server/src/state/terminals.rs ServerState::record_spawn *)
Definition record_spawn (s : ServerState) (k : key) (client : ClientId) : ServerState :=
  up_resources s (ResourceTable.record_spawn (resources s) k client).

End Server.
