(* ===== verification/Lifecycle.v ===== *)
(** * Closing and reaping ([phux-server/src/state/reap.rs], [bindings.rs], [conditional_kill.rs])

    How a resource leaves: a closer records why and cancels the engine, the exit watcher claims
    the close, cascades to the children, reaps, and tells the subscribers. *)

From stdpp Require Import gmap.
From stdpp Require Import gmap pretty.
From S2P Require Import Prelude Enums Caps Codec Command Frame.
From S2P Require Import IdBridge Leases SpawnLedger ResourceTable Metadata SessionTable Agent ClientTable.
From S2P Require Import Window Registry ServerState.
From S2P Require Import Ids.

#[export] Instance CloseReason_eq_dec : EqDecision CloseReason.
Proof. solve_decision. Defined.

(* phux-server/src/state/mod.rs DEFAULT_GROUP_ID *)
Definition DEFAULT_GROUP_ID : Z := 1.
(* phux-server/src/state/reap.rs TUI_LAYOUT_KEY *)
Definition TUI_LAYOUT_KEY : bytes := str "phux.tui.layout/v1".
(** [format!("{TUI_LAYOUT_KEY}/{}", wire)]. *)
Definition layout_key (wire : Z) : bytes := TUI_LAYOUT_KEY ++ str "/" ++ str (pretty wire).

Section Lifecycle.
  Context (accepts : Sender -> FrameKind -> bool).

(** ** Bookkeeping *)

(* phux-server/src/state/bindings.rs ServerState::forget_close_reason *)
Definition forget_close_reason (s : ServerState) (k : key) : ServerState := up_reasons s (delete k (close_reasons s)).

(* phux-server/src/state/reap.rs ServerState::forget_terminal_bookkeeping *)
Definition forget_terminal_bookkeeping (s : ServerState) (pane : key) : ServerState :=
  let s := up_resources s (forget_resource (resources s) pane) in
  let s := forget_close_reason s pane in
  let s := up_asked s (clear_terminal (asked s) pane).2 in
  let '(wire, ids) := retire_terminal (idspace s) pane in
  let s := up_idspace s ids in
  match wire with
  | Some wire => up_records (up_metadata s (forget_terminal (metadata s) wire)) (arbiter_forget (agent_records s) wire)
  | None => s
  end.

(* phux-server/src/state/reap.rs ServerState::forget_window_bookkeeping *)
Definition forget_window_bookkeeping (s : ServerState) (w : WindowId) : ServerState :=
  let s := up_idspace s (retire_window (idspace s) w) in
  up_sessions s (forget_window (sessions s) w).

(* phux-server/src/state/reap.rs ServerState::forget_session_bookkeeping *)
Definition forget_session_bookkeeping (s : ServerState) (id : SessionId) : ServerState :=
  let s := up_idspace s (IdBridge.forget_session (idspace s) id) in
  up_sessions s (SessionTable.forget_session (sessions s) id).

(** ** The cascade up *)

Definition is_empty {A} (xs : list A) : bool := match xs with [] => true | _ => false end.

(* phux-server/src/state/reap.rs ServerState::reap_session_if_empty *)
Definition reap_session_if_empty (s : ServerState) (id : SessionId) : bool * ServerState :=
  let reapable := match reg_sessions (reg s) !! id with
                  | Some x => is_empty (windows x) && negb (keep_empty x) | None => false end in
  if negb reapable then (false, s)
  else
    match remove_session (reg s) id with
    | None => (false, s)
    | Some (_, r) =>
        let s := up_sessions s (with_registry (sessions s) r) in
        let s := up_sessions s (note_removed (sessions s) id) in
        (true, forget_session_bookkeeping s id)
    end.

(* phux-server/src/state/reap.rs ServerState::forget_layout_of_emptied_session *)
Definition forget_layout_of_emptied_session (s : ServerState) (id : SessionId) : ServerState :=
  let emptied := match reg_sessions (reg s) !! id with
                 | Some x => keep_empty x && is_empty (windows x) | None => false end in
  match session_wire (idspace s) id with
  | Some wire => if emptied then (metadata_delete accepts s (Scope_Group DEFAULT_GROUP_ID) (layout_key wire)).2 else s
  | None => s
  end.

(* phux-server/src/state/reap.rs ServerState::reap_window_if_empty *)
Definition reap_window_if_empty (s : ServerState) (w : WindowId) : ServerState :=
  match reg_windows (reg s) !! w with
  | None => s
  | Some win =>
      if negb (is_empty (slots win)) then s
      else
        let session_id := session win in
        let s := match remove_window (reg s) w with
                 | Some (_, r) => forget_window_bookkeeping (up_sessions s (with_registry (sessions s) r)) w
                 | None => s
                 end in
        let '(reaped, s) := reap_session_if_empty s session_id in
        if reaped then s else forget_layout_of_emptied_session s session_id
  end.

Definition no_sessions (s : ServerState) : bool := bool_decide (reg_sessions (reg s) = ∅).

(* phux-server/src/state/reap.rs ServerState::reap_terminal *)
Definition reap_terminal (s : ServerState) (pane : key) : bool * ServerState :=
  let window_id := reg_resources (reg s) !! pane ≫= window in
  let s := match remove_resource (reg s) pane with
           | Some (_, r) => forget_terminal_bookkeeping (up_sessions s (with_registry (sessions s) r)) pane
           | None => s
           end in
  match window_id with
  | None => (no_sessions s, s)
  | Some w => let s := reap_window_if_empty s w in (no_sessions s, s)
  end.

(** ** Keep-empty sessions *)

(* phux-server/src/state/reap.rs ServerState::set_session_keep_empty *)
Definition set_session_keep_empty (s : ServerState) (n : bytes) (keep : bool) : KeepEmptyOutcome * ServerState :=
  match find_by_name (sessions s) n with
  | None => (Keep_NotFound, s)
  | Some id =>
      let changed := match reg_sessions (reg s) !! id with Some x => xorb (keep_empty x) keep | None => false end in
      let s := up_sessions s (with_registry (sessions s) (map_session (reg s) id (fun x => with_keep_empty x keep))) in
      let '(reaped, s) := reap_session_if_empty s id in
      (if reaped then Keep_Removed else if changed then Keep_Changed else Keep_Unchanged, s)
  end.

(* phux-server/src/state/reap.rs ServerState::session_terminals_within *)
Definition session_terminals_within (r : Registry) (x : Session) (targets : list key) : bool :=
  let panes := concat (map (fun w => match reg_windows r !! w with Some w => slots w | None => [] end) (windows x)) in
  negb (is_empty panes) && forallb (fun p => bool_decide (p ∈ targets)) panes.

(* phux-server/src/state/reap.rs ServerState::release_keep_empty_covered_by *)
Definition release_keep_empty_covered_by (s : ServerState) (targets : list key) : list bytes * ServerState :=
  let covered := map fst
    (List.filter (fun kv : SessionId * Session => keep_empty kv.2 && session_terminals_within (reg s) kv.2 targets)
      (map_to_list (reg_sessions (reg s)))) in
  fold_left (fun '(names, s) id =>
    let '(names, s) :=
      match reg_sessions (reg s) !! id with
      | Some x => (names ++ [name x],
                   up_sessions s (with_registry (sessions s) (map_session (reg s) id (fun x => with_keep_empty x false))))
      | None => (names, s)
      end in
    (names, up_sessions s (mark_released (sessions s) id))) covered ([], s).

(* phux-server/src/state/reap.rs ServerState::take_killed_sessions *)
Definition take_killed_sessions (s : ServerState) : list SessionId * ServerState :=
  let '(killed, t) := take_killed (sessions s) in (killed, up_sessions s t).

(** ** The close ledger *)

(* phux-server/src/state/bindings.rs ServerState::resource_children *)
Definition resource_children (s : ServerState) (p : key) : list key := children (reg s) p.
(* phux-server/src/state/bindings.rs ServerState::resource_parent *)
Definition resource_parent (s : ServerState) (c : key) : option key := reg_resources (reg s) !! c ≫= parent.
(* phux-server/src/state/bindings.rs ServerState::has_live_agent_session_child *)
Definition has_live_agent_session_child (s : ServerState) (p : key) : bool :=
  existsb (fun c => match reg_resources (reg s) !! c with
                    | Some d => bool_decide (kind d = Kind_AgentSession) | None => false end) (children (reg s) p).
(* phux-server/src/state/bindings.rs ServerState::agent_session_children *)
Definition agent_session_children (s : ServerState) (p : key) : list (key * ResourceHandle) :=
  omap (fun c => (fun h => (c, h)) <$> handle (resources s) c)
    (List.filter (fun c => match reg_resources (reg s) !! c with
                           | Some d => bool_decide (kind d = Kind_AgentSession) | None => false end) (children (reg s) p)).

(* phux-server/src/state/bindings.rs ServerState::mark_resource_closing *)
Definition mark_resource_closing (s : ServerState) (k : key) (reason : CloseReason) : ServerState :=
  match close_reasons s !! k with
  | Some _ => s
  | None => up_reasons s (<[k := reason]> (close_reasons s))
  end.

(* phux-server/src/state/bindings.rs ServerState::begin_resource_close *)
Definition begin_resource_close (s : ServerState) (k : key) : option (CloseReason * ServerState) :=
  match reg_resources (reg s) !! k with
  | None => None
  | Some _ => Some (default CloseReason_Exited (close_reasons s !! k), forget_close_reason s k)
  end.

Definition listed (k : key) (closing : list (key * CloseReason)) : bool :=
  existsb (fun kr => bool_decide (kr.1 = k)) closing.

(** The first loop of [close_resources]. *)
(* phux-server/src/state/bindings.rs:153-161 close_resources *)
Fixpoint close_targets (r : Registry) (targets : list key) (reason : CloseReason) (closing : list (key * CloseReason))
    : list (key * CloseReason) :=
  match targets with
  | [] => closing
  | t :: ts =>
      close_targets r ts reason
        (if negb (bool_decide (is_Some (reg_resources r !! t))) then closing
         else if listed t closing then closing else closing ++ [(t, reason)])
  end.
(* phux-server/src/state/bindings.rs:163-168 close_resources *)
Definition add_children (r : Registry) (closing : list (key * CloseReason)) (p : key) : list (key * CloseReason) :=
  fold_left (fun closing c => if listed c closing then closing else closing ++ [(c, CloseReason_ParentClosed)])
    (children r p) closing.
(** The second loop: its bound is the length before it starts. *)
(* phux-server/src/state/bindings.rs:162-169 close_resources *)
Definition close_children (r : Registry) (closing : list (key * CloseReason)) : list (key * CloseReason) :=
  fold_left (fun acc kr => add_children r acc kr.1) closing closing.

(** The body of the last loop. *)
(* phux-server/src/state/bindings.rs:171-174 close_resources *)
Definition close_one (s : ServerState) (kr : key * CloseReason) : ServerState :=
  let s := mark_resource_closing s kr.1 kr.2 in up_resources s (detach_actor (resources s) kr.1).

(* phux-server/src/state/bindings.rs ServerState::close_resources *)
Definition close_resources (s : ServerState) (targets : list key) (reason : CloseReason) : Z * ServerState :=
  let closing := close_children (reg s) (close_targets (reg s) targets reason []) in
  (Z.min (len closing) u32_max,
   fold_left close_one closing s).

(** ** Conditional kill *)

(* phux-server/src/state/conditional_kill.rs KillIfRefusal *)
Inductive KillIfRefusal : Type := Refused_NotFound | Refused_Precondition (why : bytes).

(* phux-server/src/state/conditional_kill.rs lacks_required_instance *)
Definition lacks_required_instance (p : KillPrecondition) : bool :=
  KillConditions_contains (pre_conditions p) UNATTACHED_SINCE_SPAWN && negb (has_some (pre_instance p)).
(* phux-server/src/state/conditional_kill.rs ServerState::instance_matches *)
Definition instance_matches (s : ServerState) (p : KillPrecondition) : bool :=
  match pre_instance p with None => true | Some i => bool_decide (i = IdBridge.instance (idspace s)) end.
(* phux-server/src/state/conditional_kill.rs ServerState::attachment_refusal *)
Definition attachment_refusal (s : ServerState) (core : key) (conditions : Z) : option bytes :=
  if negb (KillConditions_contains conditions UNATTACHED_SINCE_SPAWN) then None
  else if negb (unattached_since_spawn (resources s) core) then
    Some (str "the resource was not spawned by a client, or a connection other than its spawner has attached or used it")
  else if negb (is_empty (children (reg s) core)) then
    Some (str "the resource has child resources the kill would close unchecked")
  else None.
(* phux-server/src/state/conditional_kill.rs ServerState::admit_conditional_kill *)
Definition admit_conditional_kill (s : ServerState) (wire : ResourceId) (p : KillPrecondition) : result KillIfRefusal key :=
  if negb (KillConditions_unknown_bits (pre_conditions p) =? 0) then
    Err (Refused_Precondition (str "a condition bit is unknown to this server"))
  else if lacks_required_instance p then
    Err (Refused_Precondition (str "UNATTACHED_SINCE_SPAWN requires an instance token"))
  else if negb (instance_matches s p) then
    Err (Refused_Precondition (str "the instance token no longer names this server's id space"))
  else
    match terminal_from_wire (idspace s) wire with
    | None => Err Refused_NotFound
    | Some core => match attachment_refusal s core (pre_conditions p) with
                   | Some why => Err (Refused_Precondition why)
                   | None => Ok core
                   end
    end.
(* phux-server/src/state/conditional_kill.rs ServerState::kill_resource_if *)
Definition kill_resource_if (s : ServerState) (wire : ResourceId) (p : KillPrecondition) : result KillIfRefusal ServerState :=
  match admit_conditional_kill s wire p with
  | Err e => Err e
  | Ok core => Ok (close_resources s [core] CloseReason_Killed).2
  end.
(* phux-server/src/state/conditional_kill.rs ServerState::note_resource_use *)
Definition note_resource_use (s : ServerState) (wire : ResourceId) (client : ClientId) : ServerState :=
  match terminal_from_wire (idspace s) wire with
  | Some core => up_resources s (ResourceTable.note_use (resources s) client core)
  | None => s
  end.
End Lifecycle.

(** ** The exit watcher ([phux-server/src/runtime/client.rs], [spawn_terminal_exit_watcher])

    What happens when a resource's engine ends: the watcher claims the close, cascades to the
    children, reaps, and broadcasts. One critical section is one function of the state; the frames
    it sends afterwards are a list. *)

(* phux-server/src/runtime/client.rs CascadedClose *)
Record CascadedClose : Type := mkCascaded {
  cc_wire : ResourceId; cc_parent : ResourceId; cc_targets : list Sender; cc_reason : CloseReason
}.
(* phux-server/src/runtime/client.rs ReapAndNotify *)
Record ReapAndNotify : Type := mkReap {
  rn_wire : ResourceId;
  rn_reason : CloseReason;
  rn_cascaded : list CascadedClose;
  rn_parent : option ResourceId;
  rn_targets : list Sender;
  rn_server_empty : bool;
  rn_killed : list (ClientId * Sender);
  rn_served : bool
}.

Section Reaping.
  Context (accepts : Sender -> FrameKind -> bool).

(** The id space running out panics: [None]. *)
(* phux-server/src/state/wire_ids.rs ServerState::intern_terminal_wire *)
Definition intern_terminal_wire (s : ServerState) (k : key) : option (ResourceId * ServerState) :=
  match intern_terminal (idspace s) k with Some (w, ids) => Some (w, up_idspace s ids) | None => None end.

(** The loop over the children. *)
(* phux-server/src/runtime/client.rs:690-712 spawn_terminal_exit_watcher *)
Fixpoint cascade (s : ServerState) (parent_wire : ResourceId) (children : list key)
    : option (list CascadedClose * ServerState) :=
  match children with
  | [] => Some ([], s)
  | child :: rest =>
      match begin_resource_close s child with
      | None => cascade s parent_wire rest
      | Some (recorded, s) =>
          let child_reason := if bool_decide (recorded = CloseReason_Exited) then CloseReason_ParentClosed else recorded in
          '(wire_child, s) ← intern_terminal_wire s child;
          let child_targets := terminal_fanout_targets s child in
          let '(_, s) := reap_terminal accepts s child in
          '(more, s) ← cascade s parent_wire rest;
          Some (mkCascaded wire_child parent_wire child_targets child_reason :: more, s)
      end
  end.

(** The critical section; [None] inside is a close someone else has claimed. *)
(* phux-server/src/runtime/client.rs:660-756 spawn_terminal_exit_watcher *)
Definition reap_and_notify (s : ServerState) (pane : key) : option (option ReapAndNotify * ServerState) :=
  match begin_resource_close s pane with
  | None => Some (None, s)
  | Some (reason, s) =>
      '(w, s) ← intern_terminal_wire s pane;
      '(par, s) ← match resource_parent s pane with
                  | Some p => '(wp, s) ← intern_terminal_wire s p; Some (Some wp, s)
                  | None => Some (None, s)
                  end;
      '(cascaded, s) ← cascade s w (resource_children s pane);
      let targets := terminal_fanout_targets s pane in
      let '(server_empty, s) := reap_terminal accepts s pane in
      let served := has_served_client s in
      let '(killed, s) := take_killed_sessions s in
      Some (Some (mkReap w reason cascaded par targets server_empty
                    (concat (map (attached_in_session (clients s)) killed)) served), s)
  end.

(* phux-server/src/runtime/client.rs broadcast_terminal_closed *)
Definition closed_frames (s : ServerState) (w : ResourceId) (par : option ResourceId) (targets : list Sender)
    (exit_status : option Z) (reason : CloseReason) : list (Sender * FrameKind) :=
  map (fun tx => (tx, FrameKind_ResourceClosed w exit_status reason)) targets ++
  map (fun tx => (tx, FrameKind_Event (Some w) (AgentEvent_ResourceClosed exit_status)))
    (event_targets (clients s) (Some w) par).

(** What the watcher sends off the lock, children first, and whether it shuts the server down. *)
(* phux-server/src/runtime/client.rs:771-817 spawn_terminal_exit_watcher *)
Definition watcher_output (s : ServerState) (r : ReapAndNotify) (exit_status : option Z) (root_cancelled : bool)
    : list (Sender * FrameKind) * bool :=
  (concat (map (fun c => closed_frames s (cc_wire c) (Some (cc_parent c)) (cc_targets c) None (cc_reason c)) (rn_cascaded r))
   ++ closed_frames s (rn_wire r) (rn_parent r) (rn_targets r) exit_status (rn_reason r),
   rn_server_empty r && rn_served r && negb root_cancelled).

End Reaping.
