(* ===== verification/Booked.v ===== *)
(** * The ledgers speak of live entities

    The invariant of [ServerState]: the registry and the id spaces are well formed, and every
    table keyed by a resource, a window or a session has live keys only. The operations of
    [ServerState] and [Lifecycle] preserve it. *)

From stdpp Require Import gmap.
From S2P Require Import Prelude Enums Caps Codec Command Frame.
From S2P Require Import RegistrySteps.
From S2P Require Import IdBridge Leases SpawnLedger ResourceTable Metadata SessionTable Agent ClientTable.
From S2P Require Import Window Registry ServerState Lifecycle.
From S2P Require Import Ids.

(** ** The ledgers *)

(** The table has an entry under the resource. *)
Definition tabled (t : ResourceTable) (k : key) : Prop :=
  is_Some (handles t !! k) \/ is_Some (tokens t !! k) \/ is_Some (subscribers t !! k) \/ is_Some (spawns t !! k) \/
  (exists c, is_Some (pumps t !! (c, k))) \/ (exists c, is_Some (output_pumps t !! (c, k))).

(** Some ledger of the server has an entry under the resource, window, session or wire id. *)
Definition booked (s : ServerState) (k : key) : Prop :=
  tabled (resources s) k \/ is_Some (forward (terminals (idspace s)) !! k) \/
  is_Some (asked s !! k) \/ is_Some (close_reasons s !! k).
Definition booked_window (s : ServerState) (w : WindowId) : Prop :=
  is_Some (forward (IdBridge.windows (idspace s)) !! w) \/ is_Some (window_last_cwd (sessions s) !! w).
Definition booked_session (s : ServerState) (id : SessionId) : Prop :=
  is_Some (forward (IdBridge.sessions (idspace s)) !! id) \/ is_Some (last_touched (sessions s) !! id) \/
  is_Some (roots (sessions s) !! id) \/ id ∈ released_keep_empty (sessions s).
Definition recorded (s : ServerState) (w : ResourceId) : Prop :=
  is_Some (md_terminal (metadata s) !! w) \/ w ∈ declared (agent_records s) \/ w ∈ detector_owned (agent_records s) \/
  w ∈ explicit_identity (agent_records s) \/ w ∈ explicit_kind (agent_records s).

Record Booked (s : ServerState) : Prop := {
  bk_registry : Inv (reg s);
  bk_terminals : BridgeOk (terminals (idspace s));
  bk_window_ids : BridgeOk (IdBridge.windows (idspace s));
  bk_session_ids : BridgeOk (IdBridge.sessions (idspace s));
  bk_resource k : booked s k -> is_Some (reg_resources (reg s) !! k);
  bk_window w : booked_window s w -> is_Some (reg_windows (reg s) !! w);
  bk_session id : booked_session s id -> is_Some (reg_sessions (reg s) !! id);
  bk_record id : recorded s (ResourceId_Local id) -> is_Some (terminal_from_wire (idspace s) (ResourceId_Local id))
}.

Lemma booked_new token : Booked (server_new token).
Proof.
  split.
  - apply inv_new.
  - apply new_ok.
  - apply new_ok.
  - apply new_ok.
  - intros k H. unfold booked, tabled in H. cbn in H. rewrite !lookup_empty in H.
    setoid_rewrite lookup_empty in H. naive_solver.
  - intros k H. unfold booked_window in H. cbn in H. rewrite !lookup_empty in H. naive_solver.
  - intros k H. unfold booked_session in H. cbn in H. rewrite !lookup_empty in H. set_solver.
  - intros k H. unfold recorded in H. cbn in H. rewrite !lookup_empty in H. set_solver.
Qed.

(** ** The resource table *)

(** Case analysis on what a lookup in an updated map finds. *)
Ltac find_cases :=
  repeat match goal with
  | H : is_Some _ |- _ => destruct H as [? H]
  | H : exists c : Z, _ |- _ => destruct H as [? H]
  | H : <[_ := _]> _ !! _ = Some _ |- _ => let N := fresh "N" in apply lookup_insert_Some in H as [[N ?]|[N H]]
  | H : delete _ _ !! _ = Some _ |- _ => let N := fresh "N" in apply lookup_delete_Some in H as [N H]
  | H : filter _ _ !! _ = Some _ |- _ => let N := fresh "N" in apply map_lookup_filter_Some in H as [H N]
  | H : (_ <$> _) !! _ = Some _ |- _ => let N := fresh "N" in apply lookup_fmap_Some in H as (? & N & H)
  | H : _ \/ _ |- _ => destruct H as [H|H]
  end.
Ltac tabled_tac :=
  unfold tabled in *; cbn [set_handles set_tokens set_subscribers set_pumps set_output_pumps set_next_bootstrap set_spawns
    handles tokens subscribers pumps output_pumps next_bootstrap spawns cancelled] in *;
  intros; find_cases; simplify_eq; eauto 12.

Lemma tabled_note_use t c k k' : tabled (ResourceTable.note_use t c k) k' -> tabled t k'.
Proof.
  unfold ResourceTable.note_use. destruct (spawns t !! k) as [r|] eqn:E; [|done]. destruct (negb _); [|done]. tabled_tac.
Qed.
Lemma tabled_subscribe t c k k' : tabled (ResourceTable.subscribe t c k) k' -> tabled t k' \/ k' = k.
Proof.
  unfold ResourceTable.subscribe. intros H. assert (Hn := tabled_note_use t c k k').
  set (t1 := ResourceTable.note_use t c k) in *. clearbody t1.
  enough (tabled t1 k' \/ k' = k) as [?|?] by auto. revert H. clear. tabled_tac.
Qed.
Lemma tabled_unsubscribe t c k k' : tabled (unsubscribe t c k) k' -> tabled t k'.
Proof.
  unfold unsubscribe. destruct (subscribers t !! k) as [x|] eqn:E; [|done]. case_bool_decide; tabled_tac.
Qed.
Lemma tabled_drop_client t c k : tabled (drop_client_subscriptions t c) k -> tabled t k.
Proof. unfold drop_client_subscriptions. tabled_tac. Qed.
Lemma tabled_cancel_pumps t c k : tabled (cancel_pumps_for_client t c) k -> tabled t k.
Proof. unfold cancel_pumps_for_client, retain_pumps. tabled_tac. Qed.
Lemma tabled_register t k h tok k' : tabled (register t k h tok) k' -> tabled t k' \/ k' = k.
Proof. unfold register. tabled_tac. Qed.
Lemma tabled_record_spawn t k c k' : tabled (ResourceTable.record_spawn t k c) k' -> tabled t k' \/ k' = k.
Proof. unfold ResourceTable.record_spawn. tabled_tac. Qed.
Lemma tabled_detach t k k' : tabled (detach_actor t k) k' -> tabled t k'.
Proof. unfold detach_actor. destruct (tokens t !! k) as [x|]; [|done]. tabled_tac. Qed.
Lemma tabled_replace_pump t c k id cancel done seq k' : tabled (replace_pump t c k id cancel done seq).2 k' -> tabled t k' \/ k' = k.
Proof. unfold replace_pump. destruct (pumps t !! (c, k)); cbn [snd]; tabled_tac. Qed.
Lemma tabled_track t c k abort done k' : tabled (track_output_pump t c k abort done) k' -> tabled t k' \/ k' = k.
Proof. unfold track_output_pump. tabled_tac. Qed.
Lemma tabled_stop t c k k' : tabled (stop_output_pumps t c k).2 k' -> tabled t k'.
Proof. unfold stop_output_pumps. cbn [snd]. tabled_tac. Qed.
Lemma tabled_cancel_pump t c k k' : tabled (cancel_pump t c k) k' -> tabled t k'.
Proof. unfold cancel_pump. cbn [stop_output_pumps pumps set_output_pumps]. destruct (pumps t !! (c, k)); tabled_tac. Qed.
Lemma tabled_next t c k' : tabled (next_bootstrap_id t c).2 k' -> tabled t k'.
Proof. unfold next_bootstrap_id. destruct (_ =? _); cbn [snd]; tabled_tac. Qed.
Lemma tabled_forget t k k' : tabled (forget_resource t k) k' -> tabled t k' /\ k' <> k.
Proof.
  unfold forget_resource, detach_actor, retain_pumps. cbn [set_handles set_output_pumps tokens].
  destruct (tokens t !! k) as [x|] eqn:E; intros H; (split; [revert H; tabled_tac|intros ->; revert H]).
  all: unfold tabled; cbn; rewrite ?lookup_delete_eq; intros H; find_cases; try done; cbn in *; try congruence.
  all: match goal with N : negb _ = true |- _ => by rewrite bool_decide_true in N end.
Qed.

(** ** Updating one table *)

Abbreviation live_resource s k := (is_Some (reg_resources (reg s) !! k)).

Ltac booked_tac :=
  split; unfold booked, booked_window, booked_session, recorded in *; st_cbn; try assumption; intros; find_cases; eauto 8.

Lemma booked_resources s t :
  Booked s -> (forall k, tabled t k -> tabled (resources s) k \/ live_resource s k) -> Booked (up_resources s t).
Proof.
  intros [] Ht. unfold reg in *. split; unfold reg; st_cbn; auto.
  intros k [[H|H]%Ht|H]; [|done|]; apply bk_resource0; unfold booked; auto.
Qed.
Lemma booked_clients s c : Booked s -> Booked (up_clients s c).
Proof. by intros []. Qed.
Lemma booked_leases s c : Booked s -> Booked (up_leases s c).
Proof. by intros []. Qed.
Lemma booked_served s c : Booked s -> Booked (up_served s c).
Proof. by intros []. Qed.
Lemma booked_sent s c : Booked s -> Booked (up_sent s c).
Proof. by intros []. Qed.
Lemma booked_asked s d :
  Booked s -> (forall k, is_Some (d !! k) -> is_Some (asked s !! k) \/ live_resource s k) -> Booked (up_asked s d).
Proof.
  intros [] Hd. unfold reg in *. split; unfold reg; st_cbn; auto.
  intros k [H|[H|[[H|H]%Hd|H]]]; try done; apply bk_resource0; unfold booked; auto.
Qed.
Lemma booked_reasons s m :
  Booked s -> (forall k, is_Some (m !! k) -> is_Some (close_reasons s !! k) \/ live_resource s k) -> Booked (up_reasons s m).
Proof.
  intros [] Hd. unfold reg in *. split; unfold reg; st_cbn; auto.
  intros k [H|[H|[H|[H|H]%Hd]]]; try done; apply bk_resource0; unfold booked; auto.
Qed.
Lemma booked_metadata s m :
  Booked s ->
  (forall w, is_Some (md_terminal m !! w) -> is_Some (md_terminal (metadata s) !! w) \/
     (forall id, w = ResourceId_Local id -> is_Some (terminal_from_wire (idspace s) w))) ->
  Booked (up_metadata s m).
Proof.
  intros [] Hm. unfold reg in *. split; unfold reg; st_cbn; auto.
  intros id [[H|H]%Hm|H]; [|by eapply H|]; apply bk_record0; unfold recorded; auto.
Qed.
(** The session table, its registry left alone. *)
Lemma booked_sessions s t :
  Booked s -> registry t = reg s ->
  (forall w, is_Some (window_last_cwd t !! w) -> is_Some (window_last_cwd (sessions s) !! w) \/ is_Some (reg_windows (reg s) !! w)) ->
  (forall id, is_Some (last_touched t !! id) \/ is_Some (roots t !! id) \/ id ∈ released_keep_empty t ->
     booked_session s id \/ is_Some (reg_sessions (reg s) !! id)) ->
  Booked (up_sessions s t).
Proof.
  intros [] Hr Hw Hs. unfold reg in *. split; unfold reg; st_cbn; rewrite ?Hr; auto.
  - intros w [H|[H|H]%Hw]; try done; apply bk_window0; unfold booked_window; auto.
  - intros id [H|[H|H]%Hs]; try done; apply bk_session0; [by left|done].
Qed.

(** ** Metadata, agents, clients *)

Lemma md_terminal_delete m scope k w : is_Some (md_terminal (delete_key m scope k).2 !! w) -> is_Some (md_terminal m !! w).
Proof.
  destruct scope as [t|g|]; cbn; [|by destruct (md_group m !! g)|done].
  destruct (md_terminal m !! t) as [b|] eqn:E; cbn; [|done]. intros H. find_cases; naive_solver.
Qed.
Lemma md_terminal_set m scope k v w :
  is_Some (md_terminal (set m scope k v).2 !! w) -> is_Some (md_terminal m !! w) \/ scope = Scope_Resource w.
Proof.
  unfold set. destruct scope as [t|g|]; case_bool_decide as E; cbn; intros H; auto; find_cases; subst; eauto.
Qed.
Lemma md_terminal_forget m w w' : is_Some (md_terminal (forget_terminal m w) !! w') -> is_Some (md_terminal m !! w') /\ w' <> w.
Proof. cbn. intros H. find_cases. split; [eauto|congruence]. Qed.
Lemma md_terminal_subscribe m c scope k : md_terminal (Metadata.subscribe m c scope k).2 = md_terminal m.
Proof. unfold Metadata.subscribe. case_bool_decide; [done|]. by destruct (_ <=? _)%nat. Qed.

Section Clients.
Context (accepts : Sender -> FrameKind -> bool).

Lemma broadcast_sent s scope k v : exists fs, (broadcast_metadata_change accepts s scope k v).2 = up_sent s fs.
Proof. unfold broadcast_metadata_change. destruct (broadcast_metadata_changed _ _ _ _ _ _) as [d fs]. by eexists. Qed.

Lemma booked_delete s scope k : Booked s -> Booked (metadata_delete accepts s scope k).2.
Proof.
  intros Hs. unfold metadata_delete. destruct (delete_key (metadata s) scope k) as [e m] eqn:E.
  assert (H : Booked (up_metadata s m)).
  { apply booked_metadata; [done|]. intros w Hw. left. apply (md_terminal_delete (metadata s) scope k). by rewrite E. }
  destruct e; cbn [negb]; [|done]. destruct (broadcast_sent (up_metadata s m) scope k None) as [fs ->]. by apply booked_sent.
Qed.

(** A write to a resource's scope must name a resource that is live. *)
Definition in_scope (s : ServerState) (scope : Scope) : Prop :=
  forall id, scope = Scope_Resource (ResourceId_Local id) -> is_Some (terminal_from_wire (idspace s) (ResourceId_Local id)).

Lemma booked_set s scope k v : Booked s -> in_scope s scope -> Booked (metadata_set accepts s scope k v).2.
Proof.
  intros Hs Hin. unfold metadata_set. case_bool_decide; [done|]. unfold metadata_broadcast.
  pose proof (broadcast_sent s scope k (Some v)) as [fs E].
  destruct (broadcast_metadata_change accepts s scope k (Some v)) as [d s1]. cbn in E. subst s1. cbn [snd].
  apply booked_metadata; [by apply booked_sent|]. st_cbn. intros w [Hw| ->]%md_terminal_set; [by left|]. right.
  intros id ->. by apply Hin.
Qed.

Lemma booked_metadata_subscribe s c scope k tx : Booked s -> Booked (metadata_subscribe s c scope k tx).2.
Proof.
  intros Hs. unfold metadata_subscribe. pose proof (md_terminal_subscribe (metadata s) c scope k) as Hm.
  destruct (Metadata.subscribe (metadata s) c scope k) as [a m]. cbn in *.
  assert (H : Booked (up_metadata s m)) by (apply booked_metadata; [done|]; rewrite Hm; by left).
  destruct a; [by apply booked_clients|done].
Qed.

Lemma booked_subscribe_all s client panes t :
  Booked s -> resources s = t -> (forall p, p ∈ panes -> live_resource s p) ->
  Booked (up_resources s (fold_left (fun t p => ResourceTable.subscribe t client p) panes t)).
Proof.
  intros Hs Et Hp. apply booked_resources; [done|]. subst t. intros k.
  assert (H : tabled (fold_left (fun t p => ResourceTable.subscribe t client p) panes (resources s)) k ->
    tabled (resources s) k \/ k ∈ panes).
  { clear. generalize (resources s). induction panes as [|p ps IH]; intros t; cbn; [by left|].
    intros [[H|H]%tabled_subscribe|H]%IH; subst; auto; right; [by left|by right]. }
  intros [?|?]%H; [by left|]. right. by apply Hp.
Qed.

Lemma session_panes_live s id p : Booked s -> p ∈ session_panes (reg s) id -> live_resource s p.
Proof.
  intros Hs. unfold session_panes. destruct (reg_sessions (reg s) !! id) as [x|] eqn:E; [|by intros H%not_elem_of_nil].
  rewrite list_elem_of_In, in_concat. intros (l & Hl & Hp). apply in_map_iff in Hl as (w & <- & Hw).
  destruct (reg_windows (reg s) !! w) as [win|] eqn:Ew; [|done]. apply list_elem_of_In in Hp.
  destruct (inv_window_slots _ (bk_registry s Hs) w win p Ew Hp) as (d & ? & _). by exists d.
Qed.

Lemma booked_attach s client n tx caps profile limits id s' :
  Booked s -> attach s client n tx caps profile limits = Ok (id, s') -> Booked s'.
Proof.
  intros Hs. unfold attach. destruct (find_by_name (sessions s) n) as [x|]; [|done].
  destruct (attached (clients s) !! client) as [c|].
  - destruct (negb _); [done|]. intros [= <- <-]. apply booked_subscribe_all; [done..|]. intros p. by apply session_panes_live.
  - intros [= <- <-]. apply booked_subscribe_all; [by apply booked_served, booked_clients|done|].
    intros p Hp. by apply (session_panes_live s x).
Qed.

Lemma booked_fold_delete keys s :
  Booked s -> Booked (fold_left (fun s k => (metadata_delete accepts s Scope_Global k).2) keys s).
Proof. revert s. induction keys as [|k ks IH]; intros s Hs; cbn [fold_left]; [done|]. by apply IH, booked_delete. Qed.

Lemma booked_detach s client : Booked s -> Booked (detach accepts s client).
Proof.
  intros Hs. unfold detach. apply booked_clients, booked_fold_delete, booked_clients, booked_clients, booked_clients.
  apply booked_metadata; [|intros w; by left]. apply booked_resources; [|intros k H; left; by apply tabled_drop_client in H].
  apply booked_resources; [|intros k H; left; by apply tabled_cancel_pumps in H]. by apply booked_leases, booked_clients.
Qed.
End Clients.

(** ** Minting and retiring ids *)

Lemma intern_resolve {W} `{WireId W} (b : IdBridge key W) c w b' w' :
  BridgeOk b -> intern b c = Some (w, b') -> is_Some (resolve b w') -> is_Some (resolve b' w').
Proof.
  intros Hb. unfold intern. destruct (forward b !! c); [by intros [= <- <-]|]. cbv zeta.
  destruct (next b =? u32_max); [done|]. intros [= <- <-] [x Hx]. unfold resolve in *. cbn.
  rewrite lookup_insert_ne; [by exists x|]. intros <-. by rewrite unminted in Hx.
Qed.

Lemma intern_forward {W} `{WireId W} (b : IdBridge key W) c w b' c' :
  intern b c = Some (w, b') -> is_Some (forward b' !! c') -> is_Some (forward b !! c') \/ c' = c.
Proof.
  unfold intern. destruct (forward b !! c) as [x|] eqn:E; [intros [= <- <-]; by left|]. cbv zeta.
  destruct (next b =? u32_max); [done|]. intros [= <- <-]. cbn. rewrite lookup_insert_is_Some'. intros [->|?]; auto.
Qed.

Lemma forget_forward {W} `{WireId W} (b : IdBridge key W) c c' :
  is_Some (forward (forget b c).2 !! c') -> is_Some (forward b !! c') /\ c' <> c.
Proof.
  unfold forget. destruct (forward b !! c) as [x|] eqn:E; cbn.
  - rewrite lookup_delete_is_Some. intros [? ?]; auto.
  - intros Hc. split; [done|]. intros ->. rewrite E in Hc. by destruct Hc.
Qed.

Lemma forget_resolve {W} `{WireId W} (b : IdBridge key W) c w' :
  is_Some (resolve b w') -> (forget b c).1 <> Some w' -> is_Some (resolve (forget b c).2 w').
Proof.
  unfold forget, resolve. destruct (forward b !! c) as [x|] eqn:E; cbn; [|done]. intros Hw Hne.
  rewrite lookup_delete_ne; [done|congruence].
Qed.

Lemma booked_intern s k w s' :
  Booked s -> live_resource s k -> intern_terminal_wire s k = Some (w, s') -> Booked s' /\ reg s' = reg s /\
  resources s' = resources s /\ close_reasons s' = close_reasons s /\ clients s' = clients s.
Proof.
  intros [] Hk. unfold intern_terminal_wire, intern_terminal.
  destruct (intern (terminals (idspace s)) k) as [[w0 b]|] eqn:E; [|done]. intros [= <- <-]. split; [|done].
  unfold reg in *. split; unfold reg; st_cbn; cbn [with_terminals terminals IdBridge.windows IdBridge.sessions]; auto.
  - by eapply intern_ok.
  - intros k' H. unfold booked in H. st_cbn. cbn in H.
    destruct H as [H|[H|H]]; [|apply (intern_forward _ _ _ _ _ E) in H as [H| ->]; [|done]|]; apply bk_resource0; unfold booked; auto.
  - intros id H. eapply intern_resolve; [done..|]. by apply bk_record0.
Qed.

(** ** A resource leaves *)

Section Reap.
Context (accepts : Sender -> FrameKind -> bool).

Lemma booked_drop_resource s k d r :
  Booked s -> children (reg s) k = [] -> remove_resource (reg s) k = Some (d, r) ->
  Booked (forget_terminal_bookkeeping (up_sessions s (with_registry (sessions s) r)) k) /\
  reg (forget_terminal_bookkeeping (up_sessions s (with_registry (sessions s) r)) k) = r.
Proof.
  intros [] Hc E. destruct (remove_resource_leaves _ _ _ _ bk_registry0 E) as (_ & Es & Er & Ew).
  pose proof (inv_remove_resource _ _ _ _ bk_registry0 E) as HI.
  assert (Hlive : forall k', k' <> k -> live_resource s k' -> is_Some (reg_resources r !! k')).
  { intros k' Hne [dk Hk]. exists dk. apply Er. split; [done|]. split; [done|]. intros Hp.
    assert (Hin : k' ∈ children (reg s) k) by (apply elem_of_children; by exists dk). rewrite Hc in Hin. by apply not_elem_of_nil in Hin. }
  assert (Hwin : forall w, is_Some (reg_windows (reg s) !! w) -> is_Some (reg_windows r !! w)).
  { intros w. rewrite Ew. destruct (window d); [|done]. by rewrite lookup_alter_is_Some. }
  unfold forget_terminal_bookkeeping, forget_close_reason, retire_terminal. st_cbn.
  pose proof (forget_ok (terminals (idspace s)) k bk_terminals0) as Hf.
  pose proof (forget_forward (terminals (idspace s)) k) as Hff. pose proof (forget_resolve (terminals (idspace s)) k) as Hfr.
  destruct (forget (terminals (idspace s)) k) as [wire b] eqn:Eb. cbn in Hf, Hff, Hfr.
  assert (Hres : forall k', booked s k' /\ k' <> k -> is_Some (reg_resources r !! k')) by (intros k' [? ?]; auto).
  assert (HB : forall s', reg s' = r -> resources s' = forget_resource (resources s) k ->
    idspace s' = with_terminals (idspace s) b -> asked s' = delete k (asked s) -> close_reasons s' = delete k (close_reasons s) ->
    window_last_cwd (sessions s') = window_last_cwd (sessions s) -> last_touched (sessions s') = last_touched (sessions s) ->
    roots (sessions s') = roots (sessions s) -> released_keep_empty (sessions s') = released_keep_empty (sessions s) ->
    (forall id, recorded s' (ResourceId_Local id) -> recorded s (ResourceId_Local id) /\ wire <> Some (ResourceId_Local id)) ->
    Booked s').
  { intros s' E1 E2 E3 E4 E5 E6 E7 E8 E9 H. split; rewrite ?E1, ?E3; auto.
    - intros k'. unfold booked. rewrite E2, E3, E4, E5. intros H'. apply Hres. unfold booked.
      destruct H' as [H'%tabled_forget|[H'%Hff|[H'|H']]]; [tauto|tauto|find_cases; split; [eauto 6|congruence]..].
    - intros w H'. apply Hwin, bk_window0. unfold booked_window in *. by rewrite E3, E6 in H'.
    - intros id H'. rewrite Es. apply bk_session0. unfold booked_session in *. by rewrite E3, E7, E8, E9 in H'.
    - intros id [H1 H2]%H. apply Hfr; [by apply bk_record0|done]. }
  destruct wire as [w|]; (split; [|done]); apply HB; try done.
  intros id H. unfold recorded in *. cbn in H. rewrite lookup_delete_is_Some in H. set_unfold. naive_solver.
Qed.

(** A window or a session whose members are gone leaves. *)
Lemma remove_empty_window r w win :
  reg_windows r !! w = Some win -> slots win = [] ->
  exists r', remove_window r w = Some (win, r') /\ reg_resources r' = reg_resources r /\ reg_windows r' = delete w (reg_windows r) /\ forall id, is_Some (reg_sessions r !! id) <-> is_Some (reg_sessions r' !! id).
Proof.
  intros E Es. unfold remove_window. rewrite E, Es. eexists. split; [reflexivity|]. unfold remove_slots. cbn [fold_left set_windows reg_sessions].
  destruct (reg_sessions r !! session win) as [x|] eqn:Ex; cbn; (split; [done|]); (split; [done|]); [|done].
  intros id. rewrite lookup_insert_is_Some'. split; [by right|]. intros [<-|?]; [by rewrite Ex|done].
Qed.

Lemma booked_drop_window s w win r :
  Booked s -> reg_windows (reg s) !! w = Some win -> slots win = [] -> remove_window (reg s) w = Some (win, r) ->
  Booked (forget_window_bookkeeping (up_sessions s (with_registry (sessions s) r)) w).
Proof.
  intros [] Ew Es E. pose proof (inv_remove_window _ _ _ _ bk_registry0 E) as HI.
  destruct (remove_empty_window _ _ _ Ew Es) as (r' & E' & Hr & Hw & Hs). rewrite E in E'. injection E' as <-.
  unfold forget_window_bookkeeping, retire_window. pose proof (forget_forward (IdBridge.windows (idspace s)) w) as Hf.
  split; unfold reg; cbn; try done.
  - by apply forget_ok.
  - intros k H. rewrite Hr. apply bk_resource0. exact H.
  - intros w' H. rewrite Hw, lookup_delete_is_Some. unfold booked_window in H. cbn in H.
    destruct H as [[? ?]%Hf|H]; [split; [done|]; apply bk_window0; by left|].
    rewrite lookup_delete_is_Some in H. split; [tauto|]. apply bk_window0. right. tauto.
  - intros id H. apply Hs, bk_session0. exact H.
Qed.

Lemma remove_empty_session r id x :
  reg_sessions r !! id = Some x -> Registry.windows x = [] ->
  remove_session r id = Some (x, Registry.set_sessions r (delete id (reg_sessions r))).
Proof. intros E Ew. unfold remove_session. by rewrite E, Ew. Qed.

Lemma booked_reap_session s id : Booked s -> Booked (reap_session_if_empty s id).2.
Proof.
  intros Hs. unfold reap_session_if_empty. destruct (reg_sessions (reg s) !! id) as [x|] eqn:Ex; cbn [negb]; [|done].
  destruct (Registry.windows x) as [|? ?] eqn:Ew; cbn; [|done]. destruct (keep_empty x); cbn [negb]; [done|].
  rewrite (remove_empty_session _ _ _ Ex Ew).
  pose proof (inv_remove_session _ _ _ _ (bk_registry s Hs) (remove_empty_session _ _ _ Ex Ew)) as HI.
  destruct Hs. unfold forget_session_bookkeeping, IdBridge.forget_session, note_removed.
  pose proof (forget_forward (IdBridge.sessions (idspace s)) id) as Hf. cbn [sessions up_sessions with_registry released_keep_empty].
  assert (H : forall rel kp, rel ⊆ released_keep_empty (sessions s) -> Booked
    (up_sessions (up_idspace s (IdBridge.with_sessions (idspace s) (forget (IdBridge.sessions (idspace s)) id).2))
       (SessionTable.forget_session (with_released (with_registry (sessions s)
          (Registry.set_sessions (reg s) (delete id (reg_sessions (reg s))))) rel kp) id))).
  { intros rel kp Hrel. split; unfold reg; cbn; try done.
    - by apply forget_ok.
    - intros id' H. rewrite lookup_delete_is_Some. unfold booked_session in H. cbn in H.
      assert (booked_session s id' /\ id <> id') as [? ?]; [|auto]. unfold booked_session.
      rewrite !lookup_delete_is_Some in H. destruct H as [[? ?]%Hf|[[? ?]|[[? ?]|?]]]; [naive_solver..|set_solver]. }
  case_bool_decide; cbn [snd]; [apply H; set_solver|]. 
  exact (H (released_keep_empty (sessions s)) (killed_pending (sessions s)) (reflexivity _)).
Qed.

Lemma booked_forget_layout s id : Booked s -> Booked (forget_layout_of_emptied_session accepts s id).
Proof.
  intros Hs. unfold forget_layout_of_emptied_session. destruct (session_wire (idspace s) id); [|done].
  destruct (match reg_sessions (reg s) !! id with Some _ => _ | None => _ end); [by apply booked_delete|done].
Qed.

Lemma booked_reap_window s w : Booked s -> Booked (reap_window_if_empty accepts s w).
Proof.
  intros Hs. unfold reap_window_if_empty. destruct (reg_windows (reg s) !! w) as [win|] eqn:Ew; [|done].
  destruct (slots win) as [|? ?] eqn:Es; cbn; [|done]. destruct (remove_empty_window _ _ _ Ew Es) as (r' & E & _).
  rewrite E. cbv zeta. pose proof (booked_drop_window s w win r' Hs Ew Es E) as Hw.
  pose proof (booked_reap_session _ (session win) Hw) as Hb. destruct (reap_session_if_empty _ _) as [[] s2]; [done|].
  by apply booked_forget_layout.
Qed.

Lemma booked_reap s k : Booked s -> children (reg s) k = [] -> Booked (reap_terminal accepts s k).2.
Proof.
  intros Hs Hc. unfold reap_terminal. destruct (remove_resource (reg s) k) as [[d r]|] eqn:E.
  - destruct (booked_drop_resource s k d r Hs Hc E) as [Hb _].
    destruct (reg_resources (reg s) !! k ≫= window) as [w|]; cbn; [by apply booked_reap_window|done].
  - destruct (reg_resources (reg s) !! k ≫= window) as [w|]; cbn; [by apply booked_reap_window|done].
Qed.
End Reap.
