(* ===== verification/Watcher.v ===== *)
(** * What the exit watcher does to the server

    The cascade and the reap of [reap_and_notify] against the whole state: what leaves, what is
    told to whom, and what does not move. *)

From stdpp Require Import gmap.
From S2P Require Import Prelude Enums Caps Codec Command Frame.
From S2P Require Import RegistrySteps.
From S2P Require Import IdBridge Leases SpawnLedger ResourceTable Metadata SessionTable Agent ClientTable.
From S2P Require Import Window Registry ServerState Lifecycle Booked.
From S2P Require Import Ids.

(** ** What a reap leaves alone *)

(** Nothing but the resources [ks] is touched in what a close reads. *)
Record keeps (ks : list key) (s s' : ServerState) : Prop := {
  kp_clients : clients s' = clients s;
  kp_served : has_served_client s' = has_served_client s;
  kp_subscribers k : k ∉ ks -> subscribers (resources s') !! k = subscribers (resources s) !! k;
  kp_reasons k : k ∉ ks -> close_reasons s' !! k = close_reasons s !! k;
  kp_wire k w : k ∉ ks -> terminal_wire (idspace s) k = Some w -> terminal_wire (idspace s') k = Some w
}.

Lemma keeps_refl ks s : keeps ks s s.
Proof. by split. Qed.

Lemma keeps_trans ks ks' s1 s2 s3 : keeps ks s1 s2 -> keeps ks' s2 s3 -> keeps (ks ++ ks') s1 s3.
Proof.
  intros [] []. split; try congruence; intros k.
  - intros [? ?]%not_elem_of_app. rewrite kp_subscribers1, kp_subscribers0; done.
  - intros [? ?]%not_elem_of_app. rewrite kp_reasons1, kp_reasons0; done.
  - intros w [? ?]%not_elem_of_app. auto.
Qed.

Lemma keeps_weaken ks ks' s s' : (forall k, k ∈ ks -> k ∈ ks') -> keeps ks s s' -> keeps ks' s s'.
Proof. intros H []. split; auto. Qed.

Lemma keeps_targets ks s s' k : keeps ks s s' -> k ∉ ks -> terminal_fanout_targets s' k = terminal_fanout_targets s k.
Proof.
  intros [] Hk. unfold terminal_fanout_targets, ResourceTable.subscribers_for.
  by rewrite kp_subscribers0, kp_clients0.
Qed.

Lemma keeps_intern s k w s' : intern_terminal_wire s k = Some (w, s') -> keeps [] s s'.
Proof.
  unfold intern_terminal_wire, intern_terminal, intern, terminal_wire.
  destruct (forward (terminals (idspace s)) !! k) as [x|] eqn:E; cbn.
  - intros [= <- <-]. by split.
  - destruct (next (terminals (idspace s)) =? u32_max); [done|]. intros [= <- <-]. split; try done.
    intros k' w' _ H. unfold terminal_wire, wire in *. cbn. rewrite lookup_insert_ne; [done|]. intros <-. congruence.
Qed.

Lemma keeps_begin s k r s' : begin_resource_close s k = Some (r, s') -> keeps [k] s s'.
Proof.
  unfold begin_resource_close. destruct (reg_resources (reg s) !! k); [|done]. intros [= _ <-]. split; try done.
  intros k' H. cbn. rewrite lookup_delete_ne; [done|]. intros <-. apply H. by left.
Qed.

(** Nothing but the registry's windows and sessions, their ledgers and the layout key. *)
Record frames (s s' : ServerState) : Prop := {
  fr_clients : clients s' = clients s;
  fr_served : has_served_client s' = has_served_client s;
  fr_resources : resources s' = resources s;
  fr_reasons : close_reasons s' = close_reasons s;
  fr_terminals : terminals (idspace s') = terminals (idspace s);
  fr_registry : reg_resources (reg s') = reg_resources (reg s)
}.

Lemma frames_trans s1 s2 s3 : frames s1 s2 -> frames s2 s3 -> frames s1 s3.
Proof. intros [] []. split; congruence. Qed.
Lemma frames_keeps s s' : frames s s' -> keeps [] s s'.
Proof.
  intros []. split; try done; intros k.
  - by rewrite fr_resources0.
  - by rewrite fr_reasons0.
  - unfold terminal_wire. intros w _. by rewrite fr_terminals0.
Qed.

Section Frames.
Context (accepts : Sender -> FrameKind -> bool).

Lemma delete_frames s scope k : frames s (metadata_delete accepts s scope k).2.
Proof.
  unfold metadata_delete. destruct (delete_key (metadata s) scope k) as [e m]. destruct e; [|done].
  destruct (broadcast_sent accepts (up_metadata s m) scope k None) as [fs E]. cbn [negb]. by rewrite E.
Qed.

Lemma set_frames s scope k v : frames s (metadata_set accepts s scope k v).2.
Proof.
  unfold metadata_set. case_bool_decide; [done|]. unfold metadata_broadcast.
  pose proof (broadcast_sent accepts s scope k (Some v)) as [fs E].
  destruct (broadcast_metadata_change accepts s scope k (Some v)) as [d s1]. cbn in E. by subst s1.
Qed.

Lemma reap_session_frames s id : frames s (reap_session_if_empty s id).2.
Proof.
  unfold reap_session_if_empty. destruct (reg_sessions (reg s) !! id) as [x|] eqn:Ex; cbn [negb]; [|done].
  destruct (Registry.windows x) as [|? ?] eqn:Ew; cbn; [|done]. destruct (keep_empty x); cbn [negb]; [done|].
  rewrite (remove_empty_session _ _ _ Ex Ew). cbn. unfold note_removed. split; try done.
  unfold reg. cbn. by case_bool_decide.
Qed.

Lemma reap_window_frames s w : frames s (reap_window_if_empty accepts s w).
Proof.
  unfold reap_window_if_empty. destruct (reg_windows (reg s) !! w) as [win|] eqn:Ew; [|done].
  destruct (slots win) as [|? ?] eqn:Es; cbn; [|done]. destruct (remove_empty_window _ _ _ Ew Es) as (r' & E & Er & _).
  rewrite E. cbv zeta. set (s1 := forget_window_bookkeeping _ w).
  assert (H1 : frames s s1) by (split; try done).
  pose proof (reap_session_frames s1 (session win)) as H2. destruct (reap_session_if_empty s1 (session win)) as [b s2].
  cbn in H2. destruct b; [by eapply frames_trans|]. eapply frames_trans; [exact H1|]. eapply frames_trans; [exact H2|].
  unfold forget_layout_of_emptied_session. destruct (session_wire _ _); [|done].
  match goal with |- frames _ (if ?b then _ else _) => destruct b end; [apply delete_frames|done].
Qed.

Lemma forget_other {W} `{WireId W} (b : IdBridge key W) c k : k <> c -> forward (forget b c).2 !! k = forward b !! k.
Proof. intros Hk. unfold forget. destruct (forward b !! c); [|done]. cbn. by rewrite lookup_delete_ne. Qed.

Lemma drop_keeps s k r : keeps [k] s (forget_terminal_bookkeeping (up_sessions s (with_registry (sessions s) r)) k).
Proof.
  unfold forget_terminal_bookkeeping, forget_close_reason, retire_terminal. st_cbn.
  assert (Hf := fun k' => forget_other (terminals (idspace s)) k k').
  destruct (forget (terminals (idspace s)) k) as [w b]. cbn in Hf.
  assert (Hr : forall k', k' ∉ [k] -> subscribers (forget_resource (resources s) k) !! k' = subscribers (resources s) !! k').
  { intros k' Hk. assert (k' <> k) by (intros ->; apply Hk; by left). unfold forget_resource, detach_actor. cbn.
    destruct (tokens (resources s) !! k); cbn; by rewrite lookup_delete_ne. }
  assert (Hd : forall k' (m : gmap key CloseReason), k' ∉ [k] -> delete k m !! k' = m !! k').
  { intros k' m Hk. rewrite lookup_delete_ne; [done|]. intros ->. apply Hk. by left. }
  destruct w as [w|]; (split; [done|done|exact Hr|intros k'; apply Hd|]); intros k' w' Hk H; unfold terminal_wire, wire in *; cbn;
    (rewrite Hf; [done|]); intros ->; apply Hk; by left.
Qed.

Lemma reap_keeps s k : keeps [k] s (reap_terminal accepts s k).2.
Proof.
  unfold reap_terminal. set (s1 := match remove_resource (reg s) k with Some _ => _ | None => s end).
  assert (H1 : keeps [k] s s1).
  { unfold s1. destruct (remove_resource (reg s) k) as [[d r]|]; [apply drop_keeps|apply keeps_refl]. }
  destruct (reg_resources (reg s) !! k ≫= window) as [w|]; [|exact H1]. cbn.
  apply (keeps_trans [k] [] s s1); [exact H1|]. apply frames_keeps, reap_window_frames.
Qed.

(** ** The cascade *)

(** Nothing is bound to a resource that is itself bound. *)
Lemma child_leaf s c d p :
  Booked s -> reg_resources (reg s) !! c = Some d -> parent d = Some p -> children (reg s) c = [].
Proof.
  intros Hs Hd Hp. pose proof (bk_registry s Hs) as HI. destruct (inv_resource _ HI c d Hd) as [_ Hk]. unfold wf_kind in Hk.
  destruct (kind d) eqn:Ek; [destruct Hk as (? & _); congruence|].
  destruct (children (reg s) c) as [|x xs] eqn:E; [done|]. exfalso.
  assert (Hx : x ∈ children (reg s) c) by (rewrite E; by left). apply elem_of_children in Hx as (dx & Hdx & Hpx).
  destruct (inv_resource _ HI x dx Hdx) as [_ Hkx]. unfold wf_kind in Hkx.
  destruct (kind dx); [destruct Hkx as (? & _); congruence|]. destruct Hkx as (_ & _ & _ & q & dq & E1 & E2 & E3). congruence.
Qed.

Lemma reap_leaf s c :
  Booked s -> children (reg s) c = [] -> live_resource s c ->
  let s' := (reap_terminal accepts s c).2 in
  Booked s' /\ forall k dk, reg_resources (reg s') !! k = Some dk <-> reg_resources (reg s) !! k = Some dk /\ k <> c.
Proof.
  intros Hs Hc [d Hd]. cbv zeta. split; [by apply booked_reap|]. unfold reap_terminal. rewrite Hd.
  destruct (remove_resource (reg s) c) as [[d' r]|] eqn:E; [|unfold remove_resource in E; by rewrite Hd in E].
  destruct (booked_drop_resource accepts s c d' r Hs Hc E) as [_ Er]. set (s1 := forget_terminal_bookkeeping _ c) in *.
  intros k dk. transitivity (reg_resources r !! k = Some dk).
  - cbn [mbind option_bind]. destruct (window d) as [w|]; cbn [snd]; [|by rewrite Er].
    by rewrite (fr_registry _ _ (reap_window_frames s1 w)), Er.
  - destruct (remove_resource_leaves _ _ _ _ (bk_registry s Hs) E) as (_ & _ & Hr & _). rewrite Hr.
    split; [tauto|]. intros [H1 H2]. split; [done|]. split; [done|]. intros Hpk.
    assert (Hin : k ∈ children (reg s) c) by (apply elem_of_children; by exists dk). rewrite Hc in Hin. by apply not_elem_of_nil in Hin.
Qed.

Lemma Forall2_impl_elem {A B} (P Q : A -> B -> Prop) xs ys :
  Forall2 P xs ys -> (forall x y, x ∈ xs -> P x y -> Q x y) -> Forall2 Q xs ys.
Proof. induction 1 as [|x y xs ys Hxy _ IH]; intros H; constructor; [apply H; [by left|done]|apply IH; intros; apply H; [by right|done]]. Qed.

(** What the watcher of the parent announces of a child, as the state was before. *)
Definition closes (s : ServerState) (parent_wire : ResourceId) (c : key) (x : CascadedClose) : Prop :=
  cc_parent x = parent_wire /\ cc_targets x = terminal_fanout_targets s c /\
  cc_reason x = (let r := default CloseReason_Exited (close_reasons s !! c) in
                 if bool_decide (r = CloseReason_Exited) then CloseReason_ParentClosed else r) /\
  terminal_wire (idspace s) c = Some (cc_wire x).

Lemma closes_keeps ks s s' w c x :
  keeps ks s s' -> c ∉ ks -> is_Some (terminal_wire (idspace s) c) -> closes s' w c x -> closes s w c x.
Proof.
  intros Hk Hc [w' Hw] (H1 & H2 & H3 & H4). split; [done|]. rewrite <- (keeps_targets ks s s' c) by done. split; [done|].
  rewrite <- (kp_reasons _ _ _ Hk c Hc). split; [done|]. apply (kp_wire _ _ _ Hk) in Hw as Hw'; [|done]. congruence.
Qed.

Lemma intern_wire s k w s' : intern_terminal_wire s k = Some (w, s') -> terminal_wire (idspace s') k = Some w.
Proof.
  unfold intern_terminal_wire, intern_terminal, intern, terminal_wire, wire.
  destruct (forward (terminals (idspace s)) !! k) as [x|] eqn:E; cbn; [by intros [= <- <-]|].
  destruct (next (terminals (idspace s)) =? u32_max); [done|]. intros [= <- <-]. apply lookup_insert_eq.
Qed.

Lemma intern_known s k w : terminal_wire (idspace s) k = Some w -> intern_terminal_wire s k = Some (w, s).
Proof.
  unfold terminal_wire, wire, intern_terminal_wire, intern_terminal, intern. intros ->.
  destruct s as [? ? ? ? ? [] ? ? ? ? ? ? ? ? ?]. done.
Qed.

Lemma booked_begin s k r s' :
  Booked s -> begin_resource_close s k = Some (r, s') -> Booked s' /\ reg s' = reg s /\ live_resource s k /\
  r = default CloseReason_Exited (close_reasons s !! k) /\ s' = forget_close_reason s k.
Proof.
  intros Hs. unfold begin_resource_close. destruct (reg_resources (reg s) !! k) as [d|] eqn:E; [|done]. intros [= <- <-].
  split; [|repeat split; by eexists]. apply booked_reasons; [done|]. intros k' H. find_cases. left. by eexists.
Qed.

Lemma begin_live s k : live_resource s k ->
  begin_resource_close s k = Some (default CloseReason_Exited (close_reasons s !! k), forget_close_reason s k).
Proof. intros [d E]. unfold begin_resource_close. by rewrite E. Qed.

(** Every live resource has its id: registration gives it one. *)
Definition wired (s : ServerState) : Prop := forall k, live_resource s k -> is_Some (terminal_wire (idspace s) k).

Lemma cascade_spec cs s p w :
  Booked s -> wired s -> NoDup cs ->
  (forall c, c ∈ cs -> exists d, reg_resources (reg s) !! c = Some d /\ parent d = Some p) ->
  exists out s', cascade accepts s w cs = Some (out, s') /\
  Booked s' /\ keeps cs s s' /\ Forall2 (closes s w) cs out /\
  (forall k d, reg_resources (reg s') !! k = Some d <-> reg_resources (reg s) !! k = Some d /\ k ∉ cs).
Proof.
  revert s. induction cs as [|c cs IH]; intros s Hs Hw Hnd Hc.
  - exists [], s. split; [done|]. split; [done|]. split; [apply keeps_refl|]. split; [constructor|].
    intros k d. split; [|tauto]. intros ?. split; [done|]. apply not_elem_of_nil.
  - apply NoDup_cons in Hnd as [Hcin Hnd]. destruct (Hc c) as (d & Hd & Hp); [by left|]. cbn [cascade].
    assert (Hlc : live_resource s c) by by eexists. destruct (Hw c Hlc) as [wc Hwc].
    rewrite (begin_live s c Hlc). set (s1 := forget_close_reason s c).
    destruct (booked_begin s c _ s1 Hs (begin_live s c Hlc)) as (H1 & _).
    pose proof (keeps_begin s c _ s1 (begin_live s c Hlc)) as E1. rewrite (intern_known s1 c wc Hwc). cbn [mbind option_bind].
    pose proof (reap_keeps s1 c) as E3. destruct (reap_leaf s1 c H1 (child_leaf s1 c d p H1 Hd Hp) Hlc) as [H3 Hl3].
    destruct (reap_terminal accepts s1 c) as [e s3]. cbn [snd] in E3, H3, Hl3.
    assert (K3 : keeps [c] s s3) by (apply (keeps_weaken ([c] ++ [c])); [set_solver|]; by eapply keeps_trans).
    assert (Hn : forall k, k <> c -> k ∉ [c]) by (intros k Hk ->%list_elem_of_singleton; done).
    destruct (IH s3) as (more & s4 & -> & H4 & K4 & F4 & L4); [done| |done| |].
    + intros k [dk Hk]. apply Hl3 in Hk as [Hk Hne]. destruct (Hw k) as [x Hx]; [by eexists|]. exists x.
      by apply (kp_wire _ _ _ K3); [apply Hn|].
    + intros c' Hc'. destruct (Hc c') as (d' & Hd' & Hp'); [by right|]. exists d'. split; [|done]. apply Hl3.
      split; [done|]. by intros ->.
    + eexists _, s4. split; [reflexivity|]. split; [done|]. split; [by apply (keeps_trans [c] cs s s3)|]. split; [constructor|].
      * by split.
      * apply (Forall2_impl_elem _ _ _ _ F4). intros c' x Hc' Hx. destruct (Hc c') as (d' & Hd' & _); [by right|].
        eapply closes_keeps; [exact K3|apply Hn; by intros ->|apply Hw; by eexists|exact Hx].
      * intros k dk. rewrite L4, Hl3, not_elem_of_cons. unfold s1. cbn. tauto.
Qed.

(** ** The watcher *)

Lemma booked_take_killed s l s' : Booked s -> take_killed_sessions s = (l, s') -> Booked s' /\ reg s' = reg s /\ keeps [] s s'.
Proof.
  intros Hs [= <- <-]. split; [|by split]. apply booked_sessions; [done|done|by left|]. intros id H. left. right. exact H.
Qed.

Lemma children_gone s p :
  (forall k d, reg_resources (reg s) !! k = Some d -> parent d <> Some p) -> children (reg s) p = [].
Proof.
  intros H. destruct (children (reg s) p) as [|x xs] eqn:E; [done|]. exfalso.
  assert (Hx : x ∈ children (reg s) p) by (rewrite E; by left). apply elem_of_children in Hx as (dx & Hdx & Hpx). by apply (H x dx).
Qed.

(** An id whose key has left means nothing and nothing is recorded under it. *)
Lemma gone_wire ks s s' k w :
  Booked s -> wired s -> Booked s' -> keeps ks s s' ->
  (forall k', live_resource s' k' -> live_resource s k' /\ k' ∉ ks) ->
  k ∈ ks -> terminal_wire (idspace s) k = Some w -> terminal_from_wire (idspace s') w = None /\ ~ recorded s' w.
Proof.
  intros Hs Hw Hs' Hk Hlive Hin Ew.
  assert (H0 : terminal_from_wire (idspace s') w = None).
  { destruct (terminal_from_wire (idspace s') w) as [k'|] eqn:E; [|done]. exfalso.
    assert (Ef : terminal_wire (idspace s') k' = Some w) by (apply (ok_inverse _ (bk_terminals s' Hs')); exact E).
    destruct (Hlive k') as [Hl Hn]; [apply (bk_resource s' Hs'); right; left; by eexists|].
    destruct (Hw k' Hl) as [w' Hw']. pose proof (kp_wire _ _ _ Hk k' w' Hn Hw') as Ef'. assert (w' = w) as -> by congruence.
    apply (ok_inverse _ (bk_terminals s Hs)) in Ew, Hw'. congruence. }
  split; [done|]. intros Hr. destruct (ok_minted _ (bk_terminals s Hs) k w Ew) as (raw & -> & _).
  destruct (bk_record s' Hs' raw Hr) as [x Hx]. change (from_raw raw) with (ResourceId_Local raw) in H0. congruence.
Qed.

(** The resources a watcher takes along. *)
Definition subtree (s : ServerState) (pane : key) : list key := children (reg s) pane ++ [pane].

Lemma NoDup_children r p : NoDup (children r p).
Proof.
  unfold children. pose proof (NoDup_fst_map_to_list (reg_resources r)) as H.
  induction (map_to_list (reg_resources r)) as [|x xs IH]; cbn; [apply NoDup_nil_2|]. apply NoDup_cons in H as [Hx H].
  case_bool_decide; [|by apply IH]. cbn. apply NoDup_cons. split; [|by apply IH]. intros Hin. apply Hx.
  apply list_elem_of_In, in_map_iff in Hin as (y & E & [Hy _]%filter_In). apply list_elem_of_In, in_map_iff. by exists y.
Qed.

Lemma pane_not_child s p : Booked s -> p ∉ children (reg s) p.
Proof.
  intros Hs Hin. pose proof Hin as (dp & Hdp & Hpp)%elem_of_children.
  rewrite (child_leaf s p dp p Hs Hdp Hpp) in Hin. by apply not_elem_of_nil in Hin.
Qed.

(** The parent's id is there to be named. *)
Lemma parent_interned s k d :
  Booked s -> wired s -> reg_resources (reg s) !! k = Some d ->
  (match resource_parent s k with
   | Some p => '(wp, s) ← intern_terminal_wire s p; Some (Some wp, s)
   | None => Some (None, s)
   end) = Some (parent d ≫= terminal_wire (idspace s), s).
Proof.
  intros Hs Hw Hd. unfold resource_parent. rewrite Hd. cbn. destruct (parent d) as [p|] eqn:Ep; cbn; [|done].
  destruct (Hw p) as [wp Ewp]; [|rewrite (intern_known s p wp Ewp); cbn; by rewrite Ewp].
  destruct (inv_resource _ (bk_registry s Hs) k d Hd) as [_ Hk]. unfold wf_kind in Hk.
  destruct (kind d); [destruct Hk as (? & _); congruence|]. destruct Hk as (_ & _ & _ & q & dq & E & Hq & _).
  rewrite Ep in E. injection E as <-. by exists dq.
Qed.

Lemma reap_answer s k : (reap_terminal accepts s k).1 = no_sessions (reap_terminal accepts s k).2.
Proof. unfold reap_terminal. by destruct (reg_resources (reg s) !! k ≫= window). Qed.

Lemma watcher_run s pane d :
  Booked s -> wired s -> reg_resources (reg s) !! pane = Some d ->
  exists r s', reap_and_notify accepts s pane = Some (Some r, s') /\ Booked s' /\ keeps (subtree s pane) s s' /\
    (forall k, live_resource s' k <-> live_resource s k /\ k ∉ subtree s pane) /\
    terminal_wire (idspace s) pane = Some (rn_wire r) /\
    rn_reason r = default CloseReason_Exited (close_reasons s !! pane) /\
    rn_targets r = terminal_fanout_targets s pane /\
    rn_parent r = (parent d ≫= terminal_wire (idspace s)) /\
    Forall2 (closes s (rn_wire r)) (children (reg s) pane) (rn_cascaded r) /\
    rn_server_empty r = no_sessions s' /\ rn_served r = has_served_client s.
Proof.
  intros Hs Hw Hd. assert (Hl : live_resource s pane) by by eexists. unfold reap_and_notify.
  rewrite (begin_live s pane Hl). set (s1 := forget_close_reason s pane).
  destruct (booked_begin s pane _ s1 Hs (begin_live s pane Hl)) as (H1 & _).
  pose proof (keeps_begin s pane _ s1 (begin_live s pane Hl)) as E1.
  destruct (Hw pane Hl) as [w Ew]. rewrite (intern_known s1 pane w Ew). cbn [mbind option_bind].
  rewrite (parent_interned s1 pane d H1 Hw Hd). cbn [mbind option_bind].
  change (resource_children s1 pane) with (children (reg s) pane).
  destruct (cascade_spec (children (reg s) pane) s1 pane w H1 Hw (NoDup_children _ _)) as (out & s2 & -> & H2 & K2 & F2 & L2).
  { intros c Hc. by apply elem_of_children in Hc. }
  cbn [mbind option_bind]. pose proof (pane_not_child s pane Hs) as Hpn.
  destruct (reap_leaf s2 pane H2) as [H3 L3].
  { apply children_gone. intros k dk Hk Hp. apply L2 in Hk as [Hk Hn]. apply Hn, elem_of_children. by exists dk. }
  { exists d. by apply L2. }
  pose proof (reap_keeps s2 pane) as K3. pose proof (reap_answer s2 pane) as Ee.
  destruct (reap_terminal accepts s2 pane) as [e s3]. cbn [fst snd] in H3, L3, K3, Ee.
  destruct (take_killed_sessions s3) as [killed s4] eqn:Et. destruct (booked_take_killed s3 killed s4 H3 Et) as (H4 & R4 & K4).
  assert (K : keeps ([pane] ++ children (reg s) pane ++ [pane] ++ []) s s4) by (do 3 (eapply keeps_trans; [eassumption|]); done).
  eexists _, s4. split; [reflexivity|]. split; [done|].
  split; [eapply keeps_weaken; [|exact K]; unfold subtree; set_solver|].
  cbn [rn_wire rn_reason rn_targets rn_parent rn_cascaded rn_server_empty rn_served].
  split; [|split; [done|split; [done|split; [exact (keeps_targets _ _ _ _ K2 Hpn)|split; [done|split; [|split]]]]]].
  - intros k. rewrite R4. unfold subtree. rewrite not_elem_of_app, not_elem_of_cons. split.
    + intros [dk Hk]. apply L3 in Hk as [Hk Hne]. apply L2 in Hk as [Hk Hn]. split; [by exists dk|].
      split; [done|]. split; [done|apply not_elem_of_nil].
    + intros [[dk Hk] (? & ? & _)]. exists dk. apply L3. split; [by apply L2|done].
  - apply (Forall2_impl_elem _ _ _ _ F2). intros c x Hc Hx. pose proof Hc as (dc & Hdc & _)%elem_of_children.
    apply (closes_keeps [pane] s s1); [done| |apply Hw; by eexists|exact Hx]. intros ->%list_elem_of_singleton. done.
  - rewrite Ee. unfold no_sessions. by rewrite R4.
  - by rewrite (kp_served _ _ _ K3), (kp_served _ _ _ K2).
Qed.
End Frames.
