(* ===== verification/Spawn.v ===== *)
(** * How resources come to be ([phux-server/src/runtime/commands.rs], [resource_commands.rs])

    The synchronous transactions that seed a session, add a pane and open an agent session: the
    registry entry, the wire id, the optional record, then the handle, or the rollback when the
    engine cannot be built. Building the engine (the PTY, the terminal) is external: its outcome
    is the argument [built]. Slotmap keys are the caller's fresh ones; a panic is [None]. *)

From stdpp Require Import gmap.
From S2P Require Import Prelude Enums Caps Codec Command Frame.
From S2P Require Import IdBridge Leases SpawnLedger ResourceTable Metadata SessionTable Agent ClientTable.
From S2P Require Import Window Registry ServerState Lifecycle.
From S2P Require Import Ids.

(* phux-protocol/src/wire/frame/mod.rs RESOURCE_AGENT_KEY *)
Definition RESOURCE_AGENT_KEY : bytes := str "phux.agent/v1".
(* phux-protocol/src/wire/frame/mod.rs RESOURCE_AGENT_SESSION_KEY *)
Definition RESOURCE_AGENT_SESSION_KEY : bytes := str "phux.agent-session/v1".

Section Spawn.
  Context (accepts : Sender -> FrameKind -> bool).

Definition with_terminal (d : ResourceDescriptor) t : ResourceDescriptor :=
  mkResource (resource_id d) (kind d) (parent d) (window d) t (agent d).
(** A write through [terminal_mut]; nothing happens when there is no such facet. *)
(* phux-core/src/registry.rs Registry::terminal_mut *)
Definition terminal_mut (r : Registry) (id : key) (f : TerminalFacet -> TerminalFacet) : Registry :=
  Registry.set_resources r (alter (fun d => with_terminal d (f <$> terminal d)) id (reg_resources r)).
(** A registry operation on the server's state. *)
Definition on_registry (s : ServerState) (r : Registry) : ServerState := up_sessions s (with_registry (sessions s) r).

(** The state word of an agent session. *)
Definition with_agent_state (d : ResourceDescriptor) (word : option bytes) : ResourceDescriptor :=
  mkResource (resource_id d) (kind d) (parent d) (window d) (terminal d)
    ((fun a => mkAgentFacet (provider a) (native_id a) word) <$> agent d).
(* phux-server/src/runtime/resource_commands.rs:444-451 publish_stream_evidence *)
Definition set_facet_state (r : Registry) (session : key) (word : option bytes) : Registry :=
  set_resources r (alter (fun d => with_agent_state d word) session (reg_resources r)).

(* phux-server/src/runtime/commands.rs stamp_spawn_cwd *)
Definition stamp_spawn_cwd (s : ServerState) (terminal : key) (cwd : option SessionTable.Path) : ServerState :=
  match cwd with
  | Some cwd => on_registry s (terminal_mut (reg s) terminal (fun f => mkTerminalFacet (dims f) cwd (title f)))
  | None => s
  end.
Definition set_dims (s : ServerState) (terminal : key) (d : Z * Z) : ServerState :=
  on_registry s (terminal_mut (reg s) terminal (fun f => mkTerminalFacet d (cwd f) (title f))).

(** The record of the agent session a spawn resumes, under the new pane's id. *)
Definition tag_agent_session (s : ServerState) (wire : ResourceId) (agent_session : option bytes) : ServerState :=
  match agent_session with
  | Some value => (metadata_set accepts s (Scope_Resource wire) RESOURCE_AGENT_SESSION_KEY value).2
  | None => s
  end.

(** What follows the registry entry: the engine is built and registered, or the pane is reaped. *)
Definition finish_spawn (s : ServerState) (terminal : key) (built : option (ResourceHandle * Token))
    : option (bool * ServerState) :=
  match built with
  | None => Some (false, (reap_terminal accepts s terminal).2)
  | Some (h, token) => '(_, s) ← register_resource_handle s terminal h token; Some (true, s)
  end.

(* phux-server/src/runtime/commands.rs seed_session_with_actor_and_metadata *)
Definition seed_session_with_actor (s : ServerState) (n : bytes) (now : Z) (sid : SessionId) (wid : WindowId) (pid : key)
    (agent_session : option bytes) (built : option (ResourceHandle * Token)) : option (bool * ServerState) :=
  t ← seed (sessions s) n now sid wid pid;
  let s := up_sessions s t in
  s ← match agent_session with
      | Some v => '(wire, s) ← intern_terminal_wire s pid; Some (tag_agent_session s wire (Some v))
      | None => Some s
      end;
  finish_spawn s pid built.

(* phux-server/src/runtime/commands.rs seed_session_with_pty_and_colors_and_metadata *)
Definition seed_session_with_pty (s : ServerState) (n : bytes) (now : Z) (sid : SessionId) (wid : WindowId) (pid : key)
    (spawn_cwd : option SessionTable.Path) (agent_session : option bytes) (built : option (ResourceHandle * Token))
    : option (bool * ServerState) :=
  t ← seed (sessions s) n now sid wid pid;
  let s := stamp_spawn_cwd (up_sessions s t) pid spawn_cwd in
  '(wire, s) ← intern_terminal_wire s pid;
  finish_spawn (tag_agent_session s wire agent_session) pid built.

(* phux-server/src/runtime/commands.rs SpawnOwnership *)
Inductive SpawnOwnership : Type := Own_Session (id : SessionId) | Own_Terminal (owner : ResourceId).

(* phux-server/src/state/sessions.rs ServerState::add_pane_to_session *)
Definition add_pane_to_session (s : ServerState) (session : SessionId) (wid : WindowId) (pid : key) : option key * ServerState :=
  let '(k, t) := add_pane (sessions s) session wid pid in (k, up_sessions s t).
(* phux-server/src/state/sessions.rs ServerState::add_pane_to_terminal_owner *)
Definition add_pane_to_terminal_owner (s : ServerState) (owner : ResourceId) (pid : key) : option key * ServerState :=
  match terminal_from_wire (idspace s) owner with
  | None => (None, s)
  | Some owner => let '(k, t) := add_pane_beside (sessions s) owner pid in (k, up_sessions s t)
  end.

(* phux-server/src/runtime/commands.rs DEFAULT_SPAWN_DIMS *)
Definition DEFAULT_SPAWN_DIMS : Z * Z := (80, 24).

(** [Some (None, s)]: no such owner; [Some (Some b, s)]: a pane was made, and [b] says whether its
    engine could be built. *)
(* phux-server/src/runtime/commands.rs spawn_pane_with_pty_and_colors *)
Definition spawn_pane_with_pty (s : ServerState) (ownership : SpawnOwnership) (wid : WindowId) (pid : key)
    (spawn_cwd : option SessionTable.Path) (agent_session : option bytes) (initial_size : option (Z * Z))
    (built : option (ResourceHandle * Token)) : option (option bool * ServerState) :=
  let size := match initial_size with Some (c, r) => (Z.max c 1, Z.max r 1) | None => DEFAULT_SPAWN_DIMS end in
  let '(made, s) := match ownership with
                    | Own_Session session => add_pane_to_session s session wid pid
                    | Own_Terminal owner => add_pane_to_terminal_owner s owner pid
                    end in
  match made with
  | None => Some (None, s)
  | Some terminal =>
      let s := set_dims (stamp_spawn_cwd s terminal spawn_cwd) terminal size in
      '(wire, s) ← intern_terminal_wire s terminal;
      '(ok, s) ← finish_spawn (tag_agent_session s wire agent_session) terminal built;
      Some (Some ok, s)
  end.

(* phux-server/src/runtime/resource_commands.rs:121-145 spawn_agent_session *)
Definition open_agent_session (s : ServerState) (client : ClientId) (core_parent core : key) (provider : bytes)
    (native_id : option bytes) (h : ResourceHandle) (token : Token) (out_tx : Sender)
    : option (result RegistryError ResourceId * ServerState) :=
  match new_agent_session (reg s) core core_parent (mkAgentFacet provider native_id None) with
  | Err e => Some (Err e, s)
  | Ok r =>
      let s := on_registry s r in
      '(_, s) ← register_resource_handle s core h token;
      '(wire, s) ← intern_terminal_wire s core;
      let s := ServerState.record_spawn s core client in
      Some (Ok wire, subscribe_terminal s client core (Some out_tx))
  end.

(** The text of the error a registry refusal is printed as. *)
Context (error_text : RegistryError -> bytes).

(** The critical section: the answer, and the clients of a session the move emptied. *)
(* phux-server/src/runtime/attach.rs:1750-1822 handle_move_terminal *)
Definition move_resource (s : ServerState) (terminal owner_terminal : ResourceId)
    : result MoveError (list (ClientId * Sender)) * ServerState :=
  match terminal, owner_terminal with
  | ResourceId_Local _, ResourceId_Local _ =>
      match terminal_from_wire (idspace s) terminal with
      | None => (Err (MoveError_MoveFailed (str "terminal was not found on this server")), s)
      | Some moved =>
      match terminal_from_wire (idspace s) owner_terminal with
      | None => (Err (MoveError_MoveFailed (str "owner terminal was not found on this server")), s)
      | Some owner =>
      match reg_resources (reg s) !! owner ≫= window with
      | None => (Err (MoveError_MoveFailed (str "owner terminal has no window on this server")), s)
      | Some dest_window =>
          let source_window := reg_resources (reg s) !! moved ≫= window in
          let source_session := source_window ≫= fun w => session <$> reg_windows (reg s) !! w in
          match move_terminal (reg s) moved dest_window with
          | Err e => (Err (MoveError_MoveFailed (error_text e)), s)
          | Ok r =>
              let s := on_registry s r in
              let s := match source_window with Some w => reap_window_if_empty accepts s w | None => s end in
              (Ok (match source_session with
                   | Some x => if bool_decide (reg_sessions (reg s) !! x = None) then attached_in_session (clients s) x else []
                   | None => []
                   end), s)
          end
      end end end
  | _, _ => (Err MoveError_UnsupportedSatelliteRoute, s)
  end.

End Spawn.
