(* ===== verification/AgentDrain.v ===== *)
(** * What the detector may write ([phux-server/src/runtime/client.rs], the agent drain)

    A pane's engine derives what runs in it and sends events; the drain turns each into one
    critical section on the server's state, under the arbitration of [agent_state.rs]. The JSON
    of the records is serde's and enters as [decode], [encode] and [occupant_json]; the loaded
    rule set's kinds and [str::to_lowercase] are arguments. *)

From stdpp Require Import gmap pretty.
From S2P Require Import Prelude Enums Caps Codec Command Frame.
From S2P Require Import IdBridge Leases SpawnLedger ResourceTable Metadata SessionTable Agent ClientTable.
From S2P Require Import Window Registry ServerState Lifecycle Booked Spawn.
From S2P Require Import Ids.

(* phux-server/src/agent_detect/mod.rs DetectedState *)
Inductive DetectedState : Type := Detected_Idle | Detected_Working | Detected_Blocked | Detected_Done.
(* phux-server/src/agent_detect/mod.rs DetectedState::as_str *)
Definition state_word (d : DetectedState) : bytes :=
  match d with
  | Detected_Idle => str "idle" | Detected_Working => str "working"
  | Detected_Blocked => str "blocked" | Detected_Done => str "done"
  end.
(* phux-server/src/agent_detect/mod.rs AgentReport *)
Record AgentReport : Type := mkReport { rep_kind : bytes; rep_name : bytes; rep_state : DetectedState }.
(* phux-server/src/agent_detect/identify.rs PaneOccupant *)
Record PaneOccupant : Type := mkOccupant { foreground : bytes; is_pane_shell : bool }.
(* phux-server/src/agent_detect/mod.rs AgentDetectEvent *)
Inductive AgentDetectEvent : Type :=
| Detect_Occupant (o : PaneOccupant)
| Detect_State (r : AgentReport)
| Detect_Reidentified (kind name : bytes)
| Detect_AskSentinel (ask : option AskedPayload)
| Detect_Retract.

(* phux-protocol/src/wire/frame/mod.rs RESOURCE_PANE_OCCUPANT_KEY *)
Definition RESOURCE_PANE_OCCUPANT_KEY : bytes := str "phux.pane-occupant/v1".

(** ** Hooks *)

(** [BTreeMap<String, String>]; an event's keys are distinct. *)
(* phux-server/src/hooks.rs HookEvent *)
Record HookEvent : Type := mkHook { hook_name : bytes; hook_context : gmap (list Z) bytes }.
Definition AGENT_STATE_CHANGED : bytes := str "agent-state-changed".
(* phux-server/src/hooks.rs terminal_context *)
Definition terminal_context (w : ResourceId) : list (list Z * bytes) :=
  match w with ResourceId_Local id => [(str "terminal-id", str (pretty id))] | ResourceId_Satellite _ _ => [] end.
(* phux-server/src/hooks.rs HookEvent::agent_state_changed *)
Definition agent_state_changed (w : ResourceId) (kind name : bytes) (from : option bytes) (to : bytes) : HookEvent :=
  mkHook AGENT_STATE_CHANGED (list_to_map
    (terminal_context w ++ [(str "agent-kind", kind)]
     ++ (if nonempty name then [(str "agent-name", name)] else [])
     ++ (match from with Some f => [(str "from", f)] | None => [] end)
     ++ [(str "to", to)])).
(* phux-server/src/runtime/client.rs state_change_hook *)
Definition state_change_hook (w : ResourceId) (kind name : bytes) (from : option bytes) (to : bytes) : option HookEvent :=
  if bool_decide (from = Some to) then None else Some (agent_state_changed w kind name from to).
(* phux-server/src/runtime/client.rs retract_hook *)
Definition retract_hook (w : ResourceId) (from : option bytes) : option HookEvent :=
  if bool_decide (from = Some AGENT_STATE_UNKNOWN) then None
  else Some (agent_state_changed w [] [] from AGENT_STATE_UNKNOWN).

Section Drain.
  Context (accepts : Sender -> FrameKind -> bool).
  Context (decode : bytes -> option AgentRecord) (encode : AgentRecord -> bytes).
  Context (to_lowercase : bytes -> bytes) (has_manifest : bytes -> bool) (occupant_json : PaneOccupant -> option bytes).

(** What the store holds about the pane, and a write to it. *)
Definition stored (s : ServerState) (w : ResourceId) : option bytes := get (metadata s) (Scope_Resource w) RESOURCE_AGENT_KEY.
Definition store (s : ServerState) (w : ResourceId) (v : bytes) : ServerState :=
  (metadata_set accepts s (Scope_Resource w) RESOURCE_AGENT_KEY v).2.
Definition prior_state (hooks_live : bool) (existing : option bytes) : option bytes :=
  if hooks_live then stored_state decode existing else None.
Definition when_live {A} (hooks_live : bool) (h : option A) : option A := if hooks_live then h else None.

(* phux-server/src/runtime/client.rs drain_ask_sentinel *)
Definition drain_ask_sentinel (s : ServerState) (w : ResourceId) (ask : option AskedPayload) : option AskedPayload * ServerState :=
  match terminal_from_wire (idspace s) w with
  | None => (None, s)
  | Some t =>
      match ask with
      | None => (None, up_asked s (retract (asked s) t Asked_Sentinel).2)
      | Some p => let '(tr, a) := report (asked s) t Asked_Sentinel p in (emit_payload tr, up_asked s a)
      end
  end.

(* phux-server/src/runtime/client.rs drain_retract *)
Definition drain_retract (s : ServerState) (w : ResourceId) (hooks_live : bool) : option HookEvent * ServerState :=
  let existing := stored s w in
  let hook := when_live hooks_live (retract_hook w (prior_state hooks_live existing)) in
  if is_declared (agent_records s) w then
    match withdraw_state decode encode existing with
    | None => (None, s)
    | Some b => let s := store s w b in (hook, up_records s (note_declaration_withdrawn (agent_records s) w))
    end
  else if negb (detector_owns (agent_records s) w) then (None, s)
  else
    match (if has_explicit_identity (agent_records s) w then withdraw_state decode encode existing else None) with
    | Some b => let s := store s w b in (hook, up_records s (note_detector_retract (agent_records s) w))
    | None =>
        let s := (metadata_delete accepts s (Scope_Resource w) RESOURCE_AGENT_KEY).2 in
        (hook, up_records s (note_detector_retract (agent_records s) w))
    end.

(* phux-server/src/runtime/client.rs drain_reidentified *)
Definition drain_reidentified (s : ServerState) (w : ResourceId) (hooks_live : bool) (kind name : bytes)
    : option HookEvent * ServerState :=
  match stored s w with
  | None => (None, s)
  | Some existing =>
      let from := prior_state hooks_live (Some existing) in
      if is_declared (agent_records s) w then
        match withdraw_state decode encode (Some existing) with
        | None => (None, s)
        | Some b => let s := store s w b in
            (when_live hooks_live (retract_hook w from), up_records s (note_declaration_withdrawn (agent_records s) w))
        end
      else
        let owned := identity_ownership (agent_records s) w in
        let s := store s w (compose decode encode (Some existing) kind name AGENT_STATE_UNKNOWN owned) in
        (when_live hooks_live (state_change_hook w kind name from AGENT_STATE_UNKNOWN),
         up_records s (note_detector_write (agent_records s) w))
  end.

(* phux-server/src/runtime/client.rs drain_state *)
Definition drain_state (s : ServerState) (w : ResourceId) (hooks_live : bool) (r : AgentReport) : option HookEvent * ServerState :=
  if is_declared (agent_records s) w then (None, s)
  else
    let existing := stored s w in
    let from := prior_state hooks_live existing in
    let owned := identity_ownership (agent_records s) w in
    let contradicted := own_kind owned && explicit_kind_is_contradicted decode to_lowercase has_manifest existing (rep_kind r) in
    let write := if contradicted then b ← withdraw_state decode encode existing; Some (AGENT_STATE_UNKNOWN, b)
                 else let to := state_word (rep_state r) in
                      Some (to, compose decode encode existing (rep_kind r) (rep_name r) to owned) in
    match write with
    | None => (None, s)
    | Some (to, b) =>
        let s := store s w b in
        (when_live hooks_live (state_change_hook w (rep_kind r) (rep_name r) from to),
         if contradicted then s else up_records s (note_detector_write (agent_records s) w))
    end.

(** One event: the question to broadcast and the hook to fire once the lock is released. *)
(* phux-server/src/runtime/client.rs:226-257 spawn_agent_state_drain *)
Definition drain_event (s : ServerState) (w : ResourceId) (hooks_live : bool) (e : AgentDetectEvent)
    : option AskedPayload * option HookEvent * ServerState :=
  match e with
  | Detect_Occupant o =>
      (None, None, match occupant_json o with
                   | Some b => (metadata_set accepts s (Scope_Resource w) RESOURCE_PANE_OCCUPANT_KEY b).2
                   | None => s
                   end)
  | Detect_Retract => let '(h, s) := drain_retract s w hooks_live in (None, h, s)
  | Detect_Reidentified kind name => let '(h, s) := drain_reidentified s w hooks_live kind name in (None, h, s)
  | Detect_State r => let '(h, s) := drain_state s w hooks_live r in (None, h, s)
  | Detect_AskSentinel ask => let '(p, s) := drain_ask_sentinel s w ask in (p, None, s)
  end.

(** An explicit write of the record: the arbiter is told, then the store. *)
(* phux-server/src/runtime/client.rs:3620-3627 store_metadata_value *)
Definition explicit_set (s : ServerState) (w : ResourceId) (v : bytes) : ServerState :=
  store (up_records s (note_explicit_set decode (agent_records s) w v)) w v.

(** ** Lemmas *)

Lemma broadcast_metadata s scope k v : metadata (broadcast_metadata_change accepts s scope k v).2 = metadata s.
Proof. unfold broadcast_metadata_change. by destruct (broadcast_metadata_changed _ _ _ _ _ _). Qed.

Lemma get_metadata_set s scope k v scope' k' :
  get (metadata (metadata_set accepts s scope k v).2) scope' k' = update (get (metadata s)) scope k (Some v) scope' k'.
Proof.
  unfold metadata_set. case_bool_decide as E.
  - unfold update. case_bool_decide as E2; [|done]. destruct E2 as [-> ->]. exact E.
  - unfold metadata_broadcast. destruct (broadcast_metadata_change accepts s scope k (Some v)) as [d s1] eqn:Eb. cbn.
    pose proof (broadcast_metadata s scope k (Some v)) as Em. rewrite Eb in Em. cbn in Em. rewrite Em. apply get_set.
Qed.

Lemma get_metadata_delete s scope k scope' k' :
  get (metadata (metadata_delete accepts s scope k).2) scope' k' = update (get (metadata s)) scope k None scope' k'.
Proof.
  unfold metadata_delete. pose proof (get_delete (metadata s) scope k scope' k') as E.
  destruct (delete_key (metadata s) scope k) as [e m]. destruct e; cbn [negb]; [rewrite broadcast_metadata|]; exact E.
Qed.

Lemma records_metadata_set s scope k v : agent_records (metadata_set accepts s scope k v).2 = agent_records s.
Proof.
  unfold metadata_set. case_bool_decide; [done|]. unfold metadata_broadcast.
  destruct (broadcast_sent accepts s scope k (Some v)) as [fs E].
  destruct (broadcast_metadata_change accepts s scope k (Some v)) as [d s1]. cbn in E. by subst s1.
Qed.

Lemma records_metadata_delete s scope k : agent_records (metadata_delete accepts s scope k).2 = agent_records s.
Proof.
  unfold metadata_delete. destruct (delete_key (metadata s) scope k) as [e m]. destruct e; [|done].
  destruct (broadcast_sent accepts (up_metadata s m) scope k None) as [fs E]. cbn [negb]. by rewrite E.
Qed.

Lemma stored_store s w v w' : stored (store s w v) w' = if bool_decide (w' = w) then Some v else stored s w'.
Proof.
  unfold stored, store. rewrite get_metadata_set. unfold update.
  case_bool_decide as E1; case_bool_decide as E2; naive_solver.
Qed.
Lemma stored_records s a w : stored (up_records s a) w = stored s w.
Proof. done. Qed.
Lemma records_store s w v : agent_records (store s w v) = agent_records s.
Proof. apply records_metadata_set. Qed.

Lemma stored_delete s w w' :
  stored (metadata_delete accepts s (Scope_Resource w) RESOURCE_AGENT_KEY).2 w' = if bool_decide (w' = w) then None else stored s w'.
Proof.
  unfold stored. rewrite get_metadata_delete. unfold update. case_bool_decide; case_bool_decide; naive_solver.
Qed.
Lemma stored_occupant s w b w' :
  stored (metadata_set accepts s (Scope_Resource w) RESOURCE_PANE_OCCUPANT_KEY b).2 w' = stored s w'.
Proof. unfold stored. rewrite get_metadata_set. unfold update. case_bool_decide as E; [|done]. by destruct E. Qed.

(** The arbiter's marks of a pane. *)
Definition marks (a : Arbiter) (w : ResourceId) : bool * bool * bool * bool :=
  (is_declared a w, detector_owns a w, has_explicit_identity a w, has_explicit_kind a w).

(** What one event does to the pane it is of: the record and the arbiter's marks. *)
Definition after_event (o : option bytes) (m : bool * bool * bool * bool) (e : AgentDetectEvent)
    : option bytes * (bool * bool * bool * bool) :=
  let '(declared, owned, identity, kind_owned) := m in
  match e with
  | Detect_Occupant _ | Detect_AskSentinel _ => (o, m)
  | Detect_Retract =>
      if declared then match withdraw_state decode encode o with Some b => (Some b, (false, owned, identity, kind_owned)) | None => (o, m) end
      else if owned then
        (if identity then withdraw_state decode encode o else None, (declared, false, identity, kind_owned))
      else (o, m)
  | Detect_Reidentified k n =>
      match o with
      | None => (o, m)
      | Some b =>
          if declared then match withdraw_state decode encode o with Some b => (Some b, (false, owned, identity, kind_owned)) | None => (o, m) end
          else (Some (compose decode encode o k n AGENT_STATE_UNKNOWN (mkOwnership identity kind_owned)), (declared, true, identity, kind_owned))
      end
  | Detect_State r =>
      if declared then (o, m)
      else if kind_owned && explicit_kind_is_contradicted decode to_lowercase has_manifest o (rep_kind r)
      then match withdraw_state decode encode o with Some b => (Some b, m) | None => (o, m) end
      else (Some (compose decode encode o (rep_kind r) (rep_name r) (state_word (rep_state r)) (mkOwnership identity kind_owned)),
            (declared, true, identity, kind_owned))
  end.

Lemma mark_diff (w w' : ResourceId) (X : gset ResourceId) :
  bool_decide (w' ∈ X ∖ {[w]}) = if bool_decide (w' = w) then false else bool_decide (w' ∈ X).
Proof. repeat case_bool_decide; set_solver. Qed.
Lemma mark_union (w w' : ResourceId) (X : gset ResourceId) :
  bool_decide (w' ∈ {[w]} ∪ X) = if bool_decide (w' = w) then true else bool_decide (w' ∈ X).
Proof. repeat case_bool_decide; set_solver. Qed.

Lemma same_pane (w : ResourceId) : bool_decide (w = w) = true.
Proof. by apply bool_decide_eq_true. Qed.

Ltac marks_tac :=
  unfold marks, is_declared, detector_owns, has_explicit_identity, has_explicit_kind, note_declaration_withdrawn,
    note_detector_write, note_detector_retract; cbn [declared detector_owned explicit_identity explicit_kind];
  rewrite ?mark_diff, ?mark_union.

(** Finish a case in which the record was written or deleted and a mark moved. *)
Ltac marks_done :=
  cbn [snd]; rewrite stored_records, ?stored_store, ?stored_delete; cbn [agent_records up_records];
  rewrite ?records_store, ?records_metadata_delete;
  let E := fresh "E" in case_bool_decide as E; subst;
  [ f_equal; unfold is_declared, detector_owns, has_explicit_identity in *; marks_tac; rewrite ?same_pane; congruence
  | marks_tac; by rewrite ?(bool_decide_eq_false_2 _ E) ].

(** [after_event] is what the drain does, and it does it to that pane alone. *)
Lemma drain_event_spec s w live e w' :
  (stored (drain_event s w live e).2 w', marks (agent_records (drain_event s w live e).2) w') =
  if bool_decide (w' = w) then after_event (stored s w) (marks (agent_records s) w) e
  else (stored s w', marks (agent_records s) w').
Proof.
  destruct e as [o|r|k n|ask|]; cbn [drain_event after_event marks].
  - destruct (occupant_json o); cbn [snd]; [rewrite stored_occupant, records_metadata_set|]; by case_bool_decide; subst.
  - unfold drain_state. destruct (is_declared (agent_records s) w) eqn:Ed; [cbn [snd]; by case_bool_decide; subst; unfold marks; rewrite ?Ed|].
    unfold identity_ownership. cbn [own_kind].
    destruct (has_explicit_kind (agent_records s) w && _) eqn:Ec.
    + destruct (withdraw_state _ _ (stored s w)) as [b|] eqn:Ew; cbn [mbind option_bind snd];
        [rewrite stored_store, records_store|]; case_bool_decide; subst; unfold marks; rewrite ?Ed; done.
    + cbn [mbind]. marks_done.
  - unfold drain_reidentified. destruct (stored s w) as [b|] eqn:Es; [|cbn [snd]; case_bool_decide; subst; unfold marks; by rewrite ?Es].
    destruct (is_declared (agent_records s) w) eqn:Ed.
    + destruct (withdraw_state _ _ (Some b)) as [b'|] eqn:Ew; [marks_done|]. cbn [snd]. case_bool_decide; subst; unfold marks; by rewrite ?Es, ?Ed.
    + unfold identity_ownership. marks_done.
  - destruct (drain_ask_sentinel s w ask) as [p s1] eqn:E. cbn [snd].
    assert (H : stored s1 w' = stored s w' /\ agent_records s1 = agent_records s).
    { revert E. unfold drain_ask_sentinel. destruct (terminal_from_wire _ _) as [t|]; [|by intros [= <- <-]].
      destruct ask as [q|]; [destruct (report _ _ _ _)|]; by intros [= <- <-]. }
    destruct H as [-> ->]. by case_bool_decide; subst.
  - unfold drain_retract. destruct (is_declared (agent_records s) w) eqn:Ed.
    + destruct (withdraw_state _ _ (stored s w)) as [b'|] eqn:Ew; [marks_done|]. cbn [snd]. case_bool_decide; subst; unfold marks; by rewrite ?Ed.
    + destruct (detector_owns (agent_records s) w) eqn:Eo; cbn [negb]; [|cbn [snd]; case_bool_decide; subst; unfold marks; by rewrite ?Ed, ?Eo].
      destruct (has_explicit_identity (agent_records s) w) eqn:Ei; [destruct (withdraw_state _ _ (stored s w)) as [b'|] eqn:Ew|]; marks_done.
Qed.

(** ** What the writer supplied *)

Context (decode_encode : forall r, decode (encode r) = Some r).

(** The record under the pane still says what [r] supplied. *)
Definition says (r : AgentRecord) (b : bytes) : Prop :=
  exists r', decode b = Some r' /\ (r_name r <> [] -> r_name r' = r_name r) /\
    (supplies_kind (Some r) = true -> r_kind r' = r_kind r) /\ r_session r' = r_session r.

Lemma says_withdraw r b : says r b -> exists b', withdraw_state decode encode (Some b) = Some b' /\ says r b'.
Proof.
  intros (r' & Hd & H). exists (encode (withdrawn r')). split; [unfold withdraw_state; cbn; by rewrite Hd|].
  exists (withdrawn r'). by rewrite decode_encode.
Qed.

Lemma says_compose r b k n st kind_owned :
  says r b -> (supplies_kind (Some r) = true -> kind_owned = true) ->
  says r (compose decode encode (Some b) k n st (mkOwnership true kind_owned)).
Proof.
  intros (r' & Hd & Hn & Hk & Hs) Ho. unfold compose. cbn. rewrite Hd. cbn. eexists. split; [apply decode_encode|]. cbn.
  split; [|split; [|done]].
  - intros H. rewrite (Hn H). unfold nonempty. by rewrite bool_decide_eq_false_2.
  - intros H. rewrite (Ho H). specialize (Hk H). rewrite Hk. unfold supplies_kind in H.
    destruct (r_kind r) as [x|]; [|done]. by rewrite H.
Qed.

(** What one event leaves of a record a writer supplied an identity with. *)
Definition writers (r : AgentRecord) (o : option bytes) (m : bool * bool * bool * bool) : Prop :=
  (exists b, o = Some b /\ says r b) /\ m.1.2 = true /\ (supplies_kind (Some r) = true -> m.2 = true).

Lemma writers_event r o m e : writers r o m -> writers r (after_event o m e).1 (after_event o m e).2.
Proof.
  destruct m as [[[d w] i] k]. intros ((b & -> & Hb) & Hi & Hk). cbn in Hi, Hk. subst i.
  destruct (says_withdraw r b Hb) as (b' & Ew & Hb'). assert (Hc := fun kd n st => says_compose r b kd n st k Hb Hk).
  unfold writers. assert (H0 : forall x, says r x -> (exists y, Some x = Some y /\ says r y) /\ true = true /\ (supplies_kind (Some r) = true -> k = true))
    by (intros x Hx; split; [by exists x|done]).
  destruct e as [oc|rp|kd n|ask|]; cbn [after_event]; rewrite ?Ew.
  - by apply H0.
  - destruct d; [by apply H0|]. destruct (k && _); by apply H0.
  - destruct d; by apply H0.
  - by apply H0.
  - destruct d; [by apply H0|]. destruct w; by apply H0.
Qed.

Inductive PaneLabel : Type := Detected (w : ResourceId) (live : bool) (e : AgentDetectEvent) | Elsewhere.
(** Events of any pane's detector, and whatever else happens that neither writes this record nor
    tells the arbiter about it. *)
Inductive pane_step (w : ResourceId) : ServerState -> PaneLabel -> ServerState -> Prop :=
| ps_detected s w' live e : pane_step w s (Detected w' live e) (drain_event s w' live e).2
| ps_elsewhere s s' :
    stored s' w = stored s w -> marks (agent_records s') w = marks (agent_records s) w -> pane_step w s Elsewhere s'.
Inductive pane_steps (w : ResourceId) : ServerState -> list PaneLabel -> ServerState -> Prop :=
| ps_nil s : pane_steps w s [] s
| ps_cons s l s1 ls s2 : pane_step w s l s1 -> pane_steps w s1 ls s2 -> pane_steps w s (l :: ls) s2.

(** The events that end a declaration: evidence that the occupant is gone, or is another. *)
Definition withdraws (w : ResourceId) (l : PaneLabel) : Prop :=
  exists live, l = Detected w live Detect_Retract \/ exists k n, l = Detected w live (Detect_Reidentified k n).

Lemma explicit_set_spec s w v r :
  decode v = Some r ->
  stored (explicit_set s w v) w = Some v /\
  marks (agent_records (explicit_set s w v)) w =
    (declares_state (Some r), false, supplies_identity (Some r), supplies_kind (Some r)).
Proof.
  intros Hr. unfold explicit_set. rewrite stored_store, records_store, same_pane. split; [done|]. cbn.
  unfold note_explicit_set. rewrite Hr. marks_tac. rewrite same_pane. unfold mark.
  repeat f_equal; case_match; rewrite ?mark_diff, ?mark_union; by rewrite same_pane.
Qed.

Lemma step_event w s l s' :
  pane_step w s l s' -> exists e,
    let after := after_event (stored s w) (marks (agent_records s) w) e in
    stored s' w = after.1 /\ marks (agent_records s') w = after.2 /\
    (e = Detect_AskSentinel None \/ exists live, l = Detected w live e).
Proof.
  assert (Hid : forall o m, after_event o m (Detect_AskSentinel None) = (o, m)) by (by intros o [[[? ?] ?] ?]).
  destruct 1 as [s w' live e|s s' E1 E2].
  - pose proof (drain_event_spec s w' live e w) as E. case_bool_decide as Ew; subst.
    + exists e. cbv zeta. rewrite <- E. eauto.
    + exists (Detect_AskSentinel None). cbv zeta. rewrite Hid. apply pair_eq in E as [-> ->]. auto.
  - exists (Detect_AskSentinel None). cbv zeta. rewrite Hid, E1, E2. auto.
Qed.

(** C17: what a writer says of the agent in a pane stays said: after an explicit write of a record
    with a name, a session or an attention, through any events of any detector and anything else
    that is not a write of that record, the record is there, under the writer's name, session and
    kind as far as they were supplied. And a state that was declared stands, the record byte for
    byte, until the pane's own detector sees the occupant gone or replaced. *)
Theorem writer_outranks_detector s w v r ls s' :
  decode v = Some r -> pane_steps w (explicit_set s w v) ls s' ->
  (supplies_identity (Some r) = true -> exists b, stored s' w = Some b /\ says r b) /\
  (declares_state (Some r) = true -> (forall l, l ∈ ls -> ~ withdraws w l) -> stored s' w = Some v).
Proof.
  intros Hr H. destruct (explicit_set_spec s w v r Hr) as [E1 E2]. revert E1 E2 H. generalize (explicit_set s w v) as s0.
  intros s0 E1 E2 H. split.
  - intros Hi. enough (writers r (stored s' w) (marks (agent_records s') w)) by (destruct H0 as [? _]; done).
    assert (H0 : writers r (stored s0 w) (marks (agent_records s0) w)).
    { rewrite E1, E2. split; [|by rewrite Hi]. exists v. split; [done|]. by exists r. }
    clear E1 E2. induction H as [|s1 l s2 ls s3 Hst _ IH]; [done|]. apply IH.
    destruct (step_event _ _ _ _ Hst) as (e & E1 & E2 & _). rewrite E1, E2. by apply writers_event.
  - intros Hd Hno. assert (Hm : exists o i k, marks (agent_records s0) w = (true, o, i, k)) by (rewrite E2, Hd; eauto).
    clear E2. induction H as [|s1 l s2 ls s3 Hst _ IH]; [done|].
    destruct (step_event _ _ _ _ Hst) as (e & Es & Em & He). destruct Hm as (o & i & k & Hm). rewrite E1, Hm in Es, Em.
    assert (Hs : stored s2 w = Some v /\ marks (agent_records s2) w = (true, o, i, k)).
    { rewrite Es, Em. destruct He as [-> | (live & ->)]; [done|].
      destruct e as [oc|rp|kd n|ask|]; try done;
        exfalso; apply (Hno _ (list_elem_of_here _ _)); exists live; eauto. }
    destruct Hs as [Hs1 Hs2]. apply IH; [done|by intros l' Hl'; apply Hno; right|eauto].
Qed.

(** A state derived from one process may stand beside the kind: it is that process's, or one no
    rule set knows and so nobody can say it is not. *)
Definition may_pair (k detected : bytes) : Prop :=
  k = detected \/ eq_ignore_ascii_case k detected = true \/ has_manifest (to_lowercase k) = false.

Lemma withdraw_state_inv o b :
  withdraw_state decode encode o = Some b -> exists r, decode b = Some r /\ r_state r = AGENT_STATE_UNKNOWN.
Proof.
  unfold withdraw_state. destruct (o ≫= decode) as [r|]; [|done]. cbn. intros [= <-].
  exists (withdrawn r). by rewrite decode_encode.
Qed.

Lemma composed_kind prior k n st owned r' :
  composed prior k n st owned = r' -> r_state r' = st /\
  (r_kind r' = Some k \/ own_kind owned = true /\ exists r x, prior = Some r /\ r_kind r = Some x /\ nonempty x = true /\ r_kind r' = Some x).
Proof.
  intros <-. unfold composed. destruct prior as [r|]; cbn; [|by split; [|left]]. split; [done|].
  destruct (own_kind owned); [|by left]. destruct (r_kind r) as [x|] eqn:Ex; [|by left].
  destruct (nonempty x) eqn:En; cbn; [right|by left]. split; [done|]. by exists r, x.
Qed.

Lemma not_contradicted o r x d :
  o ≫= decode = Some r -> r_kind r = Some x -> nonempty x = true ->
  explicit_kind_is_contradicted decode to_lowercase has_manifest o d = false -> may_pair x d.
Proof.
  intros Ho Hk Hx. unfold explicit_kind_is_contradicted, may_pair. rewrite Ho. cbn. rewrite Hk, Hx. cbn.
  destruct (eq_ignore_ascii_case x d); auto.
Qed.

Lemma after_event_honest o m e (b := (after_event o m e).1) :
  b <> o ->
  (b = None /\ e = Detect_Retract /\ m.1.1 = (false, true) /\ (m.1.2 = false \/ o ≫= decode = None)) \/
  exists v r', b = Some v /\ decode v = Some r' /\
    (r_state r' = AGENT_STATE_UNKNOWN \/
     exists rp k, e = Detect_State rp /\ m.1.1.1 = false /\ r_state r' = state_word (rep_state rp) /\
       r_kind r' = Some k /\ may_pair k (rep_kind rp)).
Proof.
  subst b. destruct m as [[[d w] i] k].
  assert (Hw : forall x, withdraw_state decode encode o = Some x -> exists v r', Some x = Some v /\ decode v = Some r' /\ r_state r' = AGENT_STATE_UNKNOWN).
  { intros x (r' & H)%withdraw_state_inv. by exists x, r'. }
  destruct e as [oc|rp|kd n|ask|]; cbn [after_event].
  - done.
  - destruct d; [done|]. destruct k; cbn [andb].
    1: destruct (explicit_kind_is_contradicted decode to_lowercase has_manifest o (rep_kind rp)) eqn:Ec.
    1: { destruct (withdraw_state decode encode o) as [x|] eqn:Ew; [|done]. intros _. right. destruct (Hw x eq_refl) as (v & r' & ? & ? & ?). eauto 8. }
    all: intros _; right; do 2 eexists; (split; [done|]); (split; [apply decode_encode|]); right.
    all: match goal with |- context[composed ?p ?a ?b ?c ?o] => destruct (composed_kind p a b c o _ eq_refl) as [Hs [Hk|(Ho & r & x & Hp & Hx & Hn & Hk)]] end;
      [exists rp, (rep_kind rp); by repeat (split; [done|]); left|].
    all: try done. exists rp, x. repeat (split; [done|]). by eapply not_contradicted.
  - destruct o as [b|] eqn:Eo; [|done]. destruct d.
    + destruct (withdraw_state decode encode (Some b)) as [x|] eqn:Ew; [|done]. intros _. right. destruct (Hw x eq_refl) as (v & r' & ? & ? & ?). eauto 8.
    + intros _. right. do 2 eexists. split; [done|]. split; [apply decode_encode|]. left. by eapply composed_kind.
  - done.
  - destruct d.
    + destruct (withdraw_state decode encode o) as [x|] eqn:Ew; [|done]. intros _. right. destruct (Hw x eq_refl) as (v & r' & ? & ? & ?). eauto 8.
    + destruct w; [|done]. destruct i.
      * destruct (withdraw_state decode encode o) as [x|] eqn:Ew; intros H.
        -- right. destruct (Hw x eq_refl) as (v & r' & ? & ? & ?). eauto 8.
        -- left. repeat (split; [done|]). right. unfold withdraw_state in Ew. by destruct (o ≫= decode).
      * intros _. left. repeat (split; [done|]). by left.
Qed.

Lemma word_nonempty d : nonempty (state_word d) = true.
Proof. by destruct d. Qed.

Lemma stored_state_compose o k n st owned :
  nonempty st = true -> stored_state decode (Some (compose decode encode o k n st owned)) = Some st.
Proof.
  intros Hn. destruct (composed_kind _ k n st owned _ (eq_refl (composed (o ≫= decode) k n st owned))) as [Hs _].
  unfold stored_state, compose. revert Hs. generalize (composed (o ≫= decode) k n st owned). intros r <-. cbn.
  rewrite decode_encode. cbn. by rewrite Hn.
Qed.

Lemma state_hook_edge s w live rp :
  let '(h, s') := drain_state s w live rp in
  is_Some h <-> live = true /\ stored_state decode (stored s' w) <> stored_state decode (stored s w).
Proof.
  unfold drain_state. destruct (is_declared (agent_records s) w); [split; [by intros []|by intros [_ H]]|]. cbv zeta.
  assert (Hedge : forall to b recs, stored_state decode (Some b) = Some to -> 
    is_Some (when_live live (state_change_hook w (rep_kind rp) (rep_name rp) (prior_state live (stored s w)) to)) <->
    live = true /\ stored_state decode (stored (up_records (store s w b) recs) w) <> stored_state decode (stored s w)).
  { intros to b recs Hb. rewrite stored_records, stored_store, same_pane, Hb. unfold when_live, prior_state, state_change_hook.
    destruct live; [|split; [by intros []|by intros []]]. case_bool_decide as E.
    - split; [by intros []|intros [_ H]]. by destruct H.
    - split; [split; [done|congruence]|by eexists]. }
  destruct (own_kind _ && _).
  - destruct (withdraw_state decode encode (stored s w)) as [b|] eqn:Ew; cbn [mbind option_bind].
    + apply withdraw_state_inv in Ew as (r & Hr & Hs).
      pose proof (Hedge AGENT_STATE_UNKNOWN b (agent_records (store s w b))) as H. rewrite stored_records in H. apply H.
      unfold stored_state. cbn. rewrite Hr. cbn. by rewrite Hs.
    + split; [by intros []|by intros [_ H]].
  - apply Hedge, stored_state_compose, word_nonempty.
Qed.

(** what the detector writes is true of what runs in the pane. An event of one pane leaves
    every other pane's record alone; it deletes a record only on a retraction, only one it wrote
    itself and nobody declared, and not one a writer gave an identity; otherwise the record it
    leaves says that the state is unknown, or the state it just derived beside a kind that is the
    derived one or one it cannot contradict. And a hook fires for a derived state exactly when
    somebody listens and the stored state changed. *)
Theorem detector_write_honest s w live e :
  let r := drain_event s w live e in
  (forall w', w' <> w -> stored r.2 w' = stored s w' /\ marks (agent_records r.2) w' = marks (agent_records s) w') /\
  (stored r.2 w <> stored s w ->
     (stored r.2 w = None /\ e = Detect_Retract /\ is_declared (agent_records s) w = false /\
      detector_owns (agent_records s) w = true /\
      (has_explicit_identity (agent_records s) w = false \/ stored s w ≫= decode = None)) \/
     exists v r', stored r.2 w = Some v /\ decode v = Some r' /\
       (r_state r' = AGENT_STATE_UNKNOWN \/
        exists rp k, e = Detect_State rp /\ is_declared (agent_records s) w = false /\
          r_state r' = state_word (rep_state rp) /\ r_kind r' = Some k /\ may_pair k (rep_kind rp))) /\
  (forall rp, e = Detect_State rp -> is_Some r.1.2 <->
     live = true /\ stored_state decode (stored r.2 w) <> stored_state decode (stored s w)).
Proof.
  pose proof (drain_event_spec s w live e) as Hspec. destruct (drain_event s w live e) as [[p hook] s'] eqn:Ee. cbn [fst snd] in *.
  split; [|split].
  - intros w' Hw. specialize (Hspec w'). rewrite bool_decide_eq_false_2 in Hspec by done. by apply pair_eq in Hspec.
  - specialize (Hspec w). rewrite same_pane in Hspec. apply (f_equal fst) in Hspec. cbn [fst] in Hspec. rewrite Hspec.
    intros [(? & ? & Hm & Hi)|H]%after_event_honest; [left|by right]. unfold marks in Hm, Hi. cbn in Hm, Hi. by simplify_eq.
  - intros rp ->. cbn [drain_event] in Ee. pose proof (state_hook_edge s w live rp) as H.
    destruct (drain_state s w live rp). by simplify_eq.
Qed.

End Drain.

(** ** A concrete record format

    Strings with their length in front, optional ones as lists of at most one. *)

Definition put_text (s : bytes) : bytes := len s :: s.
Definition take_text (l : bytes) : option (bytes * bytes) :=
  match l with n :: r => Some (take (Z.to_nat n) r, drop (Z.to_nat n) r) | [] => None end.
Definition put_opt (o : option bytes) : bytes := match o with Some s => 1 :: put_text s | None => [0] end.
Definition take_opt (l : bytes) : option (option bytes * bytes) :=
  match l with
  | 0 :: r => Some (None, r)
  | _ :: r => '(s, r) ← take_text r; Some (Some s, r)
  | [] => None
  end.
Definition plain_encode (r : AgentRecord) : bytes :=
  put_text (r_name r) ++ put_opt (r_kind r) ++ put_text (r_state r) ++ put_opt (r_attention r) ++ put_opt (r_session r).
Definition plain_decode (l : bytes) : option AgentRecord :=
  '(n, l) ← take_text l; '(k, l) ← take_opt l; '(s, l) ← take_text l; '(a, l) ← take_opt l; '(x, _) ← take_opt l;
  Some (mkAgentRecord n k s a x).

Lemma take_put_text s l : take_text (put_text s ++ l) = Some (s, l).
Proof. unfold take_text, put_text, len. cbn. by rewrite Nat2Z.id, take_app_length, drop_app_length. Qed.
Lemma take_put_opt o l : take_opt (put_opt o ++ l) = Some (o, l).
Proof. destruct o; [|done]. change (put_opt (Some l0)) with (1 :: put_text l0). cbn -[take_text put_text]. by rewrite take_put_text. Qed.
Lemma plain_round_trip r : plain_decode (plain_encode r) = Some r.
Proof.
  unfold plain_decode, plain_encode. rewrite take_put_text. cbn -[take_text put_text take_opt put_opt].
  rewrite take_put_opt. cbn -[take_text put_text take_opt put_opt]. rewrite take_put_text. cbn -[take_text put_text take_opt put_opt].
  rewrite take_put_opt. cbn -[take_opt put_opt]. rewrite <- (app_nil_r (put_opt (r_session r))), take_put_opt. by destruct r.
Qed.

Definition takes_all (tx : Sender) (f : FrameKind) : bool := true.
Definition no_occupant (o : PaneOccupant) : option bytes := None.
(** A pane whose writer named it, and a detector that sees another agent in it. *)
Definition reviewer : AgentRecord := mkAgentRecord (str "reviewer") (Some (str "claude")) [] None (Some (str "fleet-7")).
Definition working : AgentDetectEvent := Detect_State (mkReport (str "codex") (str "codex") Detected_Working).
Definition pane1 : ResourceId := ResourceId_Local 1.
Definition named : ServerState := explicit_set takes_all plain_decode (server_new []) pane1 (plain_encode reviewer).
Definition event_on (s : ServerState) (e : AgentDetectEvent) : ServerState :=
  (drain_event takes_all plain_decode plain_encode (fun k => k) (fun _ => true) no_occupant s pane1 true e).2.

(** The writer's kind names another agent than the one seen, so its state is withheld. *)
Example contradiction_is_withheld :
  (stored (event_on named working) pane1) ≫= plain_decode =
  Some (mkAgentRecord (str "reviewer") (Some (str "claude")) AGENT_STATE_UNKNOWN None (Some (str "fleet-7"))).
Proof. vm_compute. reflexivity. Qed.

Lemma writer_outranks_detector_witness :
  exists b, stored (event_on (event_on named working) Detect_Retract) pane1 = Some b /\ says plain_decode reviewer b.
Proof.
  refine (proj1 (writer_outranks_detector takes_all plain_decode plain_encode (fun k => k) (fun _ => true) no_occupant
    plain_round_trip (server_new []) pane1 (plain_encode reviewer) reviewer
    [Detected pane1 true working; Detected pane1 true Detect_Retract] _ (plain_round_trip reviewer) _) eq_refl).
  eapply ps_cons; [apply ps_detected|]. eapply ps_cons; [apply ps_detected|]. apply ps_nil.
Defined.

Lemma detector_write_honest_witness :
  is_Some (drain_event takes_all plain_decode plain_encode (fun k => k) (fun _ => true) no_occupant (server_new []) pane1 true working).1.2.
Proof.
  apply (proj2 (proj2 (detector_write_honest takes_all plain_decode plain_encode (fun k => k) (fun _ => true) no_occupant
    plain_round_trip (server_new []) pane1 true working)) (mkReport (str "codex") (str "codex") Detected_Working) eq_refl).
  split; [reflexivity|vm_compute; discriminate].
Defined.
