(* ===== verification/MetadataWrites.v ===== *)
(** * What a client may do to the metadata ([phux-server/src/runtime/client.rs])

    The handlers of [GET], [SET], [DELETE], [LIST] and [SUBSCRIBE_METADATA], with the keys the
    server interprets: the creation of a session, its one-shot result, a rename, the keep-empty
    mark. The JSON of a request and of its result is serde's and enters as [parse_request] and
    [result_json], the whoami record as [whoami_json]; a spawn's fresh keys and the engine built
    for it are the caller's, as in [Spawn]. A panic is [None]. *)

From stdpp Require Import gmap.
From S2P Require Import Prelude Enums Caps Codec Command Frame.
From S2P Require Import IdBridge Leases SpawnLedger ResourceTable Metadata SessionTable Agent ClientTable.
From S2P Require Import Window Registry ServerState Lifecycle Booked Spawn AgentDrain.
From S2P Require Import Ids.

(* phux-protocol/src/wire/frame/mod.rs SESSION_NAME_KEY *)
Definition SESSION_NAME_KEY : bytes := str "phux.session.name/v1".
(* phux-protocol/src/wire/frame/mod.rs SESSION_CREATE_KEY *)
Definition SESSION_CREATE_KEY : bytes := str "phux.session.create/v1".
(* phux-protocol/src/wire/frame/mod.rs SESSION_CREATE_RESULT_KEY *)
Definition SESSION_CREATE_RESULT_KEY : bytes := str "phux.session.created/v1".
(* phux-protocol/src/wire/frame/mod.rs SESSION_CREATE_RESULT_KEY_PREFIX *)
Definition SESSION_CREATE_RESULT_KEY_PREFIX : bytes := str "phux.session.created/v1/".
(* phux-protocol/src/wire/frame/mod.rs SESSION_KEEP_EMPTY_KEY *)
Definition SESSION_KEEP_EMPTY_KEY : bytes := str "phux.session.keep_empty/v1".
(* phux-protocol/src/wire/frame/whoami.rs WHOAMI_KEY *)
Definition WHOAMI_KEY : bytes := str "phux.whoami/v1".
(* phux-protocol/src/wire/frame/mod.rs MAX_AGENT_SESSION_RECORD_BYTES *)
Definition MAX_AGENT_SESSION_RECORD_BYTES : Z := 4096.

(** ** Keys *)

Definition starts_with (p k : bytes) : bool := bool_decide (take (length p) k = p).

(* phux-server/src/runtime/client.rs is_reserved_session_create_result *)
Definition is_reserved_session_create_result (scope : Scope) (k : bytes) : bool :=
  match scope with Scope_Global => starts_with SESSION_CREATE_RESULT_KEY_PREFIX k | _ => false end.
(* phux-server/src/runtime/client.rs is_server_owned_key *)
Definition is_server_owned_key (k : bytes) : bool :=
  bool_decide (k = RESOURCE_PANE_OCCUPANT_KEY) || bool_decide (k = WHOAMI_KEY).
(* phux-server/src/runtime/whoami.rs is_whoami_key *)
Definition is_whoami_key (scope : Scope) (k : bytes) : bool :=
  match scope with Scope_Global => bool_decide (k = WHOAMI_KEY) | _ => false end.

(** [u8::is_ascii_hexdigit]. *)
Definition is_ascii_hexdigit (b : Z) : bool :=
  in_range 48 57 b || in_range 65 70 b || in_range 97 102 b.
Definition token_byte (i : nat) (b : Z) : bool :=
  if existsb (Nat.eqb i) [8; 13; 18; 23]%nat then b =? 45 else is_ascii_hexdigit b.
(* phux-server/src/runtime/client.rs valid_session_create_token *)
Definition valid_session_create_token (t : bytes) : bool :=
  (len t =? 36) && forallb (fun ib => token_byte ib.1 ib.2) (imap pair t).

(** [str::split_once] at a NUL. *)
Fixpoint split_once_nul (v : bytes) : option (bytes * bytes) :=
  match v with
  | [] => None
  | b :: v => if b =? 0 then Some ([], v) else '(x, y) ← split_once_nul v; Some (b :: x, y)
  end.
Definition split_text (v : bytes) : option (bytes * bytes) := if utf8_valid v then split_once_nul v else None.

(* phux-protocol/src/wire/frame/mod.rs decode_session_keep_empty *)
Definition decode_session_keep_empty (v : bytes) : option (bytes * bool) :=
  '(n, flag) ← split_text v;
  if bool_decide (flag = str "true") then Some (n, true)
  else if bool_decide (flag = str "false") then Some (n, false) else None.

(* phux-server/src/runtime/client.rs SessionCreateRequest *)
Record SessionCreateRequest : Type := mkCreate {
  rq_name : bytes; rq_command : option (list bytes); rq_cwd : option bytes; rq_env : list (bytes * bytes);
  rq_agent_session : option bytes; rq_request_token : option bytes; rq_keep_empty : bool; rq_empty : bool
}.

(** Which refusal, if any: the code's texts are for its log. *)
(* phux-server/src/runtime/client.rs session_create_refusal *)
Definition session_create_refusal (r : SessionCreateRequest) : option bytes :=
  if rq_empty r && (has_some (rq_command r) || has_some (rq_agent_session r))
  then Some (str "`empty` cannot carry a command or agent session")
  else if match rq_agent_session r with
          | Some v => (len v =? 0) || (MAX_AGENT_SESSION_RECORD_BYTES <? len v)
          | None => false
          end then Some (str "invalid agent session record size")
  else if match rq_request_token r with Some t => negb (valid_session_create_token t) | None => false end
  then Some (str "invalid request token")
  else None.
(* phux-server/src/runtime/client.rs session_create_result_key *)
Definition session_create_result_key (token : option bytes) : bytes :=
  match token with Some t => SESSION_CREATE_RESULT_KEY_PREFIX ++ t | None => SESSION_CREATE_RESULT_KEY end.

(** The result document before it is printed. *)
(* phux-server/src/runtime/client.rs session_create_payload *)
Record SessionCreated : Type := mkCreated {
  cr_name : bytes; cr_session : option Z; cr_terminal : option ResourceId; cr_token : option bytes; cr_empty : bool
}.

(** What a creation takes from outside: the clock, fresh keys, the working directory the child
    is given, whether seeds run a PTY, and the engine that could be built. *)
Record Seeding : Type := mkSeeding {
  sd_now : Z; sd_session : SessionId; sd_window : WindowId; sd_pane : key;
  sd_cwd : option SessionTable.Path; sd_with_pty : bool; sd_built : option (ResourceHandle * Token)
}.

(** What a write leaves for the time after the lock is released: the engine whose detector is
    re-armed, the clients to detach, and whether the server is to exit. *)
Record AfterWrite : Type := mkAfter {
  invalidated : option ResourceHandle; detached : list (ClientId * Sender); server_drained : bool
}.
Definition nothing : AfterWrite := mkAfter None [] false.

Section Writes.
  Context (accepts : Sender -> FrameKind -> bool) (decode : bytes -> option AgentRecord).
  Context (parse_request : bytes -> option SessionCreateRequest) (result_json : SessionCreated -> option bytes).
  Context (whoami_json : PeerIdentity -> option AuthenticatedCredential -> option SshOrigin -> option bytes).
  Context (no_federation : bytes -> ResourceId -> bytes).

(** ** Reading *)

(* phux-server/src/runtime/whoami.rs record_for *)
Definition record_for (s : ServerState) (client : ClientId) : option bytes :=
  p ← peer_identity (clients s) client;
  whoami_json p (authenticated_credential (clients s) client) (ssh_origin_of (clients s) client).
(* phux-server/src/runtime/client.rs read_metadata_value *)
Definition read_metadata_value (s : ServerState) (client : ClientId) (scope : Scope) (k : bytes) (nonce_result : bool) : option bytes :=
  if is_whoami_key scope k then record_for s client
  else if nonce_result && negb (owns_session_create_result (clients s) client k) then None
  else get (metadata s) scope k.

(** The answer, if the client speaks L3, and the state once it has or has not been delivered. *)
(* phux-server/src/runtime/client.rs handle_get_metadata *)
Definition handle_get_metadata (s : ServerState) (client : ClientId) (request_id : Z) (scope : Scope) (k : bytes)
    (delivered : bool) : option FrameKind * ServerState :=
  let nonce_result := is_reserved_session_create_result scope k in
  let v := read_metadata_value s client scope k nonce_result in
  let one_shot := has_some v && nonce_result in
  if negb (speaks_l3 (clients s) client) then (None, s)
  else (Some (FrameKind_MetadataValue request_id v),
        if delivered && one_shot then consume_session_create_result accepts s k else s).
(* phux-server/src/runtime/client.rs handle_list_metadata *)
Definition handle_list_metadata (s : ServerState) (client : ClientId) (request_id : Z) (scope : Scope) : option FrameKind :=
  let keys := list_keys (metadata s) scope in
  let keys := match scope with
              | Scope_Global => List.filter (fun k => negb (starts_with SESSION_CREATE_RESULT_KEY_PREFIX k)) keys
              | _ => keys
              end in
  if negb (speaks_l3 (clients s) client) then None else Some (FrameKind_MetadataKeys request_id keys).

(* phux-server/src/runtime/client.rs refuse_satellite_metadata_scope *)
Definition refuse_satellite_metadata_scope (s : ServerState) (scope : Scope) (k : bytes) (tx : Sender) : option ServerState :=
  match scope with
  | Scope_Resource (ResourceId_Satellite host id) =>
      let f := FrameKind_Error None ErrorCode_UnsupportedSatelliteRoute (no_federation k (ResourceId_Satellite host id)) in
      Some (if accepts tx f then up_sent s (sent s ++ [(tx, f)]) else s)
  | _ => None
  end.
(* phux-server/src/runtime/client.rs handle_subscribe_metadata *)
Definition handle_subscribe_metadata (s : ServerState) (client : ClientId) (scope : Scope) (k : bytes) (tx : Sender) : ServerState :=
  if is_reserved_session_create_result scope k then s
  else if negb (speaks_l3 (clients s) client) then s
  else match refuse_satellite_metadata_scope s scope k tx with
       | Some s => s
       | None => (metadata_subscribe s client scope k tx).2
       end.

(** ** Writing *)

(** The pane whose detector is told that its record was written over. *)
(* phux-server/src/runtime/client.rs invalidate_agent_detector *)
Definition invalidate_agent_detector (s : ServerState) (scope : Scope) (k : bytes) : option ResourceHandle :=
  if negb (bool_decide (k = RESOURCE_AGENT_KEY)) then None
  else match scope with
       | Scope_Resource w => p ← terminal_from_wire (idspace s) w; ResourceTable.handle (resources s) p
       | _ => None
       end.
(* phux-server/src/runtime/client.rs reject_unknown_local_terminal_scope *)
Definition reject_unknown_local_terminal_scope (s : ServerState) (scope : Scope) : bool :=
  match scope with
  | Scope_Resource (ResourceId_Local id) => negb (has_some (terminal_from_wire (idspace s) (ResourceId_Local id)))
  | _ => false
  end.
Definition local_terminal_scope (scope : Scope) : bool :=
  match scope with Scope_Resource (ResourceId_Local _) => true | _ => false end.
(* phux-server/src/runtime/client.rs reject_set_metadata *)
Definition reject_set_metadata (s : ServerState) (scope : Scope) (k v : bytes) : bool :=
  if is_reserved_session_create_result scope k then true
  else if is_server_owned_key k then true
  else if reject_unknown_local_terminal_scope s scope then true
  else bool_decide (k = RESOURCE_AGENT_SESSION_KEY)
       && (negb (local_terminal_scope scope) || (len v =? 0) || (MAX_AGENT_SESSION_RECORD_BYTES <? len v)).

(* phux-server/src/runtime/client.rs store_metadata_value *)
Definition store_metadata_value (s : ServerState) (scope : Scope) (k v : bytes) : AfterWrite * ServerState :=
  let s := match scope with
           | Scope_Resource w =>
               if bool_decide (k = RESOURCE_AGENT_KEY)
               then up_records s (note_explicit_set decode (agent_records s) w v) else s
           | _ => s
           end in
  let s := (metadata_set accepts s scope k v).2 in
  (mkAfter (invalidate_agent_detector s scope k) [] false, s).

(* phux-server/src/runtime/client.rs apply_session_rename *)
Definition apply_session_rename (s : ServerState) (scope : Scope) (k v : bytes) : ServerState :=
  match split_text v with
  | None => s
  | Some (current, new_name) =>
      let '(outcome, t) := rename (sessions s) current new_name in
      let s := up_sessions s t in
      match outcome with
      | Renamed => if negb (bool_decide (current = new_name)) then (metadata_broadcast accepts s scope k v).2 else s
      | _ => s
      end
  end.

(* phux-server/src/runtime/client.rs apply_session_keep_empty *)
Definition apply_session_keep_empty (s : ServerState) (scope : Scope) (k v : bytes) (root_cancelled : bool) : AfterWrite * ServerState :=
  match decode_session_keep_empty v with
  | None => (nothing, s)
  | Some (n, keep) =>
      let session := find_by_name (sessions s) n in
      let '(outcome, s) := set_session_keep_empty s n keep in
      let s := match outcome with
               | Keep_Changed | Keep_Removed => (metadata_broadcast accepts s scope k v).2
               | _ => s
               end in
      let removed := match outcome with Keep_Removed => true | _ => false end in
      let gone := match session with Some id => if removed then attached_in_session (clients s) id else [] | None => [] end in
      (mkAfter None gone (removed && no_sessions s && has_served_client s && negb root_cancelled), s)
  end.

(* phux-server/src/runtime/commands.rs create_empty_session *)
Definition create_empty_session (s : ServerState) (n : bytes) (sd : Seeding) : option ServerState :=
  match by_name (sessions s) n with
  | Some _ => None
  | None => Some (up_served (up_sessions s (seed_empty (sessions s) n (sd_now sd) (sd_session sd))) true)
  end.
(** [Some (None, s)]: the name is taken, or the engine could not be built. *)
(* phux-server/src/runtime/commands.rs create_named_session *)
Definition create_named_session (s : ServerState) (n : bytes) (agent_session : option bytes) (sd : Seeding)
    : option (option ResourceId * ServerState) :=
  match by_name (sessions s) n with
  | Some _ => Some (None, s)
  | None =>
      '(ok, s) ← (if sd_with_pty sd
                  then seed_session_with_pty accepts s n (sd_now sd) (sd_session sd) (sd_window sd) (sd_pane sd) (sd_cwd sd) agent_session (sd_built sd)
                  else seed_session_with_actor accepts s n (sd_now sd) (sd_session sd) (sd_window sd) (sd_pane sd) agent_session (sd_built sd));
      if ok : bool
      then '(w, s) ← intern_terminal_wire (up_served s true) (sd_pane sd); Some (Some w, s)
      else Some (None, s)
  end.
(** Outside, whether the session was created; inside, the seed pane's id if there is one. *)
(* phux-server/src/runtime/client.rs run_session_create *)
Definition run_session_create (s : ServerState) (r : SessionCreateRequest) (sd : Seeding)
    : option (option (option ResourceId) * ServerState) :=
  if rq_empty r then
    match create_empty_session s (rq_name r) sd with
    | Some s => Some (Some None, s)
    | None => Some (None, s)
    end
  else
    '(made, s) ← create_named_session s (rq_name r) (rq_agent_session r) sd;
    match made with
    | None => Some (None, s)
    | Some w => Some (Some (Some w), if rq_keep_empty r then (set_session_keep_empty s (rq_name r) true).2 else s)
    end.

(* phux-server/src/runtime/client.rs publish_session_create_result *)
Definition publish_session_create_result (s : ServerState) (client : ClientId) (k : bytes) (payload : SessionCreated)
    (one_shot : bool) : ServerState :=
  match result_json payload with
  | None => s
  | Some b =>
      let s := (metadata_set accepts s Scope_Global k b).2 in
      if one_shot then track_session_create_result accepts s client k else s
  end.
(** The id of the session of that name. *)
Definition intern_session_named (s : ServerState) (n : bytes) : option (option Z * ServerState) :=
  match find_by_name (sessions s) n with
  | Some id => '(w, ids) ← intern_session (idspace s) id; Some (Some w, up_idspace s ids)
  | None => Some (None, s)
  end.
(* phux-server/src/runtime/client.rs handle_session_create_metadata *)
Definition handle_session_create_metadata (s : ServerState) (client : ClientId) (v : bytes) (sd : Seeding) : option ServerState :=
  match parse_request v with
  | None => Some s
  | Some r =>
      if has_some (session_create_refusal r) then Some s
      else
        let k := session_create_result_key (rq_request_token r) in
        if has_some (rq_request_token r) && session_create_result_is_pending (clients s) k then Some s
        else
          '(outcome, s) ← run_session_create s r sd;
          match outcome with
          | None => Some s
          | Some wire =>
              '(id, s) ← intern_session_named s (rq_name r);
              Some (publish_session_create_result s client k
                      (mkCreated (rq_name r) id wire (rq_request_token r) (negb (has_some wire))) (has_some (rq_request_token r)))
          end
  end.

(* phux-server/src/runtime/client.rs handle_set_metadata *)
Definition handle_set_metadata (s : ServerState) (client : ClientId) (scope : Scope) (k v : bytes) (root_cancelled : bool)
    (sd : Seeding) : option (AfterWrite * ServerState) :=
  if reject_set_metadata s scope k v then Some (nothing, s)
  else
    let global := match scope with Scope_Global => true | _ => false end in
    if bool_decide (k = SESSION_CREATE_KEY) && global then
      s ← handle_session_create_metadata s client v sd; Some (nothing, s)
    else if bool_decide (k = SESSION_NAME_KEY) && global then Some (nothing, apply_session_rename s scope k v)
    else if bool_decide (k = SESSION_KEEP_EMPTY_KEY) && global then Some (apply_session_keep_empty s scope k v root_cancelled)
    else Some (store_metadata_value s scope k v).

(* phux-server/src/runtime/client.rs handle_delete_metadata *)
Definition handle_delete_metadata (s : ServerState) (scope : Scope) (k : bytes) : AfterWrite * ServerState :=
  if is_reserved_session_create_result scope k then (nothing, s)
  else if is_server_owned_key k then (nothing, s)
  else
    let s := match scope with
             | Scope_Resource w =>
                 if bool_decide (k = RESOURCE_AGENT_KEY) then up_records s (note_explicit_delete (agent_records s) w) else s
             | _ => s
             end in
    let s := (metadata_delete accepts s scope k).2 in
    (mkAfter (invalidate_agent_detector s scope k) [] false, s).

End Writes.
