(* ===== verification/Sound.v ===== *)
(** * What every operation of the server preserves

    [Sound]: the ledgers speak of live entities and every live resource has its wire id. Each
    operation that [ServerSteps] makes a step of preserves it. *)

From stdpp Require Import gmap.
From S2P Require Import Prelude Enums Caps Codec Command Frame.
From S2P Require Import RegistrySteps.
From S2P Require Import IdBridge Leases SpawnLedger ResourceTable Metadata SessionTable Agent ClientTable.
From S2P Require Import Window Registry ServerState Lifecycle Booked Watcher Spawn.
From S2P Require Import Ids.

(** ** The invariant of a run *)

(** The ledgers speak of live entities and every live resource has its id. *)
Definition Sound (s : ServerState) : Prop := Booked s /\ wired s.

Lemma sound_frame s s' :
  Sound s -> Booked s' -> terminals (idspace s') = terminals (idspace s) ->
  (forall k, live_resource s' k -> live_resource s k) -> Sound s'.
Proof.
  intros [_ Hw] Hs Et Hl. split; [done|]. intros k Hk. unfold terminal_wire. rewrite Et. by apply Hw, Hl.
Qed.

Lemma sound_keeps ks s s' :
  Sound s -> Booked s' -> keeps ks s s' -> (forall k, live_resource s' k -> live_resource s k /\ k ∉ ks) -> Sound s'.
Proof.
  intros [_ Hw] Hs Hk Hl. split; [done|]. intros k [H Hn]%Hl. destruct (Hw k H) as [w E]. exists w. by apply (kp_wire _ _ _ Hk).
Qed.

(** ** Registry operations *)

(** The registry grows, or changes inside its entries. *)
Record grows (r r' : Registry) : Prop := {
  gr_inv : Inv r';
  gr_sessions id : is_Some (reg_sessions r !! id) -> is_Some (reg_sessions r' !! id);
  gr_windows w : is_Some (reg_windows r !! w) -> is_Some (reg_windows r' !! w);
  gr_resources k : is_Some (reg_resources r !! k) -> is_Some (reg_resources r' !! k)
}.

Lemma grows_refl r : Inv r -> grows r r.
Proof. by split. Qed.
Lemma grows_trans r1 r2 r3 : grows r1 r2 -> grows r2 r3 -> grows r1 r3.
Proof. intros [] []. split; auto. Qed.

Lemma booked_grows s r : Booked s -> grows (reg s) r -> Booked (on_registry s r).
Proof.
  intros Hs Hg. split; try apply Hs.
  - apply Hg.
  - intros k H. apply (gr_resources _ _ Hg), (bk_resource s Hs), H.
  - intros w H. apply (gr_windows _ _ Hg), (bk_window s Hs), H.
  - intros id H. apply (gr_sessions _ _ Hg), (bk_session s Hs), H.
Qed.

Ltac grow_tac := intros ? ?; rewrite ?lookup_insert_is_Some'; auto.

Lemma grows_session r id n now : Inv r -> reg_sessions r !! id = None -> grows r (new_session r id n now).
Proof. intros HI Hid. split; [by apply inv_new_session| | |]; unfold new_session; cbn; grow_tac. Qed.

Lemma grows_window r id s r' : Inv r -> reg_windows r !! id = None -> new_window r id s = Ok r' -> grows r r'.
Proof.
  intros HI Hid E. split; [by eapply inv_new_window|..]; revert E; unfold new_window; case_bool_decide as Hs; try done;
    destruct Hs as [x Hs]; cbn [negb]; cbn; rewrite Hs; intros [= <-]; cbn; grow_tac.
Qed.

Lemma grows_terminal r id w r' : Inv r -> reg_resources r !! id = None -> new_terminal r id w = Ok r' -> grows r r'.
Proof.
  intros HI Hid E. split; [by eapply inv_new_terminal|..]; revert E; unfold new_terminal; case_bool_decide as Hs; try done;
    destruct Hs as [x Hs]; cbn [negb]; cbn; rewrite Hs; intros [= <-]; cbn; grow_tac.
Qed.

Lemma grows_agent r id p a r' : Inv r -> reg_resources r !! id = None -> new_agent_session r id p a = Ok r' -> grows r r'.
Proof.
  intros HI Hid E. split; [by eapply inv_new_agent_session|..]; revert E; unfold new_agent_session;
    destruct (reg_resources r !! p) as [dp|]; try done; destruct (negb _); try done; intros [= <-]; cbn; grow_tac.
Qed.

Lemma fresh_no_children r k : Inv r -> reg_resources r !! k = None -> children r k = [].
Proof.
  intros HI Hk. destruct (children r k) as [|x xs] eqn:E; [done|]. exfalso.
  assert (Hx : x ∈ children r k) by (rewrite E; by left). apply elem_of_children in Hx as (d & Hd & Hp).
  destruct (inv_resource _ HI x d Hd) as [_ Hw]. unfold wf_kind in Hw. destruct (kind d); [destruct Hw as (? & _); congruence|].
  destruct Hw as (_ & _ & _ & p & dp & E1 & E2 & _). congruence.
Qed.

(** A facet write. *)
Lemma terminal_mut_lookup r k f k' d :
  reg_resources (terminal_mut r k f) !! k' = Some d <->
  exists d0, reg_resources r !! k' = Some d0 /\ d = if bool_decide (k' = k) then with_terminal d0 (f <$> terminal d0) else d0.
Proof.
  unfold terminal_mut. cbn. case_bool_decide as E.
  - subst. rewrite lookup_alter_eq, fmap_Some. naive_solver.
  - rewrite lookup_alter_ne by done. naive_solver.
Qed.

Lemma grows_terminal_mut r k f : Inv r -> grows r (terminal_mut r k f).
Proof.
  intros HI. split; try done.
  2: { intros k'. unfold terminal_mut. cbn. by rewrite lookup_alter_is_Some. }
  split; intros *; try apply HI.
  - intros Hw Ht. destruct (inv_window_slots _ HI k0 w t Hw Ht) as (d & Hd & Hk & Hwd). eexists.
    split; [apply terminal_mut_lookup; by exists d|]. by case_bool_decide.
  - intros (d0 & Hd & ->)%terminal_mut_lookup. destruct (inv_resource _ HI k0 d0 Hd) as [Hid Hk]. split; [by case_bool_decide|].
    assert (Hk' : wf_kind (terminal_mut r k f) k0 d0).
    { revert Hk. apply wf_kind_mono.
      - intros wk w Hw Hs. by exists w.
      - intros p dp Hp _ Hkp. eexists. split; [apply terminal_mut_lookup; by exists dp|]. by case_bool_decide. }
    case_bool_decide; [|done]. unfold wf_kind in *. cbn. destruct (kind d0); [|].
    + destruct Hk' as (? & ? & ? & ?). by rewrite fmap_is_Some.
    + destruct Hk' as (? & E & ?). by rewrite E.
Qed.

Lemma set_facet_state_lookup r k word k' d :
  reg_resources (set_facet_state r k word) !! k' = Some d <->
  exists d0, reg_resources r !! k' = Some d0 /\ d = if bool_decide (k' = k) then with_agent_state d0 word else d0.
Proof.
  unfold set_facet_state. cbn. case_bool_decide as E.
  - subst. rewrite lookup_alter_eq, fmap_Some. naive_solver.
  - rewrite lookup_alter_ne by done. naive_solver.
Qed.
Lemma grows_facet r k word : Inv r -> grows r (set_facet_state r k word).
Proof.
  intros HI. split; try done.
  2: { intros k'. unfold set_facet_state. cbn. by rewrite lookup_alter_is_Some. }
  split; intros *; try apply HI.
  - intros Hw Ht. destruct (inv_window_slots _ HI k0 w t Hw Ht) as (d & Hd & Hk & Hwd). eexists.
    split; [apply set_facet_state_lookup; by exists d|]. by case_bool_decide.
  - intros (d0 & Hd & ->)%set_facet_state_lookup. destruct (inv_resource _ HI k0 d0 Hd) as [Hid Hk]. split; [by case_bool_decide|].
    assert (Hk' : wf_kind (set_facet_state r k word) k0 d0).
    { revert Hk. apply wf_kind_mono.
      - intros wk w Hw Hs. by exists w.
      - intros p dp Hp _ Hkp. eexists. split; [apply set_facet_state_lookup; by exists dp|]. by case_bool_decide. }
    case_bool_decide; [|done]. unfold wf_kind in *. cbn. destruct (kind d0).
    + destruct Hk' as (? & ? & E & ?). by rewrite E.
    + destruct Hk' as (? & ? & ? & ?). by rewrite fmap_is_Some.
Qed.

(** ** Spawning *)

(** The registry gains the resource [k], to which nothing is bound. *)
Record adds (r r' : Registry) (k : key) : Prop := {
  ad_grows : grows r r';
  ad_live k' : is_Some (reg_resources r' !! k') <-> is_Some (reg_resources r !! k') \/ k' = k;
  ad_leaf k' d : reg_resources r' !! k' = Some d -> parent d <> Some k
}.

Lemma adds_leaf r r' k : adds r r' k -> children r' k = [].
Proof.
  intros []. destruct (children r' k) as [|x xs] eqn:E; [done|]. exfalso.
  assert (Hx : x ∈ children r' k) by (rewrite E; by left). apply elem_of_children in Hx as (d & Hd & Hp). by apply (ad_leaf0 x d).
Qed.

Lemma unbound r k k' d : Inv r -> reg_resources r !! k = None -> reg_resources r !! k' = Some d -> parent d <> Some k.
Proof.
  intros HI Hk Hd Hp. assert (Hin : k' ∈ children r k) by (apply elem_of_children; by exists d).
  rewrite (fresh_no_children r k HI Hk) in Hin. by apply not_elem_of_nil in Hin.
Qed.

Lemma adds_terminal r0 r id w r' :
  grows r0 r -> reg_resources r = reg_resources r0 -> reg_resources r0 !! id = None -> new_terminal r id w = Ok r' -> adds r0 r' id.
Proof.
  intros Hg Er Hid E. assert (Hid' : reg_resources r !! id = None) by congruence. pose proof (gr_inv _ _ Hg) as HI. split.
  - eapply grows_trans; [exact Hg|]. by eapply grows_terminal.
  - revert E. unfold new_terminal. case_bool_decide as Hs; [|done]. destruct Hs as [x Hs]. cbn. rewrite Hs. intros [= <-] k'. cbn.
    rewrite lookup_insert_is_Some', Er. naive_solver.
  - revert E. unfold new_terminal. case_bool_decide as Hs; [|done]. destruct Hs as [x Hs]. cbn. rewrite Hs. intros [= <-] k' d. cbn.
    intros H. find_cases; simplify_eq; [done|]. by eapply unbound.
Qed.

Lemma adds_agent r id p a r' : Inv r -> reg_resources r !! id = None -> new_agent_session r id p a = Ok r' -> adds r r' id.
Proof.
  intros HI Hid E. split; [by eapply grows_agent|..]; revert E; unfold new_agent_session;
    destruct (reg_resources r !! p) as [dp|] eqn:Ep; try done; destruct (negb _); try done; intros [= <-].
  - intros k'. cbn. rewrite lookup_insert_is_Some'. naive_solver.
  - intros k' d H. cbn in H. find_cases; simplify_eq; [cbn; congruence|]. by eapply unbound.
Qed.

Lemma adds_mut r r' k k' f : adds r r' k -> adds r (terminal_mut r' k' f) k.
Proof.
  intros []. split.
  - eapply grows_trans; [done|]. apply grows_terminal_mut, ad_grows0.
  - intros x. unfold terminal_mut. cbn. by rewrite lookup_alter_is_Some.
  - intros x d (d0 & Hd & ->)%terminal_mut_lookup. apply ad_leaf0 in Hd. by case_bool_decide.
Qed.

(** A pane that was just made and has its id. *)
Record Made (s : ServerState) (k : key) : Prop := {
  md_sound : Sound s;
  md_live : live_resource s k;
  md_leaf : children (reg s) k = []
}.

Lemma made_intern s r k w s' :
  Sound s -> adds (reg s) r k -> intern_terminal_wire (on_registry s r) k = Some (w, s') -> Made s' k.
Proof.
  intros [Hs Hw] Ha E. pose proof (booked_grows s r Hs (ad_grows _ _ _ Ha)) as H1.
  assert (Hk : live_resource (on_registry s r) k) by (apply (ad_live _ _ _ Ha); by right).
  destruct (booked_intern _ _ _ _ H1 Hk E) as (H2 & R2 & _). split; [split; [done|]| |]; rewrite ?R2; [|done|by eapply adds_leaf].
  intros k' Hk'. rewrite R2 in Hk'. apply (ad_live _ _ _ Ha) in Hk' as [Hl| ->]; [|exists w; by apply intern_wire in E].
  destruct (Hw k' Hl) as [w' Ew]. exists w'. apply (kp_wire _ _ _ (keeps_intern _ _ _ _ E)); [apply not_elem_of_nil|done].
Qed.


Section Runs.
Context (accepts : Sender -> FrameKind -> bool).

Lemma made_frames s s' k : Made s k -> Booked s' -> frames s s' -> Made s' k.
Proof.
  intros [[_ Hw] Hl Hc] Hs Hf. pose proof (fr_registry _ _ Hf) as Er.
  assert (Hl' : forall k, live_resource s' k <-> live_resource s k) by (intros; by rewrite Er).
  split; [split; [done|]|by apply Hl'|].
  - intros k' Hk. unfold terminal_wire. rewrite (fr_terminals _ _ Hf). by apply Hw, Hl'.
  - unfold children. rewrite Er. exact Hc.
Qed.

Lemma wire_in_scope s k w : Booked s -> terminal_wire (idspace s) k = Some w -> in_scope s (Scope_Resource w).
Proof. intros Hs E id [= ->]. exists k. apply (ok_inverse _ (bk_terminals s Hs)), E. Qed.

Lemma made_tag s k w a : Made s k -> terminal_wire (idspace s) k = Some w -> Made (tag_agent_session accepts s w a) k.
Proof.
  intros Hm E. destruct a as [v|]; [|done]. cbn. pose proof (md_sound _ _ Hm) as [Hs _].
  eapply made_frames; [exact Hm|apply booked_set; [done|by eapply wire_in_scope]|apply set_frames].
Qed.

Lemma sound_finish s k built b s' : Made s k -> finish_spawn accepts s k built = Some (b, s') -> Sound s'.
Proof.
  intros [[Hs Hw] Hl Hc]. unfold finish_spawn. destruct built as [[h tok]|].
  - unfold register_resource_handle. destruct (Hw k Hl) as [w Ew]. pose proof (intern_known s k w Ew) as Ei.
    unfold intern_terminal_wire in Ei. destruct (intern_terminal (idspace s) k) as [[w' ids]|]; [|done].
    injection Ei as -> Ei. cbn [mbind option_bind]. rewrite Ei. intros [= <- <-]. split; [|exact Hw].
    apply booked_resources; [done|]. intros k' [H| ->]%tabled_register; [by left|by right].
  - intros [= <- <-]. destruct (reap_leaf accepts s k Hs Hc Hl) as [H1 H2].
    apply (sound_keeps [k] s); [done|done|apply reap_keeps|]. intros k' [d Hd]. apply H2 in Hd as [Hd Hne].
    split; [by eexists|]. by intros ->%list_elem_of_singleton.
Qed.

(** The registry entry of [seed]. *)
Lemma adds_seed t n now sid wid pid t' :
  Inv (registry t) -> reg_sessions (registry t) !! sid = None -> reg_windows (registry t) !! wid = None ->
  reg_resources (registry t) !! pid = None -> seed t n now sid wid pid = Some t' ->
  exists r, t' = with_registry t r /\ adds (registry t) r pid.
Proof.
  intros HI Hs Hw Hp. unfold seed. pose proof (grows_session _ sid n now HI Hs) as G1.
  destruct (new_window _ wid sid) as [r1|] eqn:E1; [|done].
  assert (G2 : grows (new_session (registry t) sid n now) r1) by (by eapply grows_window; [apply G1| |exact E1]).
  destruct (new_terminal r1 pid wid) as [r2|] eqn:E2; [|done]. intros [= <-]. exists r2. split; [done|].
  eapply adds_terminal; [by eapply grows_trans|by destruct (keys_new_window _ _ _ _ E1) as (_ & _ & ?)|done|exact E2].
Qed.

Lemma made_seed_pty s n now sid wid pid cwd a built b s' :
  Sound s -> reg_sessions (reg s) !! sid = None -> reg_windows (reg s) !! wid = None -> reg_resources (reg s) !! pid = None ->
  seed_session_with_pty accepts s n now sid wid pid cwd a built = Some (b, s') ->
  exists s1, Made s1 pid /\ finish_spawn accepts s1 pid built = Some (b, s').
Proof.
  intros Hs H1 H2 H3. unfold seed_session_with_pty. destruct (seed _ _ _ _ _ _) as [t|] eqn:E; [|done]. cbn [mbind option_bind].
  apply adds_seed in E as (r & -> & Ha); [|by apply (bk_registry s), Hs|done..].
  assert (Hr : exists r', stamp_spawn_cwd (up_sessions s (with_registry (sessions s) r)) pid cwd = on_registry s r' /\ adds (reg s) r' pid).
  { unfold stamp_spawn_cwd. destruct cwd as [c|]; [|by exists r]. eexists. split; [reflexivity|]. by apply adds_mut. }
  destruct Hr as (r' & -> & Ha'). destruct (intern_terminal_wire _ pid) as [[w s1]|] eqn:Ei; [|done]. cbn [mbind option_bind].
  intros Hf. eexists. split; [|exact Hf]. apply made_tag; [by eapply made_intern|]. by eapply intern_wire.
Qed.
Lemma sound_seed_pty s n now sid wid pid cwd a built b s' :
  Sound s -> reg_sessions (reg s) !! sid = None -> reg_windows (reg s) !! wid = None -> reg_resources (reg s) !! pid = None ->
  seed_session_with_pty accepts s n now sid wid pid cwd a built = Some (b, s') -> Sound s'.
Proof.
  intros Hs H1 H2 H3 E. destruct (made_seed_pty _ _ _ _ _ _ _ _ _ _ _ Hs H1 H2 H3 E) as (s1 & Hm & Hf). by eapply sound_finish.
Qed.
(** A spawn that succeeded leaves its pane live. *)
Lemma finish_live s k built s' : finish_spawn accepts s k built = Some (true, s') -> live_resource s k -> live_resource s' k.
Proof.
  unfold finish_spawn. destruct built as [[h tok]|]; [|done]. unfold register_resource_handle.
  destruct (intern_terminal _ k) as [[w ids]|]; [|done]. cbn. by intros [= <-].
Qed.

Lemma grows_new_window r w s r' : new_window r w s = Ok r' -> reg_resources r' = reg_resources r.
Proof. intros E. unfold new_window in E. destruct (negb _); [done|]. cbn in E. destruct (reg_sessions r !! s); by injection E as <-. Qed.

(** Every way [add_pane] ends. *)
Lemma add_pane_cases t x wid pid k t' :
  Inv (registry t) -> reg_windows (registry t) !! wid = None -> reg_resources (registry t) !! pid = None ->
  add_pane t x wid pid = (k, t') ->
  exists r, t' = with_registry t r /\ match k with Some k => k = pid /\ adds (registry t) r pid
    | None => grows (registry t) r /\ reg_resources r = reg_resources (registry t) end.
Proof.
  intros HI Hw Hp. unfold add_pane. assert (Hself : t = with_registry t (registry t)) by (by destruct t).
  destruct (reg_sessions (registry t) !! x) as [sx|].
  2: { intros [= <- <-]. exists (registry t). split; [exact Hself|]. split; [by apply grows_refl|done]. }
  set (host := match head (Registry.windows sx) with Some _ => _ | None => _ end). cbv zeta.
  assert (Hh : match host with Some (w, r) => grows (registry t) r /\ reg_resources r = reg_resources (registry t) | None => True end).
  { unfold host. destruct (head _); [split; [by apply grows_refl|done]|].
    destruct (new_window _ wid x) as [r|] eqn:E; [|done]. split; [by eapply grows_window|by eapply grows_new_window]. }
  destruct host as [[w r]|].
  2: { intros [= <- <-]. exists (registry t). split; [exact Hself|]. split; [by apply grows_refl|done]. }
  destruct Hh as [Hg Hr]. destruct (new_terminal r pid w) as [r2|] eqn:E; intros [= <- <-].
  - exists r2. split; [done|]. split; [done|]. by eapply adds_terminal.
  - exists r. by split.
Qed.

Lemma add_beside_cases t o pid k t' :
  Inv (registry t) -> reg_resources (registry t) !! pid = None -> add_pane_beside t o pid = (k, t') ->
  match k with Some k => k = pid /\ exists r, t' = with_registry t r /\ adds (registry t) r pid | None => t' = t end.
Proof.
  intros HI Hp. unfold add_pane_beside. destruct (_ ≫= _) as [w|]; [|by intros [= <- <-]].
  destruct (new_terminal _ pid w) as [r|] eqn:E; intros [= <- <-]; [|done]. split; [done|]. exists r. split; [done|].
  by eapply adds_terminal; [apply grows_refl| | |exact E].
Qed.

Lemma adds_stamp s0 r k cwd d :
  adds (reg s0) r k ->
  exists r', set_dims (stamp_spawn_cwd (up_sessions s0 (with_registry (sessions s0) r)) k cwd) k d = on_registry s0 r' /\ adds (reg s0) r' k.
Proof.
  intros Ha. unfold set_dims, stamp_spawn_cwd. destruct cwd as [c|]; eexists; (split; [reflexivity|]).
  - apply adds_mut. exact (adds_mut _ _ _ k _ Ha).
  - exact (adds_mut _ _ _ k _ Ha).
Qed.

(** What adding a pane does to the state, whoever owns it. *)
Lemma sound_ownership s o wid pid k s' :
  Sound s -> reg_windows (reg s) !! wid = None -> reg_resources (reg s) !! pid = None ->
  (match o with Own_Session x => add_pane_to_session s x wid pid | Own_Terminal w => add_pane_to_terminal_owner s w pid end) = (k, s') ->
  match k with
  | Some k => k = pid /\ exists r, s' = on_registry s r /\ adds (reg s) r pid
  | None => Sound s'
  end.
Proof.
  intros Hs Hw Hp. assert (HI : Inv (reg s)) by apply Hs. destruct o as [x|w].
  - unfold add_pane_to_session. destruct (add_pane (sessions s) x wid pid) as [k0 t] eqn:E. intros [= <- <-].
    destruct (add_pane_cases _ _ _ _ _ _ HI Hw Hp E) as (r & -> & H). destruct k0 as [k0|].
    + destruct H as [-> H]. split; [done|]. by exists r.
    + destruct H as [Hg Hr]. apply (sound_frame s); [done|by apply booked_grows; [apply Hs|]|done|]. intros k. unfold reg. cbn.
      rewrite Hr. done.
  - unfold add_pane_to_terminal_owner. destruct (terminal_from_wire (idspace s) w) as [o|]; [|by intros [= <- <-]].
    destruct (add_pane_beside (sessions s) o pid) as [k0 t] eqn:E. intros [= <- <-].
    apply (add_beside_cases _ _ _ _ _ HI Hp) in E. destruct k0 as [k0|].
    + destruct E as (-> & r & -> & H). split; [done|]. by exists r.
    + subst t. destruct Hs as [Hb Hw']. assert (E : up_sessions s (sessions s) = s) by (by destruct s). by rewrite E.
Qed.

Lemma sound_spawn_pane s o wid pid cwd a size built b s' :
  Sound s -> reg_windows (reg s) !! wid = None -> reg_resources (reg s) !! pid = None ->
  spawn_pane_with_pty accepts s o wid pid cwd a size built = Some (b, s') -> Sound s'.
Proof.
  intros Hs Hw Hp. unfold spawn_pane_with_pty. destruct (match o with Own_Session _ => _ | Own_Terminal _ => _ end) as [k s1] eqn:E.
  apply (sound_ownership s o wid pid k s1 Hs Hw Hp) in E. destruct k as [k|]; [|intros [= <- <-]; exact E].
  destruct E as (-> & r & -> & Ha). destruct (adds_stamp s r pid cwd (match size with Some (c, x) => (Z.max c 1, Z.max x 1) | None => DEFAULT_SPAWN_DIMS end) Ha) as (r' & E & Ha').
  unfold on_registry at 1. rewrite E. destruct (intern_terminal_wire _ pid) as [[w s2]|] eqn:Ei; [|done]. cbn [mbind option_bind].
  destruct (finish_spawn _ _ pid built) as [[ok s3]|] eqn:Ef; [|done]. intros [= <- <-].
  eapply sound_finish; [|exact Ef]. apply made_tag; [by eapply made_intern|by eapply intern_wire].
Qed.

Lemma sound_agent s client p core prov nid h tok tx b s' :
  Sound s -> reg_resources (reg s) !! core = None ->
  open_agent_session s client p core prov nid h tok tx = Some (b, s') -> Sound s'.
Proof.
  intros Hs Hc. assert (HI : Inv (reg s)) by apply Hs. unfold open_agent_session.
  destruct (new_agent_session _ core p _) as [r|e] eqn:E; [|by intros [= <- <-]].
  pose proof (adds_agent _ _ _ _ _ HI Hc E) as Ha. unfold register_resource_handle.
  destruct (intern_terminal (idspace (on_registry s r)) core) as [[w ids]|] eqn:Ei; [|done]. cbn [mbind option_bind].
  assert (Ei' : intern_terminal_wire (on_registry s r) core = Some (w, up_idspace (on_registry s r) ids)).
  { unfold intern_terminal_wire. by rewrite Ei. }
  pose proof (made_intern _ _ _ _ _ Hs Ha Ei') as Hm. set (s1 := up_idspace (on_registry s r) ids) in *.
  pose proof (intern_wire _ _ _ _ Ei') as Ew. erewrite (intern_known _ core w); [|exact Ew]. cbn [mbind option_bind].
  intros [= <- <-]. destruct (md_sound _ _ Hm) as [Hb Hw]. split; [|exact Hw]. unfold subscribe_terminal, ServerState.record_spawn.
  pose proof (md_live _ _ Hm) as Hl. apply booked_resources.
  - apply booked_clients, booked_resources.
    + apply booked_resources; [done|]. intros k' [H| ->]%tabled_register; [by left|by right].
    + intros k' [H| ->]%tabled_record_spawn; [by left|by right].
  - intros k' [H| ->]%tabled_subscribe; [by left|by right].
Qed.

Lemma grows_move r id to r' :
  Inv r -> move_terminal r id to = Ok r' -> grows r r' /\ forall k, is_Some (reg_resources r' !! k) -> is_Some (reg_resources r !! k).
Proof.
  intros HI E. pose proof (inv_move_terminal _ _ _ _ HI E) as HI'. destruct (keys_move r HI id to r' E) as (E1 & E2 & E3).
  split; [|intros k [x Hx]; by eapply E3]. split; [done|by rewrite E1|..]; revert E; unfold move_terminal; case_bool_decide as Hto; try done;
    cbn [negb]; destruct (_ ≫= window) as [src|]; try done; case_bool_decide as Hne; try (by intros [= <-]).
  all: destruct (reg_windows r !! src) as [w1|] eqn:Ew1; destruct (reg_resources _ !! id) as [d|] eqn:Ed; cbn; intros E k Hk;
    cbn in Ed; rewrite ?Ew1 in E; cbn in E.
  all: repeat match goal with E : context[match ?x with Some _ => _ | None => _ end] |- _ => destruct x eqn:? end; injection E as <-; cbn;
    rewrite ?lookup_insert_is_Some'; auto.
Qed.

Lemma sound_move error_text s t o b s' : Sound s -> move_resource accepts error_text s t o = (b, s') -> Sound s'.
Proof.
  intros Hs. assert (HI : Inv (reg s)) by apply Hs. unfold move_resource.
  destruct t as [t|]; [|by intros [= <- <-]]. destruct o as [o|]; [|by intros [= <- <-]].
  destruct (terminal_from_wire _ (ResourceId_Local t)) as [m|]; [|by intros [= <- <-]].
  destruct (terminal_from_wire _ (ResourceId_Local o)) as [ow|]; [|by intros [= <- <-]].
  destruct (reg_resources (reg s) !! ow ≫= window) as [dest|]; [|by intros [= <- <-]].
  destruct (move_terminal (reg s) m dest) as [r|e] eqn:E; [|by intros [= <- <-]]. intros [= <- <-].
  destruct (grows_move _ _ _ _ HI E) as [Hg Hl].
  assert (H1 : Sound (on_registry s r)) by (apply (sound_frame s); [done|by apply booked_grows; [apply Hs|]|done|exact Hl]).
  destruct (reg_resources (reg s) !! m ≫= window) as [w|]; [|done]. pose proof (reap_window_frames accepts (on_registry s r) w) as Hf.
  apply (sound_frame (on_registry s r)); [done|apply booked_reap_window, H1|apply Hf|]. intros k. by rewrite (fr_registry _ _ Hf).
Qed.

(** ** Sessions *)

Lemma grows_map_session r id f :
  Inv r -> (forall x, session_id (f x) = session_id x /\ Registry.windows (f x) = Registry.windows x /\ active_window (f x) = active_window x) ->
  grows r (map_session r id f).
Proof.
  intros HI Hf.
  assert (Hl : forall k x, reg_sessions (map_session r id f) !! k = Some x ->
    exists x0, reg_sessions r !! k = Some x0 /\ session_id x = session_id x0 /\ Registry.windows x = Registry.windows x0 /\ active_window x = active_window x0).
  { intros k x. unfold map_session. cbn. destruct (decide (k = id)) as [->|Hne].
    - rewrite lookup_alter_eq, fmap_Some. intros (x0 & H & ->). exists x0. destruct (Hf x0) as (? & ? & ?). done.
    - rewrite lookup_alter_ne by done. intros H. by exists x. }
  split; try done; [|intros k; unfold map_session; cbn; by rewrite lookup_alter_is_Some].
  split; intros *; try apply HI.
  - intros (x0 & H & E1 & E2 & E3)%Hl. unfold wf_focus. rewrite E1, E2, E3. by apply (inv_session r HI).
  - intros (x0 & H & _ & E2 & _)%Hl. rewrite E2. by apply (inv_session_windows r HI).
  - intros Hw. destruct (inv_window_session r HI _ _ Hw) as (x & Hx & Hin). unfold map_session. cbn.
    destruct (decide (session w = id)) as [<-|Hne].
    + rewrite lookup_alter_eq, Hx. eexists. split; [reflexivity|]. destruct (Hf x) as (_ & -> & _). done.
    + rewrite lookup_alter_ne by done. by exists x.
Qed.

Lemma sound_map_session s id f :
  Sound s -> (forall x, session_id (f x) = session_id x /\ Registry.windows (f x) = Registry.windows x /\ active_window (f x) = active_window x) ->
  Sound (on_registry s (map_session (reg s) id f)).
Proof.
  intros Hs Hf. apply (sound_frame s); [done| |done|done]. apply booked_grows; [apply Hs|].
  apply grows_map_session; [apply Hs|done].
Qed.

Lemma sound_reap_session s id : Sound s -> Sound (reap_session_if_empty s id).2.
Proof.
  intros Hs. pose proof (reap_session_frames s id) as Hf. apply (sound_frame s); [done|apply booked_reap_session, Hs|apply Hf|].
  intros k. by rewrite (fr_registry _ _ Hf).
Qed.

Lemma sound_keep_empty s n keep : Sound s -> Sound (set_session_keep_empty s n keep).2.
Proof.
  intros Hs. unfold set_session_keep_empty. destruct (find_by_name (sessions s) n) as [id|]; [|done].
  pose proof (sound_map_session s id (fun x => with_keep_empty x keep) Hs (fun x => conj eq_refl (conj eq_refl eq_refl))) as H.
  apply (sound_reap_session _ id) in H. unfold on_registry in H. change (reg s) with (registry (sessions s)) in H.
  by destruct (reap_session_if_empty _ id) as [b s2].
Qed.

(** The ledger of sessions may name any session that is live. *)
Lemma sound_sessions s t :
  Sound s -> registry t = reg s ->
  (forall w, is_Some (window_last_cwd t !! w) -> is_Some (window_last_cwd (sessions s) !! w) \/ is_Some (reg_windows (reg s) !! w)) ->
  (forall id, is_Some (last_touched t !! id) \/ is_Some (roots t !! id) \/ id ∈ released_keep_empty t ->
     booked_session s id \/ is_Some (reg_sessions (reg s) !! id)) ->
  Sound (up_sessions s t).
Proof.
  intros Hs Hr Hw Hl. apply (sound_frame s); [done|apply booked_sessions; [apply Hs|done..]|done|].
  intros k. unfold reg at 1. cbn. by rewrite Hr.
Qed.

Lemma sound_release s targets : Sound s -> Sound (release_keep_empty_covered_by s targets).2.
Proof.
  intros Hs. unfold release_keep_empty_covered_by.
  set (covered := map fst _). assert (Hc : forall id, id ∈ covered -> is_Some (reg_sessions (reg s) !! id)).
  { intros id. unfold covered. rewrite list_elem_of_In, in_map_iff. intros ([k x] & <- & [Hin _]%filter_In).
    exists x. by apply elem_of_map_to_list, list_elem_of_In. }
  clearbody covered. enough (H : forall names s', Sound s' -> (forall id, id ∈ covered -> is_Some (reg_sessions (reg s') !! id)) ->
    Sound (fold_left _ covered (names, s')).2) by (apply H; done).
  clear Hs Hc s. induction covered as [|id ids IH]; intros names s Hs Hc; cbn [fold_left]; [done|].
  destruct (Hc id) as [x Hx]; [by left|]. rewrite Hx. set (f := fun x => with_keep_empty x false).
  pose proof (sound_map_session s id f Hs (fun x => conj eq_refl (conj eq_refl eq_refl))) as H1.
  apply IH.
  - apply (sound_sessions (on_registry s (map_session (reg s) id f))); [exact H1|done|by left|].
    intros k [H|[H|H]]; [left; by right; left|left; by right; right; left|]. cbn in H.
    apply elem_of_union in H as [->%elem_of_singleton|H]; [right|left; by right; right; right].
    unfold reg, map_session. cbn. rewrite lookup_alter_is_Some. by exists x.
  - intros k Hk. unfold reg, map_session. cbn. rewrite lookup_alter_is_Some. apply Hc. by right.
Qed.

(** ** Closing *)

Lemma close_targets_live r ts reason acc k :
  (k ∈ map fst acc -> is_Some (reg_resources r !! k)) -> k ∈ map fst (close_targets r ts reason acc) -> is_Some (reg_resources r !! k).
Proof.
  revert acc. induction ts as [|t ts IH]; intros acc Ha; cbn [close_targets]; [done|]. apply IH.
  case_bool_decide as E; cbn [negb]; [|done]. destruct (listed t acc); [done|]. rewrite map_app, elem_of_app.
  intros [H|H]; [by apply Ha|]. cbn in H. apply list_elem_of_singleton in H as ->. done.
Qed.

Lemma close_children_live r acc k :
  (k ∈ map fst acc -> is_Some (reg_resources r !! k)) -> k ∈ map fst (close_children r acc) -> is_Some (reg_resources r !! k).
Proof.
  unfold close_children. generalize acc at 2 as l. intros l. revert acc. induction l as [|[p x] l IH]; intros acc Ha; cbn [fold_left]; [done|].
  apply IH. unfold add_children. cbn [fst].
  assert (Hc : forall c, c ∈ children r p -> is_Some (reg_resources r !! c)) by (intros c (d & Hd & _)%elem_of_children; by exists d).
  revert acc Ha. induction (children r p) as [|c cs IHc]; intros acc Ha; cbn [fold_left]; [done|]. apply IHc; [by intros ? ?; apply Hc; right|].
  destruct (listed c acc); [done|]. rewrite map_app, elem_of_app. intros [H|H]; [by apply Ha|]. cbn in H.
  apply list_elem_of_singleton in H as ->. apply Hc. by left.
Qed.

Lemma sound_close_one s k reason :
  Sound s -> live_resource s k ->
  Sound (close_one s (k, reason)).
Proof.
  intros Hs Hk. unfold close_one. cbn [fst snd]. apply (sound_frame s); [done| |by unfold mark_resource_closing; destruct (close_reasons s !! k)|
    by unfold mark_resource_closing; destruct (close_reasons s !! k)].
  apply booked_resources.
  - unfold mark_resource_closing. destruct (close_reasons s !! k) as [x|]; [apply Hs|]. apply booked_reasons; [apply Hs|].
    intros k' [x H]. apply lookup_insert_Some in H as [[<- _]|[_ H]]; [by right|left; by exists x].
  - intros k' H%tabled_detach. by left.
Qed.

Lemma sound_close s targets reason : Sound s -> Sound (close_resources s targets reason).2.
Proof.
  intros Hs. unfold close_resources. cbn [snd]. set (closing := close_children _ _).
  assert (Hc : forall k, k ∈ map fst closing -> live_resource s k).
  { intros k. apply close_children_live, close_targets_live. by intros H%not_elem_of_nil. }
  clearbody closing. revert s Hs Hc. induction closing as [|[k r] ks IH]; intros s Hs Hc; cbn [fold_left fst snd]; [done|].
  apply IH.
  - apply sound_close_one; [done|]. apply Hc. by left.
  - intros k' Hk'. assert (H : live_resource s k') by (apply Hc; by right). unfold close_one, mark_resource_closing. cbn [fst snd].
    by destruct (close_reasons s !! k).
Qed.

Lemma sound_watcher s k r s' : Sound s -> reap_and_notify accepts s k = Some (r, s') -> Sound s'.
Proof.
  intros Hs. destruct (reg_resources (reg s) !! k) as [d|] eqn:Hd.
  - destruct (watcher_run accepts s k d) as (r' & s1 & -> & H1 & K & L & _); [apply Hs|apply Hs|done|]. intros [= <- <-].
    apply (sound_keeps (subtree s k) s); [done|done|done|]. intros k' H. by apply L.
  - unfold reap_and_notify, begin_resource_close. rewrite Hd. by intros [= <- <-].
Qed.

Lemma sound_rename s n n' : Sound s -> Sound (up_sessions s (rename (sessions s) n n').2).
Proof.
  intros Hs. assert (E : up_sessions s (sessions s) = s) by (by destruct s). unfold rename.
  destruct (find_by_name (sessions s) n) as [id|]; [|cbn [snd]; by rewrite E]. destruct (_ && _); [cbn [snd]; by rewrite E|].
  exact (sound_map_session s id (fun x => with_name x n') Hs (fun x => conj eq_refl (conj eq_refl eq_refl))).
Qed.

(** ** Steps *)

Lemma sound_same_ids s s' :
  Sound s -> Booked s' -> idspace s' = idspace s -> reg s' = reg s -> Sound s'.
Proof. intros Hs Hb E1 E2. apply (sound_frame s); [done|done|by rewrite E1|by rewrite E2]. Qed.

Lemma sound_table s t :
  Sound s -> (forall k, tabled t k -> tabled (resources s) k \/ live_resource s k) -> Sound (up_resources s t).
Proof. intros Hs Ht. apply (sound_same_ids s); [done|by apply booked_resources; [apply Hs|]|done..]. Qed.

Lemma sound_frames s s' : Sound s -> Booked s' -> frames s s' -> Sound s'.
Proof. intros Hs Hb Hf. apply (sound_frame s); [done|done|apply Hf|]. intros k. by rewrite (fr_registry _ _ Hf). Qed.

Lemma attach_frame s client n tx caps profile limits id s' :
  attach s client n tx caps profile limits = Ok (id, s') -> idspace s' = idspace s /\ reg s' = reg s.
Proof.
  unfold attach. destruct (find_by_name (sessions s) n); [|done]. destruct (attached (clients s) !! client);
    [destruct (negb _); [done|]|]; by intros [= _ <-].
Qed.

Lemma detach_frame s client : idspace (detach accepts s client) = idspace s /\ reg (detach accepts s client) = reg s.
Proof.
  unfold detach.
  assert (H : forall ks s, idspace (fold_left (fun s k => (metadata_delete accepts s Scope_Global k).2) ks s) = idspace s /\
    reg (fold_left (fun s k => (metadata_delete accepts s Scope_Global k).2) ks s) = reg s).
  { clear. induction ks as [|k ks IH]; intros s; cbn [fold_left]; [done|].
    destruct (IH (metadata_delete accepts s Scope_Global k).2) as [-> ->]. unfold metadata_delete.
    destruct (delete_key (metadata s) Scope_Global k) as [e m]. destruct e; [|done]. cbn [negb].
    by destruct (broadcast_sent accepts (up_metadata s m) Scope_Global k None) as [fs ->]. }
  match goal with |- context[fold_left _ ?ks ?s0] => destruct (H ks s0) as [E1 E2] end.
  split; [etrans; [exact E1|done]|etrans; [exact E2|done]].
Qed.

Lemma sound_seed_empty s n now sid :
  Sound s -> reg_sessions (reg s) !! sid = None -> Sound (up_sessions s (seed_empty (sessions s) n now sid)).
Proof.
  intros Hs Hn. set (r := new_session (reg s) sid n now).
  assert (H : Sound (on_registry s r)).
  { apply (sound_frame s); [done|apply booked_grows; [apply Hs|apply grows_session; [apply Hs|done]]|done|done]. }
  exact (sound_map_session _ sid (fun x => with_keep_empty x true) H (fun x => conj eq_refl (conj eq_refl eq_refl))).
Qed.

Lemma sound_ask s k src p : Sound s -> live_resource s k -> Sound (up_asked s (report (asked s) k src p).2).
Proof.
  intros Hs Hk. apply (sound_same_ids s); try done. apply booked_asked; [apply Hs|]. intros k' H. unfold report in H.
  destruct (asked s !! k) as [e|].
  - destruct (_ <? _); [by left|]. case_bool_decide; cbn in H; find_cases; subst; eauto.
  - cbn in H. find_cases; subst; eauto.
Qed.

Lemma sound_retract s k src : Sound s -> Sound (up_asked s (retract (asked s) k src).2).
Proof.
  intros Hs. apply (sound_same_ids s); try done. apply booked_asked; [apply Hs|]. intros k' H. unfold retract in H. left.
  destruct (asked s !! k) as [e|]; [|done]. case_bool_decide; cbn in H; by find_cases; subst; eauto.
Qed.
Lemma sound_facet s k word : Sound s -> Sound (on_registry s (set_facet_state (reg s) k word)).
Proof.
  intros Hs. pose proof (grows_facet (reg s) k word (bk_registry s (proj1 Hs))) as Hg.
  apply (sound_frame s); [done|by apply booked_grows; [apply Hs|]|done|]. intros k' [d Hd]. apply set_facet_state_lookup in Hd as (d0 & Hd & _). by exists d0.
Qed.
Lemma sound_reap s k : Sound s -> children (reg s) k = [] -> Sound (reap_terminal accepts s k).2.
Proof.
  intros Hs Hc. destruct (reg_resources (reg s) !! k) as [d|] eqn:Ek.
  - destruct (reap_leaf accepts s k (proj1 Hs) Hc) as [Hb Hl]; [by exists d|]. apply (sound_keeps [k] s); [done|done|apply reap_keeps|].
    intros k' [d' [H Hn]%Hl]. split; [by exists d'|]. by intros ->%list_elem_of_singleton.
  - unfold reap_terminal. rewrite Ek. unfold remove_resource. by rewrite Ek.
Qed.

Lemma sound_note_use s wire client : Sound s -> Sound (note_resource_use s wire client).
Proof.
  intros Hs. unfold note_resource_use. destruct (terminal_from_wire _ _) as [k|]; [|done].
  apply sound_table; [done|]. intros k' H%tabled_note_use. by left.
Qed.

Lemma sound_clients s c : Sound s -> Sound (up_clients s c).
Proof. intros Hs. by apply (sound_same_ids s); [|apply booked_clients, Hs| |]. Qed.

Lemma sound_detach s client : Sound s -> Sound (detach accepts s client).
Proof.
  intros Hs. destruct (detach_frame s client) as [E1 E2]. apply (sound_same_ids s); [done|apply booked_detach, Hs|done..].
Qed.

End Runs.
