(* ===== verification/MetadataSound.v ===== *)
(** * The metadata handlers and the agent drain preserve soundness

    What [MetadataWrites] and [AgentDrain] do, against the invariant [Sound]. *)

From stdpp Require Import gmap.
From S2P Require Import Prelude Enums Caps Codec Command Frame.
From S2P Require Import RegistrySteps.
From S2P Require Import IdBridge Leases SpawnLedger ResourceTable Metadata SessionTable Agent ClientTable.
From S2P Require Import Window Registry ServerState Lifecycle Booked Watcher Spawn AgentDrain MetadataWrites Sound.
From S2P Require Import Ids.

(** ** The arbiter's marks *)

Definition marked (a : Arbiter) (w : ResourceId) : Prop :=
  w ∈ declared a \/ w ∈ detector_owned a \/ w ∈ explicit_identity a \/ w ∈ explicit_kind a.

Lemma marked_mark b t (X : gset ResourceId) w : w ∈ mark b t X -> w ∈ X \/ w = t.
Proof. unfold mark. destruct b; set_solver. Qed.
Lemma marked_explicit_set decode a t v w : marked (note_explicit_set decode a t v) w -> marked a w \/ w = t.
Proof.
  unfold marked, note_explicit_set. cbn. intros [H|[H|[H|H]]]; [apply marked_mark in H| |apply marked_mark in H..]; set_solver.
Qed.
Lemma marked_explicit_delete a t w : marked (note_explicit_delete a t) w -> marked a w.
Proof. unfold marked, note_explicit_delete. cbn. set_solver. Qed.
Lemma marked_withdrawn a t w : marked (note_declaration_withdrawn a t) w -> marked a w.
Proof. unfold marked, note_declaration_withdrawn. cbn. set_solver. Qed.
Lemma marked_retract a t w : marked (note_detector_retract a t) w -> marked a w.
Proof. unfold marked, note_detector_retract. cbn. set_solver. Qed.
Lemma marked_write a t w : marked (note_detector_write a t) w -> marked a w \/ w = t.
Proof. unfold marked, note_detector_write. cbn. set_solver. Qed.

Lemma booked_records s a :
  Booked s -> (forall id, marked a (ResourceId_Local id) -> marked (agent_records s) (ResourceId_Local id) \/
     is_Some (terminal_from_wire (idspace s) (ResourceId_Local id))) -> Booked (up_records s a).
Proof.
  intros [] Ha. unfold reg in *. split; unfold reg; st_cbn; auto.
  intros id H. unfold recorded in H. st_cbn. destruct H as [H|H]; [apply bk_record; by left|].
  destruct (Ha id H) as [H'|H']; [apply bk_record; by right|done].
Qed.

Lemma live_resolved s w k : Booked s -> terminal_from_wire (idspace s) w = Some k -> live_resource s k.
Proof.
  intros Hs H. apply (bk_resource s Hs). right. left. exists w. by apply (ok_inverse _ (bk_terminals s Hs)).
Qed.

Section Handlers.
Context (accepts : Sender -> FrameKind -> bool).

(** ** The store *)

Lemma sound_records s a :
  Sound s -> (forall id, marked a (ResourceId_Local id) -> marked (agent_records s) (ResourceId_Local id) \/
     is_Some (terminal_from_wire (idspace s) (ResourceId_Local id))) -> Sound (up_records s a).
Proof. intros Hs Ha. apply (sound_same_ids s); try done. apply booked_records; [apply Hs|done]. Qed.

Lemma sound_set s scope k v : Sound s -> in_scope s scope -> Sound (metadata_set accepts s scope k v).2.
Proof. intros Hs Hin. apply (sound_frames s); [done|by apply booked_set; [apply Hs|]|apply set_frames]. Qed.
Lemma sound_delete s scope k : Sound s -> Sound (metadata_delete accepts s scope k).2.
Proof. intros Hs. apply (sound_frames s); [done|by apply booked_delete, Hs|apply delete_frames]. Qed.
Lemma sound_broadcast s scope k v : Sound s -> Sound (metadata_broadcast accepts s scope k v).2.
Proof.
  intros Hs. unfold metadata_broadcast. destruct (broadcast_sent accepts s scope k (Some v)) as [fs ->].
  by apply (sound_same_ids s); [|apply booked_sent, Hs| |].
Qed.
Lemma sound_sent s fs : Sound s -> Sound (up_sent s fs).
Proof. intros Hs. by apply (sound_same_ids s); [|apply booked_sent, Hs| |]. Qed.
Lemma sound_served s b : Sound s -> Sound (up_served s b).
Proof. intros Hs. by apply (sound_same_ids s); [|apply booked_served, Hs| |]. Qed.

(** A scope whose local id resolves. *)
Lemma in_scope_resolved s w : is_Some (terminal_from_wire (idspace s) w) -> in_scope s (Scope_Resource w).
Proof. intros H id [= ->]. exact H. Qed.

Lemma idspace_set s scope k v : idspace (metadata_set accepts s scope k v).2 = idspace s.
Proof.
  unfold metadata_set. case_bool_decide; [done|]. unfold metadata_broadcast.
  destruct (broadcast_sent accepts s scope k (Some v)) as [fs E].
  destruct (broadcast_metadata_change accepts s scope k (Some v)) as [d s1]. cbn in E. by subst s1.
Qed.

(** ** The drain *)

Section Drained.
Context (decode : bytes -> option AgentRecord) (encode : AgentRecord -> bytes).
Context (to_lowercase : bytes -> bytes) (has_manifest : bytes -> bool) (occupant_json : PaneOccupant -> option bytes).

(** A record written under an id that resolves, and a mark on it. *)
Lemma sound_store s w b a :
  Sound s -> is_Some (terminal_from_wire (idspace s) w) ->
  (forall x, marked a x -> marked (agent_records s) x \/ x = w) ->
  Sound (up_records (store accepts s w b) a).
Proof.
  intros Hs Hw Ha. apply sound_records; [apply sound_set; [done|by apply in_scope_resolved]|].
  intros id [H| <-]%Ha; unfold store; [left; by rewrite records_metadata_set|right; by rewrite idspace_set].
Qed.

Lemma sound_drain s w live e :
  Sound s -> is_Some (terminal_from_wire (idspace s) w) ->
  Sound (drain_event accepts decode encode to_lowercase has_manifest occupant_json s w live e).2.
Proof.
  intros Hs Hw. destruct e as [o|r|k n|ask|]; cbn [drain_event].
  - destruct (occupant_json o); [|done]. apply sound_set; [done|by apply in_scope_resolved].
  - unfold drain_state. destruct (is_declared _ w); [done|].
    match goal with |- context[match ?x with Some _ => _ | None => _ end] => destruct x as [[to b]|] end; [|done]. cbn [snd].
    destruct (own_kind _ && _).
    + apply sound_set; [done|by apply in_scope_resolved].
    + apply sound_store; [done|done|]. rewrite records_store. intros x. apply marked_write.
  - unfold drain_reidentified. destruct (stored s w); [|done]. destruct (is_declared _ w).
    + destruct (withdraw_state _ _ _); [|done]. cbn [snd]. apply sound_store; [done|done|]. rewrite records_store.
      intros x H%marked_withdrawn. by left.
    + cbn [snd]. apply sound_store; [done|done|]. rewrite records_store. intros x. apply marked_write.
  - destruct (drain_ask_sentinel s w ask) as [p s1] eqn:E. cbn [snd]. revert E. unfold drain_ask_sentinel.
    destruct (terminal_from_wire _ w) as [t|] eqn:Et; [|by intros [= _ <-]].
    pose proof (live_resolved s w t (proj1 Hs) Et) as Hl. destruct ask as [q|].
    + pose proof (sound_ask s t Asked_Sentinel q Hs Hl) as H. destruct (report _ _ _ _). by intros [= _ <-].
    + intros [= _ <-]. apply (sound_same_ids s); try done. apply booked_asked; [apply Hs|]. intros k.
      unfold retract. destruct (asked s !! t) as [x|]; [|by left]. case_bool_decide; [|by left].
      intros [y Hy]. cbn in Hy. apply lookup_delete_Some in Hy as [_ Hy]. left. by eexists.
  - unfold drain_retract. destruct (is_declared _ w).
    + destruct (withdraw_state _ _ _); [|done]. cbn [snd]. apply sound_store; [done|done|]. rewrite records_store.
      intros x H%marked_withdrawn. by left.
    + destruct (detector_owns _ w); [|done]. cbn [negb].
      destruct (if has_explicit_identity _ w then _ else None) as [b|]; cbn [snd].
      * apply sound_store; [done|done|]. rewrite records_store. intros x H%marked_retract. by left.
      * apply sound_records; [by apply sound_delete|]. intros id H%marked_retract. by left.
Qed.

End Drained.
(** ** The handlers *)

Context (decode : bytes -> option AgentRecord).
Context (parse_request : bytes -> option SessionCreateRequest) (result_json : SessionCreated -> option bytes).
Context (no_federation : bytes -> ResourceId -> bytes).

Lemma sound_track s client k : Sound s -> Sound (track_session_create_result accepts s client k).
Proof.
  intros Hs. unfold track_session_create_result. destruct (if (_ <=? _)%nat then _ else _) as [evicted keys].
  destruct evicted as [old|]; [apply sound_delete|]; by apply sound_clients.
Qed.
Lemma sound_consume s k : Sound s -> Sound (consume_session_create_result accepts s k).
Proof. intros Hs. unfold consume_session_create_result. by apply sound_clients, sound_delete. Qed.

Lemma sound_subscribe s client scope k tx : Sound s -> Sound (handle_subscribe_metadata accepts no_federation s client scope k tx).
Proof.
  intros Hs. unfold handle_subscribe_metadata. destruct (is_reserved_session_create_result scope k); [done|].
  destruct (negb _); [done|].
  assert (H : Sound (metadata_subscribe s client scope k tx).2).
  { apply (sound_same_ids s); [done|by apply booked_metadata_subscribe, Hs|..]; unfold metadata_subscribe;
      destruct (Metadata.subscribe _ _ _ _) as [[] m]; done. }
  unfold refuse_satellite_metadata_scope. destruct scope as [[id|host id]|g|]; try done.
  destruct (accepts tx _); [by apply sound_sent|done].
Qed.

Lemma in_scope_accepted s scope k v : reject_set_metadata s scope k v = false -> in_scope s scope.
Proof.
  unfold reject_set_metadata. destruct (is_reserved_session_create_result scope k); [done|].
  destruct (is_server_owned_key k); [done|]. intros H id ->. revert H. unfold reject_unknown_local_terminal_scope.
  destruct (terminal_from_wire (idspace s) (ResourceId_Local id)); [by eexists|done].
Qed.

Lemma sound_store_value s scope k v :
  Sound s -> in_scope s scope -> Sound (store_metadata_value accepts decode s scope k v).2.
Proof.
  intros Hs Hin. unfold store_metadata_value. cbn [snd]. apply sound_set; [|by destruct scope; [case_bool_decide|..]].
  destruct scope as [w|g|]; try done. case_bool_decide; [|done]. apply sound_records; [done|].
  intros id [H1|Hw]%marked_explicit_set; [by left|right; apply Hin; by rewrite Hw].
Qed.

Lemma sound_delete_metadata s scope k : Sound s -> Sound (handle_delete_metadata accepts s scope k).2.
Proof.
  intros Hs. unfold handle_delete_metadata. destruct (is_reserved_session_create_result scope k); [done|].
  destruct (is_server_owned_key k); [done|]. cbn [snd]. apply sound_delete. destruct scope as [w|g|]; try done.
  case_bool_decide; [|done]. apply sound_records; [done|]. intros id H1%marked_explicit_delete. by left.
Qed.

Lemma sound_session_rename s scope k v : Sound s -> Sound (apply_session_rename accepts s scope k v).
Proof.
  intros Hs. unfold apply_session_rename. destruct (split_text v) as [[c n]|]; [|done].
  pose proof (sound_rename s c n Hs) as H. destruct (rename (sessions s) c n) as [o t]. cbn [snd] in H.
  destruct o; try done. destruct (negb _); [by apply sound_broadcast|done].
Qed.

Lemma sound_session_keep_empty s scope k v root : Sound s -> Sound (apply_session_keep_empty accepts s scope k v root).2.
Proof.
  intros Hs. unfold apply_session_keep_empty. destruct (decode_session_keep_empty v) as [[n keep]|]; [|done].
  pose proof (sound_keep_empty s n keep Hs) as H. destruct (set_session_keep_empty s n keep) as [o s1]. cbn [snd] in *.
  destruct o; try done; by apply sound_broadcast.
Qed.

(** Keys no entity has yet. *)
Definition fresh_seeding (s : ServerState) (sd : Seeding) : Prop :=
  reg_sessions (reg s) !! sd_session sd = None /\ reg_windows (reg s) !! sd_window sd = None /\
  reg_resources (reg s) !! sd_pane sd = None.

(** A pane that was just made and may have no id yet. *)
Lemma sound_finish_new s r k built b s' :
  Sound s -> adds (reg s) r k -> finish_spawn accepts (on_registry s r) k built = Some (b, s') -> Sound s'.
Proof.
  intros Hs Ha. destruct built as [[h tok]|].
  - intros E. assert (Hi : exists w s1, intern_terminal_wire (on_registry s r) k = Some (w, s1) /\ finish_spawn accepts s1 k (Some (h, tok)) = Some (b, s')).
    { revert E. unfold finish_spawn, register_resource_handle. destruct (intern_terminal _ k) as [[w ids]|] eqn:Ei; [|done].
      assert (Ew : intern_terminal_wire (on_registry s r) k = Some (w, up_idspace (on_registry s r) ids))
        by (unfold intern_terminal_wire; by rewrite Ei).
      intros E. exists w, (up_idspace (on_registry s r) ids). split; [done|].
      pose proof (intern_known _ k w (intern_wire _ _ _ _ Ew)) as Ek. unfold intern_terminal_wire in Ek.
      destruct (intern_terminal (idspace (up_idspace (on_registry s r) ids)) k) as [[w' ids']|]; [|done].
      injection Ek as -> Ek. cbn in E |- *.
      subst ids'. exact E. }
    destruct Hi as (w & s1 & Ei & E1). eapply sound_finish; [|exact E1]. by eapply made_intern.
  - cbn. intros [= <- <-]. destruct Hs as [Hs Hw]. pose proof (booked_grows s r Hs (ad_grows _ _ _ Ha)) as H1.
    assert (Hl : live_resource (on_registry s r) k) by (apply (ad_live _ _ _ Ha); by right).
    destruct (reap_leaf accepts _ k H1 (adds_leaf _ _ _ Ha) Hl) as [H2 H3]. split; [done|].
    intros k' [d Hd]. apply H3 in Hd as [Hd Hne]. assert (live_resource s k') as [w Ew]%Hw.
    { destruct (proj1 (ad_live _ _ _ Ha k') (mk_is_Some _ _ Hd)); done. }
    exists w. apply (kp_wire _ _ _ (reap_keeps accepts (on_registry s r) k)); [|done]. by intros ->%list_elem_of_singleton.
Qed.

Lemma sound_seed_actor s n now sid wid pid a built b s' :
  Sound s -> reg_sessions (reg s) !! sid = None -> reg_windows (reg s) !! wid = None -> reg_resources (reg s) !! pid = None ->
  seed_session_with_actor accepts s n now sid wid pid a built = Some (b, s') -> Sound s' /\ (b = true -> live_resource s' pid).
Proof.
  intros Hs H1 H2 H3. unfold seed_session_with_actor. destruct (seed _ _ _ _ _ _) as [t|] eqn:E; [|done]. cbn [mbind option_bind].
  apply adds_seed in E as (r & -> & Ha); [|by apply (bk_registry s), Hs|done..].
  change (up_sessions s (with_registry (sessions s) r)) with (on_registry s r).
  destruct a as [v|]; cbn [mbind option_bind].
  - destruct (intern_terminal_wire _ pid) as [[w s1]|] eqn:Ei; [|done]. cbn [mbind option_bind].
    assert (Hm : Made (tag_agent_session accepts s1 w (Some v)) pid) by (apply made_tag; [by eapply made_intern|by eapply intern_wire]).
    intros Ef. split; [by eapply sound_finish|]. intros ->. eapply finish_live; [exact Ef|apply (md_live _ _ Hm)].
  - intros Ef. split; [by eapply sound_finish_new|]. intros ->. eapply finish_live; [exact Ef|]. apply (ad_live _ _ _ Ha). by right.
Qed.

(** The id of a resource that is live is there already. *)
Lemma sound_intern_live s k w s' : Sound s -> live_resource s k -> intern_terminal_wire s k = Some (w, s') -> Sound s'.
Proof. intros [Hs Hw] Hk E. destruct (Hw k Hk) as [w' Ew]. rewrite (intern_known _ _ _ Ew) in E. by simplify_eq. Qed.
Lemma sound_intern_session s n o s' : Sound s -> intern_session_named s n = Some (o, s') -> Sound s'.
Proof.
  intros Hs. unfold intern_session_named, find_by_name.
  destruct (List.find _ _) as [[id x]|] eqn:Ef; cbn [fmap option_fmap option_map fst]; [|by intros [= _ <-]].
  apply List.find_some in Ef as [Hin _]. apply list_elem_of_In, elem_of_map_to_list in Hin.
  unfold intern_session. destruct (intern (IdBridge.sessions (idspace s)) id) as [[w b]|] eqn:Ei; [|done].
  cbn. intros [= _ <-]. destruct Hs as [Hs Hw]. split; [|exact Hw]. destruct Hs. split; unfold reg in *; st_cbn; cbn; auto.
  - by eapply intern_ok.
  - intros id' H. unfold booked_session in H. cbn in H. destruct H as [H|H]; [|apply bk_session; by right].
    apply (intern_forward _ _ _ _ _ Ei) in H as [H| ->]; [apply bk_session; by left|by eexists].
Qed.

Lemma sound_named s n a sd o s' :
  Sound s -> fresh_seeding s sd -> create_named_session accepts s n a sd = Some (o, s') -> Sound s'.
Proof.
  intros Hs (H1 & H2 & H3). unfold create_named_session. destruct (by_name (sessions s) n); [by intros [= _ <-]|].
  destruct (if sd_with_pty sd then _ else _) as [[ok s1]|] eqn:E; [|done]. cbn [mbind option_bind].
  assert (Hs1 : Sound s1 /\ (ok = true -> live_resource s1 (sd_pane sd))).
  { destruct (sd_with_pty sd); [|by eapply sound_seed_actor].
    destruct (made_seed_pty _ _ _ _ _ _ _ _ _ _ _ _ Hs H1 H2 H3 E) as (s2 & Hm & Hf). split; [by eapply sound_finish|].
    intros ->. eapply finish_live; [exact Hf|apply (md_live _ _ Hm)]. }
  destruct Hs1 as [Hs1 Hl]. destruct ok; [|by intros [= _ <-]].
  destruct (intern_terminal_wire (up_served s1 true) (sd_pane sd)) as [[w s2]|] eqn:Ei; [|done].
  cbn. intros [= _ <-]. eapply sound_intern_live; [by apply sound_served|by apply Hl|exact Ei].
Qed.

Lemma sound_run_create s r sd o s' :
  Sound s -> fresh_seeding s sd -> run_session_create accepts s r sd = Some (o, s') -> Sound s'.
Proof.
  intros Hs Hf. unfold run_session_create. destruct (rq_empty r).
  - unfold create_empty_session. destruct (by_name (sessions s) (rq_name r)); intros [= _ <-]; [done|].
    by apply sound_served, sound_seed_empty; [|apply Hf].
  - destruct (create_named_session accepts s (rq_name r) (rq_agent_session r) sd) as [[made s1]|] eqn:E; [|done].
    cbn [mbind option_bind]. apply sound_named in E; [|done..].
    destruct made; intros [= _ <-]; [|done]. destruct (rq_keep_empty r); [by apply sound_keep_empty|done].
Qed.

Lemma sound_create s client v sd s' :
  Sound s -> fresh_seeding s sd ->
  handle_session_create_metadata accepts parse_request result_json s client v sd = Some s' -> Sound s'.
Proof.
  intros Hs Hf. unfold handle_session_create_metadata. destruct (parse_request v) as [r|]; [|by intros [= <-]].
  destruct (has_some _); [by intros [= <-]|]. cbv zeta. destruct (_ && _); [by intros [= <-]|].
  destruct (run_session_create accepts s r sd) as [[o s1]|] eqn:E; [|done]. cbn [mbind option_bind].
  apply sound_run_create in E; [|done..]. destruct o as [w|]; [|by intros [= <-]].
  destruct (intern_session_named s1 (rq_name r)) as [[id s2]|] eqn:Ei; [|done]. cbn [mbind option_bind].
  apply sound_intern_session in Ei; [|done]. intros [= <-]. unfold publish_session_create_result.
  destruct (result_json _); [|done]. cbv zeta.
  assert (Hp := sound_set s2 Scope_Global (session_create_result_key (rq_request_token r)) l Ei (fun _ H => ltac:(discriminate H))).
  destruct (has_some _); [by apply sound_track|done].
Qed.

Lemma sound_set_metadata s client scope k v root sd a s' :
  Sound s -> fresh_seeding s sd ->
  handle_set_metadata accepts decode parse_request result_json s client scope k v root sd = Some (a, s') -> Sound s'.
Proof.
  intros Hs Hf. unfold handle_set_metadata. destruct (reject_set_metadata s scope k v) eqn:Er; [by intros [= _ <-]|].
  apply in_scope_accepted in Er. cbv zeta. destruct (_ && _).
  { destruct (handle_session_create_metadata _ _ _ s client v sd) as [s1|] eqn:E; [|done]. cbn. intros [= _ <-]. by eapply sound_create. }
  destruct (_ && _); [intros [= _ <-]; by apply sound_session_rename|].
  destruct (_ && _); intros [= E]; [|].
  - pose proof (sound_session_keep_empty s scope k v root Hs) as H. by rewrite E in H.
  - pose proof (sound_store_value s scope k v Hs Er) as H. unfold store_metadata_value in H. cbn [snd] in H. by simplify_eq.
Qed.

End Handlers.
