(* ===== verification/ServerSteps.v ===== *)
(** * Runs of the server

    The state changes of a running server as a step relation, those it takes without a look marked as lapses; the
    invariant of every state that is reached without a lapse, what the exit watcher does to such a state, and what
    each lapse breaks. *)

From stdpp Require Import gmap.
From S2P Require Import Prelude Enums Caps Codec Command Frame.
From S2P Require Import RegistrySteps.
From S2P Require Import IdBridge Leases SpawnLedger ResourceTable Metadata SessionTable Agent ClientTable.
From S2P Require Import Window Registry ServerState Lifecycle Booked Watcher Spawn AgentDrain MetadataWrites Sound MetadataSound.
From S2P Require Import Ids.

(** What the server is given from outside: which mailboxes have room, the texts and the JSON it
    does not print itself, and the detector's rules. *)
Record Outside : Type := mkOutside {
  o_accepts : Sender -> FrameKind -> bool;
  o_error_text : RegistryError -> bytes;
  o_decode : bytes -> option AgentRecord;
  o_encode : AgentRecord -> bytes;
  o_to_lowercase : bytes -> bytes;
  o_has_manifest : bytes -> bool;
  o_occupant_json : PaneOccupant -> option bytes;
  o_parse_request : bytes -> option SessionCreateRequest;
  o_result_json : SessionCreated -> option bytes;
  o_no_federation : bytes -> ResourceId -> bytes
}.

Section Runs.
Context (O : Outside).

(** How a step was taken. A lapse is one that the code takes without a look at the state it finds, because it waits between the look
    and the step, or forgets a part of the work: an output pump or a question that is entered for a resource that has gone while its
    task waited ([commands.rs:1511], [resource_commands.rs:350]), a pane reaped without the sessions bound to it ([attach.rs:2449],
    [attach.rs:2509]), a detector's report that is written after its pane has gone ([client.rs:450]). *)
Inductive Conduct : Type := Orderly | Lapse.
Definition lapse_unless (P : Prop) `{!Decision P} : Conduct := if decide P then Orderly else Lapse.
#[local] Instance live_dec s k : Decision (live_resource s k).
Proof. unfold live_resource. apply _. Defined.

(** The state changes of a running server. A creation is given keys that are free; a write
    to a ledger names an entity that is live, which its caller has looked up under the same lock,
    unless it is marked as a lapse; what an operation answers is dropped. *)
Inductive server_step (s : ServerState) : Conduct -> ServerState -> Prop :=
| st_seed n now sid wid pid cwd a built b s' :
    reg_sessions (reg s) !! sid = None -> reg_windows (reg s) !! wid = None -> reg_resources (reg s) !! pid = None ->
    seed_session_with_pty (o_accepts O) s n now sid wid pid cwd a built = Some (b, s') -> server_step s Orderly s'
| st_seed_empty n now sid :
    reg_sessions (reg s) !! sid = None -> server_step s Orderly (up_sessions s (seed_empty (sessions s) n now sid))
| st_spawn o wid pid cwd a size built b s' :
    reg_windows (reg s) !! wid = None -> reg_resources (reg s) !! pid = None ->
    spawn_pane_with_pty (o_accepts O) s o wid pid cwd a size built = Some (b, s') -> server_step s Orderly s'
| st_agent client p core prov nid h tok tx b s' :
    reg_resources (reg s) !! core = None -> open_agent_session s client p core prov nid h tok tx = Some (b, s') -> server_step s Orderly s'
| st_move t o b s' : move_resource (o_accepts O) (o_error_text O) s t o = (b, s') -> server_step s Orderly s'
| st_close targets reason : server_step s Orderly (close_resources s targets reason).2
| st_kill_if wire p s' : kill_resource_if s wire p = Ok s' -> server_step s Orderly s'
| st_watch k r s' : reap_and_notify (o_accepts O) s k = Some (r, s') -> server_step s Orderly s'
| st_release targets : server_step s Orderly (release_keep_empty_covered_by s targets).2
| st_touch id : is_Some (reg_sessions (reg s) !! id) -> server_step s Orderly (up_sessions s (touch (sessions s) id))
| st_root id p : is_Some (reg_sessions (reg s) !! id) -> server_step s Orderly (up_sessions s (record_root (sessions s) id p).2)
| st_cwd w p : is_Some (reg_windows (reg s) !! w) -> server_step s Orderly (up_sessions s (record_last_cwd (sessions s) w p))
| st_attach client n tx caps profile limits id s' :
    attach s client n tx caps profile limits = Ok (id, s') -> server_step s Orderly s'
| st_detach client : server_step s Orderly (detach (o_accepts O) s client)
| st_forget client : server_step s Orderly (forget_connection (o_accepts O) s client)
| st_subscribe client k mb : live_resource s k -> server_step s Orderly (subscribe_terminal s client k mb)
| st_unsubscribe client k : server_step s Orderly (unsubscribe_terminal s client k)
| st_provenance k client : live_resource s k -> server_step s Orderly (ServerState.record_spawn s k client)
| st_use wire client : server_step s Orderly (note_resource_use s wire client)
| st_set client scope k v root sd a s' :
    fresh_seeding s sd ->
    handle_set_metadata (o_accepts O) (o_decode O) (o_parse_request O) (o_result_json O) s client scope k v root sd = Some (a, s') ->
    server_step s Orderly s'
| st_delete scope k : server_step s Orderly (handle_delete_metadata (o_accepts O) s scope k).2
| st_watch_key client scope k tx : server_step s Orderly (handle_subscribe_metadata (o_accepts O) (o_no_federation O) s client scope k tx)
| st_consume k :
    is_reserved_session_create_result Scope_Global k = true -> server_step s Orderly (consume_session_create_result (o_accepts O) s k)
| st_facet k word : server_step s Orderly (on_registry s (set_facet_state (reg s) k word))
| st_pump client k id cancel done seq :
    server_step s (lapse_unless (live_resource s k)) (up_resources s (replace_pump (resources s) client k id cancel done seq).2)
| st_track client k abort done :
    server_step s (lapse_unless (live_resource s k)) (up_resources s (track_output_pump (resources s) client k abort done))
| st_stop_pumps client k : server_step s Orderly (up_resources s (stop_output_pumps (resources s) client k).2)
| st_cancel_pump client k : server_step s Orderly (up_resources s (cancel_pump (resources s) client k))
| st_next_bootstrap client : server_step s Orderly (up_resources s (next_bootstrap_id (resources s) client).2)
| st_reap k : server_step s (lapse_unless (children (reg s) k = [])) (reap_terminal (o_accepts O) s k).2
| st_intern k w s' : intern_terminal_wire s k = Some (w, s') -> server_step s (lapse_unless (live_resource s k)) s'
| st_detect w live e :
    server_step s (lapse_unless (is_Some (terminal_from_wire (idspace s) w))) (drain_event (o_accepts O) (o_decode O) (o_encode O) (o_to_lowercase O) (o_has_manifest O) (o_occupant_json O) s w live e).2
| st_retract k src : server_step s Orderly (up_asked s (retract (asked s) k src).2)
| st_ask k src p : server_step s (lapse_unless (live_resource s k)) (up_asked s (report (asked s) k src p).2).

(** What a server can become: by orderly steps only, or by any. *)
Inductive server_run (c : Conduct) : ServerState -> Prop :=
| run_start token : server_run c (server_new token)
| run_step s d s' : server_run c s -> server_step s d s' -> (c = Orderly -> d = Orderly) -> server_run c s'.

Lemma orderly_spec P `{!Decision P} : lapse_unless P = Orderly -> P.
Proof. unfold lapse_unless. by destruct (decide P). Qed.

Lemma sound_step s d s' : Sound s -> server_step s d s' -> d = Orderly -> Sound s'.
Proof.
  intros Hs Hst Hd. assert (Hb : Booked s) by apply Hs. destruct Hst; try apply orderly_spec in Hd.
  - by eapply sound_seed_pty.
  - by apply sound_seed_empty.
  - by eapply sound_spawn_pane.
  - by eapply sound_agent.
  - by eapply sound_move.
  - by apply sound_close.
  - unfold kill_resource_if in *. destruct (admit_conditional_kill s wire p) as [k|]; [|done]. simplify_eq. exact (sound_close s [k] CloseReason_Killed Hs).
  - by eapply sound_watcher.
  - by apply sound_release.
  - apply sound_sessions; [done|done|by left|]. intros k [H'|H']; [cbn in H'|by left; right; right].
    apply lookup_insert_is_Some' in H' as [<-|H']; [by right|by left; right; left].
  - apply sound_sessions; [done|unfold record_root; by destruct (roots _ !! _)|unfold record_root; destruct (roots _ !! _); by left|].
    unfold record_root. destruct (roots (sessions s) !! id) eqn:E; intros k H'; [by left; right|].
    destruct H' as [H'|[H'|H']]; [left; by right; left| |left; by right; right; right]. cbn in H'.
    apply lookup_insert_is_Some' in H' as [<-|H']; [by right|left; by right; right; left].
  - apply sound_sessions; [done|done| |by left; right]. intros k H'. cbn in H'.
    apply lookup_insert_is_Some' in H' as [<-|H']; [by right|by left].
  - destruct (attach_frame _ _ _ _ _ _ _ _ _ H) as [E1 E2]. apply (sound_same_ids s); try done. by eapply booked_attach.
  - by apply sound_detach.
  - pose proof (sound_detach (o_accepts O) s client Hs) as Hd'. unfold forget_connection. revert Hd'. generalize (detach (o_accepts O) s client).
    intros s1 Hd'. cbv zeta. apply sound_clients, sound_clients, Hd'.
  - unfold subscribe_terminal. destruct mb as [tx|].
    + apply (sound_table (up_clients s _)); [by apply (sound_same_ids s); try done; apply booked_clients|].
      intros k' [H'| ->]%tabled_subscribe; [by left|by right].
    + apply sound_table; [done|]. intros k' [H'| ->]%tabled_subscribe; [by left|by right].
  - apply sound_table; [done|]. intros k' H'%tabled_unsubscribe. by left.
  - apply sound_table; [done|]. intros k' [H'| ->]%tabled_record_spawn; [by left|by right].
  - by apply sound_note_use.
  - by eapply sound_set_metadata.
  - by apply sound_delete_metadata.
  - by apply sound_subscribe.
  - by apply sound_consume.
  - by apply sound_facet.
  - apply sound_table; [done|]. intros k' [H'| ->]%tabled_replace_pump; [by left|by right].
  - apply sound_table; [done|]. intros k' [H'| ->]%tabled_track; [by left|by right].
  - apply sound_table; [done|]. intros k' H'%tabled_stop. by left.
  - apply sound_table; [done|]. intros k' H'%tabled_cancel_pump. by left.
  - apply sound_table; [done|]. intros k' H'%tabled_next. by left.
  - by apply sound_reap.
  - destruct Hs as [_ Hw]. destruct (Hw k Hd) as [w' Ew]. rewrite (intern_known s k w' Ew) in H. by simplify_eq.
  - by apply sound_drain.
  - by apply sound_retract.
  - by apply sound_ask.
Qed.

Lemma sound_run s : server_run Orderly s -> Sound s.
Proof.
  induction 1 as [token|s d s' _ IH Hs Hd]; [|eapply sound_step; [exact IH|exact Hs|by apply Hd]]. split; [apply booked_new|].
  intros k [d H]. unfold reg in H. cbn in H. by rewrite lookup_empty in H.
Qed.
End Runs.

(** ** A small server *)

Definition take_all (tx : Sender) (f : FrameKind) : bool := true.
Definition no_text (e : RegistryError) : bytes := [].
Definition plain_world : Outside :=
  mkOutside take_all no_text plain_decode plain_encode (fun k => k) (fun _ => true) no_occupant (fun _ => None) (fun _ => None) (fun _ _ => []).
Definition or_stuck {A} (o : option (A * ServerState)) (s : ServerState) : ServerState := match o with Some (_, s) => s | None => s end.

(** One session with one pane, and an agent session inside the pane. *)
Definition demo_pane : ServerState :=
  or_stuck (seed_session_with_pty take_all (server_new []) (str "main") 0 1%positive 1%positive 1%positive None None
    (Some (mkHandle Kind_Terminal 1%positive, 1%positive))) (server_new []).
Definition demo_server : ServerState :=
  or_stuck (open_agent_session demo_pane 7 1%positive 2%positive (str "claude") None (mkHandle Kind_AgentSession 2%positive) 2%positive 9) demo_pane.

Lemma demo_server_run c : server_run plain_world c demo_server.
Proof.
  eapply run_step; [eapply run_step; [apply (run_start _ _ [])| |done]| |done].
  - eapply (st_seed _ _ (str "main") 0 1%positive 1%positive 1%positive None None (Some (mkHandle Kind_Terminal 1%positive, 1%positive)) true demo_pane);
      vm_compute; reflexivity.
  - eapply (st_agent _ _ 7 1%positive 2%positive (str "claude") None (mkHandle Kind_AgentSession 2%positive) 2%positive 9 _ demo_server);
      vm_compute; reflexivity.
Qed.

(** ** Properties *)

(** A client attached to the pane's output. *)
Definition demo_watched : ServerState := up_resources demo_server (replace_pump (resources demo_server) 7 1%positive 1 11%positive 12%positive 13%positive).2.
Lemma demo_watched_run c : server_run plain_world c demo_watched.
Proof.
  eapply run_step; [apply demo_server_run|apply (st_pump _ demo_server 7 1%positive 1 11%positive 12%positive 13%positive)|].
  intros _. vm_compute. reflexivity.
Qed.





(** A pane reaped without the cascade, as the output pump of a spawning client does when it loses
    its generation: the registry drops the agent session with the pane, but its handle and its
    wire id stay, and its own watcher finds nothing to close. *)
Theorem uncascaded_reap_strands_child :
  let s := (reap_terminal take_all demo_server 1%positive).2 in
  reg_resources (reg s) !! 2%positive = None /\
  terminal_from_wire (idspace s) (ResourceId_Local 2) = Some 2%positive /\
  ResourceTable.handle (resources s) 2%positive = Some (mkHandle Kind_AgentSession 2%positive) /\
  reap_and_notify take_all s 2%positive = Some (None, s).
Proof. vm_compute. auto. Qed.

(** A pump that is installed by a task which waited while its pane was reaped is on the books of a pane that is gone. *)
Theorem late_pump_outlives_pane :
  let s := or_stuck (reap_and_notify take_all demo_server 1%positive) demo_server in
  let s' := up_resources s (replace_pump (resources s) 7 1%positive 1 11%positive 12%positive 13%positive).2 in
  reg_resources (reg s') !! 1%positive = None /\ is_Some (pumps (resources s') !! (7, 1%positive)).
Proof. vm_compute. split; [reflexivity|by eexists]. Qed.
(** A report that is still in the channel when its pane is reaped is written all the same: the
    record of an agent stays in the store under an id that names nothing. *)
Theorem late_report_outlives_pane :
  let s := or_stuck (reap_and_notify take_all demo_server 1%positive) demo_server in
  let s' := (drain_event take_all plain_decode plain_encode (fun k => k) (fun _ => true) no_occupant s (ResourceId_Local 1) false working).2 in
  terminal_from_wire (idspace s) (ResourceId_Local 1) = None /\ stored s (ResourceId_Local 1) = None /\
  stored s' (ResourceId_Local 1) ≫= plain_decode = Some (mkAgentRecord (str "codex") (Some (str "codex")) (str "working") None None).
Proof. vm_compute. auto. Qed.
