(* ===== verification/OneShot.v ===== *)
(** * The result of a creation is its creator's, once

    A client that creates a session without attaching reads the answer under a key only it knows.
    The store is shared, so what keeps the answer private is spread over the handlers: nobody can
    subscribe to such a key, write it, delete it, list it, or read another's. *)

From stdpp Require Import gmap.
From S2P Require Import Prelude Enums Caps Codec Command Frame.
From S2P Require Import RegistrySteps.
From S2P Require Import IdBridge Leases SpawnLedger ResourceTable Metadata SessionTable Agent ClientTable.
From S2P Require Import Window Registry ServerState Lifecycle Booked Watcher Spawn AgentDrain MetadataWrites Sound MetadataSound ServerSteps.
From S2P Require Import Ids.

Abbreviation reserved := is_reserved_session_create_result.

(** Frames that say nothing about a reserved key. *)
Definition discreet (fs : list (Sender * FrameKind)) : Prop :=
  forall tx scope k v, (tx, FrameKind_MetadataChanged scope k v) ∈ fs -> reserved scope k = false.

(** Nothing reserved is touched, nobody new listens, and no frame is about a reserved key. *)
Record quiet (s s' : ServerState) : Prop := {
  qt_subscriptions c scope k : (c, scope, k) ∈ subscriptions (metadata s') -> (c, scope, k) ∈ subscriptions (metadata s);
  qt_get scope k : reserved scope k = true -> get (metadata s') scope k = get (metadata s) scope k;
  qt_results : session_create_results (clients s') = session_create_results (clients s);
  qt_sent : exists fs, sent s' = sent s ++ fs /\ discreet fs
}.

Lemma discreet_nil : discreet [].
Proof. by intros tx scope k v H%not_elem_of_nil. Qed.

Lemma quiet_same s s' :
  metadata s' = metadata s -> session_create_results (clients s') = session_create_results (clients s) -> sent s' = sent s ->
  quiet s s'.
Proof.
  intros E1 E2 E3. split; [by rewrite E1|by rewrite E1|done|]. exists []. by rewrite app_nil_r; split; [|apply discreet_nil].
Qed.
Lemma quiet_refl s : quiet s s.
Proof. by apply quiet_same. Qed.
Lemma quiet_trans s1 s2 s3 : quiet s1 s2 -> quiet s2 s3 -> quiet s1 s3.
Proof.
  intros [A1 A2 A3 (f1 & E1 & D1)] [B1 B2 B3 (f2 & E2 & D2)]. split.
  - auto.
  - intros scope k H. by rewrite B2, A2.
  - congruence.
  - exists (f1 ++ f2). split; [by rewrite E2, E1, app_assoc|]. intros tx scope k v [H|H]%elem_of_app; [by eapply D1|by eapply D2].
Qed.

Ltac quiet_chain := first [eassumption | apply quiet_refl | eapply quiet_trans; [eassumption|quiet_chain]].

Section Quiet.
Context (accepts : Sender -> FrameKind -> bool).

Lemma broadcast_frames t subs scope k v : 
  forall tx f, (tx, f) ∈ (broadcast_metadata_changed accepts t subs scope k v).2 -> f = FrameKind_MetadataChanged scope k v.
Proof.
  induction subs as [|c cs IH]; cbn; intros tx f; [by intros H%not_elem_of_nil|].
  destruct (broadcast_metadata_changed _ _ cs _ _ _) as [d fs]. cbn in IH. destruct (negb _); [by apply IH|].
  destruct (match attached t !! c with Some _ => _ | None => _ end) as [x|]; [|by apply IH].
  destruct (accepts x _); cbn; [|by apply IH]. intros [[= _ ->]|H]%elem_of_cons; [done|by eapply IH].
Qed.

Lemma quiet_broadcast s scope k v : reserved scope k = false -> quiet s (broadcast_metadata_change accepts s scope k v).2.
Proof.
  intros Hk. unfold broadcast_metadata_change.
  pose proof (broadcast_frames (clients s) (Metadata.subscribers_for (metadata s) scope k) scope k v) as H.
  destruct (broadcast_metadata_changed _ _ _ _ _ _) as [d fs]. cbn in *. split; try done. exists fs. split; [done|].
  intros tx scope' k' v' [= -> -> ->]%H. done.
Qed.

Lemma quiet_metadata s m :
  (forall c scope k, (c, scope, k) ∈ subscriptions m -> (c, scope, k) ∈ subscriptions (metadata s)) ->
  (forall scope k, reserved scope k = true -> get m scope k = get (metadata s) scope k) -> quiet s (up_metadata s m).
Proof. intros H1 H2. split; [done|done|done|]. exists []. by rewrite app_nil_r; split; [|apply discreet_nil]. Qed.

Lemma update_reserved f scope k v scope' k' :
  reserved scope k = false -> reserved scope' k' = true -> update f scope k v scope' k' = f scope' k'.
Proof. intros H H'. unfold update. case_bool_decide as E; [|done]. destruct E as [-> ->]. congruence. Qed.

Lemma quiet_delete s scope k : reserved scope k = false -> quiet s (metadata_delete accepts s scope k).2.
Proof.
  intros Hk. unfold metadata_delete. pose proof (subscriptions_delete (metadata s) scope k) as Hs.
  pose proof (get_delete (metadata s) scope k) as Hg. destruct (delete_key (metadata s) scope k) as [e m]. cbn in Hs, Hg.
  assert (H : quiet s (up_metadata s m)).
  { apply quiet_metadata; [by rewrite Hs|]. intros scope' k' H'. rewrite Hg. by apply update_reserved. }
  destruct e; cbn [negb]; [|done]. eapply quiet_trans; [exact H|by apply quiet_broadcast].
Qed.

Lemma quiet_set s scope k v : reserved scope k = false -> quiet s (metadata_set accepts s scope k v).2.
Proof.
  intros Hk. unfold metadata_set. case_bool_decide as E0; [apply quiet_refl|]. unfold metadata_broadcast.
  pose proof (quiet_broadcast s scope k (Some v) Hk) as Hb. destruct (broadcast_sent accepts s scope k (Some v)) as [fs E].
  destruct (broadcast_metadata_change accepts s scope k (Some v)) as [d s1]. cbn in Hb, E. cbn [snd].
  eapply quiet_trans; [exact Hb|]. subst s1. apply quiet_metadata; [by setoid_rewrite subscriptions_set|].
  intros scope' k' H'. rewrite get_set. by apply update_reserved.
Qed.

(** ** Reaping *)

Lemma quiet_forget_terminal s w : quiet s (up_metadata s (forget_terminal (metadata s) w)).
Proof.
  apply quiet_metadata; [cbn; set_solver|]. intros scope k. destruct scope; [done|done|done].
Qed.

Lemma quiet_drop s r k : quiet s (forget_terminal_bookkeeping (up_sessions s (with_registry (sessions s) r)) k).
Proof.
  unfold forget_terminal_bookkeeping, forget_close_reason, retire_terminal. st_cbn.
  destruct (forget (terminals (idspace s)) k) as [[w|] b]; [|by apply quiet_same].
  eapply quiet_trans; [apply (quiet_forget_terminal s w)|by apply quiet_same].
Qed.

Lemma quiet_reap_session s id : quiet s (reap_session_if_empty s id).2.
Proof.
  unfold reap_session_if_empty. destruct (negb _); [apply quiet_refl|].
  destruct (remove_session (reg s) id) as [[y r]|]; by apply quiet_same.
Qed.

Lemma quiet_reap_window s w : quiet s (reap_window_if_empty accepts s w).
Proof.
  unfold reap_window_if_empty. destruct (reg_windows (reg s) !! w) as [win|]; [|apply quiet_refl].
  destruct (negb _); [apply quiet_refl|]. cbv zeta.
  set (s1 := match remove_window (reg s) w with Some _ => _ | None => s end).
  assert (H1 : quiet s s1) by (unfold s1; destruct (remove_window (reg s) w) as [[? ?]|]; by apply quiet_same).
  pose proof (quiet_reap_session s1 (session win)) as H2. destruct (reap_session_if_empty s1 (session win)) as [b s2]. cbn in H2.
  assert (H3 : quiet s s2) by by eapply quiet_trans. destruct b; [done|]. eapply quiet_trans; [exact H3|].
  unfold forget_layout_of_emptied_session. destruct (session_wire _ _); [|apply quiet_refl].
  match goal with |- quiet _ (if ?b then _ else _) => destruct b end; [by apply quiet_delete|apply quiet_refl].
Qed.

Lemma quiet_reap s k : quiet s (reap_terminal accepts s k).2.
Proof.
  unfold reap_terminal. set (s1 := match remove_resource (reg s) k with Some _ => _ | None => s end).
  assert (H1 : quiet s s1) by (unfold s1; destruct (remove_resource (reg s) k) as [[d r]|]; [apply quiet_drop|apply quiet_refl]).
  destruct (reg_resources (reg s) !! k ≫= window) as [w|]; [|exact H1]. eapply quiet_trans; [exact H1|apply quiet_reap_window].
Qed.

Lemma quiet_intern s k w s' : intern_terminal_wire s k = Some (w, s') -> quiet s s'.
Proof. unfold intern_terminal_wire. destruct (intern_terminal _ k) as [[w' ids]|]; [|done]. intros [= _ <-]. by apply quiet_same. Qed.
Lemma quiet_begin s k r s' : begin_resource_close s k = Some (r, s') -> quiet s s'.
Proof. unfold begin_resource_close. destruct (reg_resources (reg s) !! k); [|done]. intros [= _ <-]. by apply quiet_same. Qed.

Lemma quiet_cascade w cs s l s' : cascade accepts s w cs = Some (l, s') -> quiet s s'.
Proof.
  revert s l s'. induction cs as [|c cs IH]; intros s l s'; cbn [cascade]; [intros [= _ <-]; apply quiet_refl|].
  destruct (begin_resource_close s c) as [[r s1]|] eqn:E1; [|apply IH]. apply quiet_begin in E1. cbv zeta.
  destruct (intern_terminal_wire s1 c) as [[w1 s2]|] eqn:E2; [|done]. apply quiet_intern in E2. cbn [mbind option_bind].
  pose proof (quiet_reap s2 c) as E3. destruct (reap_terminal accepts s2 c) as [b s3]. cbn in E3.
  destruct (cascade accepts s3 w cs) as [[m s4]|] eqn:E4; [|done]. apply IH in E4. cbn. intros [= _ <-].
  quiet_chain.
Qed.

Lemma quiet_watcher s k r s' : reap_and_notify accepts s k = Some (r, s') -> quiet s s'.
Proof.
  unfold reap_and_notify. destruct (begin_resource_close s k) as [[x s1]|] eqn:E1; [|intros [= _ <-]; apply quiet_refl].
  apply quiet_begin in E1. destruct (intern_terminal_wire s1 k) as [[w s2]|] eqn:E2; [|done]. apply quiet_intern in E2. cbn [mbind option_bind].
  destruct (match resource_parent s2 k with Some _ => _ | None => _ end) as [[p s3]|] eqn:E3; [|done]. cbn [mbind option_bind].
  assert (H3 : quiet s2 s3).
  { revert E3. destruct (resource_parent s2 k) as [q|]; [|intros [= _ <-]; apply quiet_refl].
    destruct (intern_terminal_wire s2 q) as [[w' s3']|] eqn:E; [|done]. cbn. intros [= _ <-]. by eapply quiet_intern. }
  destruct (cascade accepts s3 w _) as [[l s4]|] eqn:E4; [|done]. apply quiet_cascade in E4. cbn [mbind option_bind].
  pose proof (quiet_reap s4 k) as E5. destruct (reap_terminal accepts s4 k) as [b s5]. cbn in E5.
  unfold take_killed_sessions. destruct (take_killed (sessions s5)). intros [= _ <-].
  eapply (quiet_trans _ s5); [quiet_chain|by apply quiet_same].
Qed.

(** ** Spawning *)

Lemma quiet_finish s k built b s' : finish_spawn accepts s k built = Some (b, s') -> quiet s s'.
Proof.
  unfold finish_spawn. destruct built as [[h tok]|]; [|intros [= _ <-]; apply quiet_reap].
  unfold register_resource_handle. destruct (intern_terminal _ k) as [[w ids]|]; [|done]. cbn. intros [= _ <-]. by apply quiet_same.
Qed.
Lemma quiet_tag s w a : quiet s (tag_agent_session accepts s w a).
Proof. destruct a; [by apply quiet_set|apply quiet_refl]. Qed.
Lemma quiet_stamp s k c : quiet s (stamp_spawn_cwd s k c).
Proof. destruct c; by apply quiet_same. Qed.

Lemma quiet_seed_pty s n now sid wid pid cwd a built b s' :
  seed_session_with_pty accepts s n now sid wid pid cwd a built = Some (b, s') -> quiet s s'.
Proof.
  unfold seed_session_with_pty. destruct (seed _ _ _ _ _ _) as [t|]; [|done]. cbn [mbind option_bind].
  destruct (intern_terminal_wire _ pid) as [[w s1]|] eqn:E; [|done]. apply quiet_intern in E. cbn [mbind option_bind].
  intros H%quiet_finish. eapply quiet_trans; [by apply (quiet_same s (up_sessions s t))|].
  eapply quiet_trans; [apply quiet_stamp|]. eapply quiet_trans; [exact E|]. eapply quiet_trans; [apply quiet_tag|exact H].
Qed.
Lemma quiet_seed_actor s n now sid wid pid a built b s' :
  seed_session_with_actor accepts s n now sid wid pid a built = Some (b, s') -> quiet s s'.
Proof.
  unfold seed_session_with_actor. destruct (seed _ _ _ _ _ _) as [t|]; [|done]. cbn [mbind option_bind].
  destruct (match a with Some _ => _ | None => _ end) as [s1|] eqn:E; [|done]. cbn [mbind option_bind]. intros H%quiet_finish.
  eapply quiet_trans; [by apply (quiet_same s (up_sessions s t))|]. eapply quiet_trans; [|exact H].
  destruct a as [v|]; [|injection E as <-; apply quiet_refl].
  destruct (intern_terminal_wire _ pid) as [[w s2]|] eqn:E2; [|done]. apply quiet_intern in E2. cbn [mbind option_bind] in E. injection E as <-.
  eapply quiet_trans; [exact E2|apply (quiet_tag s2 w (Some v))].
Qed.
Lemma quiet_spawn s o wid pid cwd a size built b s' :
  spawn_pane_with_pty accepts s o wid pid cwd a size built = Some (b, s') -> quiet s s'.
Proof.
  unfold spawn_pane_with_pty. cbv zeta. destruct (match o with Own_Session _ => _ | Own_Terminal _ => _ end) as [k s1] eqn:E.
  assert (H1 : quiet s s1).
  { revert E. unfold add_pane_to_session, add_pane_to_terminal_owner. destruct o.
    - destruct (add_pane _ _ _ _). intros [= _ <-]. by apply quiet_same.
    - destruct (terminal_from_wire _ _); [destruct (add_pane_beside _ _ _)|]; intros [= _ <-]; by apply quiet_same. }
  destruct k as [k|]; [|intros [= _ <-]; exact H1].
  destruct (intern_terminal_wire _ k) as [[w s2]|] eqn:E2; [|done]. apply quiet_intern in E2. cbn [mbind option_bind].
  destruct (finish_spawn _ _ k built) as [[ok s3]|] eqn:E3; [|done]. apply quiet_finish in E3. cbn. intros [= _ <-].
  eapply quiet_trans; [exact H1|]. eapply quiet_trans; [apply (quiet_stamp s1 k cwd)|].
  eapply quiet_trans; [|eapply quiet_trans; [exact E2|eapply quiet_trans; [apply quiet_tag|exact E3]]]. by apply quiet_same.
Qed.
Lemma quiet_agent s client p core prov nid h tok tx b s' :
  open_agent_session s client p core prov nid h tok tx = Some (b, s') -> quiet s s'.
Proof.
  unfold open_agent_session. destruct (new_agent_session _ core p _) as [r|e]; [|intros [= _ <-]; apply quiet_refl].
  unfold register_resource_handle. destruct (intern_terminal _ core) as [[w ids]|]; [|done]. cbn [mbind option_bind].
  destruct (intern_terminal_wire _ core) as [[w' s2]|] eqn:E; [|done]. apply quiet_intern in E. cbn. intros [= _ <-].
  eapply quiet_trans; [|eapply quiet_trans; [exact E|]]; by apply quiet_same.
Qed.

Lemma quiet_move error_text s t o b s' : move_resource accepts error_text s t o = (b, s') -> quiet s s'.
Proof.
  unfold move_resource. destruct t as [t|]; [|intros [= _ <-]; apply quiet_refl]. destruct o as [o|]; [|intros [= _ <-]; apply quiet_refl].
  destruct (terminal_from_wire _ (ResourceId_Local t)) as [m|]; [|intros [= _ <-]; apply quiet_refl].
  destruct (terminal_from_wire _ (ResourceId_Local o)) as [w|]; [|intros [= _ <-]; apply quiet_refl].
  destruct (reg_resources (reg s) !! w ≫= window) as [d|]; [|intros [= _ <-]; apply quiet_refl].
  cbv zeta. destruct (move_terminal (reg s) m d) as [r|e]; [|intros [= _ <-]; apply quiet_refl].
  intros [= _ <-]. eapply quiet_trans; [by apply (quiet_same s (on_registry s r))|].
  destruct (reg_resources (reg s) !! m ≫= window); [apply quiet_reap_window|apply quiet_refl].
Qed.

Lemma quiet_close s targets reason : quiet s (close_resources s targets reason).2.
Proof.
  unfold close_resources. cbn [snd]. generalize (close_children (reg s) (close_targets (reg s) targets reason [])).
  intros l. revert s. induction l as [|[k r] l IH]; intros s; cbn [fold_left]; [apply quiet_refl|].
  eapply quiet_trans; [|apply IH]. unfold close_one, mark_resource_closing. cbn [fst snd].
  by destruct (close_reasons s !! k); apply quiet_same.
Qed.

Lemma quiet_release s targets : quiet s (release_keep_empty_covered_by s targets).2.
Proof.
  unfold release_keep_empty_covered_by.
  match goal with |- quiet _ (fold_left ?f ?cov _).2 => enough (H : forall l names s0, quiet s0 (fold_left f l (names, s0)).2) by apply H end.
  intros l. induction l as [|id l IH]; intros names s0; cbn [fold_left]; [apply quiet_refl|].
  destruct (reg_sessions (reg s0) !! id); cbv zeta; (eapply quiet_trans; [|apply IH]); by apply quiet_same.
Qed.

Lemma quiet_keep_empty s n keep : quiet s (set_session_keep_empty s n keep).2.
Proof.
  unfold set_session_keep_empty. destruct (find_by_name (sessions s) n) as [id|]; [|apply quiet_refl]. cbv zeta.
  match goal with |- context[reap_session_if_empty ?x id] => pose proof (quiet_reap_session x id) as H; destruct (reap_session_if_empty x id) as [b s1] end.
  eapply quiet_trans; [|exact H]. by apply quiet_same.
Qed.

Lemma quiet_drain decode encode to_lowercase has_manifest occupant_json s w live e :
  quiet s (drain_event accepts decode encode to_lowercase has_manifest occupant_json s w live e).2.
Proof.
  assert (Hset : forall b a, quiet s (up_records (store accepts s w b) a)).
  { intros b a. eapply quiet_trans; [by apply (quiet_set s (Scope_Resource w) RESOURCE_AGENT_KEY b)|by apply quiet_same]. }
  destruct e as [o|r|k n|ask|]; cbn [drain_event].
  - destruct (occupant_json o); [by apply quiet_set|apply quiet_refl].
  - unfold drain_state. destruct (is_declared _ w); [apply quiet_refl|].
    match goal with |- context[match ?x with Some _ => _ | None => _ end] => destruct x as [[to b]|] end; [|apply quiet_refl]. cbn [snd].
    destruct (own_kind _ && _); [by apply quiet_set|apply Hset].
  - unfold drain_reidentified. destruct (stored s w); [|apply quiet_refl]. destruct (is_declared _ w); [|apply Hset].
    destruct (withdraw_state _ _ _); [apply Hset|apply quiet_refl].
  - destruct (drain_ask_sentinel s w ask) as [p s1] eqn:E. revert E. unfold drain_ask_sentinel.
    destruct (terminal_from_wire _ w); [|intros [= _ <-]; apply quiet_refl].
    destruct ask; [destruct (report _ _ _ _)|]; intros [= _ <-]; by apply quiet_same.
  - unfold drain_retract. destruct (is_declared _ w).
    + destruct (withdraw_state _ _ _); [apply Hset|apply quiet_refl].
    + destruct (negb _); [apply quiet_refl|]. destruct (if has_explicit_identity _ w then _ else None); [apply Hset|].
      eapply quiet_trans; [by apply (quiet_delete s (Scope_Resource w) RESOURCE_AGENT_KEY)|by apply quiet_same].
Qed.

Lemma quiet_attach s client n tx caps profile limits id s' :
  attach s client n tx caps profile limits = Ok (id, s') -> quiet s s'.
Proof.
  unfold attach. destruct (find_by_name (sessions s) n) as [x|]; [|done].
  destruct (attached (clients s) !! client) as [c|]; [destruct (negb _); [done|]|]; intros [= _ <-]; by apply quiet_same.
Qed.

(** ** Creation *)

Lemma quiet_run_create s r sd o s' : run_session_create accepts s r sd = Some (o, s') -> quiet s s'.
Proof.
  unfold run_session_create. destruct (rq_empty r).
  - unfold create_empty_session. destruct (by_name (sessions s) (rq_name r)); intros [= _ <-]; by apply quiet_same.
  - destruct (create_named_session accepts s (rq_name r) (rq_agent_session r) sd) as [[made s1]|] eqn:E; [|done]. cbn [mbind option_bind].
    assert (H1 : quiet s s1).
    { revert E. unfold create_named_session. destruct (by_name (sessions s) (rq_name r)); [intros [= _ <-]; apply quiet_refl|].
      destruct (if sd_with_pty sd then _ else _) as [[ok s2]|] eqn:E2; [|done]. cbn [mbind option_bind].
      assert (H2 : quiet s s2) by (destruct (sd_with_pty sd); [by eapply quiet_seed_pty|by eapply quiet_seed_actor]).
      destruct ok; [|by intros [= _ <-]]. destruct (intern_terminal_wire _ (sd_pane sd)) as [[w s3]|] eqn:E3; [|done].
      apply quiet_intern in E3. cbn. intros [= _ <-]. eapply quiet_trans; [exact H2|]. eapply quiet_trans; [|exact E3]. by apply quiet_same. }
    destruct made; intros [= _ <-]; [|done]. destruct (rq_keep_empty r); [|done]. eapply quiet_trans; [exact H1|apply quiet_keep_empty].
Qed.

Lemma quiet_intern_session s n o s' : intern_session_named s n = Some (o, s') -> quiet s s'.
Proof.
  unfold intern_session_named. destruct (find_by_name (sessions s) n) as [id|]; [|intros [= _ <-]; apply quiet_refl].
  destruct (intern_session _ id) as [[w ids]|]; [|done]. cbn. intros [= _ <-]. by apply quiet_same.
Qed.

(** ** What keeps a result private *)

Definition results (s : ServerState) : gmap ClientId (list bytes) := session_create_results (clients s).
Definition owns (s : ServerState) (c : ClientId) (k : bytes) : Prop := exists ks, results s !! c = Some ks /\ k ∈ ks.

Record Private (s : ServerState) : Prop := {
  pv_listen c scope k : (c, scope, k) ∈ subscriptions (metadata s) -> reserved scope k = false;
  pv_owned k : reserved Scope_Global k = true -> is_Some (get (metadata s) Scope_Global k) -> exists c, owns s c k;
  pv_one c c' k : owns s c k -> owns s c' k -> c = c';
  pv_bounded c ks : results s !! c = Some ks -> NoDup ks /\ (length ks <= MAX_PENDING_PER_CLIENT)%nat /\ forall k, k ∈ ks -> reserved Scope_Global k = true;
  pv_sent : discreet (sent s)
}.

Lemma private_new token : Private (server_new token).
Proof.
  assert (Hr : forall c ks, results (server_new token) !! c = Some ks -> False)
    by (intros c ks H; unfold results in H; cbn in H; by apply lookup_empty_Some in H).
  split.
  - intros c scope k H. cbn in H. set_solver.
  - intros k _ [v H]. cbn in H. by apply lookup_empty_Some in H.
  - intros c c' k (ks & []%Hr & _).
  - intros c ks []%Hr.
  - apply discreet_nil.
Qed.

Lemma private_quiet s s' : Private s -> quiet s s' -> Private s'.
Proof.
  intros [] [Q1 Q2 Q3 (fs & Q4 & D)]. assert (Er : results s' = results s) by exact Q3.
  split; unfold owns; rewrite ?Er; auto.
  - eauto.
  - intros k Hk. rewrite Q2 by done. by apply pv_owned0.
  - rewrite Q4. intros tx scope k v [H|H]%elem_of_app; [by eapply pv_sent0|by eapply D].
Qed.

(** A change of a reserved key that nobody can be told of. *)
Lemma mute_broadcast s k v : Private s -> reserved Scope_Global k = true ->
  (broadcast_metadata_change accepts s Scope_Global k v).2 = up_sent s (sent s ++ []).
Proof.
  intros Hs Hk. unfold broadcast_metadata_change.
  destruct (Metadata.subscribers_for (metadata s) Scope_Global k) as [|c cs] eqn:E; [done|].
  assert (H : c ∈ Metadata.subscribers_for (metadata s) Scope_Global k) by (rewrite E; by left).
  apply elem_of_metadata_subscribers, (pv_listen s Hs) in H. congruence.
Qed.

(** Nobody listens to a reserved key: what [mute_set] and [mute_delete] need. *)
Definition unheard (s : ServerState) : Prop :=
  forall c scope k, (c, scope, k) ∈ subscriptions (metadata s) -> reserved scope k = false.

Lemma unheard_broadcast s k v : unheard s -> reserved Scope_Global k = true ->
  (broadcast_metadata_change accepts s Scope_Global k v).2 = up_sent s (sent s ++ []).
Proof.
  intros Hs Hk. unfold broadcast_metadata_change.
  destruct (Metadata.subscribers_for (metadata s) Scope_Global k) as [|c cs] eqn:E; [done|].
  assert (H : c ∈ Metadata.subscribers_for (metadata s) Scope_Global k) by (rewrite E; by left).
  apply elem_of_metadata_subscribers, Hs in H. congruence.
Qed.

(** A write or a deletion of a reserved key: the store changes, and nothing else. *)
Lemma mute_delete s k : unheard s -> reserved Scope_Global k = true ->
  let s' := (metadata_delete accepts s Scope_Global k).2 in
  subscriptions (metadata s') = subscriptions (metadata s) /\ clients s' = clients s /\ sent s' = sent s /\
  forall scope k', get (metadata s') scope k' = update (get (metadata s)) Scope_Global k None scope k'.
Proof.
  intros Hs Hk. cbv zeta. pose proof (get_metadata_delete accepts s Scope_Global k) as Hg. unfold metadata_delete in *.
  pose proof (subscriptions_delete (metadata s) Scope_Global k) as Em. destruct (delete_key (metadata s) Scope_Global k) as [e m].
  cbn [snd] in Em. destruct e; cbn [negb] in *; [|by repeat split].
  assert (Hm : unheard (up_metadata s m)) by (unfold unheard; st_cbn; by rewrite Em).
  rewrite (unheard_broadcast _ _ _ Hm Hk) in *. st_cbn. by rewrite app_nil_r.
Qed.
Lemma mute_set s k v : unheard s -> reserved Scope_Global k = true ->
  let s' := (metadata_set accepts s Scope_Global k v).2 in
  subscriptions (metadata s') = subscriptions (metadata s) /\ clients s' = clients s /\ sent s' = sent s /\
  forall scope k', get (metadata s') scope k' = update (get (metadata s)) Scope_Global k (Some v) scope k'.
Proof.
  intros Hs Hk. cbv zeta. pose proof (get_metadata_set accepts s Scope_Global k v) as Hg. unfold metadata_set in *.
  case_bool_decide as E; [done|]. unfold metadata_broadcast in *.
  pose proof (unheard_broadcast s k (Some v) Hs Hk) as Eb.
  destruct (broadcast_metadata_change accepts s Scope_Global k (Some v)) as [d s1]. cbn in Eb. subst s1. cbn [snd] in *.
  st_cbn. rewrite subscriptions_set, app_nil_r. repeat split. exact Hg.
Qed.

Lemma mute_fold ks s : unheard s -> (forall k, k ∈ ks -> reserved Scope_Global k = true) ->
  let s' := fold_left (fun s k => (metadata_delete accepts s Scope_Global k).2) ks s in
  subscriptions (metadata s') = subscriptions (metadata s) /\ clients s' = clients s /\ sent s' = sent s /\
  forall k', get (metadata s') Scope_Global k' = if bool_decide (k' ∈ ks) then None else get (metadata s) Scope_Global k'.
Proof.
  revert s. induction ks as [|k ks IH]; intros s Hs Hks; cbv zeta; cbn [fold_left]; [done|].
  destruct (mute_delete s k Hs) as (M1 & M2 & M3 & M4); [apply Hks; by left|].
  destruct (IH (metadata_delete accepts s Scope_Global k).2) as (I1 & I2 & I3 & I4);
    [unfold unheard; by rewrite M1|intros k' H; apply Hks; by right|].
  rewrite I1, I2, I3, M1, M2, M3. repeat split. intros k'. rewrite I4, M4. unfold update.
  rewrite (bool_decide_ext (k' ∈ k :: ks) (k' = k \/ k' ∈ ks)) by apply elem_of_cons.
  repeat case_bool_decide; try done; try (by destruct H as [_ ->]; tauto); tauto.
Qed.

(** The keys a client owns. *)
Definition kept (s : ServerState) (c : ClientId) : list bytes := default [] (results s !! c).

Lemma kept_spec s c : Private s ->
  NoDup (kept s c) /\ (length (kept s c) <= MAX_PENDING_PER_CLIENT)%nat /\
  (forall x, x ∈ kept s c -> reserved Scope_Global x = true) /\ forall x, x ∈ kept s c <-> owns s c x.
Proof.
  intros Hs. unfold kept, owns. destruct (results s !! c) as [l|] eqn:E; cbn.
  - destruct (pv_bounded s Hs c l E) as (? & ? & ?). repeat split; eauto. by intros (? & [= <-] & ?).
  - split; [apply NoDup_nil_2|]. split; [unfold MAX_PENDING_PER_CLIENT; lia|]. split; [by intros x H%not_elem_of_nil|].
    intros x. split; [by intros H%not_elem_of_nil|by intros (? & ? & _)].
Qed.

(** A new key at the end of a part of what its client owned; what is stored beside it was. *)
Lemma private_push s client k ks s2 :
  Private s -> reserved Scope_Global k = true -> (forall c, ~ owns s c k) ->
  (forall x, x ∈ ks -> owns s client x) -> NoDup ks -> (length ks < MAX_PENDING_PER_CLIENT)%nat ->
  subscriptions (metadata s2) = subscriptions (metadata s) -> sent s2 = sent s ->
  results s2 = <[client := ks ++ [k]]> (results s) ->
  (forall x, is_Some (get (metadata s2) Scope_Global x) ->
     x = k \/ (is_Some (get (metadata s) Scope_Global x) /\ (owns s client x -> x ∈ ks))) ->
  Private s2.
Proof.
  intros Hs Hk Hno Hsub Hnd Hlen E1 E2 E3 Hget. assert (Hk' : k ∉ ks) by (intros H; by apply (Hno client), Hsub).
  assert (Hown : forall c x, owns s2 c x -> (c = client /\ x = k) \/ owns s c x).
  { intros c x (l & Hl & Hx). rewrite E3 in Hl. apply lookup_insert_Some in Hl as [[<- <-]|[Hc Hl]]; [|right; by exists l].
    apply elem_of_app in Hx as [Hx|Hx%list_elem_of_singleton]; [right; by apply Hsub|by left]. }
  assert (Hnew : forall x, x ∈ ks ++ [k] -> owns s2 client x) by (intros x Hx; exists (ks ++ [k]); by rewrite E3, lookup_insert_eq).
  split.
  - rewrite E1. apply (pv_listen s Hs).
  - intros x Hx [->|[Hg Hin]]%Hget; [exists client; apply Hnew, elem_of_app; right; by left|].
    destruct (pv_owned s Hs x Hx Hg) as (c & Hc). destruct (decide (c = client)) as [->|Hne].
    + exists client. apply Hnew, elem_of_app. left. by apply Hin.
    + exists c. destruct Hc as (l & Hl & Hxl). exists l. by rewrite E3, lookup_insert_ne.
  - intros c c' x [[-> ->]|H1]%Hown [[-> Hx']|H2]%Hown; [done|by destruct (Hno c')|subst; by destruct (Hno c)|].
    by apply (pv_one s Hs) with x.
  - intros c l. rewrite E3. intros [[<- <-]|[Hc Hl]]%lookup_insert_Some; [|by apply (pv_bounded s Hs) with c]. split; [|split].
    + apply NoDup_app. split; [done|]. split; [|apply NoDup_singleton]. by intros x Hx ->%list_elem_of_singleton.
    + rewrite length_app. cbn. lia.
    + intros x [Hx|Hx%list_elem_of_singleton]%elem_of_app; [|by subst].
      destruct (kept_spec s client Hs) as (_ & _ & HR & HO). by apply HR, HO, Hsub.
  - rewrite E2. apply (pv_sent s Hs).
Qed.

Lemma private_track s client k b :
  Private s -> reserved Scope_Global k = true -> (forall c, ~ owns s c k) ->
  Private (track_session_create_result accepts (metadata_set accepts s Scope_Global k b).2 client k).
Proof.
  intros Hs Hk Hno. destruct (mute_set s k b (pv_listen s Hs) Hk) as (M1 & M2 & M3 & M4).
  set (s1 := (metadata_set accepts s Scope_Global k b).2) in *. unfold track_session_create_result. rewrite M2.
  fold (results s). change (default [] (results s !! client)) with (kept s client).
  destruct (kept_spec s client Hs) as (N & L & R & Ow). 
  destruct (Nat.leb_spec MAX_PENDING_PER_CLIENT (length (kept s client))) as [Hle|Hlt].
  - destruct (kept s client) as [|old ks] eqn:Eks; [cbn in Hle; unfold MAX_PENDING_PER_CLIENT in Hle; lia|]. cbn [head tail].
    set (s2 := up_clients s1 _).
    assert (Hu : unheard s2) by (unfold unheard; subst s2; st_cbn; rewrite M1; apply (pv_listen s Hs)).
    destruct (mute_delete s2 old Hu) as (D1 & D2 & D3 & D4); [apply R; by left|].
    apply NoDup_cons in N as [N1 N2]. cbn in L. apply (private_push s client k ks); try done.
    + intros x Hx. apply Ow. by right.
    + by rewrite D1.
    + by rewrite D3.
    + unfold results. by rewrite D2.
    + intros x. rewrite D4. unfold update. case_bool_decide as Eo; [by intros []|]. subst s2. st_cbn. rewrite M4. unfold update.
      case_bool_decide as E; [by left; destruct E|]. intros Hg. right. split; [done|]. intros [->|?]%Ow%elem_of_cons; [|done]. by destruct Eo.
  - apply (private_push s client k (kept s client)); try done; [by apply Ow|].
    intros x. st_cbn. rewrite M4. unfold update. case_bool_decide as E; [by left; destruct E|]. intros Hg. right. split; [done|]. by apply Ow.
Qed.

(** Clients' lists with keys taken out, and those keys gone from the store. *)
Lemma private_shrink s s2 :
  Private s -> (forall c scope k, (c, scope, k) ∈ subscriptions (metadata s2) -> (c, scope, k) ∈ subscriptions (metadata s)) ->
  discreet (sent s2) ->
  (forall c ks, results s2 !! c = Some ks -> exists ks0, results s !! c = Some ks0 /\ ks `sublist_of` ks0) ->
  (forall k, is_Some (get (metadata s2) Scope_Global k) -> is_Some (get (metadata s) Scope_Global k) /\
     forall c, owns s c k -> owns s2 c k) ->
  Private s2.
Proof.
  intros Hs H1 H2 H3 H4.
  assert (Ho : forall c k, owns s2 c k -> owns s c k).
  { intros c k (ks & Hks & Hk). destruct (H3 c ks Hks) as (ks0 & E & Hsub). exists ks0. split; [done|].
    by eapply (elem_of_submseteq ks), sublist_submseteq. }
  split.
  - intros c scope k H%H1. by apply (pv_listen s Hs) in H.
  - intros k Hk [Hg Hc]%H4. destruct (pv_owned s Hs k Hk Hg) as (c & ?). exists c. auto.
  - intros c c' k ?%Ho ?%Ho. by apply (pv_one s Hs) with k.
  - intros c ks (ks0 & E & Hsub)%H3. destruct (pv_bounded s Hs c ks0 E) as (N & L & R). split; [|split].
    + by eapply sublist_NoDup.
    + apply sublist_length in Hsub. lia.
    + intros k Hk. apply R. by eapply (elem_of_submseteq ks), sublist_submseteq.
  - done.
Qed.

Lemma filter_sublist {A} (f : A -> bool) l : List.filter f l `sublist_of` l.
Proof. induction l as [|x l IH]; cbn; [done|]. destruct (f x); by constructor. Qed.

Lemma private_consume s k :
  Private s -> reserved Scope_Global k = true -> Private (consume_session_create_result accepts s k).
Proof.
  intros Hs Hk. unfold consume_session_create_result.
  destruct (mute_delete s k (pv_listen s Hs) Hk) as (D1 & D2 & D3 & D4). rewrite D2. fold (results s).
  apply (private_shrink s); [done|..].
  - st_cbn. by rewrite D1.
  - st_cbn. rewrite D3. apply (pv_sent s Hs).
  - intros c ks H. unfold results in H. cbn in H. apply map_lookup_filter_Some in H as [H _].
    apply lookup_fmap_Some in H as (ks0 & <- & H). exists ks0. split; [done|apply filter_sublist].
  - intros k'. st_cbn. rewrite D4. unfold update. case_bool_decide as E; [by intros []|]. intros Hg. split; [done|].
    intros c (ks & Hks & Hk'). exists (List.filter (fun c => negb (bool_decide (c = k))) ks).
    assert (Hin : k' ∈ List.filter (fun c => negb (bool_decide (c = k))) ks).
    { apply list_elem_of_In, filter_In. split; [by apply list_elem_of_In|]. rewrite bool_decide_eq_false_2; [done|]. intros ->. by destruct E. }
    split; [|done]. unfold results. cbn. apply map_lookup_filter_Some. split; [unfold results in Hks; by rewrite lookup_fmap, Hks|].
    cbn. intros E0. rewrite E0 in Hin. by apply not_elem_of_nil in Hin.
Qed.

(** A result that was delivered is nobody's. *)
Lemma consumed s k : Private s -> reserved Scope_Global k = true ->
  let s' := consume_session_create_result accepts s k in
  get (metadata s') Scope_Global k = None /\ forall c, ~ owns s' c k.
Proof.
  intros Hs Hk. cbv zeta. unfold consume_session_create_result.
  destruct (mute_delete s k (pv_listen s Hs) Hk) as (_ & D2 & _ & D4). split.
  - st_cbn. rewrite D4. unfold update. by rewrite bool_decide_eq_true_2.
  - intros c (ks & Hks & Hin). unfold results in Hks. cbn in Hks. apply map_lookup_filter_Some in Hks as [Hks _].
    apply lookup_fmap_Some in Hks as (ks0 & <- & _). apply list_elem_of_In, filter_In in Hin as [_ Hin].
    by rewrite bool_decide_eq_true_2 in Hin.
Qed.

Lemma private_subscriptions s m :
  Private s -> (forall c scope k, (c, scope, k) ∈ subscriptions m -> (c, scope, k) ∈ subscriptions (metadata s) \/ reserved scope k = false) ->
  (forall scope k, get m scope k = get (metadata s) scope k) -> Private (up_metadata s m).
Proof.
  intros Hs H1 H2. split; st_cbn.
  - intros c scope k [H%(pv_listen s Hs)|H]%H1; done.
  - intros k Hk. rewrite H2. by apply (pv_owned s Hs).
  - apply (pv_one s Hs).
  - apply (pv_bounded s Hs).
  - apply (pv_sent s Hs).
Qed.

Lemma private_same s s' :
  Private s -> metadata s' = metadata s -> session_create_results (clients s') = session_create_results (clients s) ->
  sent s' = sent s -> Private s'.
Proof. intros Hs E1 E2 E3. by eapply private_quiet, quiet_same. Qed.

(** What the store and the lists are after a detach. *)
Lemma detach_results s client : Private s ->
  let s' := detach accepts s client in
  (forall c scope k, (c, scope, k) ∈ subscriptions (metadata s') -> (c, scope, k) ∈ subscriptions (metadata s)) /\
  sent s' = sent s /\ results s' = delete client (results s) /\
  forall k, get (metadata s') Scope_Global k = if bool_decide (k ∈ kept s client) then None else get (metadata s) Scope_Global k.
Proof.
  intros Hs. cbv zeta. unfold detach. cbv zeta.
  match goal with |- context[fold_left _ ?ks ?s0] => set (s1 := s0); change ks with (kept s client) end.
  assert (Hsub : forall c scope k, (c, scope, k) ∈ subscriptions (metadata s1) -> (c, scope, k) ∈ subscriptions (metadata s))
    by (intros c scope k H; subst s1; cbn in H; set_solver).
  assert (Hu : unheard s1) by (intros c scope k H%Hsub; by apply (pv_listen s Hs) in H).
  destruct (mute_fold (kept s client) s1 Hu) as (D1 & D2 & D3 & D4); [by apply kept_spec|].
  split; [intros c scope k; st_cbn; rewrite D1; apply Hsub|]. split; [exact D3|].
  split; [unfold results; st_cbn; cbn [with_events session_create_results]; by rewrite D2|exact D4].
Qed.

Lemma private_detach s client : Private s -> Private (detach accepts s client).
Proof.
  intros Hs. destruct (detach_results s client Hs) as (D1 & D2 & D3 & D4). revert D1 D2 D3 D4.
  generalize (detach accepts s client). intros s' D1 D2 D3 D4. apply (private_shrink s); [done..|rewrite D2; apply (pv_sent s Hs)| |].
  - intros c ks. rewrite D3. intros [_ H]%lookup_delete_Some. by exists ks.
  - intros k. rewrite D4. case_bool_decide as E; [by intros []|]. intros Hg. split; [exact Hg|].
    intros c (ks & Hks & Hk). exists ks. split; [|done]. rewrite D3, lookup_delete_ne; [done|]. intros <-.
    apply E, kept_spec; [done|]. by exists ks.
Qed.

Lemma detached s c k : Private s -> owns s c k -> get (metadata (detach accepts s c)) Scope_Global k = None.
Proof.
  intros Hs Ho. destruct (detach_results s c Hs) as (_ & _ & _ & ->). rewrite bool_decide_eq_true_2; [done|]. by apply kept_spec.
Qed.

Lemma private_subscribe no_federation s client scope k tx :
  Private s -> Private (handle_subscribe_metadata accepts no_federation s client scope k tx).
Proof.
  intros Hs. unfold handle_subscribe_metadata. destruct (is_reserved_session_create_result scope k) eqn:Er; [done|].
  destruct (negb _); [done|].
  assert (H : Private (metadata_subscribe s client scope k tx).2).
  { unfold metadata_subscribe, Metadata.subscribe.
    case_bool_decide; [by apply (private_same s)|]. destruct (_ <=? _)%nat; [by apply private_subscriptions; [|by left|]|].
    cbn [snd]. apply (private_same (up_metadata s (set_subscriptions (metadata s) ({[(client, scope, k)]} ∪ subscriptions (metadata s))))); try done.
    apply private_subscriptions; [done| |by intros []].
    intros c sc k' [[= -> -> ->]%elem_of_singleton|Hin]%elem_of_union; [by right|by left]. }
  unfold refuse_satellite_metadata_scope. destruct scope as [[id|host id]|g|]; try done.
  destruct (accepts tx _); [|done]. eapply private_quiet; [exact Hs|]. split; try done. eexists. split; [done|].
  intros tx' sc k' v' [=]%list_elem_of_singleton.
Qed.

Lemma starts_with_app p k : starts_with p (p ++ k) = true.
Proof. apply bool_decide_eq_true. by rewrite take_app_length. Qed.

Lemma pending_spec s k : session_create_result_is_pending (clients s) k = false -> forall c, ~ owns s c k.
Proof.
  unfold session_create_result_is_pending. intros H c (ks & Hks & Hk).
  assert (He : existsb (has_key k) (map snd (map_to_list (session_create_results (clients s)))) = true); [|congruence].
  apply existsb_exists. exists ks. split.
  - apply in_map_iff. exists (c, ks). split; [done|]. by apply list_elem_of_In, elem_of_map_to_list.
  - apply existsb_exists. exists k. split; [by apply list_elem_of_In|by apply bool_decide_eq_true].
Qed.

Lemma private_create parse_request result_json s client v sd s' :
  Private s -> handle_session_create_metadata accepts parse_request result_json s client v sd = Some s' -> Private s'.
Proof.
  intros Hs. unfold handle_session_create_metadata. destruct (parse_request v) as [r|]; [|by intros [= <-]].
  destruct (has_some _); [by intros [= <-]|]. cbv zeta. destruct (_ && _) eqn:Ep; [by intros [= <-]|].
  destruct (run_session_create accepts s r sd) as [[o s1]|] eqn:E; [|done]. cbn [mbind option_bind].
  apply quiet_run_create in E. destruct o as [w|]; [|intros [= <-]; by eapply private_quiet].
  destruct (intern_session_named s1 (rq_name r)) as [[id s2]|] eqn:Ei; [|done]. cbn [mbind option_bind].
  apply quiet_intern_session in Ei. assert (Q : quiet s s2) by quiet_chain. pose proof (private_quiet s s2 Hs Q) as H2.
  intros [= <-]. unfold publish_session_create_result. destruct (result_json _) as [b|]; [|done]. cbv zeta.
  destruct (rq_request_token r) as [t|] eqn:Et; cbn [has_some andb] in *.
  - apply private_track; [done|apply starts_with_app|]. intros c (ks & Hks & Hk). apply (pending_spec _ _ Ep c). exists ks.
    split; [|done]. unfold results in *. by rewrite <- (qt_results _ _ Q).
  - eapply private_quiet; [exact H2|]. by apply quiet_set.
Qed.

Lemma accepted_unreserved s scope k v : reject_set_metadata s scope k v = false -> reserved scope k = false.
Proof. unfold reject_set_metadata. by destruct (is_reserved_session_create_result scope k). Qed.

Lemma private_set_metadata decode parse_request result_json s client scope k v root sd a s' :
  Private s -> handle_set_metadata accepts decode parse_request result_json s client scope k v root sd = Some (a, s') -> Private s'.
Proof.
  intros Hs. unfold handle_set_metadata. destruct (reject_set_metadata s scope k v) eqn:Er; [by intros [= _ <-]|].
  apply accepted_unreserved in Er. cbv zeta. destruct (_ && _).
  { destruct (handle_session_create_metadata _ _ _ s client v sd) as [s1|] eqn:E; [|done]. cbn. intros [= _ <-]. by eapply private_create. }
  destruct (_ && _); [|destruct (_ && _)].
  - intros [= _ <-]. unfold apply_session_rename. destruct (split_text v) as [[c n]|]; [|done].
    destruct (rename (sessions s) c n) as [o t]. assert (H1 : Private (up_sessions s t)) by by apply (private_same s).
    destruct o; try done. destruct (negb _); [|done]. eapply private_quiet; [exact H1|by apply quiet_broadcast].
  - intros [= E]. unfold apply_session_keep_empty in E. destruct (decode_session_keep_empty v) as [[n keep]|]; [|by simplify_eq].
    pose proof (quiet_keep_empty s n keep) as Q. destruct (set_session_keep_empty s n keep) as [o s1]. cbn [snd] in Q.
    assert (H1 : Private s1) by by eapply private_quiet. destruct o; simplify_eq; try done;
      (eapply private_quiet; [exact H1|by apply quiet_broadcast]).
  - intros [= _ <-]. match goal with |- Private (metadata_set _ ?x _ _ _).2 => assert (H1 : Private x) end.
    { destruct scope as [w|g|]; try done. case_bool_decide; [by apply (private_same s)|done]. }
    eapply private_quiet; [exact H1|by apply quiet_set].
Qed.

Lemma private_delete_metadata s scope k : Private s -> Private (handle_delete_metadata accepts s scope k).2.
Proof.
  intros Hs. unfold handle_delete_metadata. destruct (is_reserved_session_create_result scope k) eqn:Er; [done|].
  destruct (is_server_owned_key k); [done|]. cbn [snd].
  match goal with |- Private (metadata_delete _ ?x _ _).2 => assert (H1 : Private x) end.
  { destruct scope as [w|g|]; try done. case_bool_decide; [by apply (private_same s)|done]. }
  eapply private_quiet; [exact H1|by apply quiet_delete].
Qed.

End Quiet.

Lemma whoami_unreserved : reserved Scope_Global WHOAMI_KEY = false.
Proof. vm_compute. reflexivity. Qed.
Lemma reserved_prefix k : reserved Scope_Global k = starts_with SESSION_CREATE_RESULT_KEY_PREFIX k.
Proof. done. Qed.

Section Runs.
Context (O : Outside).

Lemma private_step s d s' : Private s -> server_step O s d s' -> Private s'.
Proof.
  intros Hs Hst. destruct Hst.
  - eapply private_quiet; [exact Hs|by eapply quiet_seed_pty].
  - by apply (private_same s).
  - eapply private_quiet; [exact Hs|by eapply quiet_spawn].
  - eapply private_quiet; [exact Hs|by eapply quiet_agent].
  - eapply private_quiet; [exact Hs|by eapply quiet_move].
  - eapply private_quiet; [exact Hs|by apply quiet_close].
  - unfold kill_resource_if in *. destruct (admit_conditional_kill s wire p) as [k|]; [|done]. simplify_eq.
    eapply private_quiet; [exact Hs|exact (quiet_close s [k] CloseReason_Killed)].
  - eapply private_quiet; [exact Hs|by eapply quiet_watcher].
  - eapply private_quiet; [exact Hs|by apply quiet_release].
  - by apply (private_same s).
  - unfold record_root. by destruct (roots _ !! _); apply (private_same s).
  - by apply (private_same s).
  - eapply private_quiet; [exact Hs|by eapply quiet_attach].
  - by apply private_detach.
  - pose proof (private_detach (o_accepts O) s client Hs) as H. unfold forget_connection. revert H.
    generalize (detach (o_accepts O) s client). intros s1 H. by apply (private_same s1).
  - unfold subscribe_terminal. by destruct mb; apply (private_same s).
  - by apply (private_same s).
  - by apply (private_same s).
  - unfold note_resource_use. by destruct (terminal_from_wire _ _); apply (private_same s).
  - by eapply private_set_metadata.
  - by apply private_delete_metadata.
  - by apply private_subscribe.
  - by apply private_consume.
  - by apply (private_same s).
  - by apply (private_same s).
  - by apply (private_same s).
  - by apply (private_same s).
  - by apply (private_same s).
  - by apply (private_same s).
  - eapply private_quiet; [exact Hs|apply quiet_reap].
  - unfold intern_terminal_wire in *. destruct (intern_terminal _ _) as [[w' i]|]; simplify_eq/=. by apply (private_same s).
  - eapply private_quiet; [exact Hs|apply quiet_drain].
  - by apply (private_same s).
  - by apply (private_same s).
Qed.

Lemma private_run c s : server_run O c s -> Private s.
Proof. induction 1 as [token|s d s' _ IH Hst _]; [apply private_new|by eapply private_step]. Qed.

(** C10: the result of a nonce-bearing creation reaches its creator alone, and once. In every state
    a server can reach, lapses included, what is stored under such a key has exactly one owner, who has at most 256
    of them; a [GET] answers it to the owner only, and once the answer is delivered it is gone and
    nobody owns it; no frame about such a key was ever broadcast, [LIST] does not name it, and a
    client's write, deletion or subscription of it does nothing; and it goes when its owner does. *)
Theorem create_result_private c0 whoami_json s k :
  server_run O c0 s -> reserved Scope_Global k = true ->
  (is_Some (get (metadata s) Scope_Global k) -> exists c, owns s c k) /\
  (forall c c', owns s c k -> owns s c' k -> c = c') /\
  (forall c, (length (kept s c) <= MAX_PENDING_PER_CLIENT)%nat) /\
  (forall c rid v delivered s', handle_get_metadata (o_accepts O) whoami_json s c rid Scope_Global k delivered =
      (Some (FrameKind_MetadataValue rid (Some v)), s') ->
      owns s c k /\ get (metadata s) Scope_Global k = Some v /\
      (delivered = true -> get (metadata s') Scope_Global k = None /\ forall c', ~ owns s' c' k)) /\
  discreet (sent s) /\
  (forall c rid keys, handle_list_metadata s c rid Scope_Global = Some (FrameKind_MetadataKeys rid keys) -> k ∉ keys) /\
  (forall c v root sd, handle_set_metadata (o_accepts O) (o_decode O) (o_parse_request O) (o_result_json O) s c Scope_Global k v root sd = Some (nothing, s)) /\
  handle_delete_metadata (o_accepts O) s Scope_Global k = (nothing, s) /\
  (forall c tx, handle_subscribe_metadata (o_accepts O) (o_no_federation O) s c Scope_Global k tx = s) /\
  (forall c, owns s c k -> get (metadata (detach (o_accepts O) s c)) Scope_Global k = None).
Proof.
  intros Hr Hk. pose proof (private_run c0 s Hr) as Hs. split; [by apply (pv_owned s Hs)|].
  split; [intros c c'; by apply (pv_one s Hs)|]. split; [intros c; by apply kept_spec|]. split.
  { intros c rid v d s'. unfold handle_get_metadata, read_metadata_value. cbv zeta. rewrite Hk.
    assert (Hw : is_whoami_key Scope_Global k = false).
    { apply bool_decide_eq_false. intros ->. by rewrite whoami_unreserved in Hk. }
    rewrite Hw. destruct (negb (speaks_l3 _ _)); [done|]. cbn [andb].
    destruct (owns_session_create_result (clients s) c k) eqn:Eo; cbn [negb]; [|done].
    intros [= Ev <-]. rewrite Ev. cbn [has_some andb].
    split; [|split; [done|]].
    - unfold owns_session_create_result in Eo. destruct (session_create_results (clients s) !! c) as [ks|] eqn:Ec; [|done].
      exists ks. split; [done|]. apply existsb_exists in Eo as (x & Hx & <-%bool_decide_eq_true). by apply list_elem_of_In.
    - intros ->. cbn [andb]. apply consumed; done. }
  split; [apply (pv_sent s Hs)|]. split.
  { intros c rid keys. unfold handle_list_metadata. cbv zeta. destruct (negb _); [done|]. intros [= <-] H.
    apply list_elem_of_In, filter_In in H as [_ H].
    rewrite reserved_prefix in Hk. by rewrite Hk in H. }
  split; [intros c v root sd; unfold handle_set_metadata, reject_set_metadata; by rewrite Hk|].
  split; [unfold handle_delete_metadata; by rewrite Hk|].
  split; [intros c tx; unfold handle_subscribe_metadata; by rewrite Hk|].
  intros c Hc. by apply detached.
Qed.

End Runs.

(** A client creates an empty session under a token of its own. *)
Definition a_token : bytes := str "123e4567-e89b-12d3-a456-426614174000".
Definition token_world : Outside :=
  mkOutside take_all no_text plain_decode plain_encode (fun k => k) (fun _ => true) no_occupant
    (fun _ => Some (mkCreate (str "work") None None [] None (Some a_token) false true)) (fun _ => Some [1]) (fun _ _ => []).
Definition a_seeding : Seeding := mkSeeding 0 1%positive 1%positive 1%positive None true None.
Definition created : ServerState :=
  match handle_set_metadata take_all plain_decode (o_parse_request token_world) (o_result_json token_world) (server_new []) 7
      Scope_Global SESSION_CREATE_KEY [] false a_seeding with
  | Some (_, s) => s
  | None => server_new []
  end.
Definition a_key : bytes := session_create_result_key (Some a_token).
Definition nobody (p : PeerIdentity) (c : option AuthenticatedCredential) (o : option SshOrigin) : option bytes := None.

Lemma created_run : server_run token_world Orderly created.
Proof.
  eapply run_step; [apply (run_start _ _ [])| |done].
  eapply (st_set _ _ 7 Scope_Global SESSION_CREATE_KEY [] false a_seeding nothing created); [repeat split; vm_compute; reflexivity|vm_compute; reflexivity].
Qed.

Lemma create_result_private_witness :
  owns created 7 a_key /\ (handle_get_metadata take_all nobody created 8 1 Scope_Global a_key true).1 = Some (FrameKind_MetadataValue 1 None) /\
  get (metadata (handle_get_metadata take_all nobody created 7 1 Scope_Global a_key true).2) Scope_Global a_key = None.
Proof.
  destruct (create_result_private token_world Orderly nobody created a_key created_run ltac:(vm_compute; reflexivity)) as (_ & _ & _ & H & _).
  assert (E : exists s', handle_get_metadata take_all nobody created 7 1 Scope_Global a_key true = (Some (FrameKind_MetadataValue 1 (Some [1])), s'))
    by (vm_compute; by eexists).
  destruct E as [s' E]. destruct (H 7 1 [1] true s' E) as (Ho & _ & Hg). split; [exact Ho|].
  split; [vm_compute; reflexivity|]. rewrite E. apply Hg. reflexivity.
Defined.
