(* ===== verification/Closing.v ===== *)
(** * What a kill closes

    [close_resources] and [kill_resource_if] against their contracts: the targets that are live and
    whatever is bound to them, each once, with the reason the close ledger will answer. *)

From stdpp Require Import gmap.
From S2P Require Import Prelude Enums Caps Codec Command Frame.
From S2P Require Import IdBridge Leases SpawnLedger ResourceTable Metadata SessionTable Agent ClientTable.
From S2P Require Import Window Registry ServerState Lifecycle Booked Spawn ServerSteps.
From S2P Require Import Ids.

(** ** The list of closing resources *)

Lemma listed_spec k (l : list (key * CloseReason)) : listed k l = bool_decide (k ∈ map fst l).
Proof.
  unfold listed. apply eq_true_iff_eq. rewrite existsb_exists, bool_decide_eq_true, list_elem_of_In, in_map_iff.
  split; intros (x & H1 & H2); exists x; [apply bool_decide_eq_true in H2|rewrite bool_decide_eq_true]; done.
Qed.

Lemma elem_of_fst (l : list (key * CloseReason)) k : k ∈ map fst l <-> exists x, (k, x) ∈ l.
Proof.
  rewrite list_elem_of_In, in_map_iff. split.
  - intros ([k' x] & <- & H). exists x. by apply list_elem_of_In.
  - intros [x H]. exists (k, x). by rewrite <- list_elem_of_In.
Qed.

Lemma NoDup_snoc (l : list (key * CloseReason)) k x : NoDup (map fst l) -> k ∉ map fst l -> NoDup (map fst (l ++ [(k, x)])).
Proof.
  intros H Hk. rewrite map_app. apply NoDup_app. split; [done|]. split; [|apply NoDup_singleton].
  by intros y Hy ->%list_elem_of_singleton.
Qed.

Lemma close_targets_spec r ts reason acc :
  NoDup (map fst acc) -> (forall k x, (k, x) ∈ acc -> x = reason) ->
  NoDup (map fst (close_targets r ts reason acc)) /\
  forall k x, (k, x) ∈ close_targets r ts reason acc <->
    (k, x) ∈ acc \/ (k ∈ ts /\ is_Some (reg_resources r !! k) /\ x = reason).
Proof.
  revert acc. induction ts as [|t ts IH]; intros acc Hn Hx; cbn [close_targets].
  - split; [done|]. intros k x. split; [by left|]. intros [?|(H & _)]; [done|]. by apply not_elem_of_nil in H.
  - rewrite listed_spec. case_bool_decide as Hl; cbn [negb].
    + case_bool_decide as Ht.
      * destruct (IH acc Hn Hx) as [H1 H2]. split; [done|]. intros k x. rewrite H2, elem_of_cons. split; [naive_solver|].
        intros [?|([->|?] & ? & ->)]; [by left| |by right]. left. apply elem_of_fst in Ht as [y Hy]. by rewrite <- (Hx _ _ Hy).
      * destruct (IH (acc ++ [(t, reason)])) as [H1 H2].
        { by apply NoDup_snoc. }
        { intros k x [H|H]%elem_of_app; [by eapply Hx|]. by apply list_elem_of_singleton in H as [= -> ->]. }
        split; [done|]. intros k x. rewrite H2, elem_of_app, list_elem_of_singleton, elem_of_cons. naive_solver.
    + destruct (IH acc Hn Hx) as [H1 H2]. split; [done|]. intros k x. rewrite H2, elem_of_cons. naive_solver.
Qed.

Lemma add_children_spec r acc p :
  NoDup (map fst acc) ->
  NoDup (map fst (add_children r acc p)) /\
  forall k x, (k, x) ∈ add_children r acc p <->
    (k, x) ∈ acc \/ (k ∉ map fst acc /\ k ∈ children r p /\ x = CloseReason_ParentClosed).
Proof.
  unfold add_children. revert acc. induction (children r p) as [|c cs IH]; intros acc Hn; cbn [fold_left].
  - split; [done|]. intros k x. split; [by left|]. intros [?|(_ & H & _)]; [done|]. by apply not_elem_of_nil in H.
  - rewrite listed_spec. case_bool_decide as Hc.
    + destruct (IH acc Hn) as [H1 H2]. split; [done|]. intros k x. rewrite H2, elem_of_cons. naive_solver.
    + destruct (IH (acc ++ [(c, CloseReason_ParentClosed)])) as [H1 H2]; [by apply NoDup_snoc|]. split; [done|].
      intros k x. rewrite H2, elem_of_app, list_elem_of_singleton, map_app, not_elem_of_app, (elem_of_cons cs). cbn.
      rewrite list_elem_of_singleton. destruct (decide (k = c)) as [->|]; naive_solver.
Qed.

Lemma close_children_spec r closing :
  NoDup (map fst closing) ->
  NoDup (map fst (close_children r closing)) /\
  forall k x, (k, x) ∈ close_children r closing <->
    (k, x) ∈ closing \/ (k ∉ map fst closing /\ (exists p, p ∈ map fst closing /\ k ∈ children r p) /\ x = CloseReason_ParentClosed).
Proof.
  unfold close_children.
  enough (H : forall l acc, NoDup (map fst acc) ->
    NoDup (map fst (fold_left (fun acc kr => add_children r acc kr.1) l acc)) /\
    forall k x, (k, x) ∈ fold_left (fun acc kr => add_children r acc kr.1) l acc <->
      (k, x) ∈ acc \/ (k ∉ map fst acc /\ (exists p, p ∈ map fst l /\ k ∈ children r p) /\ x = CloseReason_ParentClosed))
    by (intros Hn; by apply (H closing closing)).
  induction l as [|[p y] l IH]; intros acc Hn; cbn [fold_left].
  - split; [done|]. intros k x. split; [by left|]. intros [?|(_ & (p & H & _) & _)]; [done|]. by apply not_elem_of_nil in H.
  - destruct (add_children_spec r acc p Hn) as [H1 H2]. destruct (IH _ H1) as [H3 H4]. split; [done|].
    intros k x. assert (Hex : (exists q, q ∈ map fst ((p, y) :: l) /\ k ∈ children r q) <->
      (k ∈ children r p \/ exists q, q ∈ map fst l /\ k ∈ children r q)).
    { cbn [map fst]. split; [intros (q & [->|?]%elem_of_cons & ?); eauto|].
      intros [?|(q & ? & ?)]; [exists p; split; [by left|done]|exists q; split; [by right|done]]. }
    assert (Hin : k ∈ map fst (add_children r acc p) <-> k ∈ map fst acc \/ k ∈ children r p).
    { rewrite (elem_of_fst (add_children r acc p)). split.
      - intros [x' [?|(_ & ? & _)]%H2]; [left; apply elem_of_fst; by exists x'|by right].
      - intros H. destruct (decide (k ∈ map fst acc)) as [[z E]%elem_of_fst|E]; [exists z; apply H2; by left|].
        exists CloseReason_ParentClosed. apply H2. right. destruct H; done. }
    rewrite H4, H2, Hin, Hex. destruct (decide (k ∈ children r p)); tauto.
Qed.

(** ** What closing them does *)

Lemma detach_spec t k :
  handles (detach_actor t k) = handles t /\ tokens (detach_actor t k) = delete k (tokens t) /\
  forall tok, tok ∈ cancelled (detach_actor t k) <-> tok ∈ cancelled t \/ tokens t !! k = Some tok.
Proof.
  unfold detach_actor. destruct (tokens t !! k) as [x|] eqn:E; cbn.
  - split; [reflexivity|]. split; [reflexivity|]. intros tok. rewrite elem_of_union, elem_of_singleton. split; [|naive_solver].
    intros [->|?]; auto.
  - split; [reflexivity|]. split; [by rewrite delete_id|]. intros tok. split; [by left|]. by intros [?|?].
Qed.

Lemma mark_spec s c x k :
  close_reasons (mark_resource_closing s c x) !! k =
    match close_reasons s !! k with Some y => Some y | None => if bool_decide (c = k) then Some x else None end.
Proof.
  unfold mark_resource_closing. destruct (close_reasons s !! c) as [y|] eqn:Ec.
  - destruct (close_reasons s !! k) eqn:Ek; [done|]. rewrite bool_decide_false; [done|]. intros ->. congruence.
  - cbn. destruct (decide (c = k)) as [->|Hne].
    + by rewrite lookup_insert_eq, Ec, bool_decide_true.
    + rewrite lookup_insert_ne, bool_decide_false by done. by destruct (close_reasons s !! k).
Qed.

Lemma mark_resources s c x : resources (mark_resource_closing s c x) = resources s /\
  reg (mark_resource_closing s c x) = reg s /\ idspace (mark_resource_closing s c x) = idspace s.
Proof. unfold mark_resource_closing. by destruct (close_reasons s !! c). Qed.

Lemma close_one_spec s c x :
  let s1 := close_one s (c, x) in
  reg s1 = reg s /\ idspace s1 = idspace s /\ handles (resources s1) = handles (resources s) /\
  tokens (resources s1) = delete c (tokens (resources s)) /\
  (forall tok, tok ∈ cancelled (resources s1) <-> tok ∈ cancelled (resources s) \/ tokens (resources s) !! c = Some tok) /\
  forall k, close_reasons s1 !! k =
    match close_reasons s !! k with Some y => Some y | None => if bool_decide (c = k) then Some x else None end.
Proof.
  cbv zeta. unfold close_one. cbn [fst snd]. destruct (mark_resources s c x) as (E1 & E2 & E3).
  destruct (detach_spec (resources (mark_resource_closing s c x)) c) as (H1 & H2 & H3). rewrite E1 in H1, H2, H3.
  unfold reg in *. cbn [up_resources sessions idspace resources close_reasons]. rewrite E1, E2, E3.
  split; [reflexivity|]. split; [reflexivity|]. split; [exact H1|]. split; [exact H2|]. split; [exact H3|]. apply mark_spec.
Qed.

(** The ledger and the tokens after the loop over a closing list. *)
Lemma close_each_spec closing s :
  NoDup (map fst closing) ->
  let s' := fold_left close_one closing s in
  reg s' = reg s /\ idspace s' = idspace s /\ handles (resources s') = handles (resources s) /\
  (forall k, close_reasons s' !! k = match close_reasons s !! k with
     | Some x => Some x | None => snd <$> List.find (fun kr => bool_decide (kr.1 = k)) closing end) /\
  (forall k, tokens (resources s') !! k = if bool_decide (k ∈ map fst closing) then None else tokens (resources s) !! k) /\
  (forall tok, tok ∈ cancelled (resources s') <->
     tok ∈ cancelled (resources s) \/ exists k, k ∈ map fst closing /\ tokens (resources s) !! k = Some tok).
Proof.
  revert s. induction closing as [|[c x] l IH]; intros s Hn; cbn [fold_left fst snd map].
  - cbv zeta. repeat split; try done.
    + intros k. by destruct (close_reasons s !! k).
    + by left.
    + intros [?|(k & H & _)]; [done|]. by apply not_elem_of_nil in H.
  - cbn [map fst] in Hn. apply NoDup_cons in Hn as [Hc Hn]. cbv zeta.
    set (s1 := close_one s (c, x)).
    destruct (IH s1 Hn) as (E1 & E2 & E3 & E4 & E5 & E6). rewrite E1, E2, E3.
    destruct (close_one_spec s c x) as (F1 & F2 & F3 & F4 & F5 & F6). fold s1 in F1, F2, F3, F4, F5, F6. rewrite F1, F2, F3.
    split; [reflexivity|]. split; [reflexivity|]. split; [reflexivity|]. split; [|split].
    + intros k. rewrite E4, F6. cbn [List.find fst]. destruct (close_reasons s !! k); [done|].
      case_bool_decide as E; [|done]. done.
    + intros k. rewrite E5, F4. case_bool_decide as H1; case_bool_decide as H2; try done.
      * destruct H2. by right.
      * apply elem_of_cons in H2 as [->|H2]; [apply lookup_delete_eq|done].
      * apply lookup_delete_ne. intros ->. apply H2. by left.
    + intros tok. rewrite E6, F5, F4. setoid_rewrite lookup_delete_Some. setoid_rewrite elem_of_cons. split.
      * intros [[?|?]|(k & ? & _ & ?)]; [by left|right; exists c; auto|right; exists k; auto].
      * intros [?|(k & [->|?] & ?)]; [auto|auto|]. right. exists k. split; [done|]. split; [|done]. by intros ->.
Qed.

(** ** Properties *)

(** A live target, or a resource bound to one. *)
Definition chosen (s : ServerState) (targets : list key) (k : key) : Prop := k ∈ targets /\ live_resource s k.
Definition closing_of (s : ServerState) (targets : list key) (k : key) : Prop :=
  chosen s targets k \/ exists p, chosen s targets p /\ k ∈ children (reg s) p.

Lemma closing_list s targets reason :
  let closing := close_children (reg s) (close_targets (reg s) targets reason []) in
  NoDup (map fst closing) /\ (forall k, k ∈ map fst closing <-> closing_of s targets k) /\
  forall k x, (k, x) ∈ closing -> x = if bool_decide (k ∈ targets /\ live_resource s k) then reason else CloseReason_ParentClosed.
Proof.
  cbv zeta. destruct (close_targets_spec (reg s) targets reason []) as [N1 M1].
  { apply NoDup_nil_2. }
  { intros k x H. by apply not_elem_of_nil in H. }
  set (ts := close_targets _ _ _ _) in *. destruct (close_children_spec (reg s) ts N1) as [N2 M2].
  assert (Hts : forall k, k ∈ map fst ts <-> chosen s targets k).
  { intros k. rewrite elem_of_fst. unfold chosen. split.
    - intros [x [H|(? & ? & _)]%M1]; [by apply not_elem_of_nil in H|done].
    - intros [? ?]. exists reason. apply M1. by right. }
  split; [done|]. split.
  - intros k. rewrite elem_of_fst. unfold closing_of. split.
    + intros [x [H|(_ & (p & Hp & Hk) & _)]%M2]; [left; apply Hts, elem_of_fst; by exists x|]. right. exists p. by rewrite <- Hts.
    + intros H. destruct (decide (k ∈ map fst ts)) as [[x Hx]%elem_of_fst|Hn]; [exists x; apply M2; by left|].
      exists CloseReason_ParentClosed. apply M2. right. split; [done|]. split; [|done].
      destruct H as [H|(p & Hp & Hk)]; [by apply Hts in H|]. exists p. by rewrite Hts.
  - intros k x [H|(Hn & _ & ->)]%M2.
    + apply M1 in H as [H|(? & ? & ->)]; [by apply not_elem_of_nil in H|]. by rewrite bool_decide_true.
    + rewrite bool_decide_false; [done|]. intros H. by apply Hn, Hts.
Qed.

Lemma find_fst k (l : list (key * CloseReason)) :
  match List.find (fun kr => bool_decide (kr.1 = k)) l with
  | Some (k', x) => k' = k /\ (k, x) ∈ l
  | None => k ∉ map fst l
  end.
Proof.
  destruct (List.find _ l) as [[k' x]|] eqn:E.
  - apply List.find_some in E as [Hin H]. apply bool_decide_eq_true in H. cbn in H. subst. split; [done|]. by apply list_elem_of_In.
  - intros [x Hx%list_elem_of_In]%elem_of_fst. pose proof (List.find_none _ _ E _ Hx) as H. cbn in H. by rewrite bool_decide_true in H.
Qed.

(** [close_resources] starts the close of the targets that are live and of whatever is bound to
    them, each once however often it was named, and of nothing else: their engines are cancelled,
    the count is theirs, a target is to close with the given reason, a child that is not itself a
    target because its parent closed, and a reason that was recorded before stands. Nothing leaves
    the registry yet. *)
Theorem close_resources_exact s targets reason :
  let '(n, s') := close_resources s targets reason in
  (exists l, NoDup l /\ (forall k, k ∈ l <-> closing_of s targets k) /\ n = Z.min (len l) u32_max) /\
  reg s' = reg s /\ idspace s' = idspace s /\ handles (resources s') = handles (resources s) /\
  (forall k, closing_of s targets k -> tokens (resources s') !! k = None) /\
  (forall k, ~ closing_of s targets k -> tokens (resources s') !! k = tokens (resources s) !! k) /\
  (forall tok, tok ∈ cancelled (resources s') <->
     tok ∈ cancelled (resources s) \/ exists k, closing_of s targets k /\ tokens (resources s) !! k = Some tok) /\
  (forall k x, close_reasons s !! k = Some x -> close_reasons s' !! k = Some x) /\
  (forall k, close_reasons s !! k = None -> close_reasons s' !! k =
     if bool_decide (k ∈ targets /\ live_resource s k) then Some reason
     else if bool_decide (k ∈ concat (map (children (reg s)) (List.filter (fun p => live s p) targets))) then Some CloseReason_ParentClosed
     else None).
Proof.
  unfold close_resources. destruct (closing_list s targets reason) as (N & M & X). set (closing := close_children _ _) in *.
  destruct (close_each_spec closing s N) as (E1 & E2 & E3 & E4 & E5 & E6).
  split; [exists (map fst closing); split; [done|]; split; [done|]; unfold len; by rewrite length_map|].
  split; [done|]. split; [done|]. split; [done|]. split.
  { intros k Hk. rewrite E5, bool_decide_true; [done|by apply M]. }
  split; [intros k Hk; rewrite E5, bool_decide_false; [done|by rewrite M]|].
  split; [intros tok; rewrite E6; by setoid_rewrite M|]. split; [intros k x Hx; by rewrite E4, Hx|].
  intros k Hk. rewrite E4, Hk. pose proof (find_fst k closing) as Hf. destruct (List.find _ closing) as [[k' x]|].
  - destruct Hf as [-> Hin]. cbn. rewrite (X k x Hin). case_bool_decide as Hc; [done|].
    rewrite bool_decide_true; [done|]. assert (Hk' : closing_of s targets k) by (apply M, elem_of_fst; by exists x).
    destruct Hk' as [?|(p & [Hp Hl] & Hin')]; [done|]. apply list_elem_of_In, in_concat. exists (children (reg s) p).
    split; [|by apply list_elem_of_In]. apply in_map_iff. exists p. split; [done|]. apply filter_In.
    split; [by apply list_elem_of_In|]. unfold live. by apply bool_decide_eq_true.
  - cbn. rewrite bool_decide_false by (intros H; by apply Hf, M; left). rewrite bool_decide_false; [done|].
    rewrite list_elem_of_In, in_concat. intros (l & (p & <- & [Hp Hl]%filter_In)%in_map_iff & Hin). apply Hf, M. right.
    exists p. split; [|by apply list_elem_of_In]. split; [by apply list_elem_of_In|]. unfold live in Hl. by apply bool_decide_eq_true in Hl.
Qed.

(** ** Provenance *)

(** The calls on the resource table, newest first. *)
Inductive TableCall : Type :=
| T_spawn (k : key) (c : ClientId) | T_use (c : ClientId) (k : key) | T_subscribe (c : ClientId) (k : key)
| T_unsubscribe (c : ClientId) (k : key) | T_drop (c : ClientId) | T_cancel (c : ClientId)
| T_replace (c : ClientId) (k : key) (id : Z) (cancel done seq : positive) | T_track (c : ClientId) (k : key) (abort done : Token)
| T_stop (c : ClientId) (k : key) | T_next (c : ClientId) | T_cancel_pump (c : ClientId) (k : key)
| T_register (k : key) (h : ResourceHandle) (tok : Token) | T_detach (k : key) | T_forget (k : key).
Definition table_run (t : ResourceTable) (c : TableCall) : ResourceTable :=
  match c with
  | T_spawn k c => ResourceTable.record_spawn t k c
  | T_use c k => ResourceTable.note_use t c k
  | T_subscribe c k => ResourceTable.subscribe t c k
  | T_unsubscribe c k => unsubscribe t c k
  | T_drop c => drop_client_subscriptions t c
  | T_cancel c => cancel_pumps_for_client t c
  | T_replace c k id cancel done seq => (replace_pump t c k id cancel done seq).2
  | T_track c k abort done => track_output_pump t c k abort done
  | T_stop c k => (stop_output_pumps t c k).2
  | T_next c => (next_bootstrap_id t c).2
  | T_cancel_pump c k => cancel_pump t c k
  | T_register k h tok => register t k h tok
  | T_detach k => detach_actor t k
  | T_forget k => forget_resource t k
  end.
Definition table_after (h : list TableCall) : ResourceTable := foldr (fun c t => table_run t c) table_new h.

(** Who spawned the resource last and who used it since, straight from the history. *)
Fixpoint since_spawn (h : list TableCall) (k : key) : option (ClientId * list ClientId) :=
  match h with
  | [] => None
  | T_spawn k' c :: h => if bool_decide (k' = k) then Some (c, []) else since_spawn h k
  | T_use c k' :: h | T_subscribe c k' :: h =>
      if bool_decide (k' = k) then (fun r => (r.1, c :: r.2)) <$> since_spawn h k else since_spawn h k
  | T_forget k' :: h => if bool_decide (k' = k) then None else since_spawn h k
  | _ :: h => since_spawn h k
  end.

Lemma spawns_note_use t c k k' :
  spawns (ResourceTable.note_use t c k) !! k' =
    if bool_decide (k = k') then (fun r => mkSpawn (spawner r) (used_by_other r || negb (spawner r =? c))) <$> spawns t !! k' else spawns t !! k'.
Proof.
  unfold ResourceTable.note_use. case_bool_decide as E.
  - subst k'. destruct (spawns t !! k) as [[sp u]|] eqn:Es; cbn [spawner used_by_other]; [|by rewrite Es].
    cbn. destruct (sp =? c); cbn; [rewrite Es|rewrite lookup_insert_eq]; by destruct u.
  - destruct (spawns t !! k) as [r|]; [|done]. destruct (negb _); [|done]. cbn. by rewrite lookup_insert_ne.
Qed.

Lemma since_spawn_spec h k :
  spawns (table_after h) !! k = (fun r => mkSpawn r.1 (negb (forallb (fun c => c =? r.1) r.2))) <$> since_spawn h k.
Proof.
  assert (Huse : forall t c k' o, spawns t !! k = (fun r => mkSpawn r.1 (negb (forallb (fun c => c =? r.1) r.2))) <$> o ->
    spawns (ResourceTable.note_use t c k') !! k = (fun r => mkSpawn r.1 (negb (forallb (fun c => c =? r.1) r.2))) <$>
      if bool_decide (k' = k) then (fun r : ClientId * list ClientId => (r.1, c :: r.2)) <$> o else o).
  { intros t c k' o Ho. rewrite spawns_note_use. case_bool_decide; [|done]. rewrite Ho. destruct o as [[sp us]|]; cbn; [|done].
    do 2 f_equal. rewrite (Z.eqb_sym c sp). destruct (sp =? c), (forallb _ us); done. }
  induction h as [|c h IH]; [done|]. unfold table_after in *. cbn [foldr]. set (t := foldr _ _ h) in *. destruct c; cbn [table_run since_spawn].
  - unfold ResourceTable.record_spawn. cbn. case_bool_decide as E; [subst; by rewrite lookup_insert_eq|by rewrite lookup_insert_ne].
  - by apply Huse.
  - unfold ResourceTable.subscribe. cbn [set_subscribers spawns]. by apply Huse.
  - unfold unsubscribe. by destruct (subscribers t !! k0).
  - exact IH.
  - exact IH.
  - unfold replace_pump. by destruct (pumps t !! (c, k0)).
  - exact IH.
  - exact IH.
  - unfold next_bootstrap_id. by destruct (_ =? u64_max).
  - unfold cancel_pump. cbn. by destruct (pumps t !! (c, k0)).
  - exact IH.
  - unfold detach_actor. by destruct (tokens t !! k0).
  - unfold forget_resource, detach_actor. cbn. destruct (tokens t !! k0); cbn; (case_bool_decide as E; [subst; apply lookup_delete_eq|by rewrite lookup_delete_ne]).
Qed.

(** a conditional kill closes only what its conditions describe. It is admitted for an id that
    resolves, with conditions this server knows and an instance that is this server's; when it asks
    for a resource unattached since its spawn, the instance was given, the table's history has a
    spawn of it by a client and no use since by anyone else, and nothing but that resource starts to
    close. Otherwise it is refused. *)
Theorem conditional_kill_safe h s wire p :
  resources s = table_after h ->
  match kill_resource_if s wire p with
  | Ok s' => exists k, terminal_from_wire (idspace s) wire = Some k /\ s' = (close_resources s [k] CloseReason_Killed).2 /\
      KillConditions_unknown_bits (pre_conditions p) = 0 /\
      (forall i, pre_instance p = Some i -> i = IdBridge.instance (idspace s)) /\
      (KillConditions_contains (pre_conditions p) UNATTACHED_SINCE_SPAWN = true ->
         pre_instance p = Some (IdBridge.instance (idspace s)) /\
         (exists c users, since_spawn h k = Some (c, users) /\ forall u, u ∈ users -> u = c) /\
         forall j, closing_of s [k] j -> j = k)
  | Err Refused_NotFound => terminal_from_wire (idspace s) wire = None
  | Err (Refused_Precondition _) => pre_conditions p <> 0 \/ pre_instance p <> None
  end.
Proof.
  intros Ht. unfold kill_resource_if, admit_conditional_kill, lacks_required_instance, instance_matches, attachment_refusal.
  destruct (Z.eqb_spec (KillConditions_unknown_bits (pre_conditions p)) 0) as [Eu|Eu]; cbn [negb].
  2: { left. intros E. apply Eu. by rewrite E. }
  destruct (KillConditions_contains (pre_conditions p) UNATTACHED_SINCE_SPAWN) eqn:Ec; cbn [negb andb].
  - assert (Hne : pre_conditions p <> 0) by (intros E; rewrite E in Ec; by vm_compute in Ec).
    destruct (pre_instance p) as [i|]; cbn [has_some negb andb]; [|by left]. case_bool_decide as Ei; cbn [negb]; [|by left].
    destruct (terminal_from_wire (idspace s) wire) as [k|]; [|done].
    destruct (unattached_since_spawn (resources s) k) eqn:Eun; cbn [negb]; [|by left].
    destruct (children (reg s) k) as [|x xs] eqn:Ech; cbn [is_empty negb]; [|by left].
    exists k. split; [done|]. split; [done|]. split; [done|]. split; [by intros i' [= <-]|]. intros _. split; [by subst|]. split.
    + unfold unattached_since_spawn in Eun. rewrite Ht, since_spawn_spec in Eun.
      destruct (since_spawn h k) as [[c us]|]; [|done]. cbn in Eun. rewrite negb_involutive, forallb_forall in Eun.
      exists c, us. split; [done|]. intros u Hu%list_elem_of_In. apply Z.eqb_eq. by apply Eun.
    + intros j [[->%list_elem_of_singleton _]|(q & [->%list_elem_of_singleton _] & Hj)]; [done|].
      rewrite Ech in Hj. by apply not_elem_of_nil in Hj.
  - destruct (pre_instance p) as [i|]; cbn [has_some negb andb].
    + case_bool_decide as Ei; cbn [negb]; [|by right]. destruct (terminal_from_wire (idspace s) wire) as [k|]; [|done].
      exists k. split; [done|]. split; [done|]. split; [done|]. split; [by intros i' [= <-]|done].
    + destruct (terminal_from_wire (idspace s) wire) as [k|]; [|done].
      exists k. split; [done|]. split; [done|]. split; [done|]. by split.
Qed.

Definition unattached : KillPrecondition := mkKillPrecondition (Some []) UNATTACHED_SINCE_SPAWN.

Lemma conditional_kill_safe_witness :
  match kill_resource_if demo_server (ResourceId_Local 2) unattached with
  | Ok s' => s' = (close_resources demo_server [2%positive] CloseReason_Killed).2
  | Err _ => False
  end.
Proof.
  assert (Hr : resources demo_server = table_after [T_subscribe 7 2%positive; T_spawn 2%positive 7;
    T_register 2%positive (mkHandle Kind_AgentSession 2%positive) 2%positive; T_register 1%positive (mkHandle Kind_Terminal 1%positive) 1%positive])
    by (vm_compute; reflexivity).
  pose proof (conditional_kill_safe _ _ (ResourceId_Local 2) unattached Hr) as H.
  assert (E : is_ok (kill_resource_if demo_server (ResourceId_Local 2) unattached) = true) by (vm_compute; reflexivity).
  destruct (kill_resource_if demo_server (ResourceId_Local 2) unattached) as [s'|]; [|discriminate E].
  destruct H as (k & Hk & -> & _). assert (k = 2%positive) as -> by (vm_compute in Hk; congruence). reflexivity.
Defined.
