(* ===== verification/InputGate.v ===== *)
(** * Who may type ([phux-server/src/runtime/commands.rs])

    The input lease ("take the wheel") and every gate input passes: the attached frames, the
    headless command, and the frames a hub relays to a satellite. A critical section is a function
    of [ServerState]; the waits for a satellite's answer split a handler into steps. Texts that are
    formatted for a person are the arguments [debug_id] and [kind_text]. *)

From stdpp Require Import gmap.
From S2P Require Import Prelude Enums Caps Codec Command Frame.
From S2P Require Import IdBridge Leases SpawnLedger ResourceTable Metadata SessionTable Agent ClientTable.
From S2P Require Import Window Registry ServerState Lifecycle.
From S2P Require Import Ids.

(* phux-server/src/mailbox.rs TerminalInput *)
Inductive TerminalInput : Type :=
| Input_Key (e : KeyEvent) | Input_Mouse (e : MouseEvent) | Input_Focus (e : FocusEvent) | Input_Paste (e : PasteEvent).

(* phux-server/src/runtime/commands.rs terminal_input_from_event *)
Definition terminal_input_from_event (e : InputEvent) : TerminalInput :=
  match e with
  | InputEvent_Key e => Input_Key e | InputEvent_Mouse e => Input_Mouse e
  | InputEvent_Focus e => Input_Focus e | InputEvent_Paste e => Input_Paste e
  end.

(** What the pane's engine is told of its lease. *)
(* phux-server/src/resource/mod.rs:285-294 ControlRequest::LeaseChanged *)
Record LeaseChanged : Type := mkLeaseChanged { lc_pane : key; lc_holder : option Z; lc_action : ControlAction; lc_actor : Z }.

(* phux-server/src/runtime/commands.rs wire_client_id *)
Definition wire_client_id (id : ClientId) : Z := Z.min id u32_max.

Section InputGate.
  Context (accepts : Sender -> FrameKind -> bool).
  Context (debug_id : ResourceId -> bytes) (kind_text : WrongResourceKind -> bytes) (show_client : ClientId -> bytes).

(* phux-server/src/runtime/commands.rs wrong_resource_kind *)
Definition wrong_resource_kind (e : WrongResourceKind) : CommandResult :=
  CommandResult_Error ErrorCode_WrongResourceKind (kind_text e).
Definition no_such_terminal (wire : ResourceId) : CommandResult :=
  CommandResult_Error ErrorCode_TerminalNotFound (str "no such terminal: " ++ debug_id wire).
Definition lease_held_by (holder : ClientId) : CommandResult :=
  CommandResult_Error ErrorCode_InputLeaseHeld (str "input lease held by client " ++ show_client holder).
Definition lease_held : CommandResult :=
  CommandResult_Error ErrorCode_InputLeaseHeld (str "input lease held by another client").

(** ** The lease over a local pane *)

(* phux-server/src/runtime/commands.rs handle_acquire_input *)
Definition handle_acquire_input (s : ServerState) (client : ClientId) (wire : ResourceId) (mode : InputMode)
    : CommandResult * option LeaseChanged * ServerState :=
  match terminal_from_wire (idspace s) wire with
  | None => (no_such_terminal wire, None, s)
  | Some core =>
  match ResourceTable.handle (resources s) core with
  | None => (no_such_terminal wire, None, s)
  | Some h =>
  match handle_terminal h with
  | Err e => (wrong_resource_kind e, None, s)
  | Ok _ =>
      let prior := holder (leases s) core in
      let grant (a : ControlAction) :=
        (CommandResult_Ok, Some (mkLeaseChanged core (Some (wire_client_id client)) a (wire_client_id client)), up_leases s (acquire (leases s) core client).2) in
      match prior with
      | Some h => if h =? client then grant ControlAction_Acquired
                  else match mode with InputMode_Cooperative => (lease_held_by h, None, s) | InputMode_Seize => grant ControlAction_Seized end
      | None => grant ControlAction_Acquired
      end
  end end end.

(* phux-server/src/runtime/commands.rs handle_release_input *)
Definition handle_release_input (s : ServerState) (client : ClientId) (wire : ResourceId)
    : CommandResult * option LeaseChanged * ServerState :=
  match terminal_from_wire (idspace s) wire with
  | None => (no_such_terminal wire, None, s)
  | Some core =>
  match ResourceTable.handle (resources s) core with
  | None => (no_such_terminal wire, None, s)
  | Some h =>
  match handle_terminal h with
  | Err e => (wrong_resource_kind e, None, s)
  | Ok _ =>
      let '(did_release, t) := release (leases s) core client in
      (CommandResult_Ok, if did_release then Some (mkLeaseChanged core None ControlAction_Released (wire_client_id client)) else None, up_leases s t)
  end end end.

(** ** The gates in front of a pane *)

(** Headless input: the pane it may be handed to. *)
(* phux-server/src/runtime/commands.rs with_route_input_destination *)
Definition with_route_input_destination (s : ServerState) (client : ClientId) (wire : ResourceId) : result CommandResult key :=
  match resolve_resource s wire with
  | Resolved_Remote _ _ _ =>
      Err (CommandResult_Error ErrorCode_UnsupportedSatelliteRoute (str "ROUTE_INPUT to satellite route unsupported: " ++ debug_id wire))
  | Resolved_Unknown => Err (no_such_terminal wire)
  | Resolved_Local pane h =>
      if blocked (leases s) pane client then Err lease_held
      else match handle_terminal h with Err e => Err (wrong_resource_kind e) | Ok _ => Ok pane end
  end.

(** Attached input: the pane, with the touch and the refusal it leaves behind. *)
(* phux-server/src/runtime/commands.rs with_attached_input_destination *)
Definition with_attached_input_destination (s : ServerState) (client : ClientId) (wire : ResourceId) : option key * ServerState :=
  match resolve_resource s wire with
  | Resolved_Remote _ _ _ | Resolved_Unknown => (None, s)
  | Resolved_Local pane h =>
      if negb (bool_decide (client ∈ ResourceTable.subscribers_for (resources s) pane)) then (None, s)
      else if blocked (leases s) pane client then (None, s)
      else
        let s := match attached (clients s) !! client with
                 | Some c => up_sessions s (touch (sessions s) (at_session c))
                 | None => s
                 end in
        match handle_terminal h with
        | Ok _ => (Some pane, s)
        | Err e =>
            (None, match client_mailbox s client with
                   | Some tx => let f := FrameKind_Error None ErrorCode_WrongResourceKind (kind_text e) in
                                if accepts tx f then up_sent s (sent s ++ [(tx, f)]) else s
                   | None => s
                   end)
        end
  end.


(** ** Handing input to the engine *)

(** What an engine's bounded mailbox answers to a [try_send]. *)
Inductive Mailbox : Type := Mailbox_Taken | Mailbox_Full | Mailbox_Closed.
(** What reaches the engine: one input, a terminal's reply, or an acknowledged batch's bytes. *)
Inductive Payload : Type := Payload_Input (i : TerminalInput) | Payload_Reply (b : bytes) | Payload_Batch (b : bytes).
Definition Delivery : Type := key * ClientId * Payload.

Definition hand_over (pane : key) (client : ClientId) (p : Payload) (m : Mailbox) : list Delivery :=
  match m with Mailbox_Taken => [(pane, client, p)] | _ => [] end.

(* phux-server/src/runtime/commands.rs handle_route_input *)
Definition handle_route_input (s : ServerState) (client : ClientId) (wire : ResourceId) (e : InputEvent) (m : Mailbox)
    : CommandResult * list Delivery :=
  match with_route_input_destination s client wire with
  | Err r => (r, [])
  | Ok pane =>
      (match m with
       | Mailbox_Closed => CommandResult_Error ErrorCode_InternalError (str "pane actor unavailable for ROUTE_INPUT")
       | _ => CommandResult_Ok
       end, hand_over pane client (Payload_Input (terminal_input_from_event e)) m)
  end.

(** The local half of [handle_terminal_input] and of [handle_terminal_reply]. *)
(* phux-server/src/runtime/commands.rs:4861-4897 handle_terminal_input *)
Definition attached_delivery (s : ServerState) (client : ClientId) (wire : ResourceId) (p : Payload) (m : Mailbox)
    : list Delivery * ServerState :=
  let '(dest, s) := with_attached_input_destination s client wire in
  (match dest with Some pane => hand_over pane client p m | None => [] end, s).

(** ** The input lane: gate, encode off the lock, gate again *)

(** An input on the lane whose bytes are being encoded: where it was let through to. *)
Record LaneJob : Type := mkJob { job_client : ClientId; job_wire : ResourceId; job_input : TerminalInput; job_channel : positive; job_headless : bool }.

Definition channel_of (s : ServerState) (pane : key) : option positive := input_snapshot <$> ResourceTable.handle (resources s) pane.

(* phux-server/src/runtime/input_lane/mod.rs:506-526 process_attached *)
Definition lane_start_attached (s : ServerState) (client : ClientId) (wire : ResourceId) (i : TerminalInput) : option LaneJob * ServerState :=
  let '(dest, s) := with_attached_input_destination s client wire in
  (dest ≫= fun pane => (fun ch => mkJob client wire i ch false) <$> channel_of s pane, s).
(* phux-server/src/runtime/input_lane/mod.rs:564-568 process_headless *)
Definition lane_start_headless (s : ServerState) (client : ClientId) (wire : ResourceId) (i : TerminalInput) : result CommandResult (option LaneJob) :=
  match with_route_input_destination s client wire with
  | Err r => Err r
  | Ok pane => Ok ((fun ch => mkJob client wire i ch true) <$> channel_of s pane)
  end.
(* phux-server/src/runtime/input_lane/mod.rs:528-548 process_attached *)
Definition lane_finish_attached (s : ServerState) (j : LaneJob) (m : Mailbox) : list Delivery * ServerState :=
  let '(dest, s) := with_attached_input_destination s (job_client j) (job_wire j) in
  (match dest with
   | Some pane => if bool_decide (channel_of s pane = Some (job_channel j))
                  then hand_over pane (job_client j) (Payload_Input (job_input j)) m else []
   | None => []
   end, s).
(* phux-server/src/runtime/input_lane/mod.rs:574-592 process_headless *)
Definition lane_finish_headless (s : ServerState) (j : LaneJob) (m : Mailbox) : CommandResult * list Delivery :=
  match with_route_input_destination s (job_client j) (job_wire j) with
  | Err r => (r, [])
  | Ok pane =>
      if bool_decide (channel_of s pane = Some (job_channel j))
      then (match m with
            | Mailbox_Closed => CommandResult_Error ErrorCode_InternalError (str "pane actor unavailable for ROUTE_INPUT")
            | _ => CommandResult_Ok
            end, hand_over pane (job_client j) (Payload_Input (job_input j)) m)
      else (CommandResult_Ok, [])
  end.

(** ** The lease over a satellite's pane *)

Definition held_by_other (s : ServerState) (client : ClientId) (host : SatelliteHost) (terminal : Z) : bool :=
  match satellite_holder (leases s) host terminal with Some h => negb (h =? client) | None => false end.

(** Before the wait: the refusal, if there is one. *)
(* phux-server/src/runtime/commands.rs:2919-2927 relay_satellite_acquire_input *)
Definition satellite_acquire_refusal (s : ServerState) (client : ClientId) (host : SatelliteHost) (terminal : Z) (mode : InputMode)
    : option CommandResult :=
  match mode, satellite_holder (leases s) host terminal with
  | InputMode_Cooperative, Some h => if negb (h =? client) then Some (lease_held_by h) else None
  | _, _ => None
  end.
Definition is_error (r : CommandResult) : bool := match r with CommandResult_Error _ _ => true | _ => false end.
(** After it, with the satellite's answer: the lease that was evicted. *)
(* phux-server/src/runtime/commands.rs:2938-2953 relay_satellite_acquire_input *)
Definition satellite_acquire_commit (s : ServerState) (client : ClientId) (host : SatelliteHost) (terminal : Z) (out_tx : Sender)
    (answer : CommandResult) : option SatelliteLease * ServerState :=
  if is_error answer then (None, s)
  else let '(evicted, t) := set_satellite (leases s) host terminal client out_tx in (evicted, up_leases s t).
(** Before the wait: whether the release is a no-op that must not be relayed. *)
(* phux-server/src/runtime/commands.rs:2962-2970 relay_satellite_release_input *)
Definition satellite_release_is_noop (s : ServerState) (client : ClientId) (host : SatelliteHost) (terminal : Z) : bool :=
  held_by_other s client host terminal.
(* phux-server/src/runtime/commands.rs:2971-2977 relay_satellite_release_input *)
Definition satellite_release_commit (s : ServerState) (client : ClientId) (host : SatelliteHost) (terminal : Z) (answer : CommandResult)
    : ServerState :=
  if is_error answer then s else up_leases s (release_satellite (leases s) host terminal client).2.
(* phux-server/src/runtime/commands.rs relay_satellite_route_input *)
Definition satellite_route_refusal (s : ServerState) (client : ClientId) (host : SatelliteHost) (terminal : Z) : option CommandResult :=
  if held_by_other s client host terminal then Some lease_held else None.
(** The gate of [relay_satellite_input] and [relay_terminal_reply]. *)
(* phux-server/src/runtime/commands.rs:4688-4713 relay_satellite_input *)
Definition satellite_input_passes (s : ServerState) (client : ClientId) (host : SatelliteHost) (terminal : Z) : bool :=
  has_satellite_proxy_attach (leases s) client host terminal && negb (held_by_other s client host terminal).

End InputGate.
