(* ===== verification/AckInput.v ===== *)
(** * Acknowledged input ([phux-server/src/runtime/input_lane/])

    [APPLY_INPUT] answers what happened to a batch, and a client that lost its connection may send
    the batch again. Admission per Terminal, the dedupe cache, the completion waiter and the two
    ends of a pane's writer are here as the code has them; [lane_step] composes the threads: the
    client tasks, the lane, the engine, the writer and the waiter, whose queues are lists. An
    [Instant] is a number of nanoseconds. SHA-256, the encoders of a pane and the kernel's answer to
    a write are outside. *)

From stdpp Require Import gmap pretty.
From S2P Require Import Prelude Wire Fields Enums Caps Codec Info Command SshOrigin Frame.
From S2P Require Import IdBridge Leases SpawnLedger ResourceTable Metadata SessionTable Agent ClientTable.
From S2P Require Import Window Registry ServerState Lifecycle InputGate.
From S2P Require Import Ids.

Abbreviation OpId := (list Z).
Abbreviation Instant := Z.

(* phux-server/src/runtime/input_lane/acknowledged.rs DEDUPE_MAX_ENTRIES *)
Definition DEDUPE_MAX_ENTRIES : Z := 65536.
(* phux-server/src/runtime/input_lane/acknowledged.rs DEDUPE_RETENTION *)
Definition DEDUPE_RETENTION : Z := 600000000000.
(* phux-server/src/runtime/input_lane/acknowledged.rs ACKNOWLEDGED_COMPLETION_TIMEOUT *)
Definition ACKNOWLEDGED_COMPLETION_TIMEOUT : Z := 5000000000.

(** ** Admission *)

(* phux-server/src/runtime/input_lane/acknowledged.rs AcknowledgedReservation *)
Record Reservation : Type := mkReservation { res_terminal : ResourceId; admitted_at : Instant }.
(* phux-server/src/runtime/input_lane/acknowledged.rs AcknowledgedReservation::try_acquire *)
Definition try_acquire (in_flight : gset ResourceId) (terminal : ResourceId) (now : Instant)
    : option (Reservation * gset ResourceId) :=
  if bool_decide (terminal ∈ in_flight) then None else Some (mkReservation terminal now, {[terminal]} ∪ in_flight).
(** [Drop for AcknowledgedReservation]. *)
(* phux-server/src/runtime/input_lane/acknowledged.rs:112-116 drop *)
Definition drop_reservation (in_flight : gset ResourceId) (r : Reservation) : gset ResourceId := in_flight ∖ {[res_terminal r]}.

(** ** The dedupe cache *)

(* phux-server/src/runtime/input_lane/acknowledged.rs CachedOperation *)
Record CachedOperation : Type := mkCached { digest : bytes; op_result : option CommandResult; inserted_at : Instant }.
(* phux-server/src/runtime/input_lane/acknowledged.rs CacheBinding *)
Inductive CacheBinding : Type :=
| Binding_New | Binding_Pending | Binding_Final (r : CommandResult) | Binding_Conflict | Binding_Full.
(* phux-server/src/runtime/input_lane/acknowledged.rs OperationCache *)
Record OperationCache : Type := mkCache { entries : gmap OpId CachedOperation; expiry : list (Instant * OpId) }.
Definition cache_new : OperationCache := mkCache ∅ [].

(* phux-server/src/runtime/input_lane/acknowledged.rs OperationCache::prune_expired *)
Fixpoint prune_expired (es : gmap OpId CachedOperation) (q : list (Instant * OpId)) (now : Instant) : OperationCache :=
  match q with
  | [] => mkCache es []
  | (at_, op) :: rest =>
      if DEDUPE_RETENTION <=? saturating_sub now at_
      then prune_expired (match es !! op with
                          | Some e => if inserted_at e =? at_ then delete op es else es
                          | None => es
                          end) rest now
      else mkCache es q
  end.
(* phux-server/src/runtime/input_lane/acknowledged.rs OperationCache::is_full *)
Definition is_full (c : OperationCache) : bool := DEDUPE_MAX_ENTRIES <=? Z.of_nat (size (entries c)).
(* phux-server/src/runtime/input_lane/acknowledged.rs OperationCache::bind_at *)
Definition bind_at (c : OperationCache) (op : OpId) (d : bytes) (admitted_at : Instant) : CacheBinding * OperationCache :=
  let c := prune_expired (entries c) (expiry c) admitted_at in
  match entries c !! op with
  | Some cached =>
      if negb (bool_decide (digest cached = d)) then (Binding_Conflict, c)
      else (match op_result cached with Some r => Binding_Final r | None => Binding_Pending end, c)
  | None =>
      if is_full c then (Binding_Full, c)
      else (Binding_New, mkCache (<[op := mkCached d None admitted_at]> (entries c)) (expiry c ++ [(admitted_at, op)]))
  end.
(* phux-server/src/runtime/input_lane/acknowledged.rs OperationCache::set_final *)
Definition set_final (c : OperationCache) (op : OpId) (r : CommandResult) : OperationCache :=
  mkCache (alter (fun e => mkCached (digest e) (Some r) (inserted_at e)) op (entries c)) (expiry c).

(** ** Completion *)

(* phux-server/src/resource/terminal/requests.rs WriteCompletion *)
Inductive WriteCompletion : Type :=
| Write_Delivered | Write_Failed | Write_CanonicalLimitExceeded (limit : Z) | Write_NotWritten.

(* phux-server/src/runtime/input_lane/acknowledged.rs delivery_unknown *)
Definition delivery_unknown : CommandResult :=
  CommandResult_Error ErrorCode_InputDeliveryUnknown (str "PTY input delivery could not be confirmed").
(* phux-server/src/runtime/input_lane/acknowledged.rs not_written *)
Definition not_written : CommandResult :=
  CommandResult_Error ErrorCode_InputNotWritten (str "PTY input was not written; the pane's writer never received it").
(* phux-server/src/runtime/input_lane/acknowledged.rs completion_result *)
Definition completion_result (o : WriteCompletion) : CommandResult :=
  match o with
  | Write_Delivered => CommandResult_Ok
  | Write_CanonicalLimitExceeded limit =>
      CommandResult_Error ErrorCode_CanonicalLimitExceeded
        (str "the pane is in canonical (cooked) mode and this batch's encoded PTY bytes contain a line longer than "
         ++ str (pretty limit) ++ str " bytes with no line terminator; split it into newline-terminated lines, or have the pane enter raw mode (e.g. run a program that disables ICANON) before sending it")
  | Write_Failed => delivery_unknown
  | Write_NotWritten => not_written
  end.

(** A [CompletionTicket] is its number; a oneshot sender is the client it answers. *)
Abbreviation Ticket := Z.
(* phux-server/src/runtime/input_lane/acknowledged.rs TicketSource::next_ticket *)
Definition next_ticket (n : Z) : Ticket := (n + 1) mod 2 ^ 64.

(* phux-server/src/runtime/input_lane/acknowledged.rs PendingCompletion *)
Record PendingCompletion : Type := mkPending {
  pc_ticket : Ticket; pc_operation : OpId; pc_deadline : Instant; pc_reservation : Reservation; pc_reply : ClientId
}.
(* phux-server/src/runtime/input_lane/acknowledged.rs WaiterMessage *)
Inductive WaiterMessage : Type :=
| Registered (p : PendingCompletion)
| Completed (t : Ticket) (o : WriteCompletion)
| Abandoned (t : Ticket) (r : CommandResult)
| Shutdown.

(** The [BTreeSet] is a set whose least element is looked up by [first_deadline]. *)
(* phux-server/src/runtime/input_lane/acknowledged.rs PendingSet *)
Record PendingSet : Type := mkPendingSet { by_ticket : gmap Ticket PendingCompletion; by_deadline : gset (Instant * Ticket) }.
Definition pending_new : PendingSet := mkPendingSet ∅ ∅.
(* phux-server/src/runtime/input_lane/acknowledged.rs PendingSet::insert *)
Definition pending_insert (s : PendingSet) (p : PendingCompletion) : PendingSet :=
  mkPendingSet (<[pc_ticket p := p]> (by_ticket s)) ({[(pc_deadline p, pc_ticket p)]} ∪ by_deadline s).
(* phux-server/src/runtime/input_lane/acknowledged.rs PendingSet::take *)
Definition pending_take (s : PendingSet) (t : Ticket) : option (PendingCompletion * PendingSet) :=
  p ← by_ticket s !! t;
  Some (p, mkPendingSet (delete t (by_ticket s)) (by_deadline s ∖ {[(pc_deadline p, t)]})).
Definition pair_le (x y : Instant * Ticket) : bool := (x.1 <? y.1) || ((x.1 =? y.1) && (x.2 <=? y.2)).
Definition first_deadline (s : PendingSet) : option (Instant * Ticket) :=
  foldr (fun x acc => match acc with None => Some x | Some y => Some (if pair_le x y then x else y) end) None (elements (by_deadline s)).
(* phux-server/src/runtime/input_lane/acknowledged.rs PendingSet::next_deadline *)
Definition next_deadline (s : PendingSet) : option Instant := fst <$> first_deadline s.
(** The loop takes one element per round, so their number is fuel enough. *)
(* phux-server/src/runtime/input_lane/acknowledged.rs PendingSet::take_expired *)
Fixpoint take_expired_loop (fuel : nat) (s : PendingSet) (now : Instant) : list PendingCompletion * PendingSet :=
  match fuel with
  | O => ([], s)
  | S fuel =>
      match first_deadline s with
      | None => ([], s)
      | Some (deadline, t) =>
          if now <? deadline then ([], s)
          else
            let s := mkPendingSet (by_ticket s) (by_deadline s ∖ {[(deadline, t)]}) in
            match by_ticket s !! t with
            | Some p => let '(ps, s) := take_expired_loop fuel (mkPendingSet (delete t (by_ticket s)) (by_deadline s)) now in (p :: ps, s)
            | None => take_expired_loop fuel s now
            end
      end
  end.
Definition take_expired (s : PendingSet) (now : Instant) : list PendingCompletion * PendingSet :=
  take_expired_loop (S (size (by_deadline s))) s now.

(** ** The pane's end *)

(** What becomes of a request in the engine's hands: queued to the writer, or reported. *)
(* phux-server/src/resource/terminal/io.rs:161-202 service_encoded_input *)
Definition service_encoded_input (has_pty : bool) (queue : Mailbox) : option WriteCompletion :=
  if negb has_pty then Some Write_NotWritten
  else match queue with Mailbox_Taken => None | Mailbox_Full | Mailbox_Closed => Some Write_NotWritten end.
(** What the kernel answers to [write_all] and [flush]. *)
Inductive WriteOutcome : Type := Wrote | Write_PaneGone | Write_Fatal.
(** The report, whether a write was attempted, and whether the writer goes on. *)
(* phux-server/src/resource/terminal/spawn.rs service_write_request *)
Definition service_write_request (refusal : option Z) (outcome : WriteOutcome) : WriteCompletion * bool * bool :=
  match refusal with
  | Some limit => (Write_CanonicalLimitExceeded limit, false, true)
  | None => match outcome with
            | Wrote => (Write_Delivered, true, true)
            | Write_PaneGone | Write_Fatal => (Write_Failed, true, false)
            end
  end.

(** ** The lane *)

(* phux-server/src/runtime/input_lane/mod.rs acknowledged_resource_exhausted *)
Definition acknowledged_resource_exhausted (m : bytes) : CommandResult := CommandResult_Error ErrorCode_ResourceExhausted m.
(* phux-server/src/runtime/input_lane/mod.rs acknowledged_not_written *)
Definition acknowledged_not_written (m : bytes) : CommandResult := CommandResult_Error ErrorCode_InputNotWritten m.
Definition invalid_command (m : bytes) : CommandResult := CommandResult_Error ErrorCode_InvalidCommand m.

(** An [Instant] past the clock's end is the present. *)
(* phux-server/src/runtime/input_lane/acknowledged.rs deadline_from *)
Definition deadline_from (now : Instant) (timeout : Z) : Instant :=
  match checked_add_usize now timeout with Some d => d | None => now end.

Section Lane.
  Context (debug_id : ResourceId -> bytes) (kind_text : WrongResourceKind -> bytes).
  Context {RJ : Info.ReportJson} {IT : SshOrigin.IpText} (sha256 : bytes -> bytes).
  Context (would_reject : PasteEvent -> bool).

(* phux-server/src/runtime/input_lane/acknowledged.rs operation_digest *)
Definition operation_digest (op : OpId) (t : ResourceId) (events : list InputEvent) : bytes :=
  sha256 (encode (FrameKind_Command 0 (Command_ApplyInput op t events))).

(** What a pane's encoders answer: bytes, nothing to send, or a failure. *)
Section Encoders.
  Context (encode_with_snapshot : key -> TerminalInput -> option (option bytes)).

Definition rejected_paste (i : TerminalInput) : bool := match i with Input_Paste e => would_reject e | _ => false end.
(* phux-server/src/runtime/input_lane/mod.rs:701-718 prepare_acknowledged_batch *)
Fixpoint encode_all (pane : key) (inputs : list TerminalInput) (acc : bytes) : result CommandResult bytes :=
  match inputs with
  | [] => Ok acc
  | i :: rest =>
      match encode_with_snapshot pane i with
      | Some (Some b) =>
          if MAX_APPLY_INPUT_COMMAND_BODY <? len acc + len b
          then Err (invalid_command (str "APPLY_INPUT encoded PTY bytes exceed 64 KiB"))
          else encode_all pane rest (acc ++ b)
      | Some None => encode_all pane rest acc
      | None => Err (invalid_command (str "APPLY_INPUT event encoding failed"))
      end
  end.

(* phux-server/src/runtime/input_lane/mod.rs PreparedBatch *)
Record PreparedBatch : Type := mkPrepared { pb_pane : key; pb_channel : option positive; pb_bytes : bytes }.

(** [encoder_ok] is false when no encoder could be made for the pane. *)
(* phux-server/src/runtime/input_lane/mod.rs prepare_acknowledged_batch *)
Definition prepare_acknowledged_batch (s : ServerState) (c : OperationCache) (client : ClientId) (op : OpId) (t : ResourceId)
    (events : list InputEvent) (admitted_at : Instant) (encoder_ok : bool) : result CommandResult PreparedBatch * OperationCache :=
  if (len events =? 0) || (MAX_APPLY_INPUT_EVENTS <? len events)
  then (Err (invalid_command (str "APPLY_INPUT requires 1..=256 events")), c)
  else
    let d := operation_digest op t events in
    let inputs := map terminal_input_from_event events in
    let '(binding, c) := bind_at c op d admitted_at in
    (match binding with
     | Binding_Final r => Err r
     | Binding_Conflict => Err (invalid_command (str "APPLY_INPUT operation id reused with a different payload"))
     | Binding_Full => Err (acknowledged_resource_exhausted (str "acknowledged-input dedupe cache is full"))
     | Binding_New | Binding_Pending =>
         match with_route_input_destination debug_id kind_text s client t with
         | Err r => Err r
         | Ok pane =>
             if negb encoder_ok then Err (invalid_command (str "APPLY_INPUT encoder unavailable"))
             else if existsb rejected_paste inputs
             then Err (CommandResult_Error ErrorCode_UnsafePaste (str "APPLY_INPUT batch contains an unsafe paste"))
             else match encode_all pane inputs [] with
                  | Err r => Err r
                  | Ok b => Ok (mkPrepared pane (channel_of s pane) b)
                  end
         end
     end, c).
End Encoders.

(** What the lane's thread leaves behind the registration: the messages to the waiter, and
    the pane whose engine took the request, if one did. *)
(* phux-server/src/runtime/input_lane/mod.rs:779-821 process_apply_input *)
Definition hand_off (s : ServerState) (client : ClientId) (t : ResourceId) (b : PreparedBatch) (ticket : Ticket) (m : Mailbox)
    : list WaiterMessage * option key :=
  match with_route_input_destination debug_id kind_text s client t with
  | Err r => ([Abandoned ticket r], None)
  | Ok pane =>
      if negb (bool_decide (channel_of s pane = pb_channel b))
      then ([Abandoned ticket (acknowledged_not_written (str "pane actor changed before APPLY_INPUT handoff"))], None)
      else match m with
           | Mailbox_Taken => ([], Some pane)
           | Mailbox_Full =>
               let r := acknowledged_resource_exhausted (str "pane actor input mailbox is full") in
               ([Abandoned ticket r; Completed ticket Write_Failed; Abandoned ticket r], None)
           | Mailbox_Closed =>
               let r := acknowledged_not_written (str "pane actor unavailable for APPLY_INPUT") in
               ([Abandoned ticket r; Completed ticket Write_Failed; Abandoned ticket r], None)
           end
  end.

(** ** The threads together *)

(* phux-server/src/runtime/input_lane/mod.rs:119-126 RoutedInputKind::Acknowledged *)
Record AckRequest : Type := mkRequest {
  rq_client : ClientId; rq_op : OpId; rq_terminal : ResourceId; rq_events : list InputEvent; rq_reservation : Reservation
}.
(** A batch: its operation, when its id was bound, its ticket, and when the lane prepared it. *)
Record Handed : Type := mkHanded { h_op : OpId; h_bound : Instant; h_ticket : Ticket; h_at : Instant }.
(** A request the engine took or its writer's queue holds, its sink not fired. *)
(* phux-server/src/resource/terminal/requests.rs EncodedInputRequest *)
Record WriteJob : Type := mkWriteJob { wj_batch : Handed; wj_bytes : bytes; wj_queued : bool }.
(** The lane's thread between registering a batch and handing it off. *)
Record InHand : Type := mkInHand { ih_request : AckRequest; ih_prepared : PreparedBatch; ih_batch : Handed }.
(** What the waiter's thread has still to do, in its order. *)
Inductive WaiterAction : Type :=
| Act_SetFinal (op : OpId) (r : CommandResult)
| Act_Release (r : Reservation)
| Act_Reply (client : ClientId) (op : OpId) (r : CommandResult).

(* phux-server/src/runtime/input_lane/acknowledged.rs PendingCompletion::finalize *)
Definition finalize (p : PendingCompletion) (r : CommandResult) : list WaiterAction :=
  [Act_SetFinal (pc_operation p) r; Act_Release (pc_reservation p); Act_Reply (pc_reply p) (pc_operation p) r].
(* phux-server/src/runtime/input_lane/acknowledged.rs PendingCompletion::resolve_without_writer *)
Definition resolve_without_writer (p : PendingCompletion) (r : CommandResult) : list WaiterAction :=
  [Act_Release (pc_reservation p); Act_Reply (pc_reply p) (pc_operation p) r].
(** A [PendingCompletion] that is dropped releases its Terminal and closes its channel. *)
Definition drop_pending (p : PendingCompletion) : list WaiterAction :=
  resolve_without_writer p (CommandResult_Error ErrorCode_InternalError (str "input lane stopped before APPLY_INPUT completed")).

(** What the threads share and queue; the last five fields record what happened. *)
Record LaneState : Type := mkLane {
  now : Instant;
  in_flight : gset ResourceId;
  arriving : list AckRequest;
  queue : list AckRequest;
  cache : OperationCache;
  tickets : Z;
  in_hand : option InHand;
  mailbox : list WaiterMessage;
  pending : PendingSet;
  waiter_gone : bool;
  todo : list WaiterAction;
  jobs : list WriteJob;
  issued : list AckRequest;
  handed : list Handed;
  written : list Handed;
  reports : list (Ticket * WriteCompletion);
  answered : list (ClientId * OpId * CommandResult)
}.
Definition lane_new : LaneState := mkLane 0 ∅ [] [] cache_new 0 None [] pending_new false [] [] [] [] [] [] [].

Definition up_now s v := mkLane v (in_flight s) (arriving s) (queue s) (cache s) (tickets s) (in_hand s) (mailbox s) (pending s) (waiter_gone s) (todo s) (jobs s) (issued s) (handed s) (written s) (reports s) (answered s).
Definition up_in_flight s v := mkLane (now s) v (arriving s) (queue s) (cache s) (tickets s) (in_hand s) (mailbox s) (pending s) (waiter_gone s) (todo s) (jobs s) (issued s) (handed s) (written s) (reports s) (answered s).
Definition up_arriving s v := mkLane (now s) (in_flight s) v (queue s) (cache s) (tickets s) (in_hand s) (mailbox s) (pending s) (waiter_gone s) (todo s) (jobs s) (issued s) (handed s) (written s) (reports s) (answered s).
Definition up_queue s v := mkLane (now s) (in_flight s) (arriving s) v (cache s) (tickets s) (in_hand s) (mailbox s) (pending s) (waiter_gone s) (todo s) (jobs s) (issued s) (handed s) (written s) (reports s) (answered s).
Definition up_cache s v := mkLane (now s) (in_flight s) (arriving s) (queue s) v (tickets s) (in_hand s) (mailbox s) (pending s) (waiter_gone s) (todo s) (jobs s) (issued s) (handed s) (written s) (reports s) (answered s).
Definition up_tickets s v := mkLane (now s) (in_flight s) (arriving s) (queue s) (cache s) v (in_hand s) (mailbox s) (pending s) (waiter_gone s) (todo s) (jobs s) (issued s) (handed s) (written s) (reports s) (answered s).
Definition up_in_hand s v := mkLane (now s) (in_flight s) (arriving s) (queue s) (cache s) (tickets s) v (mailbox s) (pending s) (waiter_gone s) (todo s) (jobs s) (issued s) (handed s) (written s) (reports s) (answered s).
Definition up_waiter s mb ps td := mkLane (now s) (in_flight s) (arriving s) (queue s) (cache s) (tickets s) (in_hand s) mb ps (waiter_gone s) td (jobs s) (issued s) (handed s) (written s) (reports s) (answered s).
Definition up_jobs s v := mkLane (now s) (in_flight s) (arriving s) (queue s) (cache s) (tickets s) (in_hand s) (mailbox s) (pending s) (waiter_gone s) (todo s) v (issued s) (handed s) (written s) (reports s) (answered s).
Definition log_issued s rq := mkLane (now s) (in_flight s) (arriving s) (queue s) (cache s) (tickets s) (in_hand s) (mailbox s) (pending s) (waiter_gone s) (todo s) (jobs s) (issued s ++ [rq]) (handed s) (written s) (reports s) (answered s).
Definition log_handed s h := mkLane (now s) (in_flight s) (arriving s) (queue s) (cache s) (tickets s) (in_hand s) (mailbox s) (pending s) (waiter_gone s) (todo s) (jobs s) (issued s) (handed s ++ [h]) (written s) (reports s) (answered s).
Definition log_written s h := mkLane (now s) (in_flight s) (arriving s) (queue s) (cache s) (tickets s) (in_hand s) (mailbox s) (pending s) (waiter_gone s) (todo s) (jobs s) (issued s) (handed s) (written s ++ [h]) (reports s) (answered s).
Definition answer s c op r := mkLane (now s) (in_flight s) (arriving s) (queue s) (cache s) (tickets s) (in_hand s) (mailbox s) (pending s) (waiter_gone s) (todo s) (jobs s) (issued s) (handed s) (written s) (reports s) (answered s ++ [(c, op, r)]).
Definition stop_waiter s := mkLane (now s) (in_flight s) (arriving s) (queue s) (cache s) (tickets s) (in_hand s) [] pending_new true (todo s) (jobs s) (issued s) (handed s) (written s) (reports s) (answered s).

(** A [send] to a waiter that is gone goes nowhere. *)
Definition post (s : LaneState) (ms : list WaiterMessage) : LaneState :=
  if waiter_gone s then s else up_waiter s (mailbox s ++ ms) (pending s) (todo s).
(** [WriteCompletionSink::complete] on the sink of a ticket. *)
(* phux-server/src/runtime/input_lane/acknowledged.rs CompletionWaiterHandle::sink *)
Definition fire_sink (s : LaneState) (t : Ticket) (o : WriteCompletion) : LaneState :=
  post (mkLane (now s) (in_flight s) (arriving s) (queue s) (cache s) (tickets s) (in_hand s) (mailbox s) (pending s) (waiter_gone s) (todo s) (jobs s) (issued s) (handed s) (written s) (reports s ++ [(t, o)]) (answered s))
    [Completed t o].

(** The reservation is dropped and the caller told. *)
Definition refuse (s : LaneState) (rq : AckRequest) (r : CommandResult) : LaneState :=
  answer (up_in_flight s (drop_reservation (in_flight s) (rq_reservation rq))) (rq_client rq) (rq_op rq) r.

(** [apply_input], up to the reservation. *)
(* phux-server/src/runtime/input_lane/mod.rs:212-224 InputLaneHandle::apply_input *)
Definition apply_input_admit (s : LaneState) (client : ClientId) (op : OpId) (t : ResourceId) (events : list InputEvent) : LaneState :=
  match try_acquire (in_flight s) t (now s) with
  | None => answer s client op (acknowledged_resource_exhausted (str "another APPLY_INPUT operation is in flight for this terminal"))
  | Some (r, held) =>
      let rq := mkRequest client op t events r in
      log_issued (up_arriving (up_in_flight s held) (arriving s ++ [rq])) rq
  end.
(* phux-server/src/runtime/input_lane/mod.rs:225-252 InputLaneHandle::apply_input *)
Definition apply_input_send (s : LaneState) (l : list AckRequest) (rq : AckRequest) (l' : list AckRequest) (m : Mailbox) : LaneState :=
  let s := up_arriving s (l ++ l') in
  match m with
  | Mailbox_Taken => up_queue s (queue s ++ [rq])
  | Mailbox_Full => refuse s rq (acknowledged_resource_exhausted (str "input lane queue is full"))
  | Mailbox_Closed => refuse s rq (acknowledged_not_written (str "input lane unavailable for APPLY_INPUT"))
  end.

Definition bound_of (c : OperationCache) (op : OpId) : Instant := from_option inserted_at 0 (entries c !! op).

(** [process_apply_input], up to the registration. *)
(* phux-server/src/runtime/input_lane/mod.rs:735-779 process_apply_input *)
Definition process_apply_input (s : LaneState) (srv : ServerState) (encode_with_snapshot : key -> TerminalInput -> option (option bytes))
    (encoder_ok : bool) (rq : AckRequest) (rest : list AckRequest) : LaneState :=
  let '(prepared, c) := prepare_acknowledged_batch encode_with_snapshot srv (cache s) (rq_client rq) (rq_op rq) (rq_terminal rq) (rq_events rq)
                          (admitted_at (rq_reservation rq)) encoder_ok in
  let ticket := next_ticket (tickets s) in
  let s := up_tickets (up_cache (up_queue s rest) c) ticket in
  match prepared with
  | Err r => refuse s rq r
  | Ok b =>
      if waiter_gone s
      then refuse s rq (acknowledged_not_written (str "acknowledged completion waiter unavailable for APPLY_INPUT"))
      else
        let p := mkPending ticket (rq_op rq) (deadline_from (now s) ACKNOWLEDGED_COMPLETION_TIMEOUT) (rq_reservation rq) (rq_client rq) in
        up_in_hand (post s [Registered p]) (Some (mkInHand rq b (mkHanded (rq_op rq) (bound_of c (rq_op rq)) ticket (now s))))
  end.
(** The rest of [process_apply_input]. *)
Definition process_hand_off (s : LaneState) (srv : ServerState) (ih : InHand) (m : Mailbox) : LaneState :=
  let h := ih_batch ih in
  let '(ms, taken) := hand_off srv (rq_client (ih_request ih)) (rq_terminal (ih_request ih)) (ih_prepared ih) (h_ticket h) m in
  let s := post (up_in_hand s None) ms in
  if taken then log_handed (up_jobs s (jobs s ++ [mkWriteJob h (pb_bytes (ih_prepared ih)) false])) h else s.

(** The engine's hands, then the writer's thread. *)
Definition engine_services (s : LaneState) (l : list WriteJob) (j : WriteJob) (l' : list WriteJob) (has_pty : bool) (m : Mailbox) : LaneState :=
  match service_encoded_input has_pty m with
  | None => up_jobs s (l ++ mkWriteJob (wj_batch j) (wj_bytes j) true :: l')
  | Some o => fire_sink (up_jobs s (l ++ l')) (h_ticket (wj_batch j)) o
  end.
Definition writer_services (s : LaneState) (l : list WriteJob) (j : WriteJob) (l' : list WriteJob) (refusal : option Z) (outcome : WriteOutcome) : LaneState :=
  let '(o, attempted, _) := service_write_request refusal outcome in
  let s := up_jobs s (l ++ l') in
  fire_sink (if attempted : bool then log_written s (wj_batch j) else s) (h_ticket (wj_batch j)) o.
(** A request that is dropped with its sink: [Drop for WriteCompletionSink]. *)
(* phux-server/src/resource/terminal/requests.rs:274-280 drop *)
Definition drop_job (s : LaneState) (l : list WriteJob) (j : WriteJob) (l' : list WriteJob) : LaneState :=
  fire_sink (up_jobs s (l ++ l')) (h_ticket (wj_batch j)) Write_Failed.

Definition registered (ms : list WaiterMessage) : list PendingCompletion :=
  omap (fun m => match m with Registered p => Some p | _ => None end) ms.
Definition pend_list (ps : PendingSet) : list PendingCompletion := (map_to_list (by_ticket ps)).*2.

(** One round of [run_waiter]: the message it received, or none when the deadline came first. *)
(* phux-server/src/runtime/input_lane/acknowledged.rs run_waiter *)
Definition run_waiter (s : LaneState) (m : option WaiterMessage) (rest : list WaiterMessage) : LaneState :=
  let '(expired, ps) := take_expired (pending s) (now s) in
  let finals := concat (map (fun p => finalize p delivery_unknown) expired) in
  match m with
  | None => up_waiter s rest ps finals
  | Some Shutdown => stop_waiter (up_waiter s rest ps (finals ++ concat (map drop_pending (registered rest ++ pend_list ps))))
  | Some (Registered p) => up_waiter s rest (pending_insert ps p) finals
  | Some (Completed t o) =>
      match pending_take ps t with
      | Some (p, ps) => up_waiter s rest ps (finals ++ finalize p (completion_result o))
      | None => up_waiter s rest ps finals
      end
  | Some (Abandoned t r) =>
      match pending_take ps t with
      | Some (p, ps) => up_waiter s rest ps (finals ++ resolve_without_writer p r)
      | None => up_waiter s rest ps finals
      end
  end.
(** The next thing the waiter's thread has to do. *)
Definition waiter_acts (s : LaneState) (a : WaiterAction) (rest : list WaiterAction) : LaneState :=
  let s := up_waiter s (mailbox s) (pending s) rest in
  match a with
  | Act_SetFinal op r => up_cache s (set_final (cache s) op r)
  | Act_Release r => up_in_flight s (drop_reservation (in_flight s) r)
  | Act_Reply c op r => answer s c op r
  end.

End Lane.
