(* ===== verification/Wheel.v ===== *)
(** * Taking the wheel

    The gates of [InputGate] as a labelled step relation, with whatever else the server does in
    between, and what it guarantees the holder of a lease. *)

From stdpp Require Import gmap.
From S2P Require Import Prelude Enums Caps Codec Info Command SshOrigin Frame.
From S2P Require Import IdBridge Leases SpawnLedger ResourceTable Metadata SessionTable Agent ClientTable.
From S2P Require Import Window Registry ServerState Lifecycle Booked Watcher Spawn ServerSteps InputGate AckInput.
From S2P Require Import Ids.

Section Wheel.
Context (accepts : Sender -> FrameKind -> bool).
Context (debug_id : ResourceId -> bytes) (kind_text : WrongResourceKind -> bytes) (show_client : ClientId -> bytes).

(** The server, the jobs on the lane, the acknowledged batches it has prepared (with who sent them
    and to which wire id), what the engines were handed, the satellite calls that are waiting for
    an answer, and what the hub relayed. *)
Record Gate : Type := mkGate {
  srv : ServerState;
  jobs : list LaneJob;
  batches : list (ClientId * ResourceId * PreparedBatch);
  delivered : list Delivery;
  waiting : list (ClientId * SatelliteHost * Z * Sender);
  relayed : list (ClientId * SatelliteHost * Z)
}.
Definition with_srv g s := mkGate s (jobs g) (batches g) (delivered g) (waiting g) (relayed g).
Definition deliver g s ds := mkGate s (jobs g) (batches g) (delivered g ++ ds) (waiting g) (relayed g).

(** The bytes of a batch, in the hands of the engine that took it. *)
Definition batch_delivery (c : ClientId) (b : PreparedBatch) (taken : option key) : list Delivery :=
  match taken with Some pane => [(pane, c, Payload_Batch (pb_bytes b))] | None => [] end.

(** What a step did, with the pane its wire id led to. *)
Inductive Label : Type :=
| L_acquire (client : ClientId) (pane : option key) (mode : InputMode)
| L_release (client : ClientId) (pane : option key)
| L_detach (client : ClientId)
| L_input (client : ClientId)
| L_satellite_acquire (client : ClientId) (host : SatelliteHost) (terminal : Z) (mode : InputMode)
| L_satellite_granted (client : ClientId) (host : SatelliteHost) (terminal : Z)
| L_satellite_release (client : ClientId) (host : SatelliteHost) (terminal : Z)
| L_satellite_input (client : ClientId) (host : SatelliteHost) (terminal : Z)
| L_other.

Inductive gate_step (g : Gate) : Label -> Gate -> Prop :=
| g_acquire c wire mode :
    gate_step g (L_acquire c (terminal_from_wire (idspace (srv g)) wire) mode)
      (with_srv g (handle_acquire_input debug_id kind_text show_client (srv g) c wire mode).2)
| g_release c wire :
    gate_step g (L_release c (terminal_from_wire (idspace (srv g)) wire))
      (with_srv g (handle_release_input debug_id kind_text (srv g) c wire).2)
| g_detach c : gate_step g (L_detach c) (with_srv g (detach accepts (srv g) c))
| g_attached c wire p m :
    gate_step g (L_input c)
      (deliver g (attached_delivery accepts kind_text (srv g) c wire p m).2 (attached_delivery accepts kind_text (srv g) c wire p m).1)
| g_route c wire e m :
    gate_step g (L_input c) (deliver g (srv g) (handle_route_input debug_id kind_text (srv g) c wire e m).2)
| g_lane_attached c wire i j s :
    lane_start_attached accepts kind_text (srv g) c wire i = (Some j, s) ->
    gate_step g (L_input c) (mkGate s (j :: jobs g) (batches g) (delivered g) (waiting g) (relayed g))
| g_lane_headless c wire i j :
    lane_start_headless debug_id kind_text (srv g) c wire i = Ok (Some j) ->
    gate_step g (L_input c) (mkGate (srv g) (j :: jobs g) (batches g) (delivered g) (waiting g) (relayed g))
| g_lane_finish j m :
    j ∈ jobs g ->
    gate_step g (L_input (job_client j))
      (if job_headless j then deliver g (srv g) (lane_finish_headless debug_id kind_text (srv g) j m).2
       else deliver g (lane_finish_attached accepts kind_text (srv g) j m).2 (lane_finish_attached accepts kind_text (srv g) j m).1)
| g_apply_prepare {RJ : Info.ReportJson} {IT : SshOrigin.IpText} sha256 would_reject encoders cache c op wire events at_ ok b cache' :
    prepare_acknowledged_batch debug_id kind_text sha256 would_reject encoders (srv g) cache c op wire events at_ ok = (Ok b, cache') ->
    gate_step g (L_input c) (mkGate (srv g) (jobs g) ((c, wire, b) :: batches g) (delivered g) (waiting g) (relayed g))
| g_apply_hand_off c wire b ticket m :
    (c, wire, b) ∈ batches g ->
    gate_step g (L_input c)
      (deliver g (srv g) (batch_delivery c b (hand_off debug_id kind_text (srv g) c wire b ticket m).2))
| g_satellite_acquire c host t mode tx :
    satellite_acquire_refusal show_client (srv g) c host t mode = None ->
    gate_step g (L_satellite_acquire c host t mode)
      (mkGate (srv g) (jobs g) (batches g) (delivered g) ((c, host, t, tx) :: waiting g) (relayed g))
| g_satellite_granted c host t tx answer :
    (c, host, t, tx) ∈ waiting g ->
    gate_step g (L_satellite_granted c host t) (with_srv g (satellite_acquire_commit (srv g) c host t tx answer).2)
| g_satellite_release c host t answer :
    gate_step g (L_satellite_release c host t) (with_srv g (satellite_release_commit (srv g) c host t answer))
| g_satellite_input c host t :
    satellite_input_passes (srv g) c host t = true ->
    gate_step g (L_satellite_input c host t) (mkGate (srv g) (jobs g) (batches g) (delivered g) (waiting g) (relayed g ++ [(c, host, t)]))
| g_satellite_route c host t :
    satellite_route_refusal (srv g) c host t = None ->
    gate_step g (L_satellite_input c host t) (mkGate (srv g) (jobs g) (batches g) (delivered g) (waiting g) (relayed g ++ [(c, host, t)]))
| g_other s :
    input (leases s) = input (leases (srv g)) -> satellite (leases s) = satellite (leases (srv g)) ->
    gate_step g L_other (with_srv g s).

Inductive gate_steps : Gate -> list Label -> Gate -> Prop :=
| gates_refl g : gate_steps g [] g
| gates_step g l g' ls g'' : gate_step g l g' -> gate_steps g' ls g'' -> gate_steps g (l :: ls) g''.

(** ** One step *)

Lemma attached_gate s c wire :
  match (with_attached_input_destination accepts kind_text s c wire).1 with
  | Some pane => blocked (leases s) pane c = false /\ c ∈ ResourceTable.subscribers_for (resources s) pane
  | None => True
  end /\
  leases (with_attached_input_destination accepts kind_text s c wire).2 = leases s.
Proof.
  unfold with_attached_input_destination. destruct (resolve_resource s wire) as [pane h| |]; [|done..].
  case_bool_decide as Hs; cbn [negb]; [|done]. destruct (blocked (leases s) pane c) eqn:Hb; [done|]. cbv zeta.
  destruct (attached (clients s) !! c) as [a|]; destruct (handle_terminal h); cbn [fst snd]; (split; [done|]); try done;
    destruct (client_mailbox _ c); try done; by destruct (accepts _ _).
Qed.

Lemma route_gate s c wire pane :
  with_route_input_destination debug_id kind_text s c wire = Ok pane -> blocked (leases s) pane c = false.
Proof.
  unfold with_route_input_destination. destruct (resolve_resource s wire) as [p h| |]; [|done..].
  destruct (blocked (leases s) p c) eqn:Hb; [done|]. destruct (handle_terminal h); [by intros [= <-]|done].
Qed.

Lemma hand_over_in pane c p m d : d ∈ hand_over pane c p m -> d = (pane, c, p).
Proof. destruct m; cbn; [by intros ->%list_elem_of_singleton|by intros H%not_elem_of_nil..]. Qed.

(** Only a label that names the pane's lease moves it. *)
Definition takes_over (pane : key) (c : ClientId) (l : Label) : Prop :=
  l = L_release c (Some pane) \/ l = L_detach c \/ exists c', c' <> c /\ l = L_acquire c' (Some pane) InputMode_Seize.

Lemma acquire_holder s c wire mode pane h :
  holder (leases s) pane = Some h ->
  (terminal_from_wire (idspace s) wire = Some pane -> h = c \/ mode = InputMode_Cooperative) ->
  holder (leases (handle_acquire_input debug_id kind_text show_client s c wire mode).2) pane = Some h.
Proof.
  intros Hh Hno. unfold handle_acquire_input. destruct (terminal_from_wire (idspace s) wire) as [core|]; [|done].
  destruct (ResourceTable.handle (resources s) core); [|done]. destruct (handle_terminal _); [|done].
  assert (Hg : forall a, (core = pane -> h = c) -> holder (leases (CommandResult_Ok, Some (mkLeaseChanged core (Some (wire_client_id c)) a (wire_client_id c)),
    up_leases s (acquire (leases s) core c).2).2) pane = Some h).
  { intros act Hc. cbn. unfold holder. cbn. destruct (decide (core = pane)) as [->|Hne]; [by rewrite lookup_insert_eq, Hc|].
    by rewrite lookup_insert_ne. }
  destruct (holder (leases s) core) as [h'|] eqn:E; cbv zeta.
  - destruct (Z.eqb_spec h' c) as [->|Hne]; [apply Hg; intros ->; congruence|]. destruct mode; [done|]. apply Hg.
    intros ->. rewrite Hh in E. injection E as ->. by destruct (Hno eq_refl).
  - apply Hg. intros ->. congruence.
Qed.

Lemma release_holder s c wire pane h :
  holder (leases s) pane = Some h -> (terminal_from_wire (idspace s) wire = Some pane -> h <> c) ->
  holder (leases (handle_release_input debug_id kind_text s c wire).2) pane = Some h.
Proof.
  intros Hh Hno. unfold handle_release_input. destruct (terminal_from_wire (idspace s) wire) as [core|]; [|done].
  destruct (ResourceTable.handle (resources s) core); [|done]. destruct (handle_terminal _); [|done]. unfold release.
  case_bool_decide as E; [|done]. cbn. unfold holder in *. cbn. rewrite lookup_delete_ne; [done|]. intros ->.
  rewrite Hh in E. injection E as E. by apply (Hno eq_refl).
Qed.

Lemma detach_leases s c : leases (detach accepts s c) = release_all_for (leases s) c.
Proof.
  unfold detach. assert (H : forall ks s, leases (fold_left (fun s k => (metadata_delete accepts s Scope_Global k).2) ks s) = leases s).
  { clear. induction ks as [|k ks IH]; intros s; cbn [fold_left]; [done|]. rewrite IH. unfold metadata_delete.
    destruct (delete_key (metadata s) Scope_Global k) as [e m]. destruct e; [|done]. cbn [negb]. unfold broadcast_metadata_change.
    by destruct (broadcast_metadata_changed _ _ _ _ _ _). }
  match goal with |- context[fold_left _ ?ks ?s0] => etrans; [exact (H ks s0)|reflexivity] end.
Qed.

(** What was handed over in a step was let through by the lease. *)
Lemma attached_delivered s c wire p m d :
  d ∈ (attached_delivery accepts kind_text s c wire p m).1 -> blocked (leases s) d.1.1 c = false /\ d.1.2 = c.
Proof.
  unfold attached_delivery. destruct (attached_gate s c wire) as [Hg _].
  destruct (with_attached_input_destination _ _ _ _ _) as [[pane|] s']; cbn [fst]; [|by intros H%not_elem_of_nil].
  intros ->%hand_over_in. by destruct Hg.
Qed.
Lemma route_delivered s c wire e m d :
  d ∈ (handle_route_input debug_id kind_text s c wire e m).2 -> blocked (leases s) d.1.1 c = false /\ d.1.2 = c.
Proof.
  unfold handle_route_input. destruct (with_route_input_destination _ _ _ _ _) as [pane|] eqn:E; cbn [snd]; [|by intros H%not_elem_of_nil].
  intros ->%hand_over_in. split; [by eapply route_gate|done].
Qed.
Lemma lane_attached_delivered s j m d :
  d ∈ (lane_finish_attached accepts kind_text s j m).1 -> blocked (leases s) d.1.1 (job_client j) = false /\ d.1.2 = job_client j.
Proof.
  unfold lane_finish_attached. destruct (attached_gate s (job_client j) (job_wire j)) as [Hg _].
  destruct (with_attached_input_destination _ _ _ _ _) as [[pane|] s']; cbn [fst]; [|by intros H%not_elem_of_nil].
  case_bool_decide as Ech; [|by intros H%not_elem_of_nil]. intros ->%hand_over_in. by destruct Hg.
Qed.
Lemma lane_headless_delivered s j m d :
  d ∈ (lane_finish_headless debug_id kind_text s j m).2 -> blocked (leases s) d.1.1 (job_client j) = false /\ d.1.2 = job_client j.
Proof.
  unfold lane_finish_headless. destruct (with_route_input_destination _ _ _ _ _) as [pane|] eqn:E; cbn [snd]; [|by intros H%not_elem_of_nil].
  case_bool_decide as Ech; cbn [snd]; [|by intros H%not_elem_of_nil]. intros ->%hand_over_in. split; [by eapply route_gate|done].
Qed.

Lemma batch_delivered s c wire b ticket m d :
  d ∈ batch_delivery c b (hand_off debug_id kind_text s c wire b ticket m).2 -> blocked (leases s) d.1.1 c = false /\ d.1.2 = c.
Proof.
  unfold hand_off. destruct (with_route_input_destination _ _ _ _ _) as [pane|] eqn:E; [|by intros H%not_elem_of_nil].
  apply route_gate in E. case_bool_decide; cbn [negb]; [|by intros H'%not_elem_of_nil].
  destruct m; cbn; [by intros ->%list_elem_of_singleton|by intros H'%not_elem_of_nil..].
Qed.

Lemma not_blocked t pane c h : holder t pane = Some h -> blocked t pane c = false -> c = h.
Proof. unfold holder, blocked. intros ->. rewrite negb_false_iff. intros ->%Z.eqb_eq. done. Qed.

Lemma only_holder s (ds : list Delivery) pane h c :
  holder (leases s) pane = Some h -> (forall d, d ∈ ds -> blocked (leases s) d.1.1 c = false /\ d.1.2 = c) ->
  forall c' p, (pane, c', p) ∈ ds -> c' = h.
Proof. intros Hh Hd c' p [Hb Hc]%Hd. cbn in *. subst c'. by eapply not_blocked. Qed.

Lemma step_keeps g l g' pane h :
  gate_step g l g' -> holder (leases (srv g)) pane = Some h -> ~ takes_over pane h l ->
  holder (leases (srv g')) pane = Some h /\
  exists ds, delivered g' = delivered g ++ ds /\ forall c p, (pane, c, p) ∈ ds -> c = h.
Proof.
  intros Hst Hh Hno.
  assert (Hnone : exists ds : list Delivery, delivered g = delivered g ++ ds /\ forall c p, (pane, c, p) ∈ ds -> c = h).
  { exists []. split; [by rewrite app_nil_r|]. by intros c p H%not_elem_of_nil. }
  destruct Hst as [c wire mode|c wire|c|c wire p m|c wire e m|c wire i j s E|c wire i j E|j m Hj|RJ IT sha wr enc cache c op wire es at_ ok b cache' E|c wire b tk m Hb|c host t mode tx E|c host t tx answer Hw|c host t answer|c host t E|c host t E|s E1 E2];
    cbn [srv with_srv deliver delivered].
  - split; [|exact Hnone]. apply acquire_holder; [done|]. intros E. destruct (decide (h = c)) as [|Hne]; [by left|]. right.
    destruct mode; [done|]. destruct Hno. right. right. exists c. split; [congruence|by rewrite E].
  - split; [|exact Hnone]. apply release_holder; [done|]. intros E ->. apply Hno. left. by rewrite E.
  - split; [|exact Hnone]. rewrite detach_leases, release_all_holder, Hh. destruct (Z.eqb_spec h c) as [->|]; [|done].
    destruct Hno. right. by left.
  - split; [|eexists; split; [reflexivity|eapply only_holder; [exact Hh|intros d; apply attached_delivered]]].
    unfold attached_delivery. destruct (attached_gate (srv g) c wire) as [_ El].
    destruct (with_attached_input_destination _ _ _ _ _) as [[q|] s']; cbn in *; by rewrite El.
  - split; [done|]. eexists. split; [reflexivity|]. eapply only_holder; [exact Hh|intros d; apply route_delivered].
  - split; [|exact Hnone]. unfold lane_start_attached in E. destruct (attached_gate (srv g) c wire) as [_ El].
    destruct (with_attached_input_destination _ _ _ _ _) as [q s']; cbn in *. injection E as _ <-. by rewrite El.
  - split; [exact Hh|exact Hnone].
  - destruct (job_headless j); cbn [srv deliver delivered].
    + split; [done|]. eexists. split; [reflexivity|]. eapply only_holder; [exact Hh|intros d; apply lane_headless_delivered].
    + split; [|eexists; split; [reflexivity|eapply only_holder; [exact Hh|intros d; apply lane_attached_delivered]]].
      unfold lane_finish_attached. destruct (attached_gate (srv g) (job_client j) (job_wire j)) as [_ El].
      destruct (with_attached_input_destination _ _ _ _ _) as [[q|] s']; cbn in *; by rewrite El.
  - split; [exact Hh|exact Hnone].
  - split; [done|]. eexists. split; [reflexivity|]. eapply only_holder; [exact Hh|intros d; apply batch_delivered].
  - split; [exact Hh|exact Hnone].
  - split; [|exact Hnone]. unfold satellite_acquire_commit. by destruct (is_error answer).
  - split; [|exact Hnone]. unfold satellite_release_commit. destruct (is_error answer); [done|]. unfold release_satellite.
    by case_bool_decide.
  - split; [exact Hh|exact Hnone].
  - split; [exact Hh|exact Hnone].
  - split; [|exact Hnone]. unfold holder in *. by rewrite E1.
Qed.

(** ** Satellites *)

Definition takes_satellite (host : SatelliteHost) (t : Z) (h : ClientId) (l : Label) : Prop :=
  l = L_satellite_release h host t \/ l = L_detach h \/ exists c, c <> h /\ l = L_satellite_granted c host t.

Lemma local_satellite s s' : satellite (leases s') = satellite (leases s) ->
  forall host t, satellite_holder (leases s') host t = satellite_holder (leases s) host t.
Proof. intros E host t. unfold satellite_holder. by rewrite E. Qed.

Lemma acquire_satellite s c wire mode :
  satellite (leases (handle_acquire_input debug_id kind_text show_client s c wire mode).2) = satellite (leases s).
Proof.
  unfold handle_acquire_input. destruct (terminal_from_wire _ _) as [core|]; [|done]. destruct (ResourceTable.handle _ _); [|done].
  destruct (handle_terminal _); [|done]. destruct (holder _ core) as [h|]; [|done]. cbv zeta. destruct (h =? c); [done|]. by destruct mode.
Qed.
Lemma release_satellite_frame s c wire :
  satellite (leases (handle_release_input debug_id kind_text s c wire).2) = satellite (leases s).
Proof.
  unfold handle_release_input. destruct (terminal_from_wire _ _) as [core|]; [|done]. destruct (ResourceTable.handle _ _); [|done].
  destruct (handle_terminal _); [|done]. unfold release. by case_bool_decide.
Qed.

Lemma satellite_commit_keeps s c host t tx answer host' t' h :
  satellite_holder (leases s) host' t' = Some h -> ~ ((host, t) = (host', t') /\ c <> h) ->
  satellite_holder (leases (satellite_acquire_commit s c host t tx answer).2) host' t' = Some h.
Proof.
  intros Hh Hno. unfold satellite_acquire_commit. destruct (is_error answer); [done|]. cbn. unfold satellite_holder in *. cbn.
  destruct (decide ((host, t) = (host', t'))) as [[= -> ->]|Hne]; [|by rewrite lookup_insert_ne].
  rewrite lookup_insert_eq. cbn. f_equal. destruct (decide (c = h)) as [|Hc]; [done|]. by destruct Hno.
Qed.

Lemma satellite_release_keeps s c host t answer host' t' h :
  satellite_holder (leases s) host' t' = Some h -> ~ ((host, t) = (host', t') /\ c = h) ->
  satellite_holder (leases (satellite_release_commit s c host t answer)) host' t' = Some h.
Proof.
  intros Hh Hno. unfold satellite_release_commit, release_satellite. destruct (is_error answer); [done|].
  case_bool_decide as E; [|done]. unfold satellite_holder in *. cbn. rewrite lookup_delete_ne; [done|]. intros [= -> ->].
  apply Hno. split; [done|]. congruence.
Qed.

Lemma satellite_step_keeps g l g' host t h :
  gate_step g l g' -> satellite_holder (leases (srv g)) host t = Some h -> ~ takes_satellite host t h l ->
  satellite_holder (leases (srv g')) host t = Some h /\
  exists rs, relayed g' = relayed g ++ rs /\ forall c, (c, host, t) ∈ rs -> c = h.
Proof.
  intros Hst Hh Hno.
  assert (Hnone : exists rs : list (ClientId * SatelliteHost * Z), relayed g = relayed g ++ rs /\ forall c, (c, host, t) ∈ rs -> c = h).
  { exists []. split; [by rewrite app_nil_r|]. by intros c H%not_elem_of_nil. }
  destruct Hst as [c wire mode|c wire|c|c wire p m|c wire e m|c wire i j s E|c wire i j E|j m Hj|RJ IT sha wr enc cache c op wire es at_ ok b cache' E|c wire b tk m Hb|c host' t' mode tx E|c host' t' tx answer Hw|c host' t' answer|c host' t' E|c host' t' E|s E1 E2];
    cbn [srv with_srv deliver delivered relayed]; try (split; [|exact Hnone]); try exact Hh.
  - by rewrite (local_satellite (srv g)) by apply acquire_satellite.
  - by rewrite (local_satellite (srv g)) by apply release_satellite_frame.
  - rewrite detach_leases, release_all_satellite_holder, Hh. destruct (Z.eqb_spec h c) as [->|]; [|done]. destruct Hno. right. by left.
  - unfold attached_delivery. destruct (attached_gate (srv g) c wire) as [_ El].
    destruct (with_attached_input_destination _ _ _ _ _) as [[q|] s']; cbn in *; by rewrite El.
  - unfold lane_start_attached in E. destruct (attached_gate (srv g) c wire) as [_ El].
    destruct (with_attached_input_destination _ _ _ _ _) as [q s']; cbn in *. injection E as _ <-. by rewrite El.
  - destruct (job_headless j); cbn [srv deliver relayed]; (split; [|exact Hnone]); [exact Hh|].
    unfold lane_finish_attached. destruct (attached_gate (srv g) (job_client j) (job_wire j)) as [_ El].
    destruct (with_attached_input_destination _ _ _ _ _) as [[q|] s']; cbn in *; by rewrite El.
  - apply satellite_commit_keeps; [done|]. intros [[= -> ->] Hc]. apply Hno. right. right. by exists c.
  - apply satellite_release_keeps; [done|]. intros [[= -> ->] ->]. apply Hno. by left.
  - split; [exact Hh|]. eexists. split; [reflexivity|]. intros c' [= -> -> ->]%list_elem_of_singleton.
    unfold satellite_input_passes, held_by_other in E. rewrite Hh, andb_true_iff, negb_true_iff, negb_false_iff, Z.eqb_eq in E. by destruct E.
  - split; [exact Hh|]. eexists. split; [reflexivity|]. intros c' [= -> -> ->]%list_elem_of_singleton.
    unfold satellite_route_refusal, held_by_other in E. rewrite Hh in E. destruct (Z.eqb_spec h c); [done|discriminate].
  - by rewrite (local_satellite (srv g)).
Qed.

(** C5: whoever takes the wheel keeps it: from a state in which [h] holds the lease of a local pane,
    through any steps of any clients, of the input lane and of the rest of the server, until [h]
    releases it or detaches or another client seizes it, [h] holds it and every input the pane's
    engine is handed is [h]'s: attached input and terminal replies, [ROUTE_INPUT], and the acknowledged
    batches of [APPLY_INPUT], those that were let through and encoded before the lease was taken
    included. The same holds of a satellite's pane and the input, [ROUTE_INPUT] and replies a hub
    relays, except that there any granted acquire of another client takes it. *)
Theorem wheel_is_kept g ls g' :
  gate_steps g ls g' ->
  (forall pane h, holder (leases (srv g)) pane = Some h -> (forall l, l ∈ ls -> ~ takes_over pane h l) ->
     holder (leases (srv g')) pane = Some h /\
     exists ds, delivered g' = delivered g ++ ds /\ forall c p, (pane, c, p) ∈ ds -> c = h) /\
  (forall host t h, satellite_holder (leases (srv g)) host t = Some h -> (forall l, l ∈ ls -> ~ takes_satellite host t h l) ->
     satellite_holder (leases (srv g')) host t = Some h /\
     exists rs, relayed g' = relayed g ++ rs /\ forall c, (c, host, t) ∈ rs -> c = h).
Proof.
  induction 1 as [g|g l g1 ls g2 Hst _ [IH1 IH2]].
  - split.
    + intros pane h Hh _. split; [done|]. exists []. split; [by rewrite app_nil_r|]. by intros c p H%not_elem_of_nil.
    + intros host t h Hh _. split; [done|]. exists []. split; [by rewrite app_nil_r|]. by intros c H%not_elem_of_nil.
  - split.
    + intros pane h Hh Hno. destruct (step_keeps g l g1 pane h Hst Hh) as [H1 (d1 & E1 & D1)]; [apply Hno; by left|].
      destruct (IH1 pane h H1) as [H2 (d2 & E2 & D2)]; [intros l' Hl'; apply Hno; by right|]. split; [done|].
      exists (d1 ++ d2). split; [by rewrite E2, E1, app_assoc|]. intros c p [?|?]%elem_of_app; [by eapply D1|by eapply D2].
    + intros host t h Hh Hno. destruct (satellite_step_keeps g l g1 host t h Hst Hh) as [H1 (d1 & E1 & D1)]; [apply Hno; by left|].
      destruct (IH2 host t h H1) as [H2 (d2 & E2 & D2)]; [intros l' Hl'; apply Hno; by right|]. split; [done|].
      exists (d1 ++ d2). split; [by rewrite E2, E1, app_assoc|]. intros c [?|?]%elem_of_app; [by eapply D1|by eapply D2].
Qed.

(** what [ACQUIRE_INPUT] and [RELEASE_INPUT] answer and do. An acquire is granted exactly when
    the id names a live Terminal and its lease is free, the caller's own, or seized; then the
    caller holds it and the engine is told, as a seizure exactly when another held it. A release
    frees the lease exactly when the caller held it and always succeeds on a live Terminal. Every
    refusal changes nothing, and no other pane's lease moves. *)
Theorem lease_commands_functional s c wire mode :
  let pane := terminal_from_wire (idspace s) wire in
  let kind_of := pane ≫= fun k => facet_kind <$> ResourceTable.handle (resources s) k in
  let '(r, told, s') := handle_acquire_input debug_id kind_text show_client s c wire mode in
  let '(r2, told2, s2) := handle_release_input debug_id kind_text s c wire in
  (r = CommandResult_Ok <-> exists k, pane = Some k /\ kind_of = Some Kind_Terminal /\
     (holder (leases s) k = None \/ holder (leases s) k = Some c \/ mode = InputMode_Seize)) /\
  (r <> CommandResult_Ok -> s' = s /\ told = None) /\
  (r = CommandResult_Ok -> forall k, pane = Some k ->
     holder (leases s') k = Some c /\ (forall k', k' <> k -> holder (leases s') k' = holder (leases s) k') /\
     told = Some (mkLeaseChanged k (Some (wire_client_id c))
       (match holder (leases s) k with Some h => if h =? c then ControlAction_Acquired else ControlAction_Seized
        | None => ControlAction_Acquired end) (wire_client_id c))) /\
  (r2 = CommandResult_Ok <-> kind_of = Some Kind_Terminal) /\
  (forall k, pane = Some k -> r2 = CommandResult_Ok ->
     holder (leases s2) k = (if bool_decide (holder (leases s) k = Some c) then None else holder (leases s) k) /\
     (told2 = None <-> holder (leases s) k <> Some c) /\
     forall k', k' <> k -> holder (leases s2) k' = holder (leases s) k').
Proof.
  cbv zeta. unfold handle_acquire_input, handle_release_input. destruct (terminal_from_wire (idspace s) wire) as [k|]; cbn [mbind option_bind].
  2: { split; [split; [done|by intros (? & ? & _)]|]. split; [done|]. split; [done|]. split; [done|done]. }
  destruct (ResourceTable.handle (resources s) k) as [hd|]; cbn [fmap option_fmap option_map].
  2: { split; [split; [done|by intros (? & _ & ? & _)]|]. split; [done|]. split; [done|]. split; [done|done]. }
  unfold handle_terminal. destruct (facet_kind hd); [|].
  2: { split; [split; [done|by intros (? & _ & ? & _)]|]. split; [done|]. split; [done|]. split; [done|done]. }
  unfold release, holder, acquire. cbn [fst snd]. destruct (input (leases s) !! k) as [h|] eqn:Eh; cbn [input].
  - destruct (Z.eqb_spec h c) as [->|Hne]; cbv zeta.
    + rewrite bool_decide_true by done. cbn.
      split; [split; [eauto 8|done]|]. split; [done|]. split.
      { intros _ k0 [= <-]. rewrite lookup_insert_eq, Eh, Z.eqb_refl. split; [done|]. split; [|done].
        intros k' Hk. by rewrite lookup_insert_ne. }
      split; [done|]. intros k0 [= <-] _. rewrite lookup_delete_eq, Eh, bool_decide_true by done. split; [done|].
      split; [split; [done|by intros []]|]. intros k' Hk. by rewrite lookup_delete_ne.
    + rewrite bool_decide_false by congruence. destruct mode; cbn.
      * split; [split; [done|intros (k0 & [= <-] & _ & [?|[?|?]]); congruence]|]. split; [done|]. split; [done|]. split; [done|].
        intros k0 [= <-] _. rewrite Eh, bool_decide_false by congruence. split; [done|]. split; [split; [congruence|done]|done].
      * split; [split; [eauto 8|done]|]. split; [done|]. split.
        { intros _ k0 [= <-]. rewrite lookup_insert_eq, Eh, (proj2 (Z.eqb_neq h c) Hne). split; [done|]. split; [|done].
          intros k' Hk. by rewrite lookup_insert_ne. }
        split; [done|]. intros k0 [= <-] _. rewrite Eh, bool_decide_false by congruence. split; [done|].
        split; [split; [congruence|done]|done].
  - rewrite bool_decide_false by done. cbn. split; [split; [eauto 8|done]|]. split; [done|]. split.
    { intros _ k0 [= <-]. rewrite lookup_insert_eq, Eh. split; [done|]. split; [|done]. intros k' Hk. by rewrite lookup_insert_ne. }
    split; [done|]. intros k0 [= <-] _. rewrite Eh, bool_decide_false by done. split; [done|]. split; [split; [congruence|done]|done].
Qed.
End Wheel.

(** ** Examples *)

Definition no_id (w : ResourceId) : bytes := [].
Definition no_kind (e : WrongResourceKind) : bytes := [].
Definition no_client (c : ClientId) : bytes := [].
Definition calm : Gate := mkGate demo_server [] [] [] [] [].
(** Client 7 has the wheel of the demo server's pane. *)
Definition driving : Gate :=
  with_srv calm (handle_acquire_input no_id no_kind no_client demo_server 7 (ResourceId_Local 1) InputMode_Cooperative).2.
Definition type_as (c : ClientId) (g : Gate) : Gate :=
  deliver g (srv g) (handle_route_input no_id no_kind (srv g) c (ResourceId_Local 1) (InputEvent_Focus FocusEvent_Gained) Mailbox_Taken).2.

Lemma wheel_is_kept_witness :
  holder (leases (srv driving)) 1%positive = Some 7 /\
  delivered (type_as 7 (type_as 8 driving)) = [(1%positive, 7, Payload_Input (Input_Focus FocusEvent_Gained))] /\
  exists ds, delivered (type_as 7 (type_as 8 driving)) = delivered driving ++ ds /\ forall c p, (1%positive, c, p) ∈ ds -> c = 7.
Proof.
  split; [vm_compute; reflexivity|]. split; [vm_compute; reflexivity|].
  assert (Hst : gate_steps take_all no_id no_kind no_client driving [L_input 8; L_input 7] (type_as 7 (type_as 8 driving))).
  { eapply gates_step; [apply (g_route _ _ _ _ driving 8)|]. eapply gates_step; [apply (g_route _ _ _ _ (type_as 8 driving) 7)|].
    constructor. }
  destruct (wheel_is_kept take_all no_id no_kind no_client _ _ _ Hst) as [H _].
  apply (H 1%positive 7); [vm_compute; reflexivity|].
  intros l [->|[->|Hl]%elem_of_cons]%elem_of_cons [E|[E|(c' & _ & E)]]; try discriminate E; by apply not_elem_of_nil in Hl.
Defined.

(** A batch of client 8 that was let through and encoded while the lease was free is handed over
    then, and is not once client 7 has the wheel. *)
Definition prepared_early : PreparedBatch := mkPrepared 1%positive (channel_of demo_server 1%positive) (str "ls").
Lemma early_batch_is_stopped :
  batch_delivery 8 prepared_early (hand_off no_id no_kind demo_server 8 (ResourceId_Local 1) prepared_early 1 Mailbox_Taken).2
    = [(1%positive, 8, Payload_Batch (str "ls"))] /\
  batch_delivery 8 prepared_early (hand_off no_id no_kind (srv driving) 8 (ResourceId_Local 1) prepared_early 1 Mailbox_Taken).2 = [].
Proof. split; vm_compute; reflexivity. Qed.

Lemma free_not_refused show s c host t mode :
  satellite_holder (leases s) host t = None -> satellite_acquire_refusal show s c host t mode = None.
Proof. unfold satellite_acquire_refusal. intros ->. by destruct mode. Qed.

(** Over a satellite's pane the exclusion has a gap: an acquire is checked before the wait for the
    satellite and recorded after it, so of two clients that ask politely for a free pane at the same
    time both are granted it, and the second takes it from the first. *)
Theorem polite_acquires_collide (host : SatelliteHost) (t : Z) :
  exists g, gate_steps take_all no_id no_kind no_client calm
    [L_satellite_acquire 1 host t InputMode_Cooperative; L_satellite_acquire 2 host t InputMode_Cooperative;
     L_satellite_granted 1 host t] g /\
  satellite_holder (leases (srv g)) host t = Some 1 /\
  exists g', gate_step take_all no_id no_kind no_client g (L_satellite_granted 2 host t) g' /\
    satellite_holder (leases (srv g')) host t = Some 2.
Proof.
  set (w1 := (1, host, t, 10)). set (w2 := (2, host, t, 20)).
  set (g1 := mkGate demo_server [] [] [] [w1] []). set (g2 := mkGate demo_server [] [] [] [w2; w1] []).
  assert (Hfree : satellite_holder (leases demo_server) host t = None) by (vm_compute; reflexivity).
  set (g3 := with_srv g2 (satellite_acquire_commit demo_server 1 host t 10 CommandResult_Ok).2).
  exists g3. split; [|split].
  - eapply gates_step; [apply (g_satellite_acquire _ _ _ _ calm 1 host t InputMode_Cooperative 10);
      by apply free_not_refused|].
    eapply gates_step; [apply (g_satellite_acquire _ _ _ _ g1 2 host t InputMode_Cooperative 20);
      by apply free_not_refused|].
    eapply gates_step; [apply (g_satellite_granted _ _ _ _ g2 1 host t 10 CommandResult_Ok); right; left|constructor].
  - unfold satellite_holder. cbn. by rewrite lookup_insert_eq.
  - eexists. split; [apply (g_satellite_granted _ _ _ _ g3 2 host t 20 CommandResult_Ok); left|].
    unfold satellite_holder. cbn. by rewrite lookup_insert_eq.
Qed.

(** A client that detaches keeps passing the hub's gate to the satellite panes it had attached. *)
Theorem detached_client_still_relays accepts s c host t :
  satellite_input_passes s c host t = true -> satellite_input_passes (detach accepts s c) c host t = true.
Proof.
  unfold satellite_input_passes, held_by_other, has_satellite_proxy_attach. rewrite detach_leases, release_all_satellite_holder.
  rewrite !andb_true_iff. intros [H1 H2]. split; [exact H1|]. destruct (satellite_holder _ _ _) as [h|]; [|done].
  by destruct (h =? c).
Qed.
