(* ===== verification/ExactlyOnce.v ===== *)
(** * Nothing typed twice

    Invariants of the threads of [AckInput] over every interleaving, and what a client that resends
    an acknowledged batch is promised by them. *)

From stdpp Require Import gmap.
From S2P Require Import Prelude Wire Fields Enums Caps Codec Info Command SshOrigin Compress Instances Frame FrameDecode FrameProofs FrameRead.
From S2P Require Import IdBridge Leases SpawnLedger ResourceTable Metadata SessionTable Agent ClientTable.
From S2P Require Import Window Registry ServerState Lifecycle Booked Watcher Spawn ServerSteps InputGate Wheel AckInput.
From S2P Require Import Ids.

#[local] Arguments bool_decide : simpl never.

(** ** Counting *)

Section Count.
Context {A : Type} `{EqDecision A}.

Fixpoint cnt (x : A) (l : list A) : nat :=
  match l with [] => O | y :: l => ((if decide (x = y) then 1 else 0) + cnt x l)%nat end.
Lemma cnt_app x (l k : list A) : cnt x (l ++ k) = (cnt x l + cnt x k)%nat.
Proof. induction l as [|y l IH]; simpl; [done|rewrite IH; lia]. Qed.
#[export] Instance cnt_perm x : Proper ((≡ₚ) ==> eq) (cnt x).
Proof. intros l k H. induction H; simpl; lia. Qed.
Lemma cnt_elem x (l : list A) : (1 <= cnt x l)%nat <-> x ∈ l.
Proof.
  induction l as [|y l IH]; simpl; [split; [lia|intros H; by apply not_elem_of_nil in H]|].
  rewrite elem_of_cons, <- IH. case_decide; split; intros; intuition (try lia; congruence).
Qed.
Lemma cnt_none x (l : list A) : x ∉ l -> cnt x l = O.
Proof. rewrite <- cnt_elem. lia. Qed.
Lemma cnt_some x (l : list A) : x ∈ l -> (1 <= cnt x l)%nat.
Proof. apply cnt_elem. Qed.
Lemma cnt_cons_eq x (l : list A) : cnt x (x :: l) = S (cnt x l).
Proof. simpl. by rewrite decide_True. Qed.
Lemma elem_map {B} (f : B -> A) x (l : list B) : x ∈ l -> f x ∈ map f l.
Proof. apply list_elem_of_fmap_2. Qed.
(** Where nothing occurs twice, a value is found in one place. *)
Lemma cnt_once {B} (f : B -> A) (l : list B) (a b : B) :
  (forall x, (cnt x (map f l) <= 1)%nat) -> a ∈ l -> b ∈ l -> f a = f b -> a = b.
Proof.
  intros H Ha Hb E. induction l as [|y l IH]; [by apply not_elem_of_nil in Ha|].
  assert (Hl : forall x, (cnt x (map f l) <= 1)%nat) by (intros x; specialize (H x); simpl in H; lia).
  specialize (H (f y)); simpl in H; rewrite decide_True in H by done.
  assert (Hn : forall z, z ∈ l -> f z <> f y).
  { intros z Hz Ez. assert (Hin : f y ∈ map f l) by (rewrite <- Ez; by apply list_elem_of_fmap_2).
    apply cnt_some in Hin. lia. }
  apply elem_of_cons in Ha as [->|Ha]; apply elem_of_cons in Hb as [->|Hb]; [done| | |by apply IH].
  - by destruct (Hn _ Hb).
  - by destruct (Hn _ Ha).
Qed.
End Count.

(** ** The pending set *)

Lemma pend_list_insert ps p :
  by_ticket ps !! pc_ticket p = None -> pend_list (pending_insert ps p) ≡ₚ p :: pend_list ps.
Proof. intros H. unfold pend_list, pending_insert; simpl. by rewrite map_to_list_insert. Qed.
Lemma pend_list_delete ps d t p :
  by_ticket ps !! t = Some p -> pend_list ps ≡ₚ p :: pend_list (mkPendingSet (delete t (by_ticket ps)) d).
Proof. intros H. unfold pend_list; simpl. by rewrite <- (map_to_list_delete _ _ _ H). Qed.
Lemma pending_take_spec ps t p ps' :
  pending_take ps t = Some (p, ps') ->
  by_ticket ps !! t = Some p /\ by_ticket ps' = delete t (by_ticket ps) /\ pend_list ps ≡ₚ p :: pend_list ps'.
Proof.
  unfold pending_take. destruct (by_ticket ps !! t) as [q|] eqn:E; [|done].
  cbn [mbind option_bind]. injection 1 as <- <-. split; [done|]. split; [done|]. by apply pend_list_delete.
Qed.
Lemma pend_list_elem ps p : p ∈ pend_list ps <-> exists t, by_ticket ps !! t = Some p.
Proof.
  unfold pend_list. rewrite list_elem_of_fmap. split.
  - intros ([t q] & -> & H%elem_of_map_to_list). by exists t.
  - intros [t H]. exists (t, p). split; [done|by apply elem_of_map_to_list].
Qed.

Lemma take_expired_loop_spec n ps now :
  let '(ex, ps') := take_expired_loop n ps now in
  ex ++ pend_list ps' ≡ₚ pend_list ps /\ by_ticket ps' ⊆ by_ticket ps.
Proof.
  revert ps. induction n as [|n IH]; intros ps; simpl; [done|].
  destruct (first_deadline ps) as [[d t]|]; [|done]. destruct (now <? d); [done|].
  destruct (by_ticket ps !! t) as [p|] eqn:E.
  - specialize (IH (mkPendingSet (delete t (by_ticket ps)) (by_deadline ps ∖ {[(d, t)]}))). simpl in IH |- *.
    destruct (take_expired_loop _ _ _) as [ex ps']. destruct IH as [Hp Hs]. split.
    + rewrite (pend_list_delete ps (by_deadline ps ∖ {[(d, t)]}) t p E). simpl. by rewrite Hp.
    + etransitivity; [exact Hs|]. apply delete_subseteq.
  - specialize (IH (mkPendingSet (by_ticket ps) (by_deadline ps ∖ {[(d, t)]}))). simpl in IH.
    destruct (take_expired_loop _ _ _) as [ex ps']. exact IH.
Qed.
Lemma take_expired_spec ps now ex ps' :
  take_expired ps now = (ex, ps') -> ex ++ pend_list ps' ≡ₚ pend_list ps /\ by_ticket ps' ⊆ by_ticket ps.
Proof. intros E. pose proof (take_expired_loop_spec (S (size (by_deadline ps))) ps now) as H. unfold take_expired in E. by rewrite E in H. Qed.

(** ** The steps *)

(** A batch a client could send: a command that fits its frame. *)
Definition command_of {IT : SshOrigin.IpText} {RJ : Info.ReportJson} (op : OpId) (t : ResourceId) (events : list InputEvent) : FrameKind :=
  FrameKind_Command 0 (Command_ApplyInput op t events).
Definition sendable {IT : SshOrigin.IpText} {RJ : Info.ReportJson} (op : OpId) (t : ResourceId) (events : list InputEvent) : Prop :=
  wf_frame BootstrapLimits_default (command_of op t events) = true /\
  len (encode_body (command_of op t events)) <= MAX_FRAME_LEN /\ len (encode (command_of op t events)) <= isize_max.

Section Steps.
Context (debug_id : ResourceId -> bytes) (kind_text : WrongResourceKind -> bytes).
Context {RJ : Info.ReportJson} {IT : SshOrigin.IpText} (sha256 : bytes -> bytes) (would_reject : PasteEvent -> bool).

(** Each thread's next action, against whatever the server, the encoders, the queues and the
    kernel answer. The ticket counter is taken not to wrap. *)
Inductive lane_step (s : LaneState) : LaneState -> Prop :=
| t_tick d : 0 <= d -> lane_step s (up_now s (now s + d))
| t_admit c op t events : sendable op t events -> lane_step s (apply_input_admit s c op t events)
| t_send l rq l' m : arriving s = l ++ rq :: l' -> lane_step s (apply_input_send s l rq l' m)
| t_process srv enc ok rq rest :
    in_hand s = None -> queue s = rq :: rest -> tickets s + 1 < 2 ^ 64 ->
    lane_step s (process_apply_input debug_id kind_text sha256 would_reject s srv enc ok rq rest)
| t_hand_off srv ih m : in_hand s = Some ih -> lane_step s (process_hand_off debug_id kind_text s srv ih m)
| t_engine l j l' has_pty m :
    jobs s = l ++ j :: l' -> wj_queued j = false -> lane_step s (engine_services s l j l' has_pty m)
| t_writer l j l' refusal outcome :
    jobs s = l ++ j :: l' -> wj_queued j = true -> lane_step s (writer_services s l j l' refusal outcome)
| t_drop l j l' : jobs s = l ++ j :: l' -> lane_step s (drop_job s l j l')
| t_stop : lane_step s (post s [Shutdown])
| t_message m rest : waiter_gone s = false -> todo s = [] -> mailbox s = m :: rest -> lane_step s (run_waiter s (Some m) rest)
| t_deadline d :
    waiter_gone s = false -> todo s = [] -> next_deadline (pending s) = Some d -> d <= now s ->
    lane_step s (run_waiter s None (mailbox s))
| t_act a rest : todo s = a :: rest -> lane_step s (waiter_acts s a rest).

Inductive lane_run : LaneState -> Prop :=
| lane_starts : lane_run lane_new
| lane_goes s s' : lane_run s -> lane_step s s' -> lane_run s'.

(** ** What the invariants read *)

Definition unresolved (s : LaneState) : list PendingCompletion := registered (mailbox s) ++ pend_list (pending s).
Definition releases (td : list WaiterAction) : list ResourceId :=
  omap (fun a => match a with Act_Release r => Some (res_terminal r) | _ => None end) td.
(** Who holds a Terminal's reservation: a request, an unresolved operation, or the waiter. *)
Definition holders (s : LaneState) : list ResourceId :=
  map (fun rq => res_terminal (rq_reservation rq)) (arriving s ++ queue s)
  ++ map (fun p => res_terminal (pc_reservation p)) (unresolved s) ++ releases (todo s).
(** The batches past their registration that no refusal has claimed. *)
Definition live (s : LaneState) : list Handed := handed s ++ match in_hand s with Some ih => [ih_batch ih] | None => [] end.

Definition settling (fin refs : list (PendingCompletion * CommandResult)) : list WaiterAction :=
  concat (map (fun x => finalize x.1 x.2) fin) ++ concat (map (fun x => resolve_without_writer x.1 x.2) refs).
Lemma releases_app a b : releases (a ++ b) = releases a ++ releases b.
Proof. apply omap_app. Qed.
Lemma releases_settling fin refs :
  releases (settling fin refs) = map (fun p => res_terminal (pc_reservation p)) (map fst fin ++ map fst refs).
Proof.
  unfold settling. rewrite releases_app, map_app. f_equal.
  - induction fin as [|x l IH]; [done|]. cbn [map concat]. by rewrite releases_app, IH.
  - induction refs as [|x l IH]; [done|]. cbn [map concat]. by rewrite releases_app, IH.
Qed.
Lemma registered_app a b : registered (a ++ b) = registered a ++ registered b.
Proof. apply omap_app. Qed.
Lemma registered_elem p ms : p ∈ registered ms <-> Registered p ∈ ms.
Proof.
  unfold registered. rewrite list_elem_of_omap. split.
  - intros (m & Hm & E). destruct m; try done. by injection E as ->.
  - intros H. by exists (Registered p).
Qed.

(** One round of the waiter, whatever woke it: the operations it settles leave the unresolved ones. *)
Definition keyed (ps : PendingSet) : Prop := forall t p, by_ticket ps !! t = Some p -> pc_ticket p = t.
Definition woken (s : LaneState) (m : option WaiterMessage) (rest : list WaiterMessage) : Prop :=
  match m with Some x => mailbox s = x :: rest | None => rest = mailbox s end.
Lemma not_in_nil {A} (x : A) (P : Prop) : x ∈ @nil A -> P.
Proof. intros H. by apply not_elem_of_nil in H. Qed.
Lemma settled_dropped l r0 :
  concat (map (fun p => resolve_without_writer p r0) l) = settling [] (map (fun p => (p, r0)) l)
  /\ map fst (map (fun p => (p, r0)) l) = l /\ (forall p r, (p, r) ∈ map (fun p => (p, r0)) l -> r = r0).
Proof.
  unfold settling. rewrite !map_map. split; [done|]. split; [apply map_id|].
  intros p r (q & E & _)%list_elem_of_fmap. by injection E.
Qed.
Lemma round_spec s m rest :
  woken s m rest -> keyed (pending s) -> (forall t, (cnt t (map pc_ticket (unresolved s)) <= 1)%nat) -> waiter_gone s = false ->
  exists mb ps g fin refs,
    run_waiter s m rest = mkLane (now s) (in_flight s) (arriving s) (queue s) (cache s) (tickets s) (in_hand s) mb ps g
      (settling fin refs) (jobs s) (issued s) (handed s) (written s) (reports s) (answered s)
    /\ registered mb ++ pend_list ps ++ map fst fin ++ map fst refs ≡ₚ unresolved s
    /\ keyed ps /\ (forall x, x ∈ mb -> x ∈ mailbox s) /\ (g = true -> mb = [] /\ ps = pending_new)
    /\ (forall p r, (p, r) ∈ fin -> r = delivery_unknown \/ exists o, r = completion_result o /\ Completed (pc_ticket p) o ∈ mailbox s)
    /\ (forall p r, (p, r) ∈ refs -> Abandoned (pc_ticket p) r ∈ mailbox s \/ (g = true /\ r <> CommandResult_Ok)).
Proof.
  intros Hw Hk Hc Hg. unfold run_waiter. destruct (take_expired (pending s) (now s)) as [ex ps] eqn:Ee.
  destruct (take_expired_spec _ _ _ _ Ee) as [Hp Hs].
  assert (Hk' : keyed ps) by (intros t p E; apply Hk; by eapply lookup_weaken).
  set (U := map (fun p => (p, delivery_unknown)) ex).
  assert (HU : map fst U = ex) by (unfold U; rewrite map_map; apply map_id).
  assert (Hf : concat (map (fun p => finalize p delivery_unknown) ex) = concat (map (fun x => finalize x.1 x.2) U)).
  { unfold U. by rewrite map_map. }
  assert (HUr : forall p r, (p, r) ∈ U -> r = delivery_unknown).
  { intros p r (q & E & _)%list_elem_of_fmap. by injection E. }
  unfold unresolved in *. rewrite Hf. clearbody U. subst ex.
  assert (Hst : forall fin refs, settling (U ++ fin) refs = concat (map (fun x => finalize x.1 x.2) U) ++ settling fin refs).
  { intros. unfold settling. by rewrite map_app, concat_app, app_assoc. }
  destruct m as [[p|t o|t r|]|]; simpl in Hw.
  - (* a registration *)
    exists rest, (pending_insert ps p), false, U, []. rewrite Hw in *. simpl in *.
    assert (Hfresh : by_ticket ps !! pc_ticket p = None).
    { destruct (by_ticket ps !! pc_ticket p) as [q|] eqn:E; [|done].
      assert (Hq : q ∈ pend_list (pending s)) by (apply pend_list_elem; exists (pc_ticket p); by eapply lookup_weaken).
      specialize (Hc (pc_ticket p)). rewrite decide_True in Hc by done.
      assert (Hin : pc_ticket p ∈ map pc_ticket (registered rest ++ pend_list (pending s))).
      { rewrite <- (Hk' _ _ E). apply list_elem_of_fmap_2. rewrite elem_of_app. by right. }
      apply cnt_some in Hin. lia. }
    split; [unfold settling, up_waiter; simpl; by rewrite app_nil_r, Hg|].
    split; [rewrite (pend_list_insert _ _ Hfresh), app_nil_r, <- Hp; solve_Permutation|].
    split; [intros t q; unfold pending_insert; cbn [by_ticket]; intros [[<- <-]|[? E]]%lookup_insert_Some; [done|by apply Hk']|].
    split; [intros x Hx; by right|]. split; [done|].
    split; [intros q r Hq; left; by apply HUr in Hq|intros q r; apply not_in_nil].
  - (* a report *)
    rewrite Hw in *. simpl in Hp |- *. destruct (pending_take ps t) as [[p ps']|] eqn:Et.
    + destruct (pending_take_spec _ _ _ _ Et) as (Ep & Eb & Pp). pose proof (Hk' _ _ Ep) as <-.
      exists rest, ps', false, (U ++ [(p, completion_result o)]), [].
      split; [unfold up_waiter; simpl; rewrite Hst; unfold settling; simpl; by rewrite ?app_nil_r, Hg|].
      split; [rewrite map_app; simpl; rewrite <- Hp, Pp; solve_Permutation|].
      split; [intros t q; rewrite Eb; intros [_ E]%lookup_delete_Some; by apply Hk'|].
      split; [intros x Hx; by right|]. split; [done|].
      split; [|intros q r; apply not_in_nil].
      intros q r [Hq|[[= -> ->]|Hq]%elem_of_cons]%elem_of_app; [left; by apply HUr in Hq|right|by apply not_elem_of_nil in Hq].
      exists o. split; [done|left].
    + exists rest, ps, false, U, []. split; [unfold settling, up_waiter; simpl; by rewrite app_nil_r, Hg|].
      split; [rewrite <- Hp; simpl; solve_Permutation|]. split; [done|]. split; [intros x Hx; by right|]. split; [done|].
      split; [intros q r Hq; left; by apply HUr in Hq|intros q r; apply not_in_nil].
  - (* a refusal *)
    rewrite Hw in *. simpl in Hp |- *. destruct (pending_take ps t) as [[p ps']|] eqn:Et.
    + destruct (pending_take_spec _ _ _ _ Et) as (Ep & Eb & Pp). pose proof (Hk' _ _ Ep) as <-.
      exists rest, ps', false, U, [(p, r)].
      split; [unfold settling, up_waiter; simpl; by rewrite ?app_nil_r, Hg|].
      split; [simpl; rewrite <- Hp, Pp; solve_Permutation|].
      split; [intros t q; rewrite Eb; intros [_ E]%lookup_delete_Some; by apply Hk'|].
      split; [intros x Hx; by right|]. split; [done|].
      split; [intros q r' Hq; left; by apply HUr in Hq|].
      intros q r' [[= -> ->]|Hq]%elem_of_cons; [left; left|by apply not_elem_of_nil in Hq].
    + exists rest, ps, false, U, []. split; [unfold settling, up_waiter; simpl; by rewrite app_nil_r, Hg|].
      split; [rewrite <- Hp; simpl; solve_Permutation|]. split; [done|]. split; [intros x Hx; by right|]. split; [done|].
      split; [intros q r' Hq; left; by apply HUr in Hq|intros q r'; apply not_in_nil].
  - (* the shutdown *)
    rewrite Hw in *. simpl in Hp |- *. unfold drop_pending.
    destruct (settled_dropped (registered rest ++ pend_list ps)
                (CommandResult_Error ErrorCode_InternalError (str "input lane stopped before APPLY_INPUT completed"))) as (-> & Hm & Hr).
    eexists [], pending_new, true, U, _. split; [unfold settling; by rewrite app_nil_l|].
    split; [rewrite Hm; simpl; rewrite <- Hp; solve_Permutation|]. split; [intros t p; unfold pending_new; cbn [by_ticket]; by rewrite lookup_empty|].
    split; [intros x; apply not_in_nil|]. split; [done|].
    split; [intros q r Hq; left; by apply HUr in Hq|intros q r Hq; right; apply Hr in Hq as ->; by split].
  - (* the deadline *)
    subst rest. exists (mailbox s), ps, false, U, []. split; [unfold settling, up_waiter; simpl; by rewrite app_nil_r, Hg|].
    split; [simpl; rewrite <- Hp; simpl; solve_Permutation|]. split; [done|]. split; [done|]. split; [done|].
    split; [intros q r Hq; left; by apply HUr in Hq|intros q r; apply not_in_nil].
Qed.

(** ** Admission and tickets *)

(** [x] names the Terminals held by a request a thread has in its hands. *)
Record OrderlyWith (x : list ResourceId) (s : LaneState) : Prop := mkOrderly {
  o_holders : forall t, cnt t (x ++ holders s) = (if bool_decide (t ∈ in_flight s) then 1 else 0)%nat;
  o_requests : forall rq, rq ∈ arriving s ++ queue s ->
    rq ∈ issued s /\ res_terminal (rq_reservation rq) = rq_terminal rq /\ admitted_at (rq_reservation rq) <= now s;
  o_keyed : keyed (pending s);
  o_tickets : forall t, (cnt t (map pc_ticket (unresolved s)) <= 1)%nat;
  o_ticket_le : forall p, p ∈ unresolved s -> pc_ticket p <= tickets s;
  o_live : forall t, (cnt t (map h_ticket (live s)) <= 1)%nat;
  o_live_le : forall h, h ∈ live s -> h_ticket h <= tickets s;
  o_abandoned : forall t r, Abandoned t r ∈ mailbox s -> t <= tickets s /\ t ∉ map h_ticket (live s);
  o_gone : waiter_gone s = true -> mailbox s = [] /\ pending s = pending_new;
  o_counter : 0 <= tickets s
}.
Definition Orderly := OrderlyWith [].

Lemma orderly_new : Orderly lane_new.
Proof.
  assert (HU : unresolved lane_new = []) by reflexivity.
  constructor; rewrite ?HU; try done; try (intros ? H; by apply not_elem_of_nil in H); try (intros ? ? H; by apply not_elem_of_nil in H).
  - intros t. simpl. lia.
  - intros t. simpl. lia.
Qed.

(** The parts of an invariant that a step leaves as they were. *)
Ltac by_parts := constructor; unfold holders, unresolved, live in *; simpl in *; try assumption; try done.

Lemma unresolved_post s ms :
  unresolved (post s ms) ≡ₚ (if waiter_gone s then [] else registered ms) ++ unresolved s.
Proof.
  unfold post. destruct (waiter_gone s); [done|]. unfold unresolved; simpl. rewrite registered_app. solve_Permutation.
Qed.
Lemma mailbox_post s ms m : m ∈ mailbox (post s ms) -> m ∈ mailbox s \/ m ∈ ms.
Proof. unfold post. destruct (waiter_gone s); [by left|]. simpl. by rewrite elem_of_app. Qed.
Lemma post_fields s ms :
  now (post s ms) = now s /\ in_flight (post s ms) = in_flight s /\ arriving (post s ms) = arriving s /\ queue (post s ms) = queue s
  /\ cache (post s ms) = cache s /\ tickets (post s ms) = tickets s /\ in_hand (post s ms) = in_hand s /\ pending (post s ms) = pending s
  /\ waiter_gone (post s ms) = waiter_gone s /\ todo (post s ms) = todo s /\ jobs (post s ms) = jobs s /\ issued (post s ms) = issued s
  /\ handed (post s ms) = handed s /\ written (post s ms) = written s /\ reports (post s ms) = reports s /\ answered (post s ms) = answered s.
Proof. unfold post. destruct (waiter_gone s) eqn:E; simpl; by rewrite ?E. Qed.

(** Messages that register nothing and refuse no live batch. *)
Lemma orderly_post x s ms :
  OrderlyWith x s -> registered ms = [] ->
  (forall t r, Abandoned t r ∈ ms -> t <= tickets s /\ t ∉ map h_ticket (live s)) -> OrderlyWith x (post s ms).
Proof.
  intros Hs Hr Ha. unfold post. destruct (waiter_gone s) eqn:Eg; [exact Hs|]. destruct Hs.
  by_parts; rewrite ?registered_app, ?Hr, ?app_nil_r; try assumption.
  - intros t r [H|H]%elem_of_app; eauto.
  - by rewrite Eg.
Qed.

Lemma release_terminal_count t (r : Reservation) (held : gset ResourceId) n :
  ((if decide (t = res_terminal r) then 1 else 0) + n)%nat = (if bool_decide (t ∈ held) then 1 else 0)%nat ->
  n = (if bool_decide (t ∈ drop_reservation held r) then 1 else 0)%nat.
Proof.
  intros H. unfold drop_reservation. destruct (decide (t = res_terminal r)) as [->|E].
  - rewrite (bool_decide_eq_false_2 (res_terminal r ∈ held ∖ _)) by set_solver. destruct (bool_decide _); lia.
  - assert (Hi : t ∈ held ∖ {[res_terminal r]} <-> t ∈ held) by set_solver.
    rewrite (bool_decide_ext _ _ Hi). lia.
Qed.
Lemma orderly_refuse s rq r : OrderlyWith [res_terminal (rq_reservation rq)] s -> Orderly (refuse s rq r).
Proof.
  intros []. by_parts.
  intros t. specialize (o_holders0 t). by apply release_terminal_count.
Qed.

Lemma orderly_tick s d : 0 <= d -> Orderly s -> Orderly (up_now s (now s + d)).
Proof.
  intros Hd []. by_parts.
  intros rq H. destruct (o_requests0 rq H) as (? & ? & ?). repeat split; try done. lia.
Qed.
Lemma orderly_admit s c op t events : Orderly s -> Orderly (apply_input_admit s c op t events).
Proof.
  intros Hs. unfold apply_input_admit, try_acquire. case_bool_decide as E.
  - destruct Hs. by_parts.
  - destruct Hs. by_parts.
    + intros t'. specialize (o_holders0 t'). rewrite !map_app, !cnt_app in *. simpl in *.
      destruct (decide (t' = t)) as [->|Hn].
      * rewrite (bool_decide_eq_true_2 (t ∈ {[t]} ∪ in_flight s)) by set_solver. rewrite (bool_decide_eq_false_2 _ E) in o_holders0. lia.
      * assert (Hi : t' ∈ {[t]} ∪ in_flight s <-> t' ∈ in_flight s) by set_solver.
        rewrite (bool_decide_ext _ _ Hi). lia.
    + intros rq. rewrite elem_of_app. rewrite elem_of_app, list_elem_of_singleton.
      intros [[H|H]|H]; [|subst rq; split; [apply elem_of_app; right; by left|simpl; split; [done|lia]]|];
        (destruct (o_requests0 rq) as (? & ? & ?); [rewrite elem_of_app; auto|]); repeat split; try done; apply elem_of_app; by left.
Qed.
Lemma orderly_send s l rq l' m : arriving s = l ++ rq :: l' -> Orderly s -> Orderly (apply_input_send s l rq l' m).
Proof.
  intros Ea Hs. assert (Hx : OrderlyWith [res_terminal (rq_reservation rq)] (up_arriving s (l ++ l'))).
  { destruct Hs. by_parts.
    - intros t. rewrite <- o_holders0. rewrite Ea, !map_app. simpl. rewrite !cnt_app. simpl. lia.
    - intros q H. apply o_requests0. rewrite Ea. set_solver. }
  assert (Hq : rq ∈ arriving s ++ queue s) by (rewrite Ea; set_solver).
  pose proof (o_requests _ _ Hs rq Hq) as Hr.
  unfold apply_input_send. destruct m; try by apply orderly_refuse.
  destruct Hx. by_parts.
  - intros t. rewrite <- o_holders0. rewrite !map_app, !cnt_app. simpl. lia.
  - intros q. rewrite app_assoc, elem_of_app, list_elem_of_singleton. intros [H| ->]; [by apply o_requests0|done].
Qed.
Lemma orderly_cache x s c : OrderlyWith x s -> OrderlyWith x (up_cache s c).
Proof. intros []. by_parts. Qed.
Lemma orderly_jobs x s js : OrderlyWith x s -> OrderlyWith x (up_jobs s js).
Proof. intros []. by_parts. Qed.
Lemma orderly_written x s h : OrderlyWith x s -> OrderlyWith x (log_written s h).
Proof. intros []. by_parts. Qed.
Lemma orderly_report x s t o : OrderlyWith x s -> OrderlyWith x (fire_sink s t o).
Proof.
  intros Hs. unfold fire_sink. apply orderly_post; [destruct Hs; by_parts|done|].
  intros ? ? [H|H]%elem_of_cons; [done|by apply not_elem_of_nil in H].
Qed.

(** A request leaves the queue, and the ticket counter moves on. *)
Lemma orderly_taken s rq rest c :
  queue s = rq :: rest -> tickets s + 1 < 2 ^ 64 -> Orderly s ->
  next_ticket (tickets s) = tickets s + 1 /\
  OrderlyWith [res_terminal (rq_reservation rq)] (up_tickets (up_cache (up_queue s rest) c) (tickets s + 1)).
Proof.
  intros Eq Hn []. split; [unfold next_ticket; apply Z.mod_small; lia|]. by_parts.
  - intros t. rewrite <- o_holders0, Eq, !map_app, !cnt_app. simpl. lia.
  - intros q H. apply o_requests0. rewrite Eq. set_solver.
  - intros p H. specialize (o_ticket_le0 p H). lia.
  - intros h H. specialize (o_live_le0 h H). lia.
  - intros t r H. destruct (o_abandoned0 t r H). split; [lia|done].
  - lia.
Qed.
(** A batch is registered under a ticket nobody has. *)
Lemma orderly_registered s rq p ih :
  OrderlyWith [res_terminal (rq_reservation rq)] s -> waiter_gone s = false -> in_hand s = None ->
  pc_reservation p = rq_reservation rq -> pc_ticket p = tickets s -> h_ticket (ih_batch ih) = tickets s ->
  (forall q, q ∈ unresolved s -> pc_ticket q < tickets s) -> (forall h, h ∈ live s -> h_ticket h < tickets s) ->
  (forall t r, Abandoned t r ∈ mailbox s -> t < tickets s) ->
  Orderly (up_in_hand (post s [Registered p]) (Some ih)).
Proof.
  intros [] Hg Hi Hr Hp Hh Hq Hl Ha. unfold post. rewrite Hg. by_parts; rewrite ?Hi, ?app_nil_r in *.
  - intros t. rewrite <- o_holders0, registered_app, !map_app, !cnt_app. simpl. rewrite Hr. lia.
  - intros t. specialize (o_tickets0 t). rewrite registered_app, !map_app, !cnt_app in *. simpl in *.
    destruct (decide (t = pc_ticket p)) as [->|]; [|lia].
    rewrite (cnt_none _ (map pc_ticket (registered _))), (cnt_none _ (map pc_ticket (pend_list _))); [lia| |];
      intros (q & E & H)%list_elem_of_fmap; (assert (pc_ticket q < tickets s) by (apply Hq; set_solver)); lia.
  - intros q H. rewrite registered_app in H. cbn in H. rewrite !elem_of_app, list_elem_of_singleton in H.
    destruct H as [[H| ->]|H]; [apply o_ticket_le0; set_solver|lia|apply o_ticket_le0; set_solver].
  - intros t. specialize (o_live0 t). rewrite map_app, cnt_app in *. simpl.
    destruct (decide (t = h_ticket (ih_batch ih))) as [->|]; [|lia]. rewrite cnt_none; [lia|].
    intros (h & E & H)%list_elem_of_fmap. specialize (Hl h H). lia.
  - intros h [H|H%list_elem_of_singleton]%elem_of_app; [by apply o_live_le0|subst; lia].
  - intros t r [H|H%list_elem_of_singleton]%elem_of_app; [|done].
    destruct (o_abandoned0 t r H) as [Hle Hn]. split; [done|]. rewrite map_app, elem_of_app. intros [?|E%list_elem_of_singleton]; [done|].
    specialize (Ha t r H). lia.
  - by rewrite Hg.
Qed.
Lemma orderly_process s srv enc ok rq rest :
  in_hand s = None -> queue s = rq :: rest -> tickets s + 1 < 2 ^ 64 -> Orderly s ->
  Orderly (process_apply_input debug_id kind_text sha256 would_reject s srv enc ok rq rest).
Proof.
  intros Hi Eq Hn Hs. unfold process_apply_input. destruct (prepare_acknowledged_batch _ _ _ _ _ _ _ _ _ _ _ _ _) as [[b|r] c];
    destruct (orderly_taken s rq rest c Eq Hn Hs) as [-> Hx].
  2: by apply orderly_refuse.
  simpl waiter_gone. destruct (waiter_gone s) eqn:Eg; [by apply orderly_refuse|].
  destruct Hs. eapply orderly_registered; try exact Hx; try done; cbn; intros.
  - specialize (o_ticket_le0 _ H). lia.
  - specialize (o_live_le0 _ H). lia.
  - destruct (o_abandoned0 _ _ H). lia.
Qed.

Lemma route_refuses srv c t r : with_route_input_destination debug_id kind_text srv c t = Err r -> r <> CommandResult_Ok.
Proof.
  unfold with_route_input_destination. repeat case_match; intros; by simplify_eq.
Qed.
(** A batch is taken silently, or refused without a word of it reaching the engine. *)
Lemma hand_off_spec srv c t b ticket m :
  let '(ms, taken) := hand_off debug_id kind_text srv c t b ticket m in
  (is_Some taken /\ ms = []) \/
  (taken = None /\ forall x, x ∈ ms -> (exists r, x = Abandoned ticket r /\ r <> CommandResult_Ok) \/ x = Completed ticket Write_Failed).
Proof.
  unfold hand_off. destruct (with_route_input_destination _ _ _ _ _) eqn:E.
  2: { apply route_refuses in E. right. split; [done|]. intros x ->%list_elem_of_singleton. left. eauto. }
  case_bool_decide; simpl; [destruct m; [by left| |]|]; right; split; try done; intros x; rewrite ?elem_of_cons, elem_of_nil;
      intros Hx; destruct_or?; subst; try done; try (left; eexists; split; [done|]; done); by right.
Qed.
Lemma registered_none ms : (forall p, Registered p ∉ ms) -> registered ms = [].
Proof.
  intros H. destruct (registered ms) as [|p l] eqn:E; [done|]. destruct (H p). apply registered_elem. rewrite E. by left.
Qed.
Lemma orderly_hand_off s srv ih m : in_hand s = Some ih -> Orderly s -> Orderly (process_hand_off debug_id kind_text s srv ih m).
Proof.
  intros Hi Hs. unfold process_hand_off.
  pose proof (hand_off_spec srv (rq_client (ih_request ih)) (rq_terminal (ih_request ih)) (ih_prepared ih) (h_ticket (ih_batch ih)) m) as H.
  destruct (hand_off _ _ _ _ _ _ _ _) as [ms taken]. destruct H as [[[q ->] ->]|[-> H]].
  - unfold post; simpl. destruct Hs. destruct (waiter_gone s) eqn:Eg; by_parts; rewrite ?Hi, ?Eg, ?app_nil_r in *; simpl; try assumption; try done.
  - assert (Hl : live s = handed s ++ [ih_batch ih]) by (unfold live; by rewrite Hi).
    apply orderly_post.
    + destruct Hs. rewrite Hl in *. by_parts; rewrite ?app_nil_r.
      * intros t. specialize (o_live0 t). rewrite map_app, cnt_app in o_live0. simpl in *. lia.
      * intros h H'. apply o_live_le0. set_solver.
      * intros t r H'. destruct (o_abandoned0 t r H') as [? Hn]. split; [done|]. rewrite map_app in Hn. set_solver.
    + apply registered_none. intros p Hp. by destruct (H _ Hp) as [(r & ? & _)|?].
    + intros t r Hp. destruct (H _ Hp) as [(r' & E & _)|E]; [|done]. injection E as -> ->. simpl. split.
      * apply (o_live_le _ _ Hs). rewrite Hl. set_solver.
      * unfold live; simpl. rewrite app_nil_r. intros Hin%cnt_some. pose proof (o_live _ _ Hs (h_ticket (ih_batch ih))) as Hc.
        rewrite Hl, map_app, cnt_app in Hc. cbn [map] in Hc. rewrite cnt_cons_eq in Hc. lia.
Qed.
Lemma orderly_round s m rest : woken s m rest -> waiter_gone s = false -> todo s = [] -> Orderly s -> Orderly (run_waiter s m rest).
Proof.
  intros Hw Hg Ht []. destruct (round_spec s m rest Hw o_keyed0 o_tickets0 Hg) as (mb & ps & g & fin & refs & -> & Hp & Hk & Hm & Hgo & _).
  assert (Hsub : forall t, (cnt t (map pc_ticket (registered mb ++ pend_list ps)) <= cnt t (map pc_ticket (unresolved s)))%nat).
  { intros t. rewrite <- Hp, app_assoc, !map_app, !cnt_app. lia. }
  by_parts.
  - intros t. rewrite <- o_holders0. rewrite <- Hp, Ht, releases_settling, !map_app, !cnt_app. simpl. lia.
  - intros t. specialize (Hsub t). specialize (o_tickets0 t). lia.
  - intros p H. apply o_ticket_le0. rewrite <- Hp, app_assoc. set_solver.
  - intros t r H. apply (o_abandoned0 t r). by apply Hm.
Qed.
Lemma orderly_act s a rest : todo s = a :: rest -> Orderly s -> Orderly (waiter_acts s a rest).
Proof.
  intros Et []. destruct a; simpl; by_parts; intros t; specialize (o_holders0 t); rewrite ?Et in *; simpl in *; try lia.
  apply release_terminal_count. rewrite !cnt_app in *. simpl in *. lia.
Qed.

Lemma orderly_step s s' : lane_step s s' -> Orderly s -> Orderly s'.
Proof.
  intros Hst Hs. destruct Hst; unfold engine_services, writer_services, drop_job.
  - by apply orderly_tick.
  - by apply orderly_admit.
  - by apply orderly_send.
  - by apply orderly_process.
  - by apply orderly_hand_off.
  - destruct (service_encoded_input _ _); [apply orderly_report|]; by apply orderly_jobs.
  - destruct (service_write_request _ _) as [[o []] c]; apply orderly_report; [apply orderly_written|]; by apply orderly_jobs.
  - apply orderly_report. by apply orderly_jobs.
  - apply orderly_post; try done. by intros t r [?|?%not_elem_of_nil]%elem_of_cons.
  - by apply orderly_round.
  - by apply orderly_round.
  - by apply orderly_act.
Qed.
Lemma orderly_run s : lane_run s -> Orderly s.
Proof. induction 1; [apply orderly_new|by eapply orderly_step]. Qed.

(** ** The dedupe cache *)

Lemma prune_spec es q now_ :
  entries (prune_expired es q now_) ⊆ es /\
  forall o e, es !! o = Some e -> entries (prune_expired es q now_) !! o = Some e \/ inserted_at e + DEDUPE_RETENTION <= now_.
Proof.
  revert es. induction q as [|[a op] q IH]; intros es; [by split; [|left]|]. cbn [prune_expired].
  destruct (Z.leb_spec DEDUPE_RETENTION (saturating_sub now_ a)) as [Hle|_]; [|by split; [|left]].
  assert (Ha : a + DEDUPE_RETENTION <= now_).
  { unfold saturating_sub, DEDUPE_RETENTION in *. destruct (Z.leb_spec a now_); lia. }
  destruct (es !! op) as [e0|] eqn:E0; [destruct (Z.eqb_spec (inserted_at e0) a) as [<-|]|]; try apply IH.
  destruct (IH (delete op es)) as [Hs He]. split; [etransitivity; [exact Hs|apply delete_subseteq]|].
  intros o e Eo. destruct (decide (o = op)) as [->|Hn]; [right; by simplify_eq|]. apply He. by rewrite lookup_delete_ne.
Qed.

(** What binding an id leaves: every entry that is not ten minutes old, and the id's own. *)
Lemma bind_spec c op d a :
  let '(b, c') := bind_at c op d a in
  (forall o e, entries c !! o = Some e -> entries c' !! o = Some e \/ inserted_at e + DEDUPE_RETENTION <= a) /\
  (forall o e, entries c' !! o = Some e -> entries c !! o = Some e \/ (o = op /\ digest e = d /\ op_result e = None)) /\
  match b with
  | Binding_New | Binding_Pending => exists e, entries c' !! op = Some e /\ digest e = d /\ op_result e = None
  | Binding_Final r => exists e, entries c' !! op = Some e /\ op_result e = Some r
  | _ => True
  end.
Proof.
  unfold bind_at. destruct (prune_spec (entries c) (expiry c) a) as [Hs He].
  destruct (entries (prune_expired _ _ _) !! op) as [e|] eqn:E.
  - assert (Hk : forall o e, entries (prune_expired (entries c) (expiry c) a) !! o = Some e ->
                entries c !! o = Some e \/ (o = op /\ digest e = d /\ op_result e = None)) by (intros; left; by eapply lookup_weaken).
    case_bool_decide as Ed; simpl; [|by split].
    split; [done|]. split; [done|]. destruct (op_result e) eqn:Er; eauto.
  - destruct (is_full _); [split; [done|]; split; [intros; left; by eapply lookup_weaken|done]|]. simpl. split; [|split].
    + intros o e Eo. destruct (decide (o = op)) as [->|Hn].
      * destruct (He _ _ Eo) as [?|?]; [congruence|by right].
      * rewrite lookup_insert_ne by done. by apply He.
    + intros o e [[-> <-]|[_ Eo]]%lookup_insert_Some; [by right|left; by eapply lookup_weaken].
    + eexists. split; [apply lookup_insert_eq|done].
Qed.

Definition request_digest (rq : AckRequest) : bytes := operation_digest sha256 (rq_op rq) (rq_terminal rq) (rq_events rq).

Lemma encode_all_error (enc : key -> TerminalInput -> option (option bytes)) pane ins acc r :
  encode_all enc pane ins acc = Err r -> r <> CommandResult_Ok.
Proof.
  revert acc. induction ins as [|i ins IH]; intros acc; simpl; [done|].
  destruct (enc pane i) as [[b|]|]; [destruct (_ <? _); [by injection 1 as <-|apply IH]|apply IH|by injection 1 as <-].
Qed.
Lemma prepare_spec enc srv c rq ok :
  let '(r, c') := prepare_acknowledged_batch debug_id kind_text sha256 would_reject enc srv c (rq_client rq) (rq_op rq)
                    (rq_terminal rq) (rq_events rq) (admitted_at (rq_reservation rq)) ok in
  (forall o e, entries c !! o = Some e -> entries c' !! o = Some e \/ inserted_at e + DEDUPE_RETENTION <= admitted_at (rq_reservation rq)) /\
  (forall o e, entries c' !! o = Some e ->
     entries c !! o = Some e \/ (o = rq_op rq /\ digest e = request_digest rq /\ op_result e = None)) /\
  match r with
  | Ok _ => exists e, entries c' !! rq_op rq = Some e /\ digest e = request_digest rq /\ op_result e = None
  | Err r => r = CommandResult_Ok -> exists e, entries c' !! rq_op rq = Some e /\ op_result e = Some CommandResult_Ok
  end.
Proof.
  unfold prepare_acknowledged_batch, request_digest. destruct (_ || _); [split; [by left|]; split; [by left|done]|].
  pose proof (bind_spec c (rq_op rq) (operation_digest sha256 (rq_op rq) (rq_terminal rq) (rq_events rq)) (admitted_at (rq_reservation rq))) as Hb.
  destruct (bind_at _ _ _ _) as [b c']. destruct Hb as (H1 & H2 & H3). split; [exact H1|]. split; [exact H2|].
  assert (Hgo : match b with Binding_New | Binding_Pending => exists e, entries c' !! rq_op rq = Some e /\ digest e = request_digest rq /\ op_result e = None | _ => True end)
    by (by destruct b).
  destruct b as [| |r| |]; try done.
  3: by intros ->.
  all: destruct (with_route_input_destination _ _ _ _ _) eqn:Ew; [|by apply route_refuses in Ew].
  all: destruct ok; [|done]; simpl; destruct (existsb _ _); [done|]; destruct (encode_all _ _ _ _) eqn:Ee; [exact Hgo|by apply encode_all_error in Ee].
Qed.

(** ** What the digest tells *)

(** No two batches among those admitted have the same digest by accident. *)
Definition no_collision (s : LaneState) : Prop :=
  forall a b, a ∈ issued s -> b ∈ issued s ->
    request_digest a = request_digest b ->
    encode (command_of (rq_op a) (rq_terminal a) (rq_events a)) = encode (command_of (rq_op b) (rq_terminal b) (rq_events b)).
Definition all_sendable (s : LaneState) : Prop := forall rq, rq ∈ issued s -> sendable (rq_op rq) (rq_terminal rq) (rq_events rq).

Lemma sendable_inj op t ev op' t' ev' :
  sendable op t ev -> sendable op' t' ev' -> encode (command_of op t ev) = encode (command_of op' t' ev') ->
  op = op' /\ t = t' /\ ev = ev'.
Proof.
  intros (Hw & Hb & Hi) (Hw' & Hb' & Hi') E.
  pose proof (decode_encode_with_limits BootstrapLimits_default _ [] Hw Hb) as D.
  pose proof (decode_encode_with_limits BootstrapLimits_default _ [] Hw' Hb') as D'.
  rewrite app_nil_r in D, D'. specialize (D Hi). specialize (D' Hi'). rewrite <- E, D in D'. by injection D' as -> -> ->.
Qed.
Lemma digest_names_terminal s a b :
  no_collision s -> all_sendable s -> a ∈ issued s -> b ∈ issued s -> request_digest a = request_digest b -> rq_terminal a = rq_terminal b.
Proof. intros Hn Hs Ha Hb E. by destruct (sendable_inj _ _ _ _ _ _ (Hs a Ha) (Hs b Hb) (Hn a b Ha Hb E)) as (_ & ? & _). Qed.

(** ** Every hand-off is settled or unresolved *)

(** An operation that will get its final result before its Terminal is released. *)
Definition resolving (s : LaneState) (p : PendingCompletion) : Prop :=
  p ∈ unresolved s \/ exists a r b, todo s = a ++ Act_SetFinal (pc_operation p) r :: Act_Release (pc_reservation p) :: b.
Definition accounted (s : LaneState) (h : Handed) : Prop :=
  h_bound h + DEDUPE_RETENTION <= now s \/
  exists e, entries (cache s) !! h_op h = Some e /\ inserted_at e = h_bound h /\
    (op_result e <> None \/
     exists p rq, resolving s p /\ pc_ticket p = h_ticket h /\ rq ∈ issued s /\
       rq_terminal rq = res_terminal (pc_reservation p) /\ digest e = request_digest rq /\ pc_operation p = h_op h).
Record Settled (s : LaneState) : Prop := mkSettled {
  z_sendable : all_sendable s;
  z_cache : forall o e, entries (cache s) !! o = Some e -> exists rq, rq ∈ issued s /\ rq_op rq = o /\ digest e = request_digest rq;
  z_held : waiter_gone s = false -> forall h, h ∈ live s -> accounted s h;
  z_apart : forall i j h1 h2, (i < j)%nat -> live s !! i = Some h1 -> live s !! j = Some h2 ->
    h_op h1 = h_op h2 -> h_bound h1 + DEDUPE_RETENTION <= h_at h2
}.

Lemma resolving_holds s p : resolving s p -> res_terminal (pc_reservation p) ∈ holders s.
Proof.
  unfold holders. rewrite !elem_of_app. intros [H|(a & r & b & E)]; [right; left; by apply (elem_map (fun p => res_terminal (pc_reservation p)))|right; right].
  rewrite E, releases_app. apply elem_of_app. right. cbn. by left.
Qed.

(** A step that binds no id and hands nothing new. *)
Lemma settled_frame s s' :
  Settled s -> issued s' = issued s -> cache s' = cache s -> now s <= now s' -> live s' `prefix_of` live s ->
  (waiter_gone s' = false -> waiter_gone s = false) ->
  (forall p h, waiter_gone s' = false -> h ∈ live s' -> pc_ticket p = h_ticket h -> resolving s p -> resolving s' p) -> Settled s'.
Proof.
  intros [Zs Zc Zh Za] Ei Ec En [k El] Hg Hr. constructor; unfold all_sendable; rewrite ?Ei, ?Ec; try done.
  - intros Hg' h Hh. destruct (Zh (Hg Hg') h) as [?|(e & Ee & Eb & H)]; [rewrite El; set_solver|left; lia|].
    right. exists e. rewrite Ec. split; [done|]. split; [done|].
    destruct H as [?|(p & rq & Hp & Ht & Hrq & H)]; [by left|right]. exists p, rq. rewrite Ei. split; [by eapply Hr|]. split; [done|]. by split.
  - intros i j h1 h2 Hij H1 H2. apply (Za i j); [done| |]; rewrite El; by apply lookup_app_l_Some.
Qed.

(** A step that leaves the waiter, its mailbox and its work alone. *)
Lemma settled_aside s s' :
  Settled s -> issued s' = issued s -> cache s' = cache s -> now s <= now s' -> live s' = live s ->
  waiter_gone s' = waiter_gone s -> mailbox s' = mailbox s -> pending s' = pending s -> todo s' = todo s -> Settled s'.
Proof.
  intros Hs Ei Ec En El Hg Em Ep Et. apply (settled_frame s s'); try assumption; [by rewrite El|by rewrite Hg|].
  intros p h _ _ _. unfold resolving, unresolved. by rewrite Em, Ep, Et.
Qed.
Lemma settled_post s ms : Settled s -> Settled (post s ms).
Proof.
  intros Hs. destruct (post_fields s ms) as (Fn & _ & _ & _ & Fc & _ & Fi & _ & Fg & Ft & _ & Fu & Fh & _).
  apply (settled_frame s); try assumption; [lia|unfold live; by rewrite Fi, Fh|by rewrite Fg|].
  intros p h _ _ _ [H|H]; [left|right; by rewrite Ft]. rewrite unresolved_post. rewrite elem_of_app. by right.
Qed.
Lemma settled_report s t o : Settled s -> Settled (fire_sink s t o).
Proof. intros Hs. unfold fire_sink. apply settled_post. by eapply settled_aside. Qed.
Lemma settled_jobs s js : Settled s -> Settled (up_jobs s js).
Proof. intros Hs. by eapply settled_aside. Qed.
Lemma settled_written s h : Settled s -> Settled (log_written s h).
Proof. intros Hs. by eapply settled_aside. Qed.
Lemma settled_refuse s rq r : Settled s -> Settled (refuse s rq r).
Proof. intros Hs. by eapply settled_aside. Qed.

Lemma settled_admit s c op t events : sendable op t events -> Settled s -> Settled (apply_input_admit s c op t events).
Proof.
  intros Hf Hs. unfold apply_input_admit, try_acquire. case_bool_decide; [by eapply settled_aside|].
  destruct Hs as [Zs Zc Zh Za]. constructor; cbn [issued log_issued up_arriving up_in_flight cache waiter_gone live handed in_hand].
  - intros rq [H'| ->%list_elem_of_singleton]%elem_of_app; [by apply Zs|done].
  - intros o e E. destruct (Zc o e E) as (rq & ? & ?). exists rq. set_solver.
  - intros Hg h Hh. destruct (Zh Hg h Hh) as [?|(e & Ee & Eb & H')]; [by left|right]. exists e. split; [done|]. split; [done|].
    destruct H' as [?|(p & rq & Hp & Ht & Hrq & H')]; [by left|right]. exists p, rq. repeat split; try done; cbn; set_solver.
  - exact Za.
Qed.
Lemma settled_hand_off s srv ih m : in_hand s = Some ih -> Settled s -> Settled (process_hand_off debug_id kind_text s srv ih m).
Proof.
  intros Hi Hs. unfold process_hand_off. destruct (hand_off _ _ _ _ _ _ _ _) as [ms taken].
  assert (Hp : Settled (post (up_in_hand s None) ms)).
  { apply settled_post. apply (settled_frame s); try done. unfold live; simpl. rewrite app_nil_r. by eexists. }
  destruct taken as [q|]; [|done].
  destruct (post_fields (up_in_hand s None) ms) as (Fn & _ & _ & _ & Fc & _ & Fi & Fp & Fg & Ft & _ & Fu & Fh & _).
  eapply settled_frame; [exact Hs| | | | | |]; cbn [log_handed up_jobs issued cache now waiter_gone]; try done.
  - rewrite Fn. simpl. lia.
  - unfold live; cbn [log_handed up_jobs handed in_hand]. rewrite Fh, Fi, Hi. simpl. by rewrite app_nil_r.
  - by rewrite Fg.
  - intros p h _ _ _ [H|H]; [left|right; cbn [log_handed up_jobs todo]; by rewrite Ft].
    assert (E : unresolved (log_handed (up_jobs (post (up_in_hand s None) ms) (jobs (post (up_in_hand s None) ms) ++ [mkWriteJob (ih_batch ih) (pb_bytes (ih_prepared ih)) false])) (ih_batch ih))
       = unresolved (post (up_in_hand s None) ms)) by done.
    rewrite E, unresolved_post. rewrite elem_of_app. by right.
Qed.
Lemma settling_fin fin refs p r : (p, r) ∈ fin ->
  exists a b, settling fin refs = a ++ Act_SetFinal (pc_operation p) r :: Act_Release (pc_reservation p) :: b.
Proof.
  intros (l1 & l2 & ->)%list_elem_of_split. unfold settling. rewrite map_app, concat_app. cbn [map concat].
  eexists (concat (map (fun x => finalize x.1 x.2) l1)), _. rewrite <- !app_assoc. reflexivity.
Qed.
Lemma settled_round s m rest : woken s m rest -> waiter_gone s = false -> todo s = [] -> Orderly s -> Settled s -> Settled (run_waiter s m rest).
Proof.
  intros Hw Hg Ht Ho Hs.
  destruct (round_spec s m rest Hw (o_keyed _ _ Ho) (o_tickets _ _ Ho) Hg) as (mb & ps & g & fin & refs & -> & Hp & Hk & Hm & Hgo & Hf & Hr).
  apply (settled_frame s); try done.
  intros p h Hg' Hh Hph [H|(a & r & b & E)]; [|rewrite Ht in E; by destruct a].
  rewrite <- Hp in H. rewrite !elem_of_app in H. destruct H as [H|[H|[H|H]]].
  - left. unfold unresolved; simpl. set_solver.
  - left. unfold unresolved; simpl. set_solver.
  - apply list_elem_of_fmap in H as ([q r] & -> & H). right. destruct (settling_fin fin refs q r H) as (a & b & E). by exists a, r, b.
  - apply list_elem_of_fmap in H as ([q r] & -> & H). destruct (Hr q r H) as [Hab|[? _]]; [|simpl in Hg'; congruence].
    exfalso. simpl in Hph. rewrite Hph in Hab. apply (o_abandoned _ _ Ho) in Hab as [_ Hn]. apply Hn. by apply list_elem_of_fmap_2.
Qed.
Lemma settled_act s a rest : todo s = a :: rest -> Settled s -> Settled (waiter_acts s a rest).
Proof.
  intros Et Hs. destruct a as [op r|rv|c op r].
  - destruct Hs as [Zs Zc Zh Za]. constructor; unfold waiter_acts; try done; cbn [up_cache up_waiter cache issued waiter_gone now].
    + intros o e. cbn [set_final entries]. rewrite lookup_alter_Some. intros [(<- & e0 & E & ->)|[_ E]]; [|by apply Zc].
      destruct (Zc _ _ E) as (rq & ? & ? & ?). by exists rq.
    + intros Hg h Hh. destruct (Zh Hg h Hh) as [?|(e & Ee & Eb & H)]; [by left|right].
      destruct (decide (h_op h = op)) as [<-|Hn].
      * exists (mkCached (digest e) (Some r) (inserted_at e)). cbn [up_cache cache set_final entries]. rewrite lookup_alter_eq, Ee.
        split; [done|]. split; [done|]. by left.
      * exists e. cbn [up_cache cache set_final entries]. rewrite lookup_alter_ne by done. split; [done|]. split; [done|].
        destruct H as [?|(p & rq & Hp & Ht & Hrq & H1 & H2 & H3)]; [by left|right]. exists p, rq. repeat split; try done.
        destruct Hp as [Hp|(x & r' & b & E)]; [by left|right]. rewrite Et in E. destruct x as [|y x]; [injection E; congruence|]. injection E as <- E.
        by exists x, r', b.
  - apply (settled_frame s); try done.
    intros p h _ _ _ [H|(x & r & b & E)]; [by left|right]. rewrite Et in E. destruct x as [|y x]; [done|]. injection E as <- E.
    exists x, r, b. exact E.
  - apply (settled_frame s); try done.
    intros p h _ _ _ [H|(x & r' & b & E)]; [by left|right]. rewrite Et in E. destruct x as [|y x]; [done|]. injection E as <- E.
    exists x, r', b. exact E.
Qed.

(** An id is bound: entries leave the cache only ten minutes after their binding. *)
Lemma settled_bound s rq rest c n :
  Settled s -> rq ∈ issued s -> admitted_at (rq_reservation rq) <= now s ->
  (forall o e, entries (cache s) !! o = Some e -> entries c !! o = Some e \/ inserted_at e + DEDUPE_RETENTION <= admitted_at (rq_reservation rq)) ->
  (forall o e, entries c !! o = Some e ->
     entries (cache s) !! o = Some e \/ (o = rq_op rq /\ digest e = request_digest rq /\ op_result e = None)) ->
  Settled (up_tickets (up_cache (up_queue s rest) c) n).
Proof.
  intros [Zs Zc Zh Za] Hrq Ha H1 H2. constructor; try done; cbn [up_tickets up_cache up_queue cache issued waiter_gone].
  - intros o e E. destruct (H2 o e E) as [E'|(-> & ? & _)]; [by apply Zc|by exists rq].
  - intros Hg h Hh. destruct (Zh Hg h Hh) as [?|(e & Ee & Eb & H)]; [by left|].
    destruct (H1 _ _ Ee) as [E'|?]; [right|left; cbn; lia]. by exists e.
Qed.
(** Where a batch is about to be handed off, no earlier hand-off of its operation is both recent and unanswered. *)
Lemma earlier_is_old s rq rest c e h :
  Orderly s -> Settled s -> no_collision s -> waiter_gone s = false -> queue s = rq :: rest ->
  (forall o e, entries (cache s) !! o = Some e -> entries c !! o = Some e \/ inserted_at e + DEDUPE_RETENTION <= admitted_at (rq_reservation rq)) ->
  entries c !! rq_op rq = Some e -> digest e = request_digest rq -> op_result e = None ->
  h ∈ live s -> h_op h = rq_op rq -> h_bound h + DEDUPE_RETENTION <= now s.
Proof.
  intros Ho [Zs Zc Zh Za] Hn Hg Eq H1 Ee Ed Er Hh Eh.
  destruct (o_requests _ _ Ho rq) as (Hrq & Hrt & Ha); [rewrite Eq; set_solver|].
  destruct (Zh Hg h Hh) as [?|(e' & Ee' & Eb & H)]; [done|]. rewrite Eh in Ee'.
  destruct (H1 _ _ Ee') as [E|?]; [|lia]. assert (e' = e) as -> by congruence.
  destruct H as [?|(p & rq' & Hp & _ & Hrq' & Ht & Ed' & _)]; [done|]. exfalso.
  pose proof (digest_names_terminal s rq rq' Hn Zs Hrq Hrq') as Hd. rewrite <- Ed, <- Ed' in Hd. specialize (Hd eq_refl).
  assert (Hin : res_terminal (pc_reservation p) ∈ map (fun p => res_terminal (pc_reservation p)) (unresolved s) ++ releases (todo s)).
  { destruct Hp as [Hp|(a & r & b & E')]; apply elem_of_app; [left; by apply (elem_map (fun p => res_terminal (pc_reservation p)))|right].
    rewrite E', releases_app. apply elem_of_app. right. cbn. by left. }
  apply cnt_some in Hin. pose proof (o_holders _ _ Ho (res_terminal (pc_reservation p))) as Hc.
  unfold holders in Hc. cbn [app] in Hc. rewrite cnt_app, map_app, cnt_app, Eq in Hc. cbn [map] in Hc.
  rewrite Hrt, Hd, Ht, cnt_cons_eq in Hc. destruct (bool_decide _); lia.
Qed.
Lemma lookup_snoc_inv {A} (l : list A) x i y : (l ++ [x]) !! i = Some y -> l !! i = Some y \/ (i = length l /\ y = x).
Proof.
  rewrite lookup_app_Some. intros [H|[Hl [H ->]%list_lookup_singleton_Some]]; [by left|right]. split; [lia|done].
Qed.
Lemma settled_process s srv enc ok rq rest :
  in_hand s = None -> queue s = rq :: rest -> tickets s + 1 < 2 ^ 64 -> no_collision s -> Orderly s -> Settled s ->
  Settled (process_apply_input debug_id kind_text sha256 would_reject s srv enc ok rq rest).
Proof.
  intros Hi Eq Hlt Hn Ho Hs. destruct (o_requests _ _ Ho rq) as (Hrq & Hrt & Ha); [rewrite Eq; set_solver|].
  unfold process_apply_input. pose proof (prepare_spec enc srv (cache s) rq ok) as Hp.
  destruct (prepare_acknowledged_batch _ _ _ _ _ _ _ _ _ _ _ _ _) as [res c]. destruct Hp as (H1 & H2 & H3).
  pose proof (settled_bound s rq rest c (next_ticket (tickets s)) Hs Hrq Ha H1 H2) as Hb.
  destruct res as [b|r]; [|by apply settled_refuse].
  simpl waiter_gone. destruct (waiter_gone s) eqn:Eg; [by apply settled_refuse|].
  destruct H3 as (e & Ee & Ed & Er).
  set (s1 := up_tickets _ _) in *. set (p := mkPending _ _ _ _ _). set (ih := mkInHand _ _ _).
  assert (Hpost : Settled (post s1 [Registered p])) by by apply settled_post.
  assert (El : live (up_in_hand (post s1 [Registered p]) (Some ih)) = live s ++ [ih_batch ih]).
  { unfold live, post, s1. simpl. rewrite Eg. simpl. by rewrite Hi, app_nil_r. }
  assert (El1 : live (post s1 [Registered p]) = live s) by (unfold live, post, s1; simpl; rewrite Eg; simpl; by rewrite Hi).
  assert (Hold : forall h, h ∈ live s -> h_op h = rq_op rq -> h_bound h + DEDUPE_RETENTION <= now s)
    by (intros h; by eapply earlier_is_old).
  assert (Hc : cache (post s1 [Registered p]) = c) by (unfold post, s1; simpl; by rewrite Eg).
  destruct Hpost as [Zs Zc Zh Za]. constructor; try done.
  - intros Hg h. rewrite El. intros [Hh| ->%list_elem_of_singleton]%elem_of_app; [apply Zh; [done|by rewrite El1]|].
    right. exists e. change (cache (up_in_hand ?x ?y)) with (cache x). rewrite Hc. split; [done|].
    split; [cbn; unfold bound_of; by rewrite Ee|]. right. exists p, rq. split; [left|split; [done|split; [|by split]]].
    + unfold unresolved, post, s1; simpl. rewrite Eg. simpl. rewrite registered_app. set_solver.
    + unfold post, s1; simpl. by rewrite Eg.
  - intros i j h1 h2 Hij. rewrite El. intros [L1|[-> ->]]%lookup_snoc_inv [L2|[-> ->]]%lookup_snoc_inv E.
    + rewrite El1 in Za. by eapply Za.
    + cbn. apply Hold; [by eapply list_elem_of_lookup_2|done].
    + apply lookup_lt_Some in L2. lia.
    + lia.
Qed.

Lemma issued_step s s' : lane_step s s' -> forall rq, rq ∈ issued s -> rq ∈ issued s'.
Proof.
  intros Hst rq. destruct Hst; try done.
  - unfold apply_input_admit. destruct (try_acquire _ _ _) as [[]|]; simpl; set_solver.
  - unfold apply_input_send. by destruct m.
  - unfold process_apply_input. destruct (prepare_acknowledged_batch _ _ _ _ _ _ _ _ _ _ _ _ _) as [[] ?]; [|done].
    destruct (waiter_gone _); [done|]. cbn. unfold post. by destruct (waiter_gone _).
  - unfold process_hand_off. destruct (hand_off _ _ _ _ _ _ _ _) as [? []]; cbn; unfold post; by destruct (waiter_gone _).
  - unfold engine_services. destruct (service_encoded_input _ _); [|done]. unfold fire_sink, post. by destruct (waiter_gone _).
  - unfold writer_services. destruct (service_write_request _ _) as [[? []] ?]; unfold fire_sink, post; by destruct (waiter_gone _).
  - unfold drop_job, fire_sink, post. by destruct (waiter_gone _).
  - unfold post. by destruct (waiter_gone _).
  - unfold run_waiter. destruct (take_expired _ _) as [? ?]; destruct m; try done; by destruct (pending_take _ _) as [[]|].
  - unfold run_waiter. by destruct (take_expired _ _) as [? ?].
  - by destruct a.
Qed.
Lemma settled_step s s' : lane_step s s' -> no_collision s -> Orderly s -> Settled s -> Settled s'.
Proof.
  intros Hst Hn Ho Hs. destruct Hst; unfold engine_services, writer_services, drop_job.
  - by apply (settled_aside s); try done; simpl; try lia.
  - by apply settled_admit.
  - unfold apply_input_send. destruct m; try apply settled_refuse; by apply (settled_aside s).
  - by apply settled_process.
  - by apply settled_hand_off.
  - destruct (service_encoded_input _ _); [apply settled_report|]; by apply settled_jobs.
  - destruct (service_write_request _ _) as [[o []] c]; apply settled_report; [apply settled_written|]; by apply settled_jobs.
  - apply settled_report. by apply settled_jobs.
  - by apply settled_post.
  - by apply settled_round.
  - by apply settled_round.
  - by eapply settled_act.
Qed.
Lemma settled_run s : lane_run s -> no_collision s -> Settled s.
Proof.
  induction 1 as [|s s' Hr IH Hst]; intros Hn.
  - constructor; try done.
    + intros rq. apply not_in_nil.
    + intros _ h. apply not_in_nil.
  - assert (Hs : no_collision s) by (intros a b Ha Hb; apply Hn; by eapply issued_step).
    eapply settled_step; eauto. by apply orderly_run.
Qed.

(** ** What was written *)

Record Written (s : LaneState) : Prop := mkWritten {
  w_once : forall t, (cnt t (map h_ticket (map wj_batch (jobs s) ++ written s)) <= 1)%nat;
  w_handed : forall h, h ∈ map wj_batch (jobs s) ++ written s -> h ∈ handed s
}.
Lemma wrote_same s s' : Written s -> jobs s' = jobs s -> written s' = written s -> handed s' = handed s -> Written s'.
Proof. intros [] Ej Ew Eh. constructor; by rewrite ?Ej, ?Ew, ?Eh. Qed.
Lemma wrote_post s ms : Written s -> Written (post s ms).
Proof. intros H. unfold post. destruct (waiter_gone s); [done|by apply (wrote_same s)]. Qed.
(** A job is serviced once: it is dropped, queued, or written. *)
Lemma wrote_serviced s l j l' : jobs s = l ++ j :: l' -> Written s ->
  Written (up_jobs s (l ++ l')) /\ Written (up_jobs s (l ++ mkWriteJob (wj_batch j) (wj_bytes j) true :: l'))
  /\ Written (log_written (up_jobs s (l ++ l')) (wj_batch j)).
Proof.
  intros Ej [Ho Hh]. rewrite Ej in *. rewrite !map_app in *. cbn [map] in *.
  assert (Hc : forall t, (cnt t (map h_ticket ((map wj_batch l ++ map wj_batch l') ++ written s)) +
                    (if decide (t = h_ticket (wj_batch j)) then 1 else 0) <= 1)%nat).
  { intros t. specialize (Ho t). rewrite !map_app, !cnt_app in *. cbn [map cnt] in Ho. lia. }
  split; [|split]; constructor; cbn [up_jobs log_written jobs written handed]; rewrite ?map_app; cbn [map].
  - intros t. specialize (Hc t). rewrite !map_app in *. lia.
  - intros h H. apply Hh. set_solver.
  - intros t. specialize (Ho t). by rewrite !map_app in *.
  - exact Hh.
  - intros t. specialize (Hc t). rewrite !map_app, !cnt_app in *. cbn [map cnt]. lia.
  - intros h H. apply Hh. set_solver.
Qed.
Lemma wrote_report s t o : Written s -> Written (fire_sink s t o).
Proof. intros H. unfold fire_sink. apply wrote_post. by apply (wrote_same s). Qed.
Lemma wrote_hand_off s srv ih m : in_hand s = Some ih -> Orderly s -> Written s -> Written (process_hand_off debug_id kind_text s srv ih m).
Proof.
  intros Hi Ho [Hw Hh]. unfold process_hand_off. destruct (hand_off _ _ _ _ _ _ _ _) as [ms taken].
  destruct (post_fields (up_in_hand s None) ms) as (_ & _ & _ & _ & _ & _ & _ & _ & _ & _ & Fj & _ & Fh & Fw & _).
  destruct taken; [|apply wrote_post; by apply (wrote_same s)].
  constructor; cbn [log_handed up_jobs jobs written handed]; rewrite Fw, Fj, ?Fh; cbn [up_in_hand jobs written handed].
  - intros t. specialize (Hw t). rewrite !map_app, !cnt_app in *. cbn [map cnt wj_batch].
    destruct (decide (t = h_ticket (ih_batch ih))) as [->|]; [|lia].
    pose proof (o_live _ _ Ho (h_ticket (ih_batch ih))) as Hl. unfold live in Hl.
    rewrite Hi, map_app, cnt_app in Hl. cbn [map] in Hl. rewrite cnt_cons_eq in Hl.
    assert (Hz : forall l, (forall h, h ∈ l -> h ∈ handed s) -> cnt (h_ticket (ih_batch ih)) (map h_ticket l) = O).
    { intros l Hsub. apply cnt_none. intros (h & E & H)%list_elem_of_fmap. apply Hsub, (elem_map h_ticket) in H.
      rewrite <- E in H. apply cnt_some in H. lia. }
    rewrite (Hz (map wj_batch (jobs s))), (Hz (written s)); [cbn; lia| |]; intros h H; apply Hh, elem_of_app; by auto.
  - intros h. rewrite map_app. cbn [map wj_batch]. intros H. rewrite elem_of_app, list_elem_of_singleton.
    rewrite !elem_of_app, list_elem_of_singleton in H. destruct H as [[H|H]|H]; [left|by right|left]; apply Hh, elem_of_app; by auto.
Qed.
Lemma wrote_step s s' : lane_step s s' -> Orderly s -> Written s -> Written s'.
Proof.
  intros Hst Ho Hs. destruct Hst; unfold engine_services, writer_services, drop_job.
  - by apply (wrote_same s).
  - unfold apply_input_admit. destruct (try_acquire _ _ _) as [[]|]; by apply (wrote_same s).
  - unfold apply_input_send. destruct m; by apply (wrote_same s).
  - unfold process_apply_input. destruct (prepare_acknowledged_batch _ _ _ _ _ _ _ _ _ _ _ _ _) as [[b|r] c]; [|by apply (wrote_same s)].
    destruct (waiter_gone _); [by apply (wrote_same s)|].
    match goal with |- Written (up_in_hand ?x _) => apply (wrote_same x); try done end. apply wrote_post. by apply (wrote_same s).
  - by apply wrote_hand_off.
  - destruct (wrote_serviced s l j l' H Hs) as (? & ? & ?). by destruct (service_encoded_input _ _); [apply wrote_report|].
  - destruct (wrote_serviced s l j l' H Hs) as (? & ? & ?). destruct (service_write_request _ _) as [[o []] c]; by apply wrote_report.
  - destruct (wrote_serviced s l j l' H Hs) as (? & ? & ?). by apply wrote_report.
  - by apply wrote_post.
  - destruct (round_spec s (Some m) rest) as (? & ? & ? & ? & ? & -> & _); try done; try apply Ho. by apply (wrote_same s).
  - destruct (round_spec s None (mailbox s)) as (? & ? & ? & ? & ? & -> & _); try done; try apply Ho. by apply (wrote_same s).
  - destruct a; by apply (wrote_same s).
Qed.
Lemma wrote_run s : lane_run s -> Written s.
Proof.
  induction 1 as [|s s' Hr IH Hst]; [constructor; simpl; [lia|intros h; apply not_in_nil]|].
  eapply wrote_step; eauto. by apply orderly_run.
Qed.

Lemma once_distinct {A} (f : A -> Z) (l : list A) i j a b :
  (forall t, (cnt t (map f l) <= 1)%nat) -> l !! i = Some a -> l !! j = Some b -> i <> j -> f a <> f b.
Proof.
  intros Hc Hi Hj Hne E. destruct (decide (i < j)%nat) as [Hlt|Hge].
  - pose proof (take_drop_middle _ _ _ Hi) as Et. specialize (Hc (f a)). rewrite <- Et, map_app, cnt_app in Hc. cbn [map] in Hc.
    rewrite cnt_cons_eq in Hc. assert (Hin : f a ∈ map f (drop (S i) l)).
    { rewrite E. apply elem_map, (list_elem_of_lookup_2 _ (j - S i)). rewrite lookup_drop. by replace (S i + (j - S i))%nat with j by lia. }
    apply cnt_some in Hin. lia.
  - pose proof (take_drop_middle _ _ _ Hj) as Et. specialize (Hc (f b)). rewrite <- Et, map_app, cnt_app in Hc. cbn [map] in Hc.
    rewrite cnt_cons_eq in Hc. assert (Hin : f b ∈ map f (drop (S j) l)).
    { rewrite <- E. apply elem_map, (list_elem_of_lookup_2 _ (i - S j)). rewrite lookup_drop. by replace (S j + (i - S j))%nat with i by lia. }
    apply cnt_some in Hin. lia.
Qed.

(** ** What an answer says *)

(** Some batch of the operation was written, flushed and reported. *)
Definition typed (s : LaneState) (op : OpId) : Prop :=
  exists h, h ∈ written s /\ h_op h = op /\ (h_ticket h, Write_Delivered) ∈ reports s.
Definition honest (s : LaneState) (m : WaiterMessage) : Prop :=
  match m with
  | Completed t Write_Delivered => exists h, h ∈ written s /\ h_ticket h = t /\ (t, Write_Delivered) ∈ reports s
  | Abandoned _ r => r <> CommandResult_Ok
  | _ => True
  end.
Definition truthful (s : LaneState) (a : WaiterAction) : Prop :=
  match a with
  | Act_SetFinal op r | Act_Reply _ op r => r = CommandResult_Ok -> typed s op
  | Act_Release _ => True
  end.
Record Honest (s : LaneState) : Prop := mkHonest {
  v_cache : forall o e, entries (cache s) !! o = Some e -> op_result e = Some CommandResult_Ok -> typed s o;
  v_todo : forall a, a ∈ todo s -> truthful s a;
  v_answered : forall c o r, (c, o, r) ∈ answered s -> r = CommandResult_Ok -> typed s o;
  v_box : forall m, m ∈ mailbox s -> honest s m;
  v_link : forall p h, p ∈ unresolved s -> h ∈ live s -> pc_ticket p = h_ticket h -> pc_operation p = h_op h
}.

Lemma delivered_mono s s' o :
  (forall h, h ∈ written s -> h ∈ written s') -> (forall x, x ∈ reports s -> x ∈ reports s') -> typed s o -> typed s' o.
Proof. intros Hw Hr (h & H & E & Hd). exists h. auto. Qed.
(** A step that says nothing new, or nothing false. *)
Lemma honest_frame s s' :
  Honest s -> (forall h, h ∈ written s -> h ∈ written s') -> (forall x, x ∈ reports s -> x ∈ reports s') ->
  (forall o e, entries (cache s') !! o = Some e -> op_result e = Some CommandResult_Ok ->
     typed s' o \/ exists e', entries (cache s) !! o = Some e' /\ op_result e' = Some CommandResult_Ok) ->
  (forall a, a ∈ todo s' -> a ∈ todo s \/ truthful s' a) ->
  (forall c o r, (c, o, r) ∈ answered s' -> (c, o, r) ∈ answered s \/ (r = CommandResult_Ok -> typed s' o)) ->
  (forall m, m ∈ mailbox s' -> m ∈ mailbox s \/ honest s' m) ->
  (forall p, p ∈ unresolved s' -> p ∈ unresolved s) -> (forall h, h ∈ live s' -> h ∈ live s) -> Honest s'.
Proof.
  intros [Vc Vt Va Vb Vl] Hw Hr Hc Ht Ha Hb Hu Hl. constructor.
  - intros o e E Er. destruct (Hc o e E Er) as [?|(e' & E' & Er')]; [done|]. by eapply delivered_mono, Vc.
  - intros a H. destruct (Ht a H) as [H'|?]; [|done]. specialize (Vt a H'). destruct a; simpl in *; try done; intros E; by eapply delivered_mono, Vt.
  - intros c o r H E. destruct (Ha c o r H) as [H'|Hd]; [by eapply delivered_mono, Va|by apply Hd].
  - intros m H. destruct (Hb m H) as [H'|?]; [|done]. specialize (Vb m H'). destruct m as [|t []| |]; simpl in *; try done.
    destruct Vb as (h & ? & ? & ?). exists h. auto.
  - intros p h Hp Hh. apply Vl; auto.
Qed.
Lemma honest_same s s' :
  Honest s -> (forall h, h ∈ written s -> h ∈ written s') -> reports s' = reports s -> cache s' = cache s -> todo s' = todo s ->
  answered s' = answered s -> mailbox s' = mailbox s -> pending s' = pending s -> live s' = live s -> Honest s'.
Proof.
  intros Hs Hw Er Ec Et Ea Em Ep El. apply (honest_frame s); try done; unfold unresolved; rewrite ?Er, ?Ec, ?Et, ?Ea, ?Em, ?Ep, ?El; eauto.
Qed.
Lemma honest_post s ms : Honest s -> registered ms = [] -> (forall m, m ∈ ms -> honest s m) -> Honest (post s ms).
Proof.
  intros Hs Hr Hm. destruct (post_fields s ms) as (_ & _ & _ & _ & Fc & _ & Fi & Fp & _ & Ft & _ & _ & Fh & Fw & Fr & Fa).
  apply (honest_frame s); try done; rewrite ?Fw, ?Fr, ?Fc, ?Ft, ?Fa; eauto.
  - intros m H. destruct (mailbox_post _ _ _ H) as [?|Hin]; [by left|right]. specialize (Hm m Hin).
    destruct m as [|t []| |]; simpl in *; try done. destruct Hm as (h & ? & ? & ?). exists h. by rewrite Fw, Fr.
  - intros p. rewrite unresolved_post, Hr. by destruct (waiter_gone s).
  - intros h. unfold live. by rewrite Fi, Fh.
Qed.
Lemma honest_report s t o :
  Honest s -> (o = Write_Delivered -> exists h, h ∈ written s /\ h_ticket h = t) -> Honest (fire_sink s t o).
Proof.
  intros Hs Ho. unfold fire_sink. apply honest_post; [|done|].
  - apply (honest_frame s); try done; simpl; eauto. intros x H. apply elem_of_app. by left.
  - intros m ->%list_elem_of_singleton. destruct o; simpl; try done. destruct (Ho eq_refl) as (h & ? & ?). exists h.
    repeat split; try done. apply elem_of_app. right. by left.
Qed.
Lemma honest_refuse s rq r : Honest s -> (r = CommandResult_Ok -> typed s (rq_op rq)) -> Honest (refuse s rq r).
Proof.
  intros Hs Hr. apply (honest_frame s); try done; simpl; eauto.
  intros c o r' [H|H%list_elem_of_singleton]%elem_of_app; [by left|right]. by injection H as -> -> ->.
Qed.
Lemma honest_admit s c op t events : Honest s -> Honest (apply_input_admit s c op t events).
Proof.
  intros Hs. unfold apply_input_admit. destruct (try_acquire _ _ _) as [[]|]; [by apply (honest_same s)|].
  apply (honest_frame s); try done; simpl; eauto.
  intros c' o r' [H|H%list_elem_of_singleton]%elem_of_app; [by left|right]. by injection H as -> -> ->.
Qed.
Lemma honest_process s srv enc ok rq rest :
  in_hand s = None -> queue s = rq :: rest -> tickets s + 1 < 2 ^ 64 -> Orderly s -> Honest s ->
  Honest (process_apply_input debug_id kind_text sha256 would_reject s srv enc ok rq rest).
Proof.
  intros Hi Eq Hlt Ho Hs. unfold process_apply_input. pose proof (prepare_spec enc srv (cache s) rq ok) as Hp.
  destruct (prepare_acknowledged_batch _ _ _ _ _ _ _ _ _ _ _ _ _) as [res c]. destruct Hp as (_ & H2 & H3).
  destruct (orderly_taken s rq rest c Eq Hlt Ho) as [-> Hx].
  set (s1 := up_tickets _ _) in *.
  assert (Hs1 : Honest s1).
  { apply (honest_frame s); try done; eauto. intros o e E Er. right. destruct (H2 o e E) as [?|(_ & _ & ?)]; [eauto|congruence]. }
  destruct res as [b|r].
  2: { apply honest_refuse; [done|]. intros ->. destruct (H3 eq_refl) as (e & E & Er). by eapply (v_cache _ Hs1). }
  simpl waiter_gone. destruct (waiter_gone s) eqn:Eg; [by apply honest_refuse|].
  destruct Hs1 as [Vc Vt Va Vb Vl]. unfold post. change (waiter_gone s1) with (waiter_gone s). rewrite Eg.
  constructor; try done.
  - intros m. cbn. intros [H| ->%list_elem_of_singleton]%elem_of_app; [by apply Vb|done].
  - intros p h. unfold unresolved, live. cbn. rewrite registered_app. cbn. intros Hp Hh Et.
    assert (Hhl : forall h', h' ∈ handed s -> h_ticket h' <= tickets s).
    { intros h' H. apply (o_live_le _ _ Ho). unfold live. rewrite Hi, app_nil_r. exact H. }
    assert (Hpl : forall q, q ∈ unresolved s -> pc_ticket q <= tickets s) by apply Ho.
    rewrite !elem_of_app, !list_elem_of_singleton in *.
    destruct Hh as [Hh| ->]; [specialize (Hhl h Hh)|].
    + destruct Hp as [[Hp| ->]|Hp]; [|cbn in Et; lia|]; (apply Vl; [unfold unresolved; cbn; set_solver|unfold live; cbn; rewrite Hi, app_nil_r; done|done]).
    + destruct Hp as [[Hp| ->]|Hp]; [|done|]; (assert (pc_ticket p <= tickets s) by (apply Hpl; unfold unresolved; set_solver)); cbn in Et; lia.
Qed.
Lemma honest_hand_off s srv ih m : in_hand s = Some ih -> Honest s -> Honest (process_hand_off debug_id kind_text s srv ih m).
Proof.
  intros Hi Hs. unfold process_hand_off.
  pose proof (hand_off_spec srv (rq_client (ih_request ih)) (rq_terminal (ih_request ih)) (ih_prepared ih) (h_ticket (ih_batch ih)) m) as H.
  assert (Hs1 : Honest (up_in_hand s None)).
  { apply (honest_frame s); try done; eauto. unfold live; simpl. intros h. rewrite app_nil_r, elem_of_app. by left. }
  destruct (hand_off _ _ _ _ _ _ _ _) as [ms taken]. destruct H as [[[q ->] ->]|[-> H]].
  - destruct Hs as [Vc Vt Va Vb Vl]. unfold post; simpl. destruct (waiter_gone s);
      constructor; try done; unfold live, unresolved in *; simpl; rewrite ?Hi, ?app_nil_r in *; done.
  - apply honest_post; [done| |].
    + apply registered_none. intros p Hp. by destruct (H _ Hp) as [(r & ? & _)|?].
    + intros x Hx. by destruct (H x Hx) as [(r & -> & ?)| ->].
Qed.
Lemma settling_elem fin refs a : a ∈ settling fin refs ->
  (exists p r, (p, r) ∈ fin /\ a ∈ finalize p r) \/ (exists p r, (p, r) ∈ refs /\ a ∈ resolve_without_writer p r).
Proof.
  unfold settling. rewrite elem_of_app, !list_elem_of_In, !in_concat.
  intros [(x & H & Ha)|(x & H & Ha)]; apply in_map_iff in H as ([p r] & <- & H); [left|right]; exists p, r; by rewrite !list_elem_of_In.
Qed.
Lemma truthful_settled s p r :
  (r = CommandResult_Ok -> typed s (pc_operation p)) -> forall a, a ∈ finalize p r \/ a ∈ resolve_without_writer p r -> truthful s a.
Proof. intros H a. unfold finalize, resolve_without_writer. rewrite !elem_of_cons, !elem_of_nil. intros Ha. destruct_or!; by subst. Qed.
Lemma honest_round s m rest :
  woken s m rest -> waiter_gone s = false -> todo s = [] -> Orderly s -> Written s -> Honest s -> Honest (run_waiter s m rest).
Proof.
  intros Hw Hg Ht Ho Hwr Hs.
  destruct (round_spec s m rest Hw (o_keyed _ _ Ho) (o_tickets _ _ Ho) Hg) as (mb & ps & g & fin & refs & -> & Hp & Hk & Hm & Hgo & Hf & Hr).
  apply (honest_frame s); try done; simpl; eauto.
  - intros a Ha. right. destruct (settling_elem _ _ _ Ha) as [(p & r & H & Hin)|(p & r & H & Hin)].
    + eapply truthful_settled; [|by left]. intros ->. destruct (Hf _ _ H) as [?|(o & E & Hc)]; [done|].
      assert (o = Write_Delivered) as -> by (by destruct o). destruct (v_box _ Hs _ Hc) as (h & Hh & Eh & Hd).
      exists h. rewrite Eh. repeat split; try done. symmetry. apply (v_link _ Hs); [|unfold live|done].
      * rewrite <- Hp. apply (elem_map fst) in H. rewrite !elem_of_app. auto.
      * apply elem_of_app. left. apply (w_handed _ Hwr). set_solver.
    + eapply truthful_settled; [|by right]. intros ->. destruct (Hr _ _ H) as [Ha'|[_ ?]]; [|done]. by destruct (v_box _ Hs _ Ha').
  - intros p. rewrite <- Hp. unfold unresolved; simpl. set_solver.
Qed.
Lemma honest_act s a rest : todo s = a :: rest -> Honest s -> Honest (waiter_acts s a rest).
Proof.
  intros Et Hs. assert (Ha : truthful s a) by (apply (v_todo _ Hs); rewrite Et; by left).
  assert (Hr : forall x, x ∈ rest -> x ∈ todo s) by (intros x Hx; rewrite Et; by right).
  destruct a as [op r|rv|c op r]; apply (honest_frame s); try done; simpl; eauto.
  - intros o e. rewrite lookup_alter_Some. intros [(<- & e0 & E & ->)|[_ E]] Er; [left; injection Er as ->; by apply Ha|right; eauto].
  - intros c' o r' [H|H%list_elem_of_singleton]%elem_of_app; [by left|right]. by injection H as -> -> ->.
Qed.
Lemma service_typed refusal outcome attempted go :
  service_write_request refusal outcome = (Write_Delivered, attempted, go) -> attempted = true.
Proof. unfold service_write_request. destruct refusal; [done|]. destruct outcome; by injection 1. Qed.
Lemma honest_step s s' : lane_step s s' -> Orderly s -> Written s -> Honest s -> Honest s'.
Proof.
  intros Hst Ho Hw Hs. assert (Hj : forall js, Honest (up_jobs s js)) by (intros; by apply (honest_same s)).
  destruct Hst; unfold engine_services, writer_services, drop_job.
  - by apply (honest_same s).
  - by apply honest_admit.
  - unfold apply_input_send. destruct m; try (by apply honest_refuse; [apply (honest_same s)|]); by apply (honest_same s).
  - by apply honest_process.
  - by apply honest_hand_off.
  - destruct (service_encoded_input _ _) as [o|] eqn:E; [|done]. apply honest_report; [done|].
    intros ->. unfold service_encoded_input in E. by destruct has_pty, m.
  - destruct (service_write_request _ _) as [[o att] go] eqn:E. apply honest_report.
    + destruct att; [|done]. apply (honest_same (up_jobs s (l ++ l'))); try done. simpl. set_solver.
    + intros ->. rewrite (service_typed _ _ _ _ E). exists (wj_batch j). split; [|done]. simpl. set_solver.
  - by apply honest_report.
  - apply honest_post; [done|done|]. by intros m ->%list_elem_of_singleton.
  - by apply honest_round.
  - by apply honest_round.
  - by apply honest_act.
Qed.
Lemma honest_run s : lane_run s -> Honest s.
Proof.
  induction 1 as [|s s' Hr IH Hst].
  - constructor; try done; [intros a H|intros c o r H|intros m H|intros p h H]; by apply not_elem_of_nil in H.
  - eapply honest_step; eauto; [by apply orderly_run|by apply wrote_run].
Qed.

(** ** What a client that resends is promised *)

(** C1: whatever the interleaving of the client tasks, the input lane, the pane engines, the pane
    writers and the completion waiter, and whatever the server, the encoders and the kernel answer:
    when two batches of one APPLY_INPUT operation are written to a PTY, one of them was prepared at
    least ten minutes after the binding of the id under which the other was. Within the retention
    of its id an operation is typed at most once, however often it is resent. The digests of the
    admitted batches are taken to collide only where the batches are equal. *)
Theorem no_operation_typed_twice s i j h1 h2 :
  lane_run s -> no_collision s -> written s !! i = Some h1 -> written s !! j = Some h2 -> i <> j -> h_op h1 = h_op h2 ->
  h_bound h1 + DEDUPE_RETENTION <= h_at h2 \/ h_bound h2 + DEDUPE_RETENTION <= h_at h1.
Proof.
  intros Hr Hn Hi Hj Hij Eo. destruct (wrote_run s Hr) as [Ho Hh]. pose proof (z_apart _ (settled_run s Hr Hn)) as Za.
  assert (Ht : h_ticket h1 <> h_ticket h2).
  { eapply (once_distinct h_ticket); [|exact Hi|exact Hj|done]. intros t. specialize (Ho t). rewrite map_app, cnt_app in Ho. lia. }
  assert (Hl : forall h k, written s !! k = Some h -> exists k', live s !! k' = Some h).
  { intros h k Hk. apply list_elem_of_lookup. unfold live. apply elem_of_app. left. apply Hh, elem_of_app. right.
    by eapply list_elem_of_lookup_2. }
  destruct (Hl _ _ Hi) as [a Ha], (Hl _ _ Hj) as [b Hb]. destruct (decide (a = b)) as [->|]; [congruence|].
  destruct (decide (a < b)%nat); [left; by apply (Za a b)|right; apply (Za b a); [lia|done..]].
Qed.

(** C16: an APPLY_INPUT that is answered OK was typed: some batch of that operation was written and
    flushed to a PTY, and its writer reported it delivered. That holds of the first answer and of
    every answer a resend gets from the dedupe cache. *)
Theorem ok_means_typed s c o :
  lane_run s -> (c, o, CommandResult_Ok) ∈ answered s ->
  exists h, h ∈ written s /\ h_op h = o /\ (h_ticket h, Write_Delivered) ∈ reports s.
Proof. intros Hr Ha. by apply (v_answered _ (honest_run s Hr) c o CommandResult_Ok). Qed.

(** ** Playing a schedule *)

(** A schedule names the next thread; the premises of its step are decided. *)
Inductive Move : Type :=
| M_tick (d : Z) | M_admit (c : ClientId) (op : OpId) (t : ResourceId) (events : list InputEvent) | M_send (m : Mailbox)
| M_process (srv : ServerState) (enc : key -> TerminalInput -> option (option bytes)) (ok : bool)
| M_hand_off (srv : ServerState) (m : Mailbox) | M_engine (has_pty : bool) (m : Mailbox)
| M_writer (refusal : option Z) (outcome : WriteOutcome) | M_message | M_act.
Definition play (s : LaneState) (m : Move) : option LaneState :=
  match m with
  | M_tick d => if 0 <=? d then Some (up_now s (now s + d)) else None
  | M_admit c op t events =>
      if wf_frame BootstrapLimits_default (command_of op t events) && (len (encode_body (command_of op t events)) <=? MAX_FRAME_LEN)
         && (len (encode (command_of op t events)) <=? isize_max)
      then Some (apply_input_admit s c op t events) else None
  | M_send m => match arriving s with rq :: l => Some (apply_input_send s [] rq l m) | [] => None end
  | M_process srv enc ok =>
      match in_hand s, queue s with
      | None, rq :: rest =>
          if tickets s + 1 <? 2 ^ 64 then Some (process_apply_input debug_id kind_text sha256 would_reject s srv enc ok rq rest) else None
      | _, _ => None
      end
  | M_hand_off srv m => ih ← in_hand s; Some (process_hand_off debug_id kind_text s srv ih m)
  | M_engine has_pty m =>
      match jobs s with j :: l => if wj_queued j then None else Some (engine_services s [] j l has_pty m) | [] => None end
  | M_writer refusal outcome =>
      match jobs s with j :: l => if wj_queued j then Some (writer_services s [] j l refusal outcome) else None | [] => None end
  | M_message =>
      match waiter_gone s, todo s, mailbox s with
      | false, [], m :: rest => Some (run_waiter s (Some m) rest)
      | _, _, _ => None
      end
  | M_act => match todo s with a :: rest => Some (waiter_acts s a rest) | [] => None end
  end.
Fixpoint plays (s : LaneState) (ms : list Move) : option LaneState :=
  match ms with [] => Some s | m :: ms => s ← play s m; plays s ms end.
Lemma play_step s m s' : play s m = Some s' -> lane_step s s'.
Proof.
  destruct m; simpl; intros H.
  - destruct (Z.leb_spec 0 d); [|done]. injection H as <-. by constructor.
  - destruct (_ && _) eqn:E; [|done]. injection H as <-. apply andb_true_iff in E as [E E3]. apply andb_true_iff in E as [E1 E2].
    constructor. split; [done|]. split; by apply Z.leb_le.
  - destruct (arriving s) eqn:E; [done|]. injection H as <-. by apply (t_send s []).
  - destruct (in_hand s) eqn:Ei; [done|]. destruct (queue s) eqn:Eq; [done|]. destruct (Z.ltb_spec (tickets s + 1) (2 ^ 64)); [|done].
    injection H as <-. by constructor.
  - destruct (in_hand s) eqn:Ei; [|done]. injection H as <-. by constructor.
  - destruct (jobs s) eqn:Ej; [done|]. destruct (wj_queued _) eqn:Eq; [done|]. injection H as <-. by apply (t_engine s []).
  - destruct (jobs s) eqn:Ej; [done|]. destruct (wj_queued _) eqn:Eq; [|done]. injection H as <-. by apply (t_writer s []).
  - destruct (waiter_gone s) eqn:Eg; [done|]. destruct (todo s) eqn:Et; [|done]. destruct (mailbox s) eqn:Em; [done|]. injection H as <-. by constructor.
  - destruct (todo s) eqn:Et; [done|]. injection H as <-. by constructor.
Qed.
Lemma plays_run s ms s' : lane_run s -> plays s ms = Some s' -> lane_run s'.
Proof.
  revert s. induction ms as [|m ms IH]; intros s Hs; simpl; [by injection 1 as <-|].
  destruct (play s m) as [s1|] eqn:E; [|done]. apply IH. eapply lane_goes; [done|by apply play_step in E].
Qed.
End Steps.

(** ** Two schedules *)

Definition an_op : OpId := repeat 1 16.
Definition a_batch : list InputEvent := [InputEvent_Focus FocusEvent_Gained].
Definition an_encoder (pane : key) (i : TerminalInput) : option (option bytes) := Some (Some [120]).
(** The batch is admitted, handed off, written and answered. *)
Definition typed_round : list Move :=
  [M_admit 7 an_op (ResourceId_Local 1) a_batch; M_send Mailbox_Taken; M_process demo_server an_encoder true;
   M_hand_off demo_server Mailbox_Taken; M_engine true Mailbox_Taken; M_writer None Wrote;
   M_message; M_message; M_act; M_act; M_act].
(** The batch is refused before its hand-off: the Terminal is not there yet. *)
Definition refused_round : list Move :=
  [M_admit 7 an_op (ResourceId_Local 1) a_batch; M_send Mailbox_Taken; M_process (server_new []) an_encoder true].
(** The batch is sent again, and the answer comes from the cache. *)
Definition cached_round : list Move :=
  [M_admit 7 an_op (ResourceId_Local 1) a_batch; M_send Mailbox_Taken; M_process demo_server an_encoder true].
Definition a_second : Z := 1000000000.
Definition played (ms : list Move) : option LaneState :=
  plays no_id no_kind (fun b => b) (fun _ => false) lane_new ms.
Definition state_of (o : option LaneState) : LaneState := default lane_new o.
Definition resent : LaneState :=
  state_of (played (typed_round ++ cached_round ++ [M_tick (DEDUPE_RETENTION + a_second)] ++ typed_round)).

Lemma played_run ms s : played ms = Some s -> lane_run no_id no_kind (fun b => b) (fun _ => false) s.
Proof. intros H. eapply plays_run; [apply lane_starts|exact H]. Qed.
Lemma no_collision_id s : no_collision (fun b => b) s.
Proof. intros a b _ _ E. exact E. Qed.

Lemma no_operation_typed_twice_witness :
  exists h1 h2, written resent = [h1; h2] /\ h_op h1 = h_op h2 /\
    map snd (answered resent) = [CommandResult_Ok; CommandResult_Ok; CommandResult_Ok] /\
    (h_bound h1 + DEDUPE_RETENTION <= h_at h2 \/ h_bound h2 + DEDUPE_RETENTION <= h_at h1).
Proof.
  assert (Hr : lane_run no_id no_kind (fun b => b) (fun _ => false) resent).
  { apply (played_run (typed_round ++ cached_round ++ [M_tick (DEDUPE_RETENTION + a_second)] ++ typed_round)). vm_compute. reflexivity. }
  eexists _, _. split; [vm_compute; reflexivity|]. split; [reflexivity|]. split; [vm_compute; reflexivity|].
  apply (no_operation_typed_twice no_id no_kind (fun b => b) (fun _ => false) resent 0 1);
    [exact Hr|apply no_collision_id|vm_compute; reflexivity|vm_compute; reflexivity|done|reflexivity].
Defined.
Lemma ok_means_typed_witness :
  (7, an_op, CommandResult_Ok) ∈ answered resent /\
  exists h, h ∈ written resent /\ h_op h = an_op /\ (h_ticket h, Write_Delivered) ∈ reports resent.
Proof.
  assert (Ha : (7, an_op, CommandResult_Ok) ∈ answered resent).
  { apply (list_elem_of_lookup_2 _ 0). vm_compute. reflexivity. }
  split; [exact Ha|]. apply (ok_means_typed no_id no_kind (fun b => b) (fun _ => false) resent 7 an_op); [|exact Ha].
  apply (played_run (typed_round ++ cached_round ++ [M_tick (DEDUPE_RETENTION + a_second)] ++ typed_round)). vm_compute. reflexivity.
Defined.

(** The horizon runs from the first binding of an id, not from the batch that was typed: where
    the first try is refused before its hand-off and the unchanged operation is sent again late in
    the ten minutes, the result of the retry leaves the cache with the binding of the first try. A
    third send of the same operation two seconds after the second is answered OK and typed again. *)
Theorem horizon_runs_from_first_binding :
  exists s h1 h2,
    played (refused_round ++ [M_tick (DEDUPE_RETENTION - a_second)] ++ typed_round ++ [M_tick (2 * a_second)] ++ typed_round) = Some s
    /\ written s = [h1; h2] /\ h_op h1 = h_op h2 /\ h_at h2 = h_at h1 + 2 * a_second
    /\ map snd (answered s) = [no_such_terminal no_id (ResourceId_Local 1); CommandResult_Ok; CommandResult_Ok].
Proof.
  eexists _, _, _. split; [vm_compute; reflexivity|]. split; [vm_compute; reflexivity|]. by split; [|split; [|vm_compute]].
Qed.
