(* ===== verification/Patience.v ===== *)
(** * A wedged writer holds nothing for good

    Whatever the server, the encoders and the queues answer, and though no engine and no writer
    ever moves again, the lane and the completion waiter release every Terminal's reservation. *)

From stdpp Require Import gmap.
From S2P Require Import Prelude Wire Fields Enums Caps Codec Info Command SshOrigin Compress Instances Frame.
From S2P Require Import IdBridge Leases SpawnLedger ResourceTable Metadata SessionTable Agent ClientTable.
From S2P Require Import Window Registry ServerState Lifecycle Booked Watcher Spawn ServerSteps InputGate Wheel AckInput ExactlyOnce.
From S2P Require Import Ids.

(** ** Deadlines *)

(** The two indexes of a [PendingSet] agree. *)
Definition dated (ps : PendingSet) : Prop :=
  (forall t p, by_ticket ps !! t = Some p -> (pc_deadline p, t) ∈ by_deadline ps) /\
  (forall d t, (d, t) ∈ by_deadline ps -> exists p, by_ticket ps !! t = Some p /\ pc_deadline p = d).

Lemma first_deadline_spec ps :
  match first_deadline ps with
  | Some x => x ∈ by_deadline ps
  | None => forall x, x ∉ by_deadline ps
  end.
Proof.
  unfold first_deadline. set (f := fun x acc => _).
  assert (H : forall l, match foldr f None l with Some x => x ∈ l | None => l = [] end).
  { induction l as [|x l IH]; [done|]. simpl. destruct (foldr f None l) as [y|]; simpl; [|by left].
    destruct (pair_le x y); [by left|by right]. }
  specialize (H (elements (by_deadline ps))). destruct (foldr _ _ _) as [x|]; [by apply elem_of_elements|].
  intros x Hx%elem_of_elements. rewrite H in Hx. by apply not_elem_of_nil in Hx.
Qed.
(** Both indexes lose one ticket. *)
Lemma dated_delete ps p t :
  dated ps -> by_ticket ps !! t = Some p ->
  dated (mkPendingSet (delete t (by_ticket ps)) (by_deadline ps ∖ {[(pc_deadline p, t)]})).
Proof.
  intros [H1 H2] Ep. split; simpl.
  - intros t' p' [Hn E]%lookup_delete_Some. specialize (H1 t' p' E). set_solver.
  - intros d t' H. assert (Hin : (d, t') ∈ by_deadline ps) by set_solver. destruct (H2 d t' Hin) as (p' & E & <-).
    exists p'. split; [|done]. rewrite lookup_delete_ne; [done|]. intros ->. rewrite Ep in E. injection E as ->. set_solver.
Qed.
Lemma dated_insert ps p : dated ps -> by_ticket ps !! pc_ticket p = None -> dated (pending_insert ps p).
Proof.
  intros [H1 H2] En. split; simpl.
  - intros t q [[<- <-]|[Hn E]]%lookup_insert_Some; [set_solver|]. specialize (H1 t q E). set_solver.
  - intros d t [E%elem_of_singleton|H]%elem_of_union.
    + injection E as -> ->. exists p. by rewrite lookup_insert_eq.
    + destruct (H2 d t H) as (q & E & <-). exists q. split; [|done]. rewrite lookup_insert_ne; [done|]. intros <-. congruence.
Qed.
Lemma dated_take ps t p ps' : dated ps -> pending_take ps t = Some (p, ps') -> dated ps'.
Proof.
  unfold pending_take. intros Hd. destruct (by_ticket ps !! t) as [q|] eqn:E; [|done].
  cbn [mbind option_bind]. injection 1 as <- <-. by apply dated_delete.
Qed.
Lemma take_expired_loop_dated n ps now : dated ps -> dated (take_expired_loop n ps now).2.
Proof.
  revert ps. induction n as [|n IH]; intros ps Hd; simpl; [done|].
  pose proof (first_deadline_spec ps) as Hf. destruct (first_deadline ps) as [[d t]|]; [|done]. destruct (now <? d); [done|].
  destruct (proj2 Hd d t Hf) as (p & E & <-). rewrite E.
  specialize (IH _ (dated_delete ps p t Hd E)). by destruct (take_expired_loop _ _ _).
Qed.
(** With fuel for every entry, nothing past its deadline is left. *)
Lemma take_expired_loop_all n ps now :
  dated ps -> (size (by_deadline ps) < n)%nat -> (forall p, p ∈ pend_list ps -> pc_deadline p <= now) ->
  by_ticket (take_expired_loop n ps now).2 = ∅.
Proof.
  revert ps. induction n as [|n IH]; intros ps Hd Hn Hle; [lia|]. simpl.
  pose proof (first_deadline_spec ps) as Hf. destruct (first_deadline ps) as [[d t]|].
  - destruct (proj2 Hd d t Hf) as (p & E & <-). assert (Hp : p ∈ pend_list ps) by (apply pend_list_elem; eauto).
    destruct (Z.ltb_spec now (pc_deadline p)) as [?|_]; [specialize (Hle p Hp); lia|]. rewrite E.
    pose proof (IH _ (dated_delete ps p t Hd E)) as IH'. simpl in IH'.
    destruct (take_expired_loop _ _ _) as [ex ps']. apply IH'.
    + rewrite size_difference by set_solver. rewrite size_singleton.
      assert (size (by_deadline ps) <> 0%nat) by (intros Hz%size_empty_inv; set_solver). lia.
    + intros q (t' & Eq)%pend_list_elem. simpl in Eq. apply lookup_delete_Some in Eq as [_ Eq]. apply Hle, pend_list_elem. eauto.
  - simpl. apply map_empty. intros t. destruct (by_ticket ps !! t) as [p|] eqn:E; [|done]. by apply (proj1 Hd), Hf in E.
Qed.

Section Patience.
Context (debug_id : ResourceId -> bytes) (kind_text : WrongResourceKind -> bytes).
Context {RJ : Info.ReportJson} {IT : SshOrigin.IpText} (sha256 : bytes -> bytes) (would_reject : PasteEvent -> bool).

Lemma round_dated s m rest : woken s m rest -> Orderly s -> dated (pending s) -> dated (pending (run_waiter s m rest)).
Proof.
  intros Hw Ho Hd. unfold run_waiter. destruct (take_expired (pending s) (now s)) as [ex ps] eqn:E.
  assert (Hp : dated ps) by (pose proof (take_expired_loop_dated (S (size (by_deadline (pending s)))) _ (now s) Hd) as H; unfold take_expired in E; by rewrite E in H).
  destruct m as [[p|t o|t r|]|]; try done.
  - apply dated_insert; [done|]. destruct (by_ticket ps !! pc_ticket p) as [q|] eqn:Eq; [|done]. exfalso.
    destruct (take_expired_spec _ _ _ _ E) as [_ Hs]. pose proof (lookup_weaken _ _ _ _ Eq Hs) as Eq'.
    pose proof (o_tickets _ _ Ho (pc_ticket p)) as Hc. unfold unresolved in Hc. simpl in Hw. rewrite Hw in Hc.
    cbn [registered] in Hc. rewrite map_app, cnt_app in Hc. change (registered (Registered p :: rest)) with (p :: registered rest) in Hc.
    cbn [map] in Hc. rewrite cnt_cons_eq in Hc.
    assert (Hin : pc_ticket p ∈ map pc_ticket (pend_list (pending s))).
    { rewrite <- (o_keyed _ _ Ho _ _ Eq'). apply elem_map, pend_list_elem. eauto. }
    apply cnt_some in Hin. lia.
  - destruct (pending_take ps t) as [[p ps']|] eqn:Et; [|done]. by eapply dated_take.
  - destruct (pending_take ps t) as [[p ps']|] eqn:Et; [|done]. by eapply dated_take.
Qed.
Lemma pending_post s ms : pending (post s ms) = pending s.
Proof. unfold post. by destruct (waiter_gone s). Qed.
Lemma pending_step s s' :
  lane_step debug_id kind_text sha256 would_reject s s' -> pending s' = pending s \/ exists m rest, s' = run_waiter s m rest /\ woken s m rest.
Proof.
  destruct 1; try (left; done).
  - left. unfold apply_input_admit. by destruct (try_acquire _ _ _) as [[]|].
  - left. by destruct m.
  - left. unfold process_apply_input. destruct (prepare_acknowledged_batch _ _ _ _ _ _ _ _ _ _ _ _ _) as [[] ?]; [|done].
    destruct (waiter_gone _); [done|]. simpl. by rewrite pending_post.
  - left. unfold process_hand_off. destruct (hand_off _ _ _ _ _ _ _ _) as [? []]; simpl; by rewrite ?pending_post.
  - left. unfold engine_services. destruct (service_encoded_input _ _); [|done]. unfold fire_sink. by rewrite pending_post.
  - left. unfold writer_services. destruct (service_write_request _ _) as [[? []] ?]; unfold fire_sink; by rewrite pending_post.
  - left. unfold drop_job, fire_sink. by rewrite pending_post.
  - left. by rewrite pending_post.
  - right. by exists (Some m), rest.
  - right. by exists None, (mailbox s).
  - left. by destruct a.
Qed.
Lemma dated_run s : lane_run debug_id kind_text sha256 would_reject s -> dated (pending s).
Proof.
  induction 1 as [|s s' Hr IH Hst]; [split; simpl; [intros t p E; by rewrite lookup_empty in E|intros d t H; set_solver]|].
  destruct (pending_step _ _ Hst) as [->|(m & rest & -> & Hw)]; [done|]. apply round_dated; [done|by eapply orderly_run|done].
Qed.

(** ** The lane and the waiter alone *)

(** The answers the two threads get, in whatever state they ask. *)
Context (srv : LaneState -> ServerState) (enc : LaneState -> key -> TerminalInput -> option (option bytes)) (ok : LaneState -> bool).
Context (lane_room engine_room : LaneState -> Mailbox).

Inductive quiet (s : LaneState) : LaneState -> Prop :=
| q_tick d : 0 <= d -> quiet s (up_now s (now s + d))
| q_send rq l : arriving s = rq :: l -> quiet s (apply_input_send s [] rq l (lane_room s))
| q_process rq rest :
    in_hand s = None -> queue s = rq :: rest -> tickets s + 1 < 2 ^ 64 ->
    quiet s (process_apply_input debug_id kind_text sha256 would_reject s (srv s) (enc s) (ok s) rq rest)
| q_hand_off ih : in_hand s = Some ih -> quiet s (process_hand_off debug_id kind_text s (srv s) ih (engine_room s))
| q_message m rest : waiter_gone s = false -> todo s = [] -> mailbox s = m :: rest -> quiet s (run_waiter s (Some m) rest)
| q_deadline d :
    waiter_gone s = false -> todo s = [] -> next_deadline (pending s) = Some d -> d <= now s ->
    quiet s (run_waiter s None (mailbox s))
| q_act a rest : todo s = a :: rest -> quiet s (waiter_acts s a rest).

Lemma quiet_run s s' :
  rtc quiet s s' -> lane_run debug_id kind_text sha256 would_reject s -> lane_run debug_id kind_text sha256 would_reject s'.
Proof.
  induction 1 as [|s s1 s' H Hrtc IH]; [done|]. intros Hr. apply IH. eapply lane_goes; [exact Hr|].
  destruct H; [by apply t_tick|by apply (t_send _ _ _ _ s [])|by apply t_process|by apply t_hand_off|by apply t_message|by eapply t_deadline|by apply t_act].
Qed.

(** The waiter does what it has to do. *)
Lemma quiet_acts s : exists s', rtc quiet s s' /\ todo s' = [] /\ arriving s' = arriving s /\ queue s' = queue s /\ in_hand s' = in_hand s
  /\ mailbox s' = mailbox s /\ pending s' = pending s /\ waiter_gone s' = waiter_gone s /\ tickets s' = tickets s.
Proof.
  remember (todo s) as td eqn:E. revert s E. induction td as [|a td IH]; intros s E; [by exists s|].
  destruct (IH (waiter_acts s a td)) as (s' & Hr & ? & Ha & Hq & Hi & Hm & Hp & Hg & Ht); [by destruct a|].
  exists s'. split; [eapply rtc_l; [by apply q_act|done]|]. by destruct a.
Qed.
(** The requests reach the queue, or are told it is full or gone. *)
Lemma quiet_sends s : exists s', rtc quiet s s' /\ arriving s' = [] /\ in_hand s' = in_hand s /\ tickets s' = tickets s
  /\ (length (queue s') <= length (queue s) + length (arriving s))%nat.
Proof.
  remember (arriving s) as l eqn:E. revert s E. induction l as [|rq l IH]; intros s E; [exists s; repeat split; try done; lia|].
  destruct (IH (apply_input_send s [] rq l (lane_room s))) as (s' & Hr & ? & Hi & Ht & Hl); [by destruct (lane_room s)|].
  exists s'. split; [eapply rtc_l; [by apply q_send|done]|]. split; [done|].
  destruct (lane_room s); cbn in Hi, Ht, Hl; rewrite ?length_app in Hl; cbn in *; (split; [done|split; [done|lia]]).
Qed.
(** The batch in the lane's hands is handed off, or refused. *)
Lemma quiet_hands s : exists s', rtc quiet s s' /\ in_hand s' = None /\ arriving s' = arriving s /\ queue s' = queue s /\ tickets s' = tickets s.
Proof.
  destruct (in_hand s) as [ih|] eqn:E; [|by exists s].
  exists (process_hand_off debug_id kind_text s (srv s) ih (engine_room s)). split; [apply rtc_once; by constructor|].
  unfold process_hand_off. destruct (hand_off _ _ _ _ _ _ _ _) as [ms taken].
  destruct (post_fields (up_in_hand s None) ms) as (_ & _ & Fa & Fq & _ & Ft & Fi & _). by destruct taken.
Qed.
(** The queue is worked off. *)
Lemma quiet_queue s : 0 <= tickets s -> tickets s + Z.of_nat (length (queue s)) < 2 ^ 64 -> in_hand s = None ->
  exists s', rtc quiet s s' /\ in_hand s' = None /\ arriving s' = arriving s /\ queue s' = [].
Proof.
  remember (queue s) as q eqn:E. revert s E. induction q as [|rq q IH]; intros s E Hp Ht Hi; [by exists s|].
  assert (Ht1 : tickets s + 1 < 2 ^ 64) by (cbn [length] in Ht; lia).
  assert (Hq : quiet s (process_apply_input debug_id kind_text sha256 would_reject s (srv s) (enc s) (ok s) rq q)) by by constructor.
  set (s1 := process_apply_input _ _ _ _ _ _ _ _ _ _) in *.
  assert (Hf : arriving s1 = arriving s /\ queue s1 = q /\ tickets s1 = tickets s + 1).
  { unfold s1, process_apply_input. destruct (prepare_acknowledged_batch _ _ _ _ _ _ _ _ _ _ _ _ _) as [res c].
    assert (Hn : next_ticket (tickets s) = tickets s + 1) by (unfold next_ticket; apply Z.mod_small; lia).
    destruct res; [|done]. destruct (waiter_gone _) eqn:Eg; [done|]. unfold post. rewrite Eg. done. }
  destruct Hf as (Fa & Fq & Ft). destruct (quiet_hands s1) as (s2 & Hr & Hi2 & Ha2 & Hq2 & Ht2).
  destruct (IH s2) as (s' & Hr' & ? & Ha' & ?); [congruence|lia|cbn [length] in Ht; lia|done|].
  exists s'. split; [eapply rtc_l; [exact Hq|by etransitivity]|]. split; [done|]. split; [congruence|done].
Qed.

(** The waiter reads its mailbox to the end. *)
Lemma round_mailbox s m rest : exists mb, (length mb <= length rest)%nat /\
  mailbox (run_waiter s m rest) = mb /\ arriving (run_waiter s m rest) = arriving s /\ queue (run_waiter s m rest) = queue s
  /\ in_hand (run_waiter s m rest) = in_hand s.
Proof.
  unfold run_waiter. destruct (take_expired _ _) as [ex ps].
  destruct m as [[p|t o|t r|]|]; try (by exists rest); try (destruct (pending_take ps t) as [[]|]; by exists rest).
  exists []. split; [cbn; lia|done].
Qed.
Definition still (s : LaneState) : Prop := arriving s = [] /\ queue s = [] /\ in_hand s = None.
Lemma quiet_mailbox s : lane_run debug_id kind_text sha256 would_reject s -> still s ->
  exists s', rtc quiet s s' /\ still s' /\ todo s' = [] /\ mailbox s' = [].
Proof.
  remember (length (mailbox s)) as n eqn:E. assert (Hn : (length (mailbox s) <= n)%nat) by lia. clear E. revert s Hn.
  induction n as [n IH] using lt_wf_ind. intros s Hn Hr (Sa & Sq & Si).
  destruct (quiet_acts s) as (s1 & R1 & T1 & A1 & Q1 & I1 & M1 & P1 & G1 & _).
  assert (St : still s1) by (unfold still; by rewrite A1, Q1, I1).
  pose proof (quiet_run _ _ R1 Hr) as Hr1. destruct (mailbox s1) as [|m rest] eqn:Em; [by exists s1|].
  destruct (waiter_gone s1) eqn:Eg; [destruct (o_gone _ _ (orderly_run _ _ _ _ _ Hr1) Eg); congruence|].
  assert (Hq : quiet s1 (run_waiter s1 (Some m) rest)) by by constructor.
  destruct (round_mailbox s1 (Some m) rest) as (mb & Hlen & Emb & Ea & Eq & Ei). rewrite <- M1 in Hn. cbn [length] in Hn.
  destruct (IH (length mb)) with (s := run_waiter s1 (Some m) rest) as (s' & R' & ?); [lia|rewrite Emb; lia|..].
  - apply (quiet_run s1); [by apply rtc_once|done].
  - destruct St as (? & ? & ?). unfold still. by rewrite Ea, Eq, Ei.
  - exists s'. split; [etransitivity; [exact R1|]; eapply rtc_l; [exact Hq|done]|done].
Qed.
(** Past every deadline, the waiter has nothing left to wait for. *)
Lemma quiet_deadlines s : lane_run debug_id kind_text sha256 would_reject s -> still s -> todo s = [] -> mailbox s = [] ->
  exists s', rtc quiet s s' /\ still s' /\ todo s' = [] /\ unresolved s' = [].
Proof.
  intros Hr (Sa & Sq & Si) Ht Hm. pose proof (dated_run s Hr) as Hd.
  assert (Hun : forall s', mailbox s' = [] -> by_ticket (pending s') = ∅ -> unresolved s' = []).
  { intros s' E1 E2. unfold unresolved, pend_list. by rewrite E1, E2, map_to_list_empty. }
  assert (Hmax : exists b, forall p, p ∈ pend_list (pending s) -> pc_deadline p <= b).
  { induction (pend_list (pending s)) as [|q l [b IH]]; [exists 0; intros p; apply not_in_nil|].
    exists (Z.max (pc_deadline q) b). intros p [->|H]%elem_of_cons; [lia|]. specialize (IH p H). lia. }
  destruct Hmax as [b Hb].
  pose proof (first_deadline_spec (pending s)) as Hf. destruct (first_deadline (pending s)) as [[d t]|] eqn:Ef.
  2: { exists s. split; [done|]. split; [done|]. split; [done|]. apply Hun; [done|]. apply map_empty. intros t.
       destruct (by_ticket (pending s) !! t) as [p|] eqn:E; [|done]. by apply (proj1 Hd), Hf in E. }
  set (late := up_now s (now s + Z.max 0 (b - now s))).
  destruct (waiter_gone s) eqn:Eg.
  { destruct (o_gone _ _ (orderly_run _ _ _ _ _ Hr) Eg) as [_ Ep]. exists s. repeat split; try done. apply Hun; [done|by rewrite Ep]. }
  destruct (proj2 Hd d t Hf) as (p & Ep & <-). assert (Hp : pc_deadline p <= b) by (apply Hb, pend_list_elem; eauto).
  assert (Q1 : quiet s late) by (apply q_tick; lia).
  assert (Q2 : quiet late (run_waiter late None (mailbox late))).
  { eapply (q_deadline _ (pc_deadline p)); [done|done| |simpl; lia]. unfold next_deadline. simpl. by rewrite Ef. }
  destruct (quiet_acts (run_waiter late None (mailbox late))) as (s' & R' & T' & A' & Qu' & I' & M' & P' & _).
  exists s'. split; [eapply rtc_l; [exact Q1|]; eapply rtc_l; [exact Q2|exact R']|].
  pose proof (take_expired_loop_all (S (size (by_deadline (pending s)))) (pending s) (now late) Hd) as Hall.
  unfold run_waiter in *. change (pending late) with (pending s) in *. unfold take_expired in *.
  destruct (take_expired_loop _ _ _) as [ex ps]. simpl in *.
  split; [by rewrite <- A' in Sa; rewrite <- Qu' in Sq; rewrite <- I' in Si|]. split; [done|].
  apply Hun; [by rewrite M'|]. rewrite P'. apply Hall; [lia|]. intros q Hq. specialize (Hb q Hq). lia.
Qed.

(** C15: no Terminal stays locked: from every state the threads can reach, the client tasks, the
    input lane and the completion waiter have a schedule of their own steps, past the last deadline,
    after which no Terminal has an unresolved acknowledged operation. The schedule exists for every
    answer of the server, of the encoders and of the queues to the two threads, and it takes no step
    of an engine or of a writer: a pane whose child never reads holds up nobody for good. *)
Theorem no_terminal_stays_locked s :
  lane_run debug_id kind_text sha256 would_reject s -> tickets s + Z.of_nat (length (queue s) + length (arriving s)) < 2 ^ 64 ->
  exists s', rtc quiet s s' /\ in_flight s' = ∅ /\ todo s' = [].
Proof.
  intros Hr Ht. destruct (quiet_sends s) as (s1 & R1 & A1 & I1 & T1 & L1). pose proof (quiet_run _ _ R1 Hr) as H1.
  destruct (quiet_hands s1) as (s2 & R2 & I2 & A2 & Q2 & T2). pose proof (quiet_run _ _ R2 H1) as H2.
  pose proof (o_counter _ _ (orderly_run _ _ _ _ _ H2)).
  destruct (quiet_queue s2) as (s3 & R3 & I3 & A3 & Q3); [done|rewrite T2, Q2; lia|done|]. pose proof (quiet_run _ _ R3 H2) as H3.
  assert (St : still s3) by (split; [congruence|done]).
  destruct (quiet_mailbox s3 H3 St) as (s4 & R4 & St4 & T4 & M4). pose proof (quiet_run _ _ R4 H3) as H4.
  destruct (quiet_deadlines s4 H4 St4 T4 M4) as (s5 & R5 & (A5 & Q5 & _) & T5 & U5). pose proof (quiet_run _ _ R5 H4) as H5.
  exists s5. split; [etransitivity; [exact R1|etransitivity; [exact R2|etransitivity; [exact R3|by etransitivity]]]|]. split; [|done].
  apply set_eq. intros t. split; [|set_solver]. intros Hin. exfalso.
  pose proof (o_holders _ _ (orderly_run _ _ _ _ _ H5) t) as Hc. rewrite bool_decide_eq_true_2 in Hc by done.
  unfold holders in Hc. by rewrite A5, Q5, U5, T5 in Hc.
Qed.
End Patience.

(** A batch in the queue of a writer that never moves. *)
Definition wedged : LaneState :=
  state_of (played [M_admit 7 an_op (ResourceId_Local 1) a_batch; M_send Mailbox_Taken; M_process demo_server an_encoder true;
                    M_hand_off demo_server Mailbox_Taken; M_engine true Mailbox_Taken]).
Lemma no_terminal_stays_locked_witness :
  in_flight wedged = {[ResourceId_Local 1]} /\ map wj_queued (jobs wedged) = [true] /\
  exists s', rtc (quiet no_id no_kind (fun b => b) (fun _ => false) (fun _ => demo_server) (fun _ => an_encoder) (fun _ => true)
                    (fun _ => Mailbox_Full) (fun _ => Mailbox_Full)) wedged s'
    /\ in_flight s' = ∅ /\ todo s' = [].
Proof.
  split; [vm_compute; reflexivity|]. split; [vm_compute; reflexivity|]. apply no_terminal_stays_locked; [|vm_compute; reflexivity].
  apply (played_run [M_admit 7 an_op (ResourceId_Local 1) a_batch; M_send Mailbox_Taken; M_process demo_server an_encoder true;
                     M_hand_off demo_server Mailbox_Taken; M_engine true Mailbox_Taken]). vm_compute. reflexivity.
Defined.
