(* ===== verification/HistoryCache.v ===== *)
(** * The client's history cache ([phux-client-core/src/history.rs])

    Older pages of one published terminal, as opaque bytes under a budget, with the cursor chain
    they are requested by. A [HashMap] is a [gmap], a [VecDeque] a list whose front is its head;
    SHA-256 is the argument [payload_digest]. *)

From stdpp Require Import gmap.
From S2P Require Import Prelude.

(* phux-client-core/src/history.rs MAX_HISTORY_PAGE_ROWS *)
Definition MAX_HISTORY_PAGE_ROWS : Z := 4096.

(* phux-client-core/src/history.rs HistoryCacheConfig *)
Record HistoryCacheConfig : Type := mkHistoryConfig {
  max_bytes : Z; max_materialized_rows : Z; prefetch_rows : Z; request_max_bytes : Z; request_max_rows : Z
}.
(* phux-client-core/src/history.rs:30-38 default *)
Definition HistoryCacheConfig_default : HistoryCacheConfig := mkHistoryConfig (16 * 1024 * 1024) 16384 128 (1024 * 1024) 1024.
(** [u32::try_from(n).unwrap_or(u32::MAX)]. *)
Definition u32_or_max (n : Z) : Z := if n <=? u32_max then n else u32_max.
Definition clamp (v lo hi : Z) : Z := if v <? lo then lo else if hi <? v then hi else v.
(* phux-client-core/src/history.rs HistoryCacheConfig::normalized *)
Definition normalized (c : HistoryCacheConfig) : HistoryCacheConfig :=
  let mb := Z.max (max_bytes c) 1 in
  let mr := Z.max (max_materialized_rows c) 1 in
  mkHistoryConfig mb mr (prefetch_rows c) (clamp (request_max_bytes c) 1 (u32_or_max mb))
    (clamp (request_max_rows c) 1 (Z.min MAX_HISTORY_PAGE_ROWS (u32_or_max mr))).

(** A cursor is its bytes. *)
Abbreviation HistoryCursor := (list Z).
Abbreviation DocumentAnchorId := Z.
(** A page is named by the cursor that asked for it and its sequence. *)
(* phux-client-core/src/history.rs HistoryPageId *)
Definition HistoryPageId : Type := HistoryCursor * Z.

(* phux-client-core/src/history.rs ViewportAnchor *)
Inductive ViewportAnchor : Type := Viewport_Tail | Viewport_Pinned (a : DocumentAnchorId).
#[export] Instance ViewportAnchor_eq_dec : EqDecision ViewportAnchor.
Proof. solve_decision. Defined.
(* phux-client-core/src/history.rs HistoryLoadState *)
Inductive HistoryLoadState : Type :=
| Load_Idle | Load_Loading | Load_Complete | Load_Gap | Load_Stale | Load_Pruned | Load_Tombstoned | Load_Cleared.
#[export] Instance HistoryLoadState_eq_dec : EqDecision HistoryLoadState.
Proof. solve_decision. Defined.

(* phux-client-core/src/history.rs HistoryStatus *)
Record HistoryStatus : Type := mkHistoryStatus {
  hs_state : HistoryLoadState; hs_loaded_pages : Z; hs_loaded_bytes : Z; hs_materialized_rows : Z; hs_unread_rows : Z;
  hs_next_cursor : option HistoryCursor; hs_next_page_seq : option Z
}.
(* phux-client-core/src/history.rs HistoryPageCheck *)
Inductive HistoryPageCheck : Type := Page_New | Page_Duplicate (id : HistoryPageId).
(* phux-client-core/src/history.rs HistoryCacheError *)
Inductive HistoryCacheError : Type :=
| History_Gap
| History_DuplicateConflict
| History_SequenceGap (expected actual : Z)
| History_SequenceExhausted
| History_EmptyPayload
| History_PageTooLarge (required budget : Z)
| History_ProjectionTooLarge (required budget : Z)
| History_PinnedBudget (required budget : Z)
| History_PinnedProjectionBudget (required budget : Z)
| History_PageUnavailable
| History_AnchorUnavailable.

(* phux-client-core/src/history.rs CachedPage *)
Record CachedPage : Type := mkPage {
  pg_next_cursor : option HistoryCursor; pg_declared_rows : Z; pg_payload : bytes; pg_materialized_rows : Z; pg_pin_count : Z
}.
(* phux-client-core/src/history.rs ConsumedPage *)
Record ConsumedPage : Type := mkConsumed {
  cs_id : HistoryPageId; cs_next_cursor : option HistoryCursor; cs_declared_rows : Z; cs_digest : bytes; cs_accounted_bytes : Z
}.

(* phux-client-core/src/history.rs HistoryCache *)
Record HistoryCache : Type := mkHistory {
  config : HistoryCacheConfig;
  pages : gmap HistoryPageId CachedPage;
  page_order : list HistoryPageId;
  evictable : list HistoryPageId;
  consumed : list ConsumedPage;
  consumed_bytes : Z;
  anchor_pages : gmap DocumentAnchorId (gset HistoryPageId);
  next_cursor : option HistoryCursor;
  next_page_seq : option Z;
  req_max_bytes : Z;
  req_max_rows : Z;
  load_state : HistoryLoadState;
  loaded_bytes : Z;
  materialized_rows : Z;
  pinned_bytes : Z;
  pinned_materialized_rows : Z;
  viewport : ViewportAnchor;
  projection_width : Z;
  unread_rows : Z
}.

(** The parts that move together. *)
Definition with_store c ps ord ev lb mr :=
  mkHistory (config c) ps ord ev (consumed c) (consumed_bytes c) (anchor_pages c) (next_cursor c) (next_page_seq c) (req_max_bytes c)
    (req_max_rows c) (load_state c) lb mr (pinned_bytes c) (pinned_materialized_rows c) (viewport c) (projection_width c) (unread_rows c).
Definition with_pins c ps ev pb pr :=
  mkHistory (config c) ps (page_order c) ev (consumed c) (consumed_bytes c) (anchor_pages c) (next_cursor c) (next_page_seq c)
    (req_max_bytes c) (req_max_rows c) (load_state c) (loaded_bytes c) (materialized_rows c) pb pr (viewport c) (projection_width c) (unread_rows c).
Definition with_anchors c a :=
  mkHistory (config c) (pages c) (page_order c) (evictable c) (consumed c) (consumed_bytes c) a (next_cursor c) (next_page_seq c)
    (req_max_bytes c) (req_max_rows c) (load_state c) (loaded_bytes c) (materialized_rows c) (pinned_bytes c) (pinned_materialized_rows c)
    (viewport c) (projection_width c) (unread_rows c).
Definition with_fetch c mb mr st :=
  mkHistory (config c) (pages c) (page_order c) (evictable c) (consumed c) (consumed_bytes c) (anchor_pages c) (next_cursor c)
    (next_page_seq c) mb mr st (loaded_bytes c) (materialized_rows c) (pinned_bytes c) (pinned_materialized_rows c) (viewport c)
    (projection_width c) (unread_rows c).
Definition with_chain c cs cb nc ns :=
  mkHistory (config c) (pages c) (page_order c) (evictable c) cs cb (anchor_pages c) nc ns (req_max_bytes c) (req_max_rows c)
    (load_state c) (loaded_bytes c) (materialized_rows c) (pinned_bytes c) (pinned_materialized_rows c) (viewport c) (projection_width c) (unread_rows c).
Definition with_view c v w u :=
  mkHistory (config c) (pages c) (page_order c) (evictable c) (consumed c) (consumed_bytes c) (anchor_pages c) (next_cursor c)
    (next_page_seq c) (req_max_bytes c) (req_max_rows c) (load_state c) (loaded_bytes c) (materialized_rows c) (pinned_bytes c)
    (pinned_materialized_rows c) v w u.

Section History.
  Context (payload_digest : bytes -> bytes).

(* phux-client-core/src/history.rs HistoryCache::new *)
Definition history_new (cfg : HistoryCacheConfig) (newest : option HistoryCursor) (width : Z) : HistoryCache :=
  mkHistory (normalized cfg) ∅ [] [] [] 0 ∅ newest (match newest with Some _ => Some 1 | None => None end) 0 0
    (match newest with Some _ => Load_Idle | None => Load_Complete end) 0 0 0 0 Viewport_Tail (Z.max width 2) 0.
(* phux-client-core/src/history.rs HistoryCache::status *)
Definition status (c : HistoryCache) : HistoryStatus :=
  mkHistoryStatus (load_state c) (Z.of_nat (size (pages c))) (loaded_bytes c + consumed_bytes c) (materialized_rows c) (unread_rows c)
    (next_cursor c) (next_page_seq c).
(* phux-client-core/src/history.rs HistoryCache::is_fetching *)
Definition is_fetching (c : HistoryCache) (cursor : bytes) : bool :=
  bool_decide (load_state c = Load_Loading) && bool_decide (next_cursor c = Some cursor).
(* phux-client-core/src/history.rs HistoryCache::reproject *)
Definition reproject (c : HistoryCache) (width : Z) : HistoryCache := with_view c (viewport c) (Z.max width 2) (unread_rows c).

(* phux-client-core/src/history.rs HistoryCache::begin_fetch_with_limits *)
Definition begin_fetch_with_limits (c : HistoryCache) (mb mr : Z) : option HistoryCursor * HistoryCache :=
  if negb (bool_decide (load_state c = Load_Idle)) || (mb =? 0) || (mr =? 0) then (None, c)
  else match next_cursor c with
       | None => (None, c)
       | Some cursor => (Some cursor, with_fetch c mb mr Load_Loading)
       end.
(* phux-client-core/src/history.rs HistoryCache::begin_fetch *)
Definition begin_fetch (c : HistoryCache) : option HistoryCursor * HistoryCache :=
  begin_fetch_with_limits c (request_max_bytes (config c)) (request_max_rows (config c)).
(* phux-client-core/src/history.rs HistoryCache::cancel_fetch *)
Definition cancel_fetch (c : HistoryCache) (cursor : HistoryCursor) : bool * HistoryCache :=
  if negb (bool_decide (load_state c = Load_Loading)) || negb (bool_decide (next_cursor c = Some cursor)) then (false, c)
  else (true, with_fetch c 0 0 Load_Idle).
(* phux-client-core/src/history.rs HistoryCache::retry_limits *)
Definition retry_limits (c : HistoryCache) (rb rr : Z) : option (Z * Z) :=
  if (rb =? 0) || (rr =? 0) || ((rb <=? req_max_bytes c) && (rr <=? req_max_rows c))
     || (u32_or_max (max_bytes (config c)) <? rb) || (MAX_HISTORY_PAGE_ROWS <? rr)
     || (u32_or_max (max_materialized_rows (config c)) <? rr)
  then None else Some (Z.max (req_max_bytes c) rb, Z.max (req_max_rows c) rr).
(* phux-client-core/src/history.rs HistoryCache::should_auto_continue *)
Definition should_auto_continue (c : HistoryCache) : bool :=
  bool_decide (load_state c = Load_Idle) && bool_decide (is_Some (next_cursor c))
  && ((materialized_rows c <? prefetch_rows (config c)) || match viewport c with Viewport_Pinned _ => true | Viewport_Tail => false end).

(* phux-client-core/src/history.rs HistoryCache::is_replayed_page *)
Definition is_replayed_page (c : HistoryCache) (id : HistoryPageId) (next : option HistoryCursor) (declared : Z) (payload : bytes)
    : result HistoryCacheError bool :=
  match pages c !! id with
  | Some p =>
      if bool_decide (pg_payload p = payload) && bool_decide (pg_next_cursor p = next) && (pg_declared_rows p =? declared)
      then Ok true else Err History_DuplicateConflict
  | None =>
      match List.find (fun e => bool_decide (cs_id e = id)) (consumed c) with
      | Some e =>
          if bool_decide (cs_digest e = payload_digest payload) && bool_decide (cs_next_cursor e = next) && (cs_declared_rows e =? declared)
          then Ok true else Err History_DuplicateConflict
      | None => Ok false
      end
  end.
(* phux-client-core/src/history.rs HistoryCache::check_page_order *)
Definition check_page_order (c : HistoryCache) (cursor : HistoryCursor) (page_seq : Z) (next : option HistoryCursor)
    : result HistoryCacheError unit :=
  if negb (bool_decide (load_state c = Load_Loading)) || negb (bool_decide (next_cursor c = Some cursor)) then Err History_Gap
  else
    let expected := default 1 (next_page_seq c) in
    if (page_seq =? 0) || negb (page_seq =? expected) then Err (History_SequenceGap expected page_seq)
    else if bool_decide (next = Some cursor) && (page_seq =? u64_max) then Err History_SequenceExhausted
    else Ok tt.
(* phux-client-core/src/history.rs HistoryCache::check_page_budgets *)
Definition check_page_budgets (c : HistoryCache) (declared : Z) (payload : bytes) : result HistoryCacheError unit :=
  if len payload =? 0 then Err History_EmptyPayload
  else if (max_bytes (config c) <? len payload) || (req_max_bytes c <? len payload)
  then Err (History_PageTooLarge (len payload) (Z.min (max_bytes (config c)) (req_max_bytes c)))
  else if (req_max_rows c <? declared) || (MAX_HISTORY_PAGE_ROWS <? declared) then Err (History_ProjectionTooLarge declared (req_max_rows c))
  else if max_bytes (config c) <? pinned_bytes c + len payload then Err (History_PinnedBudget (pinned_bytes c + len payload) (max_bytes (config c)))
  else if max_materialized_rows (config c) <? pinned_materialized_rows c + declared
  then Err (History_PinnedProjectionBudget (pinned_materialized_rows c + declared) (max_materialized_rows (config c)))
  else Ok tt.
(* phux-client-core/src/history.rs HistoryCache::check_page *)
Definition check_page (c : HistoryCache) (cursor : HistoryCursor) (page_seq : Z) (next : option HistoryCursor) (declared : Z) (payload : bytes)
    : result HistoryCacheError HistoryPageCheck :=
  replayed ← is_replayed_page c (cursor, page_seq) next declared payload;
  if (replayed : bool) then Ok (Page_Duplicate (cursor, page_seq))
  else
    _ ← check_page_order c cursor page_seq next;
    _ ← check_page_budgets c declared payload;
    Ok Page_New.

(** The loop of [evict_to_budget]: it takes one name off [evictable] per round. *)
(* phux-client-core/src/history.rs:778-798 evict_to_budget *)
Fixpoint evict_loop (ev : list HistoryPageId) (c : HistoryCache) : HistoryCache :=
  if loaded_bytes c <=? max_bytes (config c) then with_store c (pages c) (page_order c) ev (loaded_bytes c) (materialized_rows c)
  else
    match ev with
    | [] => with_store c (pages c) (page_order c) [] (loaded_bytes c) (materialized_rows c)
    | id :: ev =>
        match pages c !! id with
        | Some p =>
            if pg_pin_count p =? 0
            then evict_loop ev
                   (with_anchors
                      (with_store c (delete id (pages c)) (page_order c) (evictable c) (saturating_sub (loaded_bytes c) (len (pg_payload p)))
                         (saturating_sub (materialized_rows c) (pg_materialized_rows p)))
                      ((fun s => s ∖ {[id]}) <$> anchor_pages c))
            else evict_loop ev c
        | None => evict_loop ev c
        end
    end.
(** The loop of [evict_materializations]; each round empties a page, so their number is fuel. *)
(* phux-client-core/src/history.rs HistoryCache::evict_materializations *)
Fixpoint evict_materializations_loop (fuel : nat) (c : HistoryCache) : HistoryCache :=
  match fuel with
  | O => c
  | S fuel =>
      if materialized_rows c <=? max_materialized_rows (config c) then c
      else
        match List.find (fun id => match pages c !! id with
                                   | Some p => (pg_pin_count p =? 0) && (0 <? pg_materialized_rows p)
                                   | None => false
                                   end) (rev (page_order c)) with
        | None => c
        | Some id =>
            match pages c !! id with
            | None => c
            | Some p =>
                evict_materializations_loop fuel
                  (with_store c (<[id := mkPage (pg_next_cursor p) (pg_declared_rows p) (pg_payload p) 0 (pg_pin_count p)]> (pages c))
                     (page_order c) (evictable c) (loaded_bytes c) (saturating_sub (materialized_rows c) (pg_materialized_rows p)))
            end
        end
  end.
Definition evict_materializations (c : HistoryCache) : HistoryCache := evict_materializations_loop (S (size (pages c))) c.
(* phux-client-core/src/history.rs HistoryCache::evict_to_budget *)
Definition evict_to_budget (c : HistoryCache) : HistoryCache :=
  let c := evict_loop (evictable c) c in
  let c := if Z.of_nat (size (pages c)) * 2 + 64 <? len (page_order c)
           then with_store c (pages c) (List.filter (fun id => bool_decide (is_Some (pages c !! id))) (page_order c)) (evictable c)
                  (loaded_bytes c) (materialized_rows c)
           else c in
  evict_materializations c.

(** [while self.consumed.len() > 64]. *)
(* phux-client-core/src/history.rs:565-570 accept_page *)
Fixpoint forget_consumed (fuel : nat) (cs : list ConsumedPage) (cb : Z) : list ConsumedPage * Z :=
  match fuel, cs with
  | S fuel, e :: rest => if 64 <? len cs then forget_consumed fuel rest (saturating_sub cb (cs_accounted_bytes e)) else (cs, cb)
  | _, _ => (cs, cb)
  end.
(* phux-client-core/src/history.rs HistoryCache::accept_page *)
Definition accept_page (c : HistoryCache) (cursor : HistoryCursor) (page_seq : Z) (next : option HistoryCursor) (declared materialized : Z)
    (payload : bytes) : result HistoryCacheError (HistoryPageId * HistoryCache) :=
  chk ← check_page c cursor page_seq next declared payload;
  match (chk : HistoryPageCheck) with
  | Page_Duplicate id => Ok (id, c)
  | Page_New =>
      let id := (cursor, page_seq) in
      let mat := Z.min (Z.min materialized declared) (max_materialized_rows (config c)) in
      let c := with_store c (<[id := mkPage next declared payload mat 0]> (pages c)) (page_order c ++ [id]) (evictable c ++ [id])
                 (loaded_bytes c + len payload) (materialized_rows c + mat) in
      let accounted := 32 + len cursor + match next with Some n => len n | None => 0 end + (8 + 4) in
      let cs := consumed c ++ [mkConsumed id next declared (payload_digest payload) accounted] in
      let '(cs, cb) := forget_consumed (length cs) cs (consumed_bytes c + accounted) in
      let c := with_chain c cs cb next (match next with Some n => Some (if bool_decide (n = cursor) then page_seq + 1 else 1) | None => None end) in
      let c := with_fetch c 0 0 (match next with Some _ => Load_Idle | None => Load_Complete end) in
      Ok (id, evict_to_budget c)
  end.

(* phux-client-core/src/history.rs HistoryCache::pin *)
Definition pin (c : HistoryCache) (id : HistoryPageId) : HistoryCache :=
  match pages c !! id with
  | None => c
  | Some p =>
      let first := pg_pin_count p =? 0 in
      with_pins c (<[id := mkPage (pg_next_cursor p) (pg_declared_rows p) (pg_payload p) (pg_materialized_rows p) (pg_pin_count p + 1)]> (pages c))
        (evictable c) (if first then pinned_bytes c + len (pg_payload p) else pinned_bytes c)
        (if first then pinned_materialized_rows c + pg_materialized_rows p else pinned_materialized_rows c)
  end.
(* phux-client-core/src/history.rs HistoryCache::unpin *)
Definition unpin (c : HistoryCache) (id : HistoryPageId) : HistoryCache :=
  match pages c !! id with
  | None => c
  | Some p =>
      let last := pg_pin_count p =? 1 in
      with_pins c
        (<[id := mkPage (pg_next_cursor p) (pg_declared_rows p) (pg_payload p) (pg_materialized_rows p) (saturating_sub (pg_pin_count p) 1)]> (pages c))
        (if last then evictable c ++ [id] else evictable c)
        (if last then saturating_sub (pinned_bytes c) (len (pg_payload p)) else pinned_bytes c)
        (if last then saturating_sub (pinned_materialized_rows c) (pg_materialized_rows p) else pinned_materialized_rows c)
  end.

(* phux-client-core/src/history.rs HistoryCache::remaining_anchor_capacity *)
Definition remaining_anchor_capacity (c : HistoryCache) : Z :=
  saturating_sub (max_materialized_rows (config c)) (Z.of_nat (size (anchor_pages c))).
(* phux-client-core/src/history.rs HistoryCache::ensure_anchor_capacity *)
Definition ensure_anchor_capacity (c : HistoryCache) (additional : Z) : result HistoryCacheError unit :=
  if remaining_anchor_capacity c <? additional
  then Err (History_ProjectionTooLarge (Z.of_nat (size (anchor_pages c)) + additional) (max_materialized_rows (config c)))
  else Ok tt.
(* phux-client-core/src/history.rs HistoryCache::register_anchor_pages *)
Definition register_anchor_pages (c : HistoryCache) (anchor : DocumentAnchorId) (ps : gset HistoryPageId) : result HistoryCacheError HistoryCache :=
  _ ← (if bool_decide (is_Some (anchor_pages c !! anchor)) then Ok tt else ensure_anchor_capacity c 1);
  if negb (bool_decide (ps ⊆ dom (pages c))) then Err History_PageUnavailable
  else
    let c := match anchor_pages c !! anchor with
             | Some old => fold_left unpin (elements old) (with_anchors c (delete anchor (anchor_pages c)))
             | None => c
             end in
    let c := fold_left pin (elements ps) c in
    Ok (with_anchors c (<[anchor := ps]> (anchor_pages c))).
(* phux-client-core/src/history.rs HistoryCache::remove_anchor *)
Definition remove_anchor (c : HistoryCache) (anchor : DocumentAnchorId) : HistoryCache :=
  let c := match anchor_pages c !! anchor with
           | Some old => fold_left unpin (elements old) (with_anchors c (delete anchor (anchor_pages c)))
           | None => c
           end in
  let c := if bool_decide (viewport c = Viewport_Pinned anchor) then with_view c Viewport_Tail (projection_width c) 0 else c in
  evict_to_budget c.

(* phux-client-core/src/history.rs HistoryCache::pin_viewport *)
Definition pin_viewport (c : HistoryCache) (anchor : DocumentAnchorId) : result HistoryCacheError HistoryCache :=
  if bool_decide (is_Some (anchor_pages c !! anchor)) then Ok (with_view c (Viewport_Pinned anchor) (projection_width c) (unread_rows c))
  else Err History_AnchorUnavailable.
(* phux-client-core/src/history.rs HistoryCache::follow_tail *)
Definition follow_tail (c : HistoryCache) : HistoryCache := with_view c Viewport_Tail (projection_width c) 0.
(* phux-client-core/src/history.rs HistoryCache::note_live_output *)
Definition note_live_output (c : HistoryCache) (rows : Z) : HistoryCache :=
  match viewport c with
  | Viewport_Pinned _ => with_view c (viewport c) (projection_width c) (Z.min (unread_rows c + rows) u64_max)
  | Viewport_Tail => c
  end.
(* phux-client-core/src/history.rs HistoryCache::should_prefetch *)
Definition should_prefetch (c : HistoryCache) (rows_from_oldest : Z) : bool :=
  bool_decide (load_state c = Load_Idle) && bool_decide (is_Some (next_cursor c)) && (rows_from_oldest <=? prefetch_rows (config c)).

(* phux-client-core/src/history.rs HistoryCache::invalidate *)
Definition invalidate (c : HistoryCache) (st : HistoryLoadState) : HistoryCache :=
  mkHistory (config c) ∅ [] [] [] 0 ∅ None None 0 0 st 0 0 0 0 Viewport_Tail (projection_width c) 0.
(* phux-client-core/src/history.rs HistoryCache::invalidate_cursor *)
Definition invalidate_cursor (c : HistoryCache) (cursor : HistoryCursor) (st : HistoryLoadState) : bool * HistoryCache :=
  if bool_decide (next_cursor c = Some cursor) then (true, invalidate c st) else (false, c).
(* phux-client-core/src/history.rs HistoryCache::mark_pruned *)
Definition mark_pruned (c : HistoryCache) : HistoryCache := invalidate c Load_Pruned.
(* phux-client-core/src/history.rs HistoryCache::clear_presentation *)
Definition history_clear_presentation (c : HistoryCache) : HistoryCache := invalidate c Load_Cleared.
(* phux-client-core/src/history.rs HistoryCache::is_locally_cleared *)
Definition is_locally_cleared (c : HistoryCache) : bool := bool_decide (load_state c = Load_Cleared).
(* phux-client-core/src/history.rs HistoryCache::tombstone *)
Definition history_tombstoned (c : HistoryCache) : HistoryCache := invalidate c Load_Tombstoned.
(* phux-client-core/src/history.rs HistoryCache::has_continuation *)
Definition has_continuation (c : HistoryCache) : bool := bool_decide (is_Some (next_cursor c)).

End History.
