(* ===== verification/HistoryBounds.v ===== *)
(** * The history cache keeps its budgets

    The counters of [HistoryCache] against the pages they count, and what every operation leaves:
    bytes and rows within the budget, pages an anchor protects still there, one cursor chain. *)

From stdpp Require Import gmap.
From S2P Require Import Prelude HistoryCache.

(** ** Sums over a map *)

Section Sums.
Context {K A : Type} `{Countable K}.
Implicit Types (m : gmap K A) (f : A -> Z).

Definition msum f m : Z := map_fold (fun _ a acc => f a + acc) 0 m.
Lemma msum_insert f m k a : m !! k = None -> msum f (<[k := a]> m) = f a + msum f m.
Proof. intros E. unfold msum. rewrite map_fold_insert_L; [done| |done]. intros. lia. Qed.
Lemma msum_delete f m k a : m !! k = Some a -> msum f m = f a + msum f (delete k m).
Proof. intros E. unfold msum. rewrite (map_fold_delete_L _ _ k a); [done| |done]. intros. lia. Qed.
Lemma msum_update f m k a b : m !! k = Some a -> msum f (<[k := b]> m) = msum f m - f a + f b.
Proof.
  intros E. rewrite (msum_delete f m k a E), <- insert_delete_eq, msum_insert by apply lookup_delete_eq. lia.
Qed.
Lemma msum_nonneg f m : (forall k a, m !! k = Some a -> 0 <= f a) -> 0 <= msum f m.
Proof.
  induction m as [|k a m E IH] using map_ind; intros Hf; [done|]. rewrite msum_insert by done.
  specialize (Hf k a) as Ha. rewrite lookup_insert_eq in Ha. specialize (Ha eq_refl).
  assert (0 <= msum f m); [|lia]. apply IH. intros k' b Eb. apply (Hf k'). rewrite lookup_insert_ne; [done|]. by intros ->; simplify_eq.
Qed.
Lemma msum_le f g m : (forall k a, m !! k = Some a -> f a <= g a) -> msum f m <= msum g m.
Proof.
  induction m as [|k a m E IH] using map_ind; intros Hf; [done|]. rewrite !msum_insert by done.
  pose proof (Hf k a (lookup_insert_eq _ _ _)) as Ha.
  assert (msum f m <= msum g m); [|lia]. apply IH. intros k' b Eb. apply (Hf k'). rewrite lookup_insert_ne; [done|]. by intros ->; simplify_eq.
Qed.
Lemma msum_zero f m : (forall k a, m !! k = Some a -> f a = 0) -> msum f m = 0.
Proof.
  intros Hf. assert (msum f m <= msum (fun _ => 0) m) by (apply msum_le; intros; by rewrite (Hf k a)).
  assert (0 <= msum f m) by (apply msum_nonneg; intros; by rewrite (Hf k a)).
  assert (msum (fun _ => 0) m = 0); [|lia]. clear. induction m as [|k a m E IH] using map_ind; [done|]. by rewrite msum_insert, IH.
Qed.
Lemma msum_ext f g m : (forall k a, m !! k = Some a -> f a = g a) -> msum f m = msum g m.
Proof. intros H1. apply Z.le_antisymm; apply msum_le; intros; by rewrite (H1 k a). Qed.
End Sums.

(** ** The invariant *)

Definition bytes_of (p : CachedPage) : Z := len (pg_payload p).
Definition pinned_part (f : CachedPage -> Z) (p : CachedPage) : Z := if pg_pin_count p =? 0 then 0 else f p.
(** How many anchors protect a page. *)
Definition protectors (m : gmap DocumentAnchorId (gset HistoryPageId)) (id : HistoryPageId) : Z :=
  msum (fun s : gset HistoryPageId => if bool_decide (id ∈ s) then 1 else 0) m.

(** The counters count; [cnt] says how often each page is pinned. *)
Record Counted (cnt : HistoryPageId -> Z) (c : HistoryCache) : Prop := mkCounted {
  k_budget : 0 < max_bytes (config c) /\ 0 < max_materialized_rows (config c);
  k_bytes : loaded_bytes c = msum bytes_of (pages c);
  k_rows : materialized_rows c = msum pg_materialized_rows (pages c);
  k_pinned : pinned_bytes c = msum (pinned_part bytes_of) (pages c);
  k_pinned_rows : pinned_materialized_rows c = msum (pinned_part pg_materialized_rows) (pages c);
  k_page : forall id p, pages c !! id = Some p -> 0 <= pg_materialized_rows p /\ pg_pin_count p = cnt id;
  k_evictable : forall id p, pages c !! id = Some p -> pg_pin_count p = 0 -> id ∈ evictable c;
  k_order : forall id, is_Some (pages c !! id) -> id ∈ page_order c;
  k_protected : forall id, 0 < cnt id -> is_Some (pages c !! id)
}.
(** Within the budgets; one chain of cursors; a viewport at the tail has nothing unread. *)
Record Chained (c : HistoryCache) : Prop := mkChained {
  ch_seq : is_Some (next_page_seq c) <-> is_Some (next_cursor c);
  ch_loading : load_state c = Load_Loading \/ load_state c = Load_Idle -> is_Some (next_cursor c);
  ch_ended : load_state c <> Load_Loading -> load_state c <> Load_Idle -> next_cursor c = None;
  ch_request : req_max_bytes c <= max_bytes (config c) /\ request_max_bytes (config c) <= max_bytes (config c);
  ch_tail : viewport c = Viewport_Tail -> unread_rows c = 0;
  ch_unread : 0 <= unread_rows c <= u64_max;
  ch_consumed : len (consumed c) <= 64
}.
Record HistoryOk (c : HistoryCache) : Prop := mkHistoryOk {
  ok_counted : Counted (protectors (anchor_pages c)) c;
  ok_chained : Chained c;
  ok_bytes : loaded_bytes c <= max_bytes (config c);
  ok_rows : materialized_rows c <= max_materialized_rows (config c)
}.

Lemma protectors_nonneg m id : 0 <= protectors m id.
Proof. apply msum_nonneg. intros. by case_bool_decide. Qed.
Lemma bytes_nonneg p : 0 <= bytes_of p.
Proof. apply len_nonneg. Qed.

(** ** Eviction *)

Lemma counted_evictable cnt c ev :
  Counted cnt c -> (forall id p, pages c !! id = Some p -> pg_pin_count p = 0 -> id ∈ ev) ->
  Counted cnt (with_store c (pages c) (page_order c) ev (loaded_bytes c) (materialized_rows c)).
Proof. intros [] He. by constructor. Qed.

(** An unprotected page leaves. *)
Lemma counted_delete cnt c id p :
  Counted cnt c -> pages c !! id = Some p -> pg_pin_count p = 0 ->
  Counted cnt (with_store c (delete id (pages c)) (page_order c) (evictable c) (saturating_sub (loaded_bytes c) (bytes_of p))
                (saturating_sub (materialized_rows c) (pg_materialized_rows p))).
Proof.
  intros [Hb K1 K2 K3 K4 K5 K6 K7 K8] E Ep. pose proof (K5 _ _ E) as [Hm Hp].
  pose proof (msum_delete bytes_of _ _ _ E) as D1. pose proof (msum_delete pg_materialized_rows _ _ _ E) as D2.
  pose proof (msum_delete (pinned_part bytes_of) _ _ _ E) as D3. pose proof (msum_delete (pinned_part pg_materialized_rows) _ _ _ E) as D4.
  assert (0 <= msum bytes_of (delete id (pages c))) by (apply msum_nonneg; intros; apply bytes_nonneg).
  assert (0 <= msum pg_materialized_rows (delete id (pages c))).
  { apply msum_nonneg. intros k a [_ Ea]%lookup_delete_Some. by apply (K5 k a). }
  pose proof (bytes_nonneg p). assert (Hz : forall f, pinned_part f p = 0) by (intros f; unfold pinned_part; by rewrite Ep).
  rewrite Hz in D3, D4.
  constructor; simpl; try done.
  - unfold saturating_sub. destruct (Z.leb_spec (bytes_of p) (loaded_bytes c)); lia.
  - unfold saturating_sub. destruct (Z.leb_spec (pg_materialized_rows p) (materialized_rows c)); lia.
  - lia.
  - lia.
  - intros i q [_ Eq]%lookup_delete_Some. by apply K5.
  - intros i q [_ Eq]%lookup_delete_Some. by apply K6.
  - intros i [q [_ Eq]%lookup_delete_Some]. apply K7. by exists q.
  - intros i Hi. rewrite lookup_delete_ne; [by apply K8|]. intros ->. lia.
Qed.

Lemma counted_with_anchors cnt c m : Counted cnt c -> Counted cnt (with_anchors c m).
Proof. intros []. by constructor. Qed.
(** Nothing protects an unprotected page. *)
Lemma unprotected am id : protectors am id = 0 -> (fun s : gset HistoryPageId => s ∖ {[id]}) <$> am = am.
Proof.
  intros H. apply map_eq. intros a. rewrite lookup_fmap. destruct (am !! a) as [s|] eqn:E; [|done]. simpl. f_equal.
  apply set_eq. intros x. rewrite elem_of_difference, elem_of_singleton. split; [by intros [? _]|].
  intros Hx. split; [done|]. intros ->. unfold protectors in H. rewrite (msum_delete _ _ _ _ E), bool_decide_eq_true_2 in H by done.
  pose proof (protectors_nonneg (delete a am) id) as Hn. unfold protectors in Hn. lia.
Qed.

(** What eviction leaves alone. *)
Definition rest_same (c c' : HistoryCache) : Prop :=
  config c' = config c /\ consumed c' = consumed c /\ anchor_pages c' = anchor_pages c /\ next_cursor c' = next_cursor c
  /\ next_page_seq c' = next_page_seq c /\ req_max_bytes c' = req_max_bytes c /\ load_state c' = load_state c
  /\ pinned_bytes c' = pinned_bytes c /\ pinned_materialized_rows c' = pinned_materialized_rows c
  /\ viewport c' = viewport c /\ unread_rows c' = unread_rows c.
Lemma rest_same_trans c c' c'' : rest_same c c' -> rest_same c' c'' -> rest_same c c''.
Proof. unfold rest_same. intuition congruence. Qed.
Definition protected_stay (c c' : HistoryCache) : Prop :=
  forall id p, pages c !! id = Some p -> pg_pin_count p <> 0 -> pages c' !! id = Some p.

Lemma pinned_le cnt c : Counted cnt c -> pinned_bytes c <= loaded_bytes c /\ pinned_materialized_rows c <= materialized_rows c.
Proof.
  intros []. rewrite k_pinned0, k_pinned_rows0, k_bytes0, k_rows0. split; apply msum_le; intros id p E; unfold pinned_part.
  - pose proof (bytes_nonneg p). destruct (_ =? 0); lia.
  - pose proof (k_page0 _ _ E). destruct (_ =? 0); lia.
Qed.
Lemma all_pinned cnt c : Counted cnt c -> evictable c = [] -> loaded_bytes c = pinned_bytes c.
Proof.
  intros [] Ee. rewrite k_bytes0, k_pinned0. apply msum_ext. intros id p E. unfold pinned_part.
  destruct (Z.eqb_spec (pg_pin_count p) 0) as [Hz|]; [|done]. specialize (k_evictable0 _ _ E Hz). rewrite Ee in k_evictable0.
  by apply not_elem_of_nil in k_evictable0.
Qed.

Lemma evict_loop_ok ev c :
  Counted (protectors (anchor_pages c)) (with_store c (pages c) (page_order c) ev (loaded_bytes c) (materialized_rows c)) ->
  pinned_bytes c <= max_bytes (config c) ->
  let c' := evict_loop ev c in
  Counted (protectors (anchor_pages c')) c' /\ rest_same c c' /\ protected_stay c c' /\ loaded_bytes c' <= max_bytes (config c')
  /\ materialized_rows c' <= materialized_rows c.
Proof.
  revert c. induction ev as [|id ev IH]; intros c Hk Hp; cbn [evict_loop].
  - destruct (Z.leb_spec (loaded_bytes c) (max_bytes (config c))) as [Hle|Hgt]; simpl.
    + split; [exact Hk|]. split; [by repeat split|]. split; [by intros ? ? ? ?|simpl; lia].
    + pose proof (all_pinned _ _ Hk eq_refl) as Ha. simpl in Ha. lia.
  - destruct (Z.leb_spec (loaded_bytes c) (max_bytes (config c))) as [Hle|Hgt]; 
      [split; [exact Hk|]; split; [by repeat split|]; split; [by intros ? ? ? ?|simpl; lia]|].
    assert (Hskip : (forall p, pages c !! id = Some p -> pg_pin_count p <> 0) ->
              Counted (protectors (anchor_pages c)) (with_store c (pages c) (page_order c) ev (loaded_bytes c) (materialized_rows c))).
    { intros Hs. destruct Hk. constructor; try done. simpl in *. intros i q E Ez. specialize (k_evictable0 i q E Ez).
      apply elem_of_cons in k_evictable0 as [->|?]; [by destruct (Hs q)|done]. }
    destruct (pages c !! id) as [p|] eqn:E; [|by apply IH; [apply Hskip|]].
    destruct (Z.eqb_spec (pg_pin_count p) 0) as [Ez|Enz]; [|apply IH; [apply Hskip; intros q [= <-]|]; done].
    pose proof (k_page _ _ Hk id p E) as [Hm Hpr]. rewrite Ez in Hpr. symmetry in Hpr.
    rewrite (unprotected _ _ Hpr).
    set (c1 := with_anchors _ _).
    assert (Hk1 : Counted (protectors (anchor_pages c1)) (with_store c1 (pages c1) (page_order c1) ev (loaded_bytes c1) (materialized_rows c1))).
    { pose proof (counted_delete _ _ _ _ Hk E Ez) as [K1 K2 K3 K4 K5 K6 K7 K8 K9]. simpl in *.
      constructor; simpl; try done. intros i q Eq Hz. specialize (K7 i q Eq Hz). apply elem_of_cons in K7 as [->|?]; [|done].
      by rewrite lookup_delete_eq in Eq. }
    destruct (IH c1 Hk1) as (H1 & H2 & H3 & H4 & H5); [done|]. split; [exact H1|]. split; [eapply rest_same_trans; [|exact H2]; repeat split|].
    split; [|split; [exact H4|]].
    + intros i q Eq Hn. apply H3; [|done]. simpl. rewrite lookup_delete_ne; [done|]. intros ->. congruence.
    + etransitivity; [exact H5|]. simpl. pose proof (k_rows _ _ Hk) as Kr. simpl in Kr. unfold saturating_sub. destruct (Z.leb_spec (pg_materialized_rows p) (materialized_rows c)); [lia|].
      rewrite Kr. apply msum_nonneg. intros k a Ea. by apply (k_page _ _ Hk k a).
Qed.

(** A page loses its materialised rows. *)
Lemma counted_dematerialize cnt c id p :
  Counted cnt c -> pages c !! id = Some p -> pg_pin_count p = 0 ->
  Counted cnt (with_store c (<[id := mkPage (pg_next_cursor p) (pg_declared_rows p) (pg_payload p) 0 (pg_pin_count p)]> (pages c))
                (page_order c) (evictable c) (loaded_bytes c) (saturating_sub (materialized_rows c) (pg_materialized_rows p))).
Proof.
  intros [Hb K1 K2 K3 K4 K5 K6 K7 K8] E Ep. pose proof (K5 _ _ E) as [Hm Hp].
  assert (Hle : pg_materialized_rows p <= msum pg_materialized_rows (pages c)).
  { rewrite (msum_delete pg_materialized_rows _ _ _ E).
    assert (0 <= msum pg_materialized_rows (delete id (pages c))); [|lia]. apply msum_nonneg. intros k a [_ Ea]%lookup_delete_Some. by apply (K5 k a). }
  constructor; simpl; try done.
  - rewrite (msum_update _ _ _ _ _ E). unfold bytes_of at 3. simpl. fold (bytes_of p). lia.
  - rewrite (msum_update _ _ _ _ _ E). simpl. unfold saturating_sub. destruct (Z.leb_spec (pg_materialized_rows p) (materialized_rows c)); lia.
  - rewrite (msum_update _ _ _ _ _ E), K3. unfold pinned_part at 3 4. simpl. rewrite Ep. simpl. lia.
  - rewrite (msum_update _ _ _ _ _ E), K4. unfold pinned_part at 3 4. simpl. rewrite Ep. simpl. lia.
  - intros i q [[<- <-]|[_ Eq]]%lookup_insert_Some; [simpl; split; [lia|done]|by apply K5].
  - intros i q [[<- <-]|[_ Eq]]%lookup_insert_Some; [intros _; by apply (K6 id p)|by apply K6].
  - intros i [q [[<- <-]|[_ Eq]]%lookup_insert_Some]; [apply K7; by exists p|apply K7; by exists q].
  - intros i Hi. destruct (K8 _ Hi) as [q Eq]. destruct (decide (i = id)) as [->|]; [rewrite lookup_insert_eq; by eexists|].
    rewrite lookup_insert_ne by done. by exists q.
Qed.
Definition fat (p : CachedPage) : bool := (pg_pin_count p =? 0) && (0 <? pg_materialized_rows p).
Definition fats (c : HistoryCache) : Z := msum (fun p => if fat p then 1 else 0) (pages c).
Lemma evict_materializations_loop_ok n c :
  Counted (protectors (anchor_pages c)) c -> pinned_materialized_rows c <= max_materialized_rows (config c) -> fats c < Z.of_nat n ->
  let c' := evict_materializations_loop n c in
  Counted (protectors (anchor_pages c')) c' /\ rest_same c c' /\ protected_stay c c' /\ loaded_bytes c' = loaded_bytes c
  /\ materialized_rows c' <= max_materialized_rows (config c').
Proof.
  revert c. induction n as [|n IH]; intros c Hk Hp Hn; cbn [evict_materializations_loop].
  { assert (0 <= fats c); [|lia]. apply msum_nonneg. intros. by destruct (fat _). }
  destruct (Z.leb_spec (materialized_rows c) (max_materialized_rows (config c))) as [Hle|Hgt]; [split; [exact Hk|]; split; [by repeat split|]; split; [by intros ? ? ? ?|by split]|].
  set (f := fun id => _). destruct (List.find f (rev (page_order c))) as [id|] eqn:Ef.
  - apply find_some in Ef as [_ Hf]. unfold f in Hf. destruct (pages c !! id) as [p|] eqn:E; [|done].
    apply andb_true_iff in Hf as [Hz%Z.eqb_eq Hr%Z.ltb_lt].
    pose proof (counted_dematerialize _ _ _ _ Hk E Hz) as Hk1. set (c1 := with_store _ _ _ _ _ _) in *.
    destruct (IH c1 Hk1) as (H1 & H2 & H3 & H4 & H5); [done| |].
    { unfold fats, c1. simpl. rewrite (msum_update _ _ _ _ _ E). unfold fats in Hn.
      assert (E1 : fat p = true) by (unfold fat; apply andb_true_iff; split; [by apply Z.eqb_eq|by apply Z.ltb_lt]).
      assert (E2 : fat (mkPage (pg_next_cursor p) (pg_declared_rows p) (pg_payload p) 0 (pg_pin_count p)) = false) by (unfold fat; simpl; apply andb_false_r).
      rewrite E1, E2. lia. }
    split; [exact H1|]. split; [eapply rest_same_trans; [|exact H2]; repeat split|]. split; [|by split].
    intros i q Eq Hq. apply H3; [|done]. unfold c1; simpl. rewrite lookup_insert_ne; [done|]. intros ->. congruence.
  - exfalso. assert (materialized_rows c = pinned_materialized_rows c); [|lia].
    rewrite (k_rows _ _ Hk), (k_pinned_rows _ _ Hk). apply msum_ext. intros id p E. unfold pinned_part.
    destruct (Z.eqb_spec (pg_pin_count p) 0) as [Hz|]; [|done].
    assert (Hin : id ∈ page_order c) by (apply (k_order _ _ Hk); by exists p).
    assert (Hf : f id = false) by (by apply (find_none _ _ Ef), (proj1 (in_rev _ _)), list_elem_of_In).
    unfold f in Hf. rewrite E in Hf. rewrite (proj2 (Z.eqb_eq _ _) Hz) in Hf. simpl in Hf.
    apply Z.ltb_ge in Hf. pose proof (k_page _ _ Hk _ _ E). lia.
Qed.

Lemma fats_le_size c : fats c <= Z.of_nat (size (pages c)).
Proof.
  unfold fats. transitivity (msum (fun _ : CachedPage => 1) (pages c)); [apply msum_le; intros; by destruct (fat _)|].
  generalize (pages c). intros m. induction m as [|k a m E IH] using map_ind; [done|].
  rewrite msum_insert, map_size_insert_None by done. lia.
Qed.
Definition within (c : HistoryCache) : Prop :=
  loaded_bytes c <= max_bytes (config c) /\ materialized_rows c <= max_materialized_rows (config c).
Lemma evict_to_budget_ok c :
  Counted (protectors (anchor_pages c)) c -> pinned_bytes c <= max_bytes (config c) ->
  pinned_materialized_rows c <= max_materialized_rows (config c) ->
  let c' := evict_to_budget c in
  Counted (protectors (anchor_pages c')) c' /\ rest_same c c' /\ protected_stay c c' /\ within c'.
Proof.
  intros Hk Hb Hr. assert (Hk0 : Counted (protectors (anchor_pages c)) (with_store c (pages c) (page_order c) (evictable c) (loaded_bytes c) (materialized_rows c))) by (by destruct Hk).
  destruct (evict_loop_ok _ _ Hk0 Hb) as (K1 & R1 & P1 & B1 & _). unfold evict_to_budget. set (c1 := evict_loop _ _) in *.
  match goal with |- context [evict_materializations (if ?b then ?x else ?y)] => set (c2 := if b then x else y) end.
  assert (H2 : Counted (protectors (anchor_pages c2)) c2 /\ rest_same c1 c2 /\ pages c2 = pages c1 /\ loaded_bytes c2 = loaded_bytes c1).
  { unfold c2. case_match; [|split; [exact K1|by repeat split]]. split; [|by repeat split]. destruct K1. constructor; try done. simpl. intros id Hid.
    apply list_elem_of_In, filter_In. split; [by apply list_elem_of_In, k_order0|by apply bool_decide_eq_true_2]. }
  destruct H2 as (K2 & R2 & E2 & L2). assert (R12 : rest_same c c2) by by eapply rest_same_trans.
  destruct (evict_materializations_loop_ok (S (size (pages c2))) c2 K2) as (K3 & R3 & P3 & L3 & B3).
  { destruct R12 as (-> & _ & _ & _ & _ & _ & _ & _ & -> & _). done. }
  { pose proof (fats_le_size c2). lia. }
  split; [exact K3|]. split; [by eapply rest_same_trans|]. split.
  - intros id q Eq Hq. apply P3; [|done]. rewrite E2. by apply P1.
  - split; [|exact B3]. destruct R2 as (Ec2 & _), R3 as (Ec3 & _). unfold evict_materializations. rewrite L3, Ec3, Ec2, L2. exact B1.
Qed.

(** ** Pins *)

Definition bump (cnt : HistoryPageId -> Z) (l : list HistoryPageId) (d : Z) (id : HistoryPageId) : Z :=
  cnt id + if bool_decide (id ∈ l) then d else 0.
Lemma counted_cnt cnt cnt' c : (forall id, cnt id = cnt' id) -> Counted cnt c -> Counted cnt' c.
Proof. intros H []. constructor; try done; intros; rewrite <-?H; auto. apply k_protected0. by rewrite H. Qed.
Definition with_pin_count (p : CachedPage) (n : Z) : CachedPage :=
  mkPage (pg_next_cursor p) (pg_declared_rows p) (pg_payload p) (pg_materialized_rows p) n.
(** Changing how often one page is pinned. *)
Lemma counted_repin cnt cnt' c id p ev pb pr n :
  Counted cnt c -> pages c !! id = Some p -> n = cnt' id -> 0 <= n -> (forall i, i <> id -> cnt' i = cnt i) ->
  pb = pinned_bytes c - pinned_part bytes_of p + (if n =? 0 then 0 else bytes_of p) ->
  pr = pinned_materialized_rows c - pinned_part pg_materialized_rows p + (if n =? 0 then 0 else pg_materialized_rows p) ->
  (forall i, i ∈ evictable c -> i ∈ ev) -> (n = 0 -> id ∈ ev) ->
  Counted cnt' (with_pins c (<[id := with_pin_count p n]> (pages c)) ev pb pr).
Proof.
  intros [Hb K1 K2 K3 K4 K5 K6 K7 K8] E En Hn Ho -> -> He Hz. constructor; simpl; try done.
  - rewrite (msum_update _ _ _ _ _ E). change (bytes_of (with_pin_count p n)) with (bytes_of p). lia.
  - rewrite (msum_update _ _ _ _ _ E). simpl. lia.
  - rewrite (msum_update _ _ _ _ _ E), K3. change (pinned_part bytes_of (with_pin_count p n)) with (if n =? 0 then 0 else bytes_of p). lia.
  - rewrite (msum_update _ _ _ _ _ E), K4. change (pinned_part pg_materialized_rows (with_pin_count p n)) with (if n =? 0 then 0 else pg_materialized_rows p). lia.
  - intros i q [[<- <-]|[Hi Eq]]%lookup_insert_Some; simpl; [split; [by apply (K5 id)|done]|]. rewrite Ho by done. by apply K5.
  - intros i q [[<- <-]|[Hi Eq]]%lookup_insert_Some; simpl; [done|]. intros Hq. apply He. by apply (K6 i q).
  - intros i [q [[<- <-]|[Hi Eq]]%lookup_insert_Some]; apply K7; by eexists.
  - intros i Hi. destruct (decide (i = id)) as [->|Hne]; [rewrite lookup_insert_eq; by eexists|].
    rewrite lookup_insert_ne by done. apply K8. by rewrite <- Ho.
Qed.
Lemma counted_pin cnt c id : Counted cnt c -> is_Some (pages c !! id) -> 0 <= cnt id -> Counted (bump cnt [id] 1) (pin c id).
Proof.
  intros Hk [p E] Hc. unfold pin. rewrite E. pose proof (k_page _ _ Hk _ _ E) as [Hm Hp].
  apply (counted_repin cnt _ c id p); try done.
  - unfold bump. rewrite bool_decide_eq_true_2 by (by left). lia.
  - lia.
  - intros i Hi. unfold bump. rewrite bool_decide_eq_false_2; [lia|]. by intros ?%list_elem_of_singleton.
  - unfold pinned_part. rewrite (proj2 (Z.eqb_neq (pg_pin_count p + 1) 0)) by lia. unfold bytes_of. destruct (_ =? 0); lia.
  - unfold pinned_part. rewrite (proj2 (Z.eqb_neq (pg_pin_count p + 1) 0)) by lia. destruct (_ =? 0); lia.
  - lia.
Qed.
Lemma counted_unpin cnt c id : Counted cnt c -> 1 <= cnt id -> Counted (bump cnt [id] (-1)) (unpin c id).
Proof.
  intros Hk Hc. destruct (k_protected _ _ Hk id ltac:(lia)) as [p E]. unfold unpin. rewrite E. pose proof (k_page _ _ Hk _ _ E) as [Hm Hp].
  pose proof (msum_delete (pinned_part bytes_of) _ _ _ E) as D1. pose proof (msum_delete (pinned_part pg_materialized_rows) _ _ _ E) as D2.
  assert (0 <= msum (pinned_part bytes_of) (delete id (pages c))).
  { apply msum_nonneg. intros k a _. unfold pinned_part. pose proof (bytes_nonneg a). destruct (_ =? 0); lia. }
  assert (0 <= msum (pinned_part pg_materialized_rows) (delete id (pages c))).
  { apply msum_nonneg. intros k a [_ Ea]%lookup_delete_Some. unfold pinned_part. pose proof (k_page _ _ Hk _ _ Ea). destruct (_ =? 0); lia. }
  rewrite <- (k_pinned _ _ Hk) in D1. rewrite <- (k_pinned_rows _ _ Hk) in D2.
  assert (Hx : forall f, pinned_part f p = f p) by (intros f; unfold pinned_part; rewrite (proj2 (Z.eqb_neq (pg_pin_count p) 0)); [done|lia]).
  rewrite Hx in D1, D2. assert (Hs : saturating_sub (pg_pin_count p) 1 = pg_pin_count p - 1) by (unfold saturating_sub; destruct (Z.leb_spec 1 (pg_pin_count p)); lia).
  rewrite Hs. pose proof (bytes_nonneg p). unfold bytes_of in *.
  apply (counted_repin cnt _ c id p); rewrite ?Hx; try done.
  - unfold bump. rewrite bool_decide_eq_true_2 by (by left). lia.
  - lia.
  - intros i Hi. unfold bump. rewrite bool_decide_eq_false_2; [lia|]. by intros ?%list_elem_of_singleton.
  - unfold bytes_of, saturating_sub. destruct (Z.eqb_spec (pg_pin_count p) 1), (Z.eqb_spec (pg_pin_count p - 1) 0); try lia.
    destruct (Z.leb_spec (len (pg_payload p)) (pinned_bytes c)); lia.
  - unfold saturating_sub. destruct (Z.eqb_spec (pg_pin_count p) 1), (Z.eqb_spec (pg_pin_count p - 1) 0); try lia.
    destruct (Z.leb_spec (pg_materialized_rows p) (pinned_materialized_rows c)); lia.
  - intros i Hi. case_match; [apply elem_of_app; by left|done].
  - intros Hz. rewrite (proj2 (Z.eqb_eq (pg_pin_count p) 1)) by lia. apply elem_of_app. right. by left.
Qed.

(** What pinning leaves alone. *)
Definition pin_same (c c' : HistoryCache) : Prop :=
  config c' = config c /\ consumed c' = consumed c /\ anchor_pages c' = anchor_pages c /\ next_cursor c' = next_cursor c
  /\ next_page_seq c' = next_page_seq c /\ req_max_bytes c' = req_max_bytes c /\ load_state c' = load_state c
  /\ loaded_bytes c' = loaded_bytes c /\ materialized_rows c' = materialized_rows c
  /\ viewport c' = viewport c /\ unread_rows c' = unread_rows c /\ (forall i, is_Some (pages c' !! i) <-> is_Some (pages c !! i)).
Lemma pin_same_trans c c' c'' : pin_same c c' -> pin_same c' c'' -> pin_same c c''.
Proof.
  intros H1 H2. destruct H1 as (?&?&?&?&?&?&?&?&?&?&?&H1), H2 as (?&?&?&?&?&?&?&?&?&?&?&H2). repeat split; try congruence.
  - intros ?. by apply H1, H2.
  - intros ?. by apply H2, H1.
Qed.
Lemma repin_same c id p q ev pb pr : pages c !! id = Some p -> pin_same c (with_pins c (<[id := q]> (pages c)) ev pb pr).
Proof.
  intros E. repeat split; simpl; destruct (decide (i = id)) as [->|]; rewrite ?lookup_insert_eq, ?lookup_insert_ne, ?E by done; try done; by eexists.
Qed.
Lemma pin_keeps c id : pin_same c (pin c id).
Proof. unfold pin. destruct (pages c !! id) as [p|] eqn:E; [by eapply repin_same|by repeat split]. Qed.
Lemma unpin_keeps c id : pin_same c (unpin c id).
Proof. unfold unpin. destruct (pages c !! id) as [p|] eqn:E; [by eapply repin_same|by repeat split]. Qed.
Lemma fold_keeps (f : HistoryCache -> HistoryPageId -> HistoryCache) l c : (forall c id, pin_same c (f c id)) -> pin_same c (fold_left f l c).
Proof.
  intros Hf. revert c. induction l as [|id l IH]; intros c; [by repeat split|]. simpl. eapply pin_same_trans; [apply Hf|apply IH].
Qed.
Lemma bump_cons cnt id l d i : id ∉ l -> bump (bump cnt [id] d) l d i = bump cnt (id :: l) d i.
Proof.
  intros Hn. unfold bump. destruct (decide (i = id)) as [->|Hi].
  - rewrite !(bool_decide_eq_true_2 (id ∈ _ :: _)), (bool_decide_eq_false_2 (id ∈ l)); [lia|done|by left..].
  - assert (Ei : bool_decide (i ∈ id :: l) = bool_decide (i ∈ l)) by (apply bool_decide_ext; rewrite elem_of_cons; intuition congruence).
    rewrite Ei, (bool_decide_eq_false_2 (i ∈ [id])) by (by intros ?%list_elem_of_singleton). lia.
Qed.
Lemma counted_pins l : NoDup l -> forall cnt c, Counted cnt c -> (forall id, id ∈ l -> is_Some (pages c !! id)) -> (forall id, 0 <= cnt id) ->
  Counted (bump cnt l 1) (fold_left pin l c).
Proof.
  induction 1 as [|id l Hn Hnd IH]; intros cnt c Hk Hi Hc; simpl.
  { eapply counted_cnt; [|exact Hk]. intros i. unfold bump. rewrite bool_decide_eq_false_2 by apply not_elem_of_nil. lia. }
  eapply counted_cnt; [intros i; by apply bump_cons|]. apply IH.
  - apply counted_pin; [done|apply Hi; by left|done].
  - intros i Hl. destruct (pin_keeps c id) as (_&_&_&_&_&_&_&_&_&_&_&Hp). apply Hp, Hi. by right.
  - intros i. unfold bump. specialize (Hc i). destruct (bool_decide _); lia.
Qed.
Lemma counted_unpins l : NoDup l -> forall cnt c, Counted cnt c -> (forall id, id ∈ l -> 1 <= cnt id) ->
  Counted (bump cnt l (-1)) (fold_left unpin l c).
Proof.
  induction 1 as [|id l Hn Hnd IH]; intros cnt c Hk Hc; simpl.
  { eapply counted_cnt; [|exact Hk]. intros i. unfold bump. rewrite bool_decide_eq_false_2 by apply not_elem_of_nil. lia. }
  eapply counted_cnt; [intros i; by apply bump_cons|]. apply IH.
  - apply counted_unpin; [done|apply Hc; by left].
  - intros i Hl. unfold bump. rewrite bool_decide_eq_false_2 by (by intros ->%list_elem_of_singleton). specialize (Hc i ltac:(by right)). lia.
Qed.

(** ** Anchors *)

Lemma protectors_delete am a s i : am !! a = Some s -> protectors (delete a am) i = bump (protectors am) (elements s) (-1) i.
Proof.
  intros E. unfold bump, protectors. rewrite (msum_delete _ _ _ _ E).
  rewrite (bool_decide_ext (i ∈ elements s) (i ∈ s)) by apply elem_of_elements. destruct (bool_decide _); lia.
Qed.
Lemma protectors_insert am a s i : am !! a = None -> protectors (<[a := s]> am) i = bump (protectors am) (elements s) 1 i.
Proof.
  intros E. unfold bump, protectors. rewrite msum_insert by done.
  rewrite (bool_decide_ext (i ∈ elements s) (i ∈ s)) by apply elem_of_elements. destruct (bool_decide _); lia.
Qed.
Lemma protectors_member am a s i : am !! a = Some s -> i ∈ s -> 1 <= protectors am i.
Proof.
  intros E Hi. unfold protectors. rewrite (msum_delete _ _ _ _ E), bool_decide_eq_true_2 by done.
  pose proof (protectors_nonneg (delete a am) i). unfold protectors in *. lia.
Qed.
(** An anchor's pages are released with it. *)
Definition release_anchor (c : HistoryCache) (a : DocumentAnchorId) : HistoryCache :=
  match anchor_pages c !! a with
  | Some old => fold_left unpin (elements old) (with_anchors c (delete a (anchor_pages c)))
  | None => c
  end.
Lemma release_anchor_ok c a :
  Counted (protectors (anchor_pages c)) c ->
  let c' := release_anchor c a in
  Counted (protectors (anchor_pages c')) c' /\ pin_same (with_anchors c (delete a (anchor_pages c))) c'.
Proof.
  intros Hk. unfold release_anchor. destruct (anchor_pages c !! a) as [s|] eqn:E.
  2: { rewrite delete_id by done. split; [done|]. by repeat split. }
  pose proof (fold_keeps unpin (elements s) (with_anchors c (delete a (anchor_pages c))) unpin_keeps) as Hs.
  split; [|exact Hs]. destruct Hs as (_&_&->&_). simpl. eapply counted_cnt; [intros i; symmetry; by apply protectors_delete|].
  apply counted_unpins; [apply NoDup_elements|by apply counted_with_anchors|]. intros i Hi%elem_of_elements. by eapply protectors_member.
Qed.

(** ** Every operation *)

(** What [Chained] reads. *)
Definition chain_same (c c' : HistoryCache) : Prop :=
  config c' = config c /\ consumed c' = consumed c /\ next_cursor c' = next_cursor c /\ next_page_seq c' = next_page_seq c
  /\ req_max_bytes c' = req_max_bytes c /\ load_state c' = load_state c /\ viewport c' = viewport c /\ unread_rows c' = unread_rows c.
Lemma chained_same c c' : chain_same c c' -> Chained c -> Chained c'.
Proof. intros (E1&E2&E3&E4&E5&E6&E7&E8) []. constructor; rewrite ?E1, ?E2, ?E3, ?E4, ?E5, ?E6, ?E7, ?E8; done. Qed.
Lemma rest_chain c c' : rest_same c c' -> chain_same c c'.
Proof. unfold rest_same, chain_same. intuition. Qed.
Lemma pin_chain c c' : pin_same c c' -> chain_same c c'.
Proof. unfold pin_same, chain_same. intuition. Qed.
Lemma within_le cnt c : Counted cnt c -> within c -> pinned_bytes c <= max_bytes (config c) /\ pinned_materialized_rows c <= max_materialized_rows (config c).
Proof. intros Hk [? ?]. pose proof (pinned_le _ _ Hk). lia. Qed.

Lemma history_new_ok cfg newest width : HistoryOk (history_new cfg newest width).
Proof.
  assert (Hb : 0 < max_bytes (normalized cfg) /\ 0 < max_materialized_rows (normalized cfg)) by (simpl; lia).
  assert (Hp : forall i, protectors ∅ i = 0) by done.
  split; simpl; try lia; constructor; simpl; try done; try (destruct newest; by intuition); try lia.
  { intros id [? Hi]. by rewrite lookup_empty in Hi. }
  unfold clamp, u32_or_max. change u32_max with 4294967295.
  repeat case_match; repeat match goal with H : (_ <? _) = _ |- _ => revert H | H : (_ <=? _) = _ |- _ => revert H end; lia.
Qed.

Section Operations.
Context (payload_digest : bytes -> bytes).

Lemma accept_inserts c id p lc :
  HistoryOk c -> pages c !! id = None -> pg_pin_count p = 0 -> 0 <= pg_materialized_rows p ->
  pinned_bytes c + bytes_of p <= max_bytes (config c) -> pinned_materialized_rows c + pg_materialized_rows p <= max_materialized_rows (config c) ->
  lc = with_store c (<[id := p]> (pages c)) (page_order c ++ [id]) (evictable c ++ [id]) (loaded_bytes c + bytes_of p)
         (materialized_rows c + pg_materialized_rows p) ->
  Counted (protectors (anchor_pages lc)) lc.
Proof.
  intros [[Hb K1 K2 K3 K4 K5 K6 K7 K8] _ _ _] E Hz Hm Hpb Hpr ->. constructor; simpl; try done.
  - rewrite msum_insert by done. lia.
  - rewrite msum_insert by done. lia.
  - rewrite msum_insert by done. unfold pinned_part at 1. rewrite Hz. simpl. lia.
  - rewrite msum_insert by done. unfold pinned_part at 1. rewrite Hz. simpl. lia.
  - intros i q [[<- <-]|[_ Eq]]%lookup_insert_Some; [|by apply K5]. split; [done|]. rewrite Hz.
    pose proof (protectors_nonneg (anchor_pages c) id). destruct (decide (0 < protectors (anchor_pages c) id)) as [Hc|]; [|lia].
    apply K8 in Hc as [? Hc]. by rewrite E in Hc.
  - intros i q [[<- <-]|[_ Eq]]%lookup_insert_Some Hq; apply elem_of_app; [right; by apply list_elem_of_singleton|left; by apply (K6 i q)].
  - intros i [q [[<- <-]|[_ Eq]]%lookup_insert_Some]; apply elem_of_app; [right; by apply list_elem_of_singleton|left; apply K7; by eexists].
  - intros i Hi. rewrite lookup_insert_ne; [by apply K8|]. intros ->. apply K8 in Hi as [? Hi]. by rewrite E in Hi.
Qed.
Lemma forget_consumed_short n cs cb : (length cs <= n)%nat -> len (forget_consumed n cs cb).1 <= 64.
Proof.
  revert cs cb. induction n as [|n IH]; intros [|e cs] cb Hn; simpl in *; try (unfold len; simpl; lia).
  destruct (Z.ltb_spec 64 (len (e :: cs))); simpl; [apply IH; lia|lia].
Qed.

(** A page that is imported fits: nothing is replayed, in order, and inside every budget. *)
Lemma check_page_new c cursor seq next declared payload :
  check_page payload_digest c cursor seq next declared payload = Ok Page_New ->
  pages c !! (cursor, seq) = None /\ List.find (fun e => bool_decide (cs_id e = (cursor, seq))) (consumed c) = None
  /\ load_state c = Load_Loading /\ next_cursor c = Some cursor /\ seq = default 1 (next_page_seq c) /\ seq <> 0
  /\ 0 < len payload <= Z.min (max_bytes (config c)) (req_max_bytes c) /\ declared <= req_max_rows c
  /\ pinned_bytes c + len payload <= max_bytes (config c) /\ pinned_materialized_rows c + declared <= max_materialized_rows (config c).
Proof.
  unfold check_page, is_replayed_page, check_page_order, check_page_budgets.
  destruct (pages c !! _) as [p|]; [by destruct (_ && (_ =? declared))|].
  destruct (List.find _ _) as [e|]; [by destruct (_ && (_ =? declared))|]. simpl.
  destruct (bool_decide (load_state c = _)) eqn:E1; [|done]. apply bool_decide_eq_true in E1.
  destruct (bool_decide (next_cursor c = _)) eqn:E2; [|done]. apply bool_decide_eq_true in E2. simpl.
  destruct (Z.eqb_spec seq 0), (Z.eqb_spec seq (default 1 (next_page_seq c))); try done. simpl.
  destruct (_ && _); [done|]. simpl. pose proof (len_nonneg payload).
  destruct (Z.eqb_spec (len payload) 0), (Z.ltb_spec (max_bytes (config c)) (len payload)), (Z.ltb_spec (req_max_bytes c) (len payload)); try done.
  simpl. destruct (Z.ltb_spec (req_max_rows c) declared), (Z.ltb_spec MAX_HISTORY_PAGE_ROWS declared); try done. simpl.
  destruct (Z.ltb_spec (max_bytes (config c)) (pinned_bytes c + len payload)); [done|].
  destruct (Z.ltb_spec (max_materialized_rows (config c)) (pinned_materialized_rows c + declared)); [done|]. intros _. repeat split; try done; lia.
Qed.
Lemma accept_page_ok c cursor seq next declared mat payload id c' :
  HistoryOk c -> 0 <= declared -> 0 <= mat ->
  accept_page payload_digest c cursor seq next declared mat payload = Ok (id, c') -> HistoryOk c' /\ config c' = config c.
Proof.
  intros Hok Hd Hm. unfold accept_page. destruct (check_page _ _ _ _ _ _ _) as [[|i]|e] eqn:Ec; simpl; [|by intros [= <- <-]|done].
  pose proof (check_page_new _ _ _ _ _ _ Ec) as (E & _ & El & En & Es & Hs & Hl & Hr & Hpb & Hpr).
  set (p := mkPage _ _ _ _ _). set (cs := consumed c ++ _). pose proof (forget_consumed_short (length cs) cs) as Hf. unfold len in *.
  match goal with |- context [forget_consumed _ _ ?b] => specialize (Hf b ltac:(lia)) end.
  destruct (forget_consumed _ _ _) as [cs' cb']. simpl in Hf.
  match goal with |- Ok (_, evict_to_budget ?x) = _ -> _ => set (c1 := x) end. intros [= <- <-].
  destruct (within_le _ _ (ok_counted _ Hok) (conj (ok_bytes _ Hok) (ok_rows _ Hok))) as [Hpb' Hpr'].
  destruct (evict_to_budget_ok c1) as (K & R & P & W); [| done | done |].
  { assert (Hmat : pinned_materialized_rows c + pg_materialized_rows p <= max_materialized_rows (config c)) by (simpl; lia).
    assert (Hnn : 0 <= pg_materialized_rows p) by (simpl; pose proof (k_budget _ _ (ok_counted _ Hok)); lia).
    pose proof (accept_inserts c (cursor, seq) p _ Hok E eq_refl Hnn Hpb Hmat eq_refl) as Hk. by destruct Hk. }
  split; [|by destruct R as (-> & _)]. split; [exact K| |apply W..].
  apply (chained_same c1 _ (rest_chain _ _ R)). destruct (ok_chained _ Hok) as [? ? ? ? ? ? ?].
  constructor; simpl; try done; try (destruct next; by intuition). destruct ch_request0, (k_budget _ _ (ok_counted _ Hok)). lia.
Qed.
Lemma register_ok c a ps c' :
  HistoryOk c -> register_anchor_pages c a ps = Ok c' -> HistoryOk c' /\ anchor_pages c' = <[a := ps]> (anchor_pages c) /\ config c' = config c.
Proof.
  intros [Hk Hc Hb Hr]. unfold register_anchor_pages.
  destruct (if bool_decide _ then Ok tt else ensure_anchor_capacity c 1) as [[]|]; [|done]. simpl.
  destruct (bool_decide (ps ⊆ dom (pages c))) eqn:Ed; [|done]. apply bool_decide_eq_true in Ed. simpl.
  fold (release_anchor c a). destruct (release_anchor_ok c a Hk) as [Hk1 S1]. set (c1 := release_anchor c a) in *.
  set (c2 := fold_left pin (elements ps) c1). intros [= <-].
  pose proof (fold_keeps pin (elements ps) c1 pin_keeps) as S2. fold c2 in S2.
  assert (Hk2 : Counted (bump (protectors (anchor_pages c1)) (elements ps) 1) c2).
  { apply counted_pins; [apply NoDup_elements|done| |intros; apply protectors_nonneg].
    intros i Hi%elem_of_elements. destruct S1 as (_&_&_&_&_&_&_&_&_&_&_&S1). apply S1. simpl. apply elem_of_dom. by apply Ed. }
  assert (Ea : anchor_pages c2 = delete a (anchor_pages c)) by (destruct S2 as (_&_&->&_), S1 as (_&_&->&_); done).
  pose proof S1 as (C1&_&_&_&_&_&_&L1&M1&_). pose proof S2 as (C2&_&_&_&_&_&_&L2&M2&_). simpl in *.
  split; [|split; [by rewrite Ea, insert_delete_eq|simpl; congruence]]. split; simpl; rewrite ?C2, ?C1, ?L2, ?L1, ?M2, ?M1; try done.
  - apply counted_with_anchors. eapply counted_cnt; [|exact Hk2]. intros i. rewrite Ea, protectors_insert by apply lookup_delete_eq.
    by destruct S1 as (_&_&->&_).
  - eapply chained_same; [|exact Hc]. apply pin_chain in S1, S2. unfold chain_same in *. simpl in *. intuition congruence.
Qed.
Lemma remove_anchor_ok c a : HistoryOk c -> HistoryOk (remove_anchor c a) /\ config (remove_anchor c a) = config c.
Proof.
  intros [Hk Hc Hb Hr]. unfold remove_anchor. fold (release_anchor c a). destruct (release_anchor_ok c a Hk) as [Hk1 S1].
  set (c1 := release_anchor c a) in *. set (c2 := if bool_decide (viewport c1 = _) then _ else c1).
  pose proof S1 as (C1&_&_&_&_&_&_&L1&M1&_). simpl in *.
  assert (Hk2 : Counted (protectors (anchor_pages c2)) c2) by (unfold c2; case_match; [by destruct Hk1|done]).
  assert (E2 : config c2 = config c1 /\ loaded_bytes c2 = loaded_bytes c1 /\ materialized_rows c2 = materialized_rows c1) by (unfold c2; by case_match).
  destruct E2 as (C2 & L2 & M2).
  assert (W2 : within c2) by (split; rewrite ?C2, ?L2, ?M2, ?C1, ?L1, ?M1; done).
  destruct (within_le _ _ Hk2 W2). destruct (evict_to_budget_ok c2 Hk2) as (K & R & _ & W); [done..|].
  split; [|destruct R as (-> & _); by rewrite C2, C1]. split; [exact K| |apply W..].
  eapply chained_same; [by apply rest_chain|].
  assert (Hc1 : Chained c1) by (eapply chained_same; [apply pin_chain; exact S1|]; by destruct Hc).
  unfold c2. case_match; [|done]. destruct Hc1. by constructor.
Qed.
End Operations.

(** ** A life of the cache *)

(** Everything a kernel asks of its history. *)
Inductive HistoryOp : Type :=
| Do_fetch
| Do_accept (cursor : HistoryCursor) (seq : Z) (next : option HistoryCursor) (declared mat : Z) (payload : bytes)
| Do_rejected (cursor : HistoryCursor) (required_bytes required_rows : Z)
| Do_register (a : DocumentAnchorId) (ps : gset HistoryPageId)
| Do_remove (a : DocumentAnchorId)
| Do_pin_viewport (a : DocumentAnchorId)
| Do_follow_tail
| Do_live (rows : Z)
| Do_reproject (width : Z)
| Do_invalidate (st : HistoryLoadState).
Definition op_ok (o : HistoryOp) : Prop :=
  match o with
  | Do_accept _ _ _ declared mat _ => 0 <= declared /\ 0 <= mat
  | Do_live rows => 0 <= rows
  | Do_invalidate st => st <> Load_Loading /\ st <> Load_Idle
  | _ => True
  end.
Definition kept (r : result HistoryCacheError HistoryCache) (c : HistoryCache) : HistoryCache :=
  match r with Ok c' => c' | Err _ => c end.

Section Life.
Context (payload_digest : bytes -> bytes).

Definition history_step (c : HistoryCache) (o : HistoryOp) : HistoryCache :=
  match o with
  | Do_fetch => (begin_fetch c).2
  | Do_accept cursor seq next declared mat payload =>
      kept (r ← accept_page payload_digest c cursor seq next declared mat payload; Ok r.2) c
  | Do_rejected cursor rb rr =>
      let limits := retry_limits c rb rr in
      let '(cancelled, c) := cancel_fetch c cursor in
      match limits with
      | Some (mb, mr) => if (cancelled : bool) then (begin_fetch_with_limits c mb mr).2 else c
      | None => c
      end
  | Do_register a ps => kept (register_anchor_pages c a ps) c
  | Do_remove a => remove_anchor c a
  | Do_pin_viewport a => kept (pin_viewport c a) c
  | Do_follow_tail => follow_tail c
  | Do_live rows => note_live_output c rows
  | Do_reproject w => reproject c w
  | Do_invalidate st => invalidate c st
  end.

(** An operation that moves only the request, the viewport or the chain. *)
Lemma store_same_ok c c' :
  HistoryOk c -> config c' = config c -> pages c' = pages c -> page_order c' = page_order c -> evictable c' = evictable c ->
  anchor_pages c' = anchor_pages c -> loaded_bytes c' = loaded_bytes c -> materialized_rows c' = materialized_rows c ->
  pinned_bytes c' = pinned_bytes c -> pinned_materialized_rows c' = pinned_materialized_rows c -> Chained c' -> HistoryOk c'.
Proof.
  intros [[] _ Hb Hr] E1 E2 E3 E4 E5 E6 E7 E8 E9 Hc. constructor; rewrite ?E1, ?E6, ?E7; try done.
  constructor; rewrite ?E1, ?E2, ?E3, ?E4, ?E5, ?E6, ?E7, ?E8, ?E9; done.
Qed.
Lemma begin_fetch_ok c mb mr : HistoryOk c -> mb <= max_bytes (config c) -> HistoryOk (begin_fetch_with_limits c mb mr).2.
Proof.
  intros Hok Hmb. unfold begin_fetch_with_limits. destruct (_ || _); [done|]. destruct (next_cursor c) eqn:En; [|done]. simpl.
  apply (store_same_ok c); try done. destruct (ok_chained _ Hok) as [? ? ? [? ?] ? ? ?]. by constructor.
Qed.
Lemma cancel_fetch_ok c cursor : HistoryOk c -> HistoryOk (cancel_fetch c cursor).2 /\ config (cancel_fetch c cursor).2 = config c.
Proof.
  intros Hok. unfold cancel_fetch. destruct (bool_decide (load_state c = Load_Loading)) eqn:E1; [|done].
  destruct (bool_decide (next_cursor c = Some cursor)) eqn:E2; [|done]. apply bool_decide_eq_true in E1, E2. simpl. split; [|done].
  destruct (ok_chained _ Hok) as [? ? ? [? ?] ? ? ?], (k_budget _ _ (ok_counted _ Hok)).
  apply (store_same_ok c); try done. constructor; simpl; try done; lia.
Qed.
Lemma invalidate_ok c st : HistoryOk c -> st <> Load_Loading -> st <> Load_Idle -> HistoryOk (invalidate c st).
Proof.
  intros [[Hb _ _ _ _ _ _ _ _] [? ? ? [? ?] ? ? ?] _ _] H1 H2. assert (Hp : forall i, protectors ∅ i = 0) by done.
  constructor; simpl; try lia; constructor; simpl; try done; try (intuition congruence); try lia.
  - intros i [? Hi]. by rewrite lookup_empty in Hi.
Qed.
Lemma history_step_ok c o : HistoryOk c -> op_ok o -> HistoryOk (history_step c o).
Proof.
  intros Hok Ho. pose proof (ok_chained _ Hok) as Hch. destruct o; simpl in *.
  - apply begin_fetch_ok; [done|]. by destruct Hch as [? ? ? [? ?] ? ? ?].
  - destruct (accept_page _ _ _ _ _ _ _ _) as [[id c']|] eqn:E; [|done]. destruct Ho as [Hd Hm]. by destruct (accept_page_ok _ _ _ _ _ _ _ _ _ _ Hok Hd Hm E).
  - unfold retry_limits. destruct (_ || _) eqn:El.
    + pose proof (cancel_fetch_ok c cursor Hok) as [H _]. by destruct (cancel_fetch c cursor).
    + pose proof (cancel_fetch_ok c cursor Hok) as [H Hc]. destruct (cancel_fetch c cursor) as [[] c1]; [|done]. simpl in *.
      destruct Hch as [? ? ? [? ?] ? ? ?], (k_budget _ _ (ok_counted _ Hok)). apply begin_fetch_ok; [done|]. rewrite Hc.
      rewrite !orb_false_iff, !Z.ltb_ge in El. destruct El as [[[_ El] _] _]. unfold u32_or_max in El.
      destruct (Z.leb_spec (max_bytes (config c)) u32_max); lia.
  - destruct (register_anchor_pages c a ps) eqn:E; [|done]. by destruct (register_ok _ _ _ _ Hok E).
  - by apply remove_anchor_ok.
  - unfold pin_viewport. case_bool_decide; [|done]. apply (store_same_ok c); try done. destruct Hch. by constructor.
  - apply (store_same_ok c); try done. destruct Hch. constructor; simpl; try done.
  - unfold note_live_output. destruct (viewport c) eqn:Ev; [done|]. apply (store_same_ok c); try done. destruct Hch.
    constructor; simpl; try done. lia.
  - apply (store_same_ok c); try done. destruct Hch. by constructor.
  - destruct Ho. by apply invalidate_ok.
Qed.
Lemma history_step_config c o : HistoryOk c -> op_ok o -> config (history_step c o) = config c.
Proof.
  intros Hok Ho. destruct o; simpl in *; try done.
  - unfold begin_fetch, begin_fetch_with_limits. destruct (_ || _); [done|]. by destruct (next_cursor c).
  - destruct (accept_page _ _ _ _ _ _ _ _) as [[id c']|] eqn:E; [|done]. destruct Ho as [Hd Hm].
    by destruct (accept_page_ok _ _ _ _ _ _ _ _ _ _ Hok Hd Hm E).
  - destruct (retry_limits _ _ _) as [[mb mr]|]; pose proof (cancel_fetch_ok c cursor Hok) as [_ Hc]; destruct (cancel_fetch c cursor) as [[] c1]; try done.
    unfold begin_fetch_with_limits. destruct (_ || _); [done|]. by destruct (next_cursor c1).
  - destruct (register_anchor_pages c a ps) eqn:E; [|done]. by destruct (register_ok _ _ _ _ Hok E) as (_ & _ & ?).
  - by apply remove_anchor_ok.
  - unfold pin_viewport. by case_bool_decide.
  - unfold note_live_output. by destruct (viewport c).
Qed.
(** C7: Whatever pages arrive, whatever is fetched, rejected, anchored, released or invalidated, in any order, the history cache
    holds no more payload bytes and no more materialised rows than its budget, its four counters are exactly the sums over the
    pages it holds, every page is pinned exactly as often as anchors name it, no anchored page is gone, the request chain is
    sound (a cursor to ask for exactly when idle or loading, never a request larger than the budget) and at most 64 consumed
    pages are remembered. *)
Theorem history_budgets_hold cfg newest width ops :
  Forall op_ok ops -> HistoryOk (fold_left history_step ops (history_new cfg newest width)).
Proof.
  intros Hops. assert (Ho : HistoryOk (history_new cfg newest width)) by apply history_new_ok. revert Ho.
  generalize (history_new cfg newest width). induction Hops as [|o ops Hop _ IH]; intros c Hc; [done|]. apply IH, history_step_ok; done.
Qed.
End Life.

(** ** A page that comes twice *)

(** The same bytes, and the same place in the chain. *)
Definition same_content (p q : CachedPage) : Prop :=
  pg_payload p = pg_payload q /\ pg_next_cursor p = pg_next_cursor q /\ pg_declared_rows p = pg_declared_rows q.
Definition only_drops (c c' : HistoryCache) : Prop :=
  forall id q, pages c' !! id = Some q -> exists p, pages c !! id = Some p /\ same_content p q.
Lemma only_drops_refl c c' : pages c' = pages c -> only_drops c c'.
Proof. intros E id q Eq. exists q. rewrite <- E. by repeat split. Qed.
Lemma only_drops_trans c c' c'' : only_drops c c' -> only_drops c' c'' -> only_drops c c''.
Proof.
  intros H1 H2 id q E. destruct (H2 _ _ E) as (p & Ep & ? & ? & ?), (H1 _ _ Ep) as (o & Eo & ? & ? & ?). exists o.
  split; [done|]. repeat split; congruence.
Qed.
Lemma evict_loop_drops ev c : only_drops c (evict_loop ev c) /\ consumed (evict_loop ev c) = consumed c.
Proof.
  revert c. induction ev as [|id ev IH]; intros c; cbn [evict_loop]; destruct (_ <=? _); try (split; [by apply only_drops_refl|done]).
  destruct (pages c !! id) as [p|] eqn:E; [|apply IH]. destruct (_ =? 0); [|apply IH].
  match goal with |- context [evict_loop ev ?x] => destruct (IH x) as [H1 ->] end. split; [|done]. eapply only_drops_trans; [|exact H1].
  intros i q Eq. simpl in Eq. apply lookup_delete_Some in Eq as [_ Eq]. exists q. by repeat split.
Qed.
Lemma evict_materializations_drops n c :
  only_drops c (evict_materializations_loop n c) /\ consumed (evict_materializations_loop n c) = consumed c.
Proof.
  revert c. induction n as [|n IH]; intros c; cbn [evict_materializations_loop]; [split; [by apply only_drops_refl|done]|].
  destruct (_ <=? _); [split; [by apply only_drops_refl|done]|]. destruct (List.find _ _) as [id|]; [|split; [by apply only_drops_refl|done]].
  destruct (pages c !! id) as [p|] eqn:E; [|split; [by apply only_drops_refl|done]].
  match goal with |- context [evict_materializations_loop n ?x] => destruct (IH x) as [H1 ->] end. split; [|done].
  eapply only_drops_trans; [|exact H1]. intros i q Eq. simpl in Eq.
  apply lookup_insert_Some in Eq as [[<- <-]|[_ Eq]]; [exists p|exists q]; by repeat split.
Qed.
Lemma evict_to_budget_drops c : only_drops c (evict_to_budget c) /\ consumed (evict_to_budget c) = consumed c.
Proof.
  unfold evict_to_budget, evict_materializations. destruct (evict_loop_drops (evictable c) c) as [H1 E1]. set (c1 := evict_loop _ _) in *.
  match goal with |- context [evict_materializations_loop _ (if ?b then ?x else ?y)] => set (c2 := if b then x else y) end.
  assert (H2 : only_drops c1 c2 /\ consumed c2 = consumed c1) by (unfold c2; case_match; split; try done; by apply only_drops_refl).
  destruct H2 as [H2 E2], (evict_materializations_drops (S (size (pages c2))) c2) as [H3 E3]. split; [|congruence].
  eapply only_drops_trans; [exact H1|]. by eapply only_drops_trans.
Qed.
(** The page just consumed is remembered, and is the first of its name. *)
Lemma forget_keeps_last (P : ConsumedPage -> bool) n cs e cb :
  (forall x, x ∈ cs -> P x = false) -> P e = true -> List.find P (forget_consumed n (cs ++ [e]) cb).1 = Some e.
Proof.
  intros Hn He. revert cs cb Hn. induction n as [|n IH]; intros cs cb Hn.
  { simpl. replace (forget_consumed 0 (cs ++ [e]) cb) with (cs ++ [e], cb) by (by destruct (cs ++ [e])). simpl.
    induction cs as [|x cs IHc]; simpl; [by rewrite He|]. rewrite Hn by (by left). apply IHc. intros y Hy. apply Hn. by right. }
  destruct cs as [|x cs]; [by destruct n; simpl; rewrite He|]. simpl app. cbn [forget_consumed].
  destruct (64 <? _); [apply IH; intros y Hy; apply Hn; by right|]. simpl. rewrite Hn by (by left).
  clear IH. induction cs as [|y cs IHc]; simpl; [by rewrite He|]. rewrite (Hn y) by (right; by left).
  apply IHc. intros z Hz. apply Hn. inversion Hz; subst; [by left|right; by right].
Qed.
(** The cache still knows this page, by its bytes or by its digest. *)
Definition remembered (digest : bytes -> bytes) (c : HistoryCache) (id : HistoryPageId) next declared payload : Prop :=
  (exists p, pages c !! id = Some p /\ pg_payload p = payload /\ pg_next_cursor p = next /\ pg_declared_rows p = declared)
  \/ (pages c !! id = None /\ exists e, List.find (fun e => bool_decide (cs_id e = id)) (consumed c) = Some e
       /\ cs_digest e = digest payload /\ cs_next_cursor e = next /\ cs_declared_rows e = declared).
Lemma remembered_replayed digest c id next declared payload :
  is_replayed_page digest c id next declared payload = Ok true -> remembered digest c id next declared payload.
Proof.
  unfold is_replayed_page, remembered. destruct (pages c !! id) as [p|].
  - destruct (_ && _) eqn:Eb; [|done]. intros _. left. exists p. rewrite !andb_true_iff, !bool_decide_eq_true, Z.eqb_eq in Eb. tauto.
  - destruct (List.find _ _) as [e|]; [|done]. destruct (_ && _) eqn:Eb; [|done]. intros _. right. split; [done|]. exists e.
    rewrite !andb_true_iff, !bool_decide_eq_true, Z.eqb_eq in Eb. tauto.
Qed.
Lemma remembered_answers digest c cursor seq next declared payload :
  remembered digest c (cursor, seq) next declared payload ->
  (forall mat, accept_page digest c cursor seq next declared mat payload = Ok ((cursor, seq), c))
  /\ forall next' declared' payload', digest payload' <> digest payload \/ next' <> next \/ declared' <> declared ->
       check_page digest c cursor seq next' declared' payload' = Err History_DuplicateConflict.
Proof.
  intros Hd. split.
  - intros mat'. unfold accept_page, check_page, is_replayed_page.
    destruct Hd as [(p & -> & -> & -> & ->)|(-> & e & -> & -> & -> & ->)]; by rewrite !bool_decide_eq_true_2, Z.eqb_refl by done.
  - intros n' d' p' Hne. unfold check_page, is_replayed_page.
    destruct Hd as [(p & -> & -> & -> & ->)|(-> & e & -> & -> & -> & ->)];
      repeat case_bool_decide; destruct (Z.eqb_spec declared d'); simpl; try done; subst; naive_solver.
Qed.
Lemma check_page_duplicate digest c cursor seq next declared payload id :
  check_page digest c cursor seq next declared payload = Ok (Page_Duplicate id) ->
  id = (cursor, seq) /\ remembered digest c id next declared payload.
Proof.
  unfold check_page. destruct (is_replayed_page _ _ _ _ _ _) as [[]|] eqn:Er; simpl; [| |done].
  - intros [= <-]. split; [done|]. by apply remembered_replayed.
  - destruct (check_page_order _ _ _ _); simpl; [|done]. by destruct (check_page_budgets _ _ _).
Qed.
(** A history page that is delivered again right after it was imported costs nothing and changes nothing: the cache answers with
    the page it already named and stays as it is, even when the import had to evict that very page to stay in its budget; while
    the same name with another payload, continuation or row count is refused. *)
Theorem page_replay_is_free digest c cursor seq next declared mat payload id c' :
  accept_page digest c cursor seq next declared mat payload = Ok (id, c') ->
  (forall mat', accept_page digest c' cursor seq next declared mat' payload = Ok (id, c'))
  /\ forall next' declared' payload', digest payload' <> digest payload \/ next' <> next \/ declared' <> declared ->
       check_page digest c' cursor seq next' declared' payload' = Err History_DuplicateConflict.
Proof.
  unfold accept_page at 1. destruct (check_page _ _ _ _ _ _ _) as [[|i]|e] eqn:Ec; simpl; [| |done].
  2: { intros [= <- <-]. apply check_page_duplicate in Ec as [-> Hr]. by apply remembered_answers. }
  pose proof (check_page_new _ _ _ _ _ _ _ Ec) as (E & Ef & _). set (p := mkPage _ _ _ _ _). set (e := mkConsumed _ _ _ _ _).
  match goal with |- context [forget_consumed ?n ?l ?b] =>
    pose proof (forget_keeps_last (fun e => bool_decide (cs_id e = (cursor, seq))) n (consumed c) e b) as Hf end.
  destruct (forget_consumed _ _ _) as [cs' cb']. simpl in Hf.
  match goal with |- Ok (_, evict_to_budget ?x) = _ -> _ => set (c1 := x); destruct (evict_to_budget_drops x) as [Hd Hc] end.
  fold c1 in Hd, Hc. intros [= <- <-]. apply remembered_answers. destruct (pages (evict_to_budget c1) !! (cursor, seq)) as [q|] eqn:Eq.
  - left. exists q. destruct (Hd _ _ Eq) as (p' & Ep & H1 & H2 & H3). unfold c1 in Ep. simpl in Ep. rewrite lookup_insert_eq in Ep.
    injection Ep as <-. by simpl in *.
  - right. split; [done|]. exists e. rewrite Hc. split; [|done]. apply Hf; [|by apply bool_decide_eq_true_2].
    intros x Hx. apply list_elem_of_In in Hx. by apply (find_none _ _ Ef).
Qed.

(** ** Small runs *)

(** A cache of 4 bytes and 3 rows: two pages of 3 bytes, so the first is evicted for the second. *)
Definition tiny : HistoryCache := history_new (mkHistoryConfig 4 3 1 4 3) (Some [7]) 80.
Definition first_page : HistoryOp := Do_accept [7] 1 (Some [7]) 3 3 [1; 2; 3].
Definition second_page : HistoryOp := Do_accept [7] 2 (Some [8]) 3 3 [4; 5; 6].
Lemma history_budgets_hold_witness :
  HistoryOk (fold_left (history_step id) [Do_fetch; first_page; Do_register 5 {[([7], 1)]}; Do_fetch; second_page; Do_remove 5; Do_fetch; second_page]
               (history_new (mkHistoryConfig 4 3 1 4 3) (Some [7]) 80))
  /\ dom (pages (fold_left (history_step id) [Do_fetch; first_page; Do_register 5 {[([7], 1)]}; Do_fetch; second_page] tiny)) = {[([7], 1)]}
  /\ dom (pages (fold_left (history_step id) [Do_fetch; first_page; Do_fetch; second_page] tiny)) = {[([7], 2)]}.
Proof.
  split; [apply history_budgets_hold; repeat constructor; simpl; lia|]. split; vm_compute; reflexivity.
Defined.
Lemma page_replay_is_free_witness :
  let c := fold_left (history_step id) [Do_fetch; first_page; Do_fetch; second_page] tiny in
  accept_page id c [7] 2 (Some [8]) 3 3 [4; 5; 6] = Ok (([7], 2), c)
  /\ check_page id c [7] 2 (Some [9]) 3 [4; 5; 6] = Err History_DuplicateConflict.
Proof.
  intros c. assert (E : accept_page id (begin_fetch (fold_left (history_step id) [Do_fetch; first_page] tiny)).2 [7] 2 (Some [8]) 3 3 [4; 5; 6]
    = Ok (([7], 2), c)) by (vm_compute; reflexivity).
  destruct (page_replay_is_free _ _ _ _ _ _ _ _ _ _ E) as [H1 H2]. split; [apply H1|apply H2]. right. left. discriminate.
Defined.
