(* ===== verification/Engine.v ===== *)
(** * The terminal-engine boundary of the client kernel ([phux-client-core/src/engine.rs])

    The traits a frontend's engine implements, as classes: an adapter, the replica it allocates and
    its error are types, and every call returns the replica and the adapter it leaves. The effect
    buffer a call appends to is the list it returns. Nothing is assumed of an adapter. *)

From S2P Require Import Prelude Caps HistoryCache.

(* phux-client-core/src/engine.rs CanonicalGeometry *)
Record CanonicalGeometry : Type := mkGeometry { cols : Z; rows : Z }.
(* phux-client-core/src/engine.rs CanonicalGeometry::new *)
Definition CanonicalGeometry_new (c r : Z) : option CanonicalGeometry :=
  if (c =? 0) || (r =? 0) then None else Some (mkGeometry c r).

(* phux-client-core/src/engine.rs BootstrapProgress *)
Inductive BootstrapProgress : Type := Progress_Pending | Progress_Ready | Progress_Finished.
(* phux-client-core/src/engine.rs BootstrapProgress::is_ready *)
Definition is_ready (p : BootstrapProgress) : bool := match p with Progress_Pending => false | _ => true end.
(* phux-client-core/src/engine.rs HistoryApplyOutcome *)
Record HistoryApplyOutcome : Type := mkOutcome { ho_progress : BootstrapProgress; ho_retained : bool }.

(* phux-client-core/src/engine.rs EngineSend *)
Inductive EngineSend : Type := EngineSend_PtyWrite (bs : bytes).
(* phux-client-core/src/engine.rs EngineDamage *)
Inductive EngineDamage : Type := EngineDamage_Full | EngineDamage_Rows (first last : Z).
(* phux-client-core/src/engine.rs EngineStatus *)
Inductive EngineStatus : Type := EngineStatus_Bell | EngineStatus_Title (title : bytes).
(* phux-client-core/src/engine.rs EngineJob *)
Inductive EngineJob : Type := EngineJob_Wakeup.
(* phux-client-core/src/engine.rs EngineEffect *)
Inductive EngineEffect : Type :=
| EngineEffect_Send (s : EngineSend)
| EngineEffect_Damage (d : EngineDamage)
| EngineEffect_Status (s : EngineStatus)
| EngineEffect_Job (j : EngineJob).

(* phux-client-core/src/engine.rs EngineAdapter *)
Class EngineAdapter (Adapter Replica EngineError : Type) := {
  start_replica : Adapter -> BootstrapStreamProfile -> CanonicalGeometry -> result EngineError Replica * Adapter;
  apply_bootstrap_chunk : Adapter -> Replica -> bytes -> result EngineError BootstrapProgress * Replica * list EngineEffect * Adapter;
  configure_history_budget : Adapter -> Replica -> Z -> Z -> result EngineError unit * Replica * Adapter;
  clear_document_state : Adapter -> Replica -> Replica * Adapter;
  history_anchor_tail_distance : Adapter -> Replica -> DocumentAnchorId -> result EngineError (option Z);
  finish_bootstrap : Adapter -> Replica -> result EngineError BootstrapProgress * Replica * list EngineEffect * Adapter;
  apply_history_page : Adapter -> Replica -> bytes -> result EngineError HistoryApplyOutcome * Replica * list EngineEffect * Adapter;
  apply_output : Adapter -> Replica -> bytes -> result EngineError unit * Replica * list EngineEffect * Adapter
}.

(* phux-client-core/src/engine.rs DocumentSpace *)
Inductive DocumentSpace : Type := Space_History | Space_Viewport | Space_Active.
(* phux-client-core/src/engine.rs DocumentPoint *)
Record DocumentPoint : Type := mkPoint { dp_space : DocumentSpace; dp_x : Z; dp_y : Z }.
(* phux-client-core/src/engine.rs EngineProjectionRow *)
Record EngineProjectionRow : Type := mkRow { row_text : bytes; row_soft_wrapped : bool; row_page : option HistoryPageId }.
(* phux-client-core/src/engine.rs EngineHistoryProjection *)
Record EngineHistoryProjection : Type := mkProjection { pj_width : Z; pj_rows : list EngineProjectionRow; pj_has_older : bool }.
(* phux-client-core/src/engine.rs EngineDocumentSelection *)
Record EngineDocumentSelection : Type := mkSelection { sel_start : DocumentAnchorId; sel_end : DocumentAnchorId; sel_rectangle : bool }.
(* phux-client-core/src/engine.rs EngineSearchMatch *)
Record EngineSearchMatch : Type := mkMatch { found_start : DocumentAnchorId; found_end : DocumentAnchorId }.
(* phux-client-core/src/engine.rs EngineProjectionOrigin *)
Inductive EngineProjectionOrigin : Type := Origin_Tail | Origin_Anchor (a : DocumentAnchorId).

(* phux-client-core/src/engine.rs EnginePresentationAdapter *)
Class EnginePresentationAdapter (Adapter Replica EngineError : Type) `{EngineAdapter Adapter Replica EngineError} := {
  adapter_clear_presentation : Adapter -> Replica -> result EngineError unit * Replica * Adapter
}.
(* phux-client-core/src/engine.rs EngineDocumentAdapter *)
Class EngineDocumentAdapter (Adapter Replica EngineError : Type) `{EngineAdapter Adapter Replica EngineError} := {
  adapter_project_history : Adapter -> Replica -> Z -> EngineProjectionOrigin -> Z -> result EngineError EngineHistoryProjection * Replica * Adapter;
  adapter_track_document_anchor : Adapter -> Replica -> DocumentPoint -> result EngineError DocumentAnchorId * Replica * Adapter;
  adapter_release_document_anchor : Adapter -> Replica -> DocumentAnchorId -> Replica * Adapter;
  adapter_document_anchor_point : Adapter -> Replica -> DocumentAnchorId -> DocumentSpace -> result EngineError (option DocumentPoint);
  adapter_search_loaded : Adapter -> Replica -> bytes -> Z -> result EngineError (list EngineSearchMatch) * Replica * Adapter;
  adapter_format_selection : Adapter -> Replica -> EngineDocumentSelection -> result EngineError (option bytes)
}.
