(* ===== verification/AgentStream.v ===== *)
(** * Agent record streams on the client ([phux-client-core/src/session/agent_stream.rs])

    The JSON-lines payload of an [AgentSession] stream, the log it feeds and the state folded from
    it. JSON itself is [serde_json]'s: the class [Json] names what the code asks of a value. *)

From S2P Require Import Prelude.

(** [serde_json::Value]. *)
Class Json : Type := {
  Value : Type;
  from_slice : bytes -> result bytes Value;
  is_object : Value -> bool;
  is_null : Value -> bool;
  empty_object : Value;
  get : Value -> bytes -> option Value;
  as_u64 : Value -> option Z;
  as_str : Value -> option bytes
}.

(* phux-client-core/src/session/agent_stream.rs MAX_RECORD_BYTES *)
Definition MAX_RECORD_BYTES : Z := 16 * 1024.
(* phux-client-core/src/session/agent_stream.rs DEFAULT_LOG_CAPACITY *)
Definition DEFAULT_LOG_CAPACITY : Z := 512.

(* phux-client-core/src/session/agent_stream.rs AgentEventKind *)
Inductive AgentEventKind : Type :=
| Kind_SessionStart | Kind_Prompt | Kind_ToolStart | Kind_ToolEnd | Kind_Notification | Kind_Ask | Kind_Stop | Kind_SessionEnd
| Kind_State | Kind_ProviderRaw | Kind_Unknown (word : bytes).
(** The words of the wire, in the order of the code. *)
Definition known_kinds : list (bytes * AgentEventKind) :=
  [(str "session_start", Kind_SessionStart); (str "prompt", Kind_Prompt); (str "tool_start", Kind_ToolStart);
   (str "tool_end", Kind_ToolEnd); (str "notification", Kind_Notification); (str "ask", Kind_Ask); (str "stop", Kind_Stop);
   (str "session_end", Kind_SessionEnd); (str "state", Kind_State); (str "provider_raw", Kind_ProviderRaw)].
(* phux-client-core/src/session/agent_stream.rs AgentEventKind::parse *)
Definition AgentEventKind_parse (word : bytes) : AgentEventKind :=
  match List.find (fun p => bool_decide (p.1 = word)) known_kinds with Some p => p.2 | None => Kind_Unknown word end.
(* phux-client-core/src/session/agent_stream.rs AgentEventKind::as_str *)
Definition AgentEventKind_as_str (k : AgentEventKind) : bytes :=
  match k with
  | Kind_SessionStart => str "session_start"
  | Kind_Prompt => str "prompt"
  | Kind_ToolStart => str "tool_start"
  | Kind_ToolEnd => str "tool_end"
  | Kind_Notification => str "notification"
  | Kind_Ask => str "ask"
  | Kind_Stop => str "stop"
  | Kind_SessionEnd => str "session_end"
  | Kind_State => str "state"
  | Kind_ProviderRaw => str "provider_raw"
  | Kind_Unknown word => word
  end.

(* phux-client-core/src/session/agent_stream.rs AgentRecordError *)
Inductive AgentRecordError : Type :=
| Record_Oversize (n : Z)
| Record_Json (message : bytes)
| Record_NotAnObject
| Record_MissingField (field : bytes).

(* phux-client-core/src/session/agent_stream.rs AgentSessionStatus *)
Inductive AgentSessionStatus : Type := Status_Unknown | Status_Idle | Status_Working | Status_Blocked | Status_Done | Status_Ended.
#[export] Instance AgentSessionStatus_eq_dec : EqDecision AgentSessionStatus.
Proof. solve_decision. Defined.
(* phux-client-core/src/session/agent_stream.rs AgentSessionStatus::parse *)
Definition AgentSessionStatus_parse (word : bytes) : AgentSessionStatus :=
  if bool_decide (word = str "idle") then Status_Idle
  else if bool_decide (word = str "working") then Status_Working
  else if bool_decide (word = str "blocked") then Status_Blocked
  else if bool_decide (word = str "done") then Status_Done
  else Status_Unknown.
(* phux-client-core/src/session/agent_stream.rs AgentSessionStatus::as_str *)
Definition AgentSessionStatus_as_str (s : AgentSessionStatus) : bytes :=
  match s with
  | Status_Unknown => str "unknown"
  | Status_Idle => str "idle"
  | Status_Working => str "working"
  | Status_Blocked => str "blocked"
  | Status_Done => str "done"
  | Status_Ended => str "ended"
  end.

(* phux-client-core/src/session/agent_stream.rs AgentSessionState *)
Record AgentSessionState : Type := mkAgentState {
  as_provider : option bytes; as_native_id : option bytes; as_status : AgentSessionStatus
}.
#[export] Instance AgentSessionState_eq_dec : EqDecision AgentSessionState.
Proof. solve_decision. Defined.
Definition AgentSessionState_default : AgentSessionState := mkAgentState None None Status_Unknown.

Section Records.
  Context {J : Json}.

(* phux-client-core/src/session/agent_stream.rs AgentEventRecord *)
Record AgentEventRecord : Type := mkAgentEvent { ae_seq : Z; ae_ts_ms : Z; ae_kind : AgentEventKind; ae_data : Value }.
(* phux-client-core/src/session/agent_stream.rs AgentEventRecord::data_str *)
Definition data_str (r : AgentEventRecord) (field : bytes) : option bytes :=
  v ← get (ae_data r) field; as_str v.

(** [bytes.split(|byte| *byte == b'\n')]: the pieces between newlines, at least one. *)
Fixpoint split_lines (bs : bytes) : list bytes :=
  match bs with
  | [] => [[]]
  | b :: bs =>
      if b =? 10 then [] :: split_lines bs
      else match split_lines bs with
           | [] => [[b]]
           | l :: ls => (b :: l) :: ls
           end
  end.
Definition is_ascii_whitespace (b : Z) : bool := (b =? 32) || (b =? 9) || (b =? 10) || (b =? 12) || (b =? 13).
Fixpoint skip_whitespace (bs : bytes) : bytes :=
  match bs with
  | [] => []
  | b :: rest => if is_ascii_whitespace b then skip_whitespace rest else bs
  end.
(* phux-client-core/src/session/agent_stream.rs trim_ascii *)
Definition trim_ascii (line : bytes) : bytes := rev (skip_whitespace (rev (skip_whitespace line))).

(* phux-client-core/src/session/agent_stream.rs parse_record *)
Definition parse_record (line : bytes) : result AgentRecordError AgentEventRecord :=
  value ← match from_slice line with Ok v => Ok v | Err e => Err (Record_Json e) end;
  if negb (is_object value) then Err Record_NotAnObject
  else
    seq ← ok_or (Record_MissingField (str "seq")) (v ← get value (str "seq"); as_u64 v);
    ts_ms ← ok_or (Record_MissingField (str "ts_ms")) (v ← get value (str "ts_ms"); as_u64 v);
    kind ← ok_or (Record_MissingField (str "type")) (v ← get value (str "type"); w ← as_str v; Some (AgentEventKind_parse w));
    data ← match get value (str "data") with
           | None => Ok empty_object
           | Some d => if is_null d then Ok empty_object else if is_object d then Ok d else Err (Record_MissingField (str "data"))
           end;
    Ok (mkAgentEvent seq ts_ms kind data).
(** The loop of [parse_records]. *)
(* phux-client-core/src/session/agent_stream.rs:133-143 parse_records *)
Fixpoint parse_lines (lines : list bytes) : result AgentRecordError (list AgentEventRecord) :=
  match lines with
  | [] => Ok []
  | line :: lines =>
      let line := trim_ascii line in
      if len line =? 0 then parse_lines lines
      else if MAX_RECORD_BYTES <? len line then Err (Record_Oversize (len line))
      else
        record ← parse_record line;
        records ← parse_lines lines;
        Ok (record :: records)
  end.
(* phux-client-core/src/session/agent_stream.rs parse_records *)
Definition parse_records (bs : bytes) : result AgentRecordError (list AgentEventRecord) := parse_lines (split_lines bs).

(* phux-client-core/src/session/agent_stream.rs AgentSessionState::fold *)
Definition fold_record (s : AgentSessionState) (r : AgentEventRecord) : AgentSessionState :=
  let with_status st := mkAgentState (as_provider s) (as_native_id s) st in
  match ae_kind r with
  | Kind_SessionStart =>
      mkAgentState (match data_str r (str "provider") with Some p => Some p | None => as_provider s end)
        (match data_str r (str "native_id") with Some n => Some n | None => as_native_id s end)
        (if bool_decide (as_status s = Status_Ended) then Status_Unknown else as_status s)
  | Kind_Prompt | Kind_ToolStart => with_status Status_Working
  | Kind_Ask => with_status Status_Blocked
  | Kind_Notification =>
      match data_str r (str "kind") with
      | Some w => if bool_decide (w = str "permission") || bool_decide (w = str "elicitation") then with_status Status_Blocked else s
      | None => s
      end
  | Kind_Stop => with_status Status_Done
  | Kind_SessionEnd => with_status Status_Ended
  | Kind_State => match data_str r (str "state") with Some w => with_status (AgentSessionStatus_parse w) | None => s end
  | Kind_ToolEnd | Kind_ProviderRaw | Kind_Unknown _ => s
  end.
(** What [fold] returns: whether the state moved. *)
Definition fold_changes (s : AgentSessionState) (r : AgentEventRecord) : bool := negb (bool_decide (fold_record s r = s)).

(** Oldest first. *)
(* phux-client-core/src/session/agent_stream.rs AgentLog *)
Record AgentLog : Type := mkAgentLog { log_records : list AgentEventRecord; log_capacity : Z }.
(* phux-client-core/src/session/agent_stream.rs AgentLog::with_capacity *)
Definition AgentLog_with_capacity (capacity : Z) : AgentLog := mkAgentLog [] (Z.max capacity 1).
(* phux-client-core/src/session/agent_stream.rs:296-300 AgentLog *)
Definition AgentLog_default : AgentLog := AgentLog_with_capacity DEFAULT_LOG_CAPACITY.
(* phux-client-core/src/session/agent_stream.rs AgentLog::push *)
Definition log_push (l : AgentLog) (r : AgentEventRecord) : AgentLog :=
  mkAgentLog ((if len (log_records l) =? log_capacity l then tail (log_records l) else log_records l) ++ [r]) (log_capacity l).
(* phux-client-core/src/session/agent_stream.rs AgentLog::clear *)
Definition log_clear (l : AgentLog) : AgentLog := mkAgentLog [] (log_capacity l).
(* phux-client-core/src/session/agent_stream.rs AgentLog::last *)
Definition log_last (l : AgentLog) : option AgentEventRecord := last (log_records l).
End Records.
