(* ===== verification/Kernel.v ===== *)
(** * The client session kernel ([phux-client-core/src/session.rs])

    The synchronous state machine every frontend drives: bootstrap transcripts staged and published
    behind the two READY fences, exactly sequenced live output, progressive history, the attach
    barrier, agent record streams, retirement and the input gate. A call answers with its result, the
    kernel it leaves and the effects it emits; an early return leaves what was already changed. The
    echo probe and the counters of [perf] are left out, and the engine's effect buffer is the list an
    adapter call returns, since the kernel clears it before every call and drains it after. *)

From stdpp Require Import gmap.
From S2P Require Import Prelude Enums Caps Codec Ids IdBridge HistoryCache Engine AgentStream.

(* phux-client-core/src/session.rs HistoryUnavailableReason *)
Inductive HistoryUnavailableReason : Type :=
| Unavailable_Stale | Unavailable_Pruned | Unavailable_Reset | Unavailable_Resize | Unavailable_Expired | Unavailable_Released
| Unavailable_Limit | Unavailable_CodecFailure.
(* phux-client-core/src/session.rs HistoryRejectionReason *)
Inductive HistoryRejectionReason : Type := Rejection_ZeroLimit | Rejection_TooSmall | Rejection_Busy.
#[export] Instance HistoryRejectionReason_eq_dec : EqDecision HistoryRejectionReason.
Proof. solve_decision. Defined.

(* phux-client-core/src/session.rs ReplicaKey *)
Record ReplicaKey : Type := mkKey { rk_terminal : ResourceId; rk_stream : Z; rk_bootstrap : Z; rk_profile : BootstrapStreamProfile }.
(** [u128::from(stream) << 64 | u128::from(bootstrap)]. *)
(* phux-client-core/src/session.rs ReplicaKey::generation_token *)
Definition generation_token (k : ReplicaKey) : Z := Z.lor (Z.shiftl (rk_stream k) 64) (rk_bootstrap k).
(** The stream and the bootstrap. *)
(* phux-client-core/src/session.rs GenerationId *)
Definition GenerationId : Type := Z * Z.
(* phux-client-core/src/session.rs generation_of *)
Definition generation_of (k : ReplicaKey) : GenerationId := (rk_stream k, rk_bootstrap k).

(* phux-client-core/src/session.rs AgentSessionDeclaration *)
Record AgentSessionDeclaration : Type := mkDeclaration {
  ad_terminal : ResourceId; ad_parent : option ResourceId; ad_provider : option bytes; ad_native_id : option bytes; ad_state : option bytes
}.
(* phux-client-core/src/session.rs KernelAction *)
Inductive KernelAction : Type := Action_Input (t : ResourceId) (event : InputEvent).
(* phux-client-core/src/session.rs KernelInput *)
Inductive KernelInput : Type :=
| In_AttachStarted (attach_id : Z) (terminals : list ResourceId)
| In_AttachReady (attach_id : Z)
| In_BootstrapBegin (t : ResourceId) (stream bootstrap : Z) (profile : BootstrapStreamProfile) (geometry : CanonicalGeometry) (base_seq : Z)
| In_BootstrapChunk (t : ResourceId) (stream bootstrap chunk_seq : Z) (payload : bytes)
| In_BootstrapReady (t : ResourceId) (stream bootstrap : Z) (history_cursor : option bytes)
| In_HistoryPage (t : ResourceId) (stream bootstrap page_seq rows : Z) (payload cursor : bytes) (next : option bytes)
| In_HistoryTombstone (t : ResourceId) (stream bootstrap : Z) (cursor : bytes) (reason : HistoryUnavailableReason)
| In_HistoryRejected (t : ResourceId) (stream bootstrap : Z) (cursor : bytes) (reason : HistoryRejectionReason) (required_bytes required_rows : Z)
| In_ResourceOutput (t : ResourceId) (stream bootstrap seq : Z) (payload : bytes)
| In_Tombstone (t : ResourceId) (stream bootstrap : Z) (reason : TombstoneReason) (last_valid_seq : Z)
| In_ResourceClosed (t : ResourceId)
| In_AgentSessionDeclared (d : AgentSessionDeclaration)
| In_Action (a : KernelAction).

(* phux-client-core/src/session.rs InputBlockReason *)
Inductive InputBlockReason : Type :=
| Block_UnknownTerminal | Block_AwaitingReplica | Block_AwaitingAttachReady | Block_FrozenReplica | Block_Closed | Block_NotATerminal.
(* phux-client-core/src/session.rs InputEligibility *)
Inductive InputEligibility : Type := Eligible (stream bootstrap : Z) | Ineligible (why : InputBlockReason).
(* phux-client-core/src/session.rs KernelSend *)
Inductive KernelSend : Type :=
| Send_Input (t : ResourceId) (event : InputEvent)
| Send_PtyWrite (t : ResourceId) (bs : bytes)
| Send_FrameAck (t : ResourceId) (stream bootstrap seq : Z)
| Send_HistoryRequest (key : ReplicaKey) (cursor : bytes) (max_bytes max_rows : Z).
(* phux-client-core/src/session.rs KernelDamageKind *)
Inductive KernelDamageKind : Type := Damage_Full | Damage_Rows (first last : Z) | Damage_Removed.
(* phux-client-core/src/session.rs KernelStatus *)
Inductive KernelStatus : Type :=
| Status_Engine (key : ReplicaKey) (status : EngineStatus)
| Status_ResyncRequired (t : ResourceId) (stream bootstrap : Z) (reason : TombstoneReason)
| Status_History (key : ReplicaKey) (status : HistoryStatus)
| Status_HistoryUnavailable (key : ReplicaKey) (reason : HistoryUnavailableReason).

(* phux-client-core/src/session.rs TombstoneRecord *)
Record TombstoneRecord : Type := mkTombstone { ts_reason : TombstoneReason; ts_last_valid_seq : Z }.

(* phux-client-core/src/session.rs KernelError *)
Inductive KernelError (E : Type) : Type :=
| Error_ProfileMismatch (selected : BootstrapProfile) (incoming : BootstrapStreamProfile)
| Error_InvalidGeometry (cols rows : Z)
| Error_AttachInProgress (active : Z)
| Error_DuplicateAttachResource (t : ResourceId)
| Error_ClosedTerminal (t : ResourceId)
| Error_AttachIdMismatch (expected : option Z) (actual : Z)
| Error_AttachNotReady (remaining : Z)
| Error_UnknownTerminal (t : ResourceId)
| Error_GenerationMismatch (t : ResourceId) (stream bootstrap : Z)
| Error_RetiredGeneration (t : ResourceId) (stream bootstrap : Z)
| Error_HistoryCompletionMismatch (progress : BootstrapProgress) (has_more : bool)
| Error_HistoryCache (e : HistoryCacheError)
| Error_DuplicateGeneration (t : ResourceId) (stream bootstrap : Z)
| Error_MissingStaging (t : ResourceId)
| Error_DuplicateChunk (expected actual : Z)
| Error_ChunkGap (expected actual : Z)
| Error_ChunkSequenceExhausted
| Error_ChunkAfterEngineReady
| Error_DuplicateProtocolReady
| Error_EngineNotReady
| Error_DuplicateSequence (expected actual : Z)
| Error_SequenceGap (expected actual : Z)
| Error_SequenceExhausted
| Error_EmptyAgentBatch
| Error_InputIneligible (t : ResourceId) (why : InputBlockReason)
| Error_Engine (e : E)
| Error_KindMismatch (t : ResourceId) (declared incoming : ResourceKind)
| Error_AgentRecord (e : AgentRecordError).
Arguments Error_ProfileMismatch {E}.
Arguments Error_InvalidGeometry {E}.
Arguments Error_AttachInProgress {E}.
Arguments Error_DuplicateAttachResource {E}.
Arguments Error_ClosedTerminal {E}.
Arguments Error_AttachIdMismatch {E}.
Arguments Error_AttachNotReady {E}.
Arguments Error_UnknownTerminal {E}.
Arguments Error_GenerationMismatch {E}.
Arguments Error_RetiredGeneration {E}.
Arguments Error_HistoryCompletionMismatch {E}.
Arguments Error_HistoryCache {E}.
Arguments Error_DuplicateGeneration {E}.
Arguments Error_MissingStaging {E}.
Arguments Error_DuplicateChunk {E}.
Arguments Error_ChunkGap {E}.
Arguments Error_ChunkSequenceExhausted {E}.
Arguments Error_ChunkAfterEngineReady {E}.
Arguments Error_DuplicateProtocolReady {E}.
Arguments Error_EngineNotReady {E}.
Arguments Error_DuplicateSequence {E}.
Arguments Error_SequenceGap {E}.
Arguments Error_SequenceExhausted {E}.
Arguments Error_EmptyAgentBatch {E}.
Arguments Error_InputIneligible {E}.
Arguments Error_Engine {E}.
Arguments Error_KindMismatch {E}.
Arguments Error_AgentRecord {E}.

(* phux-client-core/src/session.rs is_agent_profile *)
Definition is_agent_profile (p : BootstrapStreamProfile) : bool := match p with StreamProfile_AgentEventsJsonlV1 => true | _ => false end.
(* phux-client-core/src/session.rs profile_matches *)
Definition profile_matches (selected : BootstrapProfile) (incoming : BootstrapStreamProfile) : bool :=
  match selected, incoming with
  | Profile_NativeState s _, StreamProfile_NativeState i => EngineCodec_as_wire s =? EngineCodec_as_wire i
  | Profile_SynthesizedVtRaw, StreamProfile_SynthesizedVtRaw => true
  | Profile_SynthesizedVtStateSync, StreamProfile_SynthesizedVtStateSync => true
  | _, _ => false
  end.
(** [checked_add(1)] at the width of the counter. *)
Definition next_u32 (n : Z) : option Z := if n =? u32_max then None else Some (n + 1).
Definition next_u64 (n : Z) : option Z := if n =? u64_max then None else Some (n + 1).

Section Kernel.
  Context {Adapter Replica EngineError : Type} {EA : EngineAdapter Adapter Replica EngineError} {J : Json}.
  Context (payload_digest : bytes -> bytes).

(* phux-client-core/src/session.rs KernelEffect *)
Inductive KernelEffect : Type :=
| Effect_Send (s : KernelSend)
| Effect_Damage (t : ResourceId) (kind : KernelDamageKind)
| Effect_Status (s : KernelStatus)
| Effect_Job (key : ReplicaKey) (job : EngineJob)
| Effect_AgentRecords (t : ResourceId) (records : list AgentEventRecord).

(** A published generation. *)
(* phux-client-core/src/session.rs Replica *)
Record PublishedReplica : Type := mkReplica {
  rp_key : ReplicaKey; rp_geometry : CanonicalGeometry; rp_last_seq : Z; rp_next_seq : option Z; rp_engine : Replica; rp_history : HistoryCache
}.
(* phux-client-core/src/session.rs Staging *)
Record Staging : Type := mkStaging {
  sg_key : ReplicaKey; sg_geometry : CanonicalGeometry; sg_base_seq : Z; sg_next_chunk_seq : option Z; sg_engine_ready : bool;
  sg_protocol_ready : bool; sg_history_cursor : option HistoryCursor; sg_engine : Replica; sg_pending_effects : list EngineEffect
}.
(* phux-client-core/src/session.rs TerminalState *)
Record TerminalState : Type := mkTerminal {
  published : option PublishedReplica; staging : option Staging; retired : gmap GenerationId TombstoneRecord
}.
(* phux-client-core/src/session.rs:838-846 TerminalState::default *)
Definition TerminalState_default : TerminalState := mkTerminal None None ∅.
(* phux-client-core/src/session.rs AttachParticipant *)
Record AttachParticipant : Type := mkParticipant { ap_terminal : ResourceId; ap_resolved : bool; ap_pending_removal : bool }.
(* phux-client-core/src/session.rs AttachState *)
Record AttachState : Type := mkAttach { attach_id : Z; released : bool; participants : list AttachParticipant }.
(* phux-client-core/src/session.rs AgentGeneration *)
Record AgentGeneration : Type := mkAgentGeneration { ag_key : ReplicaKey; ag_last_seq : Z; ag_next_seq : option Z }.
(* phux-client-core/src/session.rs AgentStaging *)
Record AgentStaging : Type := mkAgentStaging {
  at_key : ReplicaKey; at_base_seq : Z; at_next_chunk_seq : option Z; at_records : list AgentEventRecord
}.
(* phux-client-core/src/session.rs AgentStream *)
Record AgentStream : Type := mkAgentStream {
  sm_parent : option ResourceId; sm_declared : AgentSessionState; sm_state : AgentSessionState; sm_log : AgentLog;
  sm_published : option AgentGeneration; sm_staging : option AgentStaging; sm_retired : gmap GenerationId TombstoneRecord
}.
(** The stream [or_insert_with] makes. *)
Definition AgentStream_new : AgentStream := mkAgentStream None AgentSessionState_default AgentSessionState_default AgentLog_default None None ∅.

(* phux-client-core/src/session.rs SessionKernel *)
Record SessionKernel : Type := mkKernel {
  adapter : Adapter;
  selected_profile : BootstrapProfile;
  terminals : gmap ResourceId TerminalState;
  kinds : gmap ResourceId ResourceKind;
  agents : gmap ResourceId AgentStream;
  closed : gset ResourceId;
  attach : option AttachState;
  history_config : HistoryCacheConfig
}.
Definition with_adapter k a := mkKernel a (selected_profile k) (terminals k) (kinds k) (agents k) (closed k) (attach k) (history_config k).
Definition with_terminals k ts := mkKernel (adapter k) (selected_profile k) ts (kinds k) (agents k) (closed k) (attach k) (history_config k).
Definition with_kinds k ks := mkKernel (adapter k) (selected_profile k) (terminals k) ks (agents k) (closed k) (attach k) (history_config k).
Definition with_agents k ag := mkKernel (adapter k) (selected_profile k) (terminals k) (kinds k) ag (closed k) (attach k) (history_config k).
Definition with_closed k cl := mkKernel (adapter k) (selected_profile k) (terminals k) (kinds k) (agents k) cl (attach k) (history_config k).
Definition with_attach k at' := mkKernel (adapter k) (selected_profile k) (terminals k) (kinds k) (agents k) (closed k) at' (history_config k).
Definition put_terminal k t st := with_terminals k (<[t := st]> (terminals k)).
Definition put_agent k t sm := with_agents k (<[t := sm]> (agents k)).

Abbreviation KError := (KernelError EngineError).
(** What a call does. *)
Definition Done : Type := result KError unit * SessionKernel * list KernelEffect.
Definition fail (k : SessionKernel) (e : KError) : Done := (Err e, k, []).
(** [r?] in a kernel that is [k]. *)
Definition or_return {A} (k : SessionKernel) (r : result KError A) (body : A -> Done) : Done :=
  match r with Ok a => body a | Err e => fail k e end.

(* phux-client-core/src/session.rs SessionKernel::with_history_config *)
Definition with_history_config (a : Adapter) (p : BootstrapProfile) (cfg : HistoryCacheConfig) : SessionKernel :=
  mkKernel a p ∅ ∅ ∅ ∅ None (normalized cfg).
(* phux-client-core/src/session.rs SessionKernel::new *)
Definition kernel_new (a : Adapter) (p : BootstrapProfile) : SessionKernel := with_history_config a p HistoryCacheConfig_default.

(** ** The attach barrier *)

Definition participates (at' : AttachState) (t : ResourceId) : bool := existsb (fun p => bool_decide (ap_terminal p = t)) (participants at').
(* phux-client-core/src/session.rs SessionKernel::active_attach_contains *)
Definition active_attach_contains (k : SessionKernel) (t : ResourceId) : bool :=
  negb (bool_decide (t ∈ closed k)) && match attach k with Some at' => participates at' t | None => false end.
Definition unresolved (at' : AttachState) : Z := len (List.filter (fun p => negb (ap_resolved p)) (participants at')).
(* phux-client-core/src/session.rs SessionKernel::attach_ready_pending *)
Definition attach_ready_pending (k : SessionKernel) : option Z :=
  match attach k with Some at' => if released at' then None else Some (unresolved at') | None => None end.
(* phux-client-core/src/session.rs SessionKernel::attach_blocks *)
Definition attach_blocks (k : SessionKernel) (t : ResourceId) : bool :=
  match attach k with Some at' => negb (released at') && participates at' t | None => false end.
(** [iter_mut().find(..)] and the update of what it found. *)
Fixpoint update_participant (t : ResourceId) (f : AttachParticipant -> AttachParticipant) (ps : list AttachParticipant) : list AttachParticipant :=
  match ps with
  | [] => []
  | p :: ps => if bool_decide (ap_terminal p = t) then f p :: ps else p :: update_participant t f ps
  end.
Definition mark_attach (k : SessionKernel) (t : ResourceId) (f : AttachParticipant -> AttachParticipant) : SessionKernel :=
  match attach k with
  | Some at' => with_attach k (Some (mkAttach (attach_id at') (released at') (update_participant t f (participants at'))))
  | None => k
  end.
(* phux-client-core/src/session.rs SessionKernel::mark_attach_resolved *)
Definition mark_attach_resolved (k : SessionKernel) (t : ResourceId) : SessionKernel :=
  mark_attach k t (fun p => mkParticipant (ap_terminal p) true false).
(* phux-client-core/src/session.rs SessionKernel::mark_attach_unresolved *)
Definition mark_attach_unresolved (k : SessionKernel) (t : ResourceId) (pending : bool) : SessionKernel :=
  mark_attach k t (fun p => mkParticipant (ap_terminal p) false (ap_pending_removal p || pending)).
(* phux-client-core/src/session.rs SessionKernel::mark_attach_closed *)
Definition mark_attach_closed (k : SessionKernel) (t : ResourceId) (pending : bool) : SessionKernel :=
  mark_attach k t (fun p => mkParticipant (ap_terminal p) true (ap_pending_removal p || pending)).

(* phux-client-core/src/session.rs SessionKernel::ensure_open *)
Definition ensure_open (k : SessionKernel) (t : ResourceId) : result KError unit :=
  if bool_decide (t ∈ closed k) then Err (Error_ClosedTerminal t) else Ok tt.
(* phux-client-core/src/session.rs SessionKernel::expect_kind *)
Definition expect_kind (k : SessionKernel) (t : ResourceId) (kind : ResourceKind) : result KError SessionKernel :=
  match kinds k !! t with
  | Some declared => if bool_decide (declared = kind) then Ok k else Err (Error_KindMismatch t declared kind)
  | None => Ok (with_kinds k (<[t := kind]> (kinds k)))
  end.
(* phux-client-core/src/session.rs mismatch_error *)
Definition mismatch_error (t : ResourceId) (g : GenerationId) : KError := Error_GenerationMismatch t g.1 g.2.
(* phux-client-core/src/session.rs retired_error *)
Definition retired_error (t : ResourceId) (g : GenerationId) : KError := Error_RetiredGeneration t g.1 g.2.

(** The checks of the inventory, terminal by terminal. *)
(* phux-client-core/src/session.rs:1889-1896 attach_started *)
Fixpoint check_inventory (k : SessionKernel) (seen ids : list ResourceId) : result KError unit :=
  match ids with
  | [] => Ok tt
  | t :: ids =>
      if bool_decide (t ∈ closed k) then Err (Error_ClosedTerminal t)
      else if bool_decide (t ∈ seen) then Err (Error_DuplicateAttachResource t)
      else check_inventory k (seen ++ [t]) ids
  end.
(** The kinds claimed before a mismatch stay. *)
(* phux-client-core/src/session.rs:1898-1900 attach_started *)
Fixpoint expect_terminals (k : SessionKernel) (ids : list ResourceId) : result KError unit * SessionKernel :=
  match ids with
  | [] => (Ok tt, k)
  | t :: ids =>
      match expect_kind k t ResourceKind_Terminal with
      | Err e => (Err e, k)
      | Ok k => expect_terminals k ids
      end
  end.
Definition ensure_terminal (ts : gmap ResourceId TerminalState) (t : ResourceId) : gmap ResourceId TerminalState :=
  match ts !! t with Some _ => ts | None => <[t := TerminalState_default]> ts end.
(* phux-client-core/src/session.rs SessionKernel::attach_started *)
Definition attach_started (k : SessionKernel) (aid : Z) (ids : list ResourceId) : Done :=
  let start :=
    or_return k (check_inventory k [] ids) (fun _ =>
      let '(r, k) := expect_terminals k ids in
      or_return k r (fun _ =>
        let k := with_terminals k (fold_left ensure_terminal ids (terminals k)) in
        (Ok tt, with_attach k (Some (mkAttach aid false (map (fun t => mkParticipant t false false) ids))), []))) in
  match attach k with
  | Some at' => if negb (released at') then fail k (Error_AttachInProgress (attach_id at')) else start
  | None => start
  end.
(** What the release paints: removals first recorded, then every published participant. *)
(* phux-client-core/src/session.rs:1963-1981 attach_ready *)
Definition release_effects (k : SessionKernel) (p : AttachParticipant) : list KernelEffect :=
  if ap_pending_removal p then [Effect_Damage (ap_terminal p) Damage_Removed]
  else match terminals k !! ap_terminal p with
       | Some (mkTerminal (Some _) _ _) => [Effect_Damage (ap_terminal p) Damage_Full]
       | _ => []
       end.
(* phux-client-core/src/session.rs SessionKernel::attach_ready *)
Definition attach_ready (k : SessionKernel) (aid : Z) : Done :=
  match attach k with
  | None => fail k (Error_AttachIdMismatch None aid)
  | Some at' =>
      if negb (attach_id at' =? aid) then fail k (Error_AttachIdMismatch (Some (attach_id at')) aid)
      else if negb (unresolved at' =? 0) then fail k (Error_AttachNotReady (unresolved at'))
      else if released at' then fail k (Error_AttachIdMismatch None aid)
      else (Ok tt, with_attach k (Some (mkAttach (attach_id at') true (participants at'))), flat_map (release_effects k) (participants at'))
  end.

(** ** Bootstrap *)

Definition tombstone_insert (st : TerminalState) (g : GenerationId) (r : TombstoneRecord) : gmap GenerationId TombstoneRecord :=
  match retired st !! g with Some _ => retired st | None => <[g := r]> (retired st) end.
Definition codec_failure (seq : Z) : TombstoneRecord := mkTombstone TombstoneReason_CodecFailure seq.
Definition resync (t : ResourceId) (g : GenerationId) : KernelEffect :=
  Effect_Status (Status_ResyncRequired t g.1 g.2 TombstoneReason_CodecFailure).
Definition stages (st : TerminalState) (g : GenerationId) : bool :=
  match staging st with Some s => bool_decide (generation_of (sg_key s) = g) | None => false end.
Definition publishes (st : TerminalState) (g : GenerationId) : bool :=
  match published st with Some r => bool_decide (generation_of (rp_key r) = g) | None => false end.
(** Staging is dropped and the generation retired, with a request for a fresh one. *)
Definition retire_staging (k : SessionKernel) (t : ResourceId) (st : TerminalState) (g : GenerationId) (base : Z) (e : KError) : Done :=
  (Err e, put_terminal k t (mkTerminal (published st) None (<[g := codec_failure base]> (retired st))), [resync t g]).

(* phux-client-core/src/session.rs SessionKernel::bootstrap_begin *)
Definition bootstrap_begin (k : SessionKernel) (t : ResourceId) (stream bootstrap : Z) (profile : BootstrapStreamProfile)
    (geometry : CanonicalGeometry) (base_seq : Z) : Done :=
  or_return k (ensure_open k t) (fun _ =>
    if negb (profile_matches (selected_profile k) profile) then fail k (Error_ProfileMismatch (selected_profile k) profile)
    else if (cols geometry =? 0) || (rows geometry =? 0) then fail k (Error_InvalidGeometry (cols geometry) (rows geometry))
    else
      let g := (stream, bootstrap) in
      let k := with_terminals k (ensure_terminal (terminals k) t) in
      let st := default TerminalState_default (terminals k !! t) in
      if bool_decide (is_Some (retired st !! g)) then fail k (retired_error t g)
      else if publishes st g || stages st g then fail k (Error_DuplicateGeneration t stream bootstrap)
      else
        match start_replica (adapter k) profile geometry with
        | (Err e, a) =>
            (Err (Error_Engine e), put_terminal (with_adapter k a) t (mkTerminal (published st) (staging st) (<[g := codec_failure base_seq]> (retired st))),
             [resync t g])
        | (Ok engine, a) =>
            let fresh := mkStaging (mkKey t stream bootstrap profile) geometry base_seq (Some 0) false false None engine [] in
            let ret := match staging st with
                       | Some old => <[generation_of (sg_key old) := mkTombstone TombstoneReason_ExplicitReattach (sg_base_seq old)]> (retired st)
                       | None => retired st
                       end in
            (Ok tt, put_terminal (with_adapter k a) t (mkTerminal (published st) (Some fresh) ret), [])
        end).

(** The staging of this exact generation. *)
Definition staging_of (k : SessionKernel) (t : ResourceId) (g : GenerationId) : result KError (TerminalState * Staging) :=
  match terminals k !! t with
  | None => Err (Error_UnknownTerminal t)
  | Some st =>
      if bool_decide (is_Some (retired st !! g)) then Err (retired_error t g)
      else match staging st with
           | Some s => if bool_decide (generation_of (sg_key s) = g) then Ok (st, s) else Err (mismatch_error t g)
           | None => Err (mismatch_error t g)
           end
  end.
(** A bootstrap is replay: only status and jobs wait for publication. *)
(* phux-client-core/src/session.rs SessionKernel::buffer_bootstrap_effects *)
Definition buffer_bootstrap_effects (s : Staging) (captured : list EngineEffect) : Staging :=
  mkStaging (sg_key s) (sg_geometry s) (sg_base_seq s) (sg_next_chunk_seq s) (sg_engine_ready s) (sg_protocol_ready s) (sg_history_cursor s)
    (sg_engine s)
    (sg_pending_effects s ++ List.filter (fun e => match e with EngineEffect_Send _ | EngineEffect_Damage _ => false | _ => true end) captured).
(** The chunk that is due. *)
Definition expect_chunk (next : option Z) (chunk_seq : Z) : result KError unit :=
  match next with
  | None => Err Error_ChunkSequenceExhausted
  | Some expected =>
      if chunk_seq <? expected then Err (Error_DuplicateChunk expected chunk_seq)
      else if expected <? chunk_seq then Err (Error_ChunkGap expected chunk_seq)
      else Ok tt
  end.
(* phux-client-core/src/session.rs SessionKernel::bootstrap_chunk *)
Definition bootstrap_chunk (k : SessionKernel) (t : ResourceId) (stream bootstrap chunk_seq : Z) (payload : bytes) : Done :=
  let g := (stream, bootstrap) in
  or_return k (ensure_open k t) (fun _ =>
    or_return k (staging_of k t g) (fun '(st, s) =>
      if sg_engine_ready s then fail k Error_ChunkAfterEngineReady
      else
        or_return k (expect_chunk (sg_next_chunk_seq s) chunk_seq) (fun _ =>
          let '(r, engine, captured, a) := apply_bootstrap_chunk (adapter k) (sg_engine s) payload in
          let k := with_adapter k a in
          match r with
          | Err e => retire_staging k t st g (sg_base_seq s) (Error_Engine e)
          | Ok progress =>
              let s := mkStaging (sg_key s) (sg_geometry s) (sg_base_seq s) (next_u32 chunk_seq) (sg_engine_ready s || is_ready progress)
                         (sg_protocol_ready s) (sg_history_cursor s) engine (sg_pending_effects s) in
              (Ok tt, put_terminal k t (mkTerminal (published st) (Some (buffer_bootstrap_effects s captured)) (retired st)), [])
          end))).

(** Damage waits behind the barrier; everything else passes. *)
(* phux-client-core/src/session.rs SessionKernel::translate_engine_effect *)
Definition translate_engine_effect (key : ReplicaKey) (damage_allowed : bool) (e : EngineEffect) : list KernelEffect :=
  match e with
  | EngineEffect_Send (EngineSend_PtyWrite bs) => [Effect_Send (Send_PtyWrite (rk_terminal key) bs)]
  | EngineEffect_Damage d =>
      if damage_allowed
      then [Effect_Damage (rk_terminal key) (match d with EngineDamage_Full => Damage_Full | EngineDamage_Rows f l => Damage_Rows f l end)]
      else []
  | EngineEffect_Status s => [Effect_Status (Status_Engine key s)]
  | EngineEffect_Job j => [Effect_Job key j]
  end.
(* phux-client-core/src/session.rs SessionKernel::drain_engine_effects *)
Definition drain_engine_effects (key : ReplicaKey) (damage_allowed : bool) (captured : list EngineEffect) : list KernelEffect :=
  flat_map (translate_engine_effect key damage_allowed) captured.
Definition history_request (k : SessionKernel) (key : ReplicaKey) (cursor : bytes) : KernelEffect :=
  Effect_Send (Send_HistoryRequest key cursor (request_max_bytes (history_config k)) (request_max_rows (history_config k))).

(** The history of a fresh generation, and the request it makes at once. *)
Definition replica_of (k : SessionKernel) (s : Staging) (engine : Replica) : option HistoryCursor * PublishedReplica :=
  let '(cursor, history) := begin_fetch (history_new (history_config k) (sg_history_cursor s) (cols (sg_geometry s))) in
  (cursor, mkReplica (sg_key s) (sg_geometry s) (sg_base_seq s) (next_u64 (sg_base_seq s)) engine history).
(* phux-client-core/src/session.rs SessionKernel::publish *)
Definition publish (k : SessionKernel) (t : ResourceId) : Done :=
  match terminals k !! t with
  | None => fail k (Error_UnknownTerminal t)
  | Some st =>
      match staging st with
      | None => fail k (Error_MissingStaging t)
      | Some s =>
          let '(r, engine, a) := configure_history_budget (adapter k) (sg_engine s) (max_bytes (history_config k)) (max_materialized_rows (history_config k)) in
          let k := with_adapter k a in
          match r with
          | Err e =>
              (Err (Error_Engine e),
               put_terminal k t
                 (mkTerminal (published st)
                    (Some (mkStaging (sg_key s) (sg_geometry s) (sg_base_seq s) (sg_next_chunk_seq s) (sg_engine_ready s) (sg_protocol_ready s)
                             (sg_history_cursor s) engine (sg_pending_effects s))) (retired st)), [])
          | Ok _ =>
              let '(cursor, replacement) := replica_of k s engine in
              let ret := match published st with
                         | Some old => tombstone_insert st (generation_of (rp_key old)) (mkTombstone TombstoneReason_ExplicitReattach (rp_last_seq old))
                         | None => retired st
                         end in
              let k := put_terminal k t (mkTerminal (Some replacement) None ret) in
              let k := mark_attach_resolved k t in
              let damage_allowed := negb (attach_blocks k t) in
              (Ok tt, k,
               flat_map (translate_engine_effect (sg_key s) damage_allowed) (sg_pending_effects s)
               ++ match cursor with
                  | Some cursor => [history_request k (sg_key s) cursor; Effect_Status (Status_History (sg_key s) (status (rp_history replacement)))]
                  | None => []
                  end
               ++ if damage_allowed then [Effect_Damage t Damage_Full] else [])
          end
      end
  end.
(* phux-client-core/src/session.rs SessionKernel::bootstrap_ready *)
Definition bootstrap_ready (k : SessionKernel) (t : ResourceId) (stream bootstrap : Z) (history_cursor : option bytes) : Done :=
  let g := (stream, bootstrap) in
  or_return k (ensure_open k t) (fun _ =>
    or_return k (staging_of k t g) (fun '(st, s) =>
      if sg_protocol_ready s then fail k Error_DuplicateProtocolReady
      else
        let '(r, engine, captured, a) := finish_bootstrap (adapter k) (sg_engine s) in
        let k := with_adapter k a in
        match r with
        | Err e => retire_staging k t st g (sg_base_seq s) (Error_Engine e)
        | Ok progress =>
            let s := mkStaging (sg_key s) (sg_geometry s) (sg_base_seq s) (sg_next_chunk_seq s) (sg_engine_ready s || is_ready progress) true
                       history_cursor engine (sg_pending_effects s) in
            if negb (sg_engine_ready s) then retire_staging k t st g (sg_base_seq s) Error_EngineNotReady
            else publish (put_terminal k t (mkTerminal (published st) (Some (buffer_bootstrap_effects s captured)) (retired st))) t
        end)).

(** ** Live output *)

(* phux-client-core/src/session.rs SessionKernel::published_replica *)
Definition published_replica (k : SessionKernel) (t : ResourceId) (g : GenerationId) : result KError (TerminalState * PublishedReplica) :=
  match terminals k !! t with
  | None => Err (Error_UnknownTerminal t)
  | Some st =>
      if bool_decide (is_Some (retired st !! g)) then Err (retired_error t g)
      else match published st with
           | Some r => if bool_decide (generation_of (rp_key r) = g) then Ok (st, r) else Err (mismatch_error t g)
           | None => Err (mismatch_error t g)
           end
  end.
(* phux-client-core/src/session.rs SessionKernel::expect_next_seq *)
Definition expect_next_seq (r : PublishedReplica) (seq : Z) : result KError unit :=
  match rp_next_seq r with
  | None => Err Error_SequenceExhausted
  | Some expected =>
      if seq <? expected then Err (Error_DuplicateSequence expected seq)
      else if expected <? seq then Err (Error_SequenceGap expected seq)
      else Ok tt
  end.
Definition with_engine (r : PublishedReplica) (engine : Replica) : PublishedReplica :=
  mkReplica (rp_key r) (rp_geometry r) (rp_last_seq r) (rp_next_seq r) engine (rp_history r).
Definition with_history (r : PublishedReplica) (h : HistoryCache) : PublishedReplica :=
  mkReplica (rp_key r) (rp_geometry r) (rp_last_seq r) (rp_next_seq r) (rp_engine r) h.
Definition put_published (k : SessionKernel) (t : ResourceId) (st : TerminalState) (r : PublishedReplica) : SessionKernel :=
  put_terminal k t (mkTerminal (Some r) (staging st) (retired st)).
(* phux-client-core/src/session.rs SessionKernel::report_history_status *)
Definition report_history_status (r : PublishedReplica) : list KernelEffect := [Effect_Status (Status_History (rp_key r) (status (rp_history r)))].
(* phux-client-core/src/session.rs SessionKernel::report_history_unavailable *)
Definition report_history_unavailable (r : PublishedReplica) (why : HistoryUnavailableReason) : list KernelEffect :=
  [Effect_Status (Status_HistoryUnavailable (rp_key r) why); Effect_Status (Status_History (rp_key r) (status (rp_history r)))].
(** The history ends, the engine drops its anchors; the live replica stays. *)
Definition end_history (a : Adapter) (r : PublishedReplica) (h : HistoryCache) : PublishedReplica * Adapter :=
  let '(engine, a) := clear_document_state a (rp_engine r) in (with_engine (with_history r h) engine, a).
(* phux-client-core/src/session.rs SessionKernel::tombstone_history *)
Definition tombstone_history (a : Adapter) (r : PublishedReplica) (why : HistoryUnavailableReason) : PublishedReplica * Adapter * list KernelEffect :=
  let '(r, a) := end_history a r (history_tombstoned (rp_history r)) in (r, a, report_history_unavailable r why).
(* phux-client-core/src/session.rs SessionKernel::reconcile_pinned_anchor *)
Definition reconcile_pinned_anchor (a : Adapter) (r : PublishedReplica) (anchor : DocumentAnchorId) (before : option Z)
    : PublishedReplica * Adapter * list KernelEffect :=
  match before, history_anchor_tail_distance a (rp_engine r) anchor with
  | Some before, Ok (Some after) => (with_history r (note_live_output (rp_history r) (saturating_sub after before)), a, [])
  | _, Ok _ => let '(r, a) := end_history a r (mark_pruned (rp_history r)) in (r, a, report_history_unavailable r Unavailable_Pruned)
  | _, Err _ => tombstone_history a r Unavailable_CodecFailure
  end.
(* phux-client-core/src/session.rs SessionKernel::retire_after_codec_failure *)
Definition retire_after_codec_failure (k : SessionKernel) (t : ResourceId) (g : GenerationId) (last_valid : Z) : SessionKernel * list KernelEffect :=
  let k := match terminals k !! t with
           | Some st => put_terminal k t (mkTerminal None (staging st) (<[g := codec_failure last_valid]> (retired st)))
           | None => k
           end in
  let blocked := attach_blocks k t in
  (mark_attach_unresolved k t blocked, resync t g :: if blocked then [] else [Effect_Damage t Damage_Removed]).
(** The anchor a pinned viewport watches, and where it was. *)
Definition pinned_anchor (r : PublishedReplica) : option DocumentAnchorId :=
  match viewport (rp_history r) with Viewport_Pinned a => Some a | Viewport_Tail => None end.
Definition distance_before (k : SessionKernel) (r : PublishedReplica) : result KError (option Z) :=
  match pinned_anchor r with
  | None => Ok None
  | Some anchor => match history_anchor_tail_distance (adapter k) (rp_engine r) anchor with Ok d => Ok d | Err e => Err (Error_Engine e) end
  end.
(* phux-client-core/src/session.rs SessionKernel::terminal_output *)
Definition terminal_output (k : SessionKernel) (t : ResourceId) (stream bootstrap seq : Z) (payload : bytes) : Done :=
  let g := (stream, bootstrap) in
  or_return k (ensure_open k t) (fun _ =>
    or_return k (published_replica k t g) (fun '(st, r) =>
      or_return k (expect_next_seq r seq) (fun _ =>
        or_return k (distance_before k r) (fun before =>
          let '(res, engine, captured, a) := apply_output (adapter k) (rp_engine r) payload in
          match res with
          | Err e =>
              let '(k, effects) := retire_after_codec_failure (with_adapter k a) t g (rp_last_seq r) in
              (Err (Error_Engine e), k, effects)
          | Ok _ =>
              let '(r, a, noticed) := match pinned_anchor r with
                                      | Some anchor => reconcile_pinned_anchor a (with_engine r engine) anchor before
                                      | None => (with_engine r engine, a, [])
                                      end in
              let r := mkReplica (rp_key r) (rp_geometry r) seq (next_u64 seq) (rp_engine r) (rp_history r) in
              let k := put_published (with_adapter k a) t st r in
              (Ok tt, k,
               noticed ++ drain_engine_effects (rp_key r) (negb (attach_blocks k t)) captured
               ++ match rk_profile (rp_key r) with
                  | StreamProfile_SynthesizedVtStateSync => [Effect_Send (Send_FrameAck t stream bootstrap seq)]
                  | _ => []
                  end)
          end)))).

(** ** Progressive history *)

(** One page as it arrives. *)
(* phux-client-core/src/session.rs HistoryPageInput *)
Record HistoryPageInput : Type := mkPageInput {
  hp_terminal : ResourceId; hp_generation : GenerationId; hp_page_seq : Z; hp_rows : Z; hp_payload : bytes; hp_cursor : bytes; hp_next : option bytes
}.
(* phux-client-core/src/session.rs HistoryPageRejection *)
Record HistoryPageRejection : Type := mkRejection { rj_reason : HistoryUnavailableReason; rj_error : option KError }.
(* phux-client-core/src/session.rs HistoryPageRejection::codec_failure *)
Definition codec_rejection (e : KError) : HistoryPageRejection := mkRejection Unavailable_CodecFailure (Some e).
Definition is_native (p : BootstrapStreamProfile) : bool := match p with StreamProfile_NativeState _ => true | _ => false end.
Definition is_finished (p : BootstrapProgress) : bool := match p with Progress_Finished => true | _ => false end.
(** The replica and the adapter are left as the engine left them, whatever the outcome. *)
(* phux-client-core/src/session.rs SessionKernel::import_history_page *)
Definition import_history_page (a : Adapter) (r : PublishedReplica) (page : HistoryPageInput)
    : result HistoryPageRejection unit * PublishedReplica * list EngineEffect * Adapter :=
  let '(res, engine, captured, a) := apply_history_page a (rp_engine r) (hp_payload page) in
  let r := with_engine r engine in
  match res with
  | Err e => (Err (codec_rejection (Error_Engine e)), r, captured, a)
  | Ok outcome =>
      let has_more := bool_decide (is_Some (hp_next page)) in
      if ho_retained outcome && is_native (rk_profile (rp_key r)) && Bool.eqb (is_finished (ho_progress outcome)) has_more
      then (Err (codec_rejection (Error_HistoryCompletionMismatch (ho_progress outcome) has_more)), r, captured, a)
      else if negb (ho_retained outcome) then (Err (mkRejection Unavailable_Limit None), r, captured, a)
      else
        match accept_page payload_digest (rp_history r) (hp_cursor page) (hp_page_seq page) (hp_next page) (hp_rows page) (hp_rows page) (hp_payload page) with
        | Err e => (Err (codec_rejection (Error_HistoryCache e)), r, captured, a)
        | Ok (_, h) => (Ok tt, with_history r h, captured, a)
        end
  end.
(* phux-client-core/src/session.rs SessionKernel::finish_history_page *)
Definition finish_history_page (k : SessionKernel) (t : ResourceId) (key : ReplicaKey) (st : HistoryStatus) (next : option HistoryCursor)
    (captured : list EngineEffect) : list KernelEffect :=
  drain_engine_effects key (negb (attach_blocks k t)) captured
  ++ Effect_Status (Status_History key st) :: match next with Some cursor => [history_request k key cursor] | None => [] end.
(* phux-client-core/src/session.rs SessionKernel::history_page *)
Definition history_page (k : SessionKernel) (page : HistoryPageInput) : Done :=
  let t := hp_terminal page in
  or_return k (ensure_open k t) (fun _ =>
    or_return k (published_replica k t (hp_generation page)) (fun '(st, r) =>
      if is_locally_cleared (rp_history r) then (Ok tt, k, [])
      else
        match check_page payload_digest (rp_history r) (hp_cursor page) (hp_page_seq page) (hp_next page) (hp_rows page) (hp_payload page) with
        | Ok (Page_Duplicate _) => (Ok tt, k, report_history_status r)
        | Err e =>
            let '(r, a, effects) := tombstone_history (adapter k) r Unavailable_CodecFailure in
            (Err (Error_HistoryCache e), put_published (with_adapter k a) t st r, effects)
        | Ok Page_New =>
            let '(res, r, captured, a) := import_history_page (adapter k) r page in
            match res with
            | Err rejection =>
                let '(r, a, effects) := tombstone_history a r (rj_reason rejection) in
                (match rj_error rejection with Some e => Err e | None => Ok tt end, put_published (with_adapter k a) t st r, effects)
            | Ok _ =>
                let '(next, h) := if should_auto_continue (rp_history r) then begin_fetch (rp_history r) else (None, rp_history r) in
                let r := with_history r h in
                let k := put_published (with_adapter k a) t st r in
                (Ok tt, k, finish_history_page k t (rp_key r) (status h) next captured)
            end
        end)).
(** What an invalidated cursor leaves behind. *)
Definition load_state_of (why : HistoryUnavailableReason) : HistoryLoadState :=
  match why with Unavailable_Stale => Load_Stale | Unavailable_Pruned => Load_Pruned | _ => Load_Tombstoned end.
(* phux-client-core/src/session.rs SessionKernel::history_tombstone *)
Definition history_tombstone (k : SessionKernel) (t : ResourceId) (stream bootstrap : Z) (cursor : bytes) (why : HistoryUnavailableReason) : Done :=
  or_return k (ensure_open k t) (fun _ =>
    or_return k (published_replica k t (stream, bootstrap)) (fun '(st, r) =>
      let '(hit, h) := invalidate_cursor (rp_history r) cursor (load_state_of why) in
      if negb (hit : bool) then (Ok tt, k, [])
      else
        let '(r, a) := end_history (adapter k) r h in
        (Ok tt, put_published (with_adapter k a) t st r, report_history_unavailable r why))).
(* phux-client-core/src/session.rs SessionKernel::history_rejected *)
Definition history_rejected (k : SessionKernel) (t : ResourceId) (stream bootstrap : Z) (cursor : bytes) (why : HistoryRejectionReason)
    (required_bytes required_rows : Z) : Done :=
  or_return k (ensure_open k t) (fun _ =>
    or_return k (published_replica k t (stream, bootstrap)) (fun '(st, r) =>
      let too_small := bool_decide (why = Rejection_TooSmall) in
      let limits := if too_small then retry_limits (rp_history r) required_bytes required_rows else None in
      let '(cancelled, h) := cancel_fetch (rp_history r) cursor in
      if negb (cancelled : bool) then fail k (Error_HistoryCache History_Gap)
      else
        let '(next, h) := match limits with
                          | Some (mb, mr) =>
                              let '(c, h) := begin_fetch_with_limits h mb mr in (match c with Some c => Some (c, mb, mr) | None => None end, h)
                          | None => (None, h)
                          end in
        let '(r, a, given_up) :=
          if too_small && bool_decide (next = None)
          then let '(r, a) := end_history (adapter k) r (history_tombstoned h) in
               (r, a, [Effect_Status (Status_HistoryUnavailable (rp_key r) Unavailable_Limit)])
          else (with_history r h, adapter k, []) in
        (Ok tt, put_published (with_adapter k a) t st r,
         given_up ++ report_history_status r
         ++ match next with Some (c, mb, mr) => [Effect_Send (Send_HistoryRequest (rp_key r) c mb mr)] | None => [] end))).
(* phux-client-core/src/session.rs SessionKernel::prefetch_history *)
Definition prefetch_history (k : SessionKernel) (t : ResourceId) (rows_from_oldest : Z) : bool * SessionKernel * list KernelEffect :=
  match terminals k !! t with
  | None => (false, k, [])
  | Some st =>
      match published st with
      | None => (false, k, [])
      | Some r =>
          if bool_decide (is_Some (retired st !! generation_of (rp_key r))) then (false, k, [])
          else if negb (should_prefetch (rp_history r) rows_from_oldest) then (false, k, [])
          else match begin_fetch (rp_history r) with
               | (None, _) => (false, k, [])
               | (Some cursor, h) =>
                   (true, put_published k t st (with_history r h),
                    [history_request k (rp_key r) cursor; Effect_Status (Status_History (rp_key r) (status h))])
               end
      end
  end.

(** ** Agent record streams *)

Definition agent_entry (k : SessionKernel) (t : ResourceId) : AgentStream := default AgentStream_new (agents k !! t).
Definition agent_stages (sm : AgentStream) (g : GenerationId) : bool :=
  match sm_staging sm with Some s => bool_decide (generation_of (at_key s) = g) | None => false end.
Definition agent_publishes (sm : AgentStream) (g : GenerationId) : bool :=
  match sm_published sm with Some p => bool_decide (generation_of (ag_key p) = g) | None => false end.
Definition or_keep {A} (new old : option A) : option A := match new with Some _ => new | None => old end.
(** Records outrank the facet a declaration carries. *)
(* phux-client-core/src/session.rs SessionKernel::agent_session_declared *)
Definition agent_session_declared (k : SessionKernel) (d : AgentSessionDeclaration) : Done :=
  let t := ad_terminal d in
  or_return k (ensure_open k t) (fun _ =>
    or_return k (expect_kind k t ResourceKind_AgentSession) (fun k =>
      let declared := mkAgentState (ad_provider d) (ad_native_id d)
                        (match ad_state d with Some w => AgentSessionStatus_parse w | None => Status_Unknown end) in
      let sm := agent_entry k t in
      let st := match sm_published sm with
                | None => declared
                | Some _ => mkAgentState (or_keep (as_provider (sm_state sm)) (as_provider declared))
                              (or_keep (as_native_id (sm_state sm)) (as_native_id declared)) (as_status (sm_state sm))
                end in
      (Ok tt, put_agent k t (mkAgentStream (or_keep (ad_parent d) (sm_parent sm)) declared st (sm_log sm) (sm_published sm) (sm_staging sm) (sm_retired sm)), []))).
(* phux-client-core/src/session.rs SessionKernel::agent_bootstrap_begin *)
Definition agent_bootstrap_begin (k : SessionKernel) (t : ResourceId) (stream bootstrap : Z) (profile : BootstrapStreamProfile) (base_seq : Z) : Done :=
  or_return k (ensure_open k t) (fun _ =>
    or_return k (expect_kind k t ResourceKind_AgentSession) (fun k =>
      let g := (stream, bootstrap) in
      let sm := agent_entry k t in
      let k := put_agent k t sm in
      if bool_decide (is_Some (sm_retired sm !! g)) then fail k (retired_error t g)
      else if agent_publishes sm g || agent_stages sm g then fail k (Error_DuplicateGeneration t stream bootstrap)
      else
        let ret := match sm_staging sm with
                   | Some old => <[generation_of (at_key old) := mkTombstone TombstoneReason_ExplicitReattach (at_base_seq old)]> (sm_retired sm)
                   | None => sm_retired sm
                   end in
        let fresh := mkAgentStaging (mkKey t stream bootstrap profile) base_seq (Some 0) [] in
        (Ok tt, put_agent k t (mkAgentStream (sm_parent sm) (sm_declared sm) (sm_state sm) (sm_log sm) (sm_published sm) (Some fresh) ret), []))).
(* phux-client-core/src/session.rs SessionKernel::retire_agent_generation *)
Definition retire_agent_generation (sm : AgentStream) (t : ResourceId) (g : GenerationId) (last_valid : Z) : AgentStream * list KernelEffect :=
  (mkAgentStream (sm_parent sm) (sm_declared sm) (sm_state sm) (sm_log sm)
     (if agent_publishes sm g then None else sm_published sm) (if agent_stages sm g then None else sm_staging sm)
     (<[g := codec_failure last_valid]> (sm_retired sm)), [resync t g]).
(** The open stream of this resource, unless the generation is retired. *)
Definition agent_stream_of (k : SessionKernel) (t : ResourceId) (g : GenerationId) : result KError AgentStream :=
  match agents k !! t with
  | None => Err (Error_UnknownTerminal t)
  | Some sm => if bool_decide (is_Some (sm_retired sm !! g)) then Err (retired_error t g) else Ok sm
  end.
Definition agent_staging_of (sm : AgentStream) (t : ResourceId) (g : GenerationId) : result KError AgentStaging :=
  match sm_staging sm with
  | Some s => if bool_decide (generation_of (at_key s) = g) then Ok s else Err (mismatch_error t g)
  | None => Err (mismatch_error t g)
  end.
(* phux-client-core/src/session.rs SessionKernel::agent_bootstrap_chunk *)
Definition agent_bootstrap_chunk (k : SessionKernel) (t : ResourceId) (stream bootstrap chunk_seq : Z) (payload : bytes) : Done :=
  let g := (stream, bootstrap) in
  or_return k (ensure_open k t) (fun _ =>
    or_return k (agent_stream_of k t g) (fun sm =>
      or_return k (agent_staging_of sm t g) (fun s =>
        or_return k (expect_chunk (at_next_chunk_seq s) chunk_seq) (fun _ =>
          match parse_records payload with
          | Ok records =>
              let s := mkAgentStaging (at_key s) (at_base_seq s) (next_u32 chunk_seq) (at_records s ++ records) in
              (Ok tt, put_agent k t (mkAgentStream (sm_parent sm) (sm_declared sm) (sm_state sm) (sm_log sm) (sm_published sm) (Some s) (sm_retired sm)), [])
          | Err e =>
              let '(sm, effects) := retire_agent_generation sm t g (at_base_seq s) in
              (Err (Error_AgentRecord e), put_agent k t sm, effects)
          end)))).
(** Records enter the state and the log, in order. *)
Definition absorb (records : list AgentEventRecord) (st : AgentSessionState) (log : AgentLog) : AgentSessionState * AgentLog :=
  (fold_left fold_record records st, fold_left log_push records log).
(* phux-client-core/src/session.rs SessionKernel::agent_bootstrap_ready *)
Definition agent_bootstrap_ready (k : SessionKernel) (t : ResourceId) (stream bootstrap : Z) : Done :=
  let g := (stream, bootstrap) in
  or_return k (ensure_open k t) (fun _ =>
    or_return k (agent_stream_of k t g) (fun sm =>
      or_return k (agent_staging_of sm t g) (fun s =>
        let '(st, log) := absorb (at_records s) (sm_declared sm) (log_clear (sm_log sm)) in
        let ret := match sm_published sm with
                   | Some old =>
                       match sm_retired sm !! generation_of (ag_key old) with
                       | Some _ => sm_retired sm
                       | None => <[generation_of (ag_key old) := mkTombstone TombstoneReason_ExplicitReattach (ag_last_seq old)]> (sm_retired sm)
                       end
                   | None => sm_retired sm
                   end in
        let p := mkAgentGeneration (at_key s) (at_base_seq s) (next_u64 (at_base_seq s)) in
        let k := put_agent k t (mkAgentStream (sm_parent sm) (sm_declared sm) st log (Some p) None ret) in
        (Ok tt, mark_attach_resolved k t, [Effect_AgentRecords t (at_records s)])))).
(* phux-client-core/src/session.rs SessionKernel::require_agent_sequence *)
Definition require_agent_sequence (expected actual : Z) : result KError unit :=
  if actual <? expected then Err (Error_DuplicateSequence expected actual)
  else if expected <? actual then Err (Error_SequenceGap expected actual)
  else Ok tt.
(** The last record carries the sequence of the envelope. *)
(* phux-client-core/src/session.rs SessionKernel::validate_agent_batch *)
Fixpoint validate_agent_batch (records : list AgentEventRecord) (expected envelope : Z) : result KError unit :=
  match records with
  | [] => Err Error_EmptyAgentBatch
  | [last] => _ ← require_agent_sequence expected (ae_seq last); require_agent_sequence (ae_seq last) envelope
  | r :: rest =>
      _ ← require_agent_sequence expected (ae_seq r);
      expected ← ok_or Error_SequenceExhausted (next_u64 expected);
      validate_agent_batch rest expected envelope
  end.
(* phux-client-core/src/session.rs SessionKernel::agent_output *)
Definition agent_output (k : SessionKernel) (t : ResourceId) (stream bootstrap seq : Z) (payload : bytes) : Done :=
  let g := (stream, bootstrap) in
  or_return k (ensure_open k t) (fun _ =>
    or_return k (agent_stream_of k t g) (fun sm =>
      or_return k (match sm_published sm with
                   | Some p => if bool_decide (generation_of (ag_key p) = g) then Ok p else Err (mismatch_error t g)
                   | None => Err (mismatch_error t g)
                   end) (fun p =>
        or_return k (ok_or Error_SequenceExhausted (ag_next_seq p)) (fun expected =>
          if seq <? expected then fail k (Error_DuplicateSequence expected seq)
          else
            match parse_records payload with
            | Err e =>
                let '(sm, effects) := retire_agent_generation sm t g (ag_last_seq p) in
                (Err (Error_AgentRecord e), put_agent k t sm, effects)
            | Ok records =>
                or_return k (validate_agent_batch records expected seq) (fun _ =>
                  let '(st, log) := absorb records (sm_state sm) (sm_log sm) in
                  let p := mkAgentGeneration (ag_key p) seq (next_u64 seq) in
                  (Ok tt, put_agent k t (mkAgentStream (sm_parent sm) (sm_declared sm) st log (Some p) (sm_staging sm) (sm_retired sm)),
                   [Effect_AgentRecords t records]))
            end)))).

(** ** Retirement, closing, input *)

(* phux-client-core/src/session.rs SessionKernel::tombstone_generation *)
Definition tombstone_generation (k : SessionKernel) (t : ResourceId) (stream bootstrap : Z) (record : TombstoneRecord) : SessionKernel :=
  let g := (stream, bootstrap) in
  match agents k !! t with
  | Some sm =>
      put_agent k t
        (mkAgentStream (sm_parent sm) (sm_declared sm) (sm_state sm) (sm_log sm) (sm_published sm) (if agent_stages sm g then None else sm_staging sm)
           (match sm_retired sm !! g with Some _ => sm_retired sm | None => <[g := record]> (sm_retired sm) end))
  | None =>
      let st := default TerminalState_default (terminals k !! t) in
      let k := put_terminal k t (mkTerminal (published st) (if stages st g then None else staging st) (tombstone_insert st g record)) in
      if publishes st g then mark_attach_unresolved k t false else k
  end.
(* phux-client-core/src/session.rs SessionKernel::terminal_closed *)
Definition terminal_closed (k : SessionKernel) (t : ResourceId) : SessionKernel * list KernelEffect :=
  let k := with_agents k (delete t (agents k)) in
  let blocked := attach_blocks k t in
  let had := match terminals k !! t with Some (mkTerminal (Some _) _ _) => true | _ => false end in
  let k := with_closed (with_terminals k (delete t (terminals k))) ({[t]} ∪ closed k) in
  (mark_attach_closed k t (had && blocked), if had && negb blocked then [Effect_Damage t Damage_Removed] else []).

(* phux-client-core/src/session.rs SessionKernel::input_eligibility *)
Definition input_eligibility (k : SessionKernel) (t : ResourceId) : InputEligibility :=
  if bool_decide (t ∈ closed k) then Ineligible Block_Closed
  else if match kinds k !! t with Some kind => negb (bool_decide (kind = ResourceKind_Terminal)) | None => false end
  then Ineligible Block_NotATerminal
  else
    match terminals k !! t with
    | None => Ineligible Block_UnknownTerminal
    | Some st =>
        match published st with
        | None => Ineligible Block_AwaitingReplica
        | Some r =>
            if bool_decide (is_Some (retired st !! generation_of (rp_key r))) then Ineligible Block_FrozenReplica
            else if attach_blocks k t then Ineligible Block_AwaitingAttachReady
            else Eligible (rk_stream (rp_key r)) (rk_bootstrap (rp_key r))
        end
    end.
(* phux-client-core/src/session.rs SessionKernel::action *)
Definition action (k : SessionKernel) (a : KernelAction) : Done :=
  match a with
  | Action_Input t event =>
      match input_eligibility k t with
      | Ineligible why => fail k (Error_InputIneligible t why)
      | Eligible _ _ => (Ok tt, k, [Effect_Send (Send_Input t event)])
      end
  end.

(* phux-client-core/src/session.rs SessionKernel::update *)
Definition update (k : SessionKernel) (input : KernelInput) : Done :=
  match input with
  | In_AttachStarted aid ids => attach_started k aid ids
  | In_AttachReady aid => attach_ready k aid
  | In_BootstrapBegin t stream bootstrap profile geometry base_seq =>
      if is_agent_profile profile then agent_bootstrap_begin k t stream bootstrap profile base_seq
      else or_return k (expect_kind k t ResourceKind_Terminal) (fun k => bootstrap_begin k t stream bootstrap profile geometry base_seq)
  | In_BootstrapChunk t stream bootstrap chunk_seq payload =>
      if bool_decide (is_Some (agents k !! t)) then agent_bootstrap_chunk k t stream bootstrap chunk_seq payload
      else bootstrap_chunk k t stream bootstrap chunk_seq payload
  | In_BootstrapReady t stream bootstrap cursor =>
      if bool_decide (is_Some (agents k !! t)) then agent_bootstrap_ready k t stream bootstrap
      else bootstrap_ready k t stream bootstrap cursor
  | In_HistoryPage t stream bootstrap page_seq rows payload cursor next =>
      history_page k (mkPageInput t (stream, bootstrap) page_seq rows payload cursor next)
  | In_HistoryTombstone t stream bootstrap cursor why => history_tombstone k t stream bootstrap cursor why
  | In_HistoryRejected t stream bootstrap cursor why rb rr => history_rejected k t stream bootstrap cursor why rb rr
  | In_ResourceOutput t stream bootstrap seq payload =>
      if bool_decide (is_Some (agents k !! t)) then agent_output k t stream bootstrap seq payload
      else terminal_output k t stream bootstrap seq payload
  | In_Tombstone t stream bootstrap reason last_valid =>
      (Ok tt, tombstone_generation k t stream bootstrap (mkTombstone reason last_valid), [])
  | In_ResourceClosed t => let '(k, effects) := terminal_closed k t in (Ok tt, k, effects)
  | In_AgentSessionDeclared d => agent_session_declared k d
  | In_Action a => action k a
  end.

(* phux-client-core/src/session.rs SessionKernel::release_active_attach *)
Definition release_active_attach (k : SessionKernel) : SessionKernel := with_attach k None.
(* phux-client-core/src/session.rs SessionKernel::release_terminal *)
Definition release_terminal (k : SessionKernel) (t : ResourceId) : bool * SessionKernel :=
  if match attach k with Some at' => participates at' t | None => false end then (false, k)
  else
    (true, mkKernel (adapter k) (selected_profile k) (delete t (terminals k)) (delete t (kinds k)) (delete t (agents k)) (closed k ∖ {[t]})
             (attach k) (history_config k)).
(* phux-client-core/src/session.rs SessionKernel::detach_terminal *)
Definition detach_terminal (k : SessionKernel) (t : ResourceId) : bool * SessionKernel :=
  match attach k with
  | Some at' =>
      if negb (released at') then (false, k)
      else release_terminal
             (with_attach k (Some (mkAttach (attach_id at') (released at')
                                     (List.filter (fun p => negb (bool_decide (ap_terminal p = t))) (participants at'))))) t
  | None => release_terminal k t
  end.
(* phux-client-core/src/session.rs SessionKernel::tombstone *)
Definition tombstone_of (k : SessionKernel) (t : ResourceId) (g : GenerationId) : option TombstoneRecord :=
  st ← terminals k !! t; retired st !! g.
(* phux-client-core/src/session.rs SessionKernel::published_engine *)
Definition published_engine (k : SessionKernel) (t : ResourceId) : option Replica :=
  st ← terminals k !! t; r ← published st; Some (rp_engine r).
(* phux-client-core/src/session.rs SessionKernel::history_cache *)
Definition history_cache (k : SessionKernel) (t : ResourceId) : option HistoryCache :=
  st ← terminals k !! t; r ← published st; Some (rp_history r).

(** ** The document of a published replica *)

(** [terminals.get(..).published.as_ref().ok_or(UnknownTerminal)]. *)
Definition document_of (k : SessionKernel) (t : ResourceId) : result KError (TerminalState * PublishedReplica) :=
  match terminals k !! t with
  | Some st => match published st with Some r => Ok (st, r) | None => Err (Error_UnknownTerminal t) end
  | None => Err (Error_UnknownTerminal t)
  end.
Definition engine_err {A} (r : result EngineError A) : result KError A := match r with Ok a => Ok a | Err e => Err (Error_Engine e) end.
Definition history_err {A} (r : result HistoryCacheError A) : result KError A := match r with Ok a => Ok a | Err e => Err (Error_HistoryCache e) end.
(** An answer and the kernel it leaves. *)
Definition Answer (A : Type) : Type := result KError A * SessionKernel.
Definition answering {A B} (k : SessionKernel) (r : result KError A) (body : A -> Answer B) : Answer B :=
  match r with Ok a => body a | Err e => (Err e, k) end.

(* phux-client-core/src/session.rs SessionKernel::clear_presentation *)
Definition clear_presentation `{!EnginePresentationAdapter Adapter Replica EngineError} (k : SessionKernel) (t : ResourceId) : Answer unit :=
  answering k (ensure_open k t) (fun _ =>
    answering k (document_of k t) (fun '(st, r) =>
      let '(res, engine, a) := adapter_clear_presentation (adapter k) (rp_engine r) in
      let k := with_adapter k a in
      match res with
      | Err e => (Err (Error_Engine e), put_published k t st (with_engine r engine))
      | Ok _ => (Ok tt, put_published k t st (with_history (with_engine r engine) (history_clear_presentation (rp_history r))))
      end)).

Section Document.
  Context {DA : EngineDocumentAdapter Adapter Replica EngineError}.

(* phux-client-core/src/session.rs SessionKernel::project_history *)
Definition project_history (k : SessionKernel) (t : ResourceId) (width max_rows : Z) : Answer EngineHistoryProjection :=
  answering k (document_of k t) (fun '(st, r) =>
    let r := with_history r (reproject (rp_history r) width) in
    let width := projection_width (rp_history r) in
    let resolved : result KError (PublishedReplica * Adapter * EngineProjectionOrigin) :=
      match viewport (rp_history r) with
      | Viewport_Tail => Ok (r, adapter k, Origin_Tail)
      | Viewport_Pinned anchor =>
          match adapter_document_anchor_point (adapter k) (rp_engine r) anchor Space_History with
          | Err e => Err (Error_Engine e)
          | Ok (Some _) => Ok (r, adapter k, Origin_Anchor anchor)
          | Ok None => let '(r, a) := end_history (adapter k) r (mark_pruned (rp_history r)) in Ok (r, a, Origin_Tail)
          end
      end in
    match resolved with
    | Err e => (Err e, put_published k t st r)
    | Ok (r, a, origin) =>
        let '(res, engine, a) := adapter_project_history a (rp_engine r) width origin max_rows in
        let k := put_published (with_adapter k a) t st (with_engine r engine) in
        (match res with
         | Err e => Err (Error_Engine e)
         | Ok p => Ok (mkProjection (pj_width p) (pj_rows p) (pj_has_older p || has_continuation (rp_history r)))
         end, k)
    end).
(* phux-client-core/src/session.rs SessionKernel::track_document_anchor *)
Definition track_document_anchor (k : SessionKernel) (t : ResourceId) (point : DocumentPoint) : Answer DocumentAnchorId :=
  answering k (document_of k t) (fun '(st, r) =>
    answering k (history_err (ensure_anchor_capacity (rp_history r) 1)) (fun _ =>
      let '(res, engine, a) := adapter_track_document_anchor (adapter k) (rp_engine r) point in
      let r := with_engine r engine in
      let k := put_published (with_adapter k a) t st r in
      answering k (engine_err res) (fun anchor =>
        answering k (history_err (register_anchor_pages (rp_history r) anchor ∅)) (fun h =>
          (Ok anchor, put_published k t st (with_history r h)))))).
(* phux-client-core/src/session.rs SessionKernel::document_anchor_point *)
Definition document_anchor_point (k : SessionKernel) (t : ResourceId) (anchor : DocumentAnchorId) (space : DocumentSpace)
    : result KError (option DocumentPoint) :=
  '(_, r) ← document_of k t;
  engine_err (adapter_document_anchor_point (adapter k) (rp_engine r) anchor space).
(* phux-client-core/src/session.rs SessionKernel::pin_history_viewport *)
Definition pin_history_viewport (k : SessionKernel) (t : ResourceId) (anchor : DocumentAnchorId) : Answer unit :=
  answering k (document_of k t) (fun '(st, r) =>
    answering k (engine_err (adapter_document_anchor_point (adapter k) (rp_engine r) anchor Space_History)) (fun point =>
      match point with
      | None => (Err (Error_HistoryCache History_AnchorUnavailable), k)
      | Some _ => answering k (history_err (pin_viewport (rp_history r) anchor)) (fun h => (Ok tt, put_published k t st (with_history r h)))
      end)).
(* phux-client-core/src/session.rs SessionKernel::follow_history_tail *)
Definition follow_history_tail (k : SessionKernel) (t : ResourceId) : Answer unit :=
  answering k (document_of k t) (fun '(st, r) => (Ok tt, put_published k t st (with_history r (follow_tail (rp_history r))))).
Definition release_anchor_in (a : Adapter) (r : PublishedReplica) (anchor : DocumentAnchorId) : PublishedReplica * Adapter :=
  let '(engine, a) := adapter_release_document_anchor a (rp_engine r) anchor in (with_engine r engine, a).
(* phux-client-core/src/session.rs SessionKernel::release_document_anchor *)
Definition release_document_anchor (k : SessionKernel) (t : ResourceId) (anchor : DocumentAnchorId) : Answer unit :=
  answering k (document_of k t) (fun '(st, r) =>
    let '(r, a) := release_anchor_in (adapter k) r anchor in
    (Ok tt, put_published (with_adapter k a) t st (with_history r (remove_anchor (rp_history r) anchor)))).
(** [try_for_each]: the registrations before the refused one stay until the roll-back. *)
Fixpoint register_matches (h : HistoryCache) (ms : list EngineSearchMatch) : result HistoryCacheError unit * HistoryCache :=
  match ms with
  | [] => (Ok tt, h)
  | m :: ms =>
      match register_anchor_pages h (found_start m) ∅ with
      | Err e => (Err e, h)
      | Ok h =>
          match register_anchor_pages h (found_end m) ∅ with
          | Err e => (Err e, h)
          | Ok h => register_matches h ms
          end
      end
  end.
Definition release_match (s : PublishedReplica * Adapter) (m : EngineSearchMatch) : PublishedReplica * Adapter :=
  let '(r, a) := s in
  let '(r, a) := release_anchor_in a r (found_start m) in
  let '(r, a) := release_anchor_in a r (found_end m) in
  (with_history r (remove_anchor (remove_anchor (rp_history r) (found_start m)) (found_end m)), a).
(* phux-client-core/src/session.rs SessionKernel::search_loaded_history *)
Definition search_loaded_history (k : SessionKernel) (t : ResourceId) (needle : bytes) (max_matches : Z) : Answer (list EngineSearchMatch) :=
  answering k (document_of k t) (fun '(st, r) =>
    let max_matches := Z.min max_matches (remaining_anchor_capacity (rp_history r) / 2) in
    if max_matches =? 0 then (Ok [], k)
    else
      let '(res, engine, a) := adapter_search_loaded (adapter k) (rp_engine r) needle max_matches in
      let r := with_engine r engine in
      match res with
      | Err e => (Err (Error_Engine e), put_published (with_adapter k a) t st r)
      | Ok matches =>
          let '(reg, h) := register_matches (rp_history r) matches in
          let r := with_history r h in
          match reg with
          | Ok _ => (Ok matches, put_published (with_adapter k a) t st r)
          | Err e =>
              let '(r, a) := fold_left release_match matches (r, a) in
              (Err (Error_HistoryCache e), put_published (with_adapter k a) t st r)
          end
      end).
(* phux-client-core/src/session.rs SessionKernel::format_document_selection *)
Definition format_document_selection (k : SessionKernel) (t : ResourceId) (sel : EngineDocumentSelection) : result KError (option bytes) :=
  '(_, r) ← document_of k t;
  engine_err (adapter_format_selection (adapter k) (rp_engine r) sel).
End Document.
End Kernel.
