(* ===== verification/KernelSteps.v ===== *)
(** * What a kernel call does to a terminal

    Every operation of [Kernel] as a step of each terminal's slot: a relation with one constructor
    per thing that can happen to a replica, and the theorem that the operations do nothing else.
    What holds of every kernel is then proved by cases on that relation. *)

From stdpp Require Import gmap.
From S2P Require Import Prelude Enums Caps Codec Ids IdBridge HistoryCache HistoryBounds Engine AgentStream Kernel.

(** What an input says of one terminal. *)
Inductive TermEvent : Type :=
| Ev_begin (key : ReplicaKey) (geometry : CanonicalGeometry) (base : Z)
| Ev_chunk (g : GenerationId) (seq : Z) (payload : bytes)
| Ev_ready (g : GenerationId)
| Ev_output (g : GenerationId) (seq : Z) (payload : bytes)
| Ev_retire (g : GenerationId)
| Ev_local
| Ev_gone
| Ev_none.

Section Steps.
  Context {Adapter Replica EngineError : Type} {EA : EngineAdapter Adapter Replica EngineError} {J : Json}.
  Context {PA : EnginePresentationAdapter Adapter Replica EngineError} {DA : EngineDocumentAdapter Adapter Replica EngineError}.
  Context (payload_digest : bytes -> bytes).
  Abbreviation Kernel := (@SessionKernel Adapter Replica J).
  Abbreviation Terminal := (@TerminalState Replica).
  Abbreviation Published := (@PublishedReplica Replica).

  Implicit Types (k : Kernel).

(** ** The relation *)

(** Calls that move neither the transcript nor the live sequence. *)
Inductive Local : Replica -> Replica -> Prop :=
| Local_refl r : Local r r
| Local_clear a r r' a' r'' : clear_document_state a r = (r', a') -> Local r' r'' -> Local r r''
| Local_page a r p res r' captured a' r'' : apply_history_page a r p = (res, r', captured, a') -> Local r' r'' -> Local r r''
| Local_presentation a r res r' a' r'' : adapter_clear_presentation a r = (res, r', a') -> Local r' r'' -> Local r r''
| Local_project a r w o m res r' a' r'' : adapter_project_history a r w o m = (res, r', a') -> Local r' r'' -> Local r r''
| Local_track a r p res r' a' r'' : adapter_track_document_anchor a r p = (res, r', a') -> Local r' r'' -> Local r r''
| Local_release a r anchor r' a' r'' : adapter_release_document_anchor a r anchor = (r', a') -> Local r' r'' -> Local r r''
| Local_search a r needle m res r' a' r'' : adapter_search_loaded a r needle m = (res, r', a') -> Local r' r'' -> Local r r''.
(** The history stays sound, under the same configuration. *)
Definition history_keeps (h h' : HistoryCache) : Prop := HistoryOk h -> HistoryOk h' /\ config h' = config h.
(** Nothing but the engine's document and the history moved. *)
Definition local_move (r r' : Published) : Prop :=
  rp_key r' = rp_key r /\ rp_geometry r' = rp_geometry r /\ rp_last_seq r' = rp_last_seq r /\ rp_next_seq r' = rp_next_seq r
  /\ Local (rp_engine r) (rp_engine r') /\ history_keeps (rp_history r) (rp_history r').
Definition fresh_for (st : Terminal) (g : GenerationId) : Prop :=
  retired st !! g = None /\ publishes st g = false /\ stages st g = false.
Definition staging_of_gen (st : Terminal) (s : Staging) : Prop :=
  staging st = Some s /\ retired st !! generation_of (sg_key s) = None.
Definition published_of_gen (st : Terminal) (r : Published) : Prop :=
  published st = Some r /\ retired st !! generation_of (rp_key r) = None.

Inductive TermStep (cfg : HistoryCacheConfig) (t : ResourceId) : TermEvent -> Terminal -> Terminal -> Prop :=
| Step_staged key geometry base a engine a' st :
    rk_terminal key = t -> fresh_for st (generation_of key) -> start_replica a (rk_profile key) geometry = (Ok engine, a') ->
    TermStep cfg t (Ev_begin key geometry base) st
      (mkTerminal (published st) (Some (mkStaging key geometry base (Some 0) false false None engine []))
         (match staging st with
          | Some old => <[generation_of (sg_key old) := mkTombstone TombstoneReason_ExplicitReattach (sg_base_seq old)]> (retired st)
          | None => retired st
          end))
| Step_not_started key geometry base st :
    fresh_for st (generation_of key) ->
    TermStep cfg t (Ev_begin key geometry base) st (mkTerminal (published st) (staging st) (<[generation_of key := codec_failure base]> (retired st)))
| Step_chunk s seq payload a progress engine captured a' st :
    staging_of_gen st s -> sg_engine_ready s = false -> sg_next_chunk_seq s = Some seq ->
    apply_bootstrap_chunk a (sg_engine s) payload = (Ok progress, engine, captured, a') ->
    TermStep cfg t (Ev_chunk (generation_of (sg_key s)) seq payload) st
      (mkTerminal (published st)
         (Some (buffer_bootstrap_effects
                  (mkStaging (sg_key s) (sg_geometry s) (sg_base_seq s) (next_u32 seq) (sg_engine_ready s || is_ready progress)
                     (sg_protocol_ready s) (sg_history_cursor s) engine (sg_pending_effects s)) captured)) (retired st))
| Step_staging_lost s ev st :
    staging_of_gen st s -> (exists seq payload, ev = Ev_chunk (generation_of (sg_key s)) seq payload) \/ ev = Ev_ready (generation_of (sg_key s)) ->
    TermStep cfg t ev st (mkTerminal (published st) None (<[generation_of (sg_key s) := codec_failure (sg_base_seq s)]> (retired st)))
| Step_unbudgeted s s' st :
    staging_of_gen st s -> sg_protocol_ready s = false -> sg_key s' = sg_key s -> sg_geometry s' = sg_geometry s -> sg_base_seq s' = sg_base_seq s -> sg_protocol_ready s' = true -> sg_engine_ready s' = true ->
    TermStep cfg t (Ev_ready (generation_of (sg_key s))) st (mkTerminal (published st) (Some s') (retired st))
| Step_published s a progress engine captured a1 engine' a2 st r :
    staging_of_gen st s -> sg_protocol_ready s = false ->
    finish_bootstrap a (sg_engine s) = (Ok progress, engine, captured, a1) ->
    configure_history_budget a1 engine (max_bytes cfg) (max_materialized_rows cfg) = (Ok tt, engine', a2) ->
    rp_key r = sg_key s -> rp_geometry r = sg_geometry s -> rp_last_seq r = sg_base_seq s -> rp_next_seq r = next_u64 (sg_base_seq s) ->
    rp_engine r = engine' ->
    (exists newest, rp_history r = (begin_fetch (history_new cfg newest (cols (sg_geometry s)))).2) ->
    TermStep cfg t (Ev_ready (generation_of (sg_key s))) st
      (mkTerminal (Some r) None
         (match published st with
          | Some old => tombstone_insert st (generation_of (rp_key old)) (mkTombstone TombstoneReason_ExplicitReattach (rp_last_seq old))
          | None => retired st
          end))
| Step_output r seq payload a engine captured a' r' st :
    published_of_gen st r -> rp_next_seq r = Some seq -> apply_output a (rp_engine r) payload = (Ok tt, engine, captured, a') ->
    rp_key r' = rp_key r -> rp_geometry r' = rp_geometry r -> rp_last_seq r' = seq -> rp_next_seq r' = next_u64 seq ->
    Local engine (rp_engine r') -> history_keeps (rp_history r) (rp_history r') ->
    TermStep cfg t (Ev_output (generation_of (rp_key r)) seq payload) st (mkTerminal (Some r') (staging st) (retired st))
| Step_output_lost r seq payload st :
    published_of_gen st r ->
    TermStep cfg t (Ev_output (generation_of (rp_key r)) seq payload) st
      (mkTerminal None (staging st) (<[generation_of (rp_key r) := codec_failure (rp_last_seq r)]> (retired st)))
| Step_local r r' st :
    published st = Some r -> local_move r r' -> TermStep cfg t Ev_local st (mkTerminal (Some r') (staging st) (retired st))
| Step_retired g record st :
    TermStep cfg t (Ev_retire g) st (mkTerminal (published st) (if stages st g then None else staging st) (tombstone_insert st g record)).

(** What happens to a terminal's place in the map. *)
Inductive SlotStep (cfg : HistoryCacheConfig) (t : ResourceId) (ev : TermEvent) : option Terminal -> option Terminal -> Prop :=
| Slot_same o : SlotStep cfg t ev o o
| Slot_new : SlotStep cfg t ev None (Some TerminalState_default)
| Slot_step o st : TermStep cfg t ev (default TerminalState_default o) st -> SlotStep cfg t ev o (Some st)
| Slot_gone o : ev = Ev_gone -> SlotStep cfg t ev o None.

(** ** Small moves *)

Lemma Local_trans r r' r'' : Local r r' -> Local r' r'' -> Local r r''.
Proof. induction 1; eauto using Local. Qed.
Lemma slot_keeps_refl h : history_keeps h h.
Proof. by intros ?. Qed.
Lemma slot_keeps_trans h h' h'' : history_keeps h h' -> history_keeps h' h'' -> history_keeps h h''.
Proof. intros H1 H2 H. destruct (H1 H) as [? E1]. destruct (H2 ltac:(done)) as [? E2]. split; [done|congruence]. Qed.
Lemma keeps_step h o : op_ok o -> history_keeps h (history_step payload_digest h o).
Proof. intros Ho H. split; [by apply history_step_ok|by apply history_step_config]. Qed.
Lemma keeps_fetch h : history_keeps h (begin_fetch h).2.
Proof. by apply (keeps_step h Do_fetch). Qed.
Lemma keeps_invalidate h st : st <> Load_Loading -> st <> Load_Idle -> history_keeps h (invalidate h st).
Proof. intros. by apply (keeps_step h (Do_invalidate st)). Qed.
Lemma keeps_remove h a : history_keeps h (remove_anchor h a).
Proof. exact (keeps_step h (Do_remove a) I). Qed.
Lemma local_move_refl r : local_move r r.
Proof. do 4 (split; [done|]). split; [apply Local_refl|apply slot_keeps_refl]. Qed.
Lemma local_move_trans r r' r'' : local_move r r' -> local_move r' r'' -> local_move r r''.
Proof.
  intros (?&?&?&?&?&?) (?&?&?&?&?&?). do 4 (split; [congruence|]). split; [by eapply Local_trans|by eapply slot_keeps_trans].
Qed.
Lemma local_engine r e : Local (rp_engine r) e -> local_move r (with_engine r e).
Proof. intros. do 4 (split; [done|]). split; [done|apply slot_keeps_refl]. Qed.
Lemma local_history r h : history_keeps (rp_history r) h -> local_move r (with_history r h).
Proof. intros. split; [done|]. do 3 (split; [done|]). split; [apply Local_refl|done]. Qed.
Lemma end_history_local a r h r' a' : history_keeps (rp_history r) h -> end_history a r h = (r', a') -> local_move r r'.
Proof.
  unfold end_history. destruct (clear_document_state a (rp_engine r)) as [e a1] eqn:E. intros Hk [= <- <-].
  eapply local_move_trans; [by apply local_history|]. apply local_engine. eapply Local_clear; [exact E|apply Local_refl].
Qed.
Lemma tombstone_history_local a r why r' a' es : tombstone_history a r why = (r', a', es) -> local_move r r'.
Proof.
  unfold tombstone_history. destruct (end_history _ _ _) as [r1 a1] eqn:E. intros [= <- <- _].
  eapply end_history_local; [|exact E]. by apply keeps_invalidate.
Qed.
Lemma reconcile_local a r anchor before r' a' es : reconcile_pinned_anchor a r anchor before = (r', a', es) -> local_move r r'.
Proof.
  unfold reconcile_pinned_anchor. destruct before as [b|], (history_anchor_tail_distance _ _ _) as [[d|]|e];
    try (destruct (end_history _ _ _) as [r1 a1] eqn:E; intros [= <- <- _]; eapply end_history_local; [|exact E]; by apply keeps_invalidate);
    try apply tombstone_history_local.
  intros [= <- <- _]. apply local_history. apply (keeps_step _ (Do_live (saturating_sub d b))). simpl. unfold saturating_sub.
  destruct (Z.leb_spec b d); lia.
Qed.

(** ** A call moves one terminal *)

Record Moves (t : ResourceId) (ev : TermEvent) (k k' : Kernel) : Prop := mkMoves {
  mv_config : history_config k' = history_config k;
  mv_other : forall t', t' <> t -> terminals k' !! t' = terminals k !! t';
  mv_slot : SlotStep (history_config k) t ev (terminals k !! t) (terminals k' !! t)
}.
Lemma moves_same t ev k k' : history_config k' = history_config k -> terminals k' = terminals k -> Moves t ev k k'.
Proof. intros Hc Ht. constructor; rewrite ?Ht; try done. apply Slot_same. Qed.
Lemma moves_put t ev k k' st :
  history_config k' = history_config k -> terminals k' = <[t := st]> (terminals k) ->
  TermStep (history_config k) t ev (default TerminalState_default (terminals k !! t)) st -> Moves t ev k k'.
Proof.
  intros Hc Ht Hs. constructor; rewrite ?Ht; try done.
  - intros t' Hn. by rewrite lookup_insert_ne.
  - rewrite lookup_insert_eq. by apply Slot_step.
Qed.
(** A kernel that differs in nothing this looks at. *)
Lemma moves_from t ev k0 k k' :
  history_config k0 = history_config k -> terminals k0 = terminals k -> Moves t ev k0 k' -> Moves t ev k k'.
Proof. intros Ec Et [H1 H2 H3]. constructor; by rewrite <- ?Ec, <- ?Et. Qed.
Lemma moves_or_return {A} t ev k (r : result (KernelError EngineError) A) body :
  (forall a, r = Ok a -> Moves t ev k (body a).1.2) -> Moves t ev k (or_return k r body).1.2.
Proof. intros H. destruct r; [by apply H|by apply moves_same]. Qed.
Lemma mark_attach_same k t f : history_config (mark_attach k t f) = history_config k /\ terminals (mark_attach k t f) = terminals k.
Proof. unfold mark_attach. by destruct (attach k). Qed.
Lemma expect_kind_same k t kind k' : expect_kind (EngineError := EngineError) k t kind = Ok k' -> history_config k' = history_config k /\ terminals k' = terminals k.
Proof. unfold expect_kind. destruct (kinds k !! t); [case_bool_decide|]; intros; by simplify_eq. Qed.
Lemma staging_of_spec k t g st s :
  staging_of (EngineError := EngineError) k t g = Ok (st, s) -> terminals k !! t = Some st /\ staging_of_gen st s /\ generation_of (sg_key s) = g.
Proof.
  unfold staging_of. destruct (terminals k !! t) as [st'|]; [|done]. destruct (retired st' !! g) eqn:Er; [done|]. rewrite bool_decide_eq_false_2 by (by intros [? ?]).
  destruct (staging st') as [s'|] eqn:Es; [|done]. case_bool_decide; [|done]. intros [= <- <-]. subst g. by repeat split.
Qed.
Lemma published_replica_spec k t g st r :
  published_replica (EngineError := EngineError) k t g = Ok (st, r) ->
  terminals k !! t = Some st /\ published_of_gen st r /\ generation_of (rp_key r) = g.
Proof.
  unfold published_replica. destruct (terminals k !! t) as [st'|]; [|done]. destruct (retired st' !! g) eqn:Er; [done|]. rewrite bool_decide_eq_false_2 by (by intros [? ?]).
  destruct (published st') as [s'|] eqn:Es; [|done]. case_bool_decide; [|done]. intros [= <- <-]. subst g. by repeat split.
Qed.
Lemma expect_chunk_spec next seq : expect_chunk (EngineError := EngineError) next seq = Ok tt -> next = Some seq.
Proof. unfold expect_chunk. destruct next as [e|]; [|done]. destruct (Z.ltb_spec seq e), (Z.ltb_spec e seq); try done. intros _. f_equal. lia. Qed.
Lemma expect_next_seq_spec r seq : expect_next_seq (EngineError := EngineError) (Replica := Replica) r seq = Ok tt -> rp_next_seq r = Some seq.
Proof. unfold expect_next_seq. destruct (rp_next_seq r) as [e|]; [|done]. destruct (Z.ltb_spec seq e), (Z.ltb_spec e seq); try done. intros _. f_equal. lia. Qed.

Lemma bootstrap_begin_moves k t stream bootstrap profile geometry base :
  Moves t (Ev_begin (mkKey t stream bootstrap profile) geometry base) k (bootstrap_begin k t stream bootstrap profile geometry base).1.2.
Proof.
  apply moves_or_return. intros [] _. destruct (negb _); [by apply moves_same|]. destruct (_ || _); [by apply moves_same|].
  cbv zeta. set (g := (stream, bootstrap)). set (k0 := with_terminals _ _). set (ev := Ev_begin _ _ _).
  assert (Hst : default TerminalState_default (terminals k0 !! t) = default TerminalState_default (terminals k !! t)).
  { unfold k0, ensure_terminal. simpl. destruct (terminals k !! t) eqn:E; [by rewrite E|]. by rewrite lookup_insert_eq. }
  assert (H0 : Moves t ev k k0).
  { unfold k0, ensure_terminal. destruct (terminals k !! t) eqn:E; [by apply moves_same|]. constructor; simpl; [done| |].
    - intros t' Hn. by rewrite lookup_insert_ne.
    - rewrite lookup_insert_eq, E. apply Slot_new. }
  assert (Hput : forall st, TermStep (history_config k) t ev (default TerminalState_default (terminals k !! t)) st -> forall a,
             Moves t ev k (put_terminal (with_adapter k0 a) t st)).
  { intros st Hs a. constructor; [done| |].
    - intros t' Hn. simpl. unfold ensure_terminal. destruct (terminals k !! t); by rewrite !lookup_insert_ne.
    - simpl. rewrite lookup_insert_eq. by apply Slot_step. }
  rewrite Hst. clear Hst. set (st := default TerminalState_default (terminals k !! t)) in *. destruct (retired st !! g) eqn:Er; [by rewrite bool_decide_eq_true_2 by (by eexists)|].
  rewrite bool_decide_eq_false_2 by (by intros [? ?]). destruct (publishes st g || stages st g) eqn:Ed; [done|].
  apply orb_false_iff in Ed as [Ep Es].
  destruct (start_replica (adapter k0) profile geometry) as [[engine|e] a] eqn:Est; simpl; apply Hput.
  - by eapply (Step_staged _ t (mkKey t stream bootstrap profile)).
  - by apply (Step_not_started _ t (mkKey t stream bootstrap profile)).
Qed.
Lemma bootstrap_chunk_moves k t stream bootstrap seq payload :
  Moves t (Ev_chunk (stream, bootstrap) seq payload) k (bootstrap_chunk k t stream bootstrap seq payload).1.2.
Proof.
  apply moves_or_return. intros [] _. apply moves_or_return. intros [st s] (Est & Hs & <-)%staging_of_spec.
  destruct (sg_engine_ready s) eqn:Er; [by apply moves_same|]. apply moves_or_return. intros [] Hseq%expect_chunk_spec.
  destruct (apply_bootstrap_chunk _ _ _) as [[[[progress|e] engine] captured] a] eqn:Ea; simpl.
  - eapply moves_put; [done..|]. rewrite Est. simpl. pose proof (Step_chunk (history_config k) t s seq payload (adapter k) progress engine captured a st Hs Er Hseq Ea) as H.
    rewrite Er in H. exact H.
  - eapply moves_put; [done..|]. rewrite Est. simpl. eapply Step_staging_lost; [done|]. left. by eexists _, _.
Qed.
Lemma bootstrap_ready_moves k t stream bootstrap cursor :
  Moves t (Ev_ready (stream, bootstrap)) k (bootstrap_ready k t stream bootstrap cursor).1.2.
Proof.
  apply moves_or_return. intros [] _. apply moves_or_return. intros [st s] (Est & Hs & <-)%staging_of_spec.
  destruct (sg_protocol_ready s) eqn:Ep; [by apply moves_same|].
  destruct (finish_bootstrap _ _) as [[[[progress|e] engine] captured] a] eqn:Ef.
  2: { eapply moves_put; [done..|]. rewrite Est. simpl. eapply Step_staging_lost; [done|]. by right. }
  cbv zeta. cbn [sg_engine_ready sg_base_seq]. destruct (negb (sg_engine_ready s || is_ready progress)) eqn:Er.
  { eapply moves_put; [done..|]. rewrite Est. simpl. eapply Step_staging_lost; [done|]. by right. }
  unfold publish, replica_of. simpl. rewrite lookup_insert_eq. simpl.
  destruct (configure_history_budget _ _ _ _) as [[[[]|e] engine'] a'] eqn:Ec; simpl.
  - match goal with |- context [begin_fetch ?h] => destruct (begin_fetch h) as [c h'] eqn:Eb end. simpl.
    match goal with |- Moves _ _ _ (mark_attach_resolved ?x ?y) => pose proof (mark_attach_same x y) as Hm; set (k1 := x) in * end.
    unfold mark_attach_resolved. match goal with |- Moves _ _ _ (mark_attach _ _ ?f) => destruct (Hm f) as [Hc Ht] end.
    eapply moves_put; [by rewrite Hc|rewrite Ht; simpl; apply insert_insert_eq|]. rewrite Est. simpl.
    refine (Step_published _ _ s _ progress engine captured a engine' a' st _ Hs Ep Ef Ec _ _ _ _ _ _); try done. exists cursor. by rewrite Eb.
  - eapply moves_put; [done|simpl; apply insert_insert_eq|]. rewrite Est. simpl. eapply Step_unbudgeted; try done.
    simpl. simpl in Er. by destruct (_ || _).
Qed.
Lemma terminal_output_moves k t stream bootstrap seq payload :
  Moves t (Ev_output (stream, bootstrap) seq payload) k (terminal_output k t stream bootstrap seq payload).1.2.
Proof.
  apply moves_or_return. intros [] _. apply moves_or_return. intros [st r] (Est & Hr & <-)%published_replica_spec.
  apply moves_or_return. intros [] Hseq%expect_next_seq_spec. apply moves_or_return. intros before _.
  destruct (apply_output _ _ _) as [[[[[]|e] engine] captured] a] eqn:Ea.
  - set (m := match pinned_anchor r with Some _ => _ | None => _ end).
    assert (Hm : local_move (with_engine r engine) m.1.1).
    { unfold m. destruct (pinned_anchor r) as [anchor|]; [|apply local_move_refl].
      destruct (reconcile_pinned_anchor _ _ _ _) as [[r1 a1] es] eqn:E. by eapply reconcile_local. }
    destruct m as [[r' a'] es]. simpl in *. destruct Hm as (H1 & H2 & H3 & H4 & H5 & H6).
    eapply moves_put; [done..|]. rewrite Est. simpl. by eapply Step_output.
  - simpl. unfold retire_after_codec_failure. simpl. rewrite Est. simpl.
    match goal with |- Moves _ _ _ (mark_attach_unresolved ?x ?y ?b) => pose proof (mark_attach_same x y) as Hm end.
    unfold mark_attach_unresolved. match goal with |- Moves _ _ _ (mark_attach _ _ ?f) => destruct (Hm f) as [Hc Ht] end.
    eapply moves_put; [by rewrite Hc|by rewrite Ht|]. rewrite Est. simpl. by eapply Step_output_lost.
Qed.
(** A published replica that only moved locally is a local step. *)
Lemma moves_local k t st r r' k' :
  terminals k !! t = Some st -> published st = Some r -> local_move r r' -> history_config k' = history_config k ->
  terminals k' = <[t := mkTerminal (Some r') (staging st) (retired st)]> (terminals k) -> Moves t Ev_local k k'.
Proof. intros Est Hr Hm Hc Ht. eapply moves_put; [done..|]. rewrite Est. simpl. by eapply Step_local. Qed.
Lemma import_local a r page res r' captured a' :
  0 <= hp_rows page -> import_history_page payload_digest a r page = (res, r', captured, a') -> local_move r r'.
Proof.
  intros Hrows. unfold import_history_page. destruct (apply_history_page _ _ _) as [[[res1 engine] cap] a1] eqn:Ea.
  assert (H1 : local_move r (with_engine r engine)) by (apply local_engine; eapply Local_page; [exact Ea|apply Local_refl]).
  destruct res1 as [o|e]; [|by intros [= <- <- <- <-]]. destruct (_ && _); [by intros [= <- <- <- <-]|].
  destruct (negb _); [by intros [= <- <- <- <-]|]. destruct (accept_page _ _ _ _ _ _ _ _) as [[id h]|e] eqn:Ep; intros [= <- <- <- <-]; [|done].
  eapply local_move_trans; [exact H1|]. apply local_history. intros Hok. simpl in *. by eapply accept_page_ok.
Qed.
Lemma history_page_moves k page : 0 <= hp_rows page -> Moves (hp_terminal page) Ev_local k (history_page payload_digest k page).1.2.
Proof.
  intros Hrows. apply moves_or_return. intros [] _. apply moves_or_return. intros [st r] (Est & [Hr _] & _)%published_replica_spec.
  destruct (is_locally_cleared _); [by apply moves_same|]. destruct (check_page _ _ _ _ _ _ _) as [[|i]|e]; [|by apply moves_same|].
  - destruct (import_history_page _ _ _ _) as [[[res r1] captured] a1] eqn:Ei. apply import_local in Ei; [|done]. destruct res as [[]|rej].
    + set (m := if should_auto_continue _ then _ else _).
      assert (Hm : history_keeps (rp_history r1) m.2) by (unfold m; case_match; [apply keeps_fetch|apply slot_keeps_refl]).
      destruct m as [next h]. simpl in *. eapply moves_local; [done..| |done|done]. eapply local_move_trans; [done|]. by apply local_history.
    + destruct (tombstone_history _ _ _) as [[r2 a2] es] eqn:E. apply tombstone_history_local in E. simpl.
      eapply moves_local; [done..| |done|done]. by eapply local_move_trans.
  - destruct (tombstone_history _ _ _) as [[r2 a2] es] eqn:E. apply tombstone_history_local in E. simpl. by eapply moves_local.
Qed.
Lemma history_tombstone_moves k t stream bootstrap cursor why :
  Moves t Ev_local k (history_tombstone k t stream bootstrap cursor why).1.2.
Proof.
  apply moves_or_return. intros [] _. apply moves_or_return. intros [st r] (Est & [Hr _] & _)%published_replica_spec.
  unfold invalidate_cursor. case_bool_decide; [|by apply moves_same]. simpl. destruct (end_history _ _ _) as [r1 a1] eqn:E.
  eapply moves_local; [done..| |done|done]. eapply end_history_local; [|exact E]. apply keeps_invalidate; by destruct why.
Qed.
Lemma history_rejected_moves k t stream bootstrap cursor why rb rr :
  Moves t Ev_local k (history_rejected k t stream bootstrap cursor why rb rr).1.2.
Proof.
  apply moves_or_return. intros [] _. apply moves_or_return. intros [st r] (Est & [Hr _] & _)%published_replica_spec.
  cbv zeta. set (small := bool_decide (why = Rejection_TooSmall)).
  pose proof (keeps_step (rp_history r) (Do_rejected cursor rb rr) I) as Hk. simpl in Hk.
  assert (Hc : history_keeps (rp_history r) (cancel_fetch (rp_history r) cursor).2) by (intros Hok; by apply cancel_fetch_ok).
  set (limits := if small then _ else None). set (cancelled := cancel_fetch (rp_history r) cursor) in *.
  destruct cancelled as [[] h]; [|by apply moves_same]. simpl negb. cbv iota.
  set (m := match limits with Some _ => _ | None => (None, h) end).
  assert (Hm : history_keeps (rp_history r) m.2).
  { unfold m, limits. destruct small; [|done]. destruct (retry_limits _ _ _) as [[mb mr]|]; [|done].
    destruct (begin_fetch_with_limits h mb mr) as [c h']. done. }
  destruct m as [next h']. simpl in Hm. destruct (small && _).
  - destruct (end_history _ _ _) as [r1 a1] eqn:E. simpl. eapply moves_local; [done..| |done|done].
    eapply end_history_local; [|exact E]. eapply slot_keeps_trans; [exact Hm|]. by apply keeps_invalidate.
  - simpl. eapply moves_local; [done..| |done|done]. by apply local_history.
Qed.
Lemma prefetch_history_moves k t n : Moves t Ev_local k (prefetch_history k t n).1.2.
Proof.
  unfold prefetch_history. destruct (terminals k !! t) as [st|] eqn:Est; [|by apply moves_same].
  destruct (published st) as [r|] eqn:Hr; [|by apply moves_same]. destruct (bool_decide _); [by apply moves_same|]. destruct (negb _); [by apply moves_same|].
  pose proof (keeps_fetch (rp_history r)) as Hk. destruct (begin_fetch _) as [[c|] h]; [|by apply moves_same].
  eapply moves_local; [done..| |done|done]. by apply local_history.
Qed.
Lemma tombstone_generation_moves k t stream bootstrap record :
  Moves t (Ev_retire (stream, bootstrap)) k (tombstone_generation k t stream bootstrap record).
Proof.
  unfold tombstone_generation. destruct (agents k !! t); [by apply moves_same|]. cbv zeta.
  match goal with |- Moves _ _ _ (if _ then mark_attach_unresolved ?x _ _ else _) => set (k1 := x) end.
  assert (H1 : Moves t (Ev_retire (stream, bootstrap)) k k1) by (eapply moves_put; [done..|]; apply Step_retired).
  destruct (publishes _ _); [|done]. unfold mark_attach_unresolved.
  match goal with |- Moves _ _ _ (mark_attach _ _ ?f) => destruct (mark_attach_same k1 t f) as [Hc Ht] end.
  destruct H1 as [M1 M2 M3]. constructor; rewrite ?Hc, ?Ht; done.
Qed.
Lemma terminal_closed_moves k t : Moves t Ev_gone k (terminal_closed k t).1.
Proof.
  unfold terminal_closed. cbv zeta. cbn [fst]. unfold mark_attach_closed.
  match goal with |- Moves _ _ _ (mark_attach ?x _ ?f) => destruct (mark_attach_same x t f) as [Hc Ht] end.
  constructor; rewrite ?Hc, ?Ht; simpl; [done| |].
  - intros t' Hn. by rewrite lookup_delete_ne.
  - rewrite lookup_delete_eq. by apply Slot_gone.
Qed.

(** ** The agents' streams leave the terminals alone *)

Definition still (k k' : Kernel) : Prop := history_config k' = history_config k /\ terminals k' = terminals k.
Lemma still_or_return {A} k (r : result (KernelError EngineError) A) body :
  (forall a, r = Ok a -> still k (body a).1.2) -> still k (or_return k r body).1.2.
Proof. intros H. destruct r; [by apply H|done]. Qed.
Lemma agent_session_declared_still k d : still k (agent_session_declared (EngineError := EngineError) k d).1.2.
Proof. apply still_or_return. intros [] _. apply still_or_return. intros k1 E%expect_kind_same. exact E. Qed.
Lemma agent_bootstrap_begin_still k t s b p base : still k (agent_bootstrap_begin (EngineError := EngineError) k t s b p base).1.2.
Proof.
  apply still_or_return. intros [] _. apply still_or_return. intros k1 E%expect_kind_same.
  cbv zeta. destruct (bool_decide _); [exact E|]. by destruct (_ || _).
Qed.
Lemma agent_bootstrap_chunk_still k t s b n p : still k (agent_bootstrap_chunk (EngineError := EngineError) k t s b n p).1.2.
Proof. do 4 (apply still_or_return; intros ? _). by destruct (parse_records p). Qed.
Lemma agent_bootstrap_ready_still k t s b : still k (agent_bootstrap_ready (EngineError := EngineError) k t s b).1.2.
Proof. do 3 (apply still_or_return; intros ? _). simpl. unfold mark_attach_resolved.
  match goal with |- still _ (mark_attach ?x ?y ?f) => exact (mark_attach_same x y f) end.
Qed.
Lemma agent_output_still k t s b n p : still k (agent_output (EngineError := EngineError) k t s b n p).1.2.
Proof.
  do 4 (apply still_or_return; intros ? _). destruct (_ <? _); [done|]. destruct (parse_records p); [|done].
  apply still_or_return. intros ? _. done.
Qed.

(** ** Every input *)

Definition ev_at (t t' : ResourceId) (ev : TermEvent) : TermEvent := if bool_decide (t = t') then ev else Ev_none.
(** What an input says of the terminal [t]. *)
Definition event_of (t : ResourceId) (i : KernelInput) : TermEvent :=
  match i with
  | In_BootstrapBegin t' s b profile geometry base => ev_at t' t (Ev_begin (mkKey t' s b profile) geometry base)
  | In_BootstrapChunk t' s b seq payload => ev_at t' t (Ev_chunk (s, b) seq payload)
  | In_BootstrapReady t' s b _ => ev_at t' t (Ev_ready (s, b))
  | In_HistoryPage t' _ _ _ _ _ _ _ | In_HistoryTombstone t' _ _ _ _ | In_HistoryRejected t' _ _ _ _ _ _ => ev_at t' t Ev_local
  | In_ResourceOutput t' s b seq payload => ev_at t' t (Ev_output (s, b) seq payload)
  | In_Tombstone t' s b _ _ => ev_at t' t (Ev_retire (s, b))
  | In_ResourceClosed t' => ev_at t' t Ev_gone
  | In_AttachStarted _ _ | In_AttachReady _ | In_AgentSessionDeclared _ | In_Action _ => Ev_none
  end.
(** A row count is a [u32]. *)
Definition input_ok (i : KernelInput) : Prop := match i with In_HistoryPage _ _ _ _ rows _ _ _ => 0 <= rows | _ => True end.
Definition SlotsMove (f : ResourceId -> TermEvent) (k k' : Kernel) : Prop :=
  history_config k' = history_config k
  /\ forall t, SlotStep (history_config k) t (f t) (terminals k !! t) (terminals k' !! t).
Lemma moves_slots t ev k k' : Moves t ev k k' -> SlotsMove (fun t' => ev_at t t' ev) k k'.
Proof.
  intros [Hc Ho Hs]. split; [done|]. intros t'. unfold ev_at. case_bool_decide; [by subst|]. rewrite Ho by done. apply Slot_same.
Qed.
Lemma still_slots f k k' : still k k' -> SlotsMove f k k'.
Proof. intros [Hc Ht]. split; [done|]. intros t. rewrite Ht. apply Slot_same. Qed.
Lemma expect_terminals_still k ids : still k (expect_terminals (EngineError := EngineError) k ids).2.
Proof.
  revert k. induction ids as [|t ids IH]; intros k; simpl; [done|]. destruct (expect_kind k t _) as [k1|] eqn:E; [|done].
  apply expect_kind_same in E as [E1 E2]. destruct (IH k1) as [H1 H2]. split; congruence.
Qed.
Lemma ensure_terminals_slots cfg (f : ResourceId -> TermEvent) ids ts t : SlotStep cfg t (f t) (ts !! t) (fold_left ensure_terminal ids ts !! t).
Proof.
  assert (H : forall ids ts, fold_left ensure_terminal ids ts !! t = ts !! t \/ ts !! t = None /\ fold_left ensure_terminal ids ts !! t = Some (@TerminalState_default Replica)).
  { clear. induction ids as [|i ids IH]; intros ts; [by left|]. simpl. unfold ensure_terminal at 2 4. destruct (ts !! i) eqn:Ei; [apply IH|].
    destruct (decide (i = t)) as [->|Hn].
    - right. split; [done|]. destruct (IH (<[t := TerminalState_default]> ts)) as [->|[Hx _]]; rewrite lookup_insert_eq in *; done.
    - destruct (IH (<[i := TerminalState_default]> ts)) as [->|[Hx ->]]; rewrite lookup_insert_ne in * by done; [by left|by right]. }
  destruct (H ids ts) as [->|[-> ->]]; [apply Slot_same|apply Slot_new].
Qed.
Lemma attach_started_slots f k aid ids : SlotsMove f k (attach_started (EngineError := EngineError) k aid ids).1.2.
Proof.
  unfold attach_started. cbv zeta. set (start := or_return _ _ _).
  assert (H : SlotsMove f k start.1.2).
  { unfold start. destruct (check_inventory _ _ _); [|by apply still_slots]. simpl. pose proof (expect_terminals_still k ids) as [Hc Ht].
    destruct (expect_terminals k ids) as [[[]|e] k1]; simpl in *; [|by apply still_slots]. split; [done|]. intros t. simpl. rewrite Ht.
    apply ensure_terminals_slots. }
  destruct (attach k) as [at'|]; [|done]. destruct (negb _); [by apply still_slots|done].
Qed.
Theorem update_slots k i : input_ok i -> SlotsMove (fun t => event_of t i) k (update payload_digest k i).1.2.
Proof.
  intros Hi. destruct i as [aid ids|aid| | | | | | | | | | |]; simpl.
  - apply attach_started_slots.
  - apply still_slots. unfold attach_ready. destruct (attach k) as [at'|]; [|done].
    destruct (negb (attach_id at' =? aid)); [done|]. destruct (negb (unresolved _ =? 0)); [done|]. by destruct (released at').
  - destruct (is_agent_profile profile); [apply still_slots, agent_bootstrap_begin_still|]. apply moves_slots.
    apply moves_or_return. intros k1 [Ec Et]%expect_kind_same. eapply moves_from; [done..|]. apply bootstrap_begin_moves.
  - case_bool_decide; [apply still_slots, agent_bootstrap_chunk_still|]. apply moves_slots, bootstrap_chunk_moves.
  - case_bool_decide; [apply still_slots, agent_bootstrap_ready_still|]. apply moves_slots, bootstrap_ready_moves.
  - apply moves_slots. by apply (history_page_moves k (mkPageInput t (stream, bootstrap) page_seq rows payload cursor next)).
  - apply moves_slots, history_tombstone_moves.
  - apply moves_slots, history_rejected_moves.
  - case_bool_decide; [apply still_slots, agent_output_still|]. apply moves_slots, terminal_output_moves.
  - apply moves_slots, tombstone_generation_moves.
  - exact (moves_slots _ _ _ _ (terminal_closed_moves k t)).
  - apply still_slots, agent_session_declared_still.
  - apply still_slots. destruct a. simpl. by destruct (input_eligibility k t).
Qed.

(** ** Every call of the kernel's owner *)

(** A call that changes the kernel. *)
Inductive KernelOp : Type :=
| Op_update (i : KernelInput)
| Op_prefetch (t : ResourceId) (rows : Z)
| Op_release_attach
| Op_release_terminal (t : ResourceId)
| Op_detach (t : ResourceId)
| Op_clear (t : ResourceId)
| Op_project (t : ResourceId) (width rows : Z)
| Op_track (t : ResourceId) (p : DocumentPoint)
| Op_pin (t : ResourceId) (a : DocumentAnchorId)
| Op_follow (t : ResourceId)
| Op_release_anchor (t : ResourceId) (a : DocumentAnchorId)
| Op_search (t : ResourceId) (needle : bytes) (max : Z).
Definition run_op (k : Kernel) (o : KernelOp) : Kernel :=
  match o with
  | Op_update i => (update payload_digest k i).1.2
  | Op_prefetch t n => (prefetch_history k t n).1.2
  | Op_release_attach => release_active_attach k
  | Op_release_terminal t => (release_terminal k t).2
  | Op_detach t => (detach_terminal k t).2
  | Op_clear t => (clear_presentation k t).2
  | Op_project t w n => (project_history k t w n).2
  | Op_track t p => (track_document_anchor k t p).2
  | Op_pin t a => (pin_history_viewport k t a).2
  | Op_follow t => (follow_history_tail (EngineError := EngineError) k t).2
  | Op_release_anchor t a => (release_document_anchor k t a).2
  | Op_search t needle n => (search_loaded_history k t needle n).2
  end.
Definition op_input_ok (o : KernelOp) : Prop := match o with Op_update i => input_ok i | _ => True end.
Definition op_event (t : ResourceId) (o : KernelOp) : TermEvent :=
  match o with
  | Op_update i => event_of t i
  | Op_release_attach => Ev_none
  | Op_release_terminal t' | Op_detach t' => ev_at t' t Ev_gone
  | Op_prefetch t' _ | Op_clear t' | Op_project t' _ _ | Op_track t' _ | Op_pin t' _ | Op_follow t' | Op_release_anchor t' _ | Op_search t' _ _ =>
      ev_at t' t Ev_local
  end.

Lemma moves_answering {A B} t ev k (r : result (KernelError EngineError) A) (body : A -> Answer B) :
  (forall a, r = Ok a -> Moves t ev k (body a).2) -> Moves t ev k (answering k r body).2.
Proof. intros H. destruct r; [by apply H|by apply moves_same]. Qed.
Lemma document_of_spec k t st r :
  document_of (EngineError := EngineError) k t = Ok (st, r) -> terminals k !! t = Some st /\ published st = Some r.
Proof. unfold document_of. destruct (terminals k !! t) as [st'|]; [|done]. destruct (published st') eqn:E; [|done]. by intros [= <- <-]. Qed.
Lemma release_terminal_moves k t : Moves t Ev_gone k (release_terminal k t).2.
Proof.
  unfold release_terminal. destruct (match attach k with Some _ => _ | None => _ end); [by apply moves_same|]. constructor; simpl; [done| |].
  - intros t' Hn. by rewrite lookup_delete_ne.
  - rewrite lookup_delete_eq. by apply Slot_gone.
Qed.
Lemma clear_presentation_moves k t : Moves t Ev_local k (clear_presentation k t).2.
Proof.
  apply moves_answering. intros [] _. apply moves_answering. intros [st r] [Est Hr]%document_of_spec.
  destruct (adapter_clear_presentation _ _) as [[res engine] a] eqn:E.
  assert (H1 : local_move r (with_engine r engine)) by (apply local_engine; eapply Local_presentation; [exact E|apply Local_refl]).
  destruct res; simpl; (eapply moves_local; [done..| |done|done]); [|done]. eapply local_move_trans; [exact H1|].
  apply local_history. by apply keeps_invalidate.
Qed.
Lemma project_history_moves k t w n : Moves t Ev_local k (project_history k t w n).2.
Proof.
  apply moves_answering. intros [st r] [Est Hr]%document_of_spec. cbv zeta. set (r1 := with_history r _).
  assert (H1 : local_move r r1) by (apply local_history; by apply (keeps_step _ (Do_reproject w))).
  match goal with |- context [match viewport (rp_history r1) with Viewport_Tail => ?x | Viewport_Pinned _ => _ end] => set (m := match viewport (rp_history r1) with Viewport_Tail => x | Viewport_Pinned _ => _ end) end.
  assert (Hm : forall r2 a o, m = Ok (r2, a, o) -> local_move r r2).
  { unfold m. intros r2 a o. destruct (viewport (rp_history r1)) as [|anchor]; [by intros [= <- <- <-]|].
    destruct (adapter_document_anchor_point _ _ _ _) as [[p|]|e]; [by intros [= <- <- <-]| |done].
    destruct (end_history _ _ _) as [r3 a3] eqn:E. intros [= <- <- <-]. eapply local_move_trans; [exact H1|].
    eapply end_history_local; [|exact E]. by apply keeps_invalidate. }
  destruct m as [[[r2 a] o]|e]; [|by eapply moves_local]. specialize (Hm _ _ _ eq_refl).
  destruct (adapter_project_history _ _ _ _ _) as [[res engine] a2] eqn:E. simpl.
  assert (H2 : local_move r (with_engine r2 engine)).
  { eapply local_move_trans; [exact Hm|]. apply local_engine. eapply Local_project; [exact E|apply Local_refl]. }
  by eapply moves_local.
Qed.
Lemma register_keeps h anchor ps h' : register_anchor_pages h anchor ps = Ok h' -> history_keeps h h'.
Proof. intros E Hok. by destruct (register_ok _ _ _ _ Hok E) as (? & _ & ?). Qed.
Lemma track_document_anchor_moves k t p : Moves t Ev_local k (track_document_anchor k t p).2.
Proof.
  apply moves_answering. intros [st r] [Est Hr]%document_of_spec. apply moves_answering. intros [] _.
  destruct (adapter_track_document_anchor _ _ _) as [[res engine] a] eqn:E.
  assert (H1 : local_move r (with_engine r engine)) by (apply local_engine; eapply Local_track; [exact E|apply Local_refl]).
  cbv zeta. destruct res as [anchor|e]; simpl; [|by eapply moves_local].
  destruct (register_anchor_pages _ anchor ∅) as [h|e] eqn:Er; simpl; [|by eapply moves_local].
  eapply moves_local; [exact Est|exact Hr| |done|simpl; apply insert_insert_eq].
  eapply local_move_trans; [exact H1|]. apply local_history. by eapply register_keeps.
Qed.
Lemma pin_history_viewport_moves k t anchor : Moves t Ev_local k (pin_history_viewport k t anchor).2.
Proof.
  apply moves_answering. intros [st r] [Est Hr]%document_of_spec. apply moves_answering. intros [p|] _; [|by apply moves_same].
  apply moves_answering. intros h Eh. simpl. eapply moves_local; [done..| |done|done]. apply local_history.
  pose proof (keeps_step (rp_history r) (Do_pin_viewport anchor) I) as Hk. simpl in Hk. by destruct (pin_viewport _ _); simplify_eq/=.
Qed.
Lemma follow_history_tail_moves k t : Moves t Ev_local k (follow_history_tail (EngineError := EngineError) k t).2.
Proof.
  apply moves_answering. intros [st r] [Est Hr]%document_of_spec. simpl. eapply moves_local; [done..| |done|done].
  apply local_history. by apply (keeps_step (rp_history r) Do_follow_tail).
Qed.
Lemma release_anchor_local a r anchor : local_move r (release_anchor_in a r anchor).1.
Proof.
  unfold release_anchor_in. destruct (adapter_release_document_anchor _ _ _) as [e a1] eqn:E. simpl.
  apply local_engine. eapply Local_release; [exact E|apply Local_refl].
Qed.
Lemma release_document_anchor_moves k t anchor : Moves t Ev_local k (release_document_anchor k t anchor).2.
Proof.
  apply moves_answering. intros [st r] [Est Hr]%document_of_spec. pose proof (release_anchor_local (adapter k) r anchor) as H.
  destruct (release_anchor_in _ _ _) as [r1 a1]. simpl in *. eapply moves_local; [done..| |done|done].
  eapply local_move_trans; [exact H|]. apply local_history, keeps_remove.
Qed.
Lemma register_matches_keeps ms h : history_keeps h (register_matches h ms).2.
Proof.
  revert h. induction ms as [|m ms IH]; intros h; simpl; [apply slot_keeps_refl|].
  destruct (register_anchor_pages h _ _) as [h1|] eqn:E1; [|apply slot_keeps_refl]. apply register_keeps in E1.
  destruct (register_anchor_pages h1 _ _) as [h2|] eqn:E2; [|done]. apply register_keeps in E2.
  eapply slot_keeps_trans; [exact E1|]. by eapply slot_keeps_trans.
Qed.
Lemma release_match_local s m : local_move s.1 (release_match s m).1.
Proof.
  destruct s as [r a]. unfold release_match. pose proof (release_anchor_local a r (found_start m)) as H1.
  destruct (release_anchor_in a r _) as [r1 a1]. pose proof (release_anchor_local a1 r1 (found_end m)) as H2.
  destruct (release_anchor_in a1 r1 _) as [r2 a2]. simpl in *. eapply local_move_trans; [exact H1|]. eapply local_move_trans; [exact H2|].
  apply local_history. eapply slot_keeps_trans; apply keeps_remove.
Qed.
Lemma release_matches_local ms s : local_move s.1 (fold_left release_match ms s).1.
Proof.
  revert s. induction ms as [|m ms IH]; intros s; simpl; [apply local_move_refl|]. eapply local_move_trans; [apply release_match_local|apply IH].
Qed.
Lemma search_loaded_history_moves k t needle n : Moves t Ev_local k (search_loaded_history k t needle n).2.
Proof.
  apply moves_answering. intros [st r] [Est Hr]%document_of_spec. cbv zeta. destruct (_ =? 0); [by apply moves_same|].
  destruct (adapter_search_loaded _ _ _ _) as [[res engine] a] eqn:E.
  assert (H1 : local_move r (with_engine r engine)) by (apply local_engine; eapply Local_search; [exact E|apply Local_refl]).
  destruct res as [ms|e]; [|by eapply moves_local]. pose proof (register_matches_keeps ms (rp_history (with_engine r engine))) as Hk.
  destruct (register_matches _ ms) as [reg h]. simpl in Hk.
  assert (H2 : local_move r (with_history (with_engine r engine) h)) by (eapply local_move_trans; [exact H1|by apply local_history]).
  destruct reg as [[]|e]; [by eapply moves_local|].
  pose proof (release_matches_local ms (with_history (with_engine r engine) h, a)) as H3. destruct (fold_left _ _ _) as [r3 a3]. simpl in *.
  eapply moves_local; [done..| |done|done]. by eapply local_move_trans.
Qed.
Lemma run_op_slots k o : op_input_ok o -> SlotsMove (fun t => op_event t o) k (run_op k o).
Proof.
  intros Ho. destruct o as [i| | | | | | | | | | |]; simpl.
  - by apply update_slots.
  - apply moves_slots, prefetch_history_moves.
  - by apply still_slots.
  - apply moves_slots, release_terminal_moves.
  - apply moves_slots. unfold detach_terminal. destruct (attach k) as [at'|]; [|apply release_terminal_moves].
    destruct (negb _); [by apply moves_same|]. eapply moves_from; [| |apply release_terminal_moves]; done.
  - apply moves_slots, clear_presentation_moves.
  - apply moves_slots, project_history_moves.
  - apply moves_slots, track_document_anchor_moves.
  - apply moves_slots, pin_history_viewport_moves.
  - apply moves_slots, follow_history_tail_moves.
  - apply moves_slots, release_document_anchor_moves.
  - apply moves_slots, search_loaded_history_moves.
Qed.
End Steps.

(** ** A concrete engine for small runs

    An engine whose picture is the list of everything it was fed, one anchor always at the same
    place, and a JSON of single letters: enough to evaluate the kernel on concrete inputs. *)

(** The adapter remembers nothing; a chunk that is empty is refused. *)
Definition ToyAdapter : Type := unit.
Definition ToyReplica : Type := list bytes.
Definition ToyError : Type := unit.
Definition toy_fed (r : ToyReplica) (bs : bytes) : ToyReplica := r ++ [bs].

#[export] Instance toy_engine : EngineAdapter ToyAdapter ToyReplica ToyError := {|
  start_replica a _ _ := (Ok [], a);
  apply_bootstrap_chunk a r bs := (Ok Progress_Pending, toy_fed r bs, [EngineEffect_Send (EngineSend_PtyWrite bs)], a);
  configure_history_budget a r _ _ := (Ok tt, r, a);
  clear_document_state a r := (r, a);
  history_anchor_tail_distance a r _ := Ok (Some 0);
  finish_bootstrap a r := (Ok Progress_Finished, r, [EngineEffect_Status EngineStatus_Bell], a);
  apply_history_page a r bs := (Ok (mkOutcome Progress_Ready true), r, [], a);
  apply_output a r bs :=
    if len bs =? 0 then (Err tt, r, [], a)
    else (Ok tt, toy_fed r bs, [EngineEffect_Send (EngineSend_PtyWrite bs); EngineEffect_Damage EngineDamage_Full], a)
|}.
#[export] Instance toy_presentation : EnginePresentationAdapter ToyAdapter ToyReplica ToyError := {|
  adapter_clear_presentation a r := (Ok tt, r, a)
|}.
#[export] Instance toy_document : EngineDocumentAdapter ToyAdapter ToyReplica ToyError := {|
  adapter_project_history a r w _ _ := (Ok (mkProjection w [] false), r, a);
  adapter_track_document_anchor a r _ := (Ok 1, r, a);
  adapter_release_document_anchor a r _ := (r, a);
  adapter_document_anchor_point a r _ _ := Ok None;
  adapter_search_loaded a r _ _ := (Ok [], r, a);
  adapter_format_selection a r _ := Ok None
|}.

Inductive ToyValue : Type := Toy_Object (fields : list (bytes * ToyValue)) | Toy_Number (n : Z) | Toy_String (s : bytes) | Toy_Null.
(** A record is one letter, its distance from [A] the sequence. *)
#[export] Instance toy_json : Json := {|
  Value := ToyValue;
  from_slice bs := match bs with
                   | [b] => Ok (Toy_Object [(str "seq", Toy_Number (b - 65)); (str "ts_ms", Toy_Number 0); (str "type", Toy_String (str "prompt"))])
                   | _ => Err (str "bad")
                   end;
  is_object v := match v with Toy_Object _ => true | _ => false end;
  is_null v := match v with Toy_Null => true | _ => false end;
  empty_object := Toy_Object [];
  get v f := match v with Toy_Object fs => option_map snd (List.find (fun p => bool_decide (p.1 = f)) fs) | _ => None end;
  as_u64 v := match v with Toy_Number n => Some n | _ => None end;
  as_str v := match v with Toy_String s => Some s | _ => None end
|}.
