(* ===== verification/KernelReplay.v ===== *)
(** * What a client shows is what the server sent

    The invariant of every reachable client kernel: a staged engine has been fed the chunks of its
    transcript in order, as many as it took, and it took at least those it heard without a gap; a
    published one then exactly the live payloads [base + 1 .. last], whatever was lost, repeated or
    reordered on the way; histories keep their budgets, and a retired generation never comes back.
    [KernelKinds] draws the conclusion, since a chunk is never taken for an agent's there. *)

From stdpp Require Import gmap.
From S2P Require Import Prelude Enums Caps Codec Ids IdBridge HistoryCache HistoryBounds Engine AgentStream Kernel KernelSteps.

(** What the server says of each generation of each terminal. *)
Record Sent : Type := mkSent {
  sent_profile : ResourceId -> GenerationId -> BootstrapStreamProfile;
  sent_geometry : ResourceId -> GenerationId -> CanonicalGeometry;
  sent_base : ResourceId -> GenerationId -> Z;
  sent_count : ResourceId -> GenerationId -> Z;
  sent_chunk : ResourceId -> GenerationId -> Z -> bytes;
  sent_output : ResourceId -> GenerationId -> Z -> bytes
}.

Section Replay.
  Context {Adapter Replica EngineError : Type} {EA : EngineAdapter Adapter Replica EngineError} {J : Json}.
  Context {PA : EnginePresentationAdapter Adapter Replica EngineError} {DA : EngineDocumentAdapter Adapter Replica EngineError}.
  Context (payload_digest : bytes -> bytes) (S : Sent).
  Abbreviation Kernel := (@SessionKernel Adapter Replica J).
  Abbreviation Terminal := (@TerminalState Replica).
  Implicit Types (k : Kernel) (st : Terminal).

(** An engine fed the first [n] chunks of a transcript; [e]: it then called the transcript complete, and takes no more. *)
Inductive Staged (t : ResourceId) (g : GenerationId) : Z -> bool -> Replica -> Prop :=
| Staged_start a r a' : start_replica a (sent_profile S t g) (sent_geometry S t g) = (Ok r, a') -> Staged t g 0 false r
| Staged_chunk a n r progress r' es a' :
    Staged t g n false r -> apply_bootstrap_chunk a r (sent_chunk S t g n) = (Ok progress, r', es, a') -> Staged t g (n + 1) (is_ready progress) r'.
(** An engine that finished its transcript after [n] chunks and was fed the live payloads up to [s]; the calls of [Local] may come
    between. *)
Inductive Shown (t : ResourceId) (g : GenerationId) (n : Z) (e : bool) : Z -> Replica -> Prop :=
| Shown_ready a r progress r' es a1 mb mr r'' a2 :
    Staged t g n e r -> finish_bootstrap a r = (Ok progress, r', es, a1) -> configure_history_budget a1 r' mb mr = (Ok tt, r'', a2) ->
    Shown t g n e (sent_base S t g) r''
| Shown_output a s r r' es a' :
    Shown t g n e s r -> apply_output a r (sent_output S t g (s + 1)) = (Ok tt, r', es, a') -> Shown t g n e (s + 1) r'
| Shown_local s r r' : Shown t g n e s r -> Local r r' -> Shown t g n e s r'.

(** What an event carries is what the server sent under that name. *)
Definition honest (t : ResourceId) (ev : TermEvent) : Prop :=
  match ev with
  | Ev_begin key geometry base =>
      rk_profile key = sent_profile S t (generation_of key) /\ geometry = sent_geometry S t (generation_of key)
      /\ base = sent_base S t (generation_of key)
  | Ev_chunk g seq payload => payload = sent_chunk S t g seq /\ 0 <= seq < sent_count S t g /\ seq <= u32_max
  | Ev_output g seq payload => payload = sent_output S t g seq
  | _ => True
  end.

(** Replies and damage never wait in a staging. *)
Definition quiet (e : EngineEffect) : Prop := match e with EngineEffect_Send _ | EngineEffect_Damage _ => False | _ => True end.
Record StagingOk (t : ResourceId) (s : @Staging Replica) : Prop := mkStagingOk {
  so_terminal : rk_terminal (sg_key s) = t;
  so_profile : rk_profile (sg_key s) = sent_profile S t (generation_of (sg_key s));
  so_geometry : sg_geometry s = sent_geometry S t (generation_of (sg_key s));
  so_base : sg_base_seq s = sent_base S t (generation_of (sg_key s));
  so_quiet : sg_protocol_ready s = false -> Forall quiet (sg_pending_effects s)
}.
Record PublishedOk (cfg : HistoryCacheConfig) (t : ResourceId) (r : @PublishedReplica Replica) : Prop := mkPublishedOk {
  po_terminal : rk_terminal (rp_key r) = t;
  po_profile : rk_profile (rp_key r) = sent_profile S t (generation_of (rp_key r));
  po_geometry : rp_geometry r = sent_geometry S t (generation_of (rp_key r));
  po_base : sent_base S t (generation_of (rp_key r)) <= rp_last_seq r;
  po_next : rp_next_seq r = next_u64 (rp_last_seq r);
  po_history : HistoryOk (rp_history r) /\ config (rp_history r) = normalized cfg
}.
Record StateOk (cfg : HistoryCacheConfig) (t : ResourceId) (st : Terminal) : Prop := mkStateOk {
  st_staging : forall s, staging st = Some s -> StagingOk t s;
  st_live : forall s, staging st = Some s -> retired st !! generation_of (sg_key s) = None;
  st_published : forall r, published st = Some r -> PublishedOk cfg t r;
  st_apart : forall s r, staging st = Some s -> published st = Some r -> generation_of (sg_key s) <> generation_of (rp_key r)
}.
Definition SlotOk (cfg : HistoryCacheConfig) (t : ResourceId) (o : option Terminal) : Prop := forall st, o = Some st -> StateOk cfg t st.

Lemma publishes_false st g : publishes st g = false -> forall r, published st = Some r -> generation_of (rp_key r) <> g.
Proof. unfold publishes. intros H r E. rewrite E in H. by apply bool_decide_eq_false in H. Qed.
Lemma stages_false st g : stages st g = false -> forall s, staging st = Some s -> generation_of (sg_key s) <> g.
Proof. unfold stages. intros H r E. rewrite E in H. by apply bool_decide_eq_false in H. Qed.
Lemma published_local cfg t r r' : PublishedOk cfg t r -> local_move r r' -> PublishedOk cfg t r'.
Proof.
  intros [H1 H2 H3 H5 H6 [H7 H8]] (E1 & E2 & E3 & E4 & HL & HH). constructor; rewrite ?E1, ?E2, ?E3, ?E4; try done.
  destruct (HH H7) as [? E]. split; [done|congruence].
Qed.
Lemma quiet_filter es :
  Forall quiet (List.filter (fun e => match e with EngineEffect_Send _ | EngineEffect_Damage _ => false | _ => true end) es).
Proof. apply Forall_forall. intros e He%list_elem_of_In%filter_In. destruct He as [_ He]. by destruct e. Qed.
Lemma default_ok cfg t : StateOk cfg t TerminalState_default.
Proof. by constructor. Qed.

Lemma tombstone_insert_keeps st g record g' : tombstone_insert st g record !! g' = None -> retired st !! g' = None.
Proof. unfold tombstone_insert. destruct (retired st !! g); [done|]. rewrite lookup_insert_None. tauto. Qed.
Lemma tombstone_insert_other st g record g' : g' <> g -> tombstone_insert st g record !! g' = retired st !! g'.
Proof. intros H. unfold tombstone_insert. destruct (retired st !! g); [done|]. by rewrite lookup_insert_ne. Qed.

Lemma state_step cfg t ev st st' : StateOk cfg t st -> honest t ev -> TermStep cfg t ev st st' -> StateOk cfg t st'.
Proof.
  intros Hst Hh Hstep. destruct Hstep as [key geometry base a engine a' st Ht (Hf1 & Hf2 & Hf3) Ha|key geometry base st (Hf1 & Hf2 & Hf3)
    |s seq payload a progress engine captured a' st [Es Er] Hready Hseq Ha|s ev st [Es Er] Hev|s s' st [Es Er] Hp E1 E1g E1b E2 E3
    |s a progress engine captured a1 engine' a2 st r [Es Er] Hp Ha Hc E1 E2 E3 E4 E5 [newest E6]
    |r seq payload a engine captured a' r' st [Ep Er] Hseq Ha E1 E2 E3 E4 HL HH|r seq payload st [Ep Er]|r r' st Ep Hm|g record st];
    destruct Hst as [H1 H2 H3 H4].
  - destruct Hh as (Eprof & Egeo & Ebase). constructor; simpl; [| |done|].
    + intros s [= <-]. by constructor.
    + intros s [= <-]. simpl. destruct (staging st) as [old|] eqn:Eo; [|done]. rewrite lookup_insert_ne; [done|]. by eapply stages_false.
    + intros s r [= <-] Hr E. by eapply publishes_false.
  - constructor; simpl; try done. intros s Hs. rewrite lookup_insert_ne; [by apply H2|]. intros E. symmetry in E. by eapply stages_false.
  - pose proof (H1 _ Es) as [S1 S2 S3 S4 S6]. constructor; simpl; [|by intros s0 [= <-]|done|intros s0 r [= <-] Hr; exact (H4 _ _ Es Hr)].
    intros s0 [= <-]. constructor; simpl; try done.
    intros Hp. apply Forall_app. split; [by apply S6|apply quiet_filter].
  - by constructor.
  - constructor; simpl; try done.
    + intros s0 [= <-]. pose proof (H1 _ Es) as [S1 S2 S3 S4 S6]. constructor; rewrite ?E1, ?E1g, ?E1b; try done; by rewrite E2.
    + intros s0 [= <-]. by rewrite E1.
    + intros s0 r [= <-] Hr. rewrite E1. exact (H4 _ _ ltac:(eassumption) ltac:(eassumption)).
  - pose proof (H1 _ Es) as [S1 S2 S3 S4 S6]. constructor; simpl; try done. intros r0 [= <-].
    constructor; rewrite ?E1, ?E2, ?E3; try done.
    + lia.
    + rewrite E6. apply (keeps_fetch payload_digest). apply history_new_ok.
  - pose proof (H3 _ Ep) as [P1 P2 P3 P5 P6 [P7 P8]]. rewrite P6 in Hseq.
    assert (Es : seq = rp_last_seq r + 1) by (unfold next_u64 in Hseq; destruct (_ =? _); [done|]; by injection Hseq).
    constructor; simpl; [done|done| |].
    + intros r0 [= <-]. constructor; rewrite ?E1, ?E2, ?E3, ?E4, ?Es; try done.
      * lia.
      * destruct (HH P7) as [? Ec]. split; [done|congruence].
    + intros s r0 Hs [= <-]. rewrite E1. exact (H4 _ _ ltac:(eassumption) ltac:(eassumption)).
  - constructor; simpl; try done. intros s Hs. rewrite lookup_insert_ne; [by apply H2|]. intros E. symmetry in E. by apply (H4 s r).
  - constructor; simpl; try done.
    + intros r0 [= <-]. by eapply published_local; [apply H3|].
    + intros s r0 Hs [= <-]. destruct Hm as (-> & _). exact (H4 _ _ ltac:(eassumption) ltac:(eassumption)).
  - constructor; simpl; try done.
    + intros s. destruct (stages st g); [done|]. apply H1.
    + intros s. destruct (stages st g) eqn:Eg; [done|]. intros Hs. rewrite tombstone_insert_other; [by apply H2|]. by eapply stages_false.
    + intros s r. destruct (stages st g); [done|]. apply H4.
Qed.
Lemma slot_step cfg t ev o o' : SlotOk cfg t o -> honest t ev -> SlotStep cfg t ev o o' -> SlotOk cfg t o'.
Proof.
  intros Ho Hh H. revert Ho. destruct H as [o1| |o1 st Hs|o1 _]; intros Ho st1 E; [by apply Ho|injection E as <-; apply default_ok| |done].
  injection E as <-. eapply state_step; [|exact Hh|exact Hs]. destruct o1; [by apply Ho|apply default_ok].
Qed.

(** ** Every kernel its owner can reach *)

Definition KernelOk (k : Kernel) : Prop := forall t, SlotOk (history_config k) t (terminals k !! t).
Definition op_honest (o : KernelOp) : Prop := op_input_ok o /\ forall t, honest t (op_event t o).
Lemma run_op_ok k o : KernelOk k -> op_honest o -> KernelOk (run_op payload_digest k o).
Proof.
  intros Hk [Hi Hh] t. destruct (run_op_slots payload_digest k o Hi) as [Ec Hs]. rewrite Ec. eapply slot_step; [apply Hk|apply Hh|apply Hs].
Qed.
Lemma run_ops_ok ops k : KernelOk k -> Forall op_honest ops -> KernelOk (fold_left (run_op payload_digest) ops k).
Proof.
  intros Hk Hops. revert k Hk. induction Hops as [|o ops Ho _ IH]; intros k Hk; [done|]. apply IH. by apply run_op_ok.
Qed.
Lemma kernel_new_ok a profile cfg : KernelOk (with_history_config a profile cfg).
Proof. intros t st E. simpl in E. by rewrite lookup_empty in E. Qed.

(** ** What was heard

    The chunks of a generation that came in order since it was last begun; frames come again, early or late without counting. *)
Definition heard_event (g : GenerationId) (h : Z) (ev : TermEvent) : Z :=
  match ev with
  | Ev_begin key _ _ => if bool_decide (generation_of key = g) then 0 else h
  | Ev_chunk g' seq _ => if bool_decide (g' = g) && (seq =? h) then h + 1 else h
  | _ => h
  end.
Definition heard (t : ResourceId) (g : GenerationId) (ops : list KernelOp) : Z := fold_left (fun h o => heard_event g h (op_event t o)) ops 0.
(** The end of a transcript is heard after the whole of it, as a connection that loses nothing delivers it. *)
Definition whole (t : ResourceId) (g : GenerationId) (ops : list KernelOp) : Prop :=
  forall pre o post, ops = pre ++ o :: post -> op_event t o = Ev_ready g -> heard t g pre = sent_count S t g.
Lemma heard_snoc t g ops o : heard t g (ops ++ [o]) = heard_event g (heard t g ops) (op_event t o).
Proof. unfold heard. by rewrite fold_left_app. Qed.
Lemma whole_snoc t g ops o : whole t g (ops ++ [o]) -> whole t g ops /\ (op_event t o = Ev_ready g -> heard t g ops = sent_count S t g).
Proof. intros H. split; [|by apply (H ops o [])]. intros pre o' post ->. apply (H pre o' (post ++ [o])). by rewrite <- app_assoc. Qed.
Lemma heard_nonneg t g ops : 0 <= heard t g ops.
Proof.
  induction ops as [|o ops IH] using rev_ind; [done|]. rewrite heard_snoc. unfold heard_event. destruct (op_event t o); try done; case_bool_decide; simpl; try lia. destruct (_ =? _); lia.
Qed.

(** A staging took what was heard, unless its engine wanted no more of it; so did what is shown. *)
Record Track (h : GenerationId -> Z) (w : GenerationId -> Prop) (t : ResourceId) (st : Terminal) : Prop := mkTrack {
  tr_staged : forall s, staging st = Some s -> sg_protocol_ready s = false -> exists n,
    Staged t (generation_of (sg_key s)) n (sg_engine_ready s) (sg_engine s) /\ 0 <= n <= sent_count S t (generation_of (sg_key s)) `max` 0
    /\ (sg_next_chunk_seq s = Some n \/ sg_next_chunk_seq s = None /\ u32_max < n)
    /\ (h (generation_of (sg_key s)) <= n \/ sg_engine_ready s = true);
  tr_shown : forall r, published st = Some r -> exists n e,
    Shown t (generation_of (rp_key r)) n e (rp_last_seq r) (rp_engine r) /\ 0 <= n <= sent_count S t (generation_of (rp_key r)) `max` 0
    /\ (w (generation_of (rp_key r)) -> n = sent_count S t (generation_of (rp_key r)) \/ e = true)
}.
(** The call passes over the chunk a staging waits for. *)
Definition misses (st : Terminal) (ev : TermEvent) : Prop :=
  exists s n payload, staging st = Some s /\ ev = Ev_chunk (generation_of (sg_key s)) n payload /\ sg_engine_ready s = false
    /\ sg_next_chunk_seq s = Some n.
Section Turn.
  Context (h : GenerationId -> Z) (w : GenerationId -> Prop) (t : ResourceId) (ev : TermEvent) (Hn : forall g, 0 <= h g).
Let h' g := heard_event g (h g) ev.
Let w' g := w g /\ (ev = Ev_ready g -> h g = sent_count S t g).
Lemma track_same st : honest t ev -> ~ misses st ev -> Track h w t st -> Track h' w' t st.
Proof.
  intros Hh Hm [H1 H2]. constructor.
  - intros s Es Hp. destruct (H1 s Es Hp) as (n & Hs & Hb & Hnext & Hl). exists n. do 3 (split; [done|]). destruct Hl as [Hl|Hl]; [|by right].
    unfold h', heard_event. destruct ev as [key ? ?|g' seq payload| | | | | |] eqn:Eev; try by left.
    + left. case_bool_decide; [lia|done].
    + case_bool_decide as Eg; [|by left]. subst g'. simpl. destruct (Z.eqb_spec seq (h (generation_of (sg_key s)))) as [E|]; [|by left].
      destruct (sg_engine_ready s) eqn:Er; [by right|]. left. destruct Hnext as [Hnext|[_ Hnext]]; [|destruct Hh as (_ & _ & ?); lia].
      destruct (Z.eq_dec n seq) as [->|]; [|lia]. exfalso. apply Hm. by exists s, seq, payload.
  - intros r Er. destruct (H2 r Er) as (n & e & Hs & Hb & Hw). exists n, e. do 2 (split; [done|]). intros [? _]. by apply Hw.
Qed.
Lemma track_step cfg st st' : StateOk cfg t st -> honest t ev -> TermStep cfg t ev st st' -> Track h w t st -> Track h' w' t st'.
Proof.
  intros [O1 _ O3 _] Hh Hstep [H1 H2]. unfold h', w'. clear h' w'.
  assert (Hpub : forall r, published st = Some r -> exists n e, Shown t (generation_of (rp_key r)) n e (rp_last_seq r) (rp_engine r)
    /\ 0 <= n <= sent_count S t (generation_of (rp_key r)) `max` 0
    /\ ((w (generation_of (rp_key r)) /\ (ev = Ev_ready (generation_of (rp_key r)) -> h (generation_of (rp_key r)) = sent_count S t (generation_of (rp_key r))))
        -> n = sent_count S t (generation_of (rp_key r)) \/ e = true)).
  { intros r Er. destruct (H2 r Er) as (n & e & Hs & Hb & Hw). exists n, e. do 2 (split; [done|]). intros [? _]. by apply Hw. }
  destruct Hstep as [key geometry base a engine a' st Ht Hf Ha|key geometry base st Hf
    |s seq payload a progress engine captured a' st [Es Er] Hready Hseq Ha|s ev st [Es Er] Hev|s s' st [Es Er] Hp E1 E1g E1b E2 E3
    |s a progress engine captured a1 engine' a2 st r [Es Er] Hp Ha Hc E1 E2 E3 E4 E5 [newest E6]
    |r seq payload a engine captured a' r' st [Ep Er] Hseq Ha E1 E2 E3 E4 HL HH|r seq payload st [Ep Er]|r r' st Ep Hm|g record st].
  - destruct Hh as (Eprof & Egeo & _). constructor; [|done]. simpl. intros s [= <-] _. exists 0. simpl.
    rewrite Eprof, Egeo in Ha. split; [by eapply Staged_start|]. split; [lia|]. split; [by left|]. left. by rewrite bool_decide_eq_true_2.
  - constructor; [|done]. simpl. intros s Es Hp. destruct (H1 s Es Hp) as (n & Hs & Hb & Hnext & Hl). exists n. do 3 (split; [done|]).
    case_bool_decide; [|done]. left. lia.
  - destruct Hh as (-> & Hseq0 & Hseq1). constructor; [|done]. simpl. intros s0 [= <-] Hp. simpl. destruct (H1 s Es Hp) as (n & Hs & Hb & Hnext & Hl).
    destruct Hnext as [Hnext|[Hnext _]]; [|congruence]. assert (n = seq) as -> by congruence. rewrite Hready in Hs, Hl |- *. exists (seq + 1).
    split; [by eapply Staged_chunk|]. split; [lia|]. split; [unfold next_u32; destruct (Z.eqb_spec seq u32_max); [right; split; [done|lia]|by left]|].
    rewrite bool_decide_eq_true_2 by done. simpl. destruct Hl as [Hl|]; [|done]. left. destruct (Z.eqb_spec seq (h (generation_of (sg_key s)))); lia.
  - constructor; [done|exact Hpub].
  - constructor; [|exact Hpub]. simpl. intros s0 [= <-]. congruence.
  - constructor; [done|]. simpl. intros r0 [= <-]. destruct (O1 _ Es) as [_ S2 S3 S4 _]. destruct (H1 s Es Hp) as (n & Hs & Hb & _ & Hl).
    rewrite E1, E3, S4, E5. exists n, (sg_engine_ready s). split; [by eapply Shown_ready|]. split; [done|]. intros [_ Hw].
    destruct Hl as [Hl|]; [|by right]. left. specialize (Hw eq_refl). specialize (Hn (generation_of (sg_key s))). lia.
  - simpl in Hh. subst payload. pose proof (O3 _ Ep) as [_ _ _ _ P6 _]. rewrite P6 in Hseq.
    assert (seq = rp_last_seq r + 1) as -> by (unfold next_u64 in Hseq; destruct (_ =? _); [done|]; by injection Hseq).
    constructor; [done|]. simpl. intros r0 [= <-]. destruct (Hpub r Ep) as (n & e & Hs & Hb & Hw). rewrite E1, E3. exists n, e. split; [|done].
    eapply Shown_local; [|exact HL]. by eapply Shown_output.
  - constructor; [done|done].
  - constructor; [done|]. simpl. intros r0 [= <-]. destruct (Hpub r Ep) as (n & e & Hs & Hb & Hw). destruct Hm as (E1 & _ & E3 & _ & HL & _).
    rewrite E1, E3. exists n, e. split; [|done]. by eapply Shown_local.
  - constructor; [|exact Hpub]. simpl. intros s0 Hs0 Hp. apply (H1 s0); [|done]. by destruct (stages st g).
Qed.
End Turn.

(** ** Retirement is final *)

Definition is_retired (k : Kernel) (t : ResourceId) (g : GenerationId) : Prop := is_Some (tombstone_of k t g).
(** A generation that is retired: not staged, and on the screen only as it was. *)
Definition frozen_since (st st' : Terminal) (g : GenerationId) : Prop :=
  stages st' g = false
  /\ forall r', published st' = Some r' -> generation_of (rp_key r') = g ->
       exists r, published st = Some r /\ rp_key r = rp_key r' /\ rp_last_seq r = rp_last_seq r' /\ Local (rp_engine r) (rp_engine r').
Lemma insert_keeps_some (m : gmap GenerationId TombstoneRecord) g g' rec : is_Some (m !! g) -> is_Some (<[g' := rec]> m !! g).
Proof. intros H. destruct (decide (g' = g)) as [->|]; [rewrite lookup_insert_eq; by eexists|by rewrite lookup_insert_ne]. Qed.
Lemma tombstone_insert_some st g g' rec : is_Some (retired st !! g) -> is_Some (tombstone_insert st g' rec !! g).
Proof. intros H. unfold tombstone_insert. destruct (retired st !! g'); [done|]. by apply insert_keeps_some. Qed.
Lemma frozen_refl st g : stages st g = false -> frozen_since st st g.
Proof. intros H. split; [done|]. intros r E _. exists r. repeat split; try done. apply Local_refl. Qed.
Lemma frozen_trans st st1 st2 g : frozen_since st st1 g -> frozen_since st1 st2 g -> frozen_since st st2 g.
Proof.
  intros [_ H1] [H2 H3]. split; [done|]. intros r2 E2 Eg. destruct (H3 r2 E2 Eg) as (r1 & E1 & K1 & L1 & M1).
  destruct (H1 r1 E1) as (r & E & K & L & M); [by rewrite K1|]. exists r. repeat split; try congruence. by eapply Local_trans.
Qed.
Lemma frozen_same st st' g : stages st' g = false -> published st' = published st -> frozen_since st st' g.
Proof. intros H E. split; [done|]. intros r Er _. exists r. rewrite <- E. repeat split; try done. apply Local_refl. Qed.
Lemma stages_other st s g : staging st = Some s -> generation_of (sg_key s) <> g -> stages st g = false.
Proof. intros E H. unfold stages. rewrite E. by apply bool_decide_eq_false_2. Qed.
Lemma retired_step cfg t ev st st' g :
  StateOk cfg t st -> TermStep cfg t ev st st' -> is_Some (retired st !! g) -> is_Some (retired st' !! g) /\ frozen_since st st' g.
Proof.
  intros [_ H2 _ _] Hstep Hg. assert (Hs : stages st g = false).
  { unfold stages. destruct (staging st) as [s|] eqn:E; [|done]. apply bool_decide_eq_false_2. intros Eg.
    specialize (H2 s eq_refl). rewrite Eg in H2. rewrite H2 in Hg. by destruct Hg. }
  assert (Hne : forall g', retired st !! g' = None -> g' <> g) by (intros g' E ->; rewrite E in Hg; by destruct Hg).
  destruct Hstep as [key geometry base a engine a' st Ht (Hf1 & Hf2 & Hf3) Ha|key geometry base st (Hf1 & Hf2 & Hf3)
    |s seq payload a progress engine captured a' st [Es Er] Hready Hseq Ha|s ev st [Es Er] Hev|s s' st [Es Er] Hp E1 E1g E1b E2 E3
    |s a progress engine captured a1 engine' a2 st r [Es Er] Hp Ha Hc E1 E2 E3 E4 E5 E6
    |r seq payload a engine captured a' r' st [Ep Er] Hseq Ha E1 E2 E3 E4 HL HH|r seq payload st [Ep Er]|r r' st Ep Hm|g' record st]; simpl.
  - split; [destruct (staging st); [by apply insert_keeps_some|done]|]. apply frozen_same; [|done]. by eapply stages_other, Hne.
  - split; [by apply insert_keeps_some|]. by apply frozen_same.
  - split; [done|]. apply frozen_same; [|done]. eapply stages_other; [done|]. by apply Hne.
  - split; [by apply insert_keeps_some|]. by apply frozen_same.
  - split; [done|]. apply frozen_same; [|done]. eapply stages_other; [done|]. rewrite E1. by apply Hne.
  - split; [destruct (published st); [by apply tombstone_insert_some|done]|]. split; [done|]. intros r' [= <-] Eg. rewrite E1 in Eg.
    exfalso. by apply (Hne _ Er).
  - split; [done|]. split; [done|]. intros r0 [= <-] Eg. rewrite E1 in Eg. exfalso. by apply (Hne _ Er).
  - split; [by apply insert_keeps_some|]. by split.
  - split; [done|]. split; [done|]. intros r0 [= <-] Eg. destruct Hm as (E1 & E2 & E3 & E4 & HL & _). by exists r.
  - split; [by apply tombstone_insert_some|]. apply frozen_same; [|done]. unfold stages in *. simpl.
    destruct (staging st) as [s|]; [|done]. by destruct (bool_decide (_ = g')).
Qed.
(** Once a generation is retired it never comes back while its terminal lives: it stays retired, it is never staged or published
    again, and if its last picture is still on the screen it stays exactly there, its live sequence never moving, until a
    replacement takes its place. Only closing or releasing the terminal forgets it. *)
Theorem retired_is_final a profile cfg ops later t g :
  Forall op_honest ops -> Forall op_honest later -> Forall (fun o => op_event t o <> Ev_gone) later ->
  let k := fold_left (run_op payload_digest) ops (with_history_config a profile cfg) in
  let k' := fold_left (run_op payload_digest) later k in
  is_retired k t g ->
  is_retired k' t g
  /\ forall st st', terminals k !! t = Some st -> terminals k' !! t = Some st' -> frozen_since st st' g.
Proof.
  intros Hops Hl Hgone k. assert (Hk : KernelOk k) by by apply run_ops_ok; [apply kernel_new_ok|]. clearbody k. clear Hops.
  intros k'. unfold is_retired, tombstone_of. intros Hr. destruct (terminals k !! t) as [st|] eqn:Est; [|by destruct Hr]. simpl in Hr.
  enough (H : exists st', terminals k' !! t = Some st' /\ is_Some (retired st' !! g) /\ frozen_since st st' g).
  { destruct H as (st' & Est' & H1 & H2). rewrite Est'. split; [done|]. intros ? ? [= <-] [= <-]. done. }
  unfold k'. clear k'. assert (Hst : frozen_since st st g).
  { apply frozen_refl. unfold stages. destruct (staging st) as [s|] eqn:E; [|done]. apply bool_decide_eq_false_2. intros Eg.
    pose proof (st_live _ _ _ (Hk t st Est) s E) as Hn. rewrite Eg in Hn. rewrite Hn in Hr. by destruct Hr. }
  revert Hst. generalize st at 1 3 as st0. revert k st Hk Est Hr Hgone. induction Hl as [|o later Ho _ IH]; intros k st Hk Est Hr Hgone st0 Hf; [by exists st|].
  inversion Hgone as [|? ? Hg Hgs]; subst. simpl. pose proof (run_op_ok k o Hk Ho) as Hk1. destruct Ho as [Hi _].
  destruct (run_op_slots payload_digest k o Hi) as [_ Hslot]. specialize (Hslot t). rewrite Est in Hslot.
  remember (run_op payload_digest k o) as k1. inversion Hslot as [o1 E1 E2|E1|o1 st1 Hs E1 E2|o1 E1]; subst o1; try done.
  - by apply (IH k1 st).
  - simpl in Hs. destruct (retired_step _ _ _ _ _ g (Hk t st Est) Hs Hr) as [Hr1 Hf1]. apply (IH k1 st1); try done. by eapply frozen_trans.
Qed.
End Replay.

(** ** Small runs *)

Definition pane : ResourceId := ResourceId_Local 7.
Definition live : list Z := [101; 102].
Definition toy_sent : Sent :=
  mkSent (fun _ _ => StreamProfile_SynthesizedVtRaw) (fun _ _ => mkGeometry 80 24) (fun _ _ => 0) (fun _ _ => 2) (fun _ _ n => [n]) (fun _ _ n => [100 + n]).
Lemma honest_at S t0 ev : honest S t0 ev -> forall t, honest S t (ev_at t0 t ev).
Proof. intros H t. unfold ev_at. case_bool_decide; [by subst|done]. Qed.
(** Chunk 0 comes twice. *)
Definition begun : list KernelOp :=
  [Op_update (In_BootstrapBegin pane 1 1 StreamProfile_SynthesizedVtRaw (mkGeometry 80 24) 0);
   Op_update (In_BootstrapChunk pane 1 1 0 [0]); Op_update (In_BootstrapChunk pane 1 1 0 [0]); Op_update (In_BootstrapChunk pane 1 1 1 [1]); Op_update (In_BootstrapReady pane 1 1 None)].
(** Frame 3 comes early, frame 1 twice. *)
Definition jumbled : list KernelOp :=
  [Op_update (In_ResourceOutput pane 1 1 1 [101]); Op_update (In_ResourceOutput pane 1 1 3 [103]); Op_update (In_ResourceOutput pane 1 1 1 [101]);
   Op_update (In_ResourceOutput pane 1 1 2 [102])].
Lemma toy_honest : Forall (op_honest toy_sent) (begun ++ jumbled).
Proof. repeat (apply Forall_cons; split; [split; [exact I|]; apply honest_at; done|]). constructor. Qed.
Definition toy_run (ops : list KernelOp) : @SessionKernel ToyAdapter ToyReplica toy_json :=
  fold_left (run_op id) ops (with_history_config tt Profile_SynthesizedVtRaw HistoryCacheConfig_default).
Definition shown_pane (k : @SessionKernel ToyAdapter ToyReplica toy_json) : option (@PublishedReplica ToyReplica) := st ← terminals k !! pane; published st.
Definition retirement : list KernelOp := [Op_update (In_Tombstone pane 1 1 TombstoneReason_OutboundGap 2)].
Definition afterwards : list KernelOp :=
  [Op_update (In_ResourceOutput pane 1 1 3 [103]); Op_update (In_BootstrapBegin pane 1 1 StreamProfile_SynthesizedVtRaw (mkGeometry 80 24) 0)].
Lemma retired_is_final_witness :
  is_retired (fold_left (run_op id) afterwards (toy_run (begun ++ jumbled ++ retirement))) pane (1, 1)
  /\ option_map rp_last_seq (shown_pane (fold_left (run_op id) afterwards (toy_run (begun ++ jumbled ++ retirement)))) = Some 2.
Proof.
  split; [|vm_compute; reflexivity].
  apply (retired_is_final id toy_sent tt Profile_SynthesizedVtRaw HistoryCacheConfig_default (begun ++ jumbled ++ retirement) afterwards pane (1, 1)).
  - rewrite app_assoc. apply Forall_app. split; [exact toy_honest|]. apply Forall_cons. split; [split; [exact I|]; apply honest_at; done|constructor].
  - repeat (apply Forall_cons; split; [split; [exact I|]; apply honest_at; done|]). constructor.
  - repeat constructor; vm_compute; discriminate.
  - vm_compute. eexists. reflexivity.
Defined.
