(* ===== verification/KernelGate.v ===== *)
(** * What a client kernel emits

    The effects of every call, for every history of calls: input goes only where the gate lets it,
    the engine answers a program only for live bytes, a frame is acknowledged only when it was
    applied, and nothing is painted behind the attach barrier. *)

From stdpp Require Import gmap.
From S2P Require Import Prelude Enums Caps Codec Ids IdBridge HistoryCache HistoryBounds Engine AgentStream Kernel KernelSteps KernelReplay.

Section Gate.
  Context {Adapter Replica EngineError : Type} {EA : EngineAdapter Adapter Replica EngineError} {J : Json}.
  Context {PA : EnginePresentationAdapter Adapter Replica EngineError} {DA : EngineDocumentAdapter Adapter Replica EngineError}.
  Context (payload_digest : bytes -> bytes).
  Abbreviation Kernel := (@SessionKernel Adapter Replica J).
  Abbreviation Terminal := (@TerminalState Replica).
  Implicit Types (k : Kernel) (st : Terminal).

(** ** Keys and pending effects *)

(** Neither a reply nor damage. *)
Definition silent (e : EngineEffect) : Prop := match e with EngineEffect_Send _ | EngineEffect_Damage _ => False | _ => True end.
(** Keys name the terminal they are filed under; a transcript's replies and damage are not kept. *)
Record Kept (t : ResourceId) (st : Terminal) : Prop := mkKept {
  kp_staging : forall s, staging st = Some s -> rk_terminal (sg_key s) = t /\ (sg_protocol_ready s = false -> Forall silent (sg_pending_effects s));
  kp_published : forall r, published st = Some r -> rk_terminal (rp_key r) = t
}.
Definition AllKept (k : Kernel) : Prop := forall t st, terminals k !! t = Some st -> Kept t st.
Lemma silent_filter es :
  Forall silent (List.filter (fun e => match e with EngineEffect_Send _ | EngineEffect_Damage _ => false | _ => true end) es).
Proof. apply Forall_forall. intros e He%list_elem_of_In%filter_In. destruct He as [_ He]. by destruct e. Qed.
Lemma kept_step cfg t ev st st' :
  Kept t st -> (forall key geometry base, ev = Ev_begin key geometry base -> rk_terminal key = t) -> TermStep cfg t ev st st' -> Kept t st'.
Proof.
  intros [H1 H2] Hk Hstep. destruct Hstep as [key geometry base a engine a' st Ht Hf Ha|key geometry base st Hf
    |s seq payload a progress engine captured a' st [Es Er] Hready Hseq Ha|s ev st [Es Er] Hev|s s' st [Es Er] Hp E1 E1g E1b E2 E3
    |s a progress engine captured a1 engine' a2 st r [Es Er] Hp Ha Hc E1 E2 E3 E4 E5 E6
    |r seq payload a engine captured a' r' st [Ep Er] Hseq Ha E1 E2 E3 E4 HL HH|r seq payload st [Ep Er]|r r' st Ep Hm|g' record st];
    constructor; simpl; try done.
  - intros s [= <-]. simpl. split; [done|]. intros _. constructor.
  - intros s0 [= <-]. destruct (H1 _ Es) as [Hs1 Hs2]. simpl. split; [done|]. intros Hp. apply Forall_app. split; [by apply Hs2|apply silent_filter].
  - intros s0 [= <-]. destruct (H1 _ Es) as [Hs1 _]. rewrite E1, E2. done.
  - intros r0 [= <-]. rewrite E1. by apply H1.
  - intros r0 [= <-]. rewrite E1. by apply H2.
  - intros r0 [= <-]. destruct Hm as (-> & _). by apply H2.
  - intros s. destruct (stages st g'); [done|]. apply H1.
Qed.
Lemma event_key t o key geometry base : op_event t o = Ev_begin key geometry base -> rk_terminal key = t.
Proof.
  destruct o as [i| | | | | | | | | | |]; simpl; unfold ev_at; try (case_bool_decide; done); [|done].
  destruct i; simpl; unfold ev_at; try (case_bool_decide; [|done]); try done. by intros [= <- _ _].
Qed.
Lemma run_op_kept k o : AllKept k -> op_input_ok o -> AllKept (run_op payload_digest k o).
Proof.
  intros Hk Hi t st Est. destruct (run_op_slots payload_digest k o Hi) as [_ Hs]. specialize (Hs t). rewrite Est in Hs. pose proof (Hk t) as Hkt.
  inversion Hs as [o1 E1 E2|E1 E2|o1 st1 Hs1 E1 E2|o1 E1]; subst.
  - by apply Hkt.
  - by constructor.
  - eapply kept_step; [|intros; by eapply event_key|exact Hs1]. destruct (terminals k !! t); [by apply Hkt|by constructor].
Qed.
Lemma run_ops_kept ops k : AllKept k -> Forall op_input_ok ops -> AllKept (fold_left (run_op payload_digest) ops k).
Proof. intros Hk Hops. revert k Hk. induction Hops as [|o ops Ho _ IH]; intros k Hk; [done|]. apply IH. by apply run_op_kept. Qed.
Lemma kernel_new_kept a profile cfg : AllKept (with_history_config a profile cfg).
Proof. intros t st E. simpl in E. by rewrite lookup_empty in E. Qed.

(** ** The gate *)

(** The published generation an input speaks to. *)
Definition speaks_to (k : Kernel) (t : ResourceId) (g : GenerationId) : Prop :=
  exists st r, terminals k !! t = Some st /\ published st = Some r /\ generation_of (rp_key r) = g /\ retired st !! g = None.
Definition gated (k : Kernel) (i : KernelInput) (res : result (KernelError EngineError) unit) (k' : Kernel) (e : KernelEffect) : Prop :=
  match e with
  | Effect_Send (Send_Input t event) => i = In_Action (Action_Input t event) /\ exists s b, input_eligibility k t = Eligible s b
  | Effect_Send (Send_PtyWrite t _) =>
      exists s b, speaks_to k t (s, b)
        /\ ((exists seq payload, i = In_ResourceOutput t s b seq payload)
            \/ exists n rows payload cursor next, i = In_HistoryPage t s b n rows payload cursor next)
  | Effect_Send (Send_FrameAck t s b seq) => res = Ok tt /\ speaks_to k t (s, b) /\ exists payload, i = In_ResourceOutput t s b seq payload
  | Effect_Damage t _ => attach_blocks k' t = false
  | _ => True
  end.
Definition all_gated (k : Kernel) (i : KernelInput) (d : result (KernelError EngineError) unit * Kernel * list KernelEffect) : Prop :=
  Forall (gated k i d.1.1 d.1.2) d.2.
(** An effect no gate concerns. *)
Definition plain (e : KernelEffect) : Prop :=
  match e with Effect_Send (Send_HistoryRequest _ _ _ _) | Effect_Status _ | Effect_Job _ _ | Effect_AgentRecords _ _ => True | _ => False end.
Lemma plain_gated k i res k' es : Forall plain es -> Forall (gated k i res k') es.
Proof. intros H. eapply Forall_impl; [exact H|]. intros [[]| | | |]; done. Qed.
Lemma translated (P : KernelEffect -> Prop) key allowed es :
  (forall e, plain e -> P e) -> (forall bs, EngineEffect_Send (EngineSend_PtyWrite bs) ∈ es -> P (Effect_Send (Send_PtyWrite (rk_terminal key) bs))) ->
  (forall d, allowed = true -> P (Effect_Damage (rk_terminal key) d)) ->
  Forall P (flat_map (translate_engine_effect key allowed) es).
Proof.
  intros Hp Hw Hd. induction es as [|e es IH]; simpl; [constructor|]. apply Forall_app. split.
  - destruct e as [[bs]|d| |]; simpl; [|destruct allowed; [|constructor]| |]; (constructor; [|constructor]);
      [apply Hw; by left|by apply Hd|by apply Hp..].
  - apply IH. intros bs Hb. apply Hw. by right.
Qed.
Lemma gated_or_return {A} k0 i k (r : result (KernelError EngineError) A) body :
  (forall a, r = Ok a -> all_gated k0 i (body a)) ->
  all_gated k0 i (or_return k r body).
Proof. intros H. destruct r; [by apply H|constructor]. Qed.

Lemma attach_mark_blocks k t f t' : (forall p, ap_terminal (f p) = ap_terminal p) -> attach_blocks (mark_attach k t f) t' = attach_blocks k t'.
Proof.
  intros Hf. unfold attach_blocks, mark_attach. destruct (attach k) as [at'|] eqn:E; [|by rewrite E]. simpl. f_equal.
  unfold participates. simpl. induction (participants at') as [|p ps IH]; simpl; [done|].
  destruct (bool_decide (ap_terminal p = t)); simpl; [by rewrite Hf|by rewrite IH].
Qed.
Lemma released_gated k i k' (ps : list AttachParticipant) res :
  (forall t, attach_blocks k' t = false) -> Forall (gated k i res k') (flat_map (release_effects k) ps).
Proof.
  intros Hb. induction ps as [|p ps IH]; simpl; [constructor|]. apply Forall_app. split; [|done]. unfold release_effects.
  destruct (ap_pending_removal p); [by constructor; [apply Hb|]|]. destruct (terminals k !! _) as [[[r|] s ret]|]; try constructor; simpl; [apply Hb|done].
Qed.

Lemma attach_ready_gated k i aid :
  all_gated k i (attach_ready k aid).
Proof.
  unfold attach_ready. destruct (attach k) as [at'|]; [|constructor]. destruct (negb (_ =? aid)); [constructor|].
  destruct (negb (_ =? 0)); [constructor|]. destruct (released at'); [constructor|]. by apply released_gated.
Qed.
Lemma attach_started_silent k aid ids : (attach_started (EngineError := EngineError) k aid ids).2 = [].
Proof.
  unfold attach_started. cbv zeta. set (start := or_return _ _ _). assert (H : start.2 = []).
  { unfold start. destruct (check_inventory _ _ _); [|done]. simpl. by destruct (expect_terminals k ids) as [[[]|e] k1]. }
  destruct (attach k) as [at'|]; [|done]. by destruct (negb _).
Qed.
Lemma bootstrap_begin_plain k t s b p g base : Forall plain (bootstrap_begin k t s b p g base).2.
Proof.
  unfold bootstrap_begin. destruct (ensure_open k t); [|constructor]. simpl. destruct (negb _); [constructor|]. destruct (_ || _); [constructor|].
  destruct (bool_decide _); [constructor|]. destruct (_ || _); [constructor|]. destruct (start_replica _ _ _) as [[r|e] ad]; by repeat constructor.
Qed.
Lemma bootstrap_chunk_plain k t s b n payload : Forall plain (bootstrap_chunk k t s b n payload).2.
Proof.
  unfold bootstrap_chunk. destruct (ensure_open k t); [|constructor]. simpl. destruct (staging_of k t _) as [[st sg]|]; [|constructor]. simpl.
  destruct (sg_engine_ready sg); [constructor|]. destruct (expect_chunk _ _); [|constructor]. simpl.
  destruct (apply_bootstrap_chunk _ _ _) as [[[[p|e] engine] captured] ad]; by repeat constructor.
Qed.
Lemma publish_gated k0 i k t res :
  (forall st s, terminals k !! t = Some st -> staging st = Some s -> rk_terminal (sg_key s) = t /\ Forall silent (sg_pending_effects s)) ->
  Forall (gated k0 i res (publish k t).1.2) (publish k t).2.
Proof.
  intros Hk. unfold publish. destruct (terminals k !! t) as [st|]; [|constructor]. destruct (staging st) as [s|] eqn:Es; [|constructor].
  destruct (Hk st s eq_refl Es) as [Ht Hq]. destruct (configure_history_budget _ _ _ _) as [[[[]|e] engine] a]; [|constructor].
  destruct (replica_of _ _ _) as [cursor r]. cbv zeta. set (k1 := put_terminal _ _ _). set (k' := mark_attach_resolved k1 t). cbn [fst snd].
  apply Forall_app. split; [|apply Forall_app; split].
  - apply translated; [intros e He; by destruct e as [[]| | | |]| |].
    + intros bs Hb. rewrite Forall_forall in Hq. by apply Hq in Hb.
    + intros d Hd. rewrite Ht. simpl. by apply negb_true_iff.
  - destruct cursor; by repeat constructor.
  - destruct (negb (attach_blocks k' t)) eqn:Ed; [|constructor]. constructor; [|constructor]. by apply negb_true_iff.
Qed.
Lemma bootstrap_ready_gated k i t s b cursor : AllKept k ->
  all_gated k i (bootstrap_ready k t s b cursor).
Proof.
  intros Hk. apply gated_or_return. intros [] _. apply gated_or_return. intros [st sg] (Est & [Es _] & _)%staging_of_spec.
  destruct (sg_protocol_ready sg) eqn:Ep; [constructor|]. destruct (finish_bootstrap _ _) as [[[[p|e] engine] captured] a].
  2: { by repeat constructor. }
  cbv zeta. cbn [sg_engine_ready sg_base_seq]. destruct (negb (sg_engine_ready sg || is_ready p)); [by repeat constructor|].
  apply publish_gated. intros st1 s1. simpl. rewrite lookup_insert_eq. intros [= <-] [= <-]. simpl.
  destruct (Hk _ _ Est) as [H1 _]. destruct (H1 _ Es) as [Ht Hq]. split; [done|]. apply Forall_app. split; [by apply Hq|apply silent_filter].
Qed.
Lemma reconcile_plain a r anchor before r' a' es : reconcile_pinned_anchor a r anchor before = (r', a', es) -> Forall plain es.
Proof.
  unfold reconcile_pinned_anchor, tombstone_history.
  destruct before, (history_anchor_tail_distance _ _ _) as [[d|]|e]; try (destruct (end_history _ _ _)); intros [= <- <- <-]; by repeat constructor.
Qed.
Lemma terminal_output_gated k t s b seq payload : AllKept k ->
  all_gated k (In_ResourceOutput t s b seq payload) (terminal_output k t s b seq payload).
Proof.
  intros Hk. apply gated_or_return. intros [] _. apply gated_or_return. intros [st r] (Est & [Er Eret] & Eg)%published_replica_spec.
  apply gated_or_return. intros [] _. apply gated_or_return. intros before _. pose proof (kp_published _ _ (Hk _ _ Est) _ Er) as Ht.
  assert (Hsp : speaks_to k t (s, b)) by (exists st, r; by rewrite <- Eg).
  destruct (apply_output _ _ _) as [[[[[]|e] engine] captured] a].
  - set (m := match pinned_anchor r with Some _ => _ | None => _ end).
    assert (Hm : Forall plain m.2 /\ rp_key m.1.1 = rp_key r).
    { unfold m. destruct (pinned_anchor r) as [anchor|]; [|by split; [constructor|]].
      destruct (reconcile_pinned_anchor _ _ _ _) as [[r1 a1] es] eqn:E. split; [by eapply reconcile_plain|].
      apply reconcile_local in E as (E & _); [exact E|exact payload_digest]. }
    destruct m as [[r' a'] noticed]. simpl in Hm. destruct Hm as [Hn Ek]. cbv zeta. cbn [fst snd].
    apply Forall_app. split; [by apply plain_gated|]. apply Forall_app. split.
    + unfold drain_engine_effects. cbn [rp_key]. rewrite Ek. apply translated; [intros e He; by destruct e as [[]| | | |]| |].
      * intros bs _. rewrite Ht. exists s, b. split; [done|]. left. by eexists _, _.
      * intros d Hd. rewrite Ht. by apply negb_true_iff.
    + cbn [rp_key]. destruct (rk_profile _); try constructor; [|constructor]. simpl. split; [done|]. split; [done|]. by eexists.
  - unfold retire_after_codec_failure. cbv zeta. cbn [fst snd]. constructor; [done|].
    match goal with |- context [mark_attach_unresolved ?x ?y ?z] => set (k1 := x) end.
    destruct (attach_blocks k1 t) eqn:Eb; [constructor|]. constructor; [|constructor]. simpl. unfold mark_attach_unresolved.
    by rewrite attach_mark_blocks.
Qed.
Lemma history_page_gated k t s b n rows payload cursor next : AllKept k ->
  all_gated k (In_HistoryPage t s b n rows payload cursor next) (history_page payload_digest k (mkPageInput t (s, b) n rows payload cursor next)).
Proof.
  intros Hk. apply gated_or_return. intros [] _. apply gated_or_return. intros [st r] (Est & [Er Eret] & Eg)%published_replica_spec.
  simpl in Est, Eg. pose proof (kp_published _ _ (Hk _ _ Est) _ Er) as Ht.
  assert (Hsp : speaks_to k t (s, b)) by (exists st, r; by rewrite <- Eg).
  assert (Htomb : forall a r why, Forall plain (tombstone_history a r why).2).
  { intros a r0 why. unfold tombstone_history. destruct (end_history _ _ _). by repeat constructor. }
  destruct (is_locally_cleared _); [constructor|]. destruct (check_page _ _ _ _ _ _ _) as [[|id]|e]; [|by repeat constructor|].
  - unfold import_history_page. simpl. destruct (apply_history_page _ _ _) as [[[res engine] captured] a].
    assert (Hrej : forall a (rej : @HistoryPageRejection EngineError) r0, all_gated k (In_HistoryPage t s b n rows payload cursor next)
              (let '(r, a, effects) := tombstone_history a r0 (rj_reason rej) in
               (match rj_error rej with Some e => Err e | None => Ok tt end, put_published (with_adapter k a) t st r, effects))).
    { intros a0 rej r0. pose proof (Htomb a0 r0 (rj_reason rej)) as Hp. destruct (tombstone_history _ _ _) as [[r1 a1] es]. by apply plain_gated. }
    destruct res as [o|e]; [|apply Hrej]. destruct (_ && _ && _); [apply Hrej|]. destruct (negb _); [apply Hrej|].
    destruct (accept_page _ _ _ _ _ _ _ _) as [[id h]|e]; [|apply Hrej]. cbv zeta.
    destruct (if should_auto_continue _ then _ else _) as [nx h']. cbn [fst snd]. apply Forall_app. split.
    + unfold drain_engine_effects. apply translated; [intros e He; by destruct e as [[]| | | |]| |].
      * intros bs _. simpl. rewrite Ht. exists s, b. split; [done|]. right. by eexists _, _, _, _, _.
      * intros d Hd. simpl. rewrite Ht. by apply negb_true_iff.
    + apply plain_gated. constructor; [done|]. destruct nx; by repeat constructor.
  - pose proof (Htomb (adapter k) r Unavailable_CodecFailure) as Hp. destruct (tombstone_history _ _ _) as [[r1 a1] es]. by apply plain_gated.
Qed.
Lemma history_tombstone_plain k t s b cursor why : Forall plain (history_tombstone (EngineError := EngineError) k t s b cursor why).2.
Proof.
  unfold history_tombstone. destruct (ensure_open k t); [|constructor]. simpl. destruct (published_replica k t _) as [[st r]|]; [|constructor]. simpl.
  destruct (invalidate_cursor _ _ _) as [[] h]; [|constructor]. simpl. destruct (end_history _ _ _). by repeat constructor.
Qed.
Lemma history_rejected_plain k t s b cursor why rb rr : Forall plain (history_rejected (EngineError := EngineError) k t s b cursor why rb rr).2.
Proof.
  unfold history_rejected. destruct (ensure_open k t); [|constructor]. simpl. destruct (published_replica k t _) as [[st r]|]; [|constructor]. simpl.
  destruct (cancel_fetch _ _) as [[] h]; [|constructor]. simpl.
  match goal with |- context [let '(_, _) := match ?l with Some _ => _ | None => _ end in _] => destruct (match l with Some _ => _ | None => _ end) as [[[[c mb] mr]|] h'] end;
    destruct (_ && _); try destruct (end_history _ _ _); by repeat constructor.
Qed.
Lemma agent_bootstrap_begin_plain k t s b p base : Forall plain (agent_bootstrap_begin (EngineError := EngineError) k t s b p base).2.
Proof.
  unfold agent_bootstrap_begin. destruct (ensure_open k t); [|constructor]. simpl. destruct (expect_kind k t _); [|constructor]. simpl.
  destruct (bool_decide _); [constructor|]. destruct (_ || _); constructor.
Qed.
Lemma agent_bootstrap_chunk_plain k t s b n payload : Forall plain (agent_bootstrap_chunk (EngineError := EngineError) k t s b n payload).2.
Proof.
  unfold agent_bootstrap_chunk. destruct (ensure_open k t); [|constructor]. simpl. destruct (agent_stream_of k t _); [|constructor]. simpl.
  destruct (agent_staging_of _ t _); [|constructor]. simpl. destruct (expect_chunk _ _); [|constructor]. simpl. destruct (parse_records _); by repeat constructor.
Qed.
Lemma agent_bootstrap_ready_plain k t s b : Forall plain (agent_bootstrap_ready (EngineError := EngineError) k t s b).2.
Proof.
  unfold agent_bootstrap_ready. destruct (ensure_open k t); [|constructor]. simpl. destruct (agent_stream_of k t _); [|constructor]. simpl.
  destruct (agent_staging_of _ t _); [|constructor]. by repeat constructor.
Qed.
Lemma agent_output_plain k t s b n payload : Forall plain (agent_output (EngineError := EngineError) k t s b n payload).2.
Proof.
  unfold agent_output. destruct (ensure_open k t); [|constructor]. simpl. destruct (agent_stream_of k t _); [|constructor]. simpl.
  match goal with |- context [or_return k ?r _] => destruct r; [|constructor] end. simpl. destruct (ok_or _ _); [|constructor]. simpl.
  destruct (_ <? _); [constructor|]. destruct (parse_records _); [|by repeat constructor]. simpl. destruct (validate_agent_batch _ _ _); by repeat constructor.
Qed.
Lemma agent_session_declared_plain k d : Forall plain (agent_session_declared (EngineError := EngineError) k d).2.
Proof.
  unfold agent_session_declared. destruct (ensure_open k _); [|constructor]. simpl. destruct (expect_kind k _ _); [|constructor]. constructor.
Qed.
Lemma terminal_closed_gated k i t : all_gated k i (Ok tt, (terminal_closed k t).1, (terminal_closed k t).2).
Proof.
  unfold all_gated, terminal_closed. cbv zeta. cbn [fst snd]. set (had := match _ with Some _ => _ | None => _ end). destruct (had && negb _) eqn:E; [|constructor].
  apply andb_true_iff in E as [_ E%negb_true_iff]. constructor; [|constructor]. simpl. unfold mark_attach_closed. by rewrite attach_mark_blocks.
Qed.
Lemma update_gated k i : AllKept k -> all_gated k i (update payload_digest k i).
Proof.
  intros Hk. destruct i as [aid ids|aid| | | | | | | | | | |]; simpl.
  - unfold all_gated. rewrite attach_started_silent. constructor.
  - apply attach_ready_gated.
  - destruct (is_agent_profile _); [apply plain_gated, agent_bootstrap_begin_plain|]. apply gated_or_return. intros k1 _. apply plain_gated, bootstrap_begin_plain.
  - case_bool_decide; [apply plain_gated, agent_bootstrap_chunk_plain|]. apply plain_gated, bootstrap_chunk_plain.
  - case_bool_decide; [apply plain_gated, agent_bootstrap_ready_plain|]. by apply bootstrap_ready_gated.
  - by apply history_page_gated.
  - apply plain_gated, history_tombstone_plain.
  - apply plain_gated, history_rejected_plain.
  - case_bool_decide; [apply plain_gated, agent_output_plain|]. by apply terminal_output_gated.
  - constructor.
  - exact (terminal_closed_gated k _ t).
  - apply plain_gated, agent_session_declared_plain.
  - destruct a as [t event]. simpl. destruct (input_eligibility k t) eqn:E; [|constructor]. constructor; [|constructor]. split; [done|]. by eexists _, _.
Qed.
(** C6: After any history of calls, whatever the next input is: a client sends an input event only for the action that asked for it
    and only to a terminal the gate lets it reach; it answers a program only for live output or a history page of the
    generation on the screen, never while replaying a transcript; it acknowledges a frame only when that very frame was applied;
    and it paints nothing of a terminal an unreleased attach still holds back. *)
Theorem effects_are_gated a profile cfg ops i :
  Forall op_input_ok ops ->
  let k := fold_left (run_op payload_digest) ops (with_history_config a profile cfg) in
  let '(res, k', effects) := update payload_digest k i in
  Forall (gated k i res k') effects.
Proof.
  intros Hops k. pose proof (update_gated k i (run_ops_kept ops _ (kernel_new_kept a profile cfg) Hops)) as H.
  by destruct (update payload_digest k i) as [[res k'] effects].
Qed.
End Gate.

(** A live frame is painted and answered; the transcript was not. *)
Lemma effects_are_gated_witness :
  (let '(res, k', es) := update id (toy_run begun) (In_ResourceOutput pane 1 1 1 [101]) in
   Forall (gated (EngineError := ToyError) (toy_run begun) (In_ResourceOutput pane 1 1 1 [101]) res k') es)
  /\ (update id (toy_run begun) (In_ResourceOutput pane 1 1 1 [101])).2 = [Effect_Send (Send_PtyWrite pane [101]); Effect_Damage pane Damage_Full].
Proof.
  split; [|vm_compute; reflexivity].
  apply (effects_are_gated id tt Profile_SynthesizedVtRaw HistoryCacheConfig_default begun (In_ResourceOutput pane 1 1 1 [101])).
  repeat constructor.
Defined.
