(* ===== verification/KernelConverge.v ===== *)
(** * An in-order delivery is shown in full

    With an engine that does its work, a transcript and its live output delivered in order are all
    accepted, whatever state the terminal was in before, and end published at the last sequence; an
    agent's records reach its log contiguously. A toy engine gives the small runs. *)

From stdpp Require Import gmap.
From S2P Require Import Prelude Enums Caps Codec Ids IdBridge HistoryCache HistoryBounds Engine AgentStream Kernel KernelSteps KernelReplay KernelGate.

Section Converge.
  Context {Adapter Replica EngineError : Type} {EA : EngineAdapter Adapter Replica EngineError} {J : Json}.
  Context (payload_digest : bytes -> bytes).
  Abbreviation Kernel := (@SessionKernel Adapter Replica J).
  Implicit Types (k : Kernel).

(** An engine that accepts what it is fed, and is ready when its transcript ends. *)
Record Working : Prop := mkWorking {
  wk_start a p g : exists r a', start_replica a p g = (Ok r, a');
  wk_chunk a r bs : exists r' es a', apply_bootstrap_chunk a r bs = (Ok Progress_Pending, r', es, a');
  wk_finish a r : exists r' es a', finish_bootstrap a r = (Ok Progress_Finished, r', es, a');
  wk_budget a r mb mr : exists r' a', configure_history_budget a r mb mr = (Ok tt, r', a');
  wk_output a r bs : exists r' es a', apply_output a r bs = (Ok tt, r', es, a')
}.

(** Every input is accepted. *)
Fixpoint delivered (k : Kernel) (inputs : list KernelInput) : option Kernel :=
  match inputs with
  | [] => Some k
  | i :: rest => match update payload_digest k i with (Ok _, k', _) => delivered k' rest | _ => None end
  end.
Lemma delivered_app k xs ys k1 : delivered k xs = Some k1 -> delivered k (xs ++ ys) = delivered k1 ys.
Proof.
  revert k. induction xs as [|i xs IH]; intros k; simpl; [by intros [= ->]|].
  destruct (update payload_digest k i) as [[[[]|e] k2] es]; [apply IH|done].
Qed.

Definition open_terminal (k : Kernel) (t : ResourceId) : Prop :=
  t ∉ closed k /\ agents k !! t = None /\ forall kind, kinds k !! t = Some kind -> kind = ResourceKind_Terminal.
(** Waiting for chunk [n] of [g]. *)
Definition awaits_chunk (k : Kernel) (t : ResourceId) (g : GenerationId) (base n : Z) : Prop :=
  open_terminal k t /\ exists st s, terminals k !! t = Some st /\ staging st = Some s /\ generation_of (sg_key s) = g /\ retired st !! g = None
    /\ sg_engine_ready s = false /\ sg_protocol_ready s = false /\ sg_next_chunk_seq s = Some n /\ sg_base_seq s = base
    /\ forall r, published st = Some r -> generation_of (rp_key r) <> g.
(** Showing [g] up to [s]. *)
Definition shows (k : Kernel) (t : ResourceId) (g : GenerationId) (s : Z) : Prop :=
  open_terminal k t /\ exists st r, terminals k !! t = Some st /\ published st = Some r /\ generation_of (rp_key r) = g /\ retired st !! g = None
    /\ rp_last_seq r = s /\ rp_next_seq r = next_u64 s /\ viewport (rp_history r) = Viewport_Tail.
Lemma open_ensure k t : open_terminal k t -> ensure_open (EngineError := EngineError) k t = Ok tt.
Proof. intros (H & _ & _). unfold ensure_open. by rewrite bool_decide_eq_false_2. Qed.
Lemma open_kind k t : open_terminal k t -> exists ks, expect_kind (EngineError := EngineError) k t ResourceKind_Terminal = Ok (with_kinds k ks)
  /\ (forall kind, ks !! t = Some kind -> kind = ResourceKind_Terminal).
Proof.
  intros (_ & _ & H). unfold expect_kind. destruct (kinds k !! t) as [kd|] eqn:E.
  - rewrite (H kd eq_refl), bool_decide_eq_true_2 by done. exists (kinds k). split; [by destruct k|]. intros kind Ek. rewrite Ek in E. injection E as ->. by apply H.
  - eexists. split; [done|]. intros kind. rewrite lookup_insert_eq. by intros [= <-].
Qed.
Lemma mark_attach_open k t f t' : open_terminal k t' -> open_terminal (mark_attach k t f) t'.
Proof. unfold mark_attach. by destruct (attach k). Qed.

Context (W : Working).

Lemma begin_accepted k t stream bootstrap profile geometry base :
  open_terminal k t -> is_agent_profile profile = false -> profile_matches (selected_profile k) profile = true ->
  cols geometry <> 0 -> rows geometry <> 0 -> fresh_for (default TerminalState_default (terminals k !! t)) (stream, bootstrap) ->
  exists k', delivered k [In_BootstrapBegin t stream bootstrap profile geometry base] = Some k' /\ awaits_chunk k' t (stream, bootstrap) base 0.
Proof.
  intros Ho Ha Hp Hc Hr (F1 & F2 & F3). simpl. rewrite Ha. destruct (open_kind k t Ho) as (ks & -> & Hks). simpl.
  assert (Ho1 : open_terminal (with_kinds k ks) t) by (destruct Ho as (? & ? & ?); by repeat split).
  unfold bootstrap_begin. rewrite (open_ensure _ _ Ho1). simpl. rewrite Hp, (proj2 (Z.eqb_neq _ _) Hc), (proj2 (Z.eqb_neq _ _) Hr). simpl.
  assert (Est : default TerminalState_default (ensure_terminal (terminals k) t !! t) = default TerminalState_default (terminals k !! t)).
  { unfold ensure_terminal. destruct (terminals k !! t) eqn:E; [by rewrite E|by rewrite lookup_insert_eq]. }
  rewrite Est. clear Est.
  set (st := default TerminalState_default (terminals k !! t)) in *. rewrite F2, F3.
  rewrite bool_decide_eq_false_2 by (intros [x Hx]; exact (proj1 (eq_None_not_Some _) F1 (ex_intro _ x Hx))). simpl.
  destruct (wk_start W (adapter k) profile geometry) as (r & a' & ->). eexists. split; [done|]. split; [by destruct Ho1 as (? & ? & ?)|].
  simpl. eexists _, _. rewrite lookup_insert_eq. split; [done|]. simpl. repeat split; try done.
  - destruct (staging st) as [old|] eqn:Es; [|done]. rewrite lookup_insert_ne; [done|]. unfold stages in F3. rewrite Es in F3. by apply bool_decide_eq_false in F3.
  - intros r0 Er0 Eg. unfold publishes in F2. rewrite Er0 in F2. by apply bool_decide_eq_false in F2.
Qed.
Lemma chunk_accepted k t stream bootstrap base n payload : awaits_chunk k t (stream, bootstrap) base n -> n < u32_max ->
  exists k', delivered k [In_BootstrapChunk t stream bootstrap n payload] = Some k' /\ awaits_chunk k' t (stream, bootstrap) base (n + 1).
Proof.
  intros (Ho & st & s & Est & Es & Eg & Er & E1 & E2 & E3 & E4 & E5) Hn. simpl. pose proof Ho as (_ & Ha & _). rewrite Ha, bool_decide_eq_false_2 by (by intros [? ?]).
  unfold bootstrap_chunk. rewrite (open_ensure _ _ Ho). simpl. unfold staging_of. rewrite Est, Er, Es, bool_decide_eq_false_2 by (by intros [? ?]).
  rewrite bool_decide_eq_true_2 by done. simpl. rewrite E1, E3. simpl. rewrite !(proj2 (Z.ltb_ge n n)) by lia. simpl.
  destruct (wk_chunk W (adapter k) (sg_engine s) payload) as (r' & es & a' & ->). eexists. split; [done|]. split; [done|].
  simpl. eexists _, _. rewrite lookup_insert_eq. split; [done|]. split; [reflexivity|]. simpl. unfold next_u32. rewrite (proj2 (Z.eqb_neq _ _)) by lia. by split_and!.
Qed.
Lemma ready_accepted k t stream bootstrap base n cursor : awaits_chunk k t (stream, bootstrap) base n ->
  exists k', delivered k [In_BootstrapReady t stream bootstrap cursor] = Some k' /\ shows k' t (stream, bootstrap) base.
Proof.
  intros (Ho & st & s & Est & Es & Eg & Er & E1 & E2 & E3 & E4 & E5). simpl. pose proof Ho as (_ & Ha & _). rewrite Ha, bool_decide_eq_false_2 by (by intros [? ?]).
  unfold bootstrap_ready. rewrite (open_ensure _ _ Ho). simpl. unfold staging_of. rewrite Est, Er, Es, bool_decide_eq_false_2 by (by intros [? ?]).
  rewrite bool_decide_eq_true_2 by done. simpl. rewrite E2. destruct (wk_finish W (adapter k) (sg_engine s)) as (r' & es & a' & ->). simpl.
  rewrite orb_true_r. simpl. unfold publish, replica_of. simpl. rewrite lookup_insert_eq. simpl.
  destruct (wk_budget W a' r' (max_bytes (history_config k)) (max_materialized_rows (history_config k))) as (r'' & a'' & ->).
  match goal with |- context [begin_fetch ?h] => assert (Hv : viewport (begin_fetch h).2 = Viewport_Tail) end.
  { unfold begin_fetch, begin_fetch_with_limits. destruct (_ || _); [done|]. by destruct cursor. }
  match goal with |- context [begin_fetch ?h] => destruct (begin_fetch h) as [c h'] end. simpl in *.
  eexists. split; [done|]. unfold mark_attach_resolved. split; [apply mark_attach_open; by destruct Ho as (? & ? & ?)|].
  match goal with |- context [mark_attach ?x ?y ?f] => destruct (mark_attach_same x y f) as [_ ->] end. simpl. rewrite lookup_insert_eq.
  eexists _, _. split; [done|]. split; [reflexivity|]. simpl. rewrite E4. split_and!; try done. destruct (published st) as [old|] eqn:Ep; [|done].
  rewrite tombstone_insert_other; [done|]. intros E. symmetry in E. by apply (E5 old).
Qed.
Lemma output_accepted k t stream bootstrap s payload : shows k t (stream, bootstrap) s -> s < u64_max ->
  exists k', delivered k [In_ResourceOutput t stream bootstrap (s + 1) payload] = Some k' /\ shows k' t (stream, bootstrap) (s + 1).
Proof.
  intros (Ho & st & r & Est & Ep & Eg & Er & E1 & E2 & E3) Hs. simpl. pose proof Ho as (_ & Ha & _). rewrite Ha, bool_decide_eq_false_2 by (by intros [? ?]).
  unfold terminal_output. rewrite (open_ensure _ _ Ho). simpl. unfold published_replica. rewrite Est, Er, Ep, bool_decide_eq_false_2 by (by intros [? ?]).
  rewrite bool_decide_eq_true_2 by done. simpl. unfold expect_next_seq. rewrite E2. unfold next_u64. rewrite (proj2 (Z.eqb_neq s _)) by lia.
  rewrite !(proj2 (Z.ltb_ge _ _)) by lia. simpl. unfold distance_before, pinned_anchor. rewrite E3. simpl.
  destruct (wk_output W (adapter k) (rp_engine r) payload) as (r' & es & a' & ->). eexists. split; [done|]. split; [done|].
  simpl. eexists _, _. rewrite lookup_insert_eq. split; [done|]. split; [reflexivity|]. simpl. by split_and!.
Qed.

(** Chunks and live frames, numbered from [n]. *)
Fixpoint chunk_inputs (t : ResourceId) (stream bootstrap n : Z) (chunks : list bytes) : list KernelInput :=
  match chunks with [] => [] | c :: cs => In_BootstrapChunk t stream bootstrap n c :: chunk_inputs t stream bootstrap (n + 1) cs end.
Fixpoint output_inputs (t : ResourceId) (stream bootstrap s : Z) (outputs : list bytes) : list KernelInput :=
  match outputs with [] => [] | o :: os => In_ResourceOutput t stream bootstrap (s + 1) o :: output_inputs t stream bootstrap (s + 1) os end.
Lemma chunks_accepted t stream bootstrap base chunks k n :
  awaits_chunk k t (stream, bootstrap) base n -> n + len chunks <= u32_max ->
  exists k', delivered k (chunk_inputs t stream bootstrap n chunks) = Some k' /\ awaits_chunk k' t (stream, bootstrap) base (n + len chunks).
Proof.
  revert k n. induction chunks as [|c cs IH]; intros k n Hk Hn; [exists k; by rewrite Z.add_0_r|].
  unfold len in *. cbn [length chunk_inputs] in *. destruct (chunk_accepted k t stream bootstrap base n c Hk) as (k1 & E1 & H1); [lia|].
  destruct (IH k1 (n + 1) H1) as (k2 & E2 & H2); [lia|]. exists k2. split.
  - change (In_BootstrapChunk t stream bootstrap n c :: ?l) with ([In_BootstrapChunk t stream bootstrap n c] ++ l). by rewrite (delivered_app _ _ _ _ E1).
  - by replace (n + Z.of_nat (S (length cs))) with (n + 1 + Z.of_nat (length cs)) by lia.
Qed.
Lemma outputs_accepted t stream bootstrap outputs k s :
  shows k t (stream, bootstrap) s -> s + len outputs <= u64_max ->
  exists k', delivered k (output_inputs t stream bootstrap s outputs) = Some k' /\ shows k' t (stream, bootstrap) (s + len outputs).
Proof.
  revert k s. induction outputs as [|o os IH]; intros k s Hk Hs; [exists k; by rewrite Z.add_0_r|].
  unfold len in *. cbn [length output_inputs] in *. destruct (output_accepted k t stream bootstrap s o Hk) as (k1 & E1 & H1); [lia|].
  destruct (IH k1 (s + 1) H1) as (k2 & E2 & H2); [lia|]. exists k2. split.
  - change (In_ResourceOutput t stream bootstrap (s + 1) o :: ?l) with ([In_ResourceOutput t stream bootstrap (s + 1) o] ++ l). by rewrite (delivered_app _ _ _ _ E1).
  - by replace (s + Z.of_nat (S (length os))) with (s + 1 + Z.of_nat (length os)) by lia.
Qed.
(** From any state of an open terminal, a fresh generation's BEGIN, its chunks, READY and its live frames are each accepted. *)
Lemma delivery_lands k t stream bootstrap profile geometry base chunks cursor outputs :
  open_terminal k t -> is_agent_profile profile = false -> profile_matches (selected_profile k) profile = true ->
  cols geometry <> 0 -> rows geometry <> 0 -> fresh_for (default TerminalState_default (terminals k !! t)) (stream, bootstrap) ->
  len chunks <= u32_max -> base + len outputs <= u64_max ->
  exists k',
    delivered k (In_BootstrapBegin t stream bootstrap profile geometry base :: chunk_inputs t stream bootstrap 0 chunks
                 ++ In_BootstrapReady t stream bootstrap cursor :: output_inputs t stream bootstrap base outputs) = Some k'
    /\ shows k' t (stream, bootstrap) (base + len outputs).
Proof.
  intros Ho Ha Hp Hc Hr Hf Hn Hs. destruct (begin_accepted k t stream bootstrap profile geometry base Ho Ha Hp Hc Hr Hf) as (k1 & E1 & H1).
  destruct (chunks_accepted t stream bootstrap base chunks k1 0 H1 Hn) as (k2 & E2 & H2).
  destruct (ready_accepted k2 t stream bootstrap base _ cursor H2) as (k3 & E3 & H3).
  destruct (outputs_accepted t stream bootstrap outputs k3 base H3 Hs) as (k4 & E4 & H4). exists k4. split; [|done].
  change (?i :: ?a ++ ?j :: ?b) with ([i] ++ a ++ [j] ++ b).
  by rewrite (delivered_app _ _ _ _ E1), (delivered_app _ _ _ _ E2), (delivered_app _ _ _ _ E3).
Qed.
End Converge.

(** ** Agent records *)

Section Agents.
  Context {Adapter Replica EngineError : Type} {EA : EngineAdapter Adapter Replica EngineError} {J : Json}.
  Context (payload_digest : bytes -> bytes).
  Abbreviation Kernel := (@SessionKernel Adapter Replica J).

(** [n] consecutive numbers from [s]. *)
Fixpoint consecutive (s : Z) (n : nat) : list Z := match n with O => [] | S n => s :: consecutive (s + 1) n end.
Lemma require_spec expected actual : require_agent_sequence (EngineError := EngineError) expected actual = Ok tt -> actual = expected.
Proof. unfold require_agent_sequence. destruct (Z.ltb_spec actual expected), (Z.ltb_spec expected actual); try done. intros _. lia. Qed.
Lemma validate_spec records expected envelope :
  validate_agent_batch (EngineError := EngineError) records expected envelope = Ok tt ->
  records <> [] /\ map ae_seq records = consecutive expected (length records) /\ envelope = expected + len records - 1.
Proof.
  revert expected. induction records as [|r rest IH]; intros expected; [done|]. destruct rest as [|r' rest].
  - simpl. destruct (require_agent_sequence expected _) as [[]|] eqn:E1; [|done]. simpl. intros E2. apply require_spec in E1, E2.
    split; [done|]. split; [by rewrite E1|]. unfold len. simpl. lia.
  - intros H. change (validate_agent_batch (r :: r' :: rest) expected envelope) with
      (_ ← require_agent_sequence (EngineError := EngineError) expected (ae_seq r); e ← ok_or Error_SequenceExhausted (next_u64 expected);
       validate_agent_batch (r' :: rest) e envelope) in H.
    destruct (require_agent_sequence expected _) as [[]|] eqn:E1; [|done]. apply require_spec in E1. simpl in H.
    unfold next_u64 in H. destruct (expected =? u64_max); [done|]. simpl in H. destruct (IH _ H) as (_ & H2 & H3). split; [done|]. split.
    + change (map ae_seq (r :: r' :: rest)) with (ae_seq r :: map ae_seq (r' :: rest)). by rewrite H2, E1.
    + unfold len in *. simpl in *. lia.
Qed.
Lemma log_push_all rs l c : 0 < c -> len l <= c ->
  fold_left log_push rs (mkAgentLog l c) = mkAgentLog (drop (length (l ++ rs) - Z.to_nat c) (l ++ rs)) c.
Proof.
  revert l. induction rs as [|r rs IH]; intros l Hc Hl; unfold len in *; cbn [fold_left].
  - rewrite app_nil_r. by replace (length l - Z.to_nat c)%nat with O by lia.
  - unfold log_push at 2. cbn [log_records log_capacity]. unfold len. destruct (Z.eqb_spec (Z.of_nat (length l)) c) as [E|E].
    + destruct l as [|x l]; [simpl in *; lia|]. cbn [tail]. rewrite IH; [|done|rewrite length_app in *; simpl in *; lia]. f_equal.
      rewrite <- app_assoc. simpl. rewrite !length_app. simpl in *.
      by replace (S (length l + S (length rs)) - Z.to_nat c)%nat with (S (length l + S (length rs) - Z.to_nat c)) by lia.
    + rewrite IH; [|done|rewrite length_app; simpl; lia]. by rewrite <- app_assoc.
Qed.
(** A batch of agent records is taken whole or not at all: when live output of an agent's stream is accepted, its records carry
    exactly the sequences that were due, up to the envelope's own, the frontend is handed those records, the state is folded over
    them and the log holds the newest of old and new within its capacity; a refused batch that parses leaves the kernel as it was. *)
Theorem agent_batch_whole (k : Kernel) t stream bootstrap seq payload sm records :
  agents k !! t = Some sm -> parse_records payload = Ok records ->
  0 < log_capacity (sm_log sm) -> len (log_records (sm_log sm)) <= log_capacity (sm_log sm) ->
  let d := update (EA := EA) payload_digest k (In_ResourceOutput t stream bootstrap seq payload) in
  (d.1.1 = Ok tt ->
     exists p sm' expected, sm_published sm = Some p /\ ag_next_seq p = Some expected /\ agents d.1.2 !! t = Some sm'
       /\ map ae_seq records = consecutive expected (length records) /\ seq = expected + len records - 1
       /\ d.2 = [Effect_AgentRecords t records] /\ sm_state sm' = fold_left fold_record records (sm_state sm)
       /\ log_records (sm_log sm') = drop (length (log_records (sm_log sm) ++ records) - Z.to_nat (log_capacity (sm_log sm))) (log_records (sm_log sm) ++ records)
       /\ (exists p', sm_published sm' = Some p' /\ ag_last_seq p' = seq /\ ag_next_seq p' = next_u64 seq))
  /\ (d.1.1 <> Ok tt -> d.1.2 = k /\ d.2 = []).
Proof.
  intros Esm Ep Hc Hl. simpl. rewrite Esm, bool_decide_eq_true_2 by (by eexists). unfold agent_output.
  destruct (ensure_open k t); [|done]. simpl. unfold agent_stream_of. rewrite Esm. destruct (bool_decide _); [done|]. simpl.
  destruct (sm_published sm) as [p|] eqn:Epub; [|done]. case_bool_decide; [|done]. simpl. destruct (ag_next_seq p) as [expected|] eqn:En; [|done]. simpl.
  destruct (seq <? expected); [done|]. rewrite Ep. destruct (validate_agent_batch _ _ _) as [[]|] eqn:Ev; [|done]. simpl. split; [|done]. intros _.
  apply validate_spec in Ev as (_ & Hm & Hs). eexists p, _, expected. rewrite lookup_insert_eq. split_and!; try done; simpl.
  - destruct (sm_log sm) as [l c]. simpl in *. by rewrite log_push_all.
  - by eexists.
Qed.
End Agents.

(** ** Small runs *)

(** The toy engine, refusing nothing. *)
Definition calm_engine : EngineAdapter ToyAdapter ToyReplica ToyError := {|
  start_replica a _ _ := (Ok [], a);
  apply_bootstrap_chunk a r bs := (Ok Progress_Pending, toy_fed r bs, [], a);
  configure_history_budget a r _ _ := (Ok tt, r, a);
  clear_document_state a r := (r, a);
  history_anchor_tail_distance a r _ := Ok (Some 0);
  finish_bootstrap a r := (Ok Progress_Finished, r, [], a);
  apply_history_page a r bs := (Ok (mkOutcome Progress_Ready true), r, [], a);
  apply_output a r bs := (Ok tt, toy_fed r bs, [], a)
|}.
Lemma calm_works : Working (EA := calm_engine).
Proof. constructor; intros; by repeat eexists. Qed.
Definition empty_kernel : @SessionKernel ToyAdapter ToyReplica toy_json := with_history_config tt Profile_SynthesizedVtRaw HistoryCacheConfig_default.
Definition agent : ResourceId := ResourceId_Local 9.
(** The stream of an agent published at sequence 0. *)
Definition agent_kernel : @SessionKernel ToyAdapter ToyReplica toy_json :=
  fold_left (run_op id)
    [Op_update (In_BootstrapBegin agent 1 1 StreamProfile_AgentEventsJsonlV1 (mkGeometry 0 0) 0); Op_update (In_BootstrapReady agent 1 1 None)] empty_kernel.
Lemma agent_batch_whole_witness :
  (update id agent_kernel (In_ResourceOutput agent 1 1 2 (str "B") )).1.2 = agent_kernel
  /\ exists sm', agents (update id agent_kernel (In_ResourceOutput agent 1 1 2 [66; 10; 67])).1.2 !! agent = Some sm'
       /\ map ae_seq (log_records (sm_log sm')) = [1; 2] /\ as_status (sm_state sm') = Status_Working.
Proof.
  destruct (agents agent_kernel !! agent) as [sm|] eqn:Esm; [|vm_compute in Esm; discriminate].
  assert (Hlog : sm_log sm = AgentLog_default) by (vm_compute in Esm; injection Esm as <-; reflexivity).
  assert (Hcap : 0 < log_capacity (sm_log sm)) by (rewrite Hlog; reflexivity).
  assert (Hlen : len (log_records (sm_log sm)) <= log_capacity (sm_log sm)) by (rewrite Hlog; discriminate).
  split.
  - destruct (parse_records (str "B")) as [rs|] eqn:Ep; [|vm_compute in Ep; discriminate].
    destruct (agent_batch_whole id agent_kernel agent 1 1 2 (str "B") sm rs Esm Ep Hcap Hlen) as [_ H]. apply H. vm_compute. discriminate.
  - destruct (parse_records [66; 10; 67]) as [rs|] eqn:Ep; [|vm_compute in Ep; discriminate].
    destruct (agent_batch_whole id agent_kernel agent 1 1 2 [66; 10; 67] sm rs Esm Ep Hcap Hlen) as [H _].
    destruct (H ltac:(vm_compute; reflexivity)) as (p & sm' & e & _ & _ & E1 & _ & _ & _ & E2 & E3 & _). exists sm'. split; [exact E1|].
    rewrite E2, E3, Hlog. vm_compute in Ep. injection Ep as <-. vm_compute in Esm. injection Esm as <-. split; vm_compute; reflexivity.
Defined.
