(* ===== verification/EngineRoute.v ===== *)
(** * Frames into the session kernel ([phux-tui/src/attach/server_frame/engine_route.rs])

    The translation of a decoded frame into a kernel input, the verdict on the kernel's answer and
    the effects folded into a route; and the client end to end: the bytes of a generation, decoded
    and routed, end on the screen. The text of an error is the error, a notice the pane and the
    reason it names. *)

From stdpp Require Import gmap.
From S2P Require Import Prelude Wire Enums Ids Caps Codec Info Command SshOrigin Compress Frame FrameDecode FrameProofs FrameRead IdBridge HistoryCache HistoryBounds Engine AgentStream Kernel KernelSteps KernelReplay KernelGate KernelConverge Instances.

(* phux-tui/src/attach/server_frame/engine_route.rs history_unavailable_reason *)
Definition history_unavailable_reason (r : HistoryTombstoneReason) : option HistoryUnavailableReason :=
  Some match r with
       | HistoryTombstoneReason_Stale => Unavailable_Stale
       | HistoryTombstoneReason_Pruned => Unavailable_Pruned
       | HistoryTombstoneReason_Reset => Unavailable_Reset
       | HistoryTombstoneReason_Resize => Unavailable_Resize
       | HistoryTombstoneReason_Expired => Unavailable_Expired
       | HistoryTombstoneReason_Released => Unavailable_Released
       | HistoryTombstoneReason_Limit => Unavailable_Limit
       | HistoryTombstoneReason_CodecFailure => Unavailable_CodecFailure
       end.
(* phux-tui/src/attach/server_frame/engine_route.rs history_rejection_reason *)
Definition history_rejection_reason (r : Enums.HistoryRejectionReason) : option Kernel.HistoryRejectionReason :=
  Some match r with
       | HistoryRejectionReason_ZeroLimit => Rejection_ZeroLimit
       | HistoryRejectionReason_TooSmall => Rejection_TooSmall
       | HistoryRejectionReason_Busy => Rejection_Busy
       end.
(* phux-tui/src/attach/server_frame/engine_route.rs is_terminal *)
Definition is_terminal_info (info : ResourceInfo) : bool := bool_decide (resource_kind info = ResourceKind_Terminal).
(* phux-tui/src/attach/server_frame/engine_route.rs attach_agent_sessions *)
Definition attach_agent_sessions (snapshot : SessionSnapshot) (ps : list ResourceId) : list ResourceInfo :=
  List.filter (fun info => match resource_parent info with Some parent => bool_decide (parent ∈ ps) | None => false end)
    (List.filter (fun info => bool_decide (resource_kind info = ResourceKind_AgentSession)) (snap_resources snapshot)).
(* phux-tui/src/attach/server_frame/engine_route.rs attach_participants *)
Definition attach_participants (snapshot : SessionSnapshot) : list ResourceId :=
  let focused := map window_id (List.filter (fun w => window_session_id w =? focused_session snapshot) (snap_windows snapshot)) in
  map resource_id
    (List.filter (fun pane => bool_decide (resource_window_id pane ∈ focused)) (List.filter is_terminal_info (snap_resources snapshot))).

Section Route.
  Context {Adapter Replica EngineError : Type} {EA : EngineAdapter Adapter Replica EngineError} {J : Json}.
  Context (payload_digest : bytes -> bytes).
  Abbreviation Kernel := (@SessionKernel Adapter Replica J).
  Implicit Types (k : Kernel).

(** What a route that failed reports. *)
Inductive RouteFailure : Type := Route_Unsupported (what : bytes) | Route_Rejected (e : KernelError EngineError).
(* phux-tui/src/attach/server_frame/engine_route.rs KernelRoute *)
Record KernelRoute : Type := mkRoute {
  rt_ack : option (ResourceId * Z * Z * Z);
  rt_history_request : option (ResourceId * Z * Z * bytes * Z * Z);
  rt_pty_writes : list (ResourceId * bytes);
  rt_damaged : gset ResourceId;
  rt_agent_touched : gset ResourceId;
  rt_declared_agent : option ResourceId;
  rt_resync_required : bool;
  rt_ignored : bool;
  rt_failed : option RouteFailure;
  rt_notices : list (ResourceId * HistoryUnavailableReason)
}.
Definition route_default : KernelRoute := mkRoute None None [] ∅ ∅ None false false None [].
Definition with_failed (r : KernelRoute) (f : option RouteFailure) : KernelRoute :=
  mkRoute (rt_ack r) (rt_history_request r) (rt_pty_writes r) (rt_damaged r) (rt_agent_touched r) (rt_declared_agent r) (rt_resync_required r)
    (rt_ignored r) f (rt_notices r).
Definition with_declared (r : KernelRoute) (t : ResourceId) : KernelRoute :=
  mkRoute (rt_ack r) (rt_history_request r) (rt_pty_writes r) (rt_damaged r) (rt_agent_touched r) (Some t) (rt_resync_required r)
    (rt_ignored r) (rt_failed r) (rt_notices r).

(* phux-tui/src/attach/server_frame/engine_route.rs attach_stream_input *)
Definition attach_stream_input (frame : FrameKind) (terminals : list ResourceId) : option KernelInput :=
  match frame with
  | FrameKind_Attached aid _ _ => Some (In_AttachStarted aid terminals)
  | FrameKind_AttachReady aid => Some (In_AttachReady aid)
  | FrameKind_BootstrapBegin t s b profile c r base => Some (In_BootstrapBegin t s b profile (mkGeometry c r) base)
  | FrameKind_BootstrapChunk t s b seq payload => Some (In_BootstrapChunk t s b seq payload)
  | FrameKind_BootstrapReady t s b cursor => Some (In_BootstrapReady t s b cursor)
  | FrameKind_BootstrapTombstone t s b reason last => Some (In_Tombstone t s b reason last)
  | _ => None
  end.
(* phux-tui/src/attach/server_frame/engine_route.rs content_stream_input *)
Definition content_stream_input (frame : FrameKind) : option KernelInput :=
  match frame with
  | FrameKind_ResourceOutput t s b seq payload => Some (In_ResourceOutput t s b seq payload)
  | FrameKind_ResourceClosed t _ _ => Some (In_ResourceClosed t)
  | _ => None
  end.
(* phux-tui/src/attach/server_frame/engine_route.rs history_stream_input *)
Definition history_stream_input (frame : FrameKind) : result RouteFailure (option KernelInput) :=
  match frame with
  | FrameKind_HistoryPage t s b page_seq cursor next payload rows => Ok (Some (In_HistoryPage t s b page_seq rows payload cursor next))
  | FrameKind_HistoryTombstone t s b cursor reason =>
      why ← ok_or (Route_Unsupported (str "unsupported history tombstone reason")) (history_unavailable_reason reason);
      Ok (Some (In_HistoryTombstone t s b cursor why))
  | FrameKind_HistoryRejected t s b cursor reason rb rr =>
      why ← ok_or (Route_Unsupported (str "unsupported history rejection reason")) (history_rejection_reason reason);
      Ok (Some (In_HistoryRejected t s b cursor why rb rr))
  | _ => Ok None
  end.
(* phux-tui/src/attach/server_frame/engine_route.rs kernel_input_for *)
Definition kernel_input_for (frame : FrameKind) (terminals : list ResourceId) : result RouteFailure (option KernelInput) :=
  match attach_stream_input frame terminals with
  | Some input => Ok (Some input)
  | None => match content_stream_input frame with Some input => Ok (Some input) | None => history_stream_input frame end
  end.
(* phux-tui/src/attach/server_frame/engine_route.rs frame_attach_participants *)
Definition frame_attach_participants (frame : FrameKind) : list ResourceId :=
  match frame with FrameKind_Attached _ snapshot _ => attach_participants snapshot | _ => [] end.

(* phux-tui/src/attach/server_frame/engine_route.rs emitted_resync_required *)
Definition emitted_resync_required (effects : list KernelEffect) : bool :=
  existsb (fun e => match e with Effect_Status (Status_ResyncRequired _ _ _ _) => true | _ => false end) effects.
(* phux-tui/src/attach/server_frame/engine_route.rs emitted_history_unavailable *)
Definition emitted_history_unavailable (effects : list KernelEffect) : bool :=
  existsb (fun e => match e with Effect_Status (Status_HistoryUnavailable _ _) => true | _ => false end) effects.
Definition is_history_page (frame : FrameKind) : bool := match frame with FrameKind_HistoryPage _ _ _ _ _ _ _ _ => true | _ => false end.
(* phux-tui/src/attach/server_frame/engine_route.rs classify_kernel_result *)
Definition classify_kernel_result (res : result (KernelError EngineError) unit) (frame : FrameKind) (effects : list KernelEffect) : KernelRoute :=
  let resync := negb (is_ok res) && emitted_resync_required effects in
  let recovered := negb (is_ok res) && is_history_page frame && emitted_history_unavailable effects in
  let ignored := match res with Err (Error_RetiredGeneration _ _ _) => true | _ => false end in
  let failed := match res with
                | Ok _ => None
                | Err e => if resync || ignored || recovered then None else Some (Route_Rejected e)
                end in
  mkRoute None None [] ∅ ∅ None resync ignored failed [].
(* phux-tui/src/attach/server_frame/engine_route.rs collect_route_effects *)
Definition collect_route_effect (r : KernelRoute) (e : KernelEffect) : KernelRoute :=
  match e with
  | Effect_Send (Send_FrameAck t s b seq) =>
      mkRoute (Some (t, s, b, seq)) (rt_history_request r) (rt_pty_writes r) (rt_damaged r) (rt_agent_touched r) (rt_declared_agent r)
        (rt_resync_required r) (rt_ignored r) (rt_failed r) (rt_notices r)
  | Effect_Send (Send_HistoryRequest key cursor mb mr) =>
      mkRoute (rt_ack r) (Some (rk_terminal key, rk_stream key, rk_bootstrap key, cursor, mb, mr)) (rt_pty_writes r) (rt_damaged r)
        (rt_agent_touched r) (rt_declared_agent r) (rt_resync_required r) (rt_ignored r) (rt_failed r) (rt_notices r)
  | Effect_Send (Send_PtyWrite t bs) =>
      mkRoute (rt_ack r) (rt_history_request r) (rt_pty_writes r ++ [(t, bs)]) (rt_damaged r) (rt_agent_touched r) (rt_declared_agent r)
        (rt_resync_required r) (rt_ignored r) (rt_failed r) (rt_notices r)
  | Effect_Damage t _ =>
      mkRoute (rt_ack r) (rt_history_request r) (rt_pty_writes r) ({[t]} ∪ rt_damaged r) (rt_agent_touched r) (rt_declared_agent r)
        (rt_resync_required r) (rt_ignored r) (rt_failed r) (rt_notices r)
  | Effect_AgentRecords t _ =>
      mkRoute (rt_ack r) (rt_history_request r) (rt_pty_writes r) (rt_damaged r) ({[t]} ∪ rt_agent_touched r) (rt_declared_agent r)
        (rt_resync_required r) (rt_ignored r) (rt_failed r) (rt_notices r)
  | Effect_Status (Status_HistoryUnavailable key why) =>
      mkRoute (rt_ack r) (rt_history_request r) (rt_pty_writes r) (rt_damaged r) (rt_agent_touched r) (rt_declared_agent r)
        (rt_resync_required r) (rt_ignored r) (rt_failed r) (rt_notices r ++ [(rk_terminal key, why)])
  | Effect_Status _ | Effect_Job _ _ | Effect_Send (Send_Input _ _) => r
  end.
Definition collect_route_effects (r : KernelRoute) (effects : list KernelEffect) : KernelRoute := fold_left collect_route_effect effects r.

(* phux-tui/src/attach/server_frame/engine_route.rs declare_spawned_agent_session *)
Definition declare_spawned_agent_session (frame : FrameKind) (k : Kernel) (route : KernelRoute) : KernelRoute * Kernel :=
  match frame with
  | FrameKind_Event (Some t) (AgentEvent_ResourceSpawned ResourceKind_AgentSession (Some parent)) =>
      if bool_decide (is_Some (kinds k !! t)) || negb (bool_decide (kinds k !! parent = Some ResourceKind_Terminal)) then (route, k)
      else
        match update payload_digest k (In_AgentSessionDeclared (mkDeclaration t (Some parent) None None None)) with
        | (Ok _, k, effects) => (collect_route_effects (with_declared route t) effects, k)
        | (Err e, k, _) => (with_failed route (Some (Route_Rejected e)), k)
        end
  | _ => (route, k)
  end.
(* phux-tui/src/attach/server_frame/engine_route.rs:246-262 declare_agent_sessions *)
Fixpoint declare_infos (infos : list ResourceInfo) (k : Kernel) (route : KernelRoute) : KernelRoute * Kernel :=
  match infos with
  | [] => (route, k)
  | info :: infos =>
      let facet := resource_agent info in
      let declaration := mkDeclaration (resource_id info) (resource_parent info) (option_map facet_provider facet)
                           (f ← facet; facet_native_id f) (option_map facet_state facet) in
      match update payload_digest k (In_AgentSessionDeclared declaration) with
      | (Err e, k, _) => (with_failed route (Some (Route_Rejected e)), k)
      | (Ok _, k, effects) => declare_infos infos k (collect_route_effects route effects)
      end
  end.
(* phux-tui/src/attach/server_frame/engine_route.rs declare_agent_sessions *)
Definition declare_agent_sessions (snapshot : SessionSnapshot) (ps : list ResourceId) (k : Kernel) (route : KernelRoute) : KernelRoute * Kernel :=
  declare_infos (attach_agent_sessions snapshot ps) k route.
Definition has_failed (r : KernelRoute) : bool := match rt_failed r with Some _ => true | None => false end.
(* phux-tui/src/attach/server_frame/engine_route.rs route_engine_frame *)
Definition route_engine_frame (frame : FrameKind) (k : Kernel) : KernelRoute * Kernel :=
  let terminals := frame_attach_participants frame in
  match kernel_input_for frame terminals with
  | Err f => (with_failed route_default (Some f), k)
  | Ok None => declare_spawned_agent_session frame k route_default
  | Ok (Some input) =>
      let '(res, k, effects) := update payload_digest k input in
      let route := collect_route_effects (classify_kernel_result res frame effects) effects in
      let '(route, k) := match frame with
                         | FrameKind_Attached _ snapshot _ =>
                             if has_failed route then (route, k) else declare_agent_sessions snapshot terminals k route
                         | _ => (route, k)
                         end in
      if has_failed route then (route, k) else declare_spawned_agent_session frame k route
  end.

(** ** From bytes to the screen *)

Fixpoint routed (k : Kernel) (fs : list FrameKind) : option Kernel :=
  match fs with
  | [] => Some k
  | f :: fs => let '(route, k) := route_engine_frame f k in if has_failed route then None else routed k fs
  end.
(** A client that decodes what it has received and routes it, frame by frame. *)
Fixpoint client_reads `{RJ : ReportJson} `{IT : IpText} (l : BootstrapLimits) (fuel : nat) (k : Kernel) (bs : bytes) : option (Kernel * bytes) :=
  match fuel with
  | O => Some (k, bs)
  | S fuel =>
      match decode_with_limits bs l with
      | Err _ => None
      | Ok (f, rest) => let '(route, k) := route_engine_frame f k in if has_failed route then None else client_reads l fuel k rest
      end
  end.
Lemma client_reads_routed `{RJ : ReportJson} `{IT : IpText} l fs k :
  Forall (fun f => wf_frame l f = true /\ len (encode_body f) <= MAX_FRAME_LEN) fs -> len (concat (map encode fs)) <= isize_max ->
  client_reads l (length fs) k (concat (map encode fs)) = match routed k fs with Some k' => Some (k', []) | None => None end.
Proof.
  intros Hfs. revert k. induction Hfs as [|f fs [Hw Hl] _ IH]; intros k Hlen; [done|]. cbn [length map concat client_reads routed] in *.
  rewrite decode_encode_with_limits by done. destruct (route_engine_frame f k) as [route k1]. destruct (has_failed route); [done|].
  apply IH. unfold len in *. rewrite length_app in Hlen. lia.
Qed.
Lemma collect_failed es r : rt_failed (collect_route_effects r es) = rt_failed r.
Proof. revert r. induction es as [|e es IH]; intros r; [done|]. simpl. rewrite IH. by destruct e as [[]| |[]| |]. Qed.
(** Frames that carry one kernel input and nothing else. *)
Definition carries (f : FrameKind) (i : KernelInput) : Prop :=
  match f with
  | FrameKind_BootstrapBegin _ _ _ _ _ _ _ | FrameKind_BootstrapChunk _ _ _ _ _ | FrameKind_BootstrapReady _ _ _ _ | FrameKind_ResourceOutput _ _ _ _ _ =>
      kernel_input_for f [] = Ok (Some i)
  | _ => False
  end.
Lemma carries_routed f i k k' es :
  carries f i -> update payload_digest k i = (Ok tt, k', es) -> exists r, route_engine_frame f k = (r, k') /\ has_failed r = false.
Proof.
  intros Hc Hu. destruct f; try done; simpl in Hc; injection Hc as <-; unfold route_engine_frame; cbn [frame_attach_participants kernel_input_for attach_stream_input content_stream_input];
    rewrite Hu; unfold has_failed; rewrite collect_failed; simpl; eexists; (split; [reflexivity|]); by rewrite collect_failed.
Qed.
Lemma delivered_routed fs inputs k k' : Forall2 carries fs inputs -> delivered payload_digest k inputs = Some k' -> routed k fs = Some k'.
Proof.
  intros H. revert k. induction H as [|f i fs inputs Hc _ IH]; intros k; [done|]. simpl.
  destruct (update payload_digest k i) as [[[[]|e] k1] es] eqn:Eu; [|done]. intros Hd. destruct (carries_routed _ _ _ _ _ Hc Eu) as (r & -> & ->).
  by apply IH.
Qed.

(** The frames of one generation. *)
Fixpoint chunk_frames (t : ResourceId) (stream bootstrap n : Z) (chunks : list bytes) : list FrameKind :=
  match chunks with [] => [] | c :: cs => FrameKind_BootstrapChunk t stream bootstrap n c :: chunk_frames t stream bootstrap (n + 1) cs end.
Fixpoint output_frames (t : ResourceId) (stream bootstrap s : Z) (outputs : list bytes) : list FrameKind :=
  match outputs with [] => [] | o :: os => FrameKind_ResourceOutput t stream bootstrap (s + 1) o :: output_frames t stream bootstrap (s + 1) os end.
Definition generation_frames (t : ResourceId) (stream bootstrap : Z) (profile : BootstrapStreamProfile) (g : CanonicalGeometry) (base : Z)
    (chunks : list bytes) (cursor : option bytes) (outputs : list bytes) : list FrameKind :=
  FrameKind_BootstrapBegin t stream bootstrap profile (cols g) (rows g) base :: chunk_frames t stream bootstrap 0 chunks
  ++ FrameKind_BootstrapReady t stream bootstrap cursor :: output_frames t stream bootstrap base outputs.
Lemma chunk_frames_carry t s b n chunks : Forall2 carries (chunk_frames t s b n chunks) (chunk_inputs t s b n chunks).
Proof. revert n. induction chunks as [|c cs IH]; intros n; simpl; constructor; [done|apply IH]. Qed.
Lemma output_frames_carry t s b n outputs : Forall2 carries (output_frames t s b n outputs) (output_inputs t s b n outputs).
Proof. revert n. induction outputs as [|c cs IH]; intros n; simpl; constructor; [done|apply IH]. Qed.
(** C23: From the wire to the screen: the encoded frames of a fresh generation, in one run of bytes, are each decoded, translated and
    accepted by a client whose engine does its work; no route fails, no byte is left over, and the client ends showing that
    generation at the sequence of its last live frame. *)
Theorem generation_over_the_wire `{RJ : ReportJson} `{IT : IpText} l (W : Working) k t stream bootstrap profile g base chunks cursor outputs :
  let fs := generation_frames t stream bootstrap profile g base chunks cursor outputs in
  open_terminal k t -> is_agent_profile profile = false -> profile_matches (selected_profile k) profile = true ->
  cols g <> 0 -> rows g <> 0 -> fresh_for (default TerminalState_default (terminals k !! t)) (stream, bootstrap) ->
  len chunks <= u32_max -> base + len outputs <= u64_max ->
  Forall (fun f => wf_frame l f = true /\ len (encode_body f) <= MAX_FRAME_LEN) fs -> len (concat (map encode fs)) <= isize_max ->
  exists k', client_reads l (length fs) k (concat (map encode fs)) = Some (k', []) /\ shows k' t (stream, bootstrap) (base + len outputs).
Proof.
  intros fs Ho Ha Hp Hc Hr Hf Hn Hs Hfs Hlen. destruct (delivery_lands payload_digest W k t stream bootstrap profile g base chunks cursor outputs Ho Ha Hp Hc Hr Hf Hn Hs) as (k' & Ed & Hk).
  exists k'. split; [|done]. rewrite client_reads_routed by done. erewrite delivered_routed; [done| |exact Ed].
  unfold fs, generation_frames. constructor; [by destruct g|]. apply Forall2_app; [apply chunk_frames_carry|].
  constructor; [done|apply output_frames_carry].
Qed.
End Route.

(** ** A small run *)

Definition small_generation : list FrameKind :=
  generation_frames pane 1 1 StreamProfile_SynthesizedVtRaw (mkGeometry 80 24) 5 [[1]; [2]] None [[3]; [4]].
Lemma generation_over_the_wire_witness :
  exists k', client_reads (EA := calm_engine) id BootstrapLimits_default (length small_generation) empty_kernel (concat (map encode small_generation)) = Some (k', [])
    /\ shows k' pane (1, 1) (5 + len [[3]; [4]]).
Proof.
  apply (generation_over_the_wire (EA := calm_engine) id BootstrapLimits_default calm_works empty_kernel pane 1 1 StreamProfile_SynthesizedVtRaw
           (mkGeometry 80 24) 5 [[1]; [2]] None [[3]; [4]]).
  - split; [vm_compute; discriminate|]. split; [reflexivity|discriminate].
  - reflexivity.
  - reflexivity.
  - discriminate.
  - discriminate.
  - split; [reflexivity|]. split; reflexivity.
  - discriminate.
  - discriminate.
  - repeat (constructor; [split; [vm_compute; reflexivity|vm_compute; discriminate]|]). constructor.
  - vm_compute. discriminate.
Defined.
