(* ===== verification/KernelKinds.v ===== *)
(** * Every resource of a client kernel has one kind

    The typing of the kernel's three maps: replicas belong to open Terminals, record streams to open
    AgentSessions, and no call mixes them. With it the invariant of [KernelReplay] says what a client
    shows: a chunk of a Terminal is never taken for an agent's. *)

From stdpp Require Import gmap.
From S2P Require Import Prelude Enums Caps Codec Ids IdBridge HistoryCache HistoryBounds Engine AgentStream Kernel KernelSteps KernelReplay KernelConverge.

Section Kinds.
  Context {Adapter Replica EngineError : Type} {EA : EngineAdapter Adapter Replica EngineError} {J : Json}.
  Context {PA : EnginePresentationAdapter Adapter Replica EngineError} {DA : EngineDocumentAdapter Adapter Replica EngineError}.
  Context (payload_digest : bytes -> bytes).
  Abbreviation Kernel := (@SessionKernel Adapter Replica J).
  Abbreviation Terminal := (@TerminalState Replica).
  Implicit Types (k : Kernel) (st : Terminal).

(** ** What most calls leave alone *)

Definition framed (k k' : Kernel) : Prop := kinds k' = kinds k /\ agents k' = agents k /\ closed k' = closed k.
Lemma framed_refl k : framed k k.
Proof. done. Qed.
Lemma framed_or_return {A} k (r : result (KernelError EngineError) A) body :
  (forall a, r = Ok a -> framed k (body a).1.2) -> framed k (or_return k r body).1.2.
Proof. intros H. destruct r; [by apply H|done]. Qed.
Lemma framed_answering {A B} k (r : result (KernelError EngineError) A) (body : A -> Answer B) :
  (forall a, r = Ok a -> framed k (body a).2) -> framed k (answering k r body).2.
Proof. intros H. destruct r; [by apply H|done]. Qed.
Lemma framed_mark k0 k t f : framed k0 k -> framed k0 (mark_attach k t f).
Proof. unfold mark_attach. by destruct (attach k). Qed.

Lemma bootstrap_begin_framed k t s b p g base : framed k (bootstrap_begin k t s b p g base).1.2.
Proof.
  apply framed_or_return. intros [] _. destruct (negb _); [done|]. destruct (_ || _); [done|]. cbv zeta.
  destruct (bool_decide _); [done|]. destruct (_ || _); [done|]. by destruct (start_replica _ _ _) as [[r|e] ad].
Qed.
Lemma bootstrap_chunk_framed k t s b n payload : framed k (bootstrap_chunk k t s b n payload).1.2.
Proof.
  apply framed_or_return. intros [] _. apply framed_or_return. intros [st sg] _. destruct (sg_engine_ready sg); [done|].
  apply framed_or_return. intros [] _. by destruct (apply_bootstrap_chunk _ _ _) as [[[[p|e] engine] captured] ad].
Qed.
Lemma publish_framed k0 k t : framed k0 k -> framed k0 (publish k t).1.2.
Proof.
  intros H. unfold publish. destruct (terminals k !! t) as [st|]; [|done]. destruct (staging st) as [s|]; [|done].
  destruct (configure_history_budget _ _ _ _) as [[[[]|e] engine] ad]; [|done]. destruct (replica_of _ _ _) as [c r]. by apply framed_mark.
Qed.
Lemma bootstrap_ready_framed k t s b cursor : framed k (bootstrap_ready k t s b cursor).1.2.
Proof.
  apply framed_or_return. intros [] _. apply framed_or_return. intros [st sg] _. destruct (sg_protocol_ready sg); [done|].
  destruct (finish_bootstrap _ _) as [[[[p|e] engine] captured] ad]; [|done]. cbv zeta. destruct (negb _); [done|]. by apply publish_framed.
Qed.
Lemma terminal_output_framed k t s b seq payload : framed k (terminal_output k t s b seq payload).1.2.
Proof.
  do 2 (apply framed_or_return; intros [] _). do 2 (apply framed_or_return; intros ? _).
  destruct (apply_output _ _ _) as [[[[u|e] engine] captured] ad].
  - destruct (match pinned_anchor _ with Some _ => _ | None => _ end) as [[r' a'] es]. done.
  - unfold retire_after_codec_failure. apply framed_mark. by destruct (terminals _ !! t).
Qed.
Lemma history_page_framed k page : framed k (history_page payload_digest k page).1.2.
Proof.
  apply framed_or_return. intros [] _. apply framed_or_return. intros [st r] _. destruct (is_locally_cleared _); [done|].
  destruct (check_page _ _ _ _ _ _ _) as [[|i]|e]; [|done|by destruct (tombstone_history _ _ _) as [[r2 a2] es]].
  destruct (import_history_page _ _ _ _) as [[[[u|rej] r1] captured] a1]; [|by destruct (tombstone_history _ _ _) as [[r2 a2] es]].
  by destruct (if should_auto_continue _ then _ else _).
Qed.
Lemma history_tombstone_framed k t s b cursor why : framed k (history_tombstone (EngineError := EngineError) k t s b cursor why).1.2.
Proof.
  apply framed_or_return. intros [] _. apply framed_or_return. intros [st r] _. destruct (invalidate_cursor _ _ _) as [[] h]; [|done].
  simpl. by destruct (end_history _ _ _).
Qed.
Lemma history_rejected_framed k t s b cursor why rb rr : framed k (history_rejected (EngineError := EngineError) k t s b cursor why rb rr).1.2.
Proof.
  apply framed_or_return. intros [] _. apply framed_or_return. intros [st r] _. cbv zeta.
  destruct (cancel_fetch _ _) as [[] h]; [|done]. simpl negb. cbv iota.
  match goal with |- context [let '(_, _) := match ?l with Some _ => _ | None => _ end in _] => destruct (match l with Some _ => _ | None => _ end) as [next h'] end.
  destruct (_ && _); [|done]. by destruct (end_history _ _ _).
Qed.
Lemma document_ops_framed k o :
  match o with Op_update _ | Op_release_terminal _ | Op_detach _ => False | _ => True end -> framed k (run_op payload_digest k o).
Proof.
  destruct o as [i|t n| |t|t|t|t w n|t p|t a|t|t a|t needle n]; try done; intros _; simpl.
  - unfold prefetch_history. destruct (terminals k !! t) as [st|]; [|done]. destruct (published st) as [r|]; [|done].
    destruct (bool_decide _); [done|]. destruct (negb _); [done|]. by destruct (begin_fetch _) as [[c|] h].
  - apply framed_answering. intros [] _. apply framed_answering. intros [st r] _. by destruct (adapter_clear_presentation _ _) as [[[u|e] engine] ad].
  - apply framed_answering. intros [st r] _. cbv zeta.
    destruct (match viewport _ with Viewport_Tail => _ | Viewport_Pinned _ => _ end) as [[[r2 a] o]|e]; [|done].
    by destruct (adapter_project_history _ _ _ _ _) as [[res engine] a2].
  - apply framed_answering. intros [st r] _. apply framed_answering. intros [] _. destruct (adapter_track_document_anchor _ _ _) as [[[anchor|e] engine] ad]; [|done].
    simpl. by destruct (register_anchor_pages _ _ _).
  - apply framed_answering. intros [st r] _. apply framed_answering. intros [q|] _; [|done]. apply framed_answering. by intros h _.
  - apply framed_answering. by intros [st r] _.
  - apply framed_answering. intros [st r] _. by destruct (release_anchor_in _ _ _).
  - apply framed_answering. intros [st r] _. cbv zeta. destruct (_ =? 0); [done|]. destruct (adapter_search_loaded _ _ _ _) as [[[ms|e] engine] ad]; [|done].
    destruct (register_matches _ ms) as [[u|e] h]; [done|]. by destruct (fold_left _ _ _).
Qed.

(** ** The typing *)

(** No replica here. *)
Definition bare (o : option Terminal) : Prop := forall st, o = Some st -> published st = None /\ staging st = None.
Record WellTyped (k : Kernel) : Prop := mkWellTyped {
  wt_terminal : forall t, kinds k !! t <> Some ResourceKind_Terminal \/ t ∈ closed k -> bare (terminals k !! t);
  wt_agent : forall t, is_Some (agents k !! t) -> kinds k !! t = Some ResourceKind_AgentSession /\ t ∉ closed k
}.
Lemma bare_default : bare (Some TerminalState_default).
Proof. by intros st [= <-]. Qed.
Lemma slot_bare cfg t ev o o' :
  (forall key g base, ev <> Ev_begin key g base) -> SlotStep cfg t ev o o' -> bare o -> bare o'.
Proof.
  intros Hev H. destruct H as [o1| |o1 st Hs|o1 _]; intros Hb; [done|apply bare_default| |by intros ?].
  assert (Hd : published (default TerminalState_default o1) = None /\ staging (default TerminalState_default o1) = None).
  { destruct o1 as [st1|]; [by apply Hb|done]. }
  destruct Hd as [Hp Hg]. intros st' [= <-]. inversion Hs; subst; simpl in *; try done; unfold staging_of_gen, published_of_gen in *; try naive_solver.
  destruct (stages _ _); [done|]. by rewrite Hp, Hg.
Qed.
Lemma event_begin t o key g base : op_event t o = Ev_begin key g base ->
  exists s b profile g' base', o = Op_update (In_BootstrapBegin t s b profile g' base').
Proof.
  destruct o as [i| | | | | | | | | | |]; simpl; unfold ev_at; try (case_bool_decide; done); [|done].
  destruct i; simpl; unfold ev_at; try (case_bool_decide; [|done]); try done. subst. intros _. by eexists _, _, _, _, _.
Qed.
(** A call that leaves kinds, streams and closures alone and begins nothing keeps the typing. *)
Lemma typed_framed k o :
  WellTyped k -> op_input_ok o -> framed k (run_op payload_digest k o) ->
  (forall t key g base, op_event t o <> Ev_begin key g base) -> WellTyped (run_op payload_digest k o).
Proof.
  intros [H1 H2] Hi (E1 & E2 & E3) Hev. destruct (run_op_slots payload_digest k o Hi) as [_ Hs].
  constructor; intros t; rewrite ?E1, ?E2, ?E3; [|apply H2]. intros Ht. eapply slot_bare; [apply Hev|apply Hs|by apply H1].
Qed.
Lemma expect_kind_spec k t kind k1 : expect_kind (EngineError := EngineError) k t kind = Ok k1 ->
  kinds k1 !! t = Some kind /\ (forall t', t' <> t -> kinds k1 !! t' = kinds k !! t') /\ agents k1 = agents k /\ closed k1 = closed k
  /\ terminals k1 = terminals k /\ (kinds k !! t = None \/ kinds k !! t = Some kind).
Proof.
  unfold expect_kind. destruct (kinds k !! t) as [kd|] eqn:E.
  - case_bool_decide; [|done]. subst. intros [= <-]. rewrite E. repeat split; try done. by right.
  - intros [= <-]. simpl. rewrite lookup_insert_eq. repeat split; try done; [|by left]. intros t' Hn. by rewrite lookup_insert_ne.
Qed.
(** A claimed kind was free, or the same. *)
Lemma typed_expect k t kind k1 : WellTyped k -> expect_kind (EngineError := EngineError) k t kind = Ok k1 -> WellTyped k1.
Proof.
  intros [H1 H2] (E1 & E2 & E3 & E4 & E5 & E6)%expect_kind_spec. constructor; intros t'; rewrite ?E3, ?E4, ?E5.
  - intros Ht. destruct (decide (t' = t)) as [->|Hn]; [|apply H1; by rewrite E2 in Ht].
    rewrite E1 in Ht. apply H1. destruct Ht as [Ht|Ht]; [left|by right]. destruct E6 as [->| ->]; done.
  - intros Ha. destruct (H2 t' Ha) as [Hk Hc]. split; [|done]. destruct (decide (t' = t)) as [->|Hn]; [|by rewrite E2].
    rewrite Hk in E6. destruct E6 as [|[= ->]]; done.
Qed.
Lemma typed_put_agent k t sm : WellTyped k -> kinds k !! t = Some ResourceKind_AgentSession -> t ∉ closed k -> WellTyped (put_agent k t sm).
Proof.
  intros [H1 H2] Hk Hc. constructor; simpl; [done|]. intros t' Ha. destruct (decide (t' = t)) as [->|Hn]; [done|].
  rewrite lookup_insert_ne in Ha by done. by apply H2.
Qed.
Lemma typed_mark k t f : WellTyped k -> WellTyped (mark_attach k t f).
Proof. intros [H1 H2]. unfold mark_attach. destruct (attach k); by constructor. Qed.
Lemma open_of k t : ensure_open (EngineError := EngineError) k t = Ok tt -> t ∉ closed k.
Proof. unfold ensure_open. by case_bool_decide. Qed.
Lemma typed_or_return {A} k (r : result (KernelError EngineError) A) body :
  WellTyped k -> (forall a, r = Ok a -> WellTyped (body a).1.2) -> WellTyped (or_return k r body).1.2.
Proof. intros Hk H. destruct r; [by apply H|done]. Qed.

(** The streams' own calls. *)
Lemma declared_typed k d : WellTyped k -> WellTyped (agent_session_declared (EngineError := EngineError) k d).1.2.
Proof.
  intros Hk. apply typed_or_return; [done|]. intros [] Ho%open_of. apply typed_or_return; [done|]. intros k1 E.
  pose proof (typed_expect _ _ _ _ Hk E) as Hk1. apply expect_kind_spec in E as (E1 & _ & _ & E4 & _). apply typed_put_agent; [done|done|by rewrite E4].
Qed.
Lemma agent_begin_typed k t s b p base : WellTyped k -> WellTyped (agent_bootstrap_begin (EngineError := EngineError) k t s b p base).1.2.
Proof.
  intros Hk. apply typed_or_return; [done|]. intros [] Ho%open_of. apply typed_or_return; [done|]. intros k1 E.
  pose proof (typed_expect _ _ _ _ Hk E) as Hk1. apply expect_kind_spec in E as (E1 & _ & _ & E4 & _). cbv zeta.
  assert (Hp : forall sm, WellTyped (put_agent k1 t sm)) by (intros sm; apply typed_put_agent; [done|done|by rewrite E4]).
  destruct (bool_decide _); [apply Hp|]. destruct (_ || _); [apply Hp|]. simpl. apply typed_put_agent; [apply Hp|done|simpl; by rewrite E4].
Qed.
Lemma stream_typed k t g sm : WellTyped k -> agent_stream_of (EngineError := EngineError) k t g = Ok sm -> forall sm', WellTyped (put_agent k t sm').
Proof.
  intros Hk E sm'. unfold agent_stream_of in E. destruct (agents k !! t) as [sm1|] eqn:Ea; [|done].
  destruct (wt_agent _ Hk t) as [? ?]; [by eexists|]. by apply typed_put_agent.
Qed.
Lemma agent_chunk_typed k t s b n p : WellTyped k -> WellTyped (agent_bootstrap_chunk (EngineError := EngineError) k t s b n p).1.2.
Proof.
  intros Hk. apply typed_or_return; [done|]. intros [] _. apply typed_or_return; [done|]. intros sm Es. pose proof (stream_typed _ _ _ _ Hk Es) as Hput.
  do 2 (apply typed_or_return; [done|]; intros ? _). destruct (parse_records p); apply Hput.
Qed.
Lemma agent_ready_typed k t s b : WellTyped k -> WellTyped (agent_bootstrap_ready (EngineError := EngineError) k t s b).1.2.
Proof.
  intros Hk. apply typed_or_return; [done|]. intros [] _. apply typed_or_return; [done|]. intros sm Es. pose proof (stream_typed _ _ _ _ Hk Es) as Hput.
  apply typed_or_return; [done|]. intros ? _. simpl. apply typed_mark, Hput.
Qed.
Lemma agent_output_typed k t s b n p : WellTyped k -> WellTyped (agent_output (EngineError := EngineError) k t s b n p).1.2.
Proof.
  intros Hk. apply typed_or_return; [done|]. intros [] _. apply typed_or_return; [done|]. intros sm Es. pose proof (stream_typed _ _ _ _ Hk Es) as Hput.
  do 2 (apply typed_or_return; [done|]; intros ? _). destruct (_ <? _); [done|]. destruct (parse_records p); [|apply Hput].
  apply typed_or_return; [done|]. intros ? _. apply Hput.
Qed.
(** The attach inventory. *)
Lemma expect_terminals_typed k ids : WellTyped k -> WellTyped (expect_terminals (EngineError := EngineError) k ids).2.
Proof.
  revert k. induction ids as [|t ids IH]; intros k Hk; simpl; [done|]. destruct (expect_kind k t _) as [k1|] eqn:E; [|done].
  apply IH. by eapply typed_expect.
Qed.
Lemma ensure_terminals_bare ids (ts : gmap ResourceId Terminal) t : bare (ts !! t) -> bare (fold_left ensure_terminal ids ts !! t).
Proof.
  intros Hb. eapply (slot_bare HistoryCacheConfig_default t Ev_none); [done| |exact Hb]. apply (ensure_terminals_slots _ (fun _ => Ev_none)).
Qed.
Lemma attach_started_typed k aid ids : WellTyped k -> WellTyped (attach_started (EngineError := EngineError) k aid ids).1.2.
Proof.
  intros Hk. unfold attach_started. cbv zeta. set (start := or_return _ _ _). assert (H : WellTyped start.1.2).
  { unfold start. apply typed_or_return; [done|]. intros [] _. pose proof (expect_terminals_typed k ids Hk) as Hk1.
    destruct (expect_terminals k ids) as [[[]|e] k1]; simpl in *; [|done]. destruct Hk1 as [H1 H2]. constructor; simpl; [|done].
    intros t Ht. by apply ensure_terminals_bare, H1. }
  destruct (attach k) as [at'|]; [|done]. by destruct (negb _).
Qed.
Lemma begin_typed k t s b p g base : WellTyped k -> kinds k !! t = Some ResourceKind_Terminal ->
  WellTyped (bootstrap_begin k t s b p g base).1.2.
Proof.
  intros [H1 H2] Hk. pose proof (bootstrap_begin_framed k t s b p g base) as (E1 & E2 & E3). pose proof (bootstrap_begin_moves k t s b p g base) as [_ Mo _].
  constructor; intros t'; rewrite ?E1, ?E2, ?E3; [|apply H2]. intros Ht. destruct (decide (t' = t)) as [->|Hn]; [|rewrite Mo by done; by apply H1].
  destruct Ht as [Ht|Ht]; [done|]. unfold bootstrap_begin, ensure_open. rewrite bool_decide_eq_true_2 by done. apply H1. by right.
Qed.
Lemma closed_typed k t : WellTyped k -> WellTyped (terminal_closed k t).1.
Proof.
  intros [H1 H2]. unfold terminal_closed. cbv zeta. cbn [fst]. apply typed_mark. constructor; simpl; intros t' Ht.
  - destruct (decide (t' = t)) as [->|Hn]; [rewrite lookup_delete_eq; by intros ?|]. rewrite lookup_delete_ne by done. apply H1. set_solver.
  - destruct (decide (t' = t)) as [->|Hn]; [rewrite lookup_delete_eq in Ht; by destruct Ht|]. rewrite lookup_delete_ne in Ht by done.
    destruct (H2 t' Ht). split; [done|]. set_solver.
Qed.
Lemma release_typed k t : WellTyped k -> WellTyped (release_terminal k t).2.
Proof.
  intros [H1 H2]. unfold release_terminal. destruct (match attach k with Some _ => _ | None => _ end); [done|]. constructor; simpl; intros t' Ht.
  - destruct (decide (t' = t)) as [->|Hn]; [rewrite lookup_delete_eq; by intros ?|]. rewrite lookup_delete_ne in Ht by done.
    rewrite lookup_delete_ne by done. apply H1. destruct Ht as [Ht|Ht]; [by left|right; set_solver].
  - destruct (decide (t' = t)) as [->|Hn]; [rewrite lookup_delete_eq in Ht; by destruct Ht|]. rewrite lookup_delete_ne in Ht by done.
    rewrite lookup_delete_ne by done. destruct (H2 t' Ht). split; [done|]. set_solver.
Qed.
Lemma update_typed k i : WellTyped k -> input_ok i -> WellTyped (update payload_digest k i).1.2.
Proof.
  intros Hk Hi. pose proof (typed_framed k (Op_update i) Hk Hi) as Hf. simpl in Hf.
  destruct i as [aid ids|aid| | | | | | | | | | |].
  - by apply attach_started_typed.
  - apply Hf; [|done]. simpl. unfold attach_ready. destruct (attach k) as [at'|]; [|done]. destruct (negb (_ =? aid)); [done|].
    destruct (negb (_ =? 0)); [done|]. by destruct (released at').
  - simpl. destruct (is_agent_profile _); [by apply agent_begin_typed|]. apply typed_or_return; [done|]. intros k1 E.
    apply begin_typed; [by eapply typed_expect|]. by apply expect_kind_spec in E as [? _].
  - simpl in *. destruct (bool_decide _); [by apply agent_chunk_typed|]. apply Hf; [apply bootstrap_chunk_framed|]. intros t'. unfold ev_at. by case_bool_decide.
  - simpl in *. destruct (bool_decide _); [by apply agent_ready_typed|]. apply Hf; [apply bootstrap_ready_framed|]. intros t'. unfold ev_at. by case_bool_decide.
  - apply Hf; [apply history_page_framed|]. intros t'. simpl. unfold ev_at. by case_bool_decide.
  - apply Hf; [apply history_tombstone_framed|]. intros t'. simpl. unfold ev_at. by case_bool_decide.
  - apply Hf; [apply history_rejected_framed|]. intros t'. simpl. unfold ev_at. by case_bool_decide.
  - simpl in *. destruct (bool_decide _); [by apply agent_output_typed|]. apply Hf; [apply terminal_output_framed|]. intros t'. unfold ev_at. by case_bool_decide.
  - simpl in *. unfold tombstone_generation in *. destruct (agents k !! t) as [sm|] eqn:Ea.
    + destruct (wt_agent _ Hk t) as [? ?]; [by eexists|]. by apply typed_put_agent.
    + apply Hf; [|intros t'; unfold ev_at; by case_bool_decide]. destruct (publishes _ _); [|done]. by apply framed_mark.
  - by apply closed_typed.
  - by apply declared_typed.
  - apply Hf; [|done]. destruct a as [t event]. simpl. by destruct (input_eligibility k t).
Qed.
Lemma run_op_typed k o : WellTyped k -> op_input_ok o -> WellTyped (run_op payload_digest k o).
Proof.
  intros Hk Hi.
  assert (Hd : match o with Op_update _ | Op_release_terminal _ | Op_detach _ => False | _ => True end -> WellTyped (run_op payload_digest k o)).
  { intros Ho. apply typed_framed; [done|done|by apply document_ops_framed|]. intros t key g base (s & b & p & g' & b' & ->)%event_begin. done. }
  destruct o as [i|t n| |t|t|t|t w n|t p|t a|t|t a|t needle n]; try by apply Hd.
  - by apply update_typed.
  - by apply release_typed.
  - simpl. unfold detach_terminal. destruct (attach k) as [at'|]; [|by apply release_typed]. destruct (negb _); [done|].
    apply release_typed. destruct Hk as [H1 H2]. by constructor.
Qed.

(** ** A kind is claimed once *)

Definition kept (k k' : Kernel) : Prop := forall t kd, kinds k !! t = Some kd -> kinds k' !! t = Some kd.
Lemma kept_same k k' : kinds k' = kinds k -> kept k k'.
Proof. intros E t kd. by rewrite E. Qed.
Lemma kept_or_return {A} k0 k (r : result (KernelError EngineError) A) body :
  kept k0 k -> (forall a, r = Ok a -> kept k0 (body a).1.2) -> kept k0 (or_return k r body).1.2.
Proof. intros Hk H. destruct r; [by apply H|done]. Qed.
Lemma kept_expect k t kind k1 : expect_kind (EngineError := EngineError) k t kind = Ok k1 -> kept k k1.
Proof.
  intros (E1 & E2 & _ & _ & _ & E6)%expect_kind_spec t' kd Hk. destruct (decide (t' = t)) as [->|Hn]; [|by rewrite E2].
  rewrite Hk in E6. destruct E6 as [|[= ->]]; done.
Qed.
Lemma kept_to k k1 k2 : kept k k1 -> kinds k2 = kinds k1 -> kept k k2.
Proof. intros H E t kd Hk. rewrite E. by apply H. Qed.
Lemma expect_terminals_kept k ids : kept k (expect_terminals (EngineError := EngineError) k ids).2.
Proof.
  assert (H : forall k0, kept k0 k -> kept k0 (expect_terminals (EngineError := EngineError) k ids).2); [|by apply H, kept_same].
  revert k. induction ids as [|t ids IH]; intros k k0 Hk; simpl; [done|]. destruct (expect_kind k t _) as [k1|] eqn:E; [|done].
  apply IH. intros t' kd Ht. by eapply kept_expect, Hk.
Qed.
Lemma agent_begin_kept k t s b p base : kept k (agent_bootstrap_begin (EngineError := EngineError) k t s b p base).1.2.
Proof.
  apply kept_or_return; [by apply kept_same|]. intros [] _. apply kept_or_return; [by apply kept_same|]. intros k1 E%kept_expect. cbv zeta.
  destruct (bool_decide _); [by apply (kept_to _ _ _ E)|]. destruct (_ || _); by apply (kept_to _ _ _ E).
Qed.
Lemma mark_kinds k t f : kinds (mark_attach k t f) = kinds k.
Proof. unfold mark_attach. by destruct (attach k). Qed.
Lemma kept_mark k0 k t f : kinds k = kinds k0 -> kept k0 (mark_attach k t f).
Proof. intros E. apply kept_same. by rewrite mark_kinds. Qed.
Ltac streamed := repeat (apply kept_or_return; [by apply kept_same|]; intros ? ?).
Lemma update_kept k i : kept k (update payload_digest k i).1.2.
Proof.
  assert (Hf : forall k', framed k k' -> kept k k') by (intros k' (E & _); by apply kept_same).
  destruct i as [aid ids|aid|t s b p g base|t s b n p|t s b c| | | |t s b n p|t s b r v|t|d|[t event]]; simpl.
  - unfold attach_started. cbv zeta. set (start := or_return _ _ _). assert (H : kept k start.1.2).
    { unfold start. streamed. pose proof (expect_terminals_kept k ids) as He. destruct (expect_terminals k ids) as [[[]|e] k1]; by apply (kept_to _ _ _ He). }
    destruct (attach k) as [at'|]; [|done]. destruct (negb _); [by apply kept_same|done].
  - unfold attach_ready. destruct (attach k) as [at'|]; [|by apply kept_same]. destruct (negb (_ =? aid)); [by apply kept_same|].
    destruct (negb (_ =? 0)); [by apply kept_same|]. destruct (released at'); by apply kept_same.
  - destruct (is_agent_profile _); [apply agent_begin_kept|]. apply kept_or_return; [by apply kept_same|]. intros k1 E%kept_expect.
    apply (kept_to _ _ _ E). apply bootstrap_begin_framed.
  - destruct (bool_decide _); [|apply Hf, bootstrap_chunk_framed]. unfold agent_bootstrap_chunk. streamed. destruct (parse_records p); by apply kept_same.
  - destruct (bool_decide _); [|apply Hf, bootstrap_ready_framed]. unfold agent_bootstrap_ready. streamed. simpl. by apply kept_mark.
  - apply Hf, history_page_framed.
  - apply Hf, history_tombstone_framed.
  - apply Hf, history_rejected_framed.
  - destruct (bool_decide _); [|apply Hf, terminal_output_framed]. unfold agent_output. streamed. destruct (_ <? _); [by apply kept_same|].
    destruct (parse_records p); [|by apply kept_same]. streamed. by apply kept_same.
  - unfold tombstone_generation. destruct (agents k !! t); [by apply kept_same|]. cbv zeta. destruct (publishes _ _); [by apply kept_mark|by apply kept_same].
  - unfold terminal_closed. cbv zeta. cbn [fst]. by apply kept_mark.
  - unfold agent_session_declared. cbv zeta. streamed. eapply kept_to; [by eapply kept_expect|done].
  - destruct (input_eligibility k t); by apply kept_same.
Qed.
(** Only releasing the resource frees its kind. *)
Definition releases (o : KernelOp) (t : ResourceId) : Prop := o = Op_release_terminal t \/ o = Op_detach t.
Lemma release_kinds k t t' : t' <> t -> kinds (release_terminal k t).2 !! t' = kinds k !! t'.
Proof.
  intros Hn. unfold release_terminal. destruct (match attach k with Some _ => _ | None => _ end); [done|]. simpl. by rewrite lookup_delete_ne.
Qed.
Lemma run_op_kinds k o t kd : ~ releases o t -> kinds k !! t = Some kd -> kinds (run_op payload_digest k o) !! t = Some kd.
Proof.
  intros Hr Hk.
  assert (Hd : match o with Op_update _ | Op_release_terminal _ | Op_detach _ => False | _ => True end -> kinds (run_op payload_digest k o) !! t = Some kd).
  { intros Ho. by destruct (document_ops_framed k o Ho) as (-> & _). }
  destruct o as [i|t' n| |t'|t'|t'|t' w n|t' p|t' a|t'|t' a|t' needle n]; try by apply Hd.
  - by apply update_kept.
  - simpl. rewrite release_kinds; [done|]. intros ->. apply Hr. by left.
  - assert (Hn : t <> t') by (intros ->; apply Hr; by right).
    simpl. unfold detach_terminal. destruct (attach k) as [at'|]; [|by rewrite release_kinds]. destruct (negb _); [done|]. by rewrite release_kinds.
Qed.
Lemma new_typed ad profile cfg : WellTyped (with_history_config ad profile cfg).
Proof. constructor; intros t; simpl; [intros _ st; by rewrite lookup_empty|rewrite lookup_empty; by intros [? ?]]. Qed.
Lemma run_ops_typed k ops : WellTyped k -> Forall op_input_ok ops -> WellTyped (fold_left (run_op payload_digest) ops k).
Proof. intros Hk Ho. revert k Hk. induction Ho as [|o ops Ho _ IH]; intros k Hk; simpl; [done|]. by apply IH, run_op_typed. Qed.
Lemma run_ops_kinds k ops t kd :
  Forall (fun o => ~ releases o t) ops -> kinds k !! t = Some kd -> kinds (fold_left (run_op payload_digest) ops k) !! t = Some kd.
Proof. intros Ho. revert k. induction Ho as [|o ops Ho _ IH]; intros k Hk; simpl; [done|]. by apply IH, run_op_kinds. Qed.

(** ** What a client shows *)

Section Shown.
  Context (S : Sent).
Lemma event_chunk t o g n payload : op_event t o = Ev_chunk g n payload -> o = Op_update (In_BootstrapChunk t g.1 g.2 n payload).
Proof.
  destruct o as [i| | | | | | | | | | |]; simpl; unfold ev_at; try (case_bool_decide; done); [|done].
  destruct i; simpl; unfold ev_at; try (case_bool_decide; [|done]); try done. subst. by intros [= <- <- <-].
Qed.
(** The chunk a staging waits for is not passed over: it is fed to the engine, or the staging goes. *)
Lemma nothing_missed k t st o : WellTyped k -> StateOk S (history_config k) t st -> terminals k !! t = Some st ->
  terminals (run_op payload_digest k o) !! t = Some st -> ~ misses st (op_event t o).
Proof.
  intros [Hw Ha] Hst Est Hsame (s & n & payload & Es & Ev & Er & Enext). apply event_chunk in Ev as ->. destruct (generation_of (sg_key s)) as [stream bootstrap] eqn:Eg.
  assert (Hopen : kinds k !! t = Some ResourceKind_Terminal /\ t ∉ closed k).
  { split; [destruct (decide (kinds k !! t = Some ResourceKind_Terminal)) as [|Hk]; [done|]|intros Hc].
    - destruct (Hw t (or_introl Hk) st Est) as [_ E]. congruence.
    - destruct (Hw t (or_intror Hc) st Est) as [_ E]. congruence. }
  destruct Hopen as [Hk Hc]. revert Hsame. simpl. rewrite bool_decide_eq_false_2 by (intros Hag; destruct (Ha t Hag); congruence).
  unfold bootstrap_chunk, ensure_open, staging_of. rewrite bool_decide_eq_false_2 by done. simpl. rewrite Est.
  pose proof (st_live _ _ _ _ Hst s Es) as Hr. rewrite Eg in Hr. rewrite Hr, (bool_decide_eq_false_2 (is_Some None)) by (by intros [? ?]). rewrite Es, bool_decide_eq_true_2 by done. simpl.
  rewrite Er. unfold expect_chunk. rewrite Enext, Z.ltb_irrefl. simpl.
  destruct (apply_bootstrap_chunk _ _ _) as [[[[progress|e] engine] captured] a]; simpl; rewrite lookup_insert_eq; intros [= E]; rewrite <- E in Es; simpl in Es; [|done].
  injection Es as Es. rewrite <- Es in Enext. simpl in Enext. unfold next_u32 in Enext. destruct (n =? u32_max); [done|]. injection Enext. lia.
Qed.
Lemma default_tracked h w t : Track S h w t (@TerminalState_default Replica).
Proof. by constructor. Qed.
Lemma run_ops_tracked a profile cfg ops : Forall (op_honest S) ops ->
  let k := fold_left (run_op payload_digest) ops (with_history_config a profile cfg) in
  forall t st, terminals k !! t = Some st -> Track S (fun g => heard t g ops) (fun g => whole S t g ops) t st.
Proof.
  induction ops as [|o ops IH] using rev_ind; intros Hops k t st Est; [unfold k in Est; simpl in Est; by rewrite lookup_empty in Est|].
  apply Forall_app in Hops as [Hops Ho]. inversion Ho as [|? ? [Hi Hh] _]; subst. unfold k in *. clear k. rewrite fold_left_app in Est. simpl in Est.
  specialize (IH Hops). set (k := fold_left _ ops _) in *. simpl in IH.
  assert (Hk : KernelOk S k) by (apply run_ops_ok; [apply kernel_new_ok|done]).
  assert (Ht : WellTyped k) by (apply run_ops_typed; [apply new_typed|by eapply Forall_impl; [exact Hops|intros ? [? _]]]).
  assert (Hw : forall w', (forall g, whole S t g (ops ++ [o]) -> w' g) ->
    Track S (fun g => heard_event g (heard t g ops) (op_event t o)) w' t st -> Track S (fun g => heard t g (ops ++ [o])) (fun g => whole S t g (ops ++ [o])) t st).
  { intros w' Hw' [T1 T2]. constructor.
    - intros s Es Hp. rewrite heard_snoc. by apply T1.
    - intros r Er. destruct (T2 r Er) as (n & e & ? & ? & Hn). exists n, e. do 2 (split; [done|]). intros Hwhole. by apply Hn, Hw'. }
  eapply Hw; [intros g; apply whole_snoc|]. clear Hw. specialize (IH t). pose proof (fun g => heard_nonneg t g ops) as Hn.
  assert (Hdef : Track S (fun g => heard t g ops) (fun g => whole S t g ops) t (default TerminalState_default (terminals k !! t))).
  { destruct (terminals k !! t) as [st0|]; [by apply IH|apply default_tracked]. }
  assert (Hdok : StateOk S (history_config k) t (default TerminalState_default (terminals k !! t))).
  { specialize (Hk t). destruct (terminals k !! t) as [st0|]; [by apply Hk|apply default_ok]. }
  destruct (run_op_slots payload_digest k o Hi) as [_ Hslot]. specialize (Hslot t).
  pose proof (nothing_missed k t st o Ht) as Hmiss. rewrite Est in *. revert Hslot Hmiss IH Hdef Hdok. generalize (terminals k !! t) as before.
  intros before Hslot Hmiss IH Hdef Hdok. inversion Hslot as [o1 E1 E2|E1 E2|o1 st1 Hs E1 E2|]; subst; simpl in *.
  - apply track_same; [apply Hh|by apply Hmiss|by apply IH].
  - apply track_same; [apply Hh|by intros (? & ? & ? & ? & _)|done].
  - eapply track_step; [done|exact Hdok|apply Hh|exact Hs|exact Hdef].
Qed.

(** C2: Whatever a client is told, in whatever order, with frames repeated, reordered, lost or misdirected, and whatever its frontend
    asks of the document meanwhile: the engine it shows for a terminal was fed the chunks of the transcript the server sent for exactly
    that generation, each once and in order, and then exactly the live payloads [base + 1 .. last], each once and in order, under the
    profile and geometry the server chose; and its history cache is sound. The chunks are the first [n] of the transcript; they are all
    of it when the client heard the whole of it before its end, however much of it came more than once, unless the engine itself had
    called the transcript complete before. *)
Theorem shown_is_what_was_sent a profile cfg ops t st r :
  Forall (op_honest S) ops ->
  let k := fold_left (run_op payload_digest) ops (with_history_config a profile cfg) in
  terminals k !! t = Some st -> published st = Some r ->
  let g := generation_of (rp_key r) in
  (exists n complete, Shown S t g n complete (rp_last_seq r) (rp_engine r) /\ 0 <= n <= sent_count S t g `max` 0
     /\ (whole S t g ops -> n = sent_count S t g \/ complete = true))
  /\ sent_base S t g <= rp_last_seq r
  /\ rk_terminal (rp_key r) = t /\ rk_profile (rp_key r) = sent_profile S t g /\ rp_geometry r = sent_geometry S t g
  /\ HistoryOk (rp_history r).
Proof.
  intros Hops k Est Er g. pose proof (tr_shown _ _ _ _ _ (run_ops_tracked a profile cfg ops Hops t st Est) _ Er) as Hs.
  pose proof (run_ops_ok payload_digest S ops _ (kernel_new_ok S a profile cfg) Hops t st Est) as [_ _ Hp _].
  destruct (Hp _ Er) as [P1 P2 P3 P5 P6 [P7 _]]. done.
Qed.
End Shown.

(** C22: The kernel's maps are typed. Whatever calls a client makes, valid or not, only an open Terminal
    has a staged or published replica, and only an open AgentSession has a record stream; so no resource
    has both, and keystrokes are never addressed to an agent stream. A claimed kind
    stays until the resource is released, whatever frames name the resource meanwhile. *)
Theorem kinds_are_kept ad profile cfg ops later t kd :
  Forall op_input_ok ops ->
  let k := fold_left (run_op payload_digest) ops (with_history_config ad profile cfg) in
  (forall st, terminals k !! t = Some st -> published st <> None \/ staging st <> None ->
     kinds k !! t = Some ResourceKind_Terminal /\ t ∉ closed k /\ agents k !! t = None)
  /\ (is_Some (agents k !! t) ->
       kinds k !! t = Some ResourceKind_AgentSession /\ t ∉ closed k /\ input_eligibility k t = Ineligible Block_NotATerminal)
  /\ (kinds k !! t = Some kd -> Forall (fun o => ~ releases o t) later ->
       kinds (fold_left (run_op payload_digest) later k) !! t = Some kd).
Proof.
  intros Ho k. assert (Hk : WellTyped k) by (apply run_ops_typed; [apply new_typed|done]). clearbody k. destruct Hk as [H1 H2]. repeat split.
  - destruct (decide (kinds k !! t = Some ResourceKind_Terminal)) as [|Hn]; [done|]. destruct (H1 t (or_introl Hn) st) as [Hp Hs]; [done|].
    by destruct H0.
  - intros Hc. destruct (H1 t (or_intror Hc) st) as [Hp Hs]; [done|]. by destruct H0.
  - destruct (agents k !! t) as [sm|] eqn:Ea; [|done]. destruct (H2 t) as [Hkd _]; [by rewrite Ea|].
    destruct (H1 t) with (st := st) as [Hp Hs]; [left; by rewrite Hkd|done|]. by destruct H0.
  - by apply H2.
  - by apply H2.
  - destruct (H2 t H) as [Hkd Hc]. unfold input_eligibility. rewrite bool_decide_eq_false_2 by done. by rewrite Hkd.
  - intros Hkd Hl. by apply run_ops_kinds.
Qed.
End Kinds.

Lemma toy_whole : whole toy_sent pane (1, 1) (begun ++ jumbled).
Proof.
  intros pre o post E Ho. do 4 (destruct pre as [|? pre]; [injection E as <- _; discriminate Ho|injection E as <- E]).
  destruct pre as [|? pre]; [reflexivity|injection E as <- E]. do 4 (destruct pre as [|? pre]; [injection E as <- _; discriminate Ho|injection E as <- E]).
  destruct pre; discriminate E.
Qed.
Abbreviation toy_kernel := (fold_left (run_op (Adapter := ToyAdapter) (Replica := ToyReplica) (EngineError := ToyError) id) (begun ++ jumbled)
  (with_history_config (Adapter := ToyAdapter) (Replica := ToyReplica) tt Profile_SynthesizedVtRaw HistoryCacheConfig_default)).
Lemma shown_is_what_was_sent_witness :
  exists st r, terminals toy_kernel !! pane = Some st /\ published st = Some r /\ rp_last_seq r = 2 /\ rp_engine r = [[0]; [1]; [101]; [102]]
    /\ exists n complete, Shown toy_sent pane (generation_of (rp_key r)) n complete (rp_last_seq r) (rp_engine r) /\ (n = 2 \/ complete = true).
Proof.
  destruct (terminals toy_kernel !! pane) as [st|] eqn:Est; [|vm_compute in Est; discriminate].
  destruct (published st) as [r|] eqn:Er; [|exfalso; vm_compute in Est; injection Est as <-; discriminate].
  pose proof (shown_is_what_was_sent (Adapter := ToyAdapter) id toy_sent tt Profile_SynthesizedVtRaw HistoryCacheConfig_default (begun ++ jumbled) pane st r
    toy_honest Est Er) as [(n & complete & Hs & _ & Hn) _].
  exists st, r. split; [reflexivity|]. split; [exact Er|].
  assert (E : rp_last_seq r = 2 /\ rp_engine r = [[0]; [1]; [101]; [102]] /\ generation_of (rp_key r) = (1, 1)).
  { vm_compute in Est. injection Est as <-. vm_compute in Er. injection Er as <-. repeat split; reflexivity. }
  destruct E as (E1 & E2 & E3). split; [exact E1|]. split; [exact E2|]. exists n, complete. split; [exact Hs|]. apply Hn. rewrite E3. exact toy_whole.
Defined.

(** A pane and an agent side by side; frames of the wrong kind are refused and change nothing. *)
Definition mixed : list KernelOp :=
  begun ++ [Op_update (In_BootstrapBegin agent 1 1 StreamProfile_AgentEventsJsonlV1 (mkGeometry 0 0) 0)].
Definition crossed : list KernelOp :=
  [Op_update (In_BootstrapBegin agent 2 2 StreamProfile_SynthesizedVtRaw (mkGeometry 80 24) 0);
   Op_update (In_BootstrapBegin pane 2 2 StreamProfile_AgentEventsJsonlV1 (mkGeometry 0 0) 0)].
Lemma kinds_are_kept_witness :
  (kinds (toy_run mixed) !! pane = Some ResourceKind_Terminal /\ agents (toy_run mixed) !! pane = None)
  /\ input_eligibility (toy_run mixed) agent = Ineligible Block_NotATerminal
  /\ kinds (fold_left (run_op id) crossed (toy_run mixed)) !! agent = Some ResourceKind_AgentSession.
Proof.
  assert (Ho : Forall op_input_ok mixed) by (repeat (apply Forall_cons; split; [exact I|]); constructor).
  destruct (kinds_are_kept id tt Profile_SynthesizedVtRaw HistoryCacheConfig_default mixed [] pane ResourceKind_Terminal Ho) as [H _].
  destruct (kinds_are_kept id tt Profile_SynthesizedVtRaw HistoryCacheConfig_default mixed crossed agent ResourceKind_AgentSession Ho) as [_ [H' H'']].
  split; [|split].
  - destruct (terminals (toy_run mixed) !! pane) as [st|] eqn:Est; [|vm_compute in Est; discriminate].
    destruct (H st Est) as [E1 [_ E2]]; [|split; [exact E1|exact E2]].
    left. vm_compute in Est. injection Est as <-. discriminate.
  - apply H'. vm_compute. eexists. reflexivity.
  - apply H''; [vm_compute; reflexivity|]. repeat constructor; intros [E|E]; discriminate E.
Defined.
