(* ===== verification/Float32.v ===== *)
(** * 32-bit floats, on their bit patterns

    The IEEE-754 binary32 operations the client's tiling uses. A pattern is looked at as a sign and an
    exact fraction ([f32_view]); an operation computes exactly and [f32_make] rounds the result to the
    nearest pattern, ties to even. *)

From Stdlib Require Import Lia ZArith.
From S2P Require Import Prelude.

(** The magnitude is [n / d], with [0 <= n] and [0 < d]. *)
Inductive F32 : Type :=
| F32_nan
| F32_inf (neg : bool)
| F32_fin (neg : bool) (n d : Z).

Definition f32_sign (bits : Z) : bool := 2147483648 <=? bits.
Definition pow2 (e : Z) : Z := 2 ^ e.
Definition f32_view (bits : Z) : F32 :=
  let neg := f32_sign bits in
  let e := (bits / 8388608) mod 256 in
  let m := bits mod 8388608 in
  if e =? 255 then if m =? 0 then F32_inf neg else F32_nan
  else
    let m := if e =? 0 then m else m + 8388608 in
    let e := Z.max 1 e - 150 in
    if 0 <=? e then F32_fin neg (m * pow2 e) 1 else F32_fin neg m (pow2 (- e)).

(** The integer nearest to [n / d], the even one of two. *)
Definition round_half_even (n d : Z) : Z :=
  let q := n / d in
  let r := n mod d in
  if 2 * r <? d then q else if d <? 2 * r then q + 1 else if Z.even q then q else q + 1.
(** The binary exponent of a positive [n / d]. *)
Definition exponent (n d : Z) : Z :=
  let e := Z.log2 n - Z.log2 d in
  if d * pow2 (Z.max e 0) <=? n * pow2 (Z.max (- e) 0) then e else e - 1.
(** Exponent and mantissa as one number: a mantissa that rounds up to the next power of two carries into
    the exponent. *)
Definition f32_magnitude (n d : Z) : Z :=
  if n =? 0 then 0
  else
    let e := Z.max (-126) (exponent n d) in
    let s := 23 - e in
    Z.min 2139095040 ((e + 126) * 8388608 + round_half_even (n * pow2 (Z.max s 0)) (d * pow2 (Z.max (- s) 0))).
Definition f32_make (x : F32) : Z :=
  let signed (neg : bool) (m : Z) := if neg then 2147483648 + m else m in
  match x with
  | F32_nan => 2143289344
  | F32_inf neg => signed neg 2139095040
  | F32_fin neg n d => signed neg (f32_magnitude n d)
  end.

(** ** Operations *)

(** [f32::from] of a [u16] or an [i16]. *)
Definition f32_from (z : Z) : Z := f32_make (F32_fin (z <? 0) (Z.abs z) 1).
Definition f32_neg (a : Z) : Z := if f32_sign a then a - 2147483648 else a + 2147483648.
Definition f32_mul (a b : Z) : Z :=
  f32_make
    match f32_view a, f32_view b with
    | F32_nan, _ | _, F32_nan => F32_nan
    | F32_inf s, F32_inf t => F32_inf (xorb s t)
    | F32_inf s, F32_fin t n _ | F32_fin t n _, F32_inf s => if n =? 0 then F32_nan else F32_inf (xorb s t)
    | F32_fin s n d, F32_fin t n' d' => F32_fin (xorb s t) (n * n') (d * d')
    end.
Definition f32_div (a b : Z) : Z :=
  f32_make
    match f32_view a, f32_view b with
    | F32_nan, _ | _, F32_nan | F32_inf _, F32_inf _ => F32_nan
    | F32_inf s, F32_fin t _ _ => F32_inf (xorb s t)
    | F32_fin s _ _, F32_inf t => F32_fin (xorb s t) 0 1
    | F32_fin s n d, F32_fin t n' d' =>
        if n' =? 0 then if n =? 0 then F32_nan else F32_inf (xorb s t) else F32_fin (xorb s t) (n * d') (d * n')
    end.
Definition signed_num (neg : bool) (n : Z) : Z := if neg then - n else n.
Definition f32_add (a b : Z) : Z :=
  f32_make
    match f32_view a, f32_view b with
    | F32_nan, _ | _, F32_nan => F32_nan
    | F32_inf s, F32_inf t => if Bool.eqb s t then F32_inf s else F32_nan
    | F32_inf s, F32_fin _ _ _ | F32_fin _ _ _, F32_inf s => F32_inf s
    | F32_fin s n d, F32_fin t n' d' =>
        let z := signed_num s n * d' + signed_num t n' * d in
        F32_fin (if z =? 0 then s && t else z <? 0) (Z.abs z) (d * d')
    end.
Definition f32_sub (a b : Z) : Z := f32_add a (f32_neg b).
(** [a < b]; false on a NaN. *)
Definition f32_lt (a b : Z) : bool :=
  match f32_view a, f32_view b with
  | F32_nan, _ | _, F32_nan => false
  | F32_inf s, F32_inf t => s && negb t
  | F32_inf s, F32_fin _ _ _ => s
  | F32_fin _ _ _, F32_inf t => negb t
  | F32_fin s n d, F32_fin t n' d' => signed_num s n * d' <? signed_num t n' * d
  end.
(** [a <= b]; false on a NaN. *)
Definition f32_le (a b : Z) : bool :=
  match f32_view a, f32_view b with
  | F32_nan, _ | _, F32_nan => false
  | F32_inf s, F32_inf t => s || negb t
  | F32_inf s, F32_fin _ _ _ => s
  | F32_fin _ _ _, F32_inf t => negb t
  | F32_fin s n d, F32_fin t n' d' => signed_num s n * d' <=? signed_num t n' * d
  end.
Definition f32_is_nan (a : Z) : bool := match f32_view a with F32_nan => true | _ => false end.
Definition f32_is_finite (a : Z) : bool := match f32_view a with F32_fin _ _ _ => true | _ => false end.
(** [f32::round]: to the nearest integer, halves away from zero. *)
Definition f32_round (a : Z) : Z :=
  match f32_view a with
  | F32_fin s n d => f32_make (F32_fin s ((2 * n + d) / (2 * d)) 1)
  | _ => a
  end.
(** [as u16]: towards zero, saturating, a NaN to zero. *)
Definition f32_as_u16 (a : Z) : Z :=
  match f32_view a with
  | F32_nan => 0
  | F32_inf s => if s then 0 else u16_max
  | F32_fin s n d => if s then 0 else Z.min u16_max (n / d)
  end.
(** [f32::clamp]. *)
Definition f32_clamp (a lo hi : Z) : Z := if f32_lt a lo then lo else if f32_lt hi a then hi else a.

Example f32_samples :
  f32_from 0 = 0 /\ f32_from 1 = 0x3f800000 /\ f32_from (-3) = 0xc0400000
  /\ f32_div (f32_from 1) (f32_from 3) = 0x3eaaaaab /\ f32_div (f32_from 2) (f32_from 3) = 0x3f2aaaab
  /\ f32_div (f32_from 1) (f32_from 1000) = 0x3a83126f /\ f32_sub (f32_from 1) 0x3a83126f = 0x3f7fbe77
  /\ f32_mul (f32_from 80) 0x3f000000 = f32_from 40 /\ f32_add 0x3f000000 0x3f000000 = f32_from 1
  /\ f32_round (f32_mul (f32_from 79) 0x3f000000) = f32_from 40 /\ f32_as_u16 0x7fc00000 = 0
  /\ f32_lt 0xbf800000 0 = true /\ f32_div (f32_from 1) 0 = 0x7f800000 /\ f32_mul 0x7f7fffff (f32_from 2) = 0x7f800000
  /\ f32_mul 1 0x3f000000 = 0 /\ f32_mul 3 0x3f000000 = 2.
Proof. vm_compute. repeat split. Qed.

(** ** Rounding *)

Lemma pow2_pos e : 0 <= e -> 0 < pow2 e.
Proof. intros H. unfold pow2. by apply Z.pow_pos_nonneg. Qed.
Lemma pow2_add a b : 0 <= a -> 0 <= b -> pow2 (a + b) = pow2 a * pow2 b.
Proof. intros Ha Hb. unfold pow2. by rewrite Z.pow_add_r. Qed.
Lemma round_half_even_near n d : 0 < d -> 2 * Z.abs (d * round_half_even n d - n) <= d.
Proof.
  intros Hd. pose proof (Z.div_mod n d ltac:(lia)) as E. pose proof (Z.mod_pos_bound n d Hd) as Hr. unfold round_half_even.
  set (q := n / d) in *. set (r := n mod d) in *. rewrite E.
  destruct (Z.ltb_spec (2 * r) d); [replace (d * q - (d * q + r)) with (- r) by ring; lia|].
  destruct (Z.ltb_spec d (2 * r)); [replace (d * (q + 1) - (d * q + r)) with (d - r) by ring; lia|].
  destruct (Z.even q); [replace (d * q - (d * q + r)) with (- r) by ring; lia|replace (d * (q + 1) - (d * q + r)) with (d - r) by ring; lia].
Qed.
(** A comparison of [n / d] with [2 ^ e], whatever power of two clears the fractions. *)
Lemma scale_le n d e k : 0 <= k -> 0 <= k + e ->
  d * pow2 (k + e) <= n * pow2 k <-> d * pow2 (Z.max e 0) <= n * pow2 (Z.max (- e) 0).
Proof.
  intros Hk He. destruct (Z.le_gt_cases 0 e) as [H|H].
  - rewrite Z.max_l, (Z.max_r (- e)) by lia. rewrite pow2_add by lia. pose proof (pow2_pos k Hk).
    change (pow2 0) with 1. rewrite Z.mul_1_r. replace (d * (pow2 k * pow2 e)) with (d * pow2 e * pow2 k) by ring.
    split; intros; nia.
  - rewrite Z.max_r, (Z.max_l (- e)) by lia. change (pow2 0) with 1. rewrite Z.mul_1_r. pose proof (pow2_pos (k + e) He).
    replace (pow2 k) with (pow2 (- e) * pow2 (k + e)) by (rewrite <- pow2_add by lia; f_equal; lia).
    replace (n * (pow2 (- e) * pow2 (k + e))) with (n * pow2 (- e) * pow2 (k + e)) by ring. split; intros; nia.
Qed.
Lemma log2_pow2 n : 0 < n -> pow2 (Z.log2 n) <= n < pow2 (Z.log2 n + 1).
Proof. intros H. pose proof (Z.log2_spec n H). unfold pow2. by rewrite Z.add_1_r. Qed.
(** [2 ^ e <= n / d < 2 ^ (e + 1)], over a common denominator. *)
Lemma exponent_spec n d k : 0 < n -> 0 < d -> 0 <= k -> 0 <= k + exponent n d ->
  d * pow2 (k + exponent n d) <= n * pow2 k < d * pow2 (k + exponent n d + 1).
Proof.
  intros Hn Hd. pose proof (log2_pow2 n Hn) as [Ln Un]. pose proof (log2_pow2 d Hd) as [Ld Ud]. unfold exponent. cbv zeta.
  pose proof (Z.log2_nonneg n). pose proof (Z.log2_nonneg d). set (a := Z.log2 n) in *. set (b := Z.log2 d) in *.
  assert (Hup : forall j, 0 <= j -> 0 <= j + (a - b) -> n * pow2 j < d * pow2 (j + (a - b) + 1)).
  { intros j H1 H2. assert (E : pow2 (a + 1) * pow2 j = pow2 b * pow2 (j + (a - b) + 1)).
    { rewrite <- !pow2_add by lia. f_equal. lia. }
    pose proof (pow2_pos j H1). pose proof (pow2_pos (j + (a - b) + 1) ltac:(lia)). nia. }
  assert (Hlow : forall j, 0 <= j -> 0 <= j + (a - b) - 1 -> d * pow2 (j + (a - b) - 1) <= n * pow2 j).
  { intros j H1 H2. assert (E : pow2 a * pow2 j = pow2 (b + 1) * pow2 (j + (a - b) - 1)).
    { rewrite <- !pow2_add by lia. f_equal. lia. }
    pose proof (pow2_pos j H1). pose proof (pow2_pos (j + (a - b) - 1) H2). nia. }
  destruct (Z.leb_spec (d * pow2 (Z.max (a - b) 0)) (n * pow2 (Z.max (- (a - b)) 0))) as [Hle|Hgt]; intros Hk He.
  - split; [by apply scale_le|by apply Hup].
  - split; [replace (k + (a - b - 1)) with (k + (a - b) - 1) by lia; apply Hlow; lia|].
    replace (k + (a - b - 1) + 1) with (k + (a - b)) by lia. apply Z.nle_gt. intros Hc.
    apply scale_le in Hc; [|lia|lia]. lia.
Qed.

Lemma round_half_even_bounds n d lo hi : 0 < d -> d * lo <= n <= d * hi -> lo <= round_half_even n d <= hi.
Proof.
  intros Hd [H1 H2]. unfold round_half_even. pose proof (Z.div_mod n d ltac:(lia)) as E. pose proof (Z.mod_pos_bound n d Hd) as Hr.
  set (q := n / d) in *. set (r := n mod d) in *.
  assert (lo <= q) by nia. assert (q <= hi) by nia. assert (q = hi -> r = 0) by nia.
  destruct (Z.ltb_spec (2 * r) d); [lia|]. destruct (Z.ltb_spec d (2 * r)); [nia|]. destruct (Z.even q); nia.
Qed.
(** A mantissa and an exponent, read back. *)
Lemma f32_view_normal neg e m : -126 <= e <= 126 -> 8388608 <= m <= 16777216 ->
  exists n d, f32_view ((if neg : bool then 2147483648 else 0) + ((e + 126) * 8388608 + m)) = F32_fin neg n d
    /\ 0 < d /\ n * pow2 (Z.max (23 - e) 0) = m * pow2 (Z.max (e - 23) 0) * d.
Proof.
  intros He Hm. set (b := _ + _).
  assert (Hcase : exists e' m', b = (if neg then 2147483648 else 0) + (e' + 127) * 8388608 + m' /\ 0 <= m' < 8388608 /\ -126 <= e' <= 127
                     /\ ((e' = e /\ m' + 8388608 = m) \/ (e' = e + 1 /\ m' = 0 /\ m = 16777216))).
  { destruct (Z.eq_dec m 16777216) as [->|Hn].
    - exists (e + 1), 0. unfold b. split; [lia|]. split; [lia|]. split; [lia|]. right. lia.
    - exists e, (m - 8388608). unfold b. split; [lia|]. split; [lia|]. split; [lia|]. left. lia. }
  destruct Hcase as (e' & m' & Eb & Hm' & He' & Hc). clearbody b.
  assert (Es : f32_sign b = neg) by (unfold f32_sign; destruct neg; [apply Z.leb_le|apply Z.leb_gt]; lia).
  assert (Ee : (b / 8388608) mod 256 = e' + 127).
  { replace (b / 8388608) with ((if neg then 256 else 0) + (e' + 127)).
    - destruct neg; [rewrite Z.add_mod, Z_mod_same_full, Z.add_0_l, Z.mod_mod by lia|]; apply Z.mod_small; lia.
    - apply Z.div_unique with (r := m'); [lia|]. destruct neg; lia. }
  assert (Em : b mod 8388608 = m').
  { symmetry. apply Z.mod_unique with (q := (if neg then 256 else 0) + (e' + 127)); [lia|]. destruct neg; lia. }
  unfold f32_view. rewrite Es, Ee, Em. clear Es Ee Em Eb. destruct (Z.eqb_spec (e' + 127) 255) as [|_]; [lia|].
  destruct (Z.eqb_spec (e' + 127) 0); [lia|]. rewrite Z.max_r by lia. replace (e' + 127 - 150) with (e' - 23) by lia.
  assert (Ep : pow2 1 = 2) by done.
  destruct (Z.leb_spec 0 (e' - 23)) as [Hs|Hs].
  - eexists _, _. split; [done|]. split; [lia|]. rewrite Z.mul_1_r. destruct Hc as [[-> <-]|(-> & -> & ->)].
    + rewrite (Z.max_r (23 - e)), Z.max_l by lia. change (pow2 0) with 1. lia.
    + destruct (Z.le_gt_cases 23 e).
      * rewrite (Z.max_r (23 - e)), Z.max_l by lia. change (pow2 0) with 1. replace (e + 1 - 23) with (e - 23 + 1) by lia.
        rewrite pow2_add, Ep by lia. lia.
      * assert (e = 22) as -> by lia. reflexivity.
  - eexists _, _. split; [done|]. split; [apply pow2_pos; lia|]. destruct Hc as [[-> <-]|(-> & -> & ->)].
    + rewrite (Z.max_l (23 - e)), (Z.max_r (e - 23)) by lia. change (pow2 0) with 1. replace (- (e - 23)) with (23 - e) by lia. lia.
    + rewrite (Z.max_l (23 - e)), (Z.max_r (e - 23)) by lia. change (pow2 0) with 1.
      replace (23 - e) with (- (e + 1 - 23) + 1) by lia. rewrite pow2_add, Ep by lia. lia.
Qed.
(** What rounding loses of a number of ordinary size: at most one part in [2 ^ 24], and nothing of a small integer. *)
Lemma f32_make_near neg n d : 0 < n -> 0 < d -> -126 <= exponent n d <= 126 ->
  exists n' d', f32_view (f32_make (F32_fin neg n d)) = F32_fin neg n' d' /\ 0 < d' /\ Z.abs (n' * d - n * d') * 16777216 <= n * d'
    /\ (d = 1 -> exponent n d <= 23 -> n' = n * d').
Proof.
  intros Hn Hd He. unfold f32_make, f32_magnitude. destruct (Z.eqb_spec n 0); [lia|]. cbv zeta. rewrite Z.max_r by lia.
  set (e := exponent n d) in *. set (N := n * _). set (D := d * _).
  assert (Hk : d * pow2 (Z.max (23 - e) 0 + e) <= n * pow2 (Z.max (23 - e) 0) < d * pow2 (Z.max (23 - e) 0 + e + 1)).
  { apply exponent_spec; lia. }
  replace (Z.max (23 - e) 0 + e) with (23 + Z.max (- (23 - e)) 0) in Hk by lia.
  replace (23 + Z.max (- (23 - e)) 0 + 1) with (24 + Z.max (- (23 - e)) 0) in Hk by lia.
  rewrite !pow2_add in Hk by lia. change (pow2 23) with 8388608 in Hk. change (pow2 24) with 16777216 in Hk.
  fold N in Hk. assert (HD : 0 < D) by (unfold D; pose proof (pow2_pos (Z.max (- (23 - e)) 0) ltac:(lia)); nia).
  assert (HN : D * 8388608 <= N <= D * 16777216) by (unfold D; lia).
  pose proof (round_half_even_bounds N D _ _ HD HN) as Hm. pose proof (round_half_even_near N D HD) as Herr. set (m := round_half_even N D) in *.
  rewrite Z.min_r by lia. destruct (f32_view_normal neg e m ltac:(lia) Hm) as (n' & d' & Ev & Hd' & E).
  exists n', d'. split; [|split; [done|]].
  { rewrite <- Ev. f_equal. by destruct neg. }
  replace (e - 23) with (- (23 - e)) in E by lia. unfold N, D in *. clear N D. set (p := pow2 (Z.max (23 - e) 0)) in *. set (q := pow2 (Z.max (- (23 - e)) 0)) in *.
  assert (0 < p) by (apply pow2_pos; lia). assert (0 < q) by (apply pow2_pos; lia).
  assert (Ex : (n' * d - n * d') * p = (d * q * m - n * p) * d') by (rewrite Z.mul_sub_distr_r; replace (n' * d * p) with (n' * p * d) by ring; rewrite E; ring).
  assert (Hb : Z.abs (d * q * m - n * p) * 16777216 <= n * p) by lia.
  split.
  2: { intros -> He23. assert (Eq : q = 1) by (unfold q; by rewrite Z.max_r by lia). rewrite Eq in *. assert (Em : m = n * p) by lia. rewrite Em in Ex. nia. }
  apply Zmult_le_reg_r with p; [lia|]. replace (Z.abs (n' * d - n * d') * 16777216 * p) with (Z.abs ((n' * d - n * d') * p) * 16777216) by (rewrite Z.abs_mul; nia).
  rewrite Ex, Z.abs_mul, (Z.abs_eq d') by lia. nia.
Qed.
Lemma exponent_bounds n d : Z.log2 n - Z.log2 d - 1 <= exponent n d <= Z.log2 n - Z.log2 d.
Proof. unfold exponent. cbv zeta. destruct (_ <=? _); lia. Qed.
Lemma f32_view_fin b s n d : f32_view b = F32_fin s n d -> 0 <= n /\ 0 < d.
Proof.
  unfold f32_view. pose proof (Z.mod_pos_bound b 8388608 ltac:(lia)). destruct (_ =? 255); [by destruct (_ =? 0)|].
  set (m := if _ =? 0 then b mod 8388608 else _). assert (0 <= m) by (unfold m; destruct (_ =? 0); lia).
  destruct (Z.leb_spec 0 (Z.max 1 ((b / 8388608) mod 256) - 150)); intros [= _ <- <-].
  - split; [|lia]. apply Z.mul_nonneg_nonneg; [done|]. unfold pow2. apply Z.pow_nonneg. lia.
  - split; [done|]. apply pow2_pos. lia.
Qed.
Lemma f32_view_ok b : f32_view b = F32_nan \/ (exists s, f32_view b = F32_inf s) \/ exists s n d, f32_view b = F32_fin s n d /\ 0 <= n /\ 0 < d.
Proof.
  destruct (f32_view b) as [|s|s n d] eqn:E; [by left|right; left; by exists s|]. right; right. exists s, n, d. split; [done|]. by eapply f32_view_fin.
Qed.
Lemma f32_from_view z : 0 <= z < 16777216 ->
  exists n d, f32_view (f32_from z) = F32_fin false n d /\ 0 < d /\ n = z * d.
Proof.
  intros Hz. unfold f32_from. destruct (Z.ltb_spec z 0); [lia|]. rewrite Z.abs_eq by lia. destruct (Z.eq_dec z 0) as [->|Hn].
  - eexists _, _. split; [reflexivity|]. done.
  - pose proof (exponent_bounds z 1). pose proof (Z.log2_nonneg z). assert (Z.log2 z < 24) by (apply Z.log2_lt_pow2; lia).
    change (Z.log2 1) with 0 in *. destruct (f32_make_near false z 1) as (n' & d' & Ev & Hd & _ & Ex); [lia..|].
    exists n', d'. split; [done|]. split; [done|]. apply Ex; lia.
Qed.
(** A comparison with a small integer is one of fractions. *)
Lemma f32_lt_from z b s n d : 0 <= z < 16777216 -> f32_view b = F32_fin s n d -> f32_lt (f32_from z) b = (z * d <? signed_num s n).
Proof.
  intros Hz Eb. destruct (f32_from_view z Hz) as (m & e & Ev & He & ->). unfold f32_lt. rewrite Ev, Eb. simpl.
  apply eq_true_iff_eq. rewrite !Z.ltb_lt. replace (z * e * d) with (z * d * e) by ring. split; intros; nia.
Qed.
Lemma f32_lt_zero b s n d : f32_view b = F32_fin s n d -> f32_lt b 0 = (signed_num s n <? 0).
Proof.
  intros Eb. destruct (f32_view_fin _ _ _ _ Eb) as [_ Hd]. unfold f32_lt. rewrite Eb. change (f32_view 0) with (F32_fin false 0 (pow2 149)).
  simpl signed_num. assert (0 < pow2 149) by by apply pow2_pos. generalize dependent (pow2 149). intros p Hp.
  apply eq_true_iff_eq. rewrite !Z.ltb_lt. generalize (signed_num s n). intros x.
  change (signed_num false 0 * d) with 0. split; intros; nia.
Qed.

(** ** A product that comes back to the integer it was divided from *)

Lemma exponent_within n d : 0 < n -> 0 < d -> n <= d * 65536 -> d <= n * 65536 -> -126 <= exponent n d <= 126.
Proof.
  intros Hn Hd H1 H2. pose proof (exponent_bounds n d). change 65536 with (2 ^ 16) in *.
  apply Z.log2_le_mono in H1, H2. rewrite Z.log2_mul_pow2 in H1, H2 by lia. lia.
Qed.
Lemma cancel_abs c x y : 0 < c -> Z.abs (x * c) <= y * c -> Z.abs x <= y.
Proof. intros Hc H. rewrite Z.abs_mul, (Z.abs_eq c) in H by lia. nia. Qed.
(** A quotient of small integers is within one part in [2 ^ 24]. *)
Lemma f32_div_near low total : 0 < low <= total -> total <= 65535 ->
  exists n d, f32_view (f32_div (f32_from low) (f32_from total)) = F32_fin false n d /\ 0 < d /\ Z.abs ((n * total - low * d) * 16777216) <= low * d.
Proof.
  intros Hl Ht. destruct (f32_from_view low ltac:(lia)) as (a & b & Ea & Hb & ->). destruct (f32_from_view total ltac:(lia)) as (a' & b' & Ea' & Hb' & ->).
  unfold f32_div. rewrite Ea, Ea'. destruct (Z.eqb_spec (total * b') 0); [nia|]. cbn [xorb].
  set (c := b * b'). assert (Hc : 0 < c) by (unfold c; nia).
  replace (low * b * b') with (low * c) by (unfold c; ring). replace (b * (total * b')) with (total * c) by (unfold c; ring).
  assert (H1 : c <= low * c) by nia. assert (H2 : low * c <= total * c) by nia. assert (H3 : total * c <= 65535 * c) by nia.
  destruct (f32_make_near false (low * c) (total * c)) as (n1 & d1 & E1 & Hd1 & R1 & _); [lia|lia|apply exponent_within; lia|].
  exists n1, d1. split; [done|]. split; [done|].
  apply cancel_abs with c; [done|]. replace ((n1 * total - low * d1) * 16777216 * c) with ((n1 * (total * c) - low * c * d1) * 16777216) by ring.
  rewrite Z.abs_mul, (Z.abs_eq 16777216) by lia. nia.
Qed.
Lemma f32_div_mul low total : 0 < low <= total -> total <= 65535 ->
  exists n d, f32_view (f32_mul (f32_from total) (f32_div (f32_from low) (f32_from total))) = F32_fin false n d
    /\ 0 < d /\ (2 * n + d) / (2 * d) = low.
Proof.
  intros Hl Ht. destruct (f32_div_near low total Hl Ht) as (n1 & d1 & E1 & Hd1 & R1').
  destruct (f32_from_view total ltac:(lia)) as (a' & b' & Ea' & Hb' & ->).
  unfold f32_mul. rewrite Ea', E1. cbn [xorb]. clear E1.
  assert (Hd0 : d1 <= low * d1) by nia. assert (Hn1 : 0 < n1 * total) by lia. assert (Hn1' : 0 < n1) by nia. clear Hn1. rename Hn1' into Hn1.
  destruct (f32_make_near false (total * b' * n1) (b' * d1)) as (n2 & d2 & E2 & Hd2 & R2 & _); [nia|nia|apply exponent_within; nia|].
  exists n2, d2. split; [done|]. split; [done|]. clear E2.
  assert (R2' : Z.abs ((n2 * d1 - n1 * total * d2) * 16777216) <= n1 * total * d2).
  { apply cancel_abs with b'; [done|]. replace ((n2 * d1 - n1 * total * d2) * 16777216 * b') with ((n2 * (b' * d1) - total * b' * n1 * d2) * 16777216) by ring.
    rewrite Z.abs_mul, (Z.abs_eq 16777216) by lia. nia. }
  clear R2. set (X := n1 * total) in *. set (u := X * d2) in *. set (v := low * d1 * d2).
  assert (Huv : Z.abs (u - v) * 16777216 <= v).
  { replace (Z.abs (u - v) * 16777216) with (Z.abs ((X - low * d1) * 16777216) * d2); [unfold v; nia|].
    rewrite Z.abs_mul, (Z.abs_eq 16777216) by lia. replace (u - v) with ((X - low * d1) * d2) by (unfold u, v; ring).
    rewrite (Z.abs_mul _ d2), (Z.abs_eq d2) by lia. ring. }
  assert (Hv : v <= 65535 * (d1 * d2)) by (unfold v; nia). assert (Hp : 0 < d1 * d2) by nia.
  assert (Hf : 2 * Z.abs ((n2 - low * d2) * d1) < d1 * d2).
  { replace ((n2 - low * d2) * d1) with (n2 * d1 - v) by (unfold v; ring). lia. }
  rewrite Z.abs_mul, (Z.abs_eq d1) in Hf by lia. assert (2 * Z.abs (n2 - low * d2) < d2) by (apply Zmult_lt_reg_r with d1; lia).
  symmetry. apply Z.div_unique_pos with (r := 2 * n2 + d2 - 2 * d2 * low); lia.
Qed.

(** ** The order of patterns, between 0 and 1 *)

Lemma f32_unit_interval r : 0 <= r < 2 ^ 32 ->
  f32_is_nan r || f32_le r (f32_from 0) || f32_le (f32_from 1) r = negb ((0 <? r) && (r <? 0x3f800000)).
Proof.
  intros Hr. change (2 ^ 32) with 4294967296 in Hr. change (f32_from 0) with 0. change (f32_from 1) with 0x3f800000.
  unfold f32_is_nan, f32_le. change (f32_view 0) with (F32_fin false 0 (pow2 149)).
  change (f32_view 0x3f800000) with (F32_fin false 8388608 (pow2 23)).
  assert (P149 : 0 < pow2 149) by done. change (pow2 23) with 8388608. generalize dependent (pow2 149). intros p149 P149.
  pose proof (Z.div_mod r 8388608 ltac:(lia)) as Ed. pose proof (Z.mod_pos_bound r 8388608 ltac:(lia)) as Hm.
  unfold f32_view, f32_sign. set (q := r / 8388608) in *. set (m := r mod 8388608) in *. clearbody q m. subst r.
  destruct (Z.leb_spec 2147483648 (8388608 * q + m)) as [Hs|Hs].
  - assert (E : (0 <? 8388608 * q + m) && (8388608 * q + m <? 1065353216) = false) by (apply andb_false_iff; right; apply Z.ltb_ge; lia).
    rewrite E. destruct (_ =? 255); [by destruct (m =? 0)|].
    assert (Hn : 0 <= if q mod 256 =? 0 then m else m + 8388608) by (destruct (_ =? 0); lia).
    destruct (Z.leb_spec 0 (Z.max 1 (q mod 256) - 150)); cbv beta iota delta [orb negb signed_num].
    all: match goal with |- (if ?x <=? ?y then _ else _) = _ => destruct (Z.leb_spec x y) as [Hle|Hgt]; [done|exfalso] end.
    + pose proof (pow2_pos (Z.max 1 (q mod 256) - 150) ltac:(lia)). set (k := if _ =? 0 then _ else _) in *.
      set (w := pow2 _) in *. assert (0 <= k * w * p149) by nia. lia.
    + set (k := if _ =? 0 then _ else _) in *. assert (0 <= k * p149) by nia. lia.
  - rewrite Z.mod_small by lia. destruct (Z.eqb_spec q 255) as [->|Hq].
    { destruct (m =? 0); simpl; symmetry; apply negb_true_iff, andb_false_iff; right; apply Z.ltb_ge; lia. }
    assert (Hf : forall n d, 0 <= n -> 0 < d -> (n = 0 <-> 8388608 * q + m = 0) -> (d <= n <-> 1065353216 <= 8388608 * q + m) ->
      (signed_num false n * p149 <=? signed_num false 0 * d) || (signed_num false 8388608 * d <=? signed_num false n * 8388608)
      = negb ((0 <? 8388608 * q + m) && (8388608 * q + m <? 1065353216))).
    { intros n d H1 H2 H3 H4. unfold signed_num. apply eq_true_iff_eq. rewrite orb_true_iff, negb_true_iff, andb_false_iff, !Z.leb_le, !Z.ltb_ge.
      split; (intros [H|H]; [left; nia|right; nia]). }
    assert (E24 : pow2 24 = 16777216) by done.
    destruct (Z.leb_spec 0 (Z.max 1 q - 150)) as [He|He]; cbv beta iota; change (false || ?x) with x; apply Hf.
    + destruct (q =? 0); pose proof (pow2_pos (Z.max 1 q - 150) He); nia.
    + lia.
    + destruct (Z.eqb_spec q 0); [lia|]. pose proof (pow2_pos (Z.max 1 q - 150) He). nia.
    + destruct (Z.eqb_spec q 0); [lia|]. pose proof (pow2_pos (Z.max 1 q - 150) He). split; intros; nia.
    + destruct (q =? 0); lia.
    + apply pow2_pos. lia.
    + destruct (Z.eqb_spec q 0); lia.
    + destruct (Z.le_gt_cases 127 q) as [Hq'|Hq'].
      * destruct (Z.eqb_spec q 0); [lia|]. rewrite Z.max_r by lia. assert (pow2 (- (q - 150)) <= pow2 23); [|change (pow2 23) with 8388608 in *; lia].
        unfold pow2. apply Z.pow_le_mono_r; lia.
      * assert (pow2 24 <= pow2 (- (Z.max 1 q - 150))) by (unfold pow2; apply Z.pow_le_mono_r; lia). destruct (q =? 0); lia.
Qed.

(** ** What operations give *)

Lemma f32_magnitude_range n d : 0 <= n -> 0 < d -> 0 <= f32_magnitude n d <= 2139095040.
Proof.
  intros Hn Hd. unfold f32_magnitude. destruct (Z.eqb_spec n 0); [lia|]. cbv zeta. set (s := 23 - _).
  assert (Hr : 0 <= round_half_even (n * pow2 (Z.max s 0)) (d * pow2 (Z.max (- s) 0))); [|lia].
  assert (0 < d * pow2 (Z.max (- s) 0)) by (pose proof (pow2_pos (Z.max (- s) 0) ltac:(lia)); nia).
  assert (0 <= n * pow2 (Z.max s 0)) by (pose proof (pow2_pos (Z.max s 0) ltac:(lia)); nia).
  unfold round_half_even. cbv zeta. assert (0 <= n * pow2 (Z.max s 0) / (d * pow2 (Z.max (- s) 0))) by by apply Z.div_pos.
  destruct (_ <? _); [done|]. destruct (_ <? _); [lia|]. destruct (Z.even _); lia.
Qed.
Definition not_nan (b : Z) : Prop := 0 <= b < 2 ^ 32 /\ f32_view b <> F32_nan.
Lemma f32_magnitude_not_nan neg m : 0 <= m <= 2139095040 -> not_nan (if neg : bool then 2147483648 + m else m).
Proof.
  intros Hm. split; [change (2 ^ 32) with 4294967296; destruct neg; lia|]. unfold f32_view. set (b := if neg then _ else _).
  assert (E : b = (if neg then 2147483648 else 0) + m) by (unfold b; destruct neg; lia). clearbody b. subst b.
  pose proof (Z.div_mod m 8388608 ltac:(lia)) as Ed. pose proof (Z.mod_pos_bound m 8388608 ltac:(lia)) as Hr.
  replace ((if neg then 2147483648 else 0) + m) with (m + (if neg then 256 else 0) * 8388608) by (destruct neg; lia).
  rewrite Z.div_add, Z.mod_add by lia. destruct (Z.eqb_spec ((m / 8388608 + (if neg then 256 else 0)) mod 256) 255) as [E|]; [|by destruct (0 <=? _)].
  assert (m / 8388608 = 255).
  { assert (0 <= m / 8388608 <= 255) by (split; [apply Z.div_pos; lia|apply Z.div_le_upper_bound; lia]).
    destruct neg; [rewrite Z.add_mod, Z_mod_same_full, Z.add_0_r, Z.mod_mod in E by lia|rewrite Z.add_0_r in E]; by rewrite Z.mod_small in E by lia. }
  assert (m mod 8388608 = 0) as -> by lia. done.
Qed.
Lemma f32_make_not_nan x : match x with F32_nan => False | F32_inf _ => True | F32_fin _ n d => 0 <= n /\ 0 < d end -> not_nan (f32_make x).
Proof.
  destruct x as [|s|s n d]; [done|intros _|intros [Hn Hd]]; unfold f32_make.
  - by apply (f32_magnitude_not_nan s).
  - apply (f32_magnitude_not_nan s). by apply f32_magnitude_range.
Qed.
Lemma f32_add_finite a b : f32_is_finite a = true -> f32_view b <> F32_nan -> not_nan (f32_add a b).
Proof.
  unfold f32_is_finite, f32_add. destruct (f32_view a) as [| |s n d] eqn:Ea; [done..|]. intros _ Hb. apply f32_make_not_nan.
  destruct (f32_view_fin _ _ _ _ Ea) as [Hn Hd]. destruct (f32_view b) as [|t|t n' d'] eqn:Eb; [done..|].
  destruct (f32_view_fin _ _ _ _ Eb). split; [lia|nia].
Qed.
Lemma f32_div_finite a b s n d t n' d' : f32_view a = F32_fin s n d -> f32_view b = F32_fin t n' d' -> n' <> 0 -> not_nan (f32_div a b).
Proof.
  intros Ea Eb Hn'. unfold f32_div. rewrite Ea, Eb. destruct (Z.eqb_spec n' 0); [done|]. apply f32_make_not_nan.
  destruct (f32_view_fin _ _ _ _ Ea), (f32_view_fin _ _ _ _ Eb). split; nia.
Qed.
Lemma f32_neg_not_nan a : not_nan a -> not_nan (f32_neg a).
Proof.
  intros [Hr Hn]. change (2 ^ 32) with 4294967296 in Hr. unfold not_nan. change (2 ^ 32) with 4294967296. unfold f32_neg, f32_sign.
  destruct (Z.leb_spec 2147483648 a) as [H|H]; (split; [lia|]).
  - revert Hn. unfold f32_view. replace (a - 2147483648) with (a + (-256) * 8388608) by lia. rewrite Z.div_add, Z.mod_add by lia.
    rewrite (Z.add_mod (a / 8388608) (-256)) by lia. change ((-256) mod 256) with 0. rewrite Z.add_0_r, Z.mod_mod by lia.
    destruct (_ =? 255); [destruct (_ =? 0); [done|done]|]. intros _. by destruct (0 <=? _).
  - revert Hn. unfold f32_view. replace (a + 2147483648) with (a + 256 * 8388608) by lia. rewrite Z.div_add, Z.mod_add by lia.
    rewrite (Z.add_mod (a / 8388608) 256) by lia. change (256 mod 256) with 0. rewrite Z.add_0_r, Z.mod_mod by lia.
    destruct (_ =? 255); [destruct (_ =? 0); [done|done]|]. intros _. by destruct (0 <=? _).
Qed.
(** A clamp between two ordinary ratios. *)
Definition ratio_ok (r : Z) : Prop := 0 < r < 0x3f800000.
Lemma f32_clamp_ratio a lo hi n d n' d' : not_nan a -> ratio_ok lo -> ratio_ok hi ->
  f32_view lo = F32_fin false n d -> f32_view hi = F32_fin false n' d' -> 0 < n -> n' < d' -> ratio_ok (f32_clamp a lo hi).
Proof.
  intros [Hr Hn] Hlo Hhi El Eh Hn0 Hn1. destruct (f32_view_fin _ _ _ _ El) as [_ Hd], (f32_view_fin _ _ _ _ Eh) as [Hn' Hd'].
  unfold f32_clamp. destruct (f32_lt a lo) eqn:E1; [done|]. destruct (f32_lt hi a) eqn:E2; [done|].
  assert (E : negb ((0 <? a) && (a <? 0x3f800000)) = false).
  { rewrite <- f32_unit_interval by done. unfold f32_is_nan, f32_le, f32_lt in *. change (f32_from 0) with 0. change (f32_from 1) with 0x3f800000.
    change (f32_view 0) with (F32_fin false 0 (pow2 149)). change (f32_view 0x3f800000) with (F32_fin false 8388608 (pow2 23)).
    change (pow2 23) with 8388608. rewrite El in E1. rewrite Eh in E2. assert (P : 0 < pow2 149) by done. generalize dependent (pow2 149). intros p P.
    destruct (f32_view a) as [|s|s m e] eqn:Ea; [done|by destruct s|]. destruct (f32_view_fin _ _ _ _ Ea) as [Hm He].
    apply Z.ltb_ge in E1, E2. unfold signed_num in *. cbn [orb]. apply orb_false_iff. split; apply Z.leb_gt; destruct s; nia. }
  apply negb_false_iff, andb_true_iff in E as [?%Z.ltb_lt ?%Z.ltb_lt]. done.
Qed.
