(* ===== verification/ClientLayout.v ===== *)
(** * The client's layout tree and its windows ([phux-client-core/src/layout/])

    The split tree of a window on the client, the operations on it, the workspace of windows, the
    identities of windows and the persisted envelope. A ratio is the bit pattern of its [f32]; SHA-256 and
    the CBOR of the envelope are parameters. *)

From stdpp Require Import gmap.
From S2P Require Import Prelude Ids IdBridge Info Float32.

#[export] Instance SplitDir_eq_dec : EqDecision SplitDir.
Proof. solve_decision. Defined.
#[export] Instance LayoutNode_eq_dec : EqDecision LayoutNode.
Proof. solve_decision. Defined.

(* phux-client-core/src/layout/mod.rs Direction *)
Inductive Direction : Type := Direction_Up | Direction_Down | Direction_Left | Direction_Right.
(* phux-client-core/src/layout/mod.rs Rect *)
Record Rect : Type := mkRect { rx : Z; ry : Z; rw : Z; rh : Z }.
#[export] Instance Rect_eq_dec : EqDecision Rect.
Proof. solve_decision. Defined.
(* phux-client-core/src/layout/mod.rs NodeStep *)
Inductive NodeStep : Type := Step_Left | Step_Right.
#[export] Instance NodeStep_eq_dec : EqDecision NodeStep.
Proof. solve_decision. Defined.
(** From the root down. *)
(* phux-client-core/src/layout/mod.rs NodePath *)
Definition NodePath : Type := list NodeStep.
(* phux-client-core/src/layout/mod.rs LayoutError *)
Inductive LayoutError : Type := PaneNotInLayout (pane : ResourceId) | InvalidRatio (ratio : Z) | LastPane.
(* phux-client-core/src/layout/mod.rs LayoutDecodeError *)
Inductive LayoutDecodeError : Type :=
| UnsupportedVersion (version : Z) | MalformedRatio (ratio : Z) | Decode_Cbor (what : bytes) | NonTerminalLeaf (pane : ResourceId).
(* phux-client-core/src/layout/mod.rs LayoutEncodeError *)
Inductive LayoutEncodeError : Type := Encode_Empty | Encode_Cbor (what : bytes).
(* phux-client-core/src/layout/mod.rs LayoutState *)
Record LayoutState : Type := mkLayout { tree : option LayoutNode; focus : option ResourceId }.
(* phux-client-core/src/layout/mod.rs LayoutState::new *)
Definition LayoutState_new : LayoutState := mkLayout None None.
(* phux-client-core/src/layout/mod.rs LayoutState::single *)
Definition LayoutState_single (pane : ResourceId) : LayoutState := mkLayout (Some (LayoutNode_Leaf pane)) (Some pane).

(** ** The tree *)

(* phux-client-core/src/layout/mod.rs contains *)
Fixpoint contains (n : LayoutNode) (target : ResourceId) : bool :=
  match n with
  | LayoutNode_Leaf p => bool_decide (p = target)
  | LayoutNode_Split _ _ l r => contains l target || contains r target
  end.
(* phux-client-core/src/layout/mod.rs collect_leaves *)
Fixpoint collect_leaves (n : LayoutNode) (out : list ResourceId) : list ResourceId :=
  match n with
  | LayoutNode_Leaf p => out ++ [p]
  | LayoutNode_Split _ _ l r => collect_leaves r (collect_leaves l out)
  end.
(* phux-client-core/src/layout/mod.rs leaves *)
Definition leaves (n : LayoutNode) : list ResourceId := collect_leaves n [].
#[global] Arguments leaves : simpl never.
(* phux-client-core/src/layout/mod.rs validate_ratio *)
Definition validate_ratio (ratio : Z) : result LayoutError unit :=
  if f32_is_nan ratio || f32_le ratio (f32_from 0) || f32_le (f32_from 1) ratio then Err (InvalidRatio ratio) else Ok tt.
(* phux-client-core/src/layout/mod.rs split_inner *)
Fixpoint split_inner (n : LayoutNode) (target new_pane : ResourceId) (dir : SplitDir) (ratio : Z) : LayoutNode :=
  match n with
  | LayoutNode_Leaf p =>
      if bool_decide (p = target) then LayoutNode_Split dir ratio (LayoutNode_Leaf target) (LayoutNode_Leaf new_pane) else LayoutNode_Leaf p
  | LayoutNode_Split sd r lft rgt =>
      if contains lft target then LayoutNode_Split sd r (split_inner lft target new_pane dir ratio) rgt
      else LayoutNode_Split sd r lft (split_inner rgt target new_pane dir ratio)
  end.
(* phux-client-core/src/layout/mod.rs split_at *)
Definition split_at (n : LayoutNode) (target new_pane : ResourceId) (dir : SplitDir) (ratio : Z) : result LayoutError LayoutNode :=
  _ ← validate_ratio ratio;
  if negb (contains n target) then Err (PaneNotInLayout target) else Ok (split_inner n target new_pane dir ratio).
(* phux-client-core/src/layout/mod.rs set_ratio_inner *)
Fixpoint set_ratio_inner (n : LayoutNode) (steps : list NodeStep) (ratio : Z) : option LayoutNode :=
  match n with
  | LayoutNode_Split dir r lft rgt =>
      match steps with
      | [] => Some (LayoutNode_Split dir ratio lft rgt)
      | Step_Left :: rest => new_left ← set_ratio_inner lft rest ratio; Some (LayoutNode_Split dir r new_left rgt)
      | Step_Right :: rest => new_right ← set_ratio_inner rgt rest ratio; Some (LayoutNode_Split dir r lft new_right)
      end
  | LayoutNode_Leaf _ => None
  end.
(* phux-client-core/src/layout/mod.rs set_ratio_at *)
Definition set_ratio_at (n : LayoutNode) (path : NodePath) (ratio : Z) : option LayoutNode := set_ratio_inner n path ratio.
Definition is_leaf_of (n : LayoutNode) (target : ResourceId) : bool :=
  match n with LayoutNode_Leaf p => bool_decide (p = target) | LayoutNode_Split _ _ _ _ => false end.
(* phux-client-core/src/layout/mod.rs collapse *)
Fixpoint collapse (n : LayoutNode) (target : ResourceId) : LayoutNode * bool :=
  match n with
  | LayoutNode_Leaf p => (LayoutNode_Leaf p, false)
  | LayoutNode_Split dir ratio lft rgt =>
      if is_leaf_of lft target then (rgt, true)
      else if is_leaf_of rgt target then (lft, true)
      else
        let '(new_left, found_l) := collapse lft target in
        if found_l then (LayoutNode_Split dir ratio new_left rgt, true)
        else
          let '(new_right, found_r) := collapse rgt target in
          (LayoutNode_Split dir ratio new_left new_right, found_r)
  end.
(** [Ok None] when the last leaf goes. *)
(* phux-client-core/src/layout/mod.rs kill_pane *)
Definition kill_pane (n : LayoutNode) (target : ResourceId) : result LayoutError (option LayoutNode) :=
  match n with
  | LayoutNode_Leaf p => if bool_decide (p = target) then Ok None else Err (PaneNotInLayout target)
  | LayoutNode_Split _ _ _ _ =>
      let '(new_root, found) := collapse n target in
      if found : bool then Ok (Some new_root) else Err (PaneNotInLayout target)
  end.

(** ** Focus *)

(* phux-client-core/src/layout/mod.rs ChildSide *)
Inductive ChildSide : Type := ChildSide_Left | ChildSide_Right.
Abbreviation Path := (list (SplitDir * ChildSide)).
(** What a failed branch pushed on [out] is popped again. *)
(* phux-client-core/src/layout/mod.rs record_path *)
Fixpoint record_path (n : LayoutNode) (target : ResourceId) (out : Path) : bool * Path :=
  match n with
  | LayoutNode_Leaf p => (bool_decide (p = target), out)
  | LayoutNode_Split sd _ lft rgt =>
      let '(found, out) := record_path lft target (out ++ [(sd, ChildSide_Left)]) in
      if found then (true, out)
      else
        let '(found, out) := record_path rgt target (removelast out ++ [(sd, ChildSide_Right)]) in
        if found then (true, out) else (false, removelast out)
  end.
(* phux-client-core/src/layout/mod.rs matches_to_sibling *)
Definition matches_to_sibling (split : SplitDir) (dir : Direction) (came_from : ChildSide) : bool :=
  match split, dir, came_from with
  | SplitDir_Horizontal, Direction_Right, ChildSide_Left
  | SplitDir_Horizontal, Direction_Left, ChildSide_Right
  | SplitDir_Vertical, Direction_Down, ChildSide_Left
  | SplitDir_Vertical, Direction_Up, ChildSide_Right => true
  | _, _, _ => false
  end.
Definition child (n : LayoutNode) (side : ChildSide) : option LayoutNode :=
  match n, side with
  | LayoutNode_Split _ _ lft _, ChildSide_Left => Some lft
  | LayoutNode_Split _ _ _ rgt, ChildSide_Right => Some rgt
  | LayoutNode_Leaf _, _ => None
  end.
Definition opposite (side : ChildSide) : ChildSide :=
  match side with ChildSide_Left => ChildSide_Right | ChildSide_Right => ChildSide_Left end.
(* phux-client-core/src/layout/mod.rs sibling_at_depth *)
Fixpoint sibling_at_depth (root : LayoutNode) (path : Path) (depth : nat) : option LayoutNode :=
  match path, depth with
  | (_, came_from) :: _, O => child root (opposite came_from)
  | (_, side) :: path, S depth => cur ← child root side; sibling_at_depth cur path depth
  | [], _ => None
  end.
(* phux-client-core/src/layout/mod.rs axis_parallel *)
Definition axis_parallel (split : SplitDir) (dir : Direction) : bool :=
  match split, dir with
  | SplitDir_Horizontal, (Direction_Left | Direction_Right) | SplitDir_Vertical, (Direction_Up | Direction_Down) => true
  | _, _ => false
  end.
(* phux-client-core/src/layout/mod.rs perpendicular_axis *)
Definition perpendicular_axis (dir : Direction) : SplitDir :=
  match dir with Direction_Left | Direction_Right => SplitDir_Vertical | Direction_Up | Direction_Down => SplitDir_Horizontal end.
(** The loop of [descend_to_leaf], with the hints not yet used. *)
(* phux-client-core/src/layout/mod.rs:943-973 descend_to_leaf *)
Fixpoint descend (cur : LayoutNode) (dir : Direction) (hints : list ChildSide) : ResourceId :=
  match cur with
  | LayoutNode_Leaf p => p
  | LayoutNode_Split sd _ lft rgt =>
      if axis_parallel sd dir then
        match dir with
        | Direction_Right | Direction_Down => descend lft dir hints
        | Direction_Left | Direction_Up => descend rgt dir hints
        end
      else
        match default ChildSide_Left (head hints) with
        | ChildSide_Left => descend lft dir (tail hints)
        | ChildSide_Right => descend rgt dir (tail hints)
        end
  end.
(* phux-client-core/src/layout/mod.rs descend_to_leaf *)
Definition descend_to_leaf (n : LayoutNode) (dir : Direction) (suffix : Path) : ResourceId :=
  descend n dir (map snd (List.filter (fun p => bool_decide (p.1 = perpendicular_axis dir)) suffix)).
(** [i] entries of the path are not yet looked at. *)
(* phux-client-core/src/layout/mod.rs:810-817 focus_direction *)
Fixpoint focus_loop (root : LayoutNode) (path : Path) (dir : Direction) (i : nat) : option ResourceId :=
  match i with
  | O => None
  | S i =>
      '(split_dir, came_from) ← path !! i;
      if matches_to_sibling split_dir dir came_from then
        sibling ← sibling_at_depth root path i; Some (descend_to_leaf sibling dir (drop (S i) path))
      else focus_loop root path dir i
  end.
(* phux-client-core/src/layout/mod.rs focus_direction *)
Definition focus_direction (n : LayoutNode) (current : ResourceId) (dir : Direction) : option ResourceId :=
  let '(found, path) := record_path n current [] in
  if negb found then None else focus_loop n path dir (length path).

(** ** Windows and the workspace *)

(* phux-client-core/src/layout/mod.rs WindowState *)
Record WindowState : Type := mkWindow { win_id : bytes; win_name : bytes; win_state : LayoutState }.
(* phux-client-core/src/layout/mod.rs Workspace *)
Record Workspace : Type := mkWorkspace { windows : list WindowState; active : Z }.

(** [u32::to_string]. *)
Fixpoint decimal_digits (fuel : nat) (n : Z) : bytes :=
  match fuel with
  | O => []
  | S fuel => (if n <? 10 then [] else decimal_digits fuel (n / 10)) ++ [48 + n mod 10]
  end.
Definition decimal (n : Z) : bytes := decimal_digits 20 n.
(** [str::parse::<u32>]: an optional [+], then digits, without overflow. *)
Fixpoint parse_digits (acc : Z) (bs : bytes) : option Z :=
  match bs with
  | [] => Some acc
  | b :: bs =>
      if (48 <=? b) && (b <=? 57) then
        let acc := acc * 10 + (b - 48) in if acc <=? u32_max then parse_digits acc bs else None
      else None
  end.
Definition parse_u32 (bs : bytes) : option Z :=
  match bs with
  | [] => None
  | 43 :: bs => match bs with [] => None | _ => parse_digits 0 bs end
  | _ => parse_digits 0 bs
  end.

Section Windows.
  Context (sha256 : bytes -> bytes).

Definition zero_id : bytes := repeat 0 16.
(* phux-client-core/src/layout/identity.rs terminal_id *)
Definition terminal_id (terminal : ResourceId) : bytes :=
  take 16 (sha256 (str "phux.layout.window-id/v1" ++ [0]
                   ++ match terminal with
                      | ResourceId_Local id => [0] ++ to_be 4 id
                      | ResourceId_Satellite host id => [1] ++ host ++ [0] ++ to_be 4 id
                      end)).
(* phux-client-core/src/layout/identity.rs tree_id *)
Definition tree_id (n : LayoutNode) : bytes := match head (leaves n) with Some t => terminal_id t | None => zero_id end.
(* phux-client-core/src/layout/identity.rs seed_id *)
Definition seed_id (state : LayoutState) : bytes := match tree state with Some n => tree_id n | None => zero_id end.
Definition rehash (id : bytes) : bytes := take 16 (sha256 (str "phux.layout.window-id/collision/v1" ++ [0] ++ id)).
Definition id_taken (id : bytes) (ws : list WindowState) : bool :=
  bool_decide (id = zero_id) || existsb (fun w => bool_decide (win_id w = id)) ws.
(** The [while] of [fresh_id]; [None] when [fuel] rounds were not enough. *)
(* phux-client-core/src/layout/identity.rs:37-42 fresh_id *)
Fixpoint fresh_id_loop (fuel : nat) (id : bytes) (ws : list WindowState) : option bytes :=
  match fuel with
  | O => None
  | S fuel => if id_taken id ws then fresh_id_loop fuel (rehash id) ws else Some id
  end.
(* phux-client-core/src/layout/identity.rs fresh_id *)
Definition fresh_id (fuel : nat) (seed : ResourceId) (ws : list WindowState) : option bytes := fresh_id_loop fuel (terminal_id seed) ws.
(* phux-client-core/src/layout/identity.rs validate *)
Fixpoint validate_ids (seen : list bytes) (ws : list WindowState) : result LayoutDecodeError unit :=
  match ws with
  | [] => Ok tt
  | w :: ws =>
      if bool_decide (win_id w = zero_id) || bool_decide (win_id w ∈ seen)
      then Err (Decode_Cbor (str "zero or duplicate layout window identity"))
      else validate_ids (win_id w :: seen) ws
  end.

(* phux-client-core/src/layout/mod.rs WindowState::new *)
Definition WindowState_new (name : bytes) (state : LayoutState) : WindowState := mkWindow (seed_id state) name state.
(* phux-client-core/src/layout/mod.rs Workspace::single *)
Definition Workspace_single (pane : ResourceId) : Workspace :=
  mkWorkspace [mkWindow (terminal_id pane) (str "1") (LayoutState_single pane)] 0.
(** [None] when the search of a fresh identity ran out of [fuel]. *)
(* phux-client-core/src/layout/mod.rs Workspace::add_window *)
Definition add_window (fuel : nat) (ws : Workspace) (name : bytes) (seed : ResourceId) : option Workspace :=
  id ← fresh_id fuel seed (windows ws);
  let wins := windows ws ++ [mkWindow id name (LayoutState_single seed)] in
  Some (mkWorkspace wins (len wins - 1)).
End Windows.

(* phux-client-core/src/layout/mod.rs Workspace::new *)
Definition Workspace_new : Workspace := mkWorkspace [] 0.
Definition window_at (ws : Workspace) (i : Z) : option WindowState := windows ws !! Z.to_nat i.
(* phux-client-core/src/layout/mod.rs Workspace::active_window *)
Definition active_window (ws : Workspace) : option LayoutState := w ← window_at ws (active ws); Some (win_state w).
(** What [active_window_mut] lets its caller do. *)
(* phux-client-core/src/layout/mod.rs Workspace::active_window_mut *)
Definition with_active_window (f : LayoutState -> LayoutState) (ws : Workspace) : Workspace :=
  mkWorkspace (alter (fun w => mkWindow (win_id w) (win_name w) (f (win_state w))) (Z.to_nat (active ws)) (windows ws)) (active ws).
(* phux-client-core/src/layout/mod.rs Workspace::render_window *)
Definition render_window (ws : Workspace) (zoomed : option ResourceId) : option LayoutState :=
  act ← active_window ws;
  Some match zoomed, tree act with
       | Some id, Some n => if bool_decide (id ∈ leaves n) then LayoutState_single id else act
       | _, _ => act
       end.
Definition seeded (w : WindowState) : bool := match tree (win_state w) with Some _ => true | None => false end.
(* phux-client-core/src/layout/mod.rs Workspace::prune_empty_windows *)
Definition prune_empty_windows (ws : Workspace) : bool * Workspace :=
  if forallb seeded (windows ws) then (false, ws)
  else
    let active_survives := match window_at ws (active ws) with Some w => seeded w | None => false end in
    let survivors_before := len (List.filter seeded (take (Z.to_nat (Z.min (active ws) (len (windows ws)))) (windows ws))) in
    let wins := List.filter seeded (windows ws) in
    (true, mkWorkspace wins
             (if len wins =? 0 then 0 else if active_survives then survivors_before else Z.min survivors_before (len wins - 1))).
(* phux-client-core/src/layout/mod.rs Workspace::next *)
Definition next_window (ws : Workspace) : Workspace :=
  if len (windows ws) =? 0 then ws else mkWorkspace (windows ws) ((active ws + 1) mod len (windows ws)).
(* phux-client-core/src/layout/mod.rs Workspace::prev *)
Definition prev_window (ws : Workspace) : Workspace :=
  if len (windows ws) =? 0 then ws else mkWorkspace (windows ws) ((active ws + len (windows ws) - 1) mod len (windows ws)).
(* phux-client-core/src/layout/mod.rs Workspace::select *)
Definition select (ws : Workspace) (idx : Z) : bool * Workspace :=
  if idx <? len (windows ws) then (true, mkWorkspace (windows ws) idx) else (false, ws).
(* phux-client-core/src/layout/mod.rs Workspace::rename_active *)
Definition rename_active (ws : Workspace) (name : bytes) : Workspace :=
  mkWorkspace (alter (fun w => mkWindow (win_id w) name (win_state w)) (Z.to_nat (active ws)) (windows ws)) (active ws).
(** The first of [n], [n + 1], ... not used; fuelled by one try more than there are names. *)
(* phux-client-core/src/layout/mod.rs:435-437 default_window_name *)
Fixpoint first_unused (fuel : nat) (used : list Z) (n : Z) : option Z :=
  match fuel with
  | O => None
  | S fuel => if u32_max <? n then None else if bool_decide (n ∈ used) then first_unused fuel used (n + 1) else Some n
  end.
(* phux-client-core/src/layout/mod.rs Workspace::default_window_name *)
Definition default_window_name (ws : Workspace) : bytes :=
  let used := omap (fun w => parse_u32 (win_name w)) (windows ws) in
  decimal (default 1 (first_unused (S (length (windows ws))) used 1)).

(** ** The envelope *)

(* phux-client-core/src/layout/serialize.rs CborSplitDir *)
Inductive CborSplitDir : Type := CborSplitDir_Horizontal | CborSplitDir_Vertical.
(* phux-client-core/src/layout/serialize.rs CborResourceId *)
Inductive CborResourceId : Type := CborResourceId_Local (id : Z) | CborResourceId_Satellite (host : bytes) (id : Z).
(* phux-client-core/src/layout/serialize.rs CborLayoutNode *)
Inductive CborLayoutNode : Type :=
| CborLayoutNode_Leaf (pane : CborResourceId)
| CborLayoutNode_Split (dir : CborSplitDir) (ratio : Z) (lft rgt : CborLayoutNode).
(* phux-client-core/src/layout/serialize.rs CborWindow *)
Record CborWindow : Type := mkCborWindow { cw_id : bytes; cw_name : bytes; cw_root : CborLayoutNode; cw_focused : CborResourceId }.
(* phux-client-core/src/layout/serialize.rs CborWorkspaceEnvelope *)
Record CborWorkspaceEnvelope : Type := mkEnvelope { env_version : Z; env_windows : list CborWindow; env_focused_index : Z }.

(* phux-client-core/src/layout/serialize.rs:90-101 CborSplitDir *)
Definition to_cbor_dir (d : SplitDir) : CborSplitDir :=
  match d with SplitDir_Horizontal => CborSplitDir_Horizontal | SplitDir_Vertical => CborSplitDir_Vertical end.
(* phux-client-core/src/layout/serialize.rs:103-110 SplitDir *)
Definition of_cbor_dir (d : CborSplitDir) : SplitDir :=
  match d with CborSplitDir_Horizontal => SplitDir_Horizontal | CborSplitDir_Vertical => SplitDir_Vertical end.
(* phux-client-core/src/layout/serialize.rs:112-122 CborResourceId *)
Definition to_cbor_id (t : ResourceId) : CborResourceId :=
  match t with ResourceId_Local id => CborResourceId_Local id | ResourceId_Satellite host id => CborResourceId_Satellite host id end.
(* phux-client-core/src/layout/serialize.rs:124-131 ResourceId *)
Definition of_cbor_id (t : CborResourceId) : ResourceId :=
  match t with CborResourceId_Local id => ResourceId_Local id | CborResourceId_Satellite host id => ResourceId_Satellite host id end.
(* phux-client-core/src/layout/serialize.rs:133-151 CborLayoutNode *)
Fixpoint to_cbor_node (n : LayoutNode) : CborLayoutNode :=
  match n with
  | LayoutNode_Leaf pane => CborLayoutNode_Leaf (to_cbor_id pane)
  | LayoutNode_Split dir ratio lft rgt => CborLayoutNode_Split (to_cbor_dir dir) ratio (to_cbor_node lft) (to_cbor_node rgt)
  end.
(* phux-client-core/src/layout/serialize.rs into_layout_node *)
Fixpoint into_layout_node (n : CborLayoutNode) : result LayoutDecodeError LayoutNode :=
  match n with
  | CborLayoutNode_Leaf pane => Ok (LayoutNode_Leaf (of_cbor_id pane))
  | CborLayoutNode_Split dir ratio lft rgt =>
      if negb (f32_is_finite ratio) || negb (f32_le (f32_from 0) ratio && f32_le ratio (f32_from 1)) then Err (MalformedRatio ratio)
      else
        lft ← into_layout_node lft;
        rgt ← into_layout_node rgt;
        Ok (LayoutNode_Split (of_cbor_dir dir) ratio lft rgt)
  end.

(** How deep the data items of an envelope nest, counted generously: two for every struct, map, list
    and enum on the way, where CBOR has at most that. *)
Fixpoint node_nesting (n : CborLayoutNode) : Z :=
  match n with
  | CborLayoutNode_Leaf _ => 4
  | CborLayoutNode_Split _ _ lft rgt => 2 + Z.max (node_nesting lft) (node_nesting rgt)
  end.
Definition envelope_nesting (e : CborWorkspaceEnvelope) : Z := foldr (fun w m => Z.max (6 + node_nesting (cw_root w)) m) 10 (env_windows e).
(** How deep [from_reader] follows nested items before it gives up; [into_writer] has no such limit. *)
Definition CBOR_RECURSION_LIMIT : Z := 256.

(** [ciborium]'s writer and its reader at the two types the code reads; a failure is its message. What
    it documents: what was written reads back, as long as it does not nest deeper than the reader goes. *)
Class Cbor := {
  cbor_write : CborWorkspaceEnvelope -> result bytes bytes;
  cbor_read : bytes -> result bytes CborWorkspaceEnvelope;
  cbor_read_version : bytes -> result bytes Z;
  cbor_round_trip e bs : envelope_nesting e <= CBOR_RECURSION_LIMIT -> cbor_write e = Ok bs -> cbor_read bs = Ok e;
  cbor_version e bs : envelope_nesting e <= CBOR_RECURSION_LIMIT -> cbor_write e = Ok bs -> cbor_read_version bs = Ok (env_version e)
}.
(* phux-client-core/src/layout/mod.rs LAYOUT_ENVELOPE_VERSION *)
Definition LAYOUT_ENVELOPE_VERSION : Z := 3.

Section Envelope.
  Context `{Cbor}.

(* phux-client-core/src/layout/mod.rs:462-475 encode_topology_cbor *)
Fixpoint envelope_windows (ws : list WindowState) : result LayoutEncodeError (list CborWindow) :=
  match ws with
  | [] => Ok []
  | w :: ws =>
      if bool_decide (win_id w = zero_id) then Err Encode_Empty
      else match tree (win_state w), focus (win_state w) with
           | Some n, Some f =>
               rest ← envelope_windows ws; Ok (mkCborWindow (win_id w) (win_name w) (to_cbor_node n) (to_cbor_id f) :: rest)
           | _, _ => Err Encode_Empty
           end
  end.
(* phux-client-core/src/layout/mod.rs Workspace::encode_topology_cbor *)
Definition encode_topology_cbor (ws : Workspace) : result LayoutEncodeError bytes :=
  wins ← envelope_windows (windows ws);
  match cbor_write (mkEnvelope LAYOUT_ENVELOPE_VERSION wins (if active ws <=? u32_max then active ws else 0)) with
  | Ok bs => Ok bs
  | Err e => Err (Encode_Cbor e)
  end.
(* phux-client-core/src/layout/mod.rs Workspace::encode_cbor *)
Definition encode_cbor (ws : Workspace) : result LayoutEncodeError bytes :=
  match windows ws with [] => Err Encode_Empty | _ => encode_topology_cbor ws end.
Definition cbor_err {A} (r : result bytes A) : result LayoutDecodeError A := match r with Ok x => Ok x | Err e => Err (Decode_Cbor e) end.
(* phux-client-core/src/layout/mod.rs:512-524 decode_current *)
Fixpoint decode_windows (ws : list CborWindow) : result LayoutDecodeError (list WindowState) :=
  match ws with
  | [] => Ok []
  | w :: ws =>
      n ← into_layout_node (cw_root w);
      rest ← decode_windows ws;
      Ok (mkWindow (cw_id w) (cw_name w) (mkLayout (Some n) (Some (of_cbor_id (cw_focused w)))) :: rest)
  end.
(* phux-client-core/src/layout/mod.rs Workspace::decode_current *)
Definition decode_current (bs : bytes) : result LayoutDecodeError Workspace :=
  envelope ← cbor_err (cbor_read bs);
  wins ← decode_windows (env_windows envelope);
  _ ← validate_ids [] wins;
  Ok (mkWorkspace wins (Z.min (env_focused_index envelope) (saturating_sub (len wins) 1))).
(* phux-client-core/src/layout/mod.rs Workspace::decode_cbor *)
Definition decode_cbor (bs : bytes) : result LayoutDecodeError Workspace :=
  version ← cbor_err (cbor_read_version bs);
  if negb (version =? LAYOUT_ENVELOPE_VERSION) then Err (UnsupportedVersion version) else decode_current bs.
Definition window_leaves (w : WindowState) : list ResourceId := match tree (win_state w) with Some n => leaves n | None => [] end.
(* phux-client-core/src/layout/mod.rs Workspace::decode_cbor_checked *)
Definition decode_cbor_checked (bs : bytes) (is_terminal : ResourceId -> bool) : result LayoutDecodeError Workspace :=
  workspace ← decode_cbor bs;
  match List.find (fun leaf => negb (is_terminal leaf)) (flat_map window_leaves (windows workspace)) with
  | None => Ok workspace
  | Some leaf => Err (NonTerminalLeaf leaf)
  end.
End Envelope.
