(* ===== verification/LayoutAgree.v ===== *)
(** * The client's layout operations are the server's

    The client re-implements, over wire identifiers, the operations of the registry's windows
    ([phux-core/src/window.rs], the file [Window]). Under any injective naming of panes the two agree on
    every tree and every argument, errors included. *)

From stdpp Require Import gmap.
From S2P Require Import Prelude Window Ids IdBridge Info Float32 ClientLayout.

Section Agree.
  Context (name : Window.ResourceId -> Ids.ResourceId) `{Inj0 : !Inj (=) (=) name}.
  Implicit Types n : Window.LayoutNode.

Definition wire_split (d : Window.SplitDir) : Info.SplitDir :=
  match d with Window.SplitDir_Horizontal => SplitDir_Horizontal | Window.SplitDir_Vertical => SplitDir_Vertical end.
Definition wire_direction (d : Window.Direction) : Direction :=
  match d with
  | Window.Direction_Up => Direction_Up | Window.Direction_Down => Direction_Down
  | Window.Direction_Left => Direction_Left | Window.Direction_Right => Direction_Right
  end.
Definition wire_side (s : Window.ChildSide) : ChildSide :=
  match s with Window.ChildSide_Left => ChildSide_Left | Window.ChildSide_Right => ChildSide_Right end.
Definition wire_path (p : Window.Path) : Path := map (fun '(d, s) => (wire_split d, wire_side s)) p.
(** A window's tree, as the client holds it. *)
Fixpoint wire_tree n : LayoutNode :=
  match n with
  | Window.Leaf p => LayoutNode_Leaf (name p)
  | Window.Split d r lft rgt => LayoutNode_Split (wire_split d) r (wire_tree lft) (wire_tree rgt)
  end.
Definition wire_error (e : Window.LayoutError) : LayoutError :=
  match e with
  | Window.PaneNotInLayout p => PaneNotInLayout (name p)
  | Window.InvalidRatio r => InvalidRatio r
  | Window.LastPane => LastPane
  end.
(** What a call on a window did, as the client's call reports it: a last pane killed is no error there. *)
Definition wire_split_result (r : result Window.LayoutError Window.Window) : result LayoutError (option LayoutNode) :=
  match r with Ok w => Ok (wire_tree <$> Window.layout w) | Err e => Err (wire_error e) end.
Definition wire_kill_result (r : Window.Window * result Window.LayoutError unit) : result LayoutError (option LayoutNode) :=
  match r.2 with
  | Ok _ | Err Window.LastPane => Ok (wire_tree <$> Window.layout r.1)
  | Err e => Err (wire_error e)
  end.

Lemma name_decide (p q : Window.ResourceId) : bool_decide (name p = name q) = bool_decide (p = q).
Proof. apply bool_decide_ext. split; [apply Inj0|by intros ->]. Qed.
Lemma wire_contains n t : contains (wire_tree n) (name t) = Window.contains n t.
Proof. induction n as [p|d r lft IHl rgt IHr]; simpl; [apply name_decide|]. by rewrite IHl, IHr. Qed.
Lemma wire_is_leaf n t : is_leaf_of (wire_tree n) (name t) = Window.is_leaf_of n t.
Proof. destruct n; simpl; [apply name_decide|done]. Qed.
Lemma wire_collapse n t : collapse (wire_tree n) (name t) = let '(n', b) := Window.collapse n t in (wire_tree n', b).
Proof.
  induction n as [p|d r lft IHl rgt IHr]; simpl; [done|]. rewrite !wire_is_leaf.
  destruct (Window.is_leaf_of lft t); [done|]. destruct (Window.is_leaf_of rgt t); [done|].
  rewrite IHl. destruct (Window.collapse lft t) as [lft' []]; [done|]. rewrite IHr. by destruct (Window.collapse rgt t).
Qed.
Lemma wire_split_at n t new d r :
  Window.contains n t = true ->
  exists n', Window.split_at n t new d r = Ok n' /\ split_inner (wire_tree n) (name t) (name new) (wire_split d) r = wire_tree n'.
Proof.
  induction n as [p|sd sr lft IHl rgt IHr]; simpl.
  - intros Hp. rewrite name_decide, Hp. by eexists.
  - rewrite wire_contains. destruct (Window.contains lft t).
    + intros _. destruct IHl as (n' & -> & ->); [done|]. by eexists.
    + simpl. intros Hr. rewrite Hr. destruct IHr as (n' & -> & ->); [done|]. by eexists.
Qed.
Lemma wire_validate r : 0 <= r < 2 ^ 32 -> validate_ratio r = match Window.validate_ratio r with Ok u => Ok u | Err e => Err (wire_error e) end.
Proof.
  intros Hr. rewrite Window.validate_ratio_spec by done. unfold validate_ratio. rewrite f32_unit_interval by done. by destruct (_ && _).
Qed.
Lemma removelast_map {A B} (f : A -> B) (l : list A) : removelast (map f l) = map f (removelast l).
Proof. induction l as [|x [|y l] IH]; simpl in *; [done..|]. by rewrite IH. Qed.
Lemma lookup_mapped {A B} (f : A -> B) (l : list A) i : map f l !! i = f <$> l !! i.
Proof. revert i. by induction l as [|x l IH]; intros [|i]; simpl. Qed.
Lemma wire_record n t out :
  record_path (wire_tree n) (name t) (wire_path out) = let '(b, p) := Window.record_path n t out in (b, wire_path p).
Proof.
  revert out. induction n as [p|d r lft IHl rgt IHr]; intros out; simpl; [by rewrite name_decide|].
  replace (wire_path out ++ [(wire_split d, ChildSide_Left)]) with (wire_path (out ++ [(d, Window.ChildSide_Left)])) by apply map_app.
  rewrite IHl. destruct (Window.record_path lft t _) as [[] p]; [done|]. unfold wire_path at 1. rewrite removelast_map. fold (wire_path (removelast p)).
  replace (wire_path (removelast p) ++ [(wire_split d, ChildSide_Right)]) with (wire_path (removelast p ++ [(d, Window.ChildSide_Right)])) by apply map_app.
  rewrite IHr. destruct (Window.record_path rgt t _) as [[] p']; [done|]. unfold wire_path. by rewrite removelast_map.
Qed.
Lemma wire_child n s : child (wire_tree n) (wire_side s) = wire_tree <$> Window.child n s.
Proof. by destruct n, s. Qed.
Lemma wire_sibling n p i : sibling_at_depth (wire_tree n) (wire_path p) i = wire_tree <$> Window.sibling_at_depth n p i.
Proof.
  revert n i. induction p as [|[d s] p IH]; intros n [|i]; simpl; [done..| |].
  - rewrite <- wire_child. by destruct s.
  - rewrite wire_child. destruct (Window.child n s); simpl; [apply IH|done].
Qed.
Lemma wire_descend n d hints : descend (wire_tree n) (wire_direction d) (map wire_side hints) = name (Window.descend n d hints).
Proof.
  revert hints. induction n as [p|sd r lft IHl rgt IHr]; intros hints; simpl; [done|].
  replace (axis_parallel (wire_split sd) (wire_direction d)) with (Window.axis_parallel sd d) by (by destruct sd, d).
  destruct (Window.axis_parallel sd d); [destruct d; simpl; by rewrite ?IHl, ?IHr|].
  destruct hints as [|h hints]; simpl; [by rewrite <- IHl|]. destruct h; simpl; by rewrite ?IHl, ?IHr.
Qed.
Lemma wire_descend_to_leaf n d p : descend_to_leaf (wire_tree n) (wire_direction d) (wire_path p) = name (Window.descend_to_leaf n d p).
Proof.
  unfold descend_to_leaf, Window.descend_to_leaf. rewrite <- wire_descend. f_equal.
  induction p as [|[sd s] p IH]; simpl; [done|].
  replace (bool_decide (wire_split sd = perpendicular_axis (wire_direction d))) with (bool_decide (sd = Window.perpendicular_axis d)) by (by destruct sd, d).
  destruct (bool_decide (sd = _)); simpl; by rewrite IH.
Qed.
Lemma wire_focus_loop n p d i :
  focus_loop (wire_tree n) (wire_path p) (wire_direction d) i = name <$> Window.focus_loop n p d i.
Proof.
  induction i as [|i IH]; simpl; [done|]. rewrite (lookup_mapped _ p i : wire_path p !! i = _). destruct (p !! i) as [[sd s]|] eqn:Ep; simpl; [|done].
  replace (matches_to_sibling (wire_split sd) (wire_direction d) (wire_side s)) with (Window.matches_to_sibling sd d s) by (by destruct sd, d, s).
  destruct (Window.matches_to_sibling sd d s); [|apply IH]. rewrite wire_sibling.
  destruct (Window.sibling_at_depth n p i); simpl; [|done]. f_equal. rewrite <- wire_descend_to_leaf. f_equal. apply skipn_map.
Qed.

(** C26: The client's mirror of the layout is faithful. Whatever the tree, the panes, the ratio and the direction, splitting, killing
    and moving the focus in the client's tree gives the tree, the pane or the error that the server's window gives, under the
    names of the wire; only the kill of the last pane, an error there, is an empty window here. *)
Theorem client_mirrors_the_core w l target new sdir ratio fdir :
  Window.layout w = Some l -> 0 <= ratio < 2 ^ 32 ->
  (n' ← split_at (wire_tree l) (name target) (name new) (wire_split sdir) ratio; Ok (Some n'))
    = wire_split_result (Window.split w target new sdir ratio)
  /\ kill_pane (wire_tree l) (name target) = wire_kill_result (Window.kill_pane w target)
  /\ focus_direction (wire_tree l) (name target) (wire_direction fdir) = name <$> Window.focus_direction w target fdir.
Proof.
  intros El Hr. split_and!.
  - unfold split_at, Window.split. rewrite wire_validate, El by done. destruct (Window.validate_ratio ratio) as [[]|e]; simpl; [|done].
    rewrite wire_contains. destruct (Window.contains l target) eqn:Ec; simpl.
    + destruct (wire_split_at l target new sdir ratio Ec) as (n' & -> & ->). done.
    + rewrite Window.split_at_spec, Ec. done.
  - unfold Window.kill_pane. rewrite El. destruct l as [p|d r lft rgt]; cbn [wire_tree kill_pane].
    + rewrite name_decide. by case_bool_decide.
    + change (LayoutNode_Split _ _ _ _) with (wire_tree (Window.Split d r lft rgt)). rewrite wire_collapse.
      by destruct (Window.collapse _ _) as [n' []].
  - unfold focus_direction, Window.focus_direction. rewrite El. pose proof (wire_record l target []) as E. simpl in E. rewrite E.
    destruct (Window.record_path l target []) as [[] p]; simpl; [|done]. unfold wire_path at 2. rewrite length_map. apply wire_focus_loop.
Qed.
End Agree.

Definition plain_name (p : positive) : Ids.ResourceId := ResourceId_Local (Zpos p).
#[export] Instance plain_name_inj : Inj (=) (=) plain_name.
Proof. by intros p q [= ->]. Qed.
Lemma client_mirrors_the_core_witness :
  kill_pane (wire_tree plain_name Window.sample_tree) (ResourceId_Local 2)
    = wire_kill_result plain_name (Window.kill_pane Window.sample_window 2%positive)
  /\ focus_direction (wire_tree plain_name Window.sample_tree) (ResourceId_Local 1) Direction_Right = Some (ResourceId_Local 2).
Proof.
  destruct (client_mirrors_the_core plain_name Window.sample_window Window.sample_tree 2%positive 4%positive Window.SplitDir_Horizontal 0x3f000000
              Window.Direction_Right) as (_ & H & _); [reflexivity|lia|].
  split; [exact H|vm_compute; reflexivity].
Defined.
