(* ===== verification/Tiling.v ===== *)
(** * Panes, dividers and clicks ([phux-client-core/src/multi_pane/])

    A window's tree tiled into a rectangle of cells: a rectangle per pane, a line of divider cells per
    split, and which of them a click lands on. Coordinates are [u16]s; nothing here leaves that range as
    long as the rectangle lies in it. A [HashMap] is a [gmap]; where the code iterates over one the model
    takes the order of [map_to_list]. *)

From stdpp Require Import gmap list sorting.
From S2P Require Import Prelude Ids IdBridge Info Codec Float32 ClientLayout.

(** ** The cut of one split *)

(* phux-client-core/src/multi_pane/rasterize.rs split_dim *)
Definition split_dim (total ratio : Z) : Z :=
  let raw := f32_round (f32_mul (f32_from total) ratio) in
  if f32_lt raw (f32_from 0) then 0 else if f32_lt (f32_from total) raw then total else f32_as_u16 raw.
(* phux-client-core/src/multi_pane/rasterize.rs MIN_LEAF_COLS *)
Definition MIN_LEAF_COLS : Z := 2.
(* phux-client-core/src/multi_pane/rasterize.rs MIN_LEAF_ROWS *)
Definition MIN_LEAF_ROWS : Z := 1.
Definition saturating_add16 (a b : Z) : Z := Z.min u16_max (a + b).
(* phux-client-core/src/multi_pane/rasterize.rs min_dims *)
Fixpoint min_dims (n : LayoutNode) : Z * Z :=
  match n with
  | LayoutNode_Leaf _ => (MIN_LEAF_COLS, MIN_LEAF_ROWS)
  | LayoutNode_Split dir _ lft rgt =>
      let '(lw, lh) := min_dims lft in
      let '(w, h) := min_dims rgt in
      match dir with
      | SplitDir_Horizontal => (saturating_add16 (saturating_add16 lw w) 1, Z.max lh h)
      | SplitDir_Vertical => (Z.max lw w, saturating_add16 (saturating_add16 lh h) 1)
      end
  end.
(* phux-client-core/src/multi_pane/rasterize.rs freeze_split_dim *)
Definition freeze_split_dim (content ratio min_low min_high : Z) : Z :=
  let low := split_dim content ratio in
  if (min_low + min_high <=? u16_max) && (min_low + min_high <=? content) then Z.max min_low (Z.min low (content - min_high)) else low.

(** ** The walk *)

(* phux-client-core/src/multi_pane/rasterize.rs DividerSegment *)
Record DividerSegment : Type := mkSegment { seg_split : SplitDir; seg_a0 : Z; seg_a1 : Z; seg_cross : Z; seg_path : NodePath }.
Abbreviation Rects := (gmap ResourceId Rect).
(** The share of the low child: [min_axis] picks the axis of the minima. *)
(* phux-client-core/src/multi_pane/rasterize.rs:174-178 walk_layout_at *)
Definition low_share (freeze : bool) (content ratio : Z) (lft rgt : LayoutNode) (min_axis : Z * Z -> Z) : Z :=
  if freeze then freeze_split_dim content ratio (min_axis (min_dims lft)) (min_axis (min_dims rgt)) else split_dim content ratio.
(* phux-client-core/src/multi_pane/rasterize.rs walk_layout_at *)
Fixpoint walk_layout_at (n : LayoutNode) (bounds : Rect) (path : NodePath) (segments : list DividerSegment) (rects : Rects) (freeze : bool)
    : list DividerSegment * Rects :=
  match n with
  | LayoutNode_Leaf p => (segments, <[p := bounds]> rects)
  | LayoutNode_Split SplitDir_Horizontal ratio lft rgt =>
      let has_divider := 1 <=? rw bounds in
      let content_w := saturating_sub (rw bounds) 1 in
      let left_w := low_share freeze content_w ratio lft rgt fst in
      let right_w := content_w - left_w in
      let divider_x := rx bounds + left_w in
      let segments :=
        if has_divider
        then segments ++ [mkSegment SplitDir_Horizontal (ry bounds) (ry bounds + saturating_sub (rh bounds) 1) divider_x path]
        else segments in
      let '(segments, rects) := walk_layout_at lft (mkRect (rx bounds) (ry bounds) left_w (rh bounds)) (path ++ [Step_Left]) segments rects freeze in
      walk_layout_at rgt (mkRect (if has_divider then divider_x + 1 else rx bounds) (ry bounds) right_w (rh bounds))
        (path ++ [Step_Right]) segments rects freeze
  | LayoutNode_Split SplitDir_Vertical ratio lft rgt =>
      let has_divider := 1 <=? rh bounds in
      let content_h := saturating_sub (rh bounds) 1 in
      let top_h := low_share freeze content_h ratio lft rgt snd in
      let bot_h := content_h - top_h in
      let divider_y := ry bounds + top_h in
      let segments :=
        if has_divider
        then segments ++ [mkSegment SplitDir_Vertical (rx bounds) (rx bounds + saturating_sub (rw bounds) 1) divider_y path]
        else segments in
      let '(segments, rects) := walk_layout_at lft (mkRect (rx bounds) (ry bounds) (rw bounds) top_h) (path ++ [Step_Left]) segments rects freeze in
      walk_layout_at rgt (mkRect (rx bounds) (if has_divider then divider_y + 1 else ry bounds) (rw bounds) bot_h)
        (path ++ [Step_Right]) segments rects freeze
  end.
(* phux-client-core/src/multi_pane/rasterize.rs walk_layout *)
Definition walk_layout (n : LayoutNode) (bounds : Rect) : list DividerSegment * Rects := walk_layout_at n bounds [] [] ∅ true.
(* phux-client-core/src/multi_pane/rasterize.rs walk_layout_proportional *)
Definition walk_layout_proportional (n : LayoutNode) (bounds : Rect) : list DividerSegment * Rects := walk_layout_at n bounds [] [] ∅ false.

(** ** From lines to cells *)

(* phux-client-core/src/multi_pane/rasterize.rs DividerEdges *)
Record DividerEdges : Type := mkEdges { north : bool; east : bool; south : bool; west : bool }.
Definition no_edges : DividerEdges := mkEdges false false false false.
Abbreviation Grid := (gmap (Z * Z) DividerEdges).
(** [lo..=hi]. *)
Definition span (lo hi : Z) : list Z := seqZ lo (hi - lo + 1).
(* phux-client-core/src/multi_pane/rasterize.rs lay_down_vertical_line *)
Definition lay_down_vertical_line (grid : Grid) (seg : DividerSegment) (vcols vrows : Z) : Grid :=
  if vcols <=? seg_cross seg then grid
  else fold_left (fun grid y =>
         let c := default no_edges (grid !! (seg_cross seg, y)) in
         <[(seg_cross seg, y) := mkEdges (north c || (seg_a0 seg <? y)) (east c) (south c || (y <? seg_a1 seg)) (west c)]> grid)
       (span (seg_a0 seg) (Z.min (seg_a1 seg) (saturating_sub vrows 1))) grid.
(* phux-client-core/src/multi_pane/rasterize.rs lay_down_horizontal_line *)
Definition lay_down_horizontal_line (grid : Grid) (seg : DividerSegment) (vcols vrows : Z) : Grid :=
  if vrows <=? seg_cross seg then grid
  else fold_left (fun grid x =>
         let c := default no_edges (grid !! (x, seg_cross seg)) in
         <[(x, seg_cross seg) := mkEdges (north c) (east c || (x <? seg_a1 seg)) (south c) (west c || (seg_a0 seg <? x))]> grid)
       (span (seg_a0 seg) (Z.min (seg_a1 seg) (saturating_sub vcols 1))) grid.
(* phux-client-core/src/multi_pane/rasterize.rs lay_down_segment *)
Definition lay_down_segment (viewport : Z * Z) (grid : Grid) (seg : DividerSegment) : Grid :=
  match seg_split seg with
  | SplitDir_Horizontal => lay_down_vertical_line grid seg viewport.1 viewport.2
  | SplitDir_Vertical => lay_down_horizontal_line grid seg viewport.1 viewport.2
  end.
(* phux-client-core/src/multi_pane/rasterize.rs Neighbours *)
Record Neighbours : Type := mkNeighbours {
  at_north : option DividerEdges; at_east : option DividerEdges; at_south : option DividerEdges; at_west : option DividerEdges
}.
(* phux-client-core/src/multi_pane/rasterize.rs Neighbours::around *)
Definition around (grid : Grid) (x y : Z) : Neighbours :=
  mkNeighbours (if 0 <? y then grid !! (x, y - 1) else None) (grid !! (x + 1, y)) (grid !! (x, y + 1))
               (if 0 <? x then grid !! (x - 1, y) else None).
Definition present (o : option DividerEdges) : bool := match o with Some _ => true | None => false end.
(* phux-client-core/src/multi_pane/rasterize.rs DividerEdges::inherit_junctions *)
Definition inherit_junctions (c : DividerEdges) (nb : Neighbours) : DividerEdges :=
  mkEdges (if negb (north c) then present (at_north nb) else north c) (if negb (east c) then present (at_east nb) else east c)
          (if negb (south c) then present (at_south nb) else south c) (if negb (west c) then present (at_west nb) else west c).
(* phux-client-core/src/multi_pane/rasterize.rs inherit_junction_edges *)
Definition inherit_junction_edges (grid : Grid) : Grid :=
  fold_left (fun grid '(x, y) => match grid !! (x, y) with Some c => <[(x, y) := inherit_junctions c (around grid x y)]> grid | None => grid end)
    (map fst (map_to_list grid)) grid.
(** The code point of the glyph. *)
(* phux-client-core/src/multi_pane/rasterize.rs pick_box_char *)
Definition pick_box_char (e : DividerEdges) : Z :=
  match north e, east e, south e, west e with
  | false, false, false, false => 32
  | true, true, true, true => 0x253C
  | true, false, true, true => 0x2524
  | true, true, true, false => 0x251C
  | true, true, false, true => 0x2534
  | false, true, true, true => 0x252C
  | false, true, true, false => 0x250C
  | false, false, true, true => 0x2510
  | true, true, false, false => 0x2514
  | true, false, false, true => 0x2518
  | _, false, _, false => 0x2502
  | false, _, false, _ => 0x2500
  end.
(* phux-client-core/src/multi_pane/rasterize.rs DividerCell *)
Record DividerCell : Type := mkCell { cell_x : Z; cell_y : Z; cell_ch : Z }.
Definition row_major (a b : Z * Z) : Prop := a.2 < b.2 \/ (a.2 = b.2 /\ a.1 <= b.1).
#[export] Instance row_major_dec : RelDecision row_major.
Proof. intros a b. apply or_dec; [apply _|apply and_dec; apply _]. Defined.
(* phux-client-core/src/multi_pane/rasterize.rs into_divider_cells *)
Definition into_divider_cells (grid : Grid) : list DividerCell :=
  map (fun c => mkCell c.1 c.2 (pick_box_char (default no_edges (grid !! c)))) (merge_sort row_major (map fst (map_to_list grid))).
(* phux-client-core/src/multi_pane/rasterize.rs rasterize *)
Definition rasterize (segments : list DividerSegment) (viewport : Z * Z) : list DividerCell :=
  into_divider_cells (inherit_junction_edges (fold_left (lay_down_segment viewport) segments ∅)).
(* phux-client-core/src/multi_pane/rasterize.rs DividerHit *)
Record DividerHit : Type := mkHit { hit_path : NodePath; hit_axis : SplitDir; hit_cells : list (Z * Z) }.
(* phux-client-core/src/multi_pane/rasterize.rs:467-489 divider_hits *)
Definition segment_cells (viewport : Z * Z) (seg : DividerSegment) : list (Z * Z) :=
  match seg_split seg with
  | SplitDir_Horizontal =>
      if seg_cross seg <? viewport.1
      then map (fun y => (seg_cross seg, y)) (span (seg_a0 seg) (Z.min (seg_a1 seg) (saturating_sub viewport.2 1))) else []
  | SplitDir_Vertical =>
      if seg_cross seg <? viewport.2
      then map (fun x => (x, seg_cross seg)) (span (seg_a0 seg) (Z.min (seg_a1 seg) (saturating_sub viewport.1 1))) else []
  end.
(* phux-client-core/src/multi_pane/rasterize.rs divider_hits *)
Definition divider_hits (segments : list DividerSegment) (viewport : Z * Z) : list DividerHit :=
  map (fun seg => mkHit (seg_path seg) (seg_split seg) (segment_cells viewport seg)) segments.

(** ** Layouts *)

(* phux-client-core/src/multi_pane/layout.rs PaneLayout *)
Record PaneLayout : Type := mkPaneLayout {
  pl_viewport : Z * Z; pl_rects : Rects; pl_dividers : list DividerCell; pl_hits : list DividerHit
}.
(* phux-client-core/src/multi_pane/layout.rs compute_layout_in *)
Definition compute_layout_in (layout : LayoutState) (content : Rect) (viewport : Z * Z) : PaneLayout :=
  match tree layout with
  | None => mkPaneLayout viewport ∅ [] []
  | Some n =>
      if (rw content =? 0) || (rh content =? 0) then mkPaneLayout viewport ∅ [] []
      else
        let '(segments, rects) := walk_layout n content in
        mkPaneLayout viewport rects (rasterize segments viewport) (divider_hits segments viewport)
  end.
(* phux-client-core/src/multi_pane/layout.rs compute_layout *)
Definition compute_layout (layout : LayoutState) (viewport : Z * Z) : PaneLayout :=
  compute_layout_in layout (mkRect 0 0 viewport.1 viewport.2) viewport.
(* phux-client-core/src/multi_pane/layout.rs pane_rects_in *)
Definition pane_rects_in (n : LayoutNode) (content : Rect) : Rects := (walk_layout n content).2.
(* phux-client-core/src/multi_pane/layout.rs pane_rects *)
Definition pane_rects (n : LayoutNode) (viewport : Z * Z) : Rects := pane_rects_in n (mkRect 0 0 viewport.1 viewport.2).
(* phux-client-core/src/multi_pane/layout.rs pane_rects_proportional_in *)
Definition pane_rects_proportional_in (n : LayoutNode) (content : Rect) : Rects := (walk_layout_proportional n content).2.
(** The descent of the loop, down the tree along [steps]. *)
(* phux-client-core/src/multi_pane/layout.rs split_content_span_at *)
Fixpoint split_content_span_at (n : LayoutNode) (bounds : Rect) (steps : NodePath) : option (Z * Z) :=
  match n with
  | LayoutNode_Leaf _ => None
  | LayoutNode_Split dir ratio lft rgt =>
      let '(axis_start, axis_len) := match dir with SplitDir_Horizontal => (rx bounds, rw bounds) | SplitDir_Vertical => (ry bounds, rh bounds) end in
      let content_len := saturating_sub axis_len 1 in
      match steps with
      | [] => if content_len =? 0 then None else Some (axis_start, content_len)
      | step :: rest =>
          let has_divider := 1 <=? axis_len in
          let '(min_low, min_high) :=
            match dir with
            | SplitDir_Horizontal => ((min_dims lft).1, (min_dims rgt).1)
            | SplitDir_Vertical => ((min_dims lft).2, (min_dims rgt).2)
            end in
          let low := freeze_split_dim content_len ratio min_low min_high in
          let high := content_len - low in
          let divider := axis_start + low in
          let '(start, length) :=
            match dir, step with
            | SplitDir_Horizontal, Step_Left => (rx bounds, low)
            | SplitDir_Horizontal, Step_Right => (if has_divider then divider + 1 else rx bounds, high)
            | SplitDir_Vertical, Step_Left => (ry bounds, low)
            | SplitDir_Vertical, Step_Right => (if has_divider then divider + 1 else ry bounds, high)
            end in
          let bounds' :=
            match dir with
            | SplitDir_Horizontal => mkRect start (ry bounds) length (rh bounds)
            | SplitDir_Vertical => mkRect (rx bounds) start (rw bounds) length
            end in
          match step with
          | Step_Left => split_content_span_at lft bounds' rest
          | Step_Right => split_content_span_at rgt bounds' rest
          end
      end
  end.

(** ** Clicks *)

(* phux-client-core/src/multi_pane/mouse.rs RouteDecision *)
Inductive RouteDecision : Type :=
| Route_Pane (target : ResourceId) (pane_x pane_y : Z) (focus_changed : bool)
| Route_Divider (path : NodePath) (axis : SplitDir)
| Route_Miss
| Route_NoFocus.
(** A binary64 pattern truncated to a [u16]: the tests against zero and the maximum, then [as u16]. *)
(* phux-client-core/src/multi_pane/mouse.rs clamp_cell *)
Definition clamp_cell (bits : Z) : Z :=
  let e := (bits / 2 ^ 52) mod 2048 in
  let m := bits mod 2 ^ 52 in
  if (e =? 2047) && negb (m =? 0) then 0
  else if 2 ^ 63 <=? bits then 0
  else if e =? 2047 then u16_max
  else if e <? 1023 then 0
  else if 1039 <=? e then u16_max
  else Z.min u16_max ((m + 2 ^ 52) / 2 ^ (1075 - e)).
(** [f64::from] of a [u16]. *)
Definition f64_from (n : Z) : Z := if n =? 0 then 0 else (Z.log2 n + 1022) * 2 ^ 52 + n * 2 ^ (52 - Z.log2 n).
(* phux-client-core/src/multi_pane/mouse.rs rect_contains *)
Definition rect_contains (r : Rect) (x y : Z) : bool :=
  (rx r <=? x) && (ry r <=? y) && (x <? saturating_add16 (rx r) (rw r)) && (y <? saturating_add16 (ry r) (rh r)).
(* phux-client-core/src/multi_pane/mouse.rs route_mouse_event *)
Definition route_mouse_event (layout : LayoutState) (content : Rect) (viewport : Z * Z) (mouse : MouseEvent) : RouteDecision :=
  match tree layout with
  | None => Route_NoFocus
  | Some _ =>
      let multi := compute_layout_in layout content viewport in
      if bool_decide (pl_rects multi = ∅) then Route_NoFocus
      else
        let cell_x := Z.min (clamp_cell (mouse_x mouse)) (saturating_sub viewport.1 1) in
        let cell_y := Z.min (clamp_cell (mouse_y mouse)) (saturating_sub viewport.2 1) in
        match List.find (fun '(_, rect) => rect_contains rect cell_x cell_y) (map_to_list (pl_rects multi)) with
        | Some (target, rect) =>
            Route_Pane target (f64_from (cell_x - rx rect)) (f64_from (cell_y - ry rect)) (negb (bool_decide (focus layout = Some target)))
        | None =>
            match List.find (fun h => bool_decide ((cell_x, cell_y) ∈ hit_cells h)) (pl_hits multi) with
            | Some h => Route_Divider (hit_path h) (hit_axis h)
            | None => Route_Miss
            end
        end
  end.

(** ** Small layouts *)

Definition pane_n (i : Z) : ResourceId := ResourceId_Local i.
Definition half : Z := 0x3f000000.
(** A pane on the left, two above each other on the right. *)
Definition three_panes : LayoutNode :=
  LayoutNode_Split SplitDir_Horizontal half (LayoutNode_Leaf (pane_n 1))
    (LayoutNode_Split SplitDir_Vertical half (LayoutNode_Leaf (pane_n 2)) (LayoutNode_Leaf (pane_n 3))).
Example three_panes_tiled :
  let L := compute_layout_in (mkLayout (Some three_panes) (Some (pane_n 1))) (mkRect 0 0 11 5) (11, 5) in
  pl_rects L !! pane_n 1 = Some (mkRect 0 0 5 5) /\ pl_rects L !! pane_n 2 = Some (mkRect 6 0 5 2)
  /\ pl_rects L !! pane_n 3 = Some (mkRect 6 3 5 2)
  /\ map (fun d => (cell_x d, cell_y d, cell_ch d)) (pl_dividers L)
     = [(5, 0, 0x2502); (5, 1, 0x2502); (5, 2, 0x251C); (6, 2, 0x2500); (7, 2, 0x2500); (8, 2, 0x2500); (9, 2, 0x2500); (10, 2, 0x2500);
        (5, 3, 0x2502); (5, 4, 0x2502)].
Proof. vm_compute. repeat split. Qed.
(** A viewport of two rows, the lower one kept for a status bar: the divider of the bottom pair, which has no row left, is painted
    there. *)
Definition squeezed : LayoutNode :=
  LayoutNode_Split SplitDir_Vertical half (LayoutNode_Leaf (pane_n 1))
    (LayoutNode_Split SplitDir_Horizontal half (LayoutNode_Leaf (pane_n 2)) (LayoutNode_Leaf (pane_n 3))).
Example divider_escapes_content :
  existsb (fun d => cell_y d =? 1) (pl_dividers (compute_layout_in (mkLayout (Some squeezed) None) (mkRect 0 0 11 1) (11, 2))) = true.
Proof. vm_compute. reflexivity. Qed.
