(* ===== verification/TilingProofs.v ===== *)
(** * The panes and dividers tile their rectangle

    The walk of [Tiling] as a list of rectangles and a list of lines, by induction on the tree; from it,
    that every cell belongs to exactly one pane or to a divider, that panes keep their floor, and where a
    click goes. *)

From stdpp Require Import gmap list sorting.
From S2P Require Import Prelude Enums Ids IdBridge Info Codec Float32 ClientLayout Tiling.

(** ** Cuts *)

Lemma saturating_sub_spec a b : 0 <= a -> 0 <= b -> saturating_sub a b = Z.max 0 (a - b).
Proof. unfold saturating_sub. destruct (Z.leb_spec b a); lia. Qed.
Lemma split_dim_bounds total ratio : 0 <= total <= u16_max -> 0 <= split_dim total ratio <= total.
Proof.
  intros Ht. unfold split_dim. change (f32_from 0) with 0. set (raw := f32_round _). clearbody raw. unfold u16_max in *.
  destruct (f32_lt raw 0) eqn:E0; [lia|]. destruct (f32_lt (f32_from total) raw) eqn:E1; [lia|]. unfold f32_as_u16. unfold u16_max.
  destruct (f32_view_ok raw) as [Ev|[(s & Ev)|(s & n & d & Ev & Hn & Hd)]].
  - rewrite Ev. lia.
  - rewrite Ev. destruct s; [lia|]. destruct (f32_from_view total ltac:(lia)) as (a & b & Ef & _ & _). unfold f32_lt in E1.
    rewrite Ev, Ef in E1. done.
  - rewrite Ev. destruct s; [lia|]. rewrite (f32_lt_from total raw false n d) in E1 by (done || lia). apply Z.ltb_ge in E1. unfold signed_num in E1.
    assert (0 <= n / d) by by apply Z.div_pos. assert (n / d <= total) by (apply Z.div_le_upper_bound; lia). lia.
Qed.
Lemma freeze_bounds content ratio a b : 0 <= content <= u16_max -> 0 <= a -> 0 <= b -> 0 <= freeze_split_dim content ratio a b <= content.
Proof.
  intros Hc Ha Hb. unfold freeze_split_dim. pose proof (split_dim_bounds content ratio Hc). cbv zeta.
  destruct (_ && _) eqn:E; [|done]. apply andb_true_iff in E as [_ E%Z.leb_le]. lia.
Qed.
(** Where both sides fit, both keep their minimum. *)
Lemma freeze_floor content ratio a b :
  0 <= content <= u16_max -> 0 <= a -> 0 <= b -> a + b <= content -> a <= freeze_split_dim content ratio a b <= content - b.
Proof.
  intros Hc Ha Hb Hf. unfold freeze_split_dim. cbv zeta. rewrite !(proj2 (Z.leb_le _ _)) by (unfold u16_max in *; lia). cbn [andb]. lia.
Qed.
Lemma min_dims_nonneg n : 2 <= (min_dims n).1 <= u16_max /\ 1 <= (min_dims n).2 <= u16_max.
Proof.
  induction n as [p|d r lft IHl rgt IHr]; simpl; [unfold MIN_LEAF_COLS, MIN_LEAF_ROWS, u16_max; lia|].
  destruct (min_dims lft), (min_dims rgt). simpl in *. unfold saturating_add16, u16_max in *. destruct d; simpl; lia.
Qed.
Lemma low_share_bounds freeze content ratio lft rgt ax :
  0 <= content <= u16_max -> (ax = fst \/ ax = snd) -> 0 <= low_share freeze content ratio lft rgt ax <= content.
Proof.
  intros Hc Hax. unfold low_share. destruct freeze; [|by apply split_dim_bounds].
  pose proof (min_dims_nonneg lft). pose proof (min_dims_nonneg rgt). apply freeze_bounds; [done|destruct Hax as [-> | ->]; lia..].
Qed.

(** ** The walk, as lists *)

Definition axis_len (d : SplitDir) (b : Rect) : Z := match d with SplitDir_Horizontal => rw b | SplitDir_Vertical => rh b end.
Definition share (d : SplitDir) (ratio : Z) (lft rgt : LayoutNode) (b : Rect) (freeze : bool) : Z :=
  low_share freeze (saturating_sub (axis_len d b) 1) ratio lft rgt (match d with SplitDir_Horizontal => fst | SplitDir_Vertical => snd end).
#[global] Arguments share : simpl never.
Definition low_rect (d : SplitDir) (s : Z) (b : Rect) : Rect :=
  match d with SplitDir_Horizontal => mkRect (rx b) (ry b) s (rh b) | SplitDir_Vertical => mkRect (rx b) (ry b) (rw b) s end.
Definition high_rect (d : SplitDir) (s : Z) (b : Rect) : Rect :=
  match d with
  | SplitDir_Horizontal => mkRect (if 1 <=? rw b then rx b + s + 1 else rx b) (ry b) (saturating_sub (rw b) 1 - s) (rh b)
  | SplitDir_Vertical => mkRect (rx b) (if 1 <=? rh b then ry b + s + 1 else ry b) (rw b) (saturating_sub (rh b) 1 - s)
  end.
Definition own_line (d : SplitDir) (s : Z) (b : Rect) (path : NodePath) : list DividerSegment :=
  if 1 <=? axis_len d b then
    [match d with
     | SplitDir_Horizontal => mkSegment SplitDir_Horizontal (ry b) (ry b + saturating_sub (rh b) 1) (rx b + s) path
     | SplitDir_Vertical => mkSegment SplitDir_Vertical (rx b) (rx b + saturating_sub (rw b) 1) (ry b + s) path
     end]
  else [].
Fixpoint tiles (n : LayoutNode) (b : Rect) (freeze : bool) : list (ResourceId * Rect) :=
  match n with
  | LayoutNode_Leaf p => [(p, b)]
  | LayoutNode_Split d ratio lft rgt =>
      let s := share d ratio lft rgt b freeze in tiles lft (low_rect d s b) freeze ++ tiles rgt (high_rect d s b) freeze
  end.
Fixpoint lines (n : LayoutNode) (b : Rect) (path : NodePath) (freeze : bool) : list DividerSegment :=
  match n with
  | LayoutNode_Leaf _ => []
  | LayoutNode_Split d ratio lft rgt =>
      let s := share d ratio lft rgt b freeze in
      own_line d s b path ++ lines lft (low_rect d s b) (path ++ [Step_Left]) freeze ++ lines rgt (high_rect d s b) (path ++ [Step_Right]) freeze
  end.
Definition put_all (ts : list (ResourceId * Rect)) (rects : Rects) : Rects := fold_left (fun m '(t, r) => <[t := r]> m) ts rects.
Lemma walk_eq n b path segs rects f : walk_layout_at n b path segs rects f = (segs ++ lines n b path f, put_all (tiles n b f) rects).
Proof.
  revert b path segs rects. induction n as [p|d r lft IHl rgt IHr]; intros b path segs rects; simpl; [by rewrite app_nil_r|].
  unfold put_all. rewrite fold_left_app. destruct d; rewrite IHl, IHr; simpl; unfold own_line, put_all; simpl; destruct (1 <=? _); simpl;
    by rewrite <- ?app_assoc.
Qed.
Lemma tiles_leaves n b f : map fst (tiles n b f) = leaves n.
Proof.
  assert (H : forall out, collect_leaves n out = out ++ map fst (tiles n b f)); [|symmetry; apply (H [])].
  revert b. induction n as [p|d r lft IHl rgt IHr]; intros b out; simpl; [done|]. rewrite (IHl (low_rect d (share d r lft rgt b f) b)), (IHr (high_rect d (share d r lft rgt b f) b)).
  by rewrite map_app, app_assoc.
Qed.
Lemma put_all_lookup ts m t r : NoDup (map fst ts) -> put_all ts m !! t = Some r <-> (t, r) ∈ ts \/ (t ∉ map fst ts /\ m !! t = Some r).
Proof.
  revert m. induction ts as [|[t' r'] ts IH]; intros m Hnd; simpl.
  - split; [intros H; right; split; [apply not_elem_of_nil|done]|]. intros [H|[_ H]]; [by apply not_elem_of_nil in H|done].
  - inversion Hnd as [|? ? Hn Hnd']; subst. unfold put_all in *. simpl. rewrite IH by done. rewrite not_elem_of_cons, elem_of_cons. split.
    + intros [H|[H1 H2]]; [by left; right|]. destruct (decide (t' = t)) as [->|Hne].
      * rewrite lookup_insert_eq in H2. injection H2 as ->. by left; left.
      * rewrite lookup_insert_ne in H2 by done. right. by repeat split.
    + intros [[[= -> ->]|H]|[[H1 H2] H3]]; [|by left|].
      * right. split; [done|]. by rewrite lookup_insert_eq.
      * right. split; [done|]. by rewrite lookup_insert_ne.
Qed.

(** ** Geometry *)

Definition sane (b : Rect) : Prop := 0 <= rx b /\ 0 <= ry b /\ 0 <= rw b <= u16_max /\ 0 <= rh b <= u16_max.
Definition within (a b : Rect) : Prop := rx b <= rx a /\ ry b <= ry a /\ rx a + rw a <= rx b + rw b /\ ry a + rh a <= ry b + rh b.
Definition in_rect (c : Z * Z) (r : Rect) : Prop := rx r <= c.1 < rx r + rw r /\ ry r <= c.2 < ry r + rh r.
#[export] Instance in_rect_dec c r : Decision (in_rect c r).
Proof. apply _. Defined.
Definition on_line (c : Z * Z) (seg : DividerSegment) : Prop :=
  match seg_split seg with
  | SplitDir_Horizontal => c.1 = seg_cross seg /\ seg_a0 seg <= c.2 <= seg_a1 seg
  | SplitDir_Vertical => c.2 = seg_cross seg /\ seg_a0 seg <= c.1 <= seg_a1 seg
  end.
#[export] Instance on_line_dec c seg : Decision (on_line c seg).
Proof. unfold on_line. destruct (seg_split seg); apply _. Defined.

Lemma share_bounds d r lft rgt b f : sane b -> 0 <= share d r lft rgt b f <= saturating_sub (axis_len d b) 1.
Proof.
  intros (_ & _ & Hw & Hh). unfold share. apply low_share_bounds; [|destruct d; [by left|by right]].
  rewrite saturating_sub_spec by (destruct d; simpl; lia). destruct d; simpl; lia.
Qed.
(** The two parts and the line between them. *)
Lemma cut_spec d r lft rgt b f : sane b -> let s := share d r lft rgt b f in
  sane (low_rect d s b) /\ sane (high_rect d s b) /\ within (low_rect d s b) b /\ within (high_rect d s b) b.
Proof.
  intros Hb s. pose proof (share_bounds d r lft rgt b f Hb) as Hs. fold s in Hs. clearbody s. destruct b as [x y w h], d; unfold sane, within in *; simpl in *;
    rewrite saturating_sub_spec in Hs by lia; rewrite ?saturating_sub_spec by lia; destruct (Z.leb_spec 1 w), (Z.leb_spec 1 h); lia.
Qed.
Lemma within_trans a b c : within a b -> within b c -> within a c.
Proof. unfold within. lia. Qed.
Lemma tiles_inside n b f t r : sane b -> (t, r) ∈ tiles n b f -> sane r /\ within r b.
Proof.
  revert b. induction n as [p|d rt lft IHl rgt IHr]; intros b Hb; simpl.
  - intros [= -> ->]%list_elem_of_singleton. split; [done|]. unfold within. lia.
  - destruct (cut_spec d rt lft rgt b f Hb) as (S1 & S2 & W1 & W2). intros [H|H]%elem_of_app.
    + apply IHl in H as [H1 H2]; [|done]. split; [done|]. by eapply within_trans.
    + apply IHr in H as [H1 H2]; [|done]. split; [done|]. by eapply within_trans.
Qed.
(** No line leaves its rectangle by more than a cell, and only beyond its far edges. *)
Lemma lines_extent n b path f seg c : sane b -> seg ∈ lines n b path f -> on_line c seg -> rx b <= c.1 <= rx b + rw b /\ ry b <= c.2 <= ry b + rh b.
Proof.
  revert b path. induction n as [p|d rt lft IHl rgt IHr]; intros b path Hb; simpl; [by intros ?%not_elem_of_nil|].
  destruct (cut_spec d rt lft rgt b f Hb) as (S1 & S2 & W1 & W2). pose proof (share_bounds d rt lft rgt b f Hb) as Hs. set (s := share _ _ _ _ _ _) in *. clearbody s.
  unfold within in *. rewrite !elem_of_app. intros [H|[H|H]] Hc; [|pose proof (IHl _ _ S1 H Hc); lia|pose proof (IHr _ _ S2 H Hc); lia].
  unfold own_line in H. destruct b as [x y w h], d; simpl in *; unfold sane in Hb; simpl in Hb; rewrite saturating_sub_spec in Hs by lia.
  - destruct (Z.leb_spec 1 w); [|by apply not_elem_of_nil in H]. apply list_elem_of_singleton in H as ->. unfold on_line in Hc. simpl in Hc.
    rewrite saturating_sub_spec in Hc by lia. lia.
  - destruct (Z.leb_spec 1 h); [|by apply not_elem_of_nil in H]. apply list_elem_of_singleton in H as ->. unfold on_line in Hc. simpl in Hc.
    rewrite saturating_sub_spec in Hc by lia. lia.
Qed.

(** ** Every cell has one owner *)

Definition owners (c : Z * Z) (ts : list (ResourceId * Rect)) : nat := length (filter (fun tr => in_rect c tr.2) ts).
Definition lined (c : Z * Z) (segs : list DividerSegment) : Prop := Exists (on_line c) segs.
Lemma owners_app c ts ts' : owners c (ts ++ ts') = (owners c ts + owners c ts')%nat.
Proof. unfold owners. by rewrite filter_app, length_app. Qed.
Lemma owners_outside n b f c : sane b -> ~ in_rect c b -> owners c (tiles n b f) = 0%nat.
Proof.
  intros Hb Hc. unfold owners. destruct (filter _ _) as [|[t r] ts] eqn:E; [done|exfalso].
  assert (Hin : (t, r) ∈ filter (fun tr => in_rect c tr.2) (tiles n b f)) by (rewrite E; by left).
  apply list_elem_of_filter in Hin as [H1 H2]. apply tiles_inside in H2 as [_ H2]; [|done]. apply Hc. unfold in_rect, within in *. simpl in H1. lia.
Qed.
Lemma not_lined n b path f c : sane b -> ~ (rx b <= c.1 <= rx b + rw b /\ ry b <= c.2 <= ry b + rh b) -> ~ lined c (lines n b path f).
Proof. intros Hb Hc [seg [Hin Ho]]%Exists_exists. apply Hc. eapply lines_extent; [done| |exact Ho]. done. Qed.
Lemma own_line_spec d s b path c : sane b -> in_rect c b ->
  lined c (own_line d s b path) <-> match d with SplitDir_Horizontal => c.1 = rx b + s | SplitDir_Vertical => c.2 = ry b + s end.
Proof.
  intros Hb Hc. unfold own_line, lined. destruct b as [x y w h], c as [cx cy], d; unfold sane, in_rect in *; simpl in *.
  - destruct (Z.leb_spec 1 w); [|lia]. rewrite Exists_cons, Exists_nil. unfold on_line. simpl. rewrite saturating_sub_spec by lia. split; [intros [?|[]]; lia|intros; left; lia].
  - destruct (Z.leb_spec 1 h); [|lia]. rewrite Exists_cons, Exists_nil. unfold on_line. simpl. rewrite saturating_sub_spec by lia. split; [intros [?|[]]; lia|intros; left; lia].
Qed.
Lemma exact_cover n b path f c : sane b -> in_rect c b ->
  (owners c (tiles n b f) = 1%nat /\ ~ lined c (lines n b path f)) \/ (owners c (tiles n b f) = 0%nat /\ lined c (lines n b path f)).
Proof.
  revert b path. induction n as [p|d rt lft IHl rgt IHr]; intros b path Hb Hc; simpl.
  - left. unfold owners, lined. rewrite filter_cons_True by done. split; [done|]. intros H%Exists_nil. done.
  - destruct (cut_spec d rt lft rgt b f Hb) as (S1 & S2 & W1 & W2). pose proof (share_bounds d rt lft rgt b f Hb) as Hs.
    set (s := share _ _ _ _ _ _) in *. clearbody s. rewrite owners_app. unfold lined. rewrite !Exists_app. fold (lined c (own_line d s b path)).
    rewrite own_line_spec by done. fold (lined c (lines lft (low_rect d s b) (path ++ [Step_Left]) f)). fold (lined c (lines rgt (high_rect d s b) (path ++ [Step_Right]) f)).
    assert (Hcase : (in_rect c (low_rect d s b) /\ ~ (rx (high_rect d s b) <= c.1 /\ ry (high_rect d s b) <= c.2)
                     /\ (match d with SplitDir_Horizontal => c.1 <> rx b + s | SplitDir_Vertical => c.2 <> ry b + s end))
                 \/ (in_rect c (high_rect d s b) /\ ~ (c.1 <= rx (low_rect d s b) + rw (low_rect d s b) /\ c.2 <= ry (low_rect d s b) + rh (low_rect d s b))
                     /\ (match d with SplitDir_Horizontal => c.1 <> rx b + s | SplitDir_Vertical => c.2 <> ry b + s end))
                 \/ (~ in_rect c (low_rect d s b) /\ ~ in_rect c (high_rect d s b) /\ match d with SplitDir_Horizontal => c.1 = rx b + s | SplitDir_Vertical => c.2 = ry b + s end)).
    { clear - Hb Hc Hs. destruct b as [x y w h], c as [cx cy], d; unfold sane, in_rect in *; simpl in *; rewrite saturating_sub_spec in * by lia.
      - destruct (Z.leb_spec 1 w); [|lia]. destruct (Z.lt_trichotomy cx (x + s)) as [?|[?|?]]; [left|right; right|right; left]; lia.
      - destruct (Z.leb_spec 1 h); [|lia]. destruct (Z.lt_trichotomy cy (y + s)) as [?|[?|?]]; [left|right; right|right; left]; lia. }
    destruct Hcase as [(H1 & H2 & H3)|[(H1 & H2 & H3)|(H1 & H2 & H3)]].
    + rewrite (owners_outside rgt) by (done || unfold in_rect; lia). pose proof (not_lined rgt (high_rect d s b) (path ++ [Step_Right]) f c S2) as Hn.
      assert (Hn' : ~ lined c (lines rgt (high_rect d s b) (path ++ [Step_Right]) f)) by (apply Hn; lia).
      destruct (IHl (low_rect d s b) (path ++ [Step_Left]) S1 H1) as [[E1 E2]|[E1 E2]]; [left|right]; (split; [lia|destruct d; tauto]).
    + rewrite (owners_outside lft) by (done || unfold in_rect; lia). pose proof (not_lined lft (low_rect d s b) (path ++ [Step_Left]) f c S1) as Hn.
      assert (Hn' : ~ lined c (lines lft (low_rect d s b) (path ++ [Step_Left]) f)) by (apply Hn; lia).
      destruct (IHr (high_rect d s b) (path ++ [Step_Right]) S2 H1) as [[E1 E2]|[E1 E2]]; [left|right]; (split; [lia|destruct d; tauto]).
    + right. rewrite !owners_outside by done. split; [done|tauto].
Qed.

(** ** Where every pane has room *)

Definition fits (n : LayoutNode) (b : Rect) : Prop :=
  (min_dims n).1 <= rw b < u16_max /\ (min_dims n).2 <= rh b < u16_max.
Lemma fits_cut d rt lft rgt b : sane b -> fits (LayoutNode_Split d rt lft rgt) b ->
  let s := share d rt lft rgt b true in fits lft (low_rect d s b) /\ fits rgt (high_rect d s b) /\ 1 <= axis_len d b.
Proof.
  intros Hb Hf. unfold fits in *. simpl in Hf. pose proof (min_dims_nonneg lft). pose proof (min_dims_nonneg rgt).
  assert (Hs : forall a1 a2 total, 0 <= a1 -> 0 <= a2 -> saturating_add16 (saturating_add16 a1 a2) 1 <= total < u16_max -> a1 + a2 + 1 <= total).
  { unfold saturating_add16. lia. }
  unfold share, low_share. destruct (min_dims lft) as [lw lh], (min_dims rgt) as [w' h'], b as [x y w h], d; unfold sane in Hb; simpl in *.
  - destruct Hf as [Hw Hh]. apply Hs in Hw as Hw'; [|lia|lia]. destruct (Z.leb_spec 1 w); [|lia]. rewrite saturating_sub_spec by lia.
    pose proof (freeze_floor (Z.max 0 (w - 1)) rt lw w' ltac:(unfold u16_max in *; lia) ltac:(lia) ltac:(lia) ltac:(lia)). lia.
  - destruct Hf as [Hw Hh]. apply Hs in Hh as Hh'; [|lia|lia]. destruct (Z.leb_spec 1 h); [|lia]. rewrite saturating_sub_spec by lia.
    pose proof (freeze_floor (Z.max 0 (h - 1)) rt lh h' ltac:(unfold u16_max in *; lia) ltac:(lia) ltac:(lia) ltac:(lia)). lia.
Qed.
Lemma tiles_floor n b t r : sane b -> fits n b -> (t, r) ∈ tiles n b true -> MIN_LEAF_COLS <= rw r /\ MIN_LEAF_ROWS <= rh r.
Proof.
  revert b. induction n as [p|d rt lft IHl rgt IHr]; intros b Hb Hf; simpl.
  - intros [= -> ->]%list_elem_of_singleton. destruct Hf as [H1 H2]. simpl in *. lia.
  - destruct (cut_spec d rt lft rgt b true Hb) as (S1 & S2 & _). destruct (fits_cut d rt lft rgt b Hb Hf) as (F1 & F2 & _).
    intros [H|H]%elem_of_app; [exact (IHl _ S1 F1 H)|exact (IHr _ S2 F2 H)].
Qed.
Lemma lines_inside n b path seg c : sane b -> fits n b -> seg ∈ lines n b path true -> on_line c seg -> in_rect c b.
Proof.
  revert b path. induction n as [p|d rt lft IHl rgt IHr]; intros b path Hb Hf; simpl; [by intros ?%not_elem_of_nil|].
  destruct (cut_spec d rt lft rgt b true Hb) as (S1 & S2 & W1 & W2). destruct (fits_cut d rt lft rgt b Hb Hf) as (F1 & F2 & Hax).
  pose proof (share_bounds d rt lft rgt b true Hb) as Hs. set (s := share _ _ _ _ _ _) in *. clearbody s.
  assert (Hmono : forall a, within a b -> in_rect c a -> in_rect c b) by (unfold within, in_rect; lia).
  rewrite !elem_of_app. intros [H|[H|H]] Hc; [|exact (Hmono _ W1 (IHl _ _ S1 F1 H Hc))|exact (Hmono _ W2 (IHr _ _ S2 F2 H Hc))].
  destruct Hf as [Hfw Hfh]. pose proof (min_dims_nonneg (LayoutNode_Split d rt lft rgt)). unfold own_line in H.
  destruct b as [x y w h], d; simpl in *; unfold sane in Hb; simpl in Hb; rewrite saturating_sub_spec in Hs by lia.
  - destruct (Z.leb_spec 1 w); [|lia]. apply list_elem_of_singleton in H as ->. unfold on_line in Hc. simpl in Hc.
    rewrite saturating_sub_spec in Hc by lia. unfold in_rect. simpl. lia.
  - destruct (Z.leb_spec 1 h); [|lia]. apply list_elem_of_singleton in H as ->. unfold on_line in Hc. simpl in Hc.
    rewrite saturating_sub_spec in Hc by lia. unfold in_rect. simpl. lia.
Qed.

(** ** What is painted is what can be grabbed *)

Lemma elem_of_span lo hi z : z ∈ span lo hi <-> lo <= z <= hi.
Proof. unfold span. rewrite elem_of_seqZ. lia. Qed.
(** On the screen, a line's cells are its cells. *)
Lemma elem_of_segment_cells viewport seg c : 0 <= c.1 < viewport.1 -> 0 <= c.2 < viewport.2 -> c ∈ segment_cells viewport seg <-> on_line c seg.
Proof.
  destruct viewport as [vc vr], c as [x y]. simpl. intros Hx Hy. unfold segment_cells, on_line. destruct (seg_split seg); simpl.
  - destruct (Z.ltb_spec (seg_cross seg) vc).
    + rewrite list_elem_of_fmap. setoid_rewrite elem_of_span. rewrite saturating_sub_spec by lia. split; [intros (y' & [= -> ->] & ?); lia|].
      intros [-> ?]. exists y. split; [done|lia].
    + split; [by intros ?%not_elem_of_nil|]. lia.
  - destruct (Z.ltb_spec (seg_cross seg) vr).
    + rewrite list_elem_of_fmap. setoid_rewrite elem_of_span. rewrite saturating_sub_spec by lia. split; [intros (y' & [= -> ->] & ?); lia|].
      intros [-> ?]. exists x. split; [done|lia].
    + split; [by intros ?%not_elem_of_nil|]. lia.
Qed.
Lemma fold_insert_keys {A} (f : Grid -> A -> DividerEdges) (key : A -> Z * Z) (l : list A) (g : Grid) (c : Z * Z) :
  is_Some (fold_left (fun g a => <[key a := f g a]> g) l g !! c) <-> c ∈ map key l \/ is_Some (g !! c).
Proof.
  revert g. induction l as [|a l IH]; intros g; simpl.
  - split; [by right|]. intros [H|H]; [by apply not_elem_of_nil in H|done].
  - rewrite IH, elem_of_cons, lookup_insert_is_Some'. split; [intros [|[|]]|intros [[|]|]]; auto.
Qed.
Lemma lay_down_keys viewport g seg c : is_Some (lay_down_segment viewport g seg !! c) <-> c ∈ segment_cells viewport seg \/ is_Some (g !! c).
Proof.
  unfold lay_down_segment, segment_cells. destruct (seg_split seg); unfold lay_down_vertical_line, lay_down_horizontal_line; rewrite Z.ltb_antisym; destruct (_ <=? _); simpl;
    rewrite ?fold_insert_keys; try done; (split; [by right|]); intros [H|H]; [by apply not_elem_of_nil in H|done|by apply not_elem_of_nil in H|done].
Qed.
Lemma lay_all_keys viewport segs g c :
  is_Some (fold_left (lay_down_segment viewport) segs g !! c) <-> Exists (fun seg => c ∈ segment_cells viewport seg) segs \/ is_Some (g !! c).
Proof.
  revert g. induction segs as [|seg segs IH]; intros g; simpl; [rewrite Exists_nil; tauto|]. rewrite IH, Exists_cons, lay_down_keys. tauto.
Qed.
Lemma inherit_keys g c : is_Some (inherit_junction_edges g !! c) <-> is_Some (g !! c).
Proof.
  unfold inherit_junction_edges. generalize (map fst (map_to_list g)). intros l. revert g. induction l as [|[x y] l IH]; intros g; simpl; [done|].
  rewrite IH. destruct (g !! (x, y)) as [e|] eqn:E; [|done]. rewrite lookup_insert_is_Some'. split; [|by right]. by intros [<-|].
Qed.
Lemma divider_cells_keys g x y : (exists d, d ∈ into_divider_cells g /\ cell_x d = x /\ cell_y d = y) <-> is_Some (g !! (x, y)).
Proof.
  unfold into_divider_cells. split.
  - intros (d & Hd & <- & <-). apply list_elem_of_fmap in Hd as ([x' y'] & -> & Hin). simpl. rewrite merge_sort_Permutation in Hin.
    apply list_elem_of_fmap in Hin as ([c e] & -> & Hin%elem_of_map_to_list). simpl. by exists e.
  - intros [e He]. eexists. split; [apply list_elem_of_fmap; exists (x, y); split; [done|]|done]. rewrite merge_sort_Permutation.
    apply list_elem_of_fmap. exists ((x, y), e). split; [done|]. by apply elem_of_map_to_list.
Qed.
Lemma rasterize_cells segs viewport x y : 0 <= x < viewport.1 -> 0 <= y < viewport.2 ->
  (exists d, d ∈ rasterize segs viewport /\ cell_x d = x /\ cell_y d = y) <-> lined (x, y) segs.
Proof.
  intros Hx Hy. unfold rasterize. rewrite divider_cells_keys, inherit_keys, lay_all_keys, lookup_empty.
  assert (E : Exists (fun seg => (x, y) ∈ segment_cells viewport seg) segs <-> lined (x, y) segs).
  { unfold lined. rewrite !Exists_exists. split; intros (seg & Hin & H); exists seg; (split; [done|]); by apply elem_of_segment_cells in H || apply elem_of_segment_cells. }
  rewrite E. split; [|by left]. intros [H|[? H]]; done.
Qed.

(** ** The layout of a window *)

(** [content] lies on the screen. *)
Record on_screen (content : Rect) (viewport : Z * Z) : Prop := mkOnScreen {
  scr_x : 0 <= rx content; scr_y : 0 <= ry content; scr_w : 0 < rw content; scr_h : 0 < rh content;
  scr_cols : rx content + rw content <= viewport.1 <= u16_max; scr_rows : ry content + rh content <= viewport.2 <= u16_max
}.
Lemma on_screen_sane content viewport : on_screen content viewport -> sane content.
Proof. intros []. unfold sane. lia. Qed.
Definition divider_at (L : PaneLayout) (c : Z * Z) : Prop := exists d, d ∈ pl_dividers L /\ cell_x d = c.1 /\ cell_y d = c.2.
Lemma compute_layout_eq layout n content viewport : tree layout = Some n -> on_screen content viewport ->
  compute_layout_in layout content viewport =
    mkPaneLayout viewport (put_all (tiles n content true) ∅) (rasterize (lines n content [] true) viewport) (divider_hits (lines n content [] true) viewport).
Proof.
  intros Et []. unfold compute_layout_in. rewrite Et. destruct (Z.eqb_spec (rw content) 0); [lia|]. destruct (Z.eqb_spec (rh content) 0); [lia|].
  simpl. unfold walk_layout. by rewrite walk_eq.
Qed.
Lemma layout_rects layout n content viewport t r : tree layout = Some n -> NoDup (leaves n) -> on_screen content viewport ->
  pl_rects (compute_layout_in layout content viewport) !! t = Some r <-> (t, r) ∈ tiles n content true.
Proof.
  intros Et Hnd Hs. rewrite (compute_layout_eq _ n) by done. simpl. rewrite put_all_lookup by by rewrite tiles_leaves. rewrite lookup_empty. naive_solver.
Qed.
Lemma layout_divider layout n content viewport c : tree layout = Some n -> on_screen content viewport -> in_rect c content ->
  divider_at (compute_layout_in layout content viewport) c <-> lined c (lines n content [] true).
Proof.
  intros Et Hs Hc. rewrite (compute_layout_eq _ n) by done. unfold divider_at. simpl. destruct Hs, c as [x y]. unfold in_rect in Hc. simpl in *.
  apply rasterize_cells; lia.
Qed.
Lemma one_owner c ts : owners c ts = 1%nat -> exists t r, (t, r) ∈ ts /\ in_rect c r /\ forall t' r', (t', r') ∈ ts -> in_rect c r' -> t' = t.
Proof.
  unfold owners. destruct (filter _ ts) as [|[t r] [|]] eqn:E; try done. intros _.
  assert (Hin : forall t' r', (t', r') ∈ ts /\ in_rect c r' <-> (t', r') = (t, r)).
  { intros t' r'. pose proof (list_elem_of_filter (fun tr => in_rect c tr.2) ts (t', r')) as H. rewrite E in H. simpl in H.
    rewrite list_elem_of_singleton in H. tauto. }
  exists t, r. destruct (proj2 (Hin t r) eq_refl) as [H1 H2]. split_and!; [done..|]. intros t' r' H3 H4. by injection (proj1 (Hin t' r') (conj H3 H4)).
Qed.
Lemma no_owner c ts t r : owners c ts = 0%nat -> (t, r) ∈ ts -> ~ in_rect c r.
Proof.
  unfold owners. intros E Hin Hc. apply length_zero_iff_nil in E. assert (H : (t, r) ∈ filter (fun tr => in_rect c tr.2) ts) by by apply list_elem_of_filter.
  rewrite E in H. by apply not_elem_of_nil in H.
Qed.
Lemma layout_cover layout n content viewport c : tree layout = Some n -> NoDup (leaves n) -> on_screen content viewport -> in_rect c content ->
  let L := compute_layout_in layout content viewport in
  (exists t r, pl_rects L !! t = Some r /\ in_rect c r /\ within r content /\ ~ divider_at L c
     /\ forall t' r', pl_rects L !! t' = Some r' -> in_rect c r' -> t' = t)
  \/ (divider_at L c /\ forall t r, pl_rects L !! t = Some r -> ~ in_rect c r).
Proof.
  intros Et Hnd Hs Hc L. unfold L. pose proof (layout_divider layout n content viewport c Et Hs Hc) as Hd. pose proof (on_screen_sane _ _ Hs) as Hsane.
  destruct (exact_cover n content [] true c Hsane Hc) as [[Ho Hl]|[Ho Hl]]; [left|right].
  - apply one_owner in Ho as (t & r & Hin & Hr & Hu). exists t, r. rewrite (layout_rects _ n) by done. split_and!; [done|done| |by rewrite Hd|].
    + by destruct (tiles_inside n content true t r Hsane Hin).
    + intros t' r' H' H2. apply (Hu t' r'); [|done]. by apply (layout_rects layout n content viewport).
  - split; [by apply Hd|]. intros t r H. eapply no_owner; [done|]. by apply (layout_rects layout n content viewport).
Qed.

(** C18: The panes and dividers of a window tile it. For any tree of distinct panes and any part of the screen, however small, each
    pane has its rectangle inside it, and each cell of it belongs to exactly one pane and to no divider, or to a divider and to
    no pane: nothing is left unpainted and nothing is painted twice. *)
Theorem panes_tile_exactly layout n content viewport :
  tree layout = Some n -> NoDup (leaves n) -> on_screen content viewport ->
  let L := compute_layout_in layout content viewport in
  (forall t, is_Some (pl_rects L !! t) <-> t ∈ leaves n)
  /\ (forall t r, pl_rects L !! t = Some r -> within r content)
  /\ forall c, in_rect c content ->
       (exists t r, pl_rects L !! t = Some r /\ in_rect c r /\ ~ divider_at L c
          /\ forall t' r', pl_rects L !! t' = Some r' -> in_rect c r' -> t' = t)
       \/ (divider_at L c /\ forall t r, pl_rects L !! t = Some r -> ~ in_rect c r).
Proof.
  intros Et Hnd Hs L. pose proof (on_screen_sane _ _ Hs) as Hsane. split_and!.
  - intros t. unfold L. rewrite <- (tiles_leaves n content true). split.
    + intros [r Hr]. apply (layout_rects _ n) in Hr; [|done..]. apply list_elem_of_fmap. by exists (t, r).
    + intros ([t' r] & -> & Hin)%list_elem_of_fmap. exists r. by apply (layout_rects _ n).
  - intros t r Hr. apply (layout_rects _ n) in Hr; [|done..]. by destruct (tiles_inside n content true t r Hsane Hr).
  - intros c Hc. destruct (layout_cover layout n content viewport c Et Hnd Hs Hc) as [(t & r & H1 & H2 & _ & H4 & H5)|H]; [left; by exists t, r|by right].
Qed.
(** A pane is never squeezed below two columns by one row, and no divider leaves the window, as long as the tree's aggregate
    minimum fits: space a ratio would take from a pane at its floor is taken from its neighbour instead. *)
Theorem panes_keep_their_floor layout n content viewport :
  tree layout = Some n -> NoDup (leaves n) -> on_screen content viewport -> fits n content ->
  let L := compute_layout_in layout content viewport in
  (forall t r, pl_rects L !! t = Some r -> MIN_LEAF_COLS <= rw r /\ MIN_LEAF_ROWS <= rh r)
  /\ (forall d, d ∈ pl_dividers L -> in_rect (cell_x d, cell_y d) content).
Proof.
  intros Et Hnd Hs Hf L. pose proof (on_screen_sane _ _ Hs) as Hsane. split.
  - intros t r Hr. apply (layout_rects _ n) in Hr; [|done..]. by eapply tiles_floor.
  - intros d Hd. unfold L in Hd. rewrite (compute_layout_eq _ n) in Hd by done. simpl in Hd.
    assert (Hk : is_Some (inherit_junction_edges (fold_left (lay_down_segment viewport) (lines n content [] true) ∅) !! (cell_x d, cell_y d))).
    { apply divider_cells_keys. by exists d. }
    rewrite inherit_keys, lay_all_keys, lookup_empty in Hk. destruct Hk as [Hk|[? Hk]]; [|done]. apply Exists_exists in Hk as (seg & Hin & Hc).
    eapply lines_inside; [done|done|exact Hin|]. clear - Hc. unfold segment_cells, on_line in *. destruct (seg_split seg).
    + destruct (_ <? _); [|by apply not_elem_of_nil in Hc]. apply list_elem_of_fmap in Hc as (y & E & Hy%elem_of_span). injection E as -> ->. simpl. lia.
    + destruct (_ <? _); [|by apply not_elem_of_nil in Hc]. apply list_elem_of_fmap in Hc as (y & E & Hy%elem_of_span). injection E as -> ->. simpl. lia.
Qed.

(** ** Where a click goes *)

Fixpoint subtree (n : LayoutNode) (path : NodePath) {struct path} : option LayoutNode :=
  match path, n with
  | [], _ => Some n
  | Step_Left :: path, LayoutNode_Split _ _ lft _ => subtree lft path
  | Step_Right :: path, LayoutNode_Split _ _ _ rgt => subtree rgt path
  | _, LayoutNode_Leaf _ => None
  end.
(** The split at a path, with its axis. *)
Definition splits_at (n : LayoutNode) (path : NodePath) (d : SplitDir) : Prop := exists rt lft rgt, subtree n path = Some (LayoutNode_Split d rt lft rgt).
Lemma lines_address n b path f seg : seg ∈ lines n b path f -> exists q, seg_path seg = path ++ q /\ splits_at n q (seg_split seg).
Proof.
  revert b path. induction n as [p|d rt lft IHl rgt IHr]; intros b path; simpl; [by intros ?%not_elem_of_nil|]. rewrite !elem_of_app. intros [H|[H|H]].
  - exists []. rewrite app_nil_r. unfold own_line in H. destruct (_ <=? _); [|by apply not_elem_of_nil in H]. apply list_elem_of_singleton in H as ->.
    unfold splits_at. destruct d; simpl; (split; [done|]); by eexists _, _, _.
  - apply IHl in H as (q & E & rt' & l & r & Eq). exists (Step_Left :: q). rewrite E, <- app_assoc. split; [done|]. by exists rt', l, r.
  - apply IHr in H as (q & E & rt' & l & r & Eq). exists (Step_Right :: q). rewrite E, <- app_assoc. split; [done|]. by exists rt', l, r.
Qed.
(** The cell an event is taken to mean. *)
Definition mouse_cell (viewport : Z * Z) (mouse : MouseEvent) : Z * Z :=
  (Z.min (clamp_cell (mouse_x mouse)) (saturating_sub viewport.1 1), Z.min (clamp_cell (mouse_y mouse)) (saturating_sub viewport.2 1)).
Lemma clamp_cell_bounds bits : 0 <= clamp_cell bits <= u16_max.
Proof.
  unfold clamp_cell, u16_max. cbv zeta. destruct (_ && _); [lia|]. destruct (_ <=? bits); [lia|]. destruct (_ =? 2047); [lia|].
  destruct (_ <? 1023); [lia|]. destruct (_ <=? _) eqn:E; [lia|]. apply Z.leb_gt in E.
  assert (0 <= (bits mod 2 ^ 52 + 2 ^ 52) / 2 ^ (1075 - (bits / 2 ^ 52) mod 2048)); [|lia].
  apply Z.div_pos; [|apply Z.pow_pos_nonneg; lia]. pose proof (Z.mod_pos_bound bits (2 ^ 52) ltac:(lia)). lia.
Qed.
Lemma rect_contains_spec r content viewport c : on_screen content viewport -> within r content -> sane r ->
  rect_contains r c.1 c.2 = bool_decide (in_rect c r).
Proof.
  intros [] Hw Hr. unfold rect_contains, saturating_add16, in_rect, within, sane, u16_max in *. apply eq_true_iff_eq.
  rewrite bool_decide_eq_true, !andb_true_iff, !Z.leb_le, !Z.ltb_lt. lia.
Qed.

Lemma mouse_cell_bounds content viewport mouse : on_screen content viewport ->
  0 <= (mouse_cell viewport mouse).1 < viewport.1 /\ 0 <= (mouse_cell viewport mouse).2 < viewport.2.
Proof.
  intros []. pose proof (clamp_cell_bounds (mouse_x mouse)). pose proof (clamp_cell_bounds (mouse_y mouse)). unfold mouse_cell. simpl.
  rewrite !saturating_sub_spec by lia. lia.
Qed.
Lemma set_ratio_splits n path d ratio : splits_at n path d -> is_Some (set_ratio_at n path ratio).
Proof.
  unfold set_ratio_at. intros (rt & l & r & H). revert n H. induction path as [|step path IH]; intros n H.
  - injection H as ->. by eexists.
  - destruct n as [p|d' rt' lft rgt]; [by destruct step|]. destruct step; simpl in *; destruct (IH _ H) as [n' ->]; by eexists.
Qed.
Lemma subtree_set_ratio n path d ratio n' : splits_at n path d -> set_ratio_at n path ratio = Some n' ->
  exists lft rgt, subtree n' path = Some (LayoutNode_Split d ratio lft rgt)
    /\ (exists rt, subtree n path = Some (LayoutNode_Split d rt lft rgt)) /\ min_dims n' = min_dims n /\ leaves n' = leaves n.
Proof.
  unfold set_ratio_at. intros (rt & l & r & H). assert (Hl : forall n out, collect_leaves n out = out ++ leaves n).
  { clear. intros n. unfold leaves. induction n as [p|d r lft IHl rgt IHr]; intros out; simpl; [done|]. rewrite IHl, IHr, (IHr (collect_leaves lft [])). by rewrite IHl, <- !app_assoc. }
  revert n n' H. induction path as [|step path IH]; intros n n' H.
  - injection H as ->. intros [= <-]. exists l, r. split_and!; [done|by exists rt|done|done].
  - destruct n as [p|d' rt' lft rgt]; [by destruct step|]. destruct step; simpl in *; (destruct (set_ratio_inner _ path ratio) as [m|] eqn:E; [|done]);
      intros [= <-]; destruct (IH _ _ H E) as (l' & r' & H1 & H2 & H3 & H4); exists l', r'; simpl; rewrite H3; (split_and!; [done|done|done|]);
      unfold leaves; simpl; rewrite ?Hl; by rewrite ?H4.
Qed.
Lemma set_ratio_min_dims n path ratio n' : set_ratio_inner n path ratio = Some n' -> min_dims n' = min_dims n.
Proof.
  revert path n'. induction n as [p|d rt l IHl r IHr]; intros path n'; [by destruct path|]. destruct path as [|[] path]; simpl.
  - by intros [= <-].
  - destruct (set_ratio_inner l path ratio) as [m|] eqn:E; [|done]. intros [= <-]. simpl. by rewrite (IHl _ _ E).
  - destruct (set_ratio_inner r path ratio) as [m|] eqn:E; [|done]. intros [= <-]. simpl. by rewrite (IHr _ _ E).
Qed.
Lemma tiles_nonempty n b f : tiles n b f <> [].
Proof. revert b. induction n as [p|d r lft IHl rgt IHr]; intros b; simpl; [done|]. intros [H _]%app_nil. by apply IHl in H. Qed.
Lemma layout_rects_nonempty layout n content viewport : tree layout = Some n -> NoDup (leaves n) -> on_screen content viewport ->
  pl_rects (compute_layout_in layout content viewport) <> ∅.
Proof.
  intros Et Hnd Hs E. destruct (tiles n content true) as [|[t r] ts] eqn:Ets; [by apply tiles_nonempty in Ets|].
  assert (H : pl_rects (compute_layout_in layout content viewport) !! t = Some r) by (apply (layout_rects _ n); [done..|rewrite Ets; by left]).
  rewrite E, lookup_empty in H. done.
Qed.
(** The pane under a cell of the screen, and the line. *)
Lemma find_pane layout n content viewport c : tree layout = Some n -> NoDup (leaves n) -> on_screen content viewport ->
  let L := compute_layout_in layout content viewport in
  match List.find (fun '(_, rect) => rect_contains rect c.1 c.2) (map_to_list (pl_rects L)) with
  | Some (t, r) => pl_rects L !! t = Some r /\ in_rect c r
  | None => forall t r, pl_rects L !! t = Some r -> ~ in_rect c r
  end.
Proof.
  intros Et Hnd Hs L. assert (Hok : forall t r, pl_rects L !! t = Some r -> rect_contains r c.1 c.2 = bool_decide (in_rect c r)).
  { intros t r Hr. apply (layout_rects _ n) in Hr; [|done..]. destruct (tiles_inside n content true t r (on_screen_sane _ _ Hs) Hr).
    by apply (rect_contains_spec r content viewport). }
  destruct (List.find _ _) as [[t r]|] eqn:E.
  - apply find_some in E as [Hin Hc]. apply list_elem_of_In, elem_of_map_to_list in Hin. split; [done|]. rewrite (Hok _ _ Hin) in Hc. by apply bool_decide_eq_true in Hc.
  - intros t r Hr Hc. pose proof (find_none _ _ E (t, r)) as H. simpl in H. rewrite (Hok _ _ Hr), bool_decide_eq_true_2 in H by done.
    discriminate H. by apply list_elem_of_In, elem_of_map_to_list.
Qed.
Lemma find_line layout n content viewport c : tree layout = Some n -> on_screen content viewport -> 0 <= c.1 < viewport.1 -> 0 <= c.2 < viewport.2 ->
  match List.find (fun h => bool_decide (c ∈ hit_cells h)) (pl_hits (compute_layout_in layout content viewport)) with
  | Some h => lined c (lines n content [] true) /\ splits_at n (hit_path h) (hit_axis h)
  | None => ~ lined c (lines n content [] true)
  end.
Proof.
  intros Et Hs Hx Hy. rewrite (compute_layout_eq _ n) by done. simpl. destruct (List.find _ _) as [h|] eqn:E.
  - apply find_some in E as [Hin Hc%bool_decide_eq_true]. apply list_elem_of_In, list_elem_of_fmap in Hin as (seg & -> & Hin). simpl in *.
    apply elem_of_segment_cells in Hc; [|done..]. split; [apply Exists_exists; by exists seg|]. by apply lines_address in Hin as (q & -> & Hq).
  - intros (seg & Hin & Ho)%Exists_exists. pose proof (find_none _ _ E (mkHit (seg_path seg) (seg_split seg) (segment_cells viewport seg))) as H.
    simpl in H. rewrite bool_decide_eq_true_2 in H by by apply elem_of_segment_cells. discriminate H.
    apply list_elem_of_In, list_elem_of_fmap. by exists seg.
Qed.

(** C24: A click goes where it points. A click on a cell of the window reaches the pane painted there, in the pane's own coordinates,
    and says whether the focus moves; on a divider it names a split of the tree, of that axis, that can be dragged. It never
    misses; and where the window has room for its panes, a click outside it always does. *)
Theorem clicks_land layout n content viewport mouse :
  tree layout = Some n -> NoDup (leaves n) -> on_screen content viewport ->
  let L := compute_layout_in layout content viewport in
  let c := mouse_cell viewport mouse in
  (in_rect c content ->
     match route_mouse_event layout content viewport mouse with
     | Route_Pane t px py changed =>
         exists r, pl_rects L !! t = Some r /\ in_rect c r /\ px = f64_from (c.1 - rx r) /\ py = f64_from (c.2 - ry r)
           /\ (changed = true <-> focus layout <> Some t)
     | Route_Divider path axis => divider_at L c /\ splits_at n path axis /\ forall ratio, is_Some (set_ratio_at n path ratio)
     | Route_Miss | Route_NoFocus => False
     end)
  /\ (~ in_rect c content -> fits n content -> route_mouse_event layout content viewport mouse = Route_Miss).
Proof.
  intros Et Hnd Hs L c. pose proof (mouse_cell_bounds content viewport mouse Hs) as [Hx Hy]. fold c in Hx, Hy.
  unfold route_mouse_event. rewrite Et, bool_decide_eq_false_2 by by apply (layout_rects_nonempty _ n). cbv zeta. fold L.
  change (Z.min (clamp_cell (mouse_x mouse)) (saturating_sub viewport.1 1)) with c.1. change (Z.min (clamp_cell (mouse_y mouse)) (saturating_sub viewport.2 1)) with c.2.
  pose proof (find_pane layout n content viewport c Et Hnd Hs) as Hp. cbv zeta in Hp. fold L in Hp.
  pose proof (find_line layout n content viewport c Et Hs Hx Hy) as Hl. fold L in Hl. change (c.1, c.2) with c.
  replace (c.1, c.2) with c by by destruct c.
  destruct (List.find _ (map_to_list (pl_rects L))) as [[t r]|].
  { split.
    - intros _. exists r. destruct Hp as [H1 H2]. split_and!; [done..|]. rewrite negb_true_iff, bool_decide_eq_false. done.
    - intros Hc _. destruct Hp as [H1 H2]. apply (layout_rects _ n) in H1; [|done..]. destruct (tiles_inside n content true t r (on_screen_sane _ _ Hs) H1) as [_ Hw].
      exfalso. apply Hc. unfold within, in_rect in *. lia. }
  destruct (List.find _ (pl_hits L)) as [h|].
  - destruct Hl as [Hl Ha]. split.
    + intros Hc. split_and!; [by apply (layout_divider layout n)|done|]. intros ratio. by eapply set_ratio_splits.
    + intros Hc Hf. exfalso. apply Hc. apply Exists_exists in Hl as (seg & Hin & Ho). eapply lines_inside; [by eapply on_screen_sane|done|done|done].
  - split; [|done]. intros Hc. destruct (layout_cover layout n content viewport c Et Hnd Hs Hc) as [(t & r & H1 & H2 & _)|[H _]]; [by eapply Hp|].
    apply Hl. by apply (layout_divider layout n content viewport).
Qed.

(** ** Small windows *)

Definition small_window : LayoutState := mkLayout (Some three_panes) (Some (pane_n 1)).
Definition small_content : Rect := mkRect 0 0 11 5.
Lemma small_on_screen : on_screen small_content (11, 6).
Proof. constructor; vm_compute; repeat split; discriminate. Qed.
Lemma small_nodup : NoDup (leaves three_panes).
Proof. apply (bool_decide_unpack _). vm_compute. exact I. Qed.
Lemma small_fits : fits three_panes small_content.
Proof. vm_compute. repeat split; discriminate. Qed.
Lemma panes_tile_exactly_witness :
  let L := compute_layout_in small_window small_content (11, 6) in
  (is_Some (pl_rects L !! pane_n 3) <-> pane_n 3 ∈ leaves three_panes)
  /\ exists t r, pl_rects L !! t = Some r /\ in_rect (3, 1) r /\ ~ divider_at L (3, 1).
Proof.
  intros L. destruct (panes_tile_exactly small_window three_panes small_content (11, 6) eq_refl small_nodup small_on_screen) as (H1 & _ & H3).
  split; [exact (H1 (pane_n 3))|]. destruct (H3 (3, 1)) as [(t & r & E1 & E2 & E3 & _)|[_ H]].
  - split; vm_compute; split; (discriminate || reflexivity).
  - exists t, r. split; [exact E1|split; [exact E2|exact E3]].
  - exfalso. apply (H (pane_n 1) (mkRect 0 0 5 5)); [vm_compute; reflexivity|]. split; vm_compute; split; (discriminate || reflexivity).
Defined.
(** A ratio of a thousandth, ten columns wide. *)
Definition narrow : LayoutNode := LayoutNode_Split SplitDir_Horizontal 0x3a83126f (LayoutNode_Leaf (pane_n 1)) (LayoutNode_Leaf (pane_n 2)).
Lemma narrow_nodup : NoDup (leaves narrow).
Proof. apply (bool_decide_unpack _). vm_compute. exact I. Qed.
Lemma narrow_on_screen : on_screen (mkRect 0 0 10 4) (10, 4).
Proof. constructor; vm_compute; repeat split; discriminate. Qed.
Lemma narrow_fits : fits narrow (mkRect 0 0 10 4).
Proof. vm_compute. repeat split; discriminate. Qed.
Lemma panes_keep_their_floor_witness :
  let L := compute_layout_in (mkLayout (Some narrow) None) (mkRect 0 0 10 4) (10, 4) in
  pl_rects L !! pane_n 1 = Some (mkRect 0 0 2 4) /\ forall r, pl_rects L !! pane_n 1 = Some r -> MIN_LEAF_COLS <= rw r.
Proof.
  split; [vm_compute; reflexivity|]. intros r Hr.
  destruct (panes_keep_their_floor (mkLayout (Some narrow) None) narrow (mkRect 0 0 10 4) (10, 4) eq_refl narrow_nodup narrow_on_screen narrow_fits) as [H _].
  exact (proj1 (H (pane_n 1) r Hr)).
Defined.
(** A click at column 8, row 4: the third pane, and the focus moves there. *)
Definition small_click : MouseEvent := mkMouseEvent MouseAction_Press MouseButton_Left 0 (f64_from 8) (f64_from 4).
Lemma clicks_land_witness :
  route_mouse_event small_window small_content (11, 6) small_click = Route_Pane (pane_n 3) (f64_from 2) (f64_from 1) true
  /\ in_rect (mouse_cell (11, 6) small_click) (mkRect 6 3 5 2).
Proof.
  assert (E : route_mouse_event small_window small_content (11, 6) small_click = Route_Pane (pane_n 3) (f64_from 2) (f64_from 1) true) by (vm_compute; reflexivity).
  split; [exact E|]. destruct (clicks_land small_window three_panes small_content (11, 6) small_click eq_refl small_nodup small_on_screen) as [H _].
  assert (Ec : mouse_cell (11, 6) small_click = (8, 4)) by (vm_compute; reflexivity). rewrite E in H. rewrite Ec in H |- *.
  assert (Hc : in_rect (8, 4) small_content) by (unfold in_rect, small_content; simpl; lia). destruct (H Hc) as (r & Hr & Hin & _).
  assert (Er : r = mkRect 6 3 5 2) by (vm_compute in Hr; injection Hr as <-; reflexivity). rewrite <- Er. exact Hin.
Defined.
