(* ===== verification/PaneActions.v ===== *)
(** * What a keystroke or a drag does to a window ([phux-tui/src/attach/])

    The pure actions on a window's layout ([actions.rs]), the reflow after them ([reflow.rs]), the room the
    chrome leaves the panes ([paint.rs]) and the focus history ([focus.rs]). *)

From stdpp Require Import gmap list.
From S2P Require Import Prelude Ids IdBridge Info Codec Float32 ClientLayout Tiling.

(** ** The room for panes *)

(* phux-tui/src/render/chrome/status_bar.rs Position *)
Inductive Position : Type := Position_Bottom | Position_Top.
(* phux-tui/src/attach/paint.rs SidebarEdge *)
Inductive SidebarEdge : Type := Edge_Left | Edge_Right.
(* phux-tui/src/attach/paint.rs SidebarReservation *)
Record SidebarReservation : Type := mkReservation { res_edge : SidebarEdge; res_width : Z }.
(* phux-tui/src/attach/paint.rs ContentLayout *)
Record ContentLayout : Type := mkContent { con_rect : Rect; con_rail : option Z }.
(* phux-tui/src/attach/paint.rs sidebar_reservation *)
Definition sidebar_reservation (outer_cols : Z) (enabled : bool) (width : Z) (edge : SidebarEdge) (min_pane_cols : Z) : option SidebarReservation :=
  let width :=
    if width =? 0 then
      let preferred := outer_cols / 4 in
      if preferred <? 28 then 28 else if 40 <? preferred then 40 else preferred
    else width in
  if enabled && (width <=? outer_cols) && (min_pane_cols <=? outer_cols - width) then Some (mkReservation edge width) else None.
(* phux-tui/src/attach/paint.rs content_layout *)
Definition content_layout (outer : Z * Z) (bar : option Position) (sidebar : option SidebarReservation) : ContentLayout :=
  let '(cols, rows) := outer in
  let h := match bar with Some _ => saturating_sub rows 1 | None => rows end in
  let y := match bar with Some Position_Top => 1 | Some Position_Bottom | None => 0 end in
  let '(y, h, rail) := if 2 <=? h then (y + 1, h - 1, Some y) else (y, h, None) in
  let rect :=
    match sidebar with
    | None => mkRect 0 y cols h
    | Some res =>
        let width := Z.min (res_width res) cols in
        mkRect (match res_edge res with Edge_Left => width | Edge_Right => 0 end) y (cols - width) h
    end in
  mkContent rect rail.
(* phux-tui/src/attach/paint.rs content_rect *)
Definition content_rect (outer : Z * Z) (bar : option Position) (sidebar : option SidebarReservation) : Rect :=
  con_rect (content_layout outer bar sidebar).
(* phux-tui/src/attach/paint.rs sidebar_rect *)
Definition sidebar_rect (outer : Z * Z) (res : SidebarReservation) : Rect :=
  let width := if res_width res <? outer.1 then res_width res else outer.1 in
  mkRect (match res_edge res with Edge_Left => 0 | Edge_Right => outer.1 - width end) 0 width outer.2.
(** Columns the bar leaves free on the left and on the right. *)
(* phux-tui/src/attach/paint.rs bar_inset *)
Definition bar_inset (outer : Z * Z) (sidebar : option SidebarReservation) : Z * Z :=
  match sidebar with
  | None => (0, 0)
  | Some res => let width := Z.min (res_width res) outer.1 in match res_edge res with Edge_Left => (width, 0) | Edge_Right => (0, width) end
  end.

(** ** Splitting, killing, moving the focus *)

(* phux-tui/src/attach/actions.rs ActionError *)
Inductive ActionError : Type := NoFocus | EmptyTree | Action_Layout (e : LayoutError) | NoResizableBoundary.
Definition layout_err {A} (r : result LayoutError A) : result ActionError A := match r with Ok a => Ok a | Err e => Err (Action_Layout e) end.
(* phux-tui/src/attach/actions.rs apply_split *)
Definition apply_split (state : LayoutState) (new_pane : ResourceId) (dir : SplitDir) : result ActionError LayoutState :=
  n ← ok_or EmptyTree (tree state);
  focused ← ok_or NoFocus (focus state);
  new_tree ← layout_err (split_at n focused new_pane dir half);
  Ok (mkLayout (Some new_tree) (Some new_pane)).
(* phux-tui/src/attach/actions.rs apply_kill *)
Definition apply_kill (state : LayoutState) : result ActionError LayoutState :=
  n ← ok_or EmptyTree (tree state);
  focused ← ok_or NoFocus (focus state);
  new_tree ← layout_err (kill_pane n focused);
  Ok match new_tree with None => mkLayout None None | Some n => mkLayout (Some n) (head (leaves n)) end.
(* phux-tui/src/attach/actions.rs apply_focus *)
Definition apply_focus (state : LayoutState) (dir : Direction) : option LayoutState :=
  n ← tree state; current ← focus state; next ← focus_direction n current dir; Some (mkLayout (tree state) (Some next)).
Fixpoint position_of (t : ResourceId) (ts : list ResourceId) (i : Z) : option Z :=
  match ts with [] => None | x :: ts => if bool_decide (x = t) then Some i else position_of t ts (i + 1) end.
(* phux-tui/src/attach/actions.rs cycle *)
Definition cycle (state : LayoutState) (step : Z) : option LayoutState :=
  n ← tree state; current ← focus state;
  let ls := leaves n in
  if len ls <? 2 then None
  else idx ← position_of current ls 0; next ← ls !! Z.to_nat ((idx + step) mod len ls); Some (mkLayout (tree state) (Some next)).
(* phux-tui/src/attach/actions.rs apply_next_pane *)
Definition apply_next_pane (state : LayoutState) : option LayoutState := cycle state 1.
(* phux-tui/src/attach/actions.rs apply_previous_pane *)
Definition apply_previous_pane (state : LayoutState) : option LayoutState := cycle state (-1).

(** ** Resizing *)

(* phux-tui/src/attach/actions.rs MIN_PANE_CELL *)
Definition MIN_PANE_CELL : Z := 2.
(** [0.001]. *)
Definition EPS : Z := 0x3a83126f.
(* phux-tui/src/attach/actions.rs clamp_ratio *)
Definition clamp_ratio (r : Z) : Z := f32_clamp r EPS (f32_sub (f32_from 1) EPS).
(* phux-tui/src/attach/actions.rs tree_contains *)
Fixpoint tree_contains (n : LayoutNode) (target : ResourceId) : bool :=
  match n with
  | LayoutNode_Leaf p => bool_decide (p = target)
  | LayoutNode_Split _ _ lft rgt => tree_contains lft target || tree_contains rgt target
  end.
(* phux-tui/src/attach/actions.rs resize_along_axis *)
Fixpoint resize_along_axis (n : LayoutNode) (focused : ResourceId) (axis : SplitDir) (dir : Direction) (delta : Z) : LayoutNode * bool :=
  match n with
  | LayoutNode_Leaf p => (LayoutNode_Leaf p, false)
  | LayoutNode_Split sd ratio lft rgt =>
      let left_has := tree_contains lft focused in
      let right_has := tree_contains rgt focused in
      if bool_decide (sd = axis) && (left_has || right_has) then
        let signed_delta :=
          match dir, left_has with
          | (Direction_Right | Direction_Down), true | (Direction_Left | Direction_Up), false => delta
          | _, _ => f32_neg delta
          end in
        (LayoutNode_Split sd (clamp_ratio (f32_add ratio signed_delta)) lft rgt, true)
      else if left_has then
        let '(new_left, applied) := resize_along_axis lft focused axis dir delta in (LayoutNode_Split sd ratio new_left rgt, applied)
      else if right_has then
        let '(new_right, applied) := resize_along_axis rgt focused axis dir delta in (LayoutNode_Split sd ratio lft new_right, applied)
      else (n, false)
  end.
(* phux-tui/src/attach/actions.rs violates_min_cell *)
Definition violates_min_cell (state : LayoutState) (viewport : Z * Z) (sidebar : option SidebarReservation) : bool :=
  match tree state with
  | None => false
  | Some n =>
      existsb (fun '(_, r) => (rw r <? MIN_PANE_CELL) || (rh r <? MIN_PANE_CELL))
        (map_to_list (pane_rects_proportional_in n (content_rect viewport None sidebar)))
  end.
Definition axis_of (dir : Direction) : SplitDir :=
  match dir with Direction_Left | Direction_Right => SplitDir_Horizontal | Direction_Up | Direction_Down => SplitDir_Vertical end.
(** [Ok None]: the floor forbids it. *)
(* phux-tui/src/attach/actions.rs apply_resize *)
Definition apply_resize (state : LayoutState) (dir : Direction) (amount : Z) (viewport : Z * Z) (sidebar : option SidebarReservation)
    : result ActionError (option LayoutState) :=
  n ← ok_or EmptyTree (tree state);
  focused ← ok_or NoFocus (focus state);
  if amount =? 0 then Ok (Some state)
  else
    let target_axis := axis_of dir in
    let total_cells := match target_axis with SplitDir_Horizontal => viewport.1 | SplitDir_Vertical => viewport.2 end in
    if total_cells =? 0 then Err NoResizableBoundary
    else
      let delta := f32_div (f32_from amount) (f32_from total_cells) in
      let '(new_tree, applied) := resize_along_axis n focused target_axis dir delta in
      if negb applied then Err NoResizableBoundary
      else
        let candidate := mkLayout (Some new_tree) (Some focused) in
        if violates_min_cell candidate viewport sidebar then Ok None else Ok (Some candidate).
(* phux-tui/src/attach/actions.rs apply_divider_resize *)
Definition apply_divider_resize (state : LayoutState) (node_path : NodePath) (axis : SplitDir) (pointer viewport : Z * Z)
    (bar : option Position) (sidebar : option SidebarReservation) : result ActionError (option LayoutState) :=
  n ← ok_or EmptyTree (tree state);
  let content := content_rect viewport bar sidebar in
  '(start, content_len) ← ok_or NoResizableBoundary (split_content_span_at n content node_path);
  let p := match axis with SplitDir_Horizontal => pointer.1 | SplitDir_Vertical => pointer.2 end in
  let low := Z.min (saturating_sub p start) content_len in
  let ratio := clamp_ratio (f32_div (f32_from low) (f32_from content_len)) in
  new_tree ← ok_or NoResizableBoundary (set_ratio_at n node_path ratio);
  let candidate := mkLayout (Some new_tree) (focus state) in
  if violates_min_cell candidate viewport sidebar then Ok None else Ok (Some candidate).

(** ** A split that waits for its pane *)

(* phux-tui/src/attach/actions.rs SpawnedPane *)
Record SpawnedPane : Type := mkSpawned { sp_id : ResourceId; sp_instance : option bytes }.
(* phux-tui/src/attach/actions.rs SplitHost *)
Inductive SplitHost : Type := SplitHost_Attached | SplitHost_Satellite (host : bytes) | SplitHost_AttachedInsteadOf (host : bytes).
(* phux-tui/src/attach/actions.rs PendingSplit *)
Record PendingSplit : Type := mkPendingSplit {
  focused_at_request : ResourceId; split_dir : SplitDir; zoom_on_spawn : bool; split_host : SplitHost; split_adopt : option SpawnedPane
}.
(* phux-tui/src/attach/actions.rs Adopt *)
Inductive Adopt : Type := Adopt_Existing (t : ResourceId) | Adopt_Spawned (p : SpawnedPane).
(* phux-tui/src/attach/actions.rs Adopt::pane *)
Definition adopt_pane (a : Adopt) : ResourceId := match a with Adopt_Existing t => t | Adopt_Spawned p => sp_id p end.
(* phux-tui/src/attach/actions.rs PendingWindow *)
Record PendingWindow : Type := mkPendingWindow { pw_name : bytes; pw_adopt : option Adopt }.
(* phux-tui/src/attach/actions.rs PendingWindow::spawned_pane *)
Definition window_spawned_pane (w : PendingWindow) : option SpawnedPane := match pw_adopt w with Some (Adopt_Spawned p) => Some p | _ => None end.
(* phux-tui/src/attach/actions.rs ParkedAdopt *)
Inductive ParkedAdopt : Type := Parked_Window (w : PendingWindow) | Parked_Split (s : PendingSplit).
(* phux-tui/src/attach/actions.rs ParkedAdopt::pane *)
Definition parked_pane (p : ParkedAdopt) : option ResourceId :=
  match p with Parked_Window w => adopt_pane <$> pw_adopt w | Parked_Split s => sp_id <$> split_adopt s end.
(* phux-tui/src/attach/actions.rs ParkedAdopt::spawned_pane *)
Definition parked_spawned_pane (p : ParkedAdopt) : option SpawnedPane :=
  match p with Parked_Window w => window_spawned_pane w | Parked_Split s => split_adopt s end.

Definition state_leaves (state : LayoutState) : list ResourceId := match tree state with Some n => leaves n | None => [] end.
(* phux-tui/src/attach/actions.rs apply_spawned_ok *)
Definition apply_spawned_ok (state : LayoutState) (new_id : ResourceId) (pending : PendingSplit) : result ActionError LayoutState :=
  anchor ← (if bool_decide (focused_at_request pending ∈ state_leaves state) then Ok (focused_at_request pending) else ok_or NoFocus (focus state));
  apply_split (mkLayout (tree state) (Some anchor)) new_id (split_dir pending).
(** The loop of [unused_leaf_id]; [None] when [fuel] candidates were all taken. *)
(* phux-tui/src/attach/actions.rs:728-735 unused_leaf_id *)
Fixpoint unused_loop (fuel : nat) (ls : list ResourceId) (candidate : Z) : option ResourceId :=
  match fuel with
  | O => None
  | S fuel =>
      let id := ResourceId_Local candidate in
      if negb (bool_decide (id ∈ ls)) then Some id else unused_loop fuel ls ((candidate - 1) mod 2 ^ 32)
  end.
(** One candidate more than there are leaves. *)
(* phux-tui/src/attach/actions.rs unused_leaf_id *)
Definition unused_leaf_id (state : LayoutState) : option ResourceId := unused_loop (S (length (state_leaves state))) (state_leaves state) u32_max.
(* phux-tui/src/attach/actions.rs predicted_spawn_dims *)
Definition predicted_spawn_dims (state : LayoutState) (pending : PendingSplit) (content : Rect) : option (Z * Z) :=
  if zoom_on_spawn pending then Some (rw content, rh content)
  else
    placeholder ← unused_leaf_id state;
    next ← match apply_spawned_ok state placeholder pending with Ok next => Some next | Err _ => None end;
    n ← tree next;
    rect ← pane_rects_in n content !! placeholder;
    Some (rw rect, rh rect).
(* phux-tui/src/attach/actions.rs apply_terminal_closed *)
Definition apply_terminal_closed (state : LayoutState) (dying : ResourceId) : result ActionError LayoutState :=
  apply_kill (mkLayout (tree state) (Some dying)).

(** ** Reflow *)

(* phux-tui/src/attach/reflow.rs ReflowDiff *)
Record ReflowDiff : Type := mkReflow { new_rects : Rects; changed : list (ResourceId * Rect); too_small : bool }.
Definition same_size (prev : option Rect) (r : Rect) : bool :=
  match prev with Some p => (rw p =? rw r) && (rh p =? rh r) | None => false end.
(* phux-tui/src/attach/reflow.rs compute_reflow *)
Definition compute_reflow (layout : LayoutState) (prev_rects : Rects) (content : Rect) : ReflowDiff :=
  match tree layout with
  | None => mkReflow ∅ [] false
  | Some n =>
      let rects := pane_rects_in n content in
      mkReflow rects (List.filter (fun '(id, r) => negb (same_size (prev_rects !! id) r)) (map_to_list rects))
        (existsb (fun '(_, r) => (rw r <? 2) || (rh r <? 1)) (map_to_list rects))
  end.

(** ** Focus history *)

(** The pane focused before this one. *)
(* phux-tui/src/attach/focus.rs FocusHistory *)
Record FocusHistory : Type := mkHistory { previous : option ResourceId }.
(* phux-tui/src/attach/focus.rs FocusHistory::transition *)
Definition transition (h : FocusHistory) (current next : option ResourceId) : FocusHistory * option ResourceId :=
  if bool_decide (current = next) then (h, current) else (mkHistory current, next).
(* phux-tui/src/attach/focus.rs FocusHistory::observe *)
Definition observe (h : FocusHistory) (before after : option ResourceId) : FocusHistory := if bool_decide (before = after) then h else mkHistory before.
(* phux-tui/src/attach/focus.rs FocusHistory::repair *)
Definition repair (h : FocusHistory) (current : option ResourceId) (ws : Workspace) : FocusHistory :=
  let valid :=
    match previous h with
    | Some p => negb (bool_decide (Some p = current)) && existsb (fun w => bool_decide (p ∈ window_leaves w)) (windows ws)
    | None => false
    end in
  if valid then h else mkHistory None.
(* phux-tui/src/attach/focus.rs FocusHistory::target *)
Definition target (h : FocusHistory) (current : option ResourceId) (ws : Workspace) : FocusHistory * option ResourceId :=
  let h := repair h current ws in (h, previous h).

(** ** What a resize picks *)

(** The panes 1 | 2 | 3, the outer split on the right of 2. *)
Definition nested : LayoutNode :=
  LayoutNode_Split SplitDir_Horizontal half (LayoutNode_Split SplitDir_Horizontal half (LayoutNode_Leaf (pane_n 1)) (LayoutNode_Leaf (pane_n 2))) (LayoutNode_Leaf (pane_n 3)).
(** The split that moves is the outermost of the axis, not the nearest to the focused pane. *)
Example resize_moves_the_outermost :
  match apply_resize (mkLayout (Some nested) (Some (pane_n 1))) Direction_Right 8 (80, 24) None with
  | Ok (Some (mkLayout (Some (LayoutNode_Split _ r (LayoutNode_Split _ r' _ _) _)) _)) => bool_decide (r <> half) && bool_decide (r' = half)
  | _ => false
  end = true.
Proof. vm_compute. reflexivity. Qed.
(** To the left and up, a positive amount shrinks the focused pane, on whichever side of the split it is. *)
Example resize_left_shrinks :
  let two := LayoutNode_Split SplitDir_Horizontal half (LayoutNode_Leaf (pane_n 1)) (LayoutNode_Leaf (pane_n 2)) in
  let width f := match apply_resize (mkLayout (Some two) (Some f)) Direction_Left 8 (81, 24) None with
                 | Ok (Some (mkLayout (Some n) _)) => rw <$> pane_rects n (81, 24) !! f | _ => None end in
  rw <$> pane_rects two (81, 24) !! pane_n 1 = Some 40 /\ width (pane_n 1) = Some 32 /\ width (pane_n 2) = Some 32.
Proof. vm_compute. repeat split. Qed.
(** The room for panes starts below a rail, bar or no bar. *)
Example content_starts_below_the_rail : content_rect (80, 24) None None = mkRect 0 1 80 23.
Proof. reflexivity. Qed.
