(* ===== verification/ActionProofs.v ===== *)
(** * What the pane actions promise

    A dragged divider follows the pointer; every action keeps the layout well formed; the size sent with a
    spawn is the size the pane gets; the reflow reports exactly what changed; the chrome and the panes
    share the screen without overlap. *)

From stdpp Require Import gmap list.
From S2P Require Import Prelude Enums Ids IdBridge Info Codec Float32 ClientLayout Tiling TilingProofs PaneActions.

(** ** A ratio measured in cells *)

Lemma split_dim_of total ratio n d k : 0 <= k <= total -> total <= u16_max ->
  f32_view (f32_mul (f32_from total) ratio) = F32_fin false n d -> (2 * n + d) / (2 * d) = k -> split_dim total ratio = k.
Proof.
  intros Hk Ht Ev E. unfold split_dim, f32_round. rewrite Ev, E. unfold u16_max in *.
  replace (f32_make (F32_fin false k 1)) with (f32_from k) by (unfold f32_from; destruct (Z.ltb_spec k 0); [lia|]; by rewrite Z.abs_eq by lia).
  destruct (f32_from_view k ltac:(lia)) as (a & b & Ek & Hb & ->). change (f32_from 0) with 0.
  rewrite (f32_lt_zero _ _ _ _ Ek). unfold signed_num. destruct (Z.ltb_spec (k * b) 0); [nia|].
  rewrite (f32_lt_from total _ _ _ _ ltac:(lia) Ek). unfold signed_num. destruct (Z.ltb_spec (total * b) (k * b)); [nia|].
  unfold f32_as_u16. rewrite Ek. rewrite Z.div_mul by lia. unfold u16_max. lia.
Qed.
(** The clamp of a ratio moves no divider of a window narrower than 500 cells off its ends. *)
Lemma clamped_ends : forallb (fun len => (split_dim len EPS =? 0) && (split_dim len (f32_sub (f32_from 1) EPS) =? len)) (seqZ 1 499) = true.
Proof. vm_compute. reflexivity. Qed.
Lemma clamped_end len : 1 <= len < 500 -> split_dim len EPS = 0 /\ split_dim len (f32_sub (f32_from 1) EPS) = len.
Proof.
  intros Hl. pose proof clamped_ends as H. rewrite forallb_forall in H. specialize (H len). rewrite <- list_elem_of_In, elem_of_seqZ in H.
  specialize (H ltac:(lia)). by apply andb_true_iff in H as [?%Z.eqb_eq ?%Z.eqb_eq].
Qed.
Lemma clamp_inside low len : 0 < low < len -> len < 500 -> clamp_ratio (f32_div (f32_from low) (f32_from len)) = f32_div (f32_from low) (f32_from len).
Proof.
  intros Hl Hn. destruct (f32_div_near low len ltac:(lia) ltac:(lia)) as (n & d & Ev & Hd & Hr). unfold clamp_ratio, f32_clamp.
  assert (E1 : f32_view EPS = F32_fin false 8589935 8589934592) by (vm_compute; reflexivity).
  assert (E2 : f32_view (f32_sub (f32_from 1) EPS) = F32_fin false 16760439 16777216) by (vm_compute; reflexivity).
  assert (Hr' : - (low * d) <= (n * len - low * d) * 16777216 <= low * d) by lia. assert (d <= low * d) by nia. assert (low * d <= len * d - d) by nia.
  assert (0 <= n) by nia. assert (n * len <= n * 499) by nia.
  unfold f32_lt. rewrite Ev, E1, E2. unfold signed_num. destruct (Z.ltb_spec (n * 8589934592) (8589935 * d)); [lia|].
  destruct (Z.ltb_spec (16760439 * d) (n * 16777216)) as [Hc|]; [|done]. exfalso.
  assert (len * d <= 499 * d) by nia. assert (16760439 * (len * d) < n * len * 16777216) by nia. lia.
Qed.
(** Dividing a width at a cell, and cutting the width again, gives the cell. *)
Lemma cut_where_asked low len : 0 <= low <= len -> 1 <= len < 500 ->
  split_dim len (clamp_ratio (f32_div (f32_from low) (f32_from len))) = low.
Proof.
  intros Hl Hn. destruct (Z.eq_dec low 0) as [->|H0]; [|destruct (Z.eq_dec low len) as [->|H1]].
  - enough (E : clamp_ratio (f32_div (f32_from 0) (f32_from len)) = EPS) by (rewrite E; exact (proj1 (clamped_end len Hn))). unfold clamp_ratio, f32_clamp.
    destruct (f32_from_view len ltac:(lia)) as (a & b & Ea & Hb & ->). unfold f32_div. rewrite Ea. change (f32_view (f32_from 0)) with (F32_fin false 0 (pow2 149)).
    cbn [xorb]. destruct (Z.eqb_spec (len * b) 0); [nia|]. cbn [f32_make]. unfold f32_magnitude. rewrite Z.mul_0_l. cbn [Z.eqb]. reflexivity.
  - enough (E : clamp_ratio (f32_div (f32_from len) (f32_from len)) = f32_sub (f32_from 1) EPS) by (rewrite E; exact (proj2 (clamped_end len Hn))). unfold clamp_ratio, f32_clamp.
    destruct (f32_div_near len len ltac:(lia) ltac:(lia)) as (n & d & Ev & Hd & Hr).
    assert (E1 : f32_view EPS = F32_fin false 8589935 8589934592) by (vm_compute; reflexivity).
    assert (E2 : f32_view (f32_sub (f32_from 1) EPS) = F32_fin false 16760439 16777216) by (vm_compute; reflexivity).
    replace ((n * len - len * d) * 16777216) with (((n - d) * 16777216) * len) in Hr by ring. replace (len * d) with (d * len) in Hr by ring.
    apply cancel_abs in Hr; [|lia]. unfold f32_lt. rewrite Ev, E1, E2. unfold signed_num.
    destruct (Z.ltb_spec (n * 8589934592) (8589935 * d)); [lia|]. destruct (Z.ltb_spec (16760439 * d) (n * 16777216)); [done|lia].
  - rewrite clamp_inside by lia. destruct (f32_div_mul low len ltac:(lia) ltac:(lia)) as (n & d & Ev & Hd & E). by apply (split_dim_of len _ n d); [lia|unfold u16_max; lia|..].
Qed.

(** ** The line of a split, and the room it divides *)

Definition axis_min (d : SplitDir) (n : LayoutNode) : Z := match d with SplitDir_Horizontal => (min_dims n).1 | SplitDir_Vertical => (min_dims n).2 end.
Lemma span_step d rt lft rgt b step rest : sane b ->
  split_content_span_at (LayoutNode_Split d rt lft rgt) b (step :: rest) =
    match step with
    | Step_Left => split_content_span_at lft (low_rect d (share d rt lft rgt b true) b) rest
    | Step_Right => split_content_span_at rgt (high_rect d (share d rt lft rgt b true) b) rest
    end.
Proof.
  intros Hb. destruct d, step; simpl; unfold share, low_share, low_rect, high_rect; simpl; try done.
Qed.
Lemma line_at_path n b p0 path d start len : sane b -> splits_at n path d -> split_content_span_at n b path = Some (start, len) ->
  exists rt l r seg, subtree n path = Some (LayoutNode_Split d rt l r) /\ 1 <= len < axis_len d b
    /\ seg ∈ lines n b p0 true /\ seg_path seg = p0 ++ path /\ seg_split seg = d
    /\ seg_cross seg = start + freeze_split_dim len rt (axis_min d l) (axis_min d r).
Proof.
  revert n b p0. induction path as [|step path IH]; intros n b p0 Hb (rt & l & r & Hn) Hspan.
  - injection Hn as ->. exists rt, l, r. simpl in Hspan. destruct b as [x y w h], d; unfold sane in Hb; simpl in *; rewrite saturating_sub_spec in Hspan by lia.
    + destruct (Z.eqb_spec (Z.max 0 (w - 1)) 0) as [|Hz]; [done|]. injection Hspan as <- <-. eexists. split; [done|]. split; [lia|]. split.
      { apply elem_of_app. left. unfold own_line. simpl. destruct (Z.leb_spec 1 w); [by left|lia]. }
      simpl. rewrite app_nil_r. split_and!; [done|done|]. unfold share, low_share. simpl. by rewrite saturating_sub_spec by lia.
    + destruct (Z.eqb_spec (Z.max 0 (h - 1)) 0) as [|Hz]; [done|]. injection Hspan as <- <-. eexists. split; [done|]. split; [lia|]. split.
      { apply elem_of_app. left. unfold own_line. simpl. destruct (Z.leb_spec 1 h); [by left|lia]. }
      simpl. rewrite app_nil_r. split_and!; [done|done|]. unfold share, low_share. simpl. by rewrite saturating_sub_spec by lia.
  - destruct n as [p|d' rt' lft rgt]; [by destruct step|]. rewrite span_step in Hspan by done. destruct (cut_spec d' rt' lft rgt b true Hb) as (S1 & S2 & W1 & W2).
    assert (Hax : forall a, within a b -> rx b <= rx a -> axis_len d a <= axis_len d b) by (intros a; unfold within; destruct d; simpl; lia).
    destruct step; simpl in Hn.
    + destruct (IH lft _ (p0 ++ [Step_Left]) S1 (ex_intro _ rt (ex_intro _ l (ex_intro _ r Hn))) Hspan) as (rt1 & l1 & r1 & seg & E1 & E2 & E3 & E4 & E5 & E6).
      exists rt1, l1, r1, seg. split; [done|]. split; [unfold within in W1; pose proof (Hax _ W1 ltac:(lia)); lia|]. split; [simpl; rewrite !elem_of_app; auto|].
      rewrite E4, <- app_assoc. done.
    + destruct (IH rgt _ (p0 ++ [Step_Right]) S2 (ex_intro _ rt (ex_intro _ l (ex_intro _ r Hn))) Hspan) as (rt1 & l1 & r1 & seg & E1 & E2 & E3 & E4 & E5 & E6).
      exists rt1, l1, r1, seg. split; [done|]. split; [unfold within in W2; pose proof (Hax _ W2 ltac:(lia)); lia|]. split; [simpl; rewrite !elem_of_app; auto|].
      rewrite E4, <- app_assoc. done.
Qed.
(** Retuning a split moves nothing above it. *)
Lemma span_set_ratio n b path ratio n' : sane b -> set_ratio_at n path ratio = Some n' -> split_content_span_at n' b path = split_content_span_at n b path.
Proof.
  unfold set_ratio_at. revert n b n'. induction path as [|step path IH]; intros n b n' Hb.
  - destruct n as [p|d rt l r]; [done|]. by intros [= <-].
  - destruct n as [p|d rt lft rgt]; [done|]. destruct (cut_spec d rt lft rgt b true Hb) as (S1 & S2 & _).
    destruct step; cbn [set_ratio_inner]; (destruct (set_ratio_inner _ path ratio) as [m|] eqn:E; [|done]); intros [= <-]; rewrite !span_step by done.
    + assert (Em : min_dims m = min_dims lft) by by eapply set_ratio_min_dims. unfold share, low_share. rewrite Em. fold (low_share true (saturating_sub (axis_len d b) 1) rt lft rgt (match d with SplitDir_Horizontal => fst | SplitDir_Vertical => snd end)).
      by apply IH.
    + assert (Em : min_dims m = min_dims rgt) by by eapply set_ratio_min_dims. unfold share, low_share. rewrite Em. fold (low_share true (saturating_sub (axis_len d b) 1) rt lft rgt (match d with SplitDir_Horizontal => fst | SplitDir_Vertical => snd end)).
      by apply IH.
Qed.
Definition along (d : SplitDir) (c : Z * Z) : Z := match d with SplitDir_Horizontal => c.1 | SplitDir_Vertical => c.2 end.
(** Where a divider asked to leave [low] cells before it comes to rest between the floors of its two sides. *)
Definition rest_at (len low min_low min_high : Z) : Z := if min_low + min_high <=? len then Z.max min_low (Z.min low (len - min_high)) else low.

(** A dragged divider follows the pointer. In a window up to 500 cells wide and high, when a drag of a split's divider is taken,
    the divider of that split is painted at the very cell of the pointer, unless a pane's floor stops it short; the panes and the
    focus are those from before. *)
Theorem drag_tracks_the_pointer state st' n path axis pointer viewport bar sidebar :
  let content := content_rect viewport bar sidebar in
  tree state = Some n -> splits_at n path axis -> on_screen content viewport -> axis_len axis content <= 500 ->
  apply_divider_resize state path axis pointer viewport bar sidebar = Ok (Some st') ->
  focus st' = focus state /\ state_leaves st' = state_leaves state
  /\ exists rt l r start len h,
       subtree n path = Some (LayoutNode_Split axis rt l r) /\ split_content_span_at n content path = Some (start, len)
       /\ h ∈ pl_hits (compute_layout_in st' content viewport) /\ hit_path h = path /\ hit_axis h = axis
       /\ forall c, c ∈ hit_cells h ->
            along axis c = start + rest_at len (Z.min (saturating_sub (along axis pointer) start) len) (axis_min axis l) (axis_min axis r)
            /\ (start + axis_min axis l <= along axis pointer <= start + len - axis_min axis r -> along axis c = along axis pointer).
Proof.
  intros content Et Hn Hs Hax. unfold apply_divider_resize. rewrite Et. cbn [ok_or mbind result_bind]. fold content.
  destruct (split_content_span_at n content path) as [[start len]|] eqn:Espan; [|done]. cbn [ok_or mbind result_bind]. cbv zeta.
  change (match axis with SplitDir_Horizontal => pointer.1 | SplitDir_Vertical => pointer.2 end) with (along axis pointer).
  set (low := Z.min (saturating_sub (along axis pointer) start) len). set (ratio := clamp_ratio _).
  destruct (set_ratio_at n path ratio) as [n'|] eqn:En'; [|done]. cbn [ok_or mbind result_bind].
  destruct (violates_min_cell _ _ _); [done|]. intros [= <-]. cbn [focus]. split; [done|].
  destruct (subtree_set_ratio n path axis ratio n' Hn En') as (l & r & Esub & (rt & Esub0) & Hmin & Hleaves). split; [unfold state_leaves; rewrite Et; cbn [tree]; by rewrite Hleaves|].
  pose proof (on_screen_sane _ _ Hs) as Hsane. rewrite <- (span_set_ratio n content path ratio n' Hsane En') in Espan.
  destruct (line_at_path n' content [] path axis start len Hsane (ex_intro _ ratio (ex_intro _ l (ex_intro _ r Esub))) Espan)
    as (rt1 & l1 & r1 & seg & E1 & E2 & E3 & E4 & E5 & E6).
  rewrite Esub in E1. injection E1 as <- <- <-. rewrite (span_set_ratio n content path ratio n') in Espan by done.
  exists rt, l, r, start, len, (mkHit (seg_path seg) (seg_split seg) (segment_cells viewport seg)). simpl. split_and!; [done|done| |done|done|].
  { rewrite (compute_layout_eq _ n') by done. simpl. apply list_elem_of_fmap. by exists seg. }
  intros c Hc. assert (Hcross : along axis c = seg_cross seg).
  { unfold segment_cells in Hc. rewrite E5 in Hc. destruct axis; simpl; (destruct (_ <? _); [|by apply not_elem_of_nil in Hc]); by apply list_elem_of_fmap in Hc as (? & -> & _). }
  assert (Hlow : 0 <= low <= len) by (unfold low, saturating_sub; destruct (start <=? _) eqn:E; [apply Z.leb_le in E|]; lia).
  assert (Hlow' : saturating_sub (along axis pointer) start = Z.max 0 (along axis pointer - start)) by (unfold saturating_sub; destruct (Z.leb_spec start (along axis pointer)); lia).
  rewrite Hcross, E6. unfold freeze_split_dim, ratio. rewrite cut_where_asked by lia. unfold rest_at. fold low.
  assert (Hl : 0 <= axis_min axis l /\ 0 <= axis_min axis r).
  { pose proof (min_dims_nonneg l). pose proof (min_dims_nonneg r). unfold axis_min. destruct axis; lia. }
  assert (Eb : (axis_min axis l + axis_min axis r <=? u16_max) && (axis_min axis l + axis_min axis r <=? len) = (axis_min axis l + axis_min axis r <=? len)).
  { destruct (Z.leb_spec (axis_min axis l + axis_min axis r) len); [|by rewrite andb_false_r]. rewrite andb_true_r. apply Z.leb_le. unfold u16_max. lia. }
  rewrite Eb. split; [done|]. intros Hp. destruct (Z.leb_spec (axis_min axis l + axis_min axis r) len); lia.
Qed.
(** The divider of the small window dragged two columns to the left, then read off the screen. *)
Lemma drag_tracks_the_pointer_witness :
  exists st' h, apply_divider_resize small_window [] SplitDir_Horizontal (3, 2) (11, 6) None None = Ok (Some st')
    /\ h ∈ pl_hits (compute_layout_in st' (content_rect (11, 6) None None) (11, 6)) /\ hit_path h = []
    /\ forall c, c ∈ hit_cells h -> c.1 = 3.
Proof.
  destruct (apply_divider_resize small_window [] SplitDir_Horizontal (3, 2) (11, 6) None None) as [[st'|]|] eqn:E; [|vm_compute in E; discriminate..].
  destruct (drag_tracks_the_pointer small_window st' three_panes [] SplitDir_Horizontal (3, 2) (11, 6) None None eq_refl) as (_ & _ & rt & l & r & start & len & h & E1 & E2 & H1 & H2 & _ & H3).
  - eexists _, _, _. reflexivity.
  - constructor; vm_compute; repeat split; discriminate.
  - vm_compute. discriminate.
  - exact E.
  - exists st', h. split; [reflexivity|]. split; [exact H1|]. split; [exact H2|]. intros c Hc. apply (H3 c Hc). injection E1 as <- <- <-.
    assert (Es : (start, len) = (0, 10)) by (vm_compute in E2; injection E2 as <- <-; reflexivity). injection Es as -> ->. vm_compute. split; discriminate.
Defined.

(** ** The size sent ahead *)

Fixpoint rename (g : ResourceId -> ResourceId) (n : LayoutNode) : LayoutNode :=
  match n with
  | LayoutNode_Leaf p => LayoutNode_Leaf (g p)
  | LayoutNode_Split d r lft rgt => LayoutNode_Split d r (rename g lft) (rename g rgt)
  end.
Lemma min_dims_rename g n : min_dims (rename g n) = min_dims n.
Proof. induction n as [p|d r lft IHl rgt IHr]; simpl; [done|]. by rewrite IHl, IHr. Qed.
(** Geometry does not look at names. *)
Lemma tiles_rename g n b f : tiles (rename g n) b f = map (fun tr => (g tr.1, tr.2)) (tiles n b f).
Proof.
  revert b. induction n as [p|d r lft IHl rgt IHr]; intros b; simpl; [done|]. unfold share, low_share. rewrite !min_dims_rename.
  rewrite map_app, <- IHl, <- IHr. done.
Qed.
Lemma client_leaves_split d r lft rgt : leaves (LayoutNode_Split d r lft rgt) = leaves lft ++ leaves rgt.
Proof. rewrite <- !(tiles_leaves _ (mkRect 0 0 0 0) false). simpl. rewrite map_app. f_equal; by rewrite !tiles_leaves. Qed.
Lemma client_leaves_leaf p : leaves (LayoutNode_Leaf p) = [p].
Proof. done. Qed.
Create Rewrite HintDb client_leaves.
#[export] Hint Rewrite client_leaves_leaf client_leaves_split : client_leaves.
Lemma contains_leaves n t : contains n t = bool_decide (t ∈ leaves n).
Proof.
  induction n as [p|d r lft IHl rgt IHr]; simpl; autorewrite with client_leaves; [apply bool_decide_ext; rewrite list_elem_of_singleton; naive_solver|].
  rewrite IHl, IHr. apply eq_true_iff_eq. rewrite orb_true_iff, !bool_decide_eq_true, elem_of_app. done.
Qed.
Lemma rename_id g n : (forall t, t ∈ leaves n -> g t = t) -> rename g n = n.
Proof.
  induction n as [p|d r lft IHl rgt IHr]; simpl; autorewrite with client_leaves; intros H; [f_equal; apply H; by left|].
  rewrite IHl, IHr; [done|intros; apply H, elem_of_app; by right|intros; apply H, elem_of_app; by left].
Qed.
Definition instead (old new t : ResourceId) : ResourceId := if bool_decide (t = old) then new else t.
Lemma split_inner_rename n t ph new d r : ph ∉ leaves n -> t ∈ leaves n -> split_inner n t new d r = rename (instead ph new) (split_inner n t ph d r).
Proof.
  assert (Hid : forall m, ph ∉ leaves m -> rename (instead ph new) m = m).
  { intros m Hm. apply rename_id. intros x Hx. unfold instead. rewrite bool_decide_eq_false_2; [done|]. by intros ->. }
  induction n as [p|sd sr lft IHl rgt IHr]; autorewrite with client_leaves; intros Hp Ht; simpl.
  - apply list_elem_of_singleton in Ht as <-. rewrite bool_decide_eq_true_2 by done. simpl. unfold instead.
    rewrite bool_decide_eq_false_2, bool_decide_eq_true_2; [done|done|]. intros ->. apply Hp. by left.
  - rewrite contains_leaves. rewrite not_elem_of_app in Hp. destruct Hp as [Hpl Hpr]. case_bool_decide as Hl; simpl.
    + rewrite (Hid rgt) by done. f_equal. by apply IHl.
    + rewrite (Hid lft) by done. f_equal. apply IHr; [done|]. apply elem_of_app in Ht as [|]; done.
Qed.
Lemma split_inner_leaves n t new d r : t ∈ leaves n -> leaves (split_inner n t new d r) ≡ₚ new :: leaves n.
Proof.
  induction n as [p|sd sr lft IHl rgt IHr]; autorewrite with client_leaves; intros Ht; simpl.
  - apply list_elem_of_singleton in Ht as <-. rewrite bool_decide_eq_true_2 by done. autorewrite with client_leaves. by apply Permutation_swap.
  - rewrite contains_leaves. case_bool_decide as Hl; autorewrite with client_leaves.
    + by rewrite IHl.
    + rewrite IHr by (by apply elem_of_app in Ht as [|]). by rewrite Permutation_middle.
Qed.
(** Among one candidate more than there are names, one is free. *)
Lemma unused_loop_none fuel ls c : 0 <= c < 2 ^ 32 -> unused_loop fuel ls c = None ->
  forall i, (i < fuel)%nat -> ResourceId_Local ((c - Z.of_nat i) mod 2 ^ 32) ∈ ls.
Proof.
  revert c. induction fuel as [|fuel IH]; intros c Hc; [lia|]. cbn [unused_loop]. case_bool_decide as Hin; [|done]. cbn [negb]. intros Hn [|i] Hi.
  - rewrite Z.sub_0_r, Z.mod_small by done. done.
  - pose proof (IH _ (Z.mod_pos_bound (c - 1) (2 ^ 32) ltac:(lia)) Hn i ltac:(lia)) as H. rewrite Zminus_mod_idemp_l in H.
    replace (c - Z.of_nat (S i)) with (c - 1 - Z.of_nat i) by lia. done.
Qed.
Lemma unused_loop_fresh fuel ls c id : unused_loop fuel ls c = Some id -> id ∉ ls.
Proof. revert c. induction fuel as [|fuel IH]; intros c; [done|]. cbn [unused_loop]. case_bool_decide; cbn [negb]; [apply IH|by intros [= <-]]. Qed.
Lemma unused_leaf_id_found state : len (state_leaves state) < 2 ^ 32 -> exists id, unused_leaf_id state = Some id /\ id ∉ state_leaves state.
Proof.
  intros Hl. unfold unused_leaf_id, len in *. set (ls := state_leaves state) in *. destruct (unused_loop _ ls u32_max) as [id|] eqn:E.
  - exists id. split; [done|]. by eapply unused_loop_fresh.
  - exfalso. pose proof (unused_loop_none _ ls u32_max ltac:(done) E) as H.
    set (cs := map (fun i => ResourceId_Local ((u32_max - Z.of_nat i) mod 2 ^ 32)) (seq 0 (S (length ls)))).
    assert (Hnd : NoDup cs).
    { apply NoDup_fmap_2_strong; [|apply NoDup_seq]. intros i j Hi%elem_of_seq Hj%elem_of_seq Eij. injection Eij as Eij.
      unfold u32_max in Eij. rewrite !Z.mod_small in Eij by lia. lia. }
    assert (Hsub : (length cs <= length ls)%nat).
    { apply NoDup_incl_length; [by apply NoDup_ListNoDup|]. intros x Hx%list_elem_of_In. apply list_elem_of_In.
      apply list_elem_of_fmap in Hx as (i & -> & Hi%elem_of_seq). apply H. lia. }
    unfold cs in Hsub. rewrite length_map, length_seq in Hsub. lia.
Qed.
Lemma half_valid : validate_ratio half = Ok tt.
Proof. vm_compute. reflexivity. Qed.
Lemma apply_split_spec n f new d focused : focused = Some f ->
  apply_split (mkLayout (Some n) focused) new d =
    if contains n f then Ok (mkLayout (Some (split_inner n f new d half)) (Some new)) else Err (Action_Layout (PaneNotInLayout f)).
Proof. intros ->. unfold apply_split. cbn [tree focus ok_or mbind result_bind]. unfold split_at. rewrite half_valid. cbn [mbind result_bind]. by destruct (contains n f). Qed.
Lemma pane_rects_eq n b : pane_rects_in n b = put_all (tiles n b true) ∅.
Proof. unfold pane_rects_in, walk_layout. by rewrite walk_eq. Qed.
Lemma pane_rects_lookup n b t r : NoDup (leaves n) -> pane_rects_in n b !! t = Some r <-> (t, r) ∈ tiles n b true.
Proof. intros Hnd. rewrite pane_rects_eq, put_all_lookup by by rewrite tiles_leaves. rewrite lookup_empty. naive_solver. Qed.

(** The size a client sends along with a spawn is the size the pane gets. Before a split's pane has a name, the client tiles the
    split with a placeholder; whatever name the reply brings, applying the split then gives the new pane a rectangle of exactly
    those dimensions, and when nothing is predicted the split could not have been applied. *)
Theorem predicted_dims_are_final state pending content new_id dims :
  NoDup (state_leaves state) -> new_id ∉ state_leaves state -> len (state_leaves state) < 2 ^ 32 -> zoom_on_spawn pending = false ->
  predicted_spawn_dims state pending content = Some dims <->
  exists state' n r, apply_spawned_ok state new_id pending = Ok state' /\ tree state' = Some n
    /\ pane_rects_in n content !! new_id = Some r /\ dims = (rw r, rh r).
Proof.
  intros Hnd Hnew Hlen Hz. unfold predicted_spawn_dims. rewrite Hz. destruct (unused_leaf_id_found state Hlen) as (ph & -> & Hph). cbn [mbind option_bind].
  unfold apply_spawned_ok. set (anchor := if bool_decide _ then _ else _). destruct anchor as [f|e]; cbn [mbind result_bind option_bind]; [|naive_solver].
  destruct state as [[n|] foc]; cbn [tree state_leaves] in *; [|unfold apply_split; cbn; naive_solver]. unfold state_leaves in *. cbn [tree] in *.
  rewrite !(apply_split_spec n f) by done. destruct (contains n f) eqn:Ec; cbn [mbind option_bind tree]; [|naive_solver].
  rewrite contains_leaves in Ec. apply bool_decide_eq_true in Ec. set (d := split_dir pending).
  assert (Hnd' : forall new, new ∉ leaves n -> NoDup (leaves (split_inner n f new d half))).
  { intros new Hn. rewrite split_inner_leaves by done. by constructor. }
  assert (Hiff : forall r, (ph, r) ∈ tiles (split_inner n f ph d half) content true <-> (new_id, r) ∈ tiles (split_inner n f new_id d half) content true).
  { intros r. rewrite (split_inner_rename n f ph new_id), tiles_rename by done. rewrite list_elem_of_fmap. unfold instead. split.
    - intros Hin. exists (ph, r). simpl. by rewrite bool_decide_eq_true_2.
    - intros ([t r'] & [= E ->] & Hin). simpl in *. case_bool_decide as Et; [by subst|]. exfalso.
      assert (Ht : t ∈ leaves (split_inner n f ph d half)) by (rewrite <- (tiles_leaves _ content true); apply list_elem_of_fmap; by exists (t, r')).
      rewrite split_inner_leaves in Ht by done. apply elem_of_cons in Ht as [|Ht]; [done|]. apply Hnew. by rewrite E. }
  split.
  - destruct (pane_rects_in (split_inner n f ph d half) content !! ph) as [r|] eqn:Er; cbn; [|done]. intros [= <-].
    apply pane_rects_lookup, Hiff in Er; [|by apply Hnd']. eexists _, _, r. split; [done|]. split; [done|]. split; [|done]. apply pane_rects_lookup; [by apply Hnd'|done].
  - intros (s' & n' & r & [= <-] & [= <-] & Hr & ->). apply pane_rects_lookup, Hiff in Hr; [|by apply Hnd'].
    apply pane_rects_lookup in Hr; [|by apply Hnd']. rewrite Hr. done.
Qed.
Definition waiting : PendingSplit := mkPendingSplit (pane_n 2) SplitDir_Vertical false SplitHost_Attached None.
Lemma predicted_dims_are_final_witness :
  predicted_spawn_dims small_window waiting small_content = Some (5, 1)
  /\ exists state' n r, apply_spawned_ok small_window (pane_n 4) waiting = Ok state' /\ tree state' = Some n
       /\ pane_rects_in n small_content !! pane_n 4 = Some r /\ (5, 1) = (rw r, rh r).
Proof.
  assert (E : predicted_spawn_dims small_window waiting small_content = Some (5, 1)) by (vm_compute; reflexivity).
  split; [exact E|]. apply (predicted_dims_are_final small_window waiting small_content (pane_n 4) (5, 1)).
  - exact small_nodup.
  - apply (bool_decide_unpack _). vm_compute. exact I.
  - reflexivity.
  - reflexivity.
  - exact E.
Defined.

(** ** The layout stays well formed *)

Fixpoint ratios_ok (n : LayoutNode) : Prop :=
  match n with LayoutNode_Leaf _ => True | LayoutNode_Split _ r lft rgt => ratio_ok r /\ ratios_ok lft /\ ratios_ok rgt end.
(** Distinct panes, a focus exactly when there is a tree and on one of its panes, ratios strictly between 0 and 1. *)
Definition LayoutOk (st : LayoutState) : Prop :=
  match tree st with
  | None => focus st = None
  | Some n => NoDup (leaves n) /\ ratios_ok n /\ exists f, focus st = Some f /\ f ∈ leaves n
  end.
Inductive PaneStep : LayoutState -> LayoutState -> Prop :=
| Step_split st new d st' : new ∉ state_leaves st -> apply_split st new d = Ok st' -> PaneStep st st'
| Step_spawned st new pending st' : new ∉ state_leaves st -> apply_spawned_ok st new pending = Ok st' -> PaneStep st st'
| Step_kill st st' : apply_kill st = Ok st' -> PaneStep st st'
| Step_closed st dying st' : apply_terminal_closed st dying = Ok st' -> PaneStep st st'
| Step_focus st d st' : apply_focus st d = Some st' -> PaneStep st st'
| Step_next st st' : apply_next_pane st = Some st' -> PaneStep st st'
| Step_previous st st' : apply_previous_pane st = Some st' -> PaneStep st st'
| Step_resize st d amount viewport sidebar st' :
    -32768 <= amount <= 32767 -> 0 <= viewport.1 <= u16_max -> 0 <= viewport.2 <= u16_max ->
    apply_resize st d amount viewport sidebar = Ok (Some st') -> PaneStep st st'
| Step_drag st path axis pointer viewport bar sidebar st' :
    sane (content_rect viewport bar sidebar) -> apply_divider_resize st path axis pointer viewport bar sidebar = Ok (Some st') -> PaneStep st st'.

Lemma clamp_ratio_ok a : not_nan a -> ratio_ok (clamp_ratio a).
Proof.
  intros Ha. unfold clamp_ratio. eapply (f32_clamp_ratio a EPS _ 8589935 8589934592 16760439 16777216); try done; vm_compute; repeat split; reflexivity.
Qed.
Lemma ratio_ok_finite r : ratio_ok r -> f32_is_finite r = true.
Proof.
  intros [H1 H2]. pose proof (f32_unit_interval r) as E. change (2 ^ 32) with 4294967296 in E.
  replace ((0 <? r) && (r <? 1065353216)) with true in E by (symmetry; apply andb_true_iff; split; apply Z.ltb_lt; lia).
  specialize (E ltac:(lia)). unfold f32_is_nan, f32_le, f32_is_finite in *. change (f32_view (f32_from 0)) with (F32_fin false 0 (pow2 149)) in E.
  change (f32_view (f32_from 1)) with (F32_fin false 8388608 (pow2 23)) in E. by destruct (f32_view r) as [|[]|].
Qed.
Lemma split_inner_ratios n t new d r : ratio_ok r -> ratios_ok n -> ratios_ok (split_inner n t new d r).
Proof.
  intros Hr. induction n as [p|sd sr lft IHl rgt IHr]; simpl; [by case_bool_decide|]. intros (H1 & H2 & H3). destruct (contains lft t); simpl; auto.
Qed.
Lemma set_ratio_ratios n path r n' : ratio_ok r -> ratios_ok n -> set_ratio_inner n path r = Some n' -> ratios_ok n'.
Proof.
  intros Hr. revert path n'. induction n as [p|d rt lft IHl rgt IHr]; intros path n'; [by destruct path|]. intros (H1 & H2 & H3). destruct path as [|[] path]; simpl.
  - by intros [= <-].
  - destruct (set_ratio_inner lft path r) eqn:E; [|done]. intros [= <-]. simpl. eauto.
  - destruct (set_ratio_inner rgt path r) eqn:E; [|done]. intros [= <-]. simpl. eauto.
Qed.
Lemma is_leaf_of_true n t : is_leaf_of n t = true -> n = LayoutNode_Leaf t.
Proof. destruct n; simpl; [|done]. by intros ->%bool_decide_eq_true. Qed.
Lemma collapse_ok n t n' : collapse n t = (n', true) -> ratios_ok n -> ratios_ok n' /\ leaves n' `sublist_of` leaves n.
Proof.
  revert n'. induction n as [p|d r lft IHl rgt IHr]; intros n'; simpl; [done|]. autorewrite with client_leaves.
  destruct (is_leaf_of lft t) eqn:El; [intros [= <-] (_ & _ & ?); split; [done|by apply sublist_inserts_l]|].
  destruct (is_leaf_of rgt t) eqn:Er; [intros [= <-] (_ & ? & _); split; [done|by apply sublist_inserts_r]|].
  destruct (collapse lft t) as [l' []] eqn:Ecl.
  - intros [= <-] (H1 & H2 & H3). destruct (IHl l' eq_refl H2) as [H4 H5]. simpl. autorewrite with client_leaves. split; [done|by apply sublist_app].
  - destruct (collapse rgt t) as [r' []] eqn:Ecr; [|done]. intros [= <-] (H1 & H2 & H3). destruct (IHr r' eq_refl H3) as [H4 H5].
    assert (E : l' = lft).
    { clear -Ecl. revert l' Ecl. induction lft as [p|d r l IHl rt IHr]; intros l'; simpl; [by intros [= <-]|].
      destruct (is_leaf_of l t); [done|]. destruct (is_leaf_of rt t); [done|]. destruct (collapse l t) as [l1 []]; [done|].
      destruct (collapse rt t) as [r1 []]; [done|]. intros [= <-]. by rewrite (IHl l1), (IHr r1). }
    subst l'. simpl. autorewrite with client_leaves. split; [done|]. by apply sublist_app.
Qed.
Lemma set_ratio_leaves n path r n' : set_ratio_inner n path r = Some n' -> leaves n' = leaves n.
Proof.
  revert path n'. induction n as [p|d rt lft IHl rgt IHr]; intros path n'; [by destruct path|]. destruct path as [|[] path]; simpl.
  - intros [= <-]. by autorewrite with client_leaves.
  - destruct (set_ratio_inner lft path r) eqn:E; [|done]. intros [= <-]. autorewrite with client_leaves. by rewrite (IHl _ _ E).
  - destruct (set_ratio_inner rgt path r) eqn:E; [|done]. intros [= <-]. autorewrite with client_leaves. by rewrite (IHr _ _ E).
Qed.
Lemma leaves_cons n : exists t ts, leaves n = t :: ts.
Proof.
  destruct (leaves n) as [|t ts] eqn:E; [|by exists t, ts]. rewrite <- (tiles_leaves n (mkRect 0 0 0 0) false) in E. apply map_eq_nil in E. by apply tiles_nonempty in E.
Qed.
Lemma apply_kill_ok n f st' : NoDup (leaves n) -> ratios_ok n -> apply_kill (mkLayout (Some n) (Some f)) = Ok st' -> LayoutOk st'.
Proof.
  intros Hnd Hr. unfold apply_kill. cbn [tree focus ok_or mbind result_bind]. destruct (kill_pane n f) as [[n'|]|e] eqn:E; cbn [layout_err mbind result_bind]; [..|done].
  - intros [= <-]. unfold LayoutOk. cbn [tree focus]. destruct n as [p|d r lft rgt]; [simpl in E; by case_bool_decide|].
    unfold kill_pane in E. destruct (collapse _ f) as [m []] eqn:Ec; [|done]. injection E as <-.
    destruct (collapse_ok _ _ _ Ec Hr) as [H1 H2]. split; [by eapply sublist_NoDup|]. split; [done|].
    destruct (leaves_cons m) as (t & ts & ->). exists t. split; [done|by left].
  - by intros [= <-].
Qed.
Lemma focus_loop_in n path d i t : focus_loop n path d i = Some t -> t ∈ leaves n.
Proof.
  assert (Hd : forall m hints, descend m d hints ∈ leaves m).
  { intros m. induction m as [p|sd r l IHl rt IHr]; intros hints; simpl; autorewrite with client_leaves; [by left|]. rewrite elem_of_app.
    destruct (axis_parallel sd d); [destruct d; auto|]. destruct (default _ _); auto. }
  assert (Hc : forall m s m', child m s = Some m' -> forall x, x ∈ leaves m' -> x ∈ leaves m).
  { intros [p|sd r l rt] [] m'; simpl; try done; intros [= <-] x Hx; autorewrite with client_leaves; apply elem_of_app; auto. }
  assert (Hs : forall p m j m', sibling_at_depth m p j = Some m' -> forall x, x ∈ leaves m' -> x ∈ leaves m).
  { intros p. induction p as [|[sd s] p IH]; intros m [|j] m'; simpl; try done; [apply Hc|].
    destruct (child m s) as [m1|] eqn:E; simpl; [|done]. intros H x Hx. eapply Hc; [done|]. by eapply IH. }
  induction i as [|i IH]; simpl; [done|]. destruct (path !! i) as [[sd s]|]; simpl; [|done]. destruct (matches_to_sibling sd d s); [|done].
  destruct (sibling_at_depth n path i) as [m|] eqn:E; simpl; [|done]. intros [= <-]. eapply Hs; [done|]. apply Hd.
Qed.
Lemma resize_ok n f axis d delta n' : not_nan delta -> ratios_ok n -> resize_along_axis n f axis d delta = (n', true) -> ratios_ok n' /\ leaves n' = leaves n.
Proof.
  intros Hdel. revert n'. induction n as [p|sd r lft IHl rgt IHr]; intros n' Hr; cbn [resize_along_axis]; [done|]. destruct Hr as (H1 & H2 & H3).
  destruct (_ && _).
  - intros [= <-]. simpl. autorewrite with client_leaves. split; [|done]. split_and!; [|done|done]. apply clamp_ratio_ok, f32_add_finite; [by apply ratio_ok_finite|].
    destruct Hdel as [? ?], (f32_neg_not_nan delta) as [? ?]; [done|]. by destruct d, (tree_contains lft f).
  - destruct (tree_contains lft f).
    + destruct (resize_along_axis lft f axis d delta) as [m b] eqn:E. intros [= <- ->]. destruct (IHl m H2 eq_refl) as [H4 H5]. simpl. autorewrite with client_leaves. by rewrite H5.
    + destruct (tree_contains rgt f); [|done]. destruct (resize_along_axis rgt f axis d delta) as [m b] eqn:E. intros [= <- ->].
      destruct (IHr m H3 eq_refl) as [H4 H5]. simpl. autorewrite with client_leaves. by rewrite H5.
Qed.
Lemma quotient_not_nan a b : -32768 <= a <= u16_max -> 0 < b <= u16_max -> not_nan (f32_div (f32_from a) (f32_from b)).
Proof.
  intros Ha Hb. unfold u16_max in *. destruct (f32_from_view b ltac:(lia)) as (n & d & Eb & Hd & Hn).
  assert (Hfin : exists s m e, f32_view (f32_from a) = F32_fin s m e).
  { destruct (Z.eq_dec a 0) as [->|Hz]; [eexists _, _, _; reflexivity|]. unfold f32_from.
    destruct (f32_make_near (a <? 0) (Z.abs a) 1) as (m & e & E & _); [lia|lia|apply exponent_within; lia|]. by eexists _, _, _. }
  destruct Hfin as (s & m & e & Ea). eapply f32_div_finite; [done|done|]. subst n. nia.
Qed.
Lemma span_bounds n b path start len : sane b -> split_content_span_at n b path = Some (start, len) -> 0 < len <= u16_max.
Proof.
  revert b path. induction n as [p|d rt l IHl r IHr]; intros b path Hb; [by destruct path|]. destruct path as [|step path].
  - simpl. unfold sane in Hb. destruct d; rewrite saturating_sub_spec by lia; (case_match eqn:E0; [done|]); apply Z.eqb_neq in E0; intros [= <- <-]; unfold u16_max in *; lia.
  - rewrite span_step by done. destruct (cut_spec d rt l r b true Hb) as (S1 & S2 & _). destruct step; [by apply IHl|by apply IHr].
Qed.
Lemma pane_step_ok st st' : PaneStep st st' -> LayoutOk st -> LayoutOk st'.
Proof.
  assert (Hsplit : forall n f foc new d st', NoDup (leaves n) -> ratios_ok n -> new ∉ leaves n ->
            apply_split (mkLayout (Some n) (Some f)) new d = Ok st' -> foc = f -> LayoutOk st').
  { intros n f foc new d st0 Hnd Hr Hnew Hs _. rewrite (apply_split_spec n f) in Hs by done. destruct (contains n f) eqn:Ec; [|done]. injection Hs as <-.
    rewrite contains_leaves in Ec. apply bool_decide_eq_true in Ec. unfold LayoutOk. cbn [tree focus]. rewrite split_inner_leaves by done.
    split; [by constructor|]. split; [apply split_inner_ratios; [split; reflexivity|done]|]. exists new. split; [done|]. rewrite split_inner_leaves by done. by left. }
  assert (Hmove : forall n foc f, NoDup (leaves n) -> ratios_ok n -> foc = Some f -> f ∈ leaves n -> LayoutOk (mkLayout (Some n) foc)).
  { intros n foc f H1 H2 -> H3. unfold LayoutOk. cbn. split_and!; [done|done|by exists f]. }
  assert (Hcycle : forall s n f st', NoDup (leaves n) -> ratios_ok n -> cycle (mkLayout (Some n) (Some f)) s = Some st' -> LayoutOk st').
  { intros s n f st0 H1 H2. unfold cycle. cbn [tree focus mbind option_bind]. destruct (_ <? 2); [done|]. destruct (position_of _ _ _); cbn [mbind option_bind]; [|done].
    destruct (leaves n !! _) as [t|] eqn:E; cbn [mbind option_bind]; [|done]. intros [= <-]. eapply Hmove; try done. by eapply list_elem_of_lookup_2. }
  intros Hstep. destruct Hstep as [st new d st' Hnew Hs|st new pending st' Hnew Hs|st st' Hs|st dying st' Hs|st d st' Hs|st st' Hs|st st' Hs
    |st d amount viewport sidebar st' Ha Hv1 Hv2 Hs|st path axis pointer viewport bar sidebar st' Hc Hs]; destruct st as [[n|] foc]; unfold LayoutOk, state_leaves in *; cbn [tree focus] in *.
  - intros (Hnd & Hr & f & -> & _). by eapply Hsplit.
  - intros _. by unfold apply_split in Hs.
  - intros (Hnd & Hr & f & -> & _). unfold apply_spawned_ok in Hs. cbn [tree focus] in Hs. destruct (if bool_decide _ then _ else _) as [g|]; [|done].
    cbn [mbind result_bind] in Hs. by eapply (Hsplit n g).
  - intros ->. unfold apply_spawned_ok in Hs. cbn [tree focus ok_or] in Hs. by destruct (if bool_decide _ then _ else _).
  - intros (Hnd & Hr & f & -> & _). by eapply apply_kill_ok.
  - intros _. by unfold apply_kill in Hs.
  - intros (Hnd & Hr & f & -> & _). unfold apply_terminal_closed in Hs. cbn [tree] in Hs. by eapply apply_kill_ok.
  - intros _. by unfold apply_terminal_closed, apply_kill in Hs.
  - intros (Hnd & Hr & f & -> & _). unfold apply_focus in Hs. cbn [tree focus mbind option_bind] in Hs. unfold focus_direction in Hs.
    destruct (record_path n f []) as [[] p]; cbn [negb] in Hs; [|done]. destruct (focus_loop n p d _) as [t|] eqn:E; cbn [mbind option_bind] in Hs; [|done].
    injection Hs as <-. eapply Hmove; try done. by eapply focus_loop_in.
  - intros _. by unfold apply_focus in Hs.
  - intros (Hnd & Hr & f & -> & _). by eapply Hcycle.
  - intros _. by unfold apply_next_pane, cycle in Hs.
  - intros (Hnd & Hr & f & -> & _). by eapply Hcycle.
  - intros _. by unfold apply_previous_pane, cycle in Hs.
  - intros (Hnd & Hr & f & -> & Hf). unfold apply_resize in Hs. cbn [tree focus ok_or mbind result_bind] in Hs. destruct (Z.eqb_spec amount 0); [injection Hs as <-; by eapply Hmove|].
    set (total := match axis_of d with SplitDir_Horizontal => viewport.1 | SplitDir_Vertical => viewport.2 end) in Hs.
    assert (Ht : 0 <= total <= u16_max) by (unfold total; by destruct (axis_of d)). destruct (Z.eqb_spec total 0); [done|].
    destruct (resize_along_axis n f (axis_of d) d _) as [m b] eqn:E. destruct b; cbn [negb] in Hs; [|done]. destruct (violates_min_cell _ _ _); [done|]. injection Hs as <-.
    assert (Hq : not_nan (f32_div (f32_from amount) (f32_from total))) by (apply quotient_not_nan; unfold u16_max in *; lia).
    destruct (resize_ok n f (axis_of d) d _ m Hq Hr E) as [H1 H2].
    eapply Hmove; [by rewrite H2|done|done|by rewrite H2].
  - intros _. by unfold apply_resize in Hs.
  - intros (Hnd & Hr & f & -> & Hf). unfold apply_divider_resize in Hs. cbn [tree focus ok_or mbind result_bind] in Hs.
    destruct (split_content_span_at _ _ _) as [[start len]|] eqn:Es; cbn [ok_or mbind result_bind] in Hs; [|done]. apply span_bounds in Es; [|done].
    destruct (set_ratio_at n path _) as [m|] eqn:E; cbn [ok_or mbind result_bind] in Hs; [|done]. destruct (violates_min_cell _ _ _); [done|]. injection Hs as <-.
    assert (Hl : leaves m = leaves n).
    { revert E. unfold set_ratio_at. generalize (clamp_ratio (f32_div (f32_from (Z.min (saturating_sub (match axis with SplitDir_Horizontal => pointer.1 | SplitDir_Vertical => pointer.2 end) start) len)) (f32_from len))).
      intros r. apply set_ratio_leaves. }
    eapply Hmove; [by rewrite Hl| |done|by rewrite Hl]. eapply set_ratio_ratios; [|exact Hr|exact E]. apply clamp_ratio_ok, quotient_not_nan; [|lia].
    unfold saturating_sub, u16_max in *. destruct (start <=? _) eqn:Ec; [apply Z.leb_le in Ec|]; lia.
  - intros _. by unfold apply_divider_resize in Hs.
Qed.

(** C25: No action breaks the layout. Through any sequence of splits, kills, closures, focus moves, keyboard resizes and drags that
    succeed, the panes of a window stay distinct, the focus stays on one of them (or is gone with the last), and every ratio stays a
    number strictly between 0 and 1. *)
Theorem actions_keep_the_layout st st' : rtc PaneStep st st' -> LayoutOk st -> LayoutOk st'.
Proof. induction 1 as [|st st1 st' Hs _ IH]; [done|]. intros H. by eapply IH, pane_step_ok. Qed.
Lemma actions_keep_the_layout_witness :
  exists st, rtc PaneStep (LayoutState_single (pane_n 1)) st /\ state_leaves st = [pane_n 2; pane_n 3] /\ LayoutOk st.
Proof.
  assert (H : exists st, rtc PaneStep (LayoutState_single (pane_n 1)) st /\ state_leaves st = [pane_n 2; pane_n 3]).
  { eexists. split.
    - eapply rtc_l; [eapply (Step_split _ (pane_n 2) SplitDir_Horizontal); [apply (bool_decide_unpack _); vm_compute; exact I|reflexivity]|].
      eapply rtc_l; [eapply (Step_split _ (pane_n 3) SplitDir_Vertical); [apply (bool_decide_unpack _); vm_compute; exact I|reflexivity]|].
      eapply rtc_l; [eapply (Step_closed _ (pane_n 1)); reflexivity|]. apply rtc_refl.
    - reflexivity. }
  destruct H as (st & H1 & H2). exists st. split; [exact H1|]. split; [exact H2|]. apply (actions_keep_the_layout _ _ H1).
  split; [apply (bool_decide_unpack _); vm_compute; exact I|]. split; [exact I|]. exists (pane_n 1). split; [reflexivity|]. apply (bool_decide_unpack _). vm_compute. exact I.
Defined.
