(* ===== verification/WindowsProofs.v ===== *)
(** * The client's windows and their envelope

    Every operation on the workspace keeps its selected window and its identities sound; pruning keeps the
    same window selected; a fresh name is fresh; what is persisted reads back as it was. *)

From stdpp Require Import gmap list.
From S2P Require Import Prelude Instances Enums Ids IdBridge Info Codec Float32 ClientLayout Tiling TilingProofs PaneActions ActionProofs.

(** ** The workspace *)

Record WorkspaceOk (ws : Workspace) : Prop := mkWorkspaceOk {
  wo_active : 0 <= active ws;
  wo_in_range : windows ws <> [] -> active ws < len (windows ws);
  wo_empty : windows ws = [] -> active ws = 0;
  wo_ids : NoDup (map win_id (windows ws));
  wo_zero : zero_id ∉ map win_id (windows ws)
}.
Section Steps.
  Context (sha256 : bytes -> bytes).
Inductive WorkspaceStep : Workspace -> Workspace -> Prop :=
| Ws_add ws fuel name seed ws' : add_window sha256 fuel ws name seed = Some ws' -> WorkspaceStep ws ws'
| Ws_prune ws : WorkspaceStep ws (prune_empty_windows ws).2
| Ws_next ws : WorkspaceStep ws (next_window ws)
| Ws_prev ws : WorkspaceStep ws (prev_window ws)
| Ws_select ws idx : 0 <= idx -> WorkspaceStep ws (select ws idx).2
| Ws_rename ws name : WorkspaceStep ws (rename_active ws name)
| Ws_edit ws f : WorkspaceStep ws (with_active_window f ws).

Lemma len_pos {A} (l : list A) : l <> [] -> 0 < len l.
Proof. destruct l; [done|]. unfold len. simpl. lia. Qed.
Lemma map_id_alter (f : WindowState -> WindowState) i l : (forall w, win_id (f w) = win_id w) -> map win_id (alter f i l) = map win_id l.
Proof. intros Hf. revert i. induction l as [|w l IH]; intros [|i]; simpl; [done..| |]; f_equal; [apply Hf|apply IH]. Qed.
Lemma fresh_id_loop_free fuel id ws id' : fresh_id_loop sha256 fuel id ws = Some id' -> id_taken id' ws = false.
Proof. revert id. induction fuel as [|fuel IH]; intros id; simpl; [done|]. destruct (id_taken id ws) eqn:E; [apply IH|]. by intros [= <-]. Qed.
Lemma id_taken_false id ws : id_taken id ws = false -> id <> zero_id /\ id ∉ map win_id ws.
Proof.
  unfold id_taken. intros [H1 H2]%orb_false_iff. apply bool_decide_eq_false in H1. split; [done|]. intros (w & -> & Hin)%list_elem_of_fmap.
  assert (H : existsb (fun w' => bool_decide (win_id w' = win_id w)) ws = true); [|by rewrite H in H2].
  apply existsb_exists. exists w. split; [by apply list_elem_of_In|]. by apply bool_decide_eq_true.
Qed.
(** The [while] of the search ends as soon as the hashes from the seed on have not all been taken. *)
Fixpoint rehashed (n : nat) (id : bytes) : list bytes := match n with O => [] | S n => id :: rehashed n (rehash sha256 id) end.
Lemma fresh_id_loop_ends fuel id ws : NoDup (rehashed fuel id) -> (S (length ws) < fuel)%nat -> is_Some (fresh_id_loop sha256 fuel id ws).
Proof.
  intros Hnd Hf. destruct (fresh_id_loop sha256 fuel id ws) eqn:E; [by eexists|exfalso].
  assert (Hall : forall x, x ∈ rehashed fuel id -> x ∈ zero_id :: map win_id ws).
  { clear Hnd Hf. revert id E. induction fuel as [|fuel IH]; intros id E x; simpl in *; [by intros ?%not_elem_of_nil|]. destruct (id_taken id ws) eqn:Et; [|done].
    rewrite elem_of_cons. intros [->|Hx]; [|by eapply IH]. unfold id_taken in Et. apply orb_true_iff in Et as [Et|Et].
    - apply bool_decide_eq_true in Et as ->. by left.
    - right. apply existsb_exists in Et as (w & Hin & Ew%bool_decide_eq_true). apply list_elem_of_fmap. exists w. split; [done|]. by apply list_elem_of_In. }
  assert (Hlen : (length (rehashed fuel id) <= length (zero_id :: map win_id ws))%nat).
  { apply NoDup_incl_length; [by apply NoDup_ListNoDup|]. intros x Hx%list_elem_of_In. apply list_elem_of_In. by apply Hall. }
  assert (El : forall n i, length (rehashed n i) = n) by (intros n; induction n as [|n IHn]; intros i; simpl; [done|by rewrite IHn]).
  rewrite El in Hlen. simpl in Hlen. rewrite length_map in Hlen. lia.
Qed.
Lemma filter_ids P ws : NoDup (map win_id ws) -> NoDup (map win_id (List.filter P ws)).
Proof.
  induction ws as [|w ws IH]; simpl; [done|]. intros [Hn Hnd]%NoDup_cons. destruct (P w); simpl; [|by apply IH].
  constructor; [|by apply IH]. intros (w' & E & Hin)%list_elem_of_fmap. apply Hn. apply list_elem_of_In, filter_In in Hin as [Hin _].
  rewrite E. apply list_elem_of_fmap. exists w'. split; [done|]. by apply list_elem_of_In.
Qed.
Lemma filter_sub P ws x : x ∈ map win_id (List.filter P ws) -> x ∈ map win_id ws.
Proof.
  intros (w & -> & Hin)%list_elem_of_fmap. apply list_elem_of_In, filter_In in Hin as [Hin _]. apply list_elem_of_fmap. exists w. split; [done|]. by apply list_elem_of_In.
Qed.
Lemma filter_take_le P (ws : list WindowState) k : len (List.filter P (take k ws)) <= len (List.filter P ws).
Proof. unfold len. rewrite <- (take_drop k ws) at 2. rewrite List.filter_app, length_app. lia. Qed.
(** The survivors before one: its place among the survivors. *)
Lemma filter_place P (ws : list WindowState) k w : ws !! k = Some w -> P w = true -> List.filter P ws !! length (List.filter P (take k ws)) = Some w.
Proof.
  revert k. induction ws as [|x ws IH]; intros [|k]; simpl; try done.
  - by intros [= ->] ->.
  - intros Hk Hw. destruct (P x); simpl; by apply IH.
Qed.
Lemma survivors_len ws : WorkspaceOk ws -> windows ws <> [] -> Z.to_nat (Z.min (active ws) (len (windows ws))) = Z.to_nat (active ws).
Proof. intros [H1 H2 _ _ _] Hne. specialize (H2 Hne). by rewrite Z.min_l by lia. Qed.
Lemma workspace_step_ok ws ws' : WorkspaceStep ws ws' -> WorkspaceOk ws -> WorkspaceOk ws'.
Proof.
  intros Hs Hok. pose proof Hok as [H1 H2 H3 H4 H5]. destruct Hs as [ws fuel name seed ws' Ha|ws|ws|ws|ws idx Hi|ws name|ws f].
  - unfold add_window, fresh_id in Ha. destruct (fresh_id_loop _ _ _ _) as [id|] eqn:E; cbn in Ha; [|done]. injection Ha as <-.
    apply fresh_id_loop_free, id_taken_false in E as [E1 E2]. assert (Hl : len (windows ws ++ [mkWindow id name (LayoutState_single seed)]) = len (windows ws) + 1).
    { unfold len. rewrite length_app. simpl. lia. }
    constructor; cbn [windows active]; rewrite ?Hl; [unfold len; lia|lia|intros Hc; by destruct (windows ws)| |].
    + rewrite map_app. apply NoDup_app. split; [done|]. split; [|apply NoDup_singleton]. intros x Hx ->%list_elem_of_singleton. by apply E2.
    + rewrite map_app, elem_of_app. intros [H|H%list_elem_of_singleton]; [done|]. by apply E1.
  - unfold prune_empty_windows. destruct (forallb _ _) eqn:Ef; [done|]. cbn [snd].
    assert (Hne : windows ws <> []) by (intros E; by rewrite E in Ef). rewrite survivors_len by done.
    set (wins := List.filter seeded (windows ws)). set (k := len (List.filter seeded (take _ _))).
    assert (Hk : 0 <= k <= len wins) by (split; [unfold k, len; lia|apply filter_take_le]).
    constructor; cbn [windows active]; [| | |by apply filter_ids|intros H; by apply filter_sub in H].
    + destruct (Z.eqb_spec (len wins) 0); [done|]. destruct (match window_at _ _ with Some _ => _ | None => _ end); unfold len in *; lia.
    + intros Hw. pose proof (len_pos _ Hw). destruct (Z.eqb_spec (len wins) 0); [lia|]. destruct (window_at ws (active ws)) as [w|] eqn:Ew; [|lia].
      destruct (seeded w) eqn:Es; [|lia]. pose proof (filter_place seeded _ _ _ Ew Es) as Hp. apply lookup_lt_Some in Hp. unfold k, wins, len. lia.
    + intros Hw. destruct (Z.eqb_spec (len wins) 0) as [|Hz]; [done|]. by rewrite Hw in Hz.
  - unfold next_window. destruct (Z.eqb_spec (len (windows ws)) 0); [done|]. assert (0 < len (windows ws)) by (unfold len in *; lia).
    pose proof (Z.mod_pos_bound (active ws + 1) (len (windows ws)) ltac:(lia)). constructor; cbn [windows active]; [lia|lia| |done|done]. intros E. by rewrite E in *.
  - unfold prev_window. destruct (Z.eqb_spec (len (windows ws)) 0); [done|]. assert (0 < len (windows ws)) by (unfold len in *; lia).
    pose proof (Z.mod_pos_bound (active ws + len (windows ws) - 1) (len (windows ws)) ltac:(lia)). constructor; cbn [windows active]; [lia|lia| |done|done]. intros E. by rewrite E in *.
  - unfold select. destruct (Z.ltb_spec idx (len (windows ws))); [|done]. constructor; cbn [windows active snd]; [done|done| |done|done]. intros E. rewrite E in *. unfold len in *. simpl in *. lia.
  - unfold rename_active. constructor; cbn [windows active]; rewrite ?map_id_alter by done; [done| | |done|done].
    + intros Hne. unfold len. rewrite length_alter. apply H2. intros E. by rewrite E in Hne.
    + intros E. apply H3. destruct (windows ws); [done|]. by destruct (Z.to_nat (active ws)).
  - unfold with_active_window. constructor; cbn [windows active]; rewrite ?map_id_alter by done; [done| | |done|done].
    + intros Hne. unfold len. rewrite length_alter. apply H2. intros E. by rewrite E in Hne.
    + intros E. apply H3. destruct (windows ws); [done|]. by destruct (Z.to_nat (active ws)).
Qed.
Lemma prune_keeps_selection ws w : WorkspaceOk ws -> window_at ws (active ws) = Some w -> seeded w = true ->
  window_at (prune_empty_windows ws).2 (active (prune_empty_windows ws).2) = Some w.
Proof.
  intros Hok Ew Es. unfold prune_empty_windows. destruct (forallb _ _) eqn:Ef; [done|]. cbn [snd].
  assert (Hne : windows ws <> []) by (intros E; by rewrite E in Ef). rewrite survivors_len, Ew, Es by done.
  pose proof (filter_place seeded _ _ _ Ew Es) as Hp. pose proof (lookup_lt_Some _ _ _ Hp). unfold window_at. cbn [windows active].
  destruct (Z.eqb_spec (len (List.filter seeded (windows ws))) 0); [unfold len in *; lia|]. unfold len. by rewrite Nat2Z.id.
Qed.
Lemma prev_next ws : WorkspaceOk ws -> prev_window (next_window ws) = ws.
Proof.
  intros [H1 H2 H3 _ _]. unfold next_window. destruct (Z.eqb_spec (len (windows ws)) 0) as [E|E]; unfold prev_window; [by rewrite E|]. cbn [windows active].
  destruct (Z.eqb_spec (len (windows ws)) 0); [done|]. destruct ws as [wins act]. cbn in *. f_equal. assert (Hne : wins <> []) by (by intros ->). specialize (H2 Hne).
  rewrite Z.add_sub_swap, Z.add_mod, Z_mod_same_full, Z.add_0_r, Z.mod_mod by lia.
  replace ((act + 1) mod len wins - 1) with ((act + 1) mod len wins + (-1)) by lia. rewrite Zplus_mod_idemp_l. replace (act + 1 + -1) with act by lia. by apply Z.mod_small.
Qed.

(** The set of windows stays sound. Whatever a client adds, closes, selects, cycles through, renames or edits, in any order, the
    selected index names a window whenever there is one, and the windows' identities stay distinct and nonzero; dropping the
    windows that lost their last pane leaves the selected window selected if it survives; and a step back undoes a step forward. *)
Theorem windows_stay_sound ws ws' : rtc WorkspaceStep ws ws' -> WorkspaceOk ws ->
  WorkspaceOk ws'
  /\ (forall w, window_at ws' (active ws') = Some w -> seeded w = true ->
       window_at (prune_empty_windows ws').2 (active (prune_empty_windows ws').2) = Some w)
  /\ prev_window (next_window ws') = ws'.
Proof.
  intros Hs Hok. assert (Hok' : WorkspaceOk ws'); [|split; [done|]; split; [intros w; by apply prune_keeps_selection|by apply prev_next]].
  induction Hs as [|ws ws1 ws2 Hs _ IH]; [done|]. by eapply IH, workspace_step_ok.
Qed.
End Steps.

(** ** Names *)

Lemma digit_bounds n : 48 <= 48 + n mod 10 <= 57.
Proof. pose proof (Z.mod_pos_bound n 10). lia. Qed.
Lemma parse_decimal_digits fuel n rest : 0 <= n < 10 ^ Z.of_nat fuel -> n <= u32_max -> (fuel <> O) -> parse_digits 0 (decimal_digits fuel n ++ rest) = parse_digits n rest.
Proof.
  revert n rest. induction fuel as [|fuel IH]; intros n rest Hn Hm Hf; [done|]. cbn [decimal_digits].
  pose proof (digit_bounds n) as Hd. pose proof (Z.div_mod n 10 ltac:(lia)) as Ed.
  assert (Hstep : forall acc, acc = n / 10 -> parse_digits acc ([48 + n mod 10] ++ rest) = parse_digits n rest).
  { intros acc ->. simpl. destruct (Z.leb_spec 48 (48 + n mod 10)); [|lia]. destruct (Z.leb_spec (48 + n mod 10) 57); [|lia]. cbn [andb].
    replace (n / 10 * 10 + (48 + n mod 10 - 48)) with n by lia. by destruct (Z.leb_spec n u32_max); [|lia]. }
  destruct (Z.ltb_spec n 10).
  - rewrite app_nil_l. apply Hstep. symmetry. apply Z.div_small. lia.
  - rewrite <- app_assoc. destruct fuel as [|fuel]; [simpl in Hn; lia|]. rewrite IH; [by apply Hstep| | |done].
    + split; [apply Z.div_pos; lia|]. apply Z.div_lt_upper_bound; [lia|]. rewrite <- Z.pow_succ_r, <- Nat2Z.inj_succ by lia. lia.
    + assert (n / 10 <= n) by (apply Z.div_le_upper_bound; lia). lia.
Qed.
Lemma decimal_head n : exists b bs, decimal n = b :: bs /\ 48 <= b.
Proof.
  unfold decimal. assert (H : forall fuel m, exists b bs, decimal_digits (S fuel) m = b :: bs /\ 48 <= b).
  { intros fuel. induction fuel as [|fuel IH]; intros m; pose proof (digit_bounds m).
    - exists (48 + m mod 10), []. split; [cbn [decimal_digits]; by destruct (m <? 10)|lia].
    - change (decimal_digits (S (S fuel)) m) with ((if m <? 10 then [] else decimal_digits (S fuel) (m / 10)) ++ [48 + m mod 10]).
      destruct (m <? 10); [exists (48 + m mod 10), []; split; [done|lia]|]. destruct (IH (m / 10)) as (b & bs & -> & Hb). by exists b, (bs ++ [48 + m mod 10]). }
  apply H.
Qed.
Lemma parse_decimal n : 0 <= n <= u32_max -> parse_u32 (decimal n) = Some n.
Proof.
  intros Hn. assert (E : parse_digits 0 (decimal n) = Some n).
  { unfold decimal. rewrite <- (app_nil_r (decimal_digits 20 n)). rewrite parse_decimal_digits; [done| |lia|done]. unfold u32_max in Hn. change (10 ^ Z.of_nat 20) with 100000000000000000000. lia. }
  destruct (decimal_head n) as (b & bs & Eb & Hb). rewrite Eb in *. unfold parse_u32. destruct b as [|p|p]; [lia| |lia]. do 6 (destruct p as [p|p|]; try done; try lia).
Qed.
Lemma first_unused_spec fuel used n m : first_unused fuel used n = Some m -> n <= m <= u32_max /\ m ∉ used.
Proof.
  revert n. induction fuel as [|fuel IH]; intros n; simpl; [done|]. destruct (Z.ltb_spec u32_max n); [done|]. case_bool_decide; [|by intros [= <-]].
  intros H1%IH. destruct H1. split; [lia|done].
Qed.
Lemma first_unused_finds fuel used n : first_unused fuel used n = None -> n + Z.of_nat fuel <= u32_max -> forall i, n <= i < n + Z.of_nat fuel -> i ∈ used.
Proof.
  revert n. induction fuel as [|fuel IH]; intros n; cbn [first_unused]; [lia|]. destruct (Z.ltb_spec u32_max n); [lia|]. case_bool_decide as Hin; [|done].
  intros Hn Hu i Hi. destruct (Z.eq_dec i n) as [->|]; [done|]. apply (IH (n + 1)); [done|lia|lia].
Qed.
(** The name a new window is given is no window's, as long as there are not four billion of them. *)
Lemma default_window_name_unused ws : len (windows ws) + 2 <= u32_max -> forall w, w ∈ windows ws -> win_name w <> default_window_name ws.
Proof.
  intros Hl w Hw E. unfold default_window_name in E. set (used := omap (fun w => parse_u32 (win_name w)) (windows ws)) in *.
  destruct (first_unused (S (length (windows ws))) used 1) as [n|] eqn:En.
  - apply first_unused_spec in En as [Hn Hu]. apply Hu. unfold used. apply list_elem_of_omap. exists w. split; [done|]. rewrite E. simpl. apply parse_decimal. lia.
  - pose proof (first_unused_finds _ _ _ En) as H. unfold len in Hl. specialize (H ltac:(lia)).
    assert (Hlen : (length (seqZ 1 (Z.of_nat (S (length (windows ws))))) <= length used)%nat).
    { apply NoDup_incl_length; [apply NoDup_ListNoDup, NoDup_seqZ|]. intros x Hx%list_elem_of_In%elem_of_seqZ. apply list_elem_of_In, H. lia. }
    rewrite length_seqZ in Hlen. assert (length used <= length (windows ws))%nat; [|lia]. unfold used. clear. induction (windows ws) as [|x l IH]; simpl; [done|].
    unfold omap in IH. destruct (parse_u32 (win_name x)); simpl; lia.
Qed.

(** ** The envelope *)

(** What [into_layout_node] accepts. *)
Fixpoint ratios_accepted (n : LayoutNode) : Prop :=
  match n with
  | LayoutNode_Leaf _ => True
  | LayoutNode_Split _ r lft rgt => f32_is_finite r && (f32_le (f32_from 0) r && f32_le r (f32_from 1)) = true /\ ratios_accepted lft /\ ratios_accepted rgt
  end.
(** Every valid layout is accepted. *)
Lemma ratios_ok_accepted n : ratios_ok n -> ratios_accepted n.
Proof.
  induction n as [p|d r lft IHl rgt IHr]; simpl; [done|]. intros (Hr & H2 & H3). split; [|auto]. rewrite ratio_ok_finite by done. cbn [andb].
  pose proof Hr as [Hr1 Hr2]. pose proof (f32_unit_interval r) as E. change (2 ^ 32) with 4294967296 in E.
  replace ((0 <? r) && (r <? 1065353216)) with true in E by (symmetry; apply andb_true_iff; split; apply Z.ltb_lt; lia).
  specialize (E ltac:(lia)). apply orb_false_iff in E as [[_ E1]%orb_false_iff E2]. pose proof (ratio_ok_finite r Hr) as Hf.
  unfold f32_le, f32_is_finite in *. change (f32_view (f32_from 0)) with (F32_fin false 0 (pow2 149)) in *.
  change (f32_view (f32_from 1)) with (F32_fin false 8388608 (pow2 23)) in *. destruct (f32_view r) as [| |s m e]; [done..|].
  apply Z.leb_gt in E1, E2. unfold signed_num in *. apply andb_true_iff. split; apply Z.leb_le; lia.
Qed.
Lemma cbor_id_back t : of_cbor_id (to_cbor_id t) = t.
Proof. by destruct t. Qed.
Lemma cbor_node_back n : ratios_accepted n -> into_layout_node (to_cbor_node n) = Ok n.
Proof.
  induction n as [p|d r lft IHl rgt IHr]; simpl; [by rewrite cbor_id_back|]. intros ([H1 H2]%andb_true_iff & H3 & H4). rewrite H1, H2. cbn [negb orb].
  rewrite IHl, IHr by done. cbn [mbind result_bind]. by destruct d.
Qed.
Lemma cbor_node_accepted n m : into_layout_node n = Ok m -> ratios_accepted m.
Proof.
  revert m. induction n as [p|d r lft IHl rgt IHr]; intros m; simpl; [by intros [= <-]|]. destruct (f32_is_finite r) eqn:E1; cbn [negb orb]; [|done].
  destruct (f32_le (f32_from 0) r && f32_le r (f32_from 1)) eqn:E2; cbn [negb]; [|done]. destruct (into_layout_node lft) as [l|]; cbn; [|done].
  destruct (into_layout_node rgt) as [r'|]; cbn; [|done]. intros [= <-]. simpl. rewrite E1, E2. eauto.
Qed.
(** The identities the decoder accepts. *)
Lemma validate_ids_spec seen ws :
  validate_ids seen ws = Ok tt <-> zero_id ∉ map win_id ws /\ NoDup (map win_id ws) /\ (forall x, x ∈ map win_id ws -> x ∉ seen).
Proof.
  revert seen. induction ws as [|w ws IH]; intros seen; simpl.
  - split; [intros _; split_and!; [by apply not_elem_of_nil|constructor|by intros x ?%not_elem_of_nil]|done].
  - rewrite not_elem_of_cons, NoDup_cons. case_bool_decide as H1; cbn [orb]; [split; [done|]; intros ([Hz _] & _); by destruct Hz|].
    case_bool_decide as H2; [split; [done|]; intros (_ & _ & Hs); exfalso; eapply Hs; [by left|done]|]. rewrite IH. split.
    + intros (Hz & Hn & Hs). split_and!; [done|done| |done|].
      * intros Hin. apply (Hs _ Hin). by left.
      * intros x [->|Hx]%elem_of_cons; [done|]. intros Hc. apply (Hs _ Hx). by right.
    + intros ((Hz1 & Hz2) & (Hn1 & Hn2) & Hs). split_and!; [done|done|]. intros x Hx [->|Hc]%elem_of_cons; [done|]. eapply Hs; [by right|done].
Qed.
Section Envelope.
  Context `{C : Cbor}.
Definition window_ready (w : WindowState) : Prop :=
  match tree (win_state w), focus (win_state w) with Some n, Some _ => ratios_accepted n | _, _ => False end.
(** How deep a window's splits nest. *)
Fixpoint split_depth (n : LayoutNode) : Z :=
  match n with LayoutNode_Leaf _ => 0 | LayoutNode_Split _ _ lft rgt => 1 + Z.max (split_depth lft) (split_depth rgt) end.
Definition window_depth (w : WindowState) : Z := match tree (win_state w) with Some n => split_depth n | None => 0 end.
Lemma node_nesting_depth n : node_nesting (to_cbor_node n) = 4 + 2 * split_depth n.
Proof. induction n as [p|d r lft IHl rgt IHr]; simpl; lia. Qed.
(** The deepest splits that fit. *)
Definition MAX_SPLIT_DEPTH : Z := 123.
Lemma envelope_fits v i ws cs : envelope_windows ws = Ok cs -> Forall (fun w => window_depth w <= MAX_SPLIT_DEPTH) ws ->
  envelope_nesting (mkEnvelope v cs i) <= CBOR_RECURSION_LIMIT.
Proof.
  unfold envelope_nesting, CBOR_RECURSION_LIMIT, MAX_SPLIT_DEPTH. cbn [env_windows].
  revert cs. induction ws as [|w ws IH]; intros cs; simpl; [intros [= <-]; simpl; lia|].
  destruct (bool_decide _); [done|]. destruct (tree (win_state w)) as [n|] eqn:Et; [|done]. destruct (focus (win_state w)); [|done].
  destruct (envelope_windows ws) as [rest|]; cbn [mbind result_bind]; [|done]. intros [= <-] [Hw Hws]%Forall_cons. unfold window_depth in Hw. rewrite Et in Hw. specialize (IH rest eq_refl Hws).
  cbn [foldr cw_root]. rewrite node_nesting_depth. cbv beta in Hw. cbn [foldr env_windows] in IH. lia.
Qed.
Lemma envelope_windows_back ws : zero_id ∉ map win_id ws -> Forall window_ready ws ->
  exists cs, envelope_windows ws = Ok cs /\ decode_windows cs = Ok ws.
Proof.
  induction ws as [|w ws IH]; simpl; intros Hz Hw; [by exists []|]. apply Forall_cons in Hw as [Hw Hws]. rewrite not_elem_of_cons in Hz. destruct Hz as [Hz1 Hz2].
  rewrite bool_decide_eq_false_2 by done. destruct w as [id name [[n|] [f|]]]; unfold window_ready in Hw; cbn [tree focus win_state] in *; try done.
  destruct IH as (cs & -> & Ecs); [done|done|]. eexists. cbn [mbind result_bind]. split; [done|]. cbn. rewrite cbor_node_back by done. cbn. rewrite Ecs. cbn.
  by rewrite cbor_id_back.
Qed.
Lemma decode_windows_ready cs ws : decode_windows cs = Ok ws -> Forall window_ready ws.
Proof.
  revert ws. induction cs as [|c cs IH]; intros ws; simpl; [by intros [= <-]|]. destruct (into_layout_node (cw_root c)) as [n|] eqn:E; cbn; [|done].
  destruct (decode_windows cs) as [rest|]; cbn; [|done]. intros [= <-]. constructor; [|by apply IH]. unfold window_ready. cbn. by eapply cbor_node_accepted.
Qed.

(** C19: A client's windows survive being stored. Whatever sound workspace is written to the server, empty or not, reads back as the very
    same windows, panes, ratios, names, identities, focus and selection, as long as no window's splits nest deeper than 123 (the CBOR
    reader gives up at 256 nested items, which the writer does not check); and whatever bytes a client is handed, what it adopts has
    distinct nonzero identities, a selection in range, and ratios it can tile; an envelope of another version is refused by name. *)
Theorem workspace_round_trip ws bs :
  (WorkspaceOk ws -> Forall window_ready (windows ws) -> Forall (fun w => window_depth w <= MAX_SPLIT_DEPTH) (windows ws) ->
     active ws <= u32_max -> encode_topology_cbor ws = Ok bs -> decode_cbor bs = Ok ws)
  /\ (forall ws', decode_cbor bs = Ok ws' -> cbor_read_version bs = Ok LAYOUT_ENVELOPE_VERSION
        /\ NoDup (map win_id (windows ws')) /\ zero_id ∉ map win_id (windows ws') /\ Forall window_ready (windows ws')
        /\ (windows ws' <> [] -> active ws' < len (windows ws')))
  /\ (forall v, cbor_read_version bs = Ok v -> v <> LAYOUT_ENVELOPE_VERSION -> decode_cbor bs = Err (UnsupportedVersion v)).
Proof.
  split_and!.
  - intros [H1 H2 H3 H4 H5] Hr Hd Ha. unfold encode_topology_cbor. destruct (envelope_windows_back (windows ws) H5 Hr) as (cs & Ec & Ecs).
    pose proof (fun v i => envelope_fits v i _ _ Ec Hd) as Hfit. rewrite Ec. cbn [mbind result_bind].
    destruct (Z.leb_spec (active ws) u32_max); [|lia]. destruct (cbor_write _) as [b|] eqn:Ew; [|done]. intros [= <-]. unfold decode_cbor, decode_current.
    rewrite (cbor_version _ _ (Hfit _ _) Ew), (cbor_round_trip _ _ (Hfit _ _) Ew). cbn [cbor_err mbind result_bind env_version env_windows env_focused_index negb]. rewrite Ecs. cbn.
    assert (Ev : validate_ids [] (windows ws) = Ok tt) by (apply validate_ids_spec; split_and!; [done|done|intros x _; by apply not_elem_of_nil]). rewrite Ev. cbn.
    destruct ws as [wins act]. cbn in *. do 2 f_equal. unfold saturating_sub. destruct wins as [|w wins]; [specialize (H3 eq_refl) as ->; done|].
    specialize (H2 ltac:(done)). destruct (Z.leb_spec 1 (len (w :: wins))); [lia|]. unfold len in *. simpl in *. lia.
  - intros ws' Hd. unfold decode_cbor in Hd. destruct (cbor_read_version bs) as [v|]; cbn in Hd; [|done]. destruct (Z.eqb_spec v LAYOUT_ENVELOPE_VERSION) as [Hv|Hv]; cbn in Hd; [|done].
    unfold decode_current in Hd. destruct (cbor_read bs) as [e|]; cbn in Hd; [|done]. destruct (decode_windows (env_windows e)) as [wins|] eqn:Ew; cbn in Hd; [|done].
    destruct (validate_ids [] wins) as [[]|] eqn:Ev; cbn in Hd; [|done]. injection Hd as <-. apply validate_ids_spec in Ev as (E1 & E2 & _). cbn [windows active].
    split_and!; [by rewrite Hv|done|done|by eapply decode_windows_ready|]. intros Hne. pose proof (len_pos _ Hne). unfold saturating_sub. destruct (Z.leb_spec 1 (len wins)); lia.
  - intros v Hv Hn. unfold decode_cbor. rewrite Hv. cbn. destruct (Z.eqb_spec v LAYOUT_ENVELOPE_VERSION); done.
Qed.
End Envelope.

(** ** Concrete runs *)

(** An envelope as a tree with countable leaves: one executable codec. *)
Fixpoint cbor_tree (n : CborLayoutNode) : gen_tree (ResourceId + Z) :=
  match n with
  | CborLayoutNode_Leaf pane => GenLeaf (inl (of_cbor_id pane))
  | CborLayoutNode_Split dir ratio lft rgt =>
      GenNode (match dir with CborSplitDir_Horizontal => 0 | CborSplitDir_Vertical => 1 end)%nat [GenLeaf (inr ratio); cbor_tree lft; cbor_tree rgt]
  end.
Fixpoint tree_cbor (t : gen_tree (ResourceId + Z)) : CborLayoutNode :=
  match t with
  | GenLeaf (inl pane) => CborLayoutNode_Leaf (to_cbor_id pane)
  | GenNode k [GenLeaf (inr ratio); lft; rgt] =>
      CborLayoutNode_Split (match k with O => CborSplitDir_Horizontal | _ => CborSplitDir_Vertical end) ratio (tree_cbor lft) (tree_cbor rgt)
  | _ => CborLayoutNode_Leaf (CborResourceId_Local 0)
  end.
Definition window_parts (w : CborWindow) : bytes * bytes * gen_tree (ResourceId + Z) * ResourceId :=
  (cw_id w, cw_name w, cbor_tree (cw_root w), of_cbor_id (cw_focused w)).
Definition parts_window (w : bytes * bytes * gen_tree (ResourceId + Z) * ResourceId) : CborWindow :=
  match w with (id, name, root, focused) => mkCborWindow id name (tree_cbor root) (to_cbor_id focused) end.
Definition envelope_parts (e : CborWorkspaceEnvelope) := (env_version e, map window_parts (env_windows e), env_focused_index e).
Definition parts_envelope '((v, ws, i) : Z * list (bytes * bytes * gen_tree (ResourceId + Z) * ResourceId) * Z) := mkEnvelope v (map parts_window ws) i.
Lemma tree_cbor_tree n : tree_cbor (cbor_tree n) = n.
Proof. induction n as [[]|[] r lft IHl rgt IHr]; simpl; congruence. Qed.
Lemma parts_window_parts w : parts_window (window_parts w) = w.
Proof. destruct w as [i n root []]; cbn; by rewrite tree_cbor_tree. Qed.
Lemma parts_envelope_parts e : parts_envelope (envelope_parts e) = e.
Proof.
  destruct e as [v ws i]. cbn. f_equal. rewrite map_map. rewrite <- (map_id ws) at 2. apply map_ext, parts_window_parts.
Qed.
Definition toy_read (bs : bytes) : result bytes CborWorkspaceEnvelope :=
  match of_digits bs with Some t => Ok (parts_envelope t) | None => Err (str "invalid") end.
#[export] Program Instance toy_cbor : Cbor := {|
  cbor_write e := Ok (to_digits (envelope_parts e));
  cbor_read := toy_read;
  cbor_read_version bs := match toy_read bs with Ok e => Ok (env_version e) | Err e => Err e end
|}.
Next Obligation. intros e bs _ [= <-]. unfold toy_read. by rewrite of_to_digits, parts_envelope_parts. Qed.
Next Obligation. intros e bs _ [= <-]. unfold toy_read. by rewrite of_to_digits, parts_envelope_parts. Qed.

(** A hash for the runs: the last sixteen bytes are what differs. *)
Definition toy_sha (bs : bytes) : bytes := rev (take 16 (rev bs ++ repeat 7 16)).
Definition two_windows : Workspace :=
  mkWorkspace [mkWindow (repeat 1 16) (str "1") (mkLayout (Some three_panes) (Some (pane_n 2))); mkWindow (repeat 2 16) (str "2") (LayoutState_single (pane_n 9))] 1.
Lemma two_windows_ok : WorkspaceOk two_windows.
Proof.
  constructor; [by vm_compute|intros _; by vm_compute|done| |].
  - apply NoDup_ListNoDup, NoDup_ListNoDup. cbn. repeat constructor; set_unfold; intros H; repeat (destruct H as [H|H] || done).
  - cbn. set_unfold. intros H; repeat (destruct H as [H|H] || done).
Defined.
Lemma two_windows_ready : Forall window_ready (windows two_windows).
Proof. repeat constructor; vm_compute; reflexivity. Defined.
Lemma workspace_round_trip_witness :
  match encode_topology_cbor two_windows with Ok bs => decode_cbor bs = Ok two_windows | Err _ => False end
  /\ decode_cbor [0] <> decode_cbor (to_digits (envelope_parts (mkEnvelope 2 [] 0))).
Proof.
  split.
  - destruct (encode_topology_cbor two_windows) as [bs|e] eqn:E; [|vm_compute in E; discriminate E].
    destruct (workspace_round_trip two_windows bs) as (H & _ & _). apply H; [exact two_windows_ok|exact two_windows_ready|repeat constructor; by vm_compute|vm_compute; discriminate|exact E].
  - destruct (workspace_round_trip two_windows (to_digits (envelope_parts (mkEnvelope 2 [] 0)))) as (_ & _ & H).
    rewrite (H 2); [|vm_compute; reflexivity|discriminate]. vm_compute. discriminate.
Defined.
(** A third window is opened, the selection moves on, and the second window loses its pane. *)
Definition emptied (_ : LayoutState) : LayoutState := mkLayout None None.
Lemma windows_stay_sound_witness :
  exists ws', rtc (WorkspaceStep toy_sha) two_windows ws' /\ len (windows ws') = 2 /\ active ws' = 0 /\ WorkspaceOk ws' /\ prev_window (next_window ws') = ws'.
Proof.
  destruct (add_window toy_sha 5 two_windows (str "3") (pane_n 4)) as [w1|] eqn:E1; [|vm_compute in E1; discriminate E1].
  set (w2 := with_active_window emptied (prev_window w1)). exists (next_window (prune_empty_windows w2).2).
  assert (Hs : rtc (WorkspaceStep toy_sha) two_windows (next_window (prune_empty_windows w2).2)).
  { eapply rtc_l; [eapply Ws_add, E1|]. eapply rtc_l; [apply Ws_prev|]. eapply rtc_l; [apply (Ws_edit _ _ emptied)|]. eapply rtc_l; [apply Ws_prune|].
    eapply rtc_l; [apply Ws_next|apply rtc_refl]. }
  destruct (windows_stay_sound toy_sha two_windows _ Hs two_windows_ok) as (H1 & _ & H3).
  split; [exact Hs|]. vm_compute in E1. injection E1 as <-. split; [vm_compute; reflexivity|]. split; [vm_compute; reflexivity|]. split; [exact H1|exact H3].
Defined.
