(* ===== verification/Predict.v ===== *)
(** * Predictive local echo

    What a client shows of a keystroke before the server answers
    ([phux-client-core/src/predict/state.rs], [reconcile.rs], [overlay.rs]): the queue of guesses with the cursor estimate,
    the match of the queue against the authoritative cells, the display policy, and the overlay's bytes. The segmentation of
    text and the widths of characters are external ([Unicode]). Then what the attach driver does with the predictor
    ([phux-tui/src/attach/pane_state.rs], [server_frame/handler.rs], [input_dispatch/dispatch.rs]), and what runs of it promise: where
    the guesses are, when they are shown on the alternate screen, and that typing at a program that echoes is confirmed without a
    flicker. *)

From stdpp Require Import list.
From S2P Require Import Prelude Enums Ids Codec ClientLayout Tiling.

(** ** State *)

(** [unicode-segmentation] and [unicode-width]. *)
Class Unicode := {
  graphemes : bytes -> list bytes;
  str_width : bytes -> nat;
  char_width : Z -> option nat
}.

(* phux-client-core/src/predict/state.rs PredictionKind *)
Inductive PredictionKind : Type := Kind_Insert | Kind_BackspaceEol | Kind_Newline | Kind_CursorLeft | Kind_CursorRight.
#[export] Instance PredictionKind_eq_dec : EqDecision PredictionKind.
Proof. solve_decision. Defined.
(* phux-client-core/src/predict/state.rs Prediction *)
Record Prediction : Type := mkPrediction { p_row : Z; p_col : Z; p_text : bytes; p_width : Z; p_kind : PredictionKind; queued_at_ms : Z }.
(* phux-client-core/src/predict/state.rs PredictionOutcome *)
Inductive PredictionOutcome : Type := Predicted | Skipped | Disabled.
(* phux-client-core/src/predict/state.rs PredictiveConfig *)
Record PredictiveConfig : Type := mkPredictiveConfig { enabled : bool }.
(* phux-client-core/src/predict/state.rs PredictionState *)
Record PredictionState : Type := mkPredictionState {
  cfg : PredictiveConfig; pending : list Prediction; cursor_row : Z; cursor_col : Z; cols : Z; rows : Z;
  prompt_boundary : option (Z * Z); suspended : bool; contradiction_streak : Z; clean_confirm_streak : Z;
  tentative : bool; alt_screen : bool; echo_confirmed : bool
}.
(* phux-client-core/src/predict/state.rs BACKOFF_THRESHOLD *)
Definition BACKOFF_THRESHOLD : Z := 3.
(* phux-client-core/src/predict/state.rs REARM_THRESHOLD *)
Definition REARM_THRESHOLD : Z := 2.
(* phux-client-core/src/predict/state.rs DISPLAY_TTL_MS *)
Definition DISPLAY_TTL_MS : Z := 1000.
Definition saturating_add32 (a b : Z) : Z := Z.min u32_max (a + b).

(** Assignments to fields. *)
Definition with_queue (q : list Prediction) (b : option (Z * Z)) (s : PredictionState) : PredictionState :=
  mkPredictionState (cfg s) q (cursor_row s) (cursor_col s) (cols s) (rows s) b (suspended s) (contradiction_streak s) (clean_confirm_streak s)
    (tentative s) (alt_screen s) (echo_confirmed s).
Definition with_cursor (row col : Z) (s : PredictionState) : PredictionState :=
  mkPredictionState (cfg s) (pending s) row col (cols s) (rows s) (prompt_boundary s) (suspended s) (contradiction_streak s) (clean_confirm_streak s)
    (tentative s) (alt_screen s) (echo_confirmed s).
Definition with_size (c r : Z) (s : PredictionState) : PredictionState :=
  mkPredictionState (cfg s) (pending s) (cursor_row s) (cursor_col s) c r (prompt_boundary s) (suspended s) (contradiction_streak s) (clean_confirm_streak s)
    (tentative s) (alt_screen s) (echo_confirmed s).
Definition with_suspended (x : bool) (s : PredictionState) : PredictionState :=
  mkPredictionState (cfg s) (pending s) (cursor_row s) (cursor_col s) (cols s) (rows s) (prompt_boundary s) x (contradiction_streak s) (clean_confirm_streak s)
    (tentative s) (alt_screen s) (echo_confirmed s).
Definition with_streaks (x y : Z) (t : bool) (s : PredictionState) : PredictionState :=
  mkPredictionState (cfg s) (pending s) (cursor_row s) (cursor_col s) (cols s) (rows s) (prompt_boundary s) (suspended s) x y t (alt_screen s) (echo_confirmed s).
Definition with_alt (a : bool) (s : PredictionState) : PredictionState :=
  mkPredictionState (cfg s) (pending s) (cursor_row s) (cursor_col s) (cols s) (rows s) (prompt_boundary s) (suspended s) (contradiction_streak s)
    (clean_confirm_streak s) (tentative s) a (echo_confirmed s).
Definition with_echo (e : bool) (s : PredictionState) : PredictionState :=
  mkPredictionState (cfg s) (pending s) (cursor_row s) (cursor_col s) (cols s) (rows s) (prompt_boundary s) (suspended s) (contradiction_streak s)
    (clean_confirm_streak s) (tentative s) (alt_screen s) e.

(* phux-client-core/src/predict/state.rs PredictionState::new *)
Definition PredictionState_new (c : PredictiveConfig) (cs rs : Z) : PredictionState :=
  mkPredictionState c [] 0 0 cs rs None false 0 0 false false false.
(* phux-client-core/src/predict/state.rs PredictionState::suspend *)
Definition suspend (s : PredictionState) : PredictionState := with_suspended true (with_queue [] None s).
(* phux-client-core/src/predict/state.rs PredictionState::set_viewport *)
Definition set_viewport (c r : Z) (s : PredictionState) : PredictionState :=
  let s := with_queue [] (prompt_boundary s) (with_size c r s) in
  let s := with_cursor (Z.min (cursor_row s) (saturating_sub r 1)) (Z.min (cursor_col s) (saturating_sub c 1)) s in
  with_echo false (with_queue (pending s) None s).
(* phux-client-core/src/predict/state.rs PredictionState::set_alt_screen *)
Definition set_alt_screen (alt : bool) (s : PredictionState) : PredictionState :=
  if Bool.eqb alt (alt_screen s) then s else with_echo false (with_queue [] None (with_alt alt s)).
(* phux-client-core/src/predict/state.rs PredictionState::set_cursor *)
Definition set_cursor (row col : Z) (s : PredictionState) : PredictionState :=
  let new_row := Z.min row (saturating_sub (rows s) 1) in
  let boundary := match prompt_boundary s with Some (brow, bcol) => if brow =? new_row then Some (brow, bcol) else None | None => None end in
  with_suspended false (with_cursor new_row (Z.min col (saturating_sub (cols s) 1)) (with_queue (pending s) boundary s)).
(* phux-client-core/src/predict/state.rs PredictionState::clear *)
Definition clear (s : PredictionState) : PredictionState := with_echo false (with_queue [] None s).
(* phux-client-core/src/predict/state.rs PredictionState::confirm_echo *)
Definition confirm_echo (s : PredictionState) : PredictionState := with_echo true s.
(* phux-client-core/src/predict/state.rs PredictionState::pop_front *)
Definition pop_front (s : PredictionState) : PredictionState := with_queue (tail (pending s)) (prompt_boundary s) s.
(* phux-client-core/src/predict/state.rs PredictionState::enter_tentative *)
Definition enter_tentative (s : PredictionState) : PredictionState :=
  with_streaks (contradiction_streak s) 0 true (with_queue [] None s).
(* phux-client-core/src/predict/reconcile.rs ReconcileStats *)
Record ReconcileStats : Type := mkStats { s_confirmed : Z; s_contradicted : Z; s_pending : Z }.
(* phux-client-core/src/predict/state.rs PredictionState::note_reconcile *)
Definition note_reconcile (stats : ReconcileStats) (s : PredictionState) : PredictionState :=
  if 0 <? s_contradicted stats then
    let s := with_streaks (saturating_add32 (contradiction_streak s) 1) 0 (tentative s) s in
    if BACKOFF_THRESHOLD <=? contradiction_streak s then enter_tentative s else s
  else if 0 <? s_confirmed stats then
    let s := with_streaks 0 (saturating_add32 (clean_confirm_streak s) 1) (tentative s) s in
    if tentative s && (REARM_THRESHOLD <=? clean_confirm_streak s) then with_streaks (contradiction_streak s) 0 false s else s
  else s.
(* phux-client-core/src/predict/state.rs PredictionState::should_display *)
Definition should_display (s : PredictionState) (now_ms : Z) : bool :=
  match pending s with
  | [] => false
  | front :: _ =>
      if tentative s then false
      else if alt_screen s && negb (echo_confirmed s) then false
      else saturating_sub now_ms (queued_at_ms front) <=? DISPLAY_TTL_MS
  end.
(* phux-client-core/src/predict/state.rs PredictionState::displayable *)
Definition displayable (s : PredictionState) (now_ms : Z) : list Prediction := if should_display s now_ms then pending s else [].

(** ** Which keys are predicted *)

(* phux-protocol/src/input/key.rs:53-60 ModSet *)
Definition ModSet_CTRL : Z := 2.
Definition ModSet_ALT : Z := 4.
Definition ModSet_SUPER : Z := 8.
(** [ModSet::CTRL | ModSet::ALT | ModSet::SUPER] meets the set. *)
Definition blocking_mods (mods : Z) : bool := negb (Z.land mods (Z.lor ModSet_CTRL (Z.lor ModSet_ALT ModSet_SUPER)) =? 0).
(** The first [char] of valid UTF-8 text: [chars().next()]. *)
Definition first_char (text : bytes) : option Z :=
  match text with
  | [] => None
  | b :: r =>
      let cont i := Z.land (nth i r 0) 0x3f in
      Some (if b <? 0x80 then b
            else if b <? 0xe0 then Z.land b 0x1f * 64 + cont 0%nat
            else if b <? 0xf0 then (Z.land b 0x0f * 64 + cont 0%nat) * 64 + cont 1%nat
            else ((Z.land b 0x07 * 64 + cont 0%nat) * 64 + cont 1%nat) * 64 + cont 2%nat)
  end.
(** [char::is_control]: the category Cc. *)
Definition is_control (c : Z) : bool := (c <? 0x20) || ((0x7f <=? c) && (c <=? 0x9f)).
(* phux-client-core/src/predict/state.rs is_mode_changing_input *)
Definition is_mode_changing_input (event : KeyEvent) : bool :=
  if bool_decide (key_key event = PhysicalKey_Backspace) || bool_decide (key_key event = PhysicalKey_Enter) then false
  else if blocking_mods (key_mods event) then true
  else match key_text event with
       | None | Some [] => true
       | Some text => match first_char text with Some c => is_control c | None => false end
       end.
(* phux-client-core/src/predict/state.rs is_safe_predictable *)
Definition is_safe_predictable (c : Z) : bool := if c <? 0x20 then false else if c =? 0x7f then false else true.
(* phux-client-core/src/predict/state.rs is_safe_predictable_cluster *)
Definition is_safe_predictable_cluster (cluster : bytes) : bool := match first_char cluster with Some c => is_safe_predictable c | None => false end.

Section Keys.
  Context `{U : Unicode}.

Definition capped_width (w : nat) : option Z := match w with O => None | _ => Some (Z.min (Z.of_nat w) 2) end.
(* phux-client-core/src/predict/state.rs grapheme_width *)
Definition grapheme_width (ch : Z) : option Z := w ← char_width ch; capped_width w.
(* phux-client-core/src/predict/state.rs cluster_width *)
Definition cluster_width (cluster : bytes) : option Z := capped_width (str_width cluster).

Definition space : bytes := [32].
Definition push (p : Prediction) (s : PredictionState) : PredictionState := with_queue (pending s ++ [p]) (prompt_boundary s) s.

(* phux-client-core/src/predict/state.rs PredictionState::predict_enter *)
Definition predict_enter (now_ms : Z) (s : PredictionState) : PredictionOutcome * PredictionState :=
  if cursor_col s =? 0 then (Skipped, s)
  else if (rows s =? 0) || (rows s <=? saturating_add16 (cursor_row s) 1) then (Skipped, s)
  else
    let s := push (mkPrediction (cursor_row s) (cursor_col s) [10] 0 Kind_Newline now_ms) s in
    let s := with_cursor (saturating_add16 (cursor_row s) 1) 0 s in
    (Predicted, with_queue (pending s) None s).
(* phux-client-core/src/predict/state.rs PredictionState::predict_insert *)
Definition predict_insert (cluster : bytes) (width now_ms : Z) (s : PredictionState) : PredictionOutcome * PredictionState :=
  if (cols s =? 0) || (rows s =? 0) || (rows s <=? cursor_row s) then (Skipped, s)
  else if width =? 0 then (Skipped, s)
  else
    let end_col := saturating_add16 (cursor_col s) width in
    if cols s <=? end_col then (Skipped, s)
    else
      let boundary :=
        match prompt_boundary s with
        | Some (brow, bcol) => if brow =? cursor_row s then Some (brow, bcol) else Some (cursor_row s, cursor_col s)
        | None => Some (cursor_row s, cursor_col s)
        end in
      let s := push (mkPrediction (cursor_row s) (cursor_col s) cluster width Kind_Insert now_ms) (with_queue (pending s) boundary s) in
      (Predicted, with_cursor (cursor_row s) end_col s).
(* phux-client-core/src/predict/state.rs PredictionState::predict_backspace_eol *)
Definition predict_backspace_eol (now_ms : Z) (s : PredictionState) : PredictionOutcome * PredictionState :=
  if cursor_col s =? 0 then (Skipped, s)
  else if (rows s =? 0) || (rows s <=? cursor_row s) then (Skipped, s)
  else if match prompt_boundary s with Some (brow, bcol) => (brow =? cursor_row s) && (cursor_col s <=? bcol) | None => false end then (Skipped, s)
  else
    let new_col := cursor_col s - 1 in
    (Predicted, with_cursor (cursor_row s) new_col (push (mkPrediction (cursor_row s) new_col space 1 Kind_BackspaceEol now_ms) s)).
(** The [while col > bcol]: [n] columns are left. *)
(* phux-client-core/src/predict/state.rs:877-888 predict_kill_to_boundary *)
Fixpoint erase_run (n : nat) (row col now_ms : Z) : list Prediction :=
  match n with
  | O => []
  | S n => mkPrediction row (col - 1) space 1 Kind_BackspaceEol now_ms :: erase_run n row (col - 1) now_ms
  end.
(* phux-client-core/src/predict/state.rs PredictionState::predict_kill_to_boundary *)
Definition predict_kill_to_boundary (now_ms : Z) (s : PredictionState) : PredictionOutcome * PredictionState :=
  if (rows s =? 0) || (rows s <=? cursor_row s) then (Skipped, s)
  else match prompt_boundary s with
       | None => (Skipped, s)
       | Some (brow, bcol) =>
           if negb (brow =? cursor_row s) || (cursor_col s <=? bcol) then (Skipped, s)
           else
             let q := pending s ++ erase_run (Z.to_nat (cursor_col s - bcol)) (cursor_row s) (cursor_col s) now_ms in
             (Predicted, with_cursor (cursor_row s) bcol (with_queue q (prompt_boundary s) s))
       end.
(* phux-client-core/src/predict/state.rs PredictionState::predict_arrow_left *)
Definition predict_arrow_left (read_cell : Z -> Z -> option Z) (now_ms : Z) (s : PredictionState) : PredictionOutcome * PredictionState :=
  if cursor_col s =? 0 then (Skipped, s)
  else if (rows s =? 0) || (rows s <=? cursor_row s) then (Skipped, s)
  else
    let probe_col := cursor_col s - 1 in
    match read_cell (cursor_row s) probe_col with
    | None => (Skipped, s)
    | Some ch =>
        match grapheme_width ch with
        | None => (Skipped, s)
        | Some advance =>
            if advance =? 0 then (Skipped, s)
            else
              match (if advance =? 1 then Some probe_col else if advance <=? cursor_col s then Some (cursor_col s - advance) else None) with
              | None => (Skipped, s)
              | Some new_col =>
                  (Predicted, with_cursor (cursor_row s) new_col (push (mkPrediction (cursor_row s) new_col space 0 Kind_CursorLeft now_ms) s))
              end
        end
    end.
(* phux-client-core/src/predict/state.rs PredictionState::predict_arrow_right *)
Definition predict_arrow_right (read_cell : Z -> Z -> option Z) (now_ms : Z) (s : PredictionState) : PredictionOutcome * PredictionState :=
  if (cols s =? 0) || (cols s <=? cursor_col s) then (Skipped, s)
  else if (rows s =? 0) || (rows s <=? cursor_row s) then (Skipped, s)
  else
    match read_cell (cursor_row s) (cursor_col s) with
    | None => (Skipped, s)
    | Some ch =>
        match grapheme_width ch with
        | None => (Skipped, s)
        | Some advance =>
            if advance =? 0 then (Skipped, s)
            else
              let new_col := saturating_add16 (cursor_col s) advance in
              if cols s <=? new_col then (Skipped, s)
              else (Predicted, with_cursor (cursor_row s) new_col (push (mkPrediction (cursor_row s) new_col space 0 Kind_CursorRight now_ms) s))
        end
    end.
(* phux-client-core/src/predict/state.rs PredictionState::predict_enter_unless_alt_screen *)
Definition predict_enter_unless_alt_screen (now_ms : Z) (s : PredictionState) : PredictionOutcome * PredictionState :=
  if alt_screen s then (Skipped, suspend s) else predict_enter now_ms s.
(* phux-client-core/src/predict/state.rs PredictionState::predict_printable_cluster *)
Definition predict_printable_cluster (event : KeyEvent) (now_ms : Z) (s : PredictionState) : PredictionOutcome * PredictionState :=
  match key_text event with
  | None => (Skipped, s)
  | Some text =>
      match graphemes text with
      | [cluster] =>
          if negb (is_safe_predictable_cluster cluster) then (Skipped, s)
          else match cluster_width cluster with Some width => predict_insert cluster width now_ms s | None => (Skipped, s) end
      | _ => (Skipped, s)
      end
  end.
(* phux-client-core/src/predict/state.rs PredictionState::reject_unpredictable_context *)
Definition reject_unpredictable_context (event : KeyEvent) (s : PredictionState) : option PredictionOutcome * PredictionState :=
  if negb (enabled (cfg s)) then (Some Disabled, s)
  else if negb (bool_decide (key_action event = KeyAction_Press)) then (Some Skipped, s)
  else if alt_screen s && is_mode_changing_input event then (Some Skipped, with_echo false (suspend s))
  else if suspended s then (Some Skipped, s)
  else (None, s).
(* phux-client-core/src/predict/state.rs PredictionState::predict_key_with_grid_at *)
Definition predict_key_with_grid_at (event : KeyEvent) (now_ms : Z) (read_cell : Z -> Z -> option Z) (s : PredictionState)
    : PredictionOutcome * PredictionState :=
  match reject_unpredictable_context event s with
  | (Some outcome, s) => (outcome, s)
  | (None, s) =>
      if bool_decide (key_key event = PhysicalKey_U) && (key_mods event =? ModSet_CTRL) then predict_kill_to_boundary now_ms s
      else if blocking_mods (key_mods event) then (Skipped, s)
      else if bool_decide (key_key event = PhysicalKey_Backspace) then predict_backspace_eol now_ms s
      else if bool_decide (key_key event = PhysicalKey_Enter) then predict_enter_unless_alt_screen now_ms s
      else if bool_decide (key_key event = PhysicalKey_ArrowLeft) then predict_arrow_left read_cell now_ms s
      else if bool_decide (key_key event = PhysicalKey_ArrowRight) then predict_arrow_right read_cell now_ms s
      else predict_printable_cluster event now_ms s
  end.
(* phux-client-core/src/predict/state.rs PredictionState::predict_key_at *)
Definition predict_key_at (event : KeyEvent) (now_ms : Z) (s : PredictionState) := predict_key_with_grid_at event now_ms (fun _ _ => None) s.
(* phux-client-core/src/predict/state.rs PredictionState::predict_key *)
Definition predict_key (event : KeyEvent) (s : PredictionState) := predict_key_with_grid_at event 0 (fun _ _ => None) s.
End Keys.

(** ** The match against authoritative cells *)

(* phux-client-core/src/predict/reconcile.rs Verdict *)
Inductive Verdict : Type := Verdict_Confirmed | Verdict_Pending | Verdict_Contradicted.
(** No grapheme, or a space. *)
Definition is_blank (actual : option bytes) : bool := match actual with None => true | Some c => bool_decide (c = space) end.
(* phux-client-core/src/predict/reconcile.rs classify_insert *)
Definition classify_insert (predicted : bytes) (actual : option bytes) : Verdict :=
  if bool_decide (actual = Some predicted) then Verdict_Confirmed else if is_blank actual then Verdict_Pending else Verdict_Contradicted.
(* phux-client-core/src/predict/reconcile.rs classify_backspace *)
Definition classify_backspace (actual : option bytes) : Verdict := if is_blank actual then Verdict_Confirmed else Verdict_Contradicted.
(* phux-client-core/src/predict/reconcile.rs classify_newline *)
Definition classify_newline (pred_row cursor_row : Z) : Verdict := if pred_row <? cursor_row then Verdict_Confirmed else Verdict_Contradicted.
(* phux-client-core/src/predict/reconcile.rs classify_cursor_left *)
Definition classify_cursor_left (pred_row pred_col cursor_row cursor_col : Z) : Verdict :=
  if (cursor_row =? pred_row) && (cursor_col =? pred_col) then Verdict_Confirmed
  else if (cursor_row =? pred_row) && (pred_col <? cursor_col) then Verdict_Pending
  else Verdict_Contradicted.
(* phux-client-core/src/predict/reconcile.rs classify_cursor_right *)
Definition classify_cursor_right (pred_row pred_col cursor_row cursor_col : Z) : Verdict :=
  if (cursor_row =? pred_row) && (cursor_col =? pred_col) then Verdict_Confirmed
  else if (cursor_row =? pred_row) && (cursor_col <? pred_col) then Verdict_Pending
  else Verdict_Contradicted.
(* phux-client-core/src/predict/reconcile.rs:99-111 reconcile_terminal_output_per_cell *)
Definition verdict_of (p : Prediction) (cursor_row cursor_col : Z) (read_cell : Z -> Z -> option bytes) : Verdict :=
  match p_kind p with
  | Kind_Insert => classify_insert (p_text p) (read_cell (p_row p) (p_col p))
  | Kind_BackspaceEol => classify_backspace (read_cell (p_row p) (p_col p))
  | Kind_Newline => classify_newline (p_row p) cursor_row
  | Kind_CursorLeft => classify_cursor_left (p_row p) (p_col p) cursor_row cursor_col
  | Kind_CursorRight => classify_cursor_right (p_row p) (p_col p) cursor_row cursor_col
  end.
(** A confirmation that proves the program echoes. *)
Definition is_echo_evidence (p : Prediction) : bool := bool_decide (p_kind p = Kind_Insert) && negb (bool_decide (p_text p = space)).
(** The [loop]; a round drops the front or ends it, so [fuel] is the length of the queue. *)
(* phux-client-core/src/predict/reconcile.rs:82-139 reconcile_terminal_output_per_cell *)
Fixpoint reconcile_loop (fuel : nat) (cursor_row cursor_col : Z) (read_cell : Z -> Z -> option bytes) (summary : ReconcileStats) (s : PredictionState)
    : ReconcileStats * PredictionState :=
  match fuel, pending s with
  | S fuel, front :: _ =>
      match verdict_of front cursor_row cursor_col read_cell with
      | Verdict_Confirmed =>
          let summary := mkStats (s_confirmed summary + 1) (s_contradicted summary) (s_pending summary) in
          let s := if is_echo_evidence front then confirm_echo s else s in
          reconcile_loop fuel cursor_row cursor_col read_cell summary (pop_front s)
      | Verdict_Pending => (mkStats (s_confirmed summary) (s_contradicted summary) (len (pending s)), s)
      | Verdict_Contradicted => (mkStats (s_confirmed summary) (len (pending s)) (s_pending summary), clear s)
      end
  | _, _ => (summary, s)
  end.
(* phux-client-core/src/predict/reconcile.rs reconcile_terminal_output_per_cell *)
Definition reconcile_terminal_output_per_cell (s : PredictionState) (cursor_row cursor_col : Z) (read_cell : Z -> Z -> option bytes)
    : ReconcileStats * PredictionState :=
  let '(summary, s) := reconcile_loop (length (pending s)) cursor_row cursor_col read_cell (mkStats 0 0 0) s in
  let s := match pending s with [] => set_cursor cursor_row cursor_col s | _ => s end in
  (summary, note_reconcile summary s).

(** ** The overlay *)

Definition ESC : bytes := [27].
(* phux-client-core/src/predict/overlay.rs write_cup *)
Definition write_cup (row col : Z) : bytes :=
  ESC ++ str "[" ++ decimal (saturating_add16 row 1) ++ str ";" ++ decimal (saturating_add16 col 1) ++ str "H".
Definition paints_no_cell (k : PredictionKind) : bool :=
  match k with Kind_Newline | Kind_CursorLeft | Kind_CursorRight => true | Kind_Insert | Kind_BackspaceEol => false end.
(** The bytes of one prediction. *)
(* phux-client-core/src/predict/overlay.rs:75-89 render *)
Definition paint_one (origin : Z * Z) (p : Prediction) : bytes :=
  write_cup (saturating_add16 (p_row p) origin.2) (saturating_add16 (p_col p) origin.1)
    ++ ESC ++ str "[0m" ++ ESC ++ str "[4m" ++ p_text p ++ ESC ++ str "[0m".
(** The count and the bytes; the writer does not fail. *)
(* phux-client-core/src/predict/overlay.rs Overlay::render *)
Fixpoint render (q : list Prediction) (origin : Z * Z) : Z * bytes :=
  match q with
  | [] => (0, [])
  | p :: q =>
      let '(count, out) := render q origin in
      if paints_no_cell (p_kind p) then (count, out) else (count + 1, paint_one origin p ++ out)
  end.

(** ** What the driver does with it *)

Section Driver.
  Context `{U : Unicode}.
(** What the driver knows of the focused pane: its grid, the cursor it last rendered, and where it is on the screen. *)
(* phux-tui/src/attach/pane_state.rs:464-474 reanchor_predict_to_pane *)
Record PaneView : Type := mkPaneView { geometry : Z * Z; last_cursor_local : option (Z * Z); last_origin : Z * Z }.
(* phux-tui/src/attach/pane_state.rs reanchor_predict_to_pane *)
Definition reanchor_predict_to_pane (slot : option PaneView) (s : PredictionState) : PredictionState :=
  match slot with
  | None => suspend s
  | Some slot =>
      let '(c, r) := geometry slot in
      let s := if (0 <? c) && (0 <? r) then set_viewport c r s else clear s in
      match last_cursor_local slot with Some (row, col) => set_cursor row col s | None => suspend s end
  end.
(** The part that speaks to the predictor, once the focused pane has a replica and a slot. *)
(* phux-tui/src/attach/input_dispatch/dispatch.rs:1095-1119 feed_predict *)
Definition feed_predict (event : KeyEvent) (alt : bool) (now_ms : Z) (read_cell : Z -> Z -> option Z) (s : PredictionState) : bool * PredictionState :=
  if negb (enabled (cfg s)) then (false, s)
  else
    let '(outcome, s) := predict_key_with_grid_at event now_ms read_cell (set_alt_screen alt s) in
    (match outcome with Predicted => true | _ => false end, s).
(** After the focused pane was painted: [cursor] is [None] when the program hides it. *)
(* phux-tui/src/attach/server_frame/handler.rs:959-986 paint_focused_interior *)
Definition reconcile_focused (alt : bool) (cursor : option (Z * Z)) (read_cell : Z -> Z -> option bytes) (s : PredictionState) : PredictionState :=
  let s := set_alt_screen alt s in
  match cursor with
  | Some (row, col) => (reconcile_terminal_output_per_cell s row col read_cell).2
  | None => clear s
  end.
(* phux-tui/src/attach/input_dispatch/dispatch.rs paint_predictions *)
Definition paint_predictions (s : PredictionState) (now_ms : Z) (origin : Z * Z) : bytes :=
  if should_display s now_ms then (render (pending s) origin).2 else [].
End Driver.

(** * Runs of the predictor *)

(** ** Runs *)

Section Runs.
  Context `{U : Unicode}.

Inductive PredictEvent : Type :=
| Ev_Key (event : KeyEvent) (alt : bool) (now_ms : Z) (read_cell : Z -> Z -> option Z)
| Ev_Output (alt : bool) (cursor : option (Z * Z)) (read_cell : Z -> Z -> option bytes)
| Ev_Reanchor (slot : option PaneView)
| Ev_Resize (c r : Z).
Definition apply_event (s : PredictionState) (e : PredictEvent) : PredictionState :=
  match e with
  | Ev_Key event alt now_ms read_cell => (feed_predict event alt now_ms read_cell s).2
  | Ev_Output alt cursor read_cell => reconcile_focused alt cursor read_cell s
  | Ev_Reanchor slot => reanchor_predict_to_pane slot s
  | Ev_Resize c r => set_viewport c r s
  end.
Definition run_events (es : list PredictEvent) (s : PredictionState) : PredictionState := fold_left apply_event es s.

(** ** Evidence *)

(** What makes earlier evidence worthless: a screen switch, a command key on the alternate screen, a contradicted guess, a program that
    hides its cursor, another pane, another size. *)
Definition revokes (s : PredictionState) (e : PredictEvent) : bool :=
  match e with
  | Ev_Key event alt _ _ =>
      enabled (cfg s) && (negb (Bool.eqb alt (alt_screen s)) || (bool_decide (key_action event = KeyAction_Press) && (alt && is_mode_changing_input event)))
  | Ev_Output alt cursor read_cell =>
      negb (Bool.eqb alt (alt_screen s))
      || match cursor with
         | None => true
         | Some (row, col) => 0 <? s_contradicted (reconcile_terminal_output_per_cell s row col read_cell).1
         end
  | Ev_Reanchor slot => bool_decide (is_Some slot)
  | Ev_Resize _ _ => true
  end.
(** The program has painted, where it was guessed, what was guessed; and the guess was not blank. *)
Definition proves_echo (s : PredictionState) (e : PredictEvent) : Prop :=
  match e with
  | Ev_Output alt (Some _) read_cell =>
      alt = alt_screen s /\ exists p, p ∈ pending s /\ p_kind p = Kind_Insert /\ p_text p <> space /\ read_cell (p_row p) (p_col p) = Some (p_text p)
  | _ => False
  end.

Ltac unfold_setters := unfold push, clear, suspend, set_cursor, set_viewport, confirm_echo, pop_front, enter_tentative, with_queue, with_cursor, with_size, with_suspended, with_streaks, with_alt, with_echo in *.
Ltac split_ifs := repeat (case_match; simplify_eq/=; try done).

Lemma evidence_of p read_cell r c : is_echo_evidence p = true -> verdict_of p r c read_cell = Verdict_Confirmed ->
  p_kind p = Kind_Insert /\ p_text p <> space /\ read_cell (p_row p) (p_col p) = Some (p_text p).
Proof.
  unfold is_echo_evidence. intros [H1%bool_decide_eq_true H2%negb_true_iff%bool_decide_eq_false]%andb_true_iff. unfold verdict_of, classify_insert. rewrite H1.
  case_bool_decide; [done|]. by destruct (is_blank _).
Qed.
(** The loop's verdict on the whole queue. *)
Lemma reconcile_loop_echo fuel r c read_cell sm s sm' s' : reconcile_loop fuel r c read_cell sm s = (sm', s') -> echo_confirmed s' = true ->
  s_contradicted sm' = s_contradicted sm
  /\ (echo_confirmed s = true \/ exists p, p ∈ pending s /\ p_kind p = Kind_Insert /\ p_text p <> space /\ read_cell (p_row p) (p_col p) = Some (p_text p)).
Proof.
  revert sm s. induction fuel as [|fuel IH]; intros sm s; simpl; [intros [= <- <-]; auto|]. destruct (pending s) as [|p q] eqn:Eq; [intros [= <- <-]; auto|].
  destruct (verdict_of p r c read_cell) eqn:Ev.
  - intros H He. destruct (IH _ _ H He) as [H1 H2]. split; [done|]. destruct (is_echo_evidence p) eqn:Ee.
    + right. exists p. split; [by left|]. by eapply evidence_of.
    + destruct H2 as [H2|(p' & Hp & H2)]; [by left|]. right. exists p'. split; [|done]. unfold pop_front in Hp. simpl in Hp. rewrite Eq in Hp. by right.
  - intros [= <- <-]. auto.
  - intros [= <- <-]. done.
Qed.
Lemma note_reconcile_frame stats s :
  echo_confirmed (note_reconcile stats s) = echo_confirmed s /\ alt_screen (note_reconcile stats s) = alt_screen s /\ cfg (note_reconcile stats s) = cfg s
  /\ rows (note_reconcile stats s) = rows s /\ cols (note_reconcile stats s) = cols s /\ cursor_row (note_reconcile stats s) = cursor_row s
  /\ cursor_col (note_reconcile stats s) = cursor_col s /\ suspended (note_reconcile stats s) = suspended s
  /\ (pending (note_reconcile stats s) = pending s /\ prompt_boundary (note_reconcile stats s) = prompt_boundary s
      \/ pending (note_reconcile stats s) = [] /\ prompt_boundary (note_reconcile stats s) = None).
Proof. unfold note_reconcile. unfold_setters. cbn. repeat case_match; cbn in *; split_and!; auto. Qed.
Lemma set_cursor_frame r c s : echo_confirmed (set_cursor r c s) = echo_confirmed s /\ alt_screen (set_cursor r c s) = alt_screen s
  /\ cfg (set_cursor r c s) = cfg s /\ pending (set_cursor r c s) = pending s /\ tentative (set_cursor r c s) = tentative s.
Proof. done. Qed.
Lemma reconcile_echo s r c read_cell : echo_confirmed (reconcile_terminal_output_per_cell s r c read_cell).2 = true ->
  s_contradicted (reconcile_terminal_output_per_cell s r c read_cell).1 = 0
  /\ (echo_confirmed s = true \/ exists p, p ∈ pending s /\ p_kind p = Kind_Insert /\ p_text p <> space /\ read_cell (p_row p) (p_col p) = Some (p_text p)).
Proof.
  unfold reconcile_terminal_output_per_cell. destruct (reconcile_loop _ _ _ _ _ _) as [sm s'] eqn:El. cbn [fst snd].
  destruct (note_reconcile_frame sm (match pending s' with [] => set_cursor r c s' | _ :: _ => s' end)) as (-> & _). intros He.
  assert (He' : echo_confirmed s' = true) by (by destruct (pending s')). by destruct (reconcile_loop_echo _ _ _ _ _ _ _ _ El He').
Qed.

(** A keystroke leaves everything but the queue, the cursor, the anchor, the burst and the evidence alone. *)
Lemma predict_key_frame event now read_cell s o s' : predict_key_with_grid_at event now read_cell s = (o, s') ->
  alt_screen s' = alt_screen s /\ cfg s' = cfg s /\ tentative s' = tentative s /\ rows s' = rows s /\ cols s' = cols s
  /\ contradiction_streak s' = contradiction_streak s /\ clean_confirm_streak s' = clean_confirm_streak s
  /\ (echo_confirmed s' = true -> echo_confirmed s = true
      /\ (enabled (cfg s) = true -> key_action event = KeyAction_Press -> alt_screen s && is_mode_changing_input event = false)).
Proof.
  unfold predict_key_with_grid_at, reject_unpredictable_context.
  destruct (enabled (cfg s)) eqn:E1; cbn [negb]; [|intros [= <- <-]; split_and!; done].
  case_bool_decide as E2; cbn [negb]; [|intros [= <- <-]; split_and!; done].
  destruct (alt_screen s && is_mode_changing_input event) eqn:E3; [intros [= <- <-]; split_and!; done|].
  assert (Hk : forall x : PredictionOutcome * PredictionState, x = (o, s') ->
    (alt_screen x.2 = alt_screen s /\ cfg x.2 = cfg s /\ tentative x.2 = tentative s /\ rows x.2 = rows s /\ cols x.2 = cols s
     /\ contradiction_streak x.2 = contradiction_streak s /\ clean_confirm_streak x.2 = clean_confirm_streak s /\ echo_confirmed x.2 = echo_confirmed s) ->
    alt_screen s' = alt_screen s /\ cfg s' = cfg s /\ tentative s' = tentative s /\ rows s' = rows s /\ cols s' = cols s
    /\ contradiction_streak s' = contradiction_streak s /\ clean_confirm_streak s' = clean_confirm_streak s
    /\ (echo_confirmed s' = true -> echo_confirmed s = true /\ (true = true -> key_action event = KeyAction_Press -> false = false))).
  { intros x -> (H1 & H2 & H3 & H4 & H5 & H6 & H7 & H8). cbn in *. rewrite H8. split_and!; done. }
  destruct (suspended s); [intros [= <- <-]; split_and!; done|]. intros H. apply Hk in H; [exact H|]. clear H Hk E1 E2 E3 o s'.
  unfold predict_kill_to_boundary, predict_backspace_eol, predict_enter_unless_alt_screen, predict_enter, predict_arrow_left, predict_arrow_right,
    predict_printable_cluster, predict_insert.
  destruct (_ && _); [repeat case_match; done|]. repeat case_match; done.
Qed.

Lemma set_alt_screen_alt alt s : alt_screen (set_alt_screen alt s) = alt /\ cfg (set_alt_screen alt s) = cfg s.
Proof. unfold set_alt_screen. destruct (Bool.eqb alt (alt_screen s)) eqn:E; [apply Bool.eqb_prop in E; by subst|done]. Qed.
Lemma set_alt_screen_echo alt s : echo_confirmed (set_alt_screen alt s) = true -> alt = alt_screen s /\ set_alt_screen alt s = s.
Proof. unfold set_alt_screen. destruct (Bool.eqb alt (alt_screen s)) eqn:E; [by apply Bool.eqb_prop in E|done]. Qed.
(** After one event there is evidence only if there was and nothing revoked it, or if the event is the evidence. *)
Lemma evidence_step s e : echo_confirmed (apply_event s e) = true -> (echo_confirmed s = true \/ proves_echo s e) /\ revokes s e = false.
Proof.
  destruct e as [event alt now read_cell|alt cursor read_cell|slot|c r]; simpl.
  - unfold feed_predict. destruct (enabled (cfg s)) eqn:E1; cbn [negb andb]; [|intros He; by split; [left|]].
    destruct (predict_key_with_grid_at _ _ _ _) as [o s'] eqn:Ek. cbn [snd]. intros He. apply predict_key_frame in Ek as (_ & _ & _ & _ & _ & _ & _ & Ek).
    destruct (Ek He) as [H1 H2]. destruct (set_alt_screen_echo _ _ H1) as [-> E]. rewrite E in *. split; [by left|]. rewrite eqb_reflx. cbn [negb orb].
    case_bool_decide as Ea; [|done]. cbn [andb]. by apply H2.
  - unfold reconcile_focused. destruct cursor as [[row col]|].
    + intros He. destruct (reconcile_echo _ _ _ _ He) as [H1 H2]. destruct (Bool.eqb alt (alt_screen s)) eqn:E.
      * unfold set_alt_screen in *. rewrite E in *. apply Bool.eqb_prop in E. cbn [negb orb]. rewrite H1. split; [|done]. destruct H2 as [H2|H2]; [by left|]. by right.
      * exfalso. unfold set_alt_screen in H2. rewrite E in H2. cbn in H2. destruct H2 as [H2|(p & Hp & _)]; [done|]. by apply not_elem_of_nil in Hp.
    + by intros He.
  - unfold reanchor_predict_to_pane. destruct slot as [[[c r] cur o]|]; [|intros He; by split; [left|]]. cbn. intros He. exfalso.
    destruct (_ && _), cur as [[]|]; done.
  - intros He. done.
Qed.

(** *** The focused pane

    The predictor knows no pane. The driver keeps which one is focused, sends it that pane's keys and output, and tells it of most
    moves of the focus ([reanchor_predict_to_pane]); adopting a layout another client wrote, folding a pane that closed and opening a
    window move the focus and tell it nothing ([server_frame/handler.rs] [adopt_workspace], [handle_terminal_closed],
    [open_adopted_window] and the reply to a new window's spawn). *)
Record Driver : Type := mkDriver { focused : option ResourceId; predictor : PredictionState }.
Inductive DriverEvent : Type :=
| D_predict (e : PredictEvent)
| D_focus (pane : ResourceId) (slot : option PaneView)
| D_move (pane : option ResourceId).
Definition apply_driver (d : Driver) (x : DriverEvent) : Driver :=
  match x with
  | D_predict e => mkDriver (focused d) (apply_event (predictor d) e)
  | D_focus pane slot => mkDriver (Some pane) (reanchor_predict_to_pane slot (predictor d))
  | D_move pane => mkDriver pane (predictor d)
  end.
Definition run_driver (xs : list DriverEvent) (d : Driver) : Driver := fold_left apply_driver xs d.
Definition driver_revokes (d : Driver) (x : DriverEvent) : bool :=
  match x with D_predict e => revokes (predictor d) e | D_focus _ slot => bool_decide (is_Some slot) | D_move _ => false end.
(** A move of the focus that leaves the evidence: one the predictor is not told of, or to a pane that has no slot yet. *)
Definition silent (x : DriverEvent) : Prop := match x with D_move _ | D_focus _ None => True | _ => False end.

Lemma run_driver_snoc xs x d : run_driver (xs ++ [x]) d = apply_driver (run_driver xs d) x.
Proof. unfold run_driver. by rewrite fold_left_app. Qed.
Lemma driver_evidence_step d x : echo_confirmed (predictor (apply_driver d x)) = true ->
  (echo_confirmed (predictor d) = true \/ exists e, x = D_predict e /\ proves_echo (predictor d) e) /\ driver_revokes d x = false.
Proof.
  destruct x as [e|pane slot|pane]; cbn [apply_driver predictor driver_revokes]; [| |by intros ?; split; [left|]].
  - intros [[H|H] Hr]%evidence_step; (split; [|exact Hr]); [by left|right; by exists e].
  - intros [[H|H] Hr]%(evidence_step _ (Ev_Reanchor slot)); [|done]. split; [by left|exact Hr].
Qed.
Lemma focus_kept d x : driver_revokes d x = false -> ~ silent x -> focused (apply_driver d x) = focused d.
Proof. destruct x as [e|pane [slot|]|pane]; [done| |by intros ? []..]. by cbn. Qed.

(** C27: On the alternate screen a guess is shown only on evidence that the program echoes. Whatever keys, output, resizes and moves of
    the focus come, in any order: when a guess is shown on the alternate screen, there was an output after which the screen held,
    where it was guessed, exactly a non-blank character that had been guessed and was still pending; and since then the predictor has
    seen no command key on the alternate screen, no contradicted guess, no switch of screen, no resize, no hidden cursor and no anchoring to a pane
    that has a slot. That output was of the pane that is focused now, unless the focus has since moved without the predictor being
    anchored anew, which the driver lets happen (see [evidence_follows_the_focus]). *)
Theorem alt_screen_guesses_are_earned pane c cs rs xs now_ms :
  let d0 := mkDriver pane (PredictionState_new c cs rs) in
  let d := run_driver xs d0 in
  should_display (predictor d) now_ms = true -> alt_screen (predictor d) = true ->
  exists pre e post, xs = pre ++ D_predict e :: post /\ proves_echo (predictor (run_driver pre d0)) e
    /\ (forall pre' x post', D_predict e :: post = pre' ++ x :: post' -> driver_revokes (run_driver (pre ++ pre') d0) x = false)
    /\ ((forall x, x ∈ post -> ~ silent x) -> focused (run_driver pre d0) = focused d).
Proof.
  intros d0 d Hd Ha. assert (He : echo_confirmed (predictor d) = true).
  { unfold should_display in Hd. destruct (pending _); [done|]. destruct (tentative _); [done|]. rewrite Ha in Hd. by destruct (echo_confirmed _). }
  subst d. clear Hd Ha. induction xs as [|x xs IH] using rev_ind; [done|]. rewrite run_driver_snoc in *.
  pose proof (driver_evidence_step _ _ He) as [[He'|(e & -> & Hp)] Hr].
  - destruct (IH He') as (pre & e0 & post & -> & Hp & Hpost & Hf). exists pre, e0, (post ++ [x]). split; [by rewrite <- app_assoc|]. split; [done|]. split.
    + intros pre' x' post' E. destruct post' as [|y post' _] using rev_ind.
      * rewrite app_comm_cons in E. apply app_inj_tail in E as [<- <-]. exact Hr.
      * rewrite app_comm_cons, app_comm_cons, app_assoc in E. apply app_inj_tail in E as [E _]. by eapply Hpost.
    + intros Hs. rewrite (focus_kept _ x); [|exact Hr|apply Hs, elem_of_app; right; left]. apply Hf. intros y Hy. apply Hs, elem_of_app. by left.
  - exists xs, e, []. split; [done|]. split; [exact Hp|]. split; [|done]. intros pre' x' post' E. destruct pre' as [|y pre']; [|by destruct pre'].
    injection E as <- _. rewrite app_nil_r. exact Hr.
Qed.
(** ** Where the guesses are *)

(** The cell a guess leaves the cursor in, and where the cursor was when it was made. *)
Definition lands (p : Prediction) : Z * Z :=
  match p_kind p with
  | Kind_Insert => (p_row p, p_col p + p_width p)
  | Kind_Newline => (p_row p + 1, 0)
  | _ => (p_row p, p_col p)
  end.
Definition starts (p : Prediction) (pos : Z * Z) : Prop :=
  pos.1 = p_row p
  /\ match p_kind p with
     | Kind_Insert => pos.2 = p_col p /\ 1 <= p_width p <= 2
     | Kind_Newline => pos.2 = p_col p
     | Kind_BackspaceEol => pos.2 = p_col p + 1 /\ p_width p = 1
     | Kind_CursorLeft => p_col p + 1 <= pos.2 <= p_col p + 2
     | Kind_CursorRight => pos.2 + 1 <= p_col p <= pos.2 + 2
     end.
(** The queue takes the cursor from [pos] to [final], guess by guess. *)
Fixpoint stacked (pos : Z * Z) (q : list Prediction) (final : Z * Z) : Prop :=
  match q with [] => pos = final | p :: q => starts p pos /\ stacked (lands p) q final end.
Definition in_pane (s : PredictionState) (p : Prediction) : Prop :=
  0 <= p_row p < rows s /\ 0 <= p_col p /\ p_col p + (if paints_no_cell (p_kind p) then 0 else p_width p) <= cols s.
Record PredictOk (s : PredictionState) : Prop := mkPredictOk {
  po_size : 0 <= cols s <= u16_max /\ 0 <= rows s <= u16_max;
  po_row : 0 <= cursor_row s <= saturating_sub (rows s) 1;
  po_col : 0 <= cursor_col s <= saturating_sub (cols s) 1;
  po_queue : exists pos, stacked pos (pending s) (cursor_row s, cursor_col s);
  po_in_pane : Forall (in_pane s) (pending s);
  po_anchor : forall row col, prompt_boundary s = Some (row, col) -> row = cursor_row s /\ 0 <= col
}.
(** What the outside hands the predictor. *)
Definition event_ok (e : PredictEvent) : Prop :=
  match e with
  | Ev_Key _ _ _ _ => True
  | Ev_Output _ cursor _ => match cursor with Some (row, col) => 0 <= row /\ 0 <= col | None => True end
  | Ev_Reanchor (Some v) =>
      0 <= (geometry v).1 <= u16_max /\ 0 <= (geometry v).2 <= u16_max /\ match last_cursor_local v with Some (row, col) => 0 <= row /\ 0 <= col | None => True end
  | Ev_Reanchor None => True
  | Ev_Resize c r => 0 <= c <= u16_max /\ 0 <= r <= u16_max
  end.

Lemma stacked_app pos q1 q2 final : stacked pos (q1 ++ q2) final <-> exists mid, stacked pos q1 mid /\ stacked mid q2 final.
Proof. revert pos. induction q1 as [|x q IH]; intros pos; simpl; [naive_solver|]. rewrite IH. naive_solver. Qed.
Lemma saturating_sub_pos a : saturating_sub a 1 = Z.max 0 (a - 1).
Proof. unfold saturating_sub. destruct (Z.leb_spec 1 a); lia. Qed.
(** Any change that empties the queue and keeps the numbers in range is sound. *)
Lemma empty_ok s : 0 <= cols s <= u16_max /\ 0 <= rows s <= u16_max -> 0 <= cursor_row s <= saturating_sub (rows s) 1 ->
  0 <= cursor_col s <= saturating_sub (cols s) 1 -> pending s = [] ->
  (forall row col, prompt_boundary s = Some (row, col) -> row = cursor_row s /\ 0 <= col) -> PredictOk s.
Proof. intros H1 H2 H3 H4 H5. constructor; [done..| | |done]; rewrite H4; [by eexists|done]. Qed.
Lemma dropped_ok s s' : PredictOk s -> pending s' = [] -> prompt_boundary s' = None -> cols s' = cols s -> rows s' = rows s -> cursor_row s' = cursor_row s ->
  cursor_col s' = cursor_col s -> PredictOk s'.
Proof. intros [H1 H2 H3 _ _ _] E1 E2 E3 E4 E5 E6. apply empty_ok; rewrite ?E3, ?E4, ?E5, ?E6; [done..|]. by rewrite E2. Qed.
Lemma same_ok s s' : PredictOk s -> pending s' = pending s -> prompt_boundary s' = prompt_boundary s -> cols s' = cols s -> rows s' = rows s ->
  cursor_row s' = cursor_row s -> cursor_col s' = cursor_col s -> PredictOk s'.
Proof.
  intros [H1 H2 H3 H4 H5 H6] E1 E2 E3 E4 E5 E6. constructor; rewrite ?E1, ?E2, ?E3, ?E4, ?E5, ?E6; try done.
  eapply Forall_impl; [exact H5|]. intros p. unfold in_pane. by rewrite E3, E4.
Qed.
Lemma set_cursor_ok row col s : PredictOk s -> pending s = [] -> 0 <= row -> 0 <= col -> PredictOk (set_cursor row col s).
Proof.
  intros [H1 H2 H3 _ _ H6] E Hr Hc. rewrite saturating_sub_pos in *. apply empty_ok; cbn; rewrite ?saturating_sub_pos; [done|lia|lia|done|].
  intros row' col'. destruct (prompt_boundary s) as [[brow bcol]|] eqn:Eb; [|done]. destruct (Z.eqb_spec brow (Z.min row (Z.max 0 (rows s - 1)))) as [->|]; [|done].
  intros [= <- <-]. split; [done|]. by destruct (H6 _ _ eq_refl).
Qed.
Lemma set_viewport_ok c r s : PredictOk s -> 0 <= c <= u16_max -> 0 <= r <= u16_max -> PredictOk (set_viewport c r s).
Proof. intros [H1 H2 H3 _ _ _] Hc Hr. apply empty_ok; cbn; rewrite ?saturating_sub_pos in *; [done|lia|lia|done|done]. Qed.
Lemma set_alt_screen_ok alt s : PredictOk s -> PredictOk (set_alt_screen alt s).
Proof. intros H. unfold set_alt_screen. destruct (Bool.eqb _ _); [done|]. by eapply dropped_ok. Qed.
Lemma reconcile_loop_ok fuel r c read_cell sm s : PredictOk s -> PredictOk (reconcile_loop fuel r c read_cell sm s).2.
Proof.
  revert sm s. induction fuel as [|fuel IH]; intros sm s Hok; simpl; [done|]. destruct (pending s) as [|p q] eqn:Eq; [done|].
  destruct (verdict_of p r c read_cell); [|done|by eapply dropped_ok]. apply IH. destruct Hok as [H1 H2 H3 [pos H4] H5 H6]. rewrite Eq in *. destruct H4 as [_ H4].
  assert (E : forall x, PredictOk x -> PredictOk (if is_echo_evidence p then confirm_echo x else x)) by (intros x Hx; destruct (is_echo_evidence p); [by eapply same_ok|done]).
  destruct (is_echo_evidence p); (constructor; cbn; rewrite ?Eq; [done..|by exists (lands p)| |done]; by apply Forall_cons in H5 as [_ H5]).
Qed.
Lemma reconcile_ok s r c read_cell : PredictOk s -> 0 <= r -> 0 <= c -> PredictOk (reconcile_terminal_output_per_cell s r c read_cell).2.
Proof.
  intros Hok Hr Hc. unfold reconcile_terminal_output_per_cell. pose proof (reconcile_loop_ok (length (pending s)) r c read_cell (mkStats 0 0 0) s Hok) as H.
  destruct (reconcile_loop _ _ _ _ _ _) as [sm s']. cbn [fst snd] in *. set (x := match pending s' with [] => set_cursor r c s' | _ :: _ => s' end).
  assert (Hx : PredictOk x) by (unfold x; destruct (pending s') eqn:E; [by apply set_cursor_ok|done]).
  destruct (note_reconcile_frame sm x) as (_ & _ & _ & E1 & E2 & E3 & E4 & _ & [[E5 E6]|[E5 E6]]); [by eapply same_ok|by eapply dropped_ok].
Qed.

(** Adding guesses at the end of the queue. *)
Lemma queue_ok s s' new : PredictOk s -> pending s' = pending s ++ new -> cols s' = cols s -> rows s' = rows s ->
  stacked (cursor_row s, cursor_col s) new (cursor_row s', cursor_col s') ->
  0 <= cursor_row s' <= saturating_sub (rows s) 1 -> 0 <= cursor_col s' <= saturating_sub (cols s) 1 -> Forall (in_pane s) new ->
  (forall row col, prompt_boundary s' = Some (row, col) -> row = cursor_row s' /\ 0 <= col) -> PredictOk s'.
Proof.
  intros [H1 H2 H3 [pos H4] H5 H6] Eq Ec Er Hs Hr Hc Hp Hb.
  assert (E : forall q, Forall (in_pane s) q -> Forall (in_pane s') q) by (intros q Hq; eapply Forall_impl; [exact Hq|]; intros x; unfold in_pane; by rewrite Ec, Er).
  constructor; rewrite ?Ec, ?Er; [done..| | |done].
  - exists pos. rewrite Eq. apply stacked_app. by eexists.
  - rewrite Eq. apply Forall_app. auto.
Qed.
Lemma capped_width_bounds w v : capped_width w = Some v -> 1 <= v <= 2.
Proof. destruct w; simpl; [done|]. intros [= <-]. lia. Qed.
Lemma grapheme_width_bounds ch v : grapheme_width ch = Some v -> 1 <= v <= 2.
Proof. unfold grapheme_width. destruct (char_width ch); [|done]. apply capped_width_bounds. Qed.
(** What one keystroke adds: where it starts, where it leads, and nothing outside the pane or left of the anchor. *)
Definition keeps_prompt (s : PredictionState) (p : Prediction) : Prop :=
  p_kind p = Kind_BackspaceEol -> forall row col, prompt_boundary s = Some (row, col) -> col <= p_col p.
Lemma erase_run_spec n row col now : Z.of_nat n <= col ->
  stacked (row, col) (erase_run n row col now) (row, col - Z.of_nat n)
  /\ Forall (fun p => p_row p = row /\ p_kind p = Kind_BackspaceEol /\ p_width p = 1 /\ col - Z.of_nat n <= p_col p < col) (erase_run n row col now).
Proof.
  revert col. induction n as [|n IH]; intros col Hn; [split; [cbn; f_equal; lia|done]|]. destruct (IH (col - 1)) as [H1 H2]; [lia|].
  replace (col - Z.of_nat (S n)) with (col - 1 - Z.of_nat n) by lia. cbn [erase_run stacked]. split.
  - split; [unfold starts; cbn; split; [done|lia]|]. exact H1.
  - constructor; [cbn; split_and!; [done..|lia|lia]|]. eapply Forall_impl; [exact H2|]. cbn. intros p (-> & -> & -> & H). split_and!; [done..|lia|lia].
Qed.
Definition key_effect (s s' : PredictionState) : Prop :=
  PredictOk s' /\ (pending s' = [] \/ exists new, pending s' = pending s ++ new /\ Forall (keeps_prompt s) new).
Lemma skipped_effect s : PredictOk s -> key_effect s s.
Proof. intros H. split; [done|]. right. exists []. by rewrite app_nil_r. Qed.
Lemma added_effect s s' new : PredictOk s -> pending s' = pending s ++ new -> cols s' = cols s -> rows s' = rows s ->
  stacked (cursor_row s, cursor_col s) new (cursor_row s', cursor_col s') ->
  0 <= cursor_row s' <= saturating_sub (rows s) 1 -> 0 <= cursor_col s' <= saturating_sub (cols s) 1 -> Forall (in_pane s) new ->
  (forall row col, prompt_boundary s' = Some (row, col) -> row = cursor_row s' /\ 0 <= col) -> Forall (keeps_prompt s) new -> key_effect s s'.
Proof. intros. split; [by eapply queue_ok|]. right. by eexists. Qed.
Lemma predict_key_ok event now read_cell s : PredictOk s -> key_effect s (predict_key_with_grid_at event now read_cell s).2.
Proof.
  intros Hok. pose proof (skipped_effect s Hok) as Hskip. pose proof Hok as [[Hc Hr] H2 H3 _ _ H6]. rewrite saturating_sub_pos in H2, H3.
  unfold predict_key_with_grid_at, reject_unpredictable_context. do 2 (destruct (negb _); [done|]).
  destruct (_ && is_mode_changing_input event); [split; [by eapply dropped_ok|by left]|]. destruct (suspended s); [done|]. destruct (_ && (key_mods _ =? _)).
  { unfold predict_kill_to_boundary. destruct (Z.eqb_spec (rows s) 0); [done|]. destruct (Z.leb_spec (rows s) (cursor_row s)); [done|]. cbn [orb].
    destruct (prompt_boundary s) as [[brow bcol]|] eqn:Eb; [|done]. destruct (Z.eqb_spec brow (cursor_row s)) as [->|]; [|done]. cbn [negb orb].
    destruct (Z.leb_spec (cursor_col s) bcol); [done|]. destruct (H6 _ _ eq_refl) as [_ Hb].
    destruct (erase_run_spec (Z.to_nat (cursor_col s - bcol)) (cursor_row s) (cursor_col s) now ltac:(lia)) as [E1 E2].
    rewrite Z2Nat.id in E1, E2 by lia. replace (cursor_col s - (cursor_col s - bcol)) with bcol in E1, E2 by lia.
    eapply added_effect; [done|done|done|done|exact E1|cbn; rewrite saturating_sub_pos; lia|cbn; rewrite saturating_sub_pos; lia| | |].
    - eapply Forall_impl; [exact E2|]. intros p (E3 & E4 & E5 & E6). unfold in_pane. rewrite E3, E4, E5. cbn. lia.
    - cbn. intros row col [= <- <-]. done.
    - eapply Forall_impl; [exact E2|]. intros p (_ & _ & _ & E6) _ row col E. rewrite Eb in E. injection E as <- <-. lia. }
  destruct (blocking_mods _); [done|]. case_bool_decide.
  { unfold predict_backspace_eol. destruct (Z.eqb_spec (cursor_col s) 0); [done|]. destruct (Z.eqb_spec (rows s) 0); [done|].
    destruct (Z.leb_spec (rows s) (cursor_row s)); [done|]. cbn [orb]. destruct (match prompt_boundary s with Some _ => _ | None => _ end) eqn:Eb; [done|].
    eapply added_effect; [done|done|done|done| |cbn; rewrite saturating_sub_pos; lia|cbn; rewrite saturating_sub_pos; lia| | |].
    - cbn. split; [unfold starts; cbn; split; [done|lia]|done].
    - constructor; [|done]. unfold in_pane. cbn. lia.
    - cbn. exact H6.
    - constructor; [|done]. intros _ row col E. rewrite E in Eb. destruct (H6 _ _ E) as [-> _]. rewrite Z.eqb_refl in Eb. cbn in Eb. apply Z.leb_gt in Eb. cbn. lia. }
  case_bool_decide.
  { unfold predict_enter_unless_alt_screen. destruct (alt_screen s); [split; [by eapply dropped_ok|by left]|]. unfold predict_enter.
    destruct (Z.eqb_spec (cursor_col s) 0); [done|]. destruct (Z.eqb_spec (rows s) 0); [done|]. unfold saturating_add16. destruct (Z.leb_spec (rows s) (Z.min u16_max (cursor_row s + 1))); [done|].
    cbn [orb]. eapply added_effect; [done|done|done|done| |cbn; rewrite saturating_sub_pos; lia|cbn; rewrite saturating_sub_pos; lia| |done|].
    - cbn. split; [unfold starts; cbn; done|]. unfold lands. cbn. f_equal. lia.
    - constructor; [|done]. unfold in_pane. cbn. lia.
    - by constructor. }
  case_bool_decide.
  { unfold predict_arrow_left. destruct (Z.eqb_spec (cursor_col s) 0); [done|]. destruct (Z.eqb_spec (rows s) 0); [done|].
    destruct (Z.leb_spec (rows s) (cursor_row s)); [done|]. cbn [orb]. destruct (read_cell _ _) as [ch|]; [|done]. destruct (grapheme_width ch) as [w|] eqn:Ew; [|done].
    apply grapheme_width_bounds in Ew. destruct (Z.eqb_spec w 0); [done|].
    assert (Hgo : forall new_col, 0 <= new_col -> new_col + 1 <= cursor_col s <= new_col + 2 ->
      key_effect s (with_cursor (cursor_row s) new_col (push (mkPrediction (cursor_row s) new_col space 0 Kind_CursorLeft now) s))).
    { intros new_col Hn1 Hn2. eapply added_effect; [done|done|done|done| |cbn; rewrite saturating_sub_pos; lia|cbn; rewrite saturating_sub_pos; lia| |exact H6|by constructor].
      - cbn. split; [unfold starts; cbn; split; [done|lia]|done].
      - constructor; [|done]. unfold in_pane. cbn. lia. }
    destruct (Z.eqb_spec w 1); [apply Hgo; lia|]. destruct (Z.leb_spec w (cursor_col s)); [apply Hgo; lia|done]. }
  case_bool_decide.
  { unfold predict_arrow_right. destruct (Z.eqb_spec (cols s) 0); [done|]. destruct (Z.leb_spec (cols s) (cursor_col s)); [done|]. cbn [orb].
    destruct (Z.eqb_spec (rows s) 0); [done|]. destruct (Z.leb_spec (rows s) (cursor_row s)); [done|]. cbn [orb].
    destruct (read_cell _ _) as [ch|]; [|done]. destruct (grapheme_width ch) as [w|] eqn:Ew; [|done]. apply grapheme_width_bounds in Ew.
    destruct (Z.eqb_spec w 0); [done|]. unfold saturating_add16. destruct (Z.leb_spec (cols s) (Z.min u16_max (cursor_col s + w))); [done|].
    eapply added_effect; [done|done|done|done| |cbn; rewrite saturating_sub_pos; lia|cbn; rewrite saturating_sub_pos; lia| |exact H6|by constructor].
    - cbn. split; [unfold starts; cbn; split; [done|lia]|done].
    - constructor; [|done]. unfold in_pane. cbn. lia. }
  unfold predict_printable_cluster. destruct (key_text event) as [text|]; [|done]. destruct (graphemes text) as [|cl [|]]; [done| |done].
  destruct (negb _); [done|]. destruct (cluster_width cl) as [w|] eqn:Ew; [|done]. apply capped_width_bounds in Ew.
  unfold predict_insert. destruct (Z.eqb_spec (cols s) 0); [done|]. destruct (Z.eqb_spec (rows s) 0); [done|]. destruct (Z.leb_spec (rows s) (cursor_row s)); [done|]. cbn [orb].
  destruct (Z.eqb_spec w 0); [done|]. unfold saturating_add16. destruct (Z.leb_spec (cols s) (Z.min u16_max (cursor_col s + w))); [done|].
  eapply added_effect; [done|done|done|done| |cbn; rewrite saturating_sub_pos; lia|cbn; rewrite saturating_sub_pos; lia| | |by constructor].
  - cbn. split; [unfold starts; cbn; split; [done|lia]|]. unfold lands. cbn. f_equal. lia.
  - constructor; [|done]. unfold in_pane. cbn. lia.
  - cbn. intros row col. destruct (prompt_boundary s) as [[brow bcol]|] eqn:Eb; [|intros [= <- <-]; split; [done|lia]].
    destruct (H6 _ _ eq_refl) as [-> Hb]. rewrite Z.eqb_refl. by intros [= <- <-].
Qed.
Lemma reanchor_ok slot s : PredictOk s -> event_ok (Ev_Reanchor slot) -> PredictOk (reanchor_predict_to_pane slot s).
Proof.
  intros Hok He. unfold reanchor_predict_to_pane. destruct slot as [[[c r] cur o]|]; [|by eapply dropped_ok]. destruct He as (Hc & Hr & Hcur). cbn in *.
  assert (Hx : exists x, (if (0 <? c) && (0 <? r) then set_viewport c r s else clear s) = x /\ PredictOk x /\ pending x = [] /\ prompt_boundary x = None).
  { eexists. split; [done|]. destruct (_ && _); [split; [by apply set_viewport_ok|done]|split; [by eapply dropped_ok|done]]. }
  destruct Hx as (x & -> & Hx & Ex & Ex'). destruct cur as [[row col]|]; [destruct Hcur; by apply set_cursor_ok|by eapply dropped_ok].
Qed.
Lemma event_ok_step s e : PredictOk s -> event_ok e -> PredictOk (apply_event s e).
Proof.
  intros Hok He. destruct e as [event alt now read_cell|alt cursor read_cell|slot|c r]; simpl.
  - unfold feed_predict. destruct (negb _); [done|]. pose proof (predict_key_ok event now read_cell _ (set_alt_screen_ok alt s Hok)) as [H _].
    by destruct (predict_key_with_grid_at _ _ _ _).
  - unfold reconcile_focused. pose proof (set_alt_screen_ok alt s Hok). destruct cursor as [[row col]|]; [destruct He; by apply reconcile_ok|by eapply dropped_ok].
  - by apply reanchor_ok.
  - destruct He. by apply set_viewport_ok.
Qed.
Lemma predict_new_ok c cs rs : 0 <= cs <= u16_max -> 0 <= rs <= u16_max -> PredictOk (PredictionState_new c cs rs).
Proof. intros. apply empty_ok; cbn; rewrite ?saturating_sub_pos; [done|lia|lia|done|done]. Qed.
Lemma run_ok es s : PredictOk s -> Forall event_ok es -> PredictOk (run_events es s).
Proof. intros Hs He. revert s Hs. induction He as [|e es He _ IH]; intros s Hs; [done|]. apply IH. by apply event_ok_step. Qed.

(** Guesses stay where they belong. In every run the cursor estimate is on the pane's grid and is exactly where the queued guesses, in
    order, take it; each guess is painted on cells of the pane, never outside; and a keystroke that erases never guesses past the point
    where typing began on the row, so a prompt is not erased. *)
Theorem guesses_stay_in_the_pane c cs rs es : 0 <= cs <= u16_max -> 0 <= rs <= u16_max -> Forall event_ok es ->
  let s := run_events es (PredictionState_new c cs rs) in
  PredictOk s
  /\ forall event alt now_ms read_cell,
       let t := set_alt_screen alt s in
       let s' := (predict_key_with_grid_at event now_ms read_cell t).2 in
       pending s' = [] \/ exists new, pending s' = pending t ++ new /\ Forall (keeps_prompt t) new.
Proof.
  intros Hc Hr He s. assert (Hok : PredictOk s) by (apply run_ok; [by apply predict_new_ok|done]). split; [done|]. intros event alt now read_cell t s'.
  by destruct (predict_key_ok event now read_cell t (set_alt_screen_ok alt s Hok)) as [_ H].
Qed.
(** ** Typing at a program that echoes *)

(** A keystroke of one printable character [t], [w] columns wide. *)
Record types_text (event : KeyEvent) (t : bytes) (w : Z) : Prop := mkTypesText {
  tt_press : key_action event = KeyAction_Press;
  tt_plain : key_key event <> PhysicalKey_Backspace /\ key_key event <> PhysicalKey_Enter /\ key_key event <> PhysicalKey_ArrowLeft /\ key_key event <> PhysicalKey_ArrowRight;
  tt_mods : blocking_mods (key_mods event) = false;
  tt_text : exists text, key_text event = Some text /\ graphemes text = [t];
  tt_safe : is_safe_predictable_cluster t = true;
  tt_width : cluster_width t = Some w;
  tt_mode : is_mode_changing_input event = false
}.
Section Echo.
  (** What is typed, with its widths and times, from the cell ([row], [col]) on. *)
  Context (row col : Z) (typed : list (bytes * Z * Z)) (s0 : PredictionState).
Fixpoint total_width (l : list (bytes * Z * Z)) : Z := match l with [] => 0 | (_, w, _) :: l => w + total_width l end.
Fixpoint guesses (at_col : Z) (l : list (bytes * Z * Z)) : list Prediction :=
  match l with [] => [] | (t, w, now) :: l => mkPrediction row at_col t w Kind_Insert now :: guesses (at_col + w) l end.
(** The program has painted the first [k] characters and nothing yet where the others go. *)
Definition echoed (k : nat) (read_cell : Z -> Z -> option bytes) : Prop :=
  forall i t w now, typed !! i = Some (t, w, now) ->
    let cell := read_cell row (col + total_width (take i typed)) in
    ((i < k)%nat -> cell = Some t) /\ ((k <= i)%nat -> is_blank cell = true /\ cell <> Some t).
(** [n] characters are typed and [k] of them echoed: keys and outputs in any order the link makes. *)
Inductive Typing : PredictionState -> nat -> nat -> Prop :=
| Typing_start : Typing s0 0 0
| Typing_key s n k event t w now read_cell :
    Typing s n k -> typed !! n = Some (t, w, now) -> types_text event t w ->
    Typing (feed_predict event (alt_screen s0) now read_cell s).2 (S n) k
| Typing_output s n k k' read_cell :
    Typing s n k -> (k <= k' <= n)%nat -> echoed k' read_cell ->
    Typing (reconcile_focused (alt_screen s0) (Some (row, col + total_width (take k' typed))) read_cell s) n k'.
Definition ready : Prop :=
  enabled (cfg s0) = true /\ pending s0 = [] /\ suspended s0 = false /\ (cursor_row s0, cursor_col s0) = (row, col)
  /\ 0 <= col /\ 0 <= row < rows s0 /\ col + total_width typed < cols s0 <= u16_max /\ Forall (fun x => 1 <= x.1.2) typed.

Lemma total_width_app l1 l2 : total_width (l1 ++ l2) = total_width l1 + total_width l2.
Proof. induction l1 as [|[[t w] now] l1 IH]; simpl; lia. Qed.
Lemma guesses_app l1 l2 a : guesses a (l1 ++ l2) = guesses a l1 ++ guesses (a + total_width l1) l2.
Proof. revert a. induction l1 as [|[[t w] now] l1 IH]; intros a; simpl; [by rewrite Z.add_0_r|]. by rewrite IH, Z.add_assoc. Qed.
Lemma guesses_length l a : length (guesses a l) = length l.
Proof. revert a. induction l as [|[[t w] now] l IH]; intros a; simpl; [done|]. by rewrite IH. Qed.
Lemma guesses_lookup l a i p : guesses a l !! i = Some p ->
  exists t w now, l !! i = Some (t, w, now) /\ p = mkPrediction row (a + total_width (take i l)) t w Kind_Insert now.
Proof.
  revert a i. induction l as [|[[t w] now] l IH]; intros a [|i]; simpl; try done.
  - intros [= <-]. exists t, w, now. by rewrite Z.add_0_r.
  - intros H. destruct (IH _ _ H) as (t' & w' & n' & H1 & ->). exists t', w', n'. split; [done|]. by rewrite Z.add_assoc.
Qed.
Lemma total_width_pos l : Forall (fun x => 1 <= x.1.2) l -> 0 <= total_width l.
Proof. induction 1 as [|[[t w] now] l H _ IH]; simpl in *; lia. Qed.

(** The loop on a queue whose front part is confirmed and whose next guess, if any, is pending. *)
Lemma reconcile_loop_prefix q1 q2 r c read_cell sm s : pending s = q1 ++ q2 ->
  Forall (fun p => verdict_of p r c read_cell = Verdict_Confirmed) q1 ->
  (match q2 with [] => True | p :: _ => verdict_of p r c read_cell = Verdict_Pending end) ->
  reconcile_loop (length (pending s)) r c read_cell sm s
    = (mkStats (s_confirmed sm + len q1) (s_contradicted sm) (match q2 with [] => s_pending sm | _ => len q2 end),
       with_echo (echo_confirmed s || existsb is_echo_evidence q1) (with_queue q2 (prompt_boundary s) s)).
Proof.
  intros Eq H1 H2. rewrite Eq, length_app, Nat.add_comm. revert sm s Eq. induction H1 as [|p q1 Hp _ IH]; intros sm s Eq.
  - rewrite Nat.add_0_r. unfold len. simpl. rewrite Z.add_0_r, orb_false_r. simpl in Eq. destruct q2 as [|p q2]; simpl.
    + destruct sm, s. simpl in *. by subst.
    + rewrite Eq, H2. unfold len. destruct sm, s. simpl in *. by subst.
  - replace (length q2 + length (p :: q1))%nat with (S (length q2 + length q1)) by (simpl; lia). cbn [reconcile_loop]. rewrite Eq. cbn [app]. rewrite Hp.
    rewrite IH; [|destruct (is_echo_evidence p); cbn; by rewrite Eq]. f_equal; [cbn; f_equal; unfold len; simpl; lia|]. cbn [existsb].
    unfold pop_front, confirm_echo, with_echo, with_queue. destruct (is_echo_evidence p), (echo_confirmed s); reflexivity.
Qed.
(** An [Insert] against the program's screen. *)
Lemma echoed_verdict k i p read_cell r c : echoed k read_cell -> guesses col typed !! i = Some p ->
  verdict_of p r c read_cell = if (i <? k)%nat then Verdict_Confirmed else Verdict_Pending.
Proof.
  intros He Hp. destruct (guesses_lookup _ _ _ _ Hp) as (t & w & now & Hi & ->). destruct (He _ _ _ _ Hi) as [H1 H2].
  unfold verdict_of, classify_insert. cbn [p_kind p_text p_row p_col]. destruct (Nat.ltb_spec i k) as [Hlt|Hle].
  - rewrite H1 by done. by rewrite bool_decide_eq_true_2.
  - destruct (H2 Hle) as [H3 H4]. rewrite bool_decide_eq_false_2 by done. by rewrite H3.
Qed.
Record EchoInv (s : PredictionState) (n k : nat) : Prop := mkEchoInv {
  ei_bounds : (k <= n <= length typed)%nat;
  ei_same : cfg s = cfg s0 /\ alt_screen s = alt_screen s0 /\ rows s = rows s0 /\ cols s = cols s0 /\ suspended s = false;
  ei_queue : pending s = drop k (guesses col (take n typed));
  ei_cursor : cursor_row s = row /\ cursor_col s = col + total_width (take n typed);
  ei_tentative : tentative s = true -> tentative s0 = true;
  ei_echo : Exists (fun x => x.1.1 <> space) (take k typed) -> echo_confirmed s = true
}.
Lemma typed_bounds n : ready -> 0 <= total_width (take n typed) /\ total_width (take n typed) <= total_width typed.
Proof.
  intros (_ & _ & _ & _ & _ & _ & _ & Hw). rewrite <- (take_drop n typed) in Hw at 1. apply Forall_app in Hw as [H1 H2].
  rewrite <- (take_drop n typed) at 3. rewrite total_width_app. pose proof (total_width_pos _ H1). pose proof (total_width_pos _ H2). lia.
Qed.
Lemma typing_key_inv s n k event t w now read_cell : ready -> EchoInv s n k -> typed !! n = Some (t, w, now) -> types_text event t w ->
  EchoInv (feed_predict event (alt_screen s0) now read_cell s).2 (S n) k.
Proof.
  intros Hready [Hb (E1 & E2 & E3 & E4 & E5) Hq [Hr Hc] Ht He] Hn [T1 (T2 & T3 & T4 & T5) T6 (text & T7 & T8) T9 T10 T11].
  pose proof (typed_bounds (S n) Hready) as [_ HB]. pose proof (typed_bounds n Hready) as [HA _]. destruct Hready as (R1 & _ & _ & _ & R5 & R6 & R7 & R8).
  pose proof (take_S_r _ _ _ Hn) as Etake. rewrite Etake, total_width_app in *. cbn [total_width] in *. rewrite Forall_lookup in R8. pose proof (R8 _ _ Hn) as Hw. cbn in Hw.
  unfold feed_predict. rewrite E1, R1. cbn [negb]. assert (Es : set_alt_screen (alt_screen s0) s = s) by (unfold set_alt_screen; by rewrite E2, eqb_reflx). rewrite Es.
  unfold predict_key_with_grid_at, reject_unpredictable_context. rewrite E1, R1, (bool_decide_eq_true_2 _ T1), T11, andb_false_r, E5. cbn [negb].
  assert (Eu : bool_decide (key_key event = PhysicalKey_U) && (key_mods event =? ModSet_CTRL) = false).
  { apply andb_false_iff. right. apply Z.eqb_neq. intros E. by rewrite E in T6. }
  rewrite Eu, T6, !bool_decide_eq_false_2 by done. unfold predict_printable_cluster. rewrite T7, T8, T9, T10. cbn [negb]. unfold predict_insert.
  rewrite E3, E4, Hr, Hc. destruct (Z.eqb_spec (cols s0) 0); [lia|]. destruct (Z.eqb_spec (rows s0) 0); [lia|]. destruct (Z.leb_spec (rows s0) row); [lia|].
  destruct (Z.eqb_spec w 0); [lia|]. cbn [orb]. unfold saturating_add16. rewrite Z.min_r by lia. destruct (Z.leb_spec (cols s0) (col + total_width (take n typed) + w)); [lia|].
  apply lookup_lt_Some in Hn. constructor; cbn; rewrite ?E3, ?E4; [lia|done| |rewrite Etake, total_width_app; cbn; split; [done|lia]|done|done].
  rewrite Hq, Etake, guesses_app. cbn [guesses]. rewrite drop_app_le by (rewrite guesses_length, length_take; lia). done.
Qed.
Lemma drop_guesses_split n k k' : (k <= k' <= n)%nat -> (n <= length typed)%nat ->
  drop k (guesses col (take n typed)) = drop k (guesses col (take k' typed)) ++ drop k' (guesses col (take n typed)).
Proof.
  intros Hk Hn. assert (E : guesses col (take n typed) = guesses col (take k' typed) ++ guesses (col + total_width (take k' typed)) (drop k' (take n typed))).
  { rewrite <- guesses_app. f_equal. rewrite <- (take_drop k' (take n typed)) at 1. rewrite take_take. by rewrite Nat.min_l by lia. }
  rewrite E. rewrite drop_app_le by (rewrite guesses_length, length_take; lia). f_equal.
  rewrite drop_app_length'; [done|]. rewrite guesses_length, length_take. lia.
Qed.
Lemma guesses_take_lookup n i p : guesses col (take n typed) !! i = Some p -> guesses col typed !! i = Some p /\ (i < n)%nat.
Proof.
  intros H. split.
  - rewrite <- (take_drop n typed), guesses_app. by apply lookup_app_l_Some.
  - apply lookup_lt_Some in H. rewrite guesses_length, length_take in H. lia.
Qed.
Lemma typing_output_inv s n k k' read_cell : ready -> EchoInv s n k -> (k <= k' <= n)%nat -> echoed k' read_cell ->
  EchoInv (reconcile_focused (alt_screen s0) (Some (row, col + total_width (take k' typed))) read_cell s) n k'.
Proof.
  intros Hready [Hb (E1 & E2 & E3 & E4 & E5) Hq [Hr Hc] Ht He] Hk Hecho. pose proof (typed_bounds k' Hready) as [B1 B2].
  unfold reconcile_focused. assert (Es : set_alt_screen (alt_screen s0) s = s) by (unfold set_alt_screen; by rewrite E2, eqb_reflx). rewrite Es.
  unfold reconcile_terminal_output_per_cell. set (c' := col + total_width (take k' typed)).
  set (q1 := drop k (guesses col (take k' typed))). set (q2 := drop k' (guesses col (take n typed))).
  assert (H1 : Forall (fun p => verdict_of p row c' read_cell = Verdict_Confirmed) q1).
  { apply Forall_lookup. intros i p Hp. unfold q1 in Hp. rewrite lookup_drop in Hp. apply guesses_take_lookup in Hp as [Hp Hi].
    rewrite (echoed_verdict k' _ _ _ row c' Hecho Hp). by destruct (Nat.ltb_spec (k + i) k'); [|lia]. }
  assert (H2 : match q2 with [] => True | p :: _ => verdict_of p row c' read_cell = Verdict_Pending end).
  { destruct q2 as [|p q] eqn:Eq2; [done|]. assert (Hp : q2 !! 0%nat = Some p) by (by rewrite Eq2). unfold q2 in Hp. rewrite lookup_drop, Nat.add_0_r in Hp.
    apply guesses_take_lookup in Hp as [Hp _]. rewrite (echoed_verdict k' _ _ _ row c' Hecho Hp). by destruct (Nat.ltb_spec k' k'); [lia|]. }
  assert (Eq : pending s = q1 ++ q2) by (rewrite Hq; apply drop_guesses_split; lia). rewrite (reconcile_loop_prefix q1 q2 _ _ _ _ _ Eq H1 H2).
  set (x := with_echo _ _). set (sm := mkStats _ _ _).
  assert (Hn : forall y, cfg y = cfg s0 -> alt_screen y = alt_screen s0 -> rows y = rows s0 -> cols y = cols s0 -> suspended y = false ->
    pending y = q2 -> cursor_row y = row -> cursor_col y = col + total_width (take n typed) -> tentative y = tentative s -> echo_confirmed y = echo_confirmed x ->
    EchoInv (note_reconcile sm y) n k').
  { intros y Y1 Y2 Y3 Y4 Y5 Y6 Y7 Y8 Y9 Y10. destruct (note_reconcile_frame sm y) as (F1 & F2 & F3 & F4 & F5 & F6 & F7 & F8 & _).
    assert (F9 : pending (note_reconcile sm y) = q2 /\ (tentative (note_reconcile sm y) = true -> tentative s = true)).
    { unfold note_reconcile, sm. cbn [s_contradicted s_confirmed]. change (0 <? 0) with false. cbv iota. rewrite <- Y6, <- Y9.
      destruct (0 <? _); [|done]. cbn. destruct (_ && _) eqn:Ea; cbn; [done|done]. }
    destruct F9 as [F9 F10]. constructor; rewrite ?F1, ?F2, ?F3, ?F4, ?F5, ?F6, ?F7, ?F8; [lia|done|exact F9|done|auto|].
    intros Hex. rewrite Y10. unfold x. cbn. apply orb_true_iff. rewrite <- (take_drop k (take k' typed)) in Hex.
    rewrite take_take, Nat.min_l in Hex by lia. apply Exists_app in Hex as [Hex|Hex]; [left; by apply He|right].
    apply existsb_exists. apply Exists_exists in Hex as ([[t w] now] & Hin & Hne). apply list_elem_of_lookup in Hin as [i Hi]. rewrite lookup_drop in Hi.
    assert (Hlt : (k + i < length (guesses col (take k' typed)))%nat) by (rewrite guesses_length; by eapply lookup_lt_Some).
    apply lookup_lt_is_Some in Hlt as [p Hp]. pose proof (guesses_lookup _ _ _ _ Hp) as (t' & w' & now' & Hi' & ->). rewrite Hi in Hi'. injection Hi' as <- <- <-.
    eexists. split; [apply list_elem_of_In, list_elem_of_lookup; exists i; unfold q1; rewrite lookup_drop; exact Hp|]. unfold is_echo_evidence. apply andb_true_iff. split; [by apply bool_decide_eq_true|]. apply negb_true_iff. by apply bool_decide_eq_false. }
  cbn [snd]. change (pending x) with q2. destruct q2 as [|p q] eqn:Eq2.
  - assert (Ekn : k' = n).
    { assert (length q2 = 0)%nat by (by rewrite Eq2). unfold q2 in *. rewrite length_drop, guesses_length, length_take in *. lia. }
    destruct Hready as (R1 & _ & _ & _ & R5 & R6 & R7 & R8). apply Hn; try done; cbn; rewrite ?saturating_sub_pos, ?E3, ?E4; [lia|]. unfold c'. rewrite <- Ekn. lia.
  - apply Hn; try done.
Qed.

(** C28: Echo is confirmed without a flicker, while a line is typed at its end. Let a text of plain characters be typed with nothing
    pending before, from a cell from which the whole text ends before the last column of the row, at a program that paints each
    character where it is typed and leaves the cells ahead blank. Then, however keystrokes and the program's answers interleave on the
    link, what is queued is exactly the characters typed and not yet painted, each guessed in the cell where it will appear; none is
    dropped or repeated; the cursor estimate is after the last one; and, if the predictor was not backing off when the text began, what
    is queued is on display while it is young, on the alternate screen as soon as one visible character has come back. *)
Theorem echo_confirms_in_order s n k : ready -> Typing s n k ->
  pending s = drop k (guesses col (take n typed))
  /\ (cursor_row s, cursor_col s) = (row, col + total_width (take n typed))
  /\ (tentative s0 = false -> (alt_screen s0 = true -> Exists (fun x => x.1.1 <> space) (take k typed)) -> (k < n)%nat ->
       forall now_ms, (forall t w now, typed !! k = Some (t, w, now) -> now_ms <= now + DISPLAY_TTL_MS /\ 0 <= now) -> should_display s now_ms = true).
Proof.
  intros Hready Ht. assert (H : EchoInv s n k).
  { induction Ht as [|s n k event t w now read_cell _ IH Hn Hty|s n k k' read_cell _ IH Hk He]; [|by eapply typing_key_inv|by eapply typing_output_inv].
    destruct Hready as (R1 & R2 & R3 & [= R4 R5] & _). constructor; [lia|done|by rewrite R2|split; [done|rewrite take_0; simpl; by rewrite Z.add_0_r]|done|]. intros Hx. by apply Exists_nil in Hx. }
  destruct H as [Hb (_ & E2 & _) Hq [Hr Hc] Htn He]. split; [done|]. split; [by rewrite Hr, Hc|]. intros H1 H2 H3 now_ms H4. unfold should_display.
  destruct (lookup_lt_is_Some_2 typed k ltac:(lia)) as [[[t w] now] Hk]. destruct (H4 _ _ _ Hk) as [H5 H6].
  destruct (lookup_lt_is_Some_2 (guesses col (take n typed)) k) as [p Hp]; [rewrite guesses_length, length_take; lia|].
  rewrite Hq, (drop_S _ _ _ Hp). pose proof (guesses_lookup _ _ _ _ Hp) as (t' & w' & now' & Hi & ->). rewrite lookup_take_lt in Hi by done. rewrite Hk in Hi. injection Hi as <- <- <-.
  destruct (tentative s); [by rewrite Htn in H1|]. rewrite E2. destruct (alt_screen s0); [rewrite He by auto|]; cbn; apply Z.leb_le; unfold saturating_sub; destruct (Z.leb_spec now now_ms); unfold DISPLAY_TTL_MS in *; lia.
Qed.
End Echo.
End Runs.

(** ** Concrete runs *)

(** Plain ASCII, a column each. *)
#[local] Instance ascii_text : Unicode := {| graphemes text := map (fun b => [b]) text; str_width := @length Z; char_width _ := Some 1%nat |}.
Definition letter (b : Z) : KeyEvent := mkKeyEvent KeyAction_Press PhysicalKey_A 0 0 false (Some [b]) None.
Definition rubout : KeyEvent := mkKeyEvent KeyAction_Press PhysicalKey_Backspace 0 0 false None None.
Definition unread (_ _ : Z) : option Z := None.
(** A screen whose row 0 starts with [line]. *)
Definition painted (line : bytes) (r c : Z) : option bytes := if r =? 0 then (fun b => [b]) <$> (line !! Z.to_nat c) else None.
Definition on_alt_screen : list DriverEvent :=
  map D_predict [Ev_Key (letter 104) true 0 unread; Ev_Output true (Some (0, 1)) (painted [104]); Ev_Key (letter 105) true 5 unread].
Definition first_pane : ResourceId := ResourceId_Local 1.
Definition second_pane : ResourceId := ResourceId_Local 2.
Definition fresh_driver : Driver := mkDriver (Some first_pane) (PredictionState_new (mkPredictiveConfig true) 80 24).
Lemma alt_screen_guesses_are_earned_witness :
  let d := run_driver on_alt_screen fresh_driver in
  should_display (predictor d) 10 = true
  /\ exists pre e post, on_alt_screen = pre ++ D_predict e :: post /\ proves_echo (predictor (run_driver pre fresh_driver)) e.
Proof.
  intros d. assert (Hd : should_display (predictor d) 10 = true) by (vm_compute; reflexivity). split; [exact Hd|].
  destruct (alt_screen_guesses_are_earned (Some first_pane) (mkPredictiveConfig true) 80 24 on_alt_screen 10 Hd ltac:(vm_compute; reflexivity))
    as (pre & e & post & H1 & H2 & _).
  exists pre, e, post. split; [exact H1|exact H2].
Defined.
(** The evidence is carried to another pane: the first pane's program echoes, the focus moves to the second pane unannounced, as when
    another client's layout is adopted, and a key typed there is shown at once although its program, on the alternate screen too, has
    echoed nothing. *)
Theorem evidence_follows_the_focus :
  exists xs, let d := run_driver (on_alt_screen ++ D_predict (Ev_Output true (Some (0, 2)) (painted [104; 105])) :: D_move (Some second_pane) :: xs) fresh_driver in
    (exists event, xs = [D_predict (Ev_Key event true 9 unread)])
    /\ focused d = Some second_pane /\ alt_screen (predictor d) = true /\ should_display (predictor d) 10 = true /\ map p_text (pending (predictor d)) = [[113]].
Proof. exists [D_predict (Ev_Key (letter 113) true 9 unread)]. split; [by eexists|]. repeat split; vm_compute; reflexivity. Qed.
Definition typo : list PredictEvent := [Ev_Output false (Some (3, 7)) (painted []); Ev_Key (letter 104) false 0 unread; Ev_Key (letter 105) false 1 unread; Ev_Key rubout false 2 unread].
Lemma guesses_stay_in_the_pane_witness :
  let s := run_events typo (PredictionState_new (mkPredictiveConfig true) 80 24) in
  map (fun p => (p_row p, p_col p)) (pending s) = [(3, 7); (3, 8); (3, 8)] /\ PredictOk s.
Proof.
  split; [vm_compute; reflexivity|]. apply (guesses_stay_in_the_pane (mkPredictiveConfig true) 80 24 typo).
  - unfold u16_max. lia.
  - unfold u16_max. lia.
  - unfold typo. repeat constructor; lia.
Defined.
Definition hello : list (bytes * Z * Z) := [([104], 1, 0); ([105], 1, 4); ([33], 1, 9)].
Definition blank_state : PredictionState := PredictionState_new (mkPredictiveConfig true) 80 24.
Lemma letter_types b : is_safe_predictable_cluster [b] = true -> is_mode_changing_input (letter b) = false -> types_text (letter b) [b] 1.
Proof. intros H1 H2. constructor; [reflexivity|repeat split; discriminate|reflexivity|exists [b]; split; reflexivity|exact H1|reflexivity|exact H2]. Defined.
Lemma echo_confirms_in_order_witness :
  exists s, Typing 0 0 hello blank_state s 3 1 /\ map p_text (pending s) = [[105]; [33]] /\ (cursor_row s, cursor_col s) = (0, 3).
Proof.
  assert (H : exists s, Typing 0 0 hello blank_state s 3 1).
  { eexists. eapply (Typing_key _ _ _ _ _ _ _ (letter 33) [33] 1 9 unread); [|reflexivity|apply letter_types; vm_compute; reflexivity].
    eapply (Typing_output _ _ _ _ _ _ 0%nat 1%nat (painted [104])); [|lia|].
    - eapply (Typing_key _ _ _ _ _ _ _ (letter 105) [105] 1 4 unread); [|reflexivity|apply letter_types; vm_compute; reflexivity].
      eapply (Typing_key _ _ _ _ _ _ _ (letter 104) [104] 1 0 unread); [apply Typing_start|reflexivity|apply letter_types; vm_compute; reflexivity].
    - intros [|[|[|[|i]]]] t w now Hi; try discriminate Hi; injection Hi as <- <- <-; cbv zeta; (split; intros Hlt; [first [lia|vm_compute; reflexivity]|first [lia|split; [vm_compute; reflexivity|vm_compute; discriminate]]]). }
  destruct H as [s Hs]. exists s. split; [exact Hs|].
  destruct (echo_confirms_in_order 0 0 hello blank_state s 3 1) as (H1 & H2 & _); [|exact Hs|].
  - unfold ready, blank_state, hello. cbn. unfold u16_max. repeat split; try lia. repeat constructor; simpl; lia.
  - split; [rewrite H1; vm_compute; reflexivity|exact H2].
Defined.
