(* ===== verification/Keybind.v ===== *)
(** * Key bindings

    [phux-config/src/keybind.rs]: the chord grammar, its parser, and the resolver, a trie over the [[keybindings]] table that is stepped
    one chord at a time. The values of an action's parameters are TOML's, an argument ([V]). Then what it promises: the trie against
    a plain table of sequences ([Represents]), the resolver against a reference that looks whole sequences up, and the spelling of
    chords against their parser. *)

From stdpp Require Import gmap list.
From S2P Require Import Prelude Enums Codec ClientLayout.

(** ** Data *)

(* phux-config/src/keybind.rs KeybindError *)
Inductive KeybindError : Type := Syntax (pos : Z) (message : bytes) | UnknownKey (name : bytes) | AmbiguousPrefix (binding : bytes).
(* phux-config/src/keybind.rs KeyChord *)
Record KeyChord : Type := mkKeyChord { modifiers : Z; chord_key : PhysicalKey }.
#[export] Instance KeyChord_eq_dec : EqDecision KeyChord.
Proof. solve_decision. Defined.
#[export] Instance KeyChord_countable : Countable KeyChord.
Proof.
  refine (inj_countable (fun c => (modifiers c, to_wire (chord_key c))) (fun x => k ← from_wire x.2; Some (mkKeyChord x.1 k)) _).
  intros [m k]. cbn. by rewrite from_to_wire.
Defined.
(* phux-protocol/src/input/key.rs:54-60 ModSet *)
Definition SHIFT : Z := 1.
Definition CTRL : Z := 2.
Definition ALT : Z := 4.
Definition SUPER : Z := 8.
(* phux-config/src/keybind.rs CHORD_MODS *)
Definition CHORD_MODS : Z := Z.lor (Z.lor (Z.lor SHIFT CTRL) ALT) SUPER.
(* phux-config/src/keybind.rs KeyChord::matches_event *)
Definition matches_event (c : KeyChord) (ev : KeyEvent) : bool :=
  bool_decide (key_action ev = KeyAction_Press) && bool_decide (key_key ev = chord_key c) && (Z.land (key_mods ev) CHORD_MODS =? modifiers c).

(** ** Characters of a UTF-8 string *)

(** A [char] with the bytes that spell it; [text] is valid UTF-8. *)
Definition char_len (b : Z) : nat := if b <? 0x80 then 1 else if b <? 0xe0 then 2 else if b <? 0xf0 then 3 else 4.
Definition code_point (c : bytes) : Z :=
  match c with
  | [a] => a
  | [a; b] => Z.land a 0x1f * 64 + Z.land b 0x3f
  | [a; b; c] => (Z.land a 0x0f * 64 + Z.land b 0x3f) * 64 + Z.land c 0x3f
  | [a; b; c; d] => ((Z.land a 0x07 * 64 + Z.land b 0x3f) * 64 + Z.land c 0x3f) * 64 + Z.land d 0x3f
  | _ => 0
  end.
Fixpoint chars_loop (fuel : nat) (text : bytes) : list bytes :=
  match fuel, text with
  | S fuel, b :: _ => take (char_len b) text :: chars_loop fuel (drop (char_len b) text)
  | _, _ => []
  end.
Definition chars (text : bytes) : list bytes := chars_loop (length text) text.
(** [char::is_whitespace]: the property White_Space. *)
Definition is_whitespace (c : Z) : bool :=
  ((9 <=? c) && (c <=? 13)) || bool_decide (c ∈ [32; 0x85; 0xa0; 0x1680; 0x2028; 0x2029; 0x202f; 0x205f; 0x3000]) || ((0x2000 <=? c) && (c <=? 0x200a)).
(** [str::split_whitespace]: the maximal runs without white space; [acc] is the run so far. *)
Fixpoint split_ws (cs : list bytes) (acc : bytes) : list bytes :=
  match cs with
  | [] => match acc with [] => [] | _ => [acc] end
  | c :: cs =>
      if is_whitespace (code_point c) then match acc with [] => split_ws cs [] | _ => acc :: split_ws cs [] end
      else split_ws cs (acc ++ c)
  end.
Definition split_whitespace (text : bytes) : list bytes := split_ws (chars text) [].
(** [str::find] of a substring: the first offset. *)
Fixpoint find_sub (token text : bytes) (off : Z) : option Z :=
  if bool_decide (take (length token) text = token) then Some off
  else match text with [] => None | _ :: text => find_sub token text (off + 1) end.

(** ** The chord grammar *)

(* phux-config/src/keybind.rs letter_to_key *)
Definition letter_to_key (c : Z) : option PhysicalKey :=
  match c with
  | 97 => Some PhysicalKey_A
  | 98 => Some PhysicalKey_B
  | 99 => Some PhysicalKey_C
  | 100 => Some PhysicalKey_D
  | 101 => Some PhysicalKey_E
  | 102 => Some PhysicalKey_F
  | 103 => Some PhysicalKey_G
  | 104 => Some PhysicalKey_H
  | 105 => Some PhysicalKey_I
  | 106 => Some PhysicalKey_J
  | 107 => Some PhysicalKey_K
  | 108 => Some PhysicalKey_L
  | 109 => Some PhysicalKey_M
  | 110 => Some PhysicalKey_N
  | 111 => Some PhysicalKey_O
  | 112 => Some PhysicalKey_P
  | 113 => Some PhysicalKey_Q
  | 114 => Some PhysicalKey_R
  | 115 => Some PhysicalKey_S
  | 116 => Some PhysicalKey_T
  | 117 => Some PhysicalKey_U
  | 118 => Some PhysicalKey_V
  | 119 => Some PhysicalKey_W
  | 120 => Some PhysicalKey_X
  | 121 => Some PhysicalKey_Y
  | 122 => Some PhysicalKey_Z
  | _ => None
  end.
(* phux-config/src/keybind.rs digit_to_key *)
Definition digit_to_key (c : Z) : option PhysicalKey :=
  match c with
  | 48 => Some PhysicalKey_Digit0
  | 49 => Some PhysicalKey_Digit1
  | 50 => Some PhysicalKey_Digit2
  | 51 => Some PhysicalKey_Digit3
  | 52 => Some PhysicalKey_Digit4
  | 53 => Some PhysicalKey_Digit5
  | 54 => Some PhysicalKey_Digit6
  | 55 => Some PhysicalKey_Digit7
  | 56 => Some PhysicalKey_Digit8
  | 57 => Some PhysicalKey_Digit9
  | _ => None
  end.
(* phux-config/src/keybind.rs punct_to_key *)
Definition punct_to_key (c : Z) : option (PhysicalKey * bool) :=
  match c with
  | 96 => Some (PhysicalKey_Backquote, false)
  | 45 => Some (PhysicalKey_Minus, false)
  | 61 => Some (PhysicalKey_Equal, false)
  | 91 => Some (PhysicalKey_BracketLeft, false)
  | 93 => Some (PhysicalKey_BracketRight, false)
  | 92 => Some (PhysicalKey_Backslash, false)
  | 59 => Some (PhysicalKey_Semicolon, false)
  | 39 => Some (PhysicalKey_Quote, false)
  | 44 => Some (PhysicalKey_Comma, false)
  | 46 => Some (PhysicalKey_Period, false)
  | 47 => Some (PhysicalKey_Slash, false)
  | 33 => Some (PhysicalKey_Digit1, true)
  | 64 => Some (PhysicalKey_Digit2, true)
  | 35 => Some (PhysicalKey_Digit3, true)
  | 36 => Some (PhysicalKey_Digit4, true)
  | 37 => Some (PhysicalKey_Digit5, true)
  | 94 => Some (PhysicalKey_Digit6, true)
  | 38 => Some (PhysicalKey_Digit7, true)
  | 42 => Some (PhysicalKey_Digit8, true)
  | 40 => Some (PhysicalKey_Digit9, true)
  | 41 => Some (PhysicalKey_Digit0, true)
  | 126 => Some (PhysicalKey_Backquote, true)
  | 95 => Some (PhysicalKey_Minus, true)
  | 43 => Some (PhysicalKey_Equal, true)
  | 123 => Some (PhysicalKey_BracketLeft, true)
  | 125 => Some (PhysicalKey_BracketRight, true)
  | 124 => Some (PhysicalKey_Backslash, true)
  | 58 => Some (PhysicalKey_Semicolon, true)
  | 34 => Some (PhysicalKey_Quote, true)
  | 60 => Some (PhysicalKey_Comma, true)
  | 62 => Some (PhysicalKey_Period, true)
  | 63 => Some (PhysicalKey_Slash, true)
  | _ => None
  end.
(* phux-config/src/keybind.rs function_key *)
Definition function_key (n : Z) : option PhysicalKey :=
  match n with
  | 1 => Some PhysicalKey_F1
  | 2 => Some PhysicalKey_F2
  | 3 => Some PhysicalKey_F3
  | 4 => Some PhysicalKey_F4
  | 5 => Some PhysicalKey_F5
  | 6 => Some PhysicalKey_F6
  | 7 => Some PhysicalKey_F7
  | 8 => Some PhysicalKey_F8
  | 9 => Some PhysicalKey_F9
  | 10 => Some PhysicalKey_F10
  | 11 => Some PhysicalKey_F11
  | 12 => Some PhysicalKey_F12
  | 13 => Some PhysicalKey_F13
  | 14 => Some PhysicalKey_F14
  | 15 => Some PhysicalKey_F15
  | 16 => Some PhysicalKey_F16
  | 17 => Some PhysicalKey_F17
  | 18 => Some PhysicalKey_F18
  | 19 => Some PhysicalKey_F19
  | 20 => Some PhysicalKey_F20
  | 21 => Some PhysicalKey_F21
  | 22 => Some PhysicalKey_F22
  | 23 => Some PhysicalKey_F23
  | 24 => Some PhysicalKey_F24
  | _ => None
  end.
Definition is_ascii_uppercase (c : Z) : bool := (65 <=? c) && (c <=? 90).
Definition is_ascii_alphabetic (c : Z) : bool := is_ascii_uppercase c || ((97 <=? c) && (c <=? 122)).
Definition to_ascii_lowercase (c : Z) : Z := if is_ascii_uppercase c then c + 32 else c.
Definition is_ascii_digit (c : Z) : bool := (48 <=? c) && (c <=? 57).
(** [str::parse::<u8>]. *)
Definition parse_u8 (text : bytes) : option Z := n ← parse_u32 text; if n <=? 255 then Some n else None.
(** The named keys, with the shift [BackTab] implies. *)
(* phux-config/src/keybind.rs:313-337 parse_key_token *)
Definition named_key (s : bytes) : option (PhysicalKey * bool) :=
  if bool_decide (s = str "Tab") then Some (PhysicalKey_Tab, false)
  else if bool_decide (s = str "BackTab") then Some (PhysicalKey_Tab, true)
  else if bool_decide (s = str "Enter") then Some (PhysicalKey_Enter, false)
  else if bool_decide (s = str "Esc") || bool_decide (s = str "Escape") then Some (PhysicalKey_Escape, false)
  else if bool_decide (s = str "Space") then Some (PhysicalKey_Space, false)
  else if bool_decide (s = str "Backspace") then Some (PhysicalKey_Backspace, false)
  else if bool_decide (s = str "Delete") then Some (PhysicalKey_Delete, false)
  else if bool_decide (s = str "Up") then Some (PhysicalKey_ArrowUp, false)
  else if bool_decide (s = str "Down") then Some (PhysicalKey_ArrowDown, false)
  else if bool_decide (s = str "Left") then Some (PhysicalKey_ArrowLeft, false)
  else if bool_decide (s = str "Right") then Some (PhysicalKey_ArrowRight, false)
  else if bool_decide (s = str "Home") then Some (PhysicalKey_Home, false)
  else if bool_decide (s = str "End") then Some (PhysicalKey_End, false)
  else if bool_decide (s = str "PageUp") then Some (PhysicalKey_PageUp, false)
  else if bool_decide (s = str "PageDown") then Some (PhysicalKey_PageDown, false)
  else if bool_decide (s = str "Insert") then Some (PhysicalKey_Insert, false)
  else None.
(* phux-config/src/keybind.rs parse_key_token *)
Definition parse_key_token (s : bytes) : result KeybindError (PhysicalKey * bool) :=
  match chars s with
  | [c] =>
      let ch := code_point c in
      if is_ascii_alphabetic ch then
        match letter_to_key (to_ascii_lowercase ch) with Some key => Ok (key, is_ascii_uppercase ch) | None => Err (UnknownKey s) end
      else if is_ascii_digit ch then match digit_to_key ch with Some key => Ok (key, false) | None => Err (UnknownKey s) end
      else match punct_to_key ch with Some r => Ok r | None => Err (UnknownKey s) end
  | _ =>
      let fkey := match s with 70 :: rest => n ← parse_u8 rest; function_key n | _ => None end in
      match fkey with
      | Some key => Ok (key, false)
      | None => match named_key s with Some r => Ok r | None => Err (UnknownKey s) end
      end
  end.
(* phux-config/src/keybind.rs split_modifier *)
Definition split_modifier (s : bytes) : option (Z * bytes) :=
  match s with
  | first :: 45 :: rest =>
      match rest with
      | [] => None
      | _ => if bool_decide (first ∈ [67; 77; 83; 65]) then Some (first, rest) else None
      end
  | _ => None
  end.
(** The [while let]; each round takes two bytes, so [fuel] is the length. *)
(* phux-config/src/keybind.rs:217-231 parse_chord_at *)
Fixpoint peel_modifiers (fuel : nat) (rest : bytes) (mods cursor : Z) : result KeybindError (Z * bytes * Z) :=
  match fuel with
  | O => Ok (mods, rest, cursor)
  | S fuel =>
      match split_modifier rest with
      | None => Ok (mods, rest, cursor)
      | Some (head, tail) =>
          match (match head with 67 => Some CTRL | 77 | 65 => Some ALT | 83 => Some SHIFT | _ => None end) with
          | Some m => peel_modifiers fuel tail (Z.lor mods m) (cursor + 2)
          | None => Err (Syntax cursor (str "unknown modifier '" ++ [head] ++ str "'"))
          end
      end
  end.
(* phux-config/src/keybind.rs parse_chord_at *)
Definition parse_chord_at (s : bytes) (base_pos : Z) : result KeybindError KeyChord :=
  match s with
  | [] => Err (Syntax base_pos (str "empty chord"))
  | _ =>
      '(mods, rest, cursor) ← peel_modifiers (length s) s 0 base_pos;
      match rest with
      | [] => Err (Syntax cursor (str "missing key after modifiers"))
      | _ =>
          if bool_decide (last rest = Some 45) && (1 <? len rest) then Err (Syntax (cursor + len rest - 1) (str "trailing dash"))
          else
            '(key, implicit_shift) ← parse_key_token rest;
            Ok (mkKeyChord (if implicit_shift : bool then Z.lor mods SHIFT else mods) key)
      end
  end.
(* phux-config/src/keybind.rs parse_chord *)
Definition parse_chord (s : bytes) : result KeybindError KeyChord := parse_chord_at s 0.
(** The loop over the tokens. *)
(* phux-config/src/keybind.rs:486-493 parse_chord_sequence *)
Fixpoint parse_tokens (s : bytes) (tokens : list bytes) (cursor : Z) : result KeybindError (list KeyChord) :=
  match tokens with
  | [] => Ok []
  | token :: tokens =>
      let token_pos := default cursor (find_sub token (drop (Z.to_nat cursor) s) cursor) in
      chord ← parse_chord_at token token_pos;
      rest ← parse_tokens s tokens (token_pos + len token);
      Ok (chord :: rest)
  end.
(* phux-config/src/keybind.rs parse_chord_sequence *)
Definition parse_chord_sequence (s : bytes) : result KeybindError (list KeyChord) :=
  match split_whitespace s with
  | [] => Err (Syntax 0 (str "empty chord sequence"))
  | tokens => parse_tokens s tokens 0
  end.
(* phux-config/src/keybind.rs chord_str_matches_event *)
Definition chord_str_matches_event (s : bytes) (ev : KeyEvent) : bool := match parse_chord s with Ok c => matches_event c ev | Err _ => false end.

(** ** The resolver *)

Section Resolver.
  Context {V : Type}.

(* phux-config/src/schema.rs:497-516 Action *)
Inductive Action : Type := Bare (name : bytes) | Parameterized (name : bytes) (args : list (bytes * V)).
(* phux-config/src/keybind.rs ResolvedAction *)
Record ResolvedAction : Type := mkResolved { ra_action : bytes; ra_args : list (bytes * V) }.
(* phux-config/src/keybind.rs:181-194 ResolvedAction *)
Definition resolved_of (a : Action) : ResolvedAction := match a with Bare name => mkResolved name [] | Parameterized name args => mkResolved name args end.
(** The part of [KeybindingsCfg] the resolver reads; the tables in key order. *)
(* phux-config/src/schema.rs:435-450 KeybindingsCfg *)
Record KeybindingsCfg : Type := mkKeybindings { cfg_prefix : bytes; prefix_table : list (bytes * Action); global : list (bytes * Action) }.
(* phux-config/src/schema.rs default_prefix *)
Definition default_prefix : bytes := str "C-a".
(* phux-config/src/keybind.rs BindingDiagnostic *)
Record BindingDiagnostic : Type := mkDiagnostic { d_binding : bytes; d_error : KeybindError }.
(* phux-config/src/keybind.rs TrieNode *)
Inductive TrieNode : Type := mkNode (node_action : option ResolvedAction) (node_children : gmap KeyChord TrieNode).
Definition action_of (n : TrieNode) : option ResolvedAction := match n with mkNode a _ => a end.
Definition children (n : TrieNode) : gmap KeyChord TrieNode := match n with mkNode _ c => c end.
(* phux-config/src/keybind.rs:531-537 TrieNode *)
Definition empty_node : TrieNode := mkNode None ∅.
(** The node after the call, which a failed one has also changed where the code has. *)
(* phux-config/src/keybind.rs TrieNode::insert *)
Fixpoint insert (n : TrieNode) (seq : list KeyChord) (action : ResolvedAction) (full_text : bytes) : result KeybindError unit * TrieNode :=
  match seq with
  | [] =>
      if bool_decide (is_Some (action_of n)) || negb (bool_decide (children n = ∅)) then (Err (AmbiguousPrefix full_text), n)
      else (Ok tt, mkNode (Some action) (children n))
  | first :: rest =>
      if bool_decide (is_Some (action_of n)) then (Err (AmbiguousPrefix full_text), n)
      else
        let child := default empty_node (children n !! first) in
        let '(r, child) := insert child rest action full_text in
        (r, mkNode (action_of n) (<[first := child]> (children n)))
  end.
(* phux-config/src/keybind.rs Resolver *)
Record Resolver : Type := mkResolver { root : TrieNode; prefix : KeyChord; cursor : option TrieNode; pending_path : list KeyChord }.
(* phux-config/src/keybind.rs Feed *)
Inductive Feed : Type := NoMatch | Partial | Resolved (action : ResolvedAction).

(** One table: a binding that does not parse or does not fit is reported and skipped. *)
(* phux-config/src/keybind.rs:667-684 new_lenient *)
Fixpoint insert_all (n : TrieNode) (table : list (bytes * Action)) (diagnostics : list BindingDiagnostic) : TrieNode * list BindingDiagnostic :=
  match table with
  | [] => (n, diagnostics)
  | (binding, action) :: table =>
      match parse_chord_sequence binding with
      | Err error => insert_all n table (diagnostics ++ [mkDiagnostic binding error])
      | Ok seq =>
          match insert n seq (resolved_of action) binding with
          | (Ok _, n) => insert_all n table diagnostics
          | (Err error, n) => insert_all n table (diagnostics ++ [mkDiagnostic binding error])
          end
      end
  end.
(* phux-config/src/keybind.rs Resolver::new_lenient *)
Definition new_lenient (cfg : KeybindingsCfg) : Resolver * list BindingDiagnostic :=
  let '(prefix, diagnostics) :=
    match parse_chord (cfg_prefix cfg) with
    | Ok chord => (chord, [])
    | Err error =>
        (match parse_chord default_prefix with Ok chord => chord | Err _ => mkKeyChord CTRL PhysicalKey_A end, [mkDiagnostic (cfg_prefix cfg) error])
    end in
  let '(root, diagnostics) := insert_all empty_node (global cfg) diagnostics in
  match prefix_table cfg with
  | [] => (mkResolver root prefix None [], diagnostics)
  | table =>
      let prefix_child := default empty_node (children root !! prefix) in
      let '(prefix_child, diagnostics) :=
        match action_of prefix_child with
        | Some _ => (mkNode None (children prefix_child), diagnostics ++ [mkDiagnostic (cfg_prefix cfg) (AmbiguousPrefix (cfg_prefix cfg))])
        | None => (prefix_child, diagnostics)
        end in
      let '(prefix_child, diagnostics) := insert_all prefix_child table diagnostics in
      (mkResolver (mkNode (action_of root) (<[prefix := prefix_child]> (children root))) prefix None [], diagnostics)
  end.
(* phux-config/src/keybind.rs Resolver::new *)
Definition Resolver_new (cfg : KeybindingsCfg) : result KeybindError Resolver :=
  let '(resolver, diagnostics) := new_lenient cfg in
  match diagnostics with [] => Ok resolver | diag :: _ => Err (d_error diag) end.
(* phux-config/src/keybind.rs Resolver::reset *)
Definition reset (r : Resolver) : Resolver := mkResolver (root r) (prefix r) None [].
(* phux-config/src/keybind.rs Resolver::feed *)
Definition feed (r : Resolver) (chord : KeyChord) : Feed * Resolver :=
  let current := default (root r) (cursor r) in
  match children current !! chord with
  | None => (NoMatch, reset r)
  | Some next =>
      match action_of next with
      | Some action => (Resolved action, reset r)
      | None =>
          if bool_decide (children next = ∅) then (NoMatch, reset r)
          else (Partial, mkResolver (root r) (prefix r) (Some next) (pending_path r ++ [chord]))
      end
  end.
(* phux-config/src/keybind.rs Resolver::is_pending *)
Definition is_pending (r : Resolver) : bool := bool_decide (is_Some (cursor r)).
(* phux-config/src/keybind.rs Resolver::pending_at_prefix *)
Definition pending_at_prefix (r : Resolver) : bool := bool_decide (pending_path r = [prefix r]).
End Resolver.
#[global] Arguments Action V : clear implicits.
#[global] Arguments ResolvedAction V : clear implicits.
#[global] Arguments KeybindingsCfg V : clear implicits.
#[global] Arguments TrieNode V : clear implicits.
#[global] Arguments Resolver V : clear implicits.
#[global] Arguments Feed V : clear implicits.

(** * The resolver is its table *)

(** ** The trie as a table *)

Section Trie.
  Context {V : Type}.
Implicit Types (n m : TrieNode V) (seq path : list KeyChord) (T : gmap (list KeyChord) (ResolvedAction V)).

Fixpoint node_at n path : option (TrieNode V) := match path with [] => Some n | c :: path => child ← children n !! c; node_at child path end.
Definition binding_at n seq : option (ResolvedAction V) := node_at n seq ≫= action_of.
(** [n] holds the bindings of [T], its leaves have no children, and below the top no branch is dead. *)
Record Represents n T : Prop := mkRepresents {
  rep_lookup : forall seq, binding_at n seq = T !! seq;
  rep_leaf : forall path m, node_at n path = Some m -> is_Some (action_of m) -> children m = ∅;
  rep_live : forall c path m, node_at n (c :: path) = Some m -> exists seq, is_Some (binding_at m seq)
}.
(** No binding is a prefix of the other. *)
Definition compatible T seq : bool := bool_decide (map_Forall (fun k _ => ~ k `prefix_of` seq /\ ~ seq `prefix_of` k) T).

Lemma node_at_app n p q : node_at n (p ++ q) = m ← node_at n p; node_at m q.
Proof. revert n. induction p as [|c p IH]; intros n; simpl; [done|]. destruct (children n !! c); simpl; [apply IH|done]. Qed.
Lemma binding_at_app n p q : binding_at n (p ++ q) = m ← node_at n p; binding_at m q.
Proof. unfold binding_at. rewrite node_at_app. by destruct (node_at n p). Qed.
Lemma binding_at_empty seq : binding_at (@empty_node V) seq = None.
Proof. destruct seq; [done|]. unfold binding_at. simpl. by rewrite lookup_empty. Qed.
Lemma represents_empty : Represents (@empty_node V) ∅.
Proof.
  constructor; [intros seq; by rewrite binding_at_empty, lookup_empty| |].
  - intros [|c path] m; [intros [= <-] [? ?]; done|]. simpl. by rewrite lookup_empty.
  - intros c path m. simpl. by rewrite lookup_empty.
Qed.
(** The table of one child. *)
Definition below (c : KeyChord) T : gmap (list KeyChord) (ResolvedAction V) :=
  list_to_map (omap (fun '(k, a) => match k with x :: k => if bool_decide (x = c) then Some (k, a) else None | [] => None end) (map_to_list T)).
Lemma lookup_below c T seq : below c T !! seq = T !! (c :: seq).
Proof.
  unfold below. set (f := fun '(k, a) => _).
  assert (Hin : forall k a, (k, a) ∈ omap f (map_to_list T) <-> T !! (c :: k) = Some a).
  { intros k a. rewrite list_elem_of_omap. split.
    - intros ([k' a'] & Hin & Hf). apply elem_of_map_to_list in Hin. unfold f in Hf. destruct k' as [|x k']; [done|]. case_bool_decide; [|done]. injection Hf as <- <-. by subst.
    - intros H. exists (c :: k, a). split; [by apply elem_of_map_to_list|]. unfold f. by rewrite bool_decide_eq_true_2. }
  assert (Hnd : NoDup (omap f (map_to_list T)).*1).
  { apply NoDup_fmap_fst; [|].
    - intros k a1 a2 H1%Hin H2%Hin. congruence.
    - assert (Hg : forall l, NoDup l -> (forall x y z, x ∈ l -> y ∈ l -> f x = Some z -> f y = Some z -> x = y) -> NoDup (omap f l)).
      { clear. intros l Hl. induction Hl as [|x l Hx _ IH]; intros Hf; simpl; [constructor|]. destruct (f x) as [z|] eqn:Ez.
        - constructor; [|apply IH; intros; eapply Hf; try done; by right]. intros (y & Hy & Hz)%list_elem_of_omap.
          assert (x = y) by (eapply Hf; [by left|by right|done|done]). by subst.
        - apply IH. intros; eapply Hf; try done; by right. }
      apply Hg; [apply NoDup_map_to_list|]. intros [k1 a1] [k2 a2] [k a] _ _ H1 H2. unfold f in *.
      destruct k1 as [|x1 k1], k2 as [|x2 k2]; try done. do 2 (case_bool_decide; [|done]). congruence. }
  apply option_eq. intros a. rewrite <- (elem_of_list_to_map _ _ _ Hnd). apply Hin.
Qed.
Lemma represents_child n T c m : Represents n T -> children n !! c = Some m -> Represents m (below c T).
Proof.
  intros [H1 H2 H3] Ec. constructor.
  - intros seq. rewrite lookup_below, <- H1. unfold binding_at. simpl. by rewrite Ec.
  - intros path m' Hm. apply (H2 (c :: path)). simpl. by rewrite Ec.
  - intros d path m' Hm. apply (H3 c (d :: path)). simpl. by rewrite Ec.
Qed.
Lemma below_empty n T c : Represents n T -> children n !! c = None -> below c T = ∅.
Proof. intros [H1 _ _] Ec. apply map_eq. intros seq. rewrite lookup_below, lookup_empty, <- H1. unfold binding_at. simpl. by rewrite Ec. Qed.
Lemma compatible_spec T seq : compatible T seq = true <-> forall k a, T !! k = Some a -> ~ k `prefix_of` seq /\ ~ seq `prefix_of` k.
Proof. unfold compatible. by rewrite bool_decide_eq_true. Qed.
Lemma compatible_below T c seq : T !! [] = None -> compatible T (c :: seq) = compatible (below c T) seq.
Proof.
  intros H0. apply eq_true_iff_eq. rewrite !compatible_spec. split; intros H k a Hk.
  - rewrite lookup_below in Hk. destruct (H _ _ Hk) as [H1 H2]. split; intros Hp; [apply H1|apply H2]; by apply prefix_cons.
  - destruct k as [|d k]; [congruence|]. split; intros Hp.
    + pose proof (prefix_cons_inv_1 _ _ _ _ Hp) as ->. apply prefix_cons_inv_2 in Hp. destruct (H k a) as [H' _]; [by rewrite lookup_below|by apply H'].
    + pose proof (prefix_cons_inv_1 _ _ _ _ Hp) as ->. apply prefix_cons_inv_2 in Hp. destruct (H k a) as [_ H']; [by rewrite lookup_below|by apply H'].
Qed.
(** Children exist exactly when a longer binding does. *)
Lemma represents_leafless n T : Represents n T -> action_of n = None -> children n = ∅ <-> T = ∅.
Proof.
  intros [H1 H2 H3] Ha. split.
  - intros Hc. apply map_eq. intros seq. rewrite <- H1, lookup_empty. unfold binding_at. destruct seq as [|c seq]; simpl; [done|]. by rewrite Hc, lookup_empty.
  - intros ->. apply map_eq. intros c. rewrite lookup_empty. destruct (children n !! c) as [m|] eqn:Ec; [|done]. exfalso.
    destruct (H3 c [] m) as [seq [a Hs]]; [simpl; by rewrite Ec|]. specialize (H1 (c :: seq)). rewrite lookup_empty in H1. unfold binding_at in *. simpl in H1. rewrite Ec in H1. simpl in H1. congruence.
Qed.
(** [TrieNode::insert] is the insertion into the table, or a refusal that changes nothing. *)
Lemma insert_spec seq : forall n T action text, Represents n T ->
  if compatible T seq then (insert n seq action text).1 = Ok tt /\ Represents (insert n seq action text).2 (<[seq := action]> T)
  else insert n seq action text = (Err (AmbiguousPrefix text), n).
Proof.
  induction seq as [|c seq IH]; intros n T action text Hrep.
  - cbn [insert]. pose proof Hrep as [H1 H2 H3]. destruct (action_of n) as [a|] eqn:Ea.
    + assert (Hc : compatible T [] = false).
      { apply not_true_iff_false. rewrite compatible_spec. intros H. specialize (H1 []). unfold binding_at in H1. simpl in H1. rewrite Ea in H1.
        destruct (H [] a) as [H' _]; [done|]. by apply H'. }
      rewrite Hc, bool_decide_eq_true_2 by done. done.
    + rewrite (bool_decide_eq_false_2 (is_Some None)) by (by intros [? ?]). cbn [orb]. destruct (compatible T []) eqn:Hc.
      * assert (ET : T = ∅).
        { apply map_eq. intros k. rewrite lookup_empty. destruct (T !! k) as [a|] eqn:Ek; [|done]. rewrite compatible_spec in Hc. destruct (Hc _ _ Ek) as [_ H'].
          exfalso. apply H'. by apply prefix_nil. }
        pose proof (proj2 (represents_leafless n T Hrep Ea) ET) as Ech. rewrite bool_decide_eq_true_2 by done. cbn [negb fst snd]. split; [done|]. subst T. constructor.
        -- intros [|d s]; [by rewrite lookup_insert_eq|]. rewrite lookup_insert_ne, lookup_empty by done. unfold binding_at. simpl. by rewrite Ech, lookup_empty.
        -- intros [|d p] m; simpl; [intros [= <-] _; done|]. by rewrite Ech, lookup_empty.
        -- intros d p m. simpl. by rewrite Ech, lookup_empty.
      * rewrite bool_decide_eq_false_2; [done|]. intros Ech. apply (represents_leafless n T Hrep Ea) in Ech as ->. apply not_true_iff_false in Hc. apply Hc.
        apply compatible_spec. intros k a. by rewrite lookup_empty.
  - cbn [insert]. pose proof Hrep as [H1 H2 H3]. destruct (action_of n) as [a|] eqn:Ea.
    + assert (Hc : compatible T (c :: seq) = false).
      { apply not_true_iff_false. rewrite compatible_spec. intros H. specialize (H1 []). unfold binding_at in H1. simpl in H1. rewrite Ea in H1.
        destruct (H [] a) as [H' _]; [done|]. apply H', prefix_nil. }
      rewrite Hc, bool_decide_eq_true_2 by done. done.
    + rewrite bool_decide_eq_false_2 by (by intros [? ?]).
      assert (Hroot : T !! [] = None) by (rewrite <- H1; unfold binding_at; simpl; done). rewrite (compatible_below T c seq Hroot).
      set (child := default empty_node (children n !! c)).
      assert (Hchild : Represents child (below c T)).
      { unfold child. destruct (children n !! c) as [m|] eqn:Ec; simpl; [by eapply represents_child|]. rewrite (below_empty n) by done. apply represents_empty. }
      specialize (IH child (below c T) action text Hchild). destruct (compatible (below c T) seq) eqn:Hcomp.
      * destruct (insert child seq action text) as [r child']. cbn [fst snd] in *. destruct IH as [-> IH]. split; [done|]. destruct IH as [I1 I2 I3]. constructor.
        -- intros [|d s].
           ++ rewrite lookup_insert_ne by done. by rewrite <- H1.
           ++ unfold binding_at. simpl. destruct (decide (d = c)) as [->|Hd].
              ** rewrite lookup_insert_eq. simpl. change (binding_at child' s = <[c :: seq:=action]> T !! (c :: s)). rewrite I1. destruct (decide (s = seq)) as [->|Hs].
                 --- by rewrite !lookup_insert_eq.
                 --- rewrite !lookup_insert_ne by congruence. apply lookup_below.
              ** rewrite lookup_insert_ne by congruence. rewrite lookup_insert_ne by congruence. rewrite <- H1. done.
        -- intros [|d p] m; simpl; [intros [= <-]; simpl; by intros [? ?]|]. destruct (decide (d = c)) as [->|Hd].
           ++ rewrite lookup_insert_eq. simpl. apply I2.
           ++ rewrite lookup_insert_ne by congruence. intros Hm. apply (H2 (d :: p)). exact Hm.
        -- intros d p m. simpl. destruct (decide (d = c)) as [->|Hd].
           ++ rewrite lookup_insert_eq. simpl. destruct p as [|e p].
              ** intros [= <-]. exists seq. rewrite I1, lookup_insert_eq. by eexists.
              ** intros Hm. by apply (I3 e p).
           ++ rewrite lookup_insert_ne by congruence. intros Hm. apply (H3 d p). exact Hm.
      * rewrite IH. f_equal. destruct n as [na nc]. cbn [action_of children] in *. rewrite insert_id; [by subst|]. unfold child. destruct (nc !! c) as [m|] eqn:Ec; [done|].
        exfalso. rewrite (below_empty _ _ _ Hrep) in Hcomp by done. apply not_true_iff_false in Hcomp. apply Hcomp. apply compatible_spec. intros k a. by rewrite lookup_empty.
Qed.

(** ** The table a configuration means *)

(** The bindings taken, in key order: those that parse and conflict with none taken before. [at_path] is what has to be pressed first. *)
Fixpoint accept (at_path : list KeyChord) T (table : list (bytes * Action V)) (ds : list BindingDiagnostic)
    : gmap (list KeyChord) (ResolvedAction V) * list BindingDiagnostic :=
  match table with
  | [] => (T, ds)
  | (binding, action) :: table =>
      match parse_chord_sequence binding with
      | Err error => accept at_path T table (ds ++ [mkDiagnostic binding error])
      | Ok seq =>
          if compatible T (at_path ++ seq) then accept at_path (<[at_path ++ seq := resolved_of action]> T) table ds
          else accept at_path T table (ds ++ [mkDiagnostic binding (AmbiguousPrefix binding)])
      end
  end.
Definition prefix_of_cfg (cfg : KeybindingsCfg V) : KeyChord * list BindingDiagnostic :=
  match parse_chord (cfg_prefix cfg) with
  | Ok chord => (chord, [])
  | Err error => (mkKeyChord CTRL PhysicalKey_A, [mkDiagnostic (cfg_prefix cfg) error])
  end.
(** The global table, without a binding at the prefix itself when the prefix opens a table, and that table behind the prefix. *)
Definition bindings_of (cfg : KeybindingsCfg V) : gmap (list KeyChord) (ResolvedAction V) * list BindingDiagnostic :=
  let '(p, ds) := prefix_of_cfg cfg in
  let '(T, ds) := accept [] ∅ (global cfg) ds in
  match prefix_table cfg with
  | [] => (T, ds)
  | table =>
      let '(T, ds) :=
        match T !! [p] with
        | Some _ => (delete [p] T, ds ++ [mkDiagnostic (cfg_prefix cfg) (AmbiguousPrefix (cfg_prefix cfg))])
        | None => (T, ds)
        end in
      accept [p] T table ds
  end.
(** Pressing one more key: look the whole sequence up. *)
Definition press T (pressed : list KeyChord) (chord : KeyChord) : Feed V * list KeyChord :=
  let q := pressed ++ [chord] in
  match T !! q with
  | Some a => (Resolved a, [])
  | None => if bool_decide (map_Forall (fun k _ => ~ q `prefix_of` k) T) then (NoMatch, []) else (Partial, q)
  end.
Fixpoint press_all T (pressed : list KeyChord) (chords : list KeyChord) : list (Feed V) :=
  match chords with [] => [] | c :: chords => let '(f, pressed) := press T pressed c in f :: press_all T pressed chords end.
Fixpoint feed_all (r : Resolver V) (chords : list KeyChord) : list (Feed V) :=
  match chords with [] => [] | c :: chords => let '(f, r) := feed r c in f :: feed_all r chords end.

Lemma parse_tokens_nonempty s tokens cur cs : parse_tokens s tokens cur = Ok cs -> tokens <> [] -> cs <> [].
Proof.
  destruct tokens as [|t tokens]; [done|]. simpl. destruct (parse_chord_at _ _) as [c|]; cbn; [|done]. destruct (parse_tokens _ _ _) as [rest|]; cbn; [|done]. by intros [= <-].
Qed.
Lemma parse_sequence_nonempty s cs : parse_chord_sequence s = Ok cs -> cs <> [].
Proof. unfold parse_chord_sequence. destruct (split_whitespace s) as [|t l]; [done|]. intros H. by eapply parse_tokens_nonempty. Qed.
Lemma accept_root at_path T table ds : T !! [] = None -> (accept at_path T table ds).1 !! [] = None.
Proof.
  revert T ds. induction table as [|[b a] table IH]; intros T ds H; simpl; [done|]. destruct (parse_chord_sequence b) as [seq|] eqn:Ep; [|by apply IH].
  destruct (compatible _ _); [|by apply IH]. apply IH. rewrite lookup_insert_ne; [done|]. intros E. apply app_eq_nil in E as [_ ->]. by apply parse_sequence_nonempty in Ep.
Qed.
Lemma insert_all_spec table : forall n T ds, Represents n T ->
  (insert_all n table ds).2 = (accept [] T table ds).2 /\ Represents (insert_all n table ds).1 (accept [] T table ds).1.
Proof.
  induction table as [|[b a] table IH]; intros n T ds Hrep; simpl; [done|]. destruct (parse_chord_sequence b) as [seq|e]; [|by apply IH].
  pose proof (insert_spec seq n T (resolved_of a) b Hrep) as Hi. destruct (compatible T seq).
  - destruct (insert n seq (resolved_of a) b) as [r n']. cbn in Hi. destruct Hi as [-> Hi]. by apply IH.
  - rewrite Hi. by apply IH.
Qed.
Lemma below_insert c T k a : below c (<[c :: k := a]> T) = <[k := a]> (below c T).
Proof.
  apply map_eq. intros s. rewrite lookup_below. destruct (decide (s = k)) as [->|Hs]; [by rewrite !lookup_insert_eq|].
  rewrite !lookup_insert_ne by congruence. by rewrite lookup_below.
Qed.
Lemma accept_below c table : forall T ds, T !! [] = None ->
  (accept [c] T table ds).2 = (accept [] (below c T) table ds).2 /\ below c (accept [c] T table ds).1 = (accept [] (below c T) table ds).1
  /\ forall d k, d <> c -> (accept [c] T table ds).1 !! (d :: k) = T !! (d :: k).
Proof.
  induction table as [|[b a] table IH]; intros T ds H; simpl; [done|]. destruct (parse_chord_sequence b) as [seq|e]; [|by apply IH].
  rewrite compatible_below by done. destruct (compatible (below c T) seq); [|by apply IH].
  destruct (IH (<[c :: seq := resolved_of a]> T) ds) as (I1 & I2 & I3); [by rewrite lookup_insert_ne by done|].
  rewrite below_insert in I1, I2. split_and!; [done|done|]. intros d k Hd. rewrite I3 by done. by rewrite lookup_insert_ne by congruence.
Qed.

(** ** The resolver follows it *)

Definition nothing_behind T p : Prop := forall k a, T !! k = Some a -> ~ p `prefix_of` k.
Definition follows n T p : Prop :=
  match node_at n p with
  | None => nothing_behind T p
  | Some m => action_of m = T !! p /\ (action_of m = None -> children m = ∅ <-> nothing_behind T p)
  end.
Lemma nothing_behind_below c T p : nothing_behind (below c T) p <-> nothing_behind T (c :: p).
Proof.
  unfold nothing_behind. split; intros H k a Hk Hp.
  - destruct k as [|d k]; [by apply prefix_nil_inv in Hp|]. pose proof (prefix_cons_inv_1 _ _ _ _ Hp) as ->. apply prefix_cons_inv_2 in Hp.
    eapply H; [|exact Hp]. rewrite lookup_below. exact Hk.
  - rewrite lookup_below in Hk. eapply H; [exact Hk|]. by apply prefix_cons.
Qed.
Lemma represents_follows p : forall n T, Represents n T -> follows n T p.
Proof.
  induction p as [|c p IH]; intros n T Hrep; unfold follows; cbn [node_at].
  - pose proof Hrep as [H1 _ _]. split; [by rewrite <- H1|]. intros Ha. rewrite (represents_leafless n T Hrep Ha). split.
    + intros -> k a. by rewrite lookup_empty.
    + intros H. apply map_eq. intros k. rewrite lookup_empty. destruct (T !! k) as [a|] eqn:Ek; [|done]. exfalso. apply (H k a Ek), prefix_nil.
  - destruct (children n !! c) as [m|] eqn:Ec; cbn.
    + specialize (IH m (below c T) (represents_child _ _ _ _ Hrep Ec)). unfold follows in IH. destruct (node_at m p) as [m'|].
      * rewrite lookup_below, nothing_behind_below in IH. exact IH.
      * by apply nothing_behind_below.
    + apply nothing_behind_below. rewrite (below_empty n) by done. intros k a. by rewrite lookup_empty.
Qed.
(** The trie the configuration gives follows its table, and the diagnostics are the table's. *)
Lemma new_lenient_spec cfg : (new_lenient cfg).2 = (bindings_of cfg).2 /\ cursor (new_lenient cfg).1 = None /\ pending_path (new_lenient cfg).1 = []
  /\ prefix (new_lenient cfg).1 = (prefix_of_cfg cfg).1
  /\ forall c p, follows (root (new_lenient cfg).1) (bindings_of cfg).1 (c :: p).
Proof.
  unfold new_lenient, bindings_of, prefix_of_cfg. assert (Ed : parse_chord default_prefix = Ok (mkKeyChord CTRL PhysicalKey_A)) by (vm_compute; reflexivity). rewrite Ed.
  set (pd := match parse_chord (cfg_prefix cfg) with Ok chord => (chord, []) | Err error => (mkKeyChord CTRL PhysicalKey_A, [mkDiagnostic (cfg_prefix cfg) error]) end).
  clearbody pd. destruct pd as [pfx ds0]. destruct (insert_all_spec (global cfg) empty_node ∅ ds0 represents_empty) as [E1 Hrep].
  pose proof (accept_root [] ∅ (global cfg) ds0 (lookup_empty _)) as Hroot.
  destruct (insert_all _ _ _) as [root0 ds1], (accept [] ∅ (global cfg) ds0) as [T0 ds1']. cbn [fst snd] in *. subst ds1'.
  destruct (prefix_table cfg) as [|entry table'] eqn:Etab; [cbn; split_and!; [done..|]; intros c p; by apply represents_follows|]. set (table := entry :: table') in *. clearbody table.
  set (child0 := default empty_node (children root0 !! pfx)). assert (Hc0 : Represents child0 (below pfx T0)).
  { unfold child0. destruct (children root0 !! pfx) as [m|] eqn:Ec; cbn; [by eapply represents_child|]. rewrite (below_empty root0) by done. apply represents_empty. }
  assert (Ea : T0 !! [pfx] = action_of child0) by (rewrite <- (lookup_below pfx T0 []); symmetry; apply (rep_lookup _ _ Hc0 [])). rewrite Ea.
  assert (Hstep : forall child T ds, Represents child (below pfx T) -> T !! [] = None -> (forall d k, d <> pfx -> T !! (d :: k) = T0 !! (d :: k)) ->
    let x := insert_all child table ds in let y := accept [pfx] T table ds in
    x.2 = y.2 /\ forall c p, follows (mkNode (action_of root0) (<[pfx := x.1]> (children root0))) y.1 (c :: p)).
  { intros child T ds Hch HT Hsame x y. destruct (insert_all_spec table child (below pfx T) ds Hch) as [X1 X2].
    destruct (accept_below pfx table T ds HT) as (Y1 & Y2 & Y3). split; [unfold x, y; by rewrite X1, Y1|]. intros c p. unfold follows. cbn [node_at children].
    destruct (decide (c = pfx)) as [->|Hc].
    - rewrite lookup_insert_eq. cbn. pose proof (represents_follows p _ _ X2) as Hf. rewrite <- Y2 in Hf. unfold follows in Hf. fold x y in Hf.
      destruct (node_at x.1 p) as [m'|]; [rewrite lookup_below, nothing_behind_below in Hf; exact Hf|by apply nothing_behind_below].
    - rewrite lookup_insert_ne by congruence. assert (Hb : forall k, y.1 !! (c :: k) = T0 !! (c :: k)) by (intros k; unfold y; rewrite Y3 by done; by apply Hsame).
      pose proof (represents_follows (c :: p) _ _ Hrep) as Hf. unfold follows in Hf. cbn [node_at] in Hf.
      assert (Hn : nothing_behind y.1 (c :: p) <-> nothing_behind T0 (c :: p)).
      { rewrite <- !nothing_behind_below. unfold nothing_behind. split; intros H k a; rewrite lookup_below; [rewrite <- Hb|rewrite Hb]; rewrite <- lookup_below; apply H. }
      destruct (_ ≫= _) as [m'|]; [|by apply Hn]. rewrite Hn, Hb. exact Hf. }
  destruct (action_of child0) as [a|] eqn:Eact.
  - assert (Ech : children child0 = ∅) by (apply (rep_leaf _ _ Hc0 [] child0); [done|by rewrite Eact]).
    specialize (Hstep (mkNode None (children child0)) (delete [pfx] T0) (ds1 ++ [mkDiagnostic (cfg_prefix cfg) (AmbiguousPrefix (cfg_prefix cfg))])).
    destruct Hstep as [S1 S2].
    + rewrite Ech. assert (E0 : below pfx (delete [pfx] T0) = ∅); [|rewrite E0; apply represents_empty]. apply map_eq. intros s. rewrite lookup_below, lookup_empty.
      destruct s as [|d s]; [by rewrite lookup_delete_eq|]. rewrite lookup_delete_ne by done. rewrite <- (lookup_below pfx T0 (d :: s)), <- (rep_lookup _ _ Hc0).
      unfold binding_at. cbn. by rewrite Ech, lookup_empty.
    + by rewrite lookup_delete_ne.
    + intros d k Hd. rewrite lookup_delete_ne by congruence. done.
    + destruct (insert_all _ table _) as [c' ds2]. cbn in *. by rewrite S1.
  - destruct (Hstep child0 T0 ds1 Hc0 Hroot) as [S1 S2]; [done|]. destruct (insert_all child0 table ds1) as [c' ds2]. cbn in *. by rewrite S1.
Qed.
(** A resolver that stands where the keys pressed so far lead. *)
Definition stands (r : Resolver V) T (pressed : list KeyChord) : Prop :=
  (forall c p, follows (root r) T (c :: p)) /\ pending_path r = pressed
  /\ match cursor r with None => pressed = [] | Some m => pressed <> [] /\ node_at (root r) pressed = Some m end.
Lemma feed_spec r T pressed c : stands r T pressed -> (feed r c).1 = (press T pressed c).1 /\ stands (feed r c).2 T (press T pressed c).2.
Proof.
  intros (Hf & Hp & Hc). assert (Hcur : node_at (root r) pressed = Some (default (root r) (cursor r))).
  { destruct (cursor r) as [m|]; [by destruct Hc|]. by rewrite Hc. }
  assert (Hnext : node_at (root r) (pressed ++ [c]) = children (default (root r) (cursor r)) !! c).
  { rewrite node_at_app, Hcur. cbn. by destruct (_ !! c). }
  assert (Hfol : follows (root r) T (pressed ++ [c])) by (destruct pressed; apply Hf). unfold follows in Hfol. rewrite Hnext in Hfol.
  assert (Hreset : stands (reset r) T []) by done. unfold feed, press. set (q := pressed ++ [c]) in *.
  assert (Hdec : bool_decide (map_Forall (fun k _ => ~ q `prefix_of` k) T) = true <-> nothing_behind T q) by (by rewrite bool_decide_eq_true).
  destruct (children _ !! c) as [m|] eqn:Em.
  - destruct Hfol as [Ha Hb]. rewrite <- Ha. destruct (action_of m) as [a|]; [done|]. specialize (Hb eq_refl). destruct (decide (children m = ∅)) as [Hch|Hch].
    + rewrite (bool_decide_eq_true_2 (children m = ∅)) by done. apply Hb, Hdec in Hch. rewrite Hch. done.
    + rewrite (bool_decide_eq_false_2 (children m = ∅)) by done.
      assert (Ed : bool_decide (map_Forall (fun k _ => ~ q `prefix_of` k) T) = false) by (apply not_true_iff_false; intros Ed; by apply Hch, Hb, Hdec).
      rewrite Ed. split; [done|]. split; [done|]. split; [cbn; by rewrite Hp|]. cbn. split; [by unfold q; destruct pressed|]. rewrite Hnext. done.
  - assert (ET : T !! q = None) by (destruct (T !! q) as [a|] eqn:Eq; [exfalso; by eapply Hfol|done]). rewrite ET. rewrite (proj2 Hdec Hfol). done.
Qed.
Lemma feed_all_spec chords : forall r T pressed, stands r T pressed -> feed_all r chords = press_all T pressed chords.
Proof.
  induction chords as [|c chords IH]; intros r T pressed Hs; simpl; [done|]. destruct (feed_spec r T pressed c Hs) as [H1 H2].
  destruct (feed r c) as [f r'], (press T pressed c) as [f' p']. cbn in *. subst f'. f_equal. by apply IH.
Qed.
(** No taken binding is in front of another. *)
Definition prefix_free T : Prop := forall k1 k2 a1 a2, T !! k1 = Some a1 -> T !! k2 = Some a2 -> k1 `prefix_of` k2 -> k1 = k2.
Lemma accept_prefix_free at_path table : forall T ds, prefix_free T -> prefix_free (accept at_path T table ds).1.
Proof.
  induction table as [|[b a] table IH]; intros T ds H; simpl; [done|]. destruct (parse_chord_sequence b) as [seq|e]; [|by apply IH].
  destruct (compatible T (at_path ++ seq)) eqn:Ec; [|by apply IH]. apply IH. rewrite compatible_spec in Ec. intros k1 k2 a1 a2.
  rewrite !lookup_insert_Some. intros [[<- _]|[N1 H1]] [[<- _]|[N2 H2]] Hp; [done| | |by eapply H].
  - by destruct (Ec _ _ H2).
  - by destruct (Ec _ _ H1).
Qed.
Lemma bindings_prefix_free cfg : prefix_free (bindings_of cfg).1 /\ (bindings_of cfg).1 !! [] = None.
Proof.
  unfold bindings_of. destruct (prefix_of_cfg cfg) as [p ds]. assert (H0 : prefix_free (∅ : gmap (list KeyChord) (ResolvedAction V))) by (intros k1 k2 a1 a2; by rewrite lookup_empty).
  pose proof (accept_prefix_free [] (global cfg) ∅ ds H0) as H1. pose proof (accept_root [] ∅ (global cfg) ds (lookup_empty _)) as H2.
  destruct (accept [] ∅ (global cfg) ds) as [T ds']. cbn in *. destruct (prefix_table cfg) as [|e t]; [done|]. destruct (T !! [p]).
  - split; [apply (accept_prefix_free [p] (e :: t)); intros k1 k2 a1 a2 [_ E1]%lookup_delete_Some [_ E2]%lookup_delete_Some; by eapply H1|apply (accept_root [p] _ (e :: t))].
    by rewrite lookup_delete_ne.
  - split; [by apply (accept_prefix_free [p] (e :: t))|by apply (accept_root [p] _ (e :: t))].
Qed.
Lemma press_binding T seq a rest : forall pressed, prefix_free T -> T !! seq = Some a -> pressed ++ rest = seq -> rest <> [] ->
  press_all T pressed rest = replicate (length rest - 1) Partial ++ [Resolved a].
Proof.
  induction rest as [|c rest IH]; intros pressed Hpf Hs Eq Hne; [done|]. cbn [press_all]. unfold press. destruct rest as [|d rest].
  - rewrite Eq, Hs. done.
  - assert (Hp : (pressed ++ [c]) `prefix_of` seq) by (exists (d :: rest); by rewrite <- app_assoc).
    assert (En : T !! (pressed ++ [c]) = None).
    { destruct (T !! (pressed ++ [c])) as [b|] eqn:Eb; [|done]. exfalso. pose proof (Hpf _ _ _ _ Eb Hs Hp) as E. subst seq.
      apply (f_equal length) in E. rewrite !length_app in E. simpl in E. lia. }
    rewrite En, bool_decide_eq_false_2; [|intros H; by apply (H seq a)]. rewrite IH; [|done|done|by rewrite <- app_assoc|done].
    replace (length (c :: d :: rest) - 1)%nat with (S (length (d :: rest) - 1)) by (simpl; lia). done.
Qed.

(** C29: Key bindings do what the table says, and one bad entry costs only itself. For any configuration, the resolver answers every
    sequence of keys as a lookup of the whole sequence in the table of the bindings taken would: a binding fires on its last key, a key
    that can still lead to one waits, any other key is no match and starts over. The bindings are gone through in key order, first the
    global ones, then those of the prefix table behind the prefix (CTRL-A when the prefix does not parse); one is taken when it parses
    and conflicts with none that stands, with one exception: if there is a prefix table, a global binding already taken at the bare
    prefix gives way to it, and is dropped before the table's first entry is looked at. Reported are, in this order, a prefix that does
    not parse, the global entries refused, the prefix if a global binding gave way to it, and the table's entries refused. Every
    binding that stands in the end can be reached; and the strict constructor refuses exactly when there is something to report, with
    the first of it. *)
Theorem resolver_follows_the_table cfg chords :
  let r := (new_lenient cfg).1 in
  let T := (bindings_of cfg).1 in
  feed_all r chords = press_all T [] chords
  /\ (new_lenient cfg).2 = (bindings_of cfg).2
  /\ (forall seq a, T !! seq = Some a -> feed_all r seq = replicate (length seq - 1) Partial ++ [Resolved a])
  /\ Resolver_new cfg = match (bindings_of cfg).2 with [] => Ok r | d :: _ => Err (d_error d) end.
Proof.
  intros r T. destruct (new_lenient_spec cfg) as (H1 & H2 & H3 & _ & H5). destruct (bindings_prefix_free cfg) as [H6 H7].
  assert (Hst : stands r T []) by (unfold stands, r; rewrite H2; done). split; [by apply feed_all_spec|]. split; [done|]. split.
  - intros seq a Hs. rewrite (feed_all_spec _ _ _ _ Hst). eapply press_binding; [done|done|done|]. intros ->. unfold T in Hs. by rewrite H7 in Hs.
  - unfold Resolver_new. rewrite <- H1. unfold r. by destruct (new_lenient cfg) as [x [|d ds]].
Qed.
End Trie.

(** ** Spelling *)

(** The canonical name of a key, and of a chord. *)
Definition key_name (k : PhysicalKey) : option bytes :=
  match k with
  | PhysicalKey_A => Some ([97])
  | PhysicalKey_B => Some ([98])
  | PhysicalKey_C => Some ([99])
  | PhysicalKey_D => Some ([100])
  | PhysicalKey_E => Some ([101])
  | PhysicalKey_F => Some ([102])
  | PhysicalKey_G => Some ([103])
  | PhysicalKey_H => Some ([104])
  | PhysicalKey_I => Some ([105])
  | PhysicalKey_J => Some ([106])
  | PhysicalKey_K => Some ([107])
  | PhysicalKey_L => Some ([108])
  | PhysicalKey_M => Some ([109])
  | PhysicalKey_N => Some ([110])
  | PhysicalKey_O => Some ([111])
  | PhysicalKey_P => Some ([112])
  | PhysicalKey_Q => Some ([113])
  | PhysicalKey_R => Some ([114])
  | PhysicalKey_S => Some ([115])
  | PhysicalKey_T => Some ([116])
  | PhysicalKey_U => Some ([117])
  | PhysicalKey_V => Some ([118])
  | PhysicalKey_W => Some ([119])
  | PhysicalKey_X => Some ([120])
  | PhysicalKey_Y => Some ([121])
  | PhysicalKey_Z => Some ([122])
  | PhysicalKey_Digit0 => Some ([48])
  | PhysicalKey_Digit1 => Some ([49])
  | PhysicalKey_Digit2 => Some ([50])
  | PhysicalKey_Digit3 => Some ([51])
  | PhysicalKey_Digit4 => Some ([52])
  | PhysicalKey_Digit5 => Some ([53])
  | PhysicalKey_Digit6 => Some ([54])
  | PhysicalKey_Digit7 => Some ([55])
  | PhysicalKey_Digit8 => Some ([56])
  | PhysicalKey_Digit9 => Some ([57])
  | PhysicalKey_Backquote => Some ([96])
  | PhysicalKey_Minus => Some ([45])
  | PhysicalKey_Equal => Some ([61])
  | PhysicalKey_BracketLeft => Some ([91])
  | PhysicalKey_BracketRight => Some ([93])
  | PhysicalKey_Backslash => Some ([92])
  | PhysicalKey_Semicolon => Some ([59])
  | PhysicalKey_Quote => Some ([39])
  | PhysicalKey_Comma => Some ([44])
  | PhysicalKey_Period => Some ([46])
  | PhysicalKey_Slash => Some ([47])
  | PhysicalKey_F1 => Some (str "F1")
  | PhysicalKey_F2 => Some (str "F2")
  | PhysicalKey_F3 => Some (str "F3")
  | PhysicalKey_F4 => Some (str "F4")
  | PhysicalKey_F5 => Some (str "F5")
  | PhysicalKey_F6 => Some (str "F6")
  | PhysicalKey_F7 => Some (str "F7")
  | PhysicalKey_F8 => Some (str "F8")
  | PhysicalKey_F9 => Some (str "F9")
  | PhysicalKey_F10 => Some (str "F10")
  | PhysicalKey_F11 => Some (str "F11")
  | PhysicalKey_F12 => Some (str "F12")
  | PhysicalKey_F13 => Some (str "F13")
  | PhysicalKey_F14 => Some (str "F14")
  | PhysicalKey_F15 => Some (str "F15")
  | PhysicalKey_F16 => Some (str "F16")
  | PhysicalKey_F17 => Some (str "F17")
  | PhysicalKey_F18 => Some (str "F18")
  | PhysicalKey_F19 => Some (str "F19")
  | PhysicalKey_F20 => Some (str "F20")
  | PhysicalKey_F21 => Some (str "F21")
  | PhysicalKey_F22 => Some (str "F22")
  | PhysicalKey_F23 => Some (str "F23")
  | PhysicalKey_F24 => Some (str "F24")
  | PhysicalKey_Tab => Some (str "Tab")
  | PhysicalKey_Enter => Some (str "Enter")
  | PhysicalKey_Escape => Some (str "Esc")
  | PhysicalKey_Space => Some (str "Space")
  | PhysicalKey_Backspace => Some (str "Backspace")
  | PhysicalKey_Delete => Some (str "Delete")
  | PhysicalKey_ArrowUp => Some (str "Up")
  | PhysicalKey_ArrowDown => Some (str "Down")
  | PhysicalKey_ArrowLeft => Some (str "Left")
  | PhysicalKey_ArrowRight => Some (str "Right")
  | PhysicalKey_Home => Some (str "Home")
  | PhysicalKey_End => Some (str "End")
  | PhysicalKey_PageUp => Some (str "PageUp")
  | PhysicalKey_PageDown => Some (str "PageDown")
  | PhysicalKey_Insert => Some (str "Insert")
  | _ => None
  end.
Definition spell (c : KeyChord) : option bytes :=
  name ← key_name (chord_key c);
  if (0 <=? modifiers c) && (modifiers c <=? 7) then
    Some ((if Z.testbit (modifiers c) 1 then str "C-" else []) ++ (if Z.testbit (modifiers c) 2 then str "M-" else [])
            ++ (if Z.testbit (modifiers c) 0 then str "S-" else []) ++ name)
  else None.
Fixpoint spell_sequence (cs : list KeyChord) : option bytes :=
  match cs with
  | [] => None
  | [c] => spell c
  | c :: cs => t ← spell c; rest ← spell_sequence cs; Some (t ++ [32] ++ rest)
  end.
Definition printable (t : bytes) : bool := forallb (fun b => (33 <=? b) && (b <=? 126)) t && negb (bool_decide (t = [])).
Lemma spell_parses c t : spell c = Some t -> parse_chord t = Ok c /\ printable t = true.
Proof.
  destruct c as [m k]. unfold spell. cbn [chord_key modifiers]. destruct (key_name k) as [name|] eqn:En; cbn [mbind option_bind]; [|done].
  destruct ((0 <=? m) && (m <=? 7)) eqn:Em; [|done]. apply andb_true_iff in Em as [E1%Z.leb_le E2%Z.leb_le]. intros [= <-].
  assert (Hm : m = 0 \/ m = 1 \/ m = 2 \/ m = 3 \/ m = 4 \/ m = 5 \/ m = 6 \/ m = 7) by lia.
  destruct k; cbn in En; try discriminate En; injection En as <-; destruct Hm as [->|[->|[->|[->|[->|[->|[->| ->]]]]]]]; split; vm_compute; reflexivity.
Qed.
(** Every key the tables yield has a name. *)
Definition nameable (k : PhysicalKey) : Prop := is_Some (key_name k).
Ltac key_table :=
  repeat match goal with |- context [match ?p with xI _ => _ | xO _ => _ | xH => _ end] => destruct p end; try discriminate; intros [= <-]; by eexists.
Lemma letter_nameable c k : letter_to_key c = Some k -> nameable k.
Proof. unfold letter_to_key. destruct c as [|p|p]; [discriminate| |discriminate]. key_table. Qed.
Lemma digit_nameable c k : digit_to_key c = Some k -> nameable k.
Proof. unfold digit_to_key. destruct c as [|p|p]; [discriminate| |discriminate]. key_table. Qed.
Lemma function_nameable c k : function_key c = Some k -> nameable k.
Proof. unfold function_key. destruct c as [|p|p]; [discriminate| |discriminate]. key_table. Qed.
Lemma punct_nameable c k b : punct_to_key c = Some (k, b) -> nameable k.
Proof. unfold punct_to_key. destruct c as [|p|p]; [discriminate| |discriminate].
  repeat match goal with |- context [match ?p with xI _ => _ | xO _ => _ | xH => _ end] => destruct p end; try discriminate; intros [= <- <-]; by eexists. Qed.
Lemma named_nameable s k b : named_key s = Some (k, b) -> nameable k.
Proof. unfold named_key. repeat (destruct (bool_decide _); cbn [orb]; [intros [= <- <-]; by eexists|]). discriminate. Qed.
Lemma token_nameable s k b : parse_key_token s = Ok (k, b) -> nameable k.
Proof.
  unfold parse_key_token.
  assert (Hlong : match (match s with 70 :: rest => n ← parse_u8 rest; function_key n | _ => None end) with
                  | Some key => Ok (key, false) | None => match named_key s with Some r => Ok r | None => Err (UnknownKey s) end end = Ok (k, b) -> nameable k).
  { set (fk := match s with 70 :: rest => n ← parse_u8 rest; function_key n | _ => None end).
    assert (Hf : forall key, fk = Some key -> nameable key).
    { intros key. unfold fk. destruct s as [|x s]; [done|]. repeat case_match; try done. destruct (parse_u8 s); cbn; [apply function_nameable|done]. }
    destruct fk as [key|]; [intros [= <- <-]; by apply Hf|]. destruct (named_key s) as [[key sh]|] eqn:En; [|done]. intros [= <- <-]. by eapply named_nameable. }
  destruct (chars s) as [|c [|]]; [exact Hlong| |exact Hlong]. destruct (is_ascii_alphabetic _).
  - destruct (letter_to_key _) eqn:E; [|done]. intros [= <- <-]. by eapply letter_nameable.
  - destruct (is_ascii_digit _).
    + destruct (digit_to_key _) eqn:E; [|done]. intros [= <- <-]. by eapply digit_nameable.
    + destruct (punct_to_key _) as [[key sh]|] eqn:E; [|done]. intros [= <- <-]. by eapply punct_nameable.
Qed.
Definition small_mods (m : Z) : Prop := 0 <= m <= 7.
Lemma small_lor m x : small_mods m -> x = 1 \/ x = 2 \/ x = 4 -> small_mods (Z.lor m x).
Proof.
  unfold small_mods. intros Hm Hx. assert (m = 0 \/ m = 1 \/ m = 2 \/ m = 3 \/ m = 4 \/ m = 5 \/ m = 6 \/ m = 7) as Hc by lia.
  destruct Hc as [->|[->|[->|[->|[->|[->|[->| ->]]]]]]], Hx as [->|[->| ->]]; vm_compute; split; discriminate.
Qed.
(** The modifiers do not depend on where the chord starts. *)
Lemma peel_shift fuel : forall rest mods cur mods' rest' cur' off, peel_modifiers fuel rest mods cur = Ok (mods', rest', cur') ->
  peel_modifiers fuel rest mods (cur + off) = Ok (mods', rest', cur' + off).
Proof.
  induction fuel as [|fuel IH]; intros rest mods cur mods' rest' cur' off; simpl; [by intros [= <- <- <-]|].
  destruct (split_modifier rest) as [[head tail]|]; [|by intros [= <- <- <-]]. destruct (match head with 67 => _ | _ => _ end) as [m|]; [|done].
  intros H. apply (IH _ _ _ _ _ _ off) in H. by replace (cur + off + 2) with (cur + 2 + off) by lia.
Qed.
Lemma peel_small fuel : forall rest mods cur mods' rest' cur', small_mods mods -> peel_modifiers fuel rest mods cur = Ok (mods', rest', cur') -> small_mods mods'.
Proof.
  induction fuel as [|fuel IH]; intros rest mods cur mods' rest' cur' Hm; simpl; [by intros [= <- _ _]|].
  destruct (split_modifier rest) as [[head tail]|]; [|by intros [= <- _ _]]. destruct (match head with 67 => _ | _ => _ end) as [m|] eqn:Em; [|done].
  apply IH, small_lor; [done|]. revert Em. unfold CTRL, ALT, SHIFT. repeat case_match; intros [= <-]; auto.
Qed.
Lemma parse_anywhere s b c : parse_chord s = Ok c -> parse_chord_at s b = Ok c.
Proof.
  unfold parse_chord, parse_chord_at. destruct s as [|x s]; [done|]. destruct (peel_modifiers (length (x :: s)) (x :: s) 0 0) as [[[m r] cur]|] eqn:Ep; cbn [mbind result_bind]; [|done].
  apply (peel_shift _ _ _ _ _ _ _ b) in Ep. rewrite Z.add_0_l in Ep. rewrite Ep. cbn [mbind result_bind]. destruct r; [done|].
  by destruct (_ && _).
Qed.
Lemma parse_chord_spellable s c : parse_chord s = Ok c -> is_Some (spell c).
Proof.
  unfold parse_chord, parse_chord_at. destruct s as [|x s]; [done|]. destruct (peel_modifiers (length (x :: s)) (x :: s) 0 0) as [[[m r] cur]|] eqn:Ep; cbn [mbind result_bind]; [|done].
  apply peel_small in Ep; [|unfold small_mods; lia]. destruct r as [|y r]; [done|]. destruct (_ && _); [done|].
  destruct (parse_key_token (y :: r)) as [[k sh]|] eqn:Ek; cbn [mbind result_bind]; [|done]. intros [= <-]. apply token_nameable in Ek as [name Hn].
  assert (Hs : small_mods (if sh then Z.lor m SHIFT else m)) by (destruct sh; [apply small_lor; [done|by left]|done]).
  unfold spell. cbn [chord_key modifiers]. rewrite Hn. cbn. destruct Hs as [H1 H2]. apply Z.leb_le in H1, H2. rewrite H1, H2. by eexists.
Qed.

(** A text of printable ASCII is its bytes, and one token. *)
Lemma chars_ascii t rest : Forall (fun b => 0 <= b < 128) t -> forall fuel, (length (t ++ rest) <= fuel)%nat ->
  chars_loop fuel (t ++ rest) = map (fun b => [b]) t ++ chars_loop (fuel - length t) rest.
Proof.
  induction 1 as [|b t Hb _ IH]; intros fuel Hf; simpl in *; [by rewrite Nat.sub_0_r|]. destruct fuel as [|fuel]; [lia|]. cbn [chars_loop].
  unfold char_len. destruct (Z.ltb_spec b 128); [|lia]. simpl. rewrite take_0, drop_0. f_equal. apply IH. lia.
Qed.
Lemma split_ws_token t acc cs : Forall (fun b => 33 <= b <= 126) t -> split_ws (map (fun b => [b]) t ++ cs) acc = split_ws cs (acc ++ t).
Proof.
  intros H. revert acc. induction H as [|b t Hb _ IH]; intros acc; simpl; [by rewrite app_nil_r|]. unfold is_whitespace.
  assert (E : ((9 <=? b) && (b <=? 13) || bool_decide (b ∈ [32; 133; 160; 5760; 8232; 8233; 8239; 8287; 12288]) || (8192 <=? b) && (b <=? 8202)) = false).
  { rewrite !orb_false_iff, !andb_false_iff, !Z.leb_gt, bool_decide_eq_false. split_and!; [lia| |lia]. set_unfold. intros Hin. repeat destruct Hin as [Hin|Hin]; lia. }
  rewrite E, IH. by rewrite <- app_assoc.
Qed.
Lemma printable_bytes t : printable t = true -> t <> [] /\ Forall (fun b => 33 <= b <= 126) t.
Proof.
  unfold printable. intros [H1 H2%negb_true_iff%bool_decide_eq_false]%andb_true_iff. split; [done|]. rewrite forallb_forall in H1. apply Forall_forall. intros b Hb%list_elem_of_In.
  apply H1, andb_true_iff in Hb as [?%Z.leb_le ?%Z.leb_le]. lia.
Qed.
Lemma spell_sequence_cons c c' cs : spell_sequence (c :: c' :: cs) = t ← spell c; rest ← spell_sequence (c' :: cs); Some (t ++ [32] ++ rest).
Proof. reflexivity. Qed.
Lemma spelled_tokens cs t : spell_sequence cs = Some t -> exists ts, Forall2 (fun c s => spell c = Some s) cs ts /\ split_whitespace t = ts /\ ts <> [].
Proof.
  assert (Hgen : forall cs t, spell_sequence cs = Some t -> exists ts, Forall2 (fun c s => spell c = Some s) cs ts /\ ts <> []
    /\ forall fuel, (length t <= fuel)%nat -> split_ws (chars_loop fuel t) [] = ts).
  { clear. induction cs as [|c cs IH]; intros t; [done|]. assert (Hone : forall s rest fuel, spell c = Some s -> (length (s ++ rest) <= fuel)%nat ->
      split_ws (chars_loop fuel (s ++ rest)) [] = split_ws (chars_loop (fuel - length s) rest) s).
    { intros s rest fuel Hs Hf. apply spell_parses in Hs as [_ Hp]. apply printable_bytes in Hp as [_ Hp]. rewrite chars_ascii; [|eapply Forall_impl; [exact Hp|]; cbn; lia|done].
      by rewrite split_ws_token. }
    assert (Hne : forall s, spell c = Some s -> s <> []) by (intros s Hs; apply spell_parses in Hs as [_ Hp]; by apply printable_bytes in Hp as [Hp _]).
    destruct cs as [|c' cs].
    - intros Hs. exists [t]. split; [by repeat constructor|]. split; [done|]. intros fuel Hf. pose proof (Hone t [] fuel Hs) as E. rewrite app_nil_r in E. rewrite E by done.
      specialize (Hne t Hs). destruct (fuel - length t)%nat; simpl; by destruct t.
    - rewrite spell_sequence_cons. destruct (spell c) as [s|] eqn:Es; cbn [mbind option_bind]; [|done].
      destruct (spell_sequence (c' :: cs)) as [rest|] eqn:Er; cbn [mbind option_bind]; [|done]. intros [= <-].
      destruct (IH _ eq_refl) as (ts & H1 & H2 & H3). exists (s :: ts). split; [by constructor|]. split; [done|]. intros fuel Hf. rewrite (Hone s _ fuel) by done.
      rewrite length_app in Hf. simpl in Hf. destruct (fuel - length s)%nat as [|f] eqn:Ef; [lia|]. cbn [chars_loop]. change (char_len 32) with 1%nat. change (take 1 (32 :: rest)) with [32].
      change (drop 1 (32 :: rest)) with rest.
      specialize (Hne s eq_refl). destruct s as [|x s]; [done|].
      change (split_ws ([32] :: chars_loop f rest) (x :: s)) with ((x :: s) :: split_ws (chars_loop f rest) []). f_equal. apply H3. simpl in *. lia. }
  intros H. destruct (Hgen _ _ H) as (ts & H1 & H2 & H3). exists ts. split; [done|]. split; [|done]. unfold split_whitespace, chars. by apply H3.
Qed.
Lemma parse_spelled s cs ts cur : Forall2 (fun c t => spell c = Some t) cs ts -> parse_tokens s ts cur = Ok cs.
Proof.
  intros H. revert cur. induction H as [|c t cs ts Hc _ IH]; intros cur; simpl; [done|]. apply spell_parses in Hc as [Hc _]. rewrite (parse_anywhere _ _ _ Hc). cbn. by rewrite IH.
Qed.

(** C30: Chords mean what they spell. Every chord the parser accepts, however it was written, has a canonical spelling, which parses to
    the same chord; a sequence of such chords, spelled with spaces in between, parses to that sequence; and a chord matches exactly the
    presses of its key whose control, alt, shift and super state is the chord's, whatever the locks and the sides. *)
Theorem chords_are_spelled :
  (forall s c, parse_chord s = Ok c -> exists t, spell c = Some t /\ parse_chord t = Ok c)
  /\ (forall cs t, spell_sequence cs = Some t -> parse_chord_sequence t = Ok cs)
  /\ (forall s c ev, parse_chord s = Ok c ->
        chord_str_matches_event s ev = true
        <-> key_action ev = KeyAction_Press /\ key_key ev = chord_key c
            /\ (forall i, 0 <= i < 3 -> Z.testbit (key_mods ev) i = Z.testbit (modifiers c) i) /\ Z.testbit (key_mods ev) 3 = false).
Proof.
  split_and!.
  - intros s c H. destruct (parse_chord_spellable s c H) as [t Ht]. exists t. split; [done|]. by apply spell_parses.
  - intros cs t H. destruct (spelled_tokens cs t H) as (ts & H1 & H2 & H3). unfold parse_chord_sequence. rewrite H2. destruct ts as [|x ts]; [done|]. by apply parse_spelled.
  - intros s c ev H. pose proof (parse_chord_spellable s c H) as [t Ht]. unfold chord_str_matches_event. rewrite H. unfold matches_event.
    assert (Hm : 0 <= modifiers c <= 7).
    { unfold spell in Ht. destruct (key_name _); cbn in Ht; [|done]. destruct ((0 <=? modifiers c) && (modifiers c <=? 7)) eqn:E; [|done]. apply andb_true_iff in E as [?%Z.leb_le ?%Z.leb_le]. lia. }
    rewrite !andb_true_iff, !bool_decide_eq_true, Z.eqb_eq. change CHORD_MODS with (Z.ones 4).
    assert (Hbits : forall i, 3 <= i -> Z.testbit (modifiers c) i = false).
    { intros i Hi. destruct (Z.eq_dec (modifiers c) 0) as [->|]; [apply Z.testbit_0_l|]. apply Z.bits_above_log2; [lia|]. apply Z.log2_lt_pow2; [lia|].
      assert (2 ^ 3 <= 2 ^ i) by (apply Z.pow_le_mono_r; lia). lia. }
    split.
    + intros [[H1 H2] H3]. split_and!; [done|done| |].
      * intros i Hi. rewrite <- H3, Z.land_spec, Z.ones_spec_low by lia. by rewrite andb_true_r.
      * rewrite <- (Hbits 3) by lia. rewrite <- H3, Z.land_spec, Z.ones_spec_low by lia. by rewrite andb_true_r.
    + intros (H1 & H2 & H3 & H4). split; [done|]. apply Z.bits_inj'. intros i Hi. rewrite Z.land_spec. destruct (Z.ltb_spec i 4).
      * rewrite Z.ones_spec_low, andb_true_r by lia. destruct (Z.eq_dec i 3) as [->|]; [by rewrite H4, Hbits|]. apply H3. lia.
      * rewrite Z.ones_spec_high, andb_false_r by lia. by rewrite Hbits by lia.
Qed.

(** ** What the parser and the resolver answer *)

(** A lone modifier is a trailing dash. *)
Example modifier_without_key : parse_chord (str "C-") = Err (Syntax 1 (str "trailing dash")).
Proof. vm_compute. reflexivity. Qed.
(** The global binding at the prefix is dropped; the diagnostic names the prefix, under which no binding was written. *)
Example dropped_binding_is_not_named :
  let cfg := mkKeybindings (V := Z) (str "M-a") [(str "x", Bare (str "detach"))] [(str "A-a", Bare (str "zoom"))] in
  (new_lenient cfg).2 = [mkDiagnostic (str "M-a") (AmbiguousPrefix (str "M-a"))]
  /\ feed_all (new_lenient cfg).1 [mkKeyChord ALT PhysicalKey_A; mkKeyChord 0 PhysicalKey_X] = [Partial; Resolved (mkResolved (str "detach") [])].
Proof. vm_compute. split; reflexivity. Qed.
