(* ===== verification/Stdin.v ===== *)
(** * The keyboard of an attached client

    [phux-client/src/attach/input.rs]: the bytes a terminal puts on stdin, parsed into input events. One function per state of the
    machine, each answering with the parser after the byte and the events it emits; the tables as the source has them. *)

From stdpp Require Import list.
From S2P Require Import Prelude Enums Codec ClientLayout Tiling Keybind.

(** ** State *)

(* phux-client/src/attach/input.rs State *)
Inductive State : Type :=
| St_Ground | St_Escape | St_Csi | St_Ss3 | St_StringTerm
| St_Utf8 (expected : Z)
| St_Paste | St_PasteEscape | St_PasteCsi
| St_X10Mouse (bytes_seen : Z).
(* phux-client/src/attach/input.rs StdinParser *)
Record StdinParser : Type := mkParser { state : State; buf : bytes; utf8_lead : Z; paste_buf : bytes }.
(* phux-client/src/attach/input.rs StdinParser::new *)
Definition StdinParser_new : StdinParser := mkParser St_Ground [] 0 [].
Definition goto (s : State) (p : StdinParser) : StdinParser := mkParser s (buf p) (utf8_lead p) (paste_buf p).
Definition with_buf (b : bytes) (p : StdinParser) : StdinParser := mkParser (state p) b (utf8_lead p) (paste_buf p).
Definition with_paste (b : bytes) (p : StdinParser) : StdinParser := mkParser (state p) (buf p) (utf8_lead p) b.
Definition between (lo hi b : Z) : bool := (lo <=? b) && (b <=? hi).

(** ** Keys *)

Definition NONE : Z := 0.
(* phux-client/src/attach/input.rs make_named_key *)
Definition make_named_key (key : PhysicalKey) (mods : Z) : KeyEvent := mkKeyEvent KeyAction_Press key mods NONE false None None.
(* phux-client/src/attach/input.rs ascii_letter_to_key_const *)
Definition ascii_letter_to_key_const (b : Z) : PhysicalKey :=
  match b with
  | 65 => PhysicalKey_A
  | 66 => PhysicalKey_B
  | 67 => PhysicalKey_C
  | 68 => PhysicalKey_D
  | 69 => PhysicalKey_E
  | 70 => PhysicalKey_F
  | 71 => PhysicalKey_G
  | 72 => PhysicalKey_H
  | 73 => PhysicalKey_I
  | 74 => PhysicalKey_J
  | 75 => PhysicalKey_K
  | 76 => PhysicalKey_L
  | 77 => PhysicalKey_M
  | 78 => PhysicalKey_N
  | 79 => PhysicalKey_O
  | 80 => PhysicalKey_P
  | 81 => PhysicalKey_Q
  | 82 => PhysicalKey_R
  | 83 => PhysicalKey_S
  | 84 => PhysicalKey_T
  | 85 => PhysicalKey_U
  | 86 => PhysicalKey_V
  | 87 => PhysicalKey_W
  | 88 => PhysicalKey_X
  | 89 => PhysicalKey_Y
  | 90 => PhysicalKey_Z
  | _ => PhysicalKey_Unidentified
  end.
(* phux-client/src/attach/input.rs ascii_letter_to_key *)
Definition ascii_letter_to_key (b : Z) : option PhysicalKey := if is_ascii_uppercase b then Some (ascii_letter_to_key_const b) else None.
(* phux-client/src/attach/input.rs ascii_to_physical *)
Definition ascii_to_physical (b : Z) : PhysicalKey :=
  if b =? 32 then PhysicalKey_Space
  else if between 48 57 b then
    match b with
    | 48 => PhysicalKey_Digit0 | 49 => PhysicalKey_Digit1 | 50 => PhysicalKey_Digit2 | 51 => PhysicalKey_Digit3 | 52 => PhysicalKey_Digit4
    | 53 => PhysicalKey_Digit5 | 54 => PhysicalKey_Digit6 | 55 => PhysicalKey_Digit7 | 56 => PhysicalKey_Digit8 | _ => PhysicalKey_Digit9
    end
  else if is_ascii_alphabetic b then ascii_letter_to_key_const (if between 97 122 b then b - 32 else b)
  else match punct_to_key b with Some (key, _) => key | None => PhysicalKey_Unidentified end.
(* phux-client/src/attach/input.rs is_shifted_punct *)
Definition is_shifted_punct (b : Z) : bool := bool_decide (b ∈ [33; 64; 35; 36; 37; 94; 38; 42; 40; 41; 95; 43; 123; 125; 124; 58; 34; 60; 62; 63; 126]).
(* phux-client/src/attach/input.rs ascii_shift_mods *)
Definition ascii_shift_mods (b : Z) : Z := if is_ascii_uppercase b || is_shifted_punct b then SHIFT else NONE.
(* phux-client/src/attach/input.rs ascii_unshifted *)
Definition ascii_unshifted (b : Z) : Z :=
  if is_ascii_uppercase b then b + 32
  else match b with
       | 33 => 49
       | 64 => 50
       | 35 => 51
       | 36 => 52
       | 37 => 53
       | 94 => 54
       | 38 => 55
       | 42 => 56
       | 40 => 57
       | 41 => 48
       | 95 => 45
       | 43 => 61
       | 123 => 91
       | 125 => 93
       | 124 => 92
       | 58 => 59
       | 34 => 39
       | 60 => 44
       | 62 => 46
       | 63 => 47
       | 126 => 96
       | _ => b
       end.
(* phux-client/src/attach/input.rs c0_or_ascii_to_key *)
Definition c0_or_ascii_to_key (b : Z) : option KeyEvent :=
  if between 0x20 0x7e b then
    Some (mkKeyEvent KeyAction_Press (ascii_to_physical b) (ascii_shift_mods b) (ascii_shift_mods b) false (Some [b]) (Some (ascii_unshifted b)))
  else if b =? 0x0d then Some (make_named_key PhysicalKey_Enter NONE)
  else if (b =? 0x08) || (b =? 0x7f) then Some (make_named_key PhysicalKey_Backspace NONE)
  else if b =? 0x09 then Some (make_named_key PhysicalKey_Tab NONE)
  else if between 0x01 0x1a b then
    let letter := 65 + (b - 1) in
    key ← ascii_letter_to_key letter;
    Some (mkKeyEvent KeyAction_Press key CTRL CTRL false None (Some (to_ascii_lowercase letter)))
  else None.
(* phux-client/src/attach/input.rs utf8_continuation_count *)
Definition utf8_continuation_count (b : Z) : option Z :=
  if between 0xc2 0xdf b then Some 1 else if between 0xe0 0xef b then Some 2 else if between 0xf0 0xf4 b then Some 3 else None.

(** ** Parameters of a control sequence *)

Definition saturating_digit (acc b : Z) : Z := Z.min u32_max (Z.min u32_max (acc * 10) + (b - 48)).
(** The loop: [out] and the slot being read. *)
(* phux-client/src/attach/input.rs:1429-1448 parse_csi_params *)
Fixpoint csi_params_loop (body : bytes) (out : list Z) (acc : Z) (started : bool) : list Z :=
  match body with
  | [] => out ++ [if started then acc else 0]
  | b :: body =>
      if between 48 57 b then csi_params_loop body out (saturating_digit acc b) true
      else csi_params_loop body (out ++ [if started then acc else 0]) 0 false
  end.
(* phux-client/src/attach/input.rs parse_csi_params *)
Definition parse_csi_params (body : bytes) : list Z := csi_params_loop body [] 0 false.
(* phux-client/src/attach/input.rs:1059-1086 parse_csi_param_groups *)
Fixpoint csi_groups_loop (body : bytes) (groups : list (list Z)) (current : list Z) (acc : Z) (started : bool) : list (list Z) :=
  let slot := if started then acc else 0 in
  match body with
  | [] => groups ++ [current ++ [slot]]
  | b :: body =>
      if between 48 57 b then csi_groups_loop body groups current (saturating_digit acc b) true
      else if b =? 58 then csi_groups_loop body groups (current ++ [slot]) 0 false
      else csi_groups_loop body (groups ++ [current ++ [slot]]) [] 0 false
  end.
(* phux-client/src/attach/input.rs parse_csi_param_groups *)
Definition parse_csi_param_groups (body : bytes) : list (list Z) := csi_groups_loop body [] [] 0 false.
Definition bit_set (bits mask : Z) : bool := negb (Z.land bits mask =? 0).
Definition CAPS_LOCK : Z := 16.
Definition NUM_LOCK : Z := 32.
Definition flag (c : bool) (m : Z) : Z := if c then m else 0.
(* phux-client/src/attach/input.rs xterm_modifier_code *)
Definition xterm_modifier_code (code : Z) : Z :=
  if code =? 0 then NONE
  else
    let bits := saturating_sub code 1 in
    Z.lor (Z.lor (Z.lor (flag (bit_set bits 1) SHIFT) (flag (bit_set bits 2) ALT)) (flag (bit_set bits 4) CTRL)) (flag (bit_set bits 8) SUPER).
(* phux-client/src/attach/input.rs kitty_modifier_code *)
Definition kitty_modifier_code (code : Z) : Z :=
  if code =? 0 then NONE
  else
    let bits := saturating_sub code 1 in
    fold_left Z.lor
      [flag (bit_set bits 1) SHIFT; flag (bit_set bits 2) ALT; flag (bit_set bits 4) CTRL; flag (bit_set bits 8) SUPER; flag (bit_set bits 16) SUPER;
       flag (bit_set bits 32) ALT; flag (bit_set bits 64) CAPS_LOCK; flag (bit_set bits 128) NUM_LOCK] NONE.
(* phux-client/src/attach/input.rs kitty_keycode_to_physical *)
Definition kitty_keycode_to_physical (cp : Z) : option PhysicalKey :=
  match cp with
  | 27 => Some PhysicalKey_Escape
  | 13 => Some PhysicalKey_Enter
  | 9 => Some PhysicalKey_Tab
  | 127 => Some PhysicalKey_Backspace
  | 0x20 => Some PhysicalKey_Space
  | _ =>
      if between 0x61 0x7a cp then Some (ascii_letter_to_key_const (cp - 32))
      else if between 0x41 0x5a cp then Some (ascii_letter_to_key_const cp)
      else if between 0x30 0x39 cp then Some (ascii_to_physical cp)
      else match cp with
           | 57348 => Some PhysicalKey_Insert
           | 57349 => Some PhysicalKey_Delete
           | 57350 => Some PhysicalKey_ArrowLeft
           | 57351 => Some PhysicalKey_ArrowRight
           | 57352 => Some PhysicalKey_ArrowUp
           | 57353 => Some PhysicalKey_ArrowDown
           | 57354 => Some PhysicalKey_PageUp
           | 57355 => Some PhysicalKey_PageDown
           | 57356 => Some PhysicalKey_Home
           | 57357 => Some PhysicalKey_End
           | 57358 => Some PhysicalKey_CapsLock
           | 57359 => Some PhysicalKey_ScrollLock
           | 57360 => Some PhysicalKey_NumLock
           | 57361 => Some PhysicalKey_PrintScreen
           | 57362 => Some PhysicalKey_Pause
           | 57363 => Some PhysicalKey_ContextMenu
           | 57364 => Some PhysicalKey_F1
           | 57365 => Some PhysicalKey_F2
           | 57366 => Some PhysicalKey_F3
           | 57367 => Some PhysicalKey_F4
           | 57368 => Some PhysicalKey_F5
           | 57369 => Some PhysicalKey_F6
           | 57370 => Some PhysicalKey_F7
           | 57371 => Some PhysicalKey_F8
           | 57372 => Some PhysicalKey_F9
           | 57373 => Some PhysicalKey_F10
           | 57374 => Some PhysicalKey_F11
           | 57375 => Some PhysicalKey_F12
           | 57376 => Some PhysicalKey_F13
           | 57377 => Some PhysicalKey_F14
           | 57378 => Some PhysicalKey_F15
           | 57379 => Some PhysicalKey_F16
           | 57380 => Some PhysicalKey_F17
           | 57381 => Some PhysicalKey_F18
           | 57382 => Some PhysicalKey_F19
           | 57383 => Some PhysicalKey_F20
           | 57384 => Some PhysicalKey_F21
           | 57385 => Some PhysicalKey_F22
           | 57386 => Some PhysicalKey_F23
           | 57387 => Some PhysicalKey_F24
           | 57388 => Some PhysicalKey_F25
           | 57399 => Some PhysicalKey_Numpad0
           | 57400 => Some PhysicalKey_Numpad1
           | 57401 => Some PhysicalKey_Numpad2
           | 57402 => Some PhysicalKey_Numpad3
           | 57403 => Some PhysicalKey_Numpad4
           | 57404 => Some PhysicalKey_Numpad5
           | 57405 => Some PhysicalKey_Numpad6
           | 57406 => Some PhysicalKey_Numpad7
           | 57407 => Some PhysicalKey_Numpad8
           | 57408 => Some PhysicalKey_Numpad9
           | 57409 => Some PhysicalKey_NumpadDecimal
           | 57410 => Some PhysicalKey_NumpadDivide
           | 57411 => Some PhysicalKey_NumpadMultiply
           | 57412 => Some PhysicalKey_NumpadSubtract
           | 57413 => Some PhysicalKey_NumpadAdd
           | 57414 => Some PhysicalKey_NumpadEnter
           | 57415 => Some PhysicalKey_NumpadEqual
           | 57416 => Some PhysicalKey_NumpadSeparator
           | 57417 => Some PhysicalKey_NumpadLeft
           | 57418 => Some PhysicalKey_NumpadRight
           | 57419 => Some PhysicalKey_NumpadUp
           | 57420 => Some PhysicalKey_NumpadDown
           | 57421 => Some PhysicalKey_NumpadPageUp
           | 57422 => Some PhysicalKey_NumpadPageDown
           | 57423 => Some PhysicalKey_NumpadHome
           | 57424 => Some PhysicalKey_NumpadEnd
           | 57425 => Some PhysicalKey_NumpadInsert
           | 57426 => Some PhysicalKey_NumpadDelete
           | 57427 => Some PhysicalKey_NumpadBegin
           | 57441 => Some PhysicalKey_ShiftLeft
           | 57442 => Some PhysicalKey_ControlLeft
           | 57443 => Some PhysicalKey_AltLeft
           | 57444 => Some PhysicalKey_MetaLeft
           | 57447 => Some PhysicalKey_ShiftRight
           | 57448 => Some PhysicalKey_ControlRight
           | 57449 => Some PhysicalKey_AltRight
           | 57450 => Some PhysicalKey_MetaRight
           | _ => if 0x20 <=? cp then Some PhysicalKey_Unidentified else None
           end
  end.
(* phux-client/src/attach/input.rs csi_letter_keycode *)
Definition csi_letter_keycode (final_byte : Z) : option PhysicalKey :=
  match final_byte with
  | 65 => Some PhysicalKey_ArrowUp
  | 66 => Some PhysicalKey_ArrowDown
  | 67 => Some PhysicalKey_ArrowRight
  | 68 => Some PhysicalKey_ArrowLeft
  | 70 => Some PhysicalKey_End
  | 72 => Some PhysicalKey_Home
  | 80 => Some PhysicalKey_F1
  | 81 => Some PhysicalKey_F2
  | 82 => Some PhysicalKey_F3
  | 83 => Some PhysicalKey_F4
  | 90 => Some PhysicalKey_Tab
  | _ => None
  end.
(* phux-client/src/attach/input.rs csi_tilde_keycode *)
Definition csi_tilde_keycode (n : Z) : option PhysicalKey :=
  match n with
  | 1 | 7 => Some PhysicalKey_Home
  | 2 => Some PhysicalKey_Insert
  | 3 => Some PhysicalKey_Delete
  | 4 | 8 => Some PhysicalKey_End
  | 5 => Some PhysicalKey_PageUp
  | 6 => Some PhysicalKey_PageDown
  | 11 | 15 => Some PhysicalKey_F5
  | 13 => Some PhysicalKey_F3
  | 14 => Some PhysicalKey_F4
  | 17 => Some PhysicalKey_F6
  | 18 => Some PhysicalKey_F7
  | 19 => Some PhysicalKey_F8
  | 20 => Some PhysicalKey_F9
  | 21 => Some PhysicalKey_F10
  | 23 => Some PhysicalKey_F11
  | 24 => Some PhysicalKey_F12
  | 25 => Some PhysicalKey_F13
  | 26 => Some PhysicalKey_F14
  | 28 => Some PhysicalKey_F15
  | 29 => Some PhysicalKey_F16
  | 31 => Some PhysicalKey_F17
  | 32 => Some PhysicalKey_F18
  | 33 => Some PhysicalKey_F19
  | 34 => Some PhysicalKey_F20
  | _ => None
  end.

(** ** Mouse reports *)

(* phux-client/src/attach/input.rs sgr_mouse_mods *)
Definition sgr_mouse_mods (raw : Z) : Z := Z.lor (Z.lor (flag (bit_set raw 4) SHIFT) (flag (bit_set raw 8) ALT)) (flag (bit_set raw 16) CTRL).
(* phux-client/src/attach/input.rs sgr_mouse_button *)
Definition sgr_mouse_button (raw : Z) : MouseButton :=
  let low := Z.land raw 3 in
  if bit_set raw 0x40 then
    if low =? 0 then MouseButton_Four else if low =? 1 then MouseButton_Five else if low =? 2 then MouseButton_Six else MouseButton_Seven
  else if bit_set raw 0x80 then
    if low =? 0 then MouseButton_Eight else if low =? 1 then MouseButton_Nine else if low =? 2 then MouseButton_Ten else MouseButton_Eleven
  else if low =? 0 then MouseButton_Left else if low =? 1 then MouseButton_Middle else if low =? 2 then MouseButton_Right else MouseButton_Unknown.
Definition mouse_event (action : MouseAction) (raw_btn col row : Z) : InputEvent :=
  InputEvent_Mouse (mkMouseEvent action (sgr_mouse_button raw_btn) (sgr_mouse_mods raw_btn) (f64_from (saturating_sub col 1)) (f64_from (saturating_sub row 1))).
(* phux-client/src/attach/input.rs dispatch_sgr_mouse *)
Definition dispatch_sgr_mouse (body : bytes) (final_byte : Z) : list InputEvent :=
  match parse_csi_params body with
  | raw_btn :: col :: row :: _ =>
      let action := if bit_set raw_btn 0x20 then MouseAction_Motion else if final_byte =? 109 then MouseAction_Release else MouseAction_Press in
      [mouse_event action raw_btn col row]
  | _ => []
  end.
(** What X10 and urxvt reports share. *)
(* phux-client/src/attach/input.rs:1354-1364 dispatch_x10_mouse *)
Definition legacy_action (raw_btn : Z) : MouseAction :=
  let is_wheel_or_extra := bit_set raw_btn 0x40 || bit_set raw_btn 0x80 in
  if bit_set raw_btn 0x20 then MouseAction_Motion
  else if negb is_wheel_or_extra && (Z.land raw_btn 3 =? 3) then MouseAction_Release
  else MouseAction_Press.
(* phux-client/src/attach/input.rs dispatch_x10_mouse *)
Definition dispatch_x10_mouse (cb cx cy : Z) : list InputEvent :=
  let raw_btn := saturating_sub cb 0x20 in
  [mouse_event (legacy_action raw_btn) raw_btn (saturating_sub cx 0x20) (saturating_sub cy 0x20)].
(* phux-client/src/attach/input.rs dispatch_urxvt1015_mouse *)
Definition dispatch_urxvt1015_mouse (btn col row : Z) : list InputEvent :=
  let raw_btn := saturating_sub btn 0x20 in [mouse_event (legacy_action raw_btn) raw_btn col row].

(** ** Finished sequences *)

(** [char::from_u32], as the bytes [String::push] appends. *)
Definition char_utf8 (cp : Z) : option bytes :=
  if (0x10ffff <? cp) || between 0xd800 0xdfff cp then None
  else if cp <? 0x80 then Some [cp]
  else if cp <? 0x800 then Some [0xc0 + cp / 64; 0x80 + cp mod 64]
  else if cp <? 0x10000 then Some [0xe0 + cp / 4096; 0x80 + cp / 64 mod 64; 0x80 + cp mod 64]
  else Some [0xf0 + cp / 262144; 0x80 + cp / 4096 mod 64; 0x80 + cp / 64 mod 64; 0x80 + cp mod 64].
(* phux-client/src/attach/input.rs:1020-1038 dispatch_kitty_csi_u *)
Definition associated_text (cps : list Z) : option bytes :=
  let s := flat_map (fun cp => if cp =? 0 then [] else default [] (char_utf8 cp)) cps in
  match s with [] => None | _ => Some s end.
(* phux-client/src/attach/input.rs dispatch_kitty_csi_u *)
Definition dispatch_kitty_csi_u (params : bytes) : list InputEvent :=
  let groups := parse_csi_param_groups params in
  let keycode := default 0 (head groups ≫= head) in
  if keycode =? 0 then []
  else
    let mod_group := groups !! 1%nat in
    let raw_mod := default 1 (mod_group ≫= head) in
    let event_type := default 1 (g ← mod_group; g !! 1%nat) in
    let mods := kitty_modifier_code raw_mod in
    let action := if event_type =? 3 then KeyAction_Release else if event_type =? 2 then KeyAction_Repeat else KeyAction_Press in
    match kitty_keycode_to_physical keycode with
    | None => []
    | Some key =>
        let text := g ← mod_group; associated_text (drop 2 g) in
        [InputEvent_Key (mkKeyEvent action key mods NONE false text (Some keycode))]
    end.
Definition is_private_marker (b : Z) : bool := between 60 63 b.
(* phux-client/src/attach/input.rs:806-812 dispatch_csi *)
Definition is_urxvt_body (params : bytes) : bool := forallb (fun b => between 48 57 b || (b =? 59) || (b =? 58)) params.
(** The forms without a marker of their own: focus, [CSI n ~], [CSI letter]. *)
(* phux-client/src/attach/input.rs:828-890 dispatch_csi *)
Definition dispatch_csi_keys (params : bytes) (final_byte : Z) : list InputEvent :=
  let body := match params with b :: rest => if is_private_marker b then rest else params | [] => params end in
  let parsed := parse_csi_params body in
  match body with
  | [] =>
      if final_byte =? 73 then [InputEvent_Focus FocusEvent_Gained]
      else if final_byte =? 79 then [InputEvent_Focus FocusEvent_Lost]
      else if final_byte =? 126 then
        match csi_tilde_keycode (default 1 (head parsed)) with Some key => [InputEvent_Key (make_named_key key NONE)] | None => [] end
      else match csi_letter_keycode final_byte with Some key => [InputEvent_Key (make_named_key key NONE)] | None => [] end
  | _ =>
      if final_byte =? 126 then
        let mods := match parsed !! 1%nat with Some code => xterm_modifier_code code | None => NONE end in
        match csi_tilde_keycode (default 1 (head parsed)) with Some key => [InputEvent_Key (make_named_key key mods)] | None => [] end
      else
        let mods := match parsed with 1 :: code :: _ => xterm_modifier_code code | _ => NONE end in
        match csi_letter_keycode final_byte with Some key => [InputEvent_Key (make_named_key key mods)] | None => [] end
  end.
(* phux-client/src/attach/input.rs dispatch_csi *)
Definition dispatch_csi (params : bytes) (final_byte : Z) : list InputEvent :=
  match params with
  | 60 :: body =>
      if (final_byte =? 77) || (final_byte =? 109) then dispatch_sgr_mouse body final_byte
      else if final_byte =? 117 then dispatch_kitty_csi_u params
      else dispatch_csi_keys params final_byte
  | _ =>
      match (if (final_byte =? 77) && is_urxvt_body params then parse_csi_params params else []) with
      | [btn; col; row] => dispatch_urxvt1015_mouse btn col row
      | _ => if final_byte =? 117 then dispatch_kitty_csi_u params else dispatch_csi_keys params final_byte
      end
  end.

(** ** One byte *)

Abbreviation Step := (StdinParser * list InputEvent)%type.
(* phux-client/src/attach/input.rs StdinParser::feed_ground *)
Definition feed_ground (b : Z) (p : StdinParser) : Step :=
  if b =? 0x1b then (goto St_Escape p, [])
  else match c0_or_ascii_to_key b with
       | Some ev => (p, [InputEvent_Key ev])
       | None =>
           match utf8_continuation_count b with
           | Some more => (mkParser (St_Utf8 more) [b] b (paste_buf p), [])
           | None => (p, [])
           end
       end.
(* phux-client/src/attach/input.rs StdinParser::feed_escape *)
Definition feed_escape (b : Z) (p : StdinParser) : Step :=
  if b =? 91 then (goto St_Csi (with_buf [] p), [])
  else if b =? 79 then (goto St_Ss3 p, [])
  else if bool_decide (b ∈ [80; 93; 88; 94; 95]) then (goto St_StringTerm p, [])
  else if b =? 0x1b then (p, [InputEvent_Key (make_named_key PhysicalKey_Escape NONE)])
  else
    (goto St_Ground p,
     match c0_or_ascii_to_key b with
     | Some ev =>
         let mods := Z.lor (key_mods ev) ALT in
         let text := if bit_set mods CTRL || negb (bit_set mods SHIFT) then None else key_text ev in
         [InputEvent_Key (mkKeyEvent (key_action ev) (key_key ev) mods (key_consumed_mods ev) (key_composing ev) text (key_unshifted_codepoint ev))]
     | None => []
     end).
(* phux-client/src/attach/input.rs StdinParser::feed_csi *)
Definition feed_csi (b : Z) (p : StdinParser) : Step :=
  if between 0x30 0x3f b || between 0x20 0x2f b then
    let p := with_buf (buf p ++ [b]) p in
    if 256 <? len (buf p) then (goto St_Ground (with_buf [] p), []) else (p, [])
  else if between 0x40 0x7e b then
    let params := buf p in
    let p := goto St_Ground (with_buf [] p) in
    if (b =? 126) && bool_decide (params = str "200") then (goto St_Paste (with_paste [] p), [])
    else if (b =? 77) && bool_decide (params = []) then (goto (St_X10Mouse 0) (with_buf [] p), [])
    else (p, dispatch_csi params b)
  else (goto St_Ground (with_buf [] p), []).
(* phux-client/src/attach/input.rs StdinParser::feed_ss3 *)
Definition feed_ss3 (b : Z) (p : StdinParser) : Step :=
  (goto St_Ground p,
   match (match b with
          | 65 => Some PhysicalKey_ArrowUp | 66 => Some PhysicalKey_ArrowDown | 67 => Some PhysicalKey_ArrowRight | 68 => Some PhysicalKey_ArrowLeft
          | 70 => Some PhysicalKey_End | 72 => Some PhysicalKey_Home
          | 80 => Some PhysicalKey_F1 | 81 => Some PhysicalKey_F2 | 82 => Some PhysicalKey_F3 | 83 => Some PhysicalKey_F4
          | _ => None end) with
   | Some key => [InputEvent_Key (make_named_key key NONE)]
   | None => []
   end).
(* phux-client/src/attach/input.rs StdinParser::feed_string_term *)
Definition feed_string_term (b : Z) (p : StdinParser) : Step :=
  if b =? 0x07 then (goto St_Ground p, [])
  else if b =? 0x1b then (with_buf [1] p, [])
  else match buf p with 1 :: _ => (goto St_Ground (with_buf [] p), []) | _ => (p, []) end.
(* phux-client/src/attach/input.rs StdinParser::feed_utf8 *)
Definition feed_utf8 (b expected : Z) (p : StdinParser) : Step :=
  if negb (Z.land b 0xc0 =? 0x80) then feed_ground b (goto St_Ground (with_buf [] p))
  else
    let p := with_buf (buf p ++ [b]) p in
    let remaining := expected - 1 in
    if remaining =? 0 then
      (goto St_Ground (with_buf [] p),
       if utf8_valid (buf p) then
         [InputEvent_Key (mkKeyEvent KeyAction_Press PhysicalKey_Unidentified NONE NONE false (Some (buf p)) (code_point <$> head (chars (buf p))))]
       else [])
    else (goto (St_Utf8 remaining) p, []).
(* phux-client/src/attach/input.rs StdinParser::feed_paste *)
Definition feed_paste (b : Z) (p : StdinParser) : StdinParser :=
  if b =? 0x1b then goto St_PasteEscape p else with_paste (paste_buf p ++ [b]) p.
(* phux-client/src/attach/input.rs StdinParser::feed_paste_escape *)
Definition feed_paste_escape (b : Z) (p : StdinParser) : StdinParser :=
  if b =? 91 then goto St_PasteCsi (with_buf [] p) else goto St_Paste (with_paste (paste_buf p ++ [0x1b; b]) p).
(* phux-client/src/attach/input.rs StdinParser::flush_pending_paste_escape *)
Definition flush_pending_paste_escape (p : StdinParser) : StdinParser :=
  mkParser St_Paste [] (utf8_lead p) (paste_buf p ++ [0x1b; 91] ++ buf p).
(* phux-client/src/attach/input.rs StdinParser::feed_paste_csi *)
Definition feed_paste_csi (b : Z) (p : StdinParser) : Step :=
  if between 0x30 0x3f b || between 0x20 0x2f b then
    let p := with_buf (buf p ++ [b]) p in
    (if 16 <? len (buf p) then flush_pending_paste_escape p else p, [])
  else if between 0x40 0x7e b then
    if (b =? 126) && bool_decide (buf p = str "201") then
      (goto St_Ground (with_paste [] (with_buf [] p)), [InputEvent_Paste (mkPasteEvent PasteTrust_Trusted (paste_buf p))])
    else let p := flush_pending_paste_escape p in (with_paste (paste_buf p ++ [b]) p, [])
  else (feed_paste b (flush_pending_paste_escape p), []).
(** The three indexings are in bounds as long as [buf] holds what [bytes_seen] counts. *)
(* phux-client/src/attach/input.rs StdinParser::feed_x10_mouse *)
Definition feed_x10_mouse (b bytes_seen : Z) (p : StdinParser) : Step :=
  let p := with_buf (buf p ++ [b]) p in
  let next := bytes_seen + 1 in
  if next <? 3 then (goto (St_X10Mouse next) p, [])
  else (goto St_Ground (with_buf [] p), match buf p with cb :: cx :: cy :: _ => dispatch_x10_mouse cb cx cy | _ => [] end).
(* phux-client/src/attach/input.rs StdinParser::feed_byte *)
Definition feed_byte (b : Z) (p : StdinParser) : Step :=
  match state p with
  | St_Ground => feed_ground b p
  | St_Escape => feed_escape b p
  | St_Csi => feed_csi b p
  | St_Ss3 => feed_ss3 b p
  | St_StringTerm => feed_string_term b p
  | St_Utf8 expected => feed_utf8 b expected p
  | St_Paste => (feed_paste b p, [])
  | St_PasteEscape => (feed_paste_escape b p, [])
  | St_PasteCsi => feed_paste_csi b p
  | St_X10Mouse bytes_seen => feed_x10_mouse b bytes_seen p
  end.
(* phux-client/src/attach/input.rs StdinParser::feed_into *)
Fixpoint feed_into (bs : bytes) (p : StdinParser) : Step :=
  match bs with
  | [] => (p, [])
  | b :: bs => let '(p, out) := feed_byte b p in let '(p, rest) := feed_into bs p in (p, out ++ rest)
  end.
(* phux-client/src/attach/input.rs StdinParser::flush_into *)
Definition flush_into (p : StdinParser) : Step :=
  match state p with St_Escape => (goto St_Ground p, [InputEvent_Key (make_named_key PhysicalKey_Escape NONE)]) | _ => (p, []) end.
(* phux-client/src/attach/input.rs StdinParser::has_pending *)
Definition has_pending (p : StdinParser) : bool := match state p with St_Ground => false | _ => true end.
(* phux-client/src/attach/input.rs StdinParser::esc_pending *)
Definition esc_pending (p : StdinParser) : bool := match state p with St_Escape => true | _ => false end.
(* phux-client/src/attach/input.rs StdinParser::feed *)
Definition feed_bytes (bs : bytes) (p : StdinParser) : Step := feed_into bs p.
