(* ===== verification/StdinProofs.v ===== *)
(** * What a client types is what arrives

    The stdin parser against what terminals send: text, pastes, keys with modifiers, mouse reports, whatever the reads cut; and the
    parser's keys against the chords a configuration spells. *)

From stdpp Require Import list.
From S2P Require Import Prelude Enums Codec ClientLayout Tiling Keybind Stdin.

(** ** Feeding *)

Lemma feed_app a b p : feed_into (a ++ b) p = let '(p1, o1) := feed_into a p in let '(p2, o2) := feed_into b p1 in (p2, o1 ++ o2).
Proof.
  revert p. induction a as [|x a IH]; intros p; simpl; [by destruct (feed_into b p)|]. destruct (feed_byte x p) as [p1 o1]. rewrite IH.
  destruct (feed_into a p1) as [p2 o2]. destruct (feed_into b p2) as [p3 o3]. by rewrite app_assoc.
Qed.

Lemma feed_cons b bs p : feed_into (b :: bs) p = let '(p1, o1) := feed_byte b p in let '(p2, o2) := feed_into bs p1 in (p2, o1 ++ o2).
Proof. done. Qed.

(** ** The buffers *)

(** What each state has in [buf]: the arithmetic on [expected] and the indexings of the source never fail, and what is held of an
    unfinished sequence is bounded. *)
Definition ParserOk (p : StdinParser) : Prop :=
  len (buf p) <= 256
  /\ match state p with
     | St_Utf8 expected => 1 <= expected /\ 1 <= len (buf p) /\ len (buf p) + expected <= 4
     | St_PasteCsi => len (buf p) <= 16
     | St_X10Mouse bytes_seen => 0 <= bytes_seen < 3 /\ len (buf p) = bytes_seen
     | _ => True
     end.
Lemma len_snoc {A} (l : list A) x : len (l ++ [x]) = len l + 1.
Proof. unfold len. rewrite length_app. simpl. lia. Qed.
Lemma feed_ground_ok b p : ParserOk p -> ParserOk (feed_ground b p).1.
Proof.
  intros [H1 H2]. unfold feed_ground. destruct (b =? 27); [by split|]. destruct (c0_or_ascii_to_key b); [by split|].
  assert (Hu : forall e, 1 <= e <= 3 -> ParserOk (mkParser (St_Utf8 e) [b] b (paste_buf p))).
  { intros e He. unfold ParserOk. cbn [state buf]. change (len [b]) with 1. lia. }
  unfold utf8_continuation_count. repeat (destruct (between _ _ _); [apply Hu; lia|]). by split.
Qed.
Lemma feed_paste_ok b p : ParserOk p -> state p = St_Paste -> ParserOk (feed_paste b p).
Proof. intros [H1 _] E. unfold feed_paste. destruct (b =? 27); split; cbn; rewrite ?E; done. Qed.
Lemma feed_byte_ok b p : ParserOk p -> ParserOk (feed_byte b p).1.
Proof.
  intros Hok. pose proof Hok as [H1 H2]. pose proof (@len_nil Z) as L0. unfold feed_byte. destruct (state p) as [| | | | |e| | | |n] eqn:Es.
  - by apply feed_ground_ok.
  - unfold feed_escape. repeat case_match; try done; by split.
  - unfold feed_csi. destruct (_ || _).
    + cbv zeta. destruct (Z.ltb_spec 256 (len (buf (with_buf (buf p ++ [b]) p)))) as [|Hle]; split; cbn in *; rewrite ?Es; done.
    + repeat case_match; split; cbn; done || lia.
  - unfold feed_ss3. by split.
  - unfold feed_string_term. destruct (b =? 7); [by split|]. destruct (b =? 27); [split; cbn; [unfold len; simpl; lia|by rewrite Es]|]. repeat case_match; try done; split; cbn; done.
  - unfold feed_utf8. destruct (negb _); [apply feed_ground_ok; split; cbn; done|]. cbv zeta. destruct H2 as (H2 & H3 & H4).
    destruct (Z.eqb_spec (e - 1) 0); [split; cbn; done|]. split; cbn; rewrite len_snoc; lia.
  - cbn. by apply feed_paste_ok.
  - cbn. unfold feed_paste_escape. destruct (b =? 91); split; cbn; done || lia.
  - unfold feed_paste_csi. destruct (_ || _).
    + cbv zeta. cbn [fst]. destruct (Z.ltb_spec 16 (len (buf (with_buf (buf p ++ [b]) p)))) as [|Hle]; split; cbn in *; rewrite ?Es; lia || done.
    + repeat case_match; try (split; cbn; done). cbn [fst]. apply feed_paste_ok; [split; cbn; done|done].
  - unfold feed_x10_mouse. cbv zeta. destruct H2 as [H2 H3]. destruct (Z.ltb_spec (n + 1) 3); split; cbn; rewrite ?len_snoc; done || lia.
Qed.
Lemma feed_into_ok bs p : ParserOk p -> ParserOk (feed_into bs p).1.
Proof.
  revert p. induction bs as [|b bs IH]; intros p H; simpl; [done|]. pose proof (feed_byte_ok b p H) as H'. destruct (feed_byte b p) as [p1 o1]. specialize (IH p1 H').
  by destruct (feed_into bs p1).
Qed.

(** ** Text *)

Definition text_of (e : InputEvent) : option bytes :=
  match e with InputEvent_Key k => if bool_decide (key_action k = KeyAction_Press) then key_text k else None | _ => None end.
Definition at_ground (p : StdinParser) : Prop := state p = St_Ground.
Lemma printable_key b p : at_ground p -> 0x20 <= b <= 0x7e -> exists k, feed_byte b p = (p, [InputEvent_Key k]) /\ text_of (InputEvent_Key k) = Some [b].
Proof.
  intros Hg Hb. unfold feed_byte. rewrite Hg. unfold feed_ground, c0_or_ascii_to_key, between. destruct (Z.eqb_spec b 27); [lia|].
  destruct (Z.leb_spec 32 b); [|lia]. destruct (Z.leb_spec b 126); [|lia]. cbn [andb]. eexists. split; [done|]. done.
Qed.
Lemma cont_ok b : utf8_cont b = true -> Z.land b 0xc0 = 0x80.
Proof.
  unfold utf8_cont, in_range. intros [H1%Z.leb_le H2%Z.leb_le]%andb_true_iff.
  assert (E : forallb (fun b => Z.land b 192 =? 128) (seqZ 128 64) = true) by (vm_compute; reflexivity). rewrite forallb_forall in E. apply Z.eqb_eq, E.
  apply list_elem_of_In, elem_of_seqZ. lia.
Qed.
Lemma second_cont b0 b1 : utf8_second b0 b1 = true -> utf8_cont b1 = true.
Proof.
  unfold utf8_second. unfold utf8_cont, in_range. repeat case_match; rewrite ?andb_true_iff, ?Z.leb_le; intros; lia.
Qed.
(** One character of several bytes. *)
Lemma multibyte_key b0 more rest p : at_ground p -> 0x80 <= b0 -> utf8_continuation_count b0 = Some more -> len rest = more ->
  Forall (fun b => utf8_cont b = true) rest -> utf8_valid (b0 :: rest) = true -> rest <> [] ->
  exists p' k, feed_into (b0 :: rest) p = (p', [InputEvent_Key k]) /\ at_ground p' /\ text_of (InputEvent_Key k) = Some (b0 :: rest).
Proof.
  intros Hg Hb Hm Hl Hc Hv Hne. rewrite feed_cons. unfold feed_byte. rewrite Hg. unfold feed_ground.
  destruct (Z.eqb_spec b0 27); [lia|]. assert (Ek : c0_or_ascii_to_key b0 = None).
  { unfold c0_or_ascii_to_key, between. repeat match goal with |- context [?a <=? ?b] => destruct (Z.leb_spec a b); try lia | |- context [?a =? ?b] => destruct (Z.eqb_spec a b); try lia end; done. }
  rewrite Ek, Hm. assert (Hgen : forall rest acc, acc <> [] -> rest <> [] -> Forall (fun b => utf8_cont b = true) rest -> utf8_valid (acc ++ rest) = true ->
    exists p' k, feed_into rest (mkParser (St_Utf8 (len rest)) acc b0 (paste_buf p)) = (p', [InputEvent_Key k]) /\ at_ground p' /\ text_of (InputEvent_Key k) = Some (acc ++ rest)).
  { clear. intros rest. induction rest as [|b rest IH]; intros acc Ha Hne Hc Hv; [done|]. apply Forall_cons in Hc as [Hb Hc]. rewrite feed_cons. unfold feed_byte. cbn [state].
    unfold feed_utf8. rewrite (cont_ok b Hb). cbn [negb Z.eqb Pos.eqb]. cbv zeta. cbn [with_buf buf]. destruct rest as [|b' rest].
    - change (len [b] - 1 =? 0) with true. cbv iota. cbn [goto with_buf buf state]. rewrite Hv. eexists _, _. split; [cbn; reflexivity|]. done.
    - assert (E : len (b :: b' :: rest) - 1 = len (b' :: rest)) by (unfold len; simpl; lia). rewrite E.
      destruct (Z.eqb_spec (len (b' :: rest)) 0) as [E0|_]; [unfold len in E0; simpl in E0; lia|]. unfold goto, with_buf. cbn [buf utf8_lead paste_buf state].
      destruct (IH (acc ++ [b])) as (p' & k & H1 & H2 & H3); [by destruct acc|done|done|by rewrite <- app_assoc|]. rewrite H1. eexists _, _. split; [reflexivity|].
      split; [done|]. rewrite H3. by rewrite <- app_assoc. }
  destruct (Hgen rest [b0]) as (p' & k & H1 & H2 & H3); [done..|]. rewrite Hl in H1. rewrite H1. eexists _, _. split; [reflexivity|]. done.
Qed.
(** One character: a leading byte and its continuations; and a text typed character by character. *)
Definition a_character (c : bytes) : Prop :=
  match c with [] => False | b :: more => utf8_cont b = false /\ Forall (fun b => utf8_cont b = true) more end.
Definition typed_as (ks : list InputEvent) (text : bytes) : Prop :=
  exists chars, map text_of ks = map Some chars /\ concat chars = text /\ Forall a_character chars.
Lemma typed_as_nil : typed_as [] [].
Proof. exists []. by repeat split. Qed.
Lemma typed_as_cons k ks c text : text_of k = Some c -> a_character c -> typed_as ks text -> typed_as (k :: ks) (c ++ text).
Proof. intros E Hc (chars & E1 & <- & E3). exists (c :: chars). cbn. rewrite E, E1. repeat split. by constructor. Qed.
Lemma lead_not_cont b : 0x20 <= b -> b <= 0x7e \/ is_Some (utf8_continuation_count b) -> utf8_cont b = false.
Proof.
  intros Hb H. apply not_true_iff_false. unfold utf8_cont, in_range. intros [H1%Z.leb_le H2%Z.leb_le]%andb_true_iff. destruct H as [H|[m H]]; [lia|].
  unfold utf8_continuation_count, between in H. repeat match type of H with context [?x <=? b] => destruct (Z.leb_spec x b); try lia; cbn [andb] in H end. done.
Qed.
Definition no_controls (bs : bytes) : Prop := Forall (fun b => 0x20 <= b /\ b <> 0x7f) bs.
Lemma typing_lossless_aux n : forall bs p, (length bs <= n)%nat -> at_ground p -> utf8_valid bs = true -> no_controls bs ->
  exists p' ks, feed_into bs p = (p', ks) /\ at_ground p' /\ typed_as ks bs.
Proof.
  induction n as [|n IH]; intros bs p Hn Hg Hv Hc; [destruct bs; [|simpl in Hn; lia]; exists p, []; auto using typed_as_nil|].
  destruct bs as [|b0 r0]; [exists p, []; auto using typed_as_nil|]. apply Forall_cons in Hc as [[Hb1 Hb2] Hc0].
  assert (Hmulti : forall rest more tl, r0 = rest ++ tl -> 0x80 <= b0 -> utf8_continuation_count b0 = Some more -> len rest = more -> rest <> [] ->
    Forall (fun b => utf8_cont b = true) rest -> utf8_valid (b0 :: rest) = true -> utf8_valid tl = true ->
    exists p' ks, feed_into (b0 :: r0) p = (p', ks) /\ at_ground p' /\ typed_as ks (b0 :: r0)).
  { intros rest more tl -> H1 H2 H3 H4 H5 H6 H7. destruct (multibyte_key b0 more rest p Hg H1 H2 H3 H5 H6 H4) as (p1 & k & E1 & E2 & E3).
    unfold no_controls in Hc0. apply Forall_app in Hc0 as [_ Hc1]. destruct (IH tl p1) as (p2 & ks & F1 & F2 & F3); [simpl in Hn; rewrite length_app in Hn; lia|done..|].
    change (b0 :: rest ++ tl) with ((b0 :: rest) ++ tl). rewrite feed_app, E1, F1. exists p2, ([InputEvent_Key k] ++ ks). split; [done|]. split; [done|].
    apply typed_as_cons; [exact E3| |exact F3]. split; [|done]. apply lead_not_cont; [done|]. right. by rewrite H2. }
  cbn [utf8_valid] in Hv. unfold in_range in Hv. destruct ((0 <=? b0) && (b0 <=? 127)) eqn:R1.
  - apply andb_true_iff in R1 as [_ R1%Z.leb_le]. destruct (printable_key b0 p Hg) as (k & E1 & E2); [lia|].
    destruct (IH r0 p) as (p2 & ks & F1 & F2 & F3); [simpl in Hn; lia|done..|]. rewrite feed_cons, E1, F1. exists p2, ([InputEvent_Key k] ++ ks). split; [done|]. split; [done|].
    apply (typed_as_cons _ _ [b0]); [exact E2| |exact F3]. split; [|done]. apply lead_not_cont; [done|]. left. lia.
  - destruct ((194 <=? b0) && (b0 <=? 223)) eqn:R2.
    { destruct r0 as [|b1 r1]; [done|]. apply andb_true_iff in Hv as [V1 V2]. pose proof R2 as [R3%Z.leb_le R4%Z.leb_le]%andb_true_iff.
      apply (Hmulti [b1] 1 r1); [done|lia|unfold utf8_continuation_count, between; by rewrite R2|done|done|by repeat constructor| |done].
      cbn [utf8_valid]. unfold in_range. rewrite R1, R2, V1. done. }
    destruct ((224 <=? b0) && (b0 <=? 239)) eqn:R3.
    { destruct r0 as [|b1 [|b2 r2]]; [done..|]. apply andb_true_iff in Hv as [[V1 V2]%andb_true_iff V3]. pose proof R3 as [R4%Z.leb_le R5%Z.leb_le]%andb_true_iff.
      apply (Hmulti [b1; b2] 2 r2); [done|lia|unfold utf8_continuation_count, between; by rewrite R2, R3|done|done|repeat constructor; [by eapply second_cont|done]| |done].
      cbn [utf8_valid]. unfold in_range. rewrite R1, R2, R3, V1, V2. done. }
    destruct ((240 <=? b0) && (b0 <=? 244)) eqn:R4; [|done].
    destruct r0 as [|b1 [|b2 [|b3 r3]]]; [done..|]. apply andb_true_iff in Hv as [[[V1 V2]%andb_true_iff V3]%andb_true_iff V4]. pose proof R4 as [R5%Z.leb_le R6%Z.leb_le]%andb_true_iff.
    apply (Hmulti [b1; b2; b3] 3 r3); [done|lia|unfold utf8_continuation_count, between; by rewrite R2, R3, R4|done|done|repeat constructor; [by eapply second_cont|done|done]| |done].
    cbn [utf8_valid]. unfold in_range. rewrite R1, R2, R3, R4, V1, V2, V3. done.
Qed.

(** Reads of the terminal, cut anywhere. *)
Fixpoint feed_reads (reads : list bytes) (p : StdinParser) : StdinParser * list InputEvent :=
  match reads with
  | [] => (p, [])
  | r :: reads => let '(p, out) := feed_into r p in let '(p, rest) := feed_reads reads p in (p, out ++ rest)
  end.
Lemma feed_reads_concat reads p : feed_reads reads p = feed_into (concat reads) p.
Proof. revert p. induction reads as [|r reads IH]; intros p; simpl; [done|]. rewrite feed_app. destruct (feed_into r p) as [p1 o1]. by rewrite IH. Qed.

(** C31: Typing loses nothing. Whatever text without control characters a terminal sends to a parser that is at the ground, that is not inside
    an unfinished sequence, string or paste, in whatever pieces the reads cut it, even through the middle of a character: what comes out is
    one key press per character, in order, each with exactly that character as its text, and nothing is left pending; and in every reachable
    state, whatever was fed, what is held of an unfinished sequence is bounded and the counts the parser computes with are in range. *)
Theorem typing_is_lossless reads p :
  ParserOk p ->
  ParserOk (feed_reads reads p).1
  /\ (at_ground p -> utf8_valid (concat reads) = true -> no_controls (concat reads) ->
      (exists chars, map text_of (feed_reads reads p).2 = map Some chars /\ concat chars = concat reads /\ Forall a_character chars)
      /\ has_pending (feed_reads reads p).1 = false).
Proof.
  intros Hok. rewrite feed_reads_concat. split; [by apply feed_into_ok|]. intros Hg Hv Hc.
  destruct (typing_lossless_aux (length (concat reads)) (concat reads) p) as (p' & ks & -> & H1 & H2); [done..|]. cbn [fst snd].
  split; [exact H2|]. unfold has_pending. by rewrite H1.
Qed.

(** ** Pastes *)

Definition paste_open : bytes := 0x1b :: str "[200~".
Definition paste_close : bytes := 0x1b :: str "[201~".
(** What has been pasted so far, the bytes still held back included. *)
Definition payload (p : StdinParser) : bytes :=
  match state p with
  | St_PasteEscape => paste_buf p ++ [0x1b]
  | St_PasteCsi => paste_buf p ++ [0x1b; 91] ++ buf p
  | _ => paste_buf p
  end.
(** An odd number of escapes at the end. *)
Definition lone_escape (data : bytes) : bool := fold_left (fun d b => if b =? 0x1b then negb d else false) data false.
#[local] Arguments lone_escape : simpl never.
Definition pasting (p : StdinParser) : Prop :=
  match state p with
  | St_Paste => lone_escape (payload p) = false
  | St_PasteEscape => lone_escape (payload p) = true
  | St_PasteCsi => Forall (fun b => between 0x30 0x3f b || between 0x20 0x2f b = true) (buf p)
  | _ => False
  end.
Lemma lone_snoc data b : lone_escape (data ++ [b]) = if b =? 0x1b then negb (lone_escape data) else false.
Proof. unfold lone_escape. by rewrite fold_left_app. Qed.
Lemma csi_not_lone pb bf : Forall (fun b => between 0x30 0x3f b || between 0x20 0x2f b = true) bf -> lone_escape (pb ++ [0x1b; 91] ++ bf) = false.
Proof.
  intros H. destruct bf as [|x bf' _] using rev_ind; [rewrite app_nil_r; change [27; 91] with ([27] ++ [91]); rewrite app_assoc, lone_snoc; done|].
  apply Forall_app in H as [_ H]. apply Forall_cons in H as [H _]. rewrite !app_assoc, lone_snoc. destruct (Z.eqb_spec x 27) as [->|]; [done|done].
Qed.
Lemma paste_step p b : pasting p ->
  (state p = St_PasteCsi /\ buf p = str "201" /\ b = 126)
  \/ (feed_byte b p).2 = [] /\ pasting (feed_byte b p).1 /\ payload (feed_byte b p).1 = payload p ++ [b].
Proof.
  intros Hp. unfold pasting in Hp. unfold feed_byte. destruct (state p) eqn:Es; try done.
  - right. unfold feed_paste. unfold payload in Hp. rewrite Es in Hp. unfold pasting, payload. destruct (Z.eqb_spec b 27) as [->|Hb]; cbn; rewrite ?Es.
    + split_and!; [done|by rewrite lone_snoc, Hp|done].
    + apply Z.eqb_neq in Hb. split_and!; [done|by rewrite lone_snoc, Hb|done].
  - right. unfold feed_paste_escape. unfold payload in Hp. rewrite Es in Hp. unfold pasting, payload. destruct (Z.eqb_spec b 91) as [->|Hb]; cbn; rewrite ?Es.
    + split_and!; [done|done|by rewrite <- app_assoc].
    + split_and!; [done| |by rewrite <- app_assoc]. change [27; b] with ([27] ++ [b]). rewrite app_assoc, lone_snoc, Hp. by destruct (b =? 27).
  - unfold feed_paste_csi. destruct (between 48 63 b || between 32 47 b) eqn:Eb.
    + right. cbv zeta. cbn [snd fst]. assert (Hbuf : Forall (fun b => between 48 63 b || between 32 47 b = true) (buf p ++ [b])) by (apply Forall_app; by repeat constructor).
      destruct (16 <? _); split_and!; try done; unfold pasting, payload; cbn; rewrite ?Es.
      * by apply csi_not_lone.
      * by rewrite <- !app_assoc.
      * done.
      * by rewrite <- !app_assoc.
    + assert (Hn : between 48 63 b = false /\ between 32 47 b = false) by (by apply orb_false_iff). destruct (between 64 126 b) eqn:Ef.
      * destruct ((b =? 126) && bool_decide (buf p = str "201")) eqn:Ec.
        { left. apply andb_true_iff in Ec as [->%Z.eqb_eq ->%bool_decide_eq_true]. done. }
        right. cbv zeta. unfold pasting, payload. cbn. rewrite Es. split_and!; [done| |done]. rewrite lone_snoc. destruct (Z.eqb_spec b 27) as [->|]; [done|done].
      * right. cbv zeta. cbn [fst snd]. unfold feed_paste, flush_pending_paste_escape, pasting, payload. destruct (Z.eqb_spec b 27) as [->|Hb]; cbn; rewrite ?Es; split_and!; try done.
        -- rewrite lone_snoc. change (paste_buf p ++ 27 :: 91 :: buf p) with (paste_buf p ++ [27; 91] ++ buf p). by rewrite csi_not_lone.
        -- apply Z.eqb_neq in Hb. by rewrite lone_snoc, Hb.
Qed.
Lemma paste_run data : forall p, pasting p -> (forall a c, payload p ++ data <> a ++ paste_close ++ c) ->
  exists p', feed_into data p = (p', []) /\ pasting p' /\ payload p' = payload p ++ data.
Proof.
  induction data as [|b data IH]; intros p Hp Hn; [exists p; rewrite app_nil_r; done|]. rewrite feed_cons. destruct (paste_step p b Hp) as [(E1 & E2 & ->)|(E1 & E2 & E3)].
  - exfalso. apply (Hn (paste_buf p) data). unfold payload, paste_close. rewrite E1, E2. by rewrite <- !app_assoc.
  - destruct (feed_byte b p) as [p1 o1]. cbn [fst snd] in *. subst o1. destruct (IH p1) as (p' & F1 & F2 & F3); [done|intros a c; rewrite E3, <- app_assoc; apply Hn|].
    rewrite F1. exists p'. split; [done|]. split; [done|]. by rewrite F3, E3, <- app_assoc.
Qed.
Lemma paste_opened p : at_ground p -> feed_into paste_open p = (mkParser St_Paste [] (utf8_lead p) [], []).
Proof. destruct p as [s bf u pb]. unfold at_ground. cbn. intros ->. vm_compute. reflexivity. Qed.

Lemma close_paste bf u pb : feed_into paste_close (mkParser St_Paste bf u pb) = (mkParser St_Ground [] u [], [InputEvent_Paste (mkPasteEvent PasteTrust_Trusted pb)]).
Proof. vm_compute. reflexivity. Qed.
Lemma close_csi bf u pb :
  feed_into paste_close (mkParser St_PasteCsi bf u pb) = (mkParser St_Ground [] u [], [InputEvent_Paste (mkPasteEvent PasteTrust_Trusted (pb ++ [0x1b; 91] ++ bf))]).
Proof. vm_compute. reflexivity. Qed.
Lemma close_escape bf u pb : feed_into paste_close (mkParser St_PasteEscape bf u pb) = (mkParser St_Paste bf u (pb ++ 0x1b :: paste_close), []).
Proof.
  unfold paste_close. set (l := str "[201~"). vm_compute in l. subst l. cbn -[app]. unfold feed_paste_escape, feed_paste, goto, with_paste. cbn -[app]. by rewrite <- !app_assoc.
Qed.

(** Pastes arrive verbatim. A bracketed paste whose data does not hold the closing marker comes out as one trusted paste with exactly
    that data, escape sequences included, however it was cut, and the parser is back where it was; except when the data ends in an odd
    number of escapes: then the marker is taken for data, nothing comes out, and the parser keeps collecting what is typed next. *)
Theorem pastes_are_verbatim reads data p : at_ground p -> concat reads = paste_open ++ data ++ paste_close -> (forall a c, data <> a ++ paste_close ++ c) ->
  if lone_escape data then (feed_reads reads p).2 = [] /\ state (feed_reads reads p).1 = St_Paste /\ paste_buf (feed_reads reads p).1 = data ++ paste_close
  else (feed_reads reads p).2 = [InputEvent_Paste (mkPasteEvent PasteTrust_Trusted data)] /\ has_pending (feed_reads reads p).1 = false.
Proof.
  intros Hg Hc Hn. rewrite feed_reads_concat, Hc, feed_app, paste_opened by done. rewrite feed_app.
  destruct (paste_run data (mkParser St_Paste [] (utf8_lead p) [])) as (p' & E1 & E2 & E3); [done|done|]. rewrite E1. cbn [payload state paste_buf app] in E3.
  unfold pasting in E2. unfold payload in E2, E3. destruct p' as [s bf u pb]. cbn [state paste_buf buf] in *. destruct s; try done.
  - subst pb. by rewrite close_paste, E2.
  - rewrite close_escape, <- E3, E2. cbn [fst snd app state paste_buf]. by rewrite <- app_assoc.
  - rewrite close_csi, <- E3, csi_not_lone by done. done.
Qed.

(** ** Reports *)

(** Everything between [ESC \[] and the final byte. *)
Definition csi_param (b : Z) : Prop := between 0x30 0x3f b || between 0x20 0x2f b = true.
Definition csi (body : bytes) (final : Z) : bytes := 0x1b :: 91 :: body ++ [final].
Lemma feed_params body : forall p, state p = St_Csi -> Forall csi_param body -> len (buf p) + len body <= 256 -> feed_into body p = (with_buf (buf p ++ body) p, []).
Proof.
  induction body as [|b body IH]; intros p Hs Hb Hl; [rewrite app_nil_r; by destruct p|]. apply Forall_cons in Hb as [H1 H2].
  assert (El : len (b :: body) = len body + 1) by (unfold len; simpl; lia). pose proof (Nat2Z.is_nonneg (length body)) as Hp. fold (len body) in Hp.
  rewrite feed_cons. unfold feed_byte. rewrite Hs. unfold feed_csi. unfold csi_param in H1. rewrite H1. cbv zeta. cbn [buf with_buf]. rewrite len_snoc.
  destruct (Z.ltb_spec 256 (len (buf p) + 1)); [lia|]. rewrite IH; cbn [state buf with_buf]; [|done|done|rewrite len_snoc; lia].
  unfold with_buf. cbn. by rewrite <- app_assoc.
Qed.
(** A whole sequence, neither a paste's nor an X10 report's opening, is decoded as [dispatch_csi] says. *)
Lemma feed_csi_sequence body final p : at_ground p -> Forall csi_param body -> len body <= 256 -> 0x40 <= final <= 0x7e ->
  (final = 126 -> body <> str "200") -> (final = 77 -> body <> []) -> feed_into (csi body final) p = (with_buf [] p, dispatch_csi body final).
Proof.
  intros Hg Hb Hl Hf H1 H2. unfold csi. rewrite feed_cons. unfold feed_byte at 1. rewrite Hg.
  change (feed_ground 27 p) with (goto St_Escape p, @nil InputEvent). cbv beta iota. rewrite feed_cons.
  change (feed_byte 91 (goto St_Escape p)) with (goto St_Csi (with_buf [] p), @nil InputEvent). cbv beta iota. rewrite feed_app.
  rewrite feed_params by (try done; cbn; rewrite len_nil; lia). rewrite feed_cons. unfold feed_byte. cbn -[dispatch_csi feed_csi]. unfold feed_csi.
  assert (E : between 48 63 final || between 32 47 final = false).
  { unfold between. destruct (Z.leb_spec final 63); [lia|]. destruct (Z.leb_spec final 47); [lia|]. by rewrite !andb_false_r. }
  rewrite E. assert (E2 : between 64 126 final = true) by (unfold between; destruct (Z.leb_spec 64 final), (Z.leb_spec final 126); done || lia). rewrite E2. cbn -[dispatch_csi].
  assert (E3 : (final =? 126) && bool_decide (body = str "200") = false) by (destruct (Z.eqb_spec final 126) as [->|]; [rewrite bool_decide_eq_false_2; [done|by apply H1]|done]).
  assert (E4 : (final =? 77) && bool_decide (body = []) = false) by (destruct (Z.eqb_spec final 77) as [->|]; [rewrite bool_decide_eq_false_2; [done|by apply H2]|done]).
  cbn in E3. rewrite E3, E4. cbn -[dispatch_csi]. rewrite app_nil_r. destruct p as [s b u pb]. unfold at_ground in Hg. cbn in Hg. by subst s.
Qed.

(** *** Numbers *)

Lemma digit_range n : 48 <= 48 + n mod 10 <= 57.
Proof. pose proof (Z.mod_pos_bound n 10). lia. Qed.
Lemma digit_between d : 48 <= d <= 57 -> between 48 57 d = true.
Proof. intros H. unfold between. destruct (Z.leb_spec 48 d), (Z.leb_spec d 57); done || lia. Qed.
(** A reader that takes digits in, one at a time, as the two loops of the source do. *)
Section Numbers.
  Context {A : Type} (read : bytes -> Z -> bool -> A).
  Hypothesis read_digit : forall b rest acc st, 48 <= b <= 57 -> read (b :: rest) acc st = read rest (saturating_digit acc b) true.
Lemma read_decimal_digits fuel : forall n rest, 0 <= n < 10 ^ Z.of_nat fuel -> n <= u32_max -> fuel <> O -> read (decimal_digits fuel n ++ rest) 0 false = read rest n true.
Proof.
  induction fuel as [|fuel IH]; intros n rest Hn Hm Hf; [done|]. cbn [decimal_digits]. pose proof (digit_range n) as Hd. pose proof (Z.div_mod n 10 ltac:(lia)) as Ed.
  assert (Hd0 : 0 <= n / 10) by (apply Z.div_pos; lia). assert (Hdn : n / 10 <= n) by (apply Z.div_le_upper_bound; lia).
  assert (Hstep : forall st, read ([48 + n mod 10] ++ rest) (n / 10) st = read rest n true).
  { intros st. cbn [app]. rewrite read_digit by done. f_equal. unfold saturating_digit. lia. }
  destruct (Z.ltb_spec n 10).
  - rewrite app_nil_l. rewrite <- (Hstep false). f_equal. symmetry. apply Z.div_small. lia.
  - rewrite <- app_assoc. destruct fuel as [|fuel]; [simpl in Hn; lia|]. rewrite IH; [apply Hstep| |lia|done].
    split; [done|]. apply Z.div_lt_upper_bound; [lia|]. rewrite <- Z.pow_succ_r, <- Nat2Z.inj_succ by lia. lia.
Qed.
Lemma read_decimal n rest : 0 <= n <= u32_max -> read (decimal n ++ rest) 0 false = read rest n true.
Proof. intros Hn. apply read_decimal_digits; [|lia|done]. unfold u32_max in Hn. change (10 ^ Z.of_nat 20) with 100000000000000000000. lia. Qed.
End Numbers.
Lemma params_decimal n rest out : 0 <= n <= u32_max -> csi_params_loop (decimal n ++ rest) out 0 false = csi_params_loop rest out n true.
Proof. apply (read_decimal (fun b acc st => csi_params_loop b out acc st)). intros b r acc st Hb. cbn [csi_params_loop]. by rewrite digit_between. Qed.
Lemma groups_decimal n rest gs cur : 0 <= n <= u32_max -> csi_groups_loop (decimal n ++ rest) gs cur 0 false = csi_groups_loop rest gs cur n true.
Proof. apply (read_decimal (fun b acc st => csi_groups_loop b gs cur acc st)). intros b r acc st Hb. cbn [csi_groups_loop]. by rewrite digit_between. Qed.
Lemma decimal_digits_shape fuel : forall n, Forall (fun b => 48 <= b <= 57) (decimal_digits fuel n) /\ (length (decimal_digits fuel n) <= fuel)%nat.
Proof.
  induction fuel as [|fuel IH]; intros n; cbn [decimal_digits]; [split; [done|simpl; lia]|]. pose proof (digit_range n) as Hd. destruct (IH (n / 10)) as [H1 H2].
  destruct (n <? 10); [split; [by apply Forall_cons|simpl; lia]|]. rewrite length_app. split; [|simpl; lia]. apply Forall_app. split; [done|by apply Forall_cons].
Qed.
Lemma decimal_param n : Forall csi_param (decimal n) /\ len (decimal n) <= 20.
Proof.
  destruct (decimal_digits_shape 20 n) as [H1 H2]. split; [|unfold len, decimal; lia]. eapply Forall_impl; [exact H1|]. intros b [Hb1 Hb2]. unfold csi_param, between. 
  destruct (Z.leb_spec 48 b), (Z.leb_spec b 63); done || lia.
Qed.

(** *** What terminals send *)

(** The code of a button, with the modifiers held and the motion flag. *)
Definition mouse_codes : list (MouseButton * Z) :=
  [(MouseButton_Left, 0); (MouseButton_Middle, 1); (MouseButton_Right, 2); (MouseButton_Unknown, 3);
   (MouseButton_Four, 64); (MouseButton_Five, 65); (MouseButton_Six, 66); (MouseButton_Seven, 67);
   (MouseButton_Eight, 128); (MouseButton_Nine, 129); (MouseButton_Ten, 130); (MouseButton_Eleven, 131)].
Definition bit_of (mods i : Z) : Z := Z.b2z (Z.testbit mods i).
Definition mouse_code (code mods : Z) (action : MouseAction) : Z :=
  code + 4 * bit_of mods 0 + 8 * bit_of mods 2 + 16 * bit_of mods 1 + (match action with MouseAction_Motion => 32 | _ => 0 end).
(** A report of the button at the cell [(x, y)], counted from zero. *)
Definition sgr_report (code mods : Z) (action : MouseAction) (x y : Z) : bytes :=
  csi (60 :: decimal (mouse_code code mods action) ++ 59 :: decimal (x + 1) ++ 59 :: decimal (y + 1)) (match action with MouseAction_Release => 109 | _ => 77 end).
(** One, plus shift, alt, control and super; kitty adds the locks. *)
Definition xterm_code (mods : Z) : Z := 1 + bit_of mods 0 + 2 * bit_of mods 2 + 4 * bit_of mods 1 + 8 * bit_of mods 3.
Definition kitty_code (mods : Z) : Z := xterm_code mods + 64 * bit_of mods 4 + 128 * bit_of mods 5.
Definition event_code (action : KeyAction) : Z := match action with KeyAction_Press => 1 | KeyAction_Repeat => 2 | KeyAction_Release => 3 end.
Definition kitty_report (cp mods : Z) (action : KeyAction) : bytes :=
  csi (decimal cp ++ 59 :: decimal (kitty_code mods) ++ 58 :: decimal (event_code action)) 117.

Lemma finite_range (P : Z -> bool) lo n : forallb P (seqZ lo n) = true -> forall i, lo <= i < lo + n -> P i = true.
Proof. intros H i Hi. rewrite forallb_forall in H. apply H, list_elem_of_In, elem_of_seqZ. lia. Qed.
Lemma xterm_code_back mods : 0 <= mods < 16 -> xterm_modifier_code (xterm_code mods) = mods /\ 0 <= xterm_code mods <= u32_max.
Proof.
  intros H. assert (E : forallb (fun m => (xterm_modifier_code (xterm_code m) =? m) && ((0 <=? xterm_code m) && (xterm_code m <=? u32_max))) (seqZ 0 16) = true) by (vm_compute; reflexivity).
  apply (finite_range _ _ _ E mods) in H. rewrite !andb_true_iff, Z.eqb_eq, !Z.leb_le in H. tauto.
Qed.
Lemma kitty_code_back mods : 0 <= mods < 64 -> kitty_modifier_code (kitty_code mods) = mods /\ 0 <= kitty_code mods <= u32_max.
Proof.
  intros H. assert (E : forallb (fun m => (kitty_modifier_code (kitty_code m) =? m) && ((0 <=? kitty_code m) && (kitty_code m <=? u32_max))) (seqZ 0 64) = true) by (vm_compute; reflexivity).
  apply (finite_range _ _ _ E mods) in H. rewrite !andb_true_iff, Z.eqb_eq, !Z.leb_le in H. tauto.
Qed.
Lemma mouse_code_back button code mods action : (button, code) ∈ mouse_codes -> 0 <= mods < 8 ->
  let raw := mouse_code code mods action in
  0 <= raw <= u32_max /\ sgr_mouse_button raw = button /\ sgr_mouse_mods raw = mods /\ bit_set raw 0x20 = bool_decide (action = MouseAction_Motion).
Proof.
  intros Hb Hm raw.
  set (ok := fun bc m a => let raw := mouse_code (snd bc) m a in ((0 <=? raw) && (raw <=? u32_max)) && bool_decide (sgr_mouse_button raw = fst bc) && (sgr_mouse_mods raw =? m)
                             && eqb (bit_set raw 0x20) (bool_decide (a = MouseAction_Motion))).
  assert (E : forallb (fun bc => forallb (fun m => ok bc m MouseAction_Press && ok bc m MouseAction_Release && ok bc m MouseAction_Motion) (seqZ 0 8)) mouse_codes = true) by (vm_compute; reflexivity).
  rewrite forallb_forall in E. specialize (E _ (proj1 (list_elem_of_In _ _) Hb)). apply (finite_range _ _ _ E mods) in Hm.
  assert (H : ok (button, code) mods action = true) by (rewrite !andb_true_iff in Hm; destruct action; tauto). unfold ok in H. cbn [fst snd] in H. fold raw in H.
  rewrite !andb_true_iff, !Z.leb_le, bool_decide_eq_true, Z.eqb_eq, eqb_true_iff in H. tauto.
Qed.
(** A body that does not open as a mouse report. *)
Lemma dispatch_plain params final : head params <> Some 60 -> final <> 77 ->
  dispatch_csi params final = if final =? 117 then dispatch_kitty_csi_u params else dispatch_csi_keys params final.
Proof.
  intros H1 H2. assert (E : (final =? 77) && is_urxvt_body params = false) by (destruct (Z.eqb_spec final 77); done). unfold dispatch_csi. rewrite E.
  destruct params as [|b params]; [done|]. destruct b as [|b|b]; [done| |done]. repeat (destruct b as [b|b|]; try done).
Qed.
Lemma decimal_cons n : exists b bs, decimal n = b :: bs /\ 48 <= b <= 57.
Proof.
  assert (Hne : decimal n <> []) by (unfold decimal; cbn [decimal_digits]; destruct (_ ++ _) eqn:E; [by apply app_eq_nil in E as [_ E]|done]).
  destruct (decimal_digits_shape 20 n) as [H1 _]. fold (decimal n) in H1. destruct (decimal n) as [|b bs]; [done|]. apply Forall_cons in H1 as [H1 _]. eauto.
Qed.
Ltac csi_body :=
  repeat first [apply (proj1 (decimal_param _)) | apply Forall_app; split | apply Forall_cons; split; [reflexivity|] | by apply Forall_nil].

Ltac csi_len :=
  repeat match goal with |- context [decimal ?n] => lazymatch goal with H : len (decimal n) <= 20 |- _ => fail | _ => pose proof (proj2 (decimal_param n)) end end;
  unfold len in *; rewrite ?length_app; cbn [length]; rewrite ?length_app; cbn [length]; rewrite ?length_app; cbn [length]; lia.
Lemma decode_mouse button code mods action x y : (button, code) ∈ mouse_codes -> 0 <= mods < 8 -> 0 <= x < u32_max -> 0 <= y < u32_max ->
  forall p, at_ground p -> feed_into (sgr_report code mods action x y) p = (with_buf [] p, [InputEvent_Mouse (mkMouseEvent action button mods (f64_from x) (f64_from y))]).
Proof.
  intros Hb Hm Hx Hy p Hg. pose proof (mouse_code_back button code mods action Hb Hm) as (H1 & H2 & H3 & H4). set (raw := mouse_code code mods action) in *.
  unfold sgr_report. rewrite feed_csi_sequence; [|done|csi_body|csi_len|destruct action; lia|by destruct action|done]. f_equal.
  fold raw. transitivity (dispatch_sgr_mouse (decimal raw ++ 59 :: decimal (x + 1) ++ 59 :: decimal (y + 1)) (match action with MouseAction_Release => 109 | _ => 77 end)); [by destruct action|].
  unfold dispatch_sgr_mouse, parse_csi_params. rewrite params_decimal by done. cbn [csi_params_loop]. change (between 48 57 59) with false. cbv iota.
  rewrite params_decimal by lia. cbn [csi_params_loop]. change (between 48 57 59) with false. cbv iota.
  rewrite <- (app_nil_r (decimal (y + 1))), params_decimal by lia. cbn [csi_params_loop app]. unfold mouse_event. rewrite H2, H3, H4.
  assert (Es : forall n, 0 <= n -> saturating_sub (n + 1) 1 = n) by (intros n Hn; unfold saturating_sub; destruct (Z.leb_spec 1 (n + 1)); lia). rewrite !Es by lia. by destruct action.
Qed.
Lemma decode_letter letter key mods : csi_letter_keycode letter = Some key -> 0 <= mods < 16 ->
  forall p, at_ground p -> feed_into (csi (str "1;" ++ decimal (xterm_code mods)) letter) p = (with_buf [] p, [InputEvent_Key (make_named_key key mods)]).
Proof.
  intros Hk Hm p Hg. pose proof (xterm_code_back mods Hm) as [H1 H2].
  assert (Hl : 64 <= letter <= 90 /\ letter <> 77 /\ letter <> 117 /\ letter <> 126).
  { unfold csi_letter_keycode in Hk. destruct letter as [|l|l]; try done. repeat (destruct l as [l|l|]; try done; try lia). }
  rewrite feed_csi_sequence; [|done|apply Forall_app; split; [by repeat constructor|apply decimal_param]| |lia|lia|done].
  2:{ pose proof (proj2 (decimal_param (xterm_code mods))). unfold len in *. rewrite length_app. change (length (str "1;")) with 2%nat. lia. }
  f_equal. rewrite dispatch_plain by (done || lia). destruct (Z.eqb_spec letter 117); [lia|]. unfold dispatch_csi_keys. cbn -[parse_csi_params]. unfold parse_csi_params.
  change (csi_params_loop _ [] 0 false) with (csi_params_loop (decimal (xterm_code mods)) [1] 0 false). 
  rewrite <- (app_nil_r (decimal _)), params_decimal by done. cbn [csi_params_loop app]. destruct (Z.eqb_spec letter 126); [lia|]. by rewrite Hk, H1.
Qed.
Lemma decode_tilde n key mods : csi_tilde_keycode n = Some key -> 0 <= mods < 16 ->
  forall p, at_ground p -> feed_into (csi (decimal n ++ 59 :: decimal (xterm_code mods)) 126) p = (with_buf [] p, [InputEvent_Key (make_named_key key mods)]).
Proof.
  intros Hk Hm p Hg. pose proof (xterm_code_back mods Hm) as [H1 H2].
  assert (Hn : 0 <= n <= 34) by (unfold csi_tilde_keycode in Hk; destruct n as [|l|l]; try done; repeat (destruct l as [l|l|]; try done; try lia)).
  rewrite feed_csi_sequence; [|done|csi_body|csi_len|lia| |lia].
  2:{ intros _ E. assert (F : (59 : Z) ∈ str "200") by (rewrite <- E; apply elem_of_app; right; apply list_elem_of_here). cbn in F. by repeat (apply elem_of_cons in F as [F|F]; [done|]); apply elem_of_nil in F. }
  f_equal. destruct (decimal_cons n) as (b & bs & Eb & Hb). rewrite dispatch_plain by (try lia; rewrite Eb; cbn; intros [= ->]; lia). cbn [Z.eqb Pos.eqb]. unfold dispatch_csi_keys.
  assert (Em : is_private_marker b = false) by (unfold is_private_marker, between; destruct (Z.leb_spec 60 b); [lia|done]).
  set (body := decimal n ++ 59 :: decimal (xterm_code mods)). assert (Ebody : body = b :: (bs ++ 59 :: decimal (xterm_code mods))) by (unfold body; by rewrite Eb).
  rewrite Ebody. cbv zeta. rewrite Em, <- Ebody. assert (Ep : parse_csi_params body = [n; xterm_code mods]).
  { unfold body, parse_csi_params. rewrite params_decimal by (unfold u32_max; lia). cbn [csi_params_loop]. change (between 48 57 59) with false. cbv iota.
    by rewrite <- (app_nil_r (decimal (xterm_code mods))), params_decimal by done. }
  rewrite Ep. cbn -[csi_tilde_keycode xterm_modifier_code]. by rewrite Hk, H1.
Qed.
Lemma decode_kitty cp key mods action : 0 < cp <= u32_max -> kitty_keycode_to_physical cp = Some key -> 0 <= mods < 64 ->
  forall p, at_ground p -> feed_into (kitty_report cp mods action) p = (with_buf [] p, [InputEvent_Key (mkKeyEvent action key mods NONE false None (Some cp))]).
Proof.
  intros Hc Hk Hm p Hg. pose proof (kitty_code_back mods Hm) as [H1 H2]. unfold kitty_report. rewrite feed_csi_sequence; [|done|csi_body|csi_len|lia|lia|lia].
  f_equal. destruct (decimal_cons cp) as (b & bs & Eb & Hb). rewrite dispatch_plain by (try lia; rewrite Eb; cbn; intros [= ->]; lia). cbn [Z.eqb Pos.eqb]. unfold dispatch_kitty_csi_u.
  unfold parse_csi_param_groups. rewrite groups_decimal by lia. cbn [csi_groups_loop]. change (between 48 57 59) with false. change (59 =? 58) with false. cbv iota.
  rewrite groups_decimal by done. cbn [csi_groups_loop]. change (between 48 57 58) with false. change (58 =? 58) with true. cbv iota.
  rewrite <- (app_nil_r (decimal (event_code action))), groups_decimal by (destruct action; cbn; unfold u32_max; lia).
  cbn -[kitty_keycode_to_physical kitty_modifier_code Z.eqb]. destruct (Z.eqb_spec cp 0); [lia|]. rewrite Hk, H1. by destruct action.
Qed.

(** However the reads cut it, [bs] is the one event [e], and the parser is back at the ground. *)
Definition decodes (bs : bytes) (e : InputEvent) : Prop := forall reads p, at_ground p -> concat reads = bs -> feed_reads reads p = (with_buf [] p, [e]).
Lemma decodes_intro bs e : (forall p, at_ground p -> feed_into bs p = (with_buf [] p, [e])) -> decodes bs e.
Proof. intros H reads p Hg <-. rewrite feed_reads_concat. by apply H. Qed.

(** C32: Reports are decoded. A mouse report of any button, with any of shift, control and alt held, press, release or motion, at any cell, is
    the event of that button, modifiers and cell; a function key or arrow sent with any modifiers is that key with them, in both of the
    forms terminals use; a kitty report of any key of the table, with any modifiers and locks, is its press, repeat or release; however the
    reads cut it, from a parser at the ground, that is one whose input so far ended outside any sequence, string or paste. *)
Theorem reports_decode mods :
  (forall button code action x y, (button, code) ∈ mouse_codes -> 0 <= mods < 8 -> 0 <= x < u32_max -> 0 <= y < u32_max ->
     decodes (sgr_report code mods action x y) (InputEvent_Mouse (mkMouseEvent action button mods (f64_from x) (f64_from y))))
  /\ (forall letter key, csi_letter_keycode letter = Some key -> 0 <= mods < 16 ->
        decodes (csi (str "1;" ++ decimal (xterm_code mods)) letter) (InputEvent_Key (make_named_key key mods)))
  /\ (forall n key, csi_tilde_keycode n = Some key -> 0 <= mods < 16 ->
        decodes (csi (decimal n ++ 59 :: decimal (xterm_code mods)) 126) (InputEvent_Key (make_named_key key mods)))
  /\ (forall cp key action, 0 < cp <= u32_max -> kitty_keycode_to_physical cp = Some key -> 0 <= mods < 64 ->
        decodes (kitty_report cp mods action) (InputEvent_Key (mkKeyEvent action key mods NONE false None (Some cp)))).
Proof.
  split_and!; intros; apply decodes_intro; [by apply decode_mouse|by apply decode_letter|by apply decode_tilde|by apply decode_kitty].
Qed.

(** ** Keys and chords *)

(** The keys a read produced; what matters of the parser is only that it was at the ground. *)
Definition keys_of (bs : bytes) : list KeyEvent := omap (fun e => match e with InputEvent_Key k => Some k | _ => None end) (feed_into bs StdinParser_new).2.
(** What follows an escape and is no key: the openings of longer sequences. *)
Definition sequence_openers : list Z := [79; 80; 88; 91; 93; 94; 95].
Definition one_key (bs : bytes) (chord : bytes) (same : bool) : bool := match keys_of bs with [k] => eqb (chord_str_matches_event chord k) same | _ => false end.
Lemma two_ranges (P : Z -> Z -> bool) lo n lo' n' : forallb (fun i => forallb (P i) (seqZ lo' n')) (seqZ lo n) = true ->
  forall i j, lo <= i < lo + n -> lo' <= j < lo' + n' -> P i j = true.
Proof. intros H i j Hi Hj. apply (finite_range _ _ _ H) in Hi. by apply (finite_range _ _ _ Hi). Qed.
Lemma one_key_spec bs chord same : one_key bs chord same = true -> exists k, keys_of bs = [k] /\ chord_str_matches_event chord k = same.
Proof. unfold one_key. destruct (keys_of bs) as [|k [|]]; intros H; [discriminate| |discriminate]. apply eqb_prop in H. by exists k. Qed.

(** Keys match their chords. A printable character typed is one key press, which matches the chord spelled by a character exactly when
    it is the same character, capitals and shifted punctuation included; a control character other than backspace, tab and return matches
    C- and its letter and no other letter; a character after an escape matches M- and that character, unless it opens a longer sequence:
    then nothing comes out, whatever chord was bound. *)
Theorem keys_match_their_chords b c :
  33 <= b <= 126 -> 33 <= c <= 126 ->
  (exists k, keys_of [b] = [k] /\ chord_str_matches_event [c] k = (b =? c))
  /\ (97 <= b <= 122 -> 97 <= c <= 122 -> b ∉ str "him" -> exists k, keys_of [b - 96] = [k] /\ chord_str_matches_event (str "C-" ++ [c]) k = (b =? c))
  /\ (if bool_decide (b ∈ sequence_openers) then keys_of [0x1b; b] = []
      else exists k, keys_of [0x1b; b] = [k] /\ chord_str_matches_event (str "M-" ++ [c]) k = (b =? c)).
Proof.
  intros Hb Hc.
  set (check := fun b c => one_key [b] [c] (b =? c)
    && (negb (between 97 122 b && between 97 122 c) || bool_decide (b ∈ str "him") || one_key [b - 96] (str "C-" ++ [c]) (b =? c))
    && (if bool_decide (b ∈ sequence_openers) then bool_decide (length (keys_of [0x1b; b]) = O) else one_key [0x1b; b] (str "M-" ++ [c]) (b =? c))).
  assert (E : forallb (fun i => forallb (check i) (seqZ 33 94)) (seqZ 33 94) = true) by (vm_compute; reflexivity).
  pose proof (two_ranges _ _ _ _ _ E b c ltac:(lia) ltac:(lia)) as H. unfold check in H. clear E check. apply andb_true_iff in H as [[H1 H2]%andb_true_iff H3]. split_and!.
  - by apply one_key_spec.
  - intros Hb2 Hc2 Hn. apply one_key_spec. rewrite !orb_true_iff, bool_decide_eq_true in H2. destruct H2 as [[H2|H2]|H2]; [|done|done].
    unfold between in H2. destruct (Z.leb_spec 97 b), (Z.leb_spec b 122), (Z.leb_spec 97 c), (Z.leb_spec c 122); done || lia.
  - case_bool_decide; [|by apply one_key_spec]. rewrite bool_decide_eq_true in H3. by apply nil_length_inv.
Qed.

(** ** Inputs *)

Lemma typing_is_lossless_witness :
  let reads := [str "h"; [0xc3]; [0xa9; 0xe2; 0x82]; [0xac]] in
  ParserOk (feed_reads reads StdinParser_new).1
  /\ exists chars, map text_of (feed_reads reads StdinParser_new).2 = map Some chars /\ concat chars = concat reads /\ Forall a_character chars.
Proof.
  assert (H : ParserOk StdinParser_new) by (split; [done|exact I]). intros reads. destruct (typing_is_lossless reads StdinParser_new H) as [H1 H2]. split; [exact H1|].
  apply H2; [reflexivity|reflexivity|]. unfold no_controls, reads. repeat constructor; done.
Defined.
Lemma pastes_are_verbatim_witness :
  let data := [0x1b; 91; 65; 10] in
  (feed_reads [0x1b :: str "[20"; str "0~" ++ data ++ [0x1b]; str "[201~"] StdinParser_new).2 = [InputEvent_Paste (mkPasteEvent PasteTrust_Trusted data)].
Proof.
  intros data. apply (pastes_are_verbatim [0x1b :: str "[20"; str "0~" ++ data ++ [0x1b]; str "[201~"] data StdinParser_new); [reflexivity|reflexivity|].
  intros a d E. apply (f_equal (existsb (Z.eqb 126))) in E. rewrite !existsb_app in E. change (existsb (Z.eqb 126) paste_close) with true in E.
  rewrite orb_true_l, orb_true_r in E. discriminate E.
Defined.
Lemma reports_decode_witness :
  (feed_reads [csi (str "1;5") 65] StdinParser_new).2 = [InputEvent_Key (make_named_key PhysicalKey_ArrowUp CTRL)].
Proof. rewrite (proj1 (proj2 (reports_decode CTRL)) 65 PhysicalKey_ArrowUp eq_refl ltac:(unfold CTRL; lia) _ StdinParser_new); reflexivity. Defined.
Lemma keys_match_their_chords_witness : exists k, keys_of (str "Q") = [k] /\ chord_str_matches_event (str "q") k = false.
Proof. apply (keys_match_their_chords 81 113); lia. Defined.

(** Shift and tab, as terminals send it, is a tab without shift. *)
Example back_tab_is_tab : (feed_into (csi [] 90) StdinParser_new).2 = (feed_into [9] StdinParser_new).2.
Proof. reflexivity. Qed.
(** The bell that ends a string after an escape leaves a mark behind: the next string ends at its first byte, and its rest is typed. *)
Example a_string_leaks : map text_of (feed_into (0x1b :: str "]a" ++ [0x1b; 7; 0x1b] ++ str "]52") StdinParser_new).2 = [Some (str "2")].
Proof. reflexivity. Qed.
(** Alt and a bracket swallows what is typed next. *)
Example alt_bracket_swallows : (feed_into (0x1b :: str "]ls" ++ [13]) StdinParser_new).2 = [].
Proof. reflexivity. Qed.
(** A paste whose data ends in an escape is never closed. *)
Example paste_ending_in_escape :
  (feed_into (paste_open ++ str "a" ++ [0x1b] ++ paste_close ++ str "ls" ++ [13]) StdinParser_new).2 = [].
Proof. reflexivity. Qed.
