(* ===== verification/InputReplay.v ===== *)
(** * The replay journal of an attached client

    [phux-client/src/attach/input_replay.rs]: the operations a client keeps until it knows what became of them, and what it makes of a
    reconnect, a reply and a teardown. An [Instant] is a number of nanoseconds, and the clock is read by the caller. *)

From stdpp Require Import list.
From S2P Require Import Prelude Enums Ids Codec Info Command SshOrigin Frame AckInput.

(* phux-client/src/attach/input_replay.rs INPUT_RETRY_HORIZON *)
Definition INPUT_RETRY_HORIZON : Z := 600000000000.
(* phux-client/src/attach/input_replay.rs SERVER_ID_LEN *)
Definition SERVER_ID_LEN : Z := 16.

(* phux-client/src/attach/input_replay.rs PendingOp *)
Record PendingOp : Type := mkOp {
  po_id : OpId; po_terminal : ResourceId; po_events : list InputEvent; expected_server_id : option bytes; created_at : Instant; attempted : bool
}.
(* phux-client/src/attach/input_replay.rs ConnectionContext *)
Record ConnectionContext : Type := mkConn { cc_server_id : bytes; cc_in_flight : option Z }.
(* phux-client/src/attach/input_replay.rs ReplayDisposition *)
Inductive ReplayDisposition : Type := Replay_Delivered | Replay_Unknown | Replay_Refused.
#[export] Instance ReplayDisposition_eq_dec : EqDecision ReplayDisposition.
Proof. solve_decision. Defined.
(* phux-client/src/attach/input_replay.rs ReplayReport *)
Record ReplayReport : Type := mkReport { disposition : ReplayDisposition; rr_operation_id : bytes; rr_message : bytes }.
(* phux-client/src/attach/input_replay.rs InputReplayJournal *)
Record InputReplayJournal : Type := mkJournal { ops : list PendingOp; connection : option ConnectionContext }.
(* phux-client/src/attach/input_replay.rs InputReplayJournal::new *)
Definition InputReplayJournal_new : InputReplayJournal := mkJournal [] None.

Definition hex_digit (d : Z) : Z := if d <? 10 then 48 + d else 87 + d.
(* phux-client/src/agent_prompt.rs operation_id_hex *)
Definition operation_id_hex (op : OpId) : bytes := flat_map (fun b => [hex_digit (b / 16); hex_digit (b mod 16)]) op.

(* phux-client/src/attach/input_replay.rs ReplayReport::notice_line *)
Definition notice_line (r : ReplayReport) : bytes :=
  let verdict :=
    match disposition r with
    | Replay_Delivered => str "delivered"
    | Replay_Unknown => str "delivery unknown " ++ [0xe2; 0x80; 0x94] ++ str " read the pane before retyping"
    | Replay_Refused => str "not delivered " ++ [0xe2; 0x80; 0x94] ++ str " safe to retype"
    end in
  let line := str "paste " ++ verdict ++ str " (op " ++ rr_operation_id r ++ str ")" in
  match rr_message r with [] => line | m => line ++ str ": " ++ m end.

(* phux-client/src/attach/input_replay.rs strand_report *)
Definition strand_report (op : PendingOp) (why : bytes) : ReplayReport :=
  mkReport (if attempted op then Replay_Unknown else Replay_Refused) (operation_id_hex (po_id op)) why.
(* phux-client/src/attach/input_replay.rs InputReplayJournal::strand_all *)
Definition strand_all (j : InputReplayJournal) (why : bytes) : list ReplayReport * InputReplayJournal :=
  (map (fun op => strand_report op why) (ops j), mkJournal [] (connection j)).
Definition expired (now : Instant) (op : PendingOp) : bool := INPUT_RETRY_HORIZON <=? saturating_sub now (created_at op).
Definition horizon_expired : bytes := str "the acknowledged-input retry horizon expired".
(** The loop over the drained queue: the reports and what is kept. *)
(* phux-client/src/attach/input_replay.rs:353-369 InputReplayJournal::sweep *)
Fixpoint sweep_loop (now : Instant) (server_id : bytes) (queue : list PendingOp) : list ReplayReport * list PendingOp :=
  match queue with
  | [] => ([], [])
  | op :: queue =>
      let '(reports, kept) := sweep_loop now server_id queue in
      if expired now op then (strand_report op horizon_expired :: reports, kept)
      else if (match expected_server_id op with Some expected => negb (bool_decide (expected = server_id)) | None => false end)
      then (strand_report op (str "the server restarted in between") :: reports, kept)
      else (reports, op :: kept)
  end.
(* phux-client/src/attach/input_replay.rs InputReplayJournal::sweep *)
Definition sweep (now : Instant) (j : InputReplayJournal) : list ReplayReport * InputReplayJournal :=
  let server_id := match connection j with Some ctx => cc_server_id ctx | None => [] end in
  let '(reports, kept) := sweep_loop now server_id (ops j) in (reports, mkJournal kept (connection j)).

(* phux-client/src/attach/input_replay.rs InputReplayJournal::begin_connection *)
Definition begin_connection (now : Instant) (server_id : option bytes) (acknowledged_input : bool) (j : InputReplayJournal)
    : list ReplayReport * InputReplayJournal :=
  match (id ← server_id; if (len id =? SERVER_ID_LEN) && acknowledged_input then Some id else None) with
  | None =>
      let why := if acknowledged_input then str "the server did not provide a usable incarnation identity"
                 else str "the server does not support acknowledged input" in
      strand_all (mkJournal (ops j) None) why
  | Some server_id => sweep now (mkJournal (ops j) (Some (mkConn server_id None)))
  end.
(* phux-client/src/attach/input_replay.rs InputReplayJournal::active *)
Definition journal_active (j : InputReplayJournal) : bool := bool_decide (is_Some (connection j)).
(* phux-client/src/attach/input_replay.rs InputReplayJournal::connection_lost *)
Definition connection_lost (j : InputReplayJournal) : InputReplayJournal := mkJournal (ops j) None.
(** [fresh] is what [mint_operation_id] draws. *)
(* phux-client/src/attach/input_replay.rs InputReplayJournal::submit *)
Definition submit (now : Instant) (fresh : OpId) (terminal : ResourceId) (events : list InputEvent) (j : InputReplayJournal) : InputReplayJournal :=
  mkJournal (ops j ++ [mkOp fresh terminal events None now false]) (connection j).
(* phux-client/src/attach/input_replay.rs InputReplayJournal::owns *)
Definition owns (j : InputReplayJournal) (request_id : Z) : bool :=
  match connection j with Some ctx => bool_decide (cc_in_flight ctx = Some request_id) | None => false end.

Section Frames.
  Context {RJ : Info.ReportJson} {IT : SshOrigin.IpText}.
(** The loop: what is left of the queue, and the frame with the request id behind it. *)
(* phux-client/src/attach/input_replay.rs:255-286 InputReplayJournal::next_frame *)
Fixpoint next_frame_loop (now : Instant) (server_id : bytes) (request_id : Z) (queue : list PendingOp)
    : list ReplayReport * list PendingOp * option FrameKind :=
  match queue with
  | [] => ([], [], None)
  | op :: rest =>
      if expired now op then
        let '(reports, queue, frame) := next_frame_loop now server_id request_id rest in
        (strand_report op horizon_expired :: reports, queue, frame)
      else
        let op := mkOp (po_id op) (po_terminal op) (po_events op) (Some (default server_id (expected_server_id op))) (created_at op) true in
        ([], op :: rest, Some (FrameKind_Command request_id (Command_ApplyInput (po_id op) (po_terminal op) (po_events op))))
  end.
(* phux-client/src/attach/input_replay.rs InputReplayJournal::next_frame *)
Definition next_frame (now : Instant) (next_request_id : Z) (j : InputReplayJournal)
    : list ReplayReport * option FrameKind * Z * InputReplayJournal :=
  match connection j with
  | None => ([], None, next_request_id, j)
  | Some ctx =>
      if bool_decide (is_Some (cc_in_flight ctx)) then ([], None, next_request_id, j)
      else
        let '(reports, queue, frame) := next_frame_loop now (cc_server_id ctx) next_request_id (ops j) in
        match frame with
        | None => (reports, None, next_request_id, mkJournal queue (connection j))
        | Some f => (reports, Some f, (next_request_id + 1) mod 2 ^ 32, mkJournal queue (Some (mkConn (cc_server_id ctx) (Some next_request_id))))
        end
  end.
End Frames.

(* phux-client/src/attach/input_replay.rs:314-334 InputReplayJournal::resolve *)
Definition verdict (r : CommandResult) : ReplayDisposition * bytes :=
  match r with
  | CommandResult_Ok | CommandResult_OkWith _ => (Replay_Delivered, [])
  | CommandResult_Error code message =>
      (if bool_decide (code = ErrorCode_InputDeliveryUnknown) then Replay_Unknown else Replay_Refused, message)
  end.
(* phux-client/src/attach/input_replay.rs InputReplayJournal::resolve *)
Definition resolve_reply (request_id : Z) (r : CommandResult) (j : InputReplayJournal) : option ReplayReport * InputReplayJournal :=
  if negb (owns j request_id) then (None, j)
  else
    let conn := (fun ctx => mkConn (cc_server_id ctx) None) <$> connection j in
    match ops j with
    | [] => (None, mkJournal [] conn)
    | op :: rest => let '(d, message) := verdict r in (Some (mkReport d (operation_id_hex (po_id op)) message), mkJournal rest conn)
    end.
(* phux-client/src/attach/input_replay.rs InputReplayJournal::drain_unresolved *)
Definition drain_unresolved (why : bytes) (j : InputReplayJournal) : list ReplayReport * InputReplayJournal :=
  strand_all (mkJournal (ops j) None) why.
