(* ===== verification/ReplayProofs.v ===== *)
(** * A paste survives a reconnect once

    What the lane of a server promises to a client that resends, beyond [ExactlyOnce]: ids are bound no earlier than they are admitted,
    and answers are OK or errors. Then the client's journal, its connections, the frames on the wire and every incarnation of the server
    as one system of steps, and what it promises of each operation: reported once, typed at most once, and typed where it is reported
    delivered. *)

From stdpp Require Import gmap.
From S2P Require Import Prelude Wire Fields Enums Caps Codec Info Command SshOrigin Compress Instances Frame FrameDecode FrameProofs FrameRead.
From S2P Require Import IdBridge Leases ResourceTable Agent ClientTable Registry ServerState Lifecycle ServerSteps InputGate Wheel AckInput ExactlyOnce.
From S2P Require Import Ids InputReplay.

#[local] Arguments bool_decide : simpl never.

Section Lanes.
Context (debug_id : ResourceId -> bytes) (kind_text : WrongResourceKind -> bytes).
Context {RJ : Info.ReportJson} {IT : SshOrigin.IpText} (sha256 : bytes -> bytes) (would_reject : PasteEvent -> bool).
#[local] Abbreviation lane_step := (lane_step debug_id kind_text sha256 would_reject).
#[local] Abbreviation lane_run := (lane_run debug_id kind_text sha256 would_reject).

(** ** When ids are bound *)

(** Every binding is the admission of some request of its id. *)
Definition admitted_then (s : LaneState) (op : OpId) (at_ : Instant) : Prop :=
  exists rq, rq ∈ issued s /\ rq_op rq = op /\ admitted_at (rq_reservation rq) = at_.
Record Bound (s : LaneState) : Prop := mkBound {
  bd_cache : forall o e, entries (cache s) !! o = Some e -> admitted_then s o (inserted_at e);
  bd_live : forall h, h ∈ live s -> admitted_then s (h_op h) (h_bound h)
}.
Lemma admitted_mono s s' o a : (forall rq, rq ∈ issued s -> rq ∈ issued s') -> admitted_then s o a -> admitted_then s' o a.
Proof. intros H (rq & Hi & E). exists rq. auto. Qed.
Lemma bound_frame s s' : Bound s -> (forall rq, rq ∈ issued s -> rq ∈ issued s') ->
  (forall o e, entries (cache s') !! o = Some e -> exists e', entries (cache s) !! o = Some e' /\ inserted_at e' = inserted_at e) ->
  (forall h, h ∈ live s' -> h ∈ live s) -> Bound s'.
Proof.
  intros [Hc Hl] Hi He Hh. constructor.
  - intros o e E. destruct (He o e E) as (e' & E' & <-). eapply admitted_mono; [exact Hi|by apply Hc].
  - intros h H. eapply admitted_mono; [exact Hi|by apply Hl, Hh].
Qed.
Lemma bound_same s s' : Bound s -> issued s' = issued s -> cache s' = cache s -> live s' = live s -> Bound s'.
Proof. intros H Ei Ec El. apply (bound_frame s); [done|by rewrite Ei| |by rewrite El]. rewrite Ec. eauto. Qed.
Lemma bound_post s ms : Bound s -> Bound (post s ms).
Proof.
  intros H. destruct (post_fields s ms) as (_ & _ & _ & _ & Fc & _ & Fi & _ & _ & _ & _ & Fu & Fh & _).
  apply (bound_same s); try done. unfold live. by rewrite Fi, Fh.
Qed.
Lemma bound_report s t o : Bound s -> Bound (fire_sink s t o).
Proof. intros H. unfold fire_sink. apply bound_post. by apply (bound_same s). Qed.
Lemma bind_at_instant c op d a o e : entries (bind_at c op d a).2 !! o = Some e -> entries c !! o = Some e \/ (o = op /\ inserted_at e = a).
Proof.
  unfold bind_at. pose proof (prune_spec (entries c) (expiry c) a) as [Hs _]. destruct (entries (prune_expired _ _ _) !! op) as [e0|] eqn:E0.
  - destruct (negb _); cbn [snd]; intros H; left; by eapply lookup_weaken.
  - destruct (is_full _); cbn [snd]; [intros H; left; by eapply lookup_weaken|]. cbn [entries]. intros [[<- <-]|[_ H]]%lookup_insert_Some; [by right|].
    left. by eapply lookup_weaken.
Qed.
Lemma prepare_instant enc srv c rq ok o e :
  entries (prepare_acknowledged_batch debug_id kind_text sha256 would_reject enc srv c (rq_client rq) (rq_op rq) (rq_terminal rq) (rq_events rq)
             (admitted_at (rq_reservation rq)) ok).2 !! o = Some e ->
  entries c !! o = Some e \/ (o = rq_op rq /\ inserted_at e = admitted_at (rq_reservation rq)).
Proof.
  unfold prepare_acknowledged_batch. destruct (_ || _); [by left|].
  pose proof (bind_at_instant c (rq_op rq) (operation_digest sha256 (rq_op rq) (rq_terminal rq) (rq_events rq)) (admitted_at (rq_reservation rq)) o e) as H.
  destruct (bind_at _ _ _ _) as [b c']. exact H.
Qed.
Lemma bound_process s srv enc ok rq rest : in_hand s = None -> queue s = rq :: rest -> Orderly s -> Bound s ->
  Bound (process_apply_input debug_id kind_text sha256 would_reject s srv enc ok rq rest).
Proof.
  intros Hi Eq Ho Hb. destruct (o_requests _ _ Ho rq) as (Hrq & _); [rewrite Eq; set_solver|]. unfold process_apply_input.
  pose proof (prepare_instant enc srv (cache s) rq ok) as H1. pose proof (prepare_spec debug_id kind_text sha256 would_reject enc srv (cache s) rq ok) as Hp.
  destruct (prepare_acknowledged_batch _ _ _ _ _ _ _ _ _ _ _ _ _) as [res c]. cbn [snd] in H1. destruct Hp as (_ & _ & H3).
  assert (Hs1 : Bound (up_tickets (up_cache (up_queue s rest) c) (next_ticket (tickets s)))).
  { constructor; [|by apply (bd_live _ Hb)]. cbn. intros o e E. destruct (H1 o e E) as [E'|[-> ->]]; [by apply (bd_cache _ Hb)|by exists rq]. }
  destruct res as [b|r]; [|by eapply bound_same]. simpl waiter_gone. destruct (waiter_gone s) eqn:Eg; [by eapply bound_same|].
  destruct H3 as (e & Ee & _). apply (bound_post _ [Registered (mkPending (next_ticket (tickets s)) (rq_op rq) (deadline_from (now s) ACKNOWLEDGED_COMPLETION_TIMEOUT) (rq_reservation rq) (rq_client rq))]) in Hs1.
  constructor; [exact (bd_cache _ Hs1)|]. intros h Hh. 
  assert (Hcase : h ∈ live s \/ h = mkHanded (rq_op rq) (bound_of c (rq_op rq)) (next_ticket (tickets s)) (now s)).
  { unfold live, post in Hh |- *. cbn in Hh. rewrite Eg in Hh. cbn in Hh. rewrite Hi, app_nil_r. by apply elem_of_app in Hh as [Hh|Hh%list_elem_of_singleton]; [left|right]. }
  assert (Ha : forall o a, admitted_then s o a -> admitted_then (up_in_hand (post (up_tickets (up_cache (up_queue s rest) c) (next_ticket (tickets s)))
     [Registered (mkPending (next_ticket (tickets s)) (rq_op rq) (deadline_from (now s) ACKNOWLEDGED_COMPLETION_TIMEOUT) (rq_reservation rq) (rq_client rq))])
     (Some (mkInHand rq b (mkHanded (rq_op rq) (bound_of c (rq_op rq)) (next_ticket (tickets s)) (now s))))) o a).
  { intros o a. apply admitted_mono. intros x Hx. unfold post. cbn. by destruct (waiter_gone s). }
  apply Ha. destruct Hcase as [Hl| ->]; [by apply (bd_live _ Hb)|]. cbn. unfold bound_of. rewrite Ee. cbn.
  destruct (H1 _ _ Ee) as [E'|[_ ->]]; [by apply (bd_cache _ Hb)|by exists rq].
Qed.
Lemma bound_step s s' : lane_step s s' -> Orderly s -> Bound s -> Bound s'.
Proof.
  intros Hst Ho Hb. assert (Hj : forall js, Bound (up_jobs s js)) by (intros; by apply (bound_same s)).
  assert (Hw : forall mb ps g td, Bound (mkLane (now s) (in_flight s) (arriving s) (queue s) (cache s) (tickets s) (in_hand s) mb ps g td (jobs s) (issued s) (handed s) (written s) (reports s) (answered s)))
    by (intros; by apply (bound_same s)).
  assert (Hround : forall m rest, Bound (run_waiter s m rest)).
  { intros m rest. unfold run_waiter. destruct (take_expired _ _) as [ex ps]. destruct m as [[p|t o|t r|]|]; try apply Hw; destruct (pending_take _ _) as [[? ?]|]; apply Hw. }
  destruct Hst; unfold engine_services, writer_services, drop_job.
  - by apply (bound_same s).
  - unfold apply_input_admit. destruct (try_acquire _ _ _) as [[]|]; [|by apply (bound_same s)]. apply (bound_frame s); [done|cbn; set_solver|cbn; eauto|done].
  - unfold apply_input_send. destruct m; by apply (bound_same s).
  - by apply bound_process.
  - unfold process_hand_off. destruct (hand_off _ _ _ _ _ _ _ _) as [ms taken].
    assert (Hl : forall h, h ∈ handed s \/ h = ih_batch ih -> h ∈ live s) by (intros h Hh; unfold live; rewrite H, elem_of_app, list_elem_of_singleton; done).
    destruct taken.
    + assert (Hpb : Bound (post (up_in_hand s None) ms)).
      { apply bound_post. apply (bound_frame s); [done|done|eauto|]. intros h. unfold live. cbn. rewrite app_nil_r. rewrite H. set_solver. }
      destruct (post_fields (up_in_hand s None) ms) as (_ & _ & _ & _ & Fc & _ & Fi & _ & _ & _ & _ & Fu & Fh & _).
      constructor; [exact (bd_cache _ Hpb)|]. intros h Hh. unfold live in Hh. cbn in Hh. rewrite Fi, Fh in Hh. cbn in Hh. rewrite app_nil_r in Hh.
      destruct (bd_live _ Hb h) as (rq & R1 & R2 & R3).
      { apply Hl. apply elem_of_app in Hh as [Hh|Hh%list_elem_of_singleton]; [by left|by right]. }
      exists rq. cbn. rewrite Fu. done.
    + apply bound_post. apply (bound_frame s); [done|done|eauto|]. intros h. unfold live. cbn. rewrite app_nil_r. rewrite H. set_solver.
  - destruct (service_encoded_input _ _); [by apply bound_report|done].
  - destruct (service_write_request _ _) as [[o []] c]; apply bound_report; [by apply (bound_same s)|done].
  - by apply bound_report.
  - by apply bound_post.
  - apply Hround.
  - apply Hround.
  - destruct a as [op r|r|c op r]; try by apply (bound_same s). apply (bound_frame s); try done. cbn. intros o e.
    rewrite lookup_alter_Some. intros [(<- & e0 & E & ->)|[_ E]]; eauto.
Qed.
Lemma bound_run s : lane_run s -> Bound s.
Proof.
  induction 1 as [|s s' Hr IH Hst].
  - constructor; [done|]. intros h. apply not_in_nil.
  - eapply bound_step; eauto. by eapply orderly_run.
Qed.

(** ** What answers look like *)

(** The lane answers OK or an error, never a value. *)
Definition plain (r : CommandResult) : Prop := match r with CommandResult_OkWith _ => False | _ => True end.
Definition plain_message (m : WaiterMessage) : Prop := match m with Abandoned _ r => plain r | _ => True end.
Definition plain_action (a : WaiterAction) : Prop := match a with Act_SetFinal _ r | Act_Reply _ _ r => plain r | Act_Release _ => True end.
Record Plain (s : LaneState) : Prop := mkPlain {
  pl_cache : forall o e r, entries (cache s) !! o = Some e -> op_result e = Some r -> plain r;
  pl_todo : Forall plain_action (todo s);
  pl_mailbox : Forall plain_message (mailbox s);
  pl_answered : forall c o r, (c, o, r) ∈ answered s -> plain r
}.
Lemma route_plain srv client t r : with_route_input_destination debug_id kind_text srv client t = Err r -> plain r.
Proof.
  unfold with_route_input_destination. destruct (resolve_resource srv t) as [pane h| |]; [|by intros [= <-]..].
  destruct (blocked _ _ _); [by intros [= <-]|]. destruct (handle_terminal h); [done|]. by intros [= <-].
Qed.
Lemma encode_all_plain (enc : key -> TerminalInput -> option (option bytes)) pane ins acc r : encode_all enc pane ins acc = Err r -> plain r.
Proof.
  revert acc. induction ins as [|i ins IH]; intros acc; simpl; [done|].
  destruct (enc pane i) as [[b|]|]; [destruct (_ <? _); [by injection 1 as <-|apply IH]|apply IH|by injection 1 as <-].
Qed.
Lemma plain_completion o : plain (completion_result o).
Proof. by destruct o. Qed.
Lemma prepare_plain enc srv s rq ok r c : Plain s ->
  prepare_acknowledged_batch debug_id kind_text sha256 would_reject enc srv (cache s) (rq_client rq) (rq_op rq) (rq_terminal rq) (rq_events rq)
    (admitted_at (rq_reservation rq)) ok = (Err r, c) -> plain r.
Proof.
  intros Hp. unfold prepare_acknowledged_batch. destruct (_ || _); [by intros [= <- _]|].
  assert (Hb : forall r, (bind_at (cache s) (rq_op rq) (operation_digest sha256 (rq_op rq) (rq_terminal rq) (rq_events rq)) (admitted_at (rq_reservation rq))).1 = Binding_Final r -> plain r).
  { intros r'. unfold bind_at. pose proof (prune_spec (entries (cache s)) (expiry (cache s)) (admitted_at (rq_reservation rq))) as [Hs _].
    destruct (entries (prune_expired _ _ _) !! _) as [e|] eqn:E; [|by destruct (is_full _)]. destruct (negb _); [done|]. cbn. destruct (op_result e) eqn:Er; [|done].
    intros [= <-]. eapply (pl_cache _ Hp); [eapply lookup_weaken; [exact E|exact Hs]|done]. }
  destruct (bind_at _ _ _ _) as [b c']. cbn in Hb. intros [= H _]. revert H.
  destruct b as [| |r'| |]; [| |intros [= <-]; by apply Hb|by intros [= <-]|by intros [= <-]].
  all: destruct (with_route_input_destination _ _ _ _ _) eqn:Ew; [|intros [= <-]; by eapply route_plain].
  all: destruct (negb ok); [by intros [= <-]|]; destruct (existsb _ _); [by intros [= <-]|]; destruct (encode_all _ _ _ _) eqn:Ee; [done|intros [= <-]; by eapply encode_all_plain].
Qed.
Lemma plain_frame s s' : Plain s ->
  (forall o e r, entries (cache s') !! o = Some e -> op_result e = Some r -> plain r \/ exists e', entries (cache s) !! o = Some e' /\ op_result e' = Some r) ->
  Forall plain_action (todo s') -> Forall plain_message (mailbox s') -> (forall x, x ∈ answered s' -> x ∈ answered s \/ plain x.2) -> Plain s'.
Proof.
  intros Hp Hc Ht Hm Ha. constructor; try done.
  - intros o e r E Er. destruct (Hc o e r E Er) as [?|(e' & E' & Er')]; [done|by eapply (pl_cache _ Hp)].
  - intros c o r Hx. destruct (Ha _ Hx) as [H|H]; [by eapply (pl_answered _ Hp)|done].
Qed.
Lemma plain_same s s' : Plain s -> cache s' = cache s -> todo s' = todo s -> mailbox s' = mailbox s -> answered s' = answered s -> Plain s'.
Proof.
  intros Hp Ec Et Em Ea. apply (plain_frame s); [done|rewrite Ec; eauto|rewrite Et; apply Hp|rewrite Em; apply Hp|rewrite Ea; by left].
Qed.
Lemma plain_post s ms : Plain s -> Forall plain_message ms -> Plain (post s ms).
Proof.
  intros Hp Hm. unfold post. destruct (waiter_gone s); [done|]. apply (plain_frame s); [done|cbn; eauto|apply Hp| |by left].
  apply Forall_app. split; [apply Hp|done].
Qed.
Lemma plain_report s t o : Plain s -> Plain (fire_sink s t o).
Proof. intros Hp. unfold fire_sink. apply plain_post; [by apply (plain_same s)|by repeat constructor]. Qed.
Lemma plain_refuse s rq r : Plain s -> plain r -> Plain (refuse s rq r).
Proof.
  intros Hp Hr. apply (plain_frame s); [done|cbn; eauto|apply Hp|apply Hp|]. cbn. intros x [H| ->%list_elem_of_singleton]%elem_of_app; [by left|by right].
Qed.
Lemma plain_settled (f : PendingCompletion -> list WaiterAction) l : (forall p, Forall plain_action (f p)) -> Forall plain_action (concat (map f l)).
Proof. intros H. induction l as [|p l IH]; cbn; [done|]. apply Forall_app. by split. Qed.
Lemma plain_finalize p r : plain r -> Forall plain_action (finalize p r).
Proof. intros H. by repeat constructor. Qed.
Lemma plain_resolve p r : plain r -> Forall plain_action (resolve_without_writer p r).
Proof. intros H. by repeat constructor. Qed.
Lemma plain_round s m rest : Plain s -> woken s m rest -> Plain (run_waiter s m rest).
Proof.
  intros Hp Hw. unfold run_waiter. destruct (take_expired _ _) as [ex ps].
  assert (Hf : Forall plain_action (concat (map (fun p => finalize p delivery_unknown) ex))) by (apply plain_settled; intros p; by apply plain_finalize).
  assert (Hm : Forall plain_message rest /\ match m with Some x => plain_message x | None => True end).
  { pose proof (pl_mailbox _ Hp) as H. destruct m as [x|]; simpl in Hw; [rewrite Hw in H; by apply Forall_cons in H as [? ?]|by subst]. }
  destruct Hm as [Hm Hx]. assert (Hgo : forall ps' td, Forall plain_action td -> Plain (up_waiter s rest ps' td)) by (intros; apply (plain_frame s); cbn; eauto).
  destruct m as [[p|t o|t r|]|]; try by apply Hgo.
  - destruct (pending_take _ _) as [[p ps']|]; [|by apply Hgo]. apply Hgo, Forall_app. split; [done|apply plain_finalize, plain_completion].
  - destruct (pending_take _ _) as [[p ps']|]; [|by apply Hgo]. apply Hgo, Forall_app. split; [done|by apply plain_resolve].
  - apply (plain_frame s); cbn; [done|eauto| |done|by left]. apply Forall_app. split; [done|]. apply plain_settled. intros p. by apply plain_resolve.
Qed.
Lemma plain_hand_off srv client t b tk m : Forall plain_message (hand_off debug_id kind_text srv client t b tk m).1.
Proof.
  unfold hand_off. destruct (with_route_input_destination _ _ _ _ _) eqn:E.
  - destruct (negb _); [by repeat constructor|]. destruct m; by repeat constructor.
  - apply route_plain in E. by repeat constructor.
Qed.
Lemma plain_step s s' : lane_step s s' -> Plain s -> Plain s'.
Proof.
  intros Hst Hp. assert (Hj : forall js, Plain (up_jobs s js)) by (intros; by apply (plain_same s)). destruct Hst; unfold engine_services, writer_services, drop_job.
  - by apply (plain_same s).
  - unfold apply_input_admit. destruct (try_acquire _ _ _) as [[]|]; [by apply (plain_same s)|]. apply (plain_frame s); [done|cbn; eauto|apply Hp|apply Hp|].
    cbn. intros x [H'| ->%list_elem_of_singleton]%elem_of_app; [by left|by right].
  - unfold apply_input_send. destruct m; [by apply (plain_same s)| |]; (apply plain_refuse; [by apply (plain_same s)|done]).
  - unfold process_apply_input. pose proof (prepare_spec debug_id kind_text sha256 would_reject enc srv (cache s) rq ok) as Hs.
    pose proof (fun r c => prepare_plain enc srv s rq ok r c Hp) as Hr.
    destruct (prepare_acknowledged_batch _ _ _ _ _ _ _ _ _ _ _ _ _) as [res c]. destruct Hs as (_ & H2 & _).
    assert (Hs1 : Plain (up_tickets (up_cache (up_queue s rest) c) (next_ticket (tickets s)))).
    { apply (plain_frame s); [done| |apply Hp|apply Hp|by left]. cbn. intros o e r E Er. destruct (H2 o e E) as [E'|(_ & _ & E')]; [right; eauto|congruence]. }
    destruct res as [b|r]; [|apply plain_refuse; [done|by eapply Hr]]. simpl waiter_gone. destruct (waiter_gone s); [by apply plain_refuse|].
    match goal with |- Plain (up_in_hand (post ?x ?ms) _) => assert (Hpp : Plain (post x ms)) by (apply plain_post; [done|by repeat constructor]) end. by apply (plain_same _ _ Hpp).
  - unfold process_hand_off. pose proof (plain_hand_off srv (rq_client (ih_request ih)) (rq_terminal (ih_request ih)) (ih_prepared ih) (h_ticket (ih_batch ih)) m) as Hm.
    destruct (hand_off _ _ _ _ _ _ _ _) as [ms taken]. cbn in Hm.
    assert (Hpb : Plain (post (up_in_hand s None) ms)) by (apply plain_post; [by apply (plain_same s)|done]).
    destruct taken; [by apply (plain_same _ _ Hpb)|done].
  - destruct (service_encoded_input _ _); [by apply plain_report|done].
  - destruct (service_write_request _ _) as [[o []] c]; apply plain_report; [by apply (plain_same s)|done].
  - by apply plain_report.
  - apply plain_post; [done|by repeat constructor].
  - by apply plain_round.
  - by apply plain_round.
  - assert (Ha : plain_action a /\ Forall plain_action rest) by (pose proof (pl_todo _ Hp) as Ht; rewrite H in Ht; by apply Forall_cons in Ht). destruct Ha as [Ha Hr].
    destruct a as [op r|r|c op r]; (apply (plain_frame s); [done| |exact Hr|apply Hp|]); cbn; eauto.
    + intros o e r'. rewrite lookup_alter_Some. intros [(<- & e0 & E & ->)|[_ E]] Er; [left; by injection Er as <-|eauto].
    + intros x [H'| ->%list_elem_of_singleton]%elem_of_app; [by left|by right].
Qed.
Lemma plain_run s : lane_run s -> Plain s.
Proof.
  induction 1 as [|s s' Hr IH Hst]; [|by eapply plain_step]. constructor; [done|done|done|]. intros c o r H. by apply not_elem_of_nil in H.
Qed.

(** ** What only grows *)

Lemma grows_step s s' : lane_step s s' ->
  now s <= now s' /\ (forall rq, rq ∈ issued s -> rq ∈ issued s') /\ (forall x, x ∈ answered s -> x ∈ answered s') /\ (forall h, h ∈ written s -> h ∈ written s').
Proof.
  intros Hst. split_and!; [|by eapply issued_step|..]; [|intros x Hx..]; destruct Hst; try (destruct a; cbn in *; rewrite ?elem_of_app; auto with lia; fail);
    unfold apply_input_admit, apply_input_send, process_apply_input, process_hand_off, engine_services, writer_services, drop_job, fire_sink, post, run_waiter;
    repeat case_match; cbn in *; rewrite ?elem_of_app; auto with lia.
Qed.
End Lanes.

(** ** A client and its servers *)

#[local] Arguments bool_decide : simpl never.

Section World.
Context (debug_id : ResourceId -> bytes) (kind_text : WrongResourceKind -> bytes).
Context {RJ : Info.ReportJson} {IT : SshOrigin.IpText} (sha256 : bytes -> bytes) (would_reject : PasteEvent -> bool).
#[local] Abbreviation lane_step := (lane_step debug_id kind_text sha256 would_reject).
#[local] Abbreviation lane_run := (lane_run debug_id kind_text sha256 would_reject).

(** ** The system *)

(** The connection a client has, and the attempts it made on it. *)
Record Link : Type := mkLink { l_client : ClientId; l_server : bytes; l_sent : list (Z * OpId) }.
(** An attempt on its way: frames of a connection that was lost may still arrive. *)
Record Flight : Type := mkFlight { f_client : ClientId; f_server : bytes; f_op : OpId; f_terminal : ResourceId; f_events : list InputEvent }.
(** An incarnation of the server: when it came up, and its lane, whose instants count from there. *)
Record Server : Type := mkServer { born : Instant; lane : LaneState }.
(** The last four fields record what happened: what was submitted and when, what was sent to whom and when, what was reported. *)
Record World : Type := mkWorld {
  clock : Instant; journal : InputReplayJournal; request_id : Z; link : option Link; servers : gmap bytes Server; flights : list Flight;
  submitted : list (OpId * Instant); sends : list (OpId * bytes * Instant); reported : list ReplayReport
}.
Definition world_new : World := mkWorld 0 InputReplayJournal_new 1 None ∅ [] [] [] [].

Definition set_journal (w : World) (reports : list ReplayReport) (j : InputReplayJournal) (l : option Link) (rid : Z) : World :=
  mkWorld (clock w) j rid l (servers w) (flights w) (submitted w) (sends w) (reported w ++ reports).
Definition set_server (w : World) (sid : bytes) (s : Server) : World :=
  mkWorld (clock w) (journal w) (request_id w) (link w) (<[sid := s]> (servers w)) (flights w) (submitted w) (sends w) (reported w).
Definition tick (w : World) (d : Z) : World :=
  mkWorld (clock w + d) (journal w) (request_id w) (link w) ((fun s => mkServer (born s) (up_now (lane s) (now (lane s) + d))) <$> servers w)
    (flights w) (submitted w) (sends w) (reported w).
Definition submits (w : World) (op : OpId) (t : ResourceId) (events : list InputEvent) : World :=
  mkWorld (clock w) (submit (clock w) op t events (journal w)) (request_id w) (link w) (servers w) (flights w)
    (submitted w ++ [(op, clock w)]) (sends w) (reported w).
(** The next attempt, put on the wire behind its request id. *)
Definition sends_next (w : World) (l : Link) : World :=
  let '(reports, frame, rid, j) := next_frame (clock w) (request_id w) (journal w) in
  match frame with
  | Some (FrameKind_Command id (Command_ApplyInput op t events)) =>
      mkWorld (clock w) j rid (Some (mkLink (l_client l) (l_server l) (l_sent l ++ [(id, op)]))) (servers w)
        (flights w ++ [mkFlight (l_client l) (l_server l) op t events]) (submitted w) (sends w ++ [(op, l_server l, clock w)]) (reported w ++ reports)
  | _ => set_journal w reports j (link w) rid
  end.
Definition arrives (w : World) (rest : list Flight) (f : Flight) (s : Server) : World :=
  mkWorld (clock w) (journal w) (request_id w) (link w)
    (<[f_server f := mkServer (born s) (apply_input_admit (lane s) (f_client f) (f_op f) (f_terminal f) (f_events f))]> (servers w))
    rest (submitted w) (sends w) (reported w).
Definition connects (w : World) (l : Link) (offered : option bytes) (ack : bool) (rid : Z) : World :=
  let '(reports, j) := begin_connection (clock w) offered ack (journal w) in set_journal w reports j (Some l) rid.
Definition replies (w : World) (rid : Z) (r : CommandResult) : World :=
  let '(report, j) := resolve_reply rid r (journal w) in set_journal w (option_list report) j (link w) (request_id w).
Definition drains (w : World) (why : bytes) : World :=
  let '(reports, j) := drain_unresolved why (journal w) in set_journal w reports j None (request_id w).

(** [HELLO_OK] names the incarnation the client reached, or nothing it can use. *)
Definition offers (offered : option bytes) (sid : bytes) : Prop := offered = None \/ offered = Some sid.
(** An id drawn at random is nobody else's. *)
Definition unused (w : World) (op : OpId) : Prop :=
  op ∉ (submitted w).*1 /\ forall sid s rq, servers w !! sid = Some s -> rq ∈ issued (lane s) -> rq_op rq <> op.

(** Whatever the client does, whatever the wire loses, delays or reorders, whatever the servers and their other clients do. *)
Inductive world_step (w : World) : World -> Prop :=
| ws_tick d : 0 <= d -> world_step w (tick w d)
| ws_start sid : servers w !! sid = None -> world_step w (set_server w sid (mkServer (clock w) lane_new))
| ws_lane sid s ls :
    servers w !! sid = Some s -> lane_step (lane s) ls -> now ls = now (lane s) ->
    (forall rq, rq ∈ issued ls -> rq ∈ issued (lane s) \/ rq_op rq ∉ (submitted w).*1) -> world_step w (set_server w sid (mkServer (born s) ls))
| ws_submit op t events : unused w op -> sendable op t events -> world_step w (submits w op t events)
| ws_connect c sid offered ack rid : is_Some (servers w !! sid) -> offers offered sid -> world_step w (connects w (mkLink c sid []) offered ack rid)
| ws_switch l offered ack : link w = Some l -> offers offered (l_server l) -> world_step w (connects w l offered ack (request_id w))
| ws_next l : link w = Some l -> request_id w + 1 < 2 ^ 32 -> world_step w (sends_next w l)
| ws_arrive k f k' s : flights w = k ++ f :: k' -> servers w !! f_server f = Some s -> world_step w (arrives w (k ++ k') f s)
| ws_reply l rid op r s :
    link w = Some l -> (rid, op) ∈ l_sent l -> servers w !! l_server l = Some s -> (l_client l, op, r) ∈ answered (lane s) -> world_step w (replies w rid r)
| ws_lost : world_step w (set_journal w [] (connection_lost (journal w)) None (request_id w))
| ws_drain why : world_step w (drains w why).
Inductive world_run : World -> Prop :=
| world_starts : world_run world_new
| world_goes w w' : world_run w -> world_step w w' -> world_run w'.

(** ** What always holds *)

Definition hex_ids (l : list PendingOp) : list bytes := map (fun p => operation_id_hex (po_id p)) l.
(** Some server answered an attempt of an operation with this. *)
Definition told (w : World) (op : OpId) (res : CommandResult) : Prop :=
  exists sid s c, servers w !! sid = Some s /\ (c, op, res) ∈ answered (lane s).
Definition was_sent (w : World) (op : OpId) : Prop := exists sid at_, (op, sid, at_) ∈ sends w.
Definition says_ok (res : CommandResult) : Prop := match res with CommandResult_Ok | CommandResult_OkWith _ => True | CommandResult_Error _ _ => False end.
(** What stands behind a report, in terms of what was sent and what servers answered. *)
Definition borne_out (w : World) (op : OpId) (r : ReplayReport) : Prop :=
  match disposition r with
  | Replay_Delivered => exists res, told w op res /\ says_ok res
  | Replay_Refused => ~ was_sent w op \/ exists code, code <> ErrorCode_InputDeliveryUnknown /\ told w op (CommandResult_Error code (rr_message r))
  | Replay_Unknown => was_sent w op
  end.
(** A report is about an operation that has left the queue, and says what is known of it. *)
Definition report_ok (w : World) (r : ReplayReport) : Prop :=
  exists op, op ∈ (submitted w).*1 /\ rr_operation_id r = operation_id_hex op /\ op ∉ map po_id (ops (journal w)) /\ borne_out w op r.
Record Queued (w : World) (p : PendingOp) : Prop := mkQueued {
  q_submitted : (po_id p, created_at p) ∈ submitted w;
  q_sendable : sendable (po_id p) (po_terminal p) (po_events p);
  q_sent : forall sid at_, (po_id p, sid, at_) ∈ sends w -> expected_server_id p = Some sid /\ attempted p = true;
  q_attempted : attempted p = true -> was_sent w (po_id p)
}.
Record JournalOk (w : World) : Prop := mkJournalOk {
  j_ids : NoDup (submitted w).*1;
  j_past : forall op at_, (op, at_) ∈ submitted w -> at_ <= clock w;
  j_queue : forall p, p ∈ ops (journal w) -> Queued w p;
  j_nodup : NoDup (map po_id (ops (journal w)));
  j_count : map operation_id_hex (submitted w).*1 ≡ₚ map rr_operation_id (reported w) ++ hex_ids (ops (journal w));
  j_reports : forall r, r ∈ reported w -> report_ok w r
}.
(** The journal's connection is the client's, and the attempt it waits for is the front of its queue. *)
Record LinkOk (w : World) : Prop := mkLinkOk {
  k_conn : forall ctx, connection (journal w) = Some ctx -> exists l, link w = Some l /\ cc_server_id ctx = l_server l
    /\ (forall p, p ∈ ops (journal w) -> expected_server_id p = None \/ expected_server_id p = Some (l_server l))
    /\ (forall rid, cc_in_flight ctx = Some rid -> exists p rest, ops (journal w) = p :: rest /\ (rid, po_id p) ∈ l_sent l /\ attempted p = true);
  k_rids : forall l, link w = Some l -> forall rid op, (rid, op) ∈ l_sent l -> rid < request_id w;
  k_once : forall l, link w = Some l -> forall rid op op', (rid, op) ∈ l_sent l -> (rid, op') ∈ l_sent l -> op = op'
}.
Record WireOk (w : World) : Prop := mkWireOk {
  r_lanes : forall sid s, servers w !! sid = Some s -> lane_run (lane s) /\ now (lane s) = clock w - born s;
  r_sends : forall op sid at_, (op, sid, at_) ∈ sends w -> exists t0, (op, t0) ∈ submitted w /\ t0 <= at_ < t0 + INPUT_RETRY_HORIZON;
  r_same : forall op sid at_ sid' at', (op, sid, at_) ∈ sends w -> (op, sid', at') ∈ sends w -> sid = sid';
  r_flights : forall f, f ∈ flights w -> (exists at_, (f_op f, f_server f, at_) ∈ sends w) /\ sendable (f_op f) (f_terminal f) (f_events f);
  r_issued : forall sid s rq, servers w !! sid = Some s -> rq ∈ issued (lane s) -> rq_op rq ∈ (submitted w).*1 ->
    exists t0 at_, (rq_op rq, t0) ∈ submitted w /\ (rq_op rq, sid, at_) ∈ sends w /\ t0 <= admitted_at (rq_reservation rq) + born s
}.

(** *** The queue *)

Lemma expired_false now_ p : expired now_ p = false -> created_at p <= now_ -> now_ < created_at p + INPUT_RETRY_HORIZON.
Proof. unfold expired, saturating_sub. intros H%Z.leb_gt Hp. destruct (Z.leb_spec (created_at p) now_); lia. Qed.
(** What the journal gives up: each reported as stranded, the rest kept in order. *)
Definition strands (reports : list ReplayReport) (before after : list PendingOp) : Prop :=
  exists gone, before ≡ₚ gone ++ after /\ Forall2 (fun r p => exists why, r = strand_report p why) reports gone /\ (forall p, p ∈ after -> p ∈ before).
Lemma strands_all l why : strands (map (fun op => strand_report op why) l) l [].
Proof.
  exists l. rewrite app_nil_r. split; [done|]. split; [|intros p H; by apply not_elem_of_nil in H]. induction l as [|p l IH]; simpl; constructor; eauto.
Qed.
Lemma strands_cons r p reports before after : (exists why, r = strand_report p why) -> strands reports before after -> strands (r :: reports) (p :: before) after.
Proof.
  intros Hr (gone & H1 & H2 & H3). exists (p :: gone). split; [simpl; by rewrite H1|]. split; [by constructor|]. intros q Hq. right. by apply H3.
Qed.
Lemma strands_keep p reports before after : strands reports before after -> strands reports (p :: before) (p :: after).
Proof.
  intros (gone & H1 & H2 & H3). exists gone. split; [rewrite H1; by rewrite Permutation_middle|]. split; [done|]. intros q [->|Hq]%elem_of_cons; [by left|right; by apply H3].
Qed.
Lemma strands_nil l : strands [] l l.
Proof. exists []. by repeat split. Qed.
Lemma sweep_strands now_ sid l : let '(reports, kept) := sweep_loop now_ sid l in
  strands reports l kept /\ (forall p, p ∈ kept -> expected_server_id p = None \/ expected_server_id p = Some sid).
Proof.
  induction l as [|p l IH]; simpl; [split; [apply strands_nil|]; intros p H; by apply not_elem_of_nil in H|].
  destruct (sweep_loop now_ sid l) as [reports kept]. destruct IH as [IH1 IH2]. destruct (expired now_ p); [split; [apply strands_cons; eauto|done]|].
  destruct (expected_server_id p) as [e|] eqn:Ee; [|split; [by apply strands_keep|intros q [->|Hq]%elem_of_cons; auto]].
  destruct (bool_decide_reflect (e = sid)) as [->|]; cbn [negb].
  - split; [by apply strands_keep|]. intros q [->|Hq]%elem_of_cons; auto.
  - split; [apply strands_cons; eauto|done].
Qed.
Lemma begin_strands now_ offered ack j reports j' : begin_connection now_ offered ack j = (reports, j') ->
  strands reports (ops j) (ops j')
  /\ (forall ctx, connection j' = Some ctx -> offered = Some (cc_server_id ctx) /\ cc_in_flight ctx = None
        /\ forall p, p ∈ ops j' -> expected_server_id p = None \/ expected_server_id p = Some (cc_server_id ctx)).
Proof.
  unfold begin_connection. intros H. destruct (id ← offered; _) as [sid|] eqn:E.
  - assert (Eo : offered = Some sid) by (destruct offered as [id|]; [|done]; cbn in E; destruct ((len id =? _) && ack); [by injection E as ->|done]).
    unfold sweep in H. cbn [connection cc_server_id ops] in H. pose proof (sweep_strands now_ sid (ops j)) as Hs.
    destruct (sweep_loop now_ sid (ops j)) as [rs kept]. injection H as <- <-. destruct Hs as [H1 H2]. split; [done|]. cbn. intros ctx [= <-]. done.
  - injection H as <- <-. cbn. split; [apply strands_all|done].
Qed.
Lemma next_strands now_ sid rid l : let '(reports, queue, frame) := next_frame_loop now_ sid rid l in
  match frame with
  | None => queue = [] /\ strands reports l []
  | Some f => exists p rest, expired now_ p = false /\ strands reports l (p :: rest)
      /\ queue = mkOp (po_id p) (po_terminal p) (po_events p) (Some (default sid (expected_server_id p))) (created_at p) true :: rest
      /\ f = FrameKind_Command rid (Command_ApplyInput (po_id p) (po_terminal p) (po_events p))
  end.
Proof.
  induction l as [|p l IH]; simpl; [split; [done|apply strands_nil]|]. destruct (expired now_ p) eqn:Ee.
  - destruct (next_frame_loop now_ sid rid l) as [[reports queue] [f|]].
    + destruct IH as (p' & rest & H1 & H2 & H3 & H4). exists p', rest. split; [done|]. split; [|done]. apply strands_cons; [by eexists|done].
    + destruct IH as [-> IH]. split; [done|]. apply strands_cons; [by eexists|done].
  - exists p, l. repeat split; try done. apply strands_nil.
Qed.

(** *** The journal's steps *)

Lemma report_mono w w' r : (forall x, x ∈ (submitted w).*1 -> x ∈ (submitted w').*1) -> (forall op, op ∈ (submitted w).*1 -> op ∉ map po_id (ops (journal w)) -> op ∉ map po_id (ops (journal w'))) ->
  (forall op, op ∈ (submitted w).*1 -> op ∉ map po_id (ops (journal w)) -> ~ was_sent w op -> ~ was_sent w' op) ->
  (forall op, was_sent w op -> was_sent w' op) -> (forall op res, told w op res -> told w' op res) -> report_ok w r -> report_ok w' r.
Proof.
  intros Hs Hq Hn Hm Ha (op & H1 & H2 & H3 & H4). exists op. split; [by apply Hs|]. split; [done|]. split; [by apply Hq|]. unfold borne_out in *.
  destruct (disposition r); [destruct H4 as (res & H4 & ?); eauto|by apply Hm|]. destruct H4 as [H4|(code & ? & H4)]; [left; by apply Hn|right; eauto].
Qed.
Lemma hex_perm l k : l ≡ₚ k -> hex_ids l ≡ₚ hex_ids k.
Proof. intros H. unfold hex_ids. by rewrite H. Qed.
Lemma stranded_ids reports gone : Forall2 (fun r p => exists why, r = strand_report p why) reports gone -> map rr_operation_id reports = hex_ids gone.
Proof. induction 1 as [|r p rs gs [why ->] _ IH]; simpl; [done|by rewrite IH]. Qed.
Lemma journal_strands w reports j l rid : JournalOk w -> strands reports (ops (journal w)) (ops j) -> JournalOk (set_journal w reports j l rid).
Proof.
  intros [Ji Jp Jq Jn Jc Jr] (gone & G1 & G2 & G3).
  assert (Hn : NoDup (map po_id gone ++ map po_id (ops j))) by (rewrite <- map_app; by rewrite <- G1). pose proof Hn as (_ & Hd & Hnj)%NoDup_app.
  constructor; cbn [set_journal submitted sends clock journal reported]; try done.
  - intros p Hp. destruct (Jq p (G3 p Hp)) as [Q1 Q2 Q3 Q4]. by constructor.
  - rewrite Jc, map_app, (stranded_ids _ _ G2), <- app_assoc. apply Permutation_app; [done|]. unfold hex_ids. rewrite <- map_app. by rewrite G1.
  - intros r [Hr|Hr]%elem_of_app.
    + eapply report_mono; [..|by apply Jr]; try done. cbn. intros op _ Hop Hin. apply Hop. apply list_elem_of_fmap in Hin as (p & -> & Hp). apply elem_map. by apply G3.
    + apply list_elem_of_lookup in Hr as [i Hi]. destruct (Forall2_lookup_l _ _ _ _ _ G2 Hi) as (p & Hp & why & ->).
      assert (Hin : p ∈ gone) by (by eapply list_elem_of_lookup_2). assert (Hq : p ∈ ops (journal w)) by (rewrite G1; apply elem_of_app; by left).
      destruct (Jq p Hq) as [Q1 Q2 Q3 Q4]. exists (po_id p).
      split; [by apply (elem_map fst) in Q1|]. split; [done|]. split; [cbn; apply Hd; by apply elem_map|].
      unfold borne_out. cbn. destruct (attempted p) eqn:Ea; [by apply Q4|]. left. intros (sid & at_ & Hs). destruct (Q3 sid at_ Hs). congruence.
Qed.
Lemma journal_same w w' : JournalOk w -> journal w' = journal w -> submitted w' = submitted w -> sends w' = sends w -> reported w' = reported w ->
  clock w <= clock w' -> (forall op res, told w op res -> told w' op res) -> JournalOk w'.
Proof.
  intros [Ji Jp Jq Jn Jc Jr] Ej Es El Er Hc Ha. constructor; rewrite ?Ej, ?Es, ?Er; try done.
  - intros op at_ H. specialize (Jp op at_ H). lia.
  - intros p Hp. destruct (Jq p Hp) as [Q1 Q2 Q3 Q4]. constructor; unfold was_sent in *; rewrite ?Es, ?El; done.
  - intros r Hr. eapply report_mono; [..|by apply Jr]; rewrite ?Ej, ?Es; try done; unfold was_sent; by rewrite El.
Qed.
Lemma journal_submit w op t events : JournalOk w -> unused w op -> sendable op t events -> (forall sid at_, (op, sid, at_) ∉ sends w) -> JournalOk (submits w op t events).
Proof.
  intros [Ji Jp Jq Jn Jc Jr] [Hu _] Hs Hns. constructor; cbn [submits submitted sends clock journal reported submit ops].
  - rewrite fmap_app. apply NoDup_app. split; [done|]. split; [|by apply NoDup_singleton]. intros x Hx Hin%list_elem_of_singleton. by subst.
  - intros o at_ [H|H%list_elem_of_singleton]%elem_of_app; [by apply (Jp o)|]. injection H as -> ->. lia.
  - intros p [H|H%list_elem_of_singleton]%elem_of_app.
    + destruct (Jq p H) as [Q1 Q2 Q3 Q4]. constructor; try done. cbn. apply elem_of_app. by left.
    + subst p. constructor; cbn; [apply elem_of_app; right; by apply list_elem_of_singleton|done| |done]. intros sid at_ H. by apply Hns in H.
  - rewrite map_app. cbn. apply NoDup_app. split; [done|]. split; [|by apply NoDup_singleton]. intros x Hx Hin%list_elem_of_singleton. subst.
    apply list_elem_of_fmap in Hx as (p & -> & Hp). apply Hu. destruct (Jq p Hp) as [Q1 _ _]. by apply (elem_map fst) in Q1.
  - rewrite fmap_app, map_app. unfold hex_ids. rewrite map_app, app_assoc. cbn. by rewrite Jc.
  - intros r Hr. eapply report_mono; [..|by apply Jr]; cbn; try done.
    + intros x. rewrite fmap_app, elem_of_app. by left.
    + intros o Ho Hn. rewrite map_app, elem_of_app. intros [?|E%list_elem_of_singleton]; [done|]. by subst.
Qed.
Lemma journal_next w l : JournalOk w -> LinkOk w -> link w = Some l -> JournalOk (sends_next w l).
Proof.
  intros Hj Hk Hl. unfold sends_next, next_frame. destruct (connection (journal w)) as [ctx|] eqn:Ec; [|by apply journal_strands; [done|apply strands_nil]].
  case_bool_decide; [by apply journal_strands; [done|apply strands_nil]|]. pose proof (next_strands (clock w) (cc_server_id ctx) (request_id w) (ops (journal w))) as Hn.
  destruct (next_frame_loop _ _ _ _) as [[reports queue] frame]. destruct frame as [f|]; [|destruct Hn as [-> Hn]; by apply journal_strands].
  destruct Hn as (p & rest & H1 & H2 & H3 & ->).
  assert (Hw : JournalOk (set_journal w reports (mkJournal (p :: rest) None) (link w) (request_id w))) by (by apply journal_strands).
  destruct (k_conn _ Hk ctx Ec) as (l' & El' & Es & Hs & _). rewrite Hl in El'. injection El' as <-.
  assert (Hpe : expected_server_id p = None \/ expected_server_id p = Some (l_server l)) by (apply Hs; destruct H2 as (g & _ & _ & G); apply G; by left).
  destruct Hw as [Ji Jp Jq Jn Jc Jr]. cbn [set_journal submitted sends clock journal reported ops] in *.
  constructor; cbn [submitted sends clock journal reported ops]; try done.
  - intros q Hq. rewrite H3 in Hq. apply elem_of_cons in Hq as [->|Hq].
    + destruct (Jq p) as [Q1 Q2 Q3 Q4]; [by left|]. constructor; cbn in *; try done; [intros sid at_ [Hin|Hin%list_elem_of_singleton]%elem_of_app|].
      * destruct (Q3 _ _ Hin) as [-> _]. cbn. done.
      * injection Hin as -> ->. split; [|done]. f_equal. rewrite Es. by destruct Hpe as [-> | ->].
      * intros _. eexists _, _. apply elem_of_app. right. by apply list_elem_of_singleton.
    + destruct (Jq q) as [Q1 Q2 Q3 Q4]; [by right|].
      constructor; cbn in *; try done; [|intros Ha; destruct (Q4 Ha) as (sid & at_ & Hin); exists sid, at_; apply elem_of_app; by left].
      intros sid at_ [Hin|Hin%list_elem_of_singleton]%elem_of_app; [by apply (Q3 _ at_)|].
      exfalso. injection Hin as E -> ->. apply NoDup_cons in Jn as [Jn _]. apply Jn. rewrite <- E. by apply elem_map.
  - rewrite H3. exact Jn.
  - rewrite H3. exact Jc.
  - intros r Hr. destruct (Jr r Hr) as (op & R1 & R2 & R3 & R4). exists op. split; [done|]. split; [done|]. cbn in R3 |- *. rewrite H3. split; [done|].
    unfold borne_out in *. destruct (disposition r); [done|destruct R4 as (sid & at_ & Hin); exists sid, at_; apply elem_of_app; by left|].
    destruct R4 as [R4|R4]; [left|right; exact R4]. intros (sid & at_ & [Hin|Hin%list_elem_of_singleton]%elem_of_app); [apply R4; by exists sid, at_|].
    injection Hin as -> _ _. apply R3. by left.
Qed.
Lemma journal_reply w rid r l op s : JournalOk w -> LinkOk w -> link w = Some l -> (rid, op) ∈ l_sent l -> servers w !! l_server l = Some s ->
  (l_client l, op, r) ∈ answered (lane s) -> JournalOk (replies w rid r).
Proof.
  intros Hj Hk Hl Hin Hs Ha. unfold replies, resolve_reply. destruct (owns (journal w) rid) eqn:Eo; cbn [negb]; [|apply journal_strands; [done|apply strands_nil]].
  unfold owns in Eo. destruct (connection (journal w)) as [ctx|] eqn:Ec; [|done]. apply bool_decide_eq_true in Eo.
  destruct (k_conn _ Hk ctx Ec) as (l' & El' & _ & _ & Hfront). rewrite Hl in El'. injection El' as <-. destruct (Hfront rid Eo) as (p & rest & Ep & Hp & Hatt).
  rewrite Ep. destruct (verdict r) as [d m] eqn:Ev. cbn [option_list].
  assert (E : op = po_id p) by (by eapply (k_once _ Hk)).
  destruct Hj as [Ji Jp Jq Jn Jc Jr]. rewrite Ep in *. constructor; cbn [set_journal submitted sends clock journal reported ops]; try done.
  - intros q Hq. destruct (Jq q) as [Q1 Q2 Q3 Q4]; [by right|]. by constructor.
  - by apply NoDup_cons in Jn as [_ ?].
  - rewrite Jc, map_app, <- app_assoc. done.
  - apply NoDup_cons in Jn as [Jn _]. intros x [Hx|Hx%list_elem_of_singleton]%elem_of_app.
    + eapply report_mono; [..|by apply Jr]; cbn; try done. rewrite Ep. intros o _ Ho Hin'. apply Ho. by right.
    + subst x. exists (po_id p). split; [destruct (Jq p) as [Q1 _ _]; [by left|]; by apply (elem_map fst) in Q1|]. split; [done|]. split; [done|].
      assert (Htold : told w (po_id p) r) by (exists (l_server l), s, (l_client l); by rewrite <- E).
      assert (Hsent : was_sent w (po_id p)) by (destruct (Jq p) as [_ _ _ Q4]; [by left|]; by apply Q4).
      unfold borne_out. destruct r as [|v|code text]; cbn in Ev; [injection Ev as <- <-; eexists; by split..|]. cbn.
      case_bool_decide as Hc; injection Ev as <- <-; [done|]. right. by exists code.
Qed.

(** *** The connection's steps *)

Lemma link_same w w' : LinkOk w -> journal w' = journal w -> link w' = link w -> request_id w' = request_id w -> LinkOk w'.
Proof. intros [K1 K2 K3] Ej El Er. constructor; rewrite ?Ej, ?El, ?Er; done. Qed.
Lemma link_off w' : connection (journal w') = None -> link w' = None -> LinkOk w'.
Proof. intros Ec El. constructor; rewrite ?Ec, ?El; done. Qed.
Lemma link_submit w op t events : LinkOk w -> LinkOk (submits w op t events).
Proof.
  intros [K1 K2 K3]. constructor; try done. cbn. intros ctx Hc. destruct (K1 ctx Hc) as (l & H1 & H2 & H3 & H4). exists l. split; [done|]. split; [done|]. split.
  - intros p [Hp| ->%list_elem_of_singleton]%elem_of_app; [by apply H3|by left].
  - intros rid Hr. destruct (H4 rid Hr) as (p & rest & -> & Hp). by eexists _, _.
Qed.
Lemma link_begin w l offered ack rid : offers offered (l_server l) -> (forall id op, (id, op) ∈ l_sent l -> id < rid) ->
  (forall id op op', (id, op) ∈ l_sent l -> (id, op') ∈ l_sent l -> op = op') -> LinkOk (connects w l offered ack rid).
Proof.
  intros Ho H1 H2. unfold connects. destruct (begin_connection _ _ _ _) as [reports j] eqn:Eb. destruct (begin_strands _ _ _ _ _ _ Eb) as [_ Hc].
  constructor; cbn [set_journal journal link request_id].
  - intros ctx Ec. destruct (Hc ctx Ec) as (Eo & Ei & Hq). exists l. split; [done|]. assert (Es : cc_server_id ctx = l_server l) by (destruct Ho as [Ho|Ho]; [congruence|congruence]).
    rewrite <- Es. split; [done|]. split; [done|]. rewrite Ei. done.
  - intros l' [= <-]. done.
  - intros l' [= <-]. done.
Qed.
Lemma link_next w l : LinkOk w -> link w = Some l -> request_id w + 1 < 2 ^ 32 -> LinkOk (sends_next w l).
Proof.
  intros Hk Hl Hr. unfold sends_next, next_frame. destruct (connection (journal w)) as [ctx|] eqn:Ec; [|by apply (link_same w)].
  case_bool_decide; [by apply (link_same w)|]. pose proof (next_strands (clock w) (cc_server_id ctx) (request_id w) (ops (journal w))) as Hn.
  destruct (k_conn _ Hk ctx Ec) as (l' & El' & Es & Hs & Hfr). rewrite Hl in El'. injection El' as <-.
  destruct (next_frame_loop _ _ _ _) as [[reports queue] frame]. destruct frame as [f|].
  - destruct Hn as (p & rest & H1 & H2 & H3 & ->). assert (H0 : forall i op, (i, op) ∈ l_sent l -> i < request_id w) by (by apply (k_rids _ Hk)).
    destruct H2 as (g & _ & _ & Hg). constructor; cbn [journal link request_id connection ops].
    + intros c [= <-]. eexists. split; [done|]. cbn. split; [done|]. split.
      * intros q Hq. rewrite H3 in Hq. apply elem_of_cons in Hq as [->|Hq]; [cbn; right; rewrite Es; destruct (Hs p (Hg _ (list_elem_of_here _ _))) as [-> | ->]; done|].
        apply Hs, Hg. by right.
      * intros rid [= <-]. rewrite H3. eexists _, rest. split; [done|]. cbn. split; [|done]. apply elem_of_app. right. by apply list_elem_of_singleton.
    + intros l' [= <-] i op. cbn [l_sent].
      assert (Hpos : 0 <= request_id w + 1 \/ request_id w + 1 < 0) by lia. intros [Hin|[= -> ->]%list_elem_of_singleton]%elem_of_app; [specialize (H0 _ _ Hin)|].
      * destruct (Z.lt_ge_cases (request_id w + 1) 0); [rewrite Z.mod_eq by lia; pose proof (Z.div_lt_upper_bound (request_id w + 1) (2 ^ 32) 0); lia|]. rewrite Z.mod_small by lia. lia.
      * destruct (Z.lt_ge_cases (request_id w + 1) 0); [pose proof (Z.mod_pos_bound (request_id w + 1) (2 ^ 32)); lia|]. rewrite Z.mod_small by lia. lia.
    + intros l' [= <-] i op op'. cbn [l_sent]. rewrite !elem_of_app, !list_elem_of_singleton.
      intros [Ha|Ha] [Hb|Hb]; [by eapply (k_once _ Hk)|injection Hb as -> ->; specialize (H0 _ _ Ha); lia|injection Ha as -> ->; specialize (H0 _ _ Hb); lia|congruence].
  - destruct Hn as [-> (g & _ & _ & Hg)]. constructor; cbn [set_journal journal link request_id connection ops]; [|apply Hk..].
    intros c [= <-]. exists l. split; [done|]. split; [done|]. split; [intros p Hp; by apply not_elem_of_nil in Hp|].
    intros rid Hrid. destruct (cc_in_flight ctx); [|done]. by destruct H.
Qed.
Lemma link_reply w rid r : LinkOk w -> LinkOk (replies w rid r).
Proof.
  intros Hk. unfold replies, resolve_reply. destruct (owns (journal w) rid); cbn [negb]; [|by apply (link_same w)].
  assert (Hgo : forall rest, (forall p, p ∈ rest -> p ∈ ops (journal w)) -> forall reports,
    LinkOk (set_journal w reports (mkJournal rest ((fun ctx => mkConn (cc_server_id ctx) None) <$> connection (journal w))) (link w) (request_id w))).
  { intros rest Hrest reports. constructor; cbn [set_journal journal link request_id connection ops]; [|apply Hk..].
    intros c Hc. destruct (connection (journal w)) as [ctx|] eqn:Ec; [|done]. injection Hc as <-. destruct (k_conn _ Hk ctx Ec) as (l & H1 & H2 & H3 & _).
    exists l. split; [done|]. split; [done|]. split; [|done]. intros p Hp. by apply H3, Hrest. }
  destruct (ops (journal w)) as [|p rest] eqn:Ep; [apply Hgo; intros p Hp; by apply not_elem_of_nil in Hp|]. destruct (verdict r) as [d m]. apply Hgo. intros q Hq. by right.
Qed.

(** *** The servers' steps *)

Lemma answers_grow w w' : (forall sid s, servers w !! sid = Some s -> exists s', servers w' !! sid = Some s' /\ forall x, x ∈ answered (lane s) -> x ∈ answered (lane s')) ->
  forall op res, told w op res -> told w' op res.
Proof. intros H op res (sid & s & c & H1 & H2). destruct (H sid s H1) as (s' & H4 & H5). exists sid, s', c. auto. Qed.
Lemma answers_set w sid s ls : servers w !! sid = Some s -> (forall x, x ∈ answered (lane s) -> x ∈ answered (lane ls)) ->
  forall op res, told w op res -> told (set_server w sid ls) op res.
Proof.
  intros Hs Ha. apply answers_grow. intros sid' s' Hs'. cbn. destruct (decide (sid = sid')) as [<-|Hn]; [|rewrite lookup_insert_ne by done; eauto].
  rewrite lookup_insert_eq. rewrite Hs in Hs'. injection Hs' as <-. eauto.
Qed.
(** Where the frames, the sends and the submissions grow, and the servers stay. *)
Lemma wire_frame w w' : WireOk w -> clock w' = clock w -> servers w' = servers w -> (forall f, f ∈ flights w' -> f ∈ flights w) ->
  submitted w' = submitted w -> sends w' = sends w -> WireOk w'.
Proof.
  intros [R1 R2 R3 R4 R5] Ec Es Hf Eb El. constructor; rewrite ?Ec, ?Es, ?Eb, ?El; try done. intros f H. rewrite ?El. by apply R4, Hf.
Qed.
Lemma wire_tick w d : 0 <= d -> WireOk w -> WireOk (tick w d).
Proof.
  intros Hd [R1 R2 R3 R4 R5]. constructor; try done; cbn [tick servers clock].
  - intros sid s Hs. rewrite lookup_fmap in Hs. destruct (servers w !! sid) as [s0|] eqn:E; [|done]. injection Hs as <-. destruct (R1 sid s0 E) as [H1 H2]. cbn.
    split; [|lia]. eapply lane_goes; [exact H1|]. by constructor.
  - intros sid s rq Hs. rewrite lookup_fmap in Hs. destruct (servers w !! sid) as [s0|] eqn:E; [|done]. injection Hs as <-. cbn. by apply R5.
Qed.
Lemma wire_server w sid s ls : WireOk w -> servers w !! sid = Some s -> lane_step (lane s) ls -> now ls = now (lane s) ->
  (forall rq, rq ∈ issued ls -> rq_op rq ∈ (submitted w).*1 -> rq ∈ issued (lane s)
     \/ exists t0 at_, (rq_op rq, t0) ∈ submitted w /\ (rq_op rq, sid, at_) ∈ sends w /\ t0 <= admitted_at (rq_reservation rq) + born s) ->
  WireOk (set_server w sid (mkServer (born s) ls)).
Proof.
  intros [R1 R2 R3 R4 R5] Hs Hst Hnow Hi. constructor; try done; cbn [set_server servers clock].
  - intros sid' s' [[<- <-]|[_ H]]%lookup_insert_Some; [|by apply (R1 sid')]. cbn. destruct (R1 _ _ Hs) as [H1 H2]. split; [by eapply lane_goes|lia].
  - intros sid' s' rq [[<- <-]|[_ H]]%lookup_insert_Some Hrq Hop; [|by apply (R5 sid' s')]. cbn in *. destruct (Hi rq Hrq Hop) as [?|?]; [by apply (R5 sid s)|done].
Qed.
Lemma admit_issued s c op t events rq : rq ∈ issued (apply_input_admit s c op t events) -> rq ∈ issued s \/ (rq_op rq = op /\ admitted_at (rq_reservation rq) = now s).
Proof.
  unfold apply_input_admit, try_acquire. case_bool_decide; [by left|]. cbn. intros [?| ->%list_elem_of_singleton]%elem_of_app; [by left|by right].
Qed.
Lemma admit_answers s c op t events x : x ∈ answered s -> x ∈ answered (apply_input_admit s c op t events).
Proof. intros H. unfold apply_input_admit, try_acquire. case_bool_decide; cbn; [apply elem_of_app; by left|done]. Qed.
Lemma wire_next w l : WireOk w -> JournalOk w -> LinkOk w -> link w = Some l -> WireOk (sends_next w l).
Proof.
  intros Hw Hj Hk Hl. unfold sends_next, next_frame. destruct (connection (journal w)) as [ctx|] eqn:Ec; [|by apply (wire_frame w)].
  case_bool_decide; [by apply (wire_frame w)|]. pose proof (next_strands (clock w) (cc_server_id ctx) (request_id w) (ops (journal w))) as Hn.
  destruct (k_conn _ Hk ctx Ec) as (l' & El' & Es & Hs & _). rewrite Hl in El'. injection El' as <-.
  destruct (next_frame_loop _ _ _ _) as [[reports queue] frame]. destruct frame as [f|]; [|by apply (wire_frame w)].
  destruct Hn as (p & rest & H1 & (g & _ & _ & Hg) & H3 & ->). specialize (Hg p (list_elem_of_here _ _)). destruct (j_queue _ Hj p Hg) as [Q1 Q2 Q3 Q4].
  destruct Hw as [R1 R2 R3 R4 R5]. constructor; cbn [sends submitted servers flights clock]; try done.
  - intros op sid at_ [Hin|[= -> -> ->]%list_elem_of_singleton]%elem_of_app; [by apply (R2 _ sid)|]. exists (created_at p). split; [done|].
    pose proof (j_past _ Hj _ _ Q1). pose proof (expired_false _ _ H1). lia.
  - assert (Hsame : forall sid at_, (po_id p, sid, at_) ∈ sends w -> sid = l_server l).
    { intros sid at_ Hin. destruct (Q3 _ _ Hin) as [E _]. destruct (Hs p Hg) as [E'|E']; congruence. }
    intros op sid at_ sid' at'. rewrite !elem_of_app, !list_elem_of_singleton. intros [Ha|[= -> -> ->]] [Hb|Hb].
    + by eapply R3.
    + injection Hb as -> -> ->. by apply (Hsame _ at_).
    + symmetry. by apply (Hsame _ at').
    + by injection Hb as -> ->.
  - intros f [Hf| ->%list_elem_of_singleton]%elem_of_app.
    + destruct (R4 f Hf) as [[at_ Ha] Hb]. split; [|done]. exists at_. apply elem_of_app. by left.
    + cbn. split; [|done]. exists (clock w). apply elem_of_app. right. by apply list_elem_of_singleton.
  - intros sid s rq H5 H6 H7. destruct (R5 sid s rq H5 H6 H7) as (t0 & at_ & A1 & A2 & A3). exists t0, at_. split; [done|]. split; [apply elem_of_app; by left|done].
Qed.
Lemma wire_submit w op t events : WireOk w -> unused w op -> WireOk (submits w op t events).
Proof.
  intros [R1 R2 R3 R4 R5] [Hu Hl]. constructor; cbn [submits sends submitted servers flights clock]; try done.
  - intros o sid at_ H. destruct (R2 o sid at_ H) as (t0 & H1 & H2). exists t0. split; [apply elem_of_app; by left|done].
  - intros sid s rq Hs Hrq. rewrite fmap_app, elem_of_app. intros [H|H%list_elem_of_singleton]; [|by destruct (Hl sid s rq Hs Hrq)].
    destruct (R5 sid s rq Hs Hrq H) as (t0 & at_ & A1 & A2). exists t0, at_. split; [apply elem_of_app; by left|done].
Qed.

Record WorldOk (w : World) : Prop := mkWorldOk { ok_journal : JournalOk w; ok_link : LinkOk w; ok_wire : WireOk w }.
Lemma begin_ok w l offered ack rid : WorldOk w -> offers offered (l_server l) -> (forall id op, (id, op) ∈ l_sent l -> id < rid) ->
  (forall id op op', (id, op) ∈ l_sent l -> (id, op') ∈ l_sent l -> op = op') -> WorldOk (connects w l offered ack rid).
Proof.
  intros [Hj Hk Hw] Ho H1 H2. constructor; [|by apply link_begin|].
  - unfold connects. destruct (begin_connection _ _ _ _) as [reports j] eqn:Eb. apply journal_strands; [done|]. by apply (begin_strands _ _ _ _ _ _ Eb).
  - unfold connects. destruct (begin_connection _ _ _ _) as [reports j]. by apply (wire_frame w).
Qed.
Lemma drain_ok w why : WorldOk w -> WorldOk (drains w why).
Proof. intros [Hj Hk Hw]. constructor; [apply journal_strands; [done|apply strands_all]|by apply link_off|by apply (wire_frame w)]. Qed.
Lemma fresh_server w sid : WorldOk w -> servers w !! sid = None -> WorldOk (set_server w sid (mkServer (clock w) lane_new)).
Proof.
  intros [Hj Hk [R1 R2 R3 R4 R5]] Hn. constructor; [|by apply (link_same w)|].
  - apply (journal_same w); try done. apply answers_grow. intros sid' s Hs. exists s. split; [|done]. cbn. by rewrite lookup_insert_ne by congruence.
  - constructor; try done; cbn.
    + intros sid' s [[<- <-]|[_ H]]%lookup_insert_Some; [|by apply (R1 sid')]. cbn. split; [constructor|lia].
    + intros sid' s rq [[<- <-]|[_ H]]%lookup_insert_Some; [cbn; intros Hin; by apply not_elem_of_nil in Hin|by apply (R5 sid')].
Qed.
Lemma server_ok w sid s ls : WorldOk w -> servers w !! sid = Some s -> lane_step (lane s) ls -> now ls = now (lane s) ->
  (forall rq, rq ∈ issued ls -> rq_op rq ∈ (submitted w).*1 -> rq ∈ issued (lane s)
     \/ exists t0 at_, (rq_op rq, t0) ∈ submitted w /\ (rq_op rq, sid, at_) ∈ sends w /\ t0 <= admitted_at (rq_reservation rq) + born s) ->
  WorldOk (set_server w sid (mkServer (born s) ls)).
Proof.
  intros [Hj Hk Hw] Hs Hst Hn Hi. constructor; [|by apply (link_same w)|by apply wire_server].
  apply (journal_same w); try done. apply (answers_set w sid s); [done|]. by apply (grows_step debug_id kind_text sha256 would_reject) in Hst as (_ & _ & ? & _).
Qed.
Lemma arrive_ok w k f k' s : WorldOk w -> flights w = k ++ f :: k' -> servers w !! f_server f = Some s -> WorldOk (arrives w (k ++ k') f s).
Proof.
  intros Hok Ef Hs. pose proof Hok as [Hj Hk Hw]. destruct (r_flights _ Hw f) as [[at_ Ha] Hsd]; [rewrite Ef; set_solver|].
  destruct (r_sends _ Hw _ _ _ Ha) as (t0 & Ht & _). pose proof (j_past _ Hj _ _ Ht) as Hp. destruct (r_lanes _ Hw _ _ Hs) as [_ Hn].
  assert (H : WorldOk (set_server w (f_server f) (mkServer (born s) (apply_input_admit (lane s) (f_client f) (f_op f) (f_terminal f) (f_events f))))).
  { apply server_ok; [done|done|by constructor| |].
    - unfold apply_input_admit. by destruct (try_acquire _ _ _) as [[]|].
    - intros rq Hrq _. destruct (admit_issued _ _ _ _ _ _ Hrq) as [?|[-> ->]]; [by left|right]. exists t0, at_. split; [done|]. split; [done|]. lia. }
  destruct H as [Hj' Hk' Hw']. constructor; [by eapply journal_same; [exact Hj'|..]|by eapply link_same; [exact Hk'|..]|].
  eapply wire_frame; [exact Hw'|done|done| |done|done]. cbn. intros g. rewrite Ef. set_solver.
Qed.
Lemma world_step_ok w w' : world_step w w' -> WorldOk w -> WorldOk w'.
Proof.
  intros Hst Hok. pose proof Hok as [Hj Hk Hw]. destruct Hst as [d Hd|sid Hn|sid s ls Hs Hl Hn Hi|op t events Hu Hs|c sid offered ack rid Hs Ho|l offered ack Hl Ho|l Hl Hr|k f k' s Hf Hs|l rid op r s Hl Hin Hs Ha| |why].
  - constructor; [|by apply (link_same w)|by apply wire_tick]. apply (journal_same w); try done; [cbn; lia|]. apply answers_grow. intros sid s Hs. cbn. rewrite lookup_fmap, Hs. by eexists.
  - by apply fresh_server.
  - apply server_ok; [done|done|done|done|]. intros rq Hrq Hop. left. destruct (Hi rq Hrq) as [?|Hn']; [done|by destruct Hn'].
  - assert (Hns : forall sid at_, (op, sid, at_) ∉ sends w) by (intros sid at_ H; destruct (r_sends _ Hw _ _ _ H) as (t0 & Ht & _); apply Hu; by apply (elem_map fst) in Ht).
    constructor; [by apply journal_submit|by apply link_submit|by apply wire_submit].
  - apply begin_ok; [done|done|cbn..]; intros id op; [|intros op']; intros H; by apply not_elem_of_nil in H.
  - apply begin_ok; [done|done|by apply (k_rids _ Hk)|by apply (k_once _ Hk)].
  - constructor; [by apply journal_next|by apply link_next|by apply wire_next].
  - by apply arrive_ok.
  - constructor; [by eapply journal_reply|by apply link_reply|]. unfold replies. destruct (resolve_reply _ _ _). by apply (wire_frame w).
  - constructor; [|by apply link_off|by apply (wire_frame w)]. apply journal_strands; [done|apply strands_nil].
  - by apply drain_ok.
Qed.
Lemma world_run_ok w : world_run w -> WorldOk w.
Proof.
  induction 1 as [|w w' _ IH Hst]; [|by eapply world_step_ok]. constructor; constructor; try done; try (intros; by set_solver).
  - constructor.
  - constructor.
Qed.

(** ** What a paste is promised *)

(** A batch written on some server was sent to that server, and bound no earlier than it was submitted. *)
Lemma written_sent w sid s h : WorldOk w -> servers w !! sid = Some s -> h ∈ written (lane s) -> h_op h ∈ (submitted w).*1 ->
  exists t0 at_, (h_op h, t0) ∈ submitted w /\ (h_op h, sid, at_) ∈ sends w /\ t0 <= h_bound h + born s.
Proof.
  intros [Hj Hk Hw] Hs Hh Hop. destruct (r_lanes _ Hw _ _ Hs) as [Hr _]. destruct (wrote_run _ _ _ _ _ Hr) as [_ Hhd].
  assert (Hl : h ∈ live (lane s)) by (unfold live; apply elem_of_app; left; apply Hhd, elem_of_app; by right).
  destruct (bd_live _ (bound_run _ _ _ _ _ Hr) h Hl) as (rq & H1 & H2 & H3). rewrite <- H2 in *. destruct (r_issued _ Hw sid s rq Hs H1 Hop) as (t0 & at_ & A & B & C).
  exists t0, at_. rewrite <- H3. done.
Qed.

(** C14: A paste is typed at most once. Whatever connections drop, come back or switch session, whatever frames are lost, delayed, reordered
    or resent, and however many incarnations of the server there are: two batches of one operation that were prepared within ten minutes
    of its submission are the same batch of the same server. *)
Theorem paste_typed_at_most_once w op t0 sid1 s1 i h1 sid2 s2 j h2 :
  world_run w -> (forall sid s, servers w !! sid = Some s -> no_collision sha256 (lane s)) -> (op, t0) ∈ submitted w ->
  servers w !! sid1 = Some s1 -> written (lane s1) !! i = Some h1 -> h_op h1 = op -> born s1 + h_at h1 < t0 + DEDUPE_RETENTION ->
  servers w !! sid2 = Some s2 -> written (lane s2) !! j = Some h2 -> h_op h2 = op -> born s2 + h_at h2 < t0 + DEDUPE_RETENTION ->
  sid1 = sid2 /\ i = j.
Proof.
  intros Hr Hnc Hop Hs1 Hi E1 T1 Hs2 Hj E2 T2. pose proof (world_run_ok w Hr) as Hok. pose proof Hok as [Jok Kok Wok].
  assert (Hsub : op ∈ (submitted w).*1) by (by apply (elem_map fst) in Hop).
  destruct (written_sent w sid1 s1 h1) as (t1 & a1 & A1 & B1 & C1); [done|done|by eapply list_elem_of_lookup_2|by rewrite E1|].
  destruct (written_sent w sid2 s2 h2) as (t2 & a2 & A2 & B2 & C2); [done|done|by eapply list_elem_of_lookup_2|by rewrite E2|].
  rewrite E1 in *. rewrite E2 in *. assert (Hsid : sid1 = sid2) by (by eapply (r_same _ Wok)). split; [done|]. subst sid2. rewrite Hs1 in Hs2. injection Hs2 as <-.
  assert (Ht : forall t, (op, t) ∈ submitted w -> t = t0).
  { intros t Hin. apply list_elem_of_lookup in Hin as [a Ha]. apply list_elem_of_lookup in Hop as [b Hb].
    assert (a = b) as -> by (eapply (NoDup_lookup _ _ _ op (j_ids _ Jok)); by rewrite list_lookup_fmap, ?Ha, ?Hb). congruence. }
  rewrite (Ht _ A1) in C1. rewrite (Ht _ A2) in C2. destruct (decide (i = j)) as [|Hij]; [done|exfalso].
  destruct (r_lanes _ Wok _ _ Hs1) as [Hlr _]. pose proof (z_apart _ _ (settled_run _ _ _ _ _ Hlr (Hnc _ _ Hs1))) as Za.
  destruct (wrote_run _ _ _ _ _ Hlr) as [Ho Hh].
  assert (Hpos : forall h k, written (lane s1) !! k = Some h -> exists k', live (lane s1) !! k' = Some h).
  { intros h k Hk. apply list_elem_of_lookup. unfold live. apply elem_of_app. left. apply Hh, elem_of_app. right. by eapply list_elem_of_lookup_2. }
  assert (Hne : h_ticket h1 <> h_ticket h2).
  { eapply (once_distinct h_ticket); [|exact Hi|exact Hj|done]. intros t. specialize (Ho t). rewrite map_app, cnt_app in Ho. lia. }
  destruct (Hpos _ _ Hi) as [a Ha], (Hpos _ _ Hj) as [b Hb]. destruct (decide (a = b)) as [->|]; [congruence|].
  destruct (decide (a < b)%nat).
  - specialize (Za a b h1 h2 ltac:(lia) Ha Hb ltac:(congruence)). lia.
  - specialize (Za b a h2 h1 ltac:(lia) Hb Ha ltac:(congruence)). lia.
Qed.

(** C33: Every operation is reported once, and what is reported is what was answered. Of the operations a client submitted, each is still
    in the journal or has been reported exactly once. One reported delivered was written to a PTY, flushed, and reported by its writer.
    One reported unknown had been sent. One reported refused was never sent, and is written nowhere, or a server answered an attempt of
    it with the very error that is reported, which is not the one for an unknown delivery (that answer need not speak for an earlier
    attempt: see [refused_and_typed]). And the answer the client waits for is what decides: success reports the operation delivered,
    the error for an unknown delivery reports it unknown, and every other error refused, with the error's text. *)
Theorem paste_reports_are_true w :
  world_run w ->
  map operation_id_hex (submitted w).*1 ≡ₚ map rr_operation_id (reported w) ++ hex_ids (ops (journal w))
  /\ (forall r, r ∈ reported w -> exists op, op ∈ (submitted w).*1 /\ rr_operation_id r = operation_id_hex op
       /\ match disposition r with
          | Replay_Delivered => exists sid s, servers w !! sid = Some s /\ typed (lane s) op
          | Replay_Unknown => was_sent w op
          | Replay_Refused =>
              ~ was_sent w op /\ (forall sid s h, servers w !! sid = Some s -> h ∈ written (lane s) -> h_op h <> op)
              \/ exists code, code <> ErrorCode_InputDeliveryUnknown /\ told w op (CommandResult_Error code (rr_message r))
          end)
  /\ forall rid res, owns (journal w) rid = true -> exists p rest, ops (journal w) = p :: rest /\ ops (journal (replies w rid res)) = rest
       /\ reported (replies w rid res) = reported w ++
            [match res with
             | CommandResult_Ok | CommandResult_OkWith _ => mkReport Replay_Delivered (operation_id_hex (po_id p)) []
             | CommandResult_Error ErrorCode_InputDeliveryUnknown m => mkReport Replay_Unknown (operation_id_hex (po_id p)) m
             | CommandResult_Error _ m => mkReport Replay_Refused (operation_id_hex (po_id p)) m
             end].
Proof.
  intros Hr. pose proof (world_run_ok w Hr) as Hok. pose proof Hok as [Jok Kok Wok]. split; [apply Jok|]. split.
  - intros r Hin. destruct (j_reports _ Jok r Hin) as (op & H1 & H2 & H3 & H4). exists op. split; [done|]. split; [done|].
    unfold borne_out in H4. destruct (disposition r); [|done|].
    + destruct H4 as (res & (sid & s & c & A & B) & C). exists sid, s. split; [done|]. destruct (r_lanes _ Wok _ _ A) as [Hl _].
      pose proof (pl_answered _ (plain_run _ _ _ _ _ Hl) c op res B) as Hp. destruct res as [|v|code m]; [|done..].
      by eapply (v_answered _ (honest_run _ _ _ _ _ Hl)).
    + destruct H4 as [H4|H4]; [left|by right]. split; [done|]. intros sid s h Hs Hh E. subst op.
      destruct (written_sent w sid s h) as (t0 & at_ & _ & B & _); [done..|]. apply H4. by exists sid, at_.
  - intros rid res Ho. unfold replies, resolve_reply. rewrite Ho. cbn [negb]. unfold owns in Ho.
    destruct (connection (journal w)) as [ctx|] eqn:Ec; [|done]. apply bool_decide_eq_true in Ho.
    destruct (k_conn _ Kok ctx Ec) as (l & _ & _ & _ & Hf). destruct (Hf rid Ho) as (p & rest & -> & _).
    exists p, rest. split; [done|]. by destruct res as [|v|[] m].
Qed.

(** ** Playing a schedule *)

Inductive WorldMove : Type :=
| W_tick (d : Z) | W_start (sid : bytes) | W_lane (sid : bytes) (m : Move) | W_submit (op : OpId) (t : ResourceId) (events : list InputEvent)
| W_connect (c : ClientId) (sid : bytes) | W_next | W_arrive | W_reply | W_lost.
Definition quiet (m : Move) : bool := match m with M_tick _ | M_admit _ _ _ _ => false | _ => true end.
Lemma quiet_step s m s' : quiet m = true -> play debug_id kind_text sha256 would_reject s m = Some s' -> now s' = now s /\ issued s' = issued s.
Proof.
  intros Hq. destruct m as [d|c op t ev|m|srv enc ok|srv m|pty m|rf oc| |]; try done; cbn [play]; intros H.
  6: { repeat (case_match; simplify_eq); unfold run_waiter; repeat case_match; done. }
  6: { repeat (case_match; simplify_eq). by destruct w. }
  all: unfold apply_input_send, process_apply_input, process_hand_off, engine_services, writer_services, fire_sink, post in H.
  3: destruct (in_hand s); cbn in H; [|done].
  all: repeat (case_match; cbn in *; simplify_eq); done.
Qed.
Definition used_by (op : OpId) (s : Server) : bool := existsb (fun rq => bool_decide (rq_op rq = op)) (issued (lane s)).
Definition last_answer (s : Server) (c : ClientId) (op : OpId) : option CommandResult :=
  last (omap (fun x : ClientId * OpId * CommandResult => if bool_decide (x.1 = (c, op)) then Some x.2 else None) (answered (lane s))).
Definition world_play (w : World) (m : WorldMove) : option World :=
  match m with
  | W_tick d => if 0 <=? d then Some (tick w d) else None
  | W_start sid => match servers w !! sid with None => Some (set_server w sid (mkServer (clock w) lane_new)) | Some _ => None end
  | W_lane sid m =>
      s ← servers w !! sid;
      if quiet m then ls ← play debug_id kind_text sha256 would_reject (lane s) m; Some (set_server w sid (mkServer (born s) ls)) else None
  | W_submit op t events =>
      if negb (bool_decide (op ∈ (submitted w).*1)) && forallb (fun x => negb (used_by op x.2)) (map_to_list (servers w))
         && (wf_frame BootstrapLimits_default (command_of op t events) && (len (encode_body (command_of op t events)) <=? MAX_FRAME_LEN)
             && (len (encode (command_of op t events)) <=? isize_max))
      then Some (submits w op t events) else None
  | W_connect c sid => _ ← servers w !! sid; Some (connects w (mkLink c sid []) (Some sid) true 1)
  | W_next => l ← link w; if request_id w + 1 <? 2 ^ 32 then Some (sends_next w l) else None
  | W_arrive => match flights w with f :: k => s ← servers w !! f_server f; Some (arrives w k f s) | [] => None end
  | W_reply =>
      l ← link w; x ← last (l_sent l); s ← servers w !! l_server l; r ← last_answer s (l_client l) x.2; Some (replies w x.1 r)
  | W_lost => Some (set_journal w [] (connection_lost (journal w)) None (request_id w))
  end.
Fixpoint world_plays (w : World) (ms : list WorldMove) : option World :=
  match ms with [] => Some w | m :: ms => w ← world_play w m; world_plays w ms end.
Lemma last_answer_in s c op r : last_answer s c op = Some r -> (c, op, r) ∈ answered (lane s).
Proof.
  unfold last_answer. intros H%last_Some_elem_of. apply list_elem_of_omap in H as ([k r'] & Hx & E). cbn in E. case_bool_decide; [|done]. by simplify_eq.
Qed.
Lemma world_play_step w m w' : world_play w m = Some w' -> world_step w w'.
Proof.
  destruct m as [d|sid|sid m|op t events|c sid| | | |]; cbn [world_play]; intros H.
  - destruct (Z.leb_spec 0 d); [|done]. injection H as <-. by constructor.
  - destruct (servers w !! sid) eqn:E; [done|]. injection H as <-. by constructor.
  - destruct (servers w !! sid) as [s|] eqn:E; [|done]. cbn in H. destruct (quiet m) eqn:Eq; [|done].
    destruct (play _ _ _ _ _ m) as [ls|] eqn:Ep; [|done]. cbn in H. injection H as <-. destruct (quiet_step _ _ _ Eq Ep) as [H1 H2].
    apply ws_lane; [done|by eapply play_step|done|]. intros rq Hrq. left. by rewrite <- H2.
  - destruct (_ && _) eqn:E; [|done]. injection H as <-. rewrite !andb_true_iff, !Z.leb_le in E. destruct E as [[E1 E2] [[E3 E4] E5]].
    apply ws_submit; [|by split; [|split]]. split; [apply negb_true_iff, bool_decide_eq_false in E1; done|].
    intros sid s rq Hs Hrq Ho. rewrite forallb_forall in E2. specialize (E2 (sid, s)). rewrite <- list_elem_of_In, elem_of_map_to_list in E2. specialize (E2 Hs).
    apply negb_true_iff in E2. unfold used_by in E2. apply not_true_iff_false in E2. apply E2. apply existsb_exists. exists rq. split; [by apply list_elem_of_In|]. by apply bool_decide_eq_true.
  - destruct (servers w !! sid) eqn:E; [|done]. cbn in H. injection H as <-. apply ws_connect; [by rewrite E|by right].
  - destruct (link w) as [l|] eqn:E; [|done]. cbn in H. destruct (Z.ltb_spec (request_id w + 1) (2 ^ 32)); [|done]. injection H as <-. by constructor.
  - destruct (flights w) as [|f k] eqn:E; [done|]. destruct (servers w !! f_server f) as [s|] eqn:Es; [|done]. cbn in H. injection H as <-. by apply (ws_arrive w [] f k s).
  - destruct (link w) as [l|] eqn:E; [|done]. cbn in H. destruct (last (l_sent l)) as [[rid op]|] eqn:El; [|done]. cbn in H.
    destruct (servers w !! l_server l) as [s|] eqn:Es; [|done]. cbn in H. destruct (last_answer s (l_client l) op) as [r|] eqn:Er; [|done]. cbn in H. injection H as <-.
    eapply ws_reply; [done|by apply last_Some_elem_of|done|by apply last_answer_in].
  - injection H as <-. constructor.
Qed.
Lemma world_plays_run w ms w' : world_run w -> world_plays w ms = Some w' -> world_run w'.
Proof.
  revert w. induction ms as [|m ms IH]; intros w Hw; simpl; [by injection 1 as <-|].
  destruct (world_play w m) as [w1|] eqn:E; [|done]. apply IH. eapply world_goes; [done|by apply world_play_step in E].
Qed.
End World.

(** ** Schedules *)

Definition a_server : bytes := repeat 7 16.
Definition a_pane : ResourceId := ResourceId_Local 1.
Definition played_world (ms : list WorldMove) : option World :=
  world_plays no_id no_kind (fun b => b) (fun _ => false) world_new ms.
Definition world_of (ms : list WorldMove) : World := default world_new (played_world ms).
Lemma played_world_run ms w : played_world ms = Some w -> world_run no_id no_kind (fun b => b) (fun _ => false) w.
Proof. intros H. eapply world_plays_run; [apply world_starts|exact H]. Qed.
(** The client attaches and pastes; the paste is typed, and its answer is lost with the connection. *)
Definition lane_types : list WorldMove :=
  map (W_lane a_server) [M_send Mailbox_Taken; M_process demo_server an_encoder true; M_hand_off demo_server Mailbox_Taken; M_engine true Mailbox_Taken].
Definition lane_answers : list WorldMove := map (W_lane a_server) [M_writer None Wrote; M_message; M_message; M_act; M_act; M_act].
Definition lane_recalls : list WorldMove := map (W_lane a_server) [M_send Mailbox_Taken; M_process demo_server an_encoder true].
Definition pasted : list WorldMove := [W_start a_server; W_tick a_second; W_connect 7 a_server; W_submit an_op a_pane a_batch; W_next].
Definition reconnected : list WorldMove := pasted ++ [W_arrive] ++ lane_types ++ lane_answers ++ [W_lost; W_tick a_second; W_connect 8 a_server; W_next; W_arrive] ++ lane_recalls ++ [W_reply].

Lemma paste_typed_at_most_once_witness :
  let w := world_of reconnected in
  map disposition (reported w) = [Replay_Delivered]
  /\ exists s h, servers w !! a_server = Some s /\ written (lane s) !! 0%nat = Some h /\ born s + h_at h < a_second + DEDUPE_RETENTION
     /\ forall i h', written (lane s) !! i = Some h' -> h_op h' = an_op -> born s + h_at h' < a_second + DEDUPE_RETENTION -> i = 0%nat.
Proof.
  intros w. assert (Hr : world_run no_id no_kind (fun b => b) (fun _ => false) w) by (apply (played_world_run reconnected); vm_compute; reflexivity).
  split; [vm_compute; reflexivity|]. eexists _, _. split; [vm_compute; reflexivity|]. split; [vm_compute; reflexivity|]. split; [vm_compute; reflexivity|].
  intros i h' Hi Ho Ht.
  apply (paste_typed_at_most_once no_id no_kind (fun b => b) (fun _ => false) w an_op a_second a_server _ i h' a_server _ 0 _ Hr
           (fun sid s _ => no_collision_id (lane s)) ltac:(apply (list_elem_of_lookup_2 _ 0); vm_compute; reflexivity)
           ltac:(vm_compute; reflexivity) Hi Ho Ht ltac:(vm_compute; reflexivity) ltac:(vm_compute; reflexivity) ltac:(vm_compute; reflexivity) ltac:(vm_compute; reflexivity)).
Defined.
Lemma paste_reports_are_true_witness :
  let w := world_of reconnected in
  exists r, reported w = [r] /\ disposition r = Replay_Delivered /\ exists sid s, servers w !! sid = Some s /\ typed (lane s) an_op.
Proof.
  intros w. assert (Hr : world_run no_id no_kind (fun b => b) (fun _ => false) w) by (apply (played_world_run reconnected); vm_compute; reflexivity).
  exists (mkReport Replay_Delivered (operation_id_hex an_op) []). split; [vm_compute; reflexivity|]. split; [reflexivity|].
  destruct (paste_reports_are_true no_id no_kind (fun b => b) (fun _ => false) w Hr) as (_ & H & _).
  assert (Hin : mkReport Replay_Delivered (operation_id_hex an_op) [] ∈ reported w) by (apply (list_elem_of_lookup_2 _ 0); vm_compute; reflexivity).
  destruct (H _ Hin) as (op & H1 & _ & H3). assert (Es : (submitted w).*1 = [an_op]) by (vm_compute; reflexivity).
  rewrite Es in H1. apply list_elem_of_singleton in H1. subst op. exact H3.
Defined.

(** The first attempt is still being written when the client is back: the answer to the second says that the Terminal is taken, the client
    is told that nothing was delivered and retyping is safe, and the paste is typed. *)
Theorem refused_and_typed :
  exists w, played_world (pasted ++ [W_arrive] ++ lane_types ++ [W_lost; W_tick a_second; W_connect 8 a_server; W_next; W_arrive; W_reply] ++ lane_answers) = Some w
    /\ map disposition (reported w) = [Replay_Refused] /\ exists s, servers w !! a_server = Some s /\ map h_op (written (lane s)) = [an_op].
Proof. eexists. split; [vm_compute; reflexivity|]. split; [vm_compute; reflexivity|]. eexists. split; [vm_compute; reflexivity|]. vm_compute. reflexivity. Qed.
(** The horizon of the client is the retention of the server: a resend within the horizon that travels for a moment is admitted after the
    record of the first attempt is gone, and the paste is typed a second time. *)
Theorem late_resend_typed_twice :
  exists w, played_world (pasted ++ [W_arrive] ++ lane_types ++ lane_answers ++ [W_lost; W_tick (INPUT_RETRY_HORIZON - a_second); W_connect 8 a_server; W_next; W_tick a_second; W_arrive]
                          ++ lane_types ++ lane_answers ++ [W_reply]) = Some w
    /\ map disposition (reported w) = [Replay_Delivered] /\ exists s, servers w !! a_server = Some s /\ map h_op (written (lane s)) = [an_op; an_op].
Proof. eexists. split; [vm_compute; reflexivity|]. split; [vm_compute; reflexivity|]. eexists. split; [vm_compute; reflexivity|]. vm_compute. reflexivity. Qed.
