(* ===== verification/DetectRules.v ===== *)
(** * What the agent detector reads of a screen ([phux-server/src/agent_detect/])

    The regions of the live screen ([regions.rs]), the rules that are matched against them with the bounds they are loaded under
    ([rules.rs]), and what the foreground process of a pane says about who runs there ([identify.rs]). The regex engine, the TOML of a
    manifest and Unicode lower-casing come from outside; a screen's rows and a pattern are UTF-8 strings. Then what the rules promise:
    the prompt box is the last box of the screen; a region reads back as it is spelled; the evaluation of a manifest is its best
    matching rule, and the explanation is that evaluation; what is loaded stays within the bounds, whatever the manifests say. *)

From stdpp Require Import gmap.
From S2P Require Import Prelude ClientLayout Keybind Agent AgentDrain.

(** ** Strings *)

Fixpoint drop_while {A} (p : A -> bool) (l : list A) : list A := match l with [] => [] | a :: l' => if p a then drop_while p l' else l end.
Definition blank (c : bytes) : bool := is_whitespace (code_point c).
(** [str::trim_start], [str::trim_end] and [str::trim]. *)
Definition trim_start (s : bytes) : bytes := concat (drop_while blank (chars s)).
Definition trim_end (s : bytes) : bytes := concat (rev (drop_while blank (rev (chars s)))).
Definition trim (s : bytes) : bytes := trim_end (trim_start s).
(** [str::strip_prefix] and [str::strip_suffix] with a predicate on one character. *)
Definition strip_first (p : Z -> bool) (s : bytes) : option bytes :=
  match chars s with c :: cs => if p (code_point c) then Some (concat cs) else None | [] => None end.
Definition strip_last (p : Z -> bool) (s : bytes) : option bytes :=
  match rev (chars s) with c :: cs => if p (code_point c) then Some (concat (rev cs)) else None | [] => None end.
(** [str::strip_suffix] with a string. *)
Definition strip_suffix (s suffix : bytes) : option bytes :=
  let n := (length s - length suffix)%nat in
  if bool_decide (drop n s = suffix) then Some (take n s) else None.
(** [str::split_once] at an ASCII character, and [str::split]. *)
Fixpoint split_once (sep : Z) (s : bytes) : option (bytes * bytes) :=
  match s with
  | [] => None
  | b :: s => if b =? sep then Some ([], s) else '(x, y) ← split_once sep s; Some (b :: x, y)
  end.
Fixpoint split_on (sep : Z) (s acc : bytes) : list bytes :=
  match s with
  | [] => [acc]
  | b :: s => if b =? sep then acc :: split_on sep s [] else split_on sep s (acc ++ [b])
  end.
(** [[T]::join] with a newline. *)
Fixpoint join_lines (ls : list bytes) : bytes :=
  match ls with [] => [] | [l] => l | l :: ls => l ++ 10 :: join_lines ls end.
(** [str::contains]. *)
Definition contains (text needle : bytes) : bool := bool_decide (is_Some (find_sub needle text 0)).
(** [str::parse::<u16>]. *)
Definition parse_u16 (text : bytes) : option Z := n ← parse_u32 text; if n <=? u16_max then Some n else None.

(** ** Regions *)

(* phux-server/src/agent_detect/regions.rs Screen *)
Record Screen : Type := mkScreen { title : bytes; progress : bytes; lines : list bytes }.
(* phux-server/src/agent_detect/regions.rs Region *)
Inductive Region : Type :=
| Region_Title | Region_OscProgress | Region_BottomLines (n : Z) | Region_TopNonEmptyLines (n : Z) | Region_AfterLastRule | Region_PromptBox
| Region_Viewport.
#[export] Instance Region_eq_dec : EqDecision Region.
Proof. solve_decision. Defined.

(* phux-server/src/agent_detect/regions.rs DEFAULT_BOTTOM_LINES *)
Definition DEFAULT_BOTTOM_LINES : Z := 6.
(* phux-server/src/agent_detect/regions.rs DEFAULT_TOP_NON_EMPTY_LINES *)
Definition DEFAULT_TOP_NON_EMPTY_LINES : Z := 1.
(* phux-server/src/agent_detect/regions.rs MAX_REGION_LINES *)
Definition MAX_REGION_LINES : Z := 512.
(* phux-server/src/agent_detect/regions.rs PROMPT_BOX_TRAILING_SLACK *)
Definition PROMPT_BOX_TRAILING_SLACK : nat := 4.
(** The box-drawing characters of the source, by their code points. *)
(* phux-server/src/agent_detect/regions.rs RULE_CHARS *)
Definition RULE_CHARS : list Z :=
  [0x2500; 0x2501; 0x2550; 0x254c; 0x2504; 0x2508; 0x2014; 0x2d; 0x5f; 0x256d; 0x256e; 0x256f; 0x2570; 0x250c; 0x2510; 0x2514; 0x2518;
   0x251c; 0x2524; 0x252c; 0x2534; 0x253c; 0x2502; 0x2503; 0x250f; 0x2513; 0x2517; 0x251b].
(* phux-server/src/agent_detect/regions.rs BOX_OPEN_CHARS *)
Definition BOX_OPEN_CHARS : list Z := [0x2502; 0x256d; 0x2570; 0x250c; 0x2514; 0x2503; 0x250f; 0x2517].
(* phux-server/src/agent_detect/regions.rs BOX_CORNER_CHARS *)
Definition BOX_CORNER_CHARS : list Z := [0x256d; 0x2570; 0x250c; 0x2514; 0x250f; 0x2517].
(* phux-server/src/agent_detect/regions.rs RULE_MIN_WIDTH *)
Definition RULE_MIN_WIDTH : nat := 8.
(* phux-server/src/agent_detect/regions.rs:259-261 strip_borders *)
Definition BOX_CLOSE_CHARS : list Z := [0x2502; 0x256e; 0x256f; 0x2510; 0x2518; 0x2503].

(* phux-server/src/agent_detect/regions.rs Region::ALL *)
Definition Region_ALL : list Region :=
  [Region_Title; Region_OscProgress; Region_PromptBox; Region_AfterLastRule; Region_BottomLines DEFAULT_BOTTOM_LINES; Region_Viewport].
(* phux-server/src/agent_detect/regions.rs Region::as_str *)
Definition region_str (r : Region) : bytes :=
  match r with
  | Region_Title => str "title"
  | Region_OscProgress => str "osc-progress"
  | Region_BottomLines n => if n =? DEFAULT_BOTTOM_LINES then str "bottom-lines" else str "bottom-lines(" ++ decimal n ++ str ")"
  | Region_TopNonEmptyLines n =>
      if n =? DEFAULT_TOP_NON_EMPTY_LINES then str "top-non-empty-lines" else str "top-non-empty-lines(" ++ decimal n ++ str ")"
  | Region_AfterLastRule => str "after-last-rule"
  | Region_PromptBox => str "prompt-box"
  | Region_Viewport => str "viewport"
  end.

Definition region_error (spec why : bytes) : bytes := str "region `" ++ spec ++ str "`: " ++ why.
(** The two closures of [Region::parse]. *)
(* phux-server/src/agent_detect/regions.rs:134-139 Region::parse *)
Definition unwindowed (spec word : bytes) (arg : option bytes) (r : Region) : result bytes Region :=
  if bool_decide (is_Some arg) then Err (region_error spec (str "`" ++ word ++ str "` takes no line count")) else Ok r.
(* phux-server/src/agent_detect/regions.rs:140-156 Region::parse *)
Definition windowed (spec : bytes) (arg : option bytes) (default : Z) : result bytes Z :=
  match arg with
  | None => Ok default
  | Some text =>
      match parse_u16 text with
      | None => Err (region_error spec (str "`" ++ text ++ str "` is not a line count"))
      | Some count =>
          if count =? 0 then Err (region_error spec (str "a line count of 0 selects nothing, so no rule scoped to it could ever match"))
          else Ok (Z.min count MAX_REGION_LINES)
      end
  end.
(* phux-server/src/agent_detect/regions.rs Region::parse *)
Definition parse_region (spec : bytes) : result bytes Region :=
  let trimmed := trim spec in
  '(word, arg) ← match strip_suffix trimmed (str ")") with
                 | Some head => match split_once 40 head with
                                | Some (word, count) => Ok (trim word, Some (trim count))
                                | None => Err (region_error spec (str "`)` without a matching `(`"))
                                end
                 | None => Ok (trimmed, None)
                 end;
  if bool_decide (word = str "title") then unwindowed spec word arg Region_Title
  else if bool_decide (word = str "osc-progress") then unwindowed spec word arg Region_OscProgress
  else if bool_decide (word = str "after-last-rule") then unwindowed spec word arg Region_AfterLastRule
  else if bool_decide (word = str "prompt-box") then unwindowed spec word arg Region_PromptBox
  else if bool_decide (word = str "viewport") then unwindowed spec word arg Region_Viewport
  else if bool_decide (word = str "bottom-lines") then n ← windowed spec arg DEFAULT_BOTTOM_LINES; Ok (Region_BottomLines n)
  else if bool_decide (word = str "top-non-empty-lines") then
    n ← windowed spec arg DEFAULT_TOP_NON_EMPTY_LINES; Ok (Region_TopNonEmptyLines n)
  else Err (region_error spec (str "unknown region; expected one of title, osc-progress, prompt-box, after-last-rule, bottom-lines[(N)], top-non-empty-lines[(N)], viewport")).

Definition one_of (cs : list Z) (c : Z) : bool := bool_decide (c ∈ cs).
Definition empty_line (l : bytes) : bool := bool_decide (trim l = []).
(* phux-server/src/agent_detect/regions.rs is_rule *)
Definition is_rule (line : bytes) : bool :=
  let cs := chars (trim line) in (RULE_MIN_WIDTH <=? length cs)%nat && forallb (fun c => one_of RULE_CHARS (code_point c)) cs.
(* phux-server/src/agent_detect/regions.rs is_box_line *)
Definition is_box_line (line : bytes) : bool :=
  match chars (trim_start line) with c :: _ => one_of BOX_OPEN_CHARS (code_point c) | [] => false end.
(* phux-server/src/agent_detect/regions.rs strip_borders *)
Definition strip_borders (line : bytes) : bytes :=
  let s := trim line in
  if bool_decide (is_Some (strip_first (one_of BOX_CORNER_CHARS) s)) then []
  else
    let s := default s (strip_first (one_of BOX_OPEN_CHARS) s) in
    let s := default s (strip_last (one_of BOX_CLOSE_CHARS) s) in
    let s := trim s in
    if negb (bool_decide (s = [])) && forallb (fun c => one_of RULE_CHARS (code_point c)) (chars s) then [] else s.

(* phux-server/src/agent_detect/regions.rs bottom_lines *)
Definition bottom_lines (ls : list bytes) (count : Z) : list bytes :=
  rev (take (Z.to_nat count) (List.filter (fun l => negb (empty_line l)) (rev ls))).
(* phux-server/src/agent_detect/regions.rs top_non_empty_lines *)
Definition top_non_empty_lines (ls : list bytes) (count : Z) : list bytes :=
  take (Z.to_nat count) (List.filter (fun l => negb (empty_line l)) ls).
(** [Iterator::rposition]. *)
Fixpoint rposition (p : bytes -> bool) (ls : list bytes) : option nat :=
  match ls with
  | [] => None
  | l :: ls => match rposition p ls with Some i => Some (S i) | None => if p l then Some O else None end
  end.
(* phux-server/src/agent_detect/regions.rs after_last_rule *)
Definition after_last_rule (ls : list bytes) : list bytes :=
  match rposition is_rule ls with None => [] | Some last => drop (S last) ls end.

Definition row (ls : list bytes) (i : nat) : bytes := default [] (ls !! i).
(** The first loop of [prompt_box], over the rows below [idx], the last one first. *)
(* phux-server/src/agent_detect/regions.rs:352-366 prompt_box *)
Fixpoint box_end (ls : list bytes) (idx slack : nat) : option nat :=
  match idx with
  | O => None
  | S idx =>
      if empty_line (row ls idx) then box_end ls idx slack
      else if is_rule (row ls idx) || is_box_line (row ls idx) then Some idx
      else match slack with O => None | S slack => box_end ls idx slack end
  end.
(** [while start > 0 && is_box_line(&lines[start - 1])]. *)
(* phux-server/src/agent_detect/regions.rs:385-388 prompt_box *)
Fixpoint box_start (ls : list bytes) (start : nat) : nat :=
  match start with O => O | S s => if is_box_line (row ls s) then box_start ls s else start end.
(** The search for the opening fence; [None] also where a box line is met first. *)
(* phux-server/src/agent_detect/regions.rs:403-412 prompt_box *)
Fixpoint box_open (ls : list bytes) (idx : nat) : option nat :=
  match idx with
  | O => None
  | S idx => if is_box_line (row ls idx) then None else if is_rule (row ls idx) then Some idx else box_open ls idx
  end.
(** [&lines[a..b]]. *)
Definition rows (ls : list bytes) (a b : nat) : list bytes := drop a (take b ls).
(* phux-server/src/agent_detect/regions.rs prompt_box *)
Definition prompt_box (ls : list bytes) : list bytes :=
  match box_end ls (length ls) PROMPT_BOX_TRAILING_SLACK with
  | None => []
  | Some end_ =>
      if is_box_line (row ls end_) then map strip_borders (rows ls (box_start ls end_) (S end_))
      else match box_open ls end_ with None => [] | Some open => map strip_borders (rows ls (S open) end_) end
  end.
(* phux-server/src/agent_detect/regions.rs extract *)
Definition extract (r : Region) (s : Screen) : list bytes :=
  match r with
  | Region_Title => [title s]
  | Region_OscProgress => [progress s]
  | Region_Viewport => lines s
  | Region_BottomLines count => bottom_lines (lines s) count
  | Region_TopNonEmptyLines count => top_non_empty_lines (lines s) count
  | Region_AfterLastRule => after_last_rule (lines s)
  | Region_PromptBox => prompt_box (lines s)
  end.

(** ** Rules *)

(* phux-server/src/agent_detect/rules.rs MAX_RULES_PER_MANIFEST *)
Definition MAX_RULES_PER_MANIFEST : Z := 128.
(* phux-server/src/agent_detect/rules.rs MAX_PREDICATE_DEPTH *)
Definition MAX_PREDICATE_DEPTH : Z := 8.
(* phux-server/src/agent_detect/rules.rs MAX_MATCHERS_PER_RULE *)
Definition MAX_MATCHERS_PER_RULE : Z := 32.
(* phux-server/src/agent_detect/rules.rs MAX_MATCHERS_PER_MANIFEST *)
Definition MAX_MATCHERS_PER_MANIFEST : Z := 1024.
(* phux-server/src/agent_detect/rules.rs MAX_MATCHER_CHARS *)
Definition MAX_MATCHER_CHARS : Z := 512.
(* phux-server/src/agent_detect/rules.rs MAX_MANIFEST_BYTES *)
Definition MAX_MANIFEST_BYTES : Z := 256 * 1024.
(* phux-server/src/agent_detect/rules.rs MAX_OVERRIDE_MANIFESTS *)
Definition MAX_OVERRIDE_MANIFESTS : nat := 64.

(* phux-server/src/agent_detect/rules.rs PredicateSpec *)
Inductive PredicateSpec : Type :=
| PredicateSpec_Contains (needle : bytes) | PredicateSpec_Regex (pat : bytes) | PredicateSpec_LineRegex (pat : bytes)
| PredicateSpec_All (cs : list PredicateSpec) | PredicateSpec_Any (cs : list PredicateSpec) | PredicateSpec_Not (c : PredicateSpec).
(* phux-server/src/agent_detect/rules.rs RuleSpec *)
Record RuleSpec : Type := mkRuleSpec {
  rs_id : bytes; rs_state : option bytes; rs_priority : Z; rs_region : Region; rs_predicate : PredicateSpec; rs_visible_idle : bool;
  rs_skip_state_update : bool
}.
(* phux-server/src/agent_detect/rules.rs ManifestSpec *)
Record ManifestSpec : Type := mkManifestSpec { ms_kind : bytes; ms_name : option bytes; ms_binaries : list bytes; ms_rules : list RuleSpec }.

(** What the server's regex engine answers: a pattern compiles or does not, a compiled one matches a text or does not. *)
Class RegexEngine := {
  Regex : Type; regex_new : bytes -> result bytes Regex; is_match : Regex -> bytes -> bool; regex_text : Regex -> bytes
}.

(* phux-server/src/agent_detect/rules.rs Budget *)
Record Budget : Type := mkBudget { rule_matchers : Z; manifest_matchers : Z }.
(* phux-server/src/agent_detect/rules.rs Budget::charge_matcher *)
Definition charge_matcher (b : Budget) : result bytes Budget :=
  let b := mkBudget (rule_matchers b + 1) (manifest_matchers b + 1) in
  if MAX_MATCHERS_PER_RULE <? rule_matchers b then Err (str "more than " ++ decimal MAX_MATCHERS_PER_RULE ++ str " matchers in one rule")
  else if MAX_MATCHERS_PER_MANIFEST <? manifest_matchers b
  then Err (str "more than " ++ decimal MAX_MATCHERS_PER_MANIFEST ++ str " matchers in the manifest")
  else Ok b.
(* phux-server/src/agent_detect/rules.rs charge_leaf *)
Definition charge_leaf (op pattern : bytes) (b : Budget) : result bytes Budget :=
  let n := len (chars pattern) in
  if MAX_MATCHER_CHARS <? n
  then Err (op ++ str " pattern is " ++ decimal n ++ str " characters, over the " ++ decimal MAX_MATCHER_CHARS ++ str " limit")
  else charge_matcher b.

Section Rules.
Context {RE : RegexEngine} (to_lowercase : bytes -> bytes).

(* phux-server/src/agent_detect/rules.rs Predicate *)
Inductive Predicate : Type :=
| Predicate_Contains (needle : bytes) | Predicate_Regex (re : Regex) | Predicate_LineRegex (re : Regex)
| Predicate_All (cs : list Predicate) | Predicate_Any (cs : list Predicate) | Predicate_Not (c : Predicate).

Definition map_err {A} (f : bytes -> bytes) (r : result bytes A) : result bytes A := match r with Ok a => Ok a | Err e => Err (f e) end.
Definition regex_error (op pat e : bytes) : bytes := op ++ str " `" ++ pat ++ str "`: " ++ e.
(** [budget] is threaded through as the mutable borrow is. *)
(* phux-server/src/agent_detect/rules.rs Predicate::compile *)
Fixpoint compile (spec : PredicateSpec) (depth : Z) (budget : Budget) {struct spec} : result bytes (Predicate * Budget) :=
  let compile_all := fix compile_all (cs : list PredicateSpec) (budget : Budget) : result bytes (list Predicate * Budget) :=
    match cs with
    | [] => Ok ([], budget)
    | c :: cs => '(p, budget) ← compile c (depth + 1) budget; '(ps, budget) ← compile_all cs budget; Ok (p :: ps, budget)
    end in
  if MAX_PREDICATE_DEPTH <? depth then Err (str "predicate nests deeper than " ++ decimal MAX_PREDICATE_DEPTH ++ str " levels")
  else
    match spec with
    | PredicateSpec_Contains needle => budget ← charge_leaf (str "contains") needle budget; Ok (Predicate_Contains (to_lowercase needle), budget)
    | PredicateSpec_Regex pat =>
        budget ← charge_leaf (str "regex") pat budget; re ← map_err (regex_error (str "regex") pat) (regex_new pat); Ok (Predicate_Regex re, budget)
    | PredicateSpec_LineRegex pat =>
        budget ← charge_leaf (str "line-regex") pat budget; re ← map_err (regex_error (str "line-regex") pat) (regex_new pat);
        Ok (Predicate_LineRegex re, budget)
    | PredicateSpec_All cs => '(ps, budget) ← compile_all cs budget; Ok (Predicate_All ps, budget)
    | PredicateSpec_Any cs => '(ps, budget) ← compile_all cs budget; Ok (Predicate_Any ps, budget)
    | PredicateSpec_Not c => '(p, budget) ← compile c (depth + 1) budget; Ok (Predicate_Not p, budget)
    end.

(* phux-server/src/agent_detect/rules.rs Predicate::op *)
Definition predicate_op (p : Predicate) : bytes :=
  match p with
  | Predicate_Contains _ => str "contains" | Predicate_Regex _ => str "regex" | Predicate_LineRegex _ => str "line-regex"
  | Predicate_All _ => str "all" | Predicate_Any _ => str "any" | Predicate_Not _ => str "not"
  end.
(* phux-server/src/agent_detect/rules.rs Predicate::pattern *)
Definition predicate_pattern (p : Predicate) : option bytes :=
  match p with Predicate_Contains needle => Some needle | Predicate_Regex re | Predicate_LineRegex re => Some (regex_text re) | _ => None end.

(* phux-server/src/agent_detect/rules.rs RegionText *)
Record RegionText : Type := mkRegionText { rt_lines : list bytes; joined : bytes; lowered : bytes }.
(* phux-server/src/agent_detect/rules.rs RegionText::new *)
Definition RegionText_new (r : Region) (s : Screen) : RegionText :=
  let ls := extract r s in let j := join_lines ls in mkRegionText ls j (to_lowercase j).

(* phux-server/src/agent_detect/rules.rs Predicate::eval *)
Fixpoint eval (p : Predicate) (text : RegionText) : bool :=
  match p with
  | Predicate_Contains needle => contains (lowered text) needle
  | Predicate_Regex re => is_match re (joined text)
  | Predicate_LineRegex re => existsb (is_match re) (rt_lines text)
  | Predicate_All cs => forallb (fun c => eval c text) cs
  | Predicate_Any cs => existsb (fun c => eval c text) cs
  | Predicate_Not c => negb (eval c text)
  end.
(* phux-server/src/agent_detect/rules.rs PredicateTrace *)
Inductive PredicateTrace : Type := mkPredicateTrace (op : bytes) (pattern : option bytes) (matched : bool) (cs : list PredicateTrace).
Definition pt_matched (t : PredicateTrace) : bool := match t with mkPredicateTrace _ _ m _ => m end.
(* phux-server/src/agent_detect/rules.rs Predicate::trace *)
Fixpoint trace (p : Predicate) (text : RegionText) : PredicateTrace :=
  let cs := match p with
            | Predicate_Contains _ | Predicate_Regex _ | Predicate_LineRegex _ => []
            | Predicate_All kids | Predicate_Any kids => map (fun c => trace c text) kids
            | Predicate_Not c => [trace c text]
            end in
  let matched := match p with
                 | Predicate_Contains _ | Predicate_Regex _ | Predicate_LineRegex _ => eval p text
                 | Predicate_All _ => forallb pt_matched cs
                 | Predicate_Any _ => existsb pt_matched cs
                 | Predicate_Not _ => negb (match cs with t :: _ => pt_matched t | [] => false end)
                 end in
  mkPredicateTrace (predicate_op p) (predicate_pattern p) matched cs.

(* phux-server/src/agent_detect/rules.rs Rule *)
Record Rule : Type := mkRule {
  r_id : bytes; r_state : option DetectedState; r_priority : Z; r_region : Region; r_predicate : Predicate; r_visible_idle : bool;
  r_skip_state_update : bool
}.
(* phux-server/src/agent_detect/rules.rs CompiledManifest *)
Record CompiledManifest : Type := mkManifest { cm_name : bytes; cm_rules : list Rule }.
(* phux-server/src/agent_detect/rules.rs Evaluation *)
Record Evaluation : Type := mkEvaluation { ev_state : option DetectedState; ev_visible_idle : bool; ev_freeze : bool; ev_matched : option bytes }.
(* phux-server/src/agent_detect/rules.rs RuleTrace *)
Record RuleTrace : Type := mkRuleTrace {
  rtr_id : bytes; rtr_state : option DetectedState; rtr_priority : Z; rtr_region : Region; rtr_matched : bool; rtr_visible_idle : bool;
  rtr_skip_state_update : bool; rtr_predicate : PredicateTrace
}.
(* phux-server/src/agent_detect/rules.rs Explanation *)
Record Explanation : Type := mkExplanation { ex_evaluation : Evaluation; ex_rules : list RuleTrace; ex_regions : list (Region * list bytes) }.

(** The texts computed so far: [texts.entry(region).or_insert_with(..)] of a map. *)
Definition text_of (texts : list (Region * RegionText)) (r : Region) (s : Screen) : RegionText * list (Region * RegionText) :=
  match List.find (fun e => bool_decide (e.1 = r)) texts with
  | Some e => (e.2, texts)
  | None => let t := RegionText_new r s in (t, (r, t) :: texts)
  end.
Definition Evaluation_default : Evaluation := mkEvaluation None false false None.
(** The key of a rule, and whether it takes the place of the best so far. *)
(* phux-server/src/agent_detect/rules.rs:605-608 CompiledManifest::run *)
Definition key_wins (best : option (bool * Z * Z)) (key : bool * Z * Z) : bool :=
  match best with
  | None => true
  | Some (t, p, i) =>
      let '(t', p', i') := key in
      let above := (negb t && t') || (Bool.eqb t t' && (p <? p')) in
      above || (Bool.eqb t t' && (p =? p') && (i' <? i))
  end.
Definition rule_trace (rule : Rule) (matched : bool) (text : RegionText) : RuleTrace :=
  mkRuleTrace (r_id rule) (r_state rule) (r_priority rule) (r_region rule) matched (r_visible_idle rule) (r_skip_state_update rule)
    (trace (r_predicate rule) text).
(** The pass over the rules; [sink] is the trace, where one is wanted. *)
(* phux-server/src/agent_detect/rules.rs:577-616 CompiledManifest::run *)
Fixpoint run_loop (s : Screen) (rules : list Rule) (idx : Z) (texts : list (Region * RegionText)) (best : option (bool * Z * Z))
    (out : Evaluation) (sink : option (list RuleTrace)) : Evaluation * option (list RuleTrace) :=
  match rules with
  | [] => (out, sink)
  | rule :: rules =>
      let '(text, texts) := text_of texts (r_region rule) s in
      let matched := eval (r_predicate rule) text in
      let sink := (fun l => l ++ [rule_trace rule matched text]) <$> sink in
      if negb matched then run_loop s rules (idx + 1) texts best out sink
      else
        let out := mkEvaluation (ev_state out) (ev_visible_idle out || r_visible_idle rule) (ev_freeze out || r_skip_state_update rule)
                     (ev_matched out) in
        match r_state rule with
        | None => run_loop s rules (idx + 1) texts best out sink
        | Some state =>
            let key := (bool_decide (r_region rule = Region_Title), r_priority rule, idx) in
            if key_wins best key
            then run_loop s rules (idx + 1) texts (Some key)
                   (mkEvaluation (Some state) (ev_visible_idle out) (ev_freeze out) (Some (r_id rule))) sink
            else run_loop s rules (idx + 1) texts best out sink
        end
  end.
(* phux-server/src/agent_detect/rules.rs CompiledManifest::run *)
Definition run (m : CompiledManifest) (s : Screen) (sink : option (list RuleTrace)) : Evaluation * option (list RuleTrace) :=
  run_loop s (cm_rules m) 0 [] None Evaluation_default sink.
(* phux-server/src/agent_detect/rules.rs CompiledManifest::evaluate *)
Definition evaluate (m : CompiledManifest) (s : Screen) : Evaluation := (run m s None).1.
(** The regions previewed: the standing ones, then those of the rules, each once. *)
(* phux-server/src/agent_detect/rules.rs:552-557 CompiledManifest::explain *)
Definition previewed (m : CompiledManifest) : list Region :=
  fold_left (fun acc rule => if bool_decide (r_region rule ∈ acc) then acc else acc ++ [r_region rule]) (cm_rules m) Region_ALL.
(* phux-server/src/agent_detect/rules.rs CompiledManifest::explain *)
Definition explain (m : CompiledManifest) (s : Screen) : Explanation :=
  let '(evaluation, rules) := run m s (Some []) in
  mkExplanation evaluation (default [] rules) (map (fun r => (r, rt_lines (RegionText_new r s))) (previewed m)).

(** ** The rule set *)

(* phux-server/src/agent_detect/rules.rs RuleSet *)
Record RuleSet : Type := mkRuleSet { manifests : gmap (list Z) CompiledManifest; by_binary : gmap (list Z) bytes }.
Definition RuleSet_default : RuleSet := mkRuleSet ∅ ∅.
(* phux-server/src/agent_detect/rules.rs RuleSet::is_empty *)
Definition rules_is_empty (rs : RuleSet) : bool := bool_decide (manifests rs = ∅).
(* phux-server/src/agent_detect/rules.rs RuleSet::kind_for_binary *)
Definition kind_for_binary (rs : RuleSet) (name : bytes) : option bytes := by_binary rs !! to_lowercase name.
(* phux-server/src/agent_detect/rules.rs RuleSet::manifest *)
Definition manifest (rs : RuleSet) (kind : bytes) : option CompiledManifest := manifests rs !! kind.

(* phux-server/src/agent_detect/rules.rs parse_state *)
Definition parse_state (word : bytes) : option DetectedState :=
  if bool_decide (word = str "idle") then Some Detected_Idle
  else if bool_decide (word = str "working") then Some Detected_Working
  else if bool_decide (word = str "blocked") then Some Detected_Blocked
  else if bool_decide (word = str "done") then Some Detected_Done
  else None.
Definition rule_error (id why : bytes) : bytes := str "rule `" ++ id ++ str "`: " ++ why.
(** The loop over the rules of a manifest. *)
(* phux-server/src/agent_detect/rules.rs:676-696 RuleSet::install *)
Fixpoint compile_rules (specs : list RuleSpec) (budget : Budget) : result bytes (list Rule) :=
  match specs with
  | [] => Ok []
  | rule :: specs =>
      state ← match rs_state rule with
              | None => Ok None
              | Some word => match parse_state word with
                             | Some d => Ok (Some d)
                             | None => Err (rule_error (rs_id rule) (str "unknown state `" ++ word ++ str "`"))
                             end
              end;
      '(predicate, budget) ← map_err (rule_error (rs_id rule)) (compile (rs_predicate rule) 1 (mkBudget 0 (manifest_matchers budget)));
      rules ← compile_rules specs budget;
      Ok (mkRule (rs_id rule) state (rs_priority rule) (rs_region rule) predicate (rs_visible_idle rule) (rs_skip_state_update rule) :: rules)
  end.
(* phux-server/src/agent_detect/rules.rs RuleSet::install *)
Definition install (rs : RuleSet) (spec : ManifestSpec) : result bytes RuleSet :=
  if bool_decide (ms_kind spec = []) then Err (str "manifest has an empty `kind`")
  else if MAX_RULES_PER_MANIFEST <? len (ms_rules spec)
  then Err (decimal (len (ms_rules spec)) ++ str " rules, over the " ++ decimal MAX_RULES_PER_MANIFEST ++ str " limit")
  else
    rules ← compile_rules (ms_rules spec) (mkBudget 0 0);
    let kept := filter (fun e => e.2 <> ms_kind spec) (by_binary rs) in
    let indexed := fold_left (fun m binary => <[to_lowercase binary := ms_kind spec]> m) (ms_binaries spec) kept in
    Ok (mkRuleSet (<[ms_kind spec := mkManifest (default (ms_kind spec) (ms_name spec)) rules]> (manifests rs)) indexed).

Context (toml : bytes -> option ManifestSpec).
(* phux-server/src/agent_detect/rules.rs load_manifest *)
Definition load_manifest (rs : RuleSet) (text : bytes) : RuleSet :=
  match toml text with
  | Some spec => match install rs spec with Ok rs => rs | Err _ => rs end
  | None => rs
  end.
(** A [*.toml] entry of the override directory: its size and its text, where they can be read. *)
Record ManifestFile : Type := mkFile { mf_len : option Z; mf_text : option bytes }.
(* phux-server/src/agent_detect/rules.rs:775-800 build *)
Definition load_file (rs : RuleSet) (f : ManifestFile) : RuleSet :=
  match mf_len f with
  | None => rs
  | Some n => if MAX_MANIFEST_BYTES <? n then rs else match mf_text f with Some text => load_manifest rs text | None => rs end
  end.
(** [disabled] is the environment's word, [overrides] the directory's manifests in sorted order, where there is a directory. *)
(* phux-server/src/agent_detect/rules.rs build *)
Definition build (disabled : bool) (builtin : list bytes) (overrides : option (list ManifestFile)) : RuleSet :=
  if disabled then RuleSet_default
  else
    let rs := fold_left load_manifest builtin RuleSet_default in
    match overrides with None => rs | Some files => fold_left load_file (take MAX_OVERRIDE_MANIFESTS files) rs end.

(** ** Who runs in the pane *)

(* phux-server/src/agent_detect/identify.rs RUNTIME_WRAPPERS *)
Definition RUNTIME_WRAPPERS : list bytes :=
  map str ["node"; "nodejs"; "bun"; "deno"; "python"; "python3"; "sh"; "bash"; "zsh"; "fish"; "env"; "npx"; "uv"; "uvx"]%string.
(* phux-server/src/agent_detect/identify.rs PANE_SHELLS *)
Definition PANE_SHELLS : list bytes := map str ["sh"; "bash"; "zsh"; "fish"]%string.
(* phux-server/src/agent_detect/identify.rs SCRIPT_SUFFIXES *)
Definition SCRIPT_SUFFIXES : list bytes := map str [".js"; ".mjs"; ".cjs"; ".py"; ".ts"]%string.

(* phux-server/src/agent_detect/identify.rs Occupant *)
Record Occupant : Type := mkOcc { oc_pgid : Z; oc_started : option Z }.
(* phux-server/src/agent_detect/identify.rs Occupant::same *)
Definition same (a b : Occupant) : bool :=
  if negb (oc_pgid a =? oc_pgid b) then false
  else match oc_started a, oc_started b with Some mine, Some theirs => mine =? theirs | _, _ => true end.
(* phux-server/src/agent_detect/identify.rs Occupancy *)
Inductive Occupancy : Type := Occupancy_Unresolved | Occupancy_Vacant (pgid : Z) | Occupancy_Agent (kind : bytes) (occupant : Occupant).
(* phux-server/src/agent_detect/identify.rs Occupancy::pgid *)
Definition occupancy_pgid (o : Occupancy) : option Z :=
  match o with Occupancy_Unresolved => None | Occupancy_Vacant pgid => Some pgid | Occupancy_Agent _ occ => Some (oc_pgid occ) end.

(* phux-server/src/agent_detect/identify.rs basename *)
Definition basename (arg : bytes) : bytes := default arg (last (split_on 47 arg [])).
(* phux-server/src/agent_detect/identify.rs strip_script_suffix *)
Definition strip_script_suffix (name : bytes) : bytes :=
  (fix go suffixes := match suffixes with
                      | [] => name
                      | suffix :: suffixes => match strip_suffix name suffix with Some stem => stem | None => go suffixes end
                      end) SCRIPT_SUFFIXES.
(** [trim_start_matches('-')]. *)
Definition trim_dashes (s : bytes) : bytes := drop_while (fun b => b =? 45) s.
(* phux-server/src/agent_detect/identify.rs is_runtime_wrapper *)
Definition is_runtime_wrapper (arg : bytes) : bool := bool_decide (trim_dashes (basename arg) ∈ RUNTIME_WRAPPERS).
(* phux-server/src/agent_detect/identify.rs is_program_path *)
Definition is_program_path (arg : bytes) : bool := bool_decide (47 ∈ arg) && negb (existsb blank (chars arg)).
(** [Iterator::find_map]. *)
Fixpoint find_map {A B} (f : A -> option B) (l : list A) : option B :=
  match l with [] => None | a :: l => match f a with Some b => Some b | None => find_map f l end end.
(* phux-server/src/agent_detect/identify.rs match_program *)
Definition match_program (rs : RuleSet) (arg : bytes) : option bytes :=
  match kind_for_binary rs (strip_script_suffix (basename arg)) with
  | Some kind => Some kind
  | None =>
      if negb (is_program_path arg) then None
      else find_map (fun part => kind_for_binary rs (strip_script_suffix part)) (List.filter nonempty (split_on 47 arg []))
  end.
(* phux-server/src/agent_detect/identify.rs kind_from_argv *)
Definition kind_from_argv (rs : RuleSet) (argv : list bytes) : option bytes :=
  match argv with
  | [] => None
  | first :: rest =>
      match match_program rs first with
      | Some kind => Some kind
      | None =>
          if negb (is_runtime_wrapper first) then None
          else find_map (fun arg => if bool_decide (take 1 arg = [45]) then None else match_program rs arg) rest
      end
  end.
(* phux-server/src/agent_detect/identify.rs pane_occupant *)
Definition pane_occupant (pgid : Z) (pane_child_pid : option Z) (argv : list bytes) : PaneOccupant :=
  let fg := trim_dashes (basename (match argv with [] => [] | a :: _ => a end)) in
  mkOccupant fg (bool_decide (pane_child_pid = Some pgid) && bool_decide (fg ∈ PANE_SHELLS)).

(** What the kernel answers about a tty and a process; every question may go unanswered. *)
Record ProcQuery : Type := mkProc { proc_foreground_pgid : Z -> option Z; proc_argv : Z -> option (list bytes); proc_start_time : Z -> option Z }.
(* phux-server/src/agent_detect/identify.rs foreground_pgid *)
Definition foreground_pgid (os : ProcQuery) (master_fd : option Z) : option Z := fd ← master_fd; proc_foreground_pgid os fd.
(* phux-server/src/agent_detect/identify.rs foreground_observation *)
Definition foreground_observation (rs : RuleSet) (os : ProcQuery) (master_fd pane_child_pid : option Z) : Occupancy * option PaneOccupant :=
  match foreground_pgid os master_fd with
  | None => (Occupancy_Unresolved, None)
  | Some pgid =>
      match proc_argv os pgid with
      | None => (Occupancy_Unresolved, None)
      | Some argv =>
          let occupancy := match kind_from_argv rs argv with
                           | None => Occupancy_Vacant pgid
                           | Some kind => Occupancy_Agent kind (mkOcc pgid (proc_start_time os pgid))
                           end in
          (occupancy, Some (pane_occupant pgid pane_child_pid argv))
      end
  end.
End Rules.
Arguments Predicate {RE}.
Arguments Rule {RE}.
Arguments CompiledManifest {RE}.
Arguments RuleSet {RE}.

(** [str::rsplit_once]. *)
Fixpoint rsplit_once (sep : Z) (s : bytes) : option (bytes * bytes) :=
  match s with
  | [] => None
  | b :: s => match rsplit_once sep s with
              | Some (x, y) => Some (b :: x, y)
              | None => if b =? sep then Some ([], s) else None
              end
  end.
(** [str::parse::<u64>]. *)
Fixpoint parse_digits64 (acc : Z) (bs : bytes) : option Z :=
  match bs with
  | [] => Some acc
  | b :: bs =>
      if is_ascii_digit b then let acc := acc * 10 + (b - 48) in if acc <=? u64_max then parse_digits64 acc bs else None
      else None
  end.
Definition parse_u64 (bs : bytes) : option Z :=
  match bs with
  | [] => None
  | 43 :: bs => match bs with [] => None | _ => parse_digits64 0 bs end
  | _ => parse_digits64 0 bs
  end.
(* phux-server/src/agent_detect/identify.rs parse_stat_starttime *)
Definition parse_stat_starttime (stat : bytes) : option Z :=
  '(_, after_comm) ← rsplit_once 41 stat; field ← split_whitespace after_comm !! 19%nat; parse_u64 field.

(** * What the rules promise *)

(** ** Regions *)

Lemma row_lookup ls i : (i < length ls)%nat -> ls !! i = Some (row ls i).
Proof. intros H. unfold row. by destruct (lookup_lt_is_Some_2 ls i H) as [x ->]. Qed.
Lemma split_at_row ls i : (i < length ls)%nat -> ls = take i ls ++ row ls i :: drop (S i) ls.
Proof. intros H. rewrite <- (take_drop_middle ls i (row ls i)) at 1; [done|by apply row_lookup]. Qed.

Definition chrome (l : bytes) : bool := is_rule l || is_box_line l.
Definition busy (ls : list bytes) : nat := length (List.filter (fun l => negb (empty_line l)) ls).

Lemma busy_snoc ls l : busy (ls ++ [l]) = (busy ls + (if negb (empty_line l) then 1 else 0))%nat.
Proof. unfold busy. rewrite List.filter_app, length_app. simpl. by destruct (negb (empty_line l)). Qed.
(** The row the search from below stops at: the last rule or border, under at most [slack] rows that are not blank. *)
Lemma box_end_spec ls idx : forall slack e,
  (idx <= length ls)%nat -> box_end ls idx slack = Some e ->
  (e < idx)%nat /\ chrome (row ls e) = true /\ empty_line (row ls e) = false
  /\ (forall i, (e < i < idx)%nat -> empty_line (row ls i) = true \/ chrome (row ls i) = false)
  /\ (busy (rows ls (S e) idx) <= slack)%nat.
Proof.
  induction idx as [|idx IH]; intros slack e Hl H; [done|]. cbn [box_end] in H.
  assert (Hrows : forall e', (e' < idx)%nat -> rows ls (S e') (S idx) = rows ls (S e') idx ++ [row ls idx]).
  { intros e' He. unfold rows. rewrite (take_S_r ls idx (row ls idx)) by (by apply row_lookup). rewrite drop_app_le; [done|]. rewrite length_take. lia. }
  destruct (empty_line (row ls idx)) eqn:Eb.
  - destruct (IH slack e ltac:(lia) H) as (A & B & C & D & F). split_and!; [lia|done|done| |].
    + intros i Hi. destruct (decide (i = idx)) as [->|]; [by left|]. apply D. lia.
    + rewrite Hrows by done. rewrite busy_snoc, Eb. simpl. lia.
  - destruct (is_rule (row ls idx) || is_box_line (row ls idx)) eqn:Er.
    + injection H as <-. split_and!; [lia|done|done|intros i Hi; lia|].
      unfold busy, rows. rewrite drop_ge by (rewrite length_take; lia). simpl. lia.
    + destruct slack as [|slack]; [done|]. destruct (IH slack e ltac:(lia) H) as (A & B & C & D & F). split_and!; [lia|done|done| |].
      * intros i Hi. destruct (decide (i = idx)) as [->|]; [by right|]. apply D. lia.
      * rewrite Hrows by done. rewrite busy_snoc, Eb. simpl. lia.
Qed.
Lemma box_start_spec ls s : (box_start ls s <= s)%nat /\ (forall i, (box_start ls s <= i < s)%nat -> is_box_line (row ls i) = true)
  /\ (forall j, box_start ls s = S j -> is_box_line (row ls j) = false).
Proof.
  induction s as [|s [A [B C]]]; cbn [box_start]; [split_and!; intros; lia|]. destruct (is_box_line (row ls s)) eqn:E.
  - split_and!; [lia| |done]. intros i Hi. destruct (decide (i = s)) as [->|]; [done|]. apply B. lia.
  - split_and!; [lia|intros i Hi; lia|]. by intros j [= ->].
Qed.
Lemma box_open_spec ls idx : forall o, box_open ls idx = Some o ->
  (o < idx)%nat /\ is_rule (row ls o) = true /\ is_box_line (row ls o) = false
  /\ (forall i, (o < i < idx)%nat -> chrome (row ls i) = false).
Proof.
  induction idx as [|idx IH]; intros o H; [done|]. cbn [box_open] in H. destruct (is_box_line (row ls idx)) eqn:Eb; [done|].
  destruct (is_rule (row ls idx)) eqn:Er.
  - injection H as <-. split_and!; [lia|done|done|intros i Hi; lia].
  - destruct (IH o H) as (A & B & C & D). split_and!; [lia|done|done|]. intros i Hi. destruct (decide (i = idx)) as [->|]; [|apply D; lia].
    unfold chrome. by rewrite Er, Eb.
Qed.
Lemma rows_forall ls a b (P : bytes -> Prop) : (b <= length ls)%nat -> (forall i, (a <= i < b)%nat -> P (row ls i)) -> Forall P (rows ls a b).
Proof.
  intros Hb H. apply Forall_lookup. intros i x Hi. unfold rows in Hi. rewrite lookup_drop in Hi.
  assert (Hlt : (a + i < b)%nat) by (apply lookup_lt_Some in Hi; rewrite length_take in Hi; lia). rewrite lookup_take_lt in Hi by done.
  specialize (H (a + i)%nat ltac:(lia)). unfold row in H. by rewrite Hi in H.
Qed.
Lemma rows_split ls a b : (a <= b <= length ls)%nat -> ls = take a ls ++ rows ls a b ++ drop b ls.
Proof.
  intros H. unfold rows. rewrite <- (take_drop b ls) at 1. rewrite <- (take_drop a (take b ls)) at 1. rewrite take_take, <- app_assoc.
  by rewrite Nat.min_l by lia.
Qed.
(** The rows under a box: no rule and no border, and a few at most that are not blank. *)
Definition hints (ls : list bytes) : Prop :=
  Forall (fun l => empty_line l = true \/ chrome l = false) ls /\ (busy ls <= PROMPT_BOX_TRAILING_SLACK)%nat.

(** C36: What a prompt-box rule sees is the box at the foot of the screen and nothing else. It is either the whole last run of bordered
    rows, or what stands between the last two fences with no border or fence among it; under it come only hint rows, four at most that
    are not blank; and in both cases the borders are gone. A screen without such a box shows such a rule nothing. *)
Theorem prompt_box_is_the_live_box ls :
  prompt_box ls <> [] ->
  exists above body below, ls = above ++ body ++ below /\ hints below
    /\ ((Forall (fun l => is_box_line l = true) body /\ prompt_box ls = map strip_borders body
         /\ (forall l, last above = Some l -> is_box_line l = false))
        \/ exists top inner bottom, body = top :: inner ++ [bottom] /\ prompt_box ls = map strip_borders inner
             /\ is_rule top = true /\ is_rule bottom = true /\ is_box_line top = false /\ is_box_line bottom = false
             /\ Forall (fun l => chrome l = false) inner).
Proof.
  unfold prompt_box. destruct (box_end ls (length ls) PROMPT_BOX_TRAILING_SLACK) as [e|] eqn:Ee; [|done].
  destruct (box_end_spec ls _ _ _ (Nat.le_refl _) Ee) as (He & Hc & Hn & Hb & Hs).
  assert (Hh : hints (drop (S e) ls)).
  { assert (rows ls (S e) (length ls) = drop (S e) ls) as Er by (unfold rows; by rewrite firstn_all). rewrite <- Er. split; [|done].
    apply rows_forall; [done|]. intros i Hi. apply Hb. lia. }
  destruct (is_box_line (row ls e)) eqn:Eb.
  - intros _. destruct (box_start_spec ls e) as (A & B & C).
    exists (take (box_start ls e) ls), (rows ls (box_start ls e) (S e)), (drop (S e) ls). split; [apply rows_split; lia|]. split; [done|]. left.
    split; [|split; [done|]].
    + apply rows_forall; [lia|]. intros i Hi. destruct (decide (i = e)) as [->|]; [done|]. apply B. lia.
    + intros l Hl. destruct (box_start ls e) as [|j] eqn:Ej; [by rewrite take_0 in Hl|]. rewrite (take_S_r ls j (row ls j)) in Hl by (apply row_lookup; lia).
      rewrite last_snoc in Hl. injection Hl as <-. by apply C.
  - destruct (box_open ls e) as [o|] eqn:Eo; [|done]. intros _. destruct (box_open_spec _ _ _ Eo) as (A & B & C & D).
    exists (take o ls), (rows ls o (S e)), (drop (S e) ls). split; [apply rows_split; lia|]. split; [done|]. right.
    exists (row ls o), (rows ls (S o) e), (row ls e).
    assert (Er : rows ls o (S e) = row ls o :: rows ls (S o) e ++ [row ls e]).
    { unfold rows. rewrite (take_S_r ls e (row ls e)) by (by apply row_lookup). rewrite drop_app_le by (rewrite length_take; lia).
      rewrite (drop_S _ (row ls o) o); [done|]. rewrite lookup_take_lt by done. apply row_lookup. lia. }
    split_and!; [done|done|done| |done|done|].
    + unfold chrome in Hc. rewrite Eb, orb_false_r in Hc. done.
    + apply rows_forall; [lia|]. intros i Hi. apply D. lia.
Qed.

Lemma parse_digits_nonneg bs : forall acc n, 0 <= acc -> parse_digits acc bs = Some n -> 0 <= n.
Proof.
  induction bs as [|b bs IH]; intros acc n Ha H; cbn [parse_digits] in H; [by injection H as <-|].
  destruct ((48 <=? b) && (b <=? 57)) eqn:Eb; [|done]. apply andb_prop in Eb as [?%Z.leb_le ?%Z.leb_le].
  destruct (_ <=? u32_max); [|done]. eapply IH; [|done]. lia.
Qed.
Lemma parse_u16_nonneg bs n : parse_u16 bs = Some n -> 0 <= n.
Proof.
  unfold parse_u16, parse_u32. intros H. destruct (match bs with [] => _ | _ => _ end) as [m|] eqn:E; [|done]. simpl in H.
  assert (0 <= m); [|by destruct (m <=? u16_max); simplify_eq].
  destruct bs as [|b bs]; [done|]. repeat (match type of E with context [match ?x with _ => _ end] => destruct x end); try done; by eapply parse_digits_nonneg in E.
Qed.
(** Every line count a manifest can name, spelled and read back. *)
Definition reads_back (r : Region) : bool := match parse_region (region_str r) with Ok r' => bool_decide (r' = r) | Err _ => false end.
Lemma reads_back_spec r : reads_back r = true -> parse_region (region_str r) = Ok r.
Proof. unfold reads_back. destruct (parse_region _); [|done]. intros H%bool_decide_eq_true. by subst. Qed.
Lemma windows_read_back :
  forallb (fun n => reads_back (Region_BottomLines (Z.of_nat n)) && reads_back (Region_TopNonEmptyLines (Z.of_nat n))) (seq 1 512) = true.
Proof. vm_compute. reflexivity. Qed.
Definition region_wf (r : Region) : Prop :=
  match r with Region_BottomLines n | Region_TopNonEmptyLines n => 1 <= n <= MAX_REGION_LINES | _ => True end.
(** A region is read as it is spelled: what the explainer prints for a region, a manifest reads as that region; and whatever a manifest
    spells, the window it gets has between one and 512 lines. *)
Theorem region_spelling_round_trips r spec :
  (region_wf r -> parse_region (region_str r) = Ok r) /\ (forall r', parse_region spec = Ok r' -> region_wf r').
Proof.
  split.
  - intros Hwf. destruct r as [| |n|n| | |]; try done; unfold region_wf, MAX_REGION_LINES in Hwf;
      pose proof (proj1 (forallb_forall _ _) windows_read_back (Z.to_nat n)) as H;
      (destruct (andb_prop _ _ (H ltac:(apply in_seq; lia))) as [H1 H2]); rewrite Z2Nat.id in H1, H2 by lia; by apply reads_back_spec.
  - intros r' H. unfold parse_region in H. destruct (match strip_suffix _ _ with Some _ => _ | None => _ end) as [[word arg]|] eqn:E; [|done].
    cbn in H. assert (Hw : forall d n, 1 <= d <= MAX_REGION_LINES -> windowed spec arg d = Ok n -> 1 <= n <= MAX_REGION_LINES).
    { intros d n Hd Hn. unfold windowed in Hn. destruct arg as [text|]; [|by injection Hn as <-]. destruct (parse_u16 text) as [c|] eqn:Ec; [|done].
      destruct (Z.eqb_spec c 0); [done|]. injection Hn as <-. assert (0 <= c) by (by apply parse_u16_nonneg in Ec). unfold MAX_REGION_LINES. lia. }
    repeat (case_bool_decide; [unfold unwindowed in H; (try (destruct (bool_decide _); [done|injection H as <-; exact I]))|]); try done.
    + destruct (windowed spec arg DEFAULT_BOTTOM_LINES) eqn:Ew; [|done]. injection H as <-. eapply Hw; [|done]. unfold DEFAULT_BOTTOM_LINES, MAX_REGION_LINES. lia.
    + destruct (windowed spec arg DEFAULT_TOP_NON_EMPTY_LINES) eqn:Ew; [|done]. injection H as <-. eapply Hw; [|done]. unfold DEFAULT_TOP_NON_EMPTY_LINES, MAX_REGION_LINES. lia.
Qed.

(** ** Evaluation *)

Section Evaluation.
Context {RE : RegexEngine} (to_lowercase : bytes -> bytes).
#[local] Abbreviation RegionText_new := (RegionText_new to_lowercase).
#[local] Abbreviation evaluate := (evaluate to_lowercase).
#[local] Abbreviation run_loop := (run_loop to_lowercase).
#[local] Abbreviation text_of := (text_of to_lowercase).

(** Whether a rule matches a screen, without the table of texts. *)
Definition matches (s : Screen) (r : Rule) : bool := eval (r_predicate r) (RegionText_new (r_region r) s).
(** Title rules first, then by priority. *)
Definition rank (r : Rule) : bool * Z := (bool_decide (r_region r = Region_Title), r_priority r).
Definition below (a b : bool * Z) : Prop := (a.1 = false /\ b.1 = true) \/ (a.1 = b.1 /\ a.2 < b.2).
(** Rule [i] is the best of the matching rules that bear a state: none is above it, and none of its rank is declared before it. *)
Definition wins_over (rules : list Rule) (s : Screen) (i : nat) (r : Rule) : Prop :=
  rules !! i = Some r /\ matches s r = true
  /\ forall j r', rules !! j = Some r' -> matches s r' = true -> is_Some (r_state r') -> j <> i -> below (rank r') (rank r) \/ (rank r' = rank r /\ (i < j)%nat).

(** The table holds what a fresh computation would give. *)
Definition fresh_texts (s : Screen) (texts : list (Region * RegionText)) : Prop := Forall (fun e => e.2 = RegionText_new e.1 s) texts.
Lemma text_of_spec s texts r : fresh_texts s texts -> (text_of texts r s).1 = RegionText_new r s /\ fresh_texts s (text_of texts r s).2.
Proof.
  intros H. unfold DetectRules.text_of. destruct (List.find _ texts) as [e|] eqn:E; [|split; [done|by constructor]].
  apply List.find_some in E as [Hin He]. apply bool_decide_eq_true in He. split; [|done]. simpl. rewrite <- He.
  apply (proj1 (List.Forall_forall _ _) H e Hin).
Qed.
Lemma key_wins_spec best key :
  key_wins best key = true <-> match best with None => True | Some (t, p, i) => below (t, p) key.1 \/ ((t, p) = key.1 /\ key.2 < i) end.
Proof.
  destruct key as [[t' p'] i'], best as [[[t p] i]|]; [|done]. unfold key_wins, below. simpl.
  destruct t, t'; simpl; destruct (Z.ltb_spec p p'), (Z.eqb_spec p p'), (Z.ltb_spec i' i); simpl; split; intros; try done; try (destruct_or!; destruct_and?; simplify_eq; lia);
    try (left; lia); try (right; split; [congruence|lia]); try (left; by left); try (left; right; split; [done|lia]).
Qed.

(** The state of the loop when [done] has been passed. *)
Record passed (s : Screen) (all : list Rule) (n : nat) (best : option (bool * Z * Z)) (out : Evaluation) : Prop := {
  ps_idle : ev_visible_idle out = existsb (fun r => matches s r && r_visible_idle r) (take n all);
  ps_freeze : ev_freeze out = existsb (fun r => matches s r && r_skip_state_update r) (take n all);
  ps_best : match best with
            | None => ev_state out = None /\ ev_matched out = None /\ Forall (fun r => matches s r = true -> r_state r = None) (take n all)
            | Some (rk, i) => exists r, wins_over (take n all) s (Z.to_nat i) r /\ 0 <= i < Z.of_nat n /\ rank r = rk
                                /\ is_Some (r_state r) /\ ev_state out = r_state r /\ ev_matched out = Some (r_id r)
            end
}.
Lemma wins_keep s l i r a : wins_over l s i r -> (matches s a = true -> is_Some (r_state a) -> below (rank a) (rank r) \/ rank a = rank r) -> wins_over (l ++ [a]) s i r.
Proof.
  intros (A & B & C) H. split; [by apply lookup_app_l_Some|]. split; [done|]. intros j r' Hj Hm Hs Hne.
  apply lookup_snoc_Some in Hj as [[Hlt Hj]|[-> <-]]; [by eapply C|]. destruct (H Hm Hs); [by left|]. right. split; [done|]. by apply lookup_lt_Some in A.
Qed.
Lemma wins_new s l a : matches s a = true -> (forall j r', l !! j = Some r' -> matches s r' = true -> is_Some (r_state r') -> below (rank r') (rank a)) ->
  wins_over (l ++ [a]) s (length l) a.
Proof.
  intros Hm H. split; [apply list_lookup_middle; done|]. split; [done|]. intros j r' Hj Hm' Hs Hne.
  apply lookup_snoc_Some in Hj as [[Hlt Hj]|[-> <-]]; [|done]. left. by eapply H.
Qed.
Lemma below_trans a b c : below a b -> below b c -> below a c.
Proof. unfold below. intros [[? ?]|[? ?]] [[? ?]|[? ?]]; [left|left|left|right]; split; try congruence; lia. Qed.
Lemma rank_total a b : below a b \/ below b a \/ a = b.
Proof. destruct a as [[] p], b as [[] q]; unfold below; simpl; try (by left; left); try (by right; left; left); destruct (Ztrichotomy p q) as [|[->|]]; [left; right; split; [done|lia]|by right; right|right; left; right; split; [done|lia]|left; right; split; [done|lia]|by right; right|right; left; right; split; [done|lia]]. Qed.

(** One rule more. *)
Lemma passed_next s all n best out a :
  passed s all n best out -> all !! n = Some a ->
  (matches s a = false -> passed s all (S n) best out)
  /\ (matches s a = true -> let out1 := mkEvaluation (ev_state out) (ev_visible_idle out || r_visible_idle a) (ev_freeze out || r_skip_state_update a) (ev_matched out) in
      (r_state a = None -> passed s all (S n) best out1)
      /\ forall st, r_state a = Some st -> let key := (rank a, Z.of_nat n) in
         (key_wins best key = false -> passed s all (S n) best out1)
         /\ (key_wins best key = true -> passed s all (S n) (Some key) (mkEvaluation (Some st) (ev_visible_idle out1) (ev_freeze out1) (Some (r_id a))))).
Proof.
  intros [Hi Hf Hb] Ha. pose proof (take_S_r _ _ _ Ha) as Et. assert (Hn : length (take n all) = n) by (apply lookup_lt_Some in Ha; rewrite length_take; lia).
  assert (Hkeep : forall out', ev_visible_idle out' = existsb (fun r => matches s r && r_visible_idle r) (take (S n) all) ->
      ev_freeze out' = existsb (fun r => matches s r && r_skip_state_update r) (take (S n) all) -> ev_state out' = ev_state out -> ev_matched out' = ev_matched out ->
      (matches s a = true -> is_Some (r_state a) -> match best with None => False | Some (rk, i) => below (rank a) rk \/ rank a = rk end) -> passed s all (S n) best out').
  { intros out' E1 E2 E3 E4 H. split; [done|done|]. rewrite Et, E3, E4. destruct best as [[rk i]|].
    - destruct Hb as (r & W & B & R & S' & T & U). exists r. split; [|split; [lia|done]]. apply wins_keep; [done|]. by rewrite R.
    - destruct Hb as (B1 & B2 & B3). split; [done|]. split; [done|]. apply Forall_app. split; [done|]. apply Forall_singleton. intros Hm.
      destruct (r_state a) eqn:Es; [|done]. exfalso. by apply H. }
  split; [|intros Hm; split; [|intros st Es; split]].
  - intros Hm. apply Hkeep; [| |done|done|by rewrite Hm]; rewrite Et, existsb_app; simpl; rewrite Hm; simpl; by rewrite orb_false_r.
  - intros Es. apply Hkeep; [| |done|done|rewrite Es; by intros _ []]; rewrite Et, existsb_app; simpl; rewrite Hm; simpl; rewrite orb_false_r; by f_equal.
  - intros Hw. apply Hkeep; [| |done|done|]; [rewrite Et, existsb_app; simpl; rewrite Hm; simpl; rewrite orb_false_r; by f_equal..|]. intros _ _.
    destruct best as [[rk i]|]; [|done]. assert (Hw' : ~ key_wins (Some (rk, i)) (rank a, Z.of_nat n) = true) by (by rewrite Hw). rewrite key_wins_spec in Hw'.
    destruct rk as [t p]. destruct (rank_total (t, p) (rank a)) as [?|[?|?]]; [exfalso; apply Hw'; by left|by left|by right].
  - intros Hw. apply key_wins_spec in Hw. split; [| |].
    + rewrite Et, existsb_app. simpl. rewrite Hm. simpl. rewrite orb_false_r. by f_equal.
    + rewrite Et, existsb_app. simpl. rewrite Hm. simpl. rewrite orb_false_r. by f_equal.
    + exists a. rewrite Nat2Z.id, Et. split; [|split_and!; [lia|lia|done|by rewrite Es|by rewrite Es|done]]. rewrite <- Hn at 2. apply wins_new; [done|].
      intros j r' Hj Hm' Hs. destruct best as [[[t p] i]|].
      * destruct Hb as (r & (W1 & W2 & W3) & B & R & S' & _). destruct Hw as [Hw|[Hw Hlt]]; [|simpl in Hlt; lia]. rewrite <- R in Hw.
        destruct (decide (j = Z.to_nat i)) as [->|Hne]; [rewrite W1 in Hj; by injection Hj as <-|].
        destruct (W3 j r' Hj Hm' Hs Hne) as [Hlt|[Heq _]]; [by eapply below_trans|by rewrite Heq].
      * destruct Hb as (_ & _ & Hb). rewrite (proj1 (List.Forall_forall _ _) Hb r') in Hs; [by destruct Hs|by eapply list_elem_of_In, list_elem_of_lookup_2|done].
Qed.

Definition traced (s : Screen) (r : Rule) : RuleTrace := rule_trace r (matches s r) (RegionText_new (r_region r) s).
(** The loop, from any point of the list. *)
Lemma run_loop_spec s all : forall rest n texts best out sink,
  all = take n all ++ rest -> length (take n all) = n -> fresh_texts s texts -> passed s all n best out ->
  (exists best', passed s all (length all) best' (run_loop s rest (Z.of_nat n) texts best out sink).1)
  /\ (run_loop s rest (Z.of_nat n) texts best out sink).2 = (fun l => l ++ map (traced s) rest) <$> sink
  /\ forall sink', (run_loop s rest (Z.of_nat n) texts best out sink').1 = (run_loop s rest (Z.of_nat n) texts best out sink).1.
Proof.
  induction rest as [|a rest IH]; intros n texts best out sink Hall Hn Hf Hp.
  - rewrite app_nil_r in Hall. assert (El : length all = n) by (by rewrite Hall). split; [exists best; by rewrite El|].
    split; [destruct sink; simpl; by rewrite ?app_nil_r|done].
  - assert (Ha : all !! n = Some a) by (rewrite Hall, lookup_app_r by lia; by rewrite Hn, Nat.sub_diag).
    assert (Hall' : all = take (S n) all ++ rest) by (by rewrite (take_S_r _ _ _ Ha), <- app_assoc).
    assert (Hn' : length (take (S n) all) = S n) by (rewrite (take_S_r _ _ _ Ha), length_app, Hn; simpl; lia).
    cbn [DetectRules.run_loop]. destruct (text_of texts (r_region a) s) as [text texts'] eqn:Et.
    destruct (text_of_spec s texts (r_region a) Hf) as [H1 H2]. rewrite Et in H1, H2. simpl in H1, H2. subst text.
    change (eval (r_predicate a) (RegionText_new (r_region a) s)) with (matches s a).
    assert (Hz : Z.of_nat n + 1 = Z.of_nat (S n)) by lia. rewrite Hz. destruct (passed_next s all n best out a Hp Ha) as [P1 P2].
    assert (Hsink : forall l, (l ++ [traced s a]) ++ map (traced s) rest = l ++ map (traced s) (a :: rest)) by (intros; by rewrite <- app_assoc).
    assert (Hfin : forall best' out', passed s all (S n) best' out' ->
       (exists best'', passed s all (length all) best'' (run_loop s rest (Z.of_nat (S n)) texts' best' out' ((fun l => l ++ [traced s a]) <$> sink)).1)
       /\ (run_loop s rest (Z.of_nat (S n)) texts' best' out' ((fun l => l ++ [traced s a]) <$> sink)).2 = (fun l => l ++ map (traced s) (a :: rest)) <$> sink
       /\ forall sink', (run_loop s rest (Z.of_nat (S n)) texts' best' out' ((fun l => l ++ [traced s a]) <$> sink')).1
                       = (run_loop s rest (Z.of_nat (S n)) texts' best' out' ((fun l => l ++ [traced s a]) <$> sink)).1).
    { intros best' out' Hp'. destruct (IH (S n) texts' best' out' ((fun l => l ++ [traced s a]) <$> sink) Hall' Hn' H2 Hp') as (I1 & I2 & I3).
      split; [done|]. split; [|intros sink'; apply I3]. rewrite I2. destruct sink; simpl; [by rewrite Hsink|done]. }
    change (rule_trace a (matches s a) (RegionText_new (r_region a) s)) with (traced s a). destruct (matches s a) eqn:Hm; cbn [negb]; [|by apply Hfin, P1].
    destruct (P2 eq_refl) as [P3 P4]. destruct (r_state a) as [st|] eqn:Es; [|by apply Hfin, P3]. destruct (P4 st eq_refl) as [P5 P6].
    change (bool_decide (r_region a = Region_Title), r_priority a, Z.of_nat n) with (rank a, Z.of_nat n).
    destruct (key_wins best (rank a, Z.of_nat n)) eqn:Ek; [by apply Hfin, P6|by apply Hfin, P5].
Qed.
Lemma run_spec m s sink :
  (exists best, passed s (cm_rules m) (length (cm_rules m)) best (run to_lowercase m s sink).1)
  /\ (run to_lowercase m s sink).2 = (fun l => l ++ map (traced s) (cm_rules m)) <$> sink
  /\ forall sink', (run to_lowercase m s sink').1 = (run to_lowercase m s sink).1.
Proof.
  unfold run. change 0 with (Z.of_nat 0). apply run_loop_spec; [done|by rewrite take_0|constructor|]. split; [done|done|]. split_and!; [done|done|constructor].
Qed.
Lemma previewed_has m r : r ∈ cm_rules m -> r_region r ∈ previewed m.
Proof.
  unfold previewed. generalize Region_ALL. induction (cm_rules m) as [|a l IH]; intros acc; [by rewrite elem_of_nil|]. rewrite elem_of_cons. simpl.
  assert (Hkeep : forall l acc (x : Region), x ∈ acc ->
     x ∈ fold_left (fun acc rule => if bool_decide (r_region rule ∈ acc) then acc else acc ++ [r_region rule]) l acc).
  { clear. induction l as [|b l IH]; intros acc x Hx; [done|]. simpl. apply IH. case_bool_decide; [done|]. apply elem_of_app. by left. }
  intros [->|Hin]; [|by apply IH]. apply Hkeep. case_bool_decide; [done|]. apply elem_of_app. right. by apply list_elem_of_singleton.
Qed.

Lemma predicate_induction (P : Predicate -> Prop) :
  (forall n, P (Predicate_Contains n)) -> (forall re, P (Predicate_Regex re)) -> (forall re, P (Predicate_LineRegex re)) ->
  (forall cs, Forall P cs -> P (Predicate_All cs)) -> (forall cs, Forall P cs -> P (Predicate_Any cs)) -> (forall c, P c -> P (Predicate_Not c)) -> forall p, P p.
Proof.
  intros H1 H2 H3 H4 H5 H6. fix IH 1. intros [n|p|p|cs|cs|c]; [apply H1|apply H2|apply H3|apply H4|apply H5|apply H6, IH]; induction cs as [|c cs IHcs]; constructor; [apply IH|exact IHcs|apply IH|exact IHcs].
Qed.
Lemma trace_agrees p text : pt_matched (trace p text) = eval p text.
Proof.
  induction p as [n|re|re|cs HF|cs HF|c IH] using predicate_induction; try done; simpl; [..|by rewrite IH];
    induction HF as [|c cs Hc HF IH]; simpl; by rewrite ?Hc, ?IH.
Qed.

(** The verdict on a screen is its best rule. Of the rules of a manifest that match and bear a state, the one on the title, then of
    the highest priority, then declared first names the state; without one there is no state. Idle is positively visible, and the verdict
    frozen, when some matching rule says so. *)
Theorem verdict_is_the_best_rule m s :
  let e := evaluate m s in
  ((ev_state e = None /\ ev_matched e = None /\ Forall (fun r => matches s r = true -> r_state r = None) (cm_rules m))
   \/ exists i r, wins_over (cm_rules m) s i r /\ is_Some (r_state r) /\ ev_state e = r_state r /\ ev_matched e = Some (r_id r))
  /\ ev_visible_idle e = existsb (fun r => matches s r && r_visible_idle r) (cm_rules m)
  /\ ev_freeze e = existsb (fun r => matches s r && r_skip_state_update r) (cm_rules m).
Proof.
  intros e. destruct (run_spec m s None) as ([best [Hi Hf Hb]] & _). fold (evaluate m s) in Hi, Hf, Hb. fold e in Hi, Hf, Hb. rewrite firstn_all in Hi, Hf, Hb.
  split; [|done]. destruct best as [[rk i]|]; [|by left]. right. destruct Hb as (r & W & _ & _ & A & B & C). by exists (Z.to_nat i), r.
Qed.
(** An explanation is the verdict with its working: it reports what the detector concludes, a line for every rule in the order of the
    manifest with whether it matched, each node of a predicate as the detector evaluates it, and the very lines each rule read. *)
Theorem explanation_is_the_verdict m s :
  ex_evaluation (explain to_lowercase m s) = evaluate m s
  /\ ex_rules (explain to_lowercase m s) = map (fun r => rule_trace r (matches s r) (RegionText_new (r_region r) s)) (cm_rules m)
  /\ (forall p text, pt_matched (trace p text) = eval p text)
  /\ (forall r, r ∈ cm_rules m -> (r_region r, extract (r_region r) s) ∈ ex_regions (explain to_lowercase m s)).
Proof.
  destruct (run_spec m s (Some [])) as (_ & H2 & H3). unfold explain. destruct (run to_lowercase m s (Some [])) as [e rules] eqn:Er.
  simpl in H2, H3. subst rules. split_and!; [by rewrite <- (H3 None)|done| |].
  - intros p text. apply trace_agrees.
  - intros r Hr. simpl. apply list_elem_of_In, in_map_iff. exists (r_region r). split; [done|]. by apply list_elem_of_In, previewed_has.
Qed.
End Evaluation.

(** ** Loading *)

Lemma spec_induction (P : PredicateSpec -> Prop) :
  (forall n, P (PredicateSpec_Contains n)) -> (forall p, P (PredicateSpec_Regex p)) -> (forall p, P (PredicateSpec_LineRegex p)) ->
  (forall cs, Forall P cs -> P (PredicateSpec_All cs)) -> (forall cs, Forall P cs -> P (PredicateSpec_Any cs)) ->
  (forall c, P c -> P (PredicateSpec_Not c)) -> forall spec, P spec.
Proof.
  intros H1 H2 H3 H4 H5 H6. fix IH 1. intros [n|p|p|cs|cs|c]; [apply H1|apply H2|apply H3|apply H4|apply H5|apply H6, IH]; induction cs as [|c cs IHcs]; constructor; [apply IH|exact IHcs|apply IH|exact IHcs].
Qed.

Section Loading.
Context {RE : RegexEngine} (to_lowercase : bytes -> bytes).

Fixpoint depth (p : Predicate) : Z :=
  match p with
  | Predicate_All cs | Predicate_Any cs => 1 + fold_right Z.max 0 (map depth cs)
  | Predicate_Not c => 1 + depth c
  | _ => 1
  end.
Fixpoint leaves (p : Predicate) : Z :=
  match p with
  | Predicate_All cs | Predicate_Any cs => fold_right Z.add 0 (map leaves cs)
  | Predicate_Not c => leaves c
  | _ => 1
  end.
Definition total_leaves (rules : list Rule) : Z := fold_right Z.add 0 (map (fun r => leaves (r_predicate r)) rules).
(** What a loaded manifest may ask of a tick. *)
Definition bounded (m : CompiledManifest) : Prop :=
  len (cm_rules m) <= MAX_RULES_PER_MANIFEST
  /\ Forall (fun r => depth (r_predicate r) <= MAX_PREDICATE_DEPTH /\ leaves (r_predicate r) <= MAX_MATCHERS_PER_RULE) (cm_rules m)
  /\ total_leaves (cm_rules m) <= MAX_MATCHERS_PER_MANIFEST.
(** A budget that has not been overrun, and what is spent between two. *)
Definition solvent (b : Budget) : Prop := rule_matchers b <= MAX_MATCHERS_PER_RULE /\ manifest_matchers b <= MAX_MATCHERS_PER_MANIFEST.
Definition spent (b b' : Budget) (n : Z) : Prop := rule_matchers b' = rule_matchers b + n /\ manifest_matchers b' = manifest_matchers b + n.

Lemma charge_leaf_spec op pat b b' : charge_leaf op pat b = Ok b' -> solvent b' /\ spent b b' 1.
Proof.
  unfold charge_leaf, charge_matcher, solvent, spent. destruct (_ <? len _); [done|]. simpl.
  destruct (Z.ltb_spec MAX_MATCHERS_PER_RULE (rule_matchers b + 1)); [done|]. destruct (Z.ltb_spec MAX_MATCHERS_PER_MANIFEST (manifest_matchers b + 1)); [done|].
  intros [= <-]. simpl. lia.
Qed.
Definition compiles_well (spec : PredicateSpec) : Prop :=
  forall d b p b', solvent b -> compile to_lowercase spec d b = Ok (p, b') -> d + depth p <= MAX_PREDICATE_DEPTH + 1 /\ spent b b' (leaves p) /\ solvent b'.
(** The loop over the children of a node at depth [d]. *)
Definition compile_all (d : Z) : list PredicateSpec -> Budget -> result bytes (list Predicate * Budget) := fix compile_all (cs : list PredicateSpec) (budget : Budget) : result bytes (list Predicate * Budget) :=
  match cs with
  | [] => Ok ([], budget)
  | c :: cs => '(p, budget) ← compile to_lowercase c (d + 1) budget; '(ps, budget) ← compile_all cs budget; Ok (p :: ps, budget)
  end.
Lemma compile_all_spec d cs : Forall compiles_well cs -> d <= MAX_PREDICATE_DEPTH -> forall b ps b', solvent b -> compile_all d cs b = Ok (ps, b') ->
  d + (1 + fold_right Z.max 0 (map depth ps)) <= MAX_PREDICATE_DEPTH + 1 /\ spent b b' (fold_right Z.add 0 (map leaves ps)) /\ solvent b'.
Proof.
  intros HF Hd. induction HF as [|c cs Hc HF IH]; intros b ps b' Hs H; cbn [compile_all] in H.
  - injection H as <- <-. simpl. split; [lia|]. split; [|done]. unfold spent. lia.
  - destruct (compile to_lowercase c (d + 1) b) as [[p b1]|] eqn:E1; [|done]. simpl in H.
    destruct (compile_all d cs b1) as [[ps' b2]|] eqn:E2; [|done]. simpl in H. injection H as <- <-.
    destruct (Hc _ _ _ _ Hs E1) as (A1 & A2 & A3). destruct (IH _ _ _ A3 E2) as (B1 & B2 & B3). unfold spent in *. simpl. split; [lia|]. split; [lia|done].
Qed.
Lemma compile_spec spec : compiles_well spec.
Proof.
  induction spec as [n|pat|pat|cs HF|cs HF|c IH] using spec_induction; intros d b p b' Hs H; cbn [compile] in H;
    destruct (Z.ltb_spec MAX_PREDICATE_DEPTH d) as [|Hd]; try done; fold (compile_all d) in H.
  1-3: destruct (charge_leaf _ _ b) as [b1|] eqn:E; [|done]; apply charge_leaf_spec in E as [E1 E2]; simpl in H;
       try (destruct (map_err _ _) as [re|]; [|done]; simpl in H); injection H as <- <-; simpl; split; [lia|done].
  1-2: destruct (compile_all d cs b) as [[ps b1]|] eqn:E; [|done]; simpl in H; injection H as <- <-; by eapply compile_all_spec.
  destruct (compile to_lowercase c (d + 1) b) as [[q b1]|] eqn:E; [|done]. simpl in H. injection H as <- <-.
  destruct (IH _ _ _ _ Hs E) as (A & B & C). simpl. split; [lia|done].
Qed.

Lemma leaves_nonneg p : 0 <= leaves p.
Proof.
  induction p as [n|re|re|cs HF|cs HF|c IH] using predicate_induction; simpl; try lia; induction HF; simpl; lia.
Qed.
Lemma total_leaves_nonneg rules : 0 <= total_leaves rules.
Proof. unfold total_leaves. induction rules as [|r rules IH]; simpl; [lia|]. pose proof (leaves_nonneg (r_predicate r)). lia. Qed.
Lemma compile_rules_spec specs : forall b rules, manifest_matchers b <= MAX_MATCHERS_PER_MANIFEST -> compile_rules to_lowercase specs b = Ok rules ->
  len rules = len specs
  /\ Forall (fun r => depth (r_predicate r) <= MAX_PREDICATE_DEPTH /\ leaves (r_predicate r) <= MAX_MATCHERS_PER_RULE) rules
  /\ manifest_matchers b + total_leaves rules <= MAX_MATCHERS_PER_MANIFEST.
Proof.
  induction specs as [|sp specs IH]; intros b rules Hb H; cbn [compile_rules] in H.
  - injection H as <-. split; [done|]. split; [constructor|]. unfold total_leaves. simpl. lia.
  - destruct (match rs_state sp with None => _ | Some _ => _ end) as [st|]; [|done]. simpl in H.
    destruct (compile to_lowercase (rs_predicate sp) 1 _) as [[p b1]|] eqn:Ec; [|done]. simpl in H.
    destruct (compile_rules to_lowercase specs b1) as [rs|] eqn:Er; [|done]. simpl in H. injection H as <-.
    assert (Hs : solvent (mkBudget 0 (manifest_matchers b))) by (split; [done|exact Hb]).
    destruct (compile_spec _ _ _ _ _ Hs Ec) as (A & [B1 B2] & C1 & C2). simpl in B1, B2. destruct (IH b1 rs C2 Er) as (D & E & F).
    split; [unfold len in *; simpl; lia|]. split; [|unfold total_leaves in *; simpl; lia]. constructor; [|done]. simpl. split; [lia|]. lia.
Qed.

(** The invariant of a rule set: its manifests are bounded, and every name in the index is one of a manifest it has. *)
Record loaded_well (rs : RuleSet) : Prop := {
  lw_bounded : forall kind m, manifests rs !! kind = Some m -> bounded m;
  lw_indexed : forall name kind, by_binary rs !! name = Some kind -> is_Some (manifests rs !! kind);
}.
Lemma install_keeps rs spec rs' : loaded_well rs -> install to_lowercase rs spec = Ok rs' -> loaded_well rs'.
Proof.
  intros [Hb Hi] H. unfold install in H. case_bool_decide; [done|]. destruct (Z.ltb_spec MAX_RULES_PER_MANIFEST (len (ms_rules spec))) as [|Hlen]; [done|].
  destruct (compile_rules _ _ _) as [rules|] eqn:Ec; [|done]. simpl in H. injection H as <-.
  apply compile_rules_spec in Ec as (A & B & C); [simpl in C|done]. split; simpl.
  - intros kind m. destruct (decide (kind = ms_kind spec)) as [->|Hne]; [rewrite lookup_insert_eq|rewrite lookup_insert_ne by done; apply Hb].
    intros [= <-]. split; [simpl; lia|]. split; [done|simpl; lia].
  - intros name kind Hin.
    assert (Hk : kind = ms_kind spec \/ is_Some (manifests rs !! kind)).
    { revert Hin. assert (Hf0 : forall n k, filter (fun e => e.2 <> ms_kind spec) (by_binary rs) !! n = Some k -> k = ms_kind spec \/ is_Some (manifests rs !! k)).
      { intros n k Hk. apply map_lookup_filter_Some in Hk as [Hk _]. right. by eapply Hi. }
      revert Hf0. generalize (filter (fun e => e.2 <> ms_kind spec) (by_binary rs)) as m. induction (ms_binaries spec) as [|x l IH]; intros m Hf0; [apply Hf0|].
      simpl. apply IH. intros n k. destruct (decide (n = to_lowercase x)) as [->|Hne]; [rewrite lookup_insert_eq; intros [= <-]; by left|].
      rewrite lookup_insert_ne by done. apply Hf0. }
    destruct (decide (kind = ms_kind spec)) as [->|Hne]; [by rewrite lookup_insert_eq|]. rewrite lookup_insert_ne by done. by destruct Hk.
Qed.
Lemma load_keeps toml rs text : loaded_well rs -> loaded_well (load_manifest to_lowercase toml rs text).
Proof.
  intros H. unfold load_manifest. destruct (toml text) as [spec|]; [|done]. destruct (install to_lowercase rs spec) as [rs'|] eqn:E; [|done].
  by eapply install_keeps.
Qed.
Lemma build_loaded_well toml disabled builtin overrides : loaded_well (build to_lowercase toml disabled builtin overrides).
Proof.
  assert (H0 : loaded_well RuleSet_default) by (split; intros *; simpl; by rewrite lookup_empty). unfold build. destruct disabled; [done|].
  assert (H1 : forall l rs, loaded_well rs -> loaded_well (fold_left (load_manifest to_lowercase toml) l rs)).
  { induction l as [|x l IH]; intros rs H; [done|]. by apply IH, load_keeps. }
  destruct overrides as [files|]; [|by apply H1]. apply (H1 builtin) in H0. revert H0. generalize (fold_left (load_manifest to_lowercase toml) builtin RuleSet_default).
  induction (take MAX_OVERRIDE_MANIFESTS files) as [|f l IH]; intros rs H; [done|]. simpl. apply IH. unfold load_file.
  destruct (mf_len f); [|done]. destruct (_ <? _); [done|]. destruct (mf_text f); [by apply load_keeps|done].
Qed.
Lemma find_map_from {A B} (f : A -> option B) l b : find_map f l = Some b -> exists a, a ∈ l /\ f a = Some b.
Proof.
  induction l as [|a l IH]; [done|]. simpl. destruct (f a) eqn:E; [intros [= <-]; exists a; split; [left|done]|].
  intros H. destruct (IH H) as (x & Hx & Hf). exists x. split; [by right|done].
Qed.
Lemma match_program_indexed rs arg kind : match_program to_lowercase rs arg = Some kind -> exists name, by_binary rs !! name = Some kind.
Proof.
  unfold match_program, kind_for_binary. destruct (by_binary rs !! _) as [k|] eqn:E; [intros [= <-]; by eexists|]. destruct (negb _); [done|].
  intros H. apply find_map_from in H as (x & _ & Hx). by eexists.
Qed.
Lemma kind_from_argv_indexed rs argv kind : kind_from_argv to_lowercase rs argv = Some kind -> exists name, by_binary rs !! name = Some kind.
Proof.
  destruct argv as [|a argv]; [done|]. simpl. destruct (match_program to_lowercase rs a) eqn:E; [intros [= <-]; by eapply match_program_indexed|].
  destruct (negb _); [done|]. intros H. apply find_map_from in H as (x & _ & Hx). case_bool_decide; [done|]. by eapply match_program_indexed.
Qed.

(** C37: Whatever the manifests say, what is loaded is bounded. A rule set built from any built-in texts and any override directory holds
    only manifests of at most 128 rules and 1024 matchers, each rule of at most 32 matchers, eight levels deep; and the agent a process is
    taken for always has a manifest. *)
Theorem rule_sets_are_bounded toml disabled builtin overrides kind m argv :
  let rs := build to_lowercase toml disabled builtin overrides in
  (manifest rs kind = Some m -> bounded m)
  /\ (kind_from_argv to_lowercase rs argv = Some kind -> is_Some (manifest rs kind)).
Proof.
  intros rs. destruct (build_loaded_well toml disabled builtin overrides) as [Hb Hi]. split; [apply Hb|]. intros H.
  apply kind_from_argv_indexed in H as [name H]. by eapply Hi.
Qed.
End Loading.

(** ** On concrete screens *)

Definition fence : bytes := concat (repeat [0xe2; 0x94; 0x80] 12).
Definition side (s : bytes) : bytes := [0xe2; 0x94; 0x82] ++ s ++ [0xe2; 0x94; 0x82].
Definition cap (first last : Z) : bytes := [0xe2; 0x95; first] ++ fence ++ [0xe2; 0x95; last].
(** A question in the transcript above a fenced input, and a bordered one with a label. *)
Definition fenced_screen : list bytes := [str "Do you want to proceed?"; fence; str "> yes"; fence; str "  model 4.8"; []].
Definition bordered_screen : list bytes := [fence; str "Do you want to proceed?"; cap 0xad 0xae; side (str " > yes "); cap 0xb0 0xaf; str "? for shortcuts"].
Lemma prompt_box_is_the_live_box_witness :
  prompt_box fenced_screen = [str "> yes"] /\ prompt_box bordered_screen = [[]; str "> yes"; []]
  /\ (exists above body below, fenced_screen = above ++ body ++ below /\ hints below
    /\ ((Forall (fun l => is_box_line l = true) body /\ prompt_box fenced_screen = map strip_borders body
         /\ (forall l, last above = Some l -> is_box_line l = false))
        \/ exists top inner bottom, body = top :: inner ++ [bottom] /\ prompt_box fenced_screen = map strip_borders inner
             /\ is_rule top = true /\ is_rule bottom = true /\ is_box_line top = false /\ is_box_line bottom = false
             /\ Forall (fun l => chrome l = false) inner)).
Proof.
  split; [vm_compute; reflexivity|]. split; [vm_compute; reflexivity|]. apply prompt_box_is_the_live_box. intros H. vm_compute in H. discriminate H.
Defined.

(** A small rule set: patterns are plain substrings. *)
#[export] Instance plain_patterns : RegexEngine :=
  {| Regex := bytes; regex_new p := if bool_decide (p = str "(") then Err (str "unclosed group") else Ok p;
     is_match r t := contains t r; regex_text r := r |}.
Definition ascii_lower : bytes -> bytes := map to_ascii_lowercase.
Definition claude_spec : ManifestSpec := mkManifestSpec (str "claude") (Some (str "Claude")) (map str ["claude"; "claude-code"]%string)
  [mkRuleSpec (str "asks") (Some (str "blocked")) 10 Region_PromptBox (PredicateSpec_Contains (str "Proceed?")) false false;
   mkRuleSpec (str "busy") (Some (str "working")) 5 (Region_BottomLines 6)
     (PredicateSpec_All [PredicateSpec_Contains (str "esc to interrupt"); PredicateSpec_Not (PredicateSpec_Regex (str "pager"))]) false false;
   mkRuleSpec (str "rest") (Some (str "idle")) 1 Region_OscProgress (PredicateSpec_LineRegex (str "4;0")) true false;
   mkRuleSpec (str "pager") None 0 Region_Title (PredicateSpec_Contains (str "pager")) false true].
Definition some_toml (text : bytes) : option ManifestSpec := if bool_decide (text = str "claude.toml") then Some claude_spec else None.
Definition claude_rules : RuleSet := build ascii_lower some_toml false [str "claude.toml"; str "broken.toml"] None.
(** A command line that a shell runs names an agent by its last path component, although it is no program path: the documentation of
    [foreground_occupancy] says that a data path in such a string identifies nobody. *)
Theorem shell_command_is_taken_for_an_agent :
  kind_from_argv ascii_lower claude_rules (map str ["sh"; "-c"; "cd /home/u/claude/notes && make"]%string) = None
  /\ kind_from_argv ascii_lower claude_rules (map str ["sh"; "-c"; "ls /home/u/claude"]%string) = Some (str "claude").
Proof. split; vm_compute; reflexivity. Qed.
(** One matcher too many drops a manifest whole. *)
Theorem overlong_rule_is_refused :
  install ascii_lower claude_rules (mkManifestSpec (str "claude") None []
    [mkRuleSpec (str "r") None 0 Region_Title (PredicateSpec_Any (repeat (PredicateSpec_Contains (str "x")) 33)) false false])
  = Err (str "rule `r`: more than 32 matchers in one rule").
Proof. vm_compute. reflexivity. Qed.
