(* ===== verification/Detector.v ===== *)
(** * The agent detector of a pane ([phux-server/src/agent_detect/mod.rs], [resource/terminal/events.rs])

    What a pane's engine concludes about the agent that runs in it: who it is, from the kernel; what it does, from the screen, a hook or a
    stream; and what of that is published. A tick takes the clock, the kernel's answers, the screen and the answer of the live-session
    probe as arguments. Durations are nanoseconds. *)

From stdpp Require Import gmap.
From S2P Require Import Prelude Enums ClientLayout Keybind Agent AckInput AgentDrain DetectRules.

Definition millis (n : Z) : Z := n * 1000000.
(* phux-server/src/agent_detect/mod.rs TICK_UNIDENTIFIED *)
Definition TICK_UNIDENTIFIED : Z := millis 500.
(* phux-server/src/agent_detect/mod.rs TICK_IDENTIFIED *)
Definition TICK_IDENTIFIED : Z := millis 300.
(* phux-server/src/agent_detect/mod.rs TICK_CONFIRMING *)
Definition TICK_CONFIRMING : Z := millis 100.
(* phux-server/src/agent_detect/mod.rs IDENTIFY_RECHECK *)
Definition IDENTIFY_RECHECK : Z := millis 5000.
(* phux-server/src/agent_detect/mod.rs VACANT_CONFIRMATIONS *)
Definition VACANT_CONFIRMATIONS : Z := 2.
(* phux-server/src/agent_detect/mod.rs IDENTIFY_ACQUIRE_WINDOW *)
Definition IDENTIFY_ACQUIRE_WINDOW : Z := millis 1500.
(* phux-server/src/agent_detect/mod.rs HOOK_IDENTITY_GRACE *)
Definition HOOK_IDENTITY_GRACE : Z := millis 1500.
(* phux-server/src/agent_detect/mod.rs IDENTIFY_ACQUIRE_POLL *)
Definition IDENTIFY_ACQUIRE_POLL : Z := millis 500.
(* phux-server/src/agent_detect/mod.rs STARTUP_GRACE *)
Definition STARTUP_GRACE : Z := millis 3000.
(* phux-server/src/agent_detect/mod.rs IDLE_CONFIRMATIONS *)
Definition IDLE_CONFIRMATIONS : Z := 3.
(* phux-server/src/agent_detect/mod.rs IDLE_HOLD_CAP *)
Definition IDLE_HOLD_CAP : Z := millis 700.

#[export] Instance DetectedState_eq_dec : EqDecision DetectedState.
Proof. solve_decision. Defined.
#[export] Instance AgentReport_eq_dec : EqDecision AgentReport.
Proof. solve_decision. Defined.
#[export] Instance PaneOccupant_eq_dec : EqDecision PaneOccupant.
Proof. solve_decision. Defined.

(* phux-server/src/agent_detect/mod.rs DetectOutcome *)
Inductive DetectOutcome : Type :=
| Outcome_Quiet | Outcome_Publish (r : AgentReport) | Outcome_Reidentified (kind name : bytes) | Outcome_Retract.
(* phux-server/src/agent_detect/mod.rs Cadence *)
Inductive Cadence : Type := Cadence_Unidentified | Cadence_Identified | Cadence_Confirming.
#[export] Instance Cadence_eq_dec : EqDecision Cadence.
Proof. solve_decision. Defined.
(* phux-server/src/agent_detect/mod.rs PendingIdle *)
Record PendingIdle : Type := mkPendingIdle { confirmations : Z; since : Instant }.

(** The two intervals an environment variable may shorten. *)
(* phux-server/src/agent_detect/mod.rs identify_recheck *)
Definition identify_recheck (env_ms : option Z) : Z := default IDENTIFY_RECHECK (millis <$> env_ms).
(* phux-server/src/agent_detect/mod.rs startup_grace *)
Definition startup_grace (env_ms : option Z) : Z := default STARTUP_GRACE (millis <$> env_ms).
(** [u8::saturating_add] of one. *)
Definition saturating_succ8 (n : Z) : Z := Z.min u8_max (n + 1).

Section Detector.
Context {RE : RegexEngine} (to_lowercase : bytes -> bytes) (recheck_env grace_env : option Z).

(* phux-server/src/agent_detect/mod.rs AgentDetector *)
Record AgentDetector : Type := mkDetector {
  rules : RuleSet;
  identified : option bytes;
  identified_occupant : option Occupant;
  last_pgid : option Z;
  vacant_streak : Z;
  next_identify : Instant;
  started : Instant;
  identified_at : option Instant;
  published : option AgentReport;
  pending_idle : option PendingIdle;
  current : option DetectedState;
  published_occupant : option PaneOccupant;
  pending_occupant : option PaneOccupant;
  pending_hook : option (DetectedState * Instant);
  published_source : EvidenceSource;
  live_session_held : bool;
  stream_state : option DetectedState;
  cadence : Cadence
}.
(** The assignments to its fields. *)
Definition set_identified (v : option bytes) (d : AgentDetector) : AgentDetector :=
  mkDetector (rules d) v (identified_occupant d) (last_pgid d) (vacant_streak d) (next_identify d) (started d) (identified_at d) (published d) (pending_idle d) (current d) (published_occupant d) (pending_occupant d) (pending_hook d) (published_source d) (live_session_held d) (stream_state d) (cadence d).
Definition set_identified_occupant (v : option Occupant) (d : AgentDetector) : AgentDetector :=
  mkDetector (rules d) (identified d) v (last_pgid d) (vacant_streak d) (next_identify d) (started d) (identified_at d) (published d) (pending_idle d) (current d) (published_occupant d) (pending_occupant d) (pending_hook d) (published_source d) (live_session_held d) (stream_state d) (cadence d).
Definition set_last_pgid (v : option Z) (d : AgentDetector) : AgentDetector :=
  mkDetector (rules d) (identified d) (identified_occupant d) v (vacant_streak d) (next_identify d) (started d) (identified_at d) (published d) (pending_idle d) (current d) (published_occupant d) (pending_occupant d) (pending_hook d) (published_source d) (live_session_held d) (stream_state d) (cadence d).
Definition set_vacant_streak (v : Z) (d : AgentDetector) : AgentDetector :=
  mkDetector (rules d) (identified d) (identified_occupant d) (last_pgid d) v (next_identify d) (started d) (identified_at d) (published d) (pending_idle d) (current d) (published_occupant d) (pending_occupant d) (pending_hook d) (published_source d) (live_session_held d) (stream_state d) (cadence d).
Definition set_next_identify (v : Instant) (d : AgentDetector) : AgentDetector :=
  mkDetector (rules d) (identified d) (identified_occupant d) (last_pgid d) (vacant_streak d) v (started d) (identified_at d) (published d) (pending_idle d) (current d) (published_occupant d) (pending_occupant d) (pending_hook d) (published_source d) (live_session_held d) (stream_state d) (cadence d).
Definition set_identified_at (v : option Instant) (d : AgentDetector) : AgentDetector :=
  mkDetector (rules d) (identified d) (identified_occupant d) (last_pgid d) (vacant_streak d) (next_identify d) (started d) v (published d) (pending_idle d) (current d) (published_occupant d) (pending_occupant d) (pending_hook d) (published_source d) (live_session_held d) (stream_state d) (cadence d).
Definition set_published (v : option AgentReport) (d : AgentDetector) : AgentDetector :=
  mkDetector (rules d) (identified d) (identified_occupant d) (last_pgid d) (vacant_streak d) (next_identify d) (started d) (identified_at d) v (pending_idle d) (current d) (published_occupant d) (pending_occupant d) (pending_hook d) (published_source d) (live_session_held d) (stream_state d) (cadence d).
Definition set_pending_idle (v : option PendingIdle) (d : AgentDetector) : AgentDetector :=
  mkDetector (rules d) (identified d) (identified_occupant d) (last_pgid d) (vacant_streak d) (next_identify d) (started d) (identified_at d) (published d) v (current d) (published_occupant d) (pending_occupant d) (pending_hook d) (published_source d) (live_session_held d) (stream_state d) (cadence d).
Definition set_current (v : option DetectedState) (d : AgentDetector) : AgentDetector :=
  mkDetector (rules d) (identified d) (identified_occupant d) (last_pgid d) (vacant_streak d) (next_identify d) (started d) (identified_at d) (published d) (pending_idle d) v (published_occupant d) (pending_occupant d) (pending_hook d) (published_source d) (live_session_held d) (stream_state d) (cadence d).
Definition set_published_occupant (v : option PaneOccupant) (d : AgentDetector) : AgentDetector :=
  mkDetector (rules d) (identified d) (identified_occupant d) (last_pgid d) (vacant_streak d) (next_identify d) (started d) (identified_at d) (published d) (pending_idle d) (current d) v (pending_occupant d) (pending_hook d) (published_source d) (live_session_held d) (stream_state d) (cadence d).
Definition set_pending_occupant (v : option PaneOccupant) (d : AgentDetector) : AgentDetector :=
  mkDetector (rules d) (identified d) (identified_occupant d) (last_pgid d) (vacant_streak d) (next_identify d) (started d) (identified_at d) (published d) (pending_idle d) (current d) (published_occupant d) v (pending_hook d) (published_source d) (live_session_held d) (stream_state d) (cadence d).
Definition set_pending_hook (v : option (DetectedState * Instant)) (d : AgentDetector) : AgentDetector :=
  mkDetector (rules d) (identified d) (identified_occupant d) (last_pgid d) (vacant_streak d) (next_identify d) (started d) (identified_at d) (published d) (pending_idle d) (current d) (published_occupant d) (pending_occupant d) v (published_source d) (live_session_held d) (stream_state d) (cadence d).
Definition set_published_source (v : EvidenceSource) (d : AgentDetector) : AgentDetector :=
  mkDetector (rules d) (identified d) (identified_occupant d) (last_pgid d) (vacant_streak d) (next_identify d) (started d) (identified_at d) (published d) (pending_idle d) (current d) (published_occupant d) (pending_occupant d) (pending_hook d) v (live_session_held d) (stream_state d) (cadence d).
Definition set_live_session_held (v : bool) (d : AgentDetector) : AgentDetector :=
  mkDetector (rules d) (identified d) (identified_occupant d) (last_pgid d) (vacant_streak d) (next_identify d) (started d) (identified_at d) (published d) (pending_idle d) (current d) (published_occupant d) (pending_occupant d) (pending_hook d) (published_source d) v (stream_state d) (cadence d).
Definition set_stream_state (v : option DetectedState) (d : AgentDetector) : AgentDetector :=
  mkDetector (rules d) (identified d) (identified_occupant d) (last_pgid d) (vacant_streak d) (next_identify d) (started d) (identified_at d) (published d) (pending_idle d) (current d) (published_occupant d) (pending_occupant d) (pending_hook d) (published_source d) (live_session_held d) v (cadence d).
Definition set_cadence (v : Cadence) (d : AgentDetector) : AgentDetector :=
  mkDetector (rules d) (identified d) (identified_occupant d) (last_pgid d) (vacant_streak d) (next_identify d) (started d) (identified_at d) (published d) (pending_idle d) (current d) (published_occupant d) (pending_occupant d) (pending_hook d) (published_source d) (live_session_held d) (stream_state d) v.

(* phux-server/src/agent_detect/mod.rs AgentDetector::new *)
Definition AgentDetector_new (rs : RuleSet) (now : Instant) : AgentDetector :=
  mkDetector rs None None None 0 now now None None None None None None None Evidence_Screen false None Cadence_Unidentified.
(* phux-server/src/agent_detect/mod.rs AgentDetector::invalidate_published *)
Definition invalidate_published (d : AgentDetector) : AgentDetector := set_published None d.
(* phux-server/src/agent_detect/mod.rs AgentDetector::manifest_name *)
Definition manifest_name (d : AgentDetector) (kind : bytes) : bytes := match manifest (rules d) kind with Some m => cm_name m | None => kind end.

(* phux-server/src/agent_detect/mod.rs AgentDetector::report_hook_state *)
Definition report_hook_state (state : DetectedState) (now : Instant) (d : AgentDetector) : option AgentReport * AgentDetector :=
  if negb (outranks Evidence_Hook (published_source d)) then (None, set_pending_hook (Some (state, now)) d)
  else
    match identified d with
    | None => (None, set_pending_hook (Some (state, now)) d)
    | Some kind =>
        let report := mkReport kind (manifest_name d kind) state in
        let d := set_published_source Evidence_Hook (set_current (Some state) (set_cadence Cadence_Identified (set_pending_idle None d))) in
        if bool_decide (published d = Some report) then (None, d) else (Some report, set_published (Some report) d)
    end.
(* phux-server/src/agent_detect/mod.rs AgentDetector::report_stream_state *)
Definition report_stream_state (state : option DetectedState) (now : Instant) (d : AgentDetector) : option AgentReport * AgentDetector :=
  let d := set_stream_state state d in
  match state with
  | None => (None, set_pending_idle None (set_published_source Evidence_Screen d))
  | Some state =>
      let d := set_published_source Evidence_Stream d in
      match identified d with
      | None => (None, set_pending_hook (Some (state, now)) d)
      | Some kind =>
          let report := mkReport kind (manifest_name d kind) state in
          let d := set_current (Some state) (set_cadence Cadence_Identified (set_pending_idle None d)) in
          if bool_decide (published d = Some report) then (None, d) else (Some report, set_published (Some report) d)
      end
  end.

(* phux-server/src/agent_detect/mod.rs AgentDetector::screen_may_publish *)
Definition screen_may_publish (derived : DetectedState) (matched : bool) (d : AgentDetector) : bool :=
  let idle := bool_decide (derived = Detected_Idle) in
  match stream_state d with
  | None => idle
  | Some Detected_Done => idle && matched
  | Some _ => false
  end.
(* phux-server/src/agent_detect/mod.rs AgentDetector::interval *)
Definition interval (d : AgentDetector) : Z :=
  match cadence d with
  | Cadence_Unidentified => TICK_UNIDENTIFIED | Cadence_Identified => TICK_IDENTIFIED | Cadence_Confirming => TICK_CONFIRMING
  end.
(* phux-server/src/agent_detect/mod.rs AgentDetector::wants_screen *)
Definition wants_screen (terminal_dirty : bool) (d : AgentDetector) : bool :=
  if bool_decide (identified d = None) then false
  else if bool_decide (cadence d = Cadence_Confirming) then true
  else terminal_dirty || bool_decide (current d = None).

(** ** Identity *)

(* phux-server/src/agent_detect/mod.rs AgentDetector::apply_vacancy *)
Definition apply_vacancy (d : AgentDetector) : DetectOutcome * AgentDetector :=
  match identified d with
  | None => (Outcome_Quiet, set_vacant_streak 0 d)
  | Some _ =>
      let d := set_vacant_streak (saturating_succ8 (vacant_streak d)) d in
      if vacant_streak d <? VACANT_CONFIRMATIONS then (Outcome_Quiet, d)
      else
        let d := set_pending_idle None (set_identified_at None (set_identified_occupant None (set_identified None d))) in
        let d := set_vacant_streak 0 (set_cadence Cadence_Unidentified (set_pending_hook None (set_current None d))) in
        (Outcome_Retract, set_published None d)
  end.
(* phux-server/src/agent_detect/mod.rs AgentDetector::apply_agent *)
Definition apply_agent (now : Instant) (kind : bytes) (occupant : Occupant) (d : AgentDetector) : option DetectOutcome * AgentDetector :=
  let d := set_vacant_streak 0 d in
  let same_kind := bool_decide (identified d = Some kind) in
  let same_occupant := same_kind && match identified_occupant d with None => true | Some prior => same prior occupant end in
  if same_occupant then
    let occ := match identified_occupant d with
               | Some prior => if bool_decide (oc_started occupant = None) then mkOcc (oc_pgid occupant) (oc_started prior) else occupant
               | None => occupant
               end in
    (None, set_identified_occupant (Some occ) d)
  else
    let replaced := bool_decide (is_Some (identified d)) in
    let d := set_identified_at (Some now) (set_identified_occupant (Some occupant) (set_identified (Some kind) d)) in
    let d := set_cadence Cadence_Identified (set_current None (set_pending_idle None (set_published None d))) in
    if negb replaced then (None, d) else (Some (Outcome_Reidentified kind (manifest_name d kind)), d).
(* phux-server/src/agent_detect/mod.rs AgentDetector::apply_identity *)
Definition apply_identity (now : Instant) (occupancy : Occupancy) (d : AgentDetector) : option DetectOutcome * AgentDetector :=
  let d := match occupancy_pgid occupancy with Some pgid => set_last_pgid (Some pgid) d | None => d end in
  let acquiring := (match occupancy with Occupancy_Agent _ _ => false | _ => true end) && (now <? started d + IDENTIFY_ACQUIRE_WINDOW) in
  let d := set_next_identify (now + (if acquiring then IDENTIFY_ACQUIRE_POLL else identify_recheck recheck_env)) d in
  match occupancy with
  | Occupancy_Unresolved => (Some Outcome_Quiet, d)
  | Occupancy_Vacant _ => let '(o, d) := apply_vacancy d in (Some o, d)
  | Occupancy_Agent kind occupant => apply_agent now kind occupant d
  end.
(* phux-server/src/agent_detect/mod.rs AgentDetector::reidentify *)
Definition reidentify (now : Instant) (os : ProcQuery) (master_fd pane_child_pid : option Z) (d : AgentDetector) : option DetectOutcome * AgentDetector :=
  let '(found, occupant) := foreground_observation to_lowercase (rules d) os master_fd pane_child_pid in
  let d := match occupant with
           | Some o => if bool_decide (published_occupant d = Some o) then d else set_pending_occupant (Some o) d
           | None => d
           end in
  apply_identity now found d.
(* phux-server/src/agent_detect/mod.rs AgentDetector::maybe_identify *)
Definition maybe_identify (now : Instant) (os : ProcQuery) (master_fd pane_child_pid : option Z) (d : AgentDetector)
    : option DetectOutcome * AgentDetector :=
  if next_identify d <=? now then reidentify now os master_fd pane_child_pid d
  else
    match foreground_pgid os master_fd with
    | Some pgid => if bool_decide (Some pgid = last_pgid d) then (None, d) else reidentify now os master_fd pane_child_pid d
    | None => (None, d)
    end.
(* phux-server/src/agent_detect/mod.rs AgentDetector::take_occupant_update *)
Definition take_occupant_update (d : AgentDetector) : option PaneOccupant * AgentDetector := (pending_occupant d, set_pending_occupant None d).
(* phux-server/src/agent_detect/mod.rs AgentDetector::occupant_update_sent *)
Definition occupant_update_sent (o : PaneOccupant) (d : AgentDetector) : AgentDetector := set_published_occupant (Some o) d.
(* phux-server/src/agent_detect/mod.rs AgentDetector::retry_occupant_update *)
Definition retry_occupant_update (o : PaneOccupant) (d : AgentDetector) : AgentDetector := set_pending_occupant (Some o) d.

(** ** The tick *)

(* phux-server/src/agent_detect/mod.rs AgentDetector::settle_idle *)
Definition settle_idle (now : Instant) (visible_idle : bool) (d : AgentDetector) : bool * AgentDetector :=
  let releasing_work := match published d with Some r => bool_decide (rep_state r = Detected_Working) | None => false end in
  if visible_idle || negb releasing_work then (true, set_cadence Cadence_Identified (set_pending_idle None d))
  else
    let d := set_cadence Cadence_Confirming d in
    let pending := default (mkPendingIdle 0 now) (pending_idle d) in
    let pending := mkPendingIdle (saturating_succ8 (confirmations pending)) (since pending) in
    let d := set_pending_idle (Some pending) d in
    let settled := (IDLE_CONFIRMATIONS <=? confirmations pending) || (IDLE_HOLD_CAP <=? saturating_sub now (since pending)) in
    if settled then (true, set_cadence Cadence_Identified (set_pending_idle None d)) else (false, d).

(** What a tick derives: nothing to go by, a frozen screen, or a state with the two marks of the evidence. *)
Inductive Derived : Type := Derived_Hold | Derived_Frozen | Derived_State (state : DetectedState) (visible_idle matched : bool).
(* phux-server/src/agent_detect/mod.rs:773-829 AgentDetector::tick_for_pane *)
Definition derive (m : CompiledManifest) (title progress : bytes) (screen : option (list bytes)) (d : AgentDetector) : Derived :=
  match screen with
  | None => match current d with None => Derived_Hold | Some state => Derived_State state false false end
  | Some ls =>
      let evaluation := evaluate to_lowercase m (mkScreen title progress ls) in
      if ev_freeze evaluation then Derived_Frozen
      else Derived_State (default Detected_Idle (ev_state evaluation)) (ev_visible_idle evaluation) (bool_decide (is_Some (ev_state evaluation)))
  end.
(** Hysteresis, precedence and the edge filter, once a state is derived. *)
(* phux-server/src/agent_detect/mod.rs:831-887 AgentDetector::tick_for_pane *)
Definition publish_derived (now : Instant) (live_session : bool) (kind name : bytes) (derived : DetectedState) (visible_idle matched : bool)
    (d : AgentDetector) : DetectOutcome * AgentDetector :=
  let '(publishable, d) := match derived with
                           | Detected_Blocked | Detected_Working | Detected_Done => (true, set_cadence Cadence_Identified (set_pending_idle None d))
                           | Detected_Idle => settle_idle now visible_idle d
                           end in
  let d := set_current (Some derived) d in
  if negb publishable then (Outcome_Quiet, d)
  else if live_session && negb (screen_may_publish derived matched d) then (Outcome_Quiet, d)
  else
    let report := mkReport kind name derived in
    if bool_decide (published d = Some report) then (Outcome_Quiet, d) else (Outcome_Publish report, set_published (Some report) d).
(** A tick of a pane whose occupant is known to be an agent of [kind]. *)
(* phux-server/src/agent_detect/mod.rs:733-887 AgentDetector::tick_for_pane *)
Definition tick_identified (now : Instant) (live_session : bool) (title progress : bytes) (screen : option (list bytes)) (kind : bytes) (d : AgentDetector)
    : DetectOutcome * AgentDetector :=
  let hook := pending_hook d in
  let d := set_pending_hook None d in
  match ('(state, reported_at) ← hook; if saturating_sub now reported_at <=? HOOK_IDENTITY_GRACE then Some state else None) with
  | Some state =>
      let report := mkReport kind (manifest_name d kind) state in
      let d := set_published (Some report) (set_current (Some state) (set_cadence Cadence_Identified (set_pending_idle None d))) in
      (Outcome_Publish report, d)
  | None =>
      let anchor := default (started d) (identified_at d) in
      if now <? anchor + startup_grace grace_env then (Outcome_Quiet, d)
      else
        match manifest (rules d) kind with
        | None => (Outcome_Quiet, d)
        | Some m =>
            match derive m title progress screen d with
            | Derived_Hold => (Outcome_Quiet, d)
            | Derived_Frozen =>
                (Outcome_Quiet, set_current (rep_state <$> published d) (set_cadence Cadence_Identified (set_pending_idle None d)))
            | Derived_State state visible_idle matched => publish_derived now live_session kind (cm_name m) state visible_idle matched d
            end
        end
  end.
(** The rank of this tick, read once: a session that has ended leaves the record to be written again. *)
(* phux-server/src/agent_detect/mod.rs:709-723 AgentDetector::tick_for_pane *)
Definition note_live_session (live_session : bool) (d : AgentDetector) : AgentDetector :=
  set_live_session_held live_session (if live_session_held d && negb live_session then set_stream_state None (invalidate_published d) else d).
(* phux-server/src/agent_detect/mod.rs AgentDetector::tick_for_pane *)
Definition tick_for_pane (now : Instant) (live_session : bool) (os : ProcQuery) (master_fd pane_child_pid : option Z) (title progress : bytes)
    (screen : option (list bytes)) (d : AgentDetector) : DetectOutcome * AgentDetector :=
  let d := note_live_session live_session d in
  let '(resolved, d) := maybe_identify now os master_fd pane_child_pid d in
  match resolved with
  | Some outcome => (outcome, d)
  | None =>
      match identified d with
      | None => (Outcome_Quiet, d)
      | Some kind => tick_identified now live_session title progress screen kind d
      end
  end.

(** ** The engine around it *)

(** The fields of a pane's engine the detector lives on. [sent] is what the channel to the drain has taken, in order; [sink] says whether
    one is wired. *)
(* phux-server/src/resource/terminal/mod.rs:830-871 TerminalActor *)
Record PaneActor : Type := mkActor {
  agent_detect : option AgentDetector; agent_dirty_since_detect : bool; last_title : bytes; last_progress : bytes;
  agent_state_sink : bool; sent : list AgentDetectEvent
}.
Definition set_agent_detect (v : option AgentDetector) (a : PaneActor) : PaneActor :=
  mkActor v (agent_dirty_since_detect a) (last_title a) (last_progress a) (agent_state_sink a) (sent a).
Definition set_dirty (v : bool) (a : PaneActor) : PaneActor :=
  mkActor (agent_detect a) v (last_title a) (last_progress a) (agent_state_sink a) (sent a).

(* phux-server/src/resource/terminal/run_loop.rs install_agent_detector *)
Definition install_agent_detector (rs : RuleSet) (has_pty : bool) (now : Instant) (a : PaneActor) : PaneActor :=
  if has_pty && agent_state_sink a && negb (rules_is_empty rs) then set_agent_detect (Some (AgentDetector_new rs now)) a else a.
(** [room] is the channel's answer to the event. *)
(* phux-server/src/resource/terminal/events.rs try_emit_agent_state *)
Definition try_emit_agent_state (room : bool) (e : AgentDetectEvent) (a : PaneActor) : bool * PaneActor :=
  if agent_state_sink a && room
  then (true, mkActor (agent_detect a) (agent_dirty_since_detect a) (last_title a) (last_progress a) (agent_state_sink a) (sent a ++ [e]))
  else (false, a).
(* phux-server/src/resource/terminal/events.rs emit_agent_state *)
Definition emit_agent_state (room : bool) (e : AgentDetectEvent) (a : PaneActor) : PaneActor := (try_emit_agent_state room e a).2.

(** What the world answers during one tick. *)
Record TickWorld : Type := mkTick {
  tw_now : Instant; tw_live : bool; tw_os : ProcQuery; tw_fd : option Z; tw_child : option Z; tw_viewport : option (list bytes);
  tw_room : AgentDetectEvent -> bool
}.
Definition event_of (o : DetectOutcome) : option AgentDetectEvent :=
  match o with
  | Outcome_Quiet => None
  | Outcome_Publish r => Some (Detect_State r)
  | Outcome_Reidentified kind name => Some (Detect_Reidentified kind name)
  | Outcome_Retract => Some Detect_Retract
  end.
(* phux-server/src/resource/terminal/events.rs detect_tick *)
Definition detect_tick (w : TickWorld) (a : PaneActor) : option Z * PaneActor :=
  match agent_detect a with
  | None => (None, a)
  | Some d =>
      let a := set_agent_detect None a in
      let '(screen, a) :=
        if wants_screen (agent_dirty_since_detect a) d
        then (tw_viewport w, if bool_decide (is_Some (tw_viewport w)) then set_dirty false a else a)
        else (None, a) in
      let '(outcome, d) := tick_for_pane (tw_now w) (tw_live w) (tw_os w) (tw_fd w) (tw_child w) (last_title a) (last_progress a) screen d in
      let '(occupant, d) := take_occupant_update d in
      let next := interval d in
      let '(d, a) :=
        match occupant with
        | None => (d, a)
        | Some o =>
            let '(taken, a) := try_emit_agent_state (tw_room w (Detect_Occupant o)) (Detect_Occupant o) a in
            (if taken then occupant_update_sent o d else retry_occupant_update o d, a)
        end in
      let a := set_agent_detect (Some d) a in
      (Some next, match event_of outcome with Some e => emit_agent_state (tw_room w e) e a | None => a end)
  end.
Definition unavailable : bytes := str "agent detection is unavailable for this pane".
(* phux-server/src/resource/terminal/events.rs apply_hook_state *)
Definition apply_hook_state (room : bool) (now : Instant) (state : DetectedState) (a : PaneActor) : result bytes unit * PaneActor :=
  match agent_detect a with
  | None => (Err unavailable, a)
  | Some d =>
      let '(report, d) := report_hook_state state now d in
      let a := set_agent_detect (Some d) a in
      let a := match report with Some r => emit_agent_state room (Detect_State r) a | None => a end in
      (Ok tt, set_dirty true a)
  end.
(** [appended]: the bound session took the synthesized record; without a session, or with its channel full or closed, it did not. *)
(* phux-server/src/resource/terminal/events.rs synthesize_state_record *)
Definition synthesize_state_record (appended room : bool) (now : Instant) (state : DetectedState) (a : PaneActor) : result bytes unit * PaneActor :=
  if negb appended then apply_hook_state room now state a
  else
    let a := match agent_detect a with
             | None => a
             | Some d =>
                 let '(report, d) := report_stream_state (Some state) now d in
                 let a := set_agent_detect (Some d) a in
                 match report with Some r => emit_agent_state room (Detect_State r) a | None => a end
             end in
    (Ok tt, set_dirty true a).
(* phux-server/src/resource/terminal/events.rs synthesize_state_record *)
Definition synthesized_record (state : DetectedState) : bytes :=
  [123; 34] ++ str "type" ++ [34; 58; 34] ++ str "state" ++ [34; 44; 34] ++ str "data" ++ [34; 58; 123; 34] ++ str "state" ++ [34; 58; 34]
  ++ state_word state ++ [34; 44; 34] ++ str "source" ++ [34; 58; 34] ++ str "hook" ++ [34; 125; 125; 10].
(** The control requests: the store was written by someone else, and the word of a live session. *)
(* phux-server/src/resource/terminal/events.rs:404-408 handle_control *)
Definition agent_record_invalidated (a : PaneActor) : PaneActor :=
  match agent_detect a with Some d => set_agent_detect (Some (invalidate_published d)) a | None => a end.
(* phux-server/src/resource/terminal/events.rs:409-441 handle_control *)
Definition handle_report_stream_state (room : bool) (now : Instant) (state : option DetectedState) (a : PaneActor) : result bytes unit * PaneActor :=
  match agent_detect a with
  | None => (Err unavailable, a)
  | Some d =>
      let '(report, d) := report_stream_state state now d in
      let a := set_agent_detect (Some d) a in
      let a := match report with Some r => emit_agent_state room (Detect_State r) a | None => a end in
      (Ok tt, set_dirty true a)
  end.
(** Output of the program: the grid is dirty, and the title and the progress are what they are now. *)
(* phux-server/src/resource/terminal/run_loop.rs ingest_pty_payload *)
Definition output_ingested (title progress : bytes) (a : PaneActor) : PaneActor :=
  mkActor (agent_detect a) true title progress (agent_state_sink a) (sent a).
End Detector.
Arguments AgentDetector {RE}.
Arguments PaneActor {RE}.
