(* ===== verification/DetectorProofs.v ===== *)
(** * What the agent detector promises

    Runs of a pane's engine: ticks, hooks, the word of a live session, writes of others and output, in any order and with any answers of
    the kernel, the screen and the channel. No state but idle is published that was not seen or reported of this very occupant; a
    departure takes two looks, and is noticed; what the detector believes it has told is what it has told, as long as the channel takes
    everything. *)

From stdpp Require Import gmap.
From S2P Require Import Prelude Enums ClientLayout Keybind Agent AckInput AgentDrain DetectRules Detector.

Section Runs.
Context {RE : RegexEngine} (to_lowercase : bytes -> bytes) (recheck_env grace_env : option Z).
#[local] Abbreviation tick_for_pane := (tick_for_pane to_lowercase recheck_env grace_env).
#[local] Abbreviation maybe_identify := (maybe_identify to_lowercase recheck_env).
#[local] Abbreviation reidentify := (reidentify to_lowercase recheck_env).
#[local] Abbreviation apply_identity := (apply_identity recheck_env).
#[local] Abbreviation detect_tick := (detect_tick to_lowercase recheck_env grace_env).
#[local] Abbreviation tick_identified := (tick_identified to_lowercase grace_env).
#[local] Abbreviation derive := (derive to_lowercase).
#[local] Abbreviation foreground_observation := (foreground_observation to_lowercase).

(** ** Runs *)

Inductive PaneMove : Type :=
| P_tick (w : TickWorld)
| P_hook (room : bool) (now : Instant) (state : DetectedState)
| P_synth (appended room : bool) (now : Instant) (state : DetectedState)
| P_stream (room : bool) (now : Instant) (state : option DetectedState)
| P_invalidated
| P_output (title progress : bytes).
Definition play (m : PaneMove) (a : PaneActor) : PaneActor :=
  match m with
  | P_tick w => (detect_tick w a).2
  | P_hook room now state => (apply_hook_state room now state a).2
  | P_synth appended room now state => (synthesize_state_record appended room now state a).2
  | P_stream room now state => (handle_report_stream_state room now state a).2
  | P_invalidated => agent_record_invalidated a
  | P_output title progress => output_ingested title progress a
  end.
Definition move_time (m : PaneMove) : option Instant :=
  match m with
  | P_tick w => Some (tw_now w)
  | P_hook _ now _ | P_synth _ _ now _ | P_stream _ now _ => Some now
  | _ => None
  end.
(** The screen a tick reads, and its look at the kernel's process table, where it takes one. *)
Definition screen_read (w : TickWorld) (a : PaneActor) : option (list bytes) :=
  match agent_detect a with Some d => if wants_screen (agent_dirty_since_detect a) d then tw_viewport w else None | None => None end.
Definition looks (w : TickWorld) (d : AgentDetector) : bool :=
  (next_identify d <=? tw_now w)
  || match foreground_pgid (tw_os w) (tw_fd w) with Some pgid => negb (bool_decide (Some pgid = last_pgid d)) | None => false end.
Definition look (w : TickWorld) (a : PaneActor) : option Occupancy :=
  d ← agent_detect a; if looks w d then Some (foreground_observation (rules d) (tw_os w) (tw_fd w) (tw_child w)).1 else None.

(** What has happened: the clock, the screens read, the states reported, and the looks. *)
Record History : Type := mkHistory { clock : Instant; seen : list (Instant * Screen); told : list (Instant * DetectedState); looked : list Occupancy }.
Definition remember (m : PaneMove) (a : PaneActor) (h : History) : History :=
  mkHistory
    (match move_time m with Some t => Z.max (clock h) t | None => clock h end)
    (seen h ++ match m with
               | P_tick w => match screen_read w a with Some ls => [(tw_now w, mkScreen (last_title a) (last_progress a) ls)] | None => [] end
               | _ => []
               end)
    (told h ++ match m with
               | P_hook _ now state | P_synth _ _ now state | P_stream _ now (Some state) => [(now, state)]
               | _ => []
               end)
    (looked h ++ match m with P_tick w => match look w a with Some o => [o] | None => [] end | _ => [] end).
(** A pane from the moment its detector is installed. *)
Inductive reached (rs : RuleSet) (t : Instant) : History -> PaneActor -> Prop :=
| reached_start dirty title progress : reached rs t (mkHistory t [] [] []) (mkActor (Some (AgentDetector_new rs t)) dirty title progress true [])
| reached_move h a m :
    reached rs t h a -> (forall now, move_time m = Some now -> clock h <= now) -> reached rs t (remember m a h) (play m a).

(** ** One tick, by what it does to the detector *)

(** The effect on the detector alone of the engine's bookkeeping around a tick. *)
Definition occupant_only (d d' : AgentDetector) : Prop :=
  exists p q, d' = set_published_occupant p (set_pending_occupant q d).
Lemma emit_spec room e a : agent_state_sink a = true ->
  (try_emit_agent_state room e a).1 = room /\ agent_detect (try_emit_agent_state room e a).2 = agent_detect a
  /\ agent_state_sink (try_emit_agent_state room e a).2 = true /\ sent (try_emit_agent_state room e a).2 = sent a ++ if room then [e] else [].
Proof. intros H. unfold try_emit_agent_state. rewrite H. destruct room; simpl; rewrite ?H, ?app_nil_r; done. Qed.
Lemma detect_tick_spec w a d : agent_detect a = Some d -> agent_state_sink a = true ->
  let screen := screen_read w a in
  let '(outcome, d1) := tick_for_pane (tw_now w) (tw_live w) (tw_os w) (tw_fd w) (tw_child w) (last_title a) (last_progress a) screen d in
  exists d2 occ, occupant_only d1 d2
    /\ agent_detect (play (P_tick w) a) = Some d2
    /\ agent_state_sink (play (P_tick w) a) = true
    /\ (forall e, e ∈ occ -> exists o, e = Detect_Occupant o)
    /\ sent (play (P_tick w) a) = sent a ++ occ ++ match event_of outcome with Some e => if tw_room w e then [e] else [] | None => [] end.
Proof.
  intros Ha Hs screen. cbn [play]. unfold Detector.detect_tick. rewrite Ha. subst screen. unfold screen_read. rewrite Ha.
  set (a0 := set_agent_detect None a).
  assert (exists a1 sc, (if wants_screen (agent_dirty_since_detect a0) d
        then (tw_viewport w, if bool_decide (is_Some (tw_viewport w)) then set_dirty false a0 else a0) else (None, a0)) = (sc, a1)
        /\ sc = (if wants_screen (agent_dirty_since_detect a) d then tw_viewport w else None)
        /\ last_title a1 = last_title a /\ last_progress a1 = last_progress a /\ agent_state_sink a1 = true /\ sent a1 = sent a) as (a1 & sc & E & -> & Et & Ep & Es & En).
  { subst a0. simpl. destruct (wants_screen _ d); [|by eexists _, _]. case_bool_decide; by eexists _, _. }
  rewrite E, Et, Ep. destruct (tick_for_pane _ _ _ _ _ _ _ _ d) as [outcome d1]. cbn [take_occupant_update].
  assert (exists d2 a2 occ, occupant_only d1 d2 /\ (forall e, e ∈ occ -> exists o, e = Detect_Occupant o) /\ agent_state_sink a2 = true /\ sent a2 = sent a ++ occ
     /\ match pending_occupant d1 with
        | None => (set_pending_occupant None d1, a1)
        | Some o => let '(taken, a) := try_emit_agent_state (tw_room w (Detect_Occupant o)) (Detect_Occupant o) a1 in
                    (if taken then occupant_update_sent o (set_pending_occupant None d1) else retry_occupant_update o (set_pending_occupant None d1), a)
        end = (d2, a2)) as (d2 & a2 & occ & H1 & H2 & H3 & H4 & ->).
  { destruct (pending_occupant d1) as [o|].
    - pose proof (emit_spec (tw_room w (Detect_Occupant o)) (Detect_Occupant o) a1 Es) as (E1 & E2 & E3 & E4).
      destruct (try_emit_agent_state _ _ a1) as [taken a2]. simpl in *. subst taken. exists (if tw_room w (Detect_Occupant o) then occupant_update_sent o (set_pending_occupant None d1) else retry_occupant_update o (set_pending_occupant None d1)), a2,
        (if tw_room w (Detect_Occupant o) then [Detect_Occupant o] else []). split; [|split; [|split; [done|split; [by rewrite E4, En|done]]]].
      + destruct (tw_room w _); [by eexists _, _|]. exists (published_occupant d1), (Some o). by destruct d1.
      + intros e He. exists o. destruct (tw_room w _); [by apply list_elem_of_singleton in He|by apply elem_of_nil in He].
    - exists (set_pending_occupant None d1), a1, []. split; [exists (published_occupant d1), None; by destruct d1|]. split; [by intros e He%elem_of_nil|].
      split; [done|]. split; [by rewrite app_nil_r|done]. }
  exists d2, occ. split; [done|]. destruct (event_of outcome) as [e|]; simpl.
  - pose proof (emit_spec (tw_room w e) e (set_agent_detect (Some d2) a2) H3) as (_ & E2 & E3 & E4). unfold emit_agent_state. rewrite E2, E3, E4. simpl.
    split; [done|]. split; [done|]. split; [done|]. by rewrite H4, app_assoc.
  - split; [done|]. split; [done|]. split; [done|]. by rewrite H4, app_nil_r.
Qed.

(** ** What the detector believes *)

(** A state other than idle has a source: a rule of the kind's own manifest that gave the verdict on a screen read after the grace of this
    occupant, or a report not older than the grace of a hook when the occupant was identified. *)
Definition backed (rs : RuleSet) (h : History) (kind : bytes) (t0 : Instant) (st : DetectedState) : Prop :=
  (exists t s m, (t, s) ∈ seen h /\ t0 + startup_grace grace_env <= t /\ manifest rs kind = Some m
     /\ ev_state (evaluate to_lowercase m s) = Some st /\ ev_freeze (evaluate to_lowercase m s) = false)
  \/ exists t, (t, st) ∈ told h /\ t0 <= t + HOOK_IDENTITY_GRACE.
Definition founded (rs : RuleSet) (h : History) (kind : bytes) (t0 : Instant) (st : DetectedState) : Prop := st = Detected_Idle \/ backed rs h kind t0 st.
Definition unanswered (o : Occupancy) : Prop := o = Occupancy_Unresolved.
Record believes (rs : RuleSet) (h : History) (d : AgentDetector) : Prop := {
  b_rules : rules d = rs;
  b_none : identified d = None -> identified_at d = None /\ current d = None /\ published d = None;
  b_some : forall k, identified d = Some k -> exists t0, identified_at d = Some t0 /\ t0 <= clock h
             /\ (forall st, current d = Some st -> founded rs h k t0 st)
             /\ (forall r, published d = Some r -> rep_kind r = k /\ rep_name r = manifest_name d k /\ founded rs h k t0 (rep_state r));
  b_hook : forall st t, pending_hook d = Some (st, t) -> (t, st) ∈ told h;
  b_streak : vacant_streak d = 0
             \/ (vacant_streak d = 1 /\ is_Some (identified d) /\ exists pre p us, looked h = pre ++ Occupancy_Vacant p :: us /\ Forall unanswered us)
}.

(** A later history. *)
Record later (h h' : History) : Prop := {
  lt_clock : clock h <= clock h';
  lt_seen : seen h ⊆ seen h';
  lt_told : told h ⊆ told h'
}.
Lemma founded_later rs h h' k t0 st : later h h' -> founded rs h k t0 st -> founded rs h' k t0 st.
Proof.
  intros [L1 L2 L3] [H|[(t & s & m & A & B)|(t & A & B)]]; [by left|right; left|right; right].
  - exists t, s, m. split; [by apply L2|done].
  - exists t. split; [by apply L3|done].
Qed.
Lemma believes_later rs h h' d : later h h' -> (looked h' = looked h \/ vacant_streak d = 0) -> believes rs h d -> believes rs h' d.
Proof.
  intros L Hk [B1 B2 B3 B4 B5]. pose proof L as [L1 L2 L3]. split; [done|done| | |].
  - intros k Hk'. destruct (B3 k Hk') as (t0 & A & B & C & D). exists t0. split; [done|]. split; [lia|]. split.
    + intros st Hst. by eapply founded_later, C.
    + intros r Hr. destruct (D r Hr) as (D1 & D2 & D3). split; [done|]. split; [done|]. by eapply founded_later.
  - intros st t Ht. by apply L3, B4.
  - destruct B5 as [B5|(B5 & B6 & B7)]; [by left|]. destruct Hk as [->|Hk]; [right; done|by left].
Qed.
Lemma believes_same rs h d d' :
  rules d' = rules d -> identified d' = identified d -> identified_at d' = identified_at d -> current d' = current d ->
  (published d' = published d \/ published d' = None) -> (pending_hook d' = pending_hook d \/ pending_hook d' = None) ->
  vacant_streak d' = vacant_streak d -> believes rs h d -> believes rs h d'.
Proof.
  intros E1 E2 E3 E4 E5 E6 E7 [B1 B2 B3 B4 B5]. split; rewrite ?E1, ?E2, ?E3, ?E4, ?E7; [done| | | |done].
  - intros Hn. destruct (B2 Hn) as (A & B & C). split; [done|]. split; [done|]. destruct E5 as [->| ->]; done.
  - intros k Hk. destruct (B3 k Hk) as (t0 & A & B & C & D). exists t0. split; [done|]. split; [done|]. split; [done|].
    intros r Hr. unfold manifest_name in *. rewrite E1. destruct E5 as [E5|E5]; rewrite E5 in Hr; [by apply D|done].
  - intros st t Ht. destruct E6 as [E6|E6]; rewrite E6 in Ht; [by apply B4|done].
Qed.
(** A state it has just been given. *)
Lemma believes_state rs h d d' k t0 st r :
  believes rs h d -> identified d = Some k -> identified_at d = Some t0 -> founded rs h k t0 st -> (r = None \/ r = Some (mkReport k (manifest_name d k) st) \/ r = published d) ->
  rules d' = rules d -> identified d' = identified d -> identified_at d' = identified_at d -> current d' = Some st -> published d' = r ->
  (pending_hook d' = pending_hook d \/ pending_hook d' = None) -> vacant_streak d' = vacant_streak d -> believes rs h d'.
Proof.
  intros [B1 B2 B3 B4 B5] Hk Ht Hf Hr E1 E2 E3 E4 E5 E6 E7. split; rewrite ?E1, ?E2, ?E3, ?E7; [done|by rewrite Hk| | |done].
  - intros k' Hk'. rewrite Hk in Hk'. injection Hk' as <-. destruct (B3 k Hk) as (t0' & A & B & C & D). rewrite Ht in A. injection A as <-.
    exists t0. split; [done|]. split; [done|]. split; [intros st' Hst; rewrite E4 in Hst; by injection Hst as <-|].
    intros r' Hr'. rewrite E5 in Hr'. unfold manifest_name in *. rewrite E1. destruct Hr as [->|[->| ->]]; [done| |by apply D]. by injection Hr' as <-.
  - intros st' t Hh. destruct E6 as [E6|E6]; rewrite E6 in Hh; [by apply B4|done].
Qed.

(** *** A look at the kernel *)

(** A departure on record: the last two answers said that no agent is there, and nothing but unanswered questions came between. *)
Definition gone_twice (os : list Occupancy) : Prop :=
  exists pre p us q, os = pre ++ Occupancy_Vacant p :: us ++ [Occupancy_Vacant q] /\ Forall unanswered us.
Definition looked_at (h : History) (o : Occupancy) : History := mkHistory (clock h) (seen h) (told h) (looked h ++ [o]).
Lemma believes_look rs h d now o :
  believes rs h d -> clock h = now ->
  let '(res, d') := apply_identity now o d in
  believes rs (looked_at h o) d' /\ (res = Some Outcome_Retract -> gone_twice (looked h ++ [o])) /\ (forall r, res <> Some (Outcome_Publish r)).
Proof.
  intros [B1 B2 B3 B4 B5] Hn. unfold Detector.apply_identity. set (acq := now + _).
  set (d1 := set_next_identify acq (match occupancy_pgid o with Some pgid => set_last_pgid (Some pgid) d | None => d end)).
  assert (E : rules d1 = rules d /\ identified d1 = identified d /\ identified_at d1 = identified_at d /\ current d1 = current d
     /\ published d1 = published d /\ pending_hook d1 = pending_hook d /\ vacant_streak d1 = vacant_streak d
     /\ identified_occupant d1 = identified_occupant d) by (subst d1; by destruct (occupancy_pgid o)).
  destruct E as (E1 & E2 & E3 & E4 & E5 & E6 & E7 & E8). clearbody d1. destruct o as [|p|kind occ].
  - split; [|done]. split; rewrite ?E1, ?E2, ?E3, ?E4, ?E5, ?E6, ?E7; [done|done| |done|].
    + intros k Hk. destruct (B3 k Hk) as (t0 & H). exists t0. unfold manifest_name in *. by rewrite E1.
    + destruct B5 as [B5|(B5 & B6 & pre & p & us & Hl & Hu)]; [by left|]. right. split; [done|]. split; [done|].
      exists pre, p, (us ++ [Occupancy_Unresolved]). simpl. rewrite Hl, <- app_assoc. split; [done|]. apply Forall_app. split; [done|by constructor].
  - unfold apply_vacancy. rewrite E2. destruct (identified d) as [k|] eqn:Hk.
    + simpl. rewrite E7. destruct B5 as [B5|(B5 & B6 & pre & p' & us & Hl & Hu)]; rewrite B5; simpl.
      * split; [|done]. split; simpl; rewrite ?E1, ?E2, ?E3, ?E4, ?E5, ?E6, ?Hk; [done|done| |done|].
        -- intros k' Hk'. injection Hk' as <-. destruct (B3 k eq_refl) as (t0 & H). exists t0. unfold manifest_name in *. simpl. by rewrite E1.
        -- right. split; [done|]. split; [done|]. exists (looked h), p, []. done.
      * split; [|split; [|done]]; [|intros _; exists pre, p', us, p; by rewrite Hl, <- app_assoc].
        split; simpl; [congruence|done|done|done|by left].
    + split; [|done]. destruct (B2 eq_refl) as (A1 & A2 & A3). split; simpl; rewrite ?E1, ?E2, ?E3, ?E4, ?E5, ?E6, ?Hk; [done|done|done|done|by left].
  - unfold apply_agent. simpl. rewrite E2, E8.
    destruct (bool_decide (identified d = Some kind) && _) eqn:Es.
    + split; [|done]. split; simpl; rewrite ?E1, ?E2, ?E3, ?E4, ?E5, ?E6; [done|done| |done|by left].
      intros k Hk. destruct (B3 k Hk) as (t0 & H). exists t0. unfold manifest_name in *. simpl. by rewrite E1.
    + assert (Hb : believes rs (looked_at h (Occupancy_Agent kind occ)) (set_cadence Cadence_Identified (set_current None (set_pending_idle None (set_published None
        (set_identified_at (Some now) (set_identified_occupant (Some occ) (set_identified (Some kind) (set_vacant_streak 0 d1))))))))).
      { split; simpl; [congruence|done| |by rewrite E6|by left]. intros k [= <-]. exists now. split; [done|]. split; [lia|]. done. }
      destruct (negb _); (split; [exact Hb|done]).
Qed.

(** *** The rest of a tick *)

Lemma believes_settle rs h d now vis : believes rs h d -> believes rs h (settle_idle now vis d).2
  /\ (settle_idle now vis d).2 = set_cadence (cadence (settle_idle now vis d).2) (set_pending_idle (pending_idle (settle_idle now vis d).2) d).
Proof.
  intros B. unfold settle_idle. destruct (_ || _); [split; [by eapply believes_same; [..|exact B]; auto|by destruct d]|].
  simpl. destruct (_ || _); (split; [by eapply believes_same; [..|exact B]; auto|by destruct d]).
Qed.
Lemma publish_derived_spec now live kind name st vis matched d :
  let '(o, d') := publish_derived now live kind name st vis matched d in
  rules d' = rules d /\ identified d' = identified d /\ identified_at d' = identified_at d /\ current d' = Some st
  /\ pending_hook d' = pending_hook d /\ vacant_streak d' = vacant_streak d
  /\ ((o = Outcome_Quiet /\ published d' = published d)
      \/ (o = Outcome_Publish (mkReport kind name st) /\ published d' = Some (mkReport kind name st))).
Proof.
  unfold publish_derived.
  assert (H : exists b c p, match st with
     | Detected_Blocked | Detected_Working | Detected_Done => (true, set_cadence Cadence_Identified (set_pending_idle None d))
     | Detected_Idle => settle_idle now vis d end = (b, set_cadence c (set_pending_idle p d))).
  { destruct st; try by eexists _, _, _. unfold settle_idle. destruct (_ || _); [by eexists _, _, _|]. simpl. destruct (_ || _); eexists _, _, _; by destruct d. }
  destruct H as (b & c & p & H). rewrite H. simpl. (destruct b; simpl; [|by split_and!; try done; left]);
    (destruct (live && _); [by split_and!; try done; left|]); (case_bool_decide; [by split_and!; try done; left|by split_and!; try done; right]).
Qed.
Lemma rest_of_tick rs h now live title progress screen d k :
  believes rs h d -> clock h = now -> identified d = Some k ->
  (forall ls, screen = Some ls -> (now, mkScreen title progress ls) ∈ seen h) ->
  let '(o, d') := tick_identified now live title progress screen k d in
  believes rs h d' /\ identified d' = Some k /\ (o = Outcome_Quiet \/ exists r, o = Outcome_Publish r /\ published d' = Some r /\ rep_kind r = k).
Proof.
  intros Bd Hc Hk Hscr. unfold Detector.tick_identified. pose proof (b_hook _ _ _ Bd) as Hhook.
  assert (B : believes rs h (set_pending_hook None d)) by (eapply believes_same; [..|exact Bd]; auto). cbv zeta.
  change (identified (set_pending_hook None d) = Some k) in Hk. revert B Hk. generalize (set_pending_hook None d). generalize dependent (pending_hook d).
  clear Bd d. intros hook Hhook d B Hk. pose proof B as [B1 B2 B3 B4 B5]. destruct (B3 k Hk) as (t0 & A1 & A2 & A3 & A4).
  destruct ('(state, reported_at) ← hook; _) as [st|] eqn:Eh.
  - destruct hook as [[st' t]|]; [|done]. simpl in Eh. destruct (Z.leb_spec (saturating_sub now t) HOOK_IDENTITY_GRACE) as [Hg|]; [|done]. injection Eh as ->.
    assert (Hf : founded rs h k t0 st).
    { right. right. exists t. split; [by apply Hhook|]. unfold saturating_sub in Hg. destruct (Z.leb_spec t now); lia. }
    split; [|split; [done|right; by eexists]]. eapply believes_state; [exact B|exact Hk|exact A1|exact Hf|right; left; reflexivity|done..|by left|done].
  - destruct (_ <? _) eqn:Eg; [split; [done|split; [done|by left]]|]. rewrite A1 in Eg. simpl in Eg. apply Z.ltb_ge in Eg.
    destruct (manifest (rules d) k) as [m|] eqn:Em; [|split; [done|split; [done|by left]]].
    destruct (derive m title progress screen d) as [| |st vis matched] eqn:Ed; [split; [done|split; [done|by left]]| |].
    + split; [|split; [done|by left]]. split; simpl; [done|by rewrite Hk| |done|done].
      intros k' Hk'. rewrite Hk in Hk'. injection Hk' as <-. exists t0. split; [done|]. split; [done|]. split; [|done].
      intros st Hst. destruct (published d) as [r|] eqn:Ep; [|done]. simpl in Hst. injection Hst as <-. by destruct (A4 r eq_refl) as (_ & _ & ?).
    + assert (Hf : founded rs h k t0 st).
      { unfold Detector.derive in Ed. destruct screen as [ls|].
        - destruct (ev_freeze _) eqn:Ef; [done|]. injection Ed as <- <- <-. destruct (ev_state _) as [st|] eqn:Es; [|by left]. right. left.
          exists now, (mkScreen title progress ls), m. split; [by apply Hscr|]. split; [lia|]. by rewrite <- B1.
        - destruct (current d) as [st'|] eqn:Ec; [|done]. injection Ed as <- <- <-. by apply A3. }
      pose proof (publish_derived_spec now live k (cm_name m) st vis matched d) as Hp. destruct (publish_derived now live k (cm_name m) st vis matched d) as [o d'].
      destruct Hp as (P1 & P2 & P3 & P4 & P5 & P6 & P7).
      assert (En : manifest_name d k = cm_name m) by (unfold manifest_name; by rewrite Em).
      split; [|split; [congruence|]].
      * destruct P7 as [[-> P7]|[-> P7]]; (eapply believes_state; [exact B|exact Hk|exact A1|exact Hf| |exact P1|exact P2|exact P3|exact P4|exact P7|by left|exact P6]);
          [by right; right|right; left; by rewrite En].
      * destruct P7 as [[-> P7]|[-> P7]]; [by left|right; by eexists].
Qed.

Definition with_look (h : History) (w : TickWorld) (d : AgentDetector) : History :=
  mkHistory (clock h) (seen h) (told h)
    (looked h ++ if looks w d then [(foreground_observation (rules d) (tw_os w) (tw_fd w) (tw_child w)).1] else []).
(** The identity step, in terms of the look. *)
Lemma maybe_identify_spec w d :
  exists d1, occupant_only d d1
    /\ maybe_identify (tw_now w) (tw_os w) (tw_fd w) (tw_child w) d
       = if looks w d then apply_identity (tw_now w) (foreground_observation (rules d) (tw_os w) (tw_fd w) (tw_child w)).1 d1 else (None, d).
Proof.
  assert (H : exists d1, occupant_only d d1 /\ reidentify (tw_now w) (tw_os w) (tw_fd w) (tw_child w) d
      = apply_identity (tw_now w) (foreground_observation (rules d) (tw_os w) (tw_fd w) (tw_child w)).1 d1).
  { unfold Detector.reidentify. destruct (foreground_observation _ _ _ _) as [found occ]. destruct occ as [o|]; [|exists d; split; [|done]].
    - case_bool_decide; [exists d; split; [|done]|exists (set_pending_occupant (Some o) d); split; [|done]];
        [exists (published_occupant d), (pending_occupant d); by destruct d|exists (published_occupant d), (Some o); by destruct d].
    - exists (published_occupant d), (pending_occupant d). by destruct d. }
  destruct H as (d1 & H1 & H2). exists d1. split; [done|]. unfold Detector.maybe_identify, looks. destruct (next_identify d <=? tw_now w); [done|]. simpl.
  destruct (foreground_pgid _ _) as [pgid|]; [|done]. by case_bool_decide.
Qed.
Lemma believes_occupant rs h d d' : occupant_only d d' -> believes rs h d -> believes rs h d'.
Proof. intros (p & q & ->). apply believes_same; auto. Qed.
Lemma with_look_later h w d : later h (with_look h w d).
Proof. by split. Qed.

(** What only a look can change. *)
Definition tenancy (d : AgentDetector) : option bytes * Z * Instant := (identified d, vacant_streak d, next_identify d).
Lemma note_live_spec live d :
  (forall w, looks w (note_live_session live d) = looks w d) /\ tenancy (note_live_session live d) = tenancy d /\ rules (note_live_session live d) = rules d
  /\ (forall rs h, believes rs h d -> believes rs h (note_live_session live d)).
Proof.
  unfold note_live_session. destruct (_ && _); (split; [done|]; split; [done|]; split; [done|]); intros rs h B; (eapply believes_same; [..|exact B]); auto.
Qed.
Lemma tick_believes rs h w title progress screen d :
  believes rs h d -> clock h = tw_now w -> (forall ls, screen = Some ls -> (tw_now w, mkScreen title progress ls) ∈ seen h) ->
  let '(o, d') := tick_for_pane (tw_now w) (tw_live w) (tw_os w) (tw_fd w) (tw_child w) title progress screen d in
  believes rs (with_look h w d) d' /\ (o = Outcome_Retract -> gone_twice (looked (with_look h w d)))
  /\ (forall r, o = Outcome_Publish r -> published d' = Some r /\ identified d' = Some (rep_kind r)).
Proof.
  intros B Hc Hscr. unfold Detector.tick_for_pane. destruct (note_live_spec (tw_live w) d) as (Hl & _ & Hr & HB). specialize (HB rs h B).
  set (d0 := note_live_session (tw_live w) d) in *. clearbody d0.
  destruct (maybe_identify_spec w d0) as (d1 & O1 & ->). apply (believes_occupant _ _ _ _ O1) in HB as B1. unfold with_look. rewrite <- (Hl w), <- Hr.
  assert (Hrest : forall d1 h1, believes rs h1 d1 -> clock h1 = clock h -> seen h1 = seen h -> told h1 = told h -> let '(o, d') :=
      match identified d1 with
      | None => (Outcome_Quiet, d1)
      | Some kind => tick_identified (tw_now w) (tw_live w) title progress screen kind d1
      end in
      believes rs h1 d' /\ (o = Outcome_Retract -> gone_twice (looked h1)) /\ (forall r, o = Outcome_Publish r -> published d' = Some r /\ identified d' = Some (rep_kind r))).
  { clear d1 O1 B1. intros d1 h1 B1 E1 E2 E3. destruct (identified d1) as [k|] eqn:Hk; [|done].
    pose proof (rest_of_tick rs h1 (tw_now w) (tw_live w) title progress screen d1 k B1 ltac:(congruence) Hk ltac:(intros; rewrite E2; by apply Hscr)) as H.
    destruct (tick_identified _ _ _ _ _ _ d1) as [o d']. destruct H as (H1 & H2 & H3). split; [done|].
    destruct H3 as [-> |(r & -> & H3 & H4)]; [done|]. split; [done|]. intros r' [= <-]. split; [done|]. by rewrite H2, H4. }
  destruct (looks w d0).
  - pose proof (believes_look rs h d1 (tw_now w) (foreground_observation (rules d0) (tw_os w) (tw_fd w) (tw_child w)).1 B1 Hc) as Hlk.
    destruct (apply_identity _ _ d1) as [res d2]. destruct Hlk as (L1 & L2 & L3). destruct res as [o|].
    + split; [exact L1|]. split; [intros ->; by apply L2|]. intros r ->. by destruct (L3 r).
    + exact (Hrest d2 _ L1 eq_refl eq_refl eq_refl).
  - rewrite app_nil_r. refine (Hrest d0 (mkHistory (clock h) (seen h) (told h) (looked h)) _ eq_refl eq_refl eq_refl). by destruct h.
Qed.

Lemma report_believes rs h d now st (k : bytes) d' :
  believes rs h d -> clock h = now -> (now, st) ∈ told h -> identified d = Some k ->
  rules d' = rules d -> identified d' = identified d -> identified_at d' = identified_at d -> current d' = Some st ->
  (published d' = published d \/ published d' = Some (mkReport k (manifest_name d k) st)) -> pending_hook d' = pending_hook d -> vacant_streak d' = vacant_streak d -> believes rs h d'.
Proof.
  intros B Hc Ht Hk E1 E2 E3 E4 E5 E6 E7. destruct (b_some _ _ _ B k Hk) as (t0 & A1 & A2 & _).
  assert (Hf : founded rs h k t0 st).
  { right. right. exists now. split; [done|]. unfold HOOK_IDENTITY_GRACE, millis. lia. }
  eapply believes_state; [exact B|exact Hk|exact A1|exact Hf| |exact E1|exact E2|exact E3|exact E4|reflexivity|by left|exact E7].
  destruct E5 as [->| ->]; [by right; right|by right; left].
Qed.
Lemma hook_believes rs h d now st : believes rs h d -> clock h = now -> (now, st) ∈ told h ->
  let '(o, d') := report_hook_state st now d in
  believes rs h d' /\ forall r, o = Some r -> published d' = Some r /\ identified d' = Some (rep_kind r).
Proof.
  intros B Hc Ht. unfold report_hook_state.
  assert (Hp : believes rs h (set_pending_hook (Some (st, now)) d)).
  { destruct B as [B1 B2 B3 B4 B5]. split; try done. simpl. by intros ? ? [= -> ->]. }
  destruct (negb _); [done|]. destruct (identified d) as [k|] eqn:Hk; [|done]. cbn [published set_published_source set_current set_cadence set_pending_idle].
  case_bool_decide.
  - split; [|done]. eapply (report_believes rs h d now st k _ B Hc Ht Hk); [done|done|done|done|by left|done|done].
  - split; [eapply (report_believes rs h d now st k _ B Hc Ht Hk); [done|done|done|done|by right|done|done]|]. intros r [= <-]. by simpl.
Qed.
Lemma stream_believes rs h d now st : believes rs h d -> clock h = now -> (forall s, st = Some s -> (now, s) ∈ told h) ->
  let '(o, d') := report_stream_state st now d in
  believes rs h d' /\ forall r, o = Some r -> published d' = Some r /\ identified d' = Some (rep_kind r).
Proof.
  intros B Hc Ht. unfold report_stream_state. destruct st as [st|]; [|split; [|done]; eapply believes_same; [..|exact B]; auto].
  specialize (Ht st eq_refl).
  set (d1 := set_published_source Evidence_Stream (set_stream_state (Some st) d)).
  assert (B' : believes rs h d1) by (eapply believes_same; [..|exact B]; auto). destruct (identified d1) as [k|] eqn:Hk.
  - cbn [published set_published_source set_current set_cadence set_pending_idle set_stream_state]. case_bool_decide.
    + split; [|done]. eapply (report_believes rs h d1 now st k _ B' Hc Ht Hk); [done|done|done|done|by left|done|done].
    + split; [eapply (report_believes rs h d1 now st k _ B' Hc Ht Hk); [done|done|done|done|by right|done|done]|]. intros r [= <-]. by simpl.
  - split; [|done]. destruct B as [B1 B2 B3 B4 B5]. split; try done. simpl. by intros ? ? [= -> ->].
Qed.

(** One move, with what it publishes. *)
Definition announced (a a' : PaneActor) (e : AgentDetectEvent) : Prop := e ∈ drop (length (sent a)) (sent a').
Lemma announced_app a a' es e : sent a' = sent a ++ es -> announced a a' e -> e ∈ es.
Proof. unfold announced. intros ->. by rewrite drop_app_length. Qed.
Definition alive (rs : RuleSet) (h : History) (a : PaneActor) : Prop :=
  agent_state_sink a = true /\ exists d, agent_detect a = Some d /\ believes rs h d.
(** What a step leaves behind: the belief, what a state it announces is, and what a departure is. *)
Record step_ok (rs : RuleSet) (h' : History) (a a' : PaneActor) : Prop := {
  so_alive : alive rs h' a';
  so_state : forall r, announced a a' (Detect_State r) -> exists d, agent_detect a' = Some d /\ published d = Some r /\ identified d = Some (rep_kind r);
  so_retract : announced a a' Detect_Retract -> gone_twice (looked h')
}.
Lemma silent_step rs h a a' : sent a' = sent a -> alive rs h a' -> step_ok rs h a a'.
Proof.
  intros E Hal. assert (Hn : forall e, ~ announced a a' e) by (intros e He; unfold announced in He; rewrite E, drop_ge in He by done; by apply elem_of_nil in He).
  split; [done|intros r Hr; by apply Hn in Hr|intros Hr; by apply Hn in Hr].
Qed.
Lemma report_step rs h a d o room : agent_state_sink a = true -> believes rs h d ->
  (forall r, o = Some r -> published d = Some r /\ identified d = Some (rep_kind r)) ->
  step_ok rs h a (set_dirty true (match o with Some r => emit_agent_state room (Detect_State r) (set_agent_detect (Some d) a) | None => set_agent_detect (Some d) a end)).
Proof.
  intros Hs B Ho. destruct o as [r|]; [|apply silent_step; [done|split; [done|by exists d]]].
  pose proof (emit_spec room (Detect_State r) (set_agent_detect (Some d) a) Hs) as (_ & E2 & E3 & E4). unfold emit_agent_state.
  set (a' := set_dirty true _). assert (Han : forall e, announced a a' e -> e = Detect_State r).
  { intros e He. apply (announced_app _ _ _ _ E4) in He. destruct room; [by apply list_elem_of_singleton in He|by apply elem_of_nil in He]. }
  split; [split; [exact E3|exists d; split; [exact E2|done]]| |intros Hr; by apply Han in Hr].
  intros r' Hr. apply Han in Hr as [= ->]. exists d. split; [exact E2|by apply Ho].
Qed.
Lemma tick_step rs h w a : alive rs h a -> clock h <= tw_now w -> step_ok rs (remember (P_tick w) a h) a (play (P_tick w) a).
Proof.
  intros (Hs & d & Ha & B) Hclk.
  set (h0 := mkHistory (clock (remember (P_tick w) a h)) (seen (remember (P_tick w) a h)) (told (remember (P_tick w) a h)) (looked h)).
  assert (B0 : believes rs h0 d) by (apply (believes_later _ h); [split; simpl; [lia|set_solver..]|by left|exact B]).
  assert (Hc : clock h0 = tw_now w) by (simpl; lia).
  assert (Eh : with_look h0 w d = remember (P_tick w) a h).
  { unfold with_look, remember, look. rewrite Ha. simpl. by destruct (looks w d). }
  pose proof (tick_believes rs h0 w (last_title a) (last_progress a) (screen_read w a) d B0 Hc) as Ht.
  pose proof (detect_tick_spec w a d Ha Hs) as Hd. cbv zeta in Hd. destruct (tick_for_pane _ _ _ _ _ _ _ _ d) as [o d1].
  destruct Hd as (d2 & occ & O & E1 & E2 & E3 & E4). destruct Ht as (T1 & T2 & T3).
  { intros ls Hls. simpl. rewrite Hls. apply elem_of_app. right. by apply list_elem_of_singleton. }
  rewrite Eh in T1, T2. assert (Hev : forall e, announced a (play (P_tick w) a) e -> (exists o, e = Detect_Occupant o) \/ event_of o = Some e).
  { intros e He. apply (announced_app _ _ _ _ E4) in He. apply elem_of_app in He as [He|He]; [left; by apply E3|].
    right. destruct (event_of o) as [e'|]; [|by apply elem_of_nil in He]. destruct (tw_room w e'); [by apply list_elem_of_singleton in He as ->|by apply elem_of_nil in He]. }
  split; [split; [done|exists d2; split; [done|by eapply believes_occupant]]| |].
  - intros r Hr. exists d2. split; [done|]. destruct (Hev _ Hr) as [[x ?]|He]; [done|]. destruct o; try done. simpl in He. injection He as ->.
    destruct O as (p & q & ->). by apply T3.
  - intros Hr. destruct (Hev _ Hr) as [[x ?]|He]; [done|]. destruct o; try done. by apply T2.
Qed.
Lemma reached_step rs h a m :
  alive rs h a -> (forall now, move_time m = Some now -> clock h <= now) -> step_ok rs (remember m a h) a (play m a).
Proof.
  intros Hal Hclk. pose proof Hal as (Hs & d & Ha & B). assert (L : later h (remember m a h)) by (split; simpl; [destruct (move_time m); lia|set_solver..]).
  assert (B0 : (forall w, m <> P_tick w) -> believes rs (remember m a h) d).
  { intros Hm. eapply believes_later; [exact L|left|exact B]. destruct m; simpl; rewrite ?app_nil_r; try done. by destruct (Hm w). }
  assert (Htold : forall now st, (now, st) ∈ told h ++ [(now, st)]) by (intros; apply elem_of_app; right; by apply list_elem_of_singleton).
  assert (Hc : forall now, move_time m = Some now -> clock (remember m a h) = now) by (intros now Hm; specialize (Hclk now Hm); simpl; rewrite Hm; lia).
  destruct m as [w|room now st|appended room now st|room now st| |ti pr]; [by apply tick_step; [|apply Hclk]|specialize (B0 ltac:(done))..].
  - cbn [play]. unfold apply_hook_state. rewrite Ha. pose proof (hook_believes rs _ d now st B0 (Hc _ eq_refl) (Htold _ _)) as Hh.
    destruct (report_hook_state st now d) as [o d']. destruct Hh. by apply report_step.
  - cbn [play]. unfold synthesize_state_record. destruct appended; simpl negb; cbn iota.
    + pose proof (stream_believes rs _ d now (Some st) B0 (Hc _ eq_refl) ltac:(intros ? [= <-]; apply Htold)) as Hh. rewrite Ha.
      destruct (report_stream_state (Some st) now d) as [o d']. destruct Hh. by apply report_step.
    + unfold apply_hook_state. rewrite Ha. pose proof (hook_believes rs _ d now st B0 (Hc _ eq_refl) (Htold _ _)) as Hh.
      destruct (report_hook_state st now d) as [o d']. destruct Hh. by apply report_step.
  - cbn [play]. unfold handle_report_stream_state. rewrite Ha. pose proof (stream_believes rs _ d now st B0 (Hc _ eq_refl)) as Hh.
    destruct (report_stream_state st now d) as [o d']. destruct Hh; [intros s ->; apply Htold|]. by apply report_step.
  - apply silent_step; cbn [play]; unfold agent_record_invalidated; rewrite Ha; [done|]. split; [done|]. exists (invalidate_published d). split; [done|].
    eapply believes_same; [..|exact B0]; auto.
  - apply silent_step; [done|]. split; [done|]. by exists d.
Qed.
Lemma reached_alive rs t h a : reached rs t h a -> alive rs h a.
Proof.
  induction 1 as [dirty ti pr|h a m _ IH Hclk]; [|by eapply so_alive, reached_step]. split; [done|]. eexists. split; [done|].
  split; [done|done|done|done|by left].
Qed.

(** C9: No state is invented. When a pane announces a state other than idle, it is a state of the agent that is there now, and either a rule of
    that agent's own manifest gave it as the verdict on a screen read after the grace that follows the agent's identification, or an
    integration reported it, at most the grace of a hook before the agent was identified. Whatever the kernel, the screen, the channel
    and other writers do. *)
Theorem states_are_founded rs t h a m r :
  reached rs t h a -> (forall now, move_time m = Some now -> clock h <= now) -> announced a (play m a) (Detect_State r) ->
  exists d t0, agent_detect (play m a) = Some d /\ identified d = Some (rep_kind r) /\ identified_at d = Some t0
    /\ rep_name r = manifest_name d (rep_kind r) /\ (rep_state r = Detected_Idle \/ backed rs (remember m a h) (rep_kind r) t0 (rep_state r)).
Proof.
  intros Hr Hclk Han. destruct (reached_step rs h a m (reached_alive _ _ _ _ Hr) Hclk) as [(_ & d' & Ha' & B) Hst _].
  destruct (Hst r Han) as (d & Ha & Hp & Hk). rewrite Ha in Ha'. injection Ha' as <-. destruct (b_some _ _ _ B _ Hk) as (t0 & A1 & _ & _ & A4).
  destruct (A4 r Hp) as (_ & En & Hf). by exists d, t0.
Qed.
(** A departure takes two looks. A pane withdraws its agent only when the kernel's last two answers said that no agent is in the
    foreground, with nothing but unanswered questions between them: a foreground job of a moment does not, and a question that goes
    unanswered, however often, does not. *)
Theorem departures_take_two_looks rs t h a m :
  reached rs t h a -> (forall now, move_time m = Some now -> clock h <= now) -> announced a (play m a) Detect_Retract ->
  gone_twice (looked (remember m a h)).
Proof. intros Hr Hclk Han. by apply (so_retract _ _ _ _ (reached_step rs h a m (reached_alive _ _ _ _ Hr) Hclk)). Qed.

(** ** A departure is noticed *)

(** A run that goes on, its ticks in worlds of one kind. *)
Inductive goes_on (V : TickWorld -> Prop) : History -> PaneActor -> History -> PaneActor -> Prop :=
| goes_nowhere h a : goes_on V h a h a
| goes_move h a h' a' m :
    goes_on V h a h' a' -> (forall now, move_time m = Some now -> clock h' <= now) -> (forall w, m = P_tick w -> V w) ->
    goes_on V h a (remember m a' h') (play m a').
Lemma goes_on_alive rs V h a h' a' : goes_on V h a h' a' -> alive rs h a -> alive rs h' a' /\ clock h <= clock h'.
Proof.
  intros G Hal. induction G as [h a|h a h' a' m G IH Hclk _]; [done|]. destruct (IH Hal) as [IH1 IH2].
  split; [by eapply so_alive, reached_step|]. simpl. destruct (move_time m); lia.
Qed.
Lemma report_tenancy_hook st now d : tenancy (report_hook_state st now d).2 = tenancy d.
Proof. unfold report_hook_state. destruct (negb _); [done|]. destruct (identified d); [|done]. simpl. by case_bool_decide. Qed.
Lemma report_tenancy_stream st now d : tenancy (report_stream_state st now d).2 = tenancy d.
Proof. unfold report_stream_state. destruct st; [|done]. simpl. destruct (identified d); [|done]. simpl. by case_bool_decide. Qed.
Lemma emitted_detector o room d a b :
  agent_detect (set_dirty b (match o with Some r => emit_agent_state room (Detect_State r) (set_agent_detect (Some d) a) | None => set_agent_detect (Some d) a end)) = Some d
  /\ exists es, sent (set_dirty b (match o with Some r => emit_agent_state room (Detect_State r) (set_agent_detect (Some d) a) | None => set_agent_detect (Some d) a end)) = sent a ++ es.
Proof.
  destruct o as [r|]; [|split; [done|exists []; by rewrite app_nil_r]]. unfold emit_agent_state, try_emit_agent_state. simpl.
  destruct (agent_state_sink a && room); (split; [done|]); [by eexists|exists []; by rewrite app_nil_r].
Qed.
Lemma other_move_tenancy m a d : agent_detect a = Some d -> (forall w, m <> P_tick w) ->
  exists d' es, agent_detect (play m a) = Some d' /\ tenancy d' = tenancy d /\ sent (play m a) = sent a ++ es.
Proof.
  intros Ha Hm.
  assert (Hh : forall room now st, exists d' es, agent_detect (apply_hook_state room now st a).2 = Some d' /\ tenancy d' = tenancy d /\ sent (apply_hook_state room now st a).2 = sent a ++ es).
  { intros room now st. unfold apply_hook_state. rewrite Ha. pose proof (report_tenancy_hook st now d) as Ht. destruct (report_hook_state st now d) as [o d'].
    destruct (emitted_detector o room d' a true) as (E1 & es & E2). by exists d', es. }
  assert (Hst : forall room now st, exists d' es, agent_detect (handle_report_stream_state room now st a).2 = Some d' /\ tenancy d' = tenancy d /\ sent (handle_report_stream_state room now st a).2 = sent a ++ es).
  { intros room now st. unfold handle_report_stream_state. rewrite Ha. pose proof (report_tenancy_stream st now d) as Ht. destruct (report_stream_state st now d) as [o d'].
    destruct (emitted_detector o room d' a true) as (E1 & es & E2). by exists d', es. }
  destruct m as [w|room now st|appended room now st|room now st| |ti pr]; [by destruct (Hm w)|apply Hh| |apply Hst| |].
  - cbn [play]. unfold synthesize_state_record. destruct appended; [|apply Hh]. specialize (Hst room now (Some st)). unfold handle_report_stream_state in Hst.
    rewrite Ha in *. destruct (report_stream_state (Some st) now d) as [o d']. exact Hst.
  - cbn [play]. unfold agent_record_invalidated. rewrite Ha. exists (invalidate_published d), []. by rewrite app_nil_r.
  - exists d, []. by rewrite app_nil_r.
Qed.

Definition recheck_bound : Z := Z.max IDENTIFY_ACQUIRE_POLL (identify_recheck recheck_env).
(** The kernel answers, and says that the foreground is no agent; and the channel has room for a departure. *)
Definition vacated (rs : RuleSet) (w : TickWorld) : Prop :=
  (exists p, (foreground_observation rs (tw_os w) (tw_fd w) (tw_child w)).1 = Occupancy_Vacant p) /\ tw_room w Detect_Retract = true.
Lemma settled_tenancy now vis d : tenancy (settle_idle now vis d).2 = tenancy d.
Proof. unfold settle_idle. destruct (_ || _); [done|]. simpl. by destruct (_ || _). Qed.
Lemma published_tenancy now live kind name st vis matched d : tenancy (publish_derived now live kind name st vis matched d).2 = tenancy d.
Proof.
  unfold publish_derived. pose proof (settled_tenancy now vis d) as H.
  destruct st; [destruct (settle_idle now vis d) as [[] d']; [|exact H]|..]; simpl in *; (destruct (live && _); [done|]); by case_bool_decide.
Qed.
Lemma identified_tenancy now live title progress screen k d : tenancy (tick_identified now live title progress screen k d).2 = tenancy d.
Proof.
  unfold Detector.tick_identified. cbv zeta. destruct (pending_hook d ≫= _); [done|]. destruct (_ <? _); [done|]. destruct (manifest _ k) as [m|]; [|done].
  destruct (derive m title progress screen _); [done|done|]. etrans; [apply published_tenancy|done].
Qed.
Lemma unlooked_tenancy w d title progress screen : looks w d = false ->
  tenancy (tick_for_pane (tw_now w) (tw_live w) (tw_os w) (tw_fd w) (tw_child w) title progress screen d).2 = tenancy d.
Proof.
  intros Hl. unfold Detector.tick_for_pane. destruct (note_live_spec (tw_live w) d) as (E1 & E2 & _). rewrite <- E2.
  destruct (maybe_identify_spec w (note_live_session (tw_live w) d)) as (d1 & _ & ->). rewrite E1, Hl.
  destruct (identified _) as [k|]; [apply identified_tenancy|done].
Qed.
Lemma vacancy_spec d :
  match identified d with
  | None => apply_vacancy d = (Outcome_Quiet, set_vacant_streak 0 d)
  | Some _ => (vacant_streak d = 0 -> apply_vacancy d = (Outcome_Quiet, set_vacant_streak 1 d))
              /\ (vacant_streak d = 1 -> (apply_vacancy d).1 = Outcome_Retract /\ identified (apply_vacancy d).2 = None)
  end.
Proof. unfold apply_vacancy. destruct (identified d) as [k|]; [|done]. split; intros E; simpl; by rewrite E. Qed.
Lemma vacant_look now p d : exists d1,
  identified d1 = identified d /\ vacant_streak d1 = vacant_streak d /\ next_identify d1 <= now + recheck_bound
  /\ apply_identity now (Occupancy_Vacant p) d = (Some (apply_vacancy d1).1, (apply_vacancy d1).2).
Proof.
  exists (set_next_identify (now + (if now <? started d + IDENTIFY_ACQUIRE_WINDOW then IDENTIFY_ACQUIRE_POLL else identify_recheck recheck_env)) (set_last_pgid (Some p) d)).
  split; [done|]. split; [done|]. split; [simpl; unfold recheck_bound; destruct (_ <? _); lia|].
  unfold Detector.apply_identity. cbn [occupancy_pgid andb started set_last_pgid]. by destruct (apply_vacancy _).
Qed.
Lemma vacant_tick rs h w d title progress screen : believes rs h d -> vacated rs w ->
  let '(o, d') := tick_for_pane (tw_now w) (tw_live w) (tw_os w) (tw_fd w) (tw_child w) title progress screen d in
  (identified d = None -> identified d' = None)
  /\ (is_Some (identified d) ->
      (looks w d = false /\ tenancy d' = tenancy d)
      \/ (looks w d = true /\ vacant_streak d = 0 /\ is_Some (identified d') /\ vacant_streak d' = 1 /\ next_identify d' <= tw_now w + recheck_bound)
      \/ (looks w d = true /\ vacant_streak d = 1 /\ identified d' = None /\ o = Outcome_Retract)).
Proof.
  intros B [[p Hv] _]. destruct (looks w d) eqn:El.
  2: { pose proof (unlooked_tenancy w d title progress screen El) as Ht. destruct (tick_for_pane _ _ _ _ _ _ _ _ d) as [o d']. simpl in Ht.
       split; [intros Hn; injection Ht as -> _ _; done|by left]. }
  unfold Detector.tick_for_pane. destruct (note_live_spec (tw_live w) d) as (E1 & E2 & E4 & _). rewrite (b_rules _ _ _ B) in E4.
  specialize (E1 w). set (d0 := note_live_session (tw_live w) d) in *. clearbody d0. injection E2 as E2 E3 _.
  destruct (maybe_identify_spec w d0) as (d1 & (x & y & Ed) & ->). rewrite E1, El, E4, Hv.
  destruct (vacant_look (tw_now w) p d1) as (d2 & F1 & F2 & F3 & ->).
  assert (G1 : identified d2 = identified d) by (by rewrite F1, Ed). assert (G2 : vacant_streak d2 = vacant_streak d) by (by rewrite F2, Ed).
  pose proof (vacancy_spec d2) as Hs. rewrite <- G1, <- G2. destruct (identified d2) as [k|] eqn:Hk.
  - split; [done|]. intros _. right. destruct Hs as [S0 S1].
    destruct (b_streak _ _ _ B) as [B5|(B5 & _)]; rewrite <- G2 in B5; [left|right; split; [done|split; [done|split; by apply S1]]].
    rewrite (S0 B5). split; [done|]. split; [done|]. split; [exists k; exact Hk|]. by split.
  - rewrite Hs. split; [intros _; exact Hk|]. intros Hn. by destruct (is_Some_None Hn).
Qed.

(** How far a departure has come, up to the look that is due by [due]. *)
Definition leaving (due : Instant) (base : list AgentDetectEvent) (a : PaneActor) : Prop :=
  exists d es, agent_detect a = Some d /\ sent a = base ++ es
    /\ ((identified d = None /\ Detect_Retract ∈ es)
        \/ (is_Some (identified d) /\ (next_identify d <= due \/ (vacant_streak d = 1 /\ next_identify d <= due + recheck_bound)))).
Definition doubted (due : Instant) (base : list AgentDetectEvent) (a : PaneActor) : Prop :=
  exists d es, agent_detect a = Some d /\ sent a = base ++ es
    /\ ((identified d = None /\ Detect_Retract ∈ es) \/ (is_Some (identified d) /\ vacant_streak d = 1 /\ next_identify d <= due + recheck_bound)).
Lemma vacated_move rs h a m d base es :
  alive rs h a -> (forall now, move_time m = Some now -> clock h <= now) -> (forall w, m = P_tick w -> vacated rs w) ->
  agent_detect a = Some d -> sent a = base ++ es ->
  exists d' es', agent_detect (play m a) = Some d' /\ sent (play m a) = base ++ es ++ es' /\ (identified d = None -> identified d' = None)
    /\ (is_Some (identified d) ->
        ((forall w, m = P_tick w -> looks w d = false) /\ tenancy d' = tenancy d)
        \/ (exists w, m = P_tick w /\ looks w d = true /\ vacant_streak d = 0 /\ is_Some (identified d') /\ vacant_streak d' = 1 /\ next_identify d' <= tw_now w + recheck_bound)
        \/ (exists w, m = P_tick w /\ looks w d = true /\ vacant_streak d = 1 /\ identified d' = None /\ Detect_Retract ∈ es')).
Proof.
  intros (Hs & d' & Ha' & B) Hclk Hv Ha He. rewrite Ha in Ha'. injection Ha' as <-.
  destruct (match m with P_tick w => Some w | _ => None end) as [w|] eqn:Em.
  - destruct m as [w'| | | | |]; try done. injection Em as ->. specialize (Hv w eq_refl). specialize (Hclk _ eq_refl).
    pose proof (vacant_tick rs h w d (last_title a) (last_progress a) (screen_read w a) B Hv) as Hd.
    pose proof (detect_tick_spec w a d Ha Hs) as Hd'. cbv zeta in Hd'. destruct (tick_for_pane _ _ _ _ _ _ _ _ d) as [o d1].
    destruct Hd' as (d2 & occ & (x & y & ->) & E1 & E2 & E3 & E4). destruct Hd as [D1 D2]. eexists _, (occ ++ _). split; [exact E1|]. rewrite E4, He, <- app_assoc.
    split; [done|]. split; [exact D1|]. intros Hi. destruct (D2 Hi) as [[L1 L2]|[(L1 & L2 & L3)|(L1 & L2 & L3 & ->)]].
    + left. split; [by intros ? [= <-]|done].
    + right; left. by exists w.
    + right; right. exists w. split; [done|]. split; [done|]. split; [done|]. split; [done|]. apply elem_of_app. right. simpl.
      rewrite (proj2 Hv). by apply list_elem_of_singleton.
  - assert (Hm : forall w, m <> P_tick w) by (by intros w ->). destruct (other_move_tenancy m a d Ha Hm) as (d' & es' & F1 & F2 & F3).
    exists d', es'. split; [done|]. split; [by rewrite F3, He, app_assoc|]. split; [injection F2 as -> _ _; done|].
    intros _. left. split; [|done]. intros w ->. by destruct (Hm w).
Qed.
Lemma leaving_move rs h a m due base : alive rs h a -> (forall now, move_time m = Some now -> clock h <= now <= due) -> (forall w, m = P_tick w -> vacated rs w) ->
  leaving due base a -> leaving due base (play m a).
Proof.
  intros Hal Hclk Hv (d & es & Ha & He & H). destruct (vacated_move rs h a m d base es Hal ltac:(intros now Hn; by apply Hclk) Hv Ha He) as (d' & es' & A & E & N & C).
  exists d', (es ++ es'). split; [done|]. split; [done|]. destruct H as [[H1 H2]|[H1 H2]]; [left; split; [by apply N|apply elem_of_app; by left]|].
  destruct (C H1) as [[_ Ht]|[(w & -> & _ & _ & C1 & C2 & C3)|(w & -> & _ & _ & C1 & C2)]].
  - injection Ht as T1 T2 T3. right. rewrite T1, T2, T3. done.
  - right. split; [done|]. right. split; [done|]. specialize (Hclk _ eq_refl). lia.
  - left. split; [done|]. apply elem_of_app. by right.
Qed.
Lemma doubted_move rs h a m due base : alive rs h a -> (forall now, move_time m = Some now -> clock h <= now) -> (forall w, m = P_tick w -> vacated rs w) ->
  doubted due base a -> doubted due base (play m a).
Proof.
  intros Hal Hclk Hv (d & es & Ha & He & H). destruct (vacated_move rs h a m d base es Hal Hclk Hv Ha He) as (d' & es' & A & E & N & C).
  exists d', (es ++ es'). split; [done|]. split; [done|]. destruct H as [[H1 H2]|(H1 & H2 & H3)]; [left; split; [by apply N|apply elem_of_app; by left]|].
  destruct (C H1) as [[_ Ht]|[(w & -> & _ & C0 & C1)|(w & -> & _ & _ & C1 & C2)]]; [|congruence|].
  - injection Ht as T1 T2 T3. right. by rewrite T1, T2, T3.
  - left. split; [done|]. apply elem_of_app. by right.
Qed.

(** C34: A departure is noticed. Once the kernel keeps answering that no agent is in the foreground of a pane that has one, a tick at or after
    the next look due and a tick one interval of looks later are enough: by then the agent has been withdrawn, and the withdrawal sent
    where the channel had room for it, whatever else the engine did in between. *)
Theorem departures_are_noticed rs t h a d h1 a1 w1 h2 a2 w2 :
  reached rs t h a -> agent_detect a = Some d -> is_Some (identified d) ->
  goes_on (vacated rs) h a h1 a1 -> clock h1 <= tw_now w1 -> vacated rs w1 -> next_identify d <= tw_now w1 ->
  goes_on (vacated rs) (remember (P_tick w1) a1 h1) (play (P_tick w1) a1) h2 a2 -> clock h2 <= tw_now w2 -> vacated rs w2 ->
  tw_now w1 + recheck_bound <= tw_now w2 ->
  exists d', agent_detect (play (P_tick w2) a2) = Some d' /\ identified d' = None /\ announced a (play (P_tick w2) a2) Detect_Retract.
Proof.
  intros Hr Ha Hi G1 C1 V1 N1 G2 C2 V2 N2. pose proof (reached_alive _ _ _ _ Hr) as Hal.
  assert (P1 : leaving (tw_now w1) (sent a) a1).
  { assert (Hle : forall h' a', goes_on (vacated rs) h a h' a' -> clock h' <= tw_now w1 -> leaving (tw_now w1) (sent a) a').
    { intros h' a' G. induction G as [h a|h a h' a' m G IH Hclk Hv]; intros Hc.
      - exists d, []. rewrite app_nil_r. split; [done|]. split; [done|]. right. split; [done|by left].
      - destruct (goes_on_alive rs _ _ _ _ _ G Hal) as [Hal' _]. simpl in Hc. eapply leaving_move; [exact Hal'| |done|].
        + intros now Hn. rewrite Hn in Hc. split; [by apply Hclk|lia].
        + apply (IH Hr Ha); [done..|]. destruct (move_time m); lia. }
    by apply (Hle h1 a1). }
  destruct (goes_on_alive rs _ _ _ _ _ G1 Hal) as [Hal1 _].
  assert (Hc1 : forall now, move_time (P_tick w1) = Some now -> clock h1 <= now) by (by intros ? [= <-]).
  assert (P2 : doubted (tw_now w1) (sent a) (play (P_tick w1) a1)).
  { destruct P1 as (d1 & es & A & E & H). destruct (vacated_move rs h1 a1 (P_tick w1) d1 (sent a) es Hal1 Hc1 ltac:(by intros ? [= <-]) A E) as (d' & es' & A' & E' & N & C).
    exists d', (es ++ es'). split; [done|]. split; [done|]. destruct H as [[H1 H2]|[H1 H2]]; [left; split; [by apply N|apply elem_of_app; by left]|].
    destruct (C H1) as [[L Ht]|[(w & [= <-] & _ & _ & D1 & D2 & D3)|(w & [= <-] & _ & _ & D1 & D2)]]; [|right; by split_and!|left; split; [done|apply elem_of_app; by right]].
    destruct H2 as [H2|[H2 H3]]; [|injection Ht as T1 T2 T3; right; by rewrite T1, T2, T3].
    specialize (L _ eq_refl). unfold looks in L. apply orb_false_iff in L as [L _]. apply Z.leb_gt in L. lia. }
  assert (Hal1' : alive rs (remember (P_tick w1) a1 h1) (play (P_tick w1) a1)) by (by eapply so_alive, reached_step).
  assert (P3 : doubted (tw_now w1) (sent a) a2).
  { clear -G2 Hal1' P2. induction G2 as [|h a' h' a'' m G IH Hclk Hv]; [done|]. destruct (goes_on_alive rs _ _ _ _ _ G Hal1') as [Hal' _].
    eapply doubted_move; [exact Hal'|done|done|]. by apply IH. }
  destruct (goes_on_alive rs _ _ _ _ _ G2 Hal1') as [Hal2 _]. destruct P3 as (d2 & es & A & E & H).
  destruct (vacated_move rs h2 a2 (P_tick w2) d2 (sent a) es Hal2 ltac:(by intros ? [= <-]) ltac:(by intros ? [= <-]) A E) as (d' & es' & A' & E' & N & C).
  exists d'. split; [done|]. unfold announced. rewrite E', drop_app_length. destruct H as [[H1 H2]|(H1 & H2 & H3)]; [split; [by apply N|apply elem_of_app; by left]|].
  destruct (C H1) as [[L _]|[(w & [= <-] & _ & D0 & _)|(w & [= <-] & _ & _ & D1 & D2)]]; [|congruence|split; [done|apply elem_of_app; by right]].
  specialize (L _ eq_refl). unfold looks in L. apply orb_false_iff in L as [L _]. apply Z.leb_gt in L. lia.
Qed.

(** ** What was told is what is believed *)

Definition is_word (e : AgentDetectEvent) : bool := match e with Detect_State _ | Detect_Reidentified _ _ | Detect_Retract => true | _ => false end.
Definition last_word (es : list AgentDetectEvent) : option AgentDetectEvent := last (List.filter is_word es).
(** A channel that takes whatever it is offered. *)
Definition heard (m : PaneMove) : Prop :=
  match m with
  | P_tick w => forall e, tw_room w e = true
  | P_hook room _ _ | P_synth _ room _ _ | P_stream room _ _ => room = true
  | _ => True
  end.
Inductive heard_run (rs : RuleSet) (t : Instant) : PaneActor -> Prop :=
| heard_start dirty title progress : heard_run rs t (mkActor (Some (AgentDetector_new rs t)) dirty title progress true [])
| heard_move a m : heard_run rs t a -> heard m -> heard_run rs t (play m a).

Definition effect_of (d : AgentDetector) (o : option AgentDetectEvent) (d' : AgentDetector) : Prop :=
  match o with
  | Some (Detect_State r) => published d' = Some r /\ identified d' = Some (rep_kind r)
  | Some (Detect_Reidentified k _) => published d' = None /\ identified d' = Some k
  | Some Detect_Retract => published d' = None /\ identified d' = None
  | _ => (published d' = published d \/ published d' = None) /\ (identified d' = identified d \/ (identified d = None /\ published d' = None))
  end.
Lemma look_effect now o d :
  let '(res, d') := apply_identity now o d in
  match res with
  | Some out => effect_of d (event_of out) d' /\ (forall r, out <> Outcome_Publish r)
  | None => (published d' = published d \/ published d' = None) /\ (identified d' = identified d \/ (identified d = None /\ published d' = None))
  end.
Proof.
  unfold Detector.apply_identity. set (d1 := set_next_identify _ _).
  assert (E : identified d1 = identified d /\ published d1 = published d) by (subst d1; by destruct (occupancy_pgid o)). destruct E as [E1 E2]. clearbody d1.
  destruct o as [|p|kind occ].
  - split; [split; left; congruence|done].
  - unfold apply_vacancy. rewrite E1. destruct (identified d) as [k|] eqn:Hk; [|split; [split; left; simpl; congruence|done]].
    simpl. destruct (_ <? _); (split; [|done]); [split; left; simpl; congruence|done].
  - unfold apply_agent. simpl. rewrite E1. destruct (bool_decide (identified d = Some kind) && _) eqn:Es; [split; left; simpl; congruence|].
    destruct (identified d) as [k|] eqn:Hk; simpl; [done|]. split; by right.
Qed.
Lemma identified_effect now live title progress screen k d : identified d = Some k ->
  let '(o, d') := tick_identified now live title progress screen k d in
  effect_of d (event_of o) d' /\ identified d' = Some k.
Proof.
  intros Hk. unfold Detector.tick_identified. cbv zeta. destruct (pending_hook d ≫= _) as [st|]; [done|]. destruct (_ <? _); [by split; [split; left|]|].
  destruct (manifest _ k) as [m|]; [|by split; [split; left|]]. destruct (derive m title progress screen _) as [| |st vis matched]; [by split; [split; left|]..|].
  pose proof (publish_derived_spec now live k (cm_name m) st vis matched (set_pending_hook None d)) as Hp.
  destruct (publish_derived _ _ _ _ _ _ _ _) as [o d']. destruct Hp as (_ & P2 & _ & _ & _ & _ & P7). simpl in P2.
  destruct P7 as [[-> P7]|[-> P7]]; (split; [|congruence]); [split; left; simpl in *; congruence|simpl; split; [done|congruence]].
Qed.
Lemma tick_effect w title progress screen d :
  let '(o, d') := tick_for_pane (tw_now w) (tw_live w) (tw_os w) (tw_fd w) (tw_child w) title progress screen d in effect_of d (event_of o) d'.
Proof.
  unfold Detector.tick_for_pane.
  assert (E : identified (note_live_session (tw_live w) d) = identified d
     /\ (published (note_live_session (tw_live w) d) = published d \/ published (note_live_session (tw_live w) d) = None))
    by (unfold note_live_session; destruct (_ && _); split; auto).
  destruct E as [E1 E2]. set (d0 := note_live_session (tw_live w) d) in *. clearbody d0.
  assert (Hrest : forall d1, (published d1 = published d \/ published d1 = None) -> (identified d1 = identified d \/ (identified d = None /\ published d1 = None)) ->
     let '(o, d') := match identified d1 with None => (Outcome_Quiet, d1) | Some kind => tick_identified (tw_now w) (tw_live w) title progress screen kind d1 end in
     effect_of d (event_of o) d').
  { intros d1 H1 H2. destruct (identified d1) as [k|] eqn:Hk; [|split; [done|]; by rewrite Hk].
    pose proof (identified_effect (tw_now w) (tw_live w) title progress screen k d1 Hk) as H. destruct (tick_identified _ _ _ _ _ k d1) as [o d'].
    destruct H as [H Hk']. destruct o as [|r|kk nn|]; try exact H. simpl in H. destruct H as [[H|H] _]; simpl.
    - rewrite H, Hk'. split; [done|]. destruct H2 as [H2|[H2 H3]]; [by left|by right].
    - rewrite H, Hk'. split; [by right|]. destruct H2 as [H2|[H2 H3]]; [by left|by right]. }
  destruct (maybe_identify_spec w d0) as (d1 & (x & y & Ed) & ->). destruct (looks w d0); [|apply Hrest; [done|by left]].
  pose proof (look_effect (tw_now w) (foreground_observation (rules d0) (tw_os w) (tw_fd w) (tw_child w)).1 d1) as H.
  assert (F1 : identified d1 = identified d) by (by rewrite Ed). assert (F2 : published d1 = published d \/ published d1 = None) by (by rewrite Ed).
  destruct (apply_identity _ _ d1) as [res d2]. destruct res as [out|].
  - destruct H as [H _]. destruct out as [|r|kk nn|]; try exact H. simpl in *. destruct H as [[H|H] H']; rewrite H, <- ?F1; (split; [auto|]); rewrite ?H in H'; auto.
  - destruct H as [[H|H] H']; apply Hrest; rewrite ?H, <- ?F1; auto; rewrite ?H in H'; auto.
Qed.
Lemma hook_effect st now d : let '(o, d') := report_hook_state st now d in effect_of d (Detect_State <$> o) d'.
Proof.
  unfold report_hook_state. destruct (negb _); [by split; left|]. destruct (identified d) as [k|] eqn:Hk; [|by split; left].
  simpl. case_bool_decide; simpl; [by split; left|done].
Qed.
Lemma stream_effect st now d : let '(o, d') := report_stream_state st now d in effect_of d (Detect_State <$> o) d'.
Proof.
  unfold report_stream_state. destruct st as [st|]; [|by split; left]. simpl. destruct (identified d) as [k|] eqn:Hk; [|by split; left].
  simpl. case_bool_decide; simpl; [by split; left|done].
Qed.

Definition in_step (a : PaneActor) : Prop :=
  agent_state_sink a = true
  /\ exists d, agent_detect a = Some d
     /\ (forall r, published d = Some r -> last_word (sent a) = Some (Detect_State r))
     /\ match last_word (sent a) with
        | Some (Detect_State r) => identified d = Some (rep_kind r)
        | Some (Detect_Reidentified k _) => identified d = Some k
        | _ => True
        end.
Lemma last_word_app es es' : last_word (es ++ es') = match last_word es' with Some e => Some e | None => last_word es end.
Proof. unfold last_word. rewrite List.filter_app, last_app. by destruct (last (List.filter is_word es')). Qed.
Lemma last_word_nothing es : (forall e, e ∈ es -> is_word e = false) -> last_word es = None.
Proof.
  unfold last_word. intros H. induction es as [|e es IH]; [done|]. simpl. rewrite (H e) by (by left). apply IH. intros e' He. apply H. by right.
Qed.
Lemma in_step_after a a' d o d' d2 occ :
  in_step a -> agent_detect a = Some d -> effect_of d o d' -> occupant_only d' d2 -> (forall e, o = Some e -> is_word e = true) ->
  agent_state_sink a' = true -> agent_detect a' = Some d2 -> (forall e, e ∈ occ -> exists x, e = Detect_Occupant x) ->
  sent a' = sent a ++ occ ++ match o with Some e => [e] | None => [] end -> in_step a'.
Proof.
  intros (Hs & d0 & Ha & H1 & H2) Ha0 He (x & y & ->) Hw Hs' Ha' Hocc E. rewrite Ha0 in Ha. injection Ha as <-. split; [done|]. eexists. split; [exact Ha'|].
  cbn [published identified set_published_occupant set_pending_occupant].
  assert (El : last_word (sent a') = match o with Some e => Some e | None => last_word (sent a) end).
  { rewrite E, !last_word_app. assert (last_word occ = None) as -> by (apply last_word_nothing; intros e Hin; by destruct (Hocc e Hin) as [z ->]).
    destruct o as [e|]; [|done]. unfold last_word. simpl. by rewrite (Hw e). }
  rewrite El. destruct o as [[o'|r|k n|ask|]|]; try (by specialize (Hw _ eq_refl)); simpl in He.
  - destruct He as [He1 He2]. split; [intros r' Hr; congruence|done].
  - destruct He as [He1 He2]. split; [intros r' Hr; congruence|done].
  - destruct He as [He1 He2]. split; [intros r' Hr; congruence|done].
  - destruct He as [He1 He2]. split; [intros r' Hr; destruct He1 as [He1|He1]; [apply H1|]; congruence|].
    destruct He2 as [-> |[Hn _]]; [done|]. destruct (last_word (sent a)) as [[| | | |]|]; congruence.
Qed.
Lemma in_step_move a m : in_step a -> heard m -> in_step (play m a).
Proof.
  intros Hin Hh. pose proof Hin as (Hs & d & Ha & H1 & H2).
  assert (Hrep : forall o d' room, effect_of d (Detect_State <$> o) d' -> room = true ->
    in_step (set_dirty true (match o with Some r => emit_agent_state room (Detect_State r) (set_agent_detect (Some d') a) | None => set_agent_detect (Some d') a end))).
  { intros o d' room He ->. eapply (in_step_after a _ d (Detect_State <$> o) d' d' []); [done|done|exact He|exists (published_occupant d'), (pending_occupant d'); by destruct d'| | | | |].
    - intros e. destruct o; [by intros [= <-]|done].
    - destruct o as [r|]; [|done]. by apply (emit_spec true (Detect_State r) (set_agent_detect (Some d') a) Hs).
    - destruct o as [r|]; [|done]. by apply (emit_spec true (Detect_State r) (set_agent_detect (Some d') a) Hs).
    - by intros e He'%elem_of_nil.
    - destruct o as [r|]; [|by rewrite app_nil_r]. by apply (emit_spec true (Detect_State r) (set_agent_detect (Some d') a) Hs). }
  assert (Hhook : forall now st, in_step (apply_hook_state true now st a).2).
  { intros now st. unfold apply_hook_state. rewrite Ha. pose proof (hook_effect st now d) as He. destruct (report_hook_state st now d) as [o d']. by apply Hrep. }
  destruct m as [w|room now st|appended room now st|room now st| |ti pr]; simpl in Hh.
  - pose proof (detect_tick_spec w a d Ha Hs) as Hd. cbv zeta in Hd.
    pose proof (tick_effect w (last_title a) (last_progress a) (screen_read w a) d) as He. destruct (tick_for_pane _ _ _ _ _ _ _ _ d) as [o d1].
    destruct Hd as (d2 & occ & O & E1 & E2 & E3 & E4). eapply (in_step_after a _ d (event_of o) d1 d2 occ); try done; [by destruct o; intros e [= <-]|].
    rewrite E4. destruct (event_of o); [by rewrite Hh|done].
  - cbn [play]. rewrite Hh. apply Hhook.
  - cbn [play]. unfold synthesize_state_record. rewrite Hh. destruct appended; [|apply Hhook]. simpl negb. cbn iota. rewrite Ha.
    pose proof (stream_effect (Some st) now d) as He. destruct (report_stream_state (Some st) now d) as [o d']. by apply Hrep.
  - cbn [play]. unfold handle_report_stream_state. rewrite Hh, Ha. pose proof (stream_effect st now d) as He.
    destruct (report_stream_state st now d) as [o d']. by apply Hrep.
  - cbn [play]. unfold agent_record_invalidated. rewrite Ha. split; [done|]. by exists (invalidate_published d).
  - split; [done|]. by exists d.
Qed.
(** C35: What was told is what is believed, as long as the channel takes everything. The record the edge filter compares with is the last
    word that was sent, and the last word that was sent names the agent that is there: so the filter holds back only what the receiver
    has, and no departure or change of agent is kept from it. *)
Theorem what_was_told_is_believed rs t a :
  heard_run rs t a ->
  exists d, agent_detect a = Some d
    /\ (forall r, published d = Some r -> last_word (sent a) = Some (Detect_State r))
    /\ match last_word (sent a) with
       | Some (Detect_State r) => identified d = Some (rep_kind r)
       | Some (Detect_Reidentified k _) => identified d = Some k
       | _ => True
       end.
Proof.
  intros H. assert (in_step a) as (_ & d & Hd); [|by exists d].
  induction H as [dirty ti pr|a m _ IH Hm]; [|by apply in_step_move]. split; [done|]. eexists. split; [done|]. done.
Qed.

(** ** Work is released gently *)

(** A pane that is held to be working, after [n] looks at an idle screen, the first of them at [t]. *)
Record holding (rs : RuleSet) (k : bytes) (m : CompiledManifest) (t0 : Instant) (n : Z) (t : Instant) (a : PaneActor) : Prop := {
  hd_sink : agent_state_sink a = true;
  hd_detector : exists d, agent_detect a = Some d /\ rules d = rs /\ identified d = Some k /\ identified_at d = Some t0 /\ pending_hook d = None
    /\ live_session_held d = false /\ (exists r, published d = Some r /\ rep_state r = Detected_Working)
    /\ pending_idle d = (if n =? 0 then None else Some (mkPendingIdle n t)) /\ wants_screen (agent_dirty_since_detect a) d = true;
  hd_manifest : manifest rs k = Some m
}.
(** A tick that takes no look at the kernel and reads a screen no rule calls busy; [vis]: a rule says that it is idle. *)
Definition idle_tick (m : CompiledManifest) (t0 : Instant) (vis : bool) (w : TickWorld) (a : PaneActor) : Prop :=
  tw_live w = false /\ (forall d, agent_detect a = Some d -> looks w d = false) /\ t0 + startup_grace grace_env <= tw_now w
  /\ tw_room w (Detect_State (mkReport (default [] (d ← agent_detect a; identified d)) (cm_name m) Detected_Idle)) = true
  /\ exists ls, tw_viewport w = Some ls
     /\ let e := evaluate to_lowercase m (mkScreen (last_title a) (last_progress a) ls) in
        ev_freeze e = false /\ ev_visible_idle e = vis /\ (ev_state e = None \/ ev_state e = Some Detected_Idle).
Definition settled (n : Z) (since now : Instant) : bool := (IDLE_CONFIRMATIONS <=? n + 1) || (IDLE_HOLD_CAP <=? saturating_sub now since).
Lemma settle_holding now vis n t d r : 0 <= n < u8_max -> published d = Some r -> rep_state r = Detected_Working ->
  pending_idle d = (if n =? 0 then None else Some (mkPendingIdle n t)) ->
  let since := if n =? 0 then now else t in
  settle_idle now vis d = if vis || settled n since now then (true, set_cadence Cadence_Identified (set_pending_idle None d))
                          else (false, set_pending_idle (Some (mkPendingIdle (n + 1) since)) (set_cadence Cadence_Confirming d)).
Proof.
  intros Hn Hp Hw Hi t1. unfold settle_idle. rewrite Hp, Hw, bool_decide_eq_true_2 by done. cbn [negb]. rewrite orb_false_r. destruct vis; [done|].
  cbn [orb pending_idle set_cadence]. rewrite Hi.
  assert (Ep : mkPendingIdle (saturating_succ8 (confirmations (default (mkPendingIdle 0 now) (if n =? 0 then None else Some (mkPendingIdle n t)))))
                (since (default (mkPendingIdle 0 now) (if n =? 0 then None else Some (mkPendingIdle n t)))) = mkPendingIdle (n + 1) t1).
  { subst t1. unfold saturating_succ8. destruct (Z.eqb_spec n 0) as [->|]; simpl; [done|]. by rewrite Z.min_r by lia. }
  rewrite Ep. cbn [confirmations since]. fold (settled n t1 now). destruct (settled n t1 now); [by destruct d|done].
Qed.
Lemma holding_detector rs k m t0 n t w vis a d : 0 <= n < u8_max ->
  holding rs k m t0 n t a -> idle_tick m t0 vis w a -> agent_detect a = Some d ->
  let since := if n =? 0 then tw_now w else t in
  exists d1, tick_for_pane (tw_now w) (tw_live w) (tw_os w) (tw_fd w) (tw_child w) (last_title a) (last_progress a) (screen_read w a) d
      = (if vis || settled n since (tw_now w) then Outcome_Publish (mkReport k (cm_name m) Detected_Idle) else Outcome_Quiet, d1)
     /\ (vis || settled n since (tw_now w) = false ->
         d1 = set_current (Some Detected_Idle) (set_pending_idle (Some (mkPendingIdle (n + 1) since)) (set_cadence Cadence_Confirming
                (set_pending_hook None (note_live_session false d))))).
Proof.
  intros Hn [_ (d' & Ha & Hr & Hk & Ht & Hh & Hl & (r0 & Hp & Hw) & Hi & Hd) Hm] (L & Nl & G & _ & ls & Hv & Hf & Hvis & Hst) Ha' t1.
  rewrite Ha' in Ha. injection Ha as <-. specialize (Nl d Ha'). unfold Detector.tick_for_pane. destruct (note_live_spec (tw_live w) d) as (E1 & _). rewrite L in *.
  destruct (maybe_identify_spec w (note_live_session false d)) as (d1 & _ & ->). rewrite E1, Nl.
  assert (F : identified (note_live_session false d) = Some k /\ identified_at (note_live_session false d) = Some t0 /\ rules (note_live_session false d) = rs
      /\ pending_hook (note_live_session false d) = None /\ published (note_live_session false d) = Some r0
      /\ pending_idle (note_live_session false d) = pending_idle d) by (unfold note_live_session; rewrite Hl; done).
  destruct F as (F1 & F2 & F3 & F4 & F5 & F6). set (d0 := note_live_session false d) in *. clearbody d0. rewrite F1. unfold Detector.tick_identified.
  cbv zeta. rewrite F4. cbn [mbind option_bind identified_at started rules set_pending_hook]. rewrite F2, F3, Hm. cbn [from_option id].
  rewrite (proj2 (Z.ltb_ge _ _) G). unfold Detector.derive, screen_read. rewrite Ha', Hd, Hv. cbv zeta in Hf, Hvis, Hst. rewrite Hf, Hvis.
  assert (Edd : default Detected_Idle (ev_state (evaluate to_lowercase m (mkScreen (last_title a) (last_progress a) ls))) = Detected_Idle) by (by destruct Hst as [-> | ->]).
  rewrite Edd. unfold publish_derived.
  rewrite (settle_holding (tw_now w) vis n t (set_pending_hook None d0) r0 Hn F5 Hw ltac:(simpl; congruence)). fold t1. destruct (vis || settled n t1 (tw_now w)); [|by eexists]. simpl.
  rewrite F5, bool_decide_eq_false_2 by (intros [= Eb]; rewrite Eb in Hw; discriminate Hw). by eexists.
Qed.
Lemma holding_tick rs k m t0 n t w vis a : 0 <= n < u8_max ->
  holding rs k m t0 n t a -> idle_tick m t0 vis w a ->
  let since := if n =? 0 then tw_now w else t in
  if vis || settled n since (tw_now w)
  then announced a (play (P_tick w) a) (Detect_State (mkReport k (cm_name m) Detected_Idle))
  else (forall r, ~ announced a (play (P_tick w) a) (Detect_State r)) /\ holding rs k m t0 (n + 1) since (play (P_tick w) a).
Proof.
  intros Hn H I t1. pose proof H as [Hs (d & Ha & Hr & Hk & Ht & Hh & Hl & (r0 & Hp & Hw) & Hi & Hd) Hm].
  destruct (holding_detector rs k m t0 n t w vis a d Hn H I Ha) as (d1 & Et & Hd1). fold t1 in Et, Hd1.
  assert (Hroom : tw_room w (Detect_State (mkReport k (cm_name m) Detected_Idle)) = true) by (destruct I as (_ & _ & _ & Hroom & _); rewrite Ha in Hroom; cbn in Hroom; by rewrite Hk in Hroom).
  pose proof (detect_tick_spec w a d Ha Hs) as Hdt. cbv zeta in Hdt. rewrite Et in Hdt. destruct Hdt as (d2 & occ & O & E1 & E2 & E3 & E4).
  destruct (vis || settled n t1 (tw_now w)).
  - unfold announced. rewrite E4, drop_app_length. apply elem_of_app. right. simpl. rewrite Hroom. by apply list_elem_of_singleton.
  - split.
    + intros r Hr'. apply (announced_app _ _ _ _ E4) in Hr'. rewrite app_nil_r in Hr'. by destruct (E3 _ Hr') as [x ?].
    + rewrite (Hd1 eq_refl) in O. destruct O as (x & y & ->). split; [done| |done]. eexists. split; [exact E1|]. unfold note_live_session. rewrite Hl. simpl.
      split_and!; try done; [by exists r0|by destruct (Z.eqb_spec (n + 1) 0); [lia|]|]. unfold wants_screen. simpl. by rewrite Hk.
Qed.

(** Work is released gently, and is released. A pane held to be working whose screen stops saying so stays working for two looks and is
    idle at the third; or at the second, where that comes 0.7 s after the first; or at once, where a rule sees that it is idle. *)
Theorem work_is_released_gently rs k m t0 t w1 w2 w3 a v1 :
  holding rs k m t0 0 t a -> idle_tick m t0 v1 w1 a ->
  let a1 := play (P_tick w1) a in
  let a2 := play (P_tick w2) a1 in
  let idle := Detect_State (mkReport k (cm_name m) Detected_Idle) in
  (v1 = true -> announced a a1 idle)
  /\ (v1 = false -> idle_tick m t0 false w2 a1 ->
      (forall r, ~ announced a a1 (Detect_State r))
      /\ (IDLE_HOLD_CAP <= tw_now w2 - tw_now w1 -> announced a1 a2 idle)
      /\ (tw_now w1 <= tw_now w2 < tw_now w1 + IDLE_HOLD_CAP -> idle_tick m t0 false w3 a2 ->
          (forall r, ~ announced a1 a2 (Detect_State r)) /\ announced a2 (play (P_tick w3) a2) idle)).
Proof.
  intros H0 I1 a1 a2 idle. pose proof (holding_tick rs k m t0 0 t w1 v1 a ltac:(done) H0 I1) as H1. cbn [Z.eqb] in H1. cbv zeta in H1.
  assert (Ez : saturating_sub (tw_now w1) (tw_now w1) = 0) by (unfold saturating_sub; by rewrite Z.leb_refl, Z.sub_diag).
  split; [intros ->; exact H1|]. intros -> I2. unfold settled in H1. rewrite Ez in H1. simpl in H1. destruct H1 as [N1 H1]. split; [exact N1|].
  pose proof (holding_tick rs k m t0 1 (tw_now w1) w2 false a1 ltac:(done) H1 I2) as H2. cbn [Z.eqb] in H2. cbv zeta in H2. unfold settled in H2. cbn [orb] in H2.
  change (IDLE_CONFIRMATIONS <=? 1 + 1) with false in H2. cbn [orb] in H2. split.
  - intros Hc. destruct (Z.leb_spec IDLE_HOLD_CAP (saturating_sub (tw_now w2) (tw_now w1))) as [|Hlt]; [exact H2|].
    unfold saturating_sub, IDLE_HOLD_CAP, millis in *. destruct (Z.leb_spec (tw_now w1) (tw_now w2)); lia.
  - intros Hc I3. destruct (Z.leb_spec IDLE_HOLD_CAP (saturating_sub (tw_now w2) (tw_now w1))) as [Hge|].
    { unfold saturating_sub in Hge. destruct (Z.leb_spec (tw_now w1) (tw_now w2)); lia. }
    destruct H2 as [N2 H2]. split; [exact N2|].
    pose proof (holding_tick rs k m t0 2 (tw_now w1) w3 false a2 ltac:(done) H2 I3) as H3. exact H3.
Qed.
End Runs.

(** ** On a concrete pane *)

Section Played.
#[local] Abbreviation play := (play ascii_lower None None).
#[local] Abbreviation remember := (remember ascii_lower).
#[local] Abbreviation reached := (reached ascii_lower None None claude_rules 0).
Definition started_pane : PaneActor := mkActor (Some (AgentDetector_new claude_rules 0)) false [] [] true [].
Fixpoint played (ms : list PaneMove) (h : History) (a : PaneActor) : option (History * PaneActor) :=
  match ms with
  | [] => Some (h, a)
  | m :: ms => if (match move_time m with Some now => clock h <=? now | None => true end) then played ms (remember m a h) (play m a) else None
  end.
Definition played_pane (ms : list PaneMove) : option (History * PaneActor) := played ms (mkHistory 0 [] [] []) started_pane.
Lemma played_reached ms : forall h a h' a', reached h a -> played ms h a = Some (h', a') -> reached h' a'.
Proof.
  induction ms as [|m ms IH]; intros h a h' a' Hr H; cbn [played] in H; [by injection H as <- <-|].
  destruct (match move_time m with Some _ => _ | None => _ end) eqn:E; [|done]. eapply IH; [|exact H]. apply reached_move; [done|].
  intros now Hn. rewrite Hn in E. by apply Z.leb_le in E.
Qed.
Lemma played_pane_reached ms h a : played_pane ms = Some (h, a) -> reached h a.
Proof. apply played_reached. constructor. Qed.
Lemma played_goes_on V ms : forall h0 a0 h a h' a', goes_on ascii_lower None None V h0 a0 h a -> (forall w, P_tick w ∈ ms -> V w) ->
  played ms h a = Some (h', a') -> goes_on ascii_lower None None V h0 a0 h' a'.
Proof.
  induction ms as [|m ms IH]; intros h0 a0 h a h' a' G HV H; cbn [played] in H; [by injection H as <- <-|].
  destruct (match move_time m with Some _ => _ | None => _ end) eqn:E; [|done]. eapply IH; [|intros w Hw; apply HV; by right|exact H]. apply goes_move; [done| |].
  - intros now Hn. rewrite Hn in E. by apply Z.leb_le in E.
  - intros w ->. apply HV. by left.
Qed.

(** A fact of the end of a run, by evaluation; the states themselves are never written out. *)
Definition ends (ms : list PaneMove) (f : History -> PaneActor -> bool) : bool := match played_pane ms with Some (h, a) => f h a | None => false end.
Lemma ends_in ms f : ends ms f = true -> exists h a, played_pane ms = Some (h, a).
Proof. unfold ends. destruct (played_pane ms) as [[h a]|]; [by eexists _, _|done]. Qed.
Lemma ends_with ms f h a : played_pane ms = Some (h, a) -> ends ms f = true -> f h a = true.
Proof. unfold ends. by intros ->. Qed.
#[local] Instance AgentDetectEvent_eq_dec : EqDecision AgentDetectEvent.
Proof. solve_decision. Defined.
Definition words (a : PaneActor) : list AgentDetectEvent := List.filter is_word (sent a).
Lemma words_by ms h a m es : played_pane ms = Some (h, a) -> ends ms (fun _ a => bool_decide (words (play m a) = es)) = true -> words (play m a) = es.
Proof. intros E H. apply (ends_with _ _ _ _ E), bool_decide_eq_true in H. exact H. Qed.
Lemma announced_by ms h a m e : played_pane ms = Some (h, a) -> ends ms (fun _ a => bool_decide (e ∈ drop (length (sent a)) (sent (play m a)))) = true -> announced a (play m a) e.
Proof. intros E H. apply (ends_with _ _ _ _ E), bool_decide_eq_true in H. exact H. Qed.
Lemma clock_by ms h a t : played_pane ms = Some (h, a) -> ends ms (fun h _ => clock h <=? t) = true -> clock h <= t.
Proof. intros E H. apply (ends_with _ _ _ _ E), Z.leb_le in H. exact H. Qed.

(** An agent in the foreground, and a shell; a tick with a screen, and one whose channel refuses. *)
Definition agent_os : ProcQuery := mkProc (fun _ => Some 42) (fun _ => Some [str "claude"]) (fun _ => Some 7).
Definition shell_os : ProcQuery := mkProc (fun _ => Some 40) (fun _ => Some [str "-zsh"]) (fun _ => Some 5).
Definition a_world (os : ProcQuery) (room : bool) (ms : Z) (screen : list bytes) : TickWorld :=
  mkTick (millis ms) false os (Some 3) (Some 40) (Some screen) (fun _ => room).
Definition a_tick (os : ProcQuery) (room : bool) (ms : Z) (screen : list bytes) : PaneMove := P_tick (a_world os room ms screen).
Definition busy_screen : list bytes := [str "Thinking (esc to interrupt)"].
Definition idle_screen : list bytes := [str "> "].
Definition output : PaneMove := P_output [] [].
Definition claude_is (st : DetectedState) : AgentDetectEvent := Detect_State (mkReport (str "claude") (str "Claude") st).
Definition to_work : list PaneMove := [a_tick agent_os true 0 idle_screen; output; a_tick agent_os true 300 idle_screen; output].

Lemma states_are_founded_witness :
  exists h a, played_pane to_work = Some (h, a)
    /\ let a' := play (a_tick agent_os true 3000 busy_screen) a in words a' = [claude_is Detected_Working]
       /\ exists d t0, agent_detect a' = Some d /\ identified d = Some (str "claude") /\ identified_at d = Some t0
            /\ str "Claude" = manifest_name d (str "claude")
            /\ (Detected_Working = Detected_Idle
                \/ backed ascii_lower None claude_rules (remember (a_tick agent_os true 3000 busy_screen) a h) (str "claude") t0 Detected_Working).
Proof.
  destruct (ends_in to_work (fun _ _ => true)) as (h & a & E); [vm_compute; reflexivity|]. exists h, a. split; [exact E|].
  split; [apply (words_by _ _ _ _ _ E); vm_compute; reflexivity|].
  apply (states_are_founded ascii_lower None None claude_rules 0 h a (a_tick agent_os true 3000 busy_screen) (mkReport (str "claude") (str "Claude") Detected_Working)
    (played_pane_reached _ _ _ E)).
  - intros now Hn. injection Hn as <-. apply (clock_by _ _ _ _ E). vm_compute. reflexivity.
  - apply (announced_by _ _ _ _ _ E). vm_compute. reflexivity.
Defined.

(** The kernel's questions go unanswered twice between the two looks that count. *)
Definition mute_os : ProcQuery := mkProc (fun _ => None) (fun _ => None) (fun _ => None).
Definition to_leave : list PaneMove :=
  to_work ++ [a_tick shell_os true 600 idle_screen; a_tick mute_os true 5700 idle_screen; a_tick mute_os true 10800 idle_screen].
Lemma departures_take_two_looks_witness :
  exists h a, played_pane to_leave = Some (h, a)
    /\ let a' := play (a_tick shell_os true 15900 idle_screen) a in words a' = [Detect_Retract]
       /\ gone_twice (looked (remember (a_tick shell_os true 15900 idle_screen) a h)).
Proof.
  destruct (ends_in to_leave (fun _ _ => true)) as (h & a & E); [vm_compute; reflexivity|]. exists h, a. split; [exact E|].
  split; [apply (words_by _ _ _ _ _ E); vm_compute; reflexivity|].
  apply (departures_take_two_looks ascii_lower None None claude_rules 0 h a (a_tick shell_os true 15900 idle_screen) (played_pane_reached _ _ _ E)).
  - intros now Hn. injection Hn as <-. apply (clock_by _ _ _ _ E). vm_compute. reflexivity.
  - apply (announced_by _ _ _ _ _ E). vm_compute. reflexivity.
Defined.

Definition due_by (t : Instant) (a : PaneActor) : bool :=
  match agent_detect a with Some d => bool_decide (is_Some (identified d)) && (next_identify d <=? t) | None => false end.
(** The agent is gone at 5 s, when a look is due, and withdrawn at 10 s; a question goes unanswered in between. *)
Lemma departures_are_noticed_witness :
  exists h a, played_pane to_work = Some (h, a)
    /\ let w1 := a_world shell_os true 5000 idle_screen in
       let w2 := a_world shell_os true 10000 idle_screen in
       exists a2 d', agent_detect (play (P_tick w2) a2) = Some d' /\ identified d' = None /\ announced a (play (P_tick w2) a2) Detect_Retract.
Proof.
  destruct (ends_in to_work (fun _ _ => true)) as (h & a & E); [vm_compute; reflexivity|]. exists h, a. split; [exact E|]. cbv zeta.
  pose proof (played_pane_reached _ _ _ E) as Hr. destruct (reached_alive _ _ _ _ _ _ _ Hr) as (_ & d & Ha & _).
  assert (Hd : (bool_decide (is_Some (identified d)) && (next_identify d <=? millis 5000)) = true).
  { assert (Hd : due_by (millis 5000) a = true) by (apply (ends_with to_work (fun _ a => due_by (millis 5000) a) h a E); vm_compute; reflexivity).
    unfold due_by in Hd. rewrite Ha in Hd. exact Hd. }
  apply andb_prop in Hd as [Hd1%bool_decide_eq_true Hd2%Z.leb_le].
  set (w1 := a_world shell_os true 5000 idle_screen). set (w2 := a_world shell_os true 10000 idle_screen).
  assert (V : forall ms, vacated ascii_lower claude_rules (a_world shell_os true ms idle_screen)) by (intros ms; split; [exists 40; vm_compute; reflexivity|reflexivity]).
  exists (play (P_tick w1) a).
  apply (departures_are_noticed ascii_lower None None claude_rules 0 h a d h a w1 (remember (P_tick w1) a h) (play (P_tick w1) a) w2 Hr Ha Hd1).
  - apply goes_nowhere.
  - apply (clock_by _ _ _ _ E). vm_compute. reflexivity.
  - apply V.
  - exact Hd2.
  - apply goes_nowhere.
  - assert (Hc : clock h <= millis 5000) by (apply (clock_by _ _ _ _ E); vm_compute; reflexivity). change (Z.max (clock h) (millis 5000) <= millis 10000). unfold millis in *. lia.
  - apply V.
  - vm_compute. discriminate.
Defined.

Lemma what_was_told_is_believed_witness :
  exists a, a = fold_left (fun a m => play m a) (to_work ++ [a_tick agent_os true 3000 busy_screen]) started_pane /\ words a = [claude_is Detected_Working]
    /\ exists d, agent_detect a = Some d /\ (forall r, published d = Some r -> last_word (sent a) = Some (Detect_State r))
        /\ match last_word (sent a) with
           | Some (Detect_State r) => identified d = Some (rep_kind r)
           | Some (Detect_Reidentified k _) => identified d = Some k
           | _ => True
           end.
Proof.
  exists (fold_left (fun a m => play m a) (to_work ++ [a_tick agent_os true 3000 busy_screen]) started_pane). split; [reflexivity|]. split; [vm_compute; reflexivity|].
  apply (what_was_told_is_believed ascii_lower None None claude_rules 0). unfold to_work. cbn [fold_left app]. repeat apply heard_move; try exact I; try (intros e; reflexivity).
  apply heard_start.
Defined.

Definition claude_manifest : CompiledManifest := match manifest claude_rules (str "claude") with Some m => m | None => mkManifest [] [] end.
(** A pane at work whose screen is about to change. *)
Definition at_work : list PaneMove := to_work ++ [a_tick agent_os true 3000 busy_screen; output].
Definition holds_work (a : PaneActor) : bool :=
  match agent_detect a with
  | Some d => bool_decide (identified d = Some (str "claude")) && bool_decide (identified_at d = Some 0) && bool_decide (pending_hook d = None)
              && negb (live_session_held d) && bool_decide (rep_state <$> published d = Some Detected_Working)
              && (match pending_idle d with None => true | Some _ => false end) && wants_screen (agent_dirty_since_detect a) d
              && bool_decide (last_pgid d = Some 42) && bool_decide (next_identify d = millis 5000)
  | None => false
  end.
Lemma at_work_holding h a : played_pane at_work = Some (h, a) -> holding claude_rules (str "claude") claude_manifest 0 0 0 a.
Proof.
  intros E. pose proof (played_pane_reached _ _ _ E) as Hr. destruct (reached_alive _ _ _ _ _ _ _ Hr) as (Hs & d & Ha & B).
  assert (H : holds_work a = true) by (apply (ends_with at_work (fun _ a => holds_work a) h a E); vm_compute; reflexivity).
  unfold holds_work in H. rewrite Ha in H. repeat (apply andb_prop in H as [H ?]).
  repeat match goal with H : bool_decide _ = true |- _ => apply bool_decide_eq_true in H end. split; [exact Hs| |vm_compute; reflexivity].
  exists d. split; [exact Ha|]. split; [apply (b_rules _ _ _ _ _ B)|]. split; [assumption|]. split; [assumption|]. split; [assumption|].
  split; [by apply negb_true_iff|]. split; [|split; [by destruct (pending_idle d)|assumption]]. destruct (published d) as [r|]; [|done]. exists r. split; [done|]. simpl in *. congruence.
Qed.
Definition idles_at (t : Z) (a : PaneActor) : bool :=
  match agent_detect a with
  | Some d => bool_decide (identified d = Some (str "claude")) && negb (looks (a_world agent_os true t idle_screen) d)
              && bool_decide (last_title a = []) && bool_decide (last_progress a = [])
  | None => false
  end.
Lemma idle_tick_by a t : 3000 <= t -> idles_at t a = true -> idle_tick ascii_lower None claude_manifest 0 false (a_world agent_os true t idle_screen) a.
Proof.
  unfold idles_at. intros Ht H. destruct (agent_detect a) as [d|] eqn:Ha; [|done]. apply andb_prop in H as [H H4%bool_decide_eq_true].
  apply andb_prop in H as [H H3%bool_decide_eq_true]. apply andb_prop in H as [H1%bool_decide_eq_true H2%negb_true_iff].
  split; [reflexivity|]. split; [intros d' Hd'; rewrite Ha in Hd'; injection Hd' as <-; exact H2|]. split; [unfold startup_grace, STARTUP_GRACE, a_world, millis; simpl; lia|].
  split; [reflexivity|]. exists idle_screen. split; [reflexivity|]. rewrite H3, H4. cbv zeta. split; [vm_compute; reflexivity|]. split; [vm_compute; reflexivity|].
  left. vm_compute. reflexivity.
Qed.
Lemma work_is_released_gently_witness :
  exists h a, played_pane at_work = Some (h, a)
    /\ let tick t a := play (P_tick (a_world agent_os true t idle_screen)) a in
       let idle := Detect_State (mkReport (str "claude") (cm_name claude_manifest) Detected_Idle) in
       (forall r, ~ announced a (tick 3300 a) (Detect_State r))
       /\ (forall r, ~ announced (tick 3300 a) (tick 3400 (tick 3300 a)) (Detect_State r))
       /\ announced (tick 3400 (tick 3300 a)) (tick 3500 (tick 3400 (tick 3300 a))) idle.
Proof.
  destruct (ends_in at_work (fun _ _ => true)) as (h & a & E); [vm_compute; reflexivity|]. exists h, a. split; [exact E|]. cbv zeta.
  set (w1 := a_world agent_os true 3300 idle_screen). set (w2 := a_world agent_os true 3400 idle_screen). set (w3 := a_world agent_os true 3500 idle_screen).
  assert (I1 : idles_at 3300 a = true) by (apply (ends_with at_work (fun _ a => idles_at 3300 a) h a E); vm_compute; reflexivity).
  assert (I2 : idles_at 3400 (play (P_tick w1) a) = true) by (apply (ends_with at_work (fun _ a => idles_at 3400 (play (P_tick w1) a)) h a E); vm_compute; reflexivity).
  assert (I3 : idles_at 3500 (play (P_tick w2) (play (P_tick w1) a)) = true)
    by (apply (ends_with at_work (fun _ a => idles_at 3500 (play (P_tick w2) (play (P_tick w1) a))) h a E); vm_compute; reflexivity).
  destruct (work_is_released_gently ascii_lower None None claude_rules (str "claude") claude_manifest 0 0 w1 w2 w3 a false (at_work_holding h a E)) as [_ H];
    [apply idle_tick_by; [done|exact I1]|].
  destruct (H eq_refl) as (N1 & _ & H2); [apply idle_tick_by; [done|exact I2]|]. split; [exact N1|].
  apply H2; [unfold w1, w2, a_world, IDLE_HOLD_CAP, millis; simpl; lia|]. apply idle_tick_by; [done|exact I3].
Defined.

(** ** What a full channel and a held hook do *)

(** Two hundred ticks of 300 ms over one screen. *)
Definition ticks_from (t : Z) (os : ProcQuery) (screen : list bytes) (n : nat) : list PaneMove :=
  map (fun i => a_tick os true (t + 300 * Z.of_nat i) screen) (seq 0 n).
(** [emit_agent_state] is documented as safe to drop, since the next tick publishes again: the edge filter has moved on already, and the
    state of a minute of work is never sent. *)
Theorem refused_state_is_never_sent :
  exists h a, played_pane (to_work ++ [a_tick agent_os false 3000 busy_screen] ++ ticks_from 3300 agent_os busy_screen 200) = Some (h, a) /\ words a = []
    /\ option_map rep_state (d ← agent_detect a; published d) = Some Detected_Working.
Proof.
  set (ms := to_work ++ _). set (f := fun (_ : History) a => bool_decide (words a = []) && bool_decide (option_map rep_state (d ← agent_detect a; published d) = Some Detected_Working)).
  destruct (ends_in ms f) as (h & a & E); [vm_compute; reflexivity|]. exists h, a. split; [exact E|].
  assert (H : f h a = true) by (apply (ends_with ms f h a E); vm_compute; reflexivity). apply andb_prop in H as [H1 H2].
  apply bool_decide_eq_true in H1. apply bool_decide_eq_true in H2. exact (conj H1 H2).
Qed.
(** And a departure that finds the channel full is never told: the agent's last state stays on record for good. *)
Theorem refused_departure_is_never_sent :
  exists h a, played_pane (at_work ++ [a_tick shell_os true 4000 busy_screen; a_tick shell_os false 9000 busy_screen] ++ ticks_from 9300 shell_os idle_screen 200) = Some (h, a)
    /\ words a = [claude_is Detected_Working] /\ (d ← agent_detect a; identified d) = None.
Proof.
  set (ms := at_work ++ _). set (f := fun (_ : History) a => bool_decide (words a = [claude_is Detected_Working]) && bool_decide ((d ← agent_detect a; identified d) = None)).
  destruct (ends_in ms f) as (h & a & E); [vm_compute; reflexivity|]. exists h, a. split; [exact E|].
  assert (H : f h a = true) by (apply (ends_with ms f h a E); vm_compute; reflexivity). apply andb_prop in H as [H1 H2].
  apply bool_decide_eq_true in H1. apply bool_decide_eq_true in H2. exact (conj H1 H2).
Qed.
(** A hook that a live session outranks is documented as recorded and not published; the next tick publishes it over the session's word. *)
Theorem outranked_hook_is_published :
  exists h a, played_pane (to_work ++ [P_stream true (millis 3100) (Some Detected_Working); P_synth false true (millis 3200) Detected_Blocked;
                                       P_tick (mkTick (millis 3300) true agent_os (Some 3) (Some 40) (Some busy_screen) (fun _ => true))]) = Some (h, a)
    /\ words a = [claude_is Detected_Working; claude_is Detected_Blocked].
Proof.
  set (ms := to_work ++ _). set (f := fun (_ : History) a => bool_decide (words a = [claude_is Detected_Working; claude_is Detected_Blocked])).
  destruct (ends_in ms f) as (h & a & E); [vm_compute; reflexivity|]. exists h, a. split; [exact E|].
  assert (H : f h a = true) by (apply (ends_with ms f h a E); vm_compute; reflexivity). apply bool_decide_eq_true in H. exact H.
Qed.
End Played.
