(* ===== verification/AgentSession.v ===== *)
(** * The agent-session engine ([phux-server/src/resource/agent_session/])

    The ring of records a session retains, the validation and stamping of what a producer appends,
    the engine's append, its bootstrap cut, and the frames a consumer is sent for a cut and for the
    live stream ([runtime/resource_commands.rs]). JSON is [serde_json]'s: [Json] and [JsonText] name
    what the code asks of it. The wall clock is an argument. *)

From Stdlib Require Import ZifyBool.
From stdpp Require Import gmap.
From S2P Require Import Prelude Ids Enums Caps ClientLayout Keybind Codec Info Command Frame DetectRules AgentStream.

(** The text side of [serde_json::Value]: printing a value, [Value::String] and [Value::as_array];
    and how deep a value nests, which the parser limits. *)
Class JsonText {J : Json} : Type := {
  value_text : Value -> bytes;
  value_string : bytes -> Value;
  as_array : Value -> option (list Value);
  depth : Value -> Z
}.
(** A member's name in an object's text, quoted, with its colon. *)
Definition member (name : bytes) : bytes := 34 :: name ++ [34; 58].
(** The members of an object, with commas between. *)
Fixpoint members (fields : list (bytes * bytes)) : bytes :=
  match fields with
  | [] => []
  | [(name, text)] => member name ++ text
  | (name, text) :: fields => member name ++ text ++ [44] ++ members fields
  end.
Definition object_text (fields : list (bytes * bytes)) : bytes := [123] ++ members fields ++ [125].
(** A name that is printed as it is. *)
Definition plain_name (name : bytes) : bool := forallb (fun b => in_range 97 122 b || (b =? 95)) name.
(** Values that answer the questions about strings alike. *)
Definition same_words {J : Json} (v w : Value) : Prop :=
  is_object v = is_object w /\ as_str v = as_str w
  /\ forall k, match get v k with Some x => as_str x | None => None end = match get w k with Some x => as_str x | None => None end.
(** The parser's recursion limit. *)
Definition depth_limit : Z := 127.
(** What the code relies on of [serde_json]: printed values are one line and parse back, an object's
    text parses to an object of its members, and nothing nests deeper than the limit. *)
Class JsonLaws {J : Json} {JT : JsonText} : Prop := {
  empty_is_object : is_object empty_object = true;
  empty_depth : depth empty_object < depth_limit;
  object_not_null : forall v, is_object v = true -> is_null v = false;
  parsed_depth : forall text v, from_slice text = Ok v -> depth v <= depth_limit;
  member_depth : forall v k d, get v k = Some d -> depth d < depth v;
  one_line : forall v, 10 ∉ value_text v;
  string_word : forall s, utf8_valid s = true -> as_str (value_string s) = Some s;
  string_depth : forall s, depth (value_string s) < depth_limit;
  text_parses : forall v, depth v <= depth_limit -> exists w, from_slice (value_text v) = Ok w /\ same_words v w /\ depth w = depth v;
  number_parses : forall n, 0 <= n <= u64_max -> exists w, from_slice (decimal n) = Ok w /\ as_u64 w = Some n /\ depth w < depth_limit;
  object_parses : forall fields values,
    Forall (fun f => plain_name f.1 = true) fields -> NoDup (map fst fields) ->
    Forall2 (fun f v => from_slice f.2 = Ok v /\ depth v < depth_limit) fields values ->
    exists v, from_slice (object_text fields) = Ok v /\ is_object v = true /\ Forall2 (fun f w => get v f.1 = Some w) fields values
}.

(** ** The ring *)

(* phux-server/src/resource/agent_session/ring.rs RecordRing *)
Record RecordRing : Type := mkRing { ring_records : list bytes; ring_bytes : Z; ring_ceiling : Z; ring_dropped : Z }.
(* phux-server/src/resource/agent_session/ring.rs RecordRing::new *)
Definition ring_new (ceiling : Z) : RecordRing := mkRing [] 0 ceiling 0.
(** The pruning loop: while too many bytes are held and more than one record is. *)
(* phux-server/src/resource/agent_session/ring.rs:54-59 RecordRing::push *)
Fixpoint prune (records : list bytes) (held ceiling dropped : Z) : RecordRing :=
  match records with
  | evicted :: (_ :: _) as rest =>
      if ceiling <? held then prune rest (saturating_sub held (len evicted)) ceiling (Z.min (dropped + 1) u64_max)
      else mkRing records held ceiling dropped
  | _ => mkRing records held ceiling dropped
  end.
(* phux-server/src/resource/agent_session/ring.rs RecordRing::push *)
Definition ring_push (r : RecordRing) (record : bytes) : RecordRing :=
  prune (ring_records r ++ [record]) (Z.min (ring_bytes r + len record) u64_max) (ring_ceiling r) (ring_dropped r).
(* phux-server/src/resource/agent_session/ring.rs RecordRing::len *)
Definition ring_len (r : RecordRing) : Z := len (ring_records r).
(* phux-server/src/resource/agent_session/ring.rs RecordRing::is_empty *)
Definition ring_is_empty (r : RecordRing) : bool := match ring_records r with [] => true | _ => false end.

(** ** Records *)

(* phux-server/src/resource/agent_session/record.rs MAX_RECORD_BYTES *)
Definition MAX_RECORD_BYTES : Z := 16 * 1024.
(* phux-server/src/resource/agent_session/record.rs RECORD_TYPES *)
Definition RECORD_TYPES : list bytes :=
  [str "session_start"; str "prompt"; str "tool_start"; str "tool_end"; str "notification"; str "ask"; str "stop"; str "session_end";
   str "state"; str "provider_raw"].
(* phux-server/src/resource/agent_session/record.rs StreamEvidence *)
Inductive StreamEvidence : Type := Stream_Working | Stream_Blocked | Stream_Done | Stream_Retract.
#[export] Instance StreamEvidence_eq_dec : EqDecision StreamEvidence.
Proof. solve_decision. Defined.
(* phux-server/src/resource/agent_session/record.rs RecordError *)
Inductive RecordError : Type :=
| RecordError_Empty
| RecordError_NotUtf8
| RecordError_Oversized (n : Z)
| RecordError_NotAnObject
| RecordError_MissingType
| RecordError_UnknownType (found : bytes)
| RecordError_DataNotObject
| RecordError_AfterSessionEnd.
#[export] Instance RecordError_eq_dec : EqDecision RecordError.
Proof. solve_decision. Defined.
(** [RECORD_TYPES.join(", ")]. *)
Fixpoint join_comma (words : list bytes) : bytes :=
  match words with [] => [] | [w] => w | w :: words => w ++ str ", " ++ join_comma words end.
(** What the refusal says. *)
(* phux-server/src/resource/agent_session/record.rs:78-102 RecordError::fmt *)
Definition record_error_text (e : RecordError) : bytes :=
  match e with
  | RecordError_Empty => str "an append must carry at least one record"
  | RecordError_NotUtf8 => str "agent-event records must be UTF-8"
  | RecordError_Oversized n => str "a record of " ++ decimal n ++ str " bytes exceeds the " ++ decimal MAX_RECORD_BYTES ++ str "-byte codec limit"
  | RecordError_NotAnObject => str "each record line must be a JSON object"
  | RecordError_MissingType => str "each record needs a string `type`"
  | RecordError_UnknownType found => str "`" ++ found ++ str "` is not an AgentEventsJsonlV1 type; the v1 set is " ++ join_comma RECORD_TYPES
  | RecordError_DataNotObject => str "a record's `data` must be an object"
  | RecordError_AfterSessionEnd => str "the session already ended; no further records are accepted"
  end.
(* phux-server/src/resource/agent_session/record.rs StreamAsk *)
Record StreamAsk : Type := mkStreamAsk { sa_id : bytes; sa_question : bytes; sa_suggestions : list bytes }.

(** The trimming of a line: carriage returns, blanks and tabs at both ends. *)
Definition line_blank (b : Z) : bool := (b =? 13) || (b =? 32) || (b =? 9).
Definition trim_line (l : bytes) : bytes := rev' (drop_while line_blank (rev' (drop_while line_blank l))).

Section Session.
  Context {J : Json} {JT : JsonText}.

(** A [Map] is an object value. *)
(* phux-server/src/resource/agent_session/record.rs ValidRecord *)
Record ValidRecord : Type := mkValid { vr_type : bytes; vr_data : Value }.
Definition data_word (r : ValidRecord) (field : bytes) : option bytes := v ← get (vr_data r) field; as_str v.
(* phux-server/src/resource/agent_session/record.rs ValidRecord::evidence *)
Definition evidence (r : ValidRecord) : option StreamEvidence :=
  let named w := bool_decide (vr_type r = str w) in
  let says field w := bool_decide (data_word r (str field) = Some (str w)) in
  if named "prompt" || named "tool_start" then Some Stream_Working
  else if named "ask" then Some Stream_Blocked
  else if named "notification" then if says "kind" "permission" || says "kind" "elicitation" then Some Stream_Blocked else None
  else if named "stop" then Some Stream_Done
  else if named "session_end" then Some Stream_Retract
  else if named "state" then
    if says "state" "working" then Some Stream_Working
    else if says "state" "blocked" then Some Stream_Blocked
    else if says "state" "done" then Some Stream_Done
    else None
  else None.
(* phux-server/src/resource/agent_session/record.rs ValidRecord::ask *)
Definition ask (r : ValidRecord) : option StreamAsk :=
  if negb (bool_decide (evidence r = Some Stream_Blocked)) then None
  else
    match data_word r (str "question") with
    | None | Some [] => None
    | Some question =>
        Some (mkStreamAsk (default [] (data_word r (str "id"))) question
                match get (vr_data r) (str "suggestions") with
                | Some v => match as_array v with Some items => omap as_str items | None => [] end
                | None => []
                end)
    end.
(* phux-server/src/resource/agent_session/record.rs ValidRecord::ends_session *)
Definition ends_session (r : ValidRecord) : bool := bool_decide (vr_type r = str "session_end").
(** A stamped line without its newline. *)
Definition stamped (r : ValidRecord) (seq ts_ms : Z) : bytes :=
  [123] ++ member (str "seq") ++ decimal seq ++ [44] ++ member (str "ts_ms") ++ decimal ts_ms ++ [44] ++ member (str "type")
  ++ value_text (value_string (vr_type r)) ++ [44] ++ member (str "data") ++ value_text (vr_data r) ++ [125].
(* phux-server/src/resource/agent_session/record.rs ValidRecord::stamp *)
Definition stamp (r : ValidRecord) (seq ts_ms : Z) : bytes := stamped r seq ts_ms ++ [10].

(* phux-server/src/resource/agent_session/record.rs parse_record *)
Definition parse_valid (line : bytes) : result RecordError ValidRecord :=
  match from_slice line with
  | Err _ => Err RecordError_NotAnObject
  | Ok object =>
      if negb (is_object object) then Err RecordError_NotAnObject
      else
        record_type ← ok_or RecordError_MissingType (v ← get object (str "type"); as_str v);
        if negb (bool_decide (record_type ∈ RECORD_TYPES)) then Err (RecordError_UnknownType (concat (firstn 64 (chars record_type))))
        else
          data ← match get object (str "data") with
                 | None => Ok empty_object
                 | Some d => if is_null d then Ok empty_object else if is_object d then Ok d else Err RecordError_DataNotObject
                 end;
          Ok (mkValid record_type data)
  end.
(** The loop over the lines. *)
(* phux-server/src/resource/agent_session/record.rs:243-257 validate *)
Fixpoint validate_lines (lines : list bytes) (ended : bool) : result RecordError (list ValidRecord) :=
  match lines with
  | [] => Ok []
  | line :: lines =>
      let line := trim_line line in
      match line with
      | [] => validate_lines lines ended
      | _ =>
          if MAX_RECORD_BYTES <? len line then Err (RecordError_Oversized (len line))
          else if ended then Err RecordError_AfterSessionEnd
          else
            record ← parse_valid line;
            records ← validate_lines lines (ends_session record);
            Ok (record :: records)
      end
  end.
(* phux-server/src/resource/agent_session/record.rs validate *)
Definition validate (bs : bytes) (already_ended : bool) : result RecordError (list ValidRecord) :=
  if negb (utf8_valid bs) then Err RecordError_NotUtf8
  else
    records ← validate_lines (split_lines bs) already_ended;
    match records with [] => Err RecordError_Empty | _ => Ok records end.

(** ** The engine *)

(* phux-server/src/resource/agent_session/mod.rs AppendAccepted *)
Record AppendAccepted : Type := mkAccepted {
  ac_first_seq : Z; ac_last_seq : Z; ac_ts_ms : Z; ac_evidence : option StreamEvidence; ac_ask : option StreamAsk
}.
(* phux-server/src/resource/agent_session/mod.rs AppendRejection *)
Inductive AppendRejection : Type := Append_Invalid (e : RecordError) | Append_Overflow (message : bytes) | Append_Closed.
(* phux-server/src/resource/agent_session/mod.rs AgentSessionBootstrap *)
Record AgentSessionBootstrap : Type := mkCut { cut_base_seq : Z; cut_records : list bytes; cut_dropped : Z }.
(** Of what an engine broadcasts, the two fields of a live frame, and the other two kinds. *)
(* phux-server/src/resource/mod.rs PaneOutput *)
Inductive PaneOutput : Type := Output_Live (seq : Z) (payload : bytes) | Output_Resync | Output_Control.
(** Of the core, the output sequence. *)
(* phux-server/src/resource/agent_session/mod.rs AgentSessionActor *)
Record AgentSessionActor : Type := mkSession { core_seq : Z; ring : RecordRing; ended : bool }.
(* phux-server/src/resource/agent_session/mod.rs:228-241 AgentSessionActor::build *)
Definition session_build (log_bytes : Z) : AgentSessionActor := mkSession 0 (ring_new log_bytes) false.
(* phux-server/src/resource/mod.rs ResourceCore::next_seq *)
Definition next_seq (seq : Z) : option Z := if seq <? u64_max then Some (seq + 1) else None.
Definition checked_add_u64 (a b : Z) : option Z := if a + b <=? u64_max then Some (a + b) else None.

(** The loop over the records of one append: the actor, the payload, the evidence and the question so far. *)
(* phux-server/src/resource/agent_session/mod.rs:329-343 AgentSessionActor::handle_append *)
Fixpoint append_loop (entries : list ValidRecord) (ts_ms : Z) (a : AgentSessionActor) (payload : bytes) (ev : option StreamEvidence) (q : option StreamAsk)
    : AgentSessionActor * bytes * option StreamEvidence * option StreamAsk :=
  match entries with
  | [] => (a, payload, ev, q)
  | entry :: entries =>
      match next_seq (core_seq a) with
      | None => (a, payload, ev, q)
      | Some seq =>
          let line := stamp entry seq ts_ms in
          append_loop entries ts_ms (mkSession seq (ring_push (ring a) line) (ended a || ends_session entry)) (payload ++ line)
            (match evidence entry with Some found => Some found | None => ev end)
            (match ask entry with Some question => Some question | None => q end)
      end
  end.
Definition seq_exhausted : bytes := str "the session's sequence space is exhausted".
(** The reply, the engine after, and what is broadcast. *)
(* phux-server/src/resource/agent_session/mod.rs AgentSessionActor::handle_append *)
Definition handle_append (a : AgentSessionActor) (bs : bytes) (now_ms : Z) : result AppendRejection AppendAccepted * AgentSessionActor * list PaneOutput :=
  match validate bs (ended a) with
  | Err e => (Err (Append_Invalid e), a, [])
  | Ok records =>
      match checked_add_u64 (core_seq a) 1 with
      | None => (Err (Append_Overflow seq_exhausted), a, [])
      | Some first_seq =>
          match checked_add_u64 first_seq (len records - 1) with
          | None => (Err (Append_Overflow seq_exhausted), a, [])
          | Some last_seq =>
              let '(a, payload, ev, q) := append_loop records now_ms a [] None None in
              (Ok (mkAccepted first_seq last_seq now_ms ev q), a, [Output_Live last_seq payload])
          end
      end
  end.
(* phux-server/src/resource/agent_session/mod.rs AgentSessionActor::bootstrap *)
Definition bootstrap (a : AgentSessionActor) : AgentSessionBootstrap := mkCut (core_seq a) (ring_records (ring a)) (ring_dropped (ring a)).
(** What a session may be asked that is another kind's, without the payloads. *)
(* phux-server/src/resource/mod.rs ControlRequest *)
Inductive ControlRequest : Type :=
| Control_LeaseChanged | Control_Signal | Control_AgentRecordInvalidated | Control_BindAgentSession | Control_ReportStreamState
| Control_ReportAgentState | Control_SynthesizeAgentStateRecord.
(** The reply, for the requests that carry one. *)
(* phux-server/src/resource/agent_session/mod.rs AgentSessionActor::refuse_control *)
Definition refuse_control (r : ControlRequest) : option bytes :=
  match r with
  | Control_ReportAgentState | Control_SynthesizeAgentStateRecord | Control_ReportStreamState =>
      Some (str "an agent session derives its state from its own stream")
  | Control_Signal => Some (str "an agent session has no process to signal")
  | Control_LeaseChanged | Control_AgentRecordInvalidated | Control_BindAgentSession => None
  end.

(** One turn of the run loop. The event subscriptions are the core's. *)
Inductive Request : Type := Req_Append (bs : bytes) (now_ms : Z) | Req_Bootstrap | Req_Control (r : ControlRequest).
Inductive Reply : Type := Rep_Append (r : result AppendRejection AppendAccepted) | Rep_Cut (c : AgentSessionBootstrap) | Rep_Control (r : option bytes).
(* phux-server/src/resource/agent_session/mod.rs:249-281 AgentSessionActor::run *)
Definition session_turn (a : AgentSessionActor) (r : Request) : Reply * AgentSessionActor * list PaneOutput :=
  match r with
  | Req_Append bs now_ms => let '(reply, a, out) := handle_append a bs now_ms in (Rep_Append reply, a, out)
  | Req_Bootstrap => (Rep_Cut (bootstrap a), a, [])
  | Req_Control r => (Rep_Control (refuse_control r), a, [])
  end.
(** The loop: the engine after the requests, and everything it broadcast. *)
Fixpoint session_run (a : AgentSessionActor) (rs : list Request) : AgentSessionActor * list PaneOutput :=
  match rs with
  | [] => (a, [])
  | r :: rs => let '(_, a, out) := session_turn a r in let '(a, rest) := session_run a rs in (a, out ++ rest)
  end.
End Session.

(** ** What a consumer is sent *)

Section Frames.
  Context (terminal_id : ResourceId) (stream_id bootstrap_id : Z).

(** The chunks of a cut: the chunk being filled, and the number it will have. *)
(* phux-server/src/runtime/resource_commands.rs:595-620 bootstrap_frames *)
Fixpoint cut_chunks (records : list bytes) (budget chunk_seq : Z) (payload : bytes) : list FrameKind :=
  match records with
  | [] => match payload with [] => [] | _ => [FrameKind_BootstrapChunk terminal_id stream_id bootstrap_id chunk_seq payload] end
  | record :: records =>
      match payload with
      | [] => cut_chunks records budget chunk_seq record
      | _ =>
          if budget <? Z.min (len payload + len record) u64_max
          then FrameKind_BootstrapChunk terminal_id stream_id bootstrap_id chunk_seq payload
                 :: cut_chunks records budget (Z.min (chunk_seq + 1) u32_max) record
          else cut_chunks records budget chunk_seq (payload ++ record)
      end
  end.
(* phux-server/src/runtime/resource_commands.rs bootstrap_frames *)
Definition bootstrap_frames (cut : AgentSessionBootstrap) (limits : BootstrapLimits) : list FrameKind :=
  FrameKind_BootstrapBegin terminal_id stream_id bootstrap_id StreamProfile_AgentEventsJsonlV1 0 0 (cut_base_seq cut)
  :: cut_chunks (cut_records cut) (max_chunk_bytes limits) 0 []
  ++ [FrameKind_BootstrapReady terminal_id stream_id bootstrap_id None].
(** What the pump makes of one broadcast, the consumer's queue taking it. *)
(* phux-server/src/runtime/resource_commands.rs live_pump *)
Definition live_pump (base_seq : Z) (output : PaneOutput) : list FrameKind :=
  match output with
  | Output_Live seq payload => if seq <=? base_seq then [] else [FrameKind_ResourceOutput terminal_id stream_id bootstrap_id seq payload]
  | Output_Resync | Output_Control => []
  end.
End Frames.

(** ** The ring keeps the newest *)

Definition total (records : list bytes) : Z := fold_right (fun r n => len r + n) 0 records.
Lemma total_nonneg records : 0 <= total records.
Proof. induction records as [|r rs IH]; simpl; [lia|]. pose proof (len_nonneg r). lia. Qed.
Lemma total_app a b : total (a ++ b) = total a + total b.
Proof. induction a as [|r a IH]; simpl; [done|lia]. Qed.
Lemma prune_step r r' rs held ceiling dropped :
  prune (r :: r' :: rs) held ceiling dropped =
  if ceiling <? held then prune (r' :: rs) (saturating_sub held (len r)) ceiling (Z.min (dropped + 1) u64_max) else mkRing (r :: r' :: rs) held ceiling dropped.
Proof. done. Qed.
(** What pruning leaves is a suffix, and the count is of what it took. *)
Lemma prune_suffix records held ceiling dropped :
  0 <= dropped -> dropped + len records <= u64_max -> records <> [] ->
  exists n, (n < length records)%nat /\ ring_records (prune records held ceiling dropped) = drop n records
    /\ ring_dropped (prune records held ceiling dropped) = dropped + Z.of_nat n /\ ring_ceiling (prune records held ceiling dropped) = ceiling.
Proof.
  revert held dropped. induction records as [|r rs IH]; intros held dropped Hd Hn Hne; [done|].
  destruct rs as [|r' rs]; [exists O; simpl; split_and!; [lia|done|lia|done]|]. rewrite prune_step.
  destruct (ceiling <? held); [|exists O; simpl; split_and!; [lia|done|lia|done]].
  rewrite len_cons in Hn. pose proof (len_nonneg (r' :: rs)). destruct (IH (saturating_sub held (len r)) (Z.min (dropped + 1) u64_max)) as (n & Hl & -> & -> & ->); [lia|lia|done|].
  exists (S n). split_and!; [simpl in *; lia|done|lia|done].
Qed.
(** The byte count stays the sum, and under the ceiling unless one record is left. *)
Lemma prune_bytes records ceiling dropped :
  let r := prune records (total records) ceiling dropped in
  ring_bytes r = total (ring_records r) /\ (ring_bytes r <= ceiling \/ (length (ring_records r) <= 1)%nat).
Proof.
  revert dropped. induction records as [|r rs IH]; intros dropped; [simpl; split; [done|right; lia]|].
  destruct rs as [|r' rs]; [simpl; split; [done|right; lia]|]. cbv zeta. rewrite prune_step.
  destruct (ceiling <? total (r :: r' :: rs)) eqn:E; [|simpl in *; split; [done|left; lia]].
  replace (saturating_sub (total (r :: r' :: rs)) (len r)) with (total (r' :: rs)); [apply IH|].
  unfold saturating_sub. cbn [total fold_right] in *. pose proof (total_nonneg rs) as Ht. unfold total in Ht. pose proof (len_nonneg r').
  rewrite (proj2 (Z.leb_le _ _)) by lia. lia.
Qed.
(** The ring holds the newest of [all]. *)
Definition ring_holds (r : RecordRing) (all : list bytes) : Prop :=
  0 <= ring_dropped r <= len all /\ ring_records r = drop (Z.to_nat (ring_dropped r)) all.
Lemma ring_push_holds r all x : ring_holds r all -> len all < u64_max -> ring_holds (ring_push r x) (all ++ [x]) /\ ring_dropped (ring_push r x) < len (all ++ [x]).
Proof.
  intros [Hd Hr] Hl. unfold ring_push.
  assert (Hlen : length (ring_records r ++ [x]) = (length all - Z.to_nat (ring_dropped r) + 1)%nat) by (rewrite Hr, length_app, length_drop; reflexivity).
  destruct (prune_suffix (ring_records r ++ [x]) (Z.min (ring_bytes r + len x) u64_max) (ring_ceiling r) (ring_dropped r)) as (n & Hn & E1 & E2 & _);
    [lia|unfold len in *; lia|by destruct (ring_records r)|].
  unfold ring_holds. rewrite E1, E2, len_app. change (len [x]) with 1. unfold len in *. split; [|lia]. split; [lia|].
  rewrite Hr, Z2Nat.inj_add, Nat2Z.id, <- drop_drop, (drop_app_le all) by lia. done.
Qed.

(** ** The log *)

Section Log.
  Context {J : Json} {JT : JsonText}.

(** A record as the server wrote it down. *)
Record Entry : Type := mkEntry { en_record : ValidRecord; en_seq : Z; en_ts : Z }.
Definition line_of (e : Entry) : bytes := stamp (en_record e) (en_seq e) (en_ts e).
Fixpoint numbered (first ts : Z) (records : list ValidRecord) : list Entry :=
  match records with [] => [] | r :: records => mkEntry r first ts :: numbered (first + 1) ts records end.
(** What the records of a batch say, the last that says anything. *)
Definition last_said {A} (f : ValidRecord -> option A) (records : list ValidRecord) (old : option A) : option A :=
  fold_left (fun old r => match f r with Some x => Some x | None => old end) records old.

Lemma numbered_length first ts records : length (numbered first ts records) = length records.
Proof. revert first. induction records as [|r rs IH]; intros first; simpl; [done|by rewrite IH]. Qed.
Lemma numbered_seqs first ts records : map en_seq (numbered first ts records) = seqZ first (len records).
Proof.
  revert first. induction records as [|r rs IH]; intros first; [done|]. rewrite len_cons, seqZ_cons by (pose proof (len_nonneg rs); lia).
  simpl. rewrite IH. unfold Z.succ, Z.pred. do 2 f_equal; lia.
Qed.
Lemma numbered_records first ts records : map en_record (numbered first ts records) = records.
Proof. revert first. induction records as [|r rs IH]; intros first; simpl; [done|by rewrite IH]. Qed.

Lemma append_loop_spec records ts a payload ev q :
  0 <= core_seq a -> core_seq a + len records <= u64_max ->
  let es := numbered (core_seq a + 1) ts records in
  append_loop records ts a payload ev q =
    (mkSession (core_seq a + len records) (fold_left ring_push (map line_of es) (ring a)) (ended a || existsb ends_session records),
     payload ++ concat (map line_of es), last_said evidence records ev, last_said ask records q).
Proof.
  revert a payload ev q. induction records as [|r rs IH]; intros a payload ev q H0 Hs.
  - simpl. rewrite orb_false_r, app_nil_r, Z.add_0_r. by destruct a.
  - rewrite len_cons in *. pose proof (len_nonneg rs). cbn [append_loop]. unfold next_seq. rewrite (proj2 (Z.ltb_lt _ _)) by lia.
    rewrite IH by (simpl; lia). cbn [core_seq ring ended numbered map fold_left concat existsb last_said]. 
    rewrite <- app_assoc, <- orb_assoc, <- Z.add_assoc. done.
Qed.

(** ** What validation lets through *)

Definition ends_last (records : list ValidRecord) : Prop := forall pre r post, records = pre ++ r :: post -> ends_session r = true -> post = [].
Context {JL : JsonLaws}.
Definition record_ok (r : ValidRecord) : Prop := vr_type r ∈ RECORD_TYPES /\ is_object (vr_data r) = true /\ depth (vr_data r) < depth_limit.
Lemma parse_valid_ok line r : parse_valid line = Ok r -> record_ok r.
Proof.
  unfold parse_valid, mbind, result_bind, option_bind, ok_or. destruct (from_slice line) as [v|] eqn:Ev; [|done].
  destruct (is_object v) eqn:Eo; cbn [negb]; [|done]. destruct (get v (str "type")) as [ty|] eqn:Et; [|done].
  destruct (as_str ty) as [w|]; [|done]. destruct (bool_decide (w ∈ RECORD_TYPES)) eqn:Ht; cbn [negb]; [|done]. apply bool_decide_eq_true in Ht.
  pose proof (parsed_depth _ _ Ev) as Hd. pose proof empty_is_object. pose proof empty_depth.
  destruct (get v (str "data")) as [d|] eqn:Ed; [pose proof (member_depth _ _ _ Ed)|].
  - destruct (is_null d); [intros [= <-]; by split_and!|]. destruct (is_object d) eqn:Eod; [|done]. intros [= <-].
    split; [done|]. split; [done|]. cbn [vr_data]. lia.
  - intros [= <-]. by split_and!.
Qed.
Lemma ends_last_cons r rs : ends_last rs -> (rs <> [] -> ends_session r = false) -> ends_last (r :: rs).
Proof.
  intros H Hr [|r' pre] r0 post; simpl; intros [= <- ->] He; [|by eapply H]. destruct post; [done|]. by rewrite Hr in He.
Qed.
Lemma validate_lines_ok lines e rs : validate_lines lines e = Ok rs -> Forall record_ok rs /\ ends_last rs /\ (rs <> [] -> e = false).
Proof.
  revert e rs. induction lines as [|l ls IH]; intros e rs; [intros [= <-]; split_and!; [constructor|intros pre ? ? ?; by destruct pre|done]|]. simpl.
  destruct (trim_line l) as [|b l'] eqn:El; [apply IH|]. destruct (_ <? _); [done|]. destruct e; [done|].
  destruct (parse_valid _) as [r|] eqn:Er; simpl; [|done]. destruct (validate_lines ls _) as [rs'|] eqn:Els; simpl; [|done]. intros [= <-].
  destruct (IH _ _ Els) as (H1 & H2 & H3). split_and!; [constructor; [by eapply parse_valid_ok|done]|by apply ends_last_cons|done].
Qed.
Lemma validate_ok bs e rs : validate bs e = Ok rs -> rs <> [] /\ e = false /\ Forall record_ok rs /\ ends_last rs.
Proof.
  unfold validate. destruct (utf8_valid bs); [|done]. simpl. destruct (validate_lines _ _) as [[|r rs']|] eqn:E; [done| |done]. intros [= <-].
  destruct (validate_lines_ok _ _ _ E) as (H1 & H2 & H3). split_and!; [done|by apply H3|done|done].
Qed.

(** ** What an append does *)

(** The live frame of a batch. *)
Definition batch_output (es : list Entry) : PaneOutput := Output_Live (default 0 (en_seq <$> last es)) (concat (map line_of es)).
Lemma numbered_last first ts records : records <> [] -> en_seq <$> last (numbered first ts records) = Some (first + (len records - 1)).
Proof.
  revert first. induction records as [|r rs IH]; intros first Hne; [done|]. destruct rs as [|r' rs]; [simpl; f_equal; unfold len; simpl; lia|].
  cbn [numbered]. change (last (?x :: ?y :: ?l)) with (last (y :: l)). specialize (IH (first + 1) ltac:(done)). cbn [numbered] in IH. rewrite IH.
  rewrite !len_cons. f_equal. lia.
Qed.
(** An append that validates and fits the sequence space is committed whole; any other changes nothing. *)
Lemma handle_append_cases a bs now_ms :
  0 <= core_seq a ->
  (exists records, validate bs (ended a) = Ok records /\ core_seq a + len records <= u64_max
     /\ let es := numbered (core_seq a + 1) now_ms records in
        handle_append a bs now_ms =
          (Ok (mkAccepted (core_seq a + 1) (core_seq a + len records) now_ms (last_said evidence records None) (last_said ask records None)),
           mkSession (core_seq a + len records) (fold_left ring_push (map line_of es) (ring a)) (existsb ends_session records), [batch_output es]))
  \/ exists why, handle_append a bs now_ms = (Err why, a, []) /\ (forall records, validate bs (ended a) = Ok records -> u64_max < core_seq a + len records).
Proof.
  intros H0. unfold handle_append. destruct (validate bs (ended a)) as [records|e] eqn:Ev; [|right; eexists; split; [done|done]].
  destruct (validate_ok _ _ _ Ev) as (Hne & He & _). assert (Hlen : 1 <= len records) by (destruct records; [done|]; rewrite len_cons; pose proof (len_nonneg records); lia).
  unfold checked_add_u64. destruct (Z.leb_spec (core_seq a + 1) u64_max); [|right; eexists; split; [done|]; intros ? [= <-]; lia].
  replace (core_seq a + 1 + (len records - 1)) with (core_seq a + len records) by lia.
  destruct (Z.leb_spec (core_seq a + len records) u64_max); [|right; eexists; split; [done|]; intros ? [= <-]; lia].
  left. exists records. rewrite append_loop_spec by done. rewrite He. cbv zeta. split; [done|]. split; [done|]. unfold batch_output.
  rewrite numbered_last by done. cbn [default orb]. simpl app. by replace (core_seq a + 1 + (len records - 1)) with (core_seq a + len records) by lia.
Qed.

(** ** Over a run *)

(** The batches a run commits. *)
Definition committed (a : AgentSessionActor) (r : Request) : list (list Entry) :=
  match r with
  | Req_Append bs now_ms =>
      match (handle_append a bs now_ms).1.1, validate bs (ended a) with
      | Ok acc, Ok records => [numbered (ac_first_seq acc) now_ms records]
      | _, _ => []
      end
  | _ => []
  end.
Fixpoint batches (a : AgentSessionActor) (rs : list Request) : list (list Entry) :=
  match rs with [] => [] | r :: rs => committed a r ++ batches (session_turn a r).1.2 rs end.
Record LogInv (a : AgentSessionActor) (log : list Entry) : Prop := {
  li_seq : core_seq a = len log;
  li_fits : len log <= u64_max;
  li_numbers : map en_seq log = seqZ 1 (len log);
  li_ring : ring_holds (ring a) (map line_of log);
  li_kept : log <> [] -> ring_records (ring a) <> [];
  li_ended : ended a = existsb (fun e => ends_session (en_record e)) log;
  li_last : ends_last (map en_record log);
  li_ok : Forall (fun e => record_ok (en_record e)) log
}.
Lemma ring_push_all xs : forall r all, ring_holds r all -> len all + len xs <= u64_max ->
  ring_holds (fold_left ring_push xs r) (all ++ xs) /\ (xs <> [] -> ring_records (fold_left ring_push xs r) <> []).
Proof.
  induction xs as [|x xs IH]; intros r all Hr Hl; [by rewrite app_nil_r|]. rewrite len_cons in Hl. pose proof (len_nonneg xs).
  destruct (ring_push_holds r all x Hr ltac:(lia)) as [H1 H2]. rewrite cons_middle, app_assoc. cbn [fold_left].
  destruct (IH _ _ H1 ltac:(rewrite len_app; change (len [x]) with 1; lia)) as [H3 H4]. split; [done|]. intros _. destruct xs as [|y ys]; [|by apply H4].
  simpl. destruct H1 as [[Hd _] ->]. intros E%(f_equal length). rewrite length_drop in E. unfold len in *. simpl in E. lia.
Qed.
Lemma ends_last_app a b : ends_last b -> (b <> [] -> existsb ends_session a = false) -> ends_last a -> ends_last (a ++ b).
Proof.
  intros Hb Hab Ha pre r post E Hr. apply app_eq_inv in E as [(k & -> & E)|(k & -> & E)].
  - destruct k as [|r' k]; simpl in E; [by eapply (Hb []); [done|]|]. injection E as <- ->.
    assert (b <> [] -> False) as Hbn. { intros H%Hab. rewrite existsb_app in H. simpl in H. rewrite Hr, orb_true_r in H. done. }
    destruct b as [|r' b]; [|by destruct Hbn]. rewrite app_nil_r. by eapply Ha.
  - by eapply Hb.
Qed.
Lemma existsb_mapped {A B} (f : A -> B) p l : existsb p (map f l) = existsb (fun x => p (f x)) l.
Proof. induction l as [|x l IH]; simpl; [done|by rewrite IH]. Qed.
Lemma log_step a log r : LogInv a log -> LogInv (session_turn a r).1.2 (log ++ concat (committed a r)).
Proof.
  intros Hi. destruct r as [bs now_ms| |c]; [|simpl; by rewrite app_nil_r..]. destruct Hi as [H1 H2 H3 H4 H5 H6 H7 H8]. simpl.
  destruct (handle_append_cases a bs now_ms) as [(records & Ev & Hs & ->)|(why & -> & _)];
    [rewrite H1; apply len_nonneg| |simpl; rewrite app_nil_r; by constructor]. simpl. rewrite Ev. simpl. rewrite app_nil_r.
  set (es := numbered _ _ _). assert (Hes : len es = len records) by (unfold len, es; by rewrite numbered_length). rewrite H1 in Hs.
  destruct (validate_ok _ _ _ Ev) as (Hne & He & Hok & Hl).
  destruct (ring_push_all (map line_of es) (ring a) (map line_of log) H4) as [Hr1 Hr2]; [unfold len in *; rewrite !length_map; lia|].
  pose proof (len_nonneg log). pose proof (len_nonneg es).
  constructor; cbn [core_seq ring ended]; rewrite ?len_app, ?map_app, ?existsb_app, ?Hes.
  - by rewrite H1.
  - done.
  - unfold es. rewrite numbered_seqs, seqZ_app, H3, H1 by lia. do 2 f_equal. lia.
  - done.
  - intros _. apply Hr2. destruct records; [done|]. done.
  - rewrite <- H6, He. simpl. rewrite <- (numbered_records (core_seq a + 1) now_ms records) at 1. fold es. by rewrite existsb_mapped.
  - unfold es. rewrite numbered_records. apply ends_last_app; [done| |done]. intros _. rewrite <- existsb_mapped in H6. by rewrite <- H6.
  - apply Forall_app. split; [done|]. apply Forall_map. unfold es. by rewrite numbered_records.
Qed.
Lemma log_run rs : forall a log, LogInv a log ->
  LogInv (session_run a rs).1 (log ++ concat (batches a rs)) /\ (session_run a rs).2 = map batch_output (batches a rs).
Proof.
  induction rs as [|r rs IH]; intros a log Hi; [simpl; by rewrite app_nil_r|]. cbn [session_run batches].
  pose proof (log_step a log r Hi) as Hi'. destruct (IH _ _ Hi') as [H1 H2].
  destruct (session_turn a r) as [[reply a'] out] eqn:Et. simpl in *. destruct (session_run a' rs) as [a2 rest] eqn:Er. simpl in *. subst rest.
  rewrite concat_app, app_assoc. split; [done|]. rewrite map_app. f_equal. clear - Et Hi JL. destruct r as [bs now_ms| |c]; simpl in *; [|by injection Et as _ _ <-..].
  destruct (handle_append_cases a bs now_ms) as [(records & Ev & Hs & E)|(why & E & _)]; [rewrite (li_seq _ _ Hi); apply len_nonneg| |];
    rewrite E in Et |- *; simpl in *; injection Et as _ _ <-; [by rewrite Ev|done].
Qed.
(** The evidence of the appends a run accepted, the last that had any: what the server says of the session. *)
Fixpoint announced (a : AgentSessionActor) (rs : list Request) (old : option StreamEvidence) : option StreamEvidence :=
  match rs with
  | [] => old
  | r :: rs =>
      let '(reply, a, _) := session_turn a r in
      announced a rs (match reply with Rep_Append (Ok acc) => match ac_evidence acc with Some e => Some e | None => old end | _ => old end)
  end.
Lemma last_said_old {A} (f : ValidRecord -> option A) l old : last_said f l old = match last_said f l None with Some x => Some x | None => old end.
Proof.
  unfold last_said. revert old. induction l as [|r l IH]; intros old; [done|]. cbn [fold_left]. rewrite IH. destruct (f r) as [x|]; [|done]. by rewrite (IH (Some x)); destruct (fold_left _ l None).
Qed.
Lemma announced_spec rs : forall a log old, LogInv a log -> announced a rs old = last_said evidence (map en_record (concat (batches a rs))) old.
Proof.
  induction rs as [|r rs IH]; intros a log old Hi; [done|]. cbn [announced batches]. pose proof (log_step a log r Hi) as Hi'. rewrite concat_app, map_app. unfold last_said. rewrite fold_left_app.
  fold (last_said evidence (map en_record (concat (committed a r))) old). destruct (session_turn a r) as [[reply a'] out] eqn:Et. cbn [fst snd] in *. rewrite (IH a' _ _ Hi'). unfold last_said at 1. f_equal.
  destruct r as [bs now_ms| |c]; cbn [session_turn committed concat map] in *; [|by injection Et as <- _ _..].
  destruct (handle_append_cases a bs now_ms) as [(records & Ev & _ & E)|(why & E & _)]; [rewrite (li_seq _ _ Hi); apply len_nonneg| |];
    rewrite E in Et |- *; cbn [fst snd] in *; injection Et as <- _ _; [|done]. rewrite Ev. cbn [concat map ac_evidence ac_first_seq]. rewrite app_nil_r, numbered_records. by rewrite (last_said_old _ _ old).
Qed.
Lemma session_run_app rs1 rs2 : forall a, session_run a (rs1 ++ rs2) = ((session_run (session_run a rs1).1 rs2).1, (session_run a rs1).2 ++ (session_run (session_run a rs1).1 rs2).2).
Proof.
  induction rs1 as [|r rs1 IH]; intros a; [simpl; by destruct (session_run a rs2)|]. cbn [app session_run]. destruct (session_turn a r) as [[reply a'] out].
  rewrite IH. destruct (session_run a' rs1) as [a1 o1]. cbn [fst snd]. destruct (session_run a1 rs2) as [a2 o2]. cbn [fst snd]. by rewrite app_assoc.
Qed.
Lemma log_built n : LogInv (session_build n) [].
Proof. constructor; try done. intros pre r post ?%app_cons_not_nil. done. Qed.
End Log.

(** ** A small JSON *)

(** Null, numbers, strings and objects, printed and parsed as [serde_json] does; for the runs below. *)
Inductive SmallValue : Type := JNull | JNumber (n : Z) | JString (s : bytes) | JEnd | JField (name : bytes) (v rest : SmallValue).
Definition is_field (v : SmallValue) : bool := match v with JField _ _ _ => true | _ => false end.
Definition hex (d : Z) : Z := if d <? 10 then 48 + d else 87 + d.
Definition unhex (c : Z) : Z := if c <? 58 then c - 48 else c - 87.
Definition escaped (b : Z) : bool := in_range 0 31 b || (b =? 34) || (b =? 92).
Definition escape (b : Z) : bytes := if escaped b then [92; 117; 48; 48; hex (b / 16); hex (b mod 16)] else [b].
Definition small_quoted (s : bytes) : bytes := 34 :: concat (map escape s) ++ [34].
Fixpoint small_text (v : SmallValue) : bytes :=
  match v with
  | JNull => str "null"
  | JNumber n => decimal (n mod 2 ^ 64)
  | JString s => small_quoted s
  | JEnd => [123; 125]
  | JField name v rest => 123 :: small_quoted name ++ [58] ++ small_text v ++ (if is_field rest then 44 :: tail (small_text rest) else [125])
  end.
Fixpoint small_depth (v : SmallValue) : Z :=
  match v with
  | JNull | JNumber _ | JString _ => 0
  | JEnd => 1
  | JField _ v rest => Z.max (1 + small_depth v) (if is_field rest then small_depth rest else 1)
  end.
Fixpoint small_get (v : SmallValue) (k : bytes) : option SmallValue :=
  match v with JField name v rest => if bool_decide (name = k) then Some v else small_get rest k | _ => None end.

Fixpoint read_string (bs : bytes) : option (bytes * bytes) :=
  match bs with
  | [] => None
  | b :: bs' =>
      if b =? 34 then Some ([], bs')
      else if b =? 92 then
        match bs' with
        | u :: z0 :: z1 :: h :: l :: bs' => match read_string bs' with Some (s, rest) => Some (unhex h * 16 + unhex l :: s, rest) | None => None end
        | _ => None
        end
      else match read_string bs' with Some (s, rest) => Some (b :: s, rest) | None => None end
  end.
Fixpoint read_number (acc : Z) (bs : bytes) : Z * bytes :=
  match bs with b :: bs' => if in_range 48 57 b then read_number (acc * 10 + (b - 48)) bs' else (acc, bs) | [] => (acc, []) end.
Definition expect (b : Z) (bs : bytes) : option bytes := match bs with c :: bs' => if c =? b then Some bs' else None | [] => None end.
(** One value; [inside] an object, its members from the first or the next. *)
Fixpoint read_value (fuel : nat) (inside : bool) (bs : bytes) : option (SmallValue * bytes) :=
  match fuel with
  | O => None
  | S fuel =>
      match bs with
      | [] => None
      | b :: bs' =>
          if inside then
            if negb (b =? 34) then None
            else
              '(name, bs) ← read_string bs';
              bs ← expect 58 bs;
              '(v, bs) ← read_value fuel false bs;
              match bs with
              | c :: bs => if c =? 125 then Some (JField name v JEnd, bs)
                           else if c =? 44 then '(rest, bs) ← read_value fuel true bs; Some (JField name v rest, bs)
                           else None
              | [] => None
              end
          else if b =? 34 then '(s, rest) ← read_string bs'; Some (JString s, rest)
          else if b =? 123 then
            match bs' with
            | c :: rest => if c =? 125 then Some (JEnd, rest) else read_value fuel true bs'
            | [] => None
            end
          else if in_range 48 57 b then let '(n, rest) := read_number 0 bs in Some (JNumber n, rest)
          else if bool_decide (firstn 4 bs = str "null") then Some (JNull, skipn 4 bs)
          else None
      end
  end.
#[export] Instance small_json : Json := {|
  Value := SmallValue;
  from_slice bs := match read_value (S (length bs)) false bs with
                   | Some (v, []) => if small_depth v <=? depth_limit then Ok v else Err (str "recursion limit exceeded")
                   | _ => Err (str "expected value")
                   end;
  is_object v := match v with JEnd | JField _ _ _ => true | _ => false end;
  is_null v := match v with JNull => true | _ => false end;
  empty_object := JEnd;
  get := small_get;
  as_u64 v := match v with JNumber n => Some n | _ => None end;
  as_str v := match v with JString s => Some s | _ => None end
|}.
#[export] Instance small_json_text : JsonText := {|
  value_text := small_text; value_string := JString; as_array _ := None; depth := small_depth
|}.
Example small_round : from_slice (Json := small_json) (object_text [(str "a", str "12"); (str "b", small_text (JField (str "c") (JString [34; 10; 65]) JEnd))])
  = Ok (JField (str "a") (JNumber 12) (JField (str "b") (JField (str "c") (JString [34; 10; 65]) JEnd) JEnd)).
Proof. vm_compute. reflexivity. Qed.

(** Text that does not go on with a digit. *)
Definition ends_number (d : bytes) : Prop := match d with b :: _ => in_range 48 57 b = false | [] => True end.
Lemma read_string_more bs s r d : read_string bs = Some (s, r) -> read_string (bs ++ d) = Some (s, r ++ d).
Proof.
  remember (length bs) as n eqn:En. assert (Hn : (length bs <= n)%nat) by lia. clear En. revert bs s r Hn.
  induction n as [|n IH]; intros [|b bs] s r Hn E; simpl in *; try done; [lia|].
  destruct (b =? 34); [by injection E as <- <-|]. destruct (b =? 92).
  - destruct bs as [|u [|z0 [|z1 [|h [|l bs]]]]]; simpl in *; try done. destruct (read_string bs) as [[s' r']|] eqn:Es; [|done].
    injection E as <- <-. rewrite (IH bs s' r' ltac:(lia) Es). done.
  - destruct (read_string bs) as [[s' r']|] eqn:Es; [|done]. injection E as <- <-. rewrite (IH bs s' r' ltac:(lia) Es). done.
Qed.
Lemma read_number_more bs d : ends_number d -> forall acc n r, read_number acc bs = (n, r) -> read_number acc (bs ++ d) = (n, r ++ d).
Proof.
  intros Hd. induction bs as [|b bs IH]; intros acc n r E; simpl in *.
  - injection E as <- <-. destruct d as [|c d]; simpl in *; [done|]. by rewrite Hd.
  - destruct (in_range 48 57 b); [by apply IH|]. by injection E as <- <-.
Qed.
Lemma read_value_more f : forall f' i bs v r d, read_value f i bs = Some (v, r) -> (f <= f')%nat -> ends_number d -> read_value f' i (bs ++ d) = Some (v, r ++ d).
Proof.
  induction f as [|f IH]; intros [|f'] i bs v r d E Hf Hd; [done|done|lia|]. destruct bs as [|b bs]; [done|]. cbn [read_value app] in *. unfold mbind, option_bind in *.
  destruct i.
  - destruct (b =? 34); simpl in *; [|done]. destruct (read_string bs) as [[name bs1]|] eqn:Es; [|done]. rewrite (read_string_more _ _ _ d Es). simpl in *.
    destruct bs1 as [|c bs1]; simpl in *; [done|]. destruct (c =? 58); [|done]. simpl in *.
    destruct (read_value f false bs1) as [[v1 bs2]|] eqn:E1; [|done]. rewrite (IH f' _ _ _ _ d E1 ltac:(lia) Hd). simpl in *.
    destruct bs2 as [|c2 bs2]; [done|]. simpl. destruct (c2 =? 125); [by injection E as <- <-|]. destruct (c2 =? 44); [|done].
    destruct (read_value f true bs2) as [[v2 bs3]|] eqn:E2; [|done]. rewrite (IH f' _ _ _ _ d E2 ltac:(lia) Hd). simpl in *. by injection E as <- <-.
  - destruct (b =? 34). { destruct (read_string bs) as [[s bs1]|] eqn:Es; [|done]. rewrite (read_string_more _ _ _ d Es). simpl in *. by injection E as <- <-. }
    destruct (b =? 123). { destruct bs as [|c bs]; [done|]. cbn [app] in *. cbv beta iota in E. destruct (c =? 125); [by injection E as <- <-|].
      apply (IH f' true (c :: bs) _ _ d E); [lia|done]. }
    destruct (in_range 48 57 b) eqn:Eb.
    { destruct (read_number 0 (b :: bs)) as [n rest] eqn:En. change (b :: bs ++ d) with ((b :: bs) ++ d). rewrite (read_number_more _ d Hd _ _ _ En).
      by injection E as <- <-. }
    case_bool_decide as Hw; [|done]. change (b :: bs ++ d) with ((b :: bs) ++ d).
    assert (Hl : (4 <= length (b :: bs))%nat) by (apply (f_equal length) in Hw; rewrite length_firstn in Hw; change (length (str "null")) with 4%nat in Hw; lia).
    rewrite firstn_app, skipn_app. replace (4 - length (b :: bs))%nat with O by lia. rewrite Hw. simpl firstn. rewrite app_nil_r, bool_decide_eq_true_2 by done.
    change (skipn 0 d) with d. by injection E as <- <-.
Qed.

Lemma read_string_escaped s rest : read_string (concat (map escape s) ++ 34 :: rest) = Some (s, rest).
Proof.
  induction s as [|b s IH]; [done|]. cbn [map concat]. rewrite <- app_assoc. unfold escape at 1. destruct (escaped b) eqn:Eb.
  - simpl. rewrite IH. do 3 f_equal. unfold escaped, in_range in Eb. unfold hex, unhex.
    assert (0 <= b <= 92) by lia.
    pose proof (Z.div_mod b 16 ltac:(lia)). pose proof (Z.mod_pos_bound b 16 ltac:(lia)). assert (0 <= b / 16 <= 5) by lia.
    rewrite (proj2 (Z.ltb_lt (b / 16) 10)) by lia. rewrite (proj2 (Z.ltb_lt (48 + b / 16) 58)) by lia.
    destruct (Z.ltb_spec (b mod 16) 10); [rewrite (proj2 (Z.ltb_lt _ 58)) by lia|rewrite (proj2 (Z.ltb_ge _ 58)) by lia]; lia.
  - simpl. rewrite IH. unfold escaped in Eb. by repeat case_match; try lia.
Qed.
Lemma read_string_plain name rest : plain_name name = true -> read_string (name ++ 34 :: rest) = Some (name, rest).
Proof.
  induction name as [|b name IH]; [done|]. unfold plain_name in *. cbn [forallb app read_string]. intros [Hb Hn]%andb_prop. rewrite IH by done.
  unfold in_range in Hb. by repeat case_match; try lia.
Qed.
Lemma read_number_digits fuel n rest : 0 <= n < 10 ^ Z.of_nat fuel -> fuel <> O -> read_number 0 (decimal_digits fuel n ++ rest) = read_number n rest.
Proof.
  revert n rest. induction fuel as [|fuel IH]; intros n rest Hn Hf; [done|]. cbn [decimal_digits].
  pose proof (Z.mod_pos_bound n 10 ltac:(lia)) as Hd. pose proof (Z.div_mod n 10 ltac:(lia)) as Ed.
  assert (Hstep : forall acc, acc = n / 10 -> read_number acc ([48 + n mod 10] ++ rest) = read_number n rest).
  { intros acc ->. simpl. unfold in_range. rewrite (proj2 (Z.leb_le _ _)), (proj2 (Z.leb_le _ 57)) by lia. simpl. f_equal. lia. }
  destruct (Z.ltb_spec n 10).
  - rewrite app_nil_l. apply Hstep. symmetry. apply Z.div_small. lia.
  - rewrite <- app_assoc. destruct fuel as [|fuel]; [simpl in Hn; lia|]. rewrite IH; [by apply Hstep| |done].
    split; [apply Z.div_pos; lia|]. apply Z.div_lt_upper_bound; [lia|]. rewrite <- Z.pow_succ_r, <- Nat2Z.inj_succ by lia. lia.
Qed.
Lemma decimal_digit fuel : forall n, Forall (fun b => 48 <= b <= 57) (decimal_digits fuel n) /\ (fuel <> O -> decimal_digits fuel n <> []).
Proof.
  induction fuel as [|fuel IH]; intros n; [done|]. cbn [decimal_digits]. pose proof (Z.mod_pos_bound n 10 ltac:(lia)). split; [|by destruct (if n <? 10 then _ else _)].
  apply Forall_app. split; [destruct (n <? 10); [done|apply IH]|]. repeat constructor; lia.
Qed.
Lemma read_value_number f n rest : 0 <= n <= u64_max -> ends_number rest -> read_value (S f) false (decimal n ++ rest) = Some (JNumber n, rest).
Proof.
  intros Hn Hr. pose proof (decimal_digit 20 n) as [Hd Hne]. fold (decimal n) in *. specialize (Hne ltac:(done)).
  assert (E : read_number 0 (decimal n ++ rest) = (n, rest)).
  { unfold decimal. rewrite read_number_digits; [|unfold u64_max in Hn; change (10 ^ Z.of_nat 20) with 100000000000000000000; lia|done].
    destruct rest as [|b rest]; simpl in *; [done|by rewrite Hr]. }
  destruct (decimal n) as [|b bs]; [done|]. apply Forall_cons in Hd as [Hb _]. cbn [app read_value] in *.
  rewrite (proj2 (Z.eqb_neq b 34)), (proj2 (Z.eqb_neq b 123)) by lia.
  assert (in_range 48 57 b = true) as Hb' by (unfold in_range; lia). rewrite Hb'. by rewrite E.
Qed.

(** What is read back: what is printed of a number is 64 bits, of an object its members. *)
Fixpoint reread (v : SmallValue) : SmallValue :=
  match v with
  | JNumber n => JNumber (n mod 2 ^ 64)
  | JField name v rest => JField name (reread v) (if is_field rest then reread rest else JEnd)
  | _ => v
  end.
Lemma is_field_reread v : is_field (reread v) = is_field v.
Proof. by destruct v. Qed.
Lemma depth_reread v : small_depth (reread v) = small_depth v.
Proof. induction v as [|n|s| |name v IHv rest IHr]; [done..|]. simpl. destruct (is_field rest) eqn:E; [by rewrite is_field_reread, E, IHv, IHr|by rewrite IHv]. Qed.
Lemma get_reread v k : small_get (reread v) k = option_map reread (small_get v k).
Proof.
  induction v as [|n|s| |name v IHv rest IHr]; [done..|]. simpl. case_bool_decide; [done|]. destruct (is_field rest) eqn:E; [done|]. by destruct rest.
Qed.
Lemma words_reread v : same_words v (reread v).
Proof. split_and!; [by destruct v|by destruct v|]. intros k. simpl. rewrite get_reread. by destruct (small_get v k) as [[]|]. Qed.

Lemma read_text v :
  (forall f rest, (length (small_text v) <= f)%nat -> ends_number rest -> read_value f false (small_text v ++ rest) = Some (reread v, rest))
  /\ (is_field v = true -> forall f rest, (length (small_text v) <= S f)%nat -> read_value f true (tail (small_text v) ++ rest) = Some (reread v, rest)).
Proof.
  induction v as [|n|s| |name v [IHv _] rest [_ IHr]].
  - split; [|done]. intros [|f] rest Hf Hr; [simpl in Hf; lia|done].
  - split; [|done]. intros f rest Hf Hr. cbn [small_text] in *. pose proof (Z.mod_pos_bound n (2 ^ 64) ltac:(lia)).
    destruct f as [|f]; [|apply read_value_number; [unfold u64_max; lia|done]].
    destruct (decimal_digit 20 (n mod 2 ^ 64)) as [_ Hne]. fold (decimal (n mod 2 ^ 64)) in Hne. specialize (Hne ltac:(done)).
    destruct (decimal _); [done|simpl in Hf; lia].
  - split; [|done]. intros [|f] rest Hf Hr; [simpl in Hf; lia|]. cbn [small_text small_quoted app read_value]. rewrite <- app_assoc. simpl. by rewrite read_string_escaped.
  - split; [|done]. intros [|f] rest Hf Hr; [simpl in Hf; lia|done].
  - assert (Hin : forall f rest', (length (small_text (JField name v rest)) <= S f)%nat ->
                  read_value f true (tail (small_text (JField name v rest)) ++ rest') = Some (reread (JField name v rest), rest')).
    { intros [|f] rest' Hf; [simpl in Hf; lia|]. cbn [small_text tail reread] in *. unfold small_quoted in *. cbn [app read_value].
      set (after := if is_field rest then _ else _) in *. rewrite <- !app_assoc. cbn [app]. rewrite <- app_assoc, read_string_escaped.
      cbn [negb Z.eqb Pos.eqb mbind option_bind expect app].
      simpl length in Hf. rewrite !length_app in Hf. simpl length in Hf. rewrite length_app in Hf.
      rewrite IHv; [|lia|unfold after; by destruct (is_field rest)]. unfold after in *. destruct (is_field rest) eqn:Er; [|done].
      cbn [app mbind option_bind Z.eqb Pos.eqb]. simpl length in Hf. rewrite IHr; [done|done|]. destruct rest; try done. simpl in *. lia. }
    split; [|by intros _]. intros [|f] rest' Hf Hr; [simpl in Hf; lia|].
    specialize (Hin f rest'). cbn [small_text tail app read_value reread] in *. unfold small_quoted in *. cbn [app Z.eqb Pos.eqb] in *. apply Hin. exact Hf.
Qed.

(** The object of some members. *)
Fixpoint object_of (fields : list (bytes * bytes)) (values : list SmallValue) : SmallValue :=
  match fields, values with (name, _) :: fields, v :: values => JField name v (object_of fields values) | _, _ => JEnd end.
Lemma read_members fields values :
  Forall (fun f => plain_name f.1 = true) fields -> Forall2 (fun f v => read_value (S (length f.2)) false f.2 = Some (v, [])) fields values -> fields <> [] ->
  forall n rest, (S (length (members fields)) <= n)%nat -> read_value n true (members fields ++ 125 :: rest) = Some (object_of fields values, rest).
Proof.
  intros Hp H. induction H as [|[name text] v fields values Hv H IH]; [done|]. intros _ [|n] rest Hn; [lia|]. apply Forall_cons in Hp as [Hname Hp]. cbn [fst snd] in Hname, Hv.
  assert (Hstep : forall after, (S (length text) <= n)%nat -> ends_number after -> read_value (S n) true (member name ++ text ++ after) =
            match after with
            | c :: bs => if c =? 125 then Some (JField name v JEnd, bs)
                         else if c =? 44 then '(rest, bs) ← read_value n true bs; Some (JField name v rest, bs)
                         else None
            | [] => None
            end).
  { intros after Hl Ha. unfold member. cbn [app read_value Z.eqb Pos.eqb negb]. rewrite <- app_assoc. cbn [app]. rewrite read_string_plain by done.
    cbn [mbind option_bind expect Z.eqb Pos.eqb]. by rewrite (read_value_more _ n _ _ _ _ after Hv Hl Ha). }
  destruct fields as [|f fields].
  - inversion H; subst. cbn [members] in *. rewrite <- app_assoc, Hstep; [done| |done]. unfold member in Hn. rewrite !length_app in Hn. simpl in Hn. lia.
  - change (members ((name, text) :: f :: fields)) with (member name ++ text ++ [44] ++ members (f :: fields)) in *. rewrite <- !app_assoc.
    unfold member in Hn. rewrite !length_app in Hn. simpl length in Hn. rewrite Hstep by (done || lia). cbn [app Z.eqb Pos.eqb]. rewrite IH by (done || (simpl; lia)). done.
Qed.
Lemma object_of_gets fields values : NoDup (map fst fields) -> length fields = length values -> Forall2 (fun f w => small_get (object_of fields values) f.1 = Some w) fields values.
Proof.
  revert values. induction fields as [|[name text] fields IH]; intros [|v values] Hd Hl; [constructor|done|done|]. apply NoDup_cons in Hd as [Hn Hd].
  constructor; [simpl; by rewrite bool_decide_eq_true_2|]. injection Hl as Hl. specialize (IH values Hd Hl). cbn [map fst] in Hn.
  assert (forall f, f ∈ fields -> f.1 <> name) as Hne by (intros f Hf E; apply Hn; rewrite <- E; apply (list_elem_of_fmap_2 fst); done).
  apply Forall2_same_length_lookup in IH as [_ IH]. apply Forall2_same_length_lookup. split; [done|]. intros i f w Hf Hw. simpl.
  rewrite bool_decide_eq_false_2; [by eapply IH|]. intros ->. eapply (Hne f); [by eapply list_elem_of_lookup_2|done].
Qed.
Lemma object_of_depth fields values : Forall (fun v => small_depth v < depth_limit) values -> small_depth (object_of fields values) <= depth_limit.
Proof.
  intros H. revert fields. induction H as [|v values Hv H IH]; intros [|[name text] fields]; try done. simpl. specialize (IH fields). unfold depth_limit in *. case_match; lia.
Qed.
Lemma small_parses text v : from_slice (Json := small_json) text = Ok v <-> read_value (S (length text)) false text = Some (v, []) /\ small_depth v <= depth_limit.
Proof.
  cbn [from_slice small_json]. destruct (read_value _ _ _) as [[w [|b r]]|]; [|split; [done|by intros [? _]]..].
  destruct (Z.leb_spec (small_depth w) depth_limit); (split; [intros [= <-]|intros [[= <-] ?]]); try done; lia.
Qed.
Lemma small_one_line v : 10 ∉ small_text v.
Proof.
  assert (Hq : forall s, 10 ∉ small_quoted s).
  { intros s. unfold small_quoted. rewrite not_elem_of_cons, not_elem_of_app. split; [done|]. split; [|by intros [?|H]%elem_of_cons; [|by apply elem_of_nil in H]].
    induction s as [|b s IH]; [by apply not_elem_of_nil|]. cbn [map concat]. rewrite not_elem_of_app. split; [|done].
    unfold escape. destruct (escaped b) eqn:Eb; unfold escaped, in_range in Eb; rewrite ?not_elem_of_cons; [|split; [lia|apply not_elem_of_nil]].
    pose proof (Z.div_mod b 16 ltac:(lia)). pose proof (Z.mod_pos_bound b 16 ltac:(lia)). unfold hex.
    split_and!; [done..| | |apply not_elem_of_nil]; case_match; lia. }
  induction v as [|n|s| |name v IHv rest IHr]; cbn [small_text].
  - by apply (bool_decide_unpack _).
  - pose proof (decimal_digit 20 (n mod 2 ^ 64)) as [Hd _]. fold (decimal (n mod 2 ^ 64)) in Hd. intros H. rewrite Forall_forall in Hd. apply Hd in H. lia.
  - apply Hq.
  - by apply (bool_decide_unpack _).
  - rewrite not_elem_of_cons, !not_elem_of_app. split; [done|]. split; [apply Hq|]. split; [by apply (bool_decide_unpack _)|]. split; [done|].
    destruct (is_field rest); [|by apply (bool_decide_unpack _)]. rewrite not_elem_of_cons. split; [done|]. intros H. apply IHr.
    destruct (small_text rest); [done|]. apply elem_of_cons; by right.
Qed.
Lemma small_member_depth v k d : small_get v k = Some d -> small_depth d < small_depth v.
Proof.
  induction v as [|n|s| |name v IHv rest IHr]; [done..|]. simpl. case_bool_decide; [intros [= <-]; case_match; lia|].
  intros Hg%IHr. destruct rest; simpl in *; lia.
Qed.
#[export] Instance small_json_laws : JsonLaws.
Proof.
  constructor.
  - done.
  - done.
  - by intros [].
  - intros text v [_ H]%small_parses. done.
  - apply small_member_depth.
  - apply small_one_line.
  - done.
  - done.
  - intros v Hd. exists (reread v). split; [|split; [apply words_reread|apply depth_reread]]. apply small_parses. split; [|by rewrite depth_reread].
    destruct (read_text v) as [H _]. rewrite <- (app_nil_r (value_text v)) at 2. apply H; [simpl; lia|done].
  - intros n Hn. exists (JNumber n). split; [|done]. apply small_parses. split; [|done]. rewrite <- (app_nil_r (decimal n)) at 2. by apply read_value_number.
  - intros fields values Hp Hd Hv.
    assert (Hr : Forall2 (fun f v => read_value (S (length f.2)) false f.2 = Some (v, [])) fields values) by (eapply Forall2_impl; [exact Hv|]; intros f v [[H _]%small_parses _]; exact H).
    assert (Hdv : Forall (fun v => small_depth v < depth_limit) values).
    { apply Forall_forall. intros v [i Hi]%list_elem_of_lookup_1. destruct (Forall2_lookup_r _ _ _ _ _ Hv Hi) as (f & _ & _ & H). exact H. }
    exists (object_of fields values). split_and!; [|by destruct fields as [|[] ?], values|apply object_of_gets; [done|by eapply Forall2_length]].
    apply small_parses. split; [|by apply object_of_depth]. unfold object_text. destruct fields as [|f fields]; [inversion Hv; done|].
    assert (Hb : exists c bs, members (f :: fields) = 34 :: c :: bs) by (destruct f as [[|b name] text], fields as [|[] ?]; simpl; by repeat eexists).
    pose proof (read_members _ _ Hp Hr ltac:(done) (S (S (length (members (f :: fields))))) [] ltac:(lia)) as E.
    destruct Hb as (c & bs & Eb). rewrite Eb in *. cbn [app length]. rewrite length_app, Nat.add_1_r. exact E.
Qed.

(** ** What a session keeps and sends *)

Section Claims.
  Context {J : Json} {JT : JsonText} {JL : JsonLaws}.

(** C39: Whatever requests a fresh session serves, its log is the records of the appends it accepted, in order and each once: their
    sequences run from 1 without a gap, every accepted append went out as one live frame that carries its lines whole under its last
    sequence, and a bootstrap cut is the newest of the log, never empty when something was logged, with the count of what the ring
    dropped before it; a session end, once logged, is the last record for good. An append refused for any reason commits nothing. *)
Theorem session_log_is_whole n rs :
  let a := (session_run (session_build n) rs).1 in
  let log := concat (batches (session_build n) rs) in
  let cut := bootstrap a in
  map en_seq log = seqZ 1 (len log)
  /\ (session_run (session_build n) rs).2 = map batch_output (batches (session_build n) rs)
  /\ cut_base_seq cut = len log /\ 0 <= cut_dropped cut <= len log /\ cut_records cut = drop (Z.to_nat (cut_dropped cut)) (map line_of log)
  /\ (log <> [] -> cut_records cut <> [])
  /\ (forall pre e post, log = pre ++ e :: post -> ends_session (en_record e) = true -> post = [])
  /\ (forall bs now_ms why, (handle_append a bs now_ms).1.1 = Err why -> handle_append a bs now_ms = (Err why, a, [])).
Proof.
  cbv zeta. destruct (log_run rs _ _ (log_built n)) as [[H1 H2 H3 [H4 H4'] H5 H6 H7 H8] Hout]. simpl app in *.
  unfold len in H4. rewrite length_map in H4. fold (len (concat (batches (session_build n) rs))) in H4. split_and!; try done; try apply H4.
  - intros pre e post E He. specialize (H7 (map en_record pre) (en_record e) (map en_record post)). rewrite E, map_app in H7. eapply map_eq_nil, H7; done.
  - intros bs now_ms why E.
    destruct (handle_append_cases (session_run (session_build n) rs).1 bs now_ms) as [(records & _ & _ & E')|(why' & E' & _)];
      [rewrite H1; apply len_nonneg| |]; rewrite E' in E |- *; simpl in E; [done|congruence].
Qed.

(** The ring's byte count is exact and bounded. *)
Definition ring_sized (r : RecordRing) : Prop := ring_bytes r = total (ring_records r) /\ (ring_bytes r <= ring_ceiling r \/ (length (ring_records r) <= 1)%nat).
Lemma prune_ceiling records : forall held ceiling dropped, ring_ceiling (prune records held ceiling dropped) = ceiling.
Proof.
  induction records as [|r rs IH]; intros; [done|]. destruct rs; [done|]. rewrite prune_step. by destruct (_ <? _).
Qed.
Lemma ring_push_sized r x : ring_sized r -> Forall (fun y => len y <= isize_max) (x :: ring_records r) -> ring_ceiling r <= isize_max -> ring_sized (ring_push r x).
Proof.
  intros [Hb Hs] Hx Hc. unfold ring_sized, ring_push. rewrite prune_ceiling.
  assert (ring_bytes r <= isize_max).
  { destruct Hs; [lia|]. rewrite Hb. apply Forall_cons in Hx as [_ Hx]. destruct (ring_records r) as [|y [|z l]]; [done| |simpl in *; lia].
    apply Forall_cons in Hx as [Hy _]. cbn [total fold_right]. lia. }
  apply Forall_cons in Hx as [Hx _]. replace (Z.min (ring_bytes r + len x) u64_max) with (total (ring_records r ++ [x])).
  - apply prune_bytes.
  - rewrite total_app, <- Hb. cbn [total fold_right]. assert (isize_max + isize_max <= u64_max) by done. lia.
Qed.
Lemma ring_push_all_sized xs : forall r all, ring_sized r -> ring_holds r all -> ring_ceiling r <= isize_max -> len all + len xs <= u64_max ->
  Forall (fun y => len y <= isize_max) (all ++ xs) -> ring_sized (fold_left ring_push xs r) /\ ring_ceiling (fold_left ring_push xs r) = ring_ceiling r.
Proof.
  induction xs as [|x xs IH]; intros r all Hs Hh Hc Hl Hx; [done|]. rewrite len_cons in Hl. pose proof (len_nonneg xs).
  assert (E : ring_ceiling (ring_push r x) = ring_ceiling r) by (unfold ring_push; by rewrite prune_ceiling). cbn [fold_left].
  assert (Hs' : ring_sized (ring_push r x)).
  { apply ring_push_sized; [done| |done]. apply Forall_app in Hx as [Ha [Hx _]%Forall_cons]. constructor; [done|]. destruct Hh as [_ ->]. by apply Forall_drop. }
  rewrite <- E. apply (IH _ (all ++ [x])); [done|by apply ring_push_holds; [|lia]|by rewrite E| |by rewrite <- app_assoc].
  rewrite len_app. change (len [x]) with 1. lia.
Qed.
Lemma session_sized rs : forall a log, LogInv a log -> ring_sized (ring a) -> ring_ceiling (ring a) <= isize_max ->
  Forall (fun e => len (line_of e) <= isize_max) (log ++ concat (batches a rs)) ->
  ring_sized (ring (session_run a rs).1) /\ ring_ceiling (ring (session_run a rs).1) = ring_ceiling (ring a).
Proof.
  induction rs as [|r rs IH]; intros a log Hi Hs Hc Hf; [done|]. cbn [session_run batches] in *. rewrite concat_app, app_assoc in Hf.
  pose proof (log_step a log r Hi) as Hi'.
  assert (Hstep : ring_sized (ring (session_turn a r).1.2) /\ ring_ceiling (ring (session_turn a r).1.2) = ring_ceiling (ring a)).
  { destruct r as [bs now_ms| |c]; [|done..]. cbn [session_turn].
    destruct (handle_append_cases a bs now_ms) as [(records & Ev & Hr & E)|(why & E & _)]; [rewrite (li_seq _ _ Hi); apply len_nonneg| |by rewrite E].
    unfold committed in Hf. rewrite E in *. cbn [fst snd ring ac_first_seq] in *. rewrite Ev in Hf. simpl in Hf. rewrite app_nil_r in Hf. apply Forall_app in Hf as [Hf _].
    apply (ring_push_all_sized _ _ (map line_of log)); [done|apply (li_ring _ _ Hi)|done| |].
    - unfold len. rewrite !length_map, numbered_length. rewrite (li_seq _ _ Hi) in Hr. exact Hr.
    - by rewrite <- map_app, Forall_map. }
  destruct (session_turn a r) as [[reply a'] out]. cbn [fst snd] in *. destruct (session_run a' rs) as [a2 rest] eqn:Er. cbn [fst].
  destruct Hstep as [H1 H2]. specialize (IH a' _ Hi' H1 ltac:(lia) Hf). rewrite Er in IH. rewrite <- H2. exact IH.
Qed.
(** The memory a session holds on to: the byte count is exact, and within the configured ceiling unless a single record is left. *)
Theorem session_memory_is_bounded n rs :
  0 <= n <= u32_max -> Forall (fun e => len (line_of e) <= isize_max) (concat (batches (session_build n) rs)) ->
  let r := ring (session_run (session_build n) rs).1 in
  ring_bytes r = total (ring_records r) /\ (total (ring_records r) <= n \/ ring_len r <= 1).
Proof.
  intros Hn Hf. destruct (session_sized rs (session_build n) [] (log_built n)) as [[H1 H2] H3]; [by split; [|left; simpl; lia]|simpl; unfold u32_max, isize_max in *; lia|done|].
  cbv zeta. split; [done|]. rewrite H3 in H2. simpl in H2. unfold ring_len, len. destruct H2; [left|right]; lia.
Qed.
End Claims.

(** A producer that batches, one that is refused, an end, and one too late. *)
Definition says_type (kind : bytes) : bytes := object_text [(str "type", small_quoted kind)].
Definition small_requests : list Request :=
  [Req_Append (says_type (str "prompt") ++ [10] ++ says_type (str "stop")) 5; Req_Append (str "{}") 6; Req_Append (says_type (str "session_end")) 7;
   Req_Append (says_type (str "prompt")) 8].
Lemma session_log_is_whole_witness :
  map en_seq (concat (batches (session_build 100) small_requests)) = [1; 2; 3]
  /\ cut_dropped (bootstrap (session_run (session_build 100) small_requests).1) = 1
  /\ len (cut_records (bootstrap (session_run (session_build 100) small_requests).1)) = 2
  /\ handle_append (session_run (session_build 100) small_requests).1 (says_type (str "prompt")) 9
     = (Err (Append_Invalid RecordError_AfterSessionEnd), (session_run (session_build 100) small_requests).1, []).
Proof.
  destruct (session_log_is_whole 100 small_requests) as (H1 & _ & _ & _ & H2 & _ & _ & H3).
  assert (E : len (concat (batches (session_build 100) small_requests)) = 3) by (vm_compute; reflexivity). rewrite E in H1.
  split; [exact H1|]. split; [vm_compute; reflexivity|]. split; [rewrite H2; vm_compute; reflexivity|]. apply H3. vm_compute. reflexivity.
Defined.
