(* ===== verification/AgentFeed.v ===== *)
(** * From the session to the consumer

    The frames of an attach ([phux-server/src/runtime/resource_commands.rs]) reach the client's
    kernel: what the engine of [AgentSession] logs, stamps, cuts and broadcasts is what the consumer
    of [Kernel] and [AgentStream] decodes, folds and shows. *)

From Stdlib Require Import ZifyBool.
From stdpp Require Import gmap.
From S2P Require Import Prelude Ids Enums Caps ClientLayout Codec Info Command Frame HistoryCache Engine AgentStream Kernel KernelSteps KernelConverge EngineRoute AgentSession.

(** ** One line *)

Section Lines.
  Context {J : Json} {JT : JsonText} {JL : JsonLaws}.

(** What a consumer reads of a record is what was logged. *)
Definition reads (e : Entry) (r : AgentEventRecord) : Prop :=
  ae_seq r = en_seq e /\ ae_ts_ms r = en_ts e /\ ae_kind r = AgentEventKind_parse (vr_type (en_record e))
  /\ forall field, data_str r field = data_word (en_record e) field.
(** What the engine stamps is in range, and small enough for the consumer. *)
Definition stamps_ok (e : Entry) : Prop := record_ok (en_record e) /\ 0 <= en_seq e <= u64_max /\ 0 <= en_ts e <= u64_max.
Definition text_of (e : Entry) : bytes := stamped (en_record e) (en_seq e) (en_ts e).
Definition fits (e : Entry) : Prop := len (text_of e) <= AgentStream.MAX_RECORD_BYTES.

Lemma stamped_object r seq ts :
  stamped r seq ts = object_text [(str "seq", decimal seq); (str "ts_ms", decimal ts); (str "type", value_text (value_string (vr_type r))); (str "data", value_text (vr_data r))].
Proof. unfold stamped, object_text, members. by rewrite <- !app_assoc. Qed.
Lemma types_utf8 w : w ∈ RECORD_TYPES -> utf8_valid w = true.
Proof.
  intros H. assert (Forall (fun w => utf8_valid w = true) RECORD_TYPES) as HF by (repeat constructor). rewrite Forall_forall in HF. by apply HF.
Qed.
Lemma client_reads_line e : stamps_ok e -> exists r, AgentStream.parse_record (text_of e) = Ok r /\ reads e r.
Proof.
  intros ((Hty & Hob & Hdep) & Hseq & Hts). unfold text_of. rewrite stamped_object.
  destruct (number_parses _ Hseq) as (vs & Es & Us & Ds). destruct (number_parses _ Hts) as (vt & Et & Ut & Dt).
  pose proof (string_depth (vr_type (en_record e))) as Hsd.
  destruct (text_parses (value_string (vr_type (en_record e))) ltac:(lia)) as (vy & Ey & (_ & Wy & _) & Dy).
  destruct (text_parses (vr_data (en_record e)) ltac:(lia)) as (vd & Ed & (Od & _ & Wd) & Dd).
  destruct (object_parses [(str "seq", decimal (en_seq e)); (str "ts_ms", decimal (en_ts e)); (str "type", value_text (value_string (vr_type (en_record e))));
              (str "data", value_text (vr_data (en_record e)))] [vs; vt; vy; vd]) as (v & Ev & Ov & Gv).
  { by repeat constructor. }
  { apply (bool_decide_unpack _). by vm_compute. }
  { repeat constructor; simpl; done || lia. }
  rewrite !Forall2_cons in Gv. cbn [fst] in Gv. destruct Gv as (Gs & Gt & Gy & Gd & _).
  unfold AgentStream.parse_record, mbind, result_bind, option_bind, ok_or. rewrite Ev, Ov, Gs, Us, Gt, Ut, Gy. cbn [negb].
  rewrite <- Wy, string_word by (by apply types_utf8). rewrite Gd, <- Od, Hob.
  rewrite object_not_null by congruence. eexists. split; [reflexivity|]. split_and!; [done..|]. intros field. unfold data_str, data_word.
  cbn [ae_data]. symmetry. apply Wd.
Qed.

(** ** A run of lines *)

Lemma split_lines_app l bs : 10 ∉ l -> split_lines (l ++ 10 :: bs) = l :: split_lines bs.
Proof.
  induction l as [|b l IH]; intros Hl; [done|]. apply not_elem_of_cons in Hl as [Hb Hl]. cbn [app split_lines].
  rewrite (proj2 (Z.eqb_neq b 10)) by congruence. by rewrite IH.
Qed.
Lemma text_one_line e : 10 ∉ text_of e.
Proof.
  assert (Hd : forall n, 10 ∉ decimal n) by (intros n H; destruct (decimal_digit 20 n) as [Hf _]; rewrite Forall_forall in Hf; apply Hf in H; lia).
  unfold text_of, stamped. rewrite !not_elem_of_app. split_and!;
    match goal with
    | |- _ ∉ decimal _ => apply Hd
    | |- _ ∉ value_text _ => apply one_line
    | |- _ => apply (bool_decide_unpack _); vm_compute; exact I
    end.
Qed.
Lemma trim_braced x : trim_ascii (123 :: x ++ [125]) = 123 :: x ++ [125].
Proof.
  unfold trim_ascii. cbn [skip_whitespace is_ascii_whitespace Z.eqb Pos.eqb orb]. change (123 :: x ++ [125]) with ((123 :: x) ++ [125]).
  rewrite rev_app_distr. cbn [rev app skip_whitespace is_ascii_whitespace Z.eqb Pos.eqb orb]. simpl. by rewrite rev_app_distr, rev_involutive.
Qed.
Lemma text_braced e : exists x, text_of e = 123 :: x ++ [125].
Proof.
  unfold text_of. rewrite stamped_object. unfold object_text. by eexists.
Qed.
(** The consumer at one of the engine's lines. *)
Lemma parse_line_of e rest : parse_lines (split_lines (line_of e ++ rest)) =
  if AgentStream.MAX_RECORD_BYTES <? len (text_of e) then Err (Record_Oversize (len (text_of e)))
  else r ← AgentStream.parse_record (text_of e); rs ← parse_lines (split_lines rest); Ok (r :: rs).
Proof.
  unfold line_of, stamp. fold (text_of e). rewrite <- app_assoc. cbn [app]. rewrite split_lines_app by apply text_one_line. cbn [parse_lines].
  assert (trim_ascii (text_of e) = text_of e) as -> by (destruct (text_braced e) as [x ->]; apply trim_braced).
  assert (len (text_of e) =? 0 = false) as -> by (destruct (text_braced e) as [x ->]; rewrite len_cons; pose proof (len_nonneg (x ++ [125])); lia). done.
Qed.
(** A payload of whole lines is read whole. *)
Lemma client_reads_lines es : Forall (fun e => stamps_ok e /\ fits e) es -> exists rs, parse_records (concat (map line_of es)) = Ok rs /\ Forall2 reads es rs.
Proof.
  unfold parse_records. induction 1 as [|e es [Hok Hfit] _ (rs & IH & Hrs)]; [by exists []|].
  destruct (client_reads_line e Hok) as (r & Er & Hr). exists (r :: rs). split; [|by constructor].
  cbn [map concat]. rewrite parse_line_of. unfold fits in Hfit. rewrite (proj2 (Z.ltb_ge _ _)) by exact Hfit. unfold mbind, result_bind. by rewrite Er, IH.
Qed.
(** A line the consumer finds too long spoils the whole payload. *)
Lemma client_refuses_line e es : ~ fits e -> parse_records (concat (map line_of (e :: es))) = Err (Record_Oversize (len (text_of e))).
Proof.
  intros Hfit. unfold parse_records. cbn [map concat]. rewrite parse_line_of. unfold fits in Hfit. by rewrite (proj2 (Z.ltb_lt _ _)) by lia.
Qed.

(** One line the consumer finds too long spoils its payload, wherever it stands. *)
Lemma client_refuses_lines es : Forall stamps_ok es -> Exists (fun e => ~ fits e) es -> exists n, parse_records (concat (map line_of es)) = Err (Record_Oversize n).
Proof.
  unfold parse_records. intros Hok. induction 1 as [e es Hfit|e es _ IH]; cbn [map concat]; rewrite parse_line_of; unfold fits in *.
  - rewrite (proj2 (Z.ltb_lt _ _)) by lia. by eexists.
  - apply Forall_cons in Hok as [He Hok]. destruct (_ <? _); [by eexists|]. destruct (client_reads_line e He) as (r & -> & _).
    destruct (IH Hok) as (n & En). unfold mbind, result_bind. rewrite En. by eexists.
Qed.

(** ** What the records say *)

Definition status_of (ev : StreamEvidence) : AgentSessionStatus :=
  match ev with Stream_Working => Status_Working | Stream_Blocked => Status_Blocked | Stream_Done => Status_Done | Stream_Retract => Status_Ended end.
(** A [state] record that says one of the words the server knows, or none. *)
Definition known_state (r : ValidRecord) : Prop :=
  vr_type r = str "state" -> match data_word r (str "state") with Some w => w ∈ [str "working"; str "blocked"; str "done"] | None => True end.
Ltac decide_words :=
  repeat match goal with
  | |- context [bool_decide (str ?a = str ?b)] => let v := eval vm_compute in (bool_decide (str a = str b)) in change (bool_decide (str a = str b)) with v
  | |- context [bool_decide (Some (str ?a) = Some (str ?b))] =>
      let v := eval vm_compute in (bool_decide (Some (str a) = Some (str b))) in change (bool_decide (Some (str a) = Some (str b))) with v
  | |- context [AgentSessionStatus_parse (str ?a)] =>
      let v := eval vm_compute in (AgentSessionStatus_parse (str a)) in change (AgentSessionStatus_parse (str a)) with v
  end.
Ltac kind_word :=
  match goal with |- context [AgentEventKind_parse (str ?a)] => let v := eval vm_compute in (AgentEventKind_parse (str a)) in change (AgentEventKind_parse (str a)) with v end.
Lemma fold_follows e r st : reads e r -> vr_type (en_record e) ∈ RECORD_TYPES -> known_state (en_record e) -> as_status st <> Status_Ended ->
  as_status (fold_record st r) = match evidence (en_record e) with Some ev => status_of ev | None => as_status st end.
Proof.
  intros (_ & _ & Hk & Hd) Hty Hst Hne. unfold fold_record, evidence. rewrite Hk, !Hd. unfold known_state in Hst.
  unfold RECORD_TYPES in Hty. rewrite !elem_of_cons in Hty. destruct Hty as [Hty|[Hty|[Hty|[Hty|[Hty|[Hty|[Hty|[Hty|[Hty|[Hty|Hty]]]]]]]]]]; [..|by apply elem_of_nil in Hty];
    rewrite Hty in *; kind_word; decide_words; cbn [orb as_status status_of]; try done.
  - by rewrite bool_decide_eq_false_2.
  - destruct (data_word (en_record e) (str "kind")) as [w|]; [|done]. destruct (decide (w = str "permission")) as [->|Hp]; [by decide_words|].
    destruct (decide (w = str "elicitation")) as [->|Hq]; [by decide_words|]. rewrite !(bool_decide_eq_false_2 (_ = _)) by congruence. done.
  - specialize (Hst eq_refl). destruct (data_word (en_record e) (str "state")) as [w|]; [|done].
    rewrite !elem_of_cons in Hst. destruct Hst as [->|[->|[->|Hst]]]; [..|by apply elem_of_nil in Hst]; by decide_words.
Qed.
Lemma evidence_ends r : evidence r = Some Stream_Retract -> ends_session r = true.
Proof.
  unfold evidence, ends_session. intros E. destruct (decide (vr_type r = str "session_end")) as [Ht|Hn]; [by apply bool_decide_eq_true_2|].
  rewrite (bool_decide_eq_false_2 (vr_type r = str "session_end")) in E by done. by repeat case_match.
Qed.
(** The consumer's status is what the server derives, records before [old] included. *)
Lemma status_follows es rs d : Forall2 reads es rs -> forall st old, ends_last (map en_record es) ->
  Forall (fun e => vr_type (en_record e) ∈ RECORD_TYPES /\ known_state (en_record e)) es -> (es <> [] -> as_status st <> Status_Ended) ->
  as_status st = default d (status_of <$> old) ->
  as_status (fold_left fold_record rs st) = default d (status_of <$> last_said evidence (map en_record es) old).
Proof.
  induction 1 as [|e r es rs Hr Hrs IH]; intros st old Hl Hok Hne Hst; [done|]. apply Forall_cons in Hok as [[Hty Hkn] Hok]. cbn [map fold_left] in *.
  pose proof (fold_follows e r st Hr Hty Hkn (Hne ltac:(done))) as E. unfold last_said. cbn [fold_left]. apply IH; [|done| |].
  - intros pre x post Ex. apply (Hl (en_record e :: pre) x post). by rewrite Ex.
  - intros Hes. rewrite E. destruct (evidence (en_record e)) as [[]|] eqn:Ev; try done; [|by apply Hne]. apply evidence_ends in Ev.
    specialize (Hl [] (en_record e) (map en_record es) eq_refl Ev). by apply map_eq_nil in Hl.
  - rewrite E. by destruct (evidence (en_record e)).
Qed.

(** ** The chunks of a cut *)

Definition lines (es : list Entry) : bytes := concat (map line_of es).
Lemma line_cons e : exists b bs, line_of e = b :: bs.
Proof. unfold line_of, stamp. fold (text_of e). destruct (text_braced e) as [x ->]. by repeat eexists. Qed.
(** Every chunk is a run of whole lines. *)
Lemma cut_chunks_whole t s b es budget : forall n pend, 0 <= n -> n + len es <= u32_max ->
  exists groups, concat groups = pend ++ es /\ len groups <= len es + 1
    /\ cut_chunks t s b (map line_of es) budget n (lines pend) = chunk_frames t s b n (map lines groups).
Proof.
  unfold lines. induction es as [|e es IH]; intros n pend Hn Hl.
  - destruct pend as [|p pend]; [by exists []|]. exists [p :: pend]. split; [done|]. split; [done|]. cbn [map cut_chunks concat].
    destruct (line_cons p) as (c & bs & ->). done.
  - rewrite len_cons in *. pose proof (len_nonneg es). cbn [map cut_chunks].
    assert (Hgrow : exists groups, concat groups = pend ++ e :: es /\ len groups <= 1 + len es + 1
                      /\ cut_chunks t s b (map line_of es) budget n (concat (map line_of pend) ++ line_of e) = chunk_frames t s b n (map (fun es => concat (map line_of es)) groups)).
    { destruct (IH n (pend ++ [e]) Hn ltac:(lia)) as (groups & H1 & H2 & H3). exists groups. rewrite <- app_assoc in H1. split; [done|]. split; [lia|].
      rewrite map_app, concat_app in H3. simpl in H3. by rewrite app_nil_r in H3. }
    destruct pend as [|p pend]; [exact Hgrow|]. destruct (line_cons p) as (c & bs & Ep).
    assert (exists c' bs', concat (map line_of (p :: pend)) = c' :: bs') as (c' & bs' & Ec) by (cbn [map concat]; rewrite Ep; by repeat eexists).
    rewrite Ec. destruct (budget <? _); [|rewrite Ec in Hgrow; exact Hgrow]. rewrite <- Ec. rewrite Z.min_l by lia.
    destruct (IH (n + 1) [e] ltac:(lia) ltac:(lia)) as (groups & H1 & H2 & H3). exists ((p :: pend) :: groups). split; [cbn [concat]; by rewrite H1|].
    split; [rewrite len_cons; lia|]. cbn [map chunk_frames]. f_equal. rewrite <- H3. cbn [map concat]. by rewrite app_nil_r.
Qed.

(** ** What the pump lets through *)

(** Batches that continue a log of [base] records. *)
Fixpoint continues (base : Z) (bs : list (list Entry)) : Prop :=
  match bs with [] => True | b :: bs => b <> [] /\ map en_seq b = seqZ (base + 1) (len b) /\ continues (base + len b) bs end.
Lemma numbered_continue bs : forall base, Forall (fun b => b <> []) bs -> map en_seq (concat bs) = seqZ (base + 1) (len (concat bs)) -> continues base bs.
Proof.
  induction bs as [|b bs IH]; intros base Hne E; [done|]. apply Forall_cons in Hne as [Hb Hne]. cbn [concat] in E.
  rewrite map_app, len_app, seqZ_app in E by apply len_nonneg. apply app_inj_1 in E as [E1 E2]; [|rewrite length_map, length_seqZ; unfold len; lia].
  split_and!; [done|done|]. apply IH; [done|]. rewrite E2. f_equal. lia.
Qed.
Lemma committed_nonempty a r : Forall (fun b => b <> []) (committed a r).
Proof.
  destruct r as [bs now_ms| |c]; [|constructor..]. unfold committed. destruct (handle_append a bs now_ms).1.1; [|constructor].
  destruct (validate bs (ended a)) as [records|] eqn:Ev; [|constructor]. destruct (validate_ok _ _ _ Ev) as [Hne _]. constructor; [by destruct records|constructor].
Qed.
Lemma batches_nonempty rs : forall a, Forall (fun b => b <> []) (batches a rs).
Proof. induction rs as [|r rs IH]; intros a; [constructor|]. apply Forall_app. split; [apply committed_nonempty|apply IH]. Qed.
Lemma batches_continue a log rs : LogInv a log -> continues (len log) (batches a rs).
Proof.
  intros Hi. destruct (log_run rs _ _ Hi) as [Hi' _]. apply numbered_continue; [apply batches_nonempty|].
  pose proof (li_numbers _ _ Hi') as E. rewrite map_app, len_app, seqZ_app in E by apply len_nonneg.
  apply app_inj_1 in E as [_ E]; [by rewrite E, Z.add_comm|]. rewrite length_map, length_seqZ. unfold len. lia.
Qed.
Lemma batch_last e from : e <> [] -> map en_seq e = seqZ (from + 1) (len e) -> default 0 (en_seq <$> last e) = from + len e.
Proof.
  intros Hne Hs. rewrite <- fmap_last. change (en_seq <$> e) with (map en_seq e). rewrite Hs, last_lookup, length_seqZ.
  assert (0 < len e) by (destruct e; [done|rewrite len_cons; pose proof (len_nonneg e0); lia]). rewrite lookup_seqZ_lt by lia. simpl. lia.
Qed.
(** Batches at or below the cut are dropped, later ones are one frame each. *)
Lemma pump_old t s b base bs : forall from, continues from bs -> from + len (concat bs) <= base -> concat (map (live_pump t s b base) (map batch_output bs)) = [].
Proof.
  induction bs as [|e bs IH]; intros from Hc Hl; [done|]. destruct Hc as (Hne & Hs & Hc). cbn [concat map] in *. rewrite len_app in Hl. pose proof (len_nonneg (concat bs)).
  rewrite (IH _ Hc) by lia. rewrite app_nil_r. unfold batch_output, live_pump. rewrite (batch_last e from Hne Hs). by rewrite (proj2 (Z.leb_le _ _)) by lia.
Qed.
Fixpoint batch_frames (t : ResourceId) (s b base : Z) (bs : list (list Entry)) : list FrameKind :=
  match bs with [] => [] | e :: bs => FrameKind_ResourceOutput t s b (base + len e) (lines e) :: batch_frames t s b (base + len e) bs end.
Lemma pump_new t s b base bs : forall from, continues from bs -> base <= from -> concat (map (live_pump t s b base) (map batch_output bs)) = batch_frames t s b from bs.
Proof.
  induction bs as [|e bs IH]; intros from Hc Hl; [done|]. destruct Hc as (Hne & Hs & Hc). cbn [concat map batch_frames] in *.
  assert (0 < len e) by (destruct e; [done|rewrite len_cons; pose proof (len_nonneg e0); lia]).
  rewrite (IH _ Hc) by lia. unfold batch_output, live_pump. rewrite (batch_last e from Hne Hs). by rewrite (proj2 (Z.leb_gt _ _)) by lia.
Qed.
End Lines.

(** ** The consumer's kernel *)

Section Consumer.
  Context {Adapter Replica EngineError : Type} {EA : EngineAdapter Adapter Replica EngineError} {J : Json} {JT : JsonText} {JL : JsonLaws}.
  Context (payload_digest : bytes -> bytes).
  Abbreviation Kernel := (@SessionKernel Adapter Replica J).
  Implicit Types (k : Kernel).

(** A kernel that can take this generation of the session [t]. *)
Definition can_attach k (t : ResourceId) (stream boot : Z) : Prop :=
  t ∉ closed k /\ (kinds k !! t = None \/ kinds k !! t = Some ResourceKind_AgentSession)
  /\ let sm := agent_entry k t in
     sm_retired sm !! (stream, boot) = None /\ agent_publishes sm (stream, boot) = false /\ agent_stages sm (stream, boot) = false
     /\ 0 < log_capacity (sm_log sm).
(** The generation staged so far: its records, the next chunk. *)
Definition stages k (t : ResourceId) (stream boot base n : Z) (rs : list AgentEventRecord) (declared : AgentSessionState) (cap : Z) : Prop :=
  t ∉ closed k /\ exists sm, agents k !! t = Some sm
    /\ sm_staging sm = Some (mkAgentStaging (mkKey t stream boot StreamProfile_AgentEventsJsonlV1) base (Some n) rs)
    /\ sm_retired sm !! (stream, boot) = None /\ agent_publishes sm (stream, boot) = false /\ sm_declared sm = declared /\ log_capacity (sm_log sm) = cap.
(** The generation shown: everything received, folded into the state, the newest of it in the log. *)
Definition follows k (t : ResourceId) (stream boot last : Z) (rs : list AgentEventRecord) (declared : AgentSessionState) (cap : Z) : Prop :=
  t ∉ closed k /\ exists sm, agents k !! t = Some sm
    /\ sm_published sm = Some (mkAgentGeneration (mkKey t stream boot StreamProfile_AgentEventsJsonlV1) last (next_u64 last))
    /\ sm_retired sm !! (stream, boot) = None /\ sm_state sm = fold_left fold_record rs declared
    /\ sm_log sm = mkAgentLog (drop (length rs - Z.to_nat cap) rs) cap.

Lemma open_ok k t : t ∉ closed k -> ensure_open (EngineError := EngineError) k t = Ok tt.
Proof. intros H. unfold ensure_open. by rewrite bool_decide_eq_false_2. Qed.
Lemma stream_found k t (g : GenerationId) sm : agents k !! t = Some sm -> sm_retired sm !! g = None -> agent_stream_of (EngineError := EngineError) k t g = Ok sm.
Proof. intros Ea Er. unfold agent_stream_of. rewrite Ea, Er. by rewrite bool_decide_eq_false_2 by (by intros [? [=]]). Qed.
Lemma staging_found sm t stream boot base n rs :
  sm_staging sm = Some (mkAgentStaging (mkKey t stream boot StreamProfile_AgentEventsJsonlV1) base n rs) ->
  agent_staging_of (EngineError := EngineError) sm t (stream, boot) = Ok (mkAgentStaging (mkKey t stream boot StreamProfile_AgentEventsJsonlV1) base n rs).
Proof. intros Es. unfold agent_staging_of. rewrite Es. by rewrite bool_decide_eq_true_2. Qed.
Lemma attach_begins k t stream boot base : can_attach k t stream boot ->
  exists k' es, update payload_digest k (In_BootstrapBegin t stream boot StreamProfile_AgentEventsJsonlV1 (mkGeometry 0 0) base) = (Ok tt, k', es)
    /\ stages k' t stream boot base 0 [] (sm_declared (agent_entry k t)) (log_capacity (sm_log (agent_entry k t))).
Proof.
  intros (Ho & Hk & Hr & Hp & Hs & Hc). cbn [update is_agent_profile]. unfold agent_bootstrap_begin. cbv zeta. rewrite open_ok by done. cbn [or_return].
  assert (exists k1, expect_kind (EngineError := EngineError) k t ResourceKind_AgentSession = Ok k1 /\ closed k1 = closed k /\ agents k1 = agents k) as (k1 & -> & Ec & Ea).
  { unfold expect_kind. destruct Hk as [-> | ->]; [by eexists|]. rewrite bool_decide_eq_true_2 by done. by eexists. }
  cbn [or_return]. assert (agent_entry k1 t = agent_entry k t) as -> by (unfold agent_entry; by rewrite Ea).
  case_bool_decide as Hx; [exfalso; rewrite Hr in Hx; by destruct Hx|]. rewrite Hp, Hs. cbn [orb]. do 2 eexists. split; [reflexivity|].
  split; [simpl; by rewrite Ec|]. eexists. split; [apply lookup_insert_eq|]. cbn [sm_staging sm_retired sm_declared sm_log]. split; [done|].
  split; [|by split]. unfold agent_stages in Hs. destruct (sm_staging _) as [old|]; [|done]. apply bool_decide_eq_false in Hs. by rewrite lookup_insert_ne.
Qed.
Lemma attach_chunk k t stream boot base n rs declared cap payload more :
  stages k t stream boot base n rs declared cap -> n < u32_max -> parse_records payload = Ok more ->
  exists k' es, update payload_digest k (In_BootstrapChunk t stream boot n payload) = (Ok tt, k', es) /\ stages k' t stream boot base (n + 1) (rs ++ more) declared cap.
Proof.
  intros (Ho & sm & Ea & Es & Hr & Hp & Hd & Hc) Hn Hpay. cbn [update]. rewrite Ea, bool_decide_eq_true_2 by (by eexists).
  unfold agent_bootstrap_chunk. cbv zeta. rewrite open_ok, (stream_found _ _ _ _ Ea Hr) by done. cbn [or_return]. rewrite (staging_found _ _ _ _ _ _ _ Es). cbn [or_return].
  unfold expect_chunk. cbn [at_next_chunk_seq]. rewrite !Z.ltb_irrefl. cbn [or_return]. rewrite Hpay.
  unfold next_u32. rewrite (proj2 (Z.eqb_neq n u32_max)) by lia. do 2 eexists. split; [reflexivity|]. split; [done|].
  eexists. split; [apply lookup_insert_eq|]. cbn [sm_staging sm_retired sm_declared sm_log at_key at_base_seq at_records]. split_and!; done.
Qed.
Lemma attach_ready k t stream boot base n rs declared cap cursor :
  stages k t stream boot base n rs declared cap -> 0 < cap ->
  exists k' es, update payload_digest k (In_BootstrapReady t stream boot cursor) = (Ok tt, k', es) /\ follows k' t stream boot base rs declared cap.
Proof.
  intros (Ho & sm & Ea & Es & Hr & Hp & Hd & Hc) Hcap. cbn [update]. rewrite Ea, bool_decide_eq_true_2 by (by eexists).
  unfold agent_bootstrap_ready. cbv zeta. rewrite open_ok, (stream_found _ _ _ _ Ea Hr) by done. cbn [or_return]. rewrite (staging_found _ _ _ _ _ _ _ Es). cbn [or_return absorb].
  do 2 eexists. split; [reflexivity|]. split; [by unfold mark_attach_resolved, mark_attach; case_match|].
  eexists. split; [unfold mark_attach_resolved, mark_attach; case_match; apply lookup_insert_eq|].
  cbn [sm_published sm_retired sm_state sm_log at_base_seq at_key]. split; [done|]. split; [|split; [by rewrite Hd|]].
  - unfold agent_publishes in Hp. destruct (sm_published sm) as [old|]; [|done]. apply bool_decide_eq_false in Hp.
    destruct (sm_retired sm !! generation_of (ag_key old)); [done|]. by rewrite lookup_insert_ne.
  - unfold log_clear. rewrite log_push_all, Hc; [done|by rewrite Hc|unfold len; simpl; lia].
Qed.
(** A batch that continues the generation passes the checks. *)
Lemma batch_validates rs expected : rs <> [] -> map ae_seq rs = seqZ expected (len rs) -> expected + len rs - 1 <= u64_max ->
  validate_agent_batch (EngineError := EngineError) rs expected (expected + len rs - 1) = Ok tt.
Proof.
  assert (Hreq : forall n, require_agent_sequence (EngineError := EngineError) n n = Ok tt) by (intros n; unfold require_agent_sequence; by rewrite Z.ltb_irrefl).
  revert expected. induction rs as [|r rs IH]; intros expected Hne Hs Hl; [done|]. rewrite len_cons in *. pose proof (len_nonneg rs).
  rewrite seqZ_cons in Hs by lia. cbn [map] in Hs. injection Hs as Hr Hs. destruct rs as [|r' rs].
  - cbn [validate_agent_batch]. rewrite Hr, Hreq. change (len []) with 0. replace (expected + (1 + 0) - 1) with expected by lia. apply Hreq.
  - pose proof (len_nonneg rs). change (validate_agent_batch (r :: r' :: rs) expected ?e) with
      (_ ← require_agent_sequence (EngineError := EngineError) expected (ae_seq r); x ← ok_or Error_SequenceExhausted (next_u64 expected); validate_agent_batch (r' :: rs) x e).
    rewrite Hr, Hreq. unfold mbind, result_bind, next_u64. rewrite len_cons in *. rewrite (proj2 (Z.eqb_neq expected u64_max)) by lia. cbn [ok_or].
    specialize (IH (expected + 1) ltac:(done)). rewrite ?len_cons in IH.
    replace (expected + (1 + (1 + len rs)) - 1) with (expected + 1 + (1 + len rs) - 1) by lia. apply IH; [|lia].
    rewrite Hs. unfold Z.succ, Z.pred. f_equal; lia.
Qed.
Lemma drop_newest {A} (a b : list A) (c : nat) : drop (length (drop (length a - c) a ++ b) - c) (drop (length a - c) a ++ b) = drop (length (a ++ b) - c) (a ++ b).
Proof.
  rewrite !length_app, length_drop. destruct (decide (length a <= c)%nat).
  - by replace (length a - c)%nat with O by lia; rewrite drop_0, Nat.sub_0_r.
  - replace (length a - (length a - c) + length b - c)%nat with (length b) by lia. replace (length a + length b - c)%nat with ((length a - c) + length b)%nat by lia.
    rewrite <- drop_drop, (drop_app_le a b) by lia. done.
Qed.
Lemma attach_output k t stream boot last rs declared cap payload more :
  follows k t stream boot last rs declared cap -> 0 < cap -> parse_records payload = Ok more -> more <> [] -> map ae_seq more = seqZ (last + 1) (len more) ->
  last + len more <= u64_max ->
  exists k' es, update payload_digest k (In_ResourceOutput t stream boot (last + len more) payload) = (Ok tt, k', es)
    /\ follows k' t stream boot (last + len more) (rs ++ more) declared cap.
Proof.
  intros (Ho & sm & Ea & Ep & Hr & Hst & Hlog) Hcap Hpay Hne Hs Hl. cbn [update]. rewrite Ea, bool_decide_eq_true_2 by (by eexists).
  assert (1 <= len more) by (destruct more; [done|rewrite len_cons; pose proof (len_nonneg more); lia]).
  unfold agent_output. cbv zeta. rewrite open_ok, (stream_found _ _ _ _ Ea Hr) by done. cbn [or_return]. rewrite Ep. cbn [ag_key generation_of]. rewrite bool_decide_eq_true_2 by done. cbn [or_return ag_next_seq].
  unfold next_u64 at 1. rewrite (proj2 (Z.eqb_neq last u64_max)) by lia. cbn [ok_or or_return]. rewrite (proj2 (Z.ltb_ge _ _)) by lia. rewrite Hpay.
  pose proof (batch_validates more (last + 1) Hne Hs ltac:(lia)) as Hv. replace (last + 1 + len more - 1) with (last + len more) in Hv by lia. rewrite Hv. cbn [or_return absorb].
  do 2 eexists. split; [reflexivity|]. split; [done|]. eexists. split; [apply lookup_insert_eq|]. cbn [sm_published sm_retired sm_state sm_log ag_key].
  split_and!; [done|done|by rewrite Hst, fold_left_app|]. rewrite Hlog, log_push_all; [by rewrite drop_newest|done|]. unfold len. rewrite length_drop. lia.
Qed.

(** ** From the engine to the consumer *)

Definition sound (e : Entry) : Prop := stamps_ok e /\ fits e.
Lemma reads_seqs es rs : Forall2 reads es rs -> map ae_seq rs = map en_seq es /\ len rs = len es.
Proof. unfold len. induction 1 as [|e r es rs (H & _) _ [IH1 IH2]]; [done|]. cbn [map length]. rewrite H, IH1. split; [done|lia]. Qed.
Lemma routed_step f i k k' es fs : carries (EngineError := EngineError) f i -> update payload_digest k i = (Ok tt, k', es) -> routed payload_digest k (f :: fs) = routed payload_digest k' fs.
Proof. intros Hc Hu. destruct (carries_routed payload_digest _ _ _ _ _ Hc Hu) as (r & Er & Hf). cbn [routed]. by rewrite Er, Hf. Qed.
Lemma chunks_land t stream boot base declared cap fs groups : forall k n rs,
  stages k t stream boot base n rs declared cap -> n + len groups <= u32_max -> Forall sound (concat groups) ->
  exists k' more, routed payload_digest k (chunk_frames t stream boot n (map lines groups) ++ fs) = routed payload_digest k' fs
    /\ stages k' t stream boot base (n + len groups) (rs ++ more) declared cap /\ Forall2 reads (concat groups) more.
Proof.
  induction groups as [|g groups IH]; intros k n rs Hk Hn Hf; [exists k, []; rewrite app_nil_r, Z.add_0_r; by split_and!|].
  rewrite len_cons in *. pose proof (len_nonneg groups). cbn [concat map chunk_frames app] in *. apply Forall_app in Hf as [Hg Hf].
  destruct (client_reads_lines g Hg) as (new & Ep & Hr). destruct (attach_chunk k t stream boot base n rs declared cap (lines g) new Hk ltac:(lia) Ep) as (k1 & es & Eu & H1).
  rewrite (routed_step _ (In_BootstrapChunk t stream boot n (lines g)) k k1 es) by done.
  destruct (IH k1 (n + 1) (rs ++ new) H1 ltac:(lia) Hf) as (k2 & more & E2 & H2 & Hm). exists k2, (new ++ more). rewrite E2. split; [done|].
  rewrite app_assoc. replace (n + (1 + len groups)) with (n + 1 + len groups) by lia. split; [done|by apply Forall2_app].
Qed.
Lemma outputs_land t stream boot declared cap bs : forall k last rs,
  follows k t stream boot last rs declared cap -> 0 < cap -> continues last bs -> Forall sound (concat bs) -> last + len (concat bs) <= u64_max ->
  exists k' more, routed payload_digest k (batch_frames t stream boot last bs) = Some k'
    /\ follows k' t stream boot (last + len (concat bs)) (rs ++ more) declared cap /\ Forall2 reads (concat bs) more.
Proof.
  induction bs as [|b bs IH]; intros k last rs Hk Hc Hs Hf Hl; [exists k, []; rewrite app_nil_r, Z.add_0_r; by split_and!|].
  destruct Hs as (Hne & Hseq & Hs). cbn [concat batch_frames] in *. rewrite len_app in *. pose proof (len_nonneg (concat bs)). apply Forall_app in Hf as [Hb Hf].
  destruct (client_reads_lines b Hb) as (new & Ep & Hr). destruct (reads_seqs _ _ Hr) as [E1 E2].
  destruct (attach_output k t stream boot last rs declared cap (lines b) new Hk Hc Ep) as (k1 & es & Eu & H1); [|by rewrite E1, E2|lia|].
  { intros ->. apply Hne. by inversion Hr. }
  rewrite E2 in *. rewrite (routed_step _ (In_ResourceOutput t stream boot (last + len b) (lines b)) k k1 es) by done.
  destruct (IH k1 (last + len b) (rs ++ new) H1 Hc Hs Hf ltac:(lia)) as (k2 & more & E3 & H3 & Hm). exists k2, (new ++ more). rewrite E3. split; [done|].
  rewrite app_assoc, Z.add_assoc. split; [done|by apply Forall2_app].
Qed.
Lemma batches_app rs1 rs2 : forall a, batches a (rs1 ++ rs2) = batches a rs1 ++ batches (session_run a rs1).1 rs2.
Proof.
  induction rs1 as [|r rs1 IH]; intros a; [done|]. cbn [app batches session_run]. rewrite IH. destruct (session_turn a r) as [[reply a'] out]. cbn [fst snd].
  destruct (session_run a' rs1) as [a1 o1] eqn:E. by rewrite app_assoc.
Qed.
Lemma cut_lands k t stream boot limits base dropped es fs :
  can_attach k t stream boot -> len es < u32_max -> Forall sound es ->
  exists k' records, routed payload_digest k (bootstrap_frames t stream boot (mkCut base (map line_of es) dropped) limits ++ fs) = routed payload_digest k' fs
    /\ Forall2 reads es records /\ follows k' t stream boot base records (sm_declared (agent_entry k t)) (log_capacity (sm_log (agent_entry k t))).
Proof.
  intros Hk Hl Hf. destruct (attach_begins k t stream boot base Hk) as (k1 & es1 & Eu & H1). unfold bootstrap_frames. cbn [cut_base_seq cut_records app].
  rewrite (routed_step (FrameKind_BootstrapBegin t stream boot StreamProfile_AgentEventsJsonlV1 0 0 base) _ _ _ _ _ eq_refl Eu). pose proof (len_nonneg es). destruct (cut_chunks_whole t stream boot es (max_chunk_bytes limits) 0 [] ltac:(lia) ltac:(lia)) as (groups & Eg & Hg & Ec).
  unfold lines at 1 in Ec. cbn [map concat app] in Ec, Eg. rewrite Ec, <- app_assoc.
  destruct (chunks_land t stream boot base _ _ ([FrameKind_BootstrapReady t stream boot None] ++ fs) groups k1 0 [] H1 ltac:(lia) ltac:(by rewrite Eg)) as (k2 & recs & Er & H2 & Hr).
  rewrite Er. cbn [app] in *. destruct (attach_ready _ _ _ _ _ _ _ _ _ None H2 (proj2 (proj2 (proj2 (proj2 (proj2 Hk)))))) as (k3 & es3 & Eu3 & H3).
  rewrite (routed_step (FrameKind_BootstrapReady t stream boot None) _ _ _ _ _ eq_refl Eu3). exists k3, recs. rewrite <- Eg. by split_and!.
Qed.
Lemma log_stamps a log d : LogInv a log -> Forall (fun e => 0 <= en_ts e <= u64_max /\ fits e) (drop d log) -> Forall sound (drop d log).
Proof.
  intros Hi Hf. assert (Hs : Forall (fun e => record_ok (en_record e) /\ 0 <= en_seq e <= u64_max) log).
  { apply Forall_and. split; [apply (li_ok _ _ Hi)|]. apply (Forall_map en_seq (fun n => 0 <= n <= u64_max)). rewrite (li_numbers _ _ Hi). apply Forall_seqZ. intros n Hn.
    pose proof (li_fits _ _ Hi). lia. }
  apply (Forall_drop _ d) in Hs. eapply Forall_impl; [apply Forall_and; split; [exact Hs|exact Hf]|]. intros e [[? ?] [? ?]]. split; [|done]. split; [done|]. by split.
Qed.
Lemma delivered_whole k t stream boot n limits rs0 rs1 rs2 :
  let a0 := (session_run (session_build n) rs0).1 in
  let a1 := (session_run a0 rs1).1 in
  let a2 := (session_run a1 rs2).1 in
  let received := (session_run a0 (rs1 ++ rs2)).2 in
  let cut := bootstrap a1 in
  let log := concat (batches (session_build n) (rs0 ++ rs1 ++ rs2)) in
  let seen := drop (Z.to_nat (cut_dropped cut)) log in
  can_attach k t stream boot -> len (cut_records cut) < u32_max -> Forall (fun e => 0 <= en_ts e <= u64_max /\ fits e) seen ->
  exists k' records,
    routed payload_digest k (bootstrap_frames t stream boot cut limits ++ concat (map (live_pump t stream boot (cut_base_seq cut)) received)) = Some k'
    /\ Forall2 reads seen records /\ LogInv a2 log
    /\ follows k' t stream boot (core_seq a2) records (sm_declared (agent_entry k t)) (log_capacity (sm_log (agent_entry k t))).
Proof.
  cbv zeta. intros Hk Hlen Hf. destruct (log_run rs0 _ _ (log_built n)) as [Hi0 _]. cbn [app] in Hi0.
  destruct (log_run rs1 _ _ Hi0) as [Hi1 Ho1]. destruct (log_run rs2 _ _ Hi1) as [Hi2 Ho2].
  rewrite session_run_app. cbn [snd]. rewrite Ho1, Ho2, <- map_app. rewrite !batches_app, !concat_app, app_assoc in Hf |- *.
  set (a0 := (session_run (session_build n) rs0).1) in *. set (a1 := (session_run a0 rs1).1) in *. set (old := batches a0 rs1) in *. set (new := batches a1 rs2) in *.
  set (log0 := concat (batches (session_build n) rs0)) in *. set (log1 := log0 ++ concat old) in *. set (d := Z.to_nat (cut_dropped (bootstrap a1))) in *.
  pose proof (log_stamps _ _ d Hi2 Hf) as Hs. destruct (li_ring _ _ Hi1) as [Hd Hr]. unfold len in Hd. rewrite length_map in Hd.
  assert (d <= length log1)%nat as Hdl by (unfold d; simpl; lia). rewrite drop_app_le in Hs |- * by done. apply Forall_app in Hs as [Hs1 Hs2].
  assert (Ecut : bootstrap a1 = mkCut (len log1) (map line_of (drop d log1)) (ring_dropped (ring a1))).
  { unfold bootstrap. rewrite (li_seq _ _ Hi1), Hr, <- !(skipn_map line_of). done. }
  rewrite Ecut in Hlen |- *. cbn [cut_records cut_base_seq] in *. unfold len in Hlen. rewrite length_map in Hlen.
  destruct (cut_lands k t stream boot limits (len log1) (ring_dropped (ring a1)) (drop d log1) (concat (map (live_pump t stream boot (len log1)) (map batch_output (old ++ new)))) Hk Hlen Hs1)
    as (k1 & recs1 & -> & Hr1 & H1).
  rewrite !map_app, concat_app, (pump_old _ _ _ _ old (len log0)) by (apply batches_continue || (unfold log1; rewrite len_app); done || lia).
  rewrite (pump_new _ _ _ _ new (len log1)) by (by apply batches_continue || lia). cbn [app].
  pose proof (li_fits _ _ Hi2) as Hfit. rewrite len_app in Hfit.
  destruct (outputs_land t stream boot _ _ new k1 (len log1) recs1 H1 (proj2 (proj2 (proj2 (proj2 (proj2 Hk))))) (batches_continue _ _ _ Hi1) Hs2 Hfit) as (k2 & recs2 & -> & H2 & Hr2).
  exists k2, (recs1 ++ recs2). split; [done|]. split; [by apply Forall2_app|]. split; [done|]. by rewrite (li_seq _ _ Hi2), len_app.
Qed.
(** C13: A consumer misses nothing and reads nothing twice. It subscribes to a session's live output, the engine serves any requests,
    the cut is taken, the engine serves any more; the frames of the cut and what the pump makes of everything broadcast since the
    subscription are all accepted by the client, and it ends with exactly the records of the log from the oldest the ring still held,
    each read as it was logged, folded in order into the state it shows, the newest of them in its log, at the sequence of the engine.
    (Of the records, those must fit the consumer's line limit once stamped, and the broadcast must not lag.) *)
Theorem stream_is_delivered k t stream boot n limits rs0 rs1 rs2 :
  let a0 := (session_run (session_build n) rs0).1 in
  let a1 := (session_run a0 rs1).1 in
  let a2 := (session_run a1 rs2).1 in
  let received := (session_run a0 (rs1 ++ rs2)).2 in
  let cut := bootstrap a1 in
  let log := concat (batches (session_build n) (rs0 ++ rs1 ++ rs2)) in
  let seen := drop (Z.to_nat (cut_dropped cut)) log in
  can_attach k t stream boot -> len (cut_records cut) < u32_max -> Forall (fun e => 0 <= en_ts e <= u64_max /\ fits e) seen ->
  exists k' records,
    routed payload_digest k (bootstrap_frames t stream boot cut limits ++ concat (map (live_pump t stream boot (cut_base_seq cut)) received)) = Some k'
    /\ Forall2 reads seen records
    /\ follows k' t stream boot (core_seq a2) records (sm_declared (agent_entry k t)) (log_capacity (sm_log (agent_entry k t))).
Proof.
  cbv zeta. intros Hk Hlen Hf. destruct (delivered_whole k t stream boot n limits rs0 rs1 rs2 Hk Hlen Hf) as (k' & records & H1 & H2 & _ & H3). by exists k', records.
Qed.

(** C38: What the consumer shows is what the server says. Let a client that can attach to a session be routed the whole bootstrap and every
    live frame after the cut, none lost to a lagging broadcast; let every record of the log fit the consumer's line limit once the
    server has stamped it, [state] records carry words the server knows, the ring have held the whole log at the cut, and the session
    not have been declared ended to the client before. Then the status the client has folded from the records equals the last evidence the
    engine answered an append with, working, blocked, done or ended, or what the client was told of the session before if no record
    said anything. (A record that outgrows the limit by its stamp is dropped by the consumer: see the section on records that grow past the
    limit.) *)
Theorem status_is_what_was_announced k t stream boot n limits rs0 rs1 rs2 :
  let a0 := (session_run (session_build n) rs0).1 in
  let a1 := (session_run a0 rs1).1 in
  let received := (session_run a0 (rs1 ++ rs2)).2 in
  let cut := bootstrap a1 in
  let log := concat (batches (session_build n) (rs0 ++ rs1 ++ rs2)) in
  let declared := sm_declared (agent_entry k t) in
  can_attach k t stream boot -> as_status declared <> Status_Ended -> cut_dropped cut = 0 -> len (cut_records cut) < u32_max ->
  Forall (fun e => 0 <= en_ts e <= u64_max /\ fits e) log -> Forall (fun e => known_state (en_record e)) log ->
  exists k' sm,
    routed payload_digest k (bootstrap_frames t stream boot cut limits ++ concat (map (live_pump t stream boot (cut_base_seq cut)) received)) = Some k'
    /\ agents k' !! t = Some sm
    /\ as_status (sm_state sm) = default (as_status declared) (status_of <$> announced (session_build n) (rs0 ++ rs1 ++ rs2) None).
Proof.
  cbv zeta. intros Hk Hne Hd Hlen Hf Hkn. pose proof (delivered_whole k t stream boot n limits rs0 rs1 rs2 Hk Hlen) as H. rewrite Hd, drop_0 in H.
  destruct (H Hf) as (k' & records & H1 & H2 & Hi & _ & sm & Ea & _ & _ & Est & _). exists k', sm. split; [done|]. split; [done|].
  rewrite Est, (announced_spec _ _ _ _ (log_built n)). apply status_follows; [done|apply (li_last _ _ Hi)| |done|done].
  apply Forall_and. split; [|done]. eapply Forall_impl; [apply (li_ok _ _ Hi)|]. by intros e [? _].
Qed.
End Consumer.

(** ** Records that grow past the limit *)

Section Oversize.
  Context {Adapter Replica EngineError : Type} {EA : EngineAdapter Adapter Replica EngineError} {J : Json} {JT : JsonText} {JL : JsonLaws}.
  Context (payload_digest : bytes -> bytes).
  Abbreviation Kernel := (@SessionKernel Adapter Replica J).
  Implicit Types (k : Kernel).

(** One record too long for the consumer refuses the chunk it is in, and with it the generation. *)
Lemma long_record_ends_the_generation k t stream boot base n rs declared cap es :
  stages k t stream boot base n rs declared cap -> Forall stamps_ok es -> Exists (fun e => ~ fits e) es ->
  exists e k', update payload_digest k (In_BootstrapChunk t stream boot n (lines es)) = (Err (Error_AgentRecord e), k', [resync t (stream, boot)])
    /\ exists sm, agents k' !! t = Some sm /\ sm_staging sm = None /\ sm_retired sm !! (stream, boot) = Some (codec_failure base).
Proof.
  intros (Ho & sm & Ea & Es & Hr & Hp & Hd & Hc) Hok Hex. destruct (client_refuses_lines es Hok Hex) as (len' & Ep). fold (lines es) in Ep.
  cbn [update]. rewrite Ea, bool_decide_eq_true_2 by (by eexists).
  unfold agent_bootstrap_chunk. cbv zeta. rewrite open_ok, (stream_found _ _ _ _ Ea Hr) by done. cbn [or_return]. rewrite (staging_found _ _ _ _ _ _ _ Es). cbn [or_return].
  unfold expect_chunk. cbn [at_next_chunk_seq]. rewrite !Z.ltb_irrefl. cbn [or_return]. rewrite Ep. do 2 eexists. split; [reflexivity|].
  eexists. split; [apply lookup_insert_eq|]. cbn [sm_staging sm_retired at_base_seq]. split; [|apply lookup_insert_eq].
  unfold agent_stages. rewrite Es. by rewrite bool_decide_eq_true_2.
Qed.
End Oversize.

(** A prompt of sixteen kibibytes, as a producer writes it. *)
Definition long_line : bytes :=
  object_text [(str "type", small_quoted (str "prompt")); (str "data", object_text [(str "text", small_quoted (replicate (16348) 97))])].
Definition long_entry : Entry := mkEntry (mkValid (str "prompt") (JField (str "text") (JString (replicate (16348) 97)) JEnd)) 1 1700000000000.
(** The engine accepts it, and what it logs is more than its consumer reads. *)
Example long_line_is_accepted :
  len long_line = AgentSession.MAX_RECORD_BYTES
  /\ batches (session_build 65536) [Req_Append long_line 1700000000000] = [[long_entry]]
  /\ stamps_ok long_entry /\ ~ fits long_entry.
Proof.
  split; [by vm_compute|]. split; [by vm_compute|]. split; [|by vm_compute].
  split; [|split; split; by vm_compute]. split; [apply (bool_decide_unpack _); by vm_compute|]. by split; vm_compute.
Qed.

(** ** A small run *)

Definition says (kind : bytes) : bytes := object_text [(str "type", small_quoted kind)].
Definition asks : bytes :=
  object_text [(str "type", small_quoted (str "ask")); (str "data", object_text [(str "question", small_quoted (str "merge?"))])].
(** Before the subscription, between it and the cut, after: a bad append among them. *)
Definition early : list Request := [Req_Append (says (str "session_start")) 1].
Definition middle : list Request := [Req_Append (says (str "prompt")) 2; Req_Append (str "nope") 3].
Definition late : list Request := [Req_Append (says (str "tool_end") ++ [10] ++ asks) 4; Req_Bootstrap].
Definition fresh_kernel : @SessionKernel ToyAdapter ToyReplica small_json := with_history_config tt Profile_SynthesizedVtRaw HistoryCacheConfig_default.
Lemma fresh_can_attach : can_attach fresh_kernel agent 1 1.
Proof. split; [by apply not_elem_of_empty|]. split; [by left|]. by split_and!. Qed.
Lemma small_log :
  concat (batches (session_build 65536) (early ++ middle ++ late)) =
  [mkEntry (mkValid (str "session_start") JEnd) 1 1; mkEntry (mkValid (str "prompt") JEnd) 2 2; mkEntry (mkValid (str "tool_end") JEnd) 3 4;
   mkEntry (mkValid (str "ask") (JField (str "question") (JString (str "merge?")) JEnd)) 4 4].
Proof. vm_compute. reflexivity. Qed.
Lemma stream_is_delivered_witness :
  exists k' records,
    routed (EA := calm_engine) id fresh_kernel
      (bootstrap_frames agent 1 1 (bootstrap (session_run (session_run (session_build 65536) early).1 middle).1) BootstrapLimits_default
       ++ concat (map (live_pump agent 1 1 2) (session_run (session_run (session_build 65536) early).1 (middle ++ late)).2)) = Some k'
    /\ map ae_seq records = [1; 2; 3; 4] /\ follows k' agent 1 1 4 records AgentSessionState_default 512.
Proof.
  destruct (stream_is_delivered (EA := calm_engine) id fresh_kernel agent 1 1 65536 BootstrapLimits_default early middle late) as (k' & records & H1 & H2 & H3).
  - exact fresh_can_attach.
  - vm_compute. reflexivity.
  - rewrite small_log. apply Forall_drop. repeat constructor; vm_compute; discriminate.
  - exists k', records. split; [exact H1|]. split; [|exact H3]. destruct (reads_seqs _ _ H2) as [E _]. rewrite E, small_log. vm_compute. reflexivity.
Defined.
Lemma status_is_what_was_announced_witness :
  exists k' sm,
    routed (EA := calm_engine) id fresh_kernel
      (bootstrap_frames agent 1 1 (bootstrap (session_run (session_run (session_build 65536) early).1 middle).1) BootstrapLimits_default
       ++ concat (map (live_pump agent 1 1 2) (session_run (session_run (session_build 65536) early).1 (middle ++ late)).2)) = Some k'
    /\ agents k' !! agent = Some sm /\ as_status (sm_state sm) = Status_Blocked.
Proof.
  destruct (status_is_what_was_announced (EA := calm_engine) id fresh_kernel agent 1 1 65536 BootstrapLimits_default early middle late) as (k' & sm & H1 & H2 & H3).
  - exact fresh_can_attach.
  - discriminate.
  - vm_compute. reflexivity.
  - vm_compute. reflexivity.
  - rewrite small_log. repeat constructor; vm_compute; discriminate.
  - rewrite small_log. repeat constructor; intros E; vm_compute in E; discriminate.
  - exists k', sm. split; [exact H1|]. split; [exact H2|]. rewrite H3. vm_compute. reflexivity.
Defined.
