(* ===== verification/AgentPublish.v ===== *)
(** * What an append tells the rest of the server ([phux-server/src/runtime/resource_commands.rs])

    The handler of APPEND_RESOURCE_OUTPUT around the engine of [AgentSession]: who may append, what
    is answered, the state recorded on the session and sent to its parent's engine, and the question
    entered in the parent's ledger. *)

From stdpp Require Import gmap.
From S2P Require Import Prelude Ids Enums Caps ClientLayout Codec Command Frame.
From S2P Require Import IdBridge Leases SpawnLedger ResourceTable Metadata SessionTable Agent ClientTable.
From S2P Require Import Window Registry ServerState Lifecycle Spawn ServerSteps InputGate AgentStream AgentSession.
From S2P Require Import Ids.

Section Publish.
  Context {J : Json} {JT : JsonText}.
  Context (debug_id : ResourceId -> bytes) (kind_text : WrongResourceKind -> bytes).
  (** The parent a session's handle carries. *)
  Context (handle_parent : key -> option key).

(* phux-server/src/state/policy.rs ServerState::client_may_produce *)
Definition client_may_produce (s : ServerState) (client : ClientId) : bool :=
  match transport <$> peer_identity (clients s) client with
  | Some Transport_UnixSocket | Some Transport_Localhost => true
  | _ => false
  end.

(** The word of the evidence, on the session and on the wire; a retraction is none. *)
(* phux-server/src/runtime/resource_commands.rs:438-443 publish_stream_evidence *)
Definition evidence_word (ev : StreamEvidence) : option bytes :=
  match ev with
  | Stream_Working => Some (str "working") | Stream_Blocked => Some (str "blocked") | Stream_Done => Some (str "done") | Stream_Retract => None
  end.
(* phux-server/src/runtime/resource_commands.rs:458-464 publish_stream_evidence *)
Definition reported_state (ev : StreamEvidence) : option ReportedAgentState :=
  match ev with
  | Stream_Working => Some ReportedAgentState_Working | Stream_Blocked => Some ReportedAgentState_Blocked
  | Stream_Done => Some ReportedAgentState_Done | Stream_Retract => None
  end.
Definition facet_state (r : Registry) (session : key) : option bytes := d ← reg_resources r !! session; a ← agent d; Registry.state a.
(** The state after, and what the parent's engine is asked to take. *)
(* phux-server/src/runtime/resource_commands.rs publish_stream_evidence *)
Definition publish_stream_evidence (s : ServerState) (session : key) (parent : option key) (ev : StreamEvidence)
    : ServerState * option (key * option ReportedAgentState) :=
  let s := up_sessions s (with_registry (sessions s) (set_facet_state (reg s) session (evidence_word ev))) in
  (s, p ← parent; _ ← ResourceTable.handle (resources s) p; Some (p, reported_state ev)).
(** The event to broadcast. The id space running out panics: [None]. *)
(* phux-server/src/runtime/resource_commands.rs publish_stream_ask *)
Definition publish_stream_ask (s : ServerState) (parent : option key) (q : option StreamAsk) (ev : option StreamEvidence)
    : option (option (ResourceId * AgentEvent) * ServerState) :=
  match parent with
  | None => Some (None, s)
  | Some parent =>
      '(wire, s) ← intern_terminal_wire s parent;
      match q with
      | Some q =>
          let '(transition, ledger) := report (asked s) parent Asked_Stream (mkAsked (sa_id q) (sa_question q) (sa_suggestions q) None) in
          Some ((fun p => (wire, into_event p)) <$> emit_payload transition, up_asked s ledger)
      | None =>
          match ev with
          | Some Stream_Done | Some Stream_Retract => Some (None, up_asked s (retract (asked s) parent Asked_Stream).2)
          | _ => Some (None, s)
          end
      end
  end.

Definition append_header (acc : AppendAccepted) : bytes :=
  [123] ++ member (str "seq") ++ decimal (ac_first_seq acc) ++ [44] ++ member (str "ts_ms") ++ decimal (ac_ts_ms acc) ++ [125].
(** The session an append may be made to, or the refusal. *)
(* phux-server/src/runtime/resource_commands.rs:312-331 handle_append_resource_output *)
Definition append_target (s : ServerState) (client : ClientId) (wire : ResourceId) : result CommandResult key :=
  match terminal_from_wire (idspace s) wire with
  | None => Err (CommandResult_Error ErrorCode_TerminalNotFound (str "no such resource: " ++ debug_id wire))
  | Some core =>
      match ResourceTable.handle (resources s) core with
      | None => Err (CommandResult_Error ErrorCode_TerminalNotFound (str "no such resource: " ++ debug_id wire))
      | Some h =>
          match handle_agent_session h with
          | Err e => Err (wrong_resource_kind kind_text e)
          | Ok _ =>
              if client_may_produce s client then Ok core
              else Err (CommandResult_Error ErrorCode_NotProducer (str "appending to a resource stream requires a local owner connection"))
          end
      end
  end.
Definition queue_full : CommandResult := CommandResult_Error ErrorCode_Overflow (str "the session's append queue is full").
Definition session_closed : CommandResult :=
  CommandResult_Error ErrorCode_TerminalNotFound (str "the session closed before the append landed").
(** What an engine's refusal is answered as. *)
(* phux-server/src/runtime/resource_commands.rs:345-362 handle_append_resource_output *)
Definition rejection (r : AppendRejection) : CommandResult :=
  match r with
  | Append_Invalid e => CommandResult_Error ErrorCode_RecordInvalid (record_error_text e)
  | Append_Overflow message => CommandResult_Error ErrorCode_Overflow message
  | Append_Closed => session_closed
  end.

(** ** Calls in progress

    A connection handles one frame at a time, so a client has at most one call in progress; but the handler waits twice, for the
    engine's answer and for the parent's engine, and other connections run meanwhile. Where it stands, with the session and the
    parent of the handle it holds: *)
Inductive Stage : Type :=
| Stage_Waiting (core : key) (parent : option key)
| Stage_Accepted (core : key) (parent : option key) (acc : AppendAccepted)
| Stage_Telling (core : key) (parent : option key) (acc : AppendAccepted).
(** A request in a session's append queue. *)
Record Queued : Type := mkQueued { q_client : ClientId; q_core : key; q_parent : option key; q_bytes : bytes }.
(** What others are told: the parent's engine the state to take, everyone the event. *)
Inductive Told : Type := Told_Engine (parent : key) (word : option ReportedAgentState) | Told_Event (wire : ResourceId) (e : AgentEvent).
(** The server's state, the engines of its sessions, their queues (one list, each session's in order) and the calls in progress. The
    last fields record what happened: the requests queued with the transport they came by, what the engines served, the evidence
    published, what was told, and the answers. *)
Record SessionWorld : Type := mkSessions {
  sw_state : ServerState; sw_engines : gmap key AgentSessionActor; sw_queue : list Queued; sw_calls : gmap ClientId Stage;
  sw_requested : list (ClientId * key * bytes * option TransportType); sw_served : list (key * ClientId * Request);
  sw_published : list (key * ClientId * StreamEvidence); sw_told : list Told; sw_answers : list (ClientId * CommandResult)
}.
Definition with_state (w : SessionWorld) (s : ServerState) : SessionWorld :=
  mkSessions s (sw_engines w) (sw_queue w) (sw_calls w) (sw_requested w) (sw_served w) (sw_published w) (sw_told w) (sw_answers w).
Definition with_outside (w : SessionWorld) (s : ServerState) (es : gmap key AgentSessionActor) : SessionWorld :=
  mkSessions s es (sw_queue w) (sw_calls w) (sw_requested w) (sw_served w) (sw_published w) (sw_told w) (sw_answers w).
Definition with_calls (w : SessionWorld) (q : list Queued) (cs : gmap ClientId Stage) : SessionWorld :=
  mkSessions (sw_state w) (sw_engines w) q cs (sw_requested w) (sw_served w) (sw_published w) (sw_told w) (sw_answers w).
Definition with_turn (w : SessionWorld) (core : key) (c : ClientId) (r : Request) (a : AgentSessionActor) : SessionWorld :=
  mkSessions (sw_state w) (<[core := a]> (sw_engines w)) (sw_queue w) (sw_calls w) (sw_requested w) (sw_served w ++ [(core, c, r)])
    (sw_published w) (sw_told w) (sw_answers w).
Definition log_published (w : SessionWorld) (x : key * ClientId * StreamEvidence) (told : list Told) : SessionWorld :=
  mkSessions (sw_state w) (sw_engines w) (sw_queue w) (sw_calls w) (sw_requested w) (sw_served w) (sw_published w ++ [x])
    (sw_told w ++ told) (sw_answers w).
Definition log_told (w : SessionWorld) (told : list Told) : SessionWorld :=
  mkSessions (sw_state w) (sw_engines w) (sw_queue w) (sw_calls w) (sw_requested w) (sw_served w) (sw_published w)
    (sw_told w ++ told) (sw_answers w).
(** The handler returns. *)
Definition answers (w : SessionWorld) (c : ClientId) (r : CommandResult) : SessionWorld :=
  mkSessions (sw_state w) (sw_engines w) (sw_queue w) (delete c (sw_calls w)) (sw_requested w) (sw_served w)
    (sw_published w) (sw_told w) (sw_answers w ++ [(c, r)]).

(** Up to the wait for the engine; [room] is whether the queue took the request. *)
(* phux-server/src/runtime/resource_commands.rs:306-342 handle_append_resource_output *)
Definition append_request (w : SessionWorld) (c : ClientId) (wire : ResourceId) (bs : bytes) (room : bool) : SessionWorld :=
  match append_target (sw_state w) c wire with
  | Err r => answers w c r
  | Ok core =>
      if room && bool_decide (is_Some (sw_engines w !! core)) then
        let w := with_calls w (sw_queue w ++ [mkQueued c core (handle_parent core) bs]) (<[c := Stage_Waiting core (handle_parent core)]> (sw_calls w)) in
        mkSessions (sw_state w) (sw_engines w) (sw_queue w) (sw_calls w)
          (sw_requested w ++ [(c, core, bs, transport <$> peer_identity (clients (sw_state w)) c)])
          (sw_served w) (sw_published w) (sw_told w) (sw_answers w)
      else answers w c queue_full
  end.
(** The engine serves the request and its answer is on its way to the handler; a refusal ends the call. *)
(* phux-server/src/runtime/resource_commands.rs:343-363 handle_append_resource_output *)
Definition engine_serves (w : SessionWorld) (rest : list Queued) (q : Queued) (a : AgentSessionActor) (now_ms : Z) : SessionWorld :=
  let '(answer, a, _) := handle_append a (q_bytes q) now_ms in
  let w := with_turn (with_calls w rest (sw_calls w)) (q_core q) (q_client q) (Req_Append (q_bytes q) now_ms) a in
  match answer with
  | Err r => answers w (q_client q) (rejection r)
  | Ok acc => with_calls w rest (<[q_client q := Stage_Accepted (q_core q) (q_parent q) acc]> (sw_calls w))
  end.
(** The engine ends with the request unanswered. *)
Definition append_lost (w : SessionWorld) (rest : list Queued) (q : Queued) : SessionWorld :=
  answers (with_calls w rest (sw_calls w)) (q_client q) session_closed.
(** The handler goes on with the engine's answer, to the wait for the parent's engine. *)
(* phux-server/src/runtime/resource_commands.rs:365-367 handle_append_resource_output *)
Definition append_publishes (w : SessionWorld) (c : ClientId) (core : key) (parent : option key) (acc : AppendAccepted) : SessionWorld :=
  let w := with_calls w (sw_queue w) (<[c := Stage_Telling core parent acc]> (sw_calls w)) in
  match ac_evidence acc with
  | None => w
  | Some ev =>
      let '(s, control) := publish_stream_evidence (sw_state w) core parent ev in
      log_published (with_state w s) (core, c, ev) (match control with Some (p, word) => [Told_Engine p word] | None => [] end)
  end.
(** And from there to its answer. *)
(* phux-server/src/runtime/resource_commands.rs:368-373 handle_append_resource_output *)
Definition append_finishes (w : SessionWorld) (c : ClientId) (parent : option key) (acc : AppendAccepted) : option SessionWorld :=
  '(event, s) ← publish_stream_ask (sw_state w) parent (ac_ask acc) (ac_evidence acc);
  Some (answers (log_told (with_state w s) (match event with Some (wire, e) => [Told_Event wire e] | None => [] end)) c
          (CommandResult_OkWith (CommandValue_Json (append_header acc)))).

(** The calls of all clients, the engines and the rest of the server, in any order. An engine serves its own queue in order, and other
    requests (a consumer that attaches) whenever they come; the rest of the server opens and closes sessions and leaves the descriptors of
    those that stay alone. *)
Inductive append_step (w : SessionWorld) : SessionWorld -> Prop :=
| ap_request c wire bs room : sw_calls w !! c = None -> append_step w (append_request w c wire bs room)
| ap_serve l q rest a now_ms :
    sw_queue w = l ++ q :: rest -> (forall x, x ∈ l -> q_core x <> q_core q) -> sw_engines w !! q_core q = Some a ->
    append_step w (engine_serves w (l ++ rest) q a now_ms)
| ap_lost l q rest : sw_queue w = l ++ q :: rest -> append_step w (append_lost w (l ++ rest) q)
| ap_turn core a c r : sw_engines w !! core = Some a -> (forall bs t, r <> Req_Append bs t) -> append_step w (with_turn w core c r (session_turn a r).1.2)
| ap_publish c core parent acc : sw_calls w !! c = Some (Stage_Accepted core parent acc) -> append_step w (append_publishes w c core parent acc)
| ap_finish c core parent acc w' :
    sw_calls w !! c = Some (Stage_Telling core parent acc) -> append_finishes w c parent acc = Some w' -> append_step w w'
| ap_other s es :
    (forall core a a', sw_engines w !! core = Some a -> es !! core = Some a' ->
       a' = a /\ reg_resources (reg s) !! core = reg_resources (reg (sw_state w)) !! core) ->
    append_step w (with_outside w s es).
End Publish.

(** ** The inventory *)

(** The entries of a log about one session, and of those the entries of one client. *)
Definition of_core {A} (core : key) (l : list (key * ClientId * A)) : list (ClientId * A) :=
  omap (fun x => if bool_decide (x.1.1 = core) then Some (x.1.2, x.2) else None) l.
Definition of_client {A} (c : ClientId) (l : list (ClientId * A)) : list A := omap (fun x => if bool_decide (x.1 = c) then Some x.2 else None) l.
Lemma of_core_snoc {A} core (l : list (key * ClientId * A)) x :
  of_core core (l ++ [x]) = of_core core l ++ (if bool_decide (x.1.1 = core) then [(x.1.2, x.2)] else []).
Proof. unfold of_core. rewrite omap_app. cbn. by case_bool_decide. Qed.
Lemma of_client_app {A} c (l k : list (ClientId * A)) : of_client c (l ++ k) = of_client c l ++ of_client c k.
Proof. apply omap_app. Qed.
Lemma of_client_all {A} c (l : list (ClientId * A)) : (forall x, x ∈ l -> x.1 = c) -> of_client c l = l.*2.
Proof.
  induction l as [|x l IH]; intros H; [done|]. cbn. rewrite bool_decide_true by (apply H; left). f_equal. apply IH. intros y Hy. apply H. by right.
Qed.

Lemma of_client_pair {A} c c' (l : list A) : of_client c' (map (pair c) l) = if bool_decide (c = c') then l else [].
Proof.
  case_bool_decide as H; induction l as [|x l IH]; try done; cbn [map]; unfold of_client in *; cbn [omap list_omap fst snd].
  - rewrite bool_decide_true by done. cbn. f_equal. exact IH.
  - rewrite bool_decide_false by done. exact IH.
Qed.

Section Inventory.
  Context {J : Json} {JT : JsonText} {JL : JsonLaws}.
  Context (debug_id : ResourceId -> bytes) (kind_text : WrongResourceKind -> bytes) (handle_parent : key -> option key).
  Local Abbreviation append_step := (append_step debug_id kind_text handle_parent).

Lemma publish_ask_registry s parent q ev event s' : publish_stream_ask s parent q ev = Some (event, s') -> reg s' = reg s.
Proof.
  unfold publish_stream_ask. destruct parent as [p|]; [|by intros [= <- <-]]. unfold mbind, option_bind.
  destruct (intern_terminal_wire s p) as [[wire s1]|] eqn:E; [|done].
  assert (Hs1 : reg s1 = reg s) by (unfold intern_terminal_wire in E; destruct (intern_terminal _ _) as [[? ?]|]; [injection E as _ <-|]; done).
  destruct q as [q|]; [destruct (report _ _ _ _) as [tr l]; by intros [= <- <-]|]. by destruct ev as [[]|]; intros [= <- <-].
Qed.
(** Who spells what, whoever publishes it. *)
Definition spelled (old : option bytes) (ev : option StreamEvidence) : option bytes :=
  match ev with
  | None => old
  | Some Stream_Working => Some (str "working")
  | Some Stream_Blocked => Some (str "blocked")
  | Some Stream_Done => Some (str "done")
  | Some Stream_Retract => None
  end.
Definition is_session (s : ServerState) (core : key) : Prop := exists d a, reg_resources (reg s) !! core = Some d /\ agent d = Some a.
Lemma publish_evidence_facet s core parent ev :
  is_session s core ->
  let s' := (publish_stream_evidence s core parent ev).1 in
  facet_state (reg s') core = spelled None (Some ev) /\ is_session s' core
  /\ (forall c, c <> core -> reg_resources (reg s') !! c = reg_resources (reg s) !! c).
Proof.
  intros (d & a & Ed & Ea). unfold publish_stream_evidence, facet_state, is_session, reg in *. st_cbn. simpl. rewrite lookup_alter_eq, Ed. simpl. rewrite Ea. simpl.
  split; [by destruct ev|]. split; [eexists _, _; split; [reflexivity|]; simpl; by rewrite Ea|]. intros c Hc. by rewrite lookup_alter_ne.
Qed.
Lemma same_descriptor s s' core : reg_resources (reg s') !! core = reg_resources (reg s) !! core ->
  facet_state (reg s') core = facet_state (reg s) core /\ (is_session s core -> is_session s' core).
Proof. intros E. unfold facet_state, is_session. by rewrite E. Qed.

(** The evidence the engine answered with, by whose request. *)
Definition turn_evidence (a : AgentSessionActor) (r : Request) : list StreamEvidence :=
  match (session_turn a r).1.1 with Rep_Append (Ok acc) => option_list (ac_evidence acc) | _ => [] end.
Fixpoint evidence_log (a : AgentSessionActor) (served : list (ClientId * Request)) : list (ClientId * StreamEvidence) :=
  match served with
  | [] => []
  | (c, r) :: served => map (pair c) (turn_evidence a r) ++ evidence_log (session_turn a r).1.2 served
  end.
Lemma session_run_cons a r rs : (session_run a (r :: rs)).1 = (session_run (session_turn a r).1.2 rs).1.
Proof. cbn. destruct (session_turn a r) as [[reply a'] out]. cbn. by destruct (session_run a' rs). Qed.
Lemma evidence_log_snoc served c r : forall a,
  evidence_log a (served ++ [(c, r)]) = evidence_log a served ++ map (pair c) (turn_evidence (session_run a served.*2).1 r).
Proof.
  induction served as [|[c0 r0] served IH]; intros a; [cbn; by rewrite app_nil_r|]. cbn [evidence_log app].
  change ((c0, r0) :: served).*2 with (r0 :: served.*2). by rewrite session_run_cons, IH, app_assoc.
Qed.
Lemma announced_log served : forall a old, announced a served.*2 old = match last (evidence_log a served).*2 with Some e => Some e | None => old end.
Proof.
  induction served as [|[c r] served IH]; intros a old; [done|]. change ((c, r) :: served).*2 with (r :: served.*2).
  cbn [announced evidence_log]. unfold turn_evidence. destruct (session_turn a r) as [[reply a'] out]. cbn [fst snd].
  rewrite IH, fmap_app, last_app. destruct (last (evidence_log a' served).*2); [done|].
  destruct reply as [[acc|]| |]; try done. by destruct (ac_evidence acc).
Qed.

(** The evidence a client's call was answered with and has not published yet. *)
Definition unpublished (w : SessionWorld) (core : key) (c : ClientId) : list StreamEvidence :=
  match sw_calls w !! c with
  | Some (Stage_Accepted k _ acc) => if bool_decide (k = core) then option_list (ac_evidence acc) else []
  | _ => []
  end.
Definition owner_transport (t : option TransportType) : Prop := t = Some Transport_UnixSocket \/ t = Some Transport_Localhost.

(** Invariant: the calls in progress and the queue agree, and who is in the queue came over the owner's transports. *)
Record CallsOk (w : SessionWorld) : Prop := mkCallsOk {
  co_waiting : forall q, q ∈ sw_queue w -> exists parent, sw_calls w !! q_client q = Some (Stage_Waiting (q_core q) parent);
  co_once : NoDup (map q_client (sw_queue w));
  co_queued : forall q, q ∈ sw_queue w -> exists t, (q_client q, q_core q, q_bytes q, t) ∈ sw_requested w;
  co_owner : forall x, x ∈ sw_requested w -> owner_transport x.2;
  co_served : forall core c bs now_ms, (core, c, Req_Append bs now_ms) ∈ sw_served w -> exists t, (c, core, bs, t) ∈ sw_requested w
}.
(** Of one session: its engine has served what is logged, the inventory shows what was published last, and each client's reports are
    published in the order they were answered. *)
Record SessionOk (core : key) (a0 : AgentSessionActor) (old : option bytes) (w : SessionWorld) : Prop := mkSessionOk {
  so_engine : sw_engines w !! core = Some (session_run a0 (of_core core (sw_served w)).*2).1;
  so_session : is_session (sw_state w) core;
  so_word : facet_state (reg (sw_state w)) core = spelled old (last (of_core core (sw_published w)).*2);
  so_order : forall c, of_client c (evidence_log a0 (of_core core (sw_served w))) = of_client c (of_core core (sw_published w)) ++ unpublished w core c
}.

Lemma target_owner s c wire core : append_target debug_id kind_text s c wire = Ok core -> owner_transport (transport <$> peer_identity (clients s) c).
Proof.
  unfold append_target, client_may_produce, owner_transport. repeat (case_match; try done); auto.
Qed.
Lemma queue_split {A} (f : A -> ClientId) l q rest x : NoDup (map f (l ++ q :: rest)) -> x ∈ l ++ rest -> f x <> f q.
Proof.
  rewrite map_app. cbn. intros (_ & H1 & [H2 _]%NoDup_cons)%NoDup_app [Hx|Hx]%elem_of_app E.
  - apply (H1 (f x)); [by apply (list_elem_of_fmap_2 f)|]. rewrite E. left.
  - apply H2. rewrite <- E. by apply (list_elem_of_fmap_2 f).
Qed.
Lemma queue_rest {A} (f : A -> ClientId) l q rest : NoDup (map f (l ++ q :: rest)) -> NoDup (map f (l ++ rest)).
Proof. rewrite !map_app. cbn. rewrite <- Permutation_middle. by intros [_ ?]%NoDup_cons. Qed.

Lemma calls_drop w l q rest cs :
  CallsOk w -> sw_queue w = l ++ q :: rest -> (forall c, c <> q_client q -> cs !! c = sw_calls w !! c) -> CallsOk (with_calls w (l ++ rest) cs).
Proof.
  intros [H1 H2 H3 H4 H5] E Hc. rewrite E in *.
  assert (Hin : forall x, x ∈ l ++ rest -> x ∈ l ++ q :: rest) by (intros x; rewrite !elem_of_app, elem_of_cons; tauto).
  constructor; cbn; [|by eapply queue_rest|intros x Hx; apply H3; auto|done|done].
  intros x Hx. rewrite Hc; [auto|]. by eapply queue_split.
Qed.
(** A call that is not in the queue changes stage or ends. *)
Lemma calls_move w c cs : CallsOk w -> (forall p k, sw_calls w !! c <> Some (Stage_Waiting k p)) -> (forall c', c' <> c -> cs !! c' = sw_calls w !! c') ->
  CallsOk (with_calls w (sw_queue w) cs).
Proof.
  intros [H1 H2 H3 H4 H5] Hc Hcs. constructor; cbn; try done. intros q Hq. destruct (H1 q Hq) as [p E]. rewrite Hcs; [by exists p|]. intros <-. by apply Hc in E.
Qed.
Lemma calls_same w w' : CallsOk w -> sw_queue w' = sw_queue w -> sw_calls w' = sw_calls w -> sw_requested w' = sw_requested w ->
  (forall core c bs t, (core, c, Req_Append bs t) ∈ sw_served w' -> (core, c, Req_Append bs t) ∈ sw_served w \/ exists tr, (c, core, bs, tr) ∈ sw_requested w) -> CallsOk w'.
Proof.
  intros [H1 H2 H3 H4 H5] E1 E2 E3 H. constructor; rewrite ?E1, ?E2, ?E3; try done. intros core c bs t [Hin|Hin]%H; [by eapply H5|done].
Qed.
Lemma answers_ok w c r : CallsOk (with_calls w (sw_queue w) (delete c (sw_calls w))) -> CallsOk (answers w c r).
Proof. intros Hok. by apply (calls_same _ _ Hok); cbn; auto. Qed.
Lemma calls_step w w' : append_step w w' -> CallsOk w -> CallsOk w'.
Proof.
  intros Hst Hok. destruct Hst as [c wire bs room Hc|l q rest a now_ms Eq Hl Ea|l q rest Eq|core a c r Ea Hr|c core parent acc Hc|c core parent acc w' Hc Hf|s es Hs].
  - unfold append_request. destruct (append_target _ _ _ _ _) as [core|r] eqn:Et.
    2: { apply answers_ok, (calls_move w c); [done|by rewrite Hc|]. intros c' Hn. by rewrite lookup_delete_ne. }
    destruct (room && _).
    2: { apply answers_ok, (calls_move w c); [done|by rewrite Hc|]. intros c' Hn. by rewrite lookup_delete_ne. }
    destruct Hok as [H1 H2 H3 H4 H5]. constructor; cbn.
    + intros q [Hq| ->%list_elem_of_singleton]%elem_of_app; [|cbn; rewrite lookup_insert_eq; by eexists].
      destruct (H1 q Hq) as [p E]. rewrite lookup_insert_ne; [by exists p|congruence].
    + rewrite map_app. apply NoDup_app. split; [done|]. split; [|by apply NoDup_singleton]. cbn. intros x Hx ->%list_elem_of_singleton.
      apply list_elem_of_fmap in Hx as (q & E & Hq). destruct (H1 q Hq) as [p E']. rewrite <- E in E'. congruence.
    + intros q [Hq| ->%list_elem_of_singleton]%elem_of_app; [destruct (H3 q Hq) as [t Ht]; exists t; apply elem_of_app; by left|].
      eexists. apply elem_of_app. right. cbn. by apply list_elem_of_singleton.
    + intros x [Hx| ->%list_elem_of_singleton]%elem_of_app; [by apply H4|]. cbn. by eapply target_owner.
    + intros k c' b t Hin. destruct (H5 _ _ _ _ Hin) as [tr Ht]. exists tr. apply elem_of_app. by left.
  - unfold engine_serves. destruct (handle_append a (q_bytes q) now_ms) as [[answer a'] live].
    assert (Hq : exists t, (q_client q, q_core q, q_bytes q, t) ∈ sw_requested w) by (apply (co_queued _ Hok); rewrite Eq; set_solver).
    assert (Hgo : forall cs, (forall c, c <> q_client q -> cs !! c = sw_calls w !! c) ->
              CallsOk (with_calls (with_turn (with_calls w (l ++ rest) (sw_calls w)) (q_core q) (q_client q) (Req_Append (q_bytes q) now_ms) a') (l ++ rest) cs)).
    { intros cs Hcs. eapply calls_same; [exact (calls_drop w l q rest cs Hok Eq Hcs)|done..|]. cbn.
      intros k c b t [Hin|[= -> -> -> ->]%list_elem_of_singleton]%elem_of_app; [by left|by right]. }
    destruct answer as [acc|r].
    + apply Hgo. intros c Hn. cbn. by rewrite lookup_insert_ne.
    + apply answers_ok, Hgo. intros c Hn. cbn. by rewrite lookup_delete_ne.
  - apply answers_ok, (calls_drop w l q rest); [done|done|]. intros c Hn. cbn. by rewrite lookup_delete_ne.
  - apply (calls_same w); [done..|]. cbn. intros k c' b t [Hin|[= -> -> <-]%list_elem_of_singleton]%elem_of_app; [by left|]. by destruct (Hr b t).
  - unfold append_publishes.
    assert (H : CallsOk (with_calls w (sw_queue w) (<[c := Stage_Telling core parent acc]> (sw_calls w)))).
    { apply (calls_move w c); [done|by rewrite Hc|]. intros c' Hn. by rewrite lookup_insert_ne. }
    destruct (ac_evidence acc) as [ev|]; [|exact H]. destruct (publish_stream_evidence _ _ _ _) as [s control]. by apply (calls_same _ _ H); cbn; auto.
  - unfold append_finishes, mbind, option_bind in Hf. destruct (publish_stream_ask _ _ _ _) as [[event s]|]; [|done]. injection Hf as <-.
    assert (H : CallsOk (with_calls w (sw_queue w) (delete c (sw_calls w)))).
    { apply (calls_move w c); [done|by rewrite Hc|]. intros c' Hn. by rewrite lookup_delete_ne. }
    apply answers_ok. by apply (calls_same _ _ H); cbn; auto.
  - by apply (calls_same w); cbn; auto.
Qed.

(** *** One session *)

Lemma session_frame core a0 old w w' :
  SessionOk core a0 old w -> sw_engines w' !! core = sw_engines w !! core ->
  reg_resources (reg (sw_state w')) !! core = reg_resources (reg (sw_state w)) !! core ->
  of_core core (sw_served w') = of_core core (sw_served w) -> of_core core (sw_published w') = of_core core (sw_published w) ->
  (forall c, unpublished w' core c = unpublished w core c) -> SessionOk core a0 old w'.
Proof.
  intros [H1 H2 H3 H4] E1 E2 E3 E4 E5. destruct (same_descriptor _ _ _ E2) as [F1 F2].
  constructor; rewrite ?E1, ?E3, ?E4, ?F1; [done|by apply F2|done|]. intros c. by rewrite E5.
Qed.
Lemma unpublished_insert w w' core c st c' : sw_calls w' = <[c := st]> (sw_calls w) ->
  (unpublished w core c = match st with Stage_Accepted k _ acc => if bool_decide (k = core) then option_list (ac_evidence acc) else [] | _ => [] end) ->
  unpublished w' core c' = unpublished w core c'.
Proof.
  intros E H. unfold unpublished at 1. rewrite E. destruct (decide (c = c')) as [<-|Hn]; [by rewrite lookup_insert_eq|by rewrite lookup_insert_ne].
Qed.
Lemma unpublished_delete w w' core c c' : sw_calls w' = delete c (sw_calls w) -> unpublished w core c = [] -> unpublished w' core c' = unpublished w core c'.
Proof.
  intros E H. unfold unpublished at 1. rewrite E. destruct (decide (c = c')) as [<-|Hn]; [by rewrite lookup_delete_eq|by rewrite lookup_delete_ne].
Qed.
Lemma session_answers core a0 old w c r : SessionOk core a0 old w -> unpublished w core c = [] -> SessionOk core a0 old (answers w c r).
Proof. intros Hs Hu. apply (session_frame _ _ _ w); try done. intros c'. by eapply unpublished_delete. Qed.

(** The engine serves a request of [c], whose call takes the answer's evidence up. *)
Lemma session_serves core a0 old w w' c r a :
  SessionOk core a0 old w -> sw_engines w !! core = Some a -> sw_engines w' !! core = Some (session_turn a r).1.2 ->
  reg_resources (reg (sw_state w')) !! core = reg_resources (reg (sw_state w)) !! core ->
  sw_served w' = sw_served w ++ [(core, c, r)] -> sw_published w' = sw_published w ->
  (forall c', unpublished w' core c' = unpublished w core c' ++ (if bool_decide (c = c') then turn_evidence a r else [])) -> SessionOk core a0 old w'.
Proof.
  intros [H1 H2 H3 H4] Ea E1 E2 E3 E4 E5. destruct (same_descriptor _ _ _ E2) as [F1 F2]. rewrite Ea in H1. injection H1 as ->.
  assert (Es : of_core core (sw_served w') = of_core core (sw_served w) ++ [(c, r)]) by (rewrite E3, of_core_snoc; cbn; by rewrite bool_decide_true).
  constructor; rewrite ?E4, ?F1; [|by apply F2|done|].
  - rewrite Es, fmap_app, session_run_app, E1. f_equal. cbn. by destruct (session_turn _ r) as [[reply a'] out].
  - intros c'. rewrite Es, evidence_log_snoc, of_client_app, H4, E5, <- app_assoc. do 2 f_equal.
    apply of_client_pair.
Qed.
Lemma turn_append a bs now_ms :
  turn_evidence a (Req_Append bs now_ms) = match (handle_append a bs now_ms).1.1 with Ok acc => option_list (ac_evidence acc) | Err _ => [] end
  /\ (session_turn a (Req_Append bs now_ms)).1.2 = (handle_append a bs now_ms).1.2.
Proof. unfold turn_evidence. cbn. by destruct (handle_append a bs now_ms) as [[[acc|] a'] out]. Qed.
Lemma of_core_other {A} core k c (x : A) l : k <> core -> of_core core (l ++ [(k, c, x)]) = of_core core l.
Proof. intros H. rewrite of_core_snoc. cbn. by rewrite bool_decide_false, app_nil_r. Qed.
Lemma waiting_unpublished w core c parent k : sw_calls w !! c = Some (Stage_Waiting k parent) -> unpublished w core c = [].
Proof. unfold unpublished. by intros ->. Qed.
Lemma session_request core a0 old w c wire bs room : sw_calls w !! c = None -> SessionOk core a0 old w ->
  SessionOk core a0 old (append_request debug_id kind_text handle_parent w c wire bs room).
Proof.
  intros Hc Hs. assert (Hu : unpublished w core c = []) by (unfold unpublished; by rewrite Hc). unfold append_request.
  destruct (append_target _ _ _ _ _) as [k|r]; [|by apply session_answers]. destruct (room && _); [|by apply session_answers].
  apply (session_frame _ _ _ w); try done. intros c'. by eapply unpublished_insert.
Qed.
Lemma session_engine_serves core a0 old w rest q a now_ms parent :
  sw_calls w !! q_client q = Some (Stage_Waiting (q_core q) parent) -> sw_engines w !! q_core q = Some a -> SessionOk core a0 old w ->
  SessionOk core a0 old (engine_serves w rest q a now_ms).
Proof.
  intros Hc Ea Hs. pose proof (waiting_unpublished w core _ _ _ Hc) as Hu. destruct (turn_append a (q_bytes q) now_ms) as [Ht Ha].
  unfold engine_serves. destruct (handle_append a (q_bytes q) now_ms) as [[answer a'] live]. cbn [fst snd] in *.
  destruct (decide (q_core q = core)) as [Ek|Hn].
  - rewrite Ek in Ea.
    destruct answer as [acc|r]; (apply (session_serves core a0 old w _ (q_client q) (Req_Append (q_bytes q) now_ms) a); try done; [rewrite Ha; cbn; by rewrite Ek, lookup_insert_eq|by cbn; rewrite Ek|]);
      intros c'; rewrite Ht.
    + unfold unpublished at 1. cbn. case_bool_decide as Hd; [subst c'; rewrite lookup_insert_eq, Hu; by rewrite bool_decide_true|].
      rewrite lookup_insert_ne by done. by rewrite app_nil_r.
    + assert (E : forall b : bool, (if b then [] else []) = ([] : list StreamEvidence)) by (by intros []). rewrite E, app_nil_r. by eapply unpublished_delete.
  - assert (Hf : forall w', sw_engines w' = <[q_core q := a']> (sw_engines w) -> sw_state w' = sw_state w ->
              sw_served w' = sw_served w ++ [(q_core q, q_client q, Req_Append (q_bytes q) now_ms)] -> sw_published w' = sw_published w ->
              (forall c', unpublished w' core c' = unpublished w core c') -> SessionOk core a0 old w').
    { intros w' E1 E2 E3 E4 E5. apply (session_frame _ _ _ w); rewrite ?E1, ?E2, ?E3, ?E4; try done; [by rewrite lookup_insert_ne|by rewrite of_core_other]. }
    destruct answer as [acc|r]; apply Hf; try done; intros c'; [eapply unpublished_insert; [done|rewrite Hu; by rewrite bool_decide_false]|by eapply unpublished_delete].
Qed.
Lemma session_publishes core a0 old w c k parent acc :
  sw_calls w !! c = Some (Stage_Accepted k parent acc) -> SessionOk core a0 old w -> SessionOk core a0 old (append_publishes w c k parent acc).
Proof.
  intros Hc Hs. unfold append_publishes. set (cs := <[c := Stage_Telling k parent acc]> (sw_calls w)).
  assert (Hu : unpublished w core c = if bool_decide (k = core) then option_list (ac_evidence acc) else []) by (unfold unpublished; by rewrite Hc).
  assert (Hmove : unpublished w core c = [] -> forall w', sw_calls w' = cs -> forall c', unpublished w' core c' = unpublished w core c').
  { intros Hu' w' E c'. by eapply unpublished_insert. }
  destruct (ac_evidence acc) as [ev|]; [|apply (session_frame _ _ _ w); try done; apply Hmove; [by rewrite Hu; case_bool_decide|done]].
  destruct Hs as [H1 H2 H3 H4]. destruct (decide (k = core)) as [->|Hn].
  - destruct (publish_evidence_facet (sw_state w) core parent ev H2) as (F1 & F2 & _). cbn [with_calls sw_state].
    destruct (publish_stream_evidence _ _ _ _) as [s control]. cbn [fst] in *. rewrite bool_decide_true in Hu by done.
    assert (Ep : of_core core (sw_published w ++ [(core, c, ev)]) = of_core core (sw_published w) ++ [(c, ev)]) by (rewrite of_core_snoc; cbn; by rewrite bool_decide_true).
    constructor; cbn -[of_core of_client evidence_log]; [done|done|rewrite Ep, fmap_app, last_app; cbn; by rewrite F1; destruct ev|].
    intros c'. rewrite H4, Ep, of_client_app, <- app_assoc. f_equal. unfold unpublished at 2. cbn -[lookup]. unfold cs.
    case_bool_decide as Hd; [subst c'; by rewrite lookup_insert_eq, Hu|by rewrite lookup_insert_ne].
  - cbn [with_calls sw_state]. unfold publish_stream_evidence. rewrite bool_decide_false in Hu by done.
    apply (session_frame _ _ _ w); cbn -[of_core]; try done; [by rewrite lookup_alter_ne|by rewrite of_core_other|by apply Hmove].
Qed.
Lemma session_step core a0 old w w' : append_step w w' -> is_Some (sw_engines w' !! core) -> CallsOk w -> SessionOk core a0 old w -> SessionOk core a0 old w'.
Proof.
  intros Hst Hk Hok Hs. destruct Hst as [c wire bs room Hc|l q rest a now_ms Eq Hl Ea|l q rest Eq|k a c r Ea Hr|c k parent acc Hc|c k parent acc w' Hc Hf|s es Ho].
  - by apply session_request.
  - destruct (co_waiting _ Hok q) as [parent Hc]; [rewrite Eq; set_solver|]. by eapply session_engine_serves.
  - destruct (co_waiting _ Hok q) as [parent Hc]; [rewrite Eq; set_solver|]. apply session_answers; [|exact (waiting_unpublished w core _ _ _ Hc)].
    by apply (session_frame _ _ _ w).
  - destruct (decide (k = core)) as [->|Hn].
    + eapply session_serves; [exact Hs|exact Ea|by cbn; rewrite lookup_insert_eq|done..|]. intros c'. cbn.
      assert (Et : turn_evidence a r = []) by (destruct r as [b t| |]; [by destruct (Hr b t)|done..]). rewrite Et.
      assert (E : forall b : bool, (if b then [] else []) = ([] : list StreamEvidence)) by (by intros []). by rewrite E, app_nil_r.
    + apply (session_frame _ _ _ w); cbn -[of_core]; try done; [by rewrite lookup_insert_ne|by rewrite of_core_other].
  - by apply session_publishes.
  - unfold append_finishes, mbind, option_bind in Hf. destruct (publish_stream_ask _ _ _ _) as [[event s]|] eqn:Ep; [|done]. injection Hf as <-.
    apply session_answers; [|unfold unpublished; cbn; by rewrite Hc]. apply (session_frame _ _ _ w); try done. cbn. by rewrite (publish_ask_registry _ _ _ _ _ _ Ep).
  - cbn in Hk. destruct Hk as [a' Ha']. destruct (Ho core _ a' (so_engine _ _ _ _ Hs) Ha') as [-> Hr].
    apply (session_frame _ _ _ w); try done. cbn. by rewrite Ha', (so_engine _ _ _ _ Hs).
Qed.

(** A world before any call. *)
Definition idle (w : SessionWorld) : Prop :=
  sw_queue w = [] /\ sw_calls w = ∅ /\ sw_requested w = [] /\ sw_served w = [] /\ sw_published w = [].
Lemma idle_ok w core a : idle w -> is_session (sw_state w) core -> sw_engines w !! core = Some a ->
  CallsOk w /\ SessionOk core a (facet_state (reg (sw_state w)) core) w.
Proof.
  intros (E1 & E2 & E3 & E4 & E5) Hs Ha. split; constructor; rewrite ?E1, ?E3, ?E4, ?E5; try done; try (intros * H; by apply not_elem_of_nil in H); [by constructor|].
  intros c. unfold unpublished. by rewrite E2, lookup_empty.
Qed.
(** Steps between states in which the session is open. *)
Definition open_step (core : key) (w w' : SessionWorld) : Prop := append_step w w' /\ is_Some (sw_engines w' !! core).
Lemma steps_ok w w' core a old : rtc (open_step core) w w' -> CallsOk w -> SessionOk core a old w -> CallsOk w' /\ SessionOk core a old w'.
Proof. induction 1 as [|w w1 w2 [Hst Ho] _ IH]; intros H1 H2; [done|]. apply IH; [by eapply calls_step|by eapply session_step]. Qed.
Lemma all_of_client {A} c (l : list (ClientId * A)) : (forall c', c' <> c -> of_client c' l = []) -> forall x, x ∈ l -> x.1 = c.
Proof.
  intros H x Hx. destruct (decide (x.1 = c)) as [|Hn]; [done|]. specialize (H x.1 Hn).
  assert (Hin : x.2 ∈ of_client x.1 l) by (apply list_elem_of_omap; exists x; split; [done|by rewrite bool_decide_true]). rewrite H in Hin. by apply not_elem_of_nil in Hin.
Qed.
End Inventory.

(** ** Small runs *)

(** The demo server's agent session, with two clients of this machine and one that came over the network. *)
Definition producing : ServerState :=
  up_clients demo_server
    (set_peer_identity (set_peer_identity (set_peer_identity (clients demo_server) 7 (mkPeer 1000 None None None Transport_UnixSocket None)) 8
       (mkPeer 1000 None None None Transport_Quic None)) 9 (mkPeer 1000 None None None Transport_UnixSocket None)).
Definition demo_world : SessionWorld := mkSessions producing {[2%positive := session_build 65536]} [] ∅ [] [] [] [] [].
Inductive AppendMove : Type := Mv_Request (c : ClientId) (bs : bytes) | Mv_Serve (now_ms : Z) | Mv_Publish (c : ClientId) | Mv_Finish (c : ClientId).
Definition nowhere (_ : ResourceId) : bytes := [].
Definition no_text (_ : WrongResourceKind) : bytes := [].
Definition under_first (_ : key) : option key := Some 1%positive.
Definition append_move (w : SessionWorld) (m : AppendMove) : option SessionWorld :=
  match m with
  | Mv_Request c bs =>
      match sw_calls w !! c with None => Some (append_request nowhere no_text under_first w c (ResourceId_Local 2) bs true) | Some _ => None end
  | Mv_Serve now_ms =>
      match sw_queue w with
      | q :: rest => a ← sw_engines w !! q_core q; Some (engine_serves w rest q a now_ms)
      | [] => None
      end
  | Mv_Publish c => match sw_calls w !! c with Some (Stage_Accepted core parent acc) => Some (append_publishes w c core parent acc) | _ => None end
  | Mv_Finish c => match sw_calls w !! c with Some (Stage_Telling core parent acc) => append_finishes w c parent acc | _ => None end
  end.
Fixpoint append_moves (w : SessionWorld) (ms : list AppendMove) : option SessionWorld :=
  match ms with [] => Some w | m :: ms => w ← append_move w m; append_moves w ms end.
Lemma append_move_step w m w' : append_move w m = Some w' -> append_step nowhere no_text under_first w w'.
Proof.
  destruct m as [c bs|now_ms|c|c]; cbn [append_move].
  - destruct (sw_calls w !! c) eqn:E; [done|]. intros [= <-]. by apply ap_request.
  - destruct (sw_queue w) as [|q rest] eqn:E; [done|]. destruct (sw_engines w !! q_core q) as [a|] eqn:Ea; cbn; [|done]. intros [= <-].
    apply (ap_serve _ _ _ _ [] q rest a now_ms); [done| |done]. intros x H. by apply not_elem_of_nil in H.
  - destruct (sw_calls w !! c) as [[]|] eqn:E; try done. intros [= <-]. by apply ap_publish.
  - destruct (sw_calls w !! c) as [[]|] eqn:E; try done. intros H. by eapply ap_finish.
Qed.
Lemma append_move_keeps core w m w' : append_move w m = Some w' -> is_Some (sw_engines w !! core) -> is_Some (sw_engines w' !! core).
Proof.
  intros H Hc. destruct m as [c bs|now_ms|c|c]; cbn [append_move] in H.
  - unfold append_request in H. repeat case_match; by simplify_eq.
  - destruct (sw_queue w) as [|q rest]; [done|]. destruct (sw_engines w !! q_core q) as [a|]; cbn in H; [|done]. injection H as <-.
    unfold engine_serves. destruct (handle_append a (q_bytes q) now_ms) as [[[acc|r] a'] out]; cbn; apply lookup_insert_is_Some'; by right.
  - destruct (sw_calls w !! c) as [[]|]; try done. injection H as <-. unfold append_publishes. destruct (ac_evidence acc); [|done].
    by destruct (publish_stream_evidence _ _ _ _).
  - destruct (sw_calls w !! c) as [[]|]; try done. unfold append_finishes, mbind, option_bind in H. destruct (publish_stream_ask _ _ _ _) as [[]|]; [|done]. by injection H as <-.
Qed.
Lemma append_moves_run core ms : forall w w', append_moves w ms = Some w' -> is_Some (sw_engines w !! core) -> rtc (open_step nowhere no_text under_first core) w w'.
Proof.
  induction ms as [|m ms IH]; intros w w'; cbn [append_moves]; [by intros [= <-]|]. destruct (append_move w m) as [w1|] eqn:E; cbn; [|done].
  intros H Hc. pose proof (append_move_keeps core _ _ _ E Hc) as Hc1. eapply rtc_l; [split; [by apply (append_move_step _ m)|exact Hc1]|by apply IH].
Qed.
Definition one_producer : list AppendMove :=
  [Mv_Request 7 (says_type (str "prompt")); Mv_Serve 1; Mv_Request 8 (says_type (str "stop")); Mv_Publish 7; Mv_Finish 7;
   Mv_Request 7 (says_type (str "stop")); Mv_Serve 3; Mv_Publish 7; Mv_Finish 7].
Lemma demo_idle : idle demo_world /\ is_session (sw_state demo_world) 2%positive.
Proof. split; [by repeat split|]. eexists _, _. split; vm_compute; reflexivity. Defined.
(** Nothing orders the handlers of two connections between the engine's answer and the publication: one client's prompt and then
    another's stop are served, the second is published first, and the inventory is left at working for a turn that is over. *)
Theorem publications_overtake :
  exists w, append_moves demo_world
      [Mv_Request 7 (says_type (str "prompt")); Mv_Request 9 (says_type (str "stop")); Mv_Serve 1; Mv_Serve 2; Mv_Publish 9; Mv_Finish 9; Mv_Publish 7; Mv_Finish 7] = Some w
    /\ announced (session_build 65536) (of_core 2%positive (sw_served w)).*2 None = Some Stream_Done
    /\ facet_state (reg (sw_state w)) 2%positive = Some (str "working") /\ sw_calls w = ∅.
Proof. eexists. split; [vm_compute; reflexivity|]. split_and!; vm_compute; reflexivity. Qed.
(** A question whose append was answered while the parent closed is entered for the parent all the same: it is given a new wire
    id, which nothing retires, and the question waits in the ledger of a pane that is gone. *)
Theorem question_for_a_closed_parent :
  let s := or_stuck (reap_and_notify take_all demo_server 1%positive) demo_server in
  reg_resources (reg s) !! 1%positive = None /\ terminal_wire (idspace s) 1%positive = None /\
  match publish_stream_ask s (Some 1%positive) (Some (mkStreamAsk (str "q1") (str "merge?") [])) None with
  | Some (event, s') => is_Some event /\ is_Some (terminal_wire (idspace s') 1%positive) /\ (retract (asked s') 1%positive Asked_Stream).2 <> asked s'
  | None => False
  end.
Proof. vm_compute. split_and!; [reflexivity|reflexivity|by eexists|by eexists|discriminate]. Qed.
